(* ===== verification/_CoqProject ===== *)
-Q . S2P
Prelude.v
Ies.v
Elems.v
Rsn.v
Attrs.v
Arc4.v
Michael.v
Tkip.v
Reorder.v
Recv.v
Indicate.v
Forward.v
Amsdu.v
Rf.v
Aes.v
Modes.v
Cmac.v
Ccm.v
Gcm.v
Ccmp.v
Bip.v
Mfp.v
Acl.v
Cam.v
Macid.v
Sta.v
Tim.v
Ps.v
PsRun.v
Validate.v
Attrib.v
Xmit.v
Frag.v
Path.v
Table.v
Auth.v
Assoc.v
Admit.v
Total.v
Accept.v
Bss.v
Protect.v
