(* ===== verification/Prelude.v ===== *)
(** * Verification of the rtl8821cu Linux driver

    The repository is Realtek's out-of-tree Linux driver for the RTL8811CU and
    RTL8821CU USB wireless adapters.  Its chip independent core ([core/]) parses
    what arrives over the air, protects and unprotects frames in software,
    reorders, reassembles and deaggregates received data, builds the frames to be
    sent, runs an access point (authentication, association, power save, beacon),
    and knows the channels; the rest is hardware access ([hal/]) and glue to the Linux kernel
    ([os_dep/]).  This library models the part of the core that works on bytes
    from the air, where a mistake is a memory error, an endless loop in the
    kernel or a security hole, and proves what makes it correct.

    ** How C is modelled

    - A fixed-width integer is a [Z]; every conversion and every operation whose
      result can leave the width is written out with [u8], [u16], [u32], [u64]
      or [s32].
    - A memory object is the [list Z] of its bytes, a pointer into it an offset.
      Reads and writes go through [rd], [wr], [slice], [splice], [memmove],
      [memset]; leaving the object is the outcome [Oob] of the [res] monad, so
      that "no out-of-bounds access" is "the result is [Ret]".
    - A loop that is not structural takes fuel; running out is the outcome
      [NoFuel].  Fuel is the number of bytes to scan plus one (each iteration
      consumes at least one byte), so every theorem that states a [Ret] result is
      a termination theorem too; where the C loop can fail to advance, a theorem
      shows [NoFuel] for every amount of fuel.
    - [NULL] is [None]; an out parameter is part of the result.
    - Locks are not modelled: a function that runs under one lock is one step.
    - The configuration is the default build of the repository (USB, AP mode,
      P2P, Wi-Fi Display, 802.11n and ac, no mesh, no TDLS, no WAPI, no WDS,
      little endian).  Logging and debug counters are left out.

    ** Files

    - [Prelude]: integers, the [res] monad, objects, byte order, [at_off] (what
      an object holds at an offset), tactics, hint database [rtw].
    - [Ies] ([core/rtw_ieee80211.c]): building, finding and removing information
      elements ([rtw_set_ie], [rtw_get_ie], [rtw_get_ie_ex],
      [rtw_ies_remove_ie]).  Specification: a list of (id, body) pairs and its
      serialisation [enc_ies].  Finding a serialised element refines finding it
      in the list; the one byte [rtw_get_ie] can read past its limit is proved.
    - [Elems] (same source): [rtw_ieee802_11_parse_elems] with the vendor
      elements: complete behaviour on every input.
    - [Rsn] (same source): WPA and RSN elements ([rtw_get_wpa_ie],
      [rtw_parse_wpa_ie], [rtw_rsne_info_parse], [rtw_parse_wpa2_ie],
      [rtw_get_sec_ie]): memory safety on arbitrary bytes, and left inverse of an
      encoder.
    - [Attrs] (same source): WPS, P2P, OWE and Wi-Fi Display elements and their
      attributes.  The P2P and WFD code is the same up to byte order, so it is
      proved once against the class [AttrFmt] with two instances.  The 16-bit
      lengths wrap, which makes two searches loop for ever.
    - [Arc4] ([core/rtw_security.c]): modules [Arc4] (RC4), [Crc32] (table driven
      CRC against the bit-serial one), [Wep] (frame encapsulation).
    - [Michael], [Tkip] (same source): the message integrity code against
      Michael on words; the two phase key mixing, shown injective; TKIP
      encapsulation, decapsulation and countermeasures.
    - [Reorder] ([core/rtw_recv.c]): the block-ack reordering buffer with 12-bit
      sequence numbers refines an abstract machine on unbounded positions
      (relation [rel]); order over whole runs; the timer.
    - [Recv] (same source): [Decache], duplicate and replay detection; [Defrag],
      defragmentation and the TKIP MIC check.
    - [Indicate] (same source, [core/rtw_sta_mgt.c], [core/rtw_wlan_util.c]): the look
      at a packet before the network stack gets it (EAPOL, session tracking).
    - [Forward] ([core/rtw_ap.c], [os_dep/linux/os_intfs.c]): whether an access point
      indicates or forwards an MSDU, and the transmit frames it takes for that.  The
      class [MsduCheck] is what deaggregation relies on; the decisions of an access
      point and of a station are its instances ([msdu_check_ok]).
    - [Amsdu] ([core/rtw_recv.c]): A-MSDU deaggregation, conversion to Ethernet frames,
      port control, [recv_process_mpdu].  Both ways to the network stack are
      related to one specification ([eth_frame], [deliver1]).
    - [Rf] ([core/rtw_rf.c]): channel tables, centre channels, frequencies.
    - [Aes] ([core/crypto/aes-internal.c], [aes-internal-enc.c], [aes_i.h]): the
      table driven AES encryption equals FIPS 197 (module [Fips]).  The class
      [BlockCipher] states what a mode of operation relies on; the modes are
      proved against it and [Aes.aes_cipher] is its instance.
    - [Modes] (shared lemmas), [Cmac] ([aes-omac1.c]), [Ccm] ([aes-ccm.c]), [Gcm]
      ([aes-gcm.c]): the modes against SP 800-38B, RFC 3610 and SP 800-38D.
    - [Ccmp] ([core/crypto/ccmp.c], [gcmp.c], [core/rtw_swcrypto.c],
      [core/rtw_security.c]): CCMP and GCMP frames.
    - [Bip] ([core/rtw_swcrypto.c], [core/rtw_security.c]): integrity of group
      addressed management frames.
    - [Mfp] ([core/rtw_recv.c], [core/rtw_xmit.c]): [decryptor], the policy
      [validate_mgmt_protect], and the protection of frames to be sent
      [rtw_mgmt_xmitframe_coalesce]; it composes all ciphers.
    - [Acl] ([core/rtw_ap.c], [core/rtw_sta_mgt.c]): MAC address lists of an access
      point, refining sets of addresses over every sequence of operations.
    - [Cam] ([core/rtw_wlan_util.c], [core/rtw_mlme_ext.c]): the key cache of the
      security engine and the command that installs and removes the keys of a
      station.
    - [Macid] (same sources): the hardware's station identifiers, coupled to the
      key cache through the group key of an access point, and the group key
      command.
    - [Sta] ([core/rtw_sta_mgt.c]): the station table (pool, free queue, hash
      chains, association ids), refining a finite map from addresses to stations;
      it composes with [Macid].
    - [Tim] ([core/rtw_ap.c], [core/rtw_wlan_util.c]): bitmaps of association ids,
      the traffic indication map and the other elements of a beacon.
    - [Ps], [PsRun] ([core/rtw_xmit.c], [core/rtw_recv.c], [core/rtw_ap.c],
      [core/rtw_mlme_ext.c], [hal/rtl8821c/usb/rtl8821cu_xmit.c]): the transmit
      queues of an access point and the frames it keeps for sleeping stations;
      [PsRun] has the invariant and the theorems over sequences of events.
    - [Validate] ([core/rtw_recv.c], [core/rtw_ap.c]): [validate_recv_frame], what
      a received frame must be to go on, in every role; it composes with [Recv]
      and [Ps].
    - [Attrib] ([core/rtw_xmit.c], [core/rtw_wlan_util.c],
      [os_dep/linux/xmit_linux.c]): the attributes of a packet to be sent
      ([update_attrib]): addresses, priority, cipher, packet number.
    - [Xmit] ([core/rtw_xmit.c]): the header, the sequence number, the fragments,
      the MIC and the encryption of a data frame ([rtw_xmitframe_coalesce]);
      [Frag] has the fragments and the transfers [rtw_dump_xframe]
      ([hal/rtl8821c/usb/rtl8821cu_xmit.c]) makes of them.
    - [Path]: [recv_func_posthandle], and both directions together, from the packet a
      station sends to the packet an access point delivers.
    - [Table]: what the handlers of an access point rely on of the station table, as
      the class [StaTable]; the code of [Sta] is its instance.
    - [Auth], [Assoc] ([core/rtw_mlme_ext.c], [core/rtw_ap.c], [core/rtw_mlme.c],
      [core/rtw_wlan_util.c], [core/rtw_ieee80211.c]): [OnAuth], [OnAssocReq],
      [OnDeAuth], [OnDisassoc] at an access point, against [StaTable] and composed
      with [Acl], [Elems], [Rsn], [Attrs] and [Arc4].  [Admit] has their runs, in which
      the report of a station that left is served later than the frame that caused it,
      and their invariant, [Total] that they serve every such run in which a station
      does not associate again ahead of its report, [Accept] what an accepted
      request has agreed on and the runs in which they lose track of a station.
    - [Bss] ([core/rtw_ap.c], [core/rtw_wlan_util.c]): the numbers of stations that
      lack a capability, the HT operation mode and the elements of the beacon that
      follow from them; [Protect] has the theorems over sequences of events.

    A received frame passes [Validate.validate_recv_frame], then as in
    [recv_func_posthandle] the decryption ([Arc4], [Tkip], [Ccmp];
    [Mfp.decryptor]), [Defrag.recvframe_chk_defrag], [Amsdu.portctrl],
    [Reorder.recv_indicatepkt_reorder] and [Amsdu.recv_process_mpdu], composed as
    [Path.recv_func_posthandle]; management frames take
    [Mfp.validate_mgmt_protect].  A packet to be sent passes
    [Attrib.update_attrib], [Xmit.rtw_xmitframe_coalesce] and the queues of [Ps].

    ** What the theorems show

    - The data path: a packet a station sends is delivered by the access point
      octet by octet, or forwarded, as its rules decide ([Path], [Forward]), packet numbers are never used twice and nothing but
      EAPOL leaves unprotected ([Attrib]), fragments carry the packet ([Frag]).
    - Reception: which unprotected frames are accepted, that no frame is accepted
      twice in a row, that every frame that is long enough is handled without
      leaving it ([Validate]); conservation of frames (nothing lost, duplicated or
      freed twice) in reordering and defragmentation, in-order delivery.
    - Power save: over sequences of events in which a PS-Poll takes no frame of a delivery
      enabled category, each frame is sent once or still queued, and every station with
      data frames waiting is announced ([PsRun]);
      sleeping and waking up is a round trip; the map in the beacon is the set of
      announced stations ([Tim]).
    - Admission: over the runs of [Total] the access list admits every station
      of the table, no two stations have one association id, and the list of the
      associated stations holds stations with an id and that state; an accepted request is one for this
      network with ciphers it uses ([Accept]); the beacon asks for the protection the
      associated stations need ([Protect]).
    - Parsers: refinement against lists of elements and attributes, memory safety
      and termination on hostile input, round trips of every encoder/decoder pair.
    - Cryptography: the optimised CRC, Michael, RC4, AES, CMAC, CCM and GCM code
      equals reference definitions; TKIP keys are unique; the CCMP, GCMP and BIP
      verifiers are exact (a frame is accepted exactly when it is the one the
      standard defines); replay protection over whole runs; two drivers which
      share keys understand each other's protected management frames.
    - Tables: the station table, the access lists and the key cache refine maps
      and sets; the channel tables agree with the channel arithmetic.

    Where the code is flawed the theorem or an example states what it does: the
    byte [rtw_get_ie] reads past its limit, the attribute lengths whose wrap-around
    makes a search endless, the MIC check that does not test the length of the
    frame, the merged P2P length kept in a byte, the reordering timer that rearms
    itself with nothing to wait for, the frame that leaves in the clear when the
    cipher runs out of memory, the rejected management frame that is used after it
    was freed, the 256-bit key written over the slot of another station or past
    the key cache, the group key written outside the cache when no station
    identifier was left, the slot of another station freed with the broadcast
    station, the removal of keys for the zero address that never ends, the
    management frames a PS-Poll hides, the unicast replay check without effect,
    the fragments that all have number 0 and, when encrypted in software, leave in
    the clear, and with a cipher of the hardware are cut off at their end, the short
    EAPOL packet that is read beyond its buffer, the associated station an unprotected authentication frame removes, the
    station that associates again with more capabilities and is still counted with the
    old ones.

    ** Fuel

    Beside the parsers: the loop that removes keys gets one round per slot of the
    key cache plus one, since every round empties a slot that the search no longer
    finds; the loop over the fragments of a packet gets one round per octet plus
    one; the loops over slots, macids, chains, queues and association ids are
    structural.

    ** Parameters

    Allocators ([os_malloc], [rtw_zmalloc]) are parameters; what is assumed of
    them is that they return [NULL] or a buffer of the requested size ([mallocs],
    [zmallocs]), and the instances [zalloc] and [zeroed] meet it.  Where a function
    reads a local array it may not have written, the array is an argument
    ([Attrib.stack]).

    What can be read behind a received frame, and behind a packet built from a subframe,
    is an argument ([Amsdu.rx_env]); the theorems on delivery assume 99 octets there
    ([Amsdu.env_ok], the longest look at an EAPOL packet), and [Indicate] shows the read
    that leaves the buffer otherwise.  The number of free transmit frames is an argument
    of the forwarding decision, since sending goes on at the same time.

    The handlers of [Auth] and [Assoc] compare and copy without testing the length of
    the frame; their theorems assume 300 readable octets behind it ([Total.frame_ok]),
    one element and the longest text they compare with.

    ** Not modelled

    - [hal/], the enqueueing and the transfers of frames apart (register access,
      firmware download, the phydm and halmac libraries):
      what it does is defined by the device, and the sources state no contract.
    - [os_dep/] (kernel glue), [rtw_os_alloc_msdu_pkt], [rtw_os_recv_select_queue],
      [rtw_handle_tkip_mic_err] and the packet reader apart: interfacing with the kernel.
    - The command queue and the threads of [core/rtw_cmd.c], the timers, the power
      save of a station ([core/rtw_pwrctrl.c]), scanning, joining and roaming of a
      station ([core/rtw_mlme.c], the rest of [core/rtw_mlme_ext.c]): they are driven
      by firmware answers, timers and user space.
    - Channel plans, transmit power limits and rate tables: data without operations
      on untrusted input.
    - Mesh, TDLS, WAPI, SIV: off in the default build; radio measurement, BT
      coexistence, the manufacturing test mode, efuse and debug output: beside the
      data path.
    - Locks and interleavings inside a function. *)
From Stdlib Require Export ZArith Lia Btauto.
From stdpp Require Export base tactics numbers option list.

#[global] Open Scope Z_scope.

(** ** Machine integers

    A C unsigned integer of width [w] is a [Z] in [[0, 2^w)]; every
    conversion the C code performs is written out as a [wrap]. *)

Definition wrap (w z : Z) : Z := z `mod` 2 ^ w.

Abbreviation u8 := (wrap 8).
Abbreviation u16 := (wrap 16).
Abbreviation u32 := (wrap 32).
Abbreviation u64 := (wrap 64).

(** Conversion to the 32-bit two's complement [sint]/[int]. *)
Definition s32 (z : Z) : Z := (z + 2 ^ 31) `mod` 2 ^ 32 - 2 ^ 31.

Definition fits (w z : Z) : Prop := 0 <= z < 2 ^ w.

#[export] Instance fits_dec w z : Decision (fits w z).
Proof. unfold fits. apply _. Defined.

Abbreviation is_u8 := (fits 8).
Abbreviation is_u16 := (fits 16).
Abbreviation is_u32 := (fits 32).
Abbreviation is_u64 := (fits 64).

(** A byte string: every cell holds a [u8]. *)
Abbreviation bytes_ok := (Forall is_u8).

(** ** Outcomes of C code

    [Oob]: an access outside the object the pointer points into, which is
    undefined behaviour in C.  [NoFuel]: a loop that did not finish within the
    fuel it was given. *)

Inductive res (A : Type) : Type :=
| Ret (a : A)
| Oob
| NoFuel.
Arguments Ret {A} a.
Arguments Oob {A}.
Arguments NoFuel {A}.

#[export] Instance res_ret : MRet res := fun _ a => Ret a.
#[export] Instance res_bind : MBind res := fun _ _ f m =>
  match m with
  | Ret a => f a
  | Oob => Oob
  | NoFuel => NoFuel
  end.
#[export] Instance res_fmap : FMap res := fun _ _ f m =>
  match m with
  | Ret a => Ret (f a)
  | Oob => Oob
  | NoFuel => NoFuel
  end.

(** ** Memory objects

    An object is the list of its cells; a pointer into it is an offset. *)

Section Objects.
Context {A : Type}.
Implicit Types b l : list A.

Definition zlen b : Z := Z.of_nat (length b).

Definition rd b (i : Z) : res A :=
  if 0 <=? i then
    match b !! Z.to_nat i with
    | Some x => Ret x
    | None => Oob
    end
  else Oob.

Definition wr b (i : Z) (x : A) : res (list A) :=
  if (0 <=? i) && (i <? zlen b)
  then Ret (<[Z.to_nat i := x]> b)
  else Oob.

(** The [n] cells from offset [i] (source operand of a [memcpy]). *)
Definition slice b (i n : Z) : res (list A) :=
  if (0 <=? i) && (0 <=? n) && (i + n <=? zlen b)
  then Ret (take (Z.to_nat n) (drop (Z.to_nat i) b))
  else Oob.

(** Overwrites the cells from offset [i] with [l] ([memcpy] destination). *)
Definition splice b (i : Z) l : res (list A) :=
  if (0 <=? i) && (i + zlen l <=? zlen b)
  then Ret (take (Z.to_nat i) b ++ l ++ drop (Z.to_nat i + length l) b)
  else Oob.
End Objects.

(** [_rtw_memmove(b + d, b + s, n)] inside one object. *)
Definition memmove (b : list Z) (d s n : Z) : res (list Z) :=
  l ← slice b s n; splice b d l.

(** [_rtw_memset(b + d, v, n)]. *)
Definition memset (b : list Z) (d v n : Z) : res (list Z) :=
  splice b d (replicate (Z.to_nat n) v).

(** [_rtw_memcmp(b + i, pat, |pat|) == _TRUE]. *)
Definition memcmp_at (b : list Z) (i : Z) (pat : list Z) : res bool :=
  l ← slice b i (zlen pat); Ret (bool_decide (l = pat)).

(** ** Byte order *)

Definition get_le16 (b : list Z) (i : Z) : res Z :=
  x0 ← rd b i; x1 ← rd b (i + 1); Ret (u16 (Z.lor (Z.shiftl x1 8) x0)).

Definition get_be16 (b : list Z) (i : Z) : res Z :=
  x0 ← rd b i; x1 ← rd b (i + 1); Ret (u16 (Z.lor (Z.shiftl x0 8) x1)).

Definition get_be24 (b : list Z) (i : Z) : res Z :=
  x0 ← rd b i; x1 ← rd b (i + 1); x2 ← rd b (i + 2);
  Ret (u32 (Z.lor (Z.lor (Z.shiftl x0 16) (Z.shiftl x1 8)) x2)).

Definition le16 (v : Z) : list Z := [Z.land v 0xff; Z.shiftr (u16 v) 8].
Definition be16 (v : Z) : list Z := [Z.shiftr (u16 v) 8; Z.land v 0xff].

(** ** Automation

    [simp_res] unfolds the monad on evaluated reads; [zbits] proves equations
    between bit expressions; the [rtw] hint database resolves range side
    conditions. *)

Create HintDb rtw discriminated.

#[global] Arguments rd : simpl never.
#[global] Arguments wr : simpl never.
#[global] Arguments slice : simpl never.
#[global] Arguments splice : simpl never.
#[global] Arguments zlen : simpl never.
#[global] Arguments wrap : simpl never.
#[global] Arguments memmove : simpl never.
#[global] Arguments memset : simpl never.
#[global] Arguments memcmp_at : simpl never.
#[global] Arguments get_le16 : simpl never.
#[global] Arguments get_be16 : simpl never.
#[global] Arguments get_be24 : simpl never.

(** Closed decidable facts by evaluation. *)
Ltac by_eval := apply (bool_decide_unpack _); vm_compute; exact I.

Ltac simp_res := cbn [mbind res_bind mret res_ret fmap res_fmap fst snd].
Tactic Notation "simp_res" "in" hyp(H) :=
  cbn [mbind res_bind mret res_ret fmap res_fmap fst snd] in H.

(** A bind on a computation whose outcome is known, without asking the kernel to
    evaluate either side. *)
Lemma bind_Ret {A B} (f : A -> res B) (m : res A) a : m = Ret a -> (x ← m; f x) = f a.
Proof. by intros ->. Qed.
Lemma bind_inv {A B} (f : A -> res B) (m : res A) b :
  (x ← m; f x) = Ret b -> exists a, m = Ret a /\ f a = Ret b.
Proof. destruct m as [a| |]; [|done|done]. intros H. by exists a. Qed.

Lemma bind_nofuel {A B} (m : res A) (f : A -> res B) : (x ← m; f x) = NoFuel -> m = NoFuel \/ exists x, m = Ret x /\ f x = NoFuel.
Proof. destruct m as [x| |]; cbn; [right; by exists x|done|by left]. Qed.
Ltac bind_step E := rewrite (bind_Ret _ _ _ E); cbn [fst snd].

Ltac invbool :=
  repeat match goal with
  | H : _ && _ = true |- _ => apply andb_true_iff in H as [? ?]
  | H : _ || _ = false |- _ => apply orb_false_iff in H as [? ?]
  | H : negb _ = true |- _ => apply negb_true_iff in H
  | H : negb _ = false |- _ => apply negb_false_iff in H
  | H : (_ <=? _) = true |- _ => apply Z.leb_le in H
  | H : (_ <=? _) = false |- _ => apply Z.leb_gt in H
  | H : (_ <? _) = true |- _ => apply Z.ltb_lt in H
  | H : (_ <? _) = false |- _ => apply Z.ltb_ge in H
  | H : (_ =? _) = true |- _ => apply Z.eqb_eq in H
  | H : (_ =? _) = false |- _ => apply Z.eqb_neq in H
  | H : bool_decide _ = true |- _ => apply bool_decide_eq_true in H
  | H : bool_decide _ = false |- _ => apply bool_decide_eq_false in H
  end.

(** Decides the boolean comparisons of the goal by [lia]. *)
Ltac zdecide :=
  repeat match goal with
  | |- context [?a <=? ?b] =>
      first [ rewrite (proj2 (Z.leb_le a b)) by lia
            | rewrite (proj2 (Z.leb_gt a b)) by lia ]
  | |- context [?a <? ?b] =>
      first [ rewrite (proj2 (Z.ltb_lt a b)) by lia
            | rewrite (proj2 (Z.ltb_ge a b)) by lia ]
  | |- context [?a =? ?b] =>
      first [ rewrite (proj2 (Z.eqb_eq a b)) by lia
            | rewrite (proj2 (Z.eqb_neq a b)) by lia ]
  end.

(** ** Bits *)

Lemma fits_testbit w z : 0 <= w -> fits w z -> forall i, w <= i -> Z.testbit z i = false.
Proof.
  intros Hw [H0 H1] i Hi.
  rewrite <- (Z.mod_small z (2 ^ w)) by done.
  apply Z.mod_pow2_bits_high; lia.
Qed.

Lemma testbit_fits w z :
  0 <= w -> 0 <= z -> (forall i, w <= i -> Z.testbit z i = false) -> fits w z.
Proof.
  intros Hw Hz H. unfold fits. split; [done|].
  destruct (decide (z < 2 ^ w)) as [|Hge]; [done|exfalso].
  assert (w <= Z.log2 z) as Hl.
  { apply Z.log2_le_pow2; [|lia]. apply Z.lt_le_trans with (2 ^ w); [|lia].
    apply Z.pow_pos_nonneg; lia. }
  specialize (H _ Hl). rewrite Z.bit_log2 in H; [done|].
  apply Z.lt_le_trans with (2 ^ w); [|lia]. apply Z.pow_pos_nonneg; lia.
Qed.

Lemma wrap_fits w z : 0 <= w -> fits w (wrap w z).
Proof. intros. apply Z.mod_pos_bound, Z.pow_pos_nonneg; lia. Qed.

Lemma wrap_small w z : fits w z -> wrap w z = z.
Proof. apply Z.mod_small. Qed.

Lemma wrap_testbit w z i :
  0 <= i -> 0 <= w -> Z.testbit (wrap w z) i = (i <? w) && Z.testbit z i.
Proof.
  intros Hi Hw. unfold wrap. destruct (Z.ltb_spec i w).
  - rewrite Z.mod_pow2_bits_low by lia. done.
  - rewrite Z.mod_pow2_bits_high by lia. done.
Qed.

Lemma lor_fits w a b : 0 <= w -> fits w a -> fits w b -> fits w (Z.lor a b).
Proof.
  intros Hw Ha Hb. apply testbit_fits; [done| |].
  - apply Z.lor_nonneg; unfold fits in *; lia.
  - intros i Hi. by rewrite Z.lor_spec, (fits_testbit w a), (fits_testbit w b).
Qed.

Lemma lxor_fits w a b : 0 <= w -> fits w a -> fits w b -> fits w (Z.lxor a b).
Proof.
  intros Hw Ha Hb. apply testbit_fits; [done| |].
  - apply Z.lxor_nonneg; unfold fits in *; lia.
  - intros i Hi. by rewrite Z.lxor_spec, (fits_testbit w a), (fits_testbit w b).
Qed.

Lemma land_fits_r w a b : 0 <= w -> fits w b -> fits w (Z.land a b).
Proof.
  intros Hw Hb. apply testbit_fits; [done| |].
  - apply Z.land_nonneg; unfold fits in *; lia.
  - intros i Hi. by rewrite Z.land_spec, (fits_testbit w b), andb_false_r.
Qed.

Lemma land_fits_l w a b : 0 <= w -> fits w a -> fits w (Z.land a b).
Proof. intros. rewrite Z.land_comm. by apply land_fits_r. Qed.

Lemma shiftr_fits w a n : 0 <= w -> 0 <= n -> fits w a -> fits w (Z.shiftr a n).
Proof.
  intros Hw Hn [H0 H1]. unfold fits. rewrite Z.shiftr_div_pow2 by done. split.
  - apply Z.div_pos; [done|]. apply Z.pow_pos_nonneg; lia.
  - apply Z.le_lt_trans with a; [|done]. apply Z.div_le_upper_bound.
    + apply Z.pow_pos_nonneg; lia.
    + assert (0 < 2 ^ n) by (apply Z.pow_pos_nonneg; lia). nia.
Qed.

#[export] Hint Resolve wrap_fits lor_fits lxor_fits land_fits_l land_fits_r shiftr_fits : rtw.
#[export] Hint Extern 1 (0 <= _) => lia : rtw.
#[export] Hint Extern 1 (fits _ _) => (unfold fits; lia) : rtw.

(** Equality of bit expressions, bit by bit. *)
Ltac zbits_step :=
  first
  [ rewrite Z.lor_spec | rewrite Z.land_spec | rewrite Z.lxor_spec
  | rewrite Z.ldiff_spec | rewrite Z.lnot_spec by lia
  | rewrite Z.shiftl_spec by lia | rewrite Z.shiftr_spec by lia
  | rewrite wrap_testbit by lia | rewrite Z.bits_0
  | rewrite Z.testbit_ones_nonneg by lia ].
Ltac zbits_norm := repeat zbits_step.
Ltac zbits :=
  apply Z.bits_inj'; let i := fresh "i" in intros i ?Hi; zbits_norm.

(** ** Objects: laws of the accessors *)

Section ObjectLaws.
Context {A : Type}.
Implicit Types b l : list A.

Lemma zlen_nil : zlen (@nil A) = 0.
Proof. done. Qed.
Lemma zlen_cons x b : zlen (x :: b) = 1 + zlen b.
Proof. unfold zlen. simpl. lia. Qed.
Lemma zlen_app b l : zlen (b ++ l) = zlen b + zlen l.
Proof. unfold zlen. rewrite length_app. lia. Qed.
Lemma zlen_nonneg b : 0 <= zlen b.
Proof. unfold zlen. lia. Qed.
Lemma zlen_to_nat b : Z.to_nat (zlen b) = length b.
Proof. unfold zlen. lia. Qed.
Lemma zlen_replicate n (x : A) : zlen (replicate n x) = Z.of_nat n.
Proof. unfold zlen. by rewrite length_replicate. Qed.

Lemma rd_Ret b i x : rd b i = Ret x <-> 0 <= i /\ b !! Z.to_nat i = Some x.
Proof.
  unfold rd. destruct (Z.leb_spec 0 i).
  - destruct (b !! Z.to_nat i); split; [intros [= ->]; done|intros [_ [= ->]]; done|done|].
    by intros [_ ?].
  - split; [done|lia].
Qed.

Lemma rd_in b i : 0 <= i < zlen b -> exists x, rd b i = Ret x /\ x ∈ b.
Proof.
  unfold zlen. intros Hi.
  destruct (lookup_lt_is_Some_2 b (Z.to_nat i)) as [x Hx]; [lia|].
  exists x. split; [apply rd_Ret; split; [lia|done]|]. by apply list_elem_of_lookup_2 in Hx.
Qed.

Lemma rd_out b i : zlen b <= i -> rd b i = Oob.
Proof.
  unfold zlen. intros Hi. unfold rd. zdecide.
  by rewrite lookup_ge_None_2 by lia.
Qed.

Lemma rd_app_l b l i : i < zlen b -> rd (b ++ l) i = rd b i.
Proof.
  unfold zlen. intros Hi. unfold rd. destruct (Z.leb_spec 0 i); [|done].
  by rewrite lookup_app_l by lia.
Qed.

Lemma rd_app_r b l i : zlen b <= i -> rd (b ++ l) i = rd l (i - zlen b).
Proof.
  unfold zlen. intros Hi. unfold rd. zdecide.
  rewrite lookup_app_r by lia. f_equal.
  by replace (Z.to_nat (i - Z.of_nat (length b)))
    with (Z.to_nat i - length b)%nat by lia.
Qed.

Lemma rd_cons_0 x b : rd (x :: b) 0 = Ret x.
Proof. done. Qed.

Lemma rd_cons x b i : 0 < i -> rd (x :: b) i = rd b (i - 1).
Proof.
  intros Hi. unfold rd. zdecide.
  replace (Z.to_nat i) with (S (Z.to_nat (i - 1))) by lia. done.
Qed.

Lemma rd_take b n i : i < n -> rd (take (Z.to_nat n) b) i = rd b i.
Proof.
  intros. unfold rd. destruct (Z.leb_spec 0 i); [|done].
  by rewrite lookup_take_lt by lia.
Qed.

Lemma wr_Ret b i x : 0 <= i < zlen b -> wr b i x = Ret (<[Z.to_nat i := x]> b).
Proof. intros. unfold wr. zdecide. done. Qed.

Lemma wr_mid (a c : list A) x y i : i = zlen a -> wr (a ++ x :: c) i y = Ret (a ++ y :: c).
Proof.
  intros ->. rewrite wr_Ret.
  - rewrite zlen_to_nat, insert_app_r_alt by lia. by rewrite Nat.sub_diag.
  - rewrite zlen_app, zlen_cons. pose proof (zlen_nonneg a). pose proof (zlen_nonneg c). lia.
Qed.

Lemma slice_Ret b i n :
  0 <= i -> 0 <= n -> i + n <= zlen b ->
  slice b i n = Ret (take (Z.to_nat n) (drop (Z.to_nat i) b)).
Proof. intros. unfold slice. zdecide. done. Qed.

Lemma slice_oob b i n : zlen b < i + n -> slice b i n = Oob.
Proof. intros. unfold slice. destruct (Z.leb_spec (i + n) (zlen b)); [lia|]. by rewrite andb_false_r. Qed.

Lemma slice_inv b i n l :
  slice b i n = Ret l ->
  0 <= i /\ 0 <= n /\ i + n <= zlen b /\ zlen l = n /\
  b = take (Z.to_nat i) b ++ l ++ drop (Z.to_nat (i + n)) b.
Proof.
  unfold slice. destruct (_ && _) eqn:E; [|done]. invbool. intros [= <-].
  unfold zlen in *. rewrite length_take, length_drop.
  repeat split; try lia.
  rewrite Z2Nat.inj_add by lia. rewrite <- drop_drop.
  by rewrite take_drop, take_drop.
Qed.

Lemma slice_mid a b c i n :
  i = zlen a -> n = zlen b -> slice (a ++ b ++ c) i n = Ret b.
Proof.
  intros -> ->. rewrite slice_Ret.
  - rewrite !zlen_to_nat, drop_app_length, take_app_length. done.
  - apply zlen_nonneg.
  - apply zlen_nonneg.
  - rewrite !zlen_app. pose proof (zlen_nonneg c). lia.
Qed.

Lemma splice_mid a b l c i :
  i = zlen a -> length b = length l -> splice (a ++ b ++ c) i l = Ret (a ++ l ++ c).
Proof.
  intros -> Hl. unfold splice. pose proof (zlen_nonneg a). pose proof (zlen_nonneg c).
  rewrite !zlen_app. replace (zlen b) with (zlen l) by (unfold zlen; lia).
  zdecide. cbn [andb]. do 2 f_equal.
  - rewrite zlen_to_nat. apply take_app_length.
  - f_equal. rewrite zlen_to_nat, <- Hl, app_assoc, <- length_app.
    apply drop_app_length.
Qed.

Lemma splice_zlen b i l b' : splice b i l = Ret b' -> zlen b' = zlen b.
Proof.
  unfold splice. destruct (_ && _) eqn:E; [|done]. invbool. intros [= <-].
  unfold zlen in *. rewrite !length_app, length_take, length_drop. lia.
Qed.

Lemma wr_zlen b i x b' : wr b i x = Ret b' -> zlen b' = zlen b.
Proof.
  unfold wr. destruct (_ && _); [|done]. intros [= <-].
  unfold zlen. by rewrite length_insert.
Qed.

(** Any object splits around an offset inside it. *)
Lemma split_at b i : 0 <= i <= zlen b -> exists l r, b = l ++ r /\ zlen l = i.
Proof.
  intros Hi. exists (take (Z.to_nat i) b), (drop (Z.to_nat i) b).
  rewrite take_drop. split; [done|]. unfold zlen in *. rewrite length_take. lia.
Qed.
End ObjectLaws.

Create Rewrite HintDb zlen.
#[export] Hint Rewrite @zlen_nil @zlen_cons @zlen_app @zlen_replicate : zlen.

(** Normalises lengths, including in the hypotheses, then [lia]. *)
Ltac zlen_lia :=
  autorewrite with zlen in *;
  repeat match goal with
  | |- context [zlen ?l] =>
      lazymatch goal with H : 0 <= zlen l |- _ => fail | _ => pose proof (zlen_nonneg l) end
  | _ : context [zlen ?l] |- _ =>
      lazymatch goal with H : 0 <= zlen l |- _ => fail | _ => pose proof (zlen_nonneg l) end
  end; lia.

(** Closing a gap: the cells [m] move left over [g], the tail of the old
    contents stays behind. *)
Lemma memmove_left a g m c d s n :
  d = zlen a -> s = zlen a + zlen g -> n = zlen m ->
  memmove (a ++ g ++ m ++ c) d s n = Ret (a ++ m ++ drop (length m) (g ++ m) ++ c).
Proof.
  intros -> -> ->. unfold memmove.
  replace (slice (a ++ g ++ m ++ c) (zlen a + zlen g) (zlen m)) with (Ret m).
  2: { symmetry. rewrite app_assoc. apply slice_mid; [by rewrite zlen_app|done]. }
  simp_res.
  assert (a ++ g ++ m ++ c = a ++ take (length m) (g ++ m) ++ drop (length m) (g ++ m) ++ c) as ->.
  { rewrite (app_assoc (take _ _)), take_drop. by rewrite <- app_assoc. }
  apply splice_mid; [done|]. rewrite length_take, length_app. lia.
Qed.

Lemma rd_bytes b i : bytes_ok b -> 0 <= i < zlen b -> exists x, rd b i = Ret x /\ is_u8 x.
Proof.
  intros Hb Hi. destruct (rd_in b i Hi) as (x & Hx & Hin).
  exists x. split; [done|]. by eapply Forall_forall in Hb; [|exact Hin].
Qed.

Lemma slice_bytes b i n l : bytes_ok b -> slice b i n = Ret l -> bytes_ok l.
Proof. unfold slice. destruct (_ && _); [|done]. intros Hb [= <-]. by apply Forall_take, Forall_drop. Qed.
Lemma splice_bytes b i l b' : bytes_ok b -> bytes_ok l -> splice b i l = Ret b' -> bytes_ok b'.
Proof.
  unfold splice. destruct (_ && _); [|done]. intros Hb Hl [= <-].
  repeat (apply Forall_app; split); [by apply Forall_take|done|by apply Forall_drop].
Qed.

Lemma rd_bytes_inv b i x : bytes_ok b -> rd b i = Ret x -> is_u8 x.
Proof.
  intros Hb [_ H]%rd_Ret. by eapply Forall_lookup in Hb; [|exact H].
Qed.

Lemma rd_Ret_lt {A} (b : list A) i x : rd b i = Ret x -> 0 <= i < zlen b.
Proof. intros [? H]%rd_Ret. apply lookup_lt_Some in H. unfold zlen. lia. Qed.

(** Packing: a shifted high part over a low part that fits below it. *)
Lemma lor_pack hi lo k : 0 <= k -> fits k lo -> Z.lor (Z.shiftl hi k) lo = hi * 2 ^ k + lo.
Proof.
  intros Hk Hlo. rewrite <- Z.shiftl_mul_pow2 by done.
  rewrite <- Z.add_lor_land.
  assert (Z.land (Z.shiftl hi k) lo = 0) as ->; [|lia].
  zbits. destruct (Z.ltb_spec i k).
  - by rewrite (Z.testbit_neg_r hi) by lia.
  - by rewrite (fits_testbit k lo), andb_false_r by done.
Qed.

Lemma get_le16_spec b i x0 x1 :
  rd b i = Ret x0 -> rd b (i + 1) = Ret x1 -> is_u8 x0 -> is_u8 x1 ->
  get_le16 b i = Ret (x1 * 256 + x0).
Proof.
  intros H0 H1 B0 B1. unfold get_le16. rewrite H0. simp_res. rewrite H1. simp_res.
  rewrite lor_pack by done. f_equal. apply wrap_small. unfold fits in *. lia.
Qed.

Lemma get_be16_spec b i x0 x1 :
  rd b i = Ret x0 -> rd b (i + 1) = Ret x1 -> is_u8 x0 -> is_u8 x1 ->
  get_be16 b i = Ret (x0 * 256 + x1).
Proof.
  intros H0 H1 B0 B1. unfold get_be16. rewrite H0. simp_res. rewrite H1. simp_res.
  rewrite lor_pack by done. f_equal. apply wrap_small. unfold fits in *. lia.
Qed.

Lemma get_be24_spec b i x0 x1 x2 :
  rd b i = Ret x0 -> rd b (i + 1) = Ret x1 -> rd b (i + 2) = Ret x2 ->
  is_u8 x0 -> is_u8 x1 -> is_u8 x2 ->
  get_be24 b i = Ret (x0 * 65536 + x1 * 256 + x2).
Proof.
  intros H0 H1 H2 B0 B1 B2. unfold get_be24.
  rewrite H0. simp_res. rewrite H1. simp_res. rewrite H2. simp_res. f_equal.
  rewrite <- Z.lor_assoc, (lor_pack x1) by done.
  rewrite lor_pack by (unfold fits in *; lia).
  rewrite wrap_small by (unfold fits in *; lia). lia.
Qed.

Lemma get_le16_total b i :
  bytes_ok b -> 0 <= i -> i + 2 <= zlen b -> exists v, get_le16 b i = Ret v /\ is_u16 v.
Proof.
  intros Hb Hi Hl.
  destruct (rd_bytes b i) as (x0 & H0 & B0); [done|lia|].
  destruct (rd_bytes b (i + 1)) as (x1 & H1 & B1); [done|lia|].
  exists (x1 * 256 + x0). rewrite (get_le16_spec _ _ x0 x1) by done.
  split; [done|]. unfold fits in *. lia.
Qed.

(** A little-endian [u16] written at [i] reads back. *)
Lemma get_le16_le16 pre v post i :
  i = zlen pre -> is_u16 v -> get_le16 (pre ++ le16 v ++ post) i = Ret v.
Proof.
  intros -> Hv. unfold get_le16, le16.
  rewrite !(rd_app_r pre) by lia.
  replace (zlen pre - zlen pre) with 0 by lia.
  replace (zlen pre + 1 - zlen pre) with 1 by lia.
  cbn [app]. rewrite rd_cons_0. simp_res. rewrite rd_cons by lia. cbn [Z.sub].
  change (1 - 1) with 0. rewrite rd_cons_0. simp_res. f_equal.
  rewrite (wrap_small 16 v) by done. change 255 with (Z.ones 8).
  rewrite Z.land_ones by lia.
  rewrite lor_pack by (lia || (apply Z.mod_pos_bound; lia)).
  rewrite Z.shiftr_div_pow2 by lia. rewrite wrap_small; unfold fits in *.
  - pose proof (Z.div_mod v (2 ^ 8) ltac:(lia)). lia.
  - pose proof (Z.div_mod v (2 ^ 8) ltac:(lia)). lia.
Qed.

Lemma zlen_le16 v : zlen (le16 v) = 2.
Proof. done. Qed.
#[export] Hint Rewrite @zlen_le16 : zlen.

Lemma slice_total {A} (b : list A) i n :
  0 <= i -> 0 <= n -> i + n <= zlen b -> exists l, slice b i n = Ret l /\ zlen l = n.
Proof.
  intros. rewrite slice_Ret by done. eexists; split; [done|].
  unfold zlen in *. rewrite length_take, length_drop. lia.
Qed.

(** ** Contents at an offset

    [at_off b p l]: object [b] holds the cells [l] from offset [p] on. *)

Definition at_off {A} (b : list A) (p : Z) (l : list A) : Prop :=
  exists pre post, b = pre ++ l ++ post /\ p = zlen pre.

Section AtOff.
Context {A : Type}.
Implicit Types b l : list A.

Lemma at_off_intro pre l post p : p = zlen pre -> at_off (pre ++ l ++ post) p l.
Proof. intros ->. by exists pre, post. Qed.

Lemma at_off_app b p l1 l2 :
  at_off b p (l1 ++ l2) -> at_off b p l1 /\ at_off b (p + zlen l1) l2.
Proof.
  intros (pre & post & -> & ->). split.
  - exists pre, (l2 ++ post). by rewrite <- app_assoc.
  - exists (pre ++ l1), post. rewrite zlen_app. by rewrite <- !app_assoc.
Qed.

Lemma at_off_cons b p x l : at_off b p (x :: l) -> rd b p = Ret x /\ at_off b (p + 1) l.
Proof.
  intros (pre & post & -> & ->). split.
  - rewrite rd_app_r by lia. by rewrite Z.sub_diag.
  - exists (pre ++ [x]), post. rewrite zlen_app. by rewrite <- app_assoc.
Qed.

Lemma at_off_slice b p l n : at_off b p l -> n = zlen l -> slice b p n = Ret l.
Proof. intros (pre & post & -> & ->) ->. by apply slice_mid. Qed.

Lemma at_off_bound b p l : at_off b p l -> 0 <= p /\ p + zlen l <= zlen b.
Proof. intros (pre & post & -> & ->). zlen_lia. Qed.

Lemma at_off_of_slice b p n l : slice b p n = Ret l -> at_off b p l.
Proof.
  intros (? & ? & ? & ? & Hb)%slice_inv. eexists _, _. split; [exact Hb|].
  unfold zlen in *. rewrite length_take. lia.
Qed.
End AtOff.

Lemma at_off_le16 b p v l : is_u16 v -> at_off b p (le16 v ++ l) ->
  get_le16 b p = Ret v /\ at_off b (p + 2) l.
Proof.
  intros Hv Hat. pose proof Hat as [H1 H2]%at_off_app. split; [|exact H2].
  destruct H1 as (pre & post & -> & ->). by apply get_le16_le16.
Qed.

Lemma at_off_be16 b p v l : is_u16 v -> at_off b p (be16 v ++ l) ->
  get_be16 b p = Ret v /\ at_off b (p + 2) l.
Proof.
  intros Hv Hat. unfold be16 in Hat. cbn [app] in Hat.
  apply at_off_cons in Hat as [H0 Hat]. apply at_off_cons in Hat as [H1 Hat].
  replace (p + 1 + 1) with (p + 2) in Hat by lia. split; [|done].
  rewrite wrap_small in H0 by done. rewrite Z.shiftr_div_pow2 in H0 by lia.
  change 255 with (Z.ones 8) in H1. rewrite Z.land_ones in H1 by lia.
  pose proof (Z.div_mod v (2 ^ 8) ltac:(lia)). pose proof (Z.mod_pos_bound v (2 ^ 8) ltac:(lia)).
  unfold fits in Hv.
  rewrite (get_be16_spec _ _ _ _ H0 H1) by (unfold fits; lia). f_equal. lia.
Qed.

Lemma get_be16_total b i :
  bytes_ok b -> 0 <= i -> i + 2 <= zlen b -> exists v, get_be16 b i = Ret v /\ is_u16 v.
Proof.
  intros Hb Hi Hl.
  destruct (rd_bytes b i) as (x0 & H0 & B0); [done|lia|].
  destruct (rd_bytes b (i + 1)) as (x1 & H1 & B1); [done|lia|].
  exists (x0 * 256 + x1). rewrite (get_be16_spec _ _ x0 x1) by done.
  split; [done|]. unfold fits in *. lia.
Qed.

Lemma at_off_memcmp b p l pat :
  at_off b p l -> zlen l = zlen pat -> memcmp_at b p pat = Ret (bool_decide (l = pat)).
Proof.
  intros Hat Hl. unfold memcmp_at. rewrite (at_off_slice _ _ l) by done. done.
Qed.

Lemma memcmp_at_total b p pat :
  0 <= p -> p + zlen pat <= zlen b -> exists m, memcmp_at b p pat = Ret m.
Proof.
  intros. destruct (slice_total b p (zlen pat)) as (l & Hl & _); [done|apply zlen_nonneg|done|].
  unfold memcmp_at. rewrite Hl. by eexists.
Qed.

(** Reading a table that is computed from its index. *)
Lemma rd_map_seq {A} (f : nat -> A) n i :
  0 <= i < Z.of_nat n -> rd (map f (seq 0 n)) i = Ret (f (Z.to_nat i)).
Proof.
  intros Hi. apply rd_Ret. split; [lia|]. rewrite list_lookup_fmap, lookup_seq_lt by lia. done.
Qed.

(** A check over a range of integers, by evaluation. *)
Lemma forallb_seqZ (f : Z -> bool) n : forallb f (seqZ 0 n) = true -> forall x, 0 <= x < n -> f x = true.
Proof.
  intros H x Hx. apply (proj1 (forallb_forall _ _) H). apply list_elem_of_In, elem_of_seqZ. lia.
Qed.

(** Access at the start of an object. *)
Lemma slice_0 {A} (l r : list A) n : n = zlen l -> slice (l ++ r) 0 n = Ret l.
Proof. intros ->. exact (slice_mid [] l r 0 (zlen l) eq_refl eq_refl). Qed.

Lemma splice_0 {A} (l l' r : list A) : length l = length l' -> splice (l ++ r) 0 l' = Ret (l' ++ r).
Proof. intros H. exact (splice_mid [] l l' r 0 eq_refl H). Qed.

Lemma rd_mid {A} (p : list A) x r i : i = zlen p -> rd (p ++ x :: r) i = Ret x.
Proof. intros ->. rewrite rd_app_r, Z.sub_diag by lia. apply rd_cons_0. Qed.

Lemma wr_0 {A} (x y : A) b : wr (x :: b) 0 y = Ret (y :: b).
Proof. exact (wr_mid [] b x y 0 eq_refl). Qed.
