(* ===== verification/Ies.v ===== *)
(** * Information elements: building, searching and removing

    Models the element primitives of [core/rtw_ieee80211.c]:
    [rtw_set_ie] and its wrappers, [rtw_get_ie], [rtw_get_ie_ex] and
    [rtw_ies_remove_ie].  A [u8 *] into a frame is an offset into the object
    that holds the frame; [None] is [NULL].

    The abstract view of a well-formed buffer is a list of (id, body) pairs and
    [enc_ies] its serialisation; the theorems relate the pointer code to that
    view. *)
From S2P Require Import Prelude.

Module Ies.

(** ** Building elements *)

(** [rtw_set_fixed_ie]: the advanced pointer, the frame length and the object. *)
Definition rtw_set_fixed_ie (b : list Z) (pbuf len : Z) (source : list Z) (frlen : Z)
  : res (list Z * Z * Z) :=
  src ← slice source 0 len;
  b ← splice b pbuf src;
  Ret (b, pbuf + len, u32 (frlen + len)).

(** [rtw_set_ie]: writes the element and returns the object, the pointer past
    it, and the updated frame length ([frlen] may be [NULL]). *)
Definition rtw_set_ie (b : list Z) (pbuf index len : Z) (source : list Z)
    (frlen : option Z) : res (list Z * Z * option Z) :=
  b ← wr b pbuf (u8 index);
  b ← wr b (pbuf + 1) (u8 len);
  b ← (if 0 <? len
       then src ← slice source 0 len; splice b (pbuf + 2) src
       else Ret b);
  Ret (b, pbuf + len + 2, (fun f => u32 (f + (len + 2))) <$> frlen).

Definition WLAN_EID_CHANNEL_SWITCH : Z := 37.
Definition WLAN_EID_SECONDARY_CHANNEL_OFFSET : Z := 62.

Definition rtw_set_ie_ch_switch (b : list Z) (buf : Z) (buf_len : option Z)
    (ch_switch_mode new_ch ch_switch_cnt : Z) : res (list Z * Z * option Z) :=
  rtw_set_ie b buf WLAN_EID_CHANNEL_SWITCH 3 [ch_switch_mode; new_ch; ch_switch_cnt] buf_len.

Definition SCN : Z := 0.
Definition SCA : Z := 1.
Definition SCB : Z := 3.
Definition HAL_PRIME_CHNL_OFFSET_DONT_CARE : Z := 0.
Definition HAL_PRIME_CHNL_OFFSET_LOWER : Z := 1.
Definition HAL_PRIME_CHNL_OFFSET_UPPER : Z := 2.

Definition secondary_ch_offset_to_hal_ch_offset (ch_offset : Z) : Z :=
  if ch_offset =? SCN then HAL_PRIME_CHNL_OFFSET_DONT_CARE
  else if ch_offset =? SCA then HAL_PRIME_CHNL_OFFSET_LOWER
  else if ch_offset =? SCB then HAL_PRIME_CHNL_OFFSET_UPPER
  else HAL_PRIME_CHNL_OFFSET_DONT_CARE.

Definition hal_ch_offset_to_secondary_ch_offset (ch_offset : Z) : Z :=
  if ch_offset =? HAL_PRIME_CHNL_OFFSET_DONT_CARE then SCN
  else if ch_offset =? HAL_PRIME_CHNL_OFFSET_LOWER then SCA
  else if ch_offset =? HAL_PRIME_CHNL_OFFSET_UPPER then SCB
  else SCN.

Definition rtw_set_ie_secondary_ch_offset (b : list Z) (buf : Z) (buf_len : option Z)
    (secondary_ch_offset : Z) : res (list Z * Z * option Z) :=
  rtw_set_ie b buf WLAN_EID_SECONDARY_CHANNEL_OFFSET 1 [secondary_ch_offset] buf_len.

Definition rtw_set_ie_mesh_ch_switch_parm (b : list Z) (buf : Z) (buf_len : option Z)
    (ttl flags reason precedence : Z) : res (list Z * Z * option Z) :=
  rtw_set_ie b buf 0x118 6 ([ttl; flags] ++ le16 reason ++ le16 precedence) buf_len.

(** ** Searching *)

(** The [while (1)] of [rtw_get_ie]: [p] is the cursor, [i] the bytes consumed.
    Both arms read [*(p + 1)]. *)
Fixpoint get_ie_loop (fuel : nat) (b : list Z) (index p i limit : Z)
  : res (option Z * Z) :=
  match fuel with
  | O => NoFuel
  | S fuel =>
      id ← rd b p;
      tmp ← rd b (p + 1);
      if id =? index then Ret (Some p, tmp)
      else if limit <=? i + (tmp + 2) then Ret (None, 0)
      else get_ie_loop fuel b index (p + (tmp + 2)) (i + (tmp + 2)) limit
  end.

(** [rtw_get_ie]: the element found and the value left in [*len], which is
    untouched ([len0]) when [limit < 1].  Every iteration consumes at least two
    bytes, so [limit] iterations are enough. *)
Definition rtw_get_ie (b : list Z) (pbuf index len0 limit : Z) : res (option Z * Z) :=
  if limit <? 1 then Ret (None, len0)
  else get_ie_loop (Z.to_nat limit) b index pbuf 0 limit.

(** Does the element at [cnt] match [eid] and, when given, [oui]? *)
Definition ie_match (b : list Z) (p eid : Z) (oui : option (list Z)) : res bool :=
  id ← rd b p;
  if id =? eid then
    match oui with
    | None => Ret true
    | Some o => memcmp_at b (p + 2) o
    end
  else Ret false.

(** The [while (cnt < in_len)] of [rtw_get_ie_ex]. *)
Fixpoint get_ie_ex_loop (fuel : nat) (b : list Z) (in_ie in_len eid : Z)
    (oui ie : option (list Z)) (cnt : Z) : res (option Z * Z * option (list Z)) :=
  match fuel with
  | O => NoFuel
  | S fuel =>
      if cnt <? in_len then
        m ← ie_match b (in_ie + cnt) eid oui;
        l ← rd b (in_ie + cnt + 1);
        if (m : bool) then
          ie' ← match ie with
                | Some dst => s ← slice b (in_ie + cnt) (l + 2);
                              d ← splice dst 0 s; Ret (Some d)
                | None => Ret None
                end;
          Ret (Some (in_ie + cnt), l + 2, ie')
        else get_ie_ex_loop fuel b in_ie in_len eid oui ie (cnt + (l + 2))
      else Ret (None, 0, ie)
  end.

(** [rtw_get_ie_ex] on a non-[NULL] [in_ie]: the element, [*ielen], and the
    optional destination buffer [ie]. *)
Definition rtw_get_ie_ex (b : list Z) (in_ie in_len eid : Z) (oui ie : option (list Z))
  : res (option Z * Z * option (list Z)) :=
  if in_len <=? 0 then Ret (None, 0, ie)
  else get_ie_ex_loop (S (Z.to_nat in_len)) b in_ie in_len eid oui ie 0.

(** The [while (1)] of [rtw_ies_remove_ie]: each round removes the first match
    from [start] and goes on from the same place.  [remain_len] is a [uint]. *)
Fixpoint remove_ie_loop (fuel : nat) (b : list Z) (ies_len start search_len eid : Z)
    (oui : option (list Z)) (ret : bool) : res (list Z * Z * bool) :=
  match fuel with
  | O => NoFuel
  | S fuel =>
      r ← rtw_get_ie_ex b start search_len eid oui None;
      let '(target_ie, target_ielen, _) := r in
      match target_ie with
      | Some target =>
          if target_ielen =? 0 then Ret (b, ies_len, ret)
          else
            let remain_ies := target + target_ielen in
            let remain_len := u32 (search_len - (remain_ies - start)) in
            b ← memmove b target remain_ies remain_len;
            remove_ie_loop fuel b (u32 (ies_len - target_ielen)) target remain_len
              eid oui true
      | None => Ret (b, ies_len, ret)
      end
  end.

(** [rtw_ies_remove_ie]: the object, [*ies_len], and [true] for [_SUCCESS]. *)
Definition rtw_ies_remove_ie (b : list Z) (ies ies_len offset eid : Z)
    (oui : option (list Z)) : res (list Z * Z * bool) :=
  if ies_len <=? offset then Ret (b, ies_len, false)
  else remove_ie_loop (S (Z.to_nat (ies_len - offset))) b ies_len (ies + offset)
         (ies_len - offset) eid oui false.

(** ** The abstract view: a list of elements *)

Definition ie : Type := Z * list Z.

Definition enc_ie (e : ie) : list Z := e.1 :: zlen e.2 :: e.2.
#[global] Arguments enc_ie : simpl never.
Definition enc_ies (es : list ie) : list Z := concat (map enc_ie es).

Definition wf_ie (e : ie) : Prop := is_u8 e.1 /\ is_u8 (zlen e.2) /\ bytes_ok e.2.

(** First element with the given id: its offset and body length. *)
Fixpoint find_ie (es : list ie) (off index : Z) : option (Z * Z) :=
  match es with
  | [] => None
  | (id, body) :: es =>
      if id =? index then Some (off, zlen body)
      else find_ie es (off + (zlen body + 2)) index
  end.

(** ** Lemmas *)

Lemma enc_ies_nil : enc_ies [] = [].
Proof. done. Qed.
Lemma enc_ies_cons e es : enc_ies (e :: es) = enc_ie e ++ enc_ies es.
Proof. done. Qed.
Lemma enc_ies_app es fs : enc_ies (es ++ fs) = enc_ies es ++ enc_ies fs.
Proof. unfold enc_ies. by rewrite map_app, concat_app. Qed.
Lemma zlen_enc_ie e : zlen (enc_ie e) = zlen e.2 + 2.
Proof. unfold enc_ie. zlen_lia. Qed.
Lemma enc_ies_bytes es : Forall wf_ie es -> bytes_ok (enc_ies es).
Proof.
  induction 1 as [|[id body] es (H1 & H2 & H3) _ IH]; [constructor|].
  rewrite enc_ies_cons. apply Forall_app. split; [|done]. by do 2 (apply Forall_cons; split; [done|]).
Qed.

(** Reading the header of an element placed after [pre]. *)
Lemma rd_enc_id pre e post p : p = zlen pre -> rd (pre ++ enc_ie e ++ post) p = Ret e.1.
Proof. intros ->. rewrite rd_app_r by lia. by rewrite Z.sub_diag. Qed.
Lemma rd_enc_len pre e post p :
  p = zlen pre + 1 -> rd (pre ++ enc_ie e ++ post) p = Ret (zlen e.2).
Proof.
  intros ->. rewrite rd_app_r by lia.
  by replace (zlen pre + 1 - zlen pre) with 1 by lia.
Qed.
Lemma rd_enc_body pre e post p k :
  p = zlen pre + 2 + k -> 0 <= k -> rd (pre ++ enc_ie e ++ post) p = rd (e.2 ++ post) k.
Proof.
  intros -> Hk. rewrite rd_app_r by lia. unfold enc_ie. cbn [app].
  rewrite !rd_cons by lia. f_equal. lia.
Qed.

Lemma enc_ies_length es : (2 * length es <= length (enc_ies es))%nat.
Proof.
  induction es as [|e es IH]; [done|].
  rewrite enc_ies_cons, length_app. unfold enc_ie. simpl. lia.
Qed.

Lemma enc_cons_app pre e es post :
  pre ++ enc_ies (e :: es) ++ post = (pre ++ enc_ie e) ++ enc_ies es ++ post.
Proof. by rewrite enc_ies_cons, <- !app_assoc. Qed.

Definition find_result (r : option (Z * Z)) : option Z * Z :=
  match r with Some (p, l) => (Some p, l) | None => (None, 0) end.

Lemma get_ie_loop_enc es : forall fuel pre post index p i limit,
  es <> [] -> (length es <= fuel)%nat ->
  p = zlen pre -> limit = i + zlen (enc_ies es) ->
  get_ie_loop fuel (pre ++ enc_ies es ++ post) index p i limit =
  Ret (find_result (find_ie es p index)).
Proof.
  induction es as [|[id body] es IH]; intros fuel pre post index p i limit Hne Hf Hp Hlim;
    [done|].
  destruct fuel as [|fuel]; [simpl in Hf; lia|]. cbn [get_ie_loop find_ie].
  rewrite enc_ies_cons, <- app_assoc, (rd_enc_id _ _ _ p) by done. simp_res.
  rewrite rd_enc_len by lia. simp_res.
  destruct (id =? index); [done|].
  rewrite enc_ies_cons, zlen_app, zlen_enc_ie in Hlim. cbn in Hlim.
  destruct es as [|e' es'].
  - rewrite enc_ies_nil, zlen_nil in Hlim. zdecide. done.
  - assert (2 <= zlen (enc_ies (e' :: es'))).
    { rewrite enc_ies_cons, zlen_app, zlen_enc_ie. zlen_lia. }
    zdecide. rewrite app_assoc. apply IH; [done|simpl in *; lia| |lia].
    rewrite zlen_app, zlen_enc_ie. cbn. lia.
Qed.

(** Elements with another id are skipped. *)
Lemma get_ie_loop_skip es : forall fuel pre post index p i limit,
  find_ie es p index = None -> p = zlen pre -> i + zlen (enc_ies es) < limit ->
  get_ie_loop (length es + fuel) (pre ++ enc_ies es ++ post) index p i limit =
  get_ie_loop fuel (pre ++ enc_ies es ++ post) index (p + zlen (enc_ies es))
    (i + zlen (enc_ies es)) limit.
Proof.
  induction es as [|[id body] es IH]; intros fuel pre post index p i limit Hf Hp Hl.
  { rewrite enc_ies_nil, zlen_nil, !Z.add_0_r. done. }
  cbn [length plus get_ie_loop].
  rewrite enc_ies_cons, <- app_assoc, (rd_enc_id _ _ _ p) by done. simp_res.
  rewrite rd_enc_len by lia. simp_res. cbn [find_ie] in Hf.
  destruct (id =? index); [done|].
  rewrite enc_ies_cons, zlen_app, zlen_enc_ie in Hl. cbn [snd] in Hl.
  pose proof (zlen_nonneg (enc_ies es)). zdecide. rewrite app_assoc.
  rewrite IH; [|done|rewrite zlen_app, zlen_enc_ie; cbn; lia|lia].
  rewrite zlen_app, zlen_enc_ie. cbn [snd]. f_equal; lia.
Qed.

(** Every outcome of the search loop on arbitrary bytes. *)
Lemma get_ie_loop_safe fuel : forall b index p i limit,
  bytes_ok b -> 0 <= p -> i < limit -> limit - i <= Z.of_nat fuel ->
  p + (limit - i) < zlen b ->
  exists r, get_ie_loop fuel b index p i limit = Ret r /\
    match r with
    | (Some q, l) => p <= q < p + (limit - i) /\ rd b q = Ret index /\ rd b (q + 1) = Ret l
    | (None, l) => l = 0
    end.
Proof.
  induction fuel as [|fuel IH]; intros b index p i limit Hb Hp Hi Hf Hlen; [lia|].
  cbn [get_ie_loop].
  destruct (rd_bytes b p) as (x & Hx & Bx); [done|lia|].
  destruct (rd_bytes b (p + 1)) as (l & Hl & Bl); [done|lia|].
  rewrite Hx. simp_res. rewrite Hl. simp_res. unfold fits in Bl.
  destruct (Z.eqb_spec x index) as [->|Hne].
  { eexists; split; [done|]. cbn. split; [lia|done]. }
  destruct (Z.leb_spec limit (i + (l + 2))); [by eexists|].
  destruct (IH b index (p + (l + 2)) (i + (l + 2)) limit) as ([[q|] l'] & -> & Hr);
    [done|lia..| |by eexists].
  eexists; split; [done|]. cbn in *. intuition lia.
Qed.

Lemma rtw_get_ie_enc es pre post index len0 :
  es <> [] ->
  rtw_get_ie (pre ++ enc_ies es ++ post) (zlen pre) index len0 (zlen (enc_ies es)) =
  Ret (find_result (find_ie es (zlen pre) index)).
Proof.
  intros Hne. unfold rtw_get_ie.
  assert (2 <= zlen (enc_ies es)).
  { destruct es; [done|]. rewrite enc_ies_cons, zlen_app, zlen_enc_ie. zlen_lia. }
  zdecide. apply get_ie_loop_enc; [done| |done|lia].
  rewrite zlen_to_nat. pose proof (enc_ies_length es). lia.
Qed.

(** ** Refinement: [rtw_get_ie] is lookup in the list of elements *)

(** C2: on a buffer that holds the serialised elements [es] (at any place of a
    larger object), [rtw_get_ie] terminates without reading outside the object
    and returns the first element whose id is [index] with its body length, or
    [NULL] with [*len = 0]; with no element at all [*len] keeps its value. *)
Theorem rtw_get_ie_refines es pre post index len0 :
  rtw_get_ie (pre ++ enc_ies es ++ post) (zlen pre) index len0 (zlen (enc_ies es)) =
  Ret (match es with
       | [] => (None, len0)
       | _ => find_result (find_ie es (zlen pre) index)
       end).
Proof.
  destruct es as [|e es]; [done|]. by apply rtw_get_ie_enc.
Qed.

(** On arbitrary bytes the search terminates and stays inside the object as
    soon as one byte past [limit] is readable, and what it returns is an
    element header with the requested id inside the searched range. *)
Theorem rtw_get_ie_safe b pbuf index len0 limit :
  bytes_ok b -> 0 <= pbuf -> pbuf + limit < zlen b ->
  exists r, rtw_get_ie b pbuf index len0 limit = Ret r /\
    forall p l, r = (Some p, l) ->
      pbuf <= p < pbuf + limit /\ rd b p = Ret index /\ rd b (p + 1) = Ret l /\ is_u8 l.
Proof.
  intros Hb Hp Hlen. unfold rtw_get_ie. destruct (Z.ltb_spec limit 1).
  { eexists; split; [done|]. by intros p l [= ]. }
  destruct (get_ie_loop_safe (Z.to_nat limit) b index pbuf 0 limit)
    as (r & -> & Hr); [done|lia..|].
  eexists; split; [done|]. intros p l ->. cbn in Hr.
  destruct Hr as (? & ? & Hl). pose proof (rd_bytes_inv _ _ _ Hb Hl).
  split; [lia|]. by split.
Qed.

Lemma rtw_get_ie_safe_witness :
  exists r, rtw_get_ie [0; 1; 7; 48; 2; 1; 0; 99] 0 48 0 7 = Ret r /\
    forall p l, r = (Some p, l) ->
      0 <= p < 0 + 7 /\ rd [0; 1; 7; 48; 2; 1; 0; 99] p = Ret 48 /\
      rd [0; 1; 7; 48; 2; 1; 0; 99] (p + 1) = Ret l /\ is_u8 l.
Proof.
  apply (rtw_get_ie_safe [0; 1; 7; 48; 2; 1; 0; 99] 0 48 0 7).
  - by_eval.
  - lia.
  - unfold zlen. simpl. lia.
Defined.

(** ** Building and searching back *)

Lemma rtw_set_ie_writes pre old post id body extra fr :
  length old = S (S (length body)) ->
  rtw_set_ie (pre ++ old ++ post) (zlen pre) id (zlen body) (body ++ extra) fr =
  Ret (pre ++ ([u8 id; u8 (zlen body)] ++ body) ++ post, zlen pre + zlen body + 2,
       (fun f => u32 (f + (zlen body + 2))) <$> fr).
Proof.
  intros Hl. destruct old as [|o0 [|o1 old]]; [done..|]. injection Hl as Hl.
  unfold rtw_set_ie. cbn [app]. rewrite (wr_mid pre) by done. simp_res.
  assert (pre ++ u8 id :: o1 :: old ++ post = (pre ++ [u8 id]) ++ o1 :: old ++ post) as ->
    by (by rewrite <- app_assoc).
  rewrite (wr_mid (pre ++ [u8 id])) by (rewrite zlen_app; done). simp_res.
  destruct (Z.ltb_spec 0 (zlen body)) as [Hpos|Hz].
  - rewrite (slice_mid [] body extra) by done. simp_res.
    assert ((pre ++ [u8 id]) ++ u8 (zlen body) :: old ++ post =
            (pre ++ [u8 id; u8 (zlen body)]) ++ old ++ post) as ->
      by (by rewrite <- !app_assoc).
    rewrite splice_mid by (try done; rewrite zlen_app; done). simp_res.
    by rewrite <- !app_assoc.
  - destruct body; [|zlen_lia]. destruct old; [|done]. simp_res.
    by rewrite <- !app_assoc.
Qed.

(** A sequence of [rtw_set_ie] calls, the way the frame builders chain them. *)
Fixpoint set_ies (b : list Z) (p : Z) (es : list ie) (fr : option Z)
  : res (list Z * Z * option Z) :=
  match es with
  | [] => Ret (b, p, fr)
  | (id, body) :: es =>
      r ← rtw_set_ie b p id (zlen body) body fr;
      let '(b, p, fr) := r in set_ies b p es fr
  end.

Lemma set_ies_enc es : forall pre old post fr,
  Forall wf_ie es -> zlen old = zlen (enc_ies es) ->
  set_ies (pre ++ old ++ post) (zlen pre) es fr =
  Ret (pre ++ enc_ies es ++ post, zlen pre + zlen (enc_ies es),
       foldl (fun f e => (fun f => u32 (f + (zlen (snd e) + 2))) <$> f) fr es).
Proof.
  induction es as [|[id body] es IH]; intros pre old post fr Hwf Hl.
  { rewrite enc_ies_nil, zlen_nil in *. destruct old; [|zlen_lia]. cbn. by rewrite Z.add_0_r. }
  apply Forall_cons in Hwf as [(Hid & Hlen & _) Hwf]. cbn [fst snd] in *.
  rewrite enc_ies_cons, zlen_app, zlen_enc_ie in Hl. cbn [snd] in Hl.
  destruct (split_at old (zlen body + 2)) as (o1 & o2 & -> & Ho1).
  { rewrite Hl. zlen_lia. }
  cbn [set_ies]. rewrite <- app_assoc.
  rewrite <- (app_nil_r body) at 2.
  rewrite rtw_set_ie_writes by (unfold zlen in Ho1; lia). simp_res.
  rewrite !wrap_small by done.
  change ([id; zlen body] ++ body) with (enc_ie (id, body)).
  replace (zlen pre + zlen body + 2) with (zlen (pre ++ enc_ie (id, body)))
    by (rewrite zlen_app, zlen_enc_ie; cbn; lia).
  rewrite app_assoc, IH by (try done; rewrite zlen_app in Hl; lia).
  f_equal. rewrite enc_ies_cons, !zlen_app, <- !app_assoc. f_equal. f_equal. lia.
Qed.

(** Elements written one after the other with [rtw_set_ie] are found again
    by [rtw_get_ie]: the build fills exactly the serialised elements, leaves the
    rest of the object alone, and each search returns the first element of that
    id with its body length. *)
Theorem rtw_set_get_ie es pre old post fr index len0 :
  Forall wf_ie es -> es <> [] -> zlen old = zlen (enc_ies es) ->
  exists b p f,
    set_ies (pre ++ old ++ post) (zlen pre) es fr = Ret (b, p, f) /\
    b = pre ++ enc_ies es ++ post /\ p = zlen pre + zlen old /\
    rtw_get_ie b (zlen pre) index len0 (zlen old) =
      Ret (find_result (find_ie es (zlen pre) index)).
Proof.
  intros Hwf Hne Hl. rewrite set_ies_enc by done.
  do 3 eexists. split; [done|]. split; [done|]. split; [lia|].
  rewrite Hl, rtw_get_ie_refines. by destruct es.
Qed.

Lemma rtw_set_get_ie_witness :
  exists b p f,
    set_ies ([9] ++ [0; 0; 0; 0; 0; 0; 0] ++ [8]) 1 [(48, [1; 0]); (3, [11])] (Some 36)
      = Ret (b, p, f) /\
    b = [9] ++ enc_ies [(48, [1; 0]); (3, [11])] ++ [8] /\ p = 1 + 7 /\
    rtw_get_ie b 1 3 0 7 = Ret (find_result (find_ie [(48, [1; 0]); (3, [11])] 1 3)).
Proof.
  apply (rtw_set_get_ie [(48, [1; 0]); (3, [11])] [9] [0; 0; 0; 0; 0; 0; 0] [8] (Some 36) 3 0).
  - repeat (apply Forall_cons; split; [split; [by_eval|split; by_eval]|]). constructor.
  - done.
  - reflexivity.
Defined.

(** ** Findings on the primitives *)

(** [rtw_get_ie] looks at the length byte of an element whose header is cut
    by [limit]: with [limit] equal to the size of the object and a lone id byte
    at its end, the search reads one byte past the object. *)
Theorem rtw_get_ie_overread es id index len0 :
  find_ie es 0 index = None ->
  rtw_get_ie (enc_ies es ++ [id]) 0 index len0 (zlen (enc_ies es ++ [id])) = Oob.
Proof.
  intros Hf. unfold rtw_get_ie. rewrite zlen_app.
  change (zlen [id]) with 1. pose proof (zlen_nonneg (enc_ies es)). zdecide.
  pose proof (enc_ies_length es).
  replace (Z.to_nat (zlen (enc_ies es) + 1)) with (length es + S (length (enc_ies es) - length es))%nat
    by (unfold zlen; lia).
  rewrite (get_ie_loop_skip es _ [] [id]); [|done|reflexivity|lia].
  cbn [get_ie_loop app]. rewrite (rd_app_r _ [id] (0 + _)), (rd_out _ (_ + 1)) by zlen_lia.
  replace (0 + zlen (enc_ies es) - zlen (enc_ies es)) with 0 by lia. done.
Qed.

Lemma rtw_get_ie_overread_witness :
  find_ie [(48, [1; 0])] 0 7 = None /\
  rtw_get_ie (enc_ies [(48, [1; 0])] ++ [5]) 0 7 0 (zlen (enc_ies [(48, [1; 0])] ++ [5])) = Oob.
Proof. split; [reflexivity|]. apply (rtw_get_ie_overread [(48, [1; 0])] 5 7 0). reflexivity. Defined.

(** ** Removing elements *)

Definition ie_matches (eid : Z) (oui : option (list Z)) (e : ie) : bool :=
  (e.1 =? eid) &&
  match oui with
  | None => true
  | Some o => bool_decide (take (length o) e.2 = o)
  end.

(** Elements with the searched id are long enough to hold an OUI. *)
Definition oui_fits (eid : Z) (oui : option (list Z)) (e : ie) : Prop :=
  e.1 = eid -> forall o, oui = Some o -> (length o <= length e.2)%nat.

Lemma ie_match_enc pre e post eid oui p :
  p = zlen pre -> oui_fits eid oui e ->
  ie_match (pre ++ enc_ie e ++ post) p eid oui = Ret (ie_matches eid oui e).
Proof.
  intros -> Hfit. unfold ie_match, ie_matches. rewrite rd_enc_id by done. simp_res.
  destruct (Z.eqb_spec e.1 eid) as [Heq|]; [|done].
  destruct oui as [o|]; [|done]. specialize (Hfit Heq o eq_refl).
  unfold memcmp_at, enc_ie. cbn [andb].
  assert (pre ++ (e.1 :: zlen e.2 :: e.2) ++ post =
          (pre ++ [e.1; zlen e.2]) ++ take (length o) e.2 ++ drop (length o) e.2 ++ post) as ->.
  { rewrite (app_assoc (take _ _)), take_drop. by rewrite <- !app_assoc. }
  rewrite slice_mid; [done|by rewrite zlen_app|].
  unfold zlen. rewrite length_take. lia.
Qed.

Lemma get_ie_ex_loop_skip es : forall fuel pre post base len eid oui cnt,
  Forall (fun e => ie_matches eid oui e = false) es -> Forall (oui_fits eid oui) es ->
  base + cnt = zlen pre -> cnt + zlen (enc_ies es) <= len ->
  get_ie_ex_loop (length es + fuel) (pre ++ enc_ies es ++ post) base len eid oui None cnt =
  get_ie_ex_loop fuel (pre ++ enc_ies es ++ post) base len eid oui None (cnt + zlen (enc_ies es)).
Proof.
  induction es as [|e es IH]; intros fuel pre post base len eid oui cnt Hno Hfit Hp Hl.
  { rewrite enc_ies_nil, zlen_nil, Z.add_0_r. done. }
  apply Forall_cons in Hno as [Hne Hno]. apply Forall_cons in Hfit as [Hfe Hfit].
  rewrite enc_ies_cons, zlen_app, zlen_enc_ie in *.
  pose proof (zlen_nonneg (enc_ies es)). pose proof (zlen_nonneg e.2).
  cbn [length plus get_ie_ex_loop]. zdecide.
  rewrite <- app_assoc, ie_match_enc, Hne by done. simp_res.
  rewrite rd_enc_len by lia. simp_res. rewrite app_assoc.
  rewrite IH; [f_equal; lia|done|done|rewrite zlen_app, zlen_enc_ie; lia|lia].
Qed.

(** The first matching element of a list, if any. *)
Lemma first_match (P : ie -> bool) es :
  (exists es1 e es2, es = es1 ++ e :: es2 /\ Forall (fun x => P x = false) es1 /\ P e = true) \/
  Forall (fun x => P x = false) es.
Proof.
  induction es as [|e es [(es1 & f & es2 & -> & H1 & H2)|IH]]; [by right| |].
  - destruct (P e) eqn:He.
    + left. exists [], e, (es1 ++ f :: es2). by repeat split.
    + left. exists (e :: es1), f, es2. split; [done|]. split; [by constructor|done].
  - destruct (P e) eqn:He; [left; exists [], e, es; by repeat split|right; by constructor].
Qed.

Lemma rtw_get_ie_ex_hit pre es1 e es2 post eid oui :
  Forall (fun x => ie_matches eid oui x = false) es1 -> ie_matches eid oui e = true ->
  Forall (oui_fits eid oui) (es1 ++ e :: es2) ->
  rtw_get_ie_ex (pre ++ enc_ies (es1 ++ e :: es2) ++ post) (zlen pre)
    (zlen (enc_ies (es1 ++ e :: es2))) eid oui None =
  Ret (Some (zlen pre + zlen (enc_ies es1)), zlen e.2 + 2, None).
Proof.
  intros Hno Hm Hfit. apply Forall_app in Hfit as [Hf1 [Hf2 _]%Forall_cons].
  rewrite enc_ies_app, enc_ies_cons, <- !app_assoc. unfold rtw_get_ie_ex.
  pose proof (zlen_nonneg (enc_ies es1)). pose proof (zlen_nonneg (enc_ies es2)).
  pose proof (zlen_nonneg e.2). pose proof (enc_ies_length es1).
  rewrite !zlen_app, zlen_enc_ie. zdecide.
  set (n := Z.to_nat _).
  replace (S n) with (length es1 + S (n - length es1))%nat by (unfold n, zlen in *; lia).
  rewrite get_ie_ex_loop_skip by (done || lia).
  cbn [get_ie_ex_loop]. zdecide. rewrite app_assoc.
  rewrite ie_match_enc by (done || (rewrite zlen_app; lia)). rewrite Hm. simp_res.
  rewrite rd_enc_len by (rewrite zlen_app; lia). simp_res. do 4 f_equal.
Qed.

Lemma rtw_get_ie_ex_miss pre es post eid oui :
  Forall (fun x => ie_matches eid oui x = false) es -> Forall (oui_fits eid oui) es ->
  rtw_get_ie_ex (pre ++ enc_ies es ++ post) (zlen pre) (zlen (enc_ies es)) eid oui None =
  Ret (None, 0, None).
Proof.
  intros Hno Hfit. unfold rtw_get_ie_ex. pose proof (zlen_nonneg (enc_ies es)).
  pose proof (enc_ies_length es).
  destruct (Z.leb_spec (zlen (enc_ies es)) 0); [done|].
  set (n := Z.to_nat _).
  replace (S n) with (length es + S (n - length es))%nat by (unfold n, zlen in *; lia).
  rewrite get_ie_ex_loop_skip by (done || lia).
  cbn [get_ie_ex_loop]. by rewrite (proj2 (Z.ltb_ge _ _)) by lia.
Qed.

Definition keep (eid : Z) (oui : option (list Z)) : list ie -> list ie :=
  filter (fun e => ie_matches eid oui e = false).

Lemma keep_none eid oui es :
  Forall (fun x => ie_matches eid oui x = false) es -> keep eid oui es = es.
Proof.
  induction 1 as [|x es Hx _ IH]; [done|]. unfold keep in *.
  by rewrite filter_cons_True, IH.
Qed.

Lemma keep_hit eid oui es1 e es2 :
  Forall (fun x => ie_matches eid oui x = false) es1 -> ie_matches eid oui e = true ->
  keep eid oui (es1 ++ e :: es2) = es1 ++ keep eid oui es2.
Proof.
  intros H1 H2. unfold keep. rewrite filter_app, filter_cons_False by congruence.
  f_equal. by apply keep_none.
Qed.

Lemma remove_ie_loop_enc n : forall fuel es pre post ies_len eid oui ret,
  (length es <= n)%nat -> (length es < fuel)%nat ->
  Forall (oui_fits eid oui) es -> zlen (enc_ies es) <= ies_len < 2 ^ 32 ->
  exists stale,
    remove_ie_loop fuel (pre ++ enc_ies es ++ post) ies_len (zlen pre) (zlen (enc_ies es))
      eid oui ret =
    Ret (pre ++ enc_ies (keep eid oui es) ++ stale ++ post,
         ies_len - (zlen (enc_ies es) - zlen (enc_ies (keep eid oui es))),
         ret || existsb (ie_matches eid oui) es) /\
    zlen stale = zlen (enc_ies es) - zlen (enc_ies (keep eid oui es)).
Proof.
  induction n as [|n IH]; intros fuel es pre post ies_len eid oui ret Hn Hf Hfit Hlen;
    (destruct fuel as [|fuel]; [lia|]); cbn [remove_ie_loop].
  { destruct es; [|simpl in Hn; lia]. rewrite rtw_get_ie_ex_miss by done. simp_res.
    exists []. change (keep eid oui []) with (@nil ie).
    by rewrite Z.sub_diag, Z.sub_0_r, orb_false_r. }
  destruct (first_match (ie_matches eid oui) es) as [(es1 & e & es2 & -> & H1 & H2)|Hno].
  - rewrite rtw_get_ie_ex_hit by done. simp_res. rewrite keep_hit by done.
    pose proof (zlen_nonneg e.2). zdecide.
    rewrite enc_ies_app, enc_ies_cons, !zlen_app, zlen_enc_ie in *.
    pose proof (zlen_nonneg (enc_ies es1)). pose proof (zlen_nonneg (enc_ies es2)).
    rewrite (wrap_small 32 (ies_len - _)) by (unfold fits; lia).
    rewrite (wrap_small 32 (_ - _)) by (unfold fits; lia).
    rewrite <- !app_assoc, (app_assoc pre).
    rewrite memmove_left; [simp_res|rewrite zlen_app; lia|rewrite zlen_app, zlen_enc_ie; lia|lia].
    set (stale1 := drop _ _).
    apply Forall_app in Hfit as [_ [_ Hf2]%Forall_cons].
    rewrite length_app in Hn, Hf. cbn [length] in Hn, Hf.
    destruct (IH fuel es2 (pre ++ enc_ies es1) (stale1 ++ post)
                (ies_len - (zlen e.2 + 2)) eid oui true) as (stale & Heq & Hs); [lia..|done|lia|].
    rewrite zlen_app in Heq.
    replace (zlen pre + (zlen (enc_ies es1) + (zlen e.2 + 2 + zlen (enc_ies es2)))
             - (zlen pre + zlen (enc_ies es1) + (zlen e.2 + 2) - zlen pre))
      with (zlen pre + zlen (enc_ies es2)) by lia.
    replace (zlen (enc_ies es1) + (zlen e.2 + 2 + zlen (enc_ies es2))
             - (zlen pre + zlen (enc_ies es1) + (zlen e.2 + 2) - zlen pre))
      with (zlen (enc_ies es2)) by lia.
    rewrite Heq. exists (stale ++ stale1). split.
    + rewrite existsb_app. cbn [existsb]. rewrite H2, orb_true_r, orb_true_r.
      rewrite enc_ies_app, !zlen_app, <- !app_assoc. do 2 f_equal. f_equal. lia.
    + rewrite enc_ies_app, !zlen_app. unfold stale1, zlen in *.
      rewrite length_drop, length_app. pose proof (zlen_enc_ie e). unfold zlen in *. lia.
  - rewrite rtw_get_ie_ex_miss by done. simp_res. exists [].
    rewrite keep_none by done. rewrite Z.sub_diag, Z.sub_0_r. split; [|done].
    do 2 f_equal. assert (existsb (ie_matches eid oui) es = false) as ->.
    { clear -Hno. induction Hno as [|x es Hx _ IH]; [done|]. cbn. by rewrite Hx. }
    by rewrite orb_false_r.
Qed.

(** [rtw_ies_remove_ie] removes exactly the elements after [offset] that
    match the id and OUI, keeps the others in order, subtracts their total size
    from [*ies_len], and reports whether it removed anything. *)
Theorem rtw_ies_remove_ie_refines hd es pre post eid oui :
  es <> [] -> Forall (oui_fits eid oui) es ->
  zlen (enc_ies hd) + zlen (enc_ies es) < 2 ^ 32 ->
  exists stale,
    rtw_ies_remove_ie (pre ++ enc_ies hd ++ enc_ies es ++ post) (zlen pre)
      (zlen (enc_ies hd) + zlen (enc_ies es)) (zlen (enc_ies hd)) eid oui =
    Ret (pre ++ enc_ies hd ++ enc_ies (keep eid oui es) ++ stale ++ post,
         zlen (enc_ies hd) + zlen (enc_ies (keep eid oui es)),
         existsb (ie_matches eid oui) es) /\
    zlen stale = zlen (enc_ies es) - zlen (enc_ies (keep eid oui es)).
Proof.
  intros Hne Hfit Hlen. pose proof (enc_ies_length es).
  pose proof (zlen_nonneg (enc_ies hd)).
  assert (length es <> 0%nat) by (by destruct es).
  unfold rtw_ies_remove_ie. rewrite (proj2 (Z.leb_gt _ _)) by (unfold zlen in *; lia).
  replace (zlen (enc_ies hd) + zlen (enc_ies es) - zlen (enc_ies hd)) with (zlen (enc_ies es)) by lia.
  destruct (remove_ie_loop_enc (length es) (S (Z.to_nat (zlen (enc_ies es)))) es
    (pre ++ enc_ies hd) post (zlen (enc_ies hd) + zlen (enc_ies es)) eid oui false)
    as (stale & Heq & Hs); [lia|rewrite zlen_to_nat; lia|done|lia|].
  exists stale. split; [|done]. rewrite zlen_app, <- !app_assoc in Heq. rewrite Heq.
  do 2 f_equal. f_equal. lia.
Qed.

Lemma rtw_ies_remove_ie_refines_witness :
  exists stale,
    rtw_ies_remove_ie ([] ++ enc_ies [(0, [65])] ++
        enc_ies [(50, [1; 2]); (3, [11]); (50, [9])] ++ [7]) 0 (3 + 10) 3 50 None =
    Ret ([] ++ enc_ies [(0, [65])] ++ enc_ies (keep 50 None [(50, [1; 2]); (3, [11]); (50, [9])])
           ++ stale ++ [7], 3 + 3, true) /\
    zlen stale = 10 - 3.
Proof.
  apply (rtw_ies_remove_ie_refines [(0, [65])] [(50, [1; 2]); (3, [11]); (50, [9])] [] [7] 50 None).
  - done.
  - repeat (apply Forall_cons; split; [by intros ? ? ?|]). constructor.
  - reflexivity.
Defined.

End Ies.
