(* ===== verification/Elems.v ===== *)
(** * Parsing the elements of a management frame

    Models [rtw_ieee802_11_parse_vendor_specific] and
    [rtw_ieee802_11_parse_elems] of [core/rtw_ieee80211.c] in the default
    configuration (no mesh, no token based transmission).  The
    [struct rtw_ieee802_11_elems] is a table from its pointer/length pairs to
    an offset and a length; the pair left by [memset] is [None]. *)
From stdpp Require Import functions.
From S2P Require Import Prelude Ies.

Module Elems.
Import Ies.

(** The pointer/length pairs of [struct rtw_ieee802_11_elems]. *)
Inductive elem_field :=
| ssid | supp_rates | fh_params | ds_params | cf_params | tim | ibss_params
| challenge | erp_info | ext_supp_rates | wpa_ie | rsn_ie | wme | wme_tspec
| wps_ie | power_cap | supp_channels | mdie | ftie | timeout_int
| ht_capabilities | ht_operation | vendor_ht_cap | vht_capabilities
| vht_operation | vht_op_mode_notify | rm_en_cap.

#[export] Instance elem_field_eq_dec : EqDecision elem_field.
Proof. solve_decision. Defined.

Abbreviation elems := (elem_field -> option (Z * Z)).

Inductive ParseRes := ParseOK | ParseUnknown | ParseFailed.

#[export] Instance ParseRes_eq_dec : EqDecision ParseRes.
Proof. solve_decision. Defined.

Definition OUI_MICROSOFT : Z := 0x0050f2.
Definition OUI_BROADCOM : Z := 0x00904c.
Definition WME_OUI_TYPE : Z := 2.
Definition WME_OUI_SUBTYPE_INFORMATION_ELEMENT : Z := 0.
Definition WME_OUI_SUBTYPE_PARAMETER_ELEMENT : Z := 1.
Definition WME_OUI_SUBTYPE_TSPEC_ELEMENT : Z := 2.
Definition VENDOR_HT_CAPAB_OUI_TYPE : Z := 0x33.

(** [rtw_ieee802_11_parse_vendor_specific]: the table and the returned [int]. *)
Definition rtw_ieee802_11_parse_vendor_specific (b : list Z) (pos elen : Z) (el : elems)
  : res (elems * Z) :=
  if elen <? 4 then Ret (el, -1)
  else
    oui ← get_be24 b pos;
    t ← rd b (pos + 3);
    if oui =? OUI_MICROSOFT then
      if t =? 1 then Ret (<[wpa_ie := Some (pos, elen)]> el, 0)
      else if t =? WME_OUI_TYPE then
        if elen <? 5 then Ret (el, -1)
        else
          st ← rd b (pos + 4);
          if (st =? WME_OUI_SUBTYPE_INFORMATION_ELEMENT)
             || (st =? WME_OUI_SUBTYPE_PARAMETER_ELEMENT)
          then Ret (<[wme := Some (pos, elen)]> el, 0)
          else if st =? WME_OUI_SUBTYPE_TSPEC_ELEMENT
          then Ret (<[wme_tspec := Some (pos, elen)]> el, 0)
          else Ret (el, -1)
      else if t =? 4 then Ret (<[wps_ie := Some (pos, elen)]> el, 0)
      else Ret (el, -1)
    else if oui =? OUI_BROADCOM then
      if t =? VENDOR_HT_CAPAB_OUI_TYPE
      then Ret (<[vendor_ht_cap := Some (pos, elen)]> el, 0)
      else Ret (el, -1)
    else Ret (el, -1).

Definition WLAN_EID_VENDOR_SPECIFIC : Z := 221.

(** The [case] labels of the [switch (id)] that store the element. *)
Definition eid_field (id : Z) : option elem_field :=
  if id =? 0 then Some ssid
  else if id =? 1 then Some supp_rates
  else if id =? 2 then Some fh_params
  else if id =? 3 then Some ds_params
  else if id =? 4 then Some cf_params
  else if id =? 5 then Some tim
  else if id =? 6 then Some ibss_params
  else if id =? 16 then Some challenge
  else if id =? 42 then Some erp_info
  else if id =? 50 then Some ext_supp_rates
  else if id =? 48 then Some rsn_ie
  else if id =? 33 then Some power_cap
  else if id =? 36 then Some supp_channels
  else if id =? 54 then Some mdie
  else if id =? 55 then Some ftie
  else if id =? 56 then Some timeout_int
  else if id =? 45 then Some ht_capabilities
  else if id =? 61 then Some ht_operation
  else if id =? 191 then Some vht_capabilities
  else if id =? 192 then Some vht_operation
  else if id =? 199 then Some vht_op_mode_notify
  else if id =? 70 then Some rm_en_cap
  else None.

(** The [switch (id)]: the table and the increment of [unknown]. *)
Definition parse_elem (b : list Z) (id pos elen : Z) (el : elems) : res (elems * Z) :=
  if id =? WLAN_EID_VENDOR_SPECIFIC then
    r ← rtw_ieee802_11_parse_vendor_specific b pos elen el;
    Ret (r.1, if r.2 =? 0 then 0 else 1)
  else match eid_field id with
       | Some f => Ret (<[f := Some (pos, elen)]> el, 0)
       | None => Ret (el, 1)
       end.

(** The [while (left >= 2)] and the two returns after it. *)
Fixpoint parse_elems_loop (fuel : nat) (b : list Z) (pos left unknown : Z) (el : elems)
  : res (ParseRes * elems) :=
  match fuel with
  | O => NoFuel
  | S fuel =>
      if 2 <=? left then
        id ← rd b pos;
        elen ← rd b (pos + 1);
        if left - 2 <? elen then Ret (ParseFailed, el)
        else
          r ← parse_elem b id (pos + 2) elen el;
          parse_elems_loop fuel b (pos + 2 + elen) (left - 2 - elen) (unknown + r.2) r.1
      else if negb (left =? 0) then Ret (ParseFailed, el)
      else Ret (if unknown =? 0 then ParseOK else ParseUnknown, el)
  end.

Definition rtw_ieee802_11_parse_elems (b : list Z) (start len : Z) : res (ParseRes * elems) :=
  parse_elems_loop (S (Z.to_nat len)) b start len 0 (fun _ => None).

(** ** Specification *)

Definition vendor_field (body : list Z) : option elem_field :=
  if bool_decide (take 4 body = [0x00; 0x50; 0xf2; 1]) then Some wpa_ie
  else if bool_decide (take 5 body = [0x00; 0x50; 0xf2; 2; 0])
       || bool_decide (take 5 body = [0x00; 0x50; 0xf2; 2; 1]) then Some wme
  else if bool_decide (take 5 body = [0x00; 0x50; 0xf2; 2; 2]) then Some wme_tspec
  else if bool_decide (take 4 body = [0x00; 0x50; 0xf2; 4]) then Some wps_ie
  else if bool_decide (take 4 body = [0x00; 0x90; 0x4c; 0x33]) then Some vendor_ht_cap
  else None.

(** The field an element is stored in; [None] for an unknown element. *)
Definition ie_field (e : ie) : option elem_field :=
  if e.1 =? WLAN_EID_VENDOR_SPECIFIC then vendor_field e.2 else eid_field e.1.

(** The last element stored in field [f]: offset of its body and its length. *)
Fixpoint last_ie (es : list ie) (off : Z) (f : elem_field) : option (Z * Z) :=
  match es with
  | [] => None
  | e :: es =>
      match last_ie es (off + 2 + zlen e.2) f with
      | Some r => Some r
      | None => if bool_decide (ie_field e = Some f) then Some (off + 2, zlen e.2) else None
      end
  end.

Definition all_known (es : list ie) : bool :=
  forallb (fun e => bool_decide (is_Some (ie_field e))) es.

(** What cannot start an element: a lone byte or a length that runs past the end. *)
Definition truncated (t : list Z) : Prop :=
  match t with
  | [] => False
  | [_] => True
  | _ :: n :: r => zlen r < n
  end.

(** ** Lemmas *)

(** Every byte string is a sequence of elements followed by at most one
    truncated element. *)
Lemma split_elements n l :
  (length l <= n)%nat -> bytes_ok l ->
  exists es t, l = enc_ies es ++ t /\ Forall wf_ie es /\ (t = [] \/ truncated t).
Proof.
  revert l. induction n as [|n IH]; intros l Hn Hl.
  { destruct l; [|simpl in Hn; lia]. exists [], []. split; [done|]. split; [constructor|auto]. }
  destruct l as [|id [|len r]].
  - exists [], []. split; [done|]. split; [constructor|auto].
  - exists [], [id]. split; [done|]. split; [constructor|by right].
  - destruct (decide (zlen r < len)) as [Ht|Ht].
    { exists [], (id :: len :: r). split; [done|]. split; [constructor|auto]. }
    apply Forall_cons in Hl as [Hid [Hlen Hr]%Forall_cons].
    destruct (split_at r len) as (body & r' & -> & Hb); [unfold fits in *; lia|].
    apply Forall_app in Hr as [Hbody Hr'].
    destruct (IH r') as (es & t & -> & Hes & Ht'); [|done|].
    { simpl in Hn. rewrite length_app in Hn. lia. }
    exists ((id, body) :: es), t. rewrite enc_ies_cons. unfold enc_ie. cbn [fst snd].
    rewrite Hb, <- app_assoc. split; [done|]. split; [|done].
    apply Forall_cons. split; [|done]. split; [done|]. cbn. by rewrite Hb.
Qed.

Definition set_field (el : elems) (f : option elem_field) (v : Z * Z) : elems :=
  match f with Some f => <[f := Some v]> el | None => el end.

Lemma vendor_field_short body : zlen body < 4 -> vendor_field body = None.
Proof.
  intros Hs. unfold vendor_field.
  assert (forall n l, (4 <= length l)%nat -> take n body <> l) as Hne.
  { intros n l Hl <-. rewrite length_take in Hl. unfold zlen in Hs. lia. }
  by rewrite !bool_decide_eq_false_2 by (apply Hne; simpl; lia).
Qed.

Lemma parse_vendor_spec pre body post el :
  bytes_ok body ->
  rtw_ieee802_11_parse_vendor_specific (pre ++ body ++ post) (zlen pre) (zlen body) el =
  Ret (set_field el (vendor_field body) (zlen pre, zlen body),
       match vendor_field body with Some _ => 0 | None => -1 end).
Proof.
  intros Hb. unfold rtw_ieee802_11_parse_vendor_specific.
  destruct (Z.ltb_spec (zlen body) 4) as [Hs|Hs].
  { rewrite vendor_field_short by done. done. }
  destruct body as [|x0 [|x1 [|x2 [|x3 r]]]]; [by exfalso; unfold zlen in Hs; simpl in Hs; lia..|].
  assert (forall k, 0 <= k -> rd (pre ++ (x0 :: x1 :: x2 :: x3 :: r) ++ post) (zlen pre + k)
                    = rd (x0 :: x1 :: x2 :: x3 :: r ++ post) k) as Hrd.
  { intros k Hk. rewrite rd_app_r by lia. f_equal. lia. }
  pose proof (Hrd 0 ltac:(lia)) as H0. rewrite Z.add_0_r in H0.
  rewrite (get_be24_spec _ _ x0 x1 x2);
    [|by rewrite H0|by rewrite Hrd by lia|by rewrite Hrd by lia|by inv Hb; decompose_Forall..].
  simp_res. rewrite (Hrd 3) by lia. change (rd _ 3) with (@Ret Z x3). simp_res.
  do 4 (apply Forall_cons in Hb as [? Hb]). unfold fits in *. change (2 ^ 8) with 256 in *.
  unfold vendor_field, OUI_MICROSOFT, OUI_BROADCOM, VENDOR_HT_CAPAB_OUI_TYPE, WME_OUI_TYPE.
  unfold WME_OUI_SUBTYPE_INFORMATION_ELEMENT, WME_OUI_SUBTYPE_PARAMETER_ELEMENT,
    WME_OUI_SUBTYPE_TSPEC_ELEMENT.
  destruct (Z.eqb_spec (x0 * 65536 + x1 * 256 + x2) 0x0050f2) as [Ho|Ho].
  - assert (x0 = 0 /\ x1 = 0x50 /\ x2 = 0xf2) as (-> & -> & ->) by lia.
    destruct (Z.eqb_spec x3 1) as [->|]; [done|].
    rewrite (bool_decide_eq_false_2 (take 4 _ = [_; _; _; 1])) by (cbn; congruence).
    destruct (Z.eqb_spec x3 2) as [->|].
    + destruct r as [|x4 r]; [done|].
      rewrite (proj2 (Z.ltb_ge _ _)) by zlen_lia.
      rewrite (Hrd 4) by lia. change (rd _ 4) with (@Ret Z x4). simp_res. cbn [take].
      destruct (Z.eqb_spec x4 0) as [->|]; [done|].
      rewrite (bool_decide_eq_false_2 (_ = [_; _; _; _; 0])) by congruence.
      destruct (Z.eqb_spec x4 1) as [->|]; [done|].
      rewrite (bool_decide_eq_false_2 (_ = [_; _; _; _; 1])) by congruence.
      destruct (Z.eqb_spec x4 2) as [->|]; [done|].
      rewrite !bool_decide_eq_false_2 by congruence. done.
    + assert (forall y, take 5 (0 :: 80 :: 242 :: x3 :: r) <> [0; 80; 242; 2; y]) as H5
        by (intros y; cbn; congruence).
      rewrite !(bool_decide_eq_false_2 (take 5 _ = _)) by apply H5. cbn [orb take].
      destruct (Z.eqb_spec x3 4) as [->|]; [done|].
      rewrite !bool_decide_eq_false_2 by congruence. done.
  - assert (forall y l, x0 :: x1 :: x2 :: l <> 0 :: 80 :: 242 :: y) as Hne
      by (intros y l [= -> -> ->]; lia).
    rewrite !(bool_decide_eq_false_2 (_ = 0 :: 80 :: _)) by (cbn; apply Hne). cbn [orb take].
    destruct (Z.eqb_spec (x0 * 65536 + x1 * 256 + x2) 0x00904c) as [Ho'|Ho'].
    + assert (x0 = 0 /\ x1 = 0x90 /\ x2 = 0x4c) as (-> & -> & ->) by lia.
      destruct (Z.eqb_spec x3 0x33) as [->|]; [done|].
      by rewrite bool_decide_eq_false_2 by congruence.
    + rewrite bool_decide_eq_false_2; [done|]. intros [= -> -> ->]. lia.
Qed.

Lemma parse_elem_spec pre e post el :
  bytes_ok e.2 ->
  parse_elem (pre ++ e.2 ++ post) e.1 (zlen pre) (zlen e.2) el =
  Ret (set_field el (ie_field e) (zlen pre, zlen e.2),
       match ie_field e with Some _ => 0 | None => 1 end).
Proof.
  intros Hb. unfold parse_elem, ie_field. destruct (e.1 =? WLAN_EID_VENDOR_SPECIFIC).
  - rewrite parse_vendor_spec by done. simp_res. by destruct (vendor_field e.2).
  - by destruct (eid_field e.1).
Qed.

(** The loop over whole elements followed by a tail [t]. *)
Lemma parse_elems_loop_spec es : forall fuel pre t post unknown el,
  Forall wf_ie es -> (t = [] \/ truncated t) -> (length es < fuel)%nat -> 0 <= unknown ->
  exists el', parse_elems_loop fuel (pre ++ (enc_ies es ++ t) ++ post) (zlen pre)
      (zlen (enc_ies es ++ t)) unknown el =
    Ret (if bool_decide (t = [])
         then if all_known es && (unknown =? 0) then ParseOK else ParseUnknown
         else ParseFailed, el') /\
    forall f, el' f = match last_ie es (zlen pre) f with Some r => Some r | None => el f end.
Proof.
  induction es as [|e es IH]; intros fuel pre t post unknown el Hes Ht Hf Hu;
    (destruct fuel as [|fuel]; [lia|]); cbn [parse_elems_loop].
  - rewrite enc_ies_nil. cbn [app]. exists el. split; [|done].
    destruct t as [|x [|y r]]; [by destruct Ht|done|].
    destruct Ht as [?|Ht]; [done|]. cbn in Ht. rewrite (proj2 (Z.leb_le _ _)) by zlen_lia.
    rewrite (rd_app_r _ _ (zlen pre)), Z.sub_diag by lia. change (rd _ 0) with (@Ret Z x). simp_res.
    rewrite rd_app_r by lia. replace (zlen pre + 1 - zlen pre) with 1 by lia.
    change (rd _ 1) with (@Ret Z y). simp_res.
    rewrite (proj2 (Z.ltb_lt _ _)) by zlen_lia. done.
  - apply Forall_cons in Hes as [(Hid & Hlen & Hbody) Hes].
    rewrite enc_ies_cons, <- !app_assoc, !zlen_app, zlen_enc_ie.
    pose proof (zlen_nonneg (enc_ies es)). pose proof (zlen_nonneg t). pose proof (zlen_nonneg e.2).
    zdecide. rewrite (rd_enc_id _ _ _ (zlen pre)) by done. simp_res.
    rewrite rd_enc_len by lia. simp_res. zdecide.
    assert (pre ++ enc_ie e ++ enc_ies es ++ t ++ post =
            (pre ++ [e.1; zlen e.2]) ++ e.2 ++ enc_ies es ++ t ++ post) as ->
      by (by rewrite <- app_assoc).
    replace (zlen pre + 2) with (zlen (pre ++ [e.1; zlen e.2])) by zlen_lia.
    rewrite parse_elem_spec by done. simp_res.
    destruct (IH fuel (pre ++ enc_ie e) t post
                (unknown + match ie_field e with Some _ => 0 | None => 1 end)
                (set_field el (ie_field e) (zlen (pre ++ [e.1; zlen e.2]), zlen e.2)))
      as (el' & Heq & Hel'); [done|done|simpl in Hf; lia|destruct (ie_field e); lia|].
    exists el'. split.
    + rewrite zlen_app, zlen_enc_ie, zlen_app in Heq. rewrite zlen_app.
      replace (zlen pre + (zlen e.2 + 2)) with (zlen pre + zlen [e.1; zlen e.2] + zlen e.2) in Heq
        by zlen_lia.
      replace (zlen e.2 + 2 + zlen (enc_ies es) + zlen t - 2 - zlen e.2)
        with (zlen (enc_ies es) + zlen t) by lia.
      etransitivity; [etransitivity; [|exact Heq]|].
      * rewrite <- !app_assoc. cbn [app]. unfold enc_ie. cbn [app]. f_equal; rewrite ?zlen_app; done || lia.
      * do 2 f_equal. case_bool_decide; [|done]. cbn [all_known forallb].
        destruct (ie_field e); cbn; rewrite ?Z.add_0_r; [done|].
        rewrite (proj2 (Z.eqb_neq _ _)) by lia. by rewrite andb_false_r.
    + intros f. rewrite Hel'. cbn [last_ie]. rewrite zlen_app, zlen_enc_ie.
      replace (zlen pre + (zlen e.2 + 2)) with (zlen pre + 2 + zlen e.2) by lia.
      destruct (last_ie es _ f); [done|]. rewrite zlen_app.
      replace (zlen pre + zlen [e.1; zlen e.2]) with (zlen pre + 2) by zlen_lia.
      unfold set_field. destruct (ie_field e) as [g|]; [|by rewrite bool_decide_eq_false_2].
      destruct (decide (g = f)) as [->|].
      * by rewrite fn_lookup_insert, bool_decide_eq_true_2.
      * by rewrite fn_lookup_insert_ne, bool_decide_eq_false_2 by congruence.
Qed.

(** The parser on whole elements followed by a tail. *)
Lemma parse_elems_enc pre es t post : Forall wf_ie es -> t = [] \/ truncated t ->
  exists el, rtw_ieee802_11_parse_elems (pre ++ (enc_ies es ++ t) ++ post) (zlen pre) (zlen (enc_ies es ++ t)) =
      Ret (if bool_decide (t = []) then if all_known es then ParseOK else ParseUnknown else ParseFailed, el) /\
    forall f, el f = last_ie es (zlen pre) f.
Proof.
  intros Hes Ht. unfold rtw_ieee802_11_parse_elems.
  destruct (parse_elems_loop_spec es (S (Z.to_nat (zlen (enc_ies es ++ t)))) pre t post 0
              (fun _ => None)) as (el & Heq & Hel); [done|done| |done|].
  { rewrite zlen_to_nat, length_app. pose proof (enc_ies_length es). lia. }
  exists el. rewrite Heq, andb_true_r. split; [done|]. intros f. rewrite Hel. by destruct (last_ie es _ f).
Qed.

(** C5: the complete behaviour of [rtw_ieee802_11_parse_elems] on every byte
    string: it terminates without reading outside the [len] bytes; the input
    splits into whole elements and a tail, the result is [ParseFailed] exactly
    when the tail is not empty, [ParseOK] when every element is known; and each
    field of the table is the last element of its kind. *)
Theorem rtw_ieee802_11_parse_elems_spec pre l post :
  bytes_ok l ->
  exists es t el,
    l = enc_ies es ++ t /\ Forall wf_ie es /\ (t = [] \/ truncated t) /\
    rtw_ieee802_11_parse_elems (pre ++ l ++ post) (zlen pre) (zlen l) =
      Ret (if bool_decide (t = [])
           then if all_known es then ParseOK else ParseUnknown else ParseFailed, el) /\
    forall f, el f = last_ie es (zlen pre) f.
Proof.
  intros Hl. destruct (split_elements (length l) l) as (es & t & -> & Hes & Ht); [done..|].
  destruct (parse_elems_enc pre es t post Hes Ht) as (el & E & Hel). by exists es, t, el.
Qed.

Lemma rtw_ieee802_11_parse_elems_spec_witness :
  exists es t el,
    [0; 2; 65; 66; 221; 4; 0; 0x50; 0xf2; 1; 48] = enc_ies es ++ t /\ Forall wf_ie es /\
    (t = [] \/ truncated t) /\
    rtw_ieee802_11_parse_elems ([9] ++ [0; 2; 65; 66; 221; 4; 0; 0x50; 0xf2; 1; 48] ++ []) 1 11 =
      Ret (if bool_decide (t = [])
           then if all_known es then ParseOK else ParseUnknown else ParseFailed, el) /\
    forall f, el f = last_ie es 1 f.
Proof.
  apply (rtw_ieee802_11_parse_elems_spec [9] [0; 2; 65; 66; 221; 4; 0; 0x50; 0xf2; 1; 48] []).
  by_eval.
Defined.

Lemma last_ie_bounds es : forall off f p n,
  last_ie es off f = Some (p, n) ->
  off + 2 <= p /\ p + n <= off + zlen (enc_ies es) /\
  exists e, e ∈ es /\ ie_field e = Some f /\ zlen e.2 = n.
Proof.
  induction es as [|e es IH]; intros off f p n H; [done|]. cbn [last_ie] in H.
  rewrite enc_ies_cons, zlen_app, zlen_enc_ie.
  pose proof (zlen_nonneg (enc_ies es)). pose proof (zlen_nonneg e.2).
  destruct (last_ie es (off + 2 + zlen e.2) f) as [[p' n']|] eqn:E.
  - simplify_eq. apply IH in E as (? & ? & e' & ? & ? & ?).
    split; [lia|]. split; [lia|]. exists e'. split; [by right|done].
  - case_bool_decide; [|done]. simplify_eq. split; [lia|]. split; [lia|].
    exists e. split; [by left|done].
Qed.

(** Whatever the frame holds, every pair of the parsed table describes a
    range that lies inside the parsed bytes. *)
Theorem rtw_ieee802_11_parse_elems_bounds pre l post r el f p n :
  bytes_ok l ->
  rtw_ieee802_11_parse_elems (pre ++ l ++ post) (zlen pre) (zlen l) = Ret (r, el) ->
  el f = Some (p, n) ->
  zlen pre + 2 <= p /\ p + n <= zlen pre + zlen l /\ is_u8 n.
Proof.
  intros Hl Hr Hf. destruct (split_elements (length l) l) as (es & t & -> & Hes & Ht); [done..|].
  destruct (parse_elems_enc pre es t post Hes Ht) as (el' & Heq & Hel).
  rewrite Heq in Hr. injection Hr as _ <-. rewrite Hel in Hf. rename Hf into E.
  apply last_ie_bounds in E as (? & ? & e & He & _ & <-).
  split; [done|]. split; [rewrite zlen_app; zlen_lia|].
  eapply Forall_forall in Hes; [|exact He]. by destruct Hes as (_ & ? & _).
Qed.

(** The same at any place of a buffer. *)
Lemma parse_elems_total b pos left : bytes_ok b -> 0 <= pos -> 0 <= left -> pos + left <= zlen b ->
  exists r el, rtw_ieee802_11_parse_elems b pos left = Ret (r, el) /\ forall f p l, el f = Some (p, l) -> pos + 2 <= p /\ p + l <= pos + left /\ is_u8 l.
Proof.
  intros Hb Hp Hl Hz. destruct (slice_total b pos left) as (l & E & Hlen); [done..|].
  assert (bytes_ok l) as Hbl by (rewrite slice_Ret in E by lia; injection E as <-; by apply Forall_take, Forall_drop).
  apply slice_inv in E as (_ & _ & _ & _ & Eb). set (pre := take (Z.to_nat pos) b) in Eb.
  assert (zlen pre = pos) as Hpre by (unfold pre, zlen in *; rewrite length_take; lia). rewrite Eb.
  destruct (split_elements (length l) l) as (es & t & El & Hes & Ht); [done..|].
  destruct (parse_elems_enc pre es t (drop (Z.to_nat (pos + left)) b) Hes Ht) as (el & E & _). rewrite <- El, Hpre, Hlen in E. eexists _, el. split; [exact E|].
  intros f p n Hf. rewrite <- Hpre, <- Hlen in *. by eapply rtw_ieee802_11_parse_elems_bounds.
Qed.

Lemma rtw_ieee802_11_parse_elems_bounds_witness :
  exists r el p n,
    rtw_ieee802_11_parse_elems ([9] ++ [0; 2; 65; 66; 48; 1; 7] ++ []) 1 7 = Ret (r, el) /\
    el rsn_ie = Some (p, n) /\ 1 + 2 <= p /\ p + n <= 1 + 7 /\ is_u8 n.
Proof.
  do 4 eexists. split; [reflexivity|]. split; [reflexivity|].
  eapply (rtw_ieee802_11_parse_elems_bounds [9] [0; 2; 65; 66; 48; 1; 7] [] _ _ rsn_ie);
    [by_eval|reflexivity|reflexivity].
Defined.

End Elems.
