(* ===== verification/Rsn.v ===== *)
(** * WPA and RSN elements

    Models the suite selectors and the WPA/RSN element parsers of
    [core/rtw_ieee80211.c]: [rtw_get_wpa_ie], [rtw_get_wpa2_ie],
    [rtw_get_wpa_cipher_suite], [rtw_get_rsn_cipher_suite],
    [rtw_get_akm_suite_bitmap], [rtw_parse_wpa_ie], [rtw_rsne_info_parse],
    [rtw_parse_wpa2_ie] and [rtw_get_sec_ie]. *)
From S2P Require Import Prelude Ies.

Module Rsn.
Import Ies.

Definition _FAIL : Z := 0.
Definition _SUCCESS : Z := 1.

(** ** Suite selectors *)

Definition WPA_CIPHER_NONE : Z := Z.shiftl 1 0.
Definition WPA_CIPHER_WEP40 : Z := Z.shiftl 1 1.
Definition WPA_CIPHER_WEP104 : Z := Z.shiftl 1 2.
Definition WPA_CIPHER_TKIP : Z := Z.shiftl 1 3.
Definition WPA_CIPHER_CCMP : Z := Z.shiftl 1 4.
Definition WPA_CIPHER_GCMP : Z := Z.shiftl 1 5.
Definition WPA_CIPHER_GCMP_256 : Z := Z.shiftl 1 6.
Definition WPA_CIPHER_CCMP_256 : Z := Z.shiftl 1 7.
Definition WPA_CIPHER_BIP_CMAC_128 : Z := Z.shiftl 1 8.
Definition WPA_CIPHER_BIP_GMAC_128 : Z := Z.shiftl 1 9.
Definition WPA_CIPHER_BIP_GMAC_256 : Z := Z.shiftl 1 10.
Definition WPA_CIPHER_BIP_CMAC_256 : Z := Z.shiftl 1 11.

(** A chain of [if (memcmp(s, KEY, 4) == _TRUE) return VAL;] ending in
    [return 0]. *)
Fixpoint selector_chain (tbl : list (list Z * Z)) (b : list Z) (s : Z) : res Z :=
  match tbl with
  | [] => Ret 0
  | (key, val) :: tbl =>
      m ← memcmp_at b s key;
      if (m : bool) then Ret val else selector_chain tbl b s
  end.

(** The WPA cipher suites in the order they are compared. *)
Definition wpa_cipher_suites : list (list Z * Z) :=
  [([0x00; 0x50; 0xf2; 0], WPA_CIPHER_NONE);
   ([0x00; 0x50; 0xf2; 1], WPA_CIPHER_WEP40);
   ([0x00; 0x50; 0xf2; 2], WPA_CIPHER_TKIP);
   ([0x00; 0x50; 0xf2; 4], WPA_CIPHER_CCMP);
   ([0x00; 0x50; 0xf2; 5], WPA_CIPHER_WEP104)].

Definition rtw_get_wpa_cipher_suite : list Z -> Z -> res Z := selector_chain wpa_cipher_suites.

Definition rsn_cipher_suites : list (list Z * Z) :=
  [([0x00; 0x0f; 0xac; 0], WPA_CIPHER_NONE);
   ([0x00; 0x0f; 0xac; 1], WPA_CIPHER_WEP40);
   ([0x00; 0x0f; 0xac; 2], WPA_CIPHER_TKIP);
   ([0x00; 0x0f; 0xac; 4], WPA_CIPHER_CCMP);
   ([0x00; 0x0f; 0xac; 8], WPA_CIPHER_GCMP);
   ([0x00; 0x0f; 0xac; 9], WPA_CIPHER_GCMP_256);
   ([0x00; 0x0f; 0xac; 10], WPA_CIPHER_CCMP_256);
   ([0x00; 0x0f; 0xac; 5], WPA_CIPHER_WEP104);
   ([0x00; 0x0f; 0xac; 6], WPA_CIPHER_BIP_CMAC_128);
   ([0x00; 0x0f; 0xac; 11], WPA_CIPHER_BIP_GMAC_128);
   ([0x00; 0x0f; 0xac; 12], WPA_CIPHER_BIP_GMAC_256);
   ([0x00; 0x0f; 0xac; 13], WPA_CIPHER_BIP_CMAC_256)].

Definition rtw_get_rsn_cipher_suite : list Z -> Z -> res Z := selector_chain rsn_cipher_suites.

Definition WLAN_AKM_TYPE_8021X : Z := Z.shiftl 1 0.

(** [WLAN_AKM_*] selectors with [WLAN_AKM_TYPE_*]. *)
Definition akm_suites : list (list Z * Z) :=
  [([0x00; 0x0f; 0xac; 1], WLAN_AKM_TYPE_8021X);
   ([0x00; 0x0f; 0xac; 2], Z.shiftl 1 1);
   ([0x00; 0x0f; 0xac; 3], Z.shiftl 1 2);
   ([0x00; 0x0f; 0xac; 4], Z.shiftl 1 3);
   ([0x00; 0x0f; 0xac; 5], Z.shiftl 1 4);
   ([0x00; 0x0f; 0xac; 6], Z.shiftl 1 5);
   ([0x00; 0x0f; 0xac; 7], Z.shiftl 1 6);
   ([0x00; 0x0f; 0xac; 8], Z.shiftl 1 7);
   ([0x00; 0x0f; 0xac; 9], Z.shiftl 1 8);
   ([0x00; 0x0f; 0xac; 11], Z.shiftl 1 9);
   ([0x00; 0x0f; 0xac; 12], Z.shiftl 1 10);
   ([0x00; 0x0f; 0xac; 14], Z.shiftl 1 11);
   ([0x00; 0x0f; 0xac; 15], Z.shiftl 1 12);
   ([0x00; 0x0f; 0xac; 16], Z.shiftl 1 13);
   ([0x00; 0x0f; 0xac; 17], Z.shiftl 1 14)].

Definition rtw_get_akm_suite_bitmap : list Z -> Z -> res Z := selector_chain akm_suites.

(** [for (i = 0; i < cnt; i++) acc |= sel(p + 4 * i)]. *)
Fixpoint or_suites (sel : list Z -> Z -> res Z) (cnt : nat) (b : list Z) (p acc : Z) : res Z :=
  match cnt with
  | O => Ret acc
  | S cnt => v ← sel b p; or_suites sel cnt b (p + 4) (Z.lor acc v)
  end.

(** ** Finding the WPA element *)

Definition _WPA_IE_ID_ : Z := 221.
Definition _WPA2_IE_ID_ : Z := 48.
Definition RTW_WPA_OUI_TYPE : list Z := [0x00; 0x50; 0xf2; 1].

(** The [while (1)] of [rtw_get_wpa_ie].  Each round consumes at least two
    bytes of [limit]. *)
Fixpoint get_wpa_ie_loop (fuel : nat) (b : list Z) (pie limit pbuf limit_new len : Z)
  : res (option Z * Z) :=
  match fuel with
  | O => NoFuel
  | S fuel =>
      r ← rtw_get_ie b pbuf _WPA_IE_ID_ len limit_new;
      match r with
      | (None, _) => Ret (None, 0)
      | (Some pbuf, len) =>
          let check_next_ie :=
            let limit_new := limit - (pbuf - pie) - 2 - len in
            if limit_new <=? 0 then Ret (None, 0)
            else get_wpa_ie_loop fuel b pie limit (pbuf + (2 + len)) limit_new len in
          m ← memcmp_at b (pbuf + 2) RTW_WPA_OUI_TYPE;
          if negb m then check_next_ie
          else
            val16 ← get_le16 b (pbuf + 6);
            if negb (val16 =? 1) then check_next_ie
            else l ← rd b (pbuf + 1); Ret (Some pbuf, l)
      end
  end.

Definition rtw_get_wpa_ie (b : list Z) (pie limit : Z) : res (option Z * Z) :=
  get_wpa_ie_loop (S (Z.to_nat limit)) b pie limit pie limit 0.

Definition rtw_get_wpa2_ie (b : list Z) (pie len0 limit : Z) : res (option Z * Z) :=
  rtw_get_ie b pie _WPA2_IE_ID_ len0 limit.

(** ** The WPA element *)

(** The caller's output variables of [rtw_parse_wpa_ie]. *)
Record wpa_out := WpaOut { w_group : Z; w_pairwise : Z; w_akm : Z }.

(** After the pairwise suites: the first authentication suite. *)
Definition parse_wpa_akm (b : list Z) (pos left : Z) (o : wpa_out) : res (Z * wpa_out) :=
  if 6 <=? left then
    m ← memcmp_at b (pos + 2) RTW_WPA_OUI_TYPE;
    Ret (_SUCCESS, if (m : bool) then WpaOut (w_group o) (w_pairwise o) WLAN_AKM_TYPE_8021X else o)
  else Ret (_SUCCESS, o).

Definition parse_wpa_pairwise (b : list Z) (pos left : Z) (o : wpa_out) : res (Z * wpa_out) :=
  if 2 <=? left then
    count ← get_le16 b pos;
    if (count =? 0) || (left - 2 <? count * 4) then Ret (_FAIL, o)
    else
      p ← or_suites rtw_get_wpa_cipher_suite (Z.to_nat count) b (pos + 2) (w_pairwise o);
      parse_wpa_akm b (pos + 2 + 4 * count) (left - 2 - 4 * count)
        (WpaOut (w_group o) p (w_akm o))
  else if left =? 1 then Ret (_FAIL, o)
  else parse_wpa_akm b pos left o.

(** [rtw_parse_wpa_ie] with all output pointers given. *)
Definition rtw_parse_wpa_ie (b : list Z) (wpa_ie wpa_ie_len : Z) (o : wpa_out)
  : res (Z * wpa_out) :=
  if wpa_ie_len <=? 0 then Ret (_FAIL, o)
  else
    id ← rd b wpa_ie;
    if negb (id =? _WPA_IE_ID_) then Ret (_FAIL, o)
    else
      l ← rd b (wpa_ie + 1);
      if negb (l =? u8 (wpa_ie_len - 2)) then Ret (_FAIL, o)
      else
        m ← memcmp_at b (wpa_ie + 2) RTW_WPA_OUI_TYPE;
        if negb m then Ret (_FAIL, o)
        else
          let pos := wpa_ie + 8 in
          let left := wpa_ie_len - 8 in
          if 4 <=? left then
            g ← rtw_get_wpa_cipher_suite b pos;
            parse_wpa_pairwise b (pos + 4) (left - 4) (WpaOut g (w_pairwise o) (w_akm o))
          else if 0 <? left then Ret (_FAIL, o)
          else parse_wpa_pairwise b pos left o.

(** ** The RSN element *)

Record rsne_info := RsneInfo {
  gcs : option Z;
  pcs_cnt : Z; pcs_list : option Z;
  akm_cnt : Z; akm_list : option Z;
  cap : option Z;
  pmkid_cnt : Z; pmkid_list : option Z;
  gmcs : option Z;
  err : Z }.

Definition rsne_zero : rsne_info := RsneInfo None 0 None 0 None None 0 None None 0.
Definition set_gcs p i := RsneInfo (Some p) (pcs_cnt i) (pcs_list i) (akm_cnt i) (akm_list i)
  (cap i) (pmkid_cnt i) (pmkid_list i) (gmcs i) (err i).
Definition set_pcs c p i := RsneInfo (gcs i) c (Some p) (akm_cnt i) (akm_list i)
  (cap i) (pmkid_cnt i) (pmkid_list i) (gmcs i) (err i).
Definition set_akm c p i := RsneInfo (gcs i) (pcs_cnt i) (pcs_list i) c (Some p)
  (cap i) (pmkid_cnt i) (pmkid_list i) (gmcs i) (err i).
Definition set_cap p i := RsneInfo (gcs i) (pcs_cnt i) (pcs_list i) (akm_cnt i) (akm_list i)
  (Some p) (pmkid_cnt i) (pmkid_list i) (gmcs i) (err i).
Definition set_pmkid c p i := RsneInfo (gcs i) (pcs_cnt i) (pcs_list i) (akm_cnt i) (akm_list i)
  (cap i) c (Some p) (gmcs i) (err i).
Definition set_gmcs p i := RsneInfo (gcs i) (pcs_cnt i) (pcs_list i) (akm_cnt i) (akm_list i)
  (cap i) (pmkid_cnt i) (pmkid_list i) (Some p) (err i).
Definition set_err i := RsneInfo (gcs i) (pcs_cnt i) (pcs_list i) (akm_cnt i) (akm_list i)
  (cap i) (pmkid_cnt i) (pmkid_list i) (gmcs i) 1.

(** The labels [err:] and [exit:]. *)
Definition rsne_err (i : rsne_info) : res (Z * rsne_info) := Ret (_FAIL, set_err i).
Definition rsne_exit (i : rsne_info) : res (Z * rsne_info) := Ret (_SUCCESS, i).

(** [if (ie + ie_len != pos) goto err; goto exit;] *)
Definition rsne_stop (e pos : Z) (i : rsne_info) : res (Z * rsne_info) :=
  if negb (e =? pos) then rsne_err i else rsne_exit i.

(** From [/* PMKID */] on; [e] is [ie + ie_len]. *)
Definition rsne_parse_pmkid (b : list Z) (e pos : Z) (i : rsne_info) : res (Z * rsne_info) :=
  if e <? pos + 2 then rsne_stop e pos i
  else
    cnt ← get_le16 b pos;
    let pos := pos + 2 in
    if e <? pos + 16 * cnt then rsne_err i
    else
      let i := set_pmkid cnt pos i in
      let pos := pos + 16 * cnt in
      if e <? pos + 4 then rsne_stop e pos i
      else rsne_exit (set_gmcs pos i).

(** From [/* AKM */] on. *)
Definition rsne_parse_akm (b : list Z) (e pos : Z) (i : rsne_info) : res (Z * rsne_info) :=
  if e <? pos + 2 then rsne_stop e pos i
  else
    cnt ← get_le16 b pos;
    let pos := pos + 2 in
    if e <? pos + 4 * cnt then rsne_stop e pos i
    else
      let i := set_akm cnt pos i in
      let pos := pos + 4 * cnt in
      if e <? pos + 2 then rsne_stop e pos i
      else rsne_parse_pmkid b e (pos + 2) (set_cap pos i).

(** From [/* Group CS */] on. *)
Definition rsne_parse_gcs (b : list Z) (e pos : Z) (i : rsne_info) : res (Z * rsne_info) :=
  if e <? pos + 4 then rsne_stop e pos i
  else
    let i := set_gcs pos i in
    let pos := pos + 4 in
    if e <? pos + 2 then rsne_stop e pos i
    else
      cnt ← get_le16 b pos;
      let pos := pos + 2 in
      if e <? pos + 4 * cnt then rsne_stop e pos i
      else rsne_parse_akm b e (pos + 4 * cnt) (set_pcs cnt pos i).

Definition rtw_rsne_info_parse (b : list Z) (ie ie_len : Z) : res (Z * rsne_info) :=
  let i := rsne_zero in
  let e := ie + ie_len in
  if e <? ie + 4 then rsne_err i
  else
    id ← rd b ie;
    if negb (id =? _WPA2_IE_ID_) then rsne_err i
    else
      l ← rd b (ie + 1);
      if negb (l =? u32 (ie_len - 2)) then rsne_err i
      else
        ver ← get_le16 b (ie + 2);
        if negb (1 =? ver) then rsne_err i
        else rsne_parse_gcs b e (ie + 4) i.

(** The outputs of [rtw_parse_wpa2_ie] (all output pointers given). *)
Record rsn_out := RsnOut {
  group_cipher : Z; pairwise_cipher : Z; group_mgmt_cipher : Z;
  akm : Z; mfp_opt : Z; spp_opt : Z }.

Definition MFP_NO : Z := 0.

(** [LE_BITS_TO_2BYTE(cap, off, 2)]. *)
Definition cap_bits (b : list Z) (p off : Z) : res Z :=
  v ← get_le16 b p; Ret (Z.land (Z.shiftr v off) 0x3).

(** [rtw_parse_wpa2_ie]: the outputs are only written on success. *)
Definition rtw_parse_wpa2_ie (b : list Z) (rsn_ie rsn_ie_len : Z) : res (Z * option rsn_out) :=
  r ← rtw_rsne_info_parse b rsn_ie rsn_ie_len;
  let '(ret, info) := r in
  if negb (ret =? _SUCCESS) then Ret (ret, None)
  else
    g ← match gcs info with Some p => rtw_get_rsn_cipher_suite b p | None => Ret 0 end;
    p ← match pcs_list info with
        | Some p => or_suites rtw_get_rsn_cipher_suite (Z.to_nat (pcs_cnt info)) b p 0
        | None => Ret 0
        end;
    gm ← match gmcs info with
         | Some p => rtw_get_rsn_cipher_suite b p
         | None => Ret WPA_CIPHER_BIP_CMAC_128
         end;
    a ← match akm_list info with
        | Some p => or_suites rtw_get_akm_suite_bitmap (Z.to_nat (akm_cnt info)) b p 0
        | None => Ret 0
        end;
    m ← match cap info with Some p => cap_bits b p 6 | None => Ret MFP_NO end;
    s ← match cap info with Some p => cap_bits b p 10 | None => Ret 0 end;
    Ret (ret, Some (RsnOut g p gm a m s)).

(** ** Extracting both elements of a beacon *)

Definition _FIXED_IE_LENGTH_ : Z := 12.

(** The [while (cnt < in_len)] of [rtw_get_sec_ie]; the destination buffers
    are the objects [rsn] and [wpa] ([None] for [NULL]). *)
Fixpoint sec_ie_loop (fuel : nat) (b : list Z) (in_ie in_len cnt : Z)
    (rsn wpa : option (list Z)) (rsn_len wpa_len : Z)
  : res (option (list Z) * Z * option (list Z) * Z) :=
  match fuel with
  | O => NoFuel
  | S fuel =>
      if cnt <? in_len then
        authmode ← rd b (in_ie + cnt);
        is_wpa ← (if authmode =? _WPA_IE_ID_
                  then memcmp_at b (in_ie + cnt + 2) RTW_WPA_OUI_TYPE else Ret false);
        l ← rd b (in_ie + cnt + 1);
        let copy := fun dst : option (list Z) =>
          match dst with
          | Some d => s ← slice b (in_ie + cnt) (l + 2); d ← splice d 0 s; Ret (Some d)
          | None => Ret None
          end in
        if (is_wpa : bool) then
          wpa ← copy wpa;
          sec_ie_loop fuel b in_ie in_len (cnt + (l + 2)) rsn wpa rsn_len (u16 (l + 2))
        else if authmode =? _WPA2_IE_ID_ then
          rsn ← copy rsn;
          sec_ie_loop fuel b in_ie in_len (cnt + (l + 2)) rsn wpa (u16 (l + 2)) wpa_len
        else sec_ie_loop fuel b in_ie in_len (cnt + (l + 2)) rsn wpa rsn_len wpa_len
      else Ret (rsn, rsn_len, wpa, wpa_len)
  end.

(** [rtw_get_sec_ie]: the buffers and lengths, and the returned sum. *)
Definition rtw_get_sec_ie (b : list Z) (in_ie in_len : Z) (rsn wpa : option (list Z))
    (rsn_len wpa_len : Z) : res (option (list Z) * Z * option (list Z) * Z * Z) :=
  r ← sec_ie_loop (S (Z.to_nat in_len)) b in_ie in_len _FIXED_IE_LENGTH_ rsn wpa rsn_len wpa_len;
  let '(rsn, rl, wpa, wl) := r in
  Ret (rsn, rl, wpa, wl, rl + wl).

(** ** Selectors as lookups *)

Fixpoint suite_of (tbl : list (list Z * Z)) (s : list Z) : Z :=
  match tbl with
  | [] => 0
  | (key, val) :: tbl => if bool_decide (s = key) then val else suite_of tbl s
  end.

Definition suites_of (tbl : list (list Z * Z)) (ss : list (list Z)) : Z :=
  fold_right (fun s acc => Z.lor (suite_of tbl s) acc) 0 ss.

(** What the three selector tables have in common. *)
Class Selectors (w : Z) (tbl : list (list Z * Z)) : Prop := {
  sel_width : 0 <= w;
  sel_keys : Forall (fun kv => zlen kv.1 = 4) tbl;
  sel_vals : Forall (fun kv => fits w kv.2) tbl }.

#[export] Instance wpa_selectors : Selectors 12 wpa_cipher_suites.
Proof. split; [lia|by_eval|by_eval]. Qed.
#[export] Instance rsn_selectors : Selectors 12 rsn_cipher_suites.
Proof. split; [lia|by_eval|by_eval]. Qed.
#[export] Instance akm_selectors : Selectors 15 akm_suites.
Proof. split; [lia|by_eval|by_eval]. Qed.

Section Selectors.
Context {w : Z} (tbl : list (list Z * Z)) {HS : Selectors w tbl}.

Lemma selector_chain_spec b p s :
  at_off b p s -> zlen s = 4 -> selector_chain tbl b p = Ret (suite_of tbl s).
Proof using HS.
  intros Hat Hs. pose proof sel_keys as Hk. clear HS.
  induction Hk as [|[key val] tbl' Hkey _ IH]; [done|]. cbn [selector_chain suite_of].
  rewrite (at_off_memcmp _ _ s) by (cbn in Hkey; congruence). simp_res.
  by case_bool_decide.
Qed.

Lemma suite_of_fits s : fits w (suite_of tbl s).
Proof using HS.
  pose proof sel_width. pose proof sel_vals as Hv. clear HS.
  induction Hv as [|[key val] tbl' Hval _ IH]; cbn [suite_of].
  - unfold fits. split; [lia|]. by apply Z.pow_pos_nonneg.
  - by case_bool_decide.
Qed.

Lemma selector_chain_total b p :
  0 <= p -> p + 4 <= zlen b -> exists v, selector_chain tbl b p = Ret v /\ fits w v.
Proof using HS.
  intros Hp Hl. destruct (slice_total b p 4) as (s & Hs & Hz); [lia..|].
  exists (suite_of tbl s). split; [|apply suite_of_fits].
  apply selector_chain_spec; [by eapply at_off_of_slice|done].
Qed.

Lemma or_suites_spec ss : forall b p acc,
  at_off b p (concat ss) -> Forall (fun s => zlen s = 4) ss ->
  or_suites (selector_chain tbl) (length ss) b p acc = Ret (Z.lor acc (suites_of tbl ss)).
Proof using HS.
  induction ss as [|s ss IH]; intros b p acc Hat Hss; cbn [or_suites length suites_of fold_right].
  { by rewrite Z.lor_0_r. }
  apply Forall_cons in Hss as [Hs Hss]. cbn [concat] in Hat.
  apply at_off_app in Hat as [H1 H2]. rewrite Hs in H2.
  rewrite (selector_chain_spec _ _ s) by done. simp_res.
  rewrite IH by done. by rewrite <- Z.lor_assoc.
Qed.

Lemma or_suites_total n : forall b p acc,
  fits w acc -> 0 <= p -> p + 4 * Z.of_nat n <= zlen b ->
  exists v, or_suites (selector_chain tbl) n b p acc = Ret v /\ fits w v.
Proof using HS.
  pose proof sel_width.
  induction n as [|n IH]; intros b p acc Hacc Hp Hl; cbn [or_suites]; [by eexists|].
  destruct (selector_chain_total b p) as (v & -> & Hv); [lia..|]. simp_res.
  apply IH; [by apply lor_fits|lia..].
Qed.
End Selectors.

(** ** Safety of the RSN parser *)

(** The range [[p, p + n)] behind a pointer of [rsne_info] lies in [[lo, hi)]. *)
Definition within (lo hi : Z) (p : option Z) (n : Z) : Prop :=
  match p with Some p => lo <= p /\ p + n <= hi | None => True end.

Record rsne_bounds (lo hi : Z) (i : rsne_info) : Prop := {
  rb_gcs : within lo hi (gcs i) 4;
  rb_pcs : within lo hi (pcs_list i) (4 * pcs_cnt i) /\ 0 <= pcs_cnt i;
  rb_akm : within lo hi (akm_list i) (4 * akm_cnt i) /\ 0 <= akm_cnt i;
  rb_cap : within lo hi (cap i) 2;
  rb_pmkid : within lo hi (pmkid_list i) (16 * pmkid_cnt i) /\ 0 <= pmkid_cnt i;
  rb_gmcs : within lo hi (gmcs i) 4 }.

Definition rsne_result_ok (lo hi : Z) (m : res (Z * rsne_info)) : Prop :=
  exists ret i, m = Ret (ret, i) /\ rsne_bounds lo hi i /\
    (ret = _SUCCESS /\ err i = 0 \/ ret = _FAIL /\ err i = 1).

Lemma rsne_stop_ok lo hi e pos i :
  rsne_bounds lo hi i -> err i = 0 -> rsne_result_ok lo hi (rsne_stop e pos i).
Proof.
  intros [] He. unfold rsne_stop, rsne_err, rsne_exit.
  destruct (negb _); (eexists _, _; split; [done|]; split; [by split|auto]).
Qed.

Lemma rsne_err_ok lo hi i : rsne_bounds lo hi i -> rsne_result_ok lo hi (rsne_err i).
Proof. intros []. eexists _, _. split; [done|]. split; [by split|auto]. Qed.

(** Resolves the bounds of an updated [rsne_info]. *)
Ltac rsne_bounds_tac :=
  repeat match goal with H : rsne_bounds _ _ _ |- _ => destruct H end;
  split; cbn in *; try done; try lia.

Ltac rsne_le16 b pos cnt :=
  let Hc := fresh "Hc" in
  destruct (get_le16_total b pos) as (cnt & Hc & ?); [done|lia..|]; rewrite Hc; simp_res;
  unfold fits in *.

Section RsneSafe.
Context (b : list Z) (lo e : Z).
Hypotheses (Hb : bytes_ok b) (Hlo : 0 <= lo) (He : e <= zlen b).

Lemma rsne_parse_pmkid_ok pos i :
  lo <= pos -> rsne_bounds lo e i -> err i = 0 ->
  rsne_result_ok lo e (rsne_parse_pmkid b e pos i).
Proof using Hb Hlo He.
  intros Hp Hi Hz. unfold rsne_parse_pmkid.
  destruct (Z.ltb_spec e (pos + 2)); [by apply rsne_stop_ok|].
  rsne_le16 b pos cnt.
  destruct (Z.ltb_spec e (pos + 2 + 16 * cnt)); [by apply rsne_err_ok|].
  destruct (Z.ltb_spec e (pos + 2 + 16 * cnt + 4)).
  - apply rsne_stop_ok; [rsne_bounds_tac|done].
  - eexists _, _. split; [done|]. split; [rsne_bounds_tac|auto].
Qed.

Lemma rsne_parse_akm_ok pos i :
  lo <= pos -> rsne_bounds lo e i -> err i = 0 ->
  rsne_result_ok lo e (rsne_parse_akm b e pos i).
Proof using Hb Hlo He.
  intros Hp Hi Hz. unfold rsne_parse_akm.
  destruct (Z.ltb_spec e (pos + 2)); [by apply rsne_stop_ok|].
  rsne_le16 b pos cnt.
  destruct (Z.ltb_spec e (pos + 2 + 4 * cnt)); [by apply rsne_stop_ok|].
  destruct (Z.ltb_spec e (pos + 2 + 4 * cnt + 2)).
  - apply rsne_stop_ok; [rsne_bounds_tac|done].
  - apply rsne_parse_pmkid_ok; [lia|rsne_bounds_tac|done].
Qed.

Lemma rsne_parse_gcs_ok pos i :
  lo <= pos -> rsne_bounds lo e i -> err i = 0 ->
  rsne_result_ok lo e (rsne_parse_gcs b e pos i).
Proof using Hb Hlo He.
  intros Hp Hi Hz. unfold rsne_parse_gcs.
  destruct (Z.ltb_spec e (pos + 4)); [by apply rsne_stop_ok|].
  destruct (Z.ltb_spec e (pos + 4 + 2)); [apply rsne_stop_ok; [rsne_bounds_tac|done]|].
  rsne_le16 b (pos + 4) cnt.
  destruct (Z.ltb_spec e (pos + 4 + 2 + 4 * cnt)).
  - apply rsne_stop_ok; [rsne_bounds_tac|done].
  - apply rsne_parse_akm_ok; [lia|rsne_bounds_tac|done].
Qed.
End RsneSafe.

Lemma rsne_info_parse_ok b ie ie_len :
  bytes_ok b -> 0 <= ie -> ie + ie_len <= zlen b ->
  rsne_result_ok ie (ie + ie_len) (rtw_rsne_info_parse b ie ie_len).
Proof.
  intros Hb Hie Hlen. unfold rtw_rsne_info_parse.
  assert (rsne_bounds ie (ie + ie_len) rsne_zero) by (by split).
  destruct (Z.ltb_spec (ie + ie_len) (ie + 4)); [by apply rsne_err_ok|].
  destruct (rd_bytes b ie) as (x & -> & _); [done|lia|]. simp_res.
  destruct (negb _); [by apply rsne_err_ok|].
  destruct (rd_bytes b (ie + 1)) as (y & -> & _); [done|lia|]. simp_res.
  destruct (negb _); [by apply rsne_err_ok|].
  rsne_le16 b (ie + 2) ver.
  destruct (negb _); [by apply rsne_err_ok|].
  apply rsne_parse_gcs_ok; [done|done|lia|lia|done|done].
Qed.

Lemma cap_bits_total b p off :
  bytes_ok b -> 0 <= p -> p + 2 <= zlen b -> exists v, cap_bits b p off = Ret v /\ fits 2 v.
Proof.
  intros. unfold cap_bits. destruct (get_le16_total b p) as (v & -> & _); [done..|]. simp_res.
  eexists; split; [done|]. apply land_fits_r; [lia|done].
Qed.

(** On every byte string that lies inside its object, [rtw_parse_wpa2_ie]
    terminates without reading outside the object; it either fails and leaves
    the outputs alone, or yields cipher bitmaps within the 12 defined cipher
    bits, an AKM bitmap within the 15 defined AKM bits, and two-bit MFP and SPP
    options. *)
Theorem rtw_parse_wpa2_ie_safe b ie ie_len :
  bytes_ok b -> 0 <= ie -> ie + ie_len <= zlen b ->
  rtw_parse_wpa2_ie b ie ie_len = Ret (_FAIL, None) \/
  exists o, rtw_parse_wpa2_ie b ie ie_len = Ret (_SUCCESS, Some o) /\
    fits 12 (group_cipher o) /\ fits 12 (pairwise_cipher o) /\
    fits 12 (group_mgmt_cipher o) /\ fits 15 (akm o) /\
    fits 2 (mfp_opt o) /\ fits 2 (spp_opt o).
Proof.
  intros Hb Hie Hlen. unfold rtw_parse_wpa2_ie.
  destruct (rsne_info_parse_ok b ie ie_len) as (ret & i & -> & [Bg [Bp ?] [Ba ?] Bc _ Bm] & Hr);
    [done..|]. simp_res.
  destruct Hr as [[-> _]|[-> _]]; [right|by left]. cbn [Z.eqb negb _SUCCESS].
  assert (exists v, match gcs i with Some p => rtw_get_rsn_cipher_suite b p | None => Ret 0 end
                    = Ret v /\ fits 12 v) as (g & -> & ?).
  { destruct (gcs i); cbn in Bg; [apply selector_chain_total; [apply _|lia..]|by eexists]. }
  simp_res.
  assert (exists v, match pcs_list i with
    | Some p => or_suites rtw_get_rsn_cipher_suite (Z.to_nat (pcs_cnt i)) b p 0
    | None => Ret 0 end = Ret v /\ fits 12 v) as (p & -> & ?).
  { destruct (pcs_list i); cbn in Bp; [apply or_suites_total; [apply _|done|lia..]|by eexists]. }
  simp_res.
  assert (exists v, match gmcs i with Some p => rtw_get_rsn_cipher_suite b p
    | None => Ret WPA_CIPHER_BIP_CMAC_128 end = Ret v /\ fits 12 v) as (gm & -> & ?).
  { destruct (gmcs i); cbn in Bm; [apply selector_chain_total; [apply _|lia..]|by eexists]. }
  simp_res.
  assert (exists v, match akm_list i with
    | Some p => or_suites rtw_get_akm_suite_bitmap (Z.to_nat (akm_cnt i)) b p 0
    | None => Ret 0 end = Ret v /\ fits 15 v) as (a & -> & ?).
  { destruct (akm_list i); cbn in Ba; [apply or_suites_total; [apply _|done|lia..]|by eexists]. }
  simp_res.
  assert (forall off, exists v, match cap i with Some p => cap_bits b p off | None => Ret 0 end
    = Ret v /\ fits 2 v) as Hcap.
  { intros off. destruct (cap i); cbn in Bc; [apply cap_bits_total; [done|lia..]|by eexists]. }
  destruct (Hcap 6) as (m & Hm & ?). destruct (Hcap 10) as (s & Hs & ?).
  unfold MFP_NO. rewrite Hm. simp_res. rewrite Hs. simp_res.
  eexists. split; [reflexivity|]. cbn. by split_and!.
Qed.

Lemma rtw_parse_wpa2_ie_safe_witness :
  rtw_parse_wpa2_ie [48; 6; 1; 0; 0; 15; 172; 4] 0 8 = Ret (_FAIL, None) \/
  exists o, rtw_parse_wpa2_ie [48; 6; 1; 0; 0; 15; 172; 4] 0 8 = Ret (_SUCCESS, Some o) /\
    fits 12 (group_cipher o) /\ fits 12 (pairwise_cipher o) /\
    fits 12 (group_mgmt_cipher o) /\ fits 15 (akm o) /\
    fits 2 (mfp_opt o) /\ fits 2 (spp_opt o).
Proof.
  apply (rtw_parse_wpa2_ie_safe [48; 6; 1; 0; 0; 15; 172; 4] 0 8); [by_eval|lia|by_eval].
Defined.

(** ** Round trip with the element's encoding *)

(** An RSN element with its mandatory part; the PMKID list and the group
    management suite may be absent. *)
Record rsne := Rsne {
  e_gcs : list Z;
  e_pcs : list (list Z);
  e_akm : list (list Z);
  e_cap : Z;
  e_tail : option (list (list Z) * option (list Z)) }.

Definition enc_list (ss : list (list Z)) : list Z := le16 (zlen ss) ++ concat ss.

Definition enc_tail (t : option (list (list Z) * option (list Z))) : list Z :=
  match t with
  | None => []
  | Some (ks, g) => le16 (zlen ks) ++ concat ks ++ default [] g
  end.

Definition enc_rsne (e : rsne) : list Z :=
  le16 1 ++ e_gcs e ++ le16 (zlen (e_pcs e)) ++ concat (e_pcs e) ++
  le16 (zlen (e_akm e)) ++ concat (e_akm e) ++ le16 (e_cap e) ++ enc_tail (e_tail e).

Record wf_rsne (e : rsne) : Prop := {
  we_gcs : zlen (e_gcs e) = 4;
  we_pcs : Forall (fun s => zlen s = 4) (e_pcs e);
  we_akm : Forall (fun s => zlen s = 4) (e_akm e);
  we_cap : is_u16 (e_cap e);
  we_pmkid : match e_tail e with Some (ks, _) => Forall (fun k => zlen k = 16) ks | None => True end;
  we_gmcs : match e_tail e with Some (_, Some g) => zlen g = 4 | _ => True end;
  we_len : zlen (enc_rsne e) <= 255 }.

(** What the parser must report. *)
Definition rsne_out (e : rsne) : rsn_out :=
  RsnOut (suite_of rsn_cipher_suites (e_gcs e)) (suites_of rsn_cipher_suites (e_pcs e))
    match e_tail e with
    | Some (_, Some g) => suite_of rsn_cipher_suites g
    | _ => WPA_CIPHER_BIP_CMAC_128
    end
    (suites_of akm_suites (e_akm e))
    (Z.land (Z.shiftr (e_cap e) 6) 0x3) (Z.land (Z.shiftr (e_cap e) 10) 0x3).

Lemma zlen_concat (k : Z) (ss : list (list Z)) :
  Forall (fun s => zlen s = k) ss -> zlen (concat ss) = k * zlen ss.
Proof. induction 1; [zlen_lia|]. cbn [concat]. zlen_lia. Qed.

Lemma rsne_stop_end e i : rsne_stop e e i = Ret (_SUCCESS, i).
Proof. unfold rsne_stop. by rewrite Z.eqb_refl. Qed.

Lemma rsne_parse_tail_enc b e pos i t :
  at_off b pos (enc_tail t) -> e = pos + zlen (enc_tail t) -> zlen (enc_tail t) <= 255 ->
  match t with Some (ks, _) => Forall (fun k => zlen k = 16) ks | None => True end ->
  match t with Some (_, Some g) => zlen g = 4 | _ => True end ->
  exists i', rsne_parse_pmkid b e pos i = Ret (_SUCCESS, i') /\
    gcs i' = gcs i /\ pcs_cnt i' = pcs_cnt i /\ pcs_list i' = pcs_list i /\
    akm_cnt i' = akm_cnt i /\ akm_list i' = akm_list i /\ cap i' = cap i /\
    match t with
    | Some (_, Some g) => exists p, gmcs i' = Some p /\ at_off b p g
    | _ => gmcs i' = gmcs i
    end.
Proof.
  intros Hat He Hl Hk Hg. unfold rsne_parse_pmkid. destruct t as [[ks g]|]; cbn [enc_tail] in *.
  - rewrite !zlen_app, (zlen_concat 16), zlen_le16 in * by done.
    pose proof (zlen_nonneg ks). pose proof (zlen_nonneg (default [] g)).
    apply at_off_le16 in Hat as [Hc Hat]; [|unfold fits; lia].
    rewrite (proj2 (Z.ltb_ge e (pos + 2))) by lia. rewrite Hc. simp_res.
    rewrite (proj2 (Z.ltb_ge e (pos + 2 + 16 * zlen ks))) by lia.
    apply at_off_app in Hat as [_ Hat]. rewrite (zlen_concat 16) in Hat by done.
    destruct g as [g|]; cbn [default] in *.
    + rewrite (proj2 (Z.ltb_ge e _)) by (cbn in *; lia).
      eexists. split; [done|]. cbn. split_and!; try done. by eexists.
    + change (default [] None) with (@nil Z) in *. rewrite zlen_nil in *.
      rewrite (proj2 (Z.ltb_lt e _)) by lia.
      replace (pos + 2 + 16 * zlen ks) with e by lia. rewrite rsne_stop_end.
      eexists. by split.
  - rewrite zlen_nil in He. rewrite (proj2 (Z.ltb_lt _ _)) by lia.
    replace pos with e by lia. rewrite rsne_stop_end. eexists. by split.
Qed.

(** The pointers left by a successful parse of an encoded element. *)
Lemma rsne_info_parse_enc b ie e :
  at_off b ie (enc_ie (_WPA2_IE_ID_, enc_rsne e)) -> wf_rsne e ->
  exists i, rtw_rsne_info_parse b ie (zlen (enc_rsne e) + 2) = Ret (_SUCCESS, i) /\
    (exists p, gcs i = Some p /\ at_off b p (e_gcs e)) /\
    (exists p, pcs_list i = Some p /\ at_off b p (concat (e_pcs e))) /\ pcs_cnt i = zlen (e_pcs e) /\
    (exists p, akm_list i = Some p /\ at_off b p (concat (e_akm e))) /\ akm_cnt i = zlen (e_akm e) /\
    (exists p, cap i = Some p /\ get_le16 b p = Ret (e_cap e)) /\
    match e_tail e with
    | Some (_, Some g) => exists p, gmcs i = Some p /\ at_off b p g
    | _ => gmcs i = None
    end.
Proof.
  intros Hat [Hg Hp Ha Hc Hpm Hgm Hlen]. unfold enc_ie in Hat. cbn [fst snd] in Hat.
  apply at_off_cons in Hat as [Hid Hat]. apply at_off_cons in Hat as [Hl Hat].
  unfold rtw_rsne_info_parse. set (en := ie + (zlen (enc_rsne e) + 2)).
  unfold enc_rsne in Hlen, Hat.
  assert (zlen (enc_rsne e) = 12 + 4 * zlen (e_pcs e) + 4 * zlen (e_akm e)
            + zlen (enc_tail (e_tail e))) as Hz.
  { unfold enc_rsne. rewrite !zlen_app, !zlen_le16, !(zlen_concat 4) by done. lia. }
  rewrite !zlen_app, !zlen_le16, !(zlen_concat 4), Hg in Hlen by done.
  pose proof (zlen_nonneg (e_pcs e)). pose proof (zlen_nonneg (e_akm e)).
  pose proof (zlen_nonneg (enc_tail (e_tail e))).
  rewrite (proj2 (Z.ltb_ge en _)) by lia. rewrite Hid. simp_res.
  rewrite Z.eqb_refl. cbn [negb]. rewrite Hl. simp_res.
  rewrite (wrap_small 32) by (unfold fits; lia).
  replace (zlen (enc_rsne e) + 2 - 2) with (zlen (enc_rsne e)) by lia.
  rewrite Z.eqb_refl. cbn [negb]. replace (ie + 1 + 1) with (ie + 2) in Hat by lia.
  apply at_off_le16 in Hat as [Hv Hat]; [|done]. rewrite Hv. simp_res. cbn [Z.eqb Pos.eqb negb].
  replace (ie + 2 + 2) with (ie + 4) in Hat by lia.
  unfold rsne_parse_gcs. rewrite (proj2 (Z.ltb_ge en (ie + 4 + 4))) by lia.
  apply at_off_app in Hat as [Hgcs Hat]. rewrite Hg in Hat.
  rewrite (proj2 (Z.ltb_ge en (ie + 4 + 4 + 2))) by lia.
  apply at_off_le16 in Hat as [Hpc Hat]; [|unfold fits; lia]. rewrite Hpc. simp_res.
  rewrite (proj2 (Z.ltb_ge en _)) by lia.
  apply at_off_app in Hat as [Hpcs Hat]. rewrite (zlen_concat 4) in Hat by done.
  unfold rsne_parse_akm. rewrite (proj2 (Z.ltb_ge en _)) by lia.
  apply at_off_le16 in Hat as [Hac Hat]; [|unfold fits; lia]. rewrite Hac. simp_res.
  rewrite (proj2 (Z.ltb_ge en _)) by lia.
  apply at_off_app in Hat as [Hakm Hat]. rewrite (zlen_concat 4) in Hat by done.
  rewrite (proj2 (Z.ltb_ge en _)) by lia.
  apply at_off_le16 in Hat as [Hcap Hat]; [|done].
  match goal with |- context [rsne_parse_pmkid b en ?p ?i] =>
    destruct (rsne_parse_tail_enc b en p i (e_tail e))
      as (i' & Heq & E1 & E2 & E3 & E4 & E5 & E6 & E7); [done|lia|lia|done|done|] end.
  exists i'. split; [exact Heq|]. rewrite E1, E2, E3, E4, E5, E6. cbn.
  split_and!; try done; try (by eexists).
Qed.

(** C25: [rtw_parse_wpa2_ie] is a left inverse of the encoding of RSN elements:
    on an encoded element, anywhere in a larger object, it succeeds and reports
    exactly the suites and capability bits that were encoded, with
    BIP-CMAC-128 as the default group management suite. *)
Theorem rtw_parse_wpa2_ie_roundtrip pre e post :
  wf_rsne e ->
  rtw_parse_wpa2_ie (pre ++ enc_ie (_WPA2_IE_ID_, enc_rsne e) ++ post) (zlen pre)
    (zlen (enc_rsne e) + 2) =
  Ret (_SUCCESS, Some (rsne_out e)).
Proof.
  intros Hwf. set (b := pre ++ _ ++ post).
  destruct (rsne_info_parse_enc b (zlen pre) e)
    as (i & Heq & (g & Hg & Ag) & (p & Hp & Ap) & Hpc & (a & Ha & Aa) & Hac & (c & Hc & Ac) & Hm);
    [by apply at_off_intro|done|].
  destruct Hwf. unfold rtw_parse_wpa2_ie. rewrite Heq. simp_res. cbn [Z.eqb Pos.eqb negb _SUCCESS].
  rewrite Hg, Hp, Ha, Hc, Hpc, Hac, !zlen_to_nat. unfold cap_bits. rewrite Ac. simp_res.
  rewrite (selector_chain_spec rsn_cipher_suites _ _ (e_gcs e)) by done. simp_res.
  rewrite (or_suites_spec rsn_cipher_suites) by done. simp_res.
  assert (match gmcs i with
    | Some p => rtw_get_rsn_cipher_suite b p
    | None => Ret WPA_CIPHER_BIP_CMAC_128 end = Ret (group_mgmt_cipher (rsne_out e))) as ->.
  { cbn [rsne_out group_mgmt_cipher]. destruct (e_tail e) as [[ks [gm|]]|]; [|by rewrite Hm..].
    destruct Hm as (q & -> & Aq). by apply (selector_chain_spec rsn_cipher_suites). }
  simp_res. rewrite (or_suites_spec akm_suites) by done. simp_res. by rewrite !Z.lor_0_l.
Qed.

Lemma rtw_parse_wpa2_ie_roundtrip_witness :
  let e := Rsne [0; 0x0f; 0xac; 2] [[0; 0x0f; 0xac; 4]; [0; 0x0f; 0xac; 2]] [[0; 0x0f; 0xac; 8]]
             0xc0 (Some ([], Some [0; 0x0f; 0xac; 12])) in
  rtw_parse_wpa2_ie ([7] ++ enc_ie (_WPA2_IE_ID_, enc_rsne e) ++ [9; 9]) 1 32 =
  Ret (_SUCCESS, Some (RsnOut WPA_CIPHER_TKIP (Z.lor WPA_CIPHER_CCMP WPA_CIPHER_TKIP)
    WPA_CIPHER_BIP_GMAC_256 (Z.shiftl 1 7) 3 0)).
Proof.
  apply (rtw_parse_wpa2_ie_roundtrip [7]
    (Rsne [0; 0x0f; 0xac; 2] [[0; 0x0f; 0xac; 4]; [0; 0x0f; 0xac; 2]] [[0; 0x0f; 0xac; 8]]
       0xc0 (Some ([], Some [0; 0x0f; 0xac; 12]))) [9; 9]).
  split; by_eval.
Defined.

(** ** The WPA element *)

Definition enc_wpa (g : list Z) (ps ks : list (list Z)) : list Z :=
  RTW_WPA_OUI_TYPE ++ le16 1 ++ g ++ enc_list ps ++ enc_list ks.

(** [rtw_parse_wpa_ie] on an encoded WPA element reports the encoded group
    suite, adds the pairwise suites to the caller's bitmap, and sets the AKM to
    802.1X exactly when the first authentication suite is [00:50:F2:01]. *)
Theorem rtw_parse_wpa_ie_roundtrip pre g ps k ks post o :
  zlen g = 4 -> ps <> [] -> Forall (fun s => zlen s = 4) ps -> Forall (fun s => zlen s = 4) (k :: ks) ->
  zlen (enc_wpa g ps (k :: ks)) <= 255 ->
  rtw_parse_wpa_ie (pre ++ enc_ie (_WPA_IE_ID_, enc_wpa g ps (k :: ks)) ++ post) (zlen pre)
    (zlen (enc_wpa g ps (k :: ks)) + 2) o =
  Ret (_SUCCESS, WpaOut (suite_of wpa_cipher_suites g)
    (Z.lor (w_pairwise o) (suites_of wpa_cipher_suites ps))
    (if bool_decide (k = RTW_WPA_OUI_TYPE) then WLAN_AKM_TYPE_8021X else w_akm o)).
Proof.
  intros Hg Hne Hps Hks Hlen. set (b := pre ++ _ ++ post).
  assert (at_off b (zlen pre) (enc_ie (_WPA_IE_ID_, enc_wpa g ps (k :: ks)))) as Hat
    by (by apply at_off_intro).
  unfold enc_ie in Hat. cbn [fst snd] in Hat.
  apply at_off_cons in Hat as [Hid Hat]. apply at_off_cons in Hat as [Hl Hat].
  assert (zlen (enc_wpa g ps (k :: ks)) = 14 + 4 * zlen ps + 4 * zlen (k :: ks)) as Hz.
  { unfold enc_wpa, enc_list. rewrite !zlen_app, !zlen_le16, !(zlen_concat 4) by done.
    change (zlen RTW_WPA_OUI_TYPE) with 4. lia. }
  pose proof (zlen_nonneg ps). pose proof (zlen_nonneg ks). rewrite zlen_cons in Hz.
  assert (0 < zlen ps) by (destruct ps; [done|zlen_lia]).
  unfold rtw_parse_wpa_ie. rewrite (proj2 (Z.leb_gt _ 0)) by lia. rewrite Hid. simp_res.
  rewrite Z.eqb_refl. cbn [negb]. rewrite Hl. simp_res. rewrite wrap_small by (unfold fits; lia).
  rewrite (proj2 (Z.eqb_eq _ (_ - 2))) by lia. cbn [negb].
  unfold enc_wpa in Hat. apply at_off_app in Hat as [Ho Hat].
  change (zlen RTW_WPA_OUI_TYPE) with 4 in Hat.
  replace (zlen pre + 1 + 1) with (zlen pre + 2) in Ho by lia.
  rewrite (at_off_memcmp _ _ RTW_WPA_OUI_TYPE) by done. simp_res.
  rewrite bool_decide_eq_true_2 by done. cbn [negb].
  apply at_off_le16 in Hat as [_ Hat]; [|done].
  replace (zlen pre + 1 + 1 + 4 + 2) with (zlen pre + 8) in Hat by lia.
  apply at_off_app in Hat as [Ag Hat]. rewrite Hg in Hat.
  rewrite (proj2 (Z.leb_le 4 _)) by lia.
  rewrite (selector_chain_spec wpa_cipher_suites _ _ g) by done. simp_res.
  unfold parse_wpa_pairwise, enc_list in *. rewrite (proj2 (Z.leb_le 2 _)) by lia.
  rewrite <- app_assoc in Hat.
  apply at_off_le16 in Hat as [Hc Hat]; [|unfold fits; lia]. rewrite Hc. simp_res.
  rewrite (proj2 (Z.eqb_neq (zlen ps) 0)) by lia. rewrite (proj2 (Z.ltb_ge _ _)) by lia. cbn [orb].
  apply at_off_app in Hat as [Ap Hat]. rewrite (zlen_concat 4) in Hat by done.
  rewrite zlen_to_nat, (or_suites_spec wpa_cipher_suites) by done. simp_res.
  unfold parse_wpa_akm. rewrite (proj2 (Z.leb_le 6 _)) by lia.
  apply at_off_le16 in Hat as [_ Hat]; [|rewrite zlen_cons; unfold fits; lia].
  cbn [concat] in Hat. apply at_off_app in Hat as [Ak _].
  apply Forall_cons in Hks as [Hk _].
  rewrite (at_off_memcmp _ _ k) by done. simp_res. by case_bool_decide.
Qed.

Lemma rtw_parse_wpa_ie_roundtrip_witness :
  rtw_parse_wpa_ie ([] ++ enc_ie (_WPA_IE_ID_, enc_wpa [0; 0x50; 0xf2; 2]
      [[0; 0x50; 0xf2; 2]; [0; 0x50; 0xf2; 4]] [[0; 0x50; 0xf2; 1]]) ++ [1]) 0 28 (WpaOut 0 0 0) =
  Ret (_SUCCESS, WpaOut WPA_CIPHER_TKIP (Z.lor WPA_CIPHER_TKIP WPA_CIPHER_CCMP)
    WLAN_AKM_TYPE_8021X).
Proof.
  apply (rtw_parse_wpa_ie_roundtrip [] [0; 0x50; 0xf2; 2] [[0; 0x50; 0xf2; 2]; [0; 0x50; 0xf2; 4]]
           [0; 0x50; 0xf2; 1] [] [1] (WpaOut 0 0 0)); [done|done|by_eval|by_eval|by_eval].
Defined.

(** ** Searching the WPA element *)

Definition is_wpa (e : ie) : bool :=
  (e.1 =? _WPA_IE_ID_) && bool_decide (take 4 e.2 = RTW_WPA_OUI_TYPE)
  && bool_decide (take 2 (drop 4 e.2) = [1; 0]).

Fixpoint find_by (P : ie -> bool) (es : list ie) (off : Z) : option (Z * Z) :=
  match es with
  | [] => None
  | e :: es => if P e then Some (off, zlen e.2) else find_by P es (off + (zlen e.2 + 2))
  end.

Lemma find_by_skip P es1 : forall es2 off,
  Forall (fun e => P e = false) es1 ->
  find_by P (es1 ++ es2) off = find_by P es2 (off + zlen (enc_ies es1)).
Proof.
  induction es1 as [|e es1 IH]; intros es2 off H.
  { rewrite enc_ies_nil, zlen_nil, Z.add_0_r. done. }
  apply Forall_cons in H as [He H]. cbn [app find_by]. rewrite He, IH by done.
  rewrite enc_ies_cons, zlen_app, zlen_enc_ie. f_equal. lia.
Qed.

Lemma find_ie_by es : forall off index,
  find_ie es off index = find_by (fun e => e.1 =? index) es off.
Proof.
  induction es as [|[id body] es IH]; intros; [done|]. cbn [find_ie find_by fst snd].
  by rewrite IH.
Qed.

Lemma wpa_check b p e :
  at_off b p (enc_ie e) -> wf_ie e -> 6 <= zlen e.2 ->
  memcmp_at b (p + 2) RTW_WPA_OUI_TYPE = Ret (bool_decide (take 4 e.2 = RTW_WPA_OUI_TYPE)) /\
  exists v, get_le16 b (p + 6) = Ret v /\ (v =? 1) = bool_decide (take 2 (drop 4 e.2) = [1; 0]).
Proof.
  intros Hat (_ & _ & Hb) Hl. unfold enc_ie in Hat.
  apply at_off_cons in Hat as [_ Hat]. apply at_off_cons in Hat as [_ Hat].
  replace (p + 1 + 1) with (p + 2) in Hat by lia.
  destruct e as [id body]. cbn [fst snd] in *.
  destruct body as [|x0 [|x1 [|x2 [|x3 [|x4 [|x5 r]]]]]]; try (by exfalso; zlen_lia).
  change (x0 :: _) with ([x0; x1; x2; x3] ++ x4 :: x5 :: r) in Hat.
  apply at_off_app in Hat as [H4 Hat]. split; [by apply at_off_memcmp|].
  change (zlen [x0; x1; x2; x3]) with 4 in Hat. replace (p + 2 + 4) with (p + 6) in Hat by lia.
  apply at_off_cons in Hat as [Hx4 Hat]. apply at_off_cons in Hat as [Hx5 _].
  do 4 (apply Forall_cons in Hb as [_ Hb]). apply Forall_cons in Hb as [B4 [B5 _]%Forall_cons].
  exists (x5 * 256 + x4). rewrite (get_le16_spec _ _ x4 x5) by done. split; [done|].
  cbn. case_bool_decide as H; simplify_eq; [done|]. apply Z.eqb_neq. intros ?.
  apply H. unfold fits in *. f_equal; [lia|]. f_equal. lia.
Qed.

Lemma get_wpa_ie_loop_enc n : forall es fuel pre post pie limit len,
  (length es <= n)%nat -> es <> [] -> (length es < fuel)%nat ->
  Forall wf_ie es -> Forall (fun e => e.1 = _WPA_IE_ID_ -> 6 <= zlen e.2) es ->
  limit - (zlen pre - pie) = zlen (enc_ies es) ->
  get_wpa_ie_loop fuel (pre ++ enc_ies es ++ post) pie limit (zlen pre) (zlen (enc_ies es)) len =
  Ret (find_result (find_by is_wpa es (zlen pre))).
Proof.
  induction n as [|n IH]; intros es fuel pre post pie limit len Hn Hne Hf Hwf H6 Hlim;
    [destruct es; [done|simpl in Hn; lia]|].
  destruct fuel as [|fuel]; [lia|]. cbn [get_wpa_ie_loop].
  rewrite rtw_get_ie_enc by done. simp_res. rewrite find_ie_by.
  destruct (first_match (fun e => e.1 =? _WPA_IE_ID_) es) as [(es1 & e & es2 & -> & H1 & H2)|Hno].
  2: { rewrite <- (app_nil_r es), !find_by_skip; [done|..|done].
       eapply Forall_impl; [exact Hno|]. intros e He. unfold is_wpa. by rewrite He. }
  assert (Forall (fun x => is_wpa x = false) es1) as H1'.
  { eapply Forall_impl; [exact H1|]. intros x Hx. unfold is_wpa. by rewrite Hx. }
  rewrite !find_by_skip by done. cbn [find_by find_result]. rewrite H2. cbn [find_result].
  apply Forall_app in Hwf as [_ [He Hwf]%Forall_cons].
  apply Forall_app in H6 as [_ [He6 H6]%Forall_cons].
  pose proof (enc_ies_length es2). pose proof (zlen_nonneg (enc_ies es2)).
  rewrite enc_ies_app, enc_ies_cons, !zlen_app, zlen_enc_ie in Hlim.
  set (b := pre ++ enc_ies (es1 ++ e :: es2) ++ post).
  set (q := zlen pre + zlen (enc_ies es1)).
  assert (at_off b q (enc_ie e)) as Hat.
  { exists (pre ++ enc_ies es1), (enc_ies es2 ++ post). unfold b, q.
    rewrite zlen_app, enc_ies_app, enc_ies_cons, <- !app_assoc. done. }
  destruct (wpa_check b q e) as [-> (v & Hv & Hv1)]; [done|done|by apply He6, Z.eqb_eq|]. simp_res.
  assert ((if limit - (q - pie) - 2 - zlen e.2 <=? 0 then Ret (None, 0)
           else get_wpa_ie_loop fuel b pie limit (q + (2 + zlen e.2))
                  (limit - (q - pie) - 2 - zlen e.2) (zlen e.2)) =
          Ret (find_result (find_by is_wpa es2 (q + (zlen e.2 + 2))))) as Hnext.
  { replace (limit - (q - pie) - 2 - zlen e.2) with (zlen (enc_ies es2)) by lia.
    destruct es2 as [|e2 es2]; [done|].
    assert (2 <= zlen (enc_ies (e2 :: es2))).
    { rewrite enc_ies_cons, zlen_app, zlen_enc_ie. zlen_lia. }
    rewrite (proj2 (Z.leb_gt _ 0)) by lia.
    rewrite length_app in Hn, Hf. cbn [length] in Hn, Hf.
    assert (b = (pre ++ enc_ies es1 ++ enc_ie e) ++ enc_ies (e2 :: es2) ++ post) as ->.
    { unfold b. by rewrite enc_ies_app, (enc_ies_cons e), <- !app_assoc. }
    assert (q + (2 + zlen e.2) = zlen (pre ++ enc_ies es1 ++ enc_ie e)) as ->.
    { rewrite !zlen_app, zlen_enc_ie. lia. }
    assert (q + (zlen e.2 + 2) = zlen (pre ++ enc_ies es1 ++ enc_ie e)) as ->.
    { rewrite !zlen_app, zlen_enc_ie. lia. }
    apply IH; [simpl; lia|done|simpl; lia|done|done|].
    rewrite !zlen_app, zlen_enc_ie. lia. }
  unfold is_wpa at 1. rewrite H2. cbn [andb].
  destruct (bool_decide (take 4 _ = _)); cbn [negb andb]; [|exact Hnext].
  rewrite Hv. simp_res. rewrite Hv1.
  destruct (bool_decide (take 2 _ = _)); cbn [negb]; [|exact Hnext].
  unfold enc_ie in Hat. apply at_off_cons in Hat as [_ Hat]. apply at_off_cons in Hat as [-> _].
  done.
Qed.

(** [rtw_get_wpa_ie] returns the first vendor element that carries the WPA
    OUI and version 1 and skips every other vendor element, provided the vendor
    elements are long enough to hold the OUI and the version it compares. *)
Theorem rtw_get_wpa_ie_refines es pre post :
  Forall wf_ie es -> Forall (fun e => e.1 = _WPA_IE_ID_ -> 6 <= zlen e.2) es ->
  rtw_get_wpa_ie (pre ++ enc_ies es ++ post) (zlen pre) (zlen (enc_ies es)) =
  Ret (find_result (find_by is_wpa es (zlen pre))).
Proof.
  intros Hwf H6. unfold rtw_get_wpa_ie. destruct es as [|e es]; [done|].
  apply (get_wpa_ie_loop_enc (length (e :: es))); [done|done| |done|done|lia].
  rewrite zlen_to_nat. pose proof (enc_ies_length (e :: es)). lia.
Qed.

Lemma rtw_get_wpa_ie_refines_witness :
  rtw_get_wpa_ie ([] ++ enc_ies [(221, [0; 0x50; 0xf2; 2; 1; 0]); (221, [0; 0x50; 0xf2; 1; 1; 0; 9])]
      ++ [3]) 0 17 = Ret (Some 8, 7).
Proof.
  apply (rtw_get_wpa_ie_refines
    [(221, [0; 0x50; 0xf2; 2; 1; 0]); (221, [0; 0x50; 0xf2; 1; 1; 0; 9])] [] [3]).
  - repeat (apply Forall_cons; split; [split; [by_eval|split; by_eval]|]). constructor.
  - repeat (apply Forall_cons; split; [intros _; by_eval|]). constructor.
Defined.

End Rsn.
