(* ===== verification/Attrs.v ===== *)
(** * WPS, P2P and Wi-Fi Display elements and their attributes

    Models the vendor element searches ([rtw_get_wps_ie], [rtw_get_owe_ie],
    [rtw_get_p2p_ie], [rtw_get_wfd_ie]), the attribute searches
    ([rtw_get_wps_attr], [rtw_get_p2p_attr], [rtw_get_wfd_attr] and their
    [_content] forms), [rtw_set_p2p_attr_content], the removals
    ([rtw_del_p2p_ie], [rtw_del_p2p_attr], [rtw_del_wfd_ie],
    [rtw_del_wfd_attr]) and the merging of P2P elements of
    [core/rtw_ieee80211.c].

    The P2P and WFD routines are the same code up to the OUI and the byte order
    of the attribute length; they are instances of one definition over an
    [attr_fmt], and their theorems are proved once against the laws
    [AttrFmt]. *)
From S2P Require Import Prelude Ies.

Module Attrs.
Import Ies.

Definition WLAN_EID_VENDOR_SPECIFIC : Z := 221.
Definition WLAN_EID_EXTENSION : Z := 255.
Definition WLAN_EID_EXT_OWE_DH_PARAM : Z := 32.
Definition MAX_IE_SZ : Z := 768.

Definition WPS_OUI : list Z := [0x00; 0x50; 0xf2; 0x04].
Definition P2P_OUI : list Z := [0x50; 0x6F; 0x9A; 0x09].
Definition WFD_OUI : list Z := [0x50; 0x6F; 0x9A; 0x0A].

(** ** Vendor element searches *)

(** [if (dst) memcpy(dst, &in_ie[cnt], n)]. *)
Definition copy_opt (b : list Z) (p n : Z) (dst : option (list Z)) : res (option (list Z)) :=
  match dst with
  | Some d => s ← slice b p n; d ← splice d 0 s; Ret (Some d)
  | None => Ret None
  end.

(** The loop shared by the four searches; [hit] is the condition on the element
    at a given offset.  The result is the element, the value stored in
    [*ielen] and the destination buffer. *)
Fixpoint vendor_ie_loop (hit : Z -> list Z -> Z -> res bool) (fuel : nat) (b : list Z)
    (in_ie in_len cnt : Z) (dst : option (list Z)) : res (option Z * Z * option (list Z)) :=
  match fuel with
  | O => NoFuel
  | S fuel =>
      if cnt + 1 + 4 <? in_len then
        eid ← rd b (in_ie + cnt);
        if MAX_IE_SZ <=? cnt + 1 + 4 then Ret (None, 0, dst)
        else
          m ← hit eid b (in_ie + cnt);
          l ← rd b (in_ie + cnt + 1);
          if (m : bool) then
            dst ← copy_opt b (in_ie + cnt) (l + 2) dst;
            Ret (Some (in_ie + cnt), l + 2, dst)
          else vendor_ie_loop hit fuel b in_ie in_len (cnt + (l + 2)) dst
      else Ret (None, 0, dst)
  end.

Definition vendor_ie (hit : Z -> list Z -> Z -> res bool) (b : list Z) (in_ie in_len : Z)
    (dst : option (list Z)) : res (option Z * Z * option (list Z)) :=
  if in_len <=? 0 then Ret (None, 0, dst)
  else vendor_ie_loop hit (S (Z.to_nat in_len)) b in_ie in_len 0 dst.

(** [eid == WLAN_EID_VENDOR_SPECIFIC && memcmp(&in_ie[cnt + 2], oui, 4)]. *)
Definition oui_cond (oui : list Z) (eid : Z) (b : list Z) (p : Z) : res bool :=
  if eid =? WLAN_EID_VENDOR_SPECIFIC then memcmp_at b (p + 2) oui else Ret false.

Definition owe_cond (eid : Z) (b : list Z) (p : Z) : res bool :=
  if eid =? WLAN_EID_EXTENSION
  then x ← rd b (p + 2); Ret (x =? WLAN_EID_EXT_OWE_DH_PARAM)
  else Ret false.

Definition oui_hit (oui : list Z) (b : list Z) (p : Z) : res bool :=
  eid ← rd b p; oui_cond oui eid b p.

Definition rtw_get_wps_ie := vendor_ie (oui_cond WPS_OUI).
Definition rtw_get_owe_ie := vendor_ie owe_cond.
Definition rtw_get_p2p_ie := vendor_ie (oui_cond P2P_OUI).
Definition rtw_get_wfd_ie := vendor_ie (oui_cond WFD_OUI).

(** [rtw_is_wps_ie]: the returned flag and [*wps_ielen]. *)
Definition rtw_is_wps_ie (b : list Z) (ie_ptr wps_ielen : Z) : res (bool * Z) :=
  m ← oui_hit WPS_OUI b ie_ptr;
  if (m : bool) then l ← rd b (ie_ptr + 1); Ret (true, l + 2) else Ret (false, wps_ielen).

(** ** WPS attributes *)

(** The [while (attr_ptr - wps_ie < wps_ielen)]; [a] is [attr_ptr - wps_ie]. *)
Fixpoint wps_attr_loop (fuel : nat) (b : list Z) (wps_ie wps_ielen target a : Z)
    (buf : option (list Z)) : res (option Z * Z * option (list Z)) :=
  match fuel with
  | O => NoFuel
  | S fuel =>
      if a <? wps_ielen then
        attr_id ← get_be16 b (wps_ie + a);
        attr_data_len ← get_be16 b (wps_ie + a + 2);
        let attr_len := u16 (attr_data_len + 4) in
        if attr_id =? target then
          buf ← copy_opt b (wps_ie + a) attr_len buf;
          Ret (Some (wps_ie + a), attr_len, buf)
        else wps_attr_loop fuel b wps_ie wps_ielen target (a + attr_len) buf
      else Ret (None, 0, buf)
  end.

Definition rtw_get_wps_attr (b : list Z) (wps_ie wps_ielen target : Z)
    (buf : option (list Z)) : res (option Z * Z * option (list Z)) :=
  m ← oui_hit WPS_OUI b wps_ie;
  if negb m then Ret (None, 0, buf)
  else wps_attr_loop (S (Z.to_nat wps_ielen)) b wps_ie wps_ielen target 6 buf.

(** The tail shared by [rtw_get_wps_attr_content] and
    [rtw_get_p2p_attr_content]: [hdr] is 4 or 3. *)
Definition attr_content (hdr : Z) (b : list Z) (r : option Z * Z) (buf_content : option (list Z))
    (len_content : option Z) : res (option Z * option (list Z) * option Z) :=
  match r with
  | (Some attr_ptr, attr_len) =>
      if attr_len =? 0 then Ret (None, buf_content, (fun _ => 0) <$> len_content)
      else
        let len_content :=
          match len_content, buf_content with
          | Some n, Some _ => if u32 (attr_len - hdr) <? n then Some (u32 (attr_len - hdr)) else Some n
          | Some _, None => Some (u32 (attr_len - hdr))
          | None, _ => None
          end in
        buf ← copy_opt b (attr_ptr + hdr) (default 1 len_content) buf_content;
        Ret (Some (attr_ptr + hdr), buf, len_content)
  | (None, _) => Ret (None, buf_content, (fun _ => 0) <$> len_content)
  end.

Definition rtw_get_wps_attr_content (b : list Z) (wps_ie wps_ielen target : Z)
    (buf_content : option (list Z)) (len_content : option Z) :=
  r ← rtw_get_wps_attr b wps_ie wps_ielen target None;
  attr_content 4 b r.1 buf_content len_content.

(** ** P2P and WFD attributes *)

Record attr_fmt := AttrFmtMk {
  fmt_oui : list Z;
  fmt_get16 : list Z -> Z -> res Z;
  fmt_enc16 : Z -> list Z }.

Definition p2p_fmt : attr_fmt := AttrFmtMk P2P_OUI get_le16 le16.
Definition wfd_fmt : attr_fmt := AttrFmtMk WFD_OUI get_be16 be16.

Section Fmt.
Context (f : attr_fmt).

(** The [while ((attr_ptr - p2p_ie + 3) <= p2p_ielen)]; [a] is
    [attr_ptr - p2p_ie]. *)
Fixpoint attr_loop (fuel : nat) (b : list Z) (ie ielen target a : Z)
    (buf : option (list Z)) : res (option Z * Z * option (list Z)) :=
  match fuel with
  | O => NoFuel
  | S fuel =>
      if a + 3 <=? ielen then
        attr_id ← rd b (ie + a);
        attr_data_len ← fmt_get16 f b (ie + a + 1);
        let attr_len := u16 (attr_data_len + 3) in
        if ielen <? a + attr_len then Ret (None, 0, buf)
        else if attr_id =? target then
          buf ← copy_opt b (ie + a) attr_len buf;
          Ret (Some (ie + a), attr_len, buf)
        else attr_loop fuel b ie ielen target (a + attr_len) buf
      else Ret (None, 0, buf)
  end.

(** The guards in front of the loop: is this an element of the format? *)
Definition attr_ie_ok (b : list Z) (ie ielen : Z) : res bool :=
  if ielen <=? 6 then Ret false else oui_hit (fmt_oui f) b ie.

Definition get_attr (b : list Z) (ie ielen target : Z) (buf : option (list Z))
  : res (option Z * Z * option (list Z)) :=
  m ← attr_ie_ok b ie ielen;
  if negb m then Ret (None, 0, buf)
  else attr_loop (S (Z.to_nat ielen)) b ie ielen target 6 buf.

(** The [while (1)] of [rtw_del_p2p_attr] and [rtw_del_wfd_attr]. *)
Fixpoint del_attr_loop (fuel : nat) (b : list Z) (ie ielen attr_id : Z) : res (list Z * Z) :=
  match fuel with
  | O => NoFuel
  | S fuel =>
      r ← get_attr b ie ielen attr_id None;
      match r with
      | (Some target_attr, target_attr_len, _) =>
          if target_attr_len =? 0 then Ret (b, ielen)
          else
            let next_attr := target_attr + target_attr_len in
            let remain_len := u32 (ielen - (next_attr - ie)) in
            b ← memmove b target_attr next_attr remain_len;
            b ← memset b (target_attr + remain_len) 0 target_attr_len;
            l ← rd b (ie + 1);
            b ← wr b (ie + 1) (u8 (l - target_attr_len));
            del_attr_loop fuel b ie (u32 (ielen - target_attr_len)) attr_id
      | (None, _, _) => Ret (b, ielen)
      end
  end.

Definition del_attr (b : list Z) (ie ielen attr_id : Z) : res (list Z * Z) :=
  del_attr_loop (S (Z.to_nat ielen)) b ie ielen attr_id.

(** The [while (1)] of [rtw_del_p2p_ie] and [rtw_del_wfd_ie]. *)
Fixpoint del_ie_loop (fuel : nat) (b : list Z) (ies ies_len : Z) : res (list Z * Z) :=
  match fuel with
  | O => NoFuel
  | S fuel =>
      r ← vendor_ie (oui_cond (fmt_oui f)) b ies ies_len None;
      match r with
      | (Some target_ie, target_ie_len, _) =>
          if target_ie_len =? 0 then Ret (b, ies_len)
          else
            let next_ie := target_ie + target_ie_len in
            let remain_len := u32 (ies_len - (next_ie - ies)) in
            b ← memmove b target_ie next_ie remain_len;
            b ← memset b (target_ie + remain_len) 0 target_ie_len;
            del_ie_loop fuel b ies (u32 (ies_len - target_ie_len))
      | (None, _, _) => Ret (b, ies_len)
      end
  end.

Definition del_ie (b : list Z) (ies ies_len : Z) : res (list Z * Z) :=
  del_ie_loop (S (Z.to_nat ies_len)) b ies ies_len.
End Fmt.

Definition rtw_get_p2p_attr := get_attr p2p_fmt.
Definition rtw_get_wfd_attr := get_attr wfd_fmt.
Definition rtw_del_p2p_attr := del_attr p2p_fmt.
Definition rtw_del_wfd_attr := del_attr wfd_fmt.
Definition rtw_del_p2p_ie := del_ie p2p_fmt.
Definition rtw_del_wfd_ie := del_ie wfd_fmt.

Definition rtw_get_p2p_attr_content (b : list Z) (p2p_ie p2p_ielen target : Z)
    (buf_content : option (list Z)) (len_content : option Z) :=
  r ← rtw_get_p2p_attr b p2p_ie p2p_ielen target None;
  attr_content 3 b r.1 buf_content len_content.

(** [rtw_get_wfd_attr_content]: always copies the whole content. *)
Definition rtw_get_wfd_attr_content (b : list Z) (wfd_ie wfd_ielen target : Z)
    (buf_content : option (list Z)) : res (option Z * option (list Z) * Z) :=
  r ← rtw_get_wfd_attr b wfd_ie wfd_ielen target None;
  match r.1 with
  | (Some attr_ptr, attr_len) =>
      if attr_len =? 0 then Ret (None, buf_content, 0)
      else
        buf ← copy_opt b (attr_ptr + 3) (u32 (attr_len - 3)) buf_content;
        Ret (Some (attr_ptr + 3), buf, u32 (attr_len - 3))
  | (None, _) => Ret (None, buf_content, 0)
  end.

(** [rtw_set_p2p_attr_content]: the object and [a_len]. *)
Definition rtw_set_p2p_attr_content (b : list Z) (pbuf attr_id attr_len : Z)
    (pdata_attr : option (list Z)) : res (list Z * Z) :=
  b ← wr b pbuf attr_id;
  b ← splice b (pbuf + 1) (le16 attr_len);
  b ← match pdata_attr with
      | Some d => s ← slice d 0 attr_len; splice b (pbuf + 3) s
      | None => Ret b
      end;
  Ret (b, u32 (attr_len + 3)).

(** ** Merging P2P elements *)

(** [rtw_get_p2p_merged_ies_len]: the loop, then [len + 4]. *)
Fixpoint merged_len_loop (fuel : nat) (b : list Z) (in_ie in_len i len : Z) : res Z :=
  match fuel with
  | O => NoFuel
  | S fuel =>
      if i <? in_len then
        m ← oui_hit P2P_OUI b (in_ie + i);
        l ← rd b (in_ie + i + 1);
        merged_len_loop fuel b in_ie in_len (i + (l + 2)) (if (m : bool) then len + (l - 4) else len)
      else Ret len
  end.

Definition rtw_get_p2p_merged_ies_len (b : list Z) (in_ie in_len : Z) : res Z :=
  len ← merged_len_loop (S (Z.to_nat in_len)) b in_ie in_len 0 0; Ret (u32 (len + 4)).

(** The loop of [rtw_p2p_merge_ies]: [len] is a [u8], [mp] the write pointer. *)
Fixpoint merge_loop (fuel : nat) (b : list Z) (in_ie in_len i : Z) (merge : list Z) (mp len : Z)
  : res (list Z * Z) :=
  match fuel with
  | O => NoFuel
  | S fuel =>
      if i <? in_len then
        m ← oui_hit P2P_OUI b (in_ie + i);
        l ← rd b (in_ie + i + 1);
        if (m : bool) then
          s ← slice b (in_ie + i + 6) (l - 4);
          merge ← splice merge mp s;
          merge_loop fuel b in_ie in_len (i + (l + 2)) merge (mp + (l - 4)) (u8 (len + (l - 4)))
        else merge_loop fuel b in_ie in_len (i + (l + 2)) merge mp len
      else Ret (merge, len)
  end.

(** [rtw_p2p_merge_ies] with a non-[NULL] destination at offset 0 of [merge]. *)
Definition rtw_p2p_merge_ies (b : list Z) (in_ie in_len : Z) (merge : list Z)
  : res (list Z * Z) :=
  merge ← splice merge 0 ([0xDD; 0x00] ++ P2P_OUI);
  r ← merge_loop (S (Z.to_nat in_len)) b in_ie in_len 0 merge 6 0;
  Ret (r.1, r.2 + 4).

(** ** Laws of an attribute format *)

(** What the attribute code needs of a format. *)
Class AttrFmt (f : attr_fmt) : Prop := {
  fmt_oui_len : zlen (fmt_oui f) = 4;
  fmt_enc_len : forall v, zlen (fmt_enc16 f v) = 2;
  fmt_get_total : forall b i, bytes_ok b -> 0 <= i -> i + 2 <= zlen b ->
    exists v, fmt_get16 f b i = Ret v /\ is_u16 v;
  fmt_get_enc : forall b p v l, is_u16 v -> at_off b p (fmt_enc16 f v ++ l) ->
    fmt_get16 f b p = Ret v /\ at_off b (p + 2) l }.

#[export] Instance p2p_fmt_ok : AttrFmt p2p_fmt.
Proof. split; [done|done|apply get_le16_total|apply at_off_le16]. Qed.
#[export] Instance wfd_fmt_ok : AttrFmt wfd_fmt.
Proof. split; [done|done|apply get_be16_total|apply at_off_be16]. Qed.

(** ** The abstract view: a list of attributes *)

Abbreviation attr := (Z * list Z)%type.

(** First attribute with the given id: its offset and total length. *)
Fixpoint find_attr (hdr : Z) (ats : list attr) (off target : Z) : option (Z * Z) :=
  match ats with
  | [] => None
  | (id, d) :: ats =>
      if id =? target then Some (off, zlen d + hdr)
      else find_attr hdr ats (off + (zlen d + hdr)) target
  end.

Definition found (r : option (Z * Z)) : option Z * Z * option (list Z) :=
  (find_result r, None).

Section FmtSpec.
Context (f : attr_fmt) {HF : AttrFmt f}.

Definition enc_attr (x : attr) : list Z := x.1 :: fmt_enc16 f (zlen x.2) ++ x.2.
Definition enc_attrs (ats : list attr) : list Z := concat (map enc_attr ats).
Definition wf_attr (x : attr) : Prop := zlen x.2 + 3 < 2 ^ 16.

(** An element of the format with header length byte [l]. *)
Definition enc_attr_ie (l : Z) (ats : list attr) : list Z :=
  (WLAN_EID_VENDOR_SPECIFIC :: l :: fmt_oui f) ++ enc_attrs ats.

Lemma zlen_enc_attr x : zlen (enc_attr x) = zlen x.2 + 3.
Proof using HF. unfold enc_attr. rewrite zlen_cons, zlen_app, fmt_enc_len. lia. Qed.
Lemma enc_attrs_cons x ats : enc_attrs (x :: ats) = enc_attr x ++ enc_attrs ats.
Proof using. done. Qed.
Lemma enc_attrs_app ats ats' : enc_attrs (ats ++ ats') = enc_attrs ats ++ enc_attrs ats'.
Proof using. unfold enc_attrs. by rewrite map_app, concat_app. Qed.
Lemma enc_attrs_length ats : 3 * zlen ats <= zlen (enc_attrs ats).
Proof using HF.
  induction ats as [|x ats IH]; [done|].
  rewrite enc_attrs_cons, zlen_app, zlen_enc_attr. zlen_lia.
Qed.

Lemma attr_header b p x l : wf_attr x -> at_off b p (enc_attr x ++ l) ->
  rd b p = Ret x.1 /\ fmt_get16 f b (p + 1) = Ret (zlen x.2) /\
  at_off b (p + 3) x.2 /\ at_off b (p + (zlen x.2 + 3)) l.
Proof using HF.
  intros Hw Hat. unfold enc_attr in Hat. cbn [app] in Hat.
  apply at_off_cons in Hat as [H0 Hat]. rewrite <- app_assoc in Hat.
  apply fmt_get_enc in Hat as [H1 Hat];
    [|unfold fits, wf_attr in *; pose proof (zlen_nonneg x.2); lia].
  apply at_off_app in Hat as [H2 H3].
  replace (p + 1 + 2) with (p + 3) in * by lia.
  replace (p + 3 + zlen x.2) with (p + (zlen x.2 + 3)) in * by lia. done.
Qed.

Lemma attr_loop_enc ats : forall fuel b ie ielen target a,
  Forall wf_attr ats -> at_off b (ie + a) (enc_attrs ats) ->
  ielen = a + zlen (enc_attrs ats) -> (length ats < fuel)%nat ->
  attr_loop f fuel b ie ielen target a None = Ret (found (find_attr 3 ats (ie + a) target)).
Proof using HF.
  induction ats as [|[id d] ats IH]; intros fuel b ie ielen target a Hw Hat Hl Hf;
    (destruct fuel as [|fuel]; [lia|]); cbn [attr_loop find_attr].
  { change (enc_attrs []) with (@nil Z) in Hl. rewrite zlen_nil in Hl.
    by rewrite (proj2 (Z.leb_gt _ _)) by lia. }
  apply Forall_cons in Hw as [Hx Hw]. rewrite enc_attrs_cons in Hat.
  apply attr_header in Hat as (H0 & H1 & _ & Hat); [|done]. cbn [fst snd] in *.
  rewrite enc_attrs_cons, zlen_app, zlen_enc_attr in Hl. cbn [snd] in Hl.
  pose proof (zlen_nonneg d). pose proof (zlen_nonneg (enc_attrs ats)).
  rewrite (proj2 (Z.leb_le _ _)) by lia. rewrite H0. simp_res. rewrite H1. simp_res.
  unfold wf_attr in Hx. cbn [snd] in Hx. rewrite wrap_small by (unfold fits; lia).
  rewrite (proj2 (Z.ltb_ge _ _)) by lia.
  destruct (id =? target); [done|].
  replace (ie + a + (zlen d + 3)) with (ie + (a + (zlen d + 3))) in * by lia.
  apply IH; [done|done|lia|simpl in Hf; lia].
Qed.

Lemma attr_ie_ok_enc b ie l ats :
  at_off b ie (enc_attr_ie l ats) -> ats <> [] ->
  attr_ie_ok f b ie (6 + zlen (enc_attrs ats)) = Ret true /\ at_off b (ie + 6) (enc_attrs ats).
Proof using HF.
  intros Hat Hne. unfold enc_attr_ie in Hat. apply at_off_app in Hat as [Hh Hat].
  rewrite !zlen_cons, fmt_oui_len in Hat. split; [|done].
  unfold attr_ie_ok, oui_hit, oui_cond.
  apply at_off_cons in Hh as [Hid Hh]. apply at_off_cons in Hh as [_ Hh].
  replace (ie + 1 + 1) with (ie + 2) in Hh by lia.
  assert (0 < zlen (enc_attrs ats)).
  { destruct ats; [done|]. rewrite enc_attrs_cons, zlen_app, zlen_enc_attr. zlen_lia. }
  rewrite (proj2 (Z.leb_gt _ _)) by lia. rewrite Hid. simp_res. rewrite Z.eqb_refl.
  rewrite (at_off_memcmp _ _ (fmt_oui f)) by done. by rewrite bool_decide_eq_true_2.
Qed.

Lemma get_attr_enc b ie l ats target :
  at_off b ie (enc_attr_ie l ats) -> Forall wf_attr ats ->
  get_attr f b ie (6 + zlen (enc_attrs ats)) target None =
  Ret (found (find_attr 3 ats (ie + 6) target)).
Proof using HF.
  intros Hat Hw. unfold get_attr. destruct ats as [|x ats].
  { unfold attr_ie_ok. done. }
  apply attr_ie_ok_enc in Hat as [-> Hat]; [|done]. simp_res. cbn [negb].
  apply attr_loop_enc; [done|done|lia|].
  pose proof (enc_attrs_length (x :: ats)). unfold zlen in *. lia.
Qed.

(** *** Arbitrary bytes *)

Lemma attr_loop_safe b ie ielen target :
  bytes_ok b -> 0 <= ie -> ie + ielen <= zlen b ->
  (forall i v, fmt_get16 f b i = Ret v -> v <> 0xFFFD) ->
  forall fuel a, 6 <= a -> ielen - a < Z.of_nat fuel -> 0 < Z.of_nat fuel ->
  exists r, attr_loop f fuel b ie ielen target a None = Ret r /\
    match r with
    | (Some p, n, _) => ie + a <= p /\ p + n <= ie + ielen /\ rd b p = Ret target
    | (None, n, _) => n = 0
    end.
Proof using HF.
  intros Hb Hie Hl Hnw. induction fuel as [|fuel IH]; intros a Ha Hf Hf0; [lia|].
  cbn [attr_loop]. destruct (Z.leb_spec (a + 3) ielen); [|by eexists].
  destruct (rd_bytes b (ie + a)) as (x & Hx & _); [done|lia|]. rewrite Hx. simp_res.
  destruct (fmt_get_total b (ie + a + 1)) as (v & Hv & Bv); [done|lia|lia|]. rewrite Hv. simp_res.
  pose proof (Hnw _ _ Hv). pose proof (wrap_fits 16 (v + 3) ltac:(lia)) as Hw.
  assert (1 <= u16 (v + 3)).
  { destruct (decide (u16 (v + 3) = 0)) as [E|]; [|unfold fits in Hw; lia].
    unfold wrap in E. apply Z.mod_divide in E as [k Hk]; [|lia]. unfold fits in Bv. lia. }
  destruct (Z.ltb_spec ielen (a + u16 (v + 3))); [by eexists|].
  destruct (Z.eqb_spec x target) as [->|].
  { eexists. split; [done|]. cbn. split; [lia|]. split; [lia|done]. }
  destruct (IH (a + u16 (v + 3))) as (r & -> & Hr); [lia..|].
  exists r. split; [done|]. destruct r as [[[p|] k] bf]; [|done].
  destruct Hr as (? & ? & ?). split; [lia|done].
Qed.

Lemma attr_loop_stuck b ie ielen target id a buf :
  a + 3 <= ielen -> rd b (ie + a) = Ret id -> id <> target ->
  fmt_get16 f b (ie + a + 1) = Ret 0xFFFD ->
  forall fuel, attr_loop f fuel b ie ielen target a buf = NoFuel.
Proof using.
  intros Ha Hid Hne Hg. induction fuel as [|fuel IH]; [done|]. cbn [attr_loop].
  rewrite (proj2 (Z.leb_le _ _)) by lia. rewrite Hid. simp_res. rewrite Hg. simp_res.
  change (u16 (0xFFFD + 3)) with 0. rewrite (proj2 (Z.ltb_ge _ _)) by lia.
  rewrite (proj2 (Z.eqb_neq _ _)) by done. rewrite Z.add_0_r. exact IH.
Qed.
End FmtSpec.

(** C30: on a well-formed P2P or WFD element, the attribute search returns the
    first attribute with the requested id and its total length, or [NULL]. *)
Theorem get_attr_refines f pre l ats post target :
  AttrFmt f -> Forall wf_attr ats ->
  get_attr f (pre ++ enc_attr_ie f l ats ++ post) (zlen pre) (6 + zlen (enc_attrs f ats)) target None =
  Ret (found (find_attr 3 ats (zlen pre + 6) target)).
Proof. intros. apply (get_attr_enc f _ _ l); [by apply at_off_intro|done]. Qed.

Lemma get_attr_refines_witness :
  rtw_get_p2p_attr ([1] ++ enc_attr_ie p2p_fmt 17 [(2, [5; 6]); (13, [7; 8])] ++ [3]) 1 16 13 None =
    Ret (Some 12, 5, None) /\
  rtw_get_wfd_attr ([1] ++ enc_attr_ie wfd_fmt 17 [(2, [5; 6]); (13, [7; 8])] ++ [3]) 1 16 9 None =
    Ret (None, 0, None).
Proof.
  split.
  - apply (get_attr_refines p2p_fmt [1] 17 [(2, [5; 6]); (13, [7; 8])] [3] 13); [apply _|].
    repeat (apply Forall_cons; split; [reflexivity|]). constructor.
  - apply (get_attr_refines wfd_fmt [1] 17 [(2, [5; 6]); (13, [7; 8])] [3] 9); [apply _|].
    repeat (apply Forall_cons; split; [reflexivity|]). constructor.
Defined.

(** On arbitrary bytes inside their object, the P2P and WFD attribute
    search terminates without leaving the object, and an attribute it returns
    lies entirely inside the element, as long as no 16-bit field of the object
    has the value [0xFFFD] that makes the length computation wrap to zero. *)
Theorem get_attr_safe f b ie ielen target :
  AttrFmt f -> bytes_ok b -> 0 <= ie -> ie + ielen <= zlen b ->
  (forall i v, fmt_get16 f b i = Ret v -> v <> 0xFFFD) ->
  exists r, get_attr f b ie ielen target None = Ret r /\
    match r with
    | (Some p, n, _) => ie + 6 <= p /\ p + n <= ie + ielen /\ rd b p = Ret target
    | (None, n, _) => n = 0
    end.
Proof.
  intros HF Hb Hie Hl Hnw. unfold get_attr, attr_ie_ok.
  destruct (Z.leb_spec ielen 6); [by eexists|]. unfold oui_hit, oui_cond.
  destruct (rd_bytes b ie) as (x & -> & _); [done|lia|]. simp_res.
  destruct (x =? WLAN_EID_VENDOR_SPECIFIC); [|by eexists].
  destruct (memcmp_at_total b (ie + 2) (fmt_oui f)) as (m & ->); [lia|rewrite fmt_oui_len; lia|].
  simp_res. destruct m; [|by eexists].
  apply attr_loop_safe; [done|done|done|done|done|lia..].
Qed.

Lemma get_attr_safe_witness :
  exists r, get_attr p2p_fmt [221; 9; 0x50; 0x6f; 0x9a; 9; 2; 9; 0; 1; 1] 0 11 2 None = Ret r /\
    match r with
    | (Some p, n, _) => 0 + 6 <= p /\ p + n <= 0 + 11 /\
        rd [221; 9; 0x50; 0x6f; 0x9a; 9; 2; 9; 0; 1; 1] p = Ret 2
    | (None, n, _) => n = 0
    end.
Proof.
  apply (get_attr_safe p2p_fmt [221; 9; 0x50; 0x6f; 0x9a; 9; 2; 9; 0; 1; 1] 0 11 2);
    [apply _|by_eval|lia|by_eval|].
  intros i v H. cbn in H.
  assert (0 <= i < 10) as Hi.
  { unfold get_le16 in H. destruct (rd _ i) eqn:E0; try done. apply rd_Ret_lt in E0.
    simp_res in H. destruct (rd _ (i + 1)) eqn:E1; try done. apply rd_Ret_lt in E1.
    cbv [zlen length] in *. lia. }
  assert (i = 0 \/ i = 1 \/ i = 2 \/ i = 3 \/ i = 4 \/ i = 5 \/ i = 6 \/ i = 7 \/ i = 8 \/ i = 9)
    as Hc by lia.
  destruct Hc as [->|[->|[->|[->|[->|[->|[->|[->|[->| ->]]]]]]]]]; vm_compute in H; by injection H as <-.
Defined.

(** The length computation wraps: an attribute whose 16-bit length is
    [0xFFFD] and whose id is not the requested one makes the search of
    [rtw_get_p2p_attr] and [rtw_get_wfd_attr] loop for ever, however many
    iterations are allowed. *)
Theorem get_attr_diverges f b ie ielen target id buf :
  attr_ie_ok f b ie ielen = Ret true -> 9 <= ielen ->
  rd b (ie + 6) = Ret id -> id <> target -> fmt_get16 f b (ie + 6 + 1) = Ret 0xFFFD ->
  get_attr f b ie ielen target buf = NoFuel /\
  forall fuel, attr_loop f fuel b ie ielen target 6 buf = NoFuel.
Proof.
  intros Hok Hl Hid Hne Hg.
  assert (forall fuel, attr_loop f fuel b ie ielen target 6 buf = NoFuel) as H
    by (eapply attr_loop_stuck; eauto; lia).
  split; [|done]. unfold get_attr. rewrite Hok. simp_res. apply H.
Qed.

Lemma get_attr_diverges_witness :
  get_attr p2p_fmt [221; 7; 0x50; 0x6f; 0x9a; 9; 4; 0xFD; 0xFF] 0 9 2 None = NoFuel /\
  forall fuel, attr_loop p2p_fmt fuel [221; 7; 0x50; 0x6f; 0x9a; 9; 4; 0xFD; 0xFF] 0 9 2 6 None = NoFuel.
Proof.
  apply (get_attr_diverges p2p_fmt [221; 7; 0x50; 0x6f; 0x9a; 9; 4; 0xFD; 0xFF] 0 9 2 4 None);
    [reflexivity|lia|reflexivity|done|reflexivity].
Defined.

(** ** Removing attributes *)

Lemma wrap_sub_wrap w x y : wrap w (wrap w x - y) = wrap w (x - y).
Proof. unfold wrap. by rewrite Zminus_mod_idemp_l. Qed.

Definition keep_attrs (id : Z) : list attr -> list attr := filter (fun x => x.1 <> id).

Lemma keep_attrs_app id ats1 ats2 :
  Forall (fun x : attr => x.1 <> id) ats1 ->
  keep_attrs id (ats1 ++ ats2) = ats1 ++ keep_attrs id ats2.
Proof.
  induction 1 as [|x ats1 Hx _ IH]; [done|]. unfold keep_attrs in *. cbn [app].
  rewrite filter_cons, decide_True by done. f_equal. exact IH.
Qed.

Lemma keep_attrs_gone id d ats : keep_attrs id ((id, d) :: ats) = keep_attrs id ats.
Proof. unfold keep_attrs. rewrite filter_cons, decide_False; [done|]. cbn. by intros []. Qed.

Lemma find_attr_split hdr ats target off :
  (exists ats1 d ats2, ats = ats1 ++ (target, d) :: ats2 /\ Forall (fun x => x.1 <> target) ats1) \/
  (Forall (fun x => x.1 <> target) ats /\ find_attr hdr ats off target = None).
Proof.
  revert off. induction ats as [|[id d] ats IH]; intros off; [by right|]. cbn [find_attr].
  destruct (Z.eqb_spec id target) as [->|Hne]; [left; by exists [], d, ats|].
  destruct (IH (off + (zlen d + hdr))) as [(ats1 & d' & ats2 & -> & H1)|[H1 H2]].
  - left. exists ((id, d) :: ats1), d', ats2. split; [done|]. by constructor.
  - right. split; [by constructor|done].
Qed.

Section FmtDel.
Context (f : attr_fmt) {HF : AttrFmt f}.

Lemma find_attr_hit ats1 : forall target d ats2 off,
  Forall (fun x => x.1 <> target) ats1 ->
  find_attr 3 (ats1 ++ (target, d) :: ats2) off target =
  Some (off + zlen (enc_attrs f ats1), zlen d + 3).
Proof using HF.
  induction ats1 as [|[id' d'] ats1 IH]; intros target d ats2 off H; cbn [app find_attr].
  { rewrite Z.eqb_refl. change (enc_attrs f []) with (@nil Z). by rewrite zlen_nil, Z.add_0_r. }
  apply Forall_cons in H as [Hne H]. cbn in Hne. rewrite (proj2 (Z.eqb_neq _ _)) by done.
  rewrite IH by done. rewrite enc_attrs_cons, zlen_app, (zlen_enc_attr f). cbn [snd].
  do 2 f_equal. lia.
Qed.

(** One removal: the attribute disappears, zeroes appear behind the element,
    and the element's length byte shrinks. *)
Lemma del_attr_step (pre : list Z) l ats1 (g : attr) ats2 (post : list Z) :
  let b := pre ++ enc_attr_ie f l (ats1 ++ g :: ats2) ++ post in
  let tgt := zlen pre + 6 + zlen (enc_attrs f ats1) in
  let rem := zlen (enc_attrs f ats2) in
  (b ← memmove b tgt (tgt + (zlen g.2 + 3)) rem;
   b ← memset b (tgt + rem) 0 (zlen g.2 + 3);
   x ← rd b (zlen pre + 1);
   wr b (zlen pre + 1) (u8 (x - (zlen g.2 + 3)))) =
  Ret (pre ++ enc_attr_ie f (u8 (l - (zlen g.2 + 3))) (ats1 ++ ats2) ++
       replicate (Z.to_nat (zlen g.2 + 3)) 0 ++ post).
Proof using HF.
  intros b tgt rem. set (hd := WLAN_EID_VENDOR_SPECIFIC :: l :: fmt_oui f).
  assert (zlen hd = 6) as Hhd by (unfold hd; rewrite !zlen_cons, fmt_oui_len; done).
  assert (b = (pre ++ hd ++ enc_attrs f ats1) ++ enc_attr f g ++ enc_attrs f ats2 ++ post) as ->.
  { unfold b, enc_attr_ie. by rewrite enc_attrs_app, enc_attrs_cons, <- !app_assoc. }
  rewrite memmove_left; [simp_res|..|done].
  2: { rewrite !zlen_app. unfold tgt. lia. }
  2: { rewrite !zlen_app, (zlen_enc_attr f). unfold tgt. lia. }
  set (stale := drop _ _).
  assert (length stale = Z.to_nat (zlen g.2 + 3)) as Hst.
  { unfold stale. rewrite length_drop, length_app. pose proof (zlen_enc_attr f g) as Hz.
    unfold zlen in *. lia. }
  unfold memset. rewrite app_assoc. rewrite splice_mid; [simp_res|..].
  2: { rewrite !zlen_app. unfold tgt, rem. lia. }
  2: { by rewrite length_replicate. }
  set (zs := replicate _ 0).
  unfold enc_attr_ie. rewrite enc_attrs_app.
  assert (((pre ++ hd ++ enc_attrs f ats1) ++ enc_attrs f ats2) ++ zs ++ post =
          (pre ++ [WLAN_EID_VENDOR_SPECIFIC]) ++ l ::
            (fmt_oui f ++ enc_attrs f ats1 ++ enc_attrs f ats2 ++ zs ++ post)) as ->.
  { unfold hd. cbn [app]. rewrite <- !app_assoc. cbn [app]. by rewrite <- !app_assoc. }
  rewrite rd_app_r by (rewrite zlen_app; unfold zlen; simpl; lia).
  replace (zlen pre + 1 - zlen (pre ++ [WLAN_EID_VENDOR_SPECIFIC])) with 0 by zlen_lia.
  rewrite rd_cons_0. simp_res. rewrite wr_mid by zlen_lia.
  f_equal. cbn [app]. rewrite <- !app_assoc. done.
Qed.

Lemma del_attr_loop_enc n : forall ats fuel (pre : list Z) l (post : list Z) id,
  (length ats <= n)%nat -> (length ats < fuel)%nat -> Forall wf_attr ats ->
  6 + zlen (enc_attrs f ats) < 2 ^ 32 -> is_u8 l ->
  del_attr_loop f fuel (pre ++ enc_attr_ie f l ats ++ post) (zlen pre) (6 + zlen (enc_attrs f ats)) id =
  let gone := zlen (enc_attrs f ats) - zlen (enc_attrs f (keep_attrs id ats)) in
  Ret (pre ++ enc_attr_ie f (u8 (l - gone)) (keep_attrs id ats) ++ replicate (Z.to_nat gone) 0 ++ post,
       6 + zlen (enc_attrs f (keep_attrs id ats))).
Proof using HF.
  induction n as [|n IH]; intros ats fuel pre l post id Hn Hf Hw Hl Hb8;
    (destruct fuel as [|fuel]; [lia|]); cbn [del_attr_loop];
    rewrite (get_attr_enc f _ _ l) by (done || by apply at_off_intro); simp_res.
  { destruct ats; [|simpl in Hn; lia]. cbn. rewrite Z.sub_0_r, wrap_small by done. done. }
  destruct (find_attr_split 3 ats id (zlen pre + 6)) as [(ats1 & d & ats2 & -> & H1)|[H1 H2]].
  2: { rewrite H2. cbn [found find_result].
       assert (keep_attrs id ats = ats) as ->.
       { rewrite <- (app_nil_r ats), keep_attrs_app by done. done. }
       rewrite Z.sub_diag, Z.sub_0_r, wrap_small by done. done. }
  rewrite find_attr_hit by done. cbn [found find_result fst].
  pose proof (zlen_nonneg d). rewrite (proj2 (Z.eqb_neq _ 0)) by lia.
  assert (keep_attrs id (ats1 ++ (id, d) :: ats2) = ats1 ++ keep_attrs id ats2) as Hk.
  { by rewrite keep_attrs_app, keep_attrs_gone. }
  apply Forall_app in Hw as [Hw1 [_ Hw2]%Forall_cons].
  rewrite enc_attrs_app, enc_attrs_cons, !zlen_app, (zlen_enc_attr f) in Hl |- *. cbn [snd] in *.
  pose proof (zlen_nonneg (enc_attrs f ats1)). pose proof (zlen_nonneg (enc_attrs f ats2)).
  rewrite (wrap_small 32 (_ - (_ - zlen pre))) by (unfold fits; lia).
  rewrite (wrap_small 32 (_ - (zlen d + 3))) by (unfold fits; lia).
  pose proof (del_attr_step pre l ats1 (id, d) ats2 post) as Hstep. cbn zeta in Hstep. cbn [snd] in Hstep.
  replace (6 + (zlen (enc_attrs f ats1) + (zlen d + 3 + zlen (enc_attrs f ats2)))
           - (zlen pre + 6 + zlen (enc_attrs f ats1) + (zlen d + 3) - zlen pre))
    with (zlen (enc_attrs f ats2)) by lia.
  destruct (memmove _ _ _ _) as [b1| |]; [|done..]. simp_res in Hstep. simp_res.
  destruct (memset b1 _ _ _) as [b2| |]; [|done..]. simp_res in Hstep. simp_res.
  destruct (rd b2 _) as [x| |]; [|done..]. simp_res in Hstep. simp_res. rewrite Hstep. simp_res.
  replace (6 + (zlen (enc_attrs f ats1) + (zlen d + 3 + zlen (enc_attrs f ats2))) - (zlen d + 3))
    with (6 + zlen (enc_attrs f (ats1 ++ ats2))) by (rewrite enc_attrs_app, zlen_app; lia).
  rewrite length_app in Hn, Hf. cbn [length] in Hn, Hf.
  rewrite IH; [|rewrite length_app; lia|rewrite length_app; lia|by apply Forall_app|
               rewrite enc_attrs_app, zlen_app; lia|by apply wrap_fits].
  cbn zeta. rewrite keep_attrs_app, Hk, !enc_attrs_app, !zlen_app by done.
  set (k2 := zlen (enc_attrs f (keep_attrs id ats2))).
  assert (k2 <= zlen (enc_attrs f ats2)) as Hle.
  { unfold k2. clear. induction ats2 as [|x ats2 IH]; [done|]. unfold keep_attrs in *.
    rewrite filter_cons. destruct (decide _); rewrite !enc_attrs_cons, !zlen_app; zlen_lia. }
  do 2 f_equal. rewrite wrap_sub_wrap. do 2 f_equal.
  - f_equal. f_equal. lia.
  - rewrite app_assoc, <- replicate_add. f_equal. f_equal. lia.
Qed.
End FmtDel.

(** [rtw_del_p2p_attr] and [rtw_del_wfd_attr] remove exactly the attributes
    with the given id, keep the others in order, clear the bytes they free
    behind the element, and subtract the freed size from the element's length
    byte and from the returned length. *)
Theorem del_attr_refines f ats pre l post id :
  AttrFmt f -> Forall wf_attr ats -> 6 + zlen (enc_attrs f ats) < 2 ^ 32 -> is_u8 l ->
  del_attr f (pre ++ enc_attr_ie f l ats ++ post) (zlen pre) (6 + zlen (enc_attrs f ats)) id =
  let gone := zlen (enc_attrs f ats) - zlen (enc_attrs f (keep_attrs id ats)) in
  Ret (pre ++ enc_attr_ie f (u8 (l - gone)) (keep_attrs id ats) ++ replicate (Z.to_nat gone) 0 ++ post,
       6 + zlen (enc_attrs f (keep_attrs id ats))).
Proof.
  intros HF Hw Hl Hb. apply (del_attr_loop_enc f (length ats)); [done| |done..].
  pose proof (enc_attrs_length f ats). unfold zlen in *. lia.
Qed.

Lemma del_attr_refines_witness :
  rtw_del_p2p_attr ([8] ++ enc_attr_ie p2p_fmt 18 [(2, [5; 6]); (13, [7; 8]); (2, [])] ++ [9]) 1 19 2 =
  Ret ([8] ++ enc_attr_ie p2p_fmt 10 [(13, [7; 8])] ++ [0; 0; 0; 0; 0; 0; 0; 0] ++ [9], 11).
Proof.
  apply (del_attr_refines p2p_fmt [(2, [5; 6]); (13, [7; 8]); (2, [])] [8] 18 [9] 2);
    [apply _| |by_eval|by_eval].
  repeat (apply Forall_cons; split; [reflexivity|]). constructor.
Defined.

(** ** Writing an attribute and reading it back *)

Lemma rtw_set_p2p_attr_content_writes pre old post id d :
  length old = (3 + length d)%nat -> is_u16 (zlen d) ->
  rtw_set_p2p_attr_content (pre ++ old ++ post) (zlen pre) id (zlen d) (Some d) =
  Ret (pre ++ enc_attr p2p_fmt (id, d) ++ post, zlen d + 3).
Proof.
  intros Hl Hd. destruct old as [|o0 [|o1 [|o2 old]]]; try done. injection Hl as Hl.
  unfold rtw_set_p2p_attr_content. cbn [app]. rewrite wr_mid by done. simp_res.
  assert (pre ++ id :: o1 :: o2 :: old ++ post = (pre ++ [id]) ++ [o1; o2] ++ old ++ post) as ->
    by (by rewrite <- app_assoc).
  rewrite splice_mid by (done || zlen_lia). simp_res.
  rewrite slice_Ret by (lia || zlen_lia). simp_res.
  rewrite zlen_to_nat. change (Z.to_nat 0) with 0%nat. rewrite drop_0, firstn_all.
  rewrite app_assoc. rewrite splice_mid; [simp_res|zlen_lia|done].
  unfold fits in Hd. rewrite wrap_small by (unfold fits; lia).
  unfold enc_attr. cbn [fst snd fmt_enc16 p2p_fmt app]. by rewrite <- !app_assoc.
Qed.

(** [rtw_set_p2p_attr_content] appends an attribute that
    [rtw_get_p2p_attr_content] finds again: same content, same length, and the
    pointer just behind the attribute header, whatever attributes with other
    ids precede it. *)
Theorem rtw_set_get_p2p_attr pre l ats old post id d dst :
  let b := pre ++ enc_attr_ie p2p_fmt l ats ++ old ++ post in
  let ielen := 6 + zlen (enc_attrs p2p_fmt ats) in
  length old = (3 + length d)%nat -> length dst = length d -> wf_attr (id, d) ->
  Forall wf_attr ats -> Forall (fun x => x.1 <> id) ats ->
  exists b' n, rtw_set_p2p_attr_content b (zlen pre + ielen) id (zlen d) (Some d) = Ret (b', n) /\
    rtw_get_p2p_attr_content b' (zlen pre) (ielen + n) id (Some dst) (Some (zlen d)) =
    Ret (Some (zlen pre + ielen + 3), Some d, Some (zlen d)).
Proof.
  intros b ielen Hold Hdst Hd Hw Hne. unfold wf_attr in Hd. cbn [snd] in Hd.
  pose proof (zlen_nonneg d).
  exists (pre ++ enc_attr_ie p2p_fmt l (ats ++ [(id, d)]) ++ post), (zlen d + 3).
  set (ie := enc_attr_ie p2p_fmt l ats) in *.
  assert (zlen ie = ielen) as Hz by (unfold ie, enc_attr_ie, ielen; rewrite zlen_app; done).
  assert (enc_attr_ie p2p_fmt l (ats ++ [(id, d)]) = ie ++ enc_attr p2p_fmt (id, d)) as Hie.
  { unfold ie, enc_attr_ie. rewrite enc_attrs_app, <- app_assoc. do 2 f_equal.
    unfold enc_attrs. cbn [map concat]. by rewrite app_nil_r. }
  assert (rtw_set_p2p_attr_content b (zlen pre + ielen) id (zlen d) (Some d) =
          Ret (pre ++ (ie ++ enc_attr p2p_fmt (id, d)) ++ post, zlen d + 3)) as Hset.
  { unfold b. rewrite app_assoc, <- Hz, <- zlen_app.
    rewrite rtw_set_p2p_attr_content_writes by (done || (unfold fits; lia)).
    by rewrite <- !app_assoc. }
  rewrite Hie. split; [exact Hset|]. unfold rtw_get_p2p_attr_content, rtw_get_p2p_attr.
  rewrite <- Hie.
  assert (ielen + (zlen d + 3) = 6 + zlen (enc_attrs p2p_fmt (ats ++ [(id, d)]))) as ->.
  { rewrite enc_attrs_app, zlen_app. unfold enc_attrs at 2. cbn [map concat].
    rewrite app_nil_r, (zlen_enc_attr p2p_fmt). cbn [snd]. unfold ielen. lia. }
  rewrite (get_attr_enc p2p_fmt _ _ l);
    [|by apply at_off_intro|apply Forall_app; split; [done|by apply Forall_singleton]].
  simp_res. rewrite (find_attr_hit p2p_fmt) by done. cbn [found find_result fst attr_content].
  rewrite (proj2 (Z.eqb_neq _ 0)) by lia. rewrite (wrap_small 32) by (unfold fits; lia).
  replace (zlen d + 3 - 3) with (zlen d) by lia. rewrite Z.ltb_irrefl. cbn [default copy_opt].
  rewrite (at_off_slice _ _ d);
    [simp_res| |done].
  - rewrite <- (app_nil_r dst), <- (app_nil_l (dst ++ [])).
    rewrite splice_mid by done. simp_res. cbn [app]. rewrite app_nil_r.
    do 3 f_equal. unfold ielen. f_equal. lia.
  - exists (pre ++ ie ++ id :: le16 (zlen d)), post. rewrite Hie. unfold enc_attr.
    cbn [fst snd fmt_enc16 p2p_fmt]. split; [|rewrite !zlen_app, Hz, zlen_cons, zlen_le16; unfold ielen; lia].
    rewrite <- !app_assoc. cbn [app]. by rewrite <- ?app_assoc.
Qed.

Lemma rtw_set_get_p2p_attr_witness :
  exists b' n,
    rtw_set_p2p_attr_content ([1] ++ enc_attr_ie p2p_fmt 9 [(2, [5; 6])] ++ [0; 0; 0; 0; 0] ++ [7])
      (1 + 11) 13 2 (Some [8; 9]) = Ret (b', n) /\
    rtw_get_p2p_attr_content b' 1 (11 + n) 13 (Some [0; 0]) (Some 2) =
    Ret (Some (1 + 11 + 3), Some [8; 9], Some 2).
Proof.
  apply (rtw_set_get_p2p_attr [1] 9 [(2, [5; 6])] [0; 0; 0; 0; 0] [7] 13 [8; 9] [0; 0]);
    [done|done|reflexivity| |].
  - apply Forall_singleton. reflexivity.
  - by apply Forall_singleton.
Defined.

(** ** WPS attributes *)

Definition enc_wps_attr (x : attr) : list Z := be16 x.1 ++ be16 (zlen x.2) ++ x.2.
Definition enc_wps_attrs (ats : list attr) : list Z := concat (map enc_wps_attr ats).
Definition wf_wps_attr (x : attr) : Prop := is_u16 x.1 /\ zlen x.2 + 4 < 2 ^ 16.
Definition enc_wps_ie (l : Z) (ats : list attr) : list Z :=
  (WLAN_EID_VENDOR_SPECIFIC :: l :: WPS_OUI) ++ enc_wps_attrs ats.

Lemma wps_attr_loop_enc ats : forall fuel b ie ielen target a,
  Forall wf_wps_attr ats -> at_off b (ie + a) (enc_wps_attrs ats) ->
  ielen = a + zlen (enc_wps_attrs ats) -> (length ats < fuel)%nat ->
  wps_attr_loop fuel b ie ielen target a None = Ret (found (find_attr 4 ats (ie + a) target)).
Proof.
  induction ats as [|[id d] ats IH]; intros fuel b ie ielen target a Hw Hat Hl Hf;
    (destruct fuel as [|fuel]; [lia|]); cbn [wps_attr_loop find_attr].
  { change (enc_wps_attrs []) with (@nil Z) in Hl. rewrite zlen_nil in Hl.
    by rewrite (proj2 (Z.ltb_ge _ _)) by lia. }
  apply Forall_cons in Hw as [[Hid Hd] Hw]. cbn [fst snd] in *.
  change (enc_wps_attrs ((id, d) :: ats)) with (enc_wps_attr (id, d) ++ enc_wps_attrs ats) in *.
  unfold enc_wps_attr in *. cbn [fst snd] in *. rewrite <- !app_assoc in Hat.
  rewrite !zlen_app in Hl. change (zlen (be16 _)) with 2 in Hl.
  pose proof (zlen_nonneg d). pose proof (zlen_nonneg (enc_wps_attrs ats)).
  apply at_off_be16 in Hat as [Hi Hat]; [|done].
  apply at_off_be16 in Hat as [Hn Hat]; [|unfold fits; lia].
  apply at_off_app in Hat as [_ Hat].
  rewrite (proj2 (Z.ltb_lt _ _)) by lia. rewrite Hi. simp_res. rewrite Hn. simp_res.
  rewrite wrap_small by (unfold fits; lia). destruct (id =? target); [done|].
  replace (ie + a + 2 + 2 + zlen d) with (ie + (a + (zlen d + 4))) in Hat by lia.
  rewrite IH; [f_equal; f_equal; f_equal; lia|done|done|lia|simpl in Hf; lia].
Qed.

(** On a well-formed WPS element [rtw_get_wps_attr] returns the first
    attribute with the requested id and its total length, or [NULL]. *)
Theorem rtw_get_wps_attr_refines pre l ats post target :
  Forall wf_wps_attr ats ->
  rtw_get_wps_attr (pre ++ enc_wps_ie l ats ++ post) (zlen pre) (6 + zlen (enc_wps_attrs ats))
    target None =
  Ret (found (find_attr 4 ats (zlen pre + 6) target)).
Proof.
  intros Hw. set (b := pre ++ _ ++ post).
  assert (at_off b (zlen pre) (enc_wps_ie l ats)) as Hat by (by apply at_off_intro).
  unfold enc_wps_ie in Hat. apply at_off_app in Hat as [Hh Hat].
  apply at_off_cons in Hh as [Hid Hh]. apply at_off_cons in Hh as [_ Hh].
  replace (zlen pre + 1 + 1) with (zlen pre + 2) in Hh by lia.
  unfold rtw_get_wps_attr, oui_hit, oui_cond. rewrite Hid. simp_res. rewrite Z.eqb_refl.
  rewrite (at_off_memcmp _ _ WPS_OUI) by done. rewrite bool_decide_eq_true_2 by done. simp_res.
  cbn [negb]. apply wps_attr_loop_enc; [done|done|lia|].
  assert (zlen ats <= zlen (enc_wps_attrs ats)).
  { clear. induction ats as [|x ats IH]; [done|].
    change (enc_wps_attrs (x :: ats)) with (enc_wps_attr x ++ enc_wps_attrs ats).
    unfold enc_wps_attr. rewrite !zlen_app, zlen_cons. change (zlen (be16 _)) with 2.
    pose proof (zlen_nonneg x.2). lia. }
  unfold zlen in *. lia.
Qed.

Lemma rtw_get_wps_attr_refines_witness :
  rtw_get_wps_attr ([1] ++ enc_wps_ie 14 [(0x104a, [0x10]); (0x1012, [0; 4])] ++ [7]) 1 17 0x1012 None
  = Ret (Some 12, 6, None).
Proof.
  apply (rtw_get_wps_attr_refines [1] 14 [(0x104a, [0x10]); (0x1012, [0; 4])] [7] 0x1012).
  repeat (apply Forall_cons; split; [split; by_eval|]). constructor.
Defined.

(** [rtw_get_wps_attr] never checks that an attribute fits and its 16-bit
    [attr_len] wraps: an attribute with length [0xFFFC] and another id makes it
    loop for ever. *)
Theorem rtw_get_wps_attr_diverges b ie ielen target id a buf :
  a < ielen -> get_be16 b (ie + a) = Ret id -> id <> target ->
  get_be16 b (ie + a + 2) = Ret 0xFFFC ->
  forall fuel, wps_attr_loop fuel b ie ielen target a buf = NoFuel.
Proof.
  intros Ha Hid Hne Hg. induction fuel as [|fuel IH]; [done|]. cbn [wps_attr_loop].
  rewrite (proj2 (Z.ltb_lt _ _)) by lia. rewrite Hid. simp_res. rewrite Hg. simp_res.
  change (u16 (0xFFFC + 4)) with 0. rewrite (proj2 (Z.eqb_neq _ _)) by done.
  rewrite Z.add_0_r. exact IH.
Qed.

Lemma rtw_get_wps_attr_diverges_witness :
  wps_attr_loop 1000 [221; 8; 0; 0x50; 0xf2; 4; 0x10; 0x4a; 0xff; 0xfc] 0 10 0x1012 6 None
  = NoFuel.
Proof.
  apply (rtw_get_wps_attr_diverges [221; 8; 0; 0x50; 0xf2; 4; 0x10; 0x4a; 0xff; 0xfc] 0 10 0x1012
           0x104a 6 None); [lia|reflexivity|done|reflexivity].
Defined.

(** ** Merging *)

Definition has_oui (oui : list Z) (e : ie) : bool :=
  (e.1 =? WLAN_EID_VENDOR_SPECIFIC) && bool_decide (take 4 e.2 = oui).

(** What the P2P elements of a list carry behind their OUI. *)
Fixpoint p2p_content (es : list ie) : list Z :=
  match es with
  | [] => []
  | e :: es => (if has_oui P2P_OUI e then drop 4 e.2 else []) ++ p2p_content es
  end.

Definition vendor_has_oui (e : ie) : Prop := e.1 = WLAN_EID_VENDOR_SPECIFIC -> 4 <= zlen e.2.

Lemma oui_hit_enc oui b p e :
  zlen oui = 4 -> at_off b p (enc_ie e) -> vendor_has_oui e ->
  oui_hit oui b p = Ret (has_oui oui e) /\ rd b (p + 1) = Ret (zlen e.2) /\ at_off b (p + 2) e.2.
Proof.
  intros Ho Hat Hv. unfold enc_ie in Hat.
  apply at_off_cons in Hat as [Hid Hat]. apply at_off_cons in Hat as [Hl Hat].
  replace (p + 1 + 1) with (p + 2) in Hat by lia. split; [|done].
  unfold oui_hit, oui_cond, has_oui. rewrite Hid. simp_res.
  destruct (Z.eqb_spec e.1 WLAN_EID_VENDOR_SPECIFIC) as [E|]; [|done]. specialize (Hv E).
  rewrite <- (take_drop 4 e.2) in Hat. apply at_off_app in Hat as [Hat _].
  apply at_off_memcmp; [done|]. rewrite Ho. unfold zlen in *. rewrite length_take. lia.
Qed.

Lemma merged_len_loop_enc es : forall fuel b in_ie in_len i len,
  Forall vendor_has_oui es -> at_off b (in_ie + i) (enc_ies es) ->
  in_len = i + zlen (enc_ies es) -> (length es < fuel)%nat ->
  merged_len_loop fuel b in_ie in_len i len = Ret (len + zlen (p2p_content es)).
Proof.
  induction es as [|e es IH]; intros fuel b in_ie in_len i len Hv Hat Hl Hf;
    (destruct fuel as [|fuel]; [lia|]); cbn [merged_len_loop p2p_content].
  { rewrite enc_ies_nil, zlen_nil in Hl. rewrite (proj2 (Z.ltb_ge _ _)) by lia.
    rewrite zlen_nil. f_equal. lia. }
  apply Forall_cons in Hv as [He Hv]. rewrite enc_ies_cons in Hat, Hl.
  rewrite zlen_app, zlen_enc_ie in Hl. pose proof (zlen_nonneg (enc_ies es)). pose proof (zlen_nonneg e.2).
  apply at_off_app in Hat as [H1 H2]. rewrite zlen_enc_ie in H2.
  destruct (oui_hit_enc P2P_OUI b (in_ie + i) e) as (Hh & Hlen & _); [done..|].
  rewrite (proj2 (Z.ltb_lt _ _)) by lia. rewrite Hh. simp_res. rewrite Hlen. simp_res.
  replace (in_ie + i + (zlen e.2 + 2)) with (in_ie + (i + (zlen e.2 + 2))) in H2 by lia.
  rewrite IH; [|done|done|lia|simpl in Hf; lia]. f_equal. rewrite zlen_app.
  destruct (has_oui P2P_OUI e) eqn:E; [|zlen_lia].
  apply andb_true_iff in E as [E _]. apply Z.eqb_eq in E. specialize (He E).
  unfold zlen in *. rewrite length_drop. lia.
Qed.

Lemma merge_loop_enc es : forall fuel b in_ie in_len i w room rest mp len,
  Forall vendor_has_oui es -> at_off b (in_ie + i) (enc_ies es) ->
  in_len = i + zlen (enc_ies es) -> (length es < fuel)%nat ->
  mp = zlen w -> zlen room = zlen (p2p_content es) ->
  merge_loop fuel b in_ie in_len i (w ++ room ++ rest) mp (u8 len) =
  Ret (w ++ p2p_content es ++ rest, u8 (len + zlen (p2p_content es))).
Proof.
  induction es as [|e es IH]; intros fuel b in_ie in_len i w room rest mp len Hv Hat Hl Hf Hmp Hr;
    (destruct fuel as [|fuel]; [lia|]); cbn [merge_loop p2p_content] in *.
  { rewrite enc_ies_nil, zlen_nil in Hl. rewrite (proj2 (Z.ltb_ge _ _)) by lia.
    rewrite zlen_nil in *. destruct room; [|zlen_lia]. by rewrite Z.add_0_r. }
  apply Forall_cons in Hv as [He Hv]. rewrite enc_ies_cons in Hat, Hl.
  rewrite zlen_app, zlen_enc_ie in Hl. pose proof (zlen_nonneg (enc_ies es)). pose proof (zlen_nonneg e.2).
  apply at_off_app in Hat as [H1 H2]. rewrite zlen_enc_ie in H2.
  destruct (oui_hit_enc P2P_OUI b (in_ie + i) e) as (Hh & Hlen & Hbody); [done..|].
  rewrite (proj2 (Z.ltb_lt _ _)) by lia. rewrite Hh. simp_res. rewrite Hlen. simp_res.
  replace (in_ie + i + (zlen e.2 + 2)) with (in_ie + (i + (zlen e.2 + 2))) in H2 by lia.
  destruct (has_oui P2P_OUI e) eqn:E.
  2: { cbn [app] in *. apply IH; try done; [lia|simpl in Hf; lia]. }
  apply andb_true_iff in E as [E _]. apply Z.eqb_eq in E. specialize (He E).
  assert (zlen (drop 4 e.2) = zlen e.2 - 4) as Hd by (unfold zlen in *; rewrite length_drop; lia).
  rewrite <- (take_drop 4 e.2) in Hbody. apply at_off_app in Hbody as [_ Hbody].
  replace (in_ie + i + 2 + zlen (take 4 e.2)) with (in_ie + i + 6) in Hbody
    by (unfold zlen in *; rewrite length_take; lia).
  rewrite (at_off_slice _ _ (drop 4 e.2)) by done. simp_res.
  rewrite zlen_app in Hr. pose proof (zlen_nonneg (p2p_content es)).
  destruct (split_at room (zlen e.2 - 4)) as (r1 & r2 & -> & Hr1); [lia|].
  rewrite zlen_app in Hr. rewrite <- app_assoc.
  rewrite splice_mid; [simp_res|done|unfold zlen in *; lia].
  rewrite app_assoc. replace (u8 (u8 len + (zlen e.2 - 4))) with (u8 (len + (zlen e.2 - 4)))
    by (unfold wrap; by rewrite Zplus_mod_idemp_l).
  rewrite IH; [|done|done|lia|simpl in Hf; lia|rewrite zlen_app; lia|lia].
  rewrite zlen_app, <- !app_assoc, Hd. do 3 f_equal. lia.
Qed.

(** [rtw_p2p_merge_ies] writes one element header followed by the contents
    of all P2P elements in order, and [rtw_get_p2p_merged_ies_len] computes the
    size of that content plus the OUI; but the former accumulates its result in
    a [u8], so the two agree exactly when the content is shorter than 256
    bytes. *)
Theorem rtw_p2p_merge_ies_refines es pre post room rest :
  Forall vendor_has_oui es -> zlen room = zlen (p2p_content es) + 6 ->
  zlen (p2p_content es) + 4 < 2 ^ 32 ->
  let b := pre ++ enc_ies es ++ post in
  rtw_p2p_merge_ies b (zlen pre) (zlen (enc_ies es)) (room ++ rest) =
    Ret (([0xDD; 0x00] ++ P2P_OUI) ++ p2p_content es ++ rest, u8 (zlen (p2p_content es)) + 4) /\
  rtw_get_p2p_merged_ies_len b (zlen pre) (zlen (enc_ies es)) = Ret (zlen (p2p_content es) + 4) /\
  (u8 (zlen (p2p_content es)) + 4 = zlen (p2p_content es) + 4 <-> zlen (p2p_content es) < 256).
Proof.
  intros Hv Hr H32 b. pose proof (zlen_nonneg (p2p_content es)).
  assert (at_off b (zlen pre + 0) (enc_ies es)) as Hat by (apply at_off_intro; lia).
  assert (length es < S (Z.to_nat (zlen (enc_ies es))))%nat as Hf.
  { rewrite zlen_to_nat. pose proof (enc_ies_length es). lia. }
  split; [|split].
  - unfold rtw_p2p_merge_ies.
    destruct (split_at room 6) as (r1 & r2 & -> & Hr1); [lia|]. rewrite zlen_app in Hr.
    rewrite <- app_assoc, <- (app_nil_l (r1 ++ _)).
    rewrite splice_mid; [simp_res|done|unfold zlen in Hr1; simpl; lia]. cbn [app].
    pose proof (merge_loop_enc es (S (Z.to_nat (zlen (enc_ies es)))) b (zlen pre) (zlen (enc_ies es))
                  0 ([0xDD; 0x00] ++ P2P_OUI) r2 rest 6 0 Hv Hat) as Hm.
    change (u8 0) with 0 in Hm. cbn [app] in Hm. rewrite Hm by (done || lia). simp_res.
    by rewrite Z.add_0_l.
  - unfold rtw_get_p2p_merged_ies_len. rewrite (merged_len_loop_enc es) by (done || lia). simp_res.
    rewrite wrap_small by (unfold fits; lia). done.
  - pose proof (wrap_fits 8 (zlen (p2p_content es)) ltac:(lia)) as Hw. unfold fits in Hw. split; intros.
    + lia.
    + rewrite wrap_small by (unfold fits; lia). done.
Qed.

Lemma rtw_p2p_merge_ies_refines_witness :
  let es := [(221, [0x50; 0x6f; 0x9a; 9; 1; 2]); (0, [65]); (221, [0x50; 0x6f; 0x9a; 9; 3])] in
  let b := [7] ++ enc_ies es ++ [] in
  rtw_p2p_merge_ies b 1 18 ([0; 0; 0; 0; 0; 0; 0; 0; 0] ++ [55]) =
    Ret (([0xDD; 0x00] ++ P2P_OUI) ++ [1; 2; 3] ++ [55], 3 + 4) /\
  rtw_get_p2p_merged_ies_len b 1 18 = Ret (3 + 4) /\ (3 + 4 = 3 + 4 <-> 3 < 256).
Proof.
  apply (rtw_p2p_merge_ies_refines
    [(221, [0x50; 0x6f; 0x9a; 9; 1; 2]); (0, [65]); (221, [0x50; 0x6f; 0x9a; 9; 3])] [7] []
    [0; 0; 0; 0; 0; 0; 0; 0; 0] [55]).
  - repeat (apply Forall_cons; split; [intros _; by_eval || by_eval|]); try constructor.
    all: by_eval || (intros H; vm_compute in H; done).
  - reflexivity.
  - reflexivity.
Defined.

End Attrs.
