(* ===== verification/Arc4.v ===== *)
(** * RC4, the ICV and WEP

    Models the software WEP path of [core/rtw_security.c]: the RC4 generator
    ([arcfour_init], [arcfour_byte], [arcfour_encrypt]), the table driven
    CRC-32 with its lazily built static table ([crc32_init], [getcrc32],
    [rtw_calc_crc32]), [rtw_wep_encrypt] over all fragments of a frame and
    [rtw_wep_decrypt].  Words are stored little-endian, as on the hosts the
    driver is built for by default. *)
From S2P Require Import Prelude.

(** ** RC4 *)

Module Arc4.

Record arc4context := Arc4 { ax : Z; ay : Z; astate : list Z }.

(** [state[counter] = (u8)counter]. *)
Definition arc4_identity : list Z := map Z.of_nat (seq 0 256).

(** The second loop of [arcfour_init], from [counter] on, [n] rounds to go. *)
Fixpoint arcfour_init_loop (n : nat) (counter : Z) (state : list Z) (keyindex stateindex : Z)
    (key : list Z) (key_len : Z) : res (list Z) :=
  match n with
  | O => Ret state
  | S n =>
      t ← rd state counter;
      k ← rd key keyindex;
      let stateindex := Z.land (stateindex + k + t) 0xff in
      u ← rd state stateindex;
      state ← wr state stateindex (u8 t);
      state ← wr state counter (u8 u);
      let keyindex := u32 (keyindex + 1) in
      arcfour_init_loop n (counter + 1) state (if key_len <=? keyindex then 0 else keyindex)
        stateindex key key_len
  end.

Definition arcfour_init (key : list Z) (key_len : Z) : res arc4context :=
  state ← arcfour_init_loop 256 0 arc4_identity 0 0 key key_len;
  Ret (Arc4 0 0 state).

Definition arcfour_byte (c : arc4context) : res (arc4context * Z) :=
  let x := Z.land (ax c + 1) 0xff in
  sx ← rd (astate c) x;
  let y := Z.land (sx + ay c) 0xff in
  sy ← rd (astate c) y;
  state ← wr (astate c) y (u8 sx);
  state ← wr state x (u8 sy);
  k ← rd state (Z.land (sx + sy) 0xff);
  Ret (Arc4 x y state, k).

(** [arcfour_encrypt]: the bytes written for the source bytes. *)
Fixpoint arcfour_encrypt (c : arc4context) (src : list Z) : res (arc4context * list Z) :=
  match src with
  | [] => Ret (c, [])
  | s :: src =>
      r ← arcfour_byte c;
      q ← arcfour_encrypt r.1 src;
      Ret (q.1, Z.lxor s (u8 r.2) :: q.2)
  end.

(** *** The state stays a permutation of the 256 byte values *)

Definition perm256 (s : list Z) : Prop := s ≡ₚ arc4_identity.

Definition arc4_ok (c : arc4context) : Prop := is_u8 (ax c) /\ is_u8 (ay c) /\ perm256 (astate c).

Lemma arc4_identity_elem z : z ∈ arc4_identity <-> is_u8 z.
Proof.
  unfold arc4_identity, fits. rewrite list_elem_of_In, in_map_iff. split.
  - intros (n & <- & Hn%in_seq). lia.
  - intros Hz. exists (Z.to_nat z). split; [lia|]. apply in_seq. lia.
Qed.

Lemma perm256_zlen s : perm256 s -> zlen s = 256.
Proof. intros H. apply Permutation_length in H. unfold zlen. rewrite H. done. Qed.

Lemma perm256_rd s i : perm256 s -> is_u8 i -> exists x, rd s i = Ret x /\ is_u8 x.
Proof.
  intros Hs Hi. destruct (rd_in s i) as (x & Hx & Hin).
  { rewrite (perm256_zlen s) by done. exact Hi. }
  exists x. split; [done|]. apply arc4_identity_elem.
  unfold perm256 in Hs. by rewrite <- Hs.
Qed.

Lemma insert_permutation (l : list Z) i x :
  (i < length l)%nat -> <[i := x]> l ≡ₚ x :: delete i l.
Proof.
  intros Hi. rewrite insert_take_drop, delete_take_drop by done.
  by rewrite Permutation_middle.
Qed.

(** Exchanging two cells is a permutation. *)
Lemma swap_permutation (l : list Z) i j x y :
  l !! i = Some x -> l !! j = Some y -> <[i := y]> (<[j := x]> l) ≡ₚ l.
Proof.
  intros Hi Hj. pose proof (lookup_lt_Some _ _ _ Hi). pose proof (lookup_lt_Some _ _ _ Hj).
  destruct (decide (i = j)) as [->|Hne].
  { simplify_eq. by rewrite !list_insert_id by (rewrite ?list_insert_id; done). }
  rewrite insert_permutation by (by rewrite length_insert).
  transitivity (y :: delete j l); [f_equiv|symmetry; by apply delete_Permutation].
  assert (<[j := x]> l ≡ₚ x :: delete i (<[j := x]> l)) as H1.
  { apply delete_Permutation. by rewrite list_lookup_insert_ne. }
  assert (x :: delete j l ≡ₚ x :: delete i (<[j := x]> l)) as H2.
  { rewrite <- H1. symmetry. by apply insert_permutation. }
  by apply Permutation_cons_inv in H2.
Qed.

Lemma swap_ok s i j x y :
  perm256 s -> is_u8 i -> is_u8 j -> rd s i = Ret x -> rd s j = Ret y ->
  exists s1 s2, wr s j (u8 x) = Ret s1 /\ wr s1 i (u8 y) = Ret s2 /\ perm256 s2.
Proof.
  intros Hs Hi Hj Hx Hy. pose proof (perm256_zlen s Hs) as Hlen.
  destruct (perm256_rd s i Hs Hi) as (x' & E & Bx). rewrite Hx in E. injection E as <-.
  destruct (perm256_rd s j Hs Hj) as (y' & E & By). rewrite Hy in E. injection E as <-.
  rewrite !wrap_small by done. unfold fits in Hi, Hj. change (2 ^ 8) with 256 in *.
  eexists _, _. split; [by rewrite wr_Ret by lia|].
  split; [rewrite wr_Ret; [done|unfold zlen in *; rewrite length_insert; lia]|].
  apply rd_Ret in Hx as [_ Hx]. apply rd_Ret in Hy as [_ Hy].
  unfold perm256. by rewrite swap_permutation.
Qed.

Lemma land_ff_u8 z : is_u8 (Z.land z 0xff).
Proof. apply land_fits_r; [lia|done]. Qed.
#[local] Hint Resolve land_ff_u8 : core.

Lemma arcfour_init_loop_ok key key_len :
  1 <= key_len -> key_len < 2 ^ 32 -> key_len <= zlen key ->
  forall n counter s ki si,
  0 <= counter -> counter + Z.of_nat n <= 256 -> perm256 s -> 0 <= ki < key_len ->
  exists s', arcfour_init_loop n counter s ki si key key_len = Ret s' /\ perm256 s'.
Proof.
  intros H1 H32 Hk. induction n as [|n IH]; intros counter s ki si Hc Hn Hs Hki; [by eexists|].
  cbn [arcfour_init_loop].
  assert (is_u8 counter) as Bc by (unfold fits; lia).
  destruct (perm256_rd s counter Hs Bc) as (t & Ht & _). rewrite Ht. simp_res.
  destruct (rd_in key ki) as (k & -> & _); [lia|]. simp_res.
  destruct (perm256_rd s (Z.land (si + k + t) 255) Hs) as (u & Hu & _); [done|]. rewrite Hu. simp_res.
  destruct (swap_ok s counter (Z.land (si + k + t) 255) t u) as (s1 & s2 & -> & E2 & Hs2);
    [done..|]. simp_res. rewrite E2. simp_res.
  apply IH; [lia|lia|done|]. rewrite wrap_small by (unfold fits; lia).
  destruct (Z.leb_spec key_len (ki + 1)); lia.
Qed.

Lemma arcfour_init_ok key key_len :
  1 <= key_len < 2 ^ 32 -> key_len <= zlen key ->
  exists c, arcfour_init key key_len = Ret c /\ arc4_ok c.
Proof.
  intros [H1 H2] Hk. unfold arcfour_init.
  destruct (arcfour_init_loop_ok key key_len H1 H2 Hk 256 0 arc4_identity 0 0) as (s & -> & Hs);
    [lia|lia|by apply Permutation_refl|lia|]. simp_res.
  eexists. split; [done|]. split; [done|]. by split.
Qed.

Lemma arcfour_byte_ok c :
  arc4_ok c -> exists c' k, arcfour_byte c = Ret (c', k) /\ arc4_ok c' /\ is_u8 k.
Proof.
  intros (Hx & Hy & Hs). unfold arcfour_byte.
  set (x := Z.land (ax c + 1) 255).
  destruct (perm256_rd (astate c) x Hs) as (sx & Hsx & _); [unfold x; done|]. rewrite Hsx. simp_res.
  set (y := Z.land (sx + ay c) 255).
  destruct (perm256_rd (astate c) y Hs) as (sy & Hsy & _); [unfold y; done|]. rewrite Hsy. simp_res.
  destruct (swap_ok (astate c) x y sx sy) as (s1 & s2 & -> & E2 & Hs2); try done;
    [unfold x; done|unfold y; done|]. simp_res. rewrite E2. simp_res.
  destruct (perm256_rd s2 (Z.land (sx + sy) 255) Hs2) as (k & -> & Hk); [done|]. simp_res.
  eexists _, _. split; [done|]. split; [|done]. split; [unfold x; apply land_ff_u8|].
  split; [unfold y; apply land_ff_u8|done].
Qed.

Lemma arcfour_encrypt_ok src : forall c,
  arc4_ok c -> bytes_ok src ->
  exists c' out, arcfour_encrypt c src = Ret (c', out) /\ arc4_ok c' /\
    zlen out = zlen src /\ bytes_ok out /\ arcfour_encrypt c out = Ret (c', src).
Proof.
  induction src as [|s src IH]; intros c Hc Hb; cbn [arcfour_encrypt]; [by eexists _, _|].
  apply Forall_cons in Hb as [Bs Hb].
  destruct (arcfour_byte_ok c Hc) as (c1 & k & Ek & Hc1 & Bk). rewrite Ek. simp_res.
  destruct (IH c1 Hc1 Hb) as (c2 & out & E & Hc2 & Hz & Bo & Einv). rewrite E. simp_res.
  rewrite wrap_small by done.
  eexists _, _. split; [done|]. split; [done|]. split; [by rewrite !zlen_cons, Hz|].
  split; [apply Forall_cons; split; [by apply lxor_fits|done]|].
  cbn [arcfour_encrypt]. rewrite Ek. simp_res. rewrite Einv. simp_res.
  rewrite wrap_small by done.
  by rewrite Z.lxor_assoc, Z.lxor_nilpotent, Z.lxor_0_r.
Qed.

(** Encrypting in two calls is encrypting the concatenation. *)
Lemma arcfour_encrypt_app a : forall c b,
  arcfour_encrypt c (a ++ b) =
  (r ← arcfour_encrypt c a; q ← arcfour_encrypt r.1 b; Ret (q.1, r.2 ++ q.2)).
Proof.
  induction a as [|x a IH]; intros c b; cbn [app arcfour_encrypt]; simp_res.
  - destruct (arcfour_encrypt c b) as [[? ?]| |]; done.
  - destruct (arcfour_byte c) as [[c1 k]| |]; simp_res; [|done..]. rewrite IH.
    destruct (arcfour_encrypt c1 a) as [[c2 o]| |]; simp_res; [|done..].
    destruct (arcfour_encrypt c2 b) as [[c3 o']| |]; done.
Qed.

(** For every key, [arcfour_init] builds a permutation of the 256 byte
    values, [arcfour_encrypt] keeps that invariant, never indexes outside the
    state or the key, preserves the length, and encrypting its output again
    from the same key gives the plaintext back. *)
Theorem arcfour_involution key key_len msg :
  1 <= key_len < 2 ^ 32 -> key_len <= zlen key -> bytes_ok msg ->
  exists c c' out,
    arcfour_init key key_len = Ret c /\ arc4_ok c /\
    arcfour_encrypt c msg = Ret (c', out) /\ arc4_ok c' /\ zlen out = zlen msg /\
    arcfour_encrypt c out = Ret (c', msg).
Proof.
  intros Hk Hl Hb. destruct (arcfour_init_ok key key_len Hk Hl) as (c & E & Hc).
  destruct (arcfour_encrypt_ok msg c Hc Hb) as (c' & out & ? & ? & ? & _ & ?).
  exists c, c', out. done.
Qed.

Lemma arcfour_involution_witness :
  exists c c' out,
    arcfour_init [0x4b; 0x65; 0x79] 3 = Ret c /\ arc4_ok c /\
    arcfour_encrypt c [0x50; 0x6c] = Ret (c', out) /\ arc4_ok c' /\ zlen out = 2 /\
    arcfour_encrypt c out = Ret (c', [0x50; 0x6c]).
Proof.
  apply (arcfour_involution [0x4b; 0x65; 0x79] 3 [0x50; 0x6c]); [lia|by_eval|by_eval].
Defined.

(** The published RC4 vector: key "Key", plaintext "Plaintext". *)
Example arc4_vector :
  (c ← arcfour_init [0x4b; 0x65; 0x79] 3;
   r ← arcfour_encrypt c [0x50; 0x6c; 0x61; 0x69; 0x6e; 0x74; 0x65; 0x78; 0x74];
   Ret r.2) = Ret [0xbb; 0xf3; 0x16; 0xe8; 0xd9; 0x40; 0xaf; 0x0a; 0xd3].
Proof. vm_compute. reflexivity. Qed.

End Arc4.

(** ** CRC-32 *)

Module Crc32.

Definition CRC32_POLY : Z := 0x04c11db7.

Definition crc32_reverseBit (data : Z) : Z :=
  u8 (Z.lor (Z.lor (Z.lor (Z.lor (Z.lor (Z.lor (Z.lor
    (Z.land (Z.shiftl data 7) 0x80) (Z.land (Z.shiftl data 5) 0x40))
    (Z.land (Z.shiftl data 3) 0x20)) (Z.land (Z.shiftl data 1) 0x10))
    (Z.land (Z.shiftr data 1) 0x08)) (Z.land (Z.shiftr data 3) 0x04))
    (Z.land (Z.shiftr data 5) 0x02)) (Z.land (Z.shiftr data 7) 0x01)).

(** One step of the shift register: [c & 0x80000000 ? (c << 1) ^ POLY : c << 1]. *)
Definition crc32_shift (c : Z) : Z :=
  if Z.land c 0x80000000 =? 0 then u32 (Z.shiftl c 1)
  else Z.lxor (u32 (Z.shiftl c 1)) CRC32_POLY.

(** Byte [n] of a [u32] in memory. *)
Definition byte_of (c n : Z) : Z := Z.land (Z.shiftr c (8 * n)) 0xff.

(** The table entry written through [p1]. *)
Definition crc32_entry (i : Z) : Z :=
  let c := Nat.iter 8 crc32_shift (Z.shiftl (crc32_reverseBit (u8 i)) 24) in
  Z.lor (Z.lor (Z.lor
    (crc32_reverseBit (byte_of c 3))
    (Z.shiftl (crc32_reverseBit (byte_of c 2)) 8))
    (Z.shiftl (crc32_reverseBit (byte_of c 1)) 16))
    (Z.shiftl (crc32_reverseBit (byte_of c 0)) 24).

(** The two static variables. *)
Record crc_state := Crc { bcrc32initialized : Z; crc32_table : list Z }.

Definition crc32_init (st : crc_state) : crc_state :=
  if bcrc32initialized st =? 1 then st
  else Crc 1 (map (fun i => crc32_entry (Z.of_nat i)) (seq 0 256)).

Fixpoint crc32_loop (tbl : list Z) (crc : Z) (buf : list Z) : res Z :=
  match buf with
  | [] => Ret crc
  | p :: buf =>
      t ← rd tbl (Z.land (Z.lxor crc p) 0xff);
      crc32_loop tbl (Z.lxor t (Z.shiftr crc 8)) buf
  end.

(** [getcrc32] on the bytes [buf]: the value [~crc] and the static variables. *)
Definition getcrc32 (st : crc_state) (buf : list Z) : res (Z * crc_state) :=
  let st := if bcrc32initialized st =? 0 then crc32_init st else st in
  crc ← crc32_loop (crc32_table st) 0xffffffff buf;
  Ret (u32 (Z.lnot crc), st).

Definition rtw_calc_crc32 (st : crc_state) (data : list Z) : res (Z * crc_state) :=
  let st := if bcrc32initialized st =? 0 then crc32_init st else st in
  crc ← crc32_loop (crc32_table st) 0xFFFFFFFF data;
  Ret (u32 (Z.lnot crc), st).

(** *** Reference: the reflected CRC-32, one bit at a time *)

Definition crc_bit (c : Z) : Z :=
  Z.lxor (Z.shiftr c 1) (if Z.testbit c 0 then 0xEDB88320 else 0).
Definition crc_byte (c b : Z) : Z := Nat.iter 8 crc_bit (Z.lxor c b).
Definition crc32_ref (msg : list Z) : Z :=
  Z.lxor (fold_left crc_byte msg 0xffffffff) 0xffffffff.

Definition crc_ready : crc_state := crc32_init (Crc 0 []).

(** The static variables are zeroed memory or what [crc32_init] leaves. *)
Definition crc_inv (st : crc_state) : Prop :=
  bcrc32initialized st = 0 \/ st = crc_ready.

Lemma crc_ready_init st : bcrc32initialized st = 0 -> crc32_init st = crc_ready.
Proof. intros H. unfold crc_ready, crc32_init. rewrite H. reflexivity. Qed.

Lemma crc_ready_flag : bcrc32initialized crc_ready = 1.
Proof. reflexivity. Qed.

(** The table computed by bit reversal holds the eight-fold [crc_bit]. *)
Lemma crc32_table_spec :
  crc32_table crc_ready =
  map (fun i => Nat.iter 8 crc_bit (Z.of_nat i)) (seq 0 256).
Proof. vm_compute. reflexivity. Qed.

Lemma crc_bit_lxor a b : crc_bit (Z.lxor a b) = Z.lxor (crc_bit a) (crc_bit b).
Proof.
  unfold crc_bit. rewrite Z.shiftr_lxor, Z.lxor_spec.
  destruct (Z.testbit a 0), (Z.testbit b 0); cbn [xorb]; rewrite ?Z.lxor_0_r.
  - rewrite Z.lxor_assoc, (Z.lxor_comm 0xEDB88320), Z.lxor_assoc, Z.lxor_nilpotent, Z.lxor_0_r.
    by rewrite Z.lxor_comm.
  - by rewrite !Z.lxor_assoc, (Z.lxor_comm 0xEDB88320).
  - by rewrite !Z.lxor_assoc.
  - done.
Qed.

Lemma crc_iter_lxor n a b :
  Nat.iter n crc_bit (Z.lxor a b) = Z.lxor (Nat.iter n crc_bit a) (Nat.iter n crc_bit b).
Proof. induction n as [|n IH]; [done|]. rewrite !Nat.iter_succ. by rewrite IH, crc_bit_lxor. Qed.

(** Shifting out zero bits does not touch the polynomial. *)
Lemma crc_iter_shiftl n z :
  Nat.iter n crc_bit (Z.shiftl z (Z.of_nat n)) = z.
Proof.
  revert z. induction n as [|n IH]; intros z; [by rewrite Z.shiftl_0_r|].
  rewrite Nat.iter_succ_r. rewrite <- (IH z) at 2. f_equal. unfold crc_bit.
  assert (Z.testbit (Z.shiftl z (Z.of_nat (S n))) 0 = false) as ->.
  { rewrite Z.shiftl_spec by lia. apply Z.testbit_neg_r. lia. }
  rewrite Z.lxor_0_r, Z.shiftr_shiftl_l by lia. f_equal. lia.
Qed.

Lemma split_low8 x : x = Z.lxor (Z.land x 0xff) (Z.shiftl (Z.shiftr x 8) 8).
Proof.
  change 0xff with (Z.ones 8). zbits.
  destruct (Z.ltb_spec i 8).
  - rewrite (Z.testbit_neg_r _ (i - 8)) by lia.
    by rewrite andb_true_r, xorb_false_r.
  - rewrite Z.shiftr_spec by lia. rewrite andb_false_r, xorb_false_l. f_equal. lia.
Qed.

(** The table step is eight bit steps. *)
Lemma crc_byte_table c b :
  is_u8 b ->
  crc_byte c b = Z.lxor (Nat.iter 8 crc_bit (Z.land (Z.lxor c b) 0xff)) (Z.shiftr c 8).
Proof.
  intros Hb. unfold crc_byte. rewrite (split_low8 (Z.lxor c b)) at 1.
  rewrite crc_iter_lxor. f_equal. rewrite (crc_iter_shiftl 8).
  rewrite Z.shiftr_lxor. rewrite (Z.shiftr_div_pow2 b) by lia.
  rewrite (Z.div_small b) by (unfold fits in Hb; lia). by rewrite Z.lxor_0_r.
Qed.

Lemma crc_bit_fits z : is_u32 z -> is_u32 (crc_bit z).
Proof.
  intros Hz. unfold crc_bit. apply lxor_fits; [lia|by apply shiftr_fits|].
  destruct (Z.testbit z 0); done.
Qed.

Lemma crc_byte_fits c b : is_u32 c -> is_u8 b -> is_u32 (crc_byte c b).
Proof.
  intros Hc Hb. unfold crc_byte. apply Nat.iter_invariant; [apply crc_bit_fits|].
  apply lxor_fits; [lia|done|unfold fits in *; lia].
Qed.

#[global] Opaque crc_bit crc_byte.

Lemma crc_table_rd i :
  is_u8 i -> rd (crc32_table crc_ready) i = Ret (Nat.iter 8 crc_bit i).
Proof.
  intros Hi. rewrite crc32_table_spec, rd_map_seq by (unfold fits in Hi; lia).
  unfold fits in Hi. by rewrite Z2Nat.id by lia.
Qed.

(** A table loop whose step is [f] folds [f]. *)
Lemma crc32_loop_fold tbl (f : Z -> Z -> Z) :
  (forall crc b, is_u8 b -> exists t, rd tbl (Z.land (Z.lxor crc b) 0xff) = Ret t /\
     Z.lxor t (Z.shiftr crc 8) = f crc b) ->
  forall buf crc, bytes_ok buf -> crc32_loop tbl crc buf = Ret (fold_left f buf crc).
Proof.
  intros Hf. induction buf as [|b buf IH]; intros crc Hb; [done|]. cbn [crc32_loop fold_left].
  apply Forall_cons in Hb as [Bb Hb]. destruct (Hf crc b Bb) as (t & -> & E). simp_res.
  rewrite E. by apply IH.
Qed.

Lemma fold_left_inv (P : Z -> Prop) (f : Z -> Z -> Z) :
  (forall c b, P c -> is_u8 b -> P (f c b)) ->
  forall buf c, P c -> bytes_ok buf -> P (fold_left f buf c).
Proof.
  intros Hf. induction buf as [|b buf IH]; intros c Hc Hb; [done|].
  apply Forall_cons in Hb as [Bb Hb]. apply IH; [by apply Hf|done].
Qed.

Lemma crc32_loop_spec buf crc :
  bytes_ok buf ->
  crc32_loop (crc32_table crc_ready) crc buf = Ret (fold_left crc_byte buf crc).
Proof.
  apply crc32_loop_fold. intros c b Hb. eexists. split.
  - apply crc_table_rd. apply land_fits_r; [lia|done].
  - symmetry. by apply crc_byte_table.
Qed.

Lemma crc_fold_fits buf c : is_u32 c -> bytes_ok buf -> is_u32 (fold_left crc_byte buf c).
Proof. apply (fold_left_inv is_u32). apply crc_byte_fits. Qed.

Lemma lnot_u32 c : is_u32 c -> u32 (Z.lnot c) = Z.lxor c 0xffffffff.
Proof.
  intros Hc. change 0xffffffff with (Z.ones 32). zbits.
  destruct (Z.ltb_spec i 32).
  - by rewrite xorb_true_r.
  - by rewrite (fits_testbit 32 c).
Qed.

(** The tables are ready afterwards, whatever was summed. *)
Lemma getcrc32_ready st buf v st' : crc_inv st -> getcrc32 st buf = Ret (v, st') -> st' = crc_ready.
Proof.
  intros Hst (crc & _ & H)%bind_inv. injection H as _ <-. destruct Hst as [H0| ->]; [|by rewrite crc_ready_flag]. rewrite H0. by apply crc_ready_init.
Qed.

Lemma getcrc32_spec st buf :
  crc_inv st -> bytes_ok buf -> getcrc32 st buf = Ret (crc32_ref buf, crc_ready).
Proof.
  intros Hst Hb. unfold getcrc32.
  assert ((if bcrc32initialized st =? 0 then crc32_init st else st) = crc_ready) as ->.
  { destruct Hst as [H| ->]; [|by rewrite crc_ready_flag].
    rewrite H. by apply crc_ready_init. }
  rewrite crc32_loop_spec by done. simp_res.
  rewrite lnot_u32 by (by apply crc_fold_fits). reflexivity.
Qed.

Lemma crc32_ref_fits buf : bytes_ok buf -> is_u32 (crc32_ref buf).
Proof. intros. apply lxor_fits; [lia|by apply crc_fold_fits|done]. Qed.

(** The table driven CRC, built by bit reversal on first use, computes the
    bit-serial CRC-32 of IEEE 802.3 (reflected, polynomial 0xEDB88320,
    complemented) for every message, whether or not the static table was
    already initialised, and leaves the table initialised; [rtw_calc_crc32] is
    the same function. *)
Theorem getcrc32_equiv st buf :
  crc_inv st -> bytes_ok buf ->
  exists st', getcrc32 st buf = Ret (crc32_ref buf, st') /\
    rtw_calc_crc32 st buf = Ret (crc32_ref buf, st') /\
    crc_inv st' /\ bcrc32initialized st' = 1 /\ is_u32 (crc32_ref buf).
Proof.
  intros Hst Hb. exists crc_ready.
  rewrite getcrc32_spec by done. split; [reflexivity|].
  split; [exact (getcrc32_spec st buf Hst Hb)|].
  split; [by right|]. split; [apply crc_ready_flag|]. by apply crc32_ref_fits.
Qed.

Lemma getcrc32_equiv_witness :
  exists st', getcrc32 (Crc 0 []) [0x31; 0x32; 0x33; 0x34; 0x35; 0x36; 0x37; 0x38; 0x39]
      = Ret (0xCBF43926, st') /\
    rtw_calc_crc32 (Crc 0 []) [0x31; 0x32; 0x33; 0x34; 0x35; 0x36; 0x37; 0x38; 0x39]
      = Ret (0xCBF43926, st') /\
    crc_inv st' /\ bcrc32initialized st' = 1 /\ is_u32 0xCBF43926.
Proof.
  apply (getcrc32_equiv (Crc 0 []) [0x31; 0x32; 0x33; 0x34; 0x35; 0x36; 0x37; 0x38; 0x39]);
    [by left|by_eval].
Defined.

#[global] Opaque crc_ready crc32_ref getcrc32.

End Crc32.

(** ** WEP *)

Module Wep.
Import Arc4 Crc32.

(** A [u32] stored in memory. *)
Definition le32 (v : Z) : list Z := [byte_of v 0; byte_of v 1; byte_of v 2; byte_of v 3].

(** The sequence both WEP and TKIP run on a fragment: ICV over the payload, then
    RC4 over the payload and, continuing the key stream, over the ICV, which
    lands right behind the payload. *)
Definition seal_fragment (st : crc_state) (b : list Z) (payload length : Z) (key : list Z)
    (key_len : Z) : res (list Z * crc_state) :=
  p ← slice b payload length;
  crc ← getcrc32 st p;
  c ← arcfour_init key key_len;
  e ← arcfour_encrypt c p;
  b ← splice b payload e.2;
  e ← arcfour_encrypt e.1 (le32 crc.1);
  b ← splice b (payload + length) e.2;
  Ret (b, crc.2).

(** Decryption of payload and ICV in place, and the ICV recomputed over the
    payload without its last four bytes ([getcrc32] takes a signed length and reads
    nothing when it is not positive). *)
Definition open_fragment (st : crc_state) (b : list Z) (payload length : Z) (key : list Z)
    (key_len : Z) : res (list Z * Z * crc_state) :=
  p ← slice b payload length;
  c ← arcfour_init key key_len;
  e ← arcfour_encrypt c p;
  b ← splice b payload e.2;
  p ← slice b payload (Z.max 0 (length - 4));
  crc ← getcrc32 st p;
  Ret (b, crc.1, crc.2).

Definition TXDESC_SIZE : Z := 48.
Definition PACKET_OFFSET_SZ : Z := 8.
Definition _WEP40_ : Z := 1.
Definition _WEP104_ : Z := 5.

(** The fields of [struct pkt_attrib] and [struct xmit_frame] that are used. *)
Record pkt_attrib := PktAttrib {
  encrypt : Z; nr_frags : Z; hdrlen : Z; iv_len : Z; icv_len : Z; last_txcmdsz : Z }.

(** [u8 hw_hdr_offset = TXDESC_SIZE + pkt_offset * PACKET_OFFSET_SZ]. *)
Definition hw_hdr_offset (pkt_offset : Z) : Z := u8 (TXDESC_SIZE + pkt_offset * PACKET_OFFSET_SZ).

Definition RND4 (x : Z) : Z :=
  Z.shiftl (Z.shiftr x 2 + (if Z.land x 3 =? 0 then 0 else 1)) 2.

(** [wepkey[16]]: three bytes of IV, then the default key; whatever lies behind
    them is not read. *)
Definition wep_key (b : list Z) (iv : Z) (skey : list Z) (keylength : Z) : res (list Z) :=
  i ← slice b iv 3;
  w ← splice (replicate 16 0) 0 i;
  k ← slice skey 0 keylength;
  splice w 3 k.

(** The loop over the fragments; [n] fragments remain, the buffer object starts
    at address [base]. *)
Fixpoint wep_encrypt_frags (n : nat) (st : crc_state) (b : list Z) (base pframe : Z)
    (a : pkt_attrib) (frag_len : Z) (skey : list Z) (keylength : Z) : res (list Z * crc_state) :=
  match n with
  | O => Ret (b, st)
  | S n =>
      wepkey ← wep_key b (pframe + hdrlen a) skey keylength;
      let payload := pframe + iv_len a + hdrlen a in
      match n with
      | O =>
          let length := last_txcmdsz a - hdrlen a - iv_len a - icv_len a in
          seal_fragment st b payload length wepkey (3 + keylength)
      | S _ =>
          let length := frag_len - hdrlen a - iv_len a - icv_len a in
          r ← seal_fragment st b payload length wepkey (3 + keylength);
          let pframe := RND4 (base + (pframe + frag_len)) - base in
          wep_encrypt_frags n r.2 r.1 base pframe a frag_len skey keylength
      end
  end.

(** [rtw_wep_encrypt]; [skey] and [keylength] are the default key selected by
    [dot11PrivacyKeyIndex]. *)
Definition rtw_wep_encrypt (st : crc_state) (b : list Z) (buf_addr : option Z) (base pkt_offset : Z)
    (a : pkt_attrib) (frag_len : Z) (skey : list Z) (keylength : Z) : res (list Z * crc_state) :=
  match buf_addr with
  | None => Ret (b, st)
  | Some addr =>
      let pframe := addr + hw_hdr_offset pkt_offset in
      if (encrypt a =? _WEP40_) || (encrypt a =? _WEP104_)
      then wep_encrypt_frags (Z.to_nat (nr_frags a)) st b base pframe a frag_len skey keylength
      else Ret (b, st)
  end.

(** [rtw_wep_decrypt]: [rx_data] and [len] describe the received frame.  The
    recomputed ICV is stored in a local variable and not used. *)
Definition rtw_wep_decrypt (st : crc_state) (b : list Z) (rx_data len enc hdr iv : Z)
    (skey : list Z) (keylength : Z) : res (list Z * crc_state) :=
  if (enc =? _WEP40_) || (enc =? _WEP104_) then
    wepkey ← wep_key b (rx_data + hdr) skey keylength;
    let length := len - hdr - iv in
    r ← open_fragment st b (rx_data + iv + hdr) length wepkey (3 + keylength);
    Ret (r.1.1, r.2)
  else Ret (b, st).

(** *** Sealing and opening are inverse *)

Lemma le32_bytes v : bytes_ok (le32 v).
Proof. repeat (apply Forall_cons; split; [apply land_ff_u8|]). constructor. Qed.

Lemma seal_fragment_eq st b payload length key key_len p v st' c c1 o1 b1 c2 o2 b2 :
  slice b payload length = Ret p -> getcrc32 st p = Ret (v, st') ->
  arcfour_init key key_len = Ret c -> arcfour_encrypt c p = Ret (c1, o1) ->
  splice b payload o1 = Ret b1 -> arcfour_encrypt c1 (le32 v) = Ret (c2, o2) ->
  splice b1 (payload + length) o2 = Ret b2 ->
  seal_fragment st b payload length key key_len = Ret (b2, st').
Proof.
  intros E1 E2 E3 E4 E5 E6 E7. unfold seal_fragment.
  bind_step E1. bind_step E2. bind_step E3. bind_step E4. bind_step E5. bind_step E6. bind_step E7.
  reflexivity.
Qed.

Lemma open_fragment_eq st b payload length key key_len q c c1 o b1 p v st' :
  slice b payload length = Ret q -> arcfour_init key key_len = Ret c ->
  arcfour_encrypt c q = Ret (c1, o) -> splice b payload o = Ret b1 ->
  slice b1 payload (Z.max 0 (length - 4)) = Ret p -> getcrc32 st p = Ret (v, st') ->
  open_fragment st b payload length key key_len = Ret (b1, v, st').
Proof.
  intros E1 E2 E3 E4 E5 E6. unfold open_fragment.
  bind_step E1. bind_step E2. bind_step E3. bind_step E4. bind_step E5. bind_step E6.
  reflexivity.
Qed.

(** Opening works on any octets. *)
Lemma open_fragment_total st b payload length key key_len :
  crc_inv st -> bytes_ok b -> 0 <= payload -> 0 <= length -> payload + length <= zlen b ->
  1 <= key_len < 2 ^ 32 -> key_len <= zlen key ->
  exists b' v, open_fragment st b payload length key key_len = Ret (b', v, crc_ready) /\
    bytes_ok b' /\ zlen b' = zlen b.
Proof.
  intros Hst Hb Hp Hl Hz Hk Hkl. destruct (slice_total b payload length) as (q & Eq & Lq); [lia..|].
  destruct (arcfour_init_ok key key_len Hk Hkl) as (c & Ec & Hc).
  assert (bytes_ok q) as Hq by (exact (slice_bytes _ _ _ _ Hb Eq)).
  destruct (arcfour_encrypt_ok q c Hc Hq) as (c1 & o & Eo & _ & Lo & Bo & _).
  assert (exists b1, splice b payload o = Ret b1) as (b1 & E1) by (unfold splice; zdecide; by eexists).
  assert (bytes_ok b1) as Hb1 by (exact (splice_bytes _ _ _ _ Hb Bo E1)).
  pose proof (splice_zlen _ _ _ _ E1) as L1.
  destruct (slice_total b1 payload (Z.max 0 (length - 4))) as (p & Ep & _); [lia..|].
  exists b1, (crc32_ref p). split; [|done].
  eapply open_fragment_eq; [exact Eq|exact Ec|exact Eo|exact E1|exact Ep|].
  apply getcrc32_spec; [done|exact (slice_bytes _ _ _ _ Hb1 Ep)].
Qed.

Lemma arcfour_encrypt_two c c1 c2 a b oa ob :
  arcfour_encrypt c a = Ret (c1, oa) -> arcfour_encrypt c1 b = Ret (c2, ob) ->
  arcfour_encrypt c (a ++ b) = Ret (c2, oa ++ ob).
Proof.
  intros E1 E2. rewrite arcfour_encrypt_app. bind_step E1. bind_step E2. reflexivity.
Qed.

Lemma zlen_le32 v : zlen (le32 v) = 4.
Proof. reflexivity. Qed.

Lemma seal_fragment_spec st pre p room post key key_len :
  crc_inv st -> bytes_ok p -> 1 <= key_len < 2 ^ 32 -> key_len <= zlen key -> zlen room = 4 ->
  exists ct, zlen ct = zlen p + 4 /\ bytes_ok ct /\
    seal_fragment st (pre ++ (p ++ room) ++ post) (zlen pre) (zlen p) key key_len =
      Ret (pre ++ ct ++ post, crc_ready) /\
    forall st', crc_inv st' -> forall pre' post',
      open_fragment st' (pre' ++ ct ++ post') (zlen pre') (zlen p + 4) key key_len =
      Ret (pre' ++ (p ++ le32 (crc32_ref p)) ++ post', crc32_ref p, crc_ready).
Proof.
  intros Hst Hp Hk Hl Hroom. destruct (arcfour_init_ok key key_len Hk Hl) as (c & Ec & Hc).
  destruct (arcfour_encrypt_ok p c Hc Hp) as (c1 & o1 & E1 & Hc1 & Z1 & B1 & I1).
  destruct (arcfour_encrypt_ok (le32 (crc32_ref p)) c1 Hc1 (le32_bytes _))
    as (c2 & o2 & E2 & Hc2 & Z2 & B2 & I2). rewrite zlen_le32 in Z2.
  exists (o1 ++ o2). split; [rewrite zlen_app, Z1, Z2; reflexivity|].
  split; [by apply Forall_app|]. split.
  - eapply seal_fragment_eq; [|apply getcrc32_spec; [exact Hst|exact Hp]|exact Ec|exact E1| |exact E2|].
    + rewrite <- app_assoc. by apply slice_mid.
    + rewrite <- app_assoc. apply splice_mid; [reflexivity|unfold zlen in *; lia].
    + rewrite (app_assoc pre o1), <- (app_assoc o1 o2 post), (app_assoc pre o1 (o2 ++ post)).
      apply splice_mid; [rewrite zlen_app; lia|unfold zlen in *; lia].
  - intros st' Hst' pre' post'.
    eapply open_fragment_eq; [|exact Ec|eapply arcfour_encrypt_two; [exact I1|exact I2]| | |].
    + apply slice_mid; [reflexivity|rewrite zlen_app; lia].
    + apply splice_mid; [reflexivity|]. rewrite !length_app. pose proof (zlen_le32 (crc32_ref p)).
      unfold zlen in *. lia.
    + rewrite <- app_assoc. apply slice_mid; [reflexivity|pose proof (zlen_nonneg p); lia].
    + apply getcrc32_spec; [exact Hst'|exact Hp].
Qed.

Lemma wep_key_spec pre i ivr post skey keylength p :
  zlen i = 3 -> 0 <= keylength <= 13 -> keylength <= zlen skey -> p = zlen pre ->
  exists w, wep_key (pre ++ (i ++ ivr) ++ post) p skey keylength = Ret w /\ zlen w = 16 /\
    forall pre' post' p', p' = zlen pre' ->
      wep_key (pre' ++ (i ++ ivr) ++ post') p' skey keylength = Ret w.
Proof.
  intros Hi Hk Hs ->. unfold wep_key.
  assert (exists w, (w ← splice (replicate 16 0) 0 i; k ← slice skey 0 keylength; splice w 3 k) = Ret w
                    /\ zlen w = 16) as (w & Hw & Hz).
  { assert (exists w1, splice (replicate 16 0) 0 i = Ret w1) as (w1 & E1).
    { unfold splice. rewrite Hi. by eexists. }
    rewrite E1. simp_res. pose proof (splice_zlen _ _ _ _ E1) as Z1.
    destruct (slice_total skey 0 keylength) as (k & -> & Hkz); [lia..|]. simp_res.
    assert (exists w, splice w1 3 k = Ret w) as (w & E2).
    { unfold splice. rewrite Hkz, Z1, zlen_replicate. zdecide. by eexists. }
    exists w. split; [done|]. rewrite (splice_zlen _ _ _ _ E2), Z1. done. }
  exists w. rewrite <- app_assoc. rewrite (slice_mid pre i) by done. simp_res.
  split; [done|]. split; [done|]. intros pre' post' p' ->.
  rewrite <- app_assoc. rewrite (slice_mid pre' i) by done. exact Hw.
Qed.

(** Decryption in place of any frame that is as long as its header and IV. *)
Lemma wep_decrypt_total st b len enc hdr iv skey keylength :
  crc_inv st -> bytes_ok b -> 0 <= hdr -> 3 <= iv -> hdr + iv <= len <= zlen b ->
  0 <= keylength <= 13 -> keylength <= zlen skey -> (enc =? _WEP40_) || (enc =? _WEP104_) = true ->
  exists b', rtw_wep_decrypt st b 0 len enc hdr iv skey keylength = Ret (b', crc_ready) /\
    bytes_ok b' /\ zlen b' = zlen b.
Proof.
  intros Hst Hb Hh Hi Hl Hk Hs He. unfold rtw_wep_decrypt. rewrite He.
  destruct (slice_total b (0 + hdr) 3) as (i & Ei & Li); [lia..|].
  destruct (slice_inv b (0 + hdr) 3 i Ei) as (_ & _ & _ & _ & Eb).
  destruct (wep_key_spec (take (Z.to_nat (0 + hdr)) b) i [] (drop (Z.to_nat (0 + hdr + 3)) b) skey keylength (0 + hdr)) as (w & Ew & Lw & _);
    [done|done|done|unfold zlen; rewrite length_take; unfold zlen in *; lia|].
  rewrite app_nil_r in Ew. rewrite <- Eb in Ew. bind_step Ew.
  destruct (open_fragment_total st b (0 + iv + hdr) (len - hdr - iv) w (3 + keylength)) as (b' & v & E & H1 & H2); [done|done|lia..|].
  bind_step E. by exists b'.
Qed.

(** WEP round trip: for a single-fragment frame, whatever surrounds it in
    the transmit buffer, [rtw_wep_encrypt] changes only the payload and the four
    bytes behind it, and [rtw_wep_decrypt] with the same key, on the frame at
    any place of a receive buffer, restores the payload followed by the
    CRC-32 of the payload. *)
Theorem wep_roundtrip st st' txd hdr i ivr payload room post base pkt_offset enc skey keylength
    frag_len pre' post' :
  let a := PktAttrib enc 1 (zlen hdr) (zlen (i ++ ivr)) 4
             (zlen hdr + zlen (i ++ ivr) + zlen payload + 4) in
  crc_inv st -> crc_inv st' -> zlen txd = hw_hdr_offset pkt_offset ->
  enc = _WEP40_ \/ enc = _WEP104_ -> zlen i = 3 -> bytes_ok payload -> zlen room = 4 ->
  1 <= keylength <= 13 -> keylength <= zlen skey ->
  exists ct, zlen ct = zlen payload + 4 /\
    rtw_wep_encrypt st (txd ++ hdr ++ (i ++ ivr) ++ (payload ++ room) ++ post) (Some 0) base pkt_offset
      a frag_len skey keylength =
    Ret (txd ++ hdr ++ (i ++ ivr) ++ ct ++ post, crc_ready) /\
    rtw_wep_decrypt st' (pre' ++ hdr ++ (i ++ ivr) ++ ct ++ post') (zlen pre')
      (last_txcmdsz a) enc (zlen hdr) (zlen (i ++ ivr)) skey keylength =
    Ret (pre' ++ hdr ++ (i ++ ivr) ++ (payload ++ le32 (crc32_ref payload)) ++ post', crc_ready).
Proof.
  intros a Hst Hst' Htx Henc Hi Hp Hroom Hk Hs. set (iv := i ++ ivr) in *.
  destruct (wep_key_spec (txd ++ hdr) i ivr ((payload ++ room) ++ post) skey keylength
              (zlen (txd ++ hdr))) as (w & Hw & Hwz & Hw'); [done|lia|done|done|]. fold iv in Hw, Hw'.
  destruct (seal_fragment_spec st (txd ++ hdr ++ iv) payload room post w (3 + keylength))
    as (ct & Hct & _ & Hseal & Hopen); [done|done|lia|lia|done|].
  assert ((enc =? _WEP40_) || (enc =? _WEP104_) = true) as He.
  { destruct Henc as [-> | ->]; reflexivity. }
  exists ct. split; [done|]. split.
  - unfold rtw_wep_encrypt. cbn [encrypt a]. rewrite He. cbn [nr_frags a Z.to_nat Pos.to_nat Pos.iter_op].
    change (Z.to_nat 1) with 1%nat. cbn [wep_encrypt_frags hdrlen iv_len icv_len last_txcmdsz a].
    rewrite Z.add_0_l, <- Htx.
    rewrite <- (zlen_app txd hdr), (app_assoc txd hdr). bind_step Hw.
    replace (zlen txd + zlen iv + zlen hdr) with (zlen (txd ++ hdr ++ iv)) by (rewrite !zlen_app; lia).
    replace (zlen hdr + zlen iv + zlen payload + 4 - zlen hdr - zlen iv - 4) with (zlen payload) by lia.
    rewrite <- !app_assoc in *. rewrite Hseal. done.
  - unfold rtw_wep_decrypt. rewrite He.
    rewrite (app_assoc pre' hdr). bind_step (Hw' (pre' ++ hdr) (ct ++ post') _ (eq_sym (zlen_app pre' hdr))).
    cbn [last_txcmdsz a].
    replace (zlen pre' + zlen iv + zlen hdr) with (zlen (pre' ++ hdr ++ iv)) by (rewrite !zlen_app; lia).
    replace (zlen hdr + zlen iv + zlen payload + 4 - zlen hdr - zlen iv) with (zlen payload + 4) by lia.
    rewrite <- !app_assoc in *.
    pose proof (Hopen st' Hst' (pre' ++ hdr ++ iv) post') as Ho. rewrite <- !app_assoc in Ho.
    bind_step Ho. reflexivity.
Qed.

Lemma wep_roundtrip_witness :
  exists ct, zlen ct = 2 + 4 /\
    rtw_wep_encrypt (Crc 0 []) (replicate 48 0 ++ [8; 0] ++ ([1; 2; 3] ++ [0]) ++ ([65; 66] ++ [0; 0; 0; 0]) ++ [])
      (Some 0) 0 0 (PktAttrib 1 1 2 4 4 12) 2304 [9; 8; 7; 6; 5] 5 =
    Ret (replicate 48 0 ++ [8; 0] ++ ([1; 2; 3] ++ [0]) ++ ct ++ [], crc_ready) /\
    rtw_wep_decrypt (Crc 0 []) ([77] ++ [8; 0] ++ ([1; 2; 3] ++ [0]) ++ ct ++ []) 1 12 1 2 4 [9; 8; 7; 6; 5] 5 =
    Ret ([77] ++ [8; 0] ++ ([1; 2; 3] ++ [0]) ++ ([65; 66] ++ le32 (crc32_ref [65; 66])) ++ [], crc_ready).
Proof.
  apply (wep_roundtrip (Crc 0 []) (Crc 0 []) (replicate 48 0) [8; 0] [1; 2; 3] [0] [65; 66] [0; 0; 0; 0]
           [] 0 0 1 [9; 8; 7; 6; 5] 5 2304 [77] []);
    [by left|by left|reflexivity|by left|done|by_eval|done|lia|by_eval].
Defined.

End Wep.
