(* ===== verification/Michael.v ===== *)
(** * The TKIP message integrity code

    Models the Michael implementation of [core/rtw_security.c]
    ([secmicgetuint32] .. [rtw_seccalctkipmic]), which consumes the message one
    byte at a time, and relates it to Michael's definition on padded 32-bit
    words. *)
From S2P Require Import Prelude.

Module Michael.

Record mic_data := Mic { K0 : Z; K1 : Z; L : Z; R : Z; M : Z; nBytesInM : Z }.

Definition ROL32 (a n : Z) : Z :=
  Z.lor (u32 (Z.shiftl a n)) (Z.land (Z.shiftr a (32 - n)) (Z.shiftl 1 n - 1)).
Definition ROR32 (a n : Z) : Z := ROL32 a (32 - n).

(** [secmicgetuint32(p)]: [res |= ((u32)( *p++)) << (8 * i)]. *)
Definition secmicgetuint32 (b : list Z) (p : Z) : res Z :=
  x0 ← rd b p; x1 ← rd b (p + 1); x2 ← rd b (p + 2); x3 ← rd b (p + 3);
  Ret (u32 (Z.lor (Z.lor (Z.lor x0 (Z.shiftl x1 8)) (Z.shiftl x2 16)) (Z.shiftl x3 24))).

(** [secmicputuint32]: the four bytes written. *)
Definition secmicputuint32 (val : Z) : list Z :=
  [Z.land val 0xff; Z.land (Z.shiftr val 8) 0xff; Z.land (Z.shiftr val 16) 0xff;
   Z.land (Z.shiftr val 24) 0xff].

Definition secmicclear (d : mic_data) : mic_data := Mic (K0 d) (K1 d) (K0 d) (K1 d) 0 0.

Definition rtw_secmicsetkey (key : list Z) : res mic_data :=
  k0 ← secmicgetuint32 key 0;
  k1 ← secmicgetuint32 key 4;
  Ret (secmicclear (Mic k0 k1 0 0 0 0)).

(** The rounds applied to a full word, after [L ^= M]. *)
Definition mic_rounds (l r : Z) : Z * Z :=
  let r := Z.lxor r (u32 (ROL32 l 17)) in
  let l := u32 (l + r) in
  let r := Z.lxor r (Z.lor (Z.shiftr (Z.land l 0xff00ff00) 8)
                           (u32 (Z.shiftl (Z.land l 0x00ff00ff) 8))) in
  let l := u32 (l + r) in
  let r := Z.lxor r (u32 (ROL32 l 3)) in
  let l := u32 (l + r) in
  let r := Z.lxor r (u32 (ROR32 l 2)) in
  let l := u32 (l + r) in
  (l, r).

Definition rtw_secmicappendbyte (d : mic_data) (b : Z) : mic_data :=
  let m := u32 (Z.lor (M d) (Z.shiftl b (8 * nBytesInM d))) in
  let n := u32 (nBytesInM d + 1) in
  if 4 <=? n then
    let lr := mic_rounds (Z.lxor (L d) m) (R d) in
    Mic (K0 d) (K1 d) lr.1 lr.2 0 0
  else Mic (K0 d) (K1 d) (L d) (R d) m n.

Definition rtw_secmicappend (d : mic_data) (src : list Z) : mic_data :=
  fold_left rtw_secmicappendbyte src d.

(** [while (nBytesInM != 0) rtw_secmicappendbyte(d, 0)]. *)
Fixpoint secgetmic_loop (fuel : nat) (d : mic_data) : res mic_data :=
  match fuel with
  | O => NoFuel
  | S fuel =>
      if nBytesInM d =? 0 then Ret d else secgetmic_loop fuel (rtw_secmicappendbyte d 0)
  end.

(** [rtw_secgetmic]: the eight bytes written to [dst] and the reset state.  The
    loop adds at most three bytes. *)
Definition rtw_secgetmic (d : mic_data) : res (list Z * mic_data) :=
  let d := rtw_secmicappendbyte d 0x5a in
  let d := rtw_secmicappendbyte d 0 in
  let d := rtw_secmicappendbyte d 0 in
  let d := rtw_secmicappendbyte d 0 in
  let d := rtw_secmicappendbyte d 0 in
  d ← secgetmic_loop 4 d;
  Ret (secmicputuint32 (L d) ++ secmicputuint32 (R d), secmicclear d).

(** [rtw_seccalctkipmic]: the MIC of [data] under the pseudo header. *)
Definition rtw_seccalctkipmic (key header data : list Z) (data_len pri : Z) : res (list Z) :=
  d ← rtw_secmicsetkey key;
  fc ← rd header 1;
  da ← (if negb (Z.land fc 1 =? 0) then slice header 16 6 else slice header 4 6);
  sa ← (if negb (Z.land fc 1 =? 0)
        then if negb (Z.land fc 2 =? 0) then slice header 24 6 else slice header 10 6
        else if negb (Z.land fc 2 =? 0) then slice header 16 6 else slice header 10 6);
  payload ← slice data 0 data_len;
  let d := rtw_secmicappend d da in
  let d := rtw_secmicappend d sa in
  let d := rtw_secmicappend d [pri; 0x0; 0x0; 0x0] in
  let d := rtw_secmicappend d payload in
  r ← rtw_secgetmic d;
  Ret r.1.

(** ** Michael on words *)

Fixpoint words (l : list Z) : list Z :=
  match l with
  | b0 :: b1 :: b2 :: b3 :: l => (b0 + b1 * 2 ^ 8 + b2 * 2 ^ 16 + b3 * 2 ^ 24) :: words l
  | _ => []
  end.

(** 0x5a, at least four zeroes, up to a multiple of four bytes. *)
Definition mic_pad (msg : list Z) : list Z :=
  msg ++ [0x5a; 0; 0; 0; 0] ++ replicate (Z.to_nat ((- (zlen msg + 5)) `mod` 4)) 0.

Definition mic_block (lr : Z * Z) (m : Z) : Z * Z := mic_rounds (Z.lxor lr.1 m) lr.2.

Definition michael (k0 k1 : Z) (msg : list Z) : list Z :=
  let lr := fold_left mic_block (words (mic_pad msg)) (k0, k1) in
  secmicputuint32 lr.1 ++ secmicputuint32 lr.2.

(** ** Byte-wise absorption is word-wise absorption *)

Definition idle (d : mic_data) : Prop := M d = 0 /\ nBytesInM d = 0.

Lemma lor_low hi lo k : 0 <= k -> fits k lo -> Z.lor lo (Z.shiftl hi k) = hi * 2 ^ k + lo.
Proof. intros. rewrite Z.lor_comm. by apply lor_pack. Qed.

Lemma absorb_word k0 k1 l r b0 b1 b2 b3 :
  is_u8 b0 -> is_u8 b1 -> is_u8 b2 -> is_u8 b3 ->
  rtw_secmicappend (Mic k0 k1 l r 0 0) [b0; b1; b2; b3] =
  let lr := mic_block (l, r) (b0 + b1 * 2 ^ 8 + b2 * 2 ^ 16 + b3 * 2 ^ 24) in
  Mic k0 k1 lr.1 lr.2 0 0.
Proof.
  intros B0 B1 B2 B3. unfold fits in *. change (2 ^ 8) with 256 in *.
  unfold rtw_secmicappend, mic_block. cbn [fold_left].
  unfold rtw_secmicappendbyte at 4. cbn [M nBytesInM]. change (u32 (0 + 1)) with 1. cbn [Z.leb Z.compare Pos.compare Pos.compare_cont].
  rewrite Z.lor_0_l, Z.shiftl_0_r, (wrap_small 32 b0) by (unfold fits; lia).
  unfold rtw_secmicappendbyte at 3. cbn [M nBytesInM]. change (u32 (1 + 1)) with 2. cbn [Z.leb Z.compare Pos.compare Pos.compare_cont].
  rewrite (lor_low b1 b0 (8 * 1)) by (unfold fits; lia).
  rewrite (wrap_small 32 (b1 * 2 ^ (8 * 1) + b0)) by (unfold fits; lia).
  unfold rtw_secmicappendbyte at 2. cbn [M nBytesInM]. change (u32 (2 + 1)) with 3. cbn [Z.leb Z.compare Pos.compare Pos.compare_cont].
  rewrite (lor_low b2 _ (8 * 2)) by (unfold fits; lia).
  rewrite (wrap_small 32 (b2 * _ + _)) by (unfold fits; lia).
  unfold rtw_secmicappendbyte. cbn [M nBytesInM]. change (u32 (3 + 1)) with 4. cbn [Z.leb Z.compare Pos.compare Pos.compare_cont].
  rewrite (lor_low b3 _ (8 * 3)) by (unfold fits; lia).
  rewrite (wrap_small 32 (b3 * _ + _)) by (unfold fits; lia).
  cbn [K0 K1 L R fst snd].
  replace (b3 * 2 ^ (8 * 3) + (b2 * 2 ^ (8 * 2) + (b1 * 2 ^ (8 * 1) + b0)))
    with (b0 + b1 * 256 + b2 * 2 ^ 16 + b3 * 2 ^ 24) by lia.
  reflexivity.
Qed.

Lemma append_app d a b : rtw_secmicappend d (a ++ b) = rtw_secmicappend (rtw_secmicappend d a) b.
Proof. unfold rtw_secmicappend. apply fold_left_app. Qed.

(** A message of whole words. *)
Lemma absorb_words n : forall l k0 k1 lr,
  length l = (4 * n)%nat -> bytes_ok l ->
  rtw_secmicappend (Mic k0 k1 lr.1 lr.2 0 0) l =
  let lr := fold_left mic_block (words l) lr in Mic k0 k1 lr.1 lr.2 0 0.
Proof.
  induction n as [|n IH]; intros l k0 k1 lr Hn Hb.
  { destruct l; [done|simpl in Hn; lia]. }
  destruct l as [|b0 [|b1 [|b2 [|b3 l]]]]; try (simpl in Hn; lia).
  change (b0 :: b1 :: b2 :: b3 :: l) with ([b0; b1; b2; b3] ++ l) at 1.
  apply Forall_cons in Hb as [? Hb]. apply Forall_cons in Hb as [? Hb].
  apply Forall_cons in Hb as [? Hb]. apply Forall_cons in Hb as [? Hb].
  rewrite append_app, absorb_word by done. cbn zeta. rewrite <- surjective_pairing.
  cbn [words fold_left]. apply IH; [simpl in Hn; lia|done].
Qed.

(** The number of buffered bytes is the message length modulo four. *)
Lemma append_count l : forall d,
  0 <= nBytesInM d < 4 -> nBytesInM (rtw_secmicappend d l) = (nBytesInM d + zlen l) `mod` 4.
Proof.
  induction l as [|b l IH]; intros d Hd.
  { rewrite zlen_nil, Z.add_0_r. by rewrite Z.mod_small. }
  unfold rtw_secmicappend in *. cbn [fold_left]. rewrite zlen_cons.
  assert (nBytesInM (rtw_secmicappendbyte d b) = (nBytesInM d + 1) `mod` 4) as Hn.
  { unfold rtw_secmicappendbyte. rewrite wrap_small by (unfold fits; lia).
    destruct (Z.leb_spec 4 (nBytesInM d + 1)); cbn [nBytesInM].
    - by replace (nBytesInM d + 1) with 4 by lia.
    - by rewrite Z.mod_small by lia. }
  rewrite IH; rewrite Hn.
  - rewrite Zplus_mod_idemp_l. f_equal. lia.
  - apply Z.mod_pos_bound. lia.
Qed.

(** The bytes in the word that is being collected. *)
Definition mic_state_ok (d : mic_data) : Prop := 0 <= nBytesInM d < 4.

Lemma appendbyte_state d b : mic_state_ok d ->
  nBytesInM (rtw_secmicappendbyte d b) = if nBytesInM d =? 3 then 0 else nBytesInM d + 1.
Proof.
  intros H. unfold mic_state_ok in H. unfold rtw_secmicappendbyte. rewrite (wrap_small 32 (nBytesInM d + 1)) by (unfold fits; lia).
  destruct (Z.leb_spec 4 (nBytesInM d + 1)), (Z.eqb_spec (nBytesInM d) 3); cbn [nBytesInM]; lia.
Qed.

Lemma append_state l d : mic_state_ok d -> mic_state_ok (rtw_secmicappend d l).
Proof.
  revert d. induction l as [|b l IH]; intros d H; [done|]. cbn. apply IH. pose proof (appendbyte_state d b H) as E.
  unfold mic_state_ok in *. rewrite E. destruct (Z.eqb_spec (nBytesInM d) 3); lia.
Qed.

(** Whatever was appended, the last loop ends within its fuel. *)
Lemma secgetmic_total d : mic_state_ok d -> exists r, rtw_secgetmic d = Ret r.
Proof.
  intros H. unfold rtw_secgetmic. set (d5 := rtw_secmicappendbyte _ 0).
  assert (mic_state_ok d5) as H5 by (apply (append_state [0x5a; 0; 0; 0; 0] d H)). clearbody d5. clear H d.
  assert (forall n d, mic_state_ok d -> nBytesInM d = 0 \/ 4 - nBytesInM d <= Z.of_nat n -> exists d', secgetmic_loop (S n) d = Ret d') as Hl.
  { induction n as [|n IH]; intros d H Hn; cbn [secgetmic_loop]; destruct (Z.eqb_spec (nBytesInM d) 0) as [E|E]; try by eexists.
    - unfold mic_state_ok in H. lia.
    - pose proof (appendbyte_state d 0 H) as E1. apply IH; [by apply (append_state [0])|]. unfold mic_state_ok in H.
      rewrite E1. destruct (Z.eqb_spec (nBytesInM d) 3); lia. }
  destruct (Hl 3%nat d5 H5) as [d' E]; [unfold mic_state_ok in H5; lia|]. bind_step E. by eexists.
Qed.

#[global] Opaque rtw_secmicappendbyte.

(** The loop of [rtw_secgetmic] appends the missing zeroes and stops. *)
Lemma secgetmic_loop_spec fuel : forall d,
  0 <= nBytesInM d < 4 -> (- nBytesInM d) `mod` 4 < Z.of_nat fuel ->
  secgetmic_loop fuel d =
  Ret (rtw_secmicappend d (replicate (Z.to_nat ((- nBytesInM d) `mod` 4)) 0)).
Proof.
  induction fuel as [|fuel IH]; intros d Hd Hf.
  { pose proof (Z.mod_pos_bound (- nBytesInM d) 4 ltac:(lia)). lia. }
  cbn [secgetmic_loop]. destruct (Z.eqb_spec (nBytesInM d) 0) as [E|E].
  { rewrite E. done. }
  assert ((- nBytesInM d) `mod` 4 = 4 - nBytesInM d) as Em.
  { rewrite <- (Z_mod_plus_full (- nBytesInM d) 1 4), Z.mod_small by lia. lia. }
  rewrite Em in *.
  pose proof (append_count [0] d Hd) as Hc.
  change (rtw_secmicappend d [0]) with (rtw_secmicappendbyte d 0) in Hc.
  change (zlen [0]) with 1 in Hc.
  assert ((- nBytesInM (rtw_secmicappendbyte d 0)) `mod` 4 = 3 - nBytesInM d) as Em'.
  { rewrite Hc. destruct (decide (nBytesInM d = 3)) as [->|]; [done|].
    rewrite (Z.mod_small (nBytesInM d + 1)) by lia.
    rewrite <- (Z_mod_plus_full _ 1 4). rewrite Z.mod_small by lia. lia. }
  rewrite IH; [|rewrite Hc; apply Z.mod_pos_bound; lia|lia]. rewrite Em'.
  replace (Z.to_nat (4 - nBytesInM d)) with (S (Z.to_nat (3 - nBytesInM d))) by lia. done.
Qed.

Lemma rtw_secgetmic_spec k0 k1 msg :
  bytes_ok msg ->
  rtw_secgetmic (rtw_secmicappend (Mic k0 k1 k0 k1 0 0) msg) =
  Ret (michael k0 k1 msg, Mic k0 k1 k0 k1 0 0).
Proof.
  intros Hb. unfold rtw_secgetmic. set (d0 := Mic k0 k1 k0 k1 0 0).
  set (d5 := rtw_secmicappend d0 (msg ++ [0x5a; 0; 0; 0; 0])).
  assert (rtw_secmicappendbyte (rtw_secmicappendbyte (rtw_secmicappendbyte (rtw_secmicappendbyte
    (rtw_secmicappendbyte (rtw_secmicappend d0 msg) 90) 0) 0) 0) 0 = d5) as ->.
  { unfold d5. rewrite append_app. reflexivity. }
  assert (nBytesInM d5 = (zlen msg + 5) `mod` 4) as Hn.
  { unfold d5. rewrite append_count by (cbn; lia). rewrite zlen_app. cbn [nBytesInM d0]. f_equal. }
  pose proof (Z.mod_pos_bound (zlen msg + 5) 4 ltac:(lia)) as Hm.
  assert ((- nBytesInM d5) `mod` 4 = (- (zlen msg + 5)) `mod` 4) as Hneg.
  { rewrite Hn. rewrite <- (Z.sub_0_l (_ mod _)), Zminus_mod_idemp_r. f_equal. }
  assert (secgetmic_loop 4 d5 = Ret (rtw_secmicappend d0 (mic_pad msg))) as E.
  { rewrite secgetmic_loop_spec; [|lia|apply Z.mod_pos_bound; lia].
    unfold mic_pad. rewrite app_assoc, append_app, Hneg. done. }
  bind_step E.
  assert (exists n, length (mic_pad msg) = (4 * n)%nat) as [n Hlen].
  { assert (zlen (mic_pad msg) `mod` 4 = 0) as Hz.
    { unfold mic_pad. rewrite !zlen_app, zlen_replicate, Z2Nat.id by (apply Z.mod_pos_bound; lia).
      change (zlen [90; 0; 0; 0; 0]) with 5. rewrite Z.add_assoc, Zplus_mod_idemp_r.
      by replace (zlen msg + 5 + - (zlen msg + 5)) with 0 by lia. }
    exists (Z.to_nat (zlen (mic_pad msg) / 4)). unfold zlen in *.
    pose proof (Z.div_mod (Z.of_nat (length (mic_pad msg))) 4 ltac:(lia)). lia. }
  assert (bytes_ok (mic_pad msg)) as Hpb.
  { unfold mic_pad. apply Forall_app. split; [done|]. apply Forall_app. split; [by_eval|].
    apply Forall_replicate. done. }
  pose proof (absorb_words n (mic_pad msg) k0 k1 (k0, k1) Hlen Hpb) as Ha. cbn [fst snd] in Ha.
  unfold d0. rewrite Ha. reflexivity.
Qed.

(** Feeding a message byte by byte, in any number of pieces, and closing it
    with [rtw_secgetmic] yields Michael of the padded message on 32-bit words;
    the closing loop terminates and the state is reset to the empty message. *)
Theorem rtw_secgetmic_michael key k0 k1 parts :
  secmicgetuint32 key 0 = Ret k0 -> secmicgetuint32 key 4 = Ret k1 -> Forall (Forall is_u8) parts ->
  (d ← rtw_secmicsetkey key; rtw_secgetmic (fold_left rtw_secmicappend parts d)) =
  Ret (michael k0 k1 (concat parts), Mic k0 k1 k0 k1 0 0).
Proof.
  intros E0 E1 Hp. unfold rtw_secmicsetkey. rewrite E0. simp_res. rewrite E1. simp_res.
  assert (forall d, fold_left rtw_secmicappend parts d = rtw_secmicappend d (concat parts)) as ->.
  { clear. induction parts as [|p parts IH]; intros d; [done|]. cbn [fold_left concat].
    by rewrite IH, append_app. }
  apply rtw_secgetmic_spec. clear -Hp. induction Hp; [constructor|]. by apply Forall_app.
Qed.

Lemma rtw_secgetmic_michael_witness :
  (d ← rtw_secmicsetkey [0; 0; 0; 0; 0; 0; 0; 0]; rtw_secgetmic (fold_left rtw_secmicappend [] d)) =
  Ret ([0x82; 0x92; 0x5c; 0x1c; 0xa1; 0xd1; 0x30; 0xb8], Mic 0 0 0 0 0 0).
Proof.
  apply (rtw_secgetmic_michael [0; 0; 0; 0; 0; 0; 0; 0] 0 0 []); [reflexivity|reflexivity|constructor].
Defined.

(** ** The pseudo header *)

(** A four-address MAC header: frame control, duration, three addresses,
    sequence control, fourth address. *)
Definition mac_header (fc0 fc1 : Z) (dur a1 a2 a3 sc a4 rest : list Z) : list Z :=
  [fc0; fc1] ++ dur ++ a1 ++ a2 ++ a3 ++ sc ++ a4 ++ rest.

Definition dest_addr (to_ds : bool) (a1 a3 : list Z) : list Z := if to_ds then a3 else a1.
Definition src_addr (to_ds from_ds : bool) (a2 a3 a4 : list Z) : list Z :=
  match to_ds, from_ds with
  | true, true => a4
  | false, true => a3
  | _, false => a2
  end.

Lemma land_bit0 x : negb (Z.land x 1 =? 0) = Z.testbit x 0.
Proof.
  change 1 with (Z.ones 1). rewrite Z.land_ones by lia. change (2 ^ 1) with 2.
  rewrite Zmod_odd, Z.bit0_odd. by destruct (Z.odd x).
Qed.

Lemma land_bit1 x : negb (Z.land x 2 =? 0) = Z.testbit x 1.
Proof.
  assert (Z.land x 2 = if Z.testbit x 1 then 2 else 0) as ->; [|by destruct (Z.testbit x 1)].
  change 2 with (Z.shiftl 1 1) at 1. zbits. destruct (decide (i = 1)) as [->|].
  - rewrite andb_true_r. by destruct (Z.testbit x 1).
  - assert (Z.testbit 1 (i - 1) = false) as ->.
    { destruct (decide (i = 0)) as [->|]; [done|]. rewrite Z.bits_above_log2; [done|lia|cbn; lia]. }
    rewrite andb_false_r. destruct (Z.testbit x 1); [|by rewrite Z.bits_0].
    destruct (decide (i = 0)) as [->|]; [done|]. rewrite Z.bits_above_log2; [done|lia|cbn; lia].
Qed.

Lemma seccalctkipmic_core key k0 k1 fc0 fc1 dur a1 a2 a3 sc a4 rest data extra pri :
  secmicgetuint32 key 0 = Ret k0 -> secmicgetuint32 key 4 = Ret k1 ->
  zlen dur = 2 -> zlen a1 = 6 -> zlen a2 = 6 -> zlen a3 = 6 -> zlen sc = 2 -> zlen a4 = 6 ->
  bytes_ok (a1 ++ a2 ++ a3 ++ a4 ++ data ++ [pri]) ->
  rtw_seccalctkipmic key (mac_header fc0 fc1 dur a1 a2 a3 sc a4 rest) (data ++ extra) (zlen data) pri =
  Ret (michael k0 k1 (dest_addr (Z.testbit fc1 0) a1 a3 ++
                      src_addr (Z.testbit fc1 0) (Z.testbit fc1 1) a2 a3 a4 ++
                      [pri; 0; 0; 0] ++ data)).
Proof.
  intros E0 E1 Hd H1 H2 H3 Hs H4 Hb. set (h := mac_header _ _ _ _ _ _ _ _ _).
  assert (at_off h 0 h) as Hat by (exists [], []; by rewrite app_nil_r).
  unfold h at 2, mac_header in Hat.
  apply at_off_app in Hat as [_ Hat]. change (zlen [fc0; fc1]) with 2 in Hat.
  apply at_off_app in Hat as [_ Hat]. rewrite Hd in Hat.
  apply at_off_app in Hat as [A1 Hat]. rewrite H1 in Hat.
  apply at_off_app in Hat as [A2 Hat]. rewrite H2 in Hat.
  apply at_off_app in Hat as [A3 Hat]. rewrite H3 in Hat.
  apply at_off_app in Hat as [_ Hat]. rewrite Hs in Hat. apply at_off_app in Hat as [A4 _].
  cbn [Z.add Pos.add] in *.
  pose proof (at_off_slice _ _ _ 6 A1 ltac:(lia)) as S1. pose proof (at_off_slice _ _ _ 6 A2 ltac:(lia)) as S2.
  pose proof (at_off_slice _ _ _ 6 A3 ltac:(lia)) as S3. pose proof (at_off_slice _ _ _ 6 A4 ltac:(lia)) as S4.
  cbn in S1, S2, S3, S4.
  unfold rtw_seccalctkipmic, rtw_secmicsetkey. rewrite E0. simp_res. rewrite E1. simp_res.
  change (rd h 1) with (@Ret Z fc1). simp_res. rewrite land_bit0, land_bit1.
  rewrite !Forall_app in Hb. destruct Hb as (B1 & B2 & B3 & B4 & Bd & Bp).
  assert (slice (data ++ extra) 0 (zlen data) = Ret data) as Sd.
  { rewrite <- (app_nil_l (data ++ extra)). by apply slice_mid. }
  assert (forall da sa, bytes_ok da -> bytes_ok sa ->
    rtw_secgetmic (rtw_secmicappend (rtw_secmicappend (rtw_secmicappend (rtw_secmicappend
      (Mic k0 k1 k0 k1 0 0) da) sa) [pri; 0; 0; 0]) data) =
    Ret (michael k0 k1 (da ++ sa ++ [pri; 0; 0; 0] ++ data), Mic k0 k1 k0 k1 0 0)) as Hmic.
  { intros da sa Bda Bsa. rewrite <- !append_app. rewrite rtw_secgetmic_spec.
    - rewrite <- ?app_assoc. reflexivity.
    - rewrite !Forall_app. split_and!; try done. apply Forall_cons in Bp as [Bp _].
      apply Forall_cons. split; [done|by_eval]. }
  destruct (Z.testbit fc1 0), (Z.testbit fc1 1); cbn [dest_addr src_addr].
  - bind_step S3. bind_step S4. bind_step Sd. by bind_step (Hmic a3 a4 B3 B4).
  - bind_step S3. bind_step S2. bind_step Sd. by bind_step (Hmic a3 a2 B3 B2).
  - bind_step S1. bind_step S3. bind_step Sd. by bind_step (Hmic a1 a3 B1 B3).
  - bind_step S1. bind_step S2. bind_step Sd. by bind_step (Hmic a1 a2 B1 B2).
Qed.

(** [rtw_seccalctkipmic] is Michael over DA, SA, priority, three zeroes and
    the data, with DA and SA chosen by the ToDS and FromDS bits as 802.11
    prescribes, for all four combinations. *)
Theorem rtw_seccalctkipmic_spec key k0 k1 fc0 fc1 dur a1 a2 a3 sc a4 rest data extra pri :
  secmicgetuint32 key 0 = Ret k0 -> secmicgetuint32 key 4 = Ret k1 ->
  zlen dur = 2 -> zlen a1 = 6 -> zlen a2 = 6 -> zlen a3 = 6 -> zlen sc = 2 -> zlen a4 = 6 ->
  bytes_ok (a1 ++ a2 ++ a3 ++ a4 ++ data ++ [pri]) ->
  rtw_seccalctkipmic key (mac_header fc0 fc1 dur a1 a2 a3 sc a4 rest) (data ++ extra) (zlen data) pri =
  Ret (michael k0 k1 (dest_addr (Z.testbit fc1 0) a1 a3 ++
                      src_addr (Z.testbit fc1 0) (Z.testbit fc1 1) a2 a3 a4 ++
                      [pri; 0; 0; 0] ++ data)).
Proof. apply seccalctkipmic_core. Qed.

Lemma rtw_seccalctkipmic_spec_witness :
  rtw_seccalctkipmic [1; 2; 3; 4; 5; 6; 7; 8]
    (mac_header 8 1 [0; 0] [1; 1; 1; 1; 1; 1] [2; 2; 2; 2; 2; 2] [3; 3; 3; 3; 3; 3] [0; 0]
       [4; 4; 4; 4; 4; 4] []) ([65; 66] ++ [0]) 2 5 =
  Ret (michael 0x04030201 0x08070605
    (dest_addr true [1; 1; 1; 1; 1; 1] [3; 3; 3; 3; 3; 3] ++
     src_addr true false [2; 2; 2; 2; 2; 2] [3; 3; 3; 3; 3; 3] [4; 4; 4; 4; 4; 4] ++
     [5; 0; 0; 0] ++ [65; 66])).
Proof.
  apply (rtw_seccalctkipmic_spec [1; 2; 3; 4; 5; 6; 7; 8] 0x04030201 0x08070605 8 1 [0; 0]
    [1; 1; 1; 1; 1; 1] [2; 2; 2; 2; 2; 2] [3; 3; 3; 3; 3; 3] [0; 0] [4; 4; 4; 4; 4; 4] [] [65; 66] [0] 5);
    [reflexivity..|by_eval].
Defined.

(** With the addresses and the data there, the MIC can be computed. *)
Lemma getuint32_total key p : 0 <= p -> p + 4 <= zlen key -> exists k, secmicgetuint32 key p = Ret k.
Proof.
  intros H0 H. unfold secmicgetuint32. destruct (rd_in key p ltac:(lia)) as (x0 & -> & _), (rd_in key (p + 1) ltac:(lia)) as (x1 & -> & _),
    (rd_in key (p + 2) ltac:(lia)) as (x2 & -> & _), (rd_in key (p + 3) ltac:(lia)) as (x3 & -> & _). by eexists.
Qed.

Lemma seccalctkipmic_total key h data data_len pri : 8 <= zlen key -> 30 <= zlen h -> 0 <= data_len <= zlen data ->
  exists r, rtw_seccalctkipmic key h data data_len pri = Ret r.
Proof.
  intros Hk Hh Hd. unfold rtw_seccalctkipmic, rtw_secmicsetkey.
  destruct (getuint32_total key 0 ltac:(lia) ltac:(lia)) as (k0 & ->), (getuint32_total key 4 ltac:(lia) ltac:(lia)) as (k1 & ->). simp_res.
  assert (mic_state_ok (secmicclear (Mic k0 k1 0 0 0 0))) as Hc by (split; done). revert Hc. generalize (secmicclear (Mic k0 k1 0 0 0 0)) as d0. intros d0 Hc.
  destruct (rd_in h 1 ltac:(lia)) as (fc & -> & _). simp_res.
  destruct (slice_total h 16 6 ltac:(lia) ltac:(lia) ltac:(lia)) as (l16 & E16 & _).
  destruct (slice_total h 4 6 ltac:(lia) ltac:(lia) ltac:(lia)) as (l4 & E4 & _).
  destruct (slice_total h 24 6 ltac:(lia) ltac:(lia) ltac:(lia)) as (l24 & E24 & _).
  destruct (slice_total h 10 6 ltac:(lia) ltac:(lia) ltac:(lia)) as (l10 & E10 & _).
  destruct (slice_total data 0 data_len ltac:(lia) ltac:(lia) ltac:(lia)) as (p & Ep & _).
  assert (forall da sa, exists r, rtw_secgetmic (rtw_secmicappend (rtw_secmicappend (rtw_secmicappend (rtw_secmicappend d0 da) sa) [pri; 0; 0; 0]) p) = Ret r) as Hm
    by (intros da sa; apply secgetmic_total; by do 4 apply append_state).
  destruct (negb (Z.land fc 1 =? 0)), (negb (Z.land fc 2 =? 0)).
  - bind_step E16. bind_step E24. bind_step Ep. destruct (Hm l16 l24) as [r E]. bind_step E. by eexists.
  - bind_step E16. bind_step E10. bind_step Ep. destruct (Hm l16 l10) as [r E]. bind_step E. by eexists.
  - bind_step E4. bind_step E16. bind_step Ep. destruct (Hm l4 l16) as [r E]. bind_step E. by eexists.
  - bind_step E4. bind_step E10. bind_step Ep. destruct (Hm l4 l10) as [r E]. bind_step E. by eexists.
Qed.

(** The loops always end. *)
Lemma seccalctkipmic_fuel key h data data_len pri : rtw_seccalctkipmic key h data data_len pri <> NoFuel.
Proof.
  assert (forall (l : list Z) i, rd l i <> NoFuel) as Hr by (intros l i; unfold rd; by repeat case_match).
  assert (forall (l : list Z) i n, slice l i n <> NoFuel) as Hs by (intros l i n; unfold slice; by repeat case_match).
  unfold rtw_seccalctkipmic, rtw_secmicsetkey. intros H.
  assert (forall p, secmicgetuint32 key p <> NoFuel) as Hg.
  { intros p. unfold secmicgetuint32. do 4 (match goal with |- context [rd key ?i] => let E := fresh in pose proof (Hr key i) as E; destruct (rd key i); simp_res; try done end). }
  pose proof (Hg 0) as H0. pose proof (Hg 4) as H4. destruct (secmicgetuint32 key 0) as [k0| |]; [|done..]. destruct (secmicgetuint32 key 4) as [k1| |]; [|done..]. simp_res in H.
  revert H. assert (mic_state_ok (secmicclear (Mic k0 k1 0 0 0 0))) as Hc by (split; done). revert Hc. generalize (secmicclear (Mic k0 k1 0 0 0 0)) as d0. intros d0 Hc H.
  pose proof (Hr h 1) as H1. destruct (rd h 1) as [fc| |]; [|done..].
  apply (bind_nofuel (Ret fc)) in H as [H|(fc' & _ & H)]; [done|]. apply bind_nofuel in H as [H|(da & _ & H)]; [destruct (negb _); by eapply Hs|].
  apply bind_nofuel in H as [H|(sa & _ & H)]; [destruct (negb _); destruct (negb _); by eapply Hs|].
  apply bind_nofuel in H as [H|(p & _ & H)]; [by eapply Hs|]. cbv zeta in H. apply bind_nofuel in H as [H|(r & _ & H)]; [|done].
  match type of H with rtw_secgetmic ?d = _ => destruct (secgetmic_total d) as [r E]; [by do 4 apply append_state|] end. by rewrite E in H.
Qed.

(** A data length beyond the data is an out-of-bounds read. *)
Lemma seccalctkipmic_oob key k0 k1 h data data_len pri :
  secmicgetuint32 key 0 = Ret k0 -> secmicgetuint32 key 4 = Ret k1 -> 30 <= zlen h ->
  zlen data < data_len -> rtw_seccalctkipmic key h data data_len pri = Oob.
Proof.
  intros E0 E1 Hh Hd. unfold rtw_seccalctkipmic, rtw_secmicsetkey. rewrite E0. simp_res. rewrite E1. simp_res.
  destruct (rd_in h 1 ltac:(lia)) as (fc & -> & _). simp_res.
  destruct (slice_total h 16 6 ltac:(lia) ltac:(lia) ltac:(lia)) as (l16 & E16 & _).
  destruct (slice_total h 4 6 ltac:(lia) ltac:(lia) ltac:(lia)) as (l4 & E4 & _).
  destruct (slice_total h 24 6 ltac:(lia) ltac:(lia) ltac:(lia)) as (l24 & E24 & _).
  destruct (slice_total h 10 6 ltac:(lia) ltac:(lia) ltac:(lia)) as (l10 & E10 & _).
  assert (slice data 0 data_len = Oob) as Es by (apply slice_oob; lia).
  rewrite E16, E4, E24, E10, Es.
  by destruct (negb (Z.land fc 1 =? 0)), (negb (Z.land fc 2 =? 0)).
Qed.

End Michael.
