(* ===== verification/Tkip.v ===== *)
(** * TKIP: per-packet key mixing and encapsulation

    Models the two mixing phases of [core/rtw_security.c] ([Sbox1], [phase1],
    [phase2]), [rtw_tkip_encrypt] over all fragments of a frame,
    [rtw_tkip_decrypt] with its group key handling, and
    the MIC failure countermeasures ([rtw_handle_tkip_countermeasure], and
    [rtw_handle_tkip_mic_err] of [os_dep/linux/recv_linux.c]). *)
From S2P Require Import Prelude Arc4.

Module Tkip.
Import Arc4 Crc32 Wep.

(** ** Key mixing *)

(** Row 0 of [Sbox1]. *)
Definition Sbox1_0 : list Z :=
  [0xC6A5; 0xF884; 0xEE99; 0xF68D; 0xFF0D; 0xD6BD; 0xDEB1; 0x9154;
   0x6050; 0x0203; 0xCEA9; 0x567D; 0xE719; 0xB562; 0x4DE6; 0xEC9A;
   0x8F45; 0x1F9D; 0x8940; 0xFA87; 0xEF15; 0xB2EB; 0x8EC9; 0xFB0B;
   0x41EC; 0xB367; 0x5FFD; 0x45EA; 0x23BF; 0x53F7; 0xE496; 0x9B5B;
   0x75C2; 0xE11C; 0x3DAE; 0x4C6A; 0x6C5A; 0x7E41; 0xF502; 0x834F;
   0x685C; 0x51F4; 0xD134; 0xF908; 0xE293; 0xAB73; 0x6253; 0x2A3F;
   0x080C; 0x9552; 0x4665; 0x9D5E; 0x3028; 0x37A1; 0x0A0F; 0x2FB5;
   0x0E09; 0x2436; 0x1B9B; 0xDF3D; 0xCD26; 0x4E69; 0x7FCD; 0xEA9F;
   0x121B; 0x1D9E; 0x5874; 0x342E; 0x362D; 0xDCB2; 0xB4EE; 0x5BFB;
   0xA4F6; 0x764D; 0xB761; 0x7DCE; 0x527B; 0xDD3E; 0x5E71; 0x1397;
   0xA6F5; 0xB968; 0x0000; 0xC12C; 0x4060; 0xE31F; 0x79C8; 0xB6ED;
   0xD4BE; 0x8D46; 0x67D9; 0x724B; 0x94DE; 0x98D4; 0xB0E8; 0x854A;
   0xBB6B; 0xC52A; 0x4FE5; 0xED16; 0x86C5; 0x9AD7; 0x6655; 0x1194;
   0x8ACF; 0xE910; 0x0406; 0xFE81; 0xA0F0; 0x7844; 0x25BA; 0x4BE3;
   0xA2F3; 0x5DFE; 0x80C0; 0x058A; 0x3FAD; 0x21BC; 0x7048; 0xF104;
   0x63DF; 0x77C1; 0xAF75; 0x4263; 0x2030; 0xE51A; 0xFD0E; 0xBF6D;
   0x814C; 0x1814; 0x2635; 0xC32F; 0xBEE1; 0x35A2; 0x88CC; 0x2E39;
   0x9357; 0x55F2; 0xFC82; 0x7A47; 0xC8AC; 0xBAE7; 0x322B; 0xE695;
   0xC0A0; 0x1998; 0x9ED1; 0xA37F; 0x4466; 0x547E; 0x3BAB; 0x0B83;
   0x8CCA; 0xC729; 0x6BD3; 0x283C; 0xA779; 0xBCE2; 0x161D; 0xAD76;
   0xDB3B; 0x6456; 0x744E; 0x141E; 0x92DB; 0x0C0A; 0x486C; 0xB8E4;
   0x9F5D; 0xBD6E; 0x43EF; 0xC4A6; 0x39A8; 0x31A4; 0xD337; 0xF28B;
   0xD532; 0x8B43; 0x6E59; 0xDAB7; 0x018C; 0xB164; 0x9CD2; 0x49E0;
   0xD8B4; 0xACFA; 0xF307; 0xCF25; 0xCAAF; 0xF48E; 0x47E9; 0x1018;
   0x6FD5; 0xF088; 0x4A6F; 0x5C72; 0x3824; 0x57F1; 0x73C7; 0x9751;
   0xCB23; 0xA17C; 0xE89C; 0x3E21; 0x96DD; 0x61DC; 0x0D86; 0x0F85;
   0xE090; 0x7C42; 0x71C4; 0xCCAA; 0x90D8; 0x0605; 0xF701; 0x1C12;
   0xC2A3; 0x6A5F; 0xAEF9; 0x69D0; 0x1791; 0x9958; 0x3A27; 0x27B9;
   0xD938; 0xEB13; 0x2BB3; 0x2233; 0xD2BB; 0xA970; 0x0789; 0x33A7;
   0x2DB6; 0x3C22; 0x1592; 0xC920; 0x8749; 0xAAFF; 0x5078; 0xA57A;
   0x038F; 0x59F8; 0x0980; 0x1A17; 0x65DA; 0xD731; 0x84C6; 0xD0B8;
   0x82C3; 0x29B0; 0x5A77; 0x1E11; 0x7BCB; 0xA8FC; 0x6DD6; 0x2C3A].

(** Row 1 of [Sbox1]: the same entries with their bytes exchanged. *)
Definition Sbox1_1 : list Z :=
  [0xA5C6; 0x84F8; 0x99EE; 0x8DF6; 0x0DFF; 0xBDD6; 0xB1DE; 0x5491;
   0x5060; 0x0302; 0xA9CE; 0x7D56; 0x19E7; 0x62B5; 0xE64D; 0x9AEC;
   0x458F; 0x9D1F; 0x4089; 0x87FA; 0x15EF; 0xEBB2; 0xC98E; 0x0BFB;
   0xEC41; 0x67B3; 0xFD5F; 0xEA45; 0xBF23; 0xF753; 0x96E4; 0x5B9B;
   0xC275; 0x1CE1; 0xAE3D; 0x6A4C; 0x5A6C; 0x417E; 0x02F5; 0x4F83;
   0x5C68; 0xF451; 0x34D1; 0x08F9; 0x93E2; 0x73AB; 0x5362; 0x3F2A;
   0x0C08; 0x5295; 0x6546; 0x5E9D; 0x2830; 0xA137; 0x0F0A; 0xB52F;
   0x090E; 0x3624; 0x9B1B; 0x3DDF; 0x26CD; 0x694E; 0xCD7F; 0x9FEA;
   0x1B12; 0x9E1D; 0x7458; 0x2E34; 0x2D36; 0xB2DC; 0xEEB4; 0xFB5B;
   0xF6A4; 0x4D76; 0x61B7; 0xCE7D; 0x7B52; 0x3EDD; 0x715E; 0x9713;
   0xF5A6; 0x68B9; 0x0000; 0x2CC1; 0x6040; 0x1FE3; 0xC879; 0xEDB6;
   0xBED4; 0x468D; 0xD967; 0x4B72; 0xDE94; 0xD498; 0xE8B0; 0x4A85;
   0x6BBB; 0x2AC5; 0xE54F; 0x16ED; 0xC586; 0xD79A; 0x5566; 0x9411;
   0xCF8A; 0x10E9; 0x0604; 0x81FE; 0xF0A0; 0x4478; 0xBA25; 0xE34B;
   0xF3A2; 0xFE5D; 0xC080; 0x8A05; 0xAD3F; 0xBC21; 0x4870; 0x04F1;
   0xDF63; 0xC177; 0x75AF; 0x6342; 0x3020; 0x1AE5; 0x0EFD; 0x6DBF;
   0x4C81; 0x1418; 0x3526; 0x2FC3; 0xE1BE; 0xA235; 0xCC88; 0x392E;
   0x5793; 0xF255; 0x82FC; 0x477A; 0xACC8; 0xE7BA; 0x2B32; 0x95E6;
   0xA0C0; 0x9819; 0xD19E; 0x7FA3; 0x6644; 0x7E54; 0xAB3B; 0x830B;
   0xCA8C; 0x29C7; 0xD36B; 0x3C28; 0x79A7; 0xE2BC; 0x1D16; 0x76AD;
   0x3BDB; 0x5664; 0x4E74; 0x1E14; 0xDB92; 0x0A0C; 0x6C48; 0xE4B8;
   0x5D9F; 0x6EBD; 0xEF43; 0xA6C4; 0xA839; 0xA431; 0x37D3; 0x8BF2;
   0x32D5; 0x438B; 0x596E; 0xB7DA; 0x8C01; 0x64B1; 0xD29C; 0xE049;
   0xB4D8; 0xFAAC; 0x07F3; 0x25CF; 0xAFCA; 0x8EF4; 0xE947; 0x1810;
   0xD56F; 0x88F0; 0x6F4A; 0x725C; 0x2438; 0xF157; 0xC773; 0x5197;
   0x23CB; 0x7CA1; 0x9CE8; 0x213E; 0xDD96; 0xDC61; 0x860D; 0x850F;
   0x90E0; 0x427C; 0xC471; 0xAACC; 0xD890; 0x0506; 0x01F7; 0x121C;
   0xA3C2; 0x5F6A; 0xF9AE; 0xD069; 0x9117; 0x5899; 0x273A; 0xB927;
   0x38D9; 0x13EB; 0xB32B; 0x3322; 0xBBD2; 0x70A9; 0x8907; 0xA733;
   0xB62D; 0x223C; 0x9215; 0x20C9; 0x4987; 0xFFAA; 0x7850; 0x7AA5;
   0x8F03; 0xF859; 0x8009; 0x171A; 0xDA65; 0x31D7; 0xC684; 0xB8D0;
   0xC382; 0xB029; 0x775A; 0x111E; 0xCB7B; 0xFCA8; 0xD66D; 0x3A2C].

(** Element [i] of a constant size array; every index below is a constant or an
    8-bit value, within the array. *)
Definition arr (t : list Z) (i : Z) : Z := default 0 (t !! Z.to_nat i).

Definition Lo8 (v : Z) : Z := Z.land v 0x00FF.
Definition Hi8 (v : Z) : Z := Z.land (Z.shiftr v 8) 0x00FF.
Definition Lo16 (v : Z) : Z := Z.land v 0xFFFF.
Definition Hi16 (v : Z) : Z := Z.land (Z.shiftr v 16) 0xFFFF.
Definition Mk16 (hi lo : Z) : Z := Z.lxor lo (Z.shiftl (u16 hi) 8).
Definition RotR1 (v : Z) : Z :=
  Z.lxor (Z.land (Z.shiftr v 1) 0x7FFF) (Z.shiftl (Z.land v 1) 15).
Definition TK16 (tk : list Z) (n : Z) : Z := Mk16 (arr tk (2 * n + 1)) (arr tk (2 * n)).
Definition S_ (v : Z) : Z := Z.lxor (arr Sbox1_0 (Lo8 v)) (arr Sbox1_1 (Hi8 v)).

(** [a += x] on a [u16]. *)
Definition add16 (a x : Z) : Z := u16 (a + x).

(** The five words of [p1k]. *)
Record p1k_t := P1K { p0 : Z; p1 : Z; p2 : Z; p3 : Z; p4 : Z }.

(** The body of the loop of [phase1]. *)
Definition phase1_round (tk : list Z) (i : Z) (p : p1k_t) : p1k_t :=
  let q0 := add16 (p0 p) (S_ (Z.lxor (p4 p) (TK16 tk (Z.land i 1 + 0)))) in
  let q1 := add16 (p1 p) (S_ (Z.lxor q0 (TK16 tk (Z.land i 1 + 2)))) in
  let q2 := add16 (p2 p) (S_ (Z.lxor q1 (TK16 tk (Z.land i 1 + 4)))) in
  let q3 := add16 (p3 p) (S_ (Z.lxor q2 (TK16 tk (Z.land i 1 + 6)))) in
  let q4 := add16 (p4 p) (S_ (Z.lxor q3 (TK16 tk (Z.land i 1 + 0)))) in
  let q4 := add16 q4 (u16 i) in
  P1K q0 q1 q2 q3 q4.

(** [phase1(p1k, tk, ta, iv32)]: eight rounds. *)
Definition phase1 (tk ta : list Z) (iv32 : Z) : p1k_t :=
  fold_left (fun p i => phase1_round tk i p) [0; 1; 2; 3; 4; 5; 6; 7]
    (P1K (Lo16 iv32) (Hi16 iv32) (Mk16 (arr ta 1) (arr ta 0))
         (Mk16 (arr ta 3) (arr ta 2)) (Mk16 (arr ta 5) (arr ta 4))).

(** The six words of [PPK]. *)
Record ppk_t := PPK { k0 : Z; k1 : Z; k2 : Z; k3 : Z; k4 : Z; k5 : Z }.

(** The S-box sweep of [phase2]. *)
Definition ppk_mix (tk : list Z) (k : ppk_t) : ppk_t :=
  let q0 := add16 (k0 k) (S_ (Z.lxor (k5 k) (TK16 tk 0))) in
  let q1 := add16 (k1 k) (S_ (Z.lxor q0 (TK16 tk 1))) in
  let q2 := add16 (k2 k) (S_ (Z.lxor q1 (TK16 tk 2))) in
  let q3 := add16 (k3 k) (S_ (Z.lxor q2 (TK16 tk 3))) in
  let q4 := add16 (k4 k) (S_ (Z.lxor q3 (TK16 tk 4))) in
  let q5 := add16 (k5 k) (S_ (Z.lxor q4 (TK16 tk 5))) in
  PPK q0 q1 q2 q3 q4 q5.

(** The final sweep of [phase2]. *)
Definition ppk_sweep (tk : list Z) (k : ppk_t) : ppk_t :=
  let q0 := add16 (k0 k) (RotR1 (Z.lxor (k5 k) (TK16 tk 6))) in
  let q1 := add16 (k1 k) (RotR1 (Z.lxor q0 (TK16 tk 7))) in
  let q2 := add16 (k2 k) (RotR1 q1) in
  let q3 := add16 (k3 k) (RotR1 q2) in
  let q4 := add16 (k4 k) (RotR1 q3) in
  let q5 := add16 (k5 k) (RotR1 q4) in
  PPK q0 q1 q2 q3 q4 q5.

Definition phase2_ppk (tk : list Z) (p : p1k_t) (iv16 : Z) : ppk_t :=
  ppk_sweep tk (ppk_mix tk (PPK (p0 p) (p1 p) (p2 p) (p3 p) (p4 p) (add16 (p4 p) iv16))).

(** [phase2(rc4key, tk, p1k, iv16)]: the sixteen bytes of [rc4key]. *)
Definition phase2 (tk : list Z) (p : p1k_t) (iv16 : Z) : list Z :=
  let k := phase2_ppk tk p iv16 in
  [Hi8 iv16; Z.land (Z.lor (Hi8 iv16) 0x20) 0x7F; Lo8 iv16;
   Lo8 (Z.shiftr (Z.lxor (k5 k) (TK16 tk 0)) 1);
   Lo8 (k0 k); Hi8 (k0 k); Lo8 (k1 k); Hi8 (k1 k); Lo8 (k2 k); Hi8 (k2 k);
   Lo8 (k3 k); Hi8 (k3 k); Lo8 (k4 k); Hi8 (k4 k); Lo8 (k5 k); Hi8 (k5 k)].

(** The 802.11 test vector of the mixing function. *)
Example tkip_mix_vector :
  let tk := map Z.of_nat (seq 0 16) in
  let p := phase1 tk [0x10; 0x22; 0x33; 0x44; 0x55; 0x66] 0 in
  p = P1K 0x3DD2 0x016E 0x76F4 0x8697 0xB2E8 /\
  phase2 tk p 0 = [0x00; 0x20; 0x00; 0x33; 0xEA; 0x8D; 0x2F; 0x60;
                   0xCA; 0x6D; 0x13; 0x74; 0x23; 0x4A; 0x66; 0x0B].
Proof. vm_compute. split; reflexivity. Qed.

(** *** The mixing is injective *)

Lemma add16_inj a b x : is_u16 a -> is_u16 b -> add16 a x = add16 b x -> a = b.
Proof.
  intros Ha Hb H. unfold add16, wrap in H.
  assert ((a + x - (b + x)) `mod` 2 ^ 16 = 0) as Hm.
  { rewrite Zminus_mod, H, Z.sub_diag. done. }
  apply Z.mod_divide in Hm as [k Hk]; [|lia]. unfold fits in *. lia.
Qed.

Lemma add16_fits a x : is_u16 (add16 a x).
Proof. by apply wrap_fits. Qed.
#[local] Hint Resolve add16_fits : core.

(** Peels one [add16] equation with equal addends. *)
Ltac peel H := apply add16_inj in H; [|done..]; try subst.

Definition p1k_ok (p : p1k_t) : Prop :=
  is_u16 (p0 p) /\ is_u16 (p1 p) /\ is_u16 (p2 p) /\ is_u16 (p3 p) /\ is_u16 (p4 p).

Lemma phase1_round_ok tk i p : p1k_ok (phase1_round tk i p).
Proof. unfold p1k_ok, phase1_round. cbn. by split_and!. Qed.

Lemma phase1_round_inj tk i p q :
  p1k_ok p -> p1k_ok q -> phase1_round tk i p = phase1_round tk i q -> p = q.
Proof.
  destruct p as [a0 a1 a2 a3 a4], q as [b0 b1 b2 b3 b4]. unfold p1k_ok, phase1_round. cbn.
  intros (?&?&?&?&?) (?&?&?&?&?) I. injection I as I0 I1 I2 I3 I4.
  rewrite <- I3 in I4. peel I4. peel I4.
  rewrite <- I2 in I3. peel I3. rewrite <- I1 in I2. peel I2. rewrite <- I0 in I1. peel I1.
  peel I0. done.
Qed.

Lemma phase1_fold_inj tk l : forall p q,
  p1k_ok p -> p1k_ok q ->
  fold_left (fun p i => phase1_round tk i p) l p = fold_left (fun p i => phase1_round tk i p) l q ->
  p = q.
Proof.
  induction l as [|i l IH]; intros p q Hp Hq H; [done|]. cbn [fold_left] in H.
  apply IH in H; [|apply phase1_round_ok..]. by eapply phase1_round_inj.
Qed.

Lemma phase1_fold_ok tk l : forall p,
  p1k_ok p -> p1k_ok (fold_left (fun p i => phase1_round tk i p) l p).
Proof.
  induction l as [|i l IH]; intros p Hp; [done|]. cbn [fold_left]. apply IH, phase1_round_ok.
Qed.

Lemma Mk16_pack hi lo : is_u8 hi -> is_u8 lo -> Mk16 hi lo = hi * 256 + lo.
Proof.
  intros Hh Hl. unfold Mk16. rewrite wrap_small by (unfold fits in *; lia).
  change 256 with (2 ^ 8). rewrite <- (lor_pack hi lo 8) by done. zbits.
  destruct (Z.ltb_spec i 8).
  - rewrite (Z.testbit_neg_r hi) by lia. by rewrite xorb_false_r.
  - rewrite (fits_testbit 8 lo) by done. by rewrite orb_false_r, xorb_false_l.
Qed.

Lemma Lo16_mod v : Lo16 v = v `mod` 2 ^ 16.
Proof. unfold Lo16. change 0xFFFF with (Z.ones 16). by rewrite Z.land_ones. Qed.
Lemma Hi16_div v : is_u32 v -> Hi16 v = v `div` 2 ^ 16.
Proof.
  intros Hv. unfold Hi16. change 0xFFFF with (Z.ones 16). rewrite Z.land_ones by lia.
  rewrite Z.shiftr_div_pow2 by lia. unfold fits in Hv. apply Z.mod_small.
  split; [apply Z.div_pos; lia|apply Z.div_lt_upper_bound; lia].
Qed.
Lemma Lo8_Hi8_inj a b : is_u16 a -> is_u16 b -> Lo8 a = Lo8 b -> Hi8 a = Hi8 b -> a = b.
Proof.
  intros Ha Hb. unfold Lo8, Hi8. change 0x00FF with (Z.ones 8).
  rewrite !Z.land_ones, !Z.shiftr_div_pow2 by lia. unfold fits in *. intros H0 H1.
  rewrite !(Z.mod_small (_ / _)) in H1
    by (split; [apply Z.div_pos; lia|apply Z.div_lt_upper_bound; lia]).
  pose proof (Z.div_mod a (2 ^ 8) ltac:(lia)). pose proof (Z.div_mod b (2 ^ 8) ltac:(lia)). lia.
Qed.

(** The initial block determines the address and the upper IV. *)
Lemma phase1_inj tk ta ta' iv32 iv32' :
  bytes_ok ta -> bytes_ok ta' -> length ta = 6%nat -> length ta' = 6%nat ->
  is_u32 iv32 -> is_u32 iv32' -> phase1 tk ta iv32 = phase1 tk ta' iv32' ->
  ta = ta' /\ iv32 = iv32'.
Proof.
  intros Bt Bt' Lt Lt' Hi Hi' H.
  destruct ta as [|x0 [|x1 [|x2 [|x3 [|x4 [|x5 [|]]]]]]]; try done.
  destruct ta' as [|y0 [|y1 [|y2 [|y3 [|y4 [|y5 [|]]]]]]]; try done.
  repeat match goal with Hb : Forall _ (_ :: _) |- _ => apply Forall_cons in Hb as [? Hb] end.
  assert (forall a b c d e f v, is_u8 a -> is_u8 b -> is_u8 c -> is_u8 d -> is_u8 e -> is_u8 f ->
    is_u32 v -> p1k_ok (P1K (Lo16 v) (Hi16 v) (Mk16 b a) (Mk16 d c) (Mk16 f e))) as Hok.
  { intros. unfold p1k_ok. cbn. rewrite !Mk16_pack by done.
    split; [apply land_fits_r; [lia|done]|]. split; [apply land_fits_r; [lia|done]|].
    unfold fits in *. split_and!; lia. }
  unfold phase1 in H.
  apply phase1_fold_inj in H; [|by apply Hok..]. injection H as I0 I1 I2 I3 I4.
  unfold arr in *. cbn in I2, I3, I4. rewrite !Mk16_pack in * by done.
  rewrite !Lo16_mod in I0. rewrite !Hi16_div in I1 by done. unfold fits in *.
  pose proof (Z.div_mod iv32 (2 ^ 16) ltac:(lia)). pose proof (Z.div_mod iv32' (2 ^ 16) ltac:(lia)).
  change (x1 * 256 + x0 = y1 * 256 + y0) in I2. change (x3 * 256 + x2 = y3 * 256 + y2) in I3.
  change (x5 * 256 + x4 = y5 * 256 + y4) in I4.
  split; [|lia]. repeat f_equal; lia.
Qed.

Definition ppk_ok (k : ppk_t) : Prop :=
  is_u16 (k0 k) /\ is_u16 (k1 k) /\ is_u16 (k2 k) /\ is_u16 (k3 k) /\ is_u16 (k4 k) /\ is_u16 (k5 k).

Lemma ppk_mix_inj tk a b : ppk_ok a -> ppk_ok b -> ppk_mix tk a = ppk_mix tk b -> a = b.
Proof.
  destruct a as [a0 a1 a2 a3 a4 a5], b as [b0 b1 b2 b3 b4 b5]. unfold ppk_ok, ppk_mix. cbn.
  intros (?&?&?&?&?&?) (?&?&?&?&?&?) I. injection I as I0 I1 I2 I3 I4 I5.
  rewrite <- I4 in I5. peel I5. rewrite <- I3 in I4. peel I4. rewrite <- I2 in I3. peel I3.
  rewrite <- I1 in I2. peel I2. rewrite <- I0 in I1. peel I1. peel I0. done.
Qed.

Lemma ppk_sweep_inj tk a b : ppk_ok a -> ppk_ok b -> ppk_sweep tk a = ppk_sweep tk b -> a = b.
Proof.
  destruct a as [a0 a1 a2 a3 a4 a5], b as [b0 b1 b2 b3 b4 b5]. unfold ppk_ok, ppk_sweep. cbn.
  intros (?&?&?&?&?&?) (?&?&?&?&?&?) I. injection I as I0 I1 I2 I3 I4 I5.
  rewrite <- I4 in I5. peel I5. rewrite <- I3 in I4. peel I4. rewrite <- I2 in I3. peel I3.
  rewrite <- I1 in I2. peel I2. rewrite <- I0 in I1. peel I1. peel I0. done.
Qed.

Lemma ppk_mix_ok tk a : ppk_ok (ppk_mix tk a).
Proof. unfold ppk_ok, ppk_mix. cbn. by split_and!. Qed.
Lemma ppk_sweep_ok tk a : ppk_ok (ppk_sweep tk a).
Proof. unfold ppk_ok, ppk_sweep. cbn. by split_and!. Qed.

(** The bytes copied into the RC4 key. *)
Definition ppk_bytes (k : ppk_t) : list Z :=
  [Lo8 (k0 k); Hi8 (k0 k); Lo8 (k1 k); Hi8 (k1 k); Lo8 (k2 k); Hi8 (k2 k);
   Lo8 (k3 k); Hi8 (k3 k); Lo8 (k4 k); Hi8 (k4 k); Lo8 (k5 k); Hi8 (k5 k)].

Lemma ppk_bytes_inj a b : ppk_ok a -> ppk_ok b -> ppk_bytes a = ppk_bytes b -> a = b.
Proof.
  destruct a as [a0 a1 a2 a3 a4 a5], b as [b0 b1 b2 b3 b4 b5]. unfold ppk_ok, ppk_bytes.
  cbn [k0 k1 k2 k3 k4 k5]. intros (?&?&?&?&?&?) (?&?&?&?&?&?) I.
  injection I as E0 F0 E1 F1 E2 F2 E3 F3 E4 F4 E5 F5. f_equal; by apply Lo8_Hi8_inj.
Qed.

Lemma phase2_tail tk p iv16 : drop 4 (phase2 tk p iv16) = ppk_bytes (phase2_ppk tk p iv16).
Proof. reflexivity. Qed.

Lemma phase2_ppk_inj tk p q iv16 iv16' :
  p1k_ok p -> p1k_ok q -> is_u16 iv16 -> is_u16 iv16' ->
  phase2_ppk tk p iv16 = phase2_ppk tk q iv16' -> p = q /\ iv16 = iv16'.
Proof.
  destruct p as [a0 a1 a2 a3 a4], q as [b0 b1 b2 b3 b4]. unfold p1k_ok, phase2_ppk.
  cbn [p0 p1 p2 p3 p4]. intros (?&?&?&?&?) (?&?&?&?&?) Hs Hs' I.
  apply ppk_sweep_inj in I; [|apply ppk_mix_ok..].
  apply ppk_mix_inj in I; [|by repeat (split; [done|]); apply add16_fits..].
  injection I as E0 E1 E2 E3 E4 E5. subst. split; [done|].
  unfold add16 in E5. rewrite !(Z.add_comm b4) in E5. by apply (add16_inj iv16 iv16' b4).
Qed.

Lemma phase1_ok tk ta iv32 : p1k_ok (phase1 tk ta iv32).
Proof. apply (phase1_round_ok tk 7). Qed.

(** What the comments of [phase1] and [phase2] promise: for a fixed
    temporal key the 96 key-dependent bits of the RC4 key, and so the whole RC4
    key, are different for different triples of transmitter address, IV32 and
    IV16. *)
Theorem tkip_rc4key_unique tk ta ta' iv32 iv32' iv16 iv16' :
  bytes_ok ta -> bytes_ok ta' -> length ta = 6%nat -> length ta' = 6%nat ->
  is_u32 iv32 -> is_u32 iv32' -> is_u16 iv16 -> is_u16 iv16' ->
  drop 4 (phase2 tk (phase1 tk ta iv32) iv16) = drop 4 (phase2 tk (phase1 tk ta' iv32') iv16') ->
  ta = ta' /\ iv32 = iv32' /\ iv16 = iv16'.
Proof.
  intros Bt Bt' Lt Lt' Hi Hi' Hs Hs' H. rewrite !phase2_tail in H.
  apply ppk_bytes_inj in H as Hab; [|apply ppk_sweep_ok..].
  apply phase2_ppk_inj in Hab as [Hpq ->]; [|apply phase1_ok|apply phase1_ok|done|done].
  by apply phase1_inj in Hpq as [-> ->].
Qed.

Lemma tkip_rc4key_unique_witness :
  [1; 2; 3; 4; 5; 6] = [1; 2; 3; 4; 5; 6] /\ 7 = 7 /\ 8 = 8.
Proof.
  apply (tkip_rc4key_unique (replicate 16 0) [1; 2; 3; 4; 5; 6] [1; 2; 3; 4; 5; 6] 7 7 8 8);
    [by_eval|by_eval|done|done|done|done|done|done|reflexivity].
Defined.

(** ** Encapsulation *)

Definition _FAIL : Z := 0.
Definition _SUCCESS : Z := 1.
Definition _TKIP_ : Z := 2.

(** [GET_TKIP_PN], then [pnl] and [pnh]. *)
Definition tkip_pn (b : list Z) (iv : Z) : res (Z * Z) :=
  t1 ← rd b iv; t0 ← rd b (iv + 2);
  t2 ← rd b (iv + 4); t3 ← rd b (iv + 5); t4 ← rd b (iv + 6); t5 ← rd b (iv + 7);
  Ret (u16 (Z.lor t0 (Z.shiftl t1 8)),
       u32 (Z.lor (Z.lor (Z.lor t2 (Z.shiftl t3 8)) (Z.shiftl t4 16)) (Z.shiftl t5 24))).

(** [rc4key] of the packet whose IV is at [iv]. *)
Definition tkip_rc4key (b : list Z) (iv : Z) (prwskey ta : list Z) : res (list Z) :=
  pn ← tkip_pn b iv;
  Ret (phase2 prwskey (phase1 prwskey ta pn.2) pn.1).

(** [IS_MCAST]: the group bit of the first address byte. *)
Definition IS_MCAST (addr : list Z) : bool := negb (Z.land (arr addr 0) 1 =? 0).

(** The loop over the fragments; [n] fragments remain. *)
Fixpoint tkip_encrypt_frags (n : nat) (st : crc_state) (b : list Z) (base pframe : Z)
    (a : pkt_attrib) (frag_len : Z) (prwskey ta : list Z) : res (list Z * crc_state) :=
  match n with
  | O => Ret (b, st)
  | S n =>
      let payload := pframe + iv_len a + hdrlen a in
      rc4key ← tkip_rc4key b (pframe + hdrlen a) prwskey ta;
      match n with
      | O =>
          let length := last_txcmdsz a - hdrlen a - iv_len a - icv_len a in
          seal_fragment st b payload length rc4key 16
      | S _ =>
          let length := frag_len - hdrlen a - iv_len a - icv_len a in
          r ← seal_fragment st b payload length rc4key 16;
          let pframe := RND4 (base + (pframe + frag_len)) - base in
          tkip_encrypt_frags n r.2 r.1 base pframe a frag_len prwskey ta
      end
  end.

(** [rtw_tkip_encrypt]: the status, the buffer and the CRC statics.  [grpkey] is
    the group key selected by [dot118021XGrpKeyid], [unicast_key] the key of
    the frame's attributes. *)
Definition rtw_tkip_encrypt (st : crc_state) (b : list Z) (buf_addr : option Z) (base pkt_offset : Z)
    (a : pkt_attrib) (frag_len : Z) (ra ta grpkey unicast_key : list Z)
  : res (Z * list Z * crc_state) :=
  match buf_addr with
  | None => Ret (_FAIL, b, st)
  | Some addr =>
      let pframe := addr + hw_hdr_offset pkt_offset in
      if encrypt a =? _TKIP_ then
        let prwskey := if IS_MCAST ra then grpkey else unicast_key in
        r ← tkip_encrypt_frags (Z.to_nat (nr_frags a)) st b base pframe a frag_len prwskey ta;
        Ret (_SUCCESS, r.1, r.2)
      else Ret (_SUCCESS, b, st)
  end.

(** The receive attributes and the key material [rtw_tkip_decrypt] consults;
    [stainfo] is the pairwise key of the station found for the transmitter. *)
Record rx_tkip := RxTkip {
  rx_encrypt : Z; rx_hdrlen : Z; rx_iv_len : Z; rx_ra : list Z; rx_ta : list Z;
  binstallGrpkey : bool; rx_grpkey : list Z; stainfo : option (list Z) }.

(** The part shared by both key types: decrypt in place and compare the ICV. *)
Definition tkip_open (st : crc_state) (b : list Z) (pframe len : Z) (x : rx_tkip) (prwskey : list Z)
  : res (Z * list Z * crc_state) :=
  rc4key ← tkip_rc4key b (pframe + rx_hdrlen x) prwskey (rx_ta x);
  let payload := pframe + rx_iv_len x + rx_hdrlen x in
  let length := len - rx_hdrlen x - rx_iv_len x in
  r ← open_fragment st b payload length rc4key 16;
  let b := r.1.1 in
  let crc := r.1.2 in
  icv ← slice b (payload + (length - 4)) 4;
  Ret (if bool_decide (icv = le32 crc) then _SUCCESS else _FAIL, b, r.2).

(** [rtw_tkip_decrypt] (the rate limited log counters are not modelled). *)
Definition rtw_tkip_decrypt (st : crc_state) (b : list Z) (pframe len : Z) (x : rx_tkip)
  : res (Z * list Z * crc_state) :=
  if rx_encrypt x =? _TKIP_ then
    match stainfo x with
    | None => Ret (_FAIL, b, st)
    | Some pairwise =>
        if IS_MCAST (rx_ra x) then
          if negb (binstallGrpkey x) then Ret (_FAIL, b, st)
          else tkip_open st b pframe len x (rx_grpkey x)
        else tkip_open st b pframe len x pairwise
    end
  else Ret (_SUCCESS, b, st).

(** ** Countermeasures *)

Record countermeasure := Countermeasure {
  btkip_countermeasure : bool; btkip_countermeasure_time : Z; last_mic_err_time : Z }.

(** The state change of [rtw_handle_tkip_mic_err]; [cur_time] is the jiffies
    counter (a 64-bit [unsigned long]) and [HZ] the kernel's tick rate.  The
    notifications sent to user space are not modelled. *)
Definition rtw_handle_tkip_mic_err (HZ cur_time : Z) (s : countermeasure) : countermeasure :=
  if last_mic_err_time s =? 0 then
    Countermeasure (btkip_countermeasure s) (btkip_countermeasure_time s) cur_time
  else if u64 (cur_time - last_mic_err_time s) <? 60 * HZ then Countermeasure true cur_time 0
  else Countermeasure (btkip_countermeasure s) (btkip_countermeasure_time s) cur_time.

(** [passing_ms] is [rtw_get_passing_time_ms(btkip_countermeasure_time)]. *)
Definition rtw_handle_tkip_countermeasure (s : countermeasure) (passing_ms : Z)
  : Z * countermeasure :=
  if btkip_countermeasure s then
    if 60 * 1000 <? passing_ms then (_SUCCESS, Countermeasure false 0 (last_mic_err_time s))
    else (_FAIL, s)
  else (_SUCCESS, s).

(** Two failures less than a minute apart start the countermeasures, which
    refuse association for a minute; failures further apart do not. *)
Lemma tkip_countermeasure_minute HZ t1 t2 s :
  0 < t1 -> t1 <= t2 < 2 ^ 64 -> btkip_countermeasure s = false -> last_mic_err_time s = 0 ->
  let s' := rtw_handle_tkip_mic_err HZ t2 (rtw_handle_tkip_mic_err HZ t1 s) in
  (btkip_countermeasure s' = true <-> t2 - t1 < 60 * HZ) /\
  (t2 - t1 < 60 * HZ -> forall ms,
     (rtw_handle_tkip_countermeasure s' ms).1 = _FAIL <-> ms <= 60 * 1000).
Proof.
  intros H1 H2 Hb Hl. unfold rtw_handle_tkip_mic_err. rewrite Hl. cbn [last_mic_err_time Z.eqb].
  rewrite (proj2 (Z.eqb_neq t1 0)) by lia. rewrite wrap_small by (unfold fits; lia).
  destruct (Z.ltb_spec (t2 - t1) (60 * HZ)); cbn [btkip_countermeasure].
  - split; [done|]. intros _ ms. unfold rtw_handle_tkip_countermeasure. cbn [btkip_countermeasure].
    destruct (Z.ltb_spec (60 * 1000) ms); cbn [fst]; (split; [discriminate || lia|lia || done]).
  - rewrite Hb. split; [split; [done|lia]|lia].
Qed.

(** ** Properties of the encapsulation *)

Lemma phase2_zlen tk p iv16 : zlen (phase2 tk p iv16) = 16.
Proof. reflexivity. Qed.

#[global] Opaque phase1 phase2 arcfour_init arcfour_encrypt.

(** The key depends only on the eight IV bytes. *)
Lemma tkip_rc4key_iv pre iv post p key ta :
  zlen iv = 8 -> p = zlen pre ->
  exists rc4key, zlen rc4key = 16 /\
    tkip_rc4key (pre ++ iv ++ post) p key ta = Ret rc4key /\
    forall pre' post' p', p' = zlen pre' ->
      tkip_rc4key (pre' ++ iv ++ post') p' key ta = Ret rc4key.
Proof.
  intros Hiv ->.
  destruct iv as [|x0 [|x1 [|x2 [|x3 [|x4 [|x5 [|x6 [|x7 [|]]]]]]]]];
    try (by exfalso; unfold zlen in Hiv; simpl in Hiv; lia).
  set (pn := (u16 (Z.lor x2 (Z.shiftl x0 8)),
              u32 (Z.lor (Z.lor (Z.lor x4 (Z.shiftl x5 8)) (Z.shiftl x6 16)) (Z.shiftl x7 24)))).
  assert (forall pre' post' p', p' = zlen pre' ->
    tkip_pn (pre' ++ [x0; x1; x2; x3; x4; x5; x6; x7] ++ post') p' = Ret pn) as Hpn.
  { intros pre' post' p' ->. unfold tkip_pn.
    pose proof (at_off_intro pre' [x0; x1; x2; x3; x4; x5; x6; x7] post' _ eq_refl) as Hat.
    repeat (let E := fresh "E" in apply at_off_cons in Hat as [E Hat]; rewrite <- ?Z.add_assoc in E;
            try match type of E with rd _ (_ + ?k) = _ =>
              let k' := eval vm_compute in k in change k with k' in E end).
    set (b := pre' ++ _ ++ post') in *. unfold tkip_pn.
    rewrite E. simp_res. rewrite E1. simp_res. rewrite E3. simp_res. rewrite E4. simp_res.
    rewrite E5. simp_res. rewrite E6. reflexivity. }
  exists (phase2 key (phase1 key ta pn.2) pn.1). split; [apply phase2_zlen|]. unfold tkip_rc4key.
  split; [by bind_step (Hpn pre post _ eq_refl)|].
  intros pre' post' p' Hp. by bind_step (Hpn pre' post' p' Hp).
Qed.

Lemma tkip_open_eq st b pframe len x key rc4key b' crc st' icv :
  tkip_rc4key b (pframe + rx_hdrlen x) key (rx_ta x) = Ret rc4key ->
  open_fragment st b (pframe + rx_iv_len x + rx_hdrlen x) (len - rx_hdrlen x - rx_iv_len x) rc4key 16
    = Ret (b', crc, st') ->
  slice b' (pframe + rx_iv_len x + rx_hdrlen x + (len - rx_hdrlen x - rx_iv_len x - 4)) 4 = Ret icv ->
  tkip_open st b pframe len x key =
  Ret (if bool_decide (icv = le32 crc) then _SUCCESS else _FAIL, b', st').
Proof.
  intros E1 E2 E3. unfold tkip_open. bind_step E1. bind_step E2. bind_step E3. reflexivity.
Qed.

(** C31: TKIP round trip: for a single-fragment unicast frame,
    [rtw_tkip_encrypt] changes only the payload and the four bytes behind it,
    and [rtw_tkip_decrypt] at a station that holds the same pairwise key accepts
    the frame and restores the payload. *)
Theorem tkip_roundtrip st st' txd hdr iv payload room post base pkt_offset ra ta grpkey key
    frag_len pre' post' inst grpkey' :
  let a := PktAttrib _TKIP_ 1 (zlen hdr) 8 4 (zlen hdr + 8 + zlen payload + 4) in
  let x := RxTkip _TKIP_ (zlen hdr) 8 ra ta inst grpkey' (Some key) in
  crc_inv st -> crc_inv st' -> zlen txd = hw_hdr_offset pkt_offset -> IS_MCAST ra = false ->
  zlen iv = 8 -> bytes_ok payload -> zlen room = 4 ->
  exists ct, zlen ct = zlen payload + 4 /\
    rtw_tkip_encrypt st (txd ++ hdr ++ iv ++ (payload ++ room) ++ post) (Some 0) base pkt_offset
      a frag_len ra ta grpkey key =
    Ret (_SUCCESS, txd ++ hdr ++ iv ++ ct ++ post, crc_ready) /\
    rtw_tkip_decrypt st' (pre' ++ hdr ++ iv ++ ct ++ post') (zlen pre') (last_txcmdsz a) x =
    Ret (_SUCCESS, pre' ++ hdr ++ iv ++ (payload ++ le32 (crc32_ref payload)) ++ post', crc_ready).
Proof.
  intros a x Hst Hst' Htx Hm Hiv Hp Hroom.
  destruct (tkip_rc4key_iv (txd ++ hdr) iv ((payload ++ room) ++ post) (zlen (txd ++ hdr)) key ta)
    as (rc & Hrc & Hk & Hk'); [done|done|].
  destruct (seal_fragment_spec st (txd ++ hdr ++ iv) payload room post rc 16)
    as (ct & Hct & _ & Hseal & Hopen); [done|done|lia|lia|done|].
  exists ct. split; [done|]. split.
  - unfold rtw_tkip_encrypt. cbn [encrypt a nr_frags]. rewrite Z.eqb_refl, Hm.
    change (Z.to_nat 1) with 1%nat. cbn [tkip_encrypt_frags hdrlen iv_len icv_len last_txcmdsz a].
    rewrite Z.add_0_l, <- Htx. rewrite <- (zlen_app txd hdr), (app_assoc txd hdr). bind_step Hk.
    replace (zlen txd + 8 + zlen hdr) with (zlen (txd ++ hdr ++ iv)) by (rewrite !zlen_app; lia).
    replace (zlen hdr + 8 + zlen payload + 4 - zlen hdr - 8 - 4) with (zlen payload) by lia.
    rewrite <- !app_assoc in *. bind_step Hseal. reflexivity.
  - unfold rtw_tkip_decrypt. cbn [rx_encrypt stainfo rx_ra x]. rewrite Z.eqb_refl, Hm.
    pose proof (Hopen st' Hst' (pre' ++ hdr ++ iv) post') as Ho. rewrite <- !app_assoc in Ho.
    erewrite tkip_open_eq; [rewrite bool_decide_eq_true_2 by reflexivity; reflexivity| | |].
    + cbn [rx_hdrlen rx_ta x]. rewrite (app_assoc pre' hdr). apply Hk'. by rewrite zlen_app.
    + cbn [rx_hdrlen rx_iv_len x last_txcmdsz a].
      replace (zlen pre' + 8 + zlen hdr) with (zlen (pre' ++ hdr ++ iv)) by (rewrite !zlen_app; lia).
      replace (zlen hdr + 8 + zlen payload + 4 - zlen hdr - 8) with (zlen payload + 4) by lia.
      rewrite <- !app_assoc. exact Ho.
    + cbn [rx_hdrlen rx_iv_len x last_txcmdsz a].
      apply at_off_slice; [|reflexivity]. exists (pre' ++ hdr ++ iv ++ payload), post'.
      split; [by rewrite <- !app_assoc|]. rewrite !zlen_app. lia.
Qed.

Lemma tkip_roundtrip_witness :
  exists ct, zlen ct = 2 + 4 /\
    rtw_tkip_encrypt (Crc 0 [])
      (replicate 48 0 ++ [8; 0] ++ [1; 2; 3; 32; 0; 0; 0; 0] ++ ([65; 66] ++ [0; 0; 0; 0]) ++ [])
      (Some 0) 0 0 (PktAttrib _TKIP_ 1 2 8 4 16) 2304 [2; 0; 0; 0; 0; 1] [2; 0; 0; 0; 0; 2]
      [] (replicate 32 7) =
    Ret (_SUCCESS, replicate 48 0 ++ [8; 0] ++ [1; 2; 3; 32; 0; 0; 0; 0] ++ ct ++ [], crc_ready) /\
    rtw_tkip_decrypt (Crc 0 []) ([77] ++ [8; 0] ++ [1; 2; 3; 32; 0; 0; 0; 0] ++ ct ++ []) 1 16
      (RxTkip _TKIP_ 2 8 [2; 0; 0; 0; 0; 1] [2; 0; 0; 0; 0; 2] true [] (Some (replicate 32 7))) =
    Ret (_SUCCESS, [77] ++ [8; 0] ++ [1; 2; 3; 32; 0; 0; 0; 0] ++
         ([65; 66] ++ le32 (crc32_ref [65; 66])) ++ [], crc_ready).
Proof.
  apply (tkip_roundtrip (Crc 0 []) (Crc 0 []) (replicate 48 0) [8; 0] [1; 2; 3; 32; 0; 0; 0; 0] [65; 66]
           [0; 0; 0; 0] [] 0 0 [2; 0; 0; 0; 0; 1] [2; 0; 0; 0; 0; 2] [] (replicate 32 7) 2304 [77] []
           true []);
    [by left|by left|reflexivity|reflexivity|done|by_eval|done].
Defined.

Lemma tkip_decrypt_icv_core st pre hdr iv ct post x key :
  crc_inv st -> rx_encrypt x = _TKIP_ -> rx_hdrlen x = zlen hdr -> rx_iv_len x = 8 -> zlen iv = 8 ->
  bytes_ok ct -> 4 <= zlen ct ->
  stainfo x = Some key -> (IS_MCAST (rx_ra x) = true -> binstallGrpkey x = true) ->
  exists p icv, zlen icv = 4 /\ zlen p + 4 = zlen ct /\
    rtw_tkip_decrypt st (pre ++ hdr ++ iv ++ ct ++ post) (zlen pre) (zlen hdr + 8 + zlen ct) x =
    Ret (if bool_decide (icv = le32 (crc32_ref p)) then _SUCCESS else _FAIL,
         pre ++ hdr ++ iv ++ (p ++ icv) ++ post, crc_ready).
Proof.
  intros Hst He Hh Hi Hiv Hb H4 Hsta Hg.
  set (k := if IS_MCAST (rx_ra x) then rx_grpkey x else key).
  assert (forall b len, rtw_tkip_decrypt st b (zlen pre) len x = tkip_open st b (zlen pre) len x k) as ->.
  { intros b len. unfold rtw_tkip_decrypt, k. rewrite He, Z.eqb_refl, Hsta.
    destruct (IS_MCAST (rx_ra x)); [|done]. by rewrite Hg. }
  destruct (tkip_rc4key_iv (pre ++ hdr) iv (ct ++ post) (zlen (pre ++ hdr)) k (rx_ta x))
    as (rc & Hrc & Hk & _); [done|done|].
  destruct (arcfour_init_ok rc 16) as (c & Ec & Hc); [lia|lia|].
  destruct (arcfour_encrypt_ok ct c Hc Hb) as (c' & out & Eo & _ & Zo & Bo & _).
  destruct (split_at out (zlen out - 4)) as (p & icv & -> & Hp); [lia|].
  rewrite zlen_app in Zo, Hp. apply Forall_app in Bo as [Bp _].
  exists p, icv. split; [lia|]. split; [lia|].
  eapply tkip_open_eq; rewrite ?Hh, ?Hi.
  - rewrite (app_assoc pre hdr), <- (zlen_app pre hdr). exact Hk.
  - replace (zlen hdr + 8 + zlen ct - zlen hdr - 8) with (zlen ct) by lia.
    eapply open_fragment_eq; [|exact Ec|exact Eo| | |apply getcrc32_spec; [exact Hst|exact Bp]].
    + apply at_off_slice; [|reflexivity]. exists (pre ++ hdr ++ iv), post.
      split; [by rewrite <- !app_assoc|rewrite !zlen_app; lia].
    + replace (zlen pre + 8 + zlen hdr) with (zlen (pre ++ hdr ++ iv)) by (rewrite !zlen_app; lia).
      replace (pre ++ hdr ++ iv ++ ct ++ post) with ((pre ++ hdr ++ iv) ++ ct ++ post)
        by (by rewrite <- !app_assoc).
      rewrite splice_mid; [by rewrite <- !app_assoc|reflexivity|].
      rewrite length_app. unfold zlen in *. lia.
    + apply at_off_slice; [|lia]. exists (pre ++ hdr ++ iv), (icv ++ post).
      split; [by rewrite <- !app_assoc|rewrite !zlen_app; lia].
  - apply at_off_slice; [|lia]. exists (pre ++ hdr ++ iv ++ p), post.
    split; [by rewrite <- !app_assoc|rewrite !zlen_app; lia].
Qed.

(** Whether there is a key for the frame: the transmitter is a known station and,
    for a group addressed frame, a group key has been installed. *)
Definition tkip_key_ready (x : rx_tkip) : bool :=
  match stainfo x with
  | Some _ => negb (IS_MCAST (rx_ra x)) || binstallGrpkey x
  | None => false
  end.

(** [rtw_tkip_decrypt] rejects a protected frame for which there is no key
    and leaves it alone, and otherwise decrypts it in place and accepts it
    exactly when the last four bytes of the result are the CRC-32 of the bytes
    before them. *)
Theorem rtw_tkip_decrypt_icv st pre hdr iv ct post x :
  crc_inv st -> rx_encrypt x = _TKIP_ -> rx_hdrlen x = zlen hdr -> rx_iv_len x = 8 -> zlen iv = 8 ->
  bytes_ok ct -> 4 <= zlen ct ->
  let b := pre ++ hdr ++ iv ++ ct ++ post in
  if tkip_key_ready x then
    exists p icv, zlen icv = 4 /\ zlen p + 4 = zlen ct /\
      rtw_tkip_decrypt st b (zlen pre) (zlen hdr + 8 + zlen ct) x =
      Ret (if bool_decide (icv = le32 (crc32_ref p)) then _SUCCESS else _FAIL,
           pre ++ hdr ++ iv ++ (p ++ icv) ++ post, crc_ready)
  else rtw_tkip_decrypt st b (zlen pre) (zlen hdr + 8 + zlen ct) x = Ret (_FAIL, b, st).
Proof.
  intros Hst He Hh Hi Hiv Hb H4 b. unfold tkip_key_ready.
  destruct (stainfo x) as [key|] eqn:Es.
  - destruct (IS_MCAST (rx_ra x)) eqn:Em, (binstallGrpkey x) eqn:Eg; cbn [negb orb];
      [|unfold rtw_tkip_decrypt; by rewrite He, Z.eqb_refl, Es, Em, Eg|..];
      apply (tkip_decrypt_icv_core st pre hdr iv ct post x key); congruence.
  - unfold rtw_tkip_decrypt. by rewrite He, Z.eqb_refl, Es.
Qed.

Lemma rtw_tkip_decrypt_icv_witness :
  exists p icv, zlen icv = 4 /\ zlen p + 4 = 6 /\
    rtw_tkip_decrypt (Crc 0 []) ([] ++ [8] ++ [1; 2; 3; 32; 0; 0; 0; 0] ++ [1; 2; 3; 4; 5; 6] ++ []) 0 15
      (RxTkip _TKIP_ 1 8 [1] [2; 0; 0; 0; 0; 2] true (replicate 16 1) (Some [])) =
    Ret (if bool_decide (icv = le32 (crc32_ref p)) then _SUCCESS else _FAIL,
         [] ++ [8] ++ [1; 2; 3; 32; 0; 0; 0; 0] ++ (p ++ icv) ++ [], crc_ready).
Proof.
  apply (rtw_tkip_decrypt_icv (Crc 0 []) [] [8] [1; 2; 3; 32; 0; 0; 0; 0] [1; 2; 3; 4; 5; 6] []
    (RxTkip _TKIP_ 1 8 [1] [2; 0; 0; 0; 0; 2] true (replicate 16 1) (Some [])));
    [by left|done|done|done|done|by_eval|by_eval].
Defined.

End Tkip.
