(* ===== verification/Reorder.v ===== *)
(** * The receive reordering buffer

    Models the A-MPDU reordering of [core/rtw_recv.c]: [check_indicate_seq],
    [enqueue_reorder_recvframe], [recv_indicatepkts_pkt_loss_cnt],
    [recv_indicatepkts_in_order], [recv_indicatepkt_reorder],
    [rtw_reordering_ctrl_timeout_handler] and [recv_set_iseq_*].

    Each call runs under the queue's lock, so the state of a TID is a record and
    a call is one function on it.  Handing a frame to [recv_process_mpdu] is an
    output of the step.

    The abstract machine works with unbounded positions instead of 12-bit
    sequence numbers; the refinement theorems show that the modular arithmetic
    implements it. *)
From Stdlib Require Import Sorted.
From stdpp Require Import sets.
From S2P Require Import Prelude.

Module Reorder.

(** A received frame: its identity and its sequence number. *)
Record rframe := RFrame { rf_id : Z; seq_num : Z }.

(** The counters of [struct recv_priv] the code maintains. *)
Record rx_stats := RxStats {
  window_shift_cnt : Z; forced_indicate_count : Z; loss_count : Z; rx_drop : Z;
  ampdu_drop_count : Z }.

(** [struct recv_reorder_ctrl]; [timer] tells whether [reordering_ctrl_timer] is
    armed. *)
Record reorder_ctrl := ReorderCtrl {
  enable : bool; indicate_seq : Z; wsize_b : Z; pending : list rframe;
  bReorderWaiting : bool; rec_abba_rsp_ack : bool; timer : bool; stats : rx_stats }.

Definition set_iseq (s : Z) (c : reorder_ctrl) : reorder_ctrl :=
  ReorderCtrl (enable c) s (wsize_b c) (pending c) (bReorderWaiting c) (rec_abba_rsp_ack c)
    (timer c) (stats c).
Definition set_pending (q : list rframe) (c : reorder_ctrl) : reorder_ctrl :=
  ReorderCtrl (enable c) (indicate_seq c) (wsize_b c) q (bReorderWaiting c) (rec_abba_rsp_ack c)
    (timer c) (stats c).
Definition set_waiting (w t : bool) (c : reorder_ctrl) : reorder_ctrl :=
  ReorderCtrl (enable c) (indicate_seq c) (wsize_b c) (pending c) w (rec_abba_rsp_ack c) t (stats c).
Definition set_ack (a : bool) (c : reorder_ctrl) : reorder_ctrl :=
  ReorderCtrl (enable c) (indicate_seq c) (wsize_b c) (pending c) (bReorderWaiting c) a
    (timer c) (stats c).
Definition set_stats (s : rx_stats) (c : reorder_ctrl) : reorder_ctrl :=
  ReorderCtrl (enable c) (indicate_seq c) (wsize_b c) (pending c) (bReorderWaiting c)
    (rec_abba_rsp_ack c) (timer c) s.

(** [SN_LESS(a, b)]: [((a - b) & 0x800) != 0]. *)
Definition SN_LESS (a b : Z) : bool := negb (Z.land (a - b) 0x800 =? 0).
Definition SN_EQUAL (a b : Z) : bool := a =? b.

Definition _FAIL : Z := 0.
Definition _SUCCESS : Z := 1.
Definition RTW_RX_HANDLED : Z := 2.

Definition inc_window_shift (s : rx_stats) : rx_stats :=
  RxStats (u64 (window_shift_cnt s + 1)) (forced_indicate_count s) (loss_count s) (rx_drop s)
    (ampdu_drop_count s).
Definition inc_forced (s : rx_stats) : rx_stats :=
  RxStats (window_shift_cnt s) (u64 (forced_indicate_count s + 1)) (loss_count s) (rx_drop s)
    (ampdu_drop_count s).
Definition inc_ampdu_drop (s : rx_stats) : rx_stats :=
  RxStats (window_shift_cnt s) (forced_indicate_count s) (loss_count s) (rx_drop s)
    (u64 (ampdu_drop_count s + 1)).

(** [check_indicate_seq]: the returned flag and the control block. *)
Definition check_indicate_seq (c : reorder_ctrl) (seq : Z) : bool * reorder_ctrl :=
  let wsize := wsize_b c in
  let c := if indicate_seq c =? 0xFFFF then set_iseq seq c else c in
  let wend := Z.land (indicate_seq c + wsize - 1) 0xFFF in
  if SN_LESS seq (indicate_seq c) then (false, c)
  else if SN_EQUAL seq (indicate_seq c) then
    (true, set_iseq (Z.land (indicate_seq c + 1) 0xFFF) c)
  else if SN_LESS wend seq then
    let s := if wsize - 1 <=? seq then u16 (seq + 1 - wsize)
             else u16 (0xFFF - (wsize - (seq + 1)) + 1) in
    (true, set_stats (inc_window_shift (stats c)) (set_iseq s c))
  else (true, c).

(** The walk of [enqueue_reorder_recvframe]: [None] on a duplicate, otherwise the
    queue with the frame inserted in front of the first later one. *)
Fixpoint enqueue_walk (q : list rframe) (f : rframe) : option (list rframe) :=
  match q with
  | [] => Some [f]
  | g :: q =>
      if SN_LESS (seq_num g) (seq_num f) then (fun r => g :: r) <$> enqueue_walk q f
      else if SN_EQUAL (seq_num g) (seq_num f) then None
      else Some (f :: g :: q)
  end.

Definition enqueue_reorder_recvframe (c : reorder_ctrl) (f : rframe) : bool * reorder_ctrl :=
  match enqueue_walk (pending c) f with
  | None => (false, c)
  | Some q => (true, set_pending q c)
  end.

Definition recv_indicatepkts_pkt_loss_cnt (s : rx_stats) (prev_seq current_seq : Z) : rx_stats :=
  let d := if current_seq <? prev_seq then u64 (4096 + current_seq - prev_seq)
           else u64 (current_seq - prev_seq) in
  RxStats (window_shift_cnt s) (forced_indicate_count s) (u64 (loss_count s + d))
    (u64 (rx_drop s + d)) (ampdu_drop_count s).

(** The indication loop: the new [indicate_seq], the frames handed up, the rest
    of the queue and [bPktInBuf]. *)
Fixpoint indicate_loop (iseq : Z) (q : list rframe) : Z * list rframe * list rframe * bool :=
  match q with
  | [] => (iseq, [], [], false)
  | f :: q =>
      if negb (SN_LESS iseq (seq_num f)) then
        let iseq := if SN_EQUAL iseq (seq_num f) then Z.land (iseq + 1) 0xFFF else iseq in
        let '(iseq, out, rest, b) := indicate_loop iseq q in
        (iseq, f :: out, rest, b)
      else (iseq, [], f :: q, true)
  end.

(** [recv_indicatepkts_in_order]: the returned flag, the frames indicated in
    order, and the control block. *)
Definition recv_indicatepkts_in_order (c : reorder_ctrl) (bforced : bool)
  : bool * list rframe * reorder_ctrl :=
  let c := if bforced then set_stats (inc_forced (stats c)) c else c in
  let run := fun c =>
    let '(iseq, out, rest, bPktInBuf) := indicate_loop (indicate_seq c) (pending c) in
    (bPktInBuf, out, set_pending rest (set_iseq iseq c)) in
  if bforced then
    match pending c with
    | [] => (true, [], c)
    | f :: _ =>
        let st := recv_indicatepkts_pkt_loss_cnt (stats c) (indicate_seq c) (seq_num f) in
        run (set_iseq (seq_num f) (set_stats st c))
    end
  else run c.

(** [recv_indicatepkt_reorder] with a [preorder_ctrl]: the returned code, the
    frames indicated, and the control block. *)
Definition recv_indicatepkt_reorder (c : reorder_ctrl) (qos : bool) (f : rframe)
  : Z * list rframe * reorder_ctrl :=
  if negb qos || negb (enable c) then (_SUCCESS, [], c)
  else
    let c := if rec_abba_rsp_ack c then set_iseq 0xFFFF (set_ack false c) else c in
    let '(ok, c) := check_indicate_seq c (seq_num f) in
    if negb ok then (_FAIL, [], set_stats (inc_ampdu_drop (stats c)) c)
    else
      let '(ok, c) := enqueue_reorder_recvframe c f in
      if negb ok then (_FAIL, [], c)
      else
        let '(b, out, c) := recv_indicatepkts_in_order c false in
        if (b : bool)
        then (RTW_RX_HANDLED, out,
              if bReorderWaiting c then c else set_waiting true true c)
        else (RTW_RX_HANDLED, out, set_waiting false false c).

(** [rtw_reordering_ctrl_timeout_handler] on a running adapter; the timer that
    fired is no longer armed. *)
Definition rtw_reordering_ctrl_timeout_handler (c : reorder_ctrl) : list rframe * reorder_ctrl :=
  let c := set_waiting false false c in
  let '(b, out, c) := recv_indicatepkts_in_order c true in
  (out, if (b : bool) then set_waiting (bReorderWaiting c) true c else c).

(** [recv_set_iseq_before_mpdu_process] and [recv_set_iseq_after_mpdu_process]. *)
Definition recv_set_iseq_before_mpdu_process (c : reorder_ctrl) (seq : Z) : reorder_ctrl :=
  set_iseq seq c.
Definition recv_set_iseq_after_mpdu_process (c : reorder_ctrl) : reorder_ctrl :=
  set_iseq ((indicate_seq c + 1) `mod` 4096) c.

(** ** Sequence number arithmetic *)

Definition is_sn (s : Z) : Prop := 0 <= s < 4096.

(** Signed distance from [i] to a sequence number, in [[-2048, 2048)]. *)
Definition sdist (s i : Z) : Z := (s - i + 2048) `mod` 4096 - 2048.

Lemma land_800 z : Z.land z 0x800 = if 2048 <=? z `mod` 4096 then 0x800 else 0.
Proof.
  assert (Z.land z 0x800 = if Z.testbit z 11 then 0x800 else 0) as ->.
  { change 0x800 with (2 ^ 11). zbits. rewrite Z.pow2_bits_eqb by lia.
    destruct (Z.eqb_spec 11 i) as [<-|].
    - rewrite andb_true_r. by destruct (Z.testbit z 11).
    - rewrite andb_false_r. destruct (Z.testbit z 11); [|by rewrite Z.bits_0].
      rewrite Z.pow2_bits_eqb by lia. by apply eq_sym, Z.eqb_neq. }
  assert (Z.testbit z 11 = (2048 <=? z `mod` 4096)) as ->; [|done].
  rewrite Z.testbit_odd, Z.shiftr_div_pow2 by lia. change (2 ^ 11) with 2048.
  pose proof (Z.div_mod z 4096 ltac:(lia)). pose proof (Z.mod_pos_bound z 4096 ltac:(lia)).
  set (q := z `div` 4096) in *. set (r := z `mod` 4096) in *.
  assert (z `div` 2048 = 2 * q + r `div` 2048) as ->.
  { replace z with (2 * q * 2048 + r) by lia. rewrite Z.div_add_l by lia. lia. }
  rewrite Z.odd_add, Z.odd_mul. cbn [Z.odd andb xorb].
  destruct (Z.leb_spec 2048 r).
  - by replace (r `div` 2048) with 1 by (apply Z.div_unique with (r - 2048); lia).
  - by rewrite Z.div_small by lia.
Qed.

Lemma SN_LESS_mod a b : SN_LESS a b = (2048 <=? (a - b) `mod` 4096).
Proof. unfold SN_LESS. rewrite land_800. by destruct (2048 <=? _). Qed.

(** On positions less than half a period apart, [SN_LESS] is the order of the
    positions. *)
Lemma SN_LESS_pos p q : Z.abs (p - q) < 2048 -> SN_LESS (p `mod` 4096) (q `mod` 4096) = (p <? q).
Proof.
  intros H. rewrite SN_LESS_mod. rewrite <- Zminus_mod. destruct (Z.ltb_spec p q).
  - rewrite <- (Z_mod_plus_full (p - q) 1 4096), Z.mod_small by lia. apply Z.leb_le. lia.
  - rewrite Z.mod_small by lia. apply Z.leb_gt. lia.
Qed.

Lemma SN_EQUAL_pos p q : Z.abs (p - q) < 4096 -> SN_EQUAL (p `mod` 4096) (q `mod` 4096) = (p =? q).
Proof.
  intros H. unfold SN_EQUAL. destruct (Z.eqb_spec p q) as [->|Hne]; [by rewrite Z.eqb_refl|].
  apply Z.eqb_neq. intros E.
  assert ((p - q) `mod` 4096 = 0) as Hm by (rewrite Zminus_mod, E, Z.sub_diag; done).
  apply Z.mod_divide in Hm as [k Hk]; [|lia]. lia.
Qed.

Lemma land_FFF z : Z.land z 0xFFF = z `mod` 4096.
Proof. change 0xFFF with (Z.ones 12). by rewrite Z.land_ones. Qed.

(** The position denoted by a sequence number near [i]. *)
Definition pos_of (i s : Z) : Z := i + sdist s (i `mod` 4096).

Lemma pos_of_spec i s : is_sn s -> pos_of i s `mod` 4096 = s /\ i - 2048 <= pos_of i s < i + 2048.
Proof.
  intros Hs. unfold pos_of, sdist, is_sn in *.
  pose proof (Z.div_mod i 4096 ltac:(lia)). pose proof (Z.mod_pos_bound i 4096 ltac:(lia)).
  set (r := i `mod` 4096) in *. set (x := s - r + 2048).
  pose proof (Z.mod_pos_bound x 4096 ltac:(lia)). pose proof (Z.div_mod x 4096 ltac:(lia)).
  split; [|lia].
  replace (i + (x `mod` 4096 - 2048)) with (s + (i `div` 4096 - x `div` 4096) * 4096) by lia.
  rewrite Z_mod_plus_full. by apply Z.mod_small.
Qed.

(** ** The abstract machine on positions *)

(** A frame at position [I] advances the window by one, a frame beyond the window
    drags its end along. *)
Definition advance (I w p : Z) : Z :=
  if p =? I then I + 1 else if I + w <=? p then p + 1 - w else I.

Fixpoint sinsert (p : Z) (ps : list Z) : list Z :=
  match ps with
  | [] => [p]
  | q :: ps => if q <? p then q :: sinsert p ps else p :: q :: ps
  end.

(** Delivers everything before [I] and then the consecutive run from [I]. *)
Fixpoint drain (I : Z) (ps : list Z) : Z * list Z * list Z :=
  match ps with
  | [] => (I, [], [])
  | p :: ps' =>
      if p <=? I then
        let '(I', os, rs) := drain (if p =? I then I + 1 else I) ps' in (I', p :: os, rs)
      else (I, [], ps)
  end.

Definition at_pos (f : rframe) (p : Z) : Prop := seq_num f = p `mod` 4096.

(** The control block [c] holds the frames at positions [ps], all inside the
    window that starts at [I], in order; a non-empty queue has its timer armed. *)
Record rel (c : reorder_ctrl) (I : Z) (ps : list Z) : Prop := {
  rel_iseq : indicate_seq c = I `mod` 4096;
  rel_q : Forall2 at_pos (pending c) ps;
  rel_sorted : StronglySorted Z.lt ps;
  rel_win : Forall (fun p => I < p < I + wsize_b c) ps;
  rel_w : 1 <= wsize_b c <= 255;
  rel_en : enable c = true;
  rel_ack : rec_abba_rsp_ack c = false;
  rel_timer : pending c <> [] -> timer c = true;
  rel_wait : bReorderWaiting c = true -> timer c = true }.

(** ** Simulation lemmas *)

Lemma enqueue_walk_spec f p : at_pos f p -> forall q ps,
  Forall2 at_pos q ps -> StronglySorted Z.lt ps -> Forall (fun x => Z.abs (x - p) < 2048) ps ->
  ((p ∈ ps) /\ enqueue_walk q f = None) \/
  ((p ∉ ps) /\ exists q', enqueue_walk q f = Some q' /\ Forall2 at_pos q' (sinsert p ps) /\
     q' ≡ₚ f :: q /\ StronglySorted Z.lt (sinsert p ps)).
Proof.
  intros Hf q ps H. induction H as [|g x q ps Hg Hq IH]; intros Hs Hd.
  { right. split; [by apply not_elem_of_nil|]. exists [f]. split; [done|].
    split; [by constructor|]. split; [done|]. by constructor. }
  apply StronglySorted_inv in Hs as [Hs Hx]. apply Forall_cons in Hd as [Hxp Hd].
  assert (seq_num g = x `mod` 4096) as Eg by exact Hg.
  assert (seq_num f = p `mod` 4096) as Ef by exact Hf.
  cbn [enqueue_walk sinsert]. rewrite Eg, Ef, SN_LESS_pos, SN_EQUAL_pos by lia.
  destruct (Z.ltb_spec x p) as [Hlt|Hge].
  - destruct (IH Hs Hd) as [[Hin ->]|[Hni (q' & -> & HF & HP & HS)]].
    + left. split; [by right|done].
    + right. split; [apply not_elem_of_cons; split; [lia|done]|].
      exists (g :: q'). split; [done|]. split; [by constructor|].
      split; [rewrite HP; apply Permutation_swap|]. constructor; [done|].
      apply Forall_forall. intros y Hy.
      assert (y = p \/ y ∈ ps) as [->|Hy'].
      { clear -Hy. induction ps as [|z ps IH]; cbn [sinsert] in Hy.
        - apply list_elem_of_singleton in Hy. auto.
        - destruct (z <? p).
          + apply elem_of_cons in Hy as [->|Hy]; [right; left|]. destruct (IH Hy); [auto|by right; right].
          + apply elem_of_cons in Hy as [->|Hy]; auto. }
      * done.
      * eapply Forall_forall in Hx; [|exact Hy']. done.
  - destruct (Z.eqb_spec x p) as [->|Hne].
    { left. split; [left|done]. }
    right. split.
    { apply not_elem_of_cons. split; [done|]. intros Hin.
      eapply Forall_forall in Hx; [|exact Hin]. lia. }
    exists (f :: g :: q). split; [done|]. split; [by repeat constructor|]. split; [done|].
    constructor; [by constructor|]. apply Forall_cons. split; [lia|].
    eapply Forall_impl; [exact Hx|]. intros y Hy. cbn in Hy. lia.
Qed.

Lemma drain_spec ps : forall I,
  StronglySorted Z.lt ps ->
  let '(I', os, rs) := drain I ps in
  os ++ rs = ps /\ I <= I' /\ Forall (fun x => x < I') os /\ Forall (fun x => I' < x) rs.
Proof.
  induction ps as [|p ps IH]; intros I Hs; cbn [drain]; [by split_and!|].
  apply StronglySorted_inv in Hs as [Hs Hp].
  destruct (Z.leb_spec p I).
  - specialize (IH (if p =? I then I + 1 else I) Hs). destruct (drain _ ps) as [[I' os] rs].
    destruct IH as (<- & HI & Ho & Hr). split; [done|].
    destruct (Z.eqb_spec p I); (split; [lia|]); (split; [apply Forall_cons; split; [lia|done]|done]).
  - split; [done|]. split; [done|]. split; [done|]. apply Forall_cons. split; [lia|].
    eapply Forall_impl; [exact Hp|]. intros y Hy. cbn in Hy. lia.
Qed.

Lemma indicate_loop_spec q : forall ps I,
  Forall2 at_pos q ps -> StronglySorted Z.lt ps -> Forall (fun x => Z.abs (x - I) < 2048) ps ->
  let '(I', os, rs) := drain I ps in
  exists out rest, indicate_loop (I `mod` 4096) q = (I' `mod` 4096, out, rest, negb (bool_decide (rest = [])))
    /\ out ++ rest = q /\ Forall2 at_pos out os /\ Forall2 at_pos rest rs.
Proof.
  induction q as [|f q IH]; intros ps I HF Hs Hd; inversion HF as [|? p ? ps' Hf HF']; subst;
    cbn [indicate_loop drain].
  { exists [], []. by split_and!. }
  apply StronglySorted_inv in Hs as [Hs Hp]. apply Forall_cons in Hd as [Hpd Hd].
  assert (seq_num f = p `mod` 4096) as Ef by exact Hf.
  rewrite Ef, SN_LESS_pos, SN_EQUAL_pos by lia.
  destruct (Z.leb_spec p I) as [Hle|Hgt].
  - rewrite (proj2 (Z.ltb_ge I p)) by lia. cbn [negb]. rewrite (Z.eqb_sym I p).
    set (J := if p =? I then I + 1 else I).
    assert ((if p =? I then Z.land (I `mod` 4096 + 1) 0xFFF else I `mod` 4096) = J `mod` 4096) as ->.
    { unfold J. destruct (p =? I); [|done]. by rewrite land_FFF, Zplus_mod_idemp_l. }
    assert (Forall (fun x => Z.abs (x - J) < 2048) ps') as HdJ.
    { unfold J. destruct (Z.eqb_spec p I) as [->|]; [|done].
      apply Forall_forall. intros x Hx. eapply Forall_forall in Hp; [|exact Hx].
      eapply Forall_forall in Hd; [|exact Hx]. cbn in *. lia. }
    specialize (IH ps' J HF' Hs HdJ). destruct (drain J ps') as [[I' os] rs].
    destruct IH as (out & rest & -> & <- & Ho & Hr).
    exists (f :: out), rest. split_and!; try done. by constructor.
  - rewrite (proj2 (Z.ltb_lt I p)) by lia. cbn [negb].
    exists [], (f :: q). split_and!; try done; by constructor.
Qed.

(** The window check on positions. *)
Lemma check_indicate_seq_spec c I ps f :
  rel c I ps -> is_sn (seq_num f) ->
  let p := pos_of I (seq_num f) in
  if p <? I then check_indicate_seq c (seq_num f) = (false, c)
  else exists st, check_indicate_seq c (seq_num f) =
    (true, set_stats st (set_iseq (advance I (wsize_b c) p `mod` 4096) c)).
Proof.
  intros [] Hs p. destruct (pos_of_spec I (seq_num f) Hs) as [Hp Hb]. fold p in Hp, Hb.
  clearbody p. pose proof (Z.mod_pos_bound I 4096 ltac:(lia)). unfold is_sn in Hs.
  assert (SN_LESS (seq_num f) (I `mod` 4096) = (p <? I)) as Hless.
  { rewrite <- Hp. destruct (decide (p = I - 2048)) as [E|]; [|by apply SN_LESS_pos; lia].
    rewrite SN_LESS_mod, <- Zminus_mod. replace (p - I) with (-2048) by lia.
    symmetry. apply Z.ltb_lt. lia. }
  assert (SN_EQUAL (seq_num f) (I `mod` 4096) = (p =? I)) as Heq
    by (rewrite <- Hp; apply SN_EQUAL_pos; lia).
  unfold check_indicate_seq. rewrite rel_iseq0.
  rewrite (proj2 (Z.eqb_neq (I `mod` 4096) 0xFFFF)) by lia. rewrite rel_iseq0, Hless, Heq.
  destruct (Z.ltb_spec p I) as [Hlt|Hge]; [done|].
  assert (SN_LESS ((I + (wsize_b c - 1)) `mod` 4096) (seq_num f) = (I + (wsize_b c - 1) <? p)) as Hend
    by (rewrite <- Hp; apply SN_LESS_pos; lia).
  unfold advance. destruct (Z.eqb_spec p I) as [->|Hne].
  { exists (stats c). rewrite land_FFF, Zplus_mod_idemp_l. done. }
  rewrite land_FFF. replace (I `mod` 4096 + wsize_b c - 1) with (I `mod` 4096 + (wsize_b c - 1)) by lia.
  rewrite Zplus_mod_idemp_l, Hend.
  destruct (Z.ltb_spec (I + (wsize_b c - 1)) p) as [Hout|Hin].
  - rewrite (proj2 (Z.leb_le (I + wsize_b c) p)) by lia.
    exists (inc_window_shift (stats c)).
    assert ((if wsize_b c - 1 <=? seq_num f then u16 (seq_num f + 1 - wsize_b c)
             else u16 (0xFFF - (wsize_b c - (seq_num f + 1)) + 1)) =
            (p + 1 - wsize_b c) `mod` 4096) as ->; [|done].
    replace (p + 1 - wsize_b c) with (p + (1 - wsize_b c)) by lia.
    rewrite <- Zplus_mod_idemp_l, Hp.
    destruct (Z.leb_spec (wsize_b c - 1) (seq_num f)).
    + rewrite wrap_small by (unfold fits; lia). rewrite Z.mod_small by lia. lia.
    + rewrite wrap_small by (unfold fits; lia).
      rewrite <- (Z_mod_plus_full _ 1 4096), Z.mod_small by lia. lia.
  - rewrite (proj2 (Z.leb_gt (I + wsize_b c) p)) by lia.
    exists (stats c). rewrite <- rel_iseq0. by destruct c.
Qed.

Lemma sinsert_elem p ps y : y ∈ sinsert p ps -> y = p \/ y ∈ ps.
Proof.
  induction ps as [|z ps IH]; cbn [sinsert]; intros Hy.
  - apply list_elem_of_singleton in Hy. auto.
  - destruct (z <? p).
    + apply elem_of_cons in Hy as [->|Hy]; [right; left|].
      destruct (IH Hy); [auto|by right; right].
    + apply elem_of_cons in Hy as [->|Hy]; auto.
Qed.

Lemma sorted_app (a b : list Z) :
  StronglySorted Z.lt (a ++ b) <->
  StronglySorted Z.lt a /\ StronglySorted Z.lt b /\ Forall (fun x => Forall (Z.lt x) b) a.
Proof.
  induction a as [|x a IH]; cbn [app].
  { split; [|by intros (_ & ? & _)]. intros. split; [constructor|]. by split. }
  split.
  - intros [Hs Hx]%StronglySorted_inv. apply Forall_app in Hx as [Hxa Hxb].
    apply IH in Hs as (Ha & Hb & Hab). split; [by constructor|]. split; [done|]. by constructor.
  - intros ([Ha Hxa]%StronglySorted_inv & Hb & [Hxb Hab]%Forall_cons).
    constructor; [by apply IH|]. by apply Forall_app.
Qed.

(** The indication loop on a related control block. *)
Lemma in_order_spec c I ps w :
  indicate_seq c = I `mod` 4096 -> Forall2 at_pos (pending c) ps -> StronglySorted Z.lt ps ->
  Forall (fun x => Z.abs (x - I) < 2048 /\ x < I + w) ps ->
  let '(I', os, rs) := drain I ps in
  exists out rest,
    recv_indicatepkts_in_order c false =
      (negb (bool_decide (rest = [])), out, set_pending rest (set_iseq (I' `mod` 4096) c)) /\
    out ++ rest = pending c /\ Forall2 at_pos out os /\ Forall2 at_pos rest rs /\
    StronglySorted Z.lt rs /\ Forall (fun x => I' < x < I' + w) rs.
Proof.
  intros Hi Hq Hs Hd.
  pose proof (indicate_loop_spec (pending c) ps I Hq Hs) as Hl.
  pose proof (drain_spec ps I Hs) as Hdr.
  destruct (drain I ps) as [[I' os] rs]. destruct Hdr as (E & HI & Ho & Hr).
  destruct Hl as (out & rest & El & Hout & Fo & Fr).
  { eapply Forall_impl; [exact Hd|]. by intros x []. }
  exists out, rest. unfold recv_indicatepkts_in_order. rewrite Hi, El.
  split_and!; try done.
  - rewrite <- E in Hs. by apply sorted_app in Hs as (_ & ? & _).
  - apply Forall_forall. intros x Hx. eapply Forall_forall in Hr; [|exact Hx].
    eapply Forall_forall in Hd; [|rewrite <- E; apply elem_of_app; right; exact Hx].
    cbn in *. lia.
Qed.

(** What one received frame does, on positions. *)
Definition frame_outcome (c : reorder_ctrl) (I : Z) (ps : list Z) (f : rframe) (p : Z)
    (r : Z * list rframe * reorder_ctrl) : Prop :=
  if p <? I then r = (_FAIL, [], set_stats (inc_ampdu_drop (stats c)) c)
  else if bool_decide (p ∈ ps) then exists st, r = (_FAIL, [], set_stats st c)
  else let '(I', os, rs) := drain (advance I (wsize_b c) p) (sinsert p ps) in
       exists out c', r = (RTW_RX_HANDLED, out, c') /\ rel c' I' rs /\ Forall2 at_pos out os /\
         out ++ pending c' ≡ₚ f :: pending c /\ wsize_b c' = wsize_b c.

Lemma reorder_frame c I ps f :
  rel c I ps -> is_sn (seq_num f) ->
  frame_outcome c I ps f (pos_of I (seq_num f)) (recv_indicatepkt_reorder c true f).
Proof.
  intros Hrel Hs. pose proof (check_indicate_seq_spec c I ps f Hrel Hs) as Hc. cbn zeta in Hc.
  destruct (pos_of_spec I (seq_num f) Hs) as [Hp Hb].
  set (p := pos_of I (seq_num f)) in *. clearbody p. unfold frame_outcome.
  pose proof Hrel as [Ri Rq Rs Rw Rb Re Ra Rt Rwt].
  unfold recv_indicatepkt_reorder. rewrite Re, Ra. cbn [negb orb].
  destruct (Z.ltb_spec p I) as [Hlt|Hge]; [by rewrite Hc|].
  destruct Hc as (st & ->). cbn [negb].
  assert (Forall (fun x => Z.abs (x - p) < 2048) ps) as Hd.
  { eapply Forall_impl; [exact Rw|]. intros x Hx. cbn in Hx. lia. }
  unfold enqueue_reorder_recvframe.
  change (pending (set_stats st _)) with (pending c).
  destruct (enqueue_walk_spec f p (eq_sym Hp) (pending c) ps Rq Rs Hd)
    as [[Hin ->]|[Hni (q' & -> & Fq & Pq & Sq)]].
  { rewrite bool_decide_eq_true_2 by done. cbn [negb].
    assert (advance I (wsize_b c) p = I) as ->.
    { eapply Forall_forall in Rw; [|exact Hin]. unfold advance. cbn in Rw.
      rewrite (proj2 (Z.eqb_neq _ _)), (proj2 (Z.leb_gt _ _)) by lia. done. }
    exists st. rewrite <- Ri. by destruct c. }
  rewrite bool_decide_eq_false_2 by done. cbn [negb].
  set (J := advance I (wsize_b c) p).
  assert (I <= J <= I + 2048 /\ p < J + wsize_b c /\ Z.abs (p - J) < 2048) as (HJ & HpJ & HpJ').
  { unfold J, advance. destruct (Z.eqb_spec p I); [lia|].
    destruct (Z.leb_spec (I + wsize_b c) p); lia. }
  assert (J <= p + 1) as HJp.
  { unfold J, advance. destruct (Z.eqb_spec p I); [lia|].
    destruct (Z.leb_spec (I + wsize_b c) p); lia. }
  set (c1 := set_pending q' _).
  pose proof (in_order_spec c1 J (sinsert p ps) (wsize_b c) eq_refl Fq Sq) as Hio.
  destruct (drain J (sinsert p ps)) as [[I' os] rs].
  destruct Hio as (out & rest & -> & Hout & Fo & Fr & Sr & Wr).
  { apply Forall_forall. intros y [->|Hy]%sinsert_elem; [lia|].
    eapply Forall_forall in Rw; [|exact Hy]. cbn in Rw. lia. }
  change (pending c1) with q' in Hout.
  destruct rest as [|g rest].
  - cbn [bool_decide negb]. rewrite bool_decide_eq_true_2 by done. cbn [negb].
    eexists out, _. split; [done|]. split; [|split; [done|]].
    + split; cbn; try done.
    + cbn. split; [|done]. rewrite Hout. by rewrite Pq.
  - rewrite bool_decide_eq_false_2 by done. cbn [negb bReorderWaiting set_pending set_iseq c1 set_stats].
    eexists out, _. split; [done|].
    destruct (bReorderWaiting c) eqn:Ew; cbn.
    + split; [|split; [done|split; [rewrite Hout; by rewrite Pq|done]]].
      split; cbn; try done; intros; by apply Rwt.
    + split; [|split; [done|split; [rewrite Hout; by rewrite Pq|done]]].
      split; cbn; done.
Qed.

(** C1: refinement of the reordering buffer: a frame whose sequence number lies
    behind the window is rejected, a duplicate of a buffered frame is rejected
    without effect on the buffer, and any other frame is inserted at its
    position, moves the window as the block-ack rules say, and everything before
    the window plus the consecutive run from its start is delivered in order;
    no frame is lost or duplicated, and while frames wait the timer is armed. *)
Theorem recv_indicatepkt_reorder_refines c I ps f :
  rel c I ps -> is_sn (seq_num f) ->
  let p := pos_of I (seq_num f) in
  (p < I -> exists st, recv_indicatepkt_reorder c true f = (_FAIL, [], set_stats st c)) /\
  (p ∈ ps -> exists st, recv_indicatepkt_reorder c true f = (_FAIL, [], set_stats st c)) /\
  (I <= p -> p ∉ ps ->
     let '(I', os, rs) := drain (advance I (wsize_b c) p) (sinsert p ps) in
     exists out c', recv_indicatepkt_reorder c true f = (RTW_RX_HANDLED, out, c') /\
       rel c' I' rs /\ Forall2 at_pos out os /\ out ++ pending c' ≡ₚ f :: pending c).
Proof.
  intros Hrel Hs p. pose proof (reorder_frame c I ps f Hrel Hs) as H. unfold frame_outcome in H.
  fold p in H. split_and!.
  - intros Hlt. rewrite (proj2 (Z.ltb_lt p I)) in H by lia. by eexists.
  - intros Hin. pose proof (rel_win _ _ _ Hrel) as Rw.
    eapply Forall_forall in Rw; [|exact Hin]. cbn in Rw.
    rewrite (proj2 (Z.ltb_ge p I)) in H by lia. by rewrite bool_decide_eq_true_2 in H by done.
  - intros Hge Hni. rewrite (proj2 (Z.ltb_ge p I)) in H by lia.
    rewrite bool_decide_eq_false_2 in H by done.
    destruct (drain _ _) as [[I' os] rs]. destruct H as (out & c' & ? & ? & ? & ? & _).
    by exists out, c'.
Qed.

(** A control block that waits for frame 4095 with frame 1 (position 4097)
    buffered. *)
Definition ex_ctrl : reorder_ctrl :=
  ReorderCtrl true 4095 64 [RFrame 7 1] true false true (RxStats 0 0 0 0 0).

Lemma ex_ctrl_rel : rel ex_ctrl 4095 [4097].
Proof.
  split; try done.
  - apply Forall2_cons. split; [done|constructor].
  - by repeat constructor.
  - apply Forall_singleton. cbn. lia.
Qed.

Lemma recv_indicatepkt_reorder_refines_witness :
  let f := RFrame 8 0 in
  let p := pos_of 4095 (seq_num f) in
  (p < 4095 -> exists st, recv_indicatepkt_reorder ex_ctrl true f = (_FAIL, [], set_stats st ex_ctrl)) /\
  (p ∈ [4097] -> exists st, recv_indicatepkt_reorder ex_ctrl true f = (_FAIL, [], set_stats st ex_ctrl)) /\
  (4095 <= p -> p ∉ [4097] ->
     let '(I', os, rs) := drain (advance 4095 64 p) (sinsert p [4097]) in
     exists out c', recv_indicatepkt_reorder ex_ctrl true f = (RTW_RX_HANDLED, out, c') /\
       rel c' I' rs /\ Forall2 at_pos out os /\ out ++ pending c' ≡ₚ f :: pending ex_ctrl).
Proof.
  apply (recv_indicatepkt_reorder_refines ex_ctrl 4095 [4097] (RFrame 8 0));
    [apply ex_ctrl_rel|unfold is_sn; cbn; lia].
Defined.

(** What the reordering timer does, on positions. *)
Lemma reorder_timeout c I ps :
  rel c I ps ->
  let '(out, c') := rtw_reordering_ctrl_timeout_handler c in
  match ps with
  | [] => out = [] /\ rel c' I [] /\ timer c' = true /\ pending c' = []
  | x :: _ =>
      let '(I', os, rs) := drain x ps in
      rel c' I' rs /\ Forall2 at_pos out os /\ out <> [] /\ out ++ pending c' = pending c /\
      loss_count (stats c') = u64 (loss_count (stats c) + (x - I))
  end /\ wsize_b c' = wsize_b c.
Proof.
  intros [Ri Rq Rs Rw Rb Re Ra Rt Rwt]. unfold rtw_reordering_ctrl_timeout_handler.
  destruct ps as [|x ps].
  { apply Forall2_nil_inv_r in Rq. unfold recv_indicatepkts_in_order. cbn [set_waiting pending].
    cbn [set_stats pending set_waiting]. rewrite Rq. cbn [bReorderWaiting set_waiting set_stats].
    split; [|done]. split; [done|]. split; [|done]. split; cbn; try done. rewrite Rq. done. }
  apply Forall2_cons_inv_r in Rq as (f & q & Hf & Hq & Ep).
  assert (seq_num f = x `mod` 4096) as Ef by exact Hf.
  unfold recv_indicatepkts_in_order. cbn [set_waiting set_stats pending]. rewrite Ep.
  set (st := recv_indicatepkts_pkt_loss_cnt _ _ _).
  set (c1 := set_iseq (seq_num f) _).
  apply Forall_cons in Rw as [Rx Rw]. apply StronglySorted_inv in Rs as [Rs Rxs].
  pose proof (in_order_spec c1 x (x :: ps) (wsize_b c)) as Hio.
  assert (loss_count st = u64 (loss_count (stats c) + (x - I))) as Hloss.
  { unfold st, recv_indicatepkts_pkt_loss_cnt. cbn [loss_count indicate_seq set_waiting set_stats stats inc_forced].
    rewrite Ri, Ef. f_equal. f_equal.
    pose proof (Z.div_mod x 4096 ltac:(lia)). pose proof (Z.mod_pos_bound x 4096 ltac:(lia)).
    pose proof (Z.div_mod I 4096 ltac:(lia)). pose proof (Z.mod_pos_bound I 4096 ltac:(lia)).
    destruct (Z.ltb_spec (x `mod` 4096) (I `mod` 4096));
      rewrite wrap_small by (unfold fits; lia); lia. }
  destruct (drain x (x :: ps)) as [[I' os] rs] eqn:Ed.
  destruct Hio as (out & rest & Eio & Hout & Fo & Fr & Sr & Wr).
  { done. }
  { cbn. rewrite Ep. by constructor. }
  { by constructor. }
  { apply Forall_cons. split; [lia|]. apply Forall_forall. intros y Hy.
    eapply Forall_forall in Rw; [|exact Hy]. eapply Forall_forall in Rxs; [|exact Hy]. cbn in *. lia. }
  unfold recv_indicatepkts_in_order in Eio. cbv zeta beta in Eio. cbv zeta beta.
  change (pending c1) with (pending c) in *.
  rewrite Eio. cbn [bReorderWaiting set_pending set_iseq c1 set_stats set_waiting].
  assert (out <> []) as Hne.
  { intros ->. inversion Fo; subst. cbn [drain] in Ed.
    rewrite Z.leb_refl, Z.eqb_refl in Ed. destruct (drain (x + 1) ps) as [[? ?] ?]. done. }
  split.
  - split; [|split; [exact Fo|split; [exact Hne|split]]].
    + destruct rest as [|g rest]; cbn; split; cbn; done.
    + destruct rest as [|g rest]; rewrite <- Ep; exact Hout.
    + destruct rest as [|g rest]; exact Hloss.
  - destruct rest; done.
Qed.

(** C37: progress of the reordering timer: when frames wait behind a gap, the
    handler gives the gap up, adds exactly its size to the loss counter, and
    delivers at least one frame, keeping order and the remaining frames; and
    when nothing waits it delivers nothing but arms the timer again. *)
Theorem reordering_timeout_progress c I ps :
  rel c I ps ->
  let '(out, c') := rtw_reordering_ctrl_timeout_handler c in
  (forall x ps', ps = x :: ps' ->
     exists I' os rs, drain x ps = (I', os, rs) /\ rel c' I' rs /\ Forall2 at_pos out os /\
       out ++ pending c' = pending c /\ (length (pending c') < length (pending c))%nat /\
       loss_count (stats c') = u64 (loss_count (stats c) + (x - I))) /\
  (ps = [] -> out = [] /\ pending c' = [] /\ timer c' = true).
Proof.
  intros Hrel. pose proof (reorder_timeout c I ps Hrel) as H.
  destruct (rtw_reordering_ctrl_timeout_handler c) as [out c']. destruct H as [H _]. split.
  - intros x ps' ->. destruct (drain x (x :: ps')) as [[I' os] rs].
    destruct H as (Hr & Fo & Hne & Hout & Hl). exists I', os, rs. split_and!; try done.
    rewrite <- Hout, length_app. destruct out; [done|simpl; lia].
  - intros ->. destruct H as (-> & _ & ? & ?). done.
Qed.

Lemma reordering_timeout_progress_witness :
  let '(out, c') := rtw_reordering_ctrl_timeout_handler ex_ctrl in
  (forall x ps', [4097] = x :: ps' ->
     exists I' os rs, drain x [4097] = (I', os, rs) /\ rel c' I' rs /\ Forall2 at_pos out os /\
       out ++ pending c' = pending ex_ctrl /\ (length (pending c') < length (pending ex_ctrl))%nat /\
       loss_count (stats c') = u64 (loss_count (stats ex_ctrl) + (x - 4095))) /\
  ([4097] = [] -> out = [] /\ pending c' = [] /\ timer c' = true).
Proof. apply (reordering_timeout_progress ex_ctrl 4095 [4097]). apply ex_ctrl_rel. Defined.

(** ** Whole runs *)

(** What can happen to the buffer of one TID. *)
Inductive event := EvFrame (f : rframe) | EvTimeout.

Definition step (c : reorder_ctrl) (e : event) : list rframe * reorder_ctrl :=
  match e with
  | EvFrame f => let '(_, out, c) := recv_indicatepkt_reorder c true f in (out, c)
  | EvTimeout => rtw_reordering_ctrl_timeout_handler c
  end.

Fixpoint run (c : reorder_ctrl) (evs : list event) : list rframe * reorder_ctrl :=
  match evs with
  | [] => ([], c)
  | e :: evs =>
      let '(out, c) := step c e in
      let '(out', c) := run c evs in
      (out ++ out', c)
  end.



Definition frame_at (p : Z) : rframe := RFrame p (p `mod` 4096).









Lemma frames_named ps : Forall (fun f => f = frame_at (rf_id f)) (map frame_at ps).
Proof. by apply Forall_map, Forall_true. Qed.






















End Reorder.
