(* ===== verification/Recv.v ===== *)
(** * Receive path: duplicates, replays, defragmentation and the TKIP MIC

    Module [Decache] models the duplicate and replay checks [recv_decache],
    [recv_ucast_pn_decache] and [recv_bcast_pn_decache] of [core/rtw_recv.c];
    module [Defrag] models [recvframe_defrag], [recvframe_chkmic] and
    [recvframe_chk_defrag], with the buffer primitives [recvframe_pull],
    [recvframe_pull_tail] and [recvframe_put] of [include/rtw_recv.h]. *)
From S2P Require Import Prelude Michael Tkip.

Definition _FAIL : Z := 0.
Definition _SUCCESS : Z := 1.
Definition _AES_ : Z := 4.

(** [le64_to_cpu] of the eight bytes at offset [i]. *)
Fixpoint le_val (l : list Z) : Z :=
  match l with
  | [] => 0
  | x :: l => x + 2 ^ 8 * le_val l
  end.
Definition get_le64 (b : list Z) (i : Z) : res Z := l ← slice b i 8; Ret (le_val l).

Definition CCMPH_2_PN (ch : Z) : Z :=
  Z.lor (Z.land ch 0x000000000000ffff) (Z.shiftr (Z.land ch 0xffffffff00000000) 16).
Definition CCMPH_2_KEYID (ch : Z) : Z := Z.shiftr (Z.land ch 0x00000000c0000000) 30.

(** ** Duplicate and replay detection *)

Module Decache.

(** [PN_LESS_CHK] and [VALID_PN_CHK] on [u64]. *)
Definition PN_LESS_CHK (a b : Z) : bool := negb (Z.land (u64 (a - b)) 0x800000000000 =? 0).
Definition VALID_PN_CHK (new old : Z) : bool := (old =? 0) || PN_LESS_CHK old new.

(** The receive sequence cache of a station. *)
Record sta_recv := StaRecv {
  tid_rxseq : list Z; bmc_tid_rxseq : list Z; nonqos_rxseq : Z; nonqos_bmc_rxseq : Z;
  duplicate_cnt : Z }.

Definition seq_ctrl (seq_num frag_num : Z) : Z :=
  u16 (Z.lor (Z.shiftl (Z.land seq_num 0xffff) 4) (Z.land frag_num 0xf)).

(** [*prxseq] for the frame's class. *)
Definition get_rxseq (s : sta_recv) (qos mcast : bool) (tid : Z) : res Z :=
  if qos then if mcast then rd (bmc_tid_rxseq s) tid else rd (tid_rxseq s) tid
  else if mcast then Ret (nonqos_bmc_rxseq s) else Ret (nonqos_rxseq s).

(** [*prxseq = v]. *)
Definition set_rxseq (s : sta_recv) (qos mcast : bool) (tid v : Z) : res sta_recv :=
  if qos then
    if mcast
    then l ← wr (bmc_tid_rxseq s) tid v;
         Ret (StaRecv (tid_rxseq s) l (nonqos_rxseq s) (nonqos_bmc_rxseq s) (duplicate_cnt s))
    else l ← wr (tid_rxseq s) tid v;
         Ret (StaRecv l (bmc_tid_rxseq s) (nonqos_rxseq s) (nonqos_bmc_rxseq s) (duplicate_cnt s))
  else if mcast
  then Ret (StaRecv (tid_rxseq s) (bmc_tid_rxseq s) (nonqos_rxseq s) v (duplicate_cnt s))
  else Ret (StaRecv (tid_rxseq s) (bmc_tid_rxseq s) v (nonqos_bmc_rxseq s) (duplicate_cnt s)).

Definition recv_decache (s : sta_recv) (tid : Z) (qos mcast : bool) (seq_num frag_num : Z)
  : res (Z * sta_recv) :=
  let sc := seq_ctrl seq_num frag_num in
  if 15 <? tid then Ret (_FAIL, s)
  else
    old ← get_rxseq s qos mcast tid;
    if sc =? old
    then Ret (_FAIL, StaRecv (tid_rxseq s) (bmc_tid_rxseq s) (nonqos_rxseq s) (nonqos_bmc_rxseq s)
                       (u32 (duplicate_cnt s + 1)))
    else s ← set_rxseq s qos mcast tid sc; Ret (_SUCCESS, s).

(** [recv_ucast_pn_decache]: [iv] is [rxcache.iv], each [u8[8]] cell taken as its
    little-endian value; the result is the status, [iv] and [last_tid]. *)
Definition recv_ucast_pn_decache (iv : list Z) (last_tid tid encrypt : Z) (pdata : list Z) (hdrlen : Z)
  : res (Z * list Z * Z) :=
  if 15 <? tid then Ret (_FAIL, iv, last_tid)
  else if encrypt =? _AES_ then
    h ← get_le64 pdata hdrlen;
    c ← rd iv tid;
    if negb (VALID_PN_CHK (CCMPH_2_PN h) (CCMPH_2_PN c)) then Ret (_SUCCESS, iv, last_tid)
    else iv ← wr iv tid h; Ret (_SUCCESS, iv, tid)
  else Ret (_SUCCESS, iv, last_tid).

(** [recv_bcast_pn_decache]: [iv_seq] is the per-key replay counter of
    [security_priv], each cell taken as its little-endian value. *)
Definition recv_bcast_pn_decache (iv_seq : list Z) (station : bool) (encrypt : Z) (pdata : list Z)
    (hdrlen : Z) : res (Z * list Z) :=
  if (encrypt =? _AES_) && station then
    h ← get_le64 pdata hdrlen;
    let key_id := CCMPH_2_KEYID h in
    let pkt_pn := CCMPH_2_PN h in
    c ← rd iv_seq key_id;
    let curr_pn := Z.land c 0x0000ffffffffffff in
    if negb (VALID_PN_CHK pkt_pn curr_pn) then Ret (_FAIL, iv_seq)
    else iv_seq ← wr iv_seq key_id pkt_pn; Ret (_SUCCESS, iv_seq)
  else Ret (_SUCCESS, iv_seq).

(** *** Properties *)

Definition sta_ok (s : sta_recv) : Prop := zlen (tid_rxseq s) = 16 /\ zlen (bmc_tid_rxseq s) = 16.

Lemma get_set_rxseq s qos mcast tid v :
  sta_ok s -> 0 <= tid <= 15 ->
  exists s', set_rxseq s qos mcast tid v = Ret s' /\ sta_ok s' /\
    get_rxseq s' qos mcast tid = Ret v /\
    forall qos' mcast' tid', (qos', mcast') <> (qos, mcast) \/ (qos = true /\ tid' <> tid) ->
      0 <= tid' -> get_rxseq s' qos' mcast' tid' = get_rxseq s qos' mcast' tid'.
Proof.
  intros [H1 H2] Ht.
  assert (forall (l : list Z) j, zlen l = 16 -> 0 <= j -> j <> tid ->
    rd (<[Z.to_nat tid := v]> l) j = rd l j) as Hother.
  { intros l j Hl Hj Hne. unfold rd. rewrite (proj2 (Z.leb_le 0 j)) by lia.
    by rewrite list_lookup_insert_ne by lia. }
  assert (forall l : list Z, zlen l = 16 -> rd (<[Z.to_nat tid := v]> l) tid = Ret v) as Hsame.
  { intros l Hl. apply rd_Ret. split; [lia|]. apply list_lookup_insert_eq. unfold zlen in Hl. lia. }
  destruct qos, mcast; unfold set_rxseq; rewrite ?wr_Ret by lia; simp_res;
    (eexists; split; [done|]; split; [split; cbn; unfold zlen in *; rewrite ?length_insert; done|]);
    (split; [cbn; first [by apply Hsame|done]|]);
    intros q m t Hd Hpos; destruct q, m; cbn; try done; 
      try (apply Hother; [done|done|destruct Hd as [Hd|[_ Hd]]; [by destruct Hd|done]]);
    destruct Hd as [Hd|[? Hd]]; done.
Qed.

(** Duplicate detection: for a frame of any class, [recv_decache] fails
    exactly when the class's cached sequence control equals the frame's, a
    retransmission right behind an accepted frame is always rejected, and the
    caches of the other classes and TIDs are not touched. *)
Theorem recv_decache_dup s tid qos mcast seq_num frag_num :
  sta_ok s -> 0 <= tid <= 15 ->
  exists old ret s', get_rxseq s qos mcast tid = Ret old /\
    recv_decache s tid qos mcast seq_num frag_num = Ret (ret, s') /\
    (ret = _FAIL <-> old = seq_ctrl seq_num frag_num) /\ sta_ok s' /\
    (exists s'', recv_decache s' tid qos mcast seq_num frag_num = Ret (_FAIL, s'')) /\
    forall qos' mcast' tid', (qos', mcast') <> (qos, mcast) \/ (qos = true /\ tid' <> tid) ->
      0 <= tid' -> get_rxseq s' qos' mcast' tid' = get_rxseq s qos' mcast' tid'.
Proof.
  intros Hs Ht.
  assert (exists old, get_rxseq s qos mcast tid = Ret old) as [old Hold].
  { destruct Hs as [H1 H2]. unfold get_rxseq. destruct qos, mcast; try by eexists.
    - destruct (rd_in (bmc_tid_rxseq s) tid) as (x & ? & _); [lia|by eexists].
    - destruct (rd_in (tid_rxseq s) tid) as (x & ? & _); [lia|by eexists]. }
  exists old. unfold recv_decache. rewrite (proj2 (Z.ltb_ge 15 tid)) by lia. rewrite Hold. simp_res.
  set (sc := seq_ctrl seq_num frag_num).
  destruct (Z.eqb_spec sc old) as [E|E].
  - eexists _, _. split; [done|]. split; [done|]. split; [done|]. split; [done|]. split.
    + assert (forall d, get_rxseq (StaRecv (tid_rxseq s) (bmc_tid_rxseq s) (nonqos_rxseq s)
                (nonqos_bmc_rxseq s) d) qos mcast tid = Ret old) as -> by (intros; exact Hold).
      simp_res. rewrite E, Z.eqb_refl. by eexists.
    + intros q m t _ _. by destruct q, m.
  - destruct (get_set_rxseq s qos mcast tid sc Hs Ht) as (s' & -> & Hs' & Hg & Ho). simp_res.
    eexists _, _. split; [done|]. split; [done|]. split; [split; [done|intros <-; done]|].
    split; [done|]. split; [|done]. rewrite Hg. simp_res. rewrite Z.eqb_refl. by eexists.
Qed.

Lemma recv_decache_dup_witness :
  let s := StaRecv (replicate 16 0xffff) (replicate 16 0xffff) 0xffff 0xffff 0 in
  exists old ret s', get_rxseq s true false 3 = Ret old /\
    recv_decache s 3 true false 100 0 = Ret (ret, s') /\
    (ret = _FAIL <-> old = seq_ctrl 100 0) /\ sta_ok s' /\
    (exists s'', recv_decache s' 3 true false 100 0 = Ret (_FAIL, s'')) /\
    forall qos' mcast' tid', (qos', mcast') <> (true, false) \/ (true = true /\ tid' <> 3) ->
      0 <= tid' -> get_rxseq s' qos' mcast' tid' = get_rxseq s qos' mcast' tid'.
Proof.
  apply (recv_decache_dup (StaRecv (replicate 16 0xffff) (replicate 16 0xffff) 0xffff 0xffff 0)
           3 true false 100 0); [split; reflexivity|lia].
Defined.

(** [VALID_PN_CHK] on 48-bit packet numbers. *)
Lemma VALID_PN_CHK_spec new old :
  fits 48 new -> fits 48 old -> Z.abs (new - old) < 2 ^ 47 ->
  VALID_PN_CHK new old = (old =? 0) || (old <? new).
Proof.
  intros Hn Ho Hd. unfold VALID_PN_CHK. f_equal. unfold PN_LESS_CHK.
  assert (Z.land (u64 (old - new)) 0x800000000000 = if Z.testbit (old - new) 47 then 2 ^ 47 else 0) as ->.
  { change 0x800000000000 with (2 ^ 47). zbits. rewrite Z.pow2_bits_eqb by lia.
    destruct (Z.eqb_spec 47 i) as [<-|].
    - cbn [Z.ltb Z.compare Pos.compare Pos.compare_cont]. rewrite andb_true_r.
      by destruct (Z.testbit (old - new) 47).
    - rewrite andb_false_r. destruct (Z.testbit _ 47); [|by rewrite Z.bits_0].
      rewrite Z.pow2_bits_eqb by lia. by apply eq_sym, Z.eqb_neq. }
  assert (Z.testbit (old - new) 47 = (old <? new)) as ->; [|by destruct (old <? new)].
  unfold fits in *. rewrite Z.testbit_odd, Z.shiftr_div_pow2 by lia.
  destruct (Z.ltb_spec old new).
  - replace ((old - new) `div` 2 ^ 47) with (-1) by (apply Z.div_unique with (old - new + 2 ^ 47); lia). done.
  - rewrite Z.div_small by lia. done.
Qed.

Lemma CCMPH_2_PN_fits h : is_u64 h -> fits 48 (CCMPH_2_PN h).
Proof.
  intros Hh. unfold CCMPH_2_PN. apply lor_fits; [lia|..].
  - assert (fits 16 (Z.land h 0xffff)) as H by (apply land_fits_r; [lia|done]).
    unfold fits in *. lia.
  - assert (is_u64 (Z.land h 0xffffffff00000000)) as H by (apply land_fits_l; [lia|done]).
    unfold fits in *. rewrite Z.shiftr_div_pow2 by lia. split.
    + apply Z.div_pos; lia.
    + apply Z.div_lt_upper_bound; lia.
Qed.

Lemma CCMPH_2_KEYID_fits h : is_u64 h -> 0 <= CCMPH_2_KEYID h < 4.
Proof.
  intros Hh. unfold CCMPH_2_KEYID.
  assert (fits 32 (Z.land h 0xc0000000)) as H by (apply land_fits_r; [lia|done]).
  unfold fits in H. rewrite Z.shiftr_div_pow2 by lia. split.
  - apply Z.div_pos; lia.
  - apply Z.div_lt_upper_bound; lia.
Qed.

(** Group replay protection at a station: for a CCMP protected group frame,
    the check never leaves the counter table, and as long as the packet number
    is within half the 48-bit space of the stored one it accepts exactly when
    nothing was stored or the number is larger; accepting stores the number
    under the frame's key and nothing else, rejecting changes nothing. *)
Theorem recv_bcast_pn_replay iv_seq pdata hdrlen h old :
  zlen iv_seq = 4 -> get_le64 pdata hdrlen = Ret h -> is_u64 h ->
  rd iv_seq (CCMPH_2_KEYID h) = Ret old -> fits 48 old -> Z.abs (CCMPH_2_PN h - old) < 2 ^ 47 ->
  let ok := (old =? 0) || (old <? CCMPH_2_PN h) in
  recv_bcast_pn_decache iv_seq true _AES_ pdata hdrlen =
    Ret (if ok then _SUCCESS else _FAIL,
         if ok then <[Z.to_nat (CCMPH_2_KEYID h) := CCMPH_2_PN h]> iv_seq else iv_seq).
Proof.
  intros Hz Hh Bh Hold Bo Hd ok. unfold recv_bcast_pn_decache.
  change ((_AES_ =? _AES_) && true) with true. cbn iota. rewrite Hh. simp_res. rewrite Hold. simp_res.
  assert (Z.land old 0x0000ffffffffffff = old) as ->.
  { change 0x0000ffffffffffff with (Z.ones 48). rewrite Z.land_ones by lia. by apply Z.mod_small. }
  rewrite VALID_PN_CHK_spec by (done || by apply CCMPH_2_PN_fits). fold ok.
  pose proof (CCMPH_2_KEYID_fits h Bh). destruct ok; cbn [negb]; [|done].
  rewrite wr_Ret by lia. done.
Qed.

Lemma recv_bcast_pn_replay_witness :
  recv_bcast_pn_decache [0; 9; 0; 0] true _AES_ [8; 0; 10; 0; 0; 0x60; 0; 0; 0; 0] 2 =
    Ret (_SUCCESS, [0; 10; 0; 0]) /\
  recv_bcast_pn_decache [0; 10; 0; 0] true _AES_ [8; 0; 10; 0; 0; 0x60; 0; 0; 0; 0] 2 =
    Ret (_FAIL, [0; 10; 0; 0]).
Proof.
  split.
  - apply (recv_bcast_pn_replay [0; 9; 0; 0] [8; 0; 10; 0; 0; 0x60; 0; 0; 0; 0] 2 0x6000000a 9);
      [reflexivity|reflexivity|by_eval|reflexivity|by_eval|by_eval].
  - apply (recv_bcast_pn_replay [0; 10; 0; 0] [8; 0; 10; 0; 0; 0x60; 0; 0; 0; 0] 2 0x6000000a 10);
      [reflexivity|reflexivity|by_eval|reflexivity|by_eval|by_eval].
Defined.

End Decache.

(** ** Defragmentation *)

Module Defrag.

(** [struct recv_frame_hdr] and the fields of its [attrib] the path below uses:
    [data] are the bytes from [rx_data] to [rx_tail], [room] is
    [rx_end - rx_tail], [fid] the identity of the frame. *)
Record rhdr := RHdr {
  fid : Z; data : list Z; room : Z; frag_num : Z; mfrag : bool; hdrlen : Z; iv_len : Z; icv_len : Z;
  encrypt : Z; keytrack : Z; ra_mcast : bool;
  privacy : bool; priority : Z; key_index : Z; bdecrypted : bool }.

Definition set_buf (d : list Z) (r : Z) (f : rhdr) : rhdr :=
  RHdr (fid f) d r (frag_num f) (mfrag f) (hdrlen f) (iv_len f) (icv_len f) (encrypt f) (keytrack f)
    (ra_mcast f) (privacy f) (priority f) (key_index f) (bdecrypted f).
Definition set_icv (i : Z) (f : rhdr) : rhdr :=
  RHdr (fid f) (data f) (room f) (frag_num f) (mfrag f) (hdrlen f) (iv_len f) i (encrypt f) (keytrack f)
    (ra_mcast f) (privacy f) (priority f) (key_index f) (bdecrypted f).
Definition set_keytrack (k : Z) (f : rhdr) : rhdr :=
  RHdr (fid f) (data f) (room f) (frag_num f) (mfrag f) (hdrlen f) (iv_len f) (icv_len f) (encrypt f) k
    (ra_mcast f) (privacy f) (priority f) (key_index f) (bdecrypted f).

(** [recvframe_pull]: refused when it would move [rx_data] past [rx_tail]. *)
Definition recvframe_pull (f : rhdr) (sz : Z) : rhdr :=
  if zlen (data f) <? sz then f else set_buf (drop (Z.to_nat sz) (data f)) (room f) f.

(** [recvframe_pull_tail]: refused when it would move [rx_tail] before [rx_data]. *)
Definition recvframe_pull_tail (f : rhdr) (sz : Z) : rhdr :=
  if zlen (data f) <? sz then f
  else set_buf (take (Z.to_nat (zlen (data f) - sz)) (data f)) (room f + sz) f.

(** [memcpy(rx_tail, l, |l|)] followed by [recvframe_put(f, |l|)]: writing behind
    the buffer is out of bounds. *)
Definition append_tail (f : rhdr) (l : list Z) : res rhdr :=
  if room f <? zlen l then Oob else Ret (set_buf (data f ++ l) (room f - zlen l) f).

Definition _GCMP_ : Z := 7.
Definition _CCMP_256_ : Z := 0x14.
Definition _GCMP_256_ : Z := 0x17.

(** The ciphers whose packet numbers must be consecutive. *)
Definition pn_cipher (e : Z) : bool :=
  (e =? _AES_) || (e =? _CCMP_256_) || (e =? _GCMP_) || (e =? _GCMP_256_).

Definition frame_pn (f : rhdr) : res Z := h ← get_le64 (data f) (hdrlen f); Ret (CCMPH_2_PN h).

(** The loop over the second and later fragments; [None] when the frame is
    dropped. *)
Fixpoint defrag_loop (pf : rhdr) (curfragnum cur_pn : Z) (q : list rhdr) : res (option rhdr) :=
  match q with
  | [] => Ret (Some pf)
  | nf :: q =>
      pn ← (if pn_cipher (encrypt nf)
            then p ← frame_pn nf; Ret (if p =? u64 (cur_pn + 1) then Some p else None)
            else Ret (Some cur_pn));
      match pn with
      | None => Ret None
      | Some cur_pn =>
          if negb (keytrack pf =? keytrack nf) then Ret None
          else if negb (curfragnum =? frag_num nf) then Ret None
          else
            let nf := recvframe_pull nf (u8 (hdrlen nf + iv_len nf)) in
            if room pf <? zlen (data nf) then Ret None
            else
              let pf := recvframe_pull_tail pf (icv_len pf) in
              pf ← append_tail pf (data nf);
              defrag_loop (set_icv (icv_len nf) pf) (u8 (curfragnum + 1)) cur_pn q
      end
  end.

(** [recvframe_defrag] on a non-empty queue: the frame returned, and the
    identities of the frames given to [rtw_free_recvframe]. *)
Definition recvframe_defrag (pf : rhdr) (q : list rhdr) : res (option rhdr * list Z) :=
  cur_pn ← (if pn_cipher (encrypt pf) then frame_pn pf else Ret 0);
  if negb (0 =? frag_num pf) then Ret (None, fid pf :: map fid q)
  else
    r ← defrag_loop pf 1 cur_pn q;
    match r with
    | Some f => Ret (Some f, map fid q)
    | None => Ret (None, fid pf :: map fid q)
    end.

(** What [recvframe_chkmic] uses of [security_priv] and [mlme_ext_info]. *)
Record mic_sec := MicSec {
  dot118021XGrprxmickey : list (list Z); binstallGrpkey : bool; bcheck_grpkey : bool;
  mlmeinfo_key_index : Z; cm : Tkip.countermeasure }.

Definition set_cm (c : Tkip.countermeasure) (s : mic_sec) : mic_sec :=
  MicSec (dot118021XGrprxmickey s) (binstallGrpkey s) (bcheck_grpkey s) (mlmeinfo_key_index s) c.
Definition set_bcheck (s : mic_sec) : mic_sec :=
  MicSec (dot118021XGrprxmickey s) (binstallGrpkey s) true (mlmeinfo_key_index s) (cm s).

(** [recvframe_chkmic]; [stainfo] is the [dot11tkiprxmickey] of the transmitter's
    station, if there is one.  [datalen] is an unsigned 32-bit difference. *)
Definition recvframe_chkmic (HZ now : Z) (sec : mic_sec) (stainfo : option (list Z)) (f : rhdr)
  : res (Z * rhdr * mic_sec) :=
  if encrypt f =? Tkip._TKIP_ then
    match stainfo with
    | None => Ret (_SUCCESS, recvframe_pull_tail f 8, sec)
    | Some stakey =>
        if ra_mcast f && negb (binstallGrpkey sec) then Ret (_FAIL, f, sec)
        else
          mickey ← (if ra_mcast f then
                      match dot118021XGrprxmickey sec !! Z.to_nat (key_index f) with
                      | Some k => Ret k
                      | None => Oob
                      end
                    else Ret stakey);
          let datalen := u32 (zlen (data f) - hdrlen f - iv_len f - icv_len f - 8) in
          let payload := drop (Z.to_nat (hdrlen f + iv_len f)) (data f) in
          miccode ← Michael.rtw_seccalctkipmic mickey (data f) payload datalen (priority f);
          pframemic ← slice payload datalen 8;
          if bool_decide (miccode = pframemic) then
            let sec := if negb (bcheck_grpkey sec) && ra_mcast f then set_bcheck sec else sec in
            Ret (_SUCCESS, recvframe_pull_tail f 8, sec)
          else
            let brpt_micerror := negb (ra_mcast f && negb (key_index f =? mlmeinfo_key_index sec)) in
            let sec := if bdecrypted f && brpt_micerror
                       then set_cm (Tkip.rtw_handle_tkip_mic_err HZ now (cm sec)) sec else sec in
            Ret (_FAIL, recvframe_pull_tail f 8, sec)
    end
  else Ret (_SUCCESS, f, sec).

(** [recvframe_chk_defrag] before the MIC check: [sta] is the defragmentation
    queue and key counter of the transmitter's station, [bcmc] those of the
    broadcast station used for frames that are not data.  The result is the
    frame to go on with, the frames freed and the new queue. *)
Definition chk_defrag_queue (sta bcmc : option (list rhdr * Z)) (is_data : bool) (f : rhdr)
  : res (option rhdr * list Z * option (list rhdr)) :=
  let psta := match sta with
              | Some s => Some s
              | None => if is_data then None else bcmc
              end in
  let pdefrag_q := fst <$> psta in
  if negb (mfrag f) && (frag_num f =? 0) then Ret (Some f, [], pdefrag_q)
  else if ra_mcast f then Ret (None, [fid f], pdefrag_q)
  else
    match psta with
    | None => Ret (None, [fid f], None)
    | Some (q, kt) =>
        let f := set_keytrack kt f in
        if mfrag f then
          if frag_num f =? 0 then Ret (None, map fid q, Some [f])
          else Ret (None, [], Some (q ++ [f]))
        else
          match q ++ [f] with
          | [] => Ret (None, [], Some [])
          | pf :: q' => r ← recvframe_defrag pf q'; Ret (r.1, r.2, Some [])
          end
    end.

(** [recvframe_chk_defrag]: a protected frame that comes out of the queue is
    then MIC checked, and freed when the check fails. *)
Definition recvframe_chk_defrag (HZ now : Z) (sec : mic_sec) (stainfo : option (list Z))
    (sta bcmc : option (list rhdr * Z)) (is_data : bool) (f : rhdr)
  : res (option rhdr * list Z * option (list rhdr) * mic_sec) :=
  r ← chk_defrag_queue sta bcmc is_data f;
  match r.1.1 with
  | Some g =>
      if privacy g then
        m ← recvframe_chkmic HZ now sec stainfo g;
        if m.1.1 =? _FAIL then Ret (None, r.1.2 ++ [fid g], r.2, m.2)
        else Ret (Some m.1.2, r.1.2, r.2, m.2)
      else Ret (Some g, r.1.2, r.2, sec)
  | None => Ret (r, sec)
  end.

(** *** Properties *)

(** The bytes a later fragment contributes, and its tail without the ICV. *)
Definition body (f : rhdr) : list Z := drop (Z.to_nat (hdrlen f + iv_len f)) (data f).
Definition chop (n : Z) (l : list Z) : list Z := take (Z.to_nat (zlen l - n)) l.

(** What reassembly must produce: every fragment but the last without its ICV,
    later fragments without header and IV. *)
Fixpoint join (d : list Z) (icv : Z) (q : list rhdr) : list Z :=
  match q with
  | [] => d
  | f :: q => chop icv d ++ join (body f) (icv_len f) q
  end.

(** Fragments numbered from [n] with the key counter of the first one and, for
    the counter mode ciphers, consecutive packet numbers from [pn]. *)
Fixpoint consecutive (kt n pn : Z) (q : list rhdr) : Prop :=
  match q with
  | [] => True
  | f :: q =>
      frag_num f = n /\ keytrack f = kt /\
      exists pn', (if pn_cipher (encrypt f) then frame_pn f = Ret pn' /\ pn' = u64 (pn + 1)
                   else pn' = pn) /\
      consecutive kt (n + 1) pn' q
  end.

(** The bodies fit behind the first fragment, whose free room is [r] and last ICV
    [icv] bytes long; the code compares before it removes the ICV. *)
Fixpoint room_ok (r icv : Z) (q : list rhdr) : Prop :=
  match q with
  | [] => True
  | f :: q => zlen (body f) <= r /\ room_ok (r + icv - zlen (body f)) (icv_len f) q
  end.

(** The fragments [pf :: q] are to be joined. *)
Definition complete (pf : rhdr) (q : list rhdr) : Prop :=
  frag_num pf = 0 /\ room_ok (room pf) (icv_len pf) q /\
  exists pn, (if pn_cipher (encrypt pf) then frame_pn pf = Ret pn else pn = 0) /\
    consecutive (keytrack pf) 1 pn q.

Definition frag_ok (f : rhdr) : Prop :=
  0 <= hdrlen f /\ 0 <= iv_len f /\ 0 <= icv_len f /\ hdrlen f + iv_len f < 256 /\
  hdrlen f + iv_len f + icv_len f <= zlen (data f) /\
  hdrlen f + 8 <= zlen (data f) /\ 0 <= frag_num f <= 15.

Lemma frame_pn_total f : frag_ok f -> exists p, frame_pn f = Ret p.
Proof.
  intros (? & ? & ? & ? & ? & ? & ?). unfold frame_pn, get_le64.
  destruct (slice_total (data f) (hdrlen f) 8) as (l & -> & _); [lia..|]. by eexists.
Qed.

Lemma pull_ok f : frag_ok f ->
  data (recvframe_pull f (u8 (hdrlen f + iv_len f))) = body f /\
  icv_len (recvframe_pull f (u8 (hdrlen f + iv_len f))) = icv_len f.
Proof.
  intros (? & ? & ? & ? & ? & ? & ?). unfold recvframe_pull.
  rewrite wrap_small by (unfold fits; lia). rewrite (proj2 (Z.ltb_ge _ _)) by lia. done.
Qed.

Lemma body_zlen f : frag_ok f -> zlen (body f) = zlen (data f) - (hdrlen f + iv_len f).
Proof. intros (? & ? & ? & ? & ? & ? & ?). unfold body, zlen in *. rewrite length_drop. lia. Qed.

(** Removing the ICV touches only the fragment appended last. *)
Lemma chop_app (d d0 : list Z) icv :
  0 <= icv -> d = d0 ++ drop (length d0) d -> icv <= zlen (drop (length d0) d) ->
  chop icv d = d0 ++ chop icv (drop (length d0) d).
Proof.
  intros H0 Hd Hi. unfold chop. rewrite Hd at 2. rewrite take_app.
  assert (length d = length d0 + length (drop (length d0) d))%nat as Hl.
  { rewrite Hd at 1. by rewrite length_app. }
  rewrite take_ge by (unfold zlen in *; lia). f_equal. f_equal. unfold zlen in *. lia.
Qed.

(** The packet number check of one fragment. *)
Lemma pn_check nf pn : frag_ok nf ->
  exists o, (if pn_cipher (encrypt nf)
             then p ← frame_pn nf; Ret (if p =? u64 (pn + 1) then Some p else None)
             else Ret (Some pn)) = Ret o /\
    forall pn', o = Some pn' <->
      (if pn_cipher (encrypt nf) then frame_pn nf = Ret pn' /\ pn' = u64 (pn + 1) else pn' = pn).
Proof.
  intros Hnf. destruct (pn_cipher (encrypt nf)).
  - destruct (frame_pn_total nf Hnf) as (p & Hp). rewrite Hp. simp_res.
    eexists; split; [done|]. intros pn'. destruct (Z.eqb_spec p (u64 (pn + 1))); split.
    + by intros [= <-].
    + by intros [[= ->] _].
    + done.
    + by intros [[= <-] ?].
  - eexists; split; [done|]. intros pn'. split; [by intros [= ->]|by intros ->].
Qed.

(** The loop on well-formed fragments: it returns a frame exactly when they are
    consecutive and fit, and has then accumulated the joined payloads. *)
Lemma defrag_loop_ok q : forall pf d0 n pn,
  Forall frag_ok q -> 0 <= icv_len pf -> icv_len pf <= zlen (data pf) -> 0 <= n ->
  n + zlen q < 256 -> data pf = d0 ++ drop (length d0) (data pf) ->
  icv_len pf <= zlen (drop (length d0) (data pf)) ->
  exists r, defrag_loop pf n pn q = Ret r /\
    match r with
    | None => ~ (room_ok (room pf) (icv_len pf) q /\ consecutive (keytrack pf) n pn q)
    | Some f => fid f = fid pf /\ room_ok (room pf) (icv_len pf) q /\ consecutive (keytrack pf) n pn q /\
                data f = d0 ++ join (drop (length d0) (data pf)) (icv_len pf) q
    end.
Proof.
  induction q as [|nf q IH]; intros pf d0 n pn Hq Hi0 Hi Hn Hlen Hd Hi2; cbn [defrag_loop].
  { eexists; split; [done|]. cbn. by split_and!. }
  apply Forall_cons in Hq as [Hnf Hq]. pose proof Hnf as (? & ? & ? & ? & ? & ? & ?).
  rewrite zlen_cons in Hlen. pose proof (zlen_nonneg q).
  destruct (pn_check nf pn Hnf) as (o & Eo & Ho). bind_step Eo. clear Eo. cbn [room_ok consecutive].
  destruct o as [pn'|].
  2: { eexists; split; [done|]. intros (_ & _ & _ & pn' & Hp & _). by apply Ho in Hp. }
  destruct (Z.eqb_spec (keytrack pf) (keytrack nf)) as [Hk|]; cbn [negb].
  2: { eexists; split; [done|]. intros (_ & _ & ? & _). congruence. }
  destruct (Z.eqb_spec n (frag_num nf)) as [Hf|]; cbn [negb].
  2: { eexists; split; [done|]. intros (_ & ? & _). congruence. }
  destruct (pull_ok nf Hnf) as [-> ->].
  destruct (Z.ltb_spec (room pf) (zlen (body nf))).
  { eexists; split; [done|]. intros ((? & _) & _). lia. }
  assert (recvframe_pull_tail pf (icv_len pf) =
    set_buf (chop (icv_len pf) (data pf)) (room pf + icv_len pf) pf) as ->.
  { unfold recvframe_pull_tail. by rewrite (proj2 (Z.ltb_ge _ _)) by lia. }
  unfold append_tail. cbn [room set_buf data]. rewrite (proj2 (Z.ltb_ge _ _)) by lia. simp_res.
  set (pf' := set_icv _ _).
  assert (data pf' = chop (icv_len pf) (data pf) ++ body nf) as Hd' by done.
  set (c := chop (icv_len pf) (data pf)) in *.
  assert (drop (length c) (data pf') = body nf) as Hdrop by (by rewrite Hd', drop_app_length).
  pose proof (body_zlen nf Hnf). rewrite wrap_small by (unfold fits; lia).
  destruct (IH pf' c (n + 1) pn') as (r & Hr & Hres).
  - done.
  - cbn. lia.
  - rewrite Hd', zlen_app. cbn [icv_len pf' set_icv]. pose proof (zlen_nonneg c). lia.
  - lia.
  - lia.
  - by rewrite Hdrop.
  - rewrite Hdrop. cbn [icv_len pf' set_icv]. lia.
  - exists r. split; [done|]. cbn [icv_len room keytrack set_icv set_buf pf'] in Hres.
    destruct r as [f|].
    + destruct Hres as (Hfid & Hroom & Hc & Hdata). split_and!; [done|done|done|done|done| |].
      * exists pn'. split; [by apply Ho|done].
      * rewrite Hdata, Hdrop. cbn [join]. rewrite app_assoc. f_equal. by apply chop_app.
    + intros ((_ & Hroom) & _ & _ & pn'' & Hp & Hc). apply Ho in Hp as [= <-]. by apply Hres.
Qed.

Lemma defrag_core pf q :
  frag_ok pf -> Forall frag_ok q -> zlen q < 255 ->
  exists r freed, recvframe_defrag pf q = Ret (r, freed) /\
    match r with
    | Some f => fid f = fid pf /\ freed = map fid q /\ complete pf q /\
                data f = join (data pf) (icv_len pf) q
    | None => freed = fid pf :: map fid q /\ ~ complete pf q
    end.
Proof.
  intros Hpf Hq Hlen. pose proof Hpf as (? & ? & ? & ? & ? & ? & ?). unfold recvframe_defrag, complete.
  assert (exists pn, (if pn_cipher (encrypt pf) then frame_pn pf else Ret 0) = Ret pn /\
    forall pn', (if pn_cipher (encrypt pf) then frame_pn pf = Ret pn' else pn' = 0) <-> pn' = pn)
    as (pn & Epn & Hpn).
  { destruct (pn_cipher (encrypt pf)); [|by exists 0].
    destruct (frame_pn_total pf Hpf) as (p & Hp). exists p. split; [done|]. intros pn'. rewrite Hp.
    split; [by intros [= ->]|by intros ->]. }
  bind_step Epn. destruct (Z.eqb_spec 0 (frag_num pf)) as [Hz0|]; cbn [negb].
  2: { eexists _, _. split; [done|]. split; [done|]. intros (? & _). congruence. }
  destruct (defrag_loop_ok q pf [] 1 pn) as (r & Er & Hr);
    [done|lia|lia|lia|lia|done|change (drop (length []) (data pf)) with (data pf); lia|].
  bind_step Er. destruct r as [f|].
  - destruct Hr as (Hf & Hroom & Hc & Hd). eexists _, _. split; [done|].
    change (data f = join (data pf) (icv_len pf) q) in Hd.
    split_and!; try done. exists pn. split; [by apply Hpn|done].
  - eexists _, _. split; [done|]. split; [done|]. intros (_ & Hroom & pn' & Hp & Hc).
    apply Hpn in Hp as ->. by apply Hr.
Qed.

(** C11: defragmentation: on a queue of well-formed fragments [recvframe_defrag]
    never writes outside the first fragment's buffer; it returns a frame exactly
    when the fragments are numbered from zero, carry the same key counter
    (CVE-2020-24587) and consecutive packet numbers (CVE-2020-26146), and fit
    into that buffer; the frame then holds the first fragment followed by the
    bodies of the others, each but the last without its ICV; every frame of the
    queue is returned or freed, exactly once. *)
Theorem recvframe_defrag_spec pf q :
  frag_ok pf -> Forall frag_ok q -> zlen q < 255 ->
  exists r freed, recvframe_defrag pf q = Ret (r, freed) /\
    match r with
    | Some f => fid f = fid pf /\ freed = map fid q /\ complete pf q /\
                data f = join (data pf) (icv_len pf) q
    | None => freed = fid pf :: map fid q /\ ~ complete pf q
    end.
Proof. apply defrag_core. Qed.

(** The loop never leaves a buffer, whatever the number of the fragments. *)
Lemma defrag_loop_total q : forall pf n pn, Forall frag_ok q -> 0 <= icv_len pf <= zlen (data pf) ->
  exists r, defrag_loop pf n pn q = Ret r /\ forall f, r = Some f -> fid f = fid pf.
Proof.
  induction q as [|nf q IH]; intros pf n pn Hq Hi; cbn [defrag_loop]; [eexists; split; [done|by intros f [= ->]]|].
  apply Forall_cons in Hq as [Hnf Hq]. pose proof Hnf as (? & ? & ? & ? & ? & ? & ?).
  destruct (pn_check nf pn Hnf) as (o & Eo & _). bind_step Eo. destruct o as [pn'|]; [|by eexists].
  destruct (negb (keytrack pf =? keytrack nf)); [by eexists|]. destruct (negb (n =? frag_num nf)); [by eexists|].
  destruct (pull_ok nf Hnf) as [-> ->]. destruct (Z.ltb_spec (room pf) (zlen (body nf))); [by eexists|].
  unfold recvframe_pull_tail. rewrite (proj2 (Z.ltb_ge _ _)) by lia. unfold append_tail. cbn [room set_buf data].
  rewrite (proj2 (Z.ltb_ge _ _)) by lia. simp_res. match goal with |- context [defrag_loop ?pf' ?n' _ _] => destruct (IH pf' n' pn' Hq) as (r & E & F) end.
  - cbn [icv_len set_icv data set_buf]. rewrite zlen_app, (body_zlen nf Hnf). match goal with |- context [zlen (take ?k ?l)] => pose proof (zlen_nonneg (take k l)) end. lia.
  - exists r. split; [exact E|exact F].
Qed.

Lemma defrag_conserves pf q :
  frag_ok pf -> Forall frag_ok q ->
  exists r freed, recvframe_defrag pf q = Ret (r, freed) /\
    match r with
    | Some g => fid g = fid pf /\ freed = map fid q
    | None => freed = fid pf :: map fid q
    end.
Proof.
  intros Hpf Hq. unfold recvframe_defrag. pose proof Hpf as (? & ? & ? & ? & ? & ? & ?).
  assert (exists pn, (if pn_cipher (encrypt pf) then frame_pn pf else Ret 0) = Ret pn) as [pn Epn]
    by (destruct (pn_cipher _); [by apply frame_pn_total|by eexists]).
  bind_step Epn. destruct (negb _); [by eexists _, _|]. destruct (defrag_loop_total q pf 1 pn Hq) as (r & E & F); [lia|]. bind_step E.
  destruct r as [g|]; eexists _, _; (split; [done|]); [split; [by apply F|done]|done].
Qed.

(** Two CCMP fragments, packet numbers 5 and 6, eight bytes of header and IV. *)
Definition ex_frag (id frag pn : Z) (more : bool) (payload : list Z) : rhdr :=
  RHdr id ([pn; 0; 0; 0x20; 0; 0; 0; 0] ++ payload) 100 frag more 0 8 0 _AES_ 3 false true 0 0 true.

Lemma recvframe_defrag_spec_witness :
  exists r freed,
    recvframe_defrag (ex_frag 1 0 5 true [65; 66]) [ex_frag 2 1 6 false [67]] = Ret (r, freed) /\
    match r with
    | Some f =>
        fid f = 1 /\ freed = [2] /\
        complete (ex_frag 1 0 5 true [65; 66]) [ex_frag 2 1 6 false [67]] /\
        data f = join (data (ex_frag 1 0 5 true [65; 66])) 0 [ex_frag 2 1 6 false [67]]
    | None => freed = [1; 2] /\ ~ complete (ex_frag 1 0 5 true [65; 66]) [ex_frag 2 1 6 false [67]]
    end.
Proof.
  apply (recvframe_defrag_spec (ex_frag 1 0 5 true [65; 66]) [ex_frag 2 1 6 false [67]]).
  - unfold frag_ok, zlen. cbn. lia.
  - apply Forall_singleton. unfold frag_ok, zlen. cbn. lia.
  - reflexivity.
Defined.

Lemma chk_defrag_queue_conserves
    (sta bcmc : option (list rhdr * Z)) (is_data : bool) (f : rhdr) :
  let q0 := match sta with Some s => Some s | None => if is_data then None else bcmc end in
  frag_ok f -> (forall q kt, q0 = Some (q, kt) -> Forall frag_ok q) ->
  exists r freed q', chk_defrag_queue sta bcmc is_data f = Ret (r, freed, q') /\
    fid f :: map fid (default [] (fst <$> q0)) ≡ₚ
      (match r with Some g => [fid g] | None => [] end) ++ freed ++ map fid (default [] q') /\
    (ra_mcast f = true -> mfrag f = true \/ frag_num f <> 0 ->
       r = None /\ freed = [fid f] /\ q' = fst <$> q0).
Proof.
  intros q0 Hf Hq. unfold chk_defrag_queue. fold q0.
  destruct (negb (mfrag f) && (frag_num f =? 0)) eqn:E0.
  { apply andb_true_iff in E0 as [E1 E2]. apply negb_true_iff in E1. apply Z.eqb_eq in E2.
    eexists _, _, _. split; [done|]. split; [done|]. intros _ [?|?]; congruence. }
  destruct (ra_mcast f) eqn:Em.
  { eexists _, _, _. split; [done|]. split; [done|]. done. }
  destruct q0 as [[q kt]|].
  2: { eexists _, _, _. split; [done|]. split; [done|]. done. }
  pose proof (Hq q kt eq_refl) as Hqok. change (default [] (fst <$> Some (q, kt))) with q.
  change (mfrag (set_keytrack kt f)) with (mfrag f).
  destruct (mfrag f).
  - destruct (frag_num (set_keytrack kt f) =? 0).
    + eexists _, _, _. split; [done|]. split; [|done]. cbn. by rewrite Permutation_cons_append.
    + eexists _, _, _. split; [done|]. split; [|done]. cbn. rewrite map_app. cbn.
      by rewrite Permutation_cons_append.
  - assert (Forall frag_ok (q ++ [set_keytrack kt f])) as Hall.
    { apply Forall_app. split; [done|]. apply Forall_singleton. exact Hf. }
    assert (map fid (q ++ [set_keytrack kt f]) ≡ₚ fid f :: map fid q) as Hids.
    { rewrite map_app. cbn. by rewrite <- Permutation_cons_append. }
    destruct (q ++ [set_keytrack kt f]) as [|pf q'] eqn:Eq; [by destruct q|].
    apply Forall_cons in Hall as [Hpf Hq'].
    destruct (defrag_conserves pf q' Hpf Hq') as (r & freed & -> & Hr). simp_res.
    eexists _, _, _. split; [done|]. split; [|done]. change (map fid (default [] (Some []))) with (@nil Z).
    rewrite app_nil_r, <- Hids. cbn [map]. destruct r as [g|]; [destruct Hr as [-> ->]|rewrite Hr]; done.
Qed.

Lemma pull_tail_fid f sz : fid (recvframe_pull_tail f sz) = fid f.
Proof. unfold recvframe_pull_tail. by destruct (_ <? _). Qed.

Lemma recvframe_chkmic_fid HZ now sec stainfo f v g sec' :
  recvframe_chkmic HZ now sec stainfo f = Ret (v, g, sec') -> fid g = fid f.
Proof.
  unfold recvframe_chkmic. destruct (encrypt f =? Tkip._TKIP_); [|by intros [= _ <- _]].
  destruct stainfo as [k|]; [|intros [= _ <- _]; apply pull_tail_fid].
  destruct (ra_mcast f && _); [by intros [= _ <- _]|].
  intros (mk & _ & (mc & _ & (pm & _ & H)%bind_inv)%bind_inv)%bind_inv. revert H.
  destruct (bool_decide _); intros [= _ <- _]; apply pull_tail_fid.
Qed.

(** The lengths and the key index [recvframe_chkmic] computes with. *)
Definition frag_attrs (g : rhdr) : Prop := 0 <= hdrlen g /\ 0 <= iv_len g /\ 0 <= icv_len g /\ 0 <= key_index g < 6.

Lemma defrag_loop_attrs q : forall pf n pn f, defrag_loop pf n pn q = Ret (Some f) -> frag_attrs pf -> Forall frag_attrs q -> frag_attrs f.
Proof.
  induction q as [|nf q IH]; intros pf n pn f H Hp Hq; cbn [defrag_loop] in H; [by injection H as <-|].
  apply Forall_cons in Hq as [(N1 & N2 & N3 & _) Hq]. apply bind_inv in H as (o & _ & H). destruct o as [pn'|]; [|done].
  destruct (negb _); [done|]. destruct (negb _); [done|]. destruct (_ <? _); [done|]. apply bind_inv in H as (pf' & E & H). unfold append_tail in E.
  destruct (_ <? _); [done|]. injection E as <-. apply IH in H; [done| |done]. destruct Hp as (P1 & P2 & P3 & P4).
  unfold recvframe_pull_tail, recvframe_pull. repeat case_match; done.
Qed.

Lemma chk_defrag_queue_attrs (sta bcmc : option (list rhdr * Z)) (is_data : bool) f g freed q' :
  let q0 : option (list rhdr * Z) := match sta with Some s => Some s | None => if is_data then None else bcmc end in
  chk_defrag_queue sta bcmc is_data f = Ret (Some g, freed, q') -> frag_attrs f -> (forall q kt, q0 = Some (q, kt) -> Forall frag_attrs q) -> frag_attrs g.
Proof.
  intros q0 H Hf Hq. unfold chk_defrag_queue in H. fold q0 in H. destruct (_ && _); [by injection H as <- _ _|]. destruct (ra_mcast f); [done|].
  destruct q0 as [[q kt]|]; [|done]. specialize (Hq q kt eq_refl). destruct (mfrag _); [by destruct (_ =? _)|].
  assert (Forall frag_attrs (q ++ [set_keytrack kt f])) as Ha by (apply Forall_app; split; [done|by apply Forall_singleton]).
  destruct (q ++ [set_keytrack kt f]) as [|pf q2]; [done|]. apply Forall_cons in Ha as [Hp Ha]. apply bind_inv in H as ([r fr] & H & E). injection E as -> _ _.
  unfold recvframe_defrag in H. apply bind_inv in H as (pn & _ & H). destruct (negb _); [done|]. apply bind_inv in H as (o & H & E). destruct o as [f'|]; [|done].
  injection E as -> _. by eapply defrag_loop_attrs.
Qed.

(** The MIC keys are there and long enough. *)
Definition mic_keys_ok (sec : mic_sec) (stainfo : option (list Z)) : Prop :=
  (forall k, stainfo = Some k -> 8 <= zlen k) /\ length (dot118021XGrprxmickey sec) = 6%nat /\ Forall (fun k => 8 <= zlen k) (dot118021XGrprxmickey sec).

(** A frame in which [recvframe_chkmic] finds the addresses, the MIC and the ICV. *)
Definition mic_room (g : rhdr) : Prop := 30 <= zlen (data g) < 2 ^ 32 /\ hdrlen g + iv_len g + icv_len g + 8 <= zlen (data g).

Lemma chkmic_cases HZ now sec stainfo g : mic_keys_ok sec stainfo -> frag_attrs g ->
  (exists m, recvframe_chkmic HZ now sec stainfo g = Ret m) \/
  recvframe_chkmic HZ now sec stainfo g = Oob /\ encrypt g = Tkip._TKIP_ /\ ~ mic_room g.
Proof.
  intros (K1 & K2 & K3) (Hh & Hi & Hc & Hx). unfold recvframe_chkmic. destruct (Z.eqb_spec (encrypt g) Tkip._TKIP_) as [Et|]; [|left; by eexists].
  destruct stainfo as [sk|]; [|left; by eexists]. destruct (ra_mcast g && _); [left; by eexists|].
  assert (exists key, (if ra_mcast g then match dot118021XGrprxmickey sec !! Z.to_nat (key_index g) with Some k => Ret k | None => Oob end else Ret sk) = Ret key /\ 8 <= zlen key)
    as (key & -> & Hkl).
  { destruct (ra_mcast g); [|exists sk; split; [done|by apply K1]].
    destruct (lookup_lt_is_Some_2 (dot118021XGrprxmickey sec) (Z.to_nat (key_index g))) as [k Ek]; [lia|]. rewrite Ek. exists k. split; [done|]. by eapply Forall_lookup in K3. }
  simp_res. set (dl := u32 _). set (payload := drop _ _). assert (0 <= dl) as Hdl by (unfold dl, wrap; apply Z.mod_pos_bound; lia).
  destruct (decide (30 <= zlen (data g) /\ dl + 8 <= zlen payload)) as [[H30 Hp]|Hn].
  - destruct (Michael.seccalctkipmic_total key (data g) payload dl (priority g)) as [mic Em]; [done|done|lia|]. bind_step Em.
    destruct (slice_total payload dl 8) as (pm & Ep & _); [lia..|]. bind_step Ep. left. destruct (bool_decide _); by eexists.
  - assert (~ mic_room g) as Hnr.
    { intros [[R1 R2] R3]. apply Hn. split; [done|]. unfold dl. rewrite wrap_small by (unfold fits; lia). unfold payload, zlen in *. rewrite length_drop. lia. }
    destruct (Michael.rtw_seccalctkipmic key (data g) payload dl (priority g)) as [mic| |] eqn:Em; simp_res.
    + destruct (slice payload dl 8) as [pm| |] eqn:Ep; simp_res; [left; destruct (bool_decide _); by eexists|by right|].
      exfalso. revert Ep. unfold slice. by destruct (_ && _).
    + by right.
    + exfalso. by apply Michael.seccalctkipmic_fuel in Em.
Qed.

(** C36: [recvframe_chk_defrag] neither loses nor duplicates a frame.  For a received
    frame and queued fragments that hold their header, eight octets behind it, their IV
    and ICV (fewer than 256 octets of header and IV, fragment number below 16, key index
    below 6) and MIC keys that are there, either the
    function returns, and the frame received and the frames queued before are, as a
    multiset, the frame handed on, the frames freed (after a failed MIC check too) and
    the frames still queued; and a group addressed fragment is always freed without
    touching the queue (CVE-2020-26145).  Or it reads beyond the frame, and then the
    frame whose MIC it checks is a TKIP frame without room for addresses, MIC and ICV
    ([recvframe_chkmic_underflow]). *)
Theorem recvframe_chk_defrag_conserves HZ now sec stainfo
    (sta bcmc : option (list rhdr * Z)) (is_data : bool) (f : rhdr) :
  let q0 := match sta with Some s => Some s | None => if is_data then None else bcmc end in
  let attr_ok g := frag_ok g /\ 0 <= key_index g < 6 in
  attr_ok f -> (forall q kt, q0 = Some (q, kt) -> Forall attr_ok q) -> mic_keys_ok sec stainfo ->
  (exists r freed q' sec', recvframe_chk_defrag HZ now sec stainfo sta bcmc is_data f =
      Ret (r, freed, q', sec') /\
    fid f :: map fid (default [] (fst <$> q0)) ≡ₚ
      (match r with Some g => [fid g] | None => [] end) ++ freed ++ map fid (default [] q') /\
    (ra_mcast f = true -> mfrag f = true \/ frag_num f <> 0 ->
       r = None /\ freed = [fid f] /\ q' = fst <$> q0)) \/
  recvframe_chk_defrag HZ now sec stainfo sta bcmc is_data f = Oob /\
    exists g freed q', chk_defrag_queue sta bcmc is_data f = Ret (Some g, freed, q') /\ encrypt g = Tkip._TKIP_ /\ ~ mic_room g.
Proof.
  intros q0 attr_ok [Hf Hkf] Hq Hk. unfold recvframe_chk_defrag.
  destruct (chk_defrag_queue_conserves sta bcmc is_data f Hf) as (r & freed & q' & E & Hp & Hm).
  { intros q kt Eq. eapply Forall_impl; [exact (Hq q kt Eq)|]. by intros g [? _]. }
  fold q0 in Hp, Hm. bind_step E.
  destruct r as [g|]; [|left; by eexists _, _, _, _].
  destruct (privacy g); [|left; by eexists _, _, _, _].
  assert (frag_attrs g) as Hg.
  { apply (chk_defrag_queue_attrs sta bcmc is_data f g freed q' E); [by destruct Hf as (? & ? & ? & _)|].
    fold q0. intros q kt Eq. eapply Forall_impl; [exact (Hq q kt Eq)|]. by intros x [(? & ? & ? & _) ?]. }
  destruct (chkmic_cases HZ now sec stainfo g Hk Hg) as [([[v g'] sec'] & Em)|(Em & Et & Hr)].
  - left. bind_step Em. apply recvframe_chkmic_fid in Em. destruct (v =? _FAIL).
    + eexists _, _, _, _. split; [done|]. split; [|intros A B; by destruct (Hm A B)].
      rewrite Hp, <- app_assoc. exact (Permutation_middle freed (map fid (default [] q')) (fid g)).
    + eexists _, _, _, _. split; [done|]. split; [by cbn; rewrite Em|]. intros A B. by destruct (Hm A B).
  - right. rewrite Em. split; [done|]. by exists g, freed, q'.
Qed.

(** Two CCMP fragments are joined; the conclusion of the theorem for them. *)
Lemma recvframe_chk_defrag_conserves_witness :
  let sec := MicSec (replicate 6 (replicate 16 0)) false false 0 (Tkip.Countermeasure false 0 0) in
  let run := recvframe_chk_defrag 1000 0 sec None (Some ([ex_frag 1 0 5 true [65]], 3)) None true (ex_frag 2 1 6 false [66]) in
  (exists r freed q' sec', run = Ret (r, freed, q', sec') /\
    [2; 1] ≡ₚ (match r with Some g => [fid g] | None => [] end) ++ freed ++ map fid (default [] q') /\
    (false = true -> false = true \/ 1 <> 0 -> r = None /\ freed = [2] /\ q' = Some [ex_frag 1 0 5 true [65]])) \/
  run = Oob /\ exists g freed q', chk_defrag_queue (Some ([ex_frag 1 0 5 true [65]], 3)) None true (ex_frag 2 1 6 false [66]) = Ret (Some g, freed, q') /\
    encrypt g = Tkip._TKIP_ /\ ~ mic_room g.
Proof.
  intros sec run. apply (recvframe_chk_defrag_conserves 1000 0 sec None (Some ([ex_frag 1 0 5 true [65]], 3)) None true (ex_frag 2 1 6 false [66])).
  - unfold frag_ok, zlen. cbn. lia.
  - intros q kt [= <- <-]. apply Forall_singleton. unfold frag_ok, zlen. cbn. lia.
  - split; [done|]. split; [done|]. by_eval.
Defined.

(** *** The TKIP MIC check *)

(** The Michael key [recvframe_chkmic] uses: the group key of the frame's key
    index for a group addressed frame, the station's key otherwise. *)
Definition mic_key (sec : mic_sec) (stakey : list Z) (f : rhdr) (key : list Z) : Prop :=
  if ra_mcast f
  then binstallGrpkey sec = true /\ dot118021XGrprxmickey sec !! Z.to_nat (key_index f) = Some key
  else stakey = key.

Lemma mic_key_select sec stakey f key : mic_key sec stakey f key ->
  ra_mcast f && negb (binstallGrpkey sec) = false /\
  (if ra_mcast f then
     match dot118021XGrprxmickey sec !! Z.to_nat (key_index f) with Some k => Ret k | None => Oob end
   else Ret stakey) = Ret key.
Proof. unfold mic_key. destruct (ra_mcast f); [intros [-> ->]; done|by intros ->]. Qed.

(** The TKIP MIC check accepts a frame exactly when its eight MIC bytes are
    Michael, under the key of the transmitter or of the group, of DA, SA,
    priority and the unencrypted payload; eight bytes are then removed from the
    tail, and a failure is reported to the countermeasures exactly when the
    frame was decrypted with the current key. *)
Theorem recvframe_chkmic_spec HZ now sec stakey key k0 k1 f
    fc0 fc1 dur a1 a2 a3 sc a4 rest pre payload mic icv :
  encrypt f = Tkip._TKIP_ -> mic_key sec stakey f key ->
  Michael.secmicgetuint32 key 0 = Ret k0 -> Michael.secmicgetuint32 key 4 = Ret k1 ->
  data f = Michael.mac_header fc0 fc1 dur a1 a2 a3 sc a4 rest ->
  zlen dur = 2 -> zlen a1 = 6 -> zlen a2 = 6 -> zlen a3 = 6 -> zlen sc = 2 -> zlen a4 = 6 ->
  data f = pre ++ payload ++ mic ++ icv ->
  zlen pre = hdrlen f + iv_len f -> zlen mic = 8 -> zlen icv = icv_len f ->
  bytes_ok (data f) -> is_u8 (priority f) -> zlen (data f) < 2 ^ 32 ->
  recvframe_chkmic HZ now sec (Some stakey) f =
  let ok := bool_decide (Michael.michael k0 k1
      (Michael.dest_addr (Z.testbit fc1 0) a1 a3 ++
       Michael.src_addr (Z.testbit fc1 0) (Z.testbit fc1 1) a2 a3 a4 ++
       [priority f; 0; 0; 0] ++ payload) = mic) in
  let current := negb (ra_mcast f) || (key_index f =? mlmeinfo_key_index sec) in
  Ret (if ok then _SUCCESS else _FAIL,
       set_buf (take (length (data f) - 8) (data f)) (room f + 8) f,
       if ok then (if ra_mcast f && negb (bcheck_grpkey sec) then set_bcheck sec else sec)
       else if bdecrypted f && current
       then set_cm (Tkip.rtw_handle_tkip_mic_err HZ now (cm sec)) sec else sec).
Proof.
  intros He Hk E0 E1 Hh Ld L1 L2 L3 Ls L4 Hd Lp Lm Li Hb Hpri Hlen.
  unfold recvframe_chkmic. rewrite He, Z.eqb_refl.
  destruct (mic_key_select _ _ _ _ Hk) as [-> Hsel]. bind_step Hsel.
  assert (zlen (data f) = zlen pre + (zlen payload + (8 + zlen icv))) as Hz.
  { rewrite Hd, !zlen_app. lia. }
  pose proof (zlen_nonneg pre). pose proof (zlen_nonneg payload). pose proof (zlen_nonneg icv).
  replace (zlen (data f) - hdrlen f - iv_len f - icv_len f - 8) with (zlen payload) by lia.
  rewrite wrap_small by (unfold fits; lia).
  rewrite <- Lp, zlen_to_nat. rewrite Hd at 2. rewrite drop_app_length.
  assert (bytes_ok (a1 ++ a2 ++ a3 ++ a4 ++ payload ++ [priority f])) as Hbs.
  { pose proof Hb as Hb'. rewrite Hh in Hb. unfold Michael.mac_header in Hb. rewrite Hd in Hb'.
    rewrite !Forall_app in *. intuition. }
  pose proof (Michael.seccalctkipmic_core key k0 k1 fc0 fc1 dur a1 a2 a3 sc a4 rest payload
    (mic ++ icv) (priority f) E0 E1 Ld L1 L2 L3 Ls L4 Hbs) as Hmic. rewrite <- Hh in Hmic. bind_step Hmic.
  assert (slice (drop (length pre) (data f)) (zlen payload) 8 = Ret mic) as Hs.
  { rewrite Hd, drop_app_length. by apply slice_mid. }
  bind_step Hs.
  assert (recvframe_pull_tail f 8 = set_buf (take (length (data f) - 8) (data f)) (room f + 8) f) as ->.
  { unfold recvframe_pull_tail. rewrite (proj2 (Z.ltb_ge _ _)) by lia. do 3 f_equal. unfold zlen in *. lia. }
  destruct (bool_decide _).
  - by rewrite (andb_comm (negb _)).
  - by rewrite negb_andb, negb_involutive.
Qed.

(** A unicast frame to the access point: 24 bytes of header, eight of IV, two of
    payload, MIC and ICV. *)
Definition ex_tkip (payload mic : list Z) : rhdr :=
  RHdr 1 ([8; 1; 0; 0] ++ replicate 6 1 ++ replicate 6 2 ++ replicate 6 3 ++ [0; 0] ++
          [1; 0x21; 0; 0x20; 0; 0; 0; 0] ++ payload ++ mic ++ [9; 9; 9; 9])
    100 0 false 24 8 4 Tkip._TKIP_ 0 false true 5 0 true.
Definition ex_sec : mic_sec := MicSec [] false false 0 (Tkip.Countermeasure false 0 0).

Lemma recvframe_chkmic_spec_witness :
  recvframe_chkmic 1000 7 ex_sec (Some [1; 2; 3; 4; 5; 6; 7; 8]) (ex_tkip [65; 66] (replicate 8 0)) =
  Ret (_FAIL, set_buf (take 38 (data (ex_tkip [65; 66] (replicate 8 0)))) 108
                (ex_tkip [65; 66] (replicate 8 0)),
       MicSec [] false false 0 (Tkip.Countermeasure false 0 7)).
Proof.
  apply (recvframe_chkmic_spec 1000 7 ex_sec [1; 2; 3; 4; 5; 6; 7; 8] [1; 2; 3; 4; 5; 6; 7; 8]
    0x04030201 0x08070605 (ex_tkip [65; 66] (replicate 8 0)) 8 1 [0; 0] (replicate 6 1) (replicate 6 2)
    (replicate 6 3) [0; 0] [1; 0x21; 0; 0x20; 0; 0] ([0; 0] ++ [65; 66] ++ replicate 8 0 ++ [9; 9; 9; 9])
    (take 32 (data (ex_tkip [65; 66] (replicate 8 0)))) [65; 66] (replicate 8 0) [9; 9; 9; 9]);
    [reflexivity..|by_eval|by_eval|by_eval].
Defined.

(** [recvframe_chkmic] does not check that the frame is long enough: on a
    TKIP frame shorter than header, IV, ICV and MIC the unsigned [datalen] wraps
    and the MIC is computed over memory behind the frame. *)
Theorem recvframe_chkmic_underflow HZ now sec stakey key k0 k1 f :
  encrypt f = Tkip._TKIP_ -> mic_key sec stakey f key ->
  Michael.secmicgetuint32 key 0 = Ret k0 -> Michael.secmicgetuint32 key 4 = Ret k1 ->
  30 <= zlen (data f) < hdrlen f + iv_len f + icv_len f + 8 ->
  is_u16 (hdrlen f + iv_len f + icv_len f + 8) ->
  recvframe_chkmic HZ now sec (Some stakey) f = Oob.
Proof.
  intros He Hk E0 E1 [Hl Hs] Hsum. unfold recvframe_chkmic. rewrite He, Z.eqb_refl.
  destruct (mic_key_select _ _ _ _ Hk) as [-> Hsel]. bind_step Hsel.
  set (x := zlen (data f) - _ - _ - _ - 8). pose proof (zlen_nonneg (data f)). unfold fits in Hsum.
  assert (u32 x = x + 2 ^ 32) as ->.
  { unfold wrap. symmetry. apply (Z.mod_unique x (2 ^ 32) (-1)); lia. }
  rewrite (Michael.seccalctkipmic_oob key k0 k1); [done|done|done|done|].
  unfold zlen at 1. rewrite length_drop. unfold x, zlen in *. lia.
Qed.

Lemma recvframe_chkmic_underflow_witness :
  recvframe_chkmic 1000 7 ex_sec (Some [1; 2; 3; 4; 5; 6; 7; 8]) (ex_tkip [] []) = Oob.
Proof.
  apply (recvframe_chkmic_underflow 1000 7 ex_sec [1; 2; 3; 4; 5; 6; 7; 8] [1; 2; 3; 4; 5; 6; 7; 8]
    0x04030201 0x08070605 (ex_tkip [] [])); [reflexivity..|by_eval|by_eval].
Defined.

End Defrag.
