(* ===== verification/Indicate.v ===== *)
(** * What a received packet is looked at for

    Models [parsing_eapol_packet] of [core/rtw_wlan_util.c], [rtw_st_ctl_rx] of
    [core/rtw_sta_mgt.c] and [rtw_recv_indicatepkt_check] of [core/rtw_recv.c], which
    every packet passes on its way to the network stack.  None of them knows the length
    of the packet.  What they may read is a list: the packet and the octets that follow
    it in its buffer; a read beyond is [Oob].

    Shown: the check never refuses a packet, 99 readable octets behind a packet suffice
    for it, and without them a short EAPOL packet is read beyond the buffer. *)
From S2P Require Import Prelude Recv.

Module Indicate.

Definition ETH_HLEN : Z := 14.

(** ** EAPOL *)

Inductive eap_type :=
  EAP_PACKET | NON_EAPOL | EAPOL_START | EAPOL_LOGOFF | EAPOL_KEY | EAPOL_ENCAP_ASF_ALERT | EAPOL_PACKET
| EAPOL_WPA_GROUP_KEY_1_2 | EAPOL_WPA_GROUP_KEY_2_2 | EAPOL_1_4 | EAPOL_2_4 | EAPOL_3_4 | EAPOL_4_4.
#[export] Instance eap_type_eq_dec : EqDecision eap_type.
Proof. solve_decision. Defined.

(** [parsing_eapol_packet] of the packet at [p]; also whether the key handshake of
    the station is over ([wpapsk]: [ndisauthtype == Ndis802_11AuthModeWPAPSK]). *)
Definition parsing_eapol_packet (wpapsk : bool) (b : list Z) (p : Z) : res (eap_type * bool) :=
  ty ← rd b (p + 1);
  len ← (if ty =? 1 then get_le16 b (p + 2) else Ret 1);
  if (ty =? 1) && (len =? 0) then Ret (EAPOL_START, false)
  else if ty =? 0 then Ret (EAPOL_PACKET, false)
  else
    key_info ← get_be16 b (p + 5);
    key_data_length ← get_be16 b (p + 97);
    Ret (if negb (Z.testbit key_info 3) then
           if Z.testbit key_info 7 then (EAPOL_WPA_GROUP_KEY_1_2, false) else (EAPOL_WPA_GROUP_KEY_2_2, wpapsk)
         else if Z.testbit key_info 8 then
           if key_data_length =? 0 then (EAPOL_4_4, false)
           else if Z.testbit key_info 7 then (EAPOL_3_4, false) else (EAPOL_2_4, false)
         else (EAPOL_1_4, false)).

(** ** Session tracking *)

(** What a packet of protocol 0x06 is compared with: [s_tcp], some rule is for TCP;
    [rule] the rules themselves. *)
Record st_ctl := StCtl { s_tcp : bool; rule : list Z -> list Z -> list Z -> list Z -> bool }.

(** What the check does beside reading: session commands, the end of the key handshake
    of the station ([WIFI_UNDER_KEY_HANDSHAKE] is cleared), the time of an unencrypted
    key message. *)
Inductive note :=
| SESSION_TRACK (add : bool) (local_naddr local_port remote_naddr remote_port : list Z)
| HANDSHAKE_OVER | NONENC_EAPOL_KEY.

(** [rtw_st_ctl_rx] for the packet at the start of [b]. *)
Definition rtw_st_ctl_rx (sc : st_ctl) (b : list Z) : res (list note) :=
  proto ← get_be16 b 12;
  if negb (proto =? 0x0800) then Ret []
  else
    let ip := ETH_HLEN in
    ip_proto ← rd b (ip + 9);
    if negb ((ip_proto =? 0x06) && s_tcp sc) then Ret []
    else
      v ← rd b ip;
      let tcp := ip + Z.land v 0xf * 4 in
      src ← slice b (ip + 12) 4; dst ← slice b (ip + 16) 4;
      tcp_src ← slice b tcp 2; tcp_dst ← slice b (tcp + 2) 2;
      if rule sc dst tcp_dst src tcp_src then
        fl ← rd b (tcp + 13);
        Ret ((if Z.testbit fl 1 && Z.testbit fl 4 then [SESSION_TRACK true dst tcp_dst src tcp_src] else []) ++
             (if Z.testbit fl 0 then [SESSION_TRACK false dst tcp_dst src tcp_src] else []))
      else Ret [].

(** [rtw_recv_indicatepkt_check] of the packet at the start of [b], from a known
    station, without [CONFIG_WAPI_SUPPORT] and with [sink_udpport] zero. *)
Definition rtw_recv_indicatepkt_check (sc : st_ctl) (wpapsk : bool) (encrypt : Z) (b : list Z) : res (Z * list note) :=
  es ← rtw_st_ctl_rx sc b;
  proto ← get_be16 b 12;
  if proto =? 0x888e then
    '(eapol_type, over) ← parsing_eapol_packet wpapsk b ETH_HLEN;
    Ret (_SUCCESS, es ++ (if over : bool then [HANDSHAKE_OVER] else []) ++
      (if bool_decide (eapol_type = EAPOL_1_4 \/ eapol_type = EAPOL_3_4) && (encrypt =? 0) then [NONENC_EAPOL_KEY] else []))
  else Ret (_SUCCESS, es).

(** ** What it reads *)

(** The octets behind a packet that the check may need. *)
Definition lookahead : Z := 99.

Lemma get_be16_reads b i : 0 <= i -> i + 2 <= zlen b -> exists v, get_be16 b i = Ret v.
Proof.
  intros Hi Hl. unfold get_be16. destruct (rd_in b i) as (x & -> & _); [lia|]. destruct (rd_in b (i + 1)) as (y & -> & _); [lia|]. by eexists.
Qed.
Lemma get_le16_reads b i : 0 <= i -> i + 2 <= zlen b -> exists v, get_le16 b i = Ret v.
Proof.
  intros Hi Hl. unfold get_le16. destruct (rd_in b i) as (x & -> & _); [lia|]. destruct (rd_in b (i + 1)) as (y & -> & _); [lia|]. by eexists.
Qed.

Lemma parsing_eapol_total wpapsk b p : 0 <= p -> p + 99 <= zlen b -> exists r, parsing_eapol_packet wpapsk b p = Ret r.
Proof.
  intros Hp Hl. unfold parsing_eapol_packet. destruct (rd_in b (p + 1)) as (ty & E & _); [lia|]. bind_step E.
  assert (exists n, (if ty =? 1 then get_le16 b (p + 2) else Ret 1) = Ret n) as [n En].
  { destruct (ty =? 1); [|by eexists]. destruct (get_le16_reads b (p + 2)) as (w & ->); [lia..|]. by eexists. }
  bind_step En. destruct (_ && _); [by eexists|]. destruct (_ =? 0); [by eexists|].
  destruct (get_be16_reads b (p + 5)) as (ki & E5); [lia..|]. bind_step E5.
  destruct (get_be16_reads b (p + 97)) as (kl & E97); [lia..|]. bind_step E97. by eexists.
Qed.

Lemma st_ctl_rx_total sc b : ETH_HLEN + lookahead <= zlen b -> exists es, rtw_st_ctl_rx sc b = Ret es.
Proof.
  unfold ETH_HLEN, lookahead. intros Hl. unfold rtw_st_ctl_rx, ETH_HLEN.
  destruct (get_be16_reads b 12) as (pr & E); [lia..|]. bind_step E. destruct (negb _); [by eexists|].
  destruct (rd_in b (14 + 9)) as (ipp & E9 & _); [lia|]. bind_step E9. destruct (negb _); [by eexists|].
  destruct (rd_in b 14) as (v & Ev & _); [lia|]. bind_step Ev.
  assert (0 <= Z.land v 0xf < 16) as Hv by (change 0xf with (Z.ones 4); rewrite Z.land_ones by lia; apply Z.mod_pos_bound; lia).
  destruct (slice_total b (14 + 12) 4) as (s & Es & _); [lia..|]. bind_step Es.
  destruct (slice_total b (14 + 16) 4) as (d & Ed & _); [lia..|]. bind_step Ed.
  destruct (slice_total b (14 + Z.land v 0xf * 4) 2) as (sp & Esp & _); [lia..|]. bind_step Esp.
  destruct (slice_total b (14 + Z.land v 0xf * 4 + 2) 2) as (dp & Edp & _); [lia..|]. bind_step Edp.
  destruct (rule _ _ _ _ _); [|by eexists].
  destruct (rd_in b (14 + Z.land v 0xf * 4 + 13)) as (fl & Ef & _); [lia|]. bind_step Ef. by eexists.
Qed.

(** With enough octets behind the packet the check returns, and always [_SUCCESS]. *)
Lemma indicatepkt_check_total sc wpapsk enc pkt behind : ETH_HLEN <= zlen pkt -> lookahead <= zlen behind ->
  exists es, rtw_recv_indicatepkt_check sc wpapsk enc (pkt ++ behind) = Ret (_SUCCESS, es).
Proof.
  intros Hl Hk. assert (ETH_HLEN + lookahead <= zlen (pkt ++ behind)) as L by (rewrite zlen_app; lia).
  unfold rtw_recv_indicatepkt_check. destruct (st_ctl_rx_total sc _ L) as [es E]. bind_step E.
  unfold ETH_HLEN, lookahead in *. destruct (get_be16_reads (pkt ++ behind) 12) as (pr & Ep); [lia..|]. bind_step Ep.
  destruct (pr =? 0x888e); [|by eexists].
  destruct (parsing_eapol_total wpapsk (pkt ++ behind) 14) as [[ty over] ->]; [lia..|]. by eexists.
Qed.

(** A packet of EtherType 0x888e that is shorter than a key message and is neither a
    start nor an EAP packet is read beyond its buffer. *)
Theorem indicatepkt_check_overread sc wpapsk enc da sa v ty rest :
  zlen da = 6 -> zlen sa = 6 -> 2 <= ty -> zlen rest < 97 ->
  rtw_recv_indicatepkt_check sc wpapsk enc (da ++ sa ++ be16 0x888e ++ v :: ty :: rest) = Oob.
Proof.
  intros Ld Ls Ht Hr. set (b := da ++ sa ++ be16 0x888e ++ v :: ty :: rest).
  assert (at_off b 12 (be16 0x888e ++ [v; ty])) as At.
  { exists (da ++ sa), rest. split; [unfold b; by rewrite <- !app_assoc|]. rewrite zlen_app. lia. }
  apply at_off_be16 in At as [Ep At]; [|by_eval]. replace (12 + 2) with 14 in At by lia.
  apply at_off_cons in At as [_ At]. apply at_off_cons in At as [Et _].
  assert (rtw_st_ctl_rx sc b = Ret []) as E by (unfold rtw_st_ctl_rx; bind_step Ep; done).
  unfold rtw_recv_indicatepkt_check. bind_step E. bind_step Ep. unfold parsing_eapol_packet, ETH_HLEN.
  bind_step Et. rewrite (proj2 (Z.eqb_neq ty 1)), (proj2 (Z.eqb_neq ty 0)) by lia. simp_res. cbn [andb].
  assert (zlen b = 16 + zlen rest) as Lb.
  { unfold b. rewrite !zlen_app, !zlen_cons, Ld, Ls. change (zlen (be16 _)) with 2. lia. }
  assert (forall k, 0 <= k -> zlen b <= 14 + k + 1 -> get_be16 b (14 + k) = Oob) as Out.
  { intros k H0 Hk. unfold get_be16. destruct (Z.leb_spec (zlen b) (14 + k)); [by rewrite (rd_out b (14 + k))|].
    destruct (rd_in b (14 + k)) as (? & -> & _); [lia|]. simp_res. by rewrite (rd_out b (14 + k + 1)). }
  destruct (Z.leb_spec (zlen b) (14 + 5 + 1)); [by rewrite (Out 5)|].
  destruct (get_be16_reads b (14 + 5)) as (ki & ->); [lia..|]. simp_res. by rewrite (Out 97) by lia.
Qed.
End Indicate.
