(* ===== verification/Forward.v ===== *)
(** * Forwarding inside a basic service set

    Models the decision of an access point what becomes of a received MSDU:
    [rtw_ap_rx_msdu_act_check] and [rtw_ap_data_bmc_to_uc] of [core/rtw_ap.c] with the
    policy [rtw_ap_fwd_b2u_policy_chk] of [include/rtw_ap.h], [rtw_os_recv_select_queue]
    of [os_dep/linux/os_intfs.c], the taking of a transmit frame
    ([rtw_alloc_xmitframe] of [core/rtw_xmit.c]); also the encapsulation of an MSDU,
    [rtw_recv_llc_parse] of [core/rtw_recv.c], and what a station does with a subframe,
    [rtw_sta_rx_amsdu_act_check].  [CONFIG_RTW_WDS] is off.

    [MsduCheck] is what deaggregation relies on; both checks are instances of it.
    Shown: the decision as a table ([ap_decision]); every transmit frame that was taken
    is returned to the caller to be sent. *)
From S2P Require Import Prelude Indicate.

Module Forward.
Import Indicate.

Definition SNAP_SIZE : Z := 6.
Definition ETH_P_IP : Z := 0x0800.
Definition ETH_P_AARP : Z := 0x80f3.
Definition ETH_P_IPX : Z := 0x8137.
Definition rtw_bridge_tunnel_header : list Z := [0xaa; 0xaa; 0x03; 0x00; 0x00; 0xf8].
Definition rtw_rfc1042_header : list Z := [0xaa; 0xaa; 0x03; 0x00; 0x00; 0x00].

(** [enum rtw_rx_llc_hdl]; the parser never returns [RTW_RX_LLC_VLAN]. *)
Inductive rtw_rx_llc_hdl := RTW_RX_LLC_KEEP | RTW_RX_LLC_REMOVE | RTW_RX_LLC_VLAN.

(** [llc_hdl] used as a truth value. *)
Definition llc_true (l : rtw_rx_llc_hdl) : bool :=
  match l with RTW_RX_LLC_KEEP => false | _ => true end.

(** [rtw_recv_llc_parse(b + msdu, msdu_len)]. *)
Definition rtw_recv_llc_parse (b : list Z) (msdu msdu_len : Z) : res rtw_rx_llc_hdl :=
  if msdu_len <? 8 then Ret RTW_RX_LLC_KEEP
  else
    eth_type ← get_be16 b (msdu + SNAP_SIZE);
    rfc1042 ← memcmp_at b msdu rtw_rfc1042_header;
    tunnel ← (if rfc1042 && negb (eth_type =? ETH_P_AARP) && negb (eth_type =? ETH_P_IPX)
              then Ret true
              else memcmp_at b msdu rtw_bridge_tunnel_header);
    Ret (if tunnel : bool then RTW_RX_LLC_REMOVE else RTW_RX_LLC_KEEP).

Definition RTW_RX_MSDU_ACT_INDICATE : Z := 1.
Definition RTW_RX_MSDU_ACT_FORWARD : Z := 2.

(** ** Data *)

(** A station of [asoc_list]: address and [WIFI_ASOC_STATE]. *)
Record fwd_sta := FwdSta { fs_mac : list Z; fs_asoc : bool }.

(** What the decision uses of the adapter: its address, [ap_isolate], whether
    [rtw_get_stainfo] finds a station, [asoc_list_cnt], the stations of [asoc_list],
    [b2u_flags_ap_fwd], [wifi_spec]. *)
Record fwd_cfg := FwdCfg {
  fw_addr : list Z; fw_isolate : bool; fw_peer : list Z -> bool; fw_asoc_cnt : Z; fw_asoc : list fwd_sta;
  fw_b2u : Z; fw_wifi_spec : bool }.

(** What it uses of the received frame: [to_fr_ds], RA, address of its station. *)
Record fwd_rx := FwdRx { fr_to_fr_ds : Z; fr_ra : list Z; fr_ta : list Z }.

(** The attributes set in a transmit frame. *)
Record fwd_frame := FwdFrame { ff_dst : list Z; ff_src : list Z; ff_ta : list Z; ff_ra : list Z; ff_os_qid : Z }.

(** The result [act], [*fwd_frame], [f_list] and [free_xmitframe_cnt] afterwards. *)
Record fwd_out := FwdOut { fo_act : Z; fo_frame : option fwd_frame; fo_list : list fwd_frame; fo_free : Z }.

(** ** Operations *)

Definition rtw_1d_to_queue : list Z := [2; 3; 3; 2; 1; 1; 0; 0].

(** [rtw_os_recv_select_queue(b + msdu, llc_hdl)]. *)
Definition rtw_os_recv_select_queue (b : list Z) (msdu : Z) (llc_hdl : rtw_rx_llc_hdl) : res Z :=
  priority ← (match llc_hdl with
              | RTW_RX_LLC_REMOVE =>
                  eth_type ← get_be16 b (msdu + SNAP_SIZE);
                  if eth_type =? ETH_P_IP then
                    tos ← rd b (msdu + SNAP_SIZE + 2 + 1);
                    Ret (Z.shiftr (Z.land tos 0xfc) 5)
                  else Ret 0
              | _ => Ret 0
              end);
  rd rtw_1d_to_queue priority.

(** [IS_MCAST]. *)
Definition da_mcast (da : list Z) : bool := match da with x :: _ => Z.testbit x 0 | [] => false end.
Definition is_broadcast_mac_addr (a : list Z) : bool := bool_decide (take 6 a = replicate 6 0xff).
Definition is_zero_mac_addr (a : list Z) : bool := bool_decide (take 6 a = replicate 6 0).
Definition IP_MCAST_MAC (a : list Z) : bool := bool_decide (take 3 a = [0x01; 0x00; 0x5e]).
Definition ICMPV6_MCAST_MAC (a : list Z) : bool :=
  bool_decide (take 2 a = [0x33; 0x33]) && negb (bool_decide (take 1 (drop 2 a) = [0xff])).

Definition rtw_ap_fwd_b2u_policy_chk (flags : Z) (da : list Z) (gaucst : bool) : bool :=
  Z.testbit flags 0 || (Z.testbit flags 1 && gaucst) || (Z.testbit flags 2 && is_broadcast_mac_addr da)
  || (Z.testbit flags 3 && (IP_MCAST_MAC da || ICMPV6_MCAST_MAC da)).

(** [rtw_alloc_xmitframe]: the number of free frames left. *)
Definition rtw_alloc_xmitframe (free : Z) : option Z := if free <=? 0 then None else Some (free - 1).

(** A station that gets no copy. *)
Definition b2u_skip (sa ori_ta : list Z) (s : fwd_sta) : bool :=
  negb (fs_asoc s) || bool_decide (fs_mac s = sa) || bool_decide (fs_mac s = ori_ta)
  || is_broadcast_mac_addr (fs_mac s) || is_zero_mac_addr (fs_mac s).

(** [rtw_ap_data_bmc_to_uc]: [bmc_need], the frames put on [b2u_list], the number of
    free frames left.  The addresses were collected from [asoc_list] before. *)
Fixpoint rtw_ap_data_bmc_to_uc (w : fwd_cfg) (sa ori_ta : list Z) (os_qid : Z) (stas : list fwd_sta) (free : Z)
  : bool * list fwd_frame * Z :=
  match stas with
  | [] => (false, [], free)
  | s :: stas =>
      if b2u_skip sa ori_ta s then rtw_ap_data_bmc_to_uc w sa ori_ta os_qid stas free
      else
        match rtw_alloc_xmitframe free with
        | None => (true, [], free)
        | Some free =>
            let '(bmc_need, l, free) := rtw_ap_data_bmc_to_uc w sa ori_ta os_qid stas free in
            (bmc_need, FwdFrame (fs_mac s) sa (fw_addr w) (fs_mac s) os_qid :: l, free)
        end
  end.

Definition NR_XMITFRAME : Z := 256.

(** From [fwd_chk] on, for the queue [os_qid]: [act] so far. *)
Definition fwd_chk (w : fwd_cfg) (r : fwd_rx) (free : Z) (os_qid : Z) (da sa : list Z) (act : Z) : fwd_out :=
  let single := fun (l : list fwd_frame) (free : Z) =>
    match rtw_alloc_xmitframe free with
    | None => FwdOut act None l free
    | Some free => FwdOut (Z.lor act RTW_RX_MSDU_ACT_FORWARD) (Some (FwdFrame da sa (fw_addr w) da os_qid)) l free
    end in
  if da_mcast da && rtw_ap_fwd_b2u_policy_chk (fw_b2u w) da ((fr_to_fr_ds r =? 3) && negb (da_mcast (fr_ra r)))
     && negb (fw_wifi_spec w) && (NR_XMITFRAME / 4 <? free) then
    let '(bmc_need, l, free) := rtw_ap_data_bmc_to_uc w sa (fr_ta r) os_qid (fw_asoc w) free in
    if bmc_need : bool then single l free
    else
      match l with
      | [] => FwdOut act None [] free
      | _ => FwdOut (Z.lor act RTW_RX_MSDU_ACT_FORWARD) None l free
      end
  else single [] free.

(** [rtw_ap_rx_msdu_act_check] of the MSDU at [b + msdu] with [free] free transmit
    frames. *)
Definition rtw_ap_rx_msdu_act_check (w : fwd_cfg) (r : fwd_rx) (free : Z) (b : list Z) (msdu : Z) (llc_hdl : rtw_rx_llc_hdl)
    (da sa : list Z) : res fwd_out :=
  let is_da_bmc := da_mcast da in
  let is_da_self := negb is_da_bmc && bool_decide (da = fw_addr w) in
  let fwd := fun act =>
    if fw_asoc_cnt w <=? 1 then Ret (FwdOut act None [] free)
    else os_qid ← rtw_os_recv_select_queue b msdu llc_hdl; Ret (fwd_chk w r free os_qid da sa act) in
  if bool_decide (sa = fw_addr w) then Ret (FwdOut 0 None [] free)
  else if is_da_bmc then
    if fw_isolate w then Ret (FwdOut RTW_RX_MSDU_ACT_INDICATE None [] free) else fwd RTW_RX_MSDU_ACT_INDICATE
  else if is_da_self then Ret (FwdOut RTW_RX_MSDU_ACT_INDICATE None [] free)
  else if fw_peer w da then
    if fw_isolate w then Ret (FwdOut 0 None [] free) else fwd 0
  else if fw_isolate w then Ret (FwdOut RTW_RX_MSDU_ACT_INDICATE None [] free)
  else fwd RTW_RX_MSDU_ACT_INDICATE.

(** [rtw_sta_rx_amsdu_act_check] without [CONFIG_RTW_WDS]. *)
Definition rtw_sta_rx_amsdu_act_check (da sa : list Z) : Z := RTW_RX_MSDU_ACT_INDICATE.

(** ** The interface *)

(** A check of the MSDU at an offset of the frame: it decides [act], one of nothing,
    indicate, forward and both, whatever the octets of an MSDU with no removable
    encapsulation are, and for one with such an encapsulation as soon as its first ten
    octets can be read. *)
Class MsduCheck (check : list Z -> Z -> rtw_rx_llc_hdl -> list Z -> list Z -> res fwd_out) (act : Z -> list Z -> list Z -> Z) : Prop := {
  check_act : forall b msdu llc da sa, 0 <= msdu -> (llc_true llc = true -> msdu + 10 <= zlen b) ->
    exists o, check b msdu llc da sa = Ret o /\ fo_act o = act msdu da sa;
  act_range : forall msdu da sa, 0 <= act msdu da sa < 4 }.

(** What an interface does with an MSDU; [ap]: the settings of an access point and the
    number of transmit frames that are free when the MSDU at an offset is looked at
    (sending goes on at the same time). *)
Definition msdu_check (ap : option (fwd_cfg * (Z -> Z))) (r : fwd_rx) (b : list Z) (msdu : Z) (llc : rtw_rx_llc_hdl) (da sa : list Z) : res fwd_out :=
  match ap with
  | None => Ret (FwdOut (rtw_sta_rx_amsdu_act_check da sa) None [] 0)
  | Some (w, free) => rtw_ap_rx_msdu_act_check w r (free msdu) b msdu llc da sa
  end.

(** ** The decision as a table *)

(** The stations a group addressed frame is copied to. *)
Definition copies (w : fwd_cfg) (sa ori_ta : list Z) : list fwd_sta := filter (fun s => b2u_skip sa ori_ta s = false) (fw_asoc w).

(** Whether the frame can be forwarded: as copies, or as it is. *)
Definition forwards (w : fwd_cfg) (r : fwd_rx) (free : Z) (da sa : list Z) : bool :=
  if da_mcast da && rtw_ap_fwd_b2u_policy_chk (fw_b2u w) da ((fr_to_fr_ds r =? 3) && negb (da_mcast (fr_ra r)))
     && negb (fw_wifi_spec w) && (NR_XMITFRAME / 4 <? free)
  then negb (bool_decide (copies w sa (fr_ta r) = [])) && (zlen (copies w sa (fr_ta r)) <=? free)
  else 0 <? free.

(** Group addressed frames, frames for the access point and frames for an unknown
    address are indicated. *)
Definition to_host (w : fwd_cfg) (da : list Z) : bool := da_mcast da || bool_decide (da = fw_addr w) || negb (fw_peer w da).

(** Frames for others are forwarded unless stations are isolated, nobody else is
    associated, or no transmit frame is free. *)
Definition to_others (w : fwd_cfg) (r : fwd_rx) (free : Z) (da sa : list Z) : bool :=
  (da_mcast da || negb (bool_decide (da = fw_addr w))) && negb (fw_isolate w) && (1 <? fw_asoc_cnt w) && forwards w r free da sa.

(** Own frames that come back are ignored. *)
Definition ap_decision (w : fwd_cfg) (r : fwd_rx) (free : Z) (da sa : list Z) : Z :=
  if bool_decide (sa = fw_addr w) then 0
  else (if to_host w da then 1 else 0) + (if to_others w r free da sa then 2 else 0).

(** Copies are made for exactly the stations of [copies], as far as frames are free. *)
Lemma bmc_to_uc_spec w sa ori_ta q stas : forall free, 0 <= free ->
  let ss := filter (fun s => b2u_skip sa ori_ta s = false) stas in
  rtw_ap_data_bmc_to_uc w sa ori_ta q stas free =
  (free <? zlen ss, map (fun s => FwdFrame (fs_mac s) sa (fw_addr w) (fs_mac s) q) (take (Z.to_nat free) ss), Z.max 0 (free - zlen ss)).
Proof.
  induction stas as [|s stas IH]; intros free Hf; cbn [rtw_ap_data_bmc_to_uc].
  { cbn zeta. rewrite filter_nil, take_nil. change (zlen []) with 0. cbn [map]. f_equal; [f_equal|lia]. symmetry. apply Z.ltb_ge. lia. }
  destruct (b2u_skip sa ori_ta s) eqn:Hk; cbn zeta; [rewrite filter_cons_False by congruence; apply IH; lia|].
  rewrite filter_cons_True, zlen_cons by done.
  set (ss := filter _ stas) in *. pose proof (zlen_nonneg ss). unfold rtw_alloc_xmitframe.
  destruct (Z.leb_spec free 0).
  - assert (free = 0) as -> by lia. cbn [Z.to_nat take map]. f_equal; [f_equal|lia]. symmetry. apply Z.ltb_lt. lia.
  - rewrite IH by lia. fold ss. replace (Z.to_nat free) with (S (Z.to_nat (free - 1))) by lia. cbn [take map].
    f_equal; [f_equal|lia]. destruct (Z.ltb_spec (free - 1) (zlen ss)), (Z.ltb_spec free (zlen ss + 1)); try done; lia.
Qed.

Lemma select_queue_total b msdu llc : 0 <= msdu -> (llc_true llc = true -> msdu + 10 <= zlen b) -> exists q, rtw_os_recv_select_queue b msdu llc = Ret q.
Proof.
  intros Hm Hl. unfold rtw_os_recv_select_queue. assert (forall p, 0 <= p < 8 -> exists q, rd rtw_1d_to_queue p = Ret q) as Hq.
  { intros p Hp. destruct (rd_in rtw_1d_to_queue p) as (q & -> & _); [done|]. by eexists. }
  destruct llc; [by apply Hq|specialize (Hl eq_refl)|by apply Hq].
  destruct (get_be16_reads b (msdu + SNAP_SIZE)) as [t Et]; [unfold SNAP_SIZE; lia..|]. rewrite Et. simp_res.
  destruct (t =? ETH_P_IP); [|by apply Hq]. destruct (rd_in b (msdu + SNAP_SIZE + 2 + 1)) as (tos & E & _); [unfold SNAP_SIZE; lia|].
  rewrite E. simp_res. apply Hq. rewrite Z.shiftr_land. change (Z.shiftr 0xfc 5) with (Z.ones 3). rewrite Z.land_ones by lia.
  by apply Z.mod_pos_bound.
Qed.

(** The transmit frames of an outcome. *)
Definition fo_frames (o : fwd_out) : list fwd_frame := fo_list o ++ match fo_frame o with Some f => [f] | None => [] end.

Lemma fo_none act free : fo_free (FwdOut act None [] free) + zlen (fo_frames (FwdOut act None [] free)) = free.
Proof. cbn [fo_free fo_frames fo_list fo_frame app]. change (zlen []) with 0. lia. Qed.

(** From [fwd_chk] on: forwarded if possible; the frames taken are those of the outcome,
    except when the copies needed more than were free. *)
Lemma fwd_chk_spec w r free q da sa act : 0 <= free -> act = 0 \/ act = 1 ->
  let o := fwd_chk w r free q da sa act in
  fo_act o = act + (if forwards w r free da sa then 2 else 0) /\ fo_free o + zlen (fo_frames o) = free /\
  (zlen (fw_asoc w) <= NR_XMITFRAME / 4 -> forwards w r free da sa = false -> fo_frames o = []).
Proof.
  intros Hf Ha. unfold fwd_chk, forwards.
  assert (forall b : bool, act + (if b then 2 else 0) = if b then Z.lor act RTW_RX_MSDU_ACT_FORWARD else act) as Hor.
  { intros []; [|lia]. by destruct Ha as [-> | ->]. }
  assert (zlen (copies w sa (fr_ta r)) <= zlen (fw_asoc w)) as Hle.
  { unfold zlen, copies. apply inj_le. apply length_filter. }
  destruct (_ && (NR_XMITFRAME / 4 <? free)) eqn:Hb.
  - rewrite bmc_to_uc_spec by done. cbn zeta. fold (copies w sa (fr_ta r)). set (ss := copies w sa (fr_ta r)) in *. pose proof (zlen_nonneg ss).
    apply andb_true_iff in Hb as [_ Hb]. apply Z.ltb_lt in Hb.
    destruct (Z.ltb_spec free (zlen ss)) as [Hlt|Hge].
    + rewrite (proj2 (Z.leb_gt _ _)) by lia. rewrite andb_false_r. unfold rtw_alloc_xmitframe.
      rewrite (proj2 (Z.leb_le _ _)) by lia. cbn [fo_act fo_free fo_list fo_frame]. unfold fo_frames. cbn [fo_frame fo_list]. rewrite app_nil_r.
      split_and!; [lia| |intros; lia]. unfold zlen in *. rewrite length_map, length_take. lia.
    + rewrite (proj2 (Z.leb_le _ _)), andb_true_r by lia. rewrite take_ge by (unfold zlen in *; lia).
      destruct ss as [|s ss]; cbn [map fo_act fo_free fo_list fo_frame]; unfold fo_frames; cbn [fo_frame fo_list].
      * rewrite bool_decide_true by done. cbn [negb]. split_and!; [lia|change (zlen (@nil fwd_sta)) with 0; cbn [app]; change (zlen (@nil fwd_frame)) with 0; lia|done].
      * rewrite bool_decide_false by done. cbn [negb]. rewrite app_nil_r. split_and!; [exact (eq_sym (Hor true))| |done].
        unfold zlen in *. cbn [length] in *. rewrite length_map. lia.
  - clear Hb. unfold rtw_alloc_xmitframe. destruct (Z.leb_spec free 0), (Z.ltb_spec 0 free); try lia; unfold fo_frames; cbn [fo_act fo_free fo_list fo_frame app].
    + split_and!; [lia|change (zlen []) with 0; lia|done].
    + split_and!; [by rewrite (Hor true)|change (zlen [_]) with 1; lia|done].
Qed.

(** The code decides by the table, takes no frame it does not hand back, and, with no
    more stations than a quarter of the transmit frames, takes none when it does not
    forward. *)
Theorem act_check_decides w r free b msdu llc da sa :
  0 <= free -> 0 <= msdu -> (llc_true llc = true -> msdu + 10 <= zlen b) ->
  exists o, rtw_ap_rx_msdu_act_check w r free b msdu llc da sa = Ret o /\ fo_act o = ap_decision w r free da sa /\
    fo_free o + zlen (fo_frames o) = free /\
    (zlen (fw_asoc w) <= NR_XMITFRAME / 4 -> fo_act o < 2 -> fo_frames o = []).
Proof.
  intros Hf Hm Hl. destruct (select_queue_total b msdu llc Hm Hl) as [q Hq]. unfold rtw_ap_rx_msdu_act_check, ap_decision, to_host, to_others.
  destruct (bool_decide (sa = fw_addr w)); [eexists; split; [done|]; split_and!; [done|apply fo_none|done]|].
  assert (forall act (i : bool), act = (if i then 1 else 0) -> exists o,
    (if fw_asoc_cnt w <=? 1 then Ret (FwdOut act None [] free) else os_qid ← rtw_os_recv_select_queue b msdu llc; Ret (fwd_chk w r free os_qid da sa act)) = Ret o /\
    fo_act o = act + (if (1 <? fw_asoc_cnt w) && forwards w r free da sa then 2 else 0) /\ fo_free o + zlen (fo_frames o) = free /\
    (zlen (fw_asoc w) <= NR_XMITFRAME / 4 -> fo_act o < 2 -> fo_frames o = [])) as Hfwd.
  { intros act i Hi. destruct (Z.leb_spec (fw_asoc_cnt w) 1), (Z.ltb_spec 1 (fw_asoc_cnt w)); try lia.
    - eexists. split; [done|]. split_and!; [cbn; lia|apply fo_none|done].
    - rewrite Hq. simp_res. eexists. split; [done|]. cbn [andb].
      destruct (fwd_chk_spec w r free q da sa act Hf) as (E & C & N); [destruct i; lia|]. split_and!; [done|done|].
      intros Hn Hlt. apply N; [done|]. destruct (forwards w r free da sa); [|done]. rewrite E in Hlt. destruct i; lia. }
  assert (forall act, exists o, Ret (FwdOut act None [] free) = Ret o /\ fo_act o = act /\ fo_free o + zlen (fo_frames o) = free /\
    (zlen (fw_asoc w) <= NR_XMITFRAME / 4 -> fo_act o < 2 -> fo_frames o = [])) as Hno.
  { intros act. eexists. split; [done|]. split_and!; [done|apply fo_none|done]. }
  unfold RTW_RX_MSDU_ACT_INDICATE.
  destruct (da_mcast da), (fw_isolate w), (bool_decide (da = fw_addr w)), (fw_peer w da); cbn [negb andb orb];
    first [apply Hno | apply (Hfwd 1 true); done | apply (Hfwd 0 false); done].
Qed.

Lemma ap_decision_range w r free da sa : 0 <= ap_decision w r free da sa < 4.
Proof. unfold ap_decision. destruct (bool_decide _); [lia|]. by destruct (to_host w da), (to_others w r free da sa). Qed.

(** What an interface decides. *)
Definition decision (ap : option (fwd_cfg * (Z -> Z))) (r : fwd_rx) (msdu : Z) (da sa : list Z) : Z :=
  match ap with None => RTW_RX_MSDU_ACT_INDICATE | Some (w, free) => ap_decision w r (free msdu) da sa end.

Definition frees_ok (ap : option (fwd_cfg * (Z -> Z))) : Prop :=
  match ap with None => True | Some (_, free) => forall msdu, 0 <= free msdu end.

Lemma msdu_check_ok ap r : frees_ok ap -> MsduCheck (msdu_check ap r) (decision ap r).
Proof.
  intros Hf. split.
  - intros b msdu llc da sa Hm Hl. destruct ap as [[w free]|]; [|by eexists].
    destruct (act_check_decides w r (free msdu) b msdu llc da sa (Hf msdu) Hm Hl) as (o & E & Ea & _). by exists o.
  - intros. destruct ap as [[w free]|]; [apply ap_decision_range|done].
Qed.
End Forward.
