(* ===== verification/Amsdu.v ===== *)
(** * Receive path: from MPDUs to Ethernet frames

    Models [validate_amsdu_content], [amsdu_to_msdu], [wlanhdr_to_ethhdr], [portctrl]
    and [recv_process_mpdu] of [core/rtw_recv.c], with [rtw_os_alloc_msdu_pkt] of
    [os_dep/linux/recv_linux.c]; the decision what becomes of an MSDU is [Forward], the
    look at a packet before the network stack gets it [Indicate].  Both ways a payload
    reaches the network stack, as the only MSDU of a frame or as a subframe of an
    A-MSDU, are related to one definition of the Ethernet frame it becomes. *)
From S2P Require Import Prelude Recv Indicate Forward.

Module Amsdu.
Export Indicate Forward.
Import Defrag.

Definition MAX_SUBFRAME_COUNT : Z := 64.
Definition RTW_AMSDU_MODE_NON_SPP : Z := 0.
Definition _NO_PRIVACY_ : Z := 0.

(** What the A-MSDU path uses of the adapter and of the frame's attributes. *)
Record rx_ctx := RxCtx {
  amsdu_mode : Z; dot11PrivacyAlgrthm : Z; to_fr_ds : Z; ra : list Z; ta : list Z }.

Definition validate_amsdu_content (c : rx_ctx) (da sa : list Z) : Z :=
  if (amsdu_mode c =? RTW_AMSDU_MODE_NON_SPP) && negb (dot11PrivacyAlgrthm c =? _NO_PRIVACY_) then
    let ret := if (to_fr_ds c =? 2) && negb (bool_decide (da = ra c)) then _FAIL else _SUCCESS in
    let ret := if (to_fr_ds c =? 1) && negb (bool_decide (sa = ta c)) then _FAIL else ret in
    if bool_decide (da = rtw_rfc1042_header) then _FAIL else ret
  else _SUCCESS.

(** The packet [rtw_os_alloc_msdu_pkt] builds from the [msdu_len] bytes at
    [b + msdu]: the encapsulation header is replaced by the addresses, or
    addresses and length are put in front. *)
Definition rtw_os_alloc_msdu_pkt (b da sa : list Z) (msdu msdu_len : Z) (llc : rtw_rx_llc_hdl)
  : res (list Z) :=
  l ← slice b msdu msdu_len;
  if llc_true llc then Ret (da ++ sa ++ drop 6 l)
  else Ret (da ++ sa ++ be16 (zlen l) ++ l).

(** Packets given to the network stack, packets given to [recv_fwd_pkt_hdl], and what
    the look at the former did. *)
Record rx_out := RxOut { indicated : list (list Z); forwarded : list (list Z); noted : list note }.

(** The surroundings of a frame: whether a packet buffer can be had for the subframe at
    an offset; session rules of the station; [ndisauthtype]; what can be read behind the
    packet built from the subframe at an offset, and behind the frame itself (its ICV
    among it). *)
Record rx_env := RxEnv { alloc : Z -> bool; st_rules : st_ctl; wpapsk : bool; behind : Z -> list Z; tail : list Z }.

Section Deaggregation.
(** The configuration; the decision what to do with a subframe
    ([rtw_ap_rx_msdu_act_check] in AP mode, [rtw_sta_rx_amsdu_act_check] for a
    station); the surroundings; [encrypt] of the frame. *)
Context (c : rx_ctx) (check : list Z -> Z -> rtw_rx_llc_hdl -> list Z -> list Z -> res fwd_out) (e : rx_env) (enc : Z).

Definition subframe_padding (nSubframe_Length : Z) : Z :=
  let padding_len := 4 - Z.land (nSubframe_Length + ETH_HLEN) (4 - 1) in
  if padding_len =? 4 then 0 else padding_len.

(** What becomes of the subframe at [pdata]: [None] ends the loop. *)
Definition amsdu_subframe (b : list Z) (pdata n : Z) (o : rx_out) : res (option rx_out) :=
  da ← slice b pdata 6;
  sa ← slice b (pdata + 6) 6;
  if validate_amsdu_content c da sa =? _FAIL then Ret None
  else
    llc ← rtw_recv_llc_parse b (pdata + ETH_HLEN) n;
    w ← check (b ++ tail e) (pdata + ETH_HLEN) llc da sa;
    let act := fo_act w in
    if act =? 0 then Ret (Some o)
    else if negb (alloc e pdata) then Ret None
    else
      sub_pkt ← rtw_os_alloc_msdu_pkt b da sa (pdata + ETH_HLEN) n llc;
      let fwd := negb (Z.land act RTW_RX_MSDU_ACT_FORWARD =? 0) in
      let o := if fwd then RxOut (indicated o) (forwarded o ++ [sub_pkt]) (noted o) else o in
      if fwd && (Z.land act RTW_RX_MSDU_ACT_INDICATE =? 0) then Ret (Some o)
      else
        '(ret, ns) ← rtw_recv_indicatepkt_check (st_rules e) (wpapsk e) enc (sub_pkt ++ behind e pdata);
        Ret (Some (RxOut (if ret =? _SUCCESS then indicated o ++ [sub_pkt] else indicated o) (forwarded o) (noted o ++ ns))).

(** [while (a_len > ETH_HLEN)]; every iteration shortens [a_len]. *)
Fixpoint amsdu_loop (fuel : nat) (b : list Z) (pdata a_len : Z) (o : rx_out) : res rx_out :=
  match fuel with
  | O => NoFuel
  | S fuel =>
      if a_len <=? ETH_HLEN then Ret o
      else
        nSubframe_Length ← get_be16 b (pdata + 12);
        if a_len <? ETH_HLEN + nSubframe_Length then Ret o
        else
          r ← amsdu_subframe b pdata nSubframe_Length o;
          match r with
          | None => Ret o
          | Some o =>
              if MAX_SUBFRAME_COUNT <=? zlen (indicated o) then Ret o
              else
                let pdata := pdata + ETH_HLEN + nSubframe_Length in
                let a_len := a_len - ETH_HLEN - nSubframe_Length in
                if a_len =? 0 then amsdu_loop fuel b pdata a_len o
                else
                  let padding_len := subframe_padding nSubframe_Length in
                  if a_len <? padding_len then Ret o
                  else amsdu_loop fuel b (pdata + padding_len) (a_len - padding_len) o
          end
  end.

End Deaggregation.

(** [amsdu_to_msdu]; the frame itself is freed at the end. *)
Definition amsdu_to_msdu (c : rx_ctx) (check : list Z -> Z -> rtw_rx_llc_hdl -> list Z -> list Z -> res fwd_out) (e : rx_env) (f : rhdr) : res rx_out :=
  let f := recvframe_pull f (hdrlen f) in
  let f := if 0 <? iv_len f then recvframe_pull f (iv_len f) else f in
  let f := if negb (encrypt f =? 0) then recvframe_pull_tail f (icv_len f) else f in
  amsdu_loop c check e (encrypt f) (S (length (data f))) (data f) 0 (zlen (data f)) (RxOut [] [] []).

(** [wlanhdr_to_ethhdr]: the frame's bytes become the Ethernet frame in place.
    [sz] is the amount [rx_data] advances; a negative one would move it in front
    of the frame, where the contents are unknown. *)
Definition wlanhdr_to_ethhdr (f : rhdr) (dst src : list Z) (llc : rtw_rx_llc_hdl) : res (Z * rhdr) :=
  let f := if negb (encrypt f =? 0) then recvframe_pull_tail f (icv_len f) else f in
  let rmv_len := hdrlen f + iv_len f + (if llc_true llc then SNAP_SIZE else 0) in
  let len := u16 (zlen (data f) - rmv_len) in
  let sz := rmv_len - ETH_HLEN + (if llc_true llc then 2 else 0) in
  if sz <? 0 then Oob
  else if zlen (data f) <? sz then Ret (_FAIL, f)
  else
    let f := recvframe_pull f sz in
    d ← splice (data f) 0 dst;
    d ← splice d 6 src;
    d ← (if llc_true llc then Ret d else splice d 12 (be16 len));
    Ret (_SUCCESS, set_buf d (room f) f).

Definition dot11AuthAlgrthm_8021X : Z := 2.
Definition LLC_HEADER_SIZE : Z := 6.

(** [portctrl]: whether the frame goes on (it is freed otherwise); [blocked] is
    [ieee8021x_blocked] of the transmitter's station, if there is one. *)
Definition portctrl (auth_alg : Z) (blocked : option bool) (f : rhdr) : res bool :=
  if auth_alg =? dot11AuthAlgrthm_8021X then
    match blocked with
    | Some true =>
        ether_type ← get_be16 (data f) (hdrlen f + iv_len f + LLC_HEADER_SIZE);
        Ret (ether_type =? 0x888e)
    | _ => Ret true
    end
  else Ret true.

(** [recv_process_mpdu]: the status, the packets handed on and whether the
    frame was given to [rtw_free_recvframe].  [ap]: the access point, if the interface
    is one; [cannot_run] is [RTW_CANNOT_RUN]; [indicate] the outcome of
    [rtw_recv_indicatepkt], which takes the frame over. *)
Record mpdu_out := MpduOut { status : Z; packets : rx_out; freed : bool }.

Definition recv_process_mpdu (c : rx_ctx) (ap : option (fwd_cfg * (Z -> Z))) (e : rx_env) (cannot_run : bool) (indicate : Z)
    (amsdu : bool) (dst src : list Z) (f : rhdr) : res mpdu_out :=
  let check := msdu_check ap (FwdRx (to_fr_ds c) (ra c) (ta c)) in
  if amsdu then
    o ← amsdu_to_msdu c check e f;
    Ret (MpduOut _SUCCESS o true)
  else
    let msdu := hdrlen f + iv_len f in
    let msdu_len := u16 (zlen (data f) - hdrlen f - iv_len f
                         - (if negb (encrypt f =? 0) then icv_len f else 0)) in
    llc ← rtw_recv_llc_parse (data f) msdu msdu_len;
    w ← check (data f ++ tail e) msdu llc dst src;
    let act := fo_act w in
    if act =? 0 then Ret (MpduOut _FAIL (RxOut [] [] []) true)
    else
      r ← wlanhdr_to_ethhdr f dst src llc;
      if negb (r.1 =? _SUCCESS) then Ret (MpduOut r.1 (RxOut [] [] []) true)
      else
        let fwd := negb (Z.land act RTW_RX_MSDU_ACT_FORWARD =? 0) in
        let out := if fwd then [data r.2] else [] in
        if fwd && (Z.land act RTW_RX_MSDU_ACT_INDICATE =? 0)
        then Ret (MpduOut r.1 (RxOut [] out []) true)
        else if cannot_run then Ret (MpduOut _SUCCESS (RxOut [] out []) true)
        else
          '(ret, ns) ← rtw_recv_indicatepkt_check (st_rules e) (wpapsk e) (encrypt f) (data r.2 ++ tail e);
          if negb (ret =? _SUCCESS) then Ret (MpduOut ret (RxOut [] out ns) true)
          else Ret (MpduOut indicate (RxOut [data r.2] out ns) false).

(** ** The Ethernet frame of an MSDU *)

(** An MSDU whose encapsulation header is removed: RFC 1042 except for AARP and
    IPX, or the bridge tunnel. *)
Definition encapsulated (p : list Z) : bool :=
  (8 <=? zlen p) &&
  ((bool_decide (take 6 p = rtw_rfc1042_header) &&
    negb (bool_decide (take 2 (drop 6 p) = be16 ETH_P_AARP)) &&
    negb (bool_decide (take 2 (drop 6 p) = be16 ETH_P_IPX)))
   || bool_decide (take 6 p = rtw_bridge_tunnel_header)).

Definition eth_frame (da sa p : list Z) : list Z :=
  if encapsulated p then da ++ sa ++ drop 6 p else da ++ sa ++ be16 (zlen p) ++ p.

Lemma be16_inj v w : is_u16 v -> is_u16 w -> be16 v = be16 w -> v = w.
Proof.
  intros Hv Hw E.
  destruct (at_off_be16 (be16 v ++ []) 0 v []) as [G _]; [done|by exists [], []|].
  destruct (at_off_be16 (be16 w ++ []) 0 w []) as [G' _]; [done|by exists [], []|].
  rewrite E, G' in G. congruence.
Qed.

(** Two bytes are the big-endian form of the number they encode. *)
Lemma be16_bytes x0 x1 : is_u8 x0 -> is_u8 x1 -> be16 (x0 * 256 + x1) = [x0; x1].
Proof.
  intros B0 B1. unfold fits, be16 in *. change (2 ^ 8) with 256 in *.
  rewrite wrap_small by (unfold fits; lia). rewrite Z.shiftr_div_pow2 by lia.
  change 255 with (Z.ones 8). rewrite Z.land_ones by lia. change (2 ^ 8) with 256.
  rewrite Z.div_add_l, Z.div_small by lia.
  rewrite (Z.add_comm (x0 * 256)), Z.mod_add, Z.mod_small by lia. f_equal. lia.
Qed.

(** [rtw_recv_llc_parse] recognises exactly the encapsulated MSDUs. *)
Lemma rtw_recv_llc_parse_spec b p msdu :
  at_off b msdu p -> bytes_ok p ->
  rtw_recv_llc_parse b msdu (zlen p) =
  Ret (if encapsulated p then RTW_RX_LLC_REMOVE else RTW_RX_LLC_KEEP).
Proof.
  intros Hat Hb. unfold rtw_recv_llc_parse, encapsulated.
  destruct (Z.ltb_spec (zlen p) 8) as [|Hl]; [by rewrite (proj2 (Z.leb_gt 8 (zlen p))) by lia|].
  rewrite (proj2 (Z.leb_le 8 (zlen p))) by lia. cbn [andb].
  do 8 (destruct p as [|? p]; [done|]).
  rewrite !Forall_cons in Hb. destruct Hb as (_ & _ & _ & _ & _ & _ & B6 & B7 & _).
  change (z :: z0 :: z1 :: z2 :: z3 :: z4 :: z5 :: z6 :: p) with
    ([z; z0; z1; z2; z3; z4] ++ [z5; z6] ++ p) in *.
  apply at_off_app in Hat as [Hh Hat]. change (zlen _) with 6 in Hat.
  rewrite <- (be16_bytes z5 z6) in Hat by done.
  apply at_off_be16 in Hat as [G _]; [|unfold fits in *; lia].
  bind_step G.
  bind_step (at_off_memcmp _ _ _ rtw_rfc1042_header Hh eq_refl).
  rewrite (at_off_memcmp _ _ _ rtw_bridge_tunnel_header Hh eq_refl).
  change (take 6 (_ ++ _)) with [z; z0; z1; z2; z3; z4].
  change (take 2 (drop 6 _)) with [z5; z6]. rewrite <- (be16_bytes z5 z6) by done.
  assert (forall k, is_u16 k ->
    bool_decide (be16 (z5 * 256 + z6) = be16 k) = (z5 * 256 + z6 =? k)) as Hk.
  { intros k Hk. case_bool_decide as E; symmetry.
    - apply Z.eqb_eq. apply be16_inj; [unfold fits in *; lia|done|done].
    - apply Z.eqb_neq. intros E'. apply E. by rewrite E'. }
  rewrite !Hk by by_eval. destruct (bool_decide _ && _ && _); [done|]. by destruct (bool_decide _).
Qed.

Lemma eth_frame_alloc b da sa p msdu :
  at_off b msdu p ->
  rtw_os_alloc_msdu_pkt b da sa msdu (zlen p)
    (if encapsulated p then RTW_RX_LLC_REMOVE else RTW_RX_LLC_KEEP) = Ret (eth_frame da sa p).
Proof.
  intros Hat. unfold rtw_os_alloc_msdu_pkt, eth_frame.
  bind_step (at_off_slice _ _ _ _ Hat eq_refl). by destruct (encapsulated p).
Qed.

(** ** Deaggregation *)

(** Destination, source and payload of an MSDU, and its subframe. *)
Abbreviation msdu := (list Z * list Z * list Z)%type.
Definition wf_msdu (m : msdu) : Prop :=
  zlen m.1.1 = 6 /\ zlen m.1.2 = 6 /\ bytes_ok m.2 /\ 0 < zlen m.2 < 2 ^ 16.
Definition enc_subframe (m : msdu) : list Z := m.1.1 ++ m.1.2 ++ be16 (zlen m.2) ++ m.2.

(** Every subframe but the last is padded to a multiple of four bytes. *)
Fixpoint enc_amsdu (ms : list msdu) : list Z :=
  match ms with
  | [] => []
  | [m] => enc_subframe m
  | m :: ms =>
      enc_subframe m ++ replicate (Z.to_nat ((- zlen (enc_subframe m)) `mod` 4)) 0 ++ enc_amsdu ms
  end.

(** What is noted of a packet that goes to the network stack. *)
Definition looked_at (e : rx_env) (enc : Z) (pkt after : list Z) : list note :=
  match rtw_recv_indicatepkt_check (st_rules e) (wpapsk e) enc (pkt ++ after) with Ret (_, ns) => ns | _ => [] end.

(** What an MSDU gives rise to for the decision [act]. *)
Definition deliver1 (e : rx_env) (enc act : Z) (after : list Z) (m : msdu) : rx_out :=
  let pkt := eth_frame m.1.1 m.1.2 m.2 in
  RxOut (if Z.testbit act 0 then [pkt] else []) (if Z.testbit act 1 then [pkt] else [])
    (if Z.testbit act 0 then looked_at e enc pkt after else []).

Definition rx_app (o o' : rx_out) : rx_out :=
  RxOut (indicated o ++ indicated o') (forwarded o ++ forwarded o') (noted o ++ noted o').

(** What the subframes [ms] from offset [off] on must give rise to, for the decisions
    [act] at their MSDUs. *)
Fixpoint deliver (e : rx_env) (enc : Z) (act : Z -> list Z -> list Z -> Z) (off : Z) (ms : list msdu) : rx_out :=
  match ms with
  | [] => RxOut [] [] []
  | m :: ms =>
      let len := zlen (enc_subframe m) in
      rx_app (deliver1 e enc (act (off + ETH_HLEN) m.1.1 m.1.2) (behind e off) m) (deliver e enc act (off + len + (- len) `mod` 4) ms)
  end.

#[local] Arguments Z.testbit : simpl never.

Lemma enc_subframe_zlen m : wf_msdu m -> zlen (enc_subframe m) = 14 + zlen m.2.
Proof.
  intros (H1 & H2 & _). unfold enc_subframe. rewrite !zlen_app, H1, H2.
  change (zlen (be16 _)) with 2. lia.
Qed.

Lemma enc_amsdu_pos m ms : wf_msdu m -> 0 < zlen (enc_amsdu (m :: ms)).
Proof.
  intros Hm. pose proof (enc_subframe_zlen m Hm) as Hl. destruct Hm as (_ & _ & _ & ?).
  cbn [enc_amsdu]. destruct ms as [|m' ms]; [lia|]. rewrite zlen_app.
  match goal with |- 0 < _ + zlen ?l => pose proof (zlen_nonneg l) end. lia.
Qed.

Lemma subframe_padding_mod n : subframe_padding n = (- (14 + n)) `mod` 4.
Proof.
  unfold subframe_padding, ETH_HLEN. change (4 - 1) with (Z.ones 2). rewrite Z.land_ones by lia.
  change (2 ^ 2) with 4. pose proof (Z.mod_pos_bound (n + 14) 4 ltac:(lia)).
  rewrite (Z.add_comm 14 n). destruct (Z.eqb_spec (4 - (n + 14) `mod` 4) 4).
  - rewrite Z.mod_opp_l_z; lia.
  - rewrite Z.mod_opp_l_nz; lia.
Qed.

Lemma rx_app_assoc a b c : rx_app a (rx_app b c) = rx_app (rx_app a b) c.
Proof. unfold rx_app. cbn. by rewrite !app_assoc. Qed.

(** Surroundings in which every read of a packet stays inside its buffer. *)
Record env_ok (e : rx_env) : Prop := {
  env_behind : forall off, lookahead <= zlen (behind e off);
  env_tail : lookahead <= zlen (tail e) }.

(** The look at a packet notes what [looked_at] says and lets it pass. *)
Lemma looked_at_ok e enc pkt after : 14 <= zlen pkt -> lookahead <= zlen after ->
  rtw_recv_indicatepkt_check (st_rules e) (wpapsk e) enc (pkt ++ after) = Ret (_SUCCESS, looked_at e enc pkt after).
Proof.
  intros Hp Ha. unfold looked_at. by destruct (indicatepkt_check_total (st_rules e) (wpapsk e) enc pkt after Hp Ha) as [ns ->].
Qed.

Lemma eth_frame_len da sa p : zlen da = 6 -> zlen sa = 6 -> 14 <= zlen (eth_frame da sa p).
Proof.
  intros Hd Hs. unfold eth_frame. destruct (encapsulated p) eqn:E.
  - unfold encapsulated in E. apply andb_true_iff in E as [E%Z.leb_le _]. rewrite !zlen_app, Hd, Hs. unfold zlen in *. rewrite length_drop. lia.
  - rewrite !zlen_app, Hd, Hs. change (zlen (be16 _)) with 2. pose proof (zlen_nonneg p). lia.
Qed.

Section Roundtrip.
Context (c : rx_ctx) (check : list Z -> Z -> rtw_rx_llc_hdl -> list Z -> list Z -> res fwd_out) (act : Z -> list Z -> list Z -> Z).
Context `{!MsduCheck check act} (e : rx_env) (Henv : env_ok e) (Halloc : forall off, alloc e off = true) (enc : Z).

Definition valid_msdu (m : msdu) : Prop :=
  wf_msdu m /\ validate_amsdu_content c m.1.1 m.1.2 = _SUCCESS.

Lemma amsdu_subframe_ok b pdata m o :
  valid_msdu m -> 0 <= pdata -> at_off b pdata (enc_subframe m) ->
  get_be16 b (pdata + 12) = Ret (zlen m.2) /\
  amsdu_subframe c check e enc b pdata (zlen m.2) o =
    Ret (Some (rx_app o (deliver1 e enc (act (pdata + ETH_HLEN) m.1.1 m.1.2) (behind e pdata) m))).
Proof.
  intros [(Hd & Hs & Hb & Hn) Hv] H0 Hat. unfold enc_subframe in Hat.
  apply at_off_app in Hat as [Ad Hat]. rewrite Hd in Hat.
  apply at_off_app in Hat as [As Hat]. rewrite Hs in Hat.
  apply at_off_be16 in Hat as [G Hat]; [|unfold fits; lia].
  replace (pdata + 6 + 6) with (pdata + 12) in * by lia. split; [done|].
  replace (pdata + 12 + 2) with (pdata + ETH_HLEN) in Hat by (unfold ETH_HLEN; lia).
  unfold amsdu_subframe.
  bind_step (at_off_slice _ _ _ 6 Ad ltac:(lia)). bind_step (at_off_slice _ _ _ 6 As ltac:(lia)).
  rewrite Hv. change (_SUCCESS =? _FAIL) with false. cbn iota.
  bind_step (rtw_recv_llc_parse_spec _ _ _ Hat Hb).
  pose proof (env_tail e Henv) as Ht. unfold lookahead in Ht.
  destruct (check_act (check := check) (b ++ tail e) (pdata + ETH_HLEN)
    (if encapsulated m.2 then RTW_RX_LLC_REMOVE else RTW_RX_LLC_KEEP) m.1.1 m.1.2) as (w & Ew & Ea); [unfold ETH_HLEN; lia| |].
  { destruct (encapsulated m.2) eqn:Een; [|done]. intros _. unfold encapsulated in Een. apply andb_true_iff in Een as [E8%Z.leb_le _].
    destruct Hat as (l & r & -> & El). rewrite !zlen_app, El. pose proof (zlen_nonneg r). lia. }
  bind_step Ew. rewrite Ea. rewrite Halloc. cbn [negb].
  pose proof (eth_frame_alloc b m.1.1 m.1.2 m.2 (pdata + ETH_HLEN) Hat) as He.
  pose proof (looked_at_ok e enc (eth_frame m.1.1 m.1.2 m.2) (behind e pdata) (eth_frame_len _ _ _ Hd Hs) (env_behind e Henv pdata)) as Hl.
  pose proof (act_range (check := check) (pdata + ETH_HLEN) m.1.1 m.1.2) as Ha. unfold deliver1, rx_app.
  set (a := act (pdata + ETH_HLEN) m.1.1 m.1.2) in *. clearbody a.
  assert (a = 0 \/ a = 1 \/ a = 2 \/ a = 3) as Hcase by lia.
  destruct Hcase as [->|[->|[-> | ->]]]; cbn [Z.eqb Z.land Pos.land Pos.eqb negb andb RTW_RX_MSDU_ACT_FORWARD RTW_RX_MSDU_ACT_INDICATE].
  - cbn. rewrite !app_nil_r. by destruct o.
  - bind_step He. cbn. bind_step Hl. by rewrite app_nil_r.
  - bind_step He. cbn. by rewrite !app_nil_r.
  - bind_step He. cbn. by bind_step Hl.
Qed.

Lemma rx_app_nil o : rx_app o (RxOut [] [] []) = o.
Proof. destruct o. unfold rx_app. cbn. by rewrite !app_nil_r. Qed.

Lemma amsdu_loop_ok b ms : forall fuel pdata o,
  Forall valid_msdu ms -> 0 <= pdata -> at_off b pdata (enc_amsdu ms) ->
  zlen (indicated o) + zlen ms <= 64 -> zlen (enc_amsdu ms) < Z.of_nat fuel ->
  amsdu_loop c check e enc fuel b pdata (zlen (enc_amsdu ms)) o =
  Ret (rx_app o (deliver e enc act pdata ms)).
Proof.
  induction ms as [|m ms IH]; intros fuel pdata o Hms Hp0 Hat Hcnt Hfuel.
  { destruct fuel; [change (zlen (enc_amsdu [])) with 0 in Hfuel; lia|]. cbn. by rewrite rx_app_nil. }
  apply Forall_cons in Hms as [Hm Hms]. pose proof Hm as [Hwf _].
  pose proof (enc_subframe_zlen m Hwf) as Hlen. rewrite zlen_cons in Hcnt. pose proof (zlen_nonneg ms).
  set (pad := replicate (Z.to_nat ((- zlen (enc_subframe m)) `mod` 4)) 0).
  assert (enc_amsdu (m :: ms) = enc_subframe m ++
    match ms with [] => [] | _ => pad ++ enc_amsdu ms end) as He.
  { destruct ms; [by rewrite app_nil_r|done]. }
  rewrite He in *. rewrite zlen_app, Hlen in *. set (tl := match ms with [] => [] | _ => _ end) in *.
  pose proof (zlen_nonneg tl). apply at_off_app in Hat as [Am Hat]. rewrite Hlen in Hat.
  destruct Hwf as (_ & _ & _ & Hn).
  destruct fuel as [|fuel]; [lia|]. cbn [amsdu_loop].
  destruct (amsdu_subframe_ok b pdata m o Hm Hp0 Am) as [G Hsub].
  rewrite (proj2 (Z.leb_gt _ _)) by (unfold ETH_HLEN; lia). bind_step G.
  rewrite (proj2 (Z.ltb_ge _ _)) by (unfold ETH_HLEN; lia). bind_step Hsub.
  cbn [deliver]. cbn zeta. rewrite rx_app_assoc, Hlen.
  set (o' := rx_app o (deliver1 _ _ _ _ _)).
  assert (zlen (indicated o') <= zlen (indicated o) + 1) as Ho'.
  { unfold o', rx_app, deliver1. cbn [indicated]. rewrite zlen_app. destruct (Z.testbit _ 0); unfold zlen; cbn; lia. }
  replace (14 + zlen m.2 + zlen tl - ETH_HLEN - zlen m.2) with (zlen tl) by (unfold ETH_HLEN; lia).
  replace (pdata + ETH_HLEN + zlen m.2) with (pdata + (14 + zlen m.2)) by (unfold ETH_HLEN; lia).
  destruct ms as [|m' ms].
  { subst tl. cbn [deliver]. rewrite rx_app_nil. destruct (_ <=? zlen _); [done|]. change (zlen (@nil Z) =? 0) with true.
    cbn iota. destruct fuel as [|fuel]; [lia|]. done. }
  rewrite zlen_cons in Hcnt. pose proof (zlen_nonneg ms).
  rewrite (proj2 (Z.leb_gt _ _)) by (unfold MAX_SUBFRAME_COUNT; lia).
  pose proof (subframe_padding_mod (zlen m.2)) as Hpad. rewrite <- Hpad.
  assert (zlen tl = subframe_padding (zlen m.2) + zlen (enc_amsdu (m' :: ms))) as Htl.
  { unfold tl, pad. rewrite zlen_app, zlen_replicate, Z2Nat.id by (apply Z.mod_pos_bound; lia). by rewrite Hpad, Hlen. }
  assert (0 <= subframe_padding (zlen m.2)) by (rewrite Hpad; apply Z.mod_pos_bound; lia).
  assert (0 < zlen (enc_amsdu (m' :: ms))) as Hpos.
  { apply Forall_cons in Hms as [[Hwf' _] _]. by apply enc_amsdu_pos. }
  rewrite (proj2 (Z.eqb_neq _ _)) by lia. rewrite (proj2 (Z.ltb_ge _ _)) by lia.
  replace (zlen tl - subframe_padding (zlen m.2)) with (zlen (enc_amsdu (m' :: ms))) by lia.
  apply IH; [done|lia| |rewrite zlen_cons; lia|lia].
  unfold tl, pad in Hat. apply at_off_app in Hat as [_ Hat].
  rewrite zlen_replicate, Z2Nat.id in Hat by (apply Z.mod_pos_bound; lia).
  rewrite Hpad. by rewrite Hlen in Hat.
Qed.
End Roundtrip.

(** The frame's bytes after header, IV and ICV have been removed. *)
Lemma strip_pull f pre l :
  data f = pre ++ l -> zlen pre = hdrlen f + iv_len f -> 0 <= hdrlen f -> 0 <= iv_len f ->
  let g := recvframe_pull f (hdrlen f) in
  let g := if 0 <? iv_len g then recvframe_pull g (iv_len g) else g in
  data g = l /\ encrypt g = encrypt f /\ icv_len g = icv_len f.
Proof.
  intros Hd Hp Hh Hi g. pose proof (zlen_nonneg l).
  assert (g = set_buf (drop (Z.to_nat (hdrlen f)) (data f)) (room f) f) as ->.
  { unfold g, recvframe_pull. rewrite (proj2 (Z.ltb_ge _ _)); [done|]. rewrite Hd, zlen_app. lia. }
  assert (drop (length pre) (data f) = l) as Hl by (by rewrite Hd, drop_app_length).
  assert (zlen (drop (Z.to_nat (hdrlen f)) (data f)) = zlen l + iv_len f) as Hz.
  { unfold zlen in *. rewrite length_drop, Hd, length_app. lia. }
  cbn [iv_len set_buf]. destruct (Z.ltb_spec 0 (iv_len f)).
  - unfold recvframe_pull. cbn [data set_buf]. rewrite (proj2 (Z.ltb_ge _ _)) by lia. cbn.
    rewrite drop_drop. split_and!; [|done..]. rewrite <- Hl. f_equal. unfold zlen in *. lia.
  - cbn. split_and!; [|done..]. rewrite <- Hl. f_equal. unfold zlen in *. lia.
Qed.

Lemma strip_tail f l icv :
  data f = l ++ icv -> zlen icv = icv_len f -> data (recvframe_pull_tail f (icv_len f)) = l.
Proof.
  intros Hd Hi. unfold recvframe_pull_tail. pose proof (zlen_nonneg l).
  rewrite (proj2 (Z.ltb_ge _ _)) by (rewrite Hd, zlen_app; lia). cbn.
  rewrite Hd, zlen_app, Hi. replace (zlen l + icv_len f - icv_len f) with (zlen l) by lia.
  by rewrite zlen_to_nat, take_app_length.
Qed.

Lemma strip_ok f pre l icv :
  data f = pre ++ l ++ icv -> zlen pre = hdrlen f + iv_len f -> 0 <= hdrlen f -> 0 <= iv_len f ->
  zlen icv = (if encrypt f =? 0 then 0 else icv_len f) ->
  let g := recvframe_pull f (hdrlen f) in
  let g := if 0 <? iv_len g then recvframe_pull g (iv_len g) else g in
  let g := if negb (encrypt g =? 0) then recvframe_pull_tail g (icv_len g) else g in
  data g = l.
Proof.
  intros Hd Hp Hh Hi Hc. destruct (strip_pull f pre (l ++ icv) Hd Hp Hh Hi) as (E1 & E2 & E3).
  cbn zeta. cbn zeta in E1, E2, E3. rewrite E2. destruct (encrypt f =? 0); cbn [negb].
  - destruct icv; [by rewrite E1, app_nil_r|]. rewrite zlen_cons in Hc. pose proof (zlen_nonneg icv). lia.
  - apply (strip_tail _ l icv E1). by rewrite E3.
Qed.

Lemma pull_tail_encrypt h n : encrypt (recvframe_pull_tail h n) = encrypt h.
Proof. unfold recvframe_pull_tail. by destruct (_ <? _). Qed.

(** C10: deaggregation inverts aggregation: from an A-MSDU of up to 64 MSDUs
    that pass the content check, every MSDU is delivered as its Ethernet frame,
    in order, to the network stack and to the forwarding path as decided for
    it, and nothing else is.  The decision is that of any check that meets the
    interface [MsduCheck], as those of an access point and of a station do; packet
    buffers can be had, and 99 octets can be read behind each packet and the frame. *)
Theorem amsdu_to_msdu_roundtrip c check act `{!MsduCheck check act} e f pre ms icv :
  env_ok e -> (forall off, alloc e off = true) ->
  Forall (valid_msdu c) ms -> zlen ms <= 64 ->
  data f = pre ++ enc_amsdu ms ++ icv -> zlen pre = hdrlen f + iv_len f ->
  0 <= hdrlen f -> 0 <= iv_len f -> zlen icv = (if encrypt f =? 0 then 0 else icv_len f) ->
  amsdu_to_msdu c check e f = Ret (deliver e (encrypt f) act 0 ms).
Proof.
  intros He Hal Hms Hn Hd Hp Hh Hi Hc. unfold amsdu_to_msdu.
  pose proof (strip_ok f pre _ icv Hd Hp Hh Hi Hc) as Hs. cbn zeta in Hs.
  destruct (strip_pull f pre (enc_amsdu ms ++ icv) Hd Hp Hh Hi) as (_ & E2 & _). cbn zeta in E2.
  set (g := if negb _ then _ else _) in *.
  assert (encrypt g = encrypt f) as ->.
  { unfold g. destruct (negb _); [rewrite pull_tail_encrypt|]; exact E2. }
  rewrite Hs. rewrite (amsdu_loop_ok c check act e He Hal); [|done|lia|by exists [], []; rewrite app_nil_r|change (zlen ms <= 64); lia|].
  - unfold rx_app. by destruct (deliver _ _ _ _ ms).
  - unfold zlen. lia.
Qed.

(** An access point with three stations, with addresses 2.., 5.. and 6.. *)
Definition ex_fwd_cfg : fwd_cfg :=
  FwdCfg (replicate 6 4) false (fun a => bool_decide (a ∈ [replicate 6 2; replicate 6 5; replicate 6 6])) 3
    [FwdSta (replicate 6 2) true; FwdSta (replicate 6 5) true; FwdSta (replicate 6 6) true] 8 false.
Definition ex_fwd : option (fwd_cfg * (Z -> Z)) := Some (ex_fwd_cfg, fun _ => 200).
Definition ex_env : rx_env := RxEnv (fun _ => true) (StCtl false (fun _ _ _ _ => false)) false (fun _ => replicate 99 0) (replicate 99 0).
Lemma ex_env_ok : env_ok ex_env.
Proof. split; [intros ?|]; by_eval. Qed.

(** The first MSDU is for the access point, the second for a station, the third for
    the group. *)
Definition ex_msdus : list msdu :=
  [(replicate 6 4, replicate 6 2, [65; 66]); (replicate 6 6, replicate 6 2, [0xaa; 0xaa; 3; 0; 0; 0; 8; 0; 69]);
   ([1; 0; 0x5e; 0; 0; 1], replicate 6 2, [70])].

Lemma amsdu_to_msdu_roundtrip_witness :
  amsdu_to_msdu (RxCtx 0 4 1 (replicate 6 4) (replicate 6 2)) (msdu_check ex_fwd (FwdRx 1 (replicate 6 4) (replicate 6 2))) ex_env
    (RHdr 1 (replicate 34 0 ++ enc_amsdu ex_msdus ++ replicate 8 7) 100 0 false 26 8 8 4 0 false true 0 0 true) =
  Ret (RxOut [replicate 6 4 ++ replicate 6 2 ++ [0; 2; 65; 66]; [1; 0; 0x5e; 0; 0; 1] ++ replicate 6 2 ++ [0; 1; 70]]
    [replicate 6 6 ++ replicate 6 2 ++ [8; 0; 69]; [1; 0; 0x5e; 0; 0; 1] ++ replicate 6 2 ++ [0; 1; 70]] []).
Proof.
  assert (MsduCheck (msdu_check ex_fwd (FwdRx 1 (replicate 6 4) (replicate 6 2))) (decision ex_fwd (FwdRx 1 (replicate 6 4) (replicate 6 2)))) as Hc
    by (apply msdu_check_ok; intros ?; by_eval).
  etrans; [apply (amsdu_to_msdu_roundtrip (RxCtx 0 4 1 (replicate 6 4) (replicate 6 2)) _ _ ex_env
    (RHdr 1 (replicate 34 0 ++ enc_amsdu ex_msdus ++ replicate 8 7) 100 0 false 26 8 8 4 0 false true 0 0 true)
    (replicate 34 0) ex_msdus (replicate 8 7))|].
  - exact ex_env_ok.
  - done.
  - repeat (apply Forall_cons; split; [split; [split_and!; by_eval|reflexivity]|]). constructor.
  - by_eval.
  - reflexivity.
  - reflexivity.
  - by_eval.
  - by_eval.
  - reflexivity.
  - vm_compute. reflexivity.
Defined.

(** ** Safety of deaggregation *)

Lemma llc_parse_total b msdu n :
  bytes_ok b -> 0 <= msdu -> msdu + n <= zlen b ->
  exists llc, rtw_recv_llc_parse b msdu n = Ret llc /\ (llc_true llc = true -> 8 <= n).
Proof.
  intros Hb Hm Hn. unfold rtw_recv_llc_parse. destruct (Z.ltb_spec n 8); [by eexists|].
  destruct (get_be16_total b (msdu + SNAP_SIZE)) as (t & Ht & _); [done|unfold SNAP_SIZE; lia..|].
  bind_step Ht.
  destruct (memcmp_at_total b msdu rtw_rfc1042_header) as (m & Em);
    [done|change (zlen rtw_rfc1042_header) with 6; lia|]. bind_step Em.
  destruct (memcmp_at_total b msdu rtw_bridge_tunnel_header) as (m' & ->);
    [done|change (zlen rtw_bridge_tunnel_header) with 6; lia|].
  destruct (m && _ && _); simp_res; [by eexists|]. destruct m'; by eexists.
Qed.

(** A packet that lies between an Ethernet header and the whole frame. *)
Definition pkt_ok (b e : list Z) : Prop := 14 <= zlen e <= zlen b.

Section Safety.
Context (c : rx_ctx) (check : list Z -> Z -> rtw_rx_llc_hdl -> list Z -> list Z -> res fwd_out) (act : Z -> list Z -> list Z -> Z).
Context `{!MsduCheck check act} (e : rx_env) (Henv : env_ok e) (enc : Z).

Lemma amsdu_subframe_safe b pdata n o :
  bytes_ok b -> 0 <= pdata -> 0 <= n -> pdata + ETH_HLEN + n <= zlen b ->
  Forall (pkt_ok b) (indicated o ++ forwarded o) ->
  exists r, amsdu_subframe c check e enc b pdata n o = Ret r /\
    forall o', r = Some o' -> Forall (pkt_ok b) (indicated o' ++ forwarded o') /\
                              zlen (indicated o') <= zlen (indicated o) + 1.
Proof.
  unfold ETH_HLEN. intros Hb Hp Hn Hl Ho. unfold amsdu_subframe.
  destruct (slice_total b pdata 6) as (da & Ed & Ld); [lia..|]. bind_step Ed.
  destruct (slice_total b (pdata + 6) 6) as (sa & Es & Ls); [lia..|]. bind_step Es.
  destruct (_ =? _FAIL); [by eexists|].
  destruct (llc_parse_total b (pdata + ETH_HLEN) n) as (llc & El & Hllc); [done|unfold ETH_HLEN; lia..|].
  bind_step El. pose proof (env_tail e Henv) as Ht. unfold lookahead in Ht.
  destruct (check_act (check := check) (b ++ tail e) (pdata + ETH_HLEN) llc da sa) as (w & Ew & _); [unfold ETH_HLEN; lia| |].
  { intros H8%Hllc. rewrite zlen_app. unfold ETH_HLEN. lia. }
  bind_step Ew.
  destruct (_ =? 0); [eexists; split; [done|]; intros ? [= <-]; split; [done|lia]|].
  destruct (negb (alloc e pdata)); [by eexists|].
  assert (exists s, rtw_os_alloc_msdu_pkt b da sa (pdata + ETH_HLEN) n llc = Ret s /\ pkt_ok b s)
    as (s & Ee & Hok).
  { unfold rtw_os_alloc_msdu_pkt.
    destruct (slice_total b (pdata + ETH_HLEN) n) as (l & El' & Ll); [unfold ETH_HLEN; lia..|].
    bind_step El'. unfold pkt_ok. destruct (llc_true llc).
    - eexists. split; [done|]. specialize (Hllc eq_refl). rewrite !zlen_app, Ld, Ls.
      unfold zlen in *. rewrite length_drop. lia.
    - eexists. split; [done|]. rewrite !zlen_app, Ld, Ls. change (zlen (be16 _)) with 2. lia. }
  bind_step Ee. apply Forall_app in Ho as [H1 H2].
  pose proof (looked_at_ok e enc s (behind e pdata) (proj1 Hok) (env_behind e Henv pdata)) as Hlk.
  destruct (negb (Z.land _ _ =? 0)), (Z.land _ RTW_RX_MSDU_ACT_INDICATE =? 0); cbn [andb]; try bind_step Hlk;
    eexists; (split; [done|]); intros ? [= <-]; cbn [indicated forwarded];
    rewrite ?Forall_app, ?Forall_singleton, ?zlen_app; change (zlen [s]) with 1; split; try lia; done.
Qed.

Lemma amsdu_loop_safe b : forall fuel pdata a_len o,
  bytes_ok b -> 0 <= pdata -> pdata + a_len = zlen b -> 0 <= a_len < Z.of_nat fuel ->
  Forall (pkt_ok b) (indicated o ++ forwarded o) -> zlen (indicated o) < 64 ->
  exists o', amsdu_loop c check e enc fuel b pdata a_len o = Ret o' /\
    Forall (pkt_ok b) (indicated o' ++ forwarded o') /\ zlen (indicated o') <= 64.
Proof.
  induction fuel as [|fuel IH]; intros pdata a_len o Hb Hp Hl Hf Ho Hn; [lia|]. cbn [amsdu_loop].
  assert (exists o', Ret o = Ret o' /\ Forall (pkt_ok b) (indicated o' ++ forwarded o') /\
    zlen (indicated o') <= 64) as Hstop by (exists o; split_and!; [done|done|lia]).
  destruct (Z.leb_spec a_len ETH_HLEN) as [|Ha]; [done|]. unfold ETH_HLEN in Ha.
  destruct (get_be16_total b (pdata + 12)) as (n & Hget & Hbn); [done|lia..|]. bind_step Hget.
  unfold fits in Hbn. destruct (Z.ltb_spec a_len (ETH_HLEN + n)) as [|Hfit]; [done|].
  unfold ETH_HLEN in Hfit.
  destruct (amsdu_subframe_safe b pdata n o) as (r & Hr & Hres);
    [done|lia|lia|unfold ETH_HLEN; lia|done|]. bind_step Hr.
  destruct r as [o'|]; [|done]. destruct (Hres o' eq_refl) as [Ho' Hn'].
  destruct (Z.leb_spec MAX_SUBFRAME_COUNT (zlen (indicated o'))) as [|Hm].
  { exists o'. split_and!; [done|done|lia]. }
  unfold MAX_SUBFRAME_COUNT in Hm.
  assert (0 <= subframe_padding n) by (rewrite subframe_padding_mod; apply Z.mod_pos_bound; lia).
  unfold ETH_HLEN.
  destruct (Z.eqb_spec (a_len - 14 - n) 0); [apply IH; done || lia|].
  destruct (Z.ltb_spec (a_len - 14 - n) (subframe_padding n)).
  - exists o'. split_and!; [done|done|lia].
  - apply IH; done || lia.
Qed.
End Safety.

Lemma pull_shrinks h sz : bytes_ok (data h) ->
  bytes_ok (data (recvframe_pull h sz)) /\ zlen (data (recvframe_pull h sz)) <= zlen (data h).
Proof.
  intros Hh. unfold recvframe_pull. destruct (_ <? _); [split; [done|lia]|]. cbn.
  split; [by apply Forall_drop|]. unfold zlen. rewrite length_drop. lia.
Qed.

Lemma pull_tail_shrinks h sz : bytes_ok (data h) ->
  bytes_ok (data (recvframe_pull_tail h sz)) /\
  zlen (data (recvframe_pull_tail h sz)) <= zlen (data h).
Proof.
  intros Hh. unfold recvframe_pull_tail. destruct (_ <? _); [split; [done|lia]|]. cbn [data set_buf].
  split; [by apply Forall_take|]. unfold zlen. rewrite length_take. lia.
Qed.

(** C39: [amsdu_to_msdu] on any received bytes: the loop ends, at most 64 subframes
    are collected (the size of the [subframes] array), and every packet handed on has an
    Ethernet header and is no longer than the frame.  Its own reads stay inside the
    frame.  The look at each packet and the choice of a queue know no length; with 99
    octets that can be read behind every packet and behind the frame their reads stay
    inside these too (without, [amsdu_eapol_overread] shows a read beyond). *)
Theorem amsdu_to_msdu_safe c check act `{!MsduCheck check act} e f :
  env_ok e -> bytes_ok (data f) ->
  exists o, amsdu_to_msdu c check e f = Ret o /\
    zlen (indicated o) <= 64 /\
    Forall (fun e => 14 <= zlen e <= zlen (data f)) (indicated o ++ forwarded o).
Proof.
  intros He Hb. unfold amsdu_to_msdu. set (g := if negb _ then _ else _).
  assert (bytes_ok (data g) /\ zlen (data g) <= zlen (data f)) as [Hg Hlg].
  { destruct (pull_shrinks f (hdrlen f) Hb) as [B1 L1]. unfold g. clear g.
    set (f1 := recvframe_pull f (hdrlen f)) in *.
    destruct (pull_shrinks f1 (iv_len f1) B1) as [B2 L2]. set (f2 := if 0 <? iv_len f1 then _ else _).
    assert (bytes_ok (data f2) /\ zlen (data f2) <= zlen (data f)) as [B3 L3]
      by (unfold f2; destruct (0 <? _); (split; [done|lia])).
    destruct (pull_tail_shrinks f2 (icv_len f2) B3). destruct (negb _); (split; [done|lia]). }
  destruct (amsdu_loop_safe c check act e He (encrypt g) (data g) (S (length (data g))) 0 (zlen (data g))
    (RxOut [] [] [])) as (o & -> & Ho & Hn);
    [done|lia|lia|unfold zlen; lia|constructor|done|].
  exists o. split; [done|]. split; [done|]. eapply Forall_impl; [exact Ho|]. unfold pkt_ok. lia.
Qed.

(** A frame with one subframe, a short EAPOL packet of type 3. *)
Definition eapol_amsdu : list Z :=
  replicate 6 1 ++ replicate 6 5 ++ [0; 10] ++ [0xaa; 0xaa; 3; 0; 0; 0; 0x88; 0x8e; 2; 3].

Lemma amsdu_to_msdu_safe_witness :
  exists o, amsdu_to_msdu (RxCtx 0 0 2 [] []) (msdu_check None (FwdRx 2 [] [])) ex_env
      (RHdr 1 eapol_amsdu 100 0 false 0 0 0 0 0 false true 0 0 true) = Ret o /\
    zlen (indicated o) <= 64 /\
    Forall (fun e => 14 <= zlen e <= 24) (indicated o ++ forwarded o).
Proof.
  assert (MsduCheck (msdu_check None (FwdRx 2 [] [])) (decision None (FwdRx 2 [] []))) as Hc by (by apply msdu_check_ok).
  apply (amsdu_to_msdu_safe (RxCtx 0 0 2 [] []) (msdu_check None (FwdRx 2 [] [])) (decision None (FwdRx 2 [] [])) ex_env
    (RHdr 1 eapol_amsdu 100 0 false 0 0 0 0 0 false true 0 0 true)); [exact ex_env_ok|by_eval].
Defined.

(** With nothing behind the packet, the same frame makes the code read beyond its buffer. *)
Theorem amsdu_eapol_overread :
  amsdu_to_msdu (RxCtx 0 0 2 [] []) (msdu_check None (FwdRx 2 [] []))
    (RxEnv (fun _ => true) (StCtl false (fun _ _ _ _ => false)) false (fun _ => []) [])
    (RHdr 1 eapol_amsdu 100 0 false 0 0 0 0 0 false true 0 0 true) = Oob.
Proof. vm_compute. reflexivity. Qed.

(** ** Frames with a single MSDU *)

(** Writing the two addresses over the twelve bytes in front of [rest]. *)
Lemma splice_addrs (l rest dst src : list Z) :
  length l = 12%nat -> zlen dst = 6 -> zlen src = 6 ->
  exists d, splice (l ++ rest) 0 dst = Ret d /\ splice d 6 src = Ret (dst ++ src ++ rest).
Proof.
  intros Hl Hd Hs. exists (dst ++ drop 6 l ++ rest). split.
  - rewrite <- (take_drop 6 l) at 1. rewrite <- app_assoc.
    apply (splice_mid [] (take 6 l)); [done|]. rewrite length_take. unfold zlen in *. lia.
  - apply splice_mid; [by rewrite Hd|]. rewrite length_drop. unfold zlen in *. lia.
Qed.

(** What [wlanhdr_to_ethhdr] leaves when the frame is [pre ++ p] after the ICV
    has been removed, in both cases of the encapsulation. *)
Lemma eth_in_place g pre p dst src :
  let f := if negb (encrypt g =? 0) then recvframe_pull_tail g (icv_len g) else g in
  data f = pre ++ p -> zlen pre = hdrlen f + iv_len f -> 14 <= zlen pre -> zlen p < 2 ^ 16 ->
  zlen dst = 6 -> zlen src = 6 ->
  exists r, wlanhdr_to_ethhdr g dst src (if encapsulated p then RTW_RX_LLC_REMOVE else RTW_RX_LLC_KEEP) =
    Ret (_SUCCESS, r) /\ data r = eth_frame dst src p.
Proof.
  intros f Hd Hp Hpre Hlen Hdst Hsrc. unfold wlanhdr_to_ethhdr. fold f. clearbody f.
  pose proof (zlen_nonneg p). unfold eth_frame, SNAP_SIZE, ETH_HLEN.
  assert (forall n, zlen pre - n = hdrlen f + iv_len f - n -> 0 <= n <= zlen pre ->
    data (recvframe_pull f (zlen pre - n)) = drop (Z.to_nat (zlen pre - n)) pre ++ p /\
    zlen (drop (Z.to_nat (zlen pre - n)) pre) = n) as Hpull.
  { intros n _ Hn. unfold recvframe_pull.
    rewrite (proj2 (Z.ltb_ge _ _)) by (rewrite Hd, zlen_app; lia). cbn [data set_buf].
    split; [|unfold zlen in *; rewrite length_drop; lia]. rewrite Hd, drop_app.
    by replace (Z.to_nat (zlen pre - n) - length pre)%nat with 0%nat by (unfold zlen in *; lia). }
  assert (zlen (data f) = zlen pre + zlen p) as Hz by (by rewrite Hd, zlen_app).
  destruct (encapsulated p) eqn:Ep; cbn [llc_true].
  - assert (8 <= zlen p).
    { unfold encapsulated in Ep. by apply andb_true_iff in Ep as [?%Z.leb_le _]. }
    replace (hdrlen f + iv_len f + 6 - 14 + 2) with (zlen pre - 6) by lia.
    rewrite (proj2 (Z.ltb_ge _ _)) by lia. rewrite (proj2 (Z.ltb_ge _ _)) by lia.
    destruct (Hpull 6) as [E L]; [lia..|]. rewrite E.
    destruct (splice_addrs (drop (Z.to_nat (zlen pre - 6)) pre ++ take 6 p) (drop 6 p) dst src)
      as (d & S1 & S2); [rewrite length_app, length_take; unfold zlen in *; lia|done..|].
    rewrite <- app_assoc, take_drop in S1. bind_step S1. bind_step S2. simp_res.
    eexists. split; [done|]. done.
  - replace (hdrlen f + iv_len f + 0 - 14 + 0) with (zlen pre - 14) by lia.
    rewrite (proj2 (Z.ltb_ge _ _)) by lia. rewrite (proj2 (Z.ltb_ge _ _)) by lia.
    destruct (Hpull 14) as [E L]; [lia..|]. rewrite E.
    set (h := drop (Z.to_nat (zlen pre - 14)) pre) in *.
    destruct (splice_addrs (take 12 h) (drop 12 h ++ p) dst src)
      as (d & S1 & S2); [rewrite length_take; unfold zlen in *; lia|done..|].
    rewrite app_assoc, take_drop in S1. bind_step S1. bind_step S2.
    replace (zlen (data f) - (hdrlen f + iv_len f + 0)) with (zlen p) by lia.
    rewrite wrap_small by (unfold fits; lia). rewrite app_assoc.
    assert (splice ((dst ++ src) ++ drop 12 h ++ p) 12 (be16 (zlen p)) =
      Ret ((dst ++ src) ++ be16 (zlen p) ++ p)) as S3.
    { apply splice_mid; [rewrite zlen_app; lia|]. rewrite length_drop. cbn. unfold zlen in *. lia. }
    bind_step S3. eexists. split; [done|]. cbn [data set_buf]. by rewrite <- app_assoc.
Qed.

(** A frame that is not an A-MSDU is handed on, to the network stack and to
    the forwarding path as decided, exactly as the A-MSDU with its payload as
    only subframe would be: as the Ethernet frame of its MSDU; the frame is
    freed unless the network stack took it. *)
Theorem recv_process_mpdu_single c ap e indicate dst src f pre p icv :
  let act := decision ap (FwdRx (to_fr_ds c) (ra c) (ta c)) (zlen pre) dst src in
  frees_ok ap -> env_ok e -> act <> 0 ->
  data f = pre ++ p ++ icv -> zlen pre = hdrlen f + iv_len f -> 14 <= zlen pre ->
  zlen icv = (if encrypt f =? 0 then 0 else icv_len f) ->
  bytes_ok p -> zlen p < 2 ^ 16 -> zlen dst = 6 -> zlen src = 6 ->
  recv_process_mpdu c ap e false indicate false dst src f =
  Ret (MpduOut (if Z.testbit act 0 then indicate else _SUCCESS)
         (deliver1 e (encrypt f) act (tail e) (dst, src, p)) (negb (Z.testbit act 0))).
Proof.
  intros act Hfr He Ha Hd Hp Hpre Hi Hb Hlen Hdst Hsrc. unfold recv_process_mpdu.
  assert (zlen (data f) - hdrlen f - iv_len f - (if negb (encrypt f =? 0) then icv_len f else 0) = zlen p)
    as ->. { rewrite Hd, !zlen_app, Hi. destruct (encrypt f =? 0); cbn [negb]; lia. }
  pose proof (zlen_nonneg p). rewrite wrap_small by (unfold fits; lia).
  assert (at_off (data f) (hdrlen f + iv_len f) p) as Hat by (exists pre, icv; done).
  bind_step (rtw_recv_llc_parse_spec _ _ _ Hat Hb). set (llc := if encapsulated p then _ else _).
  pose proof (msdu_check_ok ap (FwdRx (to_fr_ds c) (ra c) (ta c)) Hfr) as Hc.
  destruct (check_act (data f ++ tail e) (hdrlen f + iv_len f) llc dst src) as (w & Ew & Ea); [lia| |].
  { unfold llc, encapsulated. destruct (Z.leb_spec 8 (zlen p)); [|done]. intros _. pose proof (env_tail e He) as Ht. unfold lookahead in Ht.
    rewrite Hd, !zlen_app. pose proof (zlen_nonneg icv). lia. }
  bind_step Ew. rewrite Ea. rewrite <- Hp. fold act. rewrite (proj2 (Z.eqb_neq act 0)) by done.
  pose proof (act_range (zlen pre) dst src) as Hr4. fold act in Hr4.
  destruct (eth_in_place f pre p dst src) as (r & Hr & Hdr); try done.
  - destruct (encrypt f =? 0); cbn [negb].
    + destruct icv; [by rewrite Hd, app_nil_r|]. rewrite zlen_cons in Hi. pose proof (zlen_nonneg icv). lia.
    + apply (strip_tail _ (pre ++ p) icv); [by rewrite Hd, app_assoc|done].
  - destruct (negb _); [|done]. unfold recvframe_pull_tail. by destruct (_ <? _).
  - fold llc in Hr. bind_step Hr. rewrite Hdr. unfold deliver1. cbn [fst snd].
    pose proof (looked_at_ok e (encrypt f) (eth_frame dst src p) (tail e) (eth_frame_len _ _ _ Hdst Hsrc) (env_tail e He)) as Hl.
    assert (act = 1 \/ act = 2 \/ act = 3) as Hcase by lia. clearbody act.
    destruct Hcase as [->|[-> | ->]]; cbn [Z.eqb Z.land Pos.land Pos.eqb negb andb RTW_RX_MSDU_ACT_FORWARD RTW_RX_MSDU_ACT_INDICATE _SUCCESS];
      [bind_step Hl; done|done|bind_step Hl; done].
Qed.

(** A frame the access point neither indicates nor forwards is freed. *)
Theorem recv_process_mpdu_refused c ap e cannot_run indicate dst src f pre p icv :
  frees_ok ap -> env_ok e -> decision ap (FwdRx (to_fr_ds c) (ra c) (ta c)) (zlen pre) dst src = 0 ->
  data f = pre ++ p ++ icv -> zlen pre = hdrlen f + iv_len f ->
  zlen icv = (if encrypt f =? 0 then 0 else icv_len f) -> bytes_ok p -> zlen p < 2 ^ 16 ->
  recv_process_mpdu c ap e cannot_run indicate false dst src f = Ret (MpduOut _FAIL (RxOut [] [] []) true).
Proof.
  intros Hfr He Ha Hd Hp Hi Hb Hlen. unfold recv_process_mpdu.
  assert (zlen (data f) - hdrlen f - iv_len f - (if negb (encrypt f =? 0) then icv_len f else 0) = zlen p)
    as ->. { rewrite Hd, !zlen_app, Hi. destruct (encrypt f =? 0); cbn [negb]; lia. }
  pose proof (zlen_nonneg p). pose proof (zlen_nonneg pre). rewrite wrap_small by (unfold fits; lia).
  assert (at_off (data f) (hdrlen f + iv_len f) p) as Hat by (exists pre, icv; done).
  bind_step (rtw_recv_llc_parse_spec _ _ _ Hat Hb). set (llc := if encapsulated p then _ else _).
  pose proof (msdu_check_ok ap (FwdRx (to_fr_ds c) (ra c) (ta c)) Hfr) as Hc.
  destruct (check_act (data f ++ tail e) (hdrlen f + iv_len f) llc dst src) as (w & Ew & Ea); [lia| |].
  { unfold llc, encapsulated. destruct (Z.leb_spec 8 (zlen p)); [|done]. intros _. pose proof (env_tail e He) as Ht. unfold lookahead in Ht.
    rewrite Hd, !zlen_app. pose proof (zlen_nonneg icv). lia. }
  bind_step Ew. rewrite <- Hp in Ea. rewrite Ea, Ha. done.
Qed.
End Amsdu.
