(* ===== verification/Rf.v ===== *)
(** * Channels and frequencies

    Models the channel tables of [core/rtw_rf.c] and the functions that relate
    primary channel, bandwidth, centre channel, operating channels and
    frequency: [rtw_get_scch_by_cch_offset], [rtw_get_scch_by_cch_opch],
    [center_chs_*], [rtw_get_op_chs_by_cch_bw], [rtw_get_offset_by_chbw],
    [rtw_get_center_ch], [rtw_get_ch_group], [rtw_ch2freq], [rtw_freq2ch],
    [rtw_chbw_to_freq_range] and [rtw_ch_to_bb_gain_sel]. *)
From S2P Require Import Prelude Ies.

Module Rf.
Import Ies.

Definition CHANNEL_WIDTH_20 : Z := 0.
Definition CHANNEL_WIDTH_40 : Z := 1.
Definition CHANNEL_WIDTH_80 : Z := 2.
Definition CHANNEL_WIDTH_160 : Z := 3.
Definition CHANNEL_WIDTH_5 : Z := 5.
Definition CHANNEL_WIDTH_10 : Z := 6.

(** ** Tables *)

Definition center_ch_2g : list Z := [1; 2; 3; 4; 5; 6; 7; 8; 9; 10; 11; 12; 13; 14].

Definition center_ch_2g_40m : list Z := [3; 4; 5; 6; 7; 8; 9; 10; 11].

Definition op_chs_of_cch_2g_40m : list (list Z) :=
  [[1; 5]; [2; 6]; [3; 7]; [4; 8]; [5; 9]; [6; 10]; [7; 11]; [8; 12]; [9; 13]].

Definition center_ch_5g_20m : list Z :=
  [36; 40; 44; 48; 52; 56; 60; 64; 100; 104; 108; 112; 116; 120; 124; 128; 132; 136; 140; 144;
   149; 153; 157; 161; 165; 169; 173; 177].

Definition center_ch_5g_40m : list Z :=
  [38; 46; 54; 62; 102; 110; 118; 126; 134; 142; 151; 159; 167; 175].

Definition op_chs_of_cch_5g_40m : list (list Z) :=
  [[36; 40]; [44; 48]; [52; 56]; [60; 64]; [100; 104]; [108; 112]; [116; 120]; [124; 128];
   [132; 136]; [140; 144]; [149; 153]; [157; 161]; [165; 169]; [173; 177]].

Definition center_ch_5g_80m : list Z := [42; 58; 106; 122; 138; 155; 171].

Definition op_chs_of_cch_5g_80m : list (list Z) :=
  [[36; 40; 44; 48]; [52; 56; 60; 64]; [100; 104; 108; 112]; [116; 120; 124; 128];
   [132; 136; 140; 144]; [149; 153; 157; 161]; [165; 169; 173; 177]].

Definition center_ch_5g_160m : list Z := [50; 114; 163].

Definition op_chs_of_cch_5g_160m : list (list Z) :=
  [[36; 40; 44; 48; 52; 56; 60; 64]; [100; 104; 108; 112; 116; 120; 124; 128];
   [149; 153; 157; 161; 165; 169; 173; 177]].

(** [struct center_chs_ent_t] and [struct op_chs_ent_t]: a count and the base of
    an array, here the array itself. *)
Record chs_ent := ChsEnt { ch_num : Z; chs : list Z }.

Definition center_chs_2g_by_bw : list chs_ent := [ChsEnt 14 center_ch_2g; ChsEnt 9 center_ch_2g_40m].
Definition center_chs_5g_by_bw : list chs_ent :=
  [ChsEnt 28 center_ch_5g_20m; ChsEnt 14 center_ch_5g_40m; ChsEnt 7 center_ch_5g_80m;
   ChsEnt 3 center_ch_5g_160m].

(** The two-dimensional tables are cast to [u8 *]: rows in sequence. *)
Definition op_chs_of_cch_2g_by_bw : list chs_ent :=
  [ChsEnt 1 center_ch_2g; ChsEnt 2 (concat op_chs_of_cch_2g_40m)].
Definition op_chs_of_cch_5g_by_bw : list chs_ent :=
  [ChsEnt 1 center_ch_5g_20m; ChsEnt 2 (concat op_chs_of_cch_5g_40m);
   ChsEnt 4 (concat op_chs_of_cch_5g_80m); ChsEnt 8 (concat op_chs_of_cch_5g_160m)].

(** ** Functions *)

Definition rtw_get_scch_by_cch_offset (cch bw offset : Z) : Z :=
  let shift d := u8 (if offset =? HAL_PRIME_CHNL_OFFSET_UPPER then cch + d else cch - d) in
  if bw =? CHANNEL_WIDTH_20 then cch
  else if offset =? HAL_PRIME_CHNL_OFFSET_DONT_CARE then 0
  else if (3 <=? cch) && (cch <=? 11) && (bw =? CHANNEL_WIDTH_40) then shift 2
  else if (50 <=? cch) && (cch <=? 163) && (bw =? CHANNEL_WIDTH_160) then shift 8
  else if (42 <=? cch) && (cch <=? 171) && (bw =? CHANNEL_WIDTH_80) then shift 4
  else if (38 <=? cch) && (cch <=? 175) && (bw =? CHANNEL_WIDTH_40) then shift 2
  else 0.

Definition rtw_get_scch_by_cch_opch (cch bw opch : Z) : Z :=
  let offset := if cch <? opch then HAL_PRIME_CHNL_OFFSET_UPPER
                else if opch <? cch then HAL_PRIME_CHNL_OFFSET_LOWER
                else HAL_PRIME_CHNL_OFFSET_DONT_CARE in
  rtw_get_scch_by_cch_offset cch bw offset.

Definition center_chs_2g_num (bw : Z) : res Z :=
  if CHANNEL_WIDTH_40 <? bw then Ret 0 else e ← rd center_chs_2g_by_bw bw; Ret (ch_num e).

Definition center_chs_2g (bw id : Z) : res Z :=
  if CHANNEL_WIDTH_40 <? bw then Ret 0
  else
    n ← center_chs_2g_num bw;
    if n <=? id then Ret 0 else e ← rd center_chs_2g_by_bw bw; rd (chs e) id.

Definition center_chs_5g_num (bw : Z) : res Z :=
  if CHANNEL_WIDTH_160 <? bw then Ret 0 else e ← rd center_chs_5g_by_bw bw; Ret (ch_num e).

Definition center_chs_5g (bw id : Z) : res Z :=
  if CHANNEL_WIDTH_160 <? bw then Ret 0
  else
    n ← center_chs_5g_num bw;
    if n <=? id then Ret 0 else e ← rd center_chs_5g_by_bw bw; rd (chs e) id.

(** [for (i = 0; i < ch_num; i++) if (cch == chs[i]) break;] from index [i] on,
    [n] iterations left. *)
Fixpoint find_ch (n : nat) (l : list Z) (cch i : Z) : res Z :=
  match n with
  | O => Ret i
  | S n => x ← rd l i; if cch =? x then Ret i else find_ch n l cch (i + 1)
  end.

(** [rtw_get_op_chs_by_cch_bw]: the [op_ch_num] channels at [*op_chs], when
    valid. *)
Definition rtw_get_op_chs_by_cch_bw (cch bw : Z) : res (option (list Z)) :=
  let search tc to :=
    c ← rd tc bw;
    o ← rd to bw;
    i ← find_ch (Z.to_nat (ch_num c)) (chs c) cch 0;
    if i =? ch_num c then Ret None
    else l ← slice (chs o) (ch_num o * i) (ch_num o); Ret (Some l) in
  if (cch <=? 14) && (bw <=? CHANNEL_WIDTH_40) then search center_chs_2g_by_bw op_chs_of_cch_2g_by_bw
  else if (36 <=? cch) && (cch <=? 177) && (bw <=? CHANNEL_WIDTH_160)
  then search center_chs_5g_by_bw op_chs_of_cch_5g_by_bw
  else Ret None.

Definition lower_chs : list Z := [36; 44; 52; 60; 100; 108; 116; 124; 132; 140; 149; 157; 165; 173].
Definition upper_chs : list Z := [40; 48; 56; 64; 104; 112; 120; 128; 136; 144; 153; 161; 169; 177].

(** [rtw_get_offset_by_chbw] with [*r_offset] on entry; [Some] of [*r_offset] on
    exit when valid, [None] otherwise. *)
Definition rtw_get_offset_by_chbw (ch bw r_offset : Z) : option Z :=
  if bw =? CHANNEL_WIDTH_20 then Some HAL_PRIME_CHNL_OFFSET_DONT_CARE
  else if (CHANNEL_WIDTH_80 <=? bw) && (ch <=? 14) then None
  else if (1 <=? ch) && (ch <=? 4) then Some HAL_PRIME_CHNL_OFFSET_LOWER
  else if (5 <=? ch) && (ch <=? 9) then
    if (r_offset =? HAL_PRIME_CHNL_OFFSET_LOWER) || (r_offset =? HAL_PRIME_CHNL_OFFSET_UPPER)
    then Some r_offset else Some HAL_PRIME_CHNL_OFFSET_UPPER
  else if (10 <=? ch) && (ch <=? 13) then Some HAL_PRIME_CHNL_OFFSET_UPPER
  else if ch =? 14 then None
  else if (36 <=? ch) && (ch <=? 177) then
    if existsb (Z.eqb ch) lower_chs then Some HAL_PRIME_CHNL_OFFSET_LOWER
    else if existsb (Z.eqb ch) upper_chs then Some HAL_PRIME_CHNL_OFFSET_UPPER
    else None
  else None.

Definition between (lo x hi : Z) : bool := (lo <=? x) && (x <=? hi).

Definition rtw_get_center_ch (ch bw offset : Z) : Z :=
  if bw =? CHANNEL_WIDTH_160 then
    if ch `mod` 4 =? 0 then
      if between 36 ch 64 then 50 else if between 100 ch 128 then 114 else ch
    else if ch `mod` 4 =? 1 then if between 149 ch 177 then 163 else ch
    else ch
  else if bw =? CHANNEL_WIDTH_80 then
    if ch <=? 14 then 7
    else if ch `mod` 4 =? 0 then
      if between 36 ch 48 then 42 else if between 52 ch 64 then 58
      else if between 100 ch 112 then 106 else if between 116 ch 128 then 122
      else if between 132 ch 144 then 138 else ch
    else if ch `mod` 4 =? 1 then
      if between 149 ch 161 then 155 else if between 165 ch 177 then 171 else ch
    else ch
  else if bw =? CHANNEL_WIDTH_40 then
    if offset =? HAL_PRIME_CHNL_OFFSET_LOWER then u8 (ch + 2)
    else if offset =? HAL_PRIME_CHNL_OFFSET_UPPER then u8 (ch - 2)
    else ch
  else ch.

(** [BAND_TYPE]. *)
Inductive BAND_TYPE := BAND_ON_2_4G | BAND_ON_5G | BAND_MAX.

(** [rtw_get_ch_group]: the band, and the values stored to [*group] and
    [*cck_group] when they are written. *)
Definition rtw_get_ch_group (ch : Z) : BAND_TYPE * option Z * option Z :=
  if ch <=? 14 then
    let gp := if between 1 ch 2 then 0 else if between 3 ch 5 then 1 else if between 6 ch 8 then 2
              else if between 9 ch 11 then 3 else if between 12 ch 14 then 4 else -1 in
    let cck_gp := if ch =? 14 then 5 else gp in
    if gp =? -1 then (BAND_MAX, None, None) else (BAND_ON_2_4G, Some gp, Some cck_gp)
  else
    let gp := if between 36 ch 42 then 0 else if between 44 ch 48 then 1
              else if between 50 ch 58 then 2 else if between 60 ch 64 then 3
              else if between 100 ch 106 then 4 else if between 108 ch 114 then 5
              else if between 116 ch 122 then 6 else if between 124 ch 130 then 7
              else if between 132 ch 138 then 8 else if between 140 ch 144 then 9
              else if between 149 ch 155 then 10 else if between 157 ch 161 then 11
              else if between 165 ch 171 then 12 else if between 173 ch 177 then 13 else -1 in
    if gp =? -1 then (BAND_MAX, None, None) else (BAND_ON_5G, Some gp, None).

Definition rtw_ch2freq (chan : Z) : Z :=
  if between 1 chan 14 then if chan =? 14 then 2484 else 2407 + chan * 5
  else if between 36 chan 177 then 5000 + chan * 5
  else 0.

(** C division truncates towards zero. *)
Definition rtw_freq2ch (freq : Z) : Z :=
  if freq =? 2484 then 14
  else if freq <? 2484 then Z.quot (freq - 2407) 5
  else if between 4910 freq 4980 then Z.quot (freq - 4000) 5
  else if freq <=? 45000 then Z.quot (freq - 5000) 5
  else if between 58320 freq 64800 then Z.quot (freq - 56160) 2160
  else 0.

(** [rtw_chbw_to_freq_range]: validity, [*hi] and [*lo]. *)
Definition rtw_chbw_to_freq_range (ch bw offset : Z) : bool * Z * Z :=
  let c_ch := rtw_get_center_ch ch bw offset in
  let freq := rtw_ch2freq c_ch in
  if freq =? 0 then (false, 0, 0)
  else if bw =? CHANNEL_WIDTH_160 then (true, u32 (freq + 80), u32 (freq - 80))
  else if bw =? CHANNEL_WIDTH_80 then (true, u32 (freq + 40), u32 (freq - 40))
  else if bw =? CHANNEL_WIDTH_40 then (true, u32 (freq + 20), u32 (freq - 20))
  else if bw =? CHANNEL_WIDTH_20 then (true, u32 (freq + 10), u32 (freq - 10))
  else (true, 0, 0).

Inductive bb_gain := BB_GAIN_2G | BB_GAIN_5GLB1 | BB_GAIN_5GLB2 | BB_GAIN_5GMB1 | BB_GAIN_5GMB2
  | BB_GAIN_5GHB.

(** [rtw_ch_to_bb_gain_sel]; [None] is -1. *)
Definition rtw_ch_to_bb_gain_sel (ch : Z) : option bb_gain :=
  if between 1 ch 14 then Some BB_GAIN_2G
  else if (36 <=? ch) && (ch <? 48) then Some BB_GAIN_5GLB1
  else if between 52 ch 64 then Some BB_GAIN_5GLB2
  else if between 100 ch 120 then Some BB_GAIN_5GMB1
  else if between 124 ch 144 then Some BB_GAIN_5GMB2
  else if between 149 ch 177 then Some BB_GAIN_5GHB
  else None.

(** ** Consistency *)

Definition primary_chs : list Z := center_ch_2g ++ center_ch_5g_20m.

(** The band the 20 MHz channels [ops] cover together. *)
Definition band_hi (ops : list Z) : Z := foldr Z.max 0 (map (fun op => rtw_ch2freq op + 10) ops).
Definition band_lo (ops : list Z) : Z := foldr Z.min (2 ^ 31) (map (fun op => rtw_ch2freq op - 10) ops).

(** What must hold of the operating channels [ops] of primary channel [ch] with
    bandwidth [bw] and offset [off]. *)
Definition chbw_ok (ch bw off : Z) (ops : list Z) : Prop :=
  let cch := rtw_get_center_ch ch bw off in
  ch ∈ ops /\ zlen ops = 2 ^ bw /\
  rtw_chbw_to_freq_range ch bw off = (true, band_hi ops, band_lo ops) /\
  band_hi ops - band_lo ops = 20 * 2 ^ bw /\
  Forall (fun op => op ∈ primary_chs /\ rtw_freq2ch (rtw_ch2freq op) = op) ops /\
  Forall (fun op => Exists (fun o => rtw_get_center_ch op bw o = cch) [0; 1; 2]) ops /\
  (bw <> CHANNEL_WIDTH_20 ->
   rtw_get_scch_by_cch_opch cch bw ch =
   rtw_get_center_ch ch (bw - 1) (default 0 (rtw_get_offset_by_chbw ch (bw - 1) off))).

#[local] Instance chbw_ok_dec ch bw off ops : Decision (chbw_ok ch bw off ops).
Proof. unfold chbw_ok. apply _. Defined.

(** The one gap: channels 132 to 144 have no 160 MHz block, yet an offset. *)
Definition no_160 (ch bw : Z) : Prop := bw = CHANNEL_WIDTH_160 /\ 132 <= ch <= 144.

#[local] Instance no_160_dec ch bw : Decision (no_160 ch bw).
Proof. unfold no_160. apply _. Defined.

Definition chbw_check (ch bw off0 : Z) : bool :=
  match rtw_get_offset_by_chbw ch bw off0 with
  | Some off =>
      bool_decide (no_160 ch bw) ||
      match rtw_get_op_chs_by_cch_bw (rtw_get_center_ch ch bw off) bw with
      | Ret (Some ops) => bool_decide (chbw_ok ch bw off ops)
      | _ => false
      end
  | None => true
  end.

Lemma chbw_check_all :
  forallb (fun ch => forallb (fun bw => forallb (chbw_check ch bw) [0; 1; 2]) [0; 1; 2; 3]) primary_chs
  = true.
Proof. vm_compute. reflexivity. Qed.

Lemma chbw_check_true ch bw off0 :
  ch ∈ primary_chs -> 0 <= bw <= 3 -> 0 <= off0 <= 2 -> chbw_check ch bw off0 = true.
Proof.
  intros Hch Hbw Ho. pose proof chbw_check_all as H. rewrite forallb_forall in H.
  specialize (H ch (proj1 (list_elem_of_In _ _) Hch)). rewrite forallb_forall in H.
  assert (In bw [0; 1; 2; 3]) as Hb by (cbn; lia). specialize (H bw Hb). rewrite forallb_forall in H.
  apply H. cbn. lia.
Qed.

(** Channel arithmetic agrees with the channel tables: for every primary
    channel, bandwidth and offset that [rtw_get_offset_by_chbw] accepts (160 MHz
    on channels 132 to 144 apart, which it accepts although no such block
    exists), the centre channel has an entry in the tables whose operating
    channels include the primary one, are [2^bw] many and cover exactly the
    frequency range computed; each of them maps to its frequency and back and to
    the same centre channel; and the centre channel of the next smaller
    bandwidth is that of the primary channel. *)
Theorem rtw_chbw_consistent ch bw off0 off :
  ch ∈ primary_chs -> 0 <= bw <= 3 -> 0 <= off0 <= 2 ->
  rtw_get_offset_by_chbw ch bw off0 = Some off -> ~ no_160 ch bw ->
  exists ops, rtw_get_op_chs_by_cch_bw (rtw_get_center_ch ch bw off) bw = Ret (Some ops) /\
    chbw_ok ch bw off ops.
Proof.
  intros Hch Hbw Ho E Hno. pose proof (chbw_check_true ch bw off0 Hch Hbw Ho) as H.
  unfold chbw_check in H. rewrite E in H. rewrite (bool_decide_eq_false_2 _ Hno) in H. cbn [orb] in H.
  destruct (rtw_get_op_chs_by_cch_bw _ _) as [[ops|]| |]; [|done..].
  exists ops. split; [done|]. by apply bool_decide_eq_true in H.
Qed.

Lemma rtw_chbw_consistent_witness :
  exists ops, rtw_get_op_chs_by_cch_bw 42 2 = Ret (Some ops) /\ chbw_ok 44 2 1 ops.
Proof.
  apply (rtw_chbw_consistent 44 2 0 1); [by_eval|by_eval|by_eval|reflexivity|by_eval].
Defined.

(** Which channels the two directions of the frequency map agree on. *)
Lemma rtw_ch2freq_freq2ch ch : rtw_ch2freq ch <> 0 -> rtw_freq2ch (rtw_ch2freq ch) = ch.
Proof.
  unfold rtw_ch2freq, rtw_freq2ch, between. intros Hz.
  repeat (match goal with
    | |- context [?a <=? ?b] => destruct (Z.leb_spec a b)
    | |- context [?a <? ?b] => destruct (Z.ltb_spec a b)
    | |- context [?a =? ?b] => destruct (Z.eqb_spec a b)
    | H : context [?a <=? ?b] |- _ => destruct (Z.leb_spec a b)
    | H : context [?a =? ?b] |- _ => destruct (Z.eqb_spec a b)
    end; cbn [andb] in *; try lia).
  all: try (rewrite Z.quot_div_nonneg by lia); try (symmetry; apply (Z.div_unique _ _ _ 0); lia).
Qed.

(** Of all primary channels only channel 48 has no baseband gain entry: its upper
    bound is written as [< 48]. *)
Lemma rtw_ch_to_bb_gain_sel_gap ch :
  ch ∈ primary_chs -> (rtw_ch_to_bb_gain_sel ch = None <-> ch = 48).
Proof.
  assert (Forall (fun c => rtw_ch_to_bb_gain_sel c = None <-> c = 48) primary_chs) as H.
  { repeat (constructor; [split; [discriminate || reflexivity|discriminate || reflexivity]|]).
    constructor. }
  intros Hch. rewrite Forall_forall in H. by apply H.
Qed.

End Rf.
