(* ===== verification/Aes.v ===== *)
(** * AES encryption

    Models [core/crypto/aes-internal.c] ([Te0], [rijndaelKeySetupEnc]),
    [core/crypto/aes_i.h] (the table macros, in the variant
    [AES_SMALL_TABLES]) and [core/crypto/aes-internal-enc.c]
    ([rijndaelEncrypt], [aes_encrypt_init], [aes_encrypt]).  The reference is the
    cipher of FIPS 197 written from its definition (module [Fips]: finite field
    arithmetic, S-box by inversion and affine map, the four round
    transformations, the key expansion); the table driven code is proved equal to
    it for the three key sizes.

    The class [BlockCipher] is what the modes of operation rely on: the modes of
    [Modes], [Ccm] and [Gcm] are proved against it and [Aes] discharges it. *)
From S2P Require Import Prelude.

(** ** FIPS 197 *)

Module Fips.

(** A column of the state, or a word of the key schedule: four bytes. *)
Record col := Col { c0 : Z; c1 : Z; c2 : Z; c3 : Z }.

#[export] Instance col_eq_dec : EqDecision col.
Proof. solve_decision. Defined.
#[export] Instance col_inhabited : Inhabited col := populate (Col 0 0 0 0).

(** Multiplication in GF(2^8) modulo x^8 + x^4 + x^3 + x + 1. *)
Definition xtime (a : Z) : Z :=
  let b := Z.shiftl a 1 in if Z.testbit a 7 then Z.lxor b 0x11b else b.

Fixpoint gmul_loop (n : nat) (a b : Z) : Z :=
  match n with
  | O => 0
  | S n => Z.lxor (if Z.odd a then b else 0) (gmul_loop n (Z.shiftr a 1) (xtime b))
  end.
Definition gmul (a b : Z) : Z := gmul_loop 8 a b.

(** The inverse, a^254 (and 0 for 0). *)
Definition ginv (a : Z) : Z :=
  let a2 := gmul a a in let a4 := gmul a2 a2 in let a8 := gmul a4 a4 in
  let a16 := gmul a8 a8 in let a32 := gmul a16 a16 in let a64 := gmul a32 a32 in
  let a128 := gmul a64 a64 in
  gmul a128 (gmul a64 (gmul a32 (gmul a16 (gmul a8 (gmul a4 a2))))).

Definition rotl8 (a : Z) (k : Z) : Z := u8 (Z.lor (Z.shiftl a k) (Z.shiftr a (8 - k))).

(** 5.1.1: inversion, then the affine transformation. *)
Definition sbox (a : Z) : Z :=
  let b := ginv a in
  Z.lxor (Z.lxor (Z.lxor (Z.lxor (Z.lxor b (rotl8 b 1)) (rotl8 b 2)) (rotl8 b 3)) (rotl8 b 4)) 0x63.

Definition col_map (f : Z -> Z) (c : col) : col := Col (f (c0 c)) (f (c1 c)) (f (c2 c)) (f (c3 c)).
Definition col_xor (a b : col) : col :=
  Col (Z.lxor (c0 a) (c0 b)) (Z.lxor (c1 a) (c1 b)) (Z.lxor (c2 a) (c2 b)) (Z.lxor (c3 a) (c3 b)).

Definition state : Type := col * col * col * col.

Definition state_map (f : col -> col) (s : state) : state :=
  let '(a, b, c, d) := s in (f a, f b, f c, f d).

Definition SubBytes : state -> state := state_map (col_map sbox).

(** Row [r] moves left by [r]. *)
Definition ShiftRows (s : state) : state :=
  let '(a, b, c, d) := s in
  (Col (c0 a) (c1 b) (c2 c) (c3 d), Col (c0 b) (c1 c) (c2 d) (c3 a),
   Col (c0 c) (c1 d) (c2 a) (c3 b), Col (c0 d) (c1 a) (c2 b) (c3 c)).

Definition xor4 (a b c d : Z) : Z := Z.lxor (Z.lxor (Z.lxor a b) c) d.

Definition MixColumn (c : col) : col :=
  Col (xor4 (gmul 2 (c0 c)) (gmul 3 (c1 c)) (c2 c) (c3 c))
      (xor4 (c0 c) (gmul 2 (c1 c)) (gmul 3 (c2 c)) (c3 c))
      (xor4 (c0 c) (c1 c) (gmul 2 (c2 c)) (gmul 3 (c3 c)))
      (xor4 (gmul 3 (c0 c)) (c1 c) (c2 c) (gmul 2 (c3 c))).
Definition MixColumns : state -> state := state_map MixColumn.

Definition AddRoundKey (s k : state) : state :=
  let '(a, b, c, d) := s in let '(e, f, g, h) := k in
  (col_xor a e, col_xor b f, col_xor c g, col_xor d h).

(** 5.2, key expansion. *)
Definition RotWord (t : col) : col := Col (c1 t) (c2 t) (c3 t) (c0 t).
Definition SubWord : col -> col := col_map sbox.
Definition Rcon (i : nat) : col := Col (Nat.iter (i - 1) xtime 1) 0 0 0.

Definition expand_temp (Nk i : nat) (t : col) : col :=
  if decide (i mod Nk = 0)%nat then col_xor (SubWord (RotWord t)) (Rcon (i / Nk))
  else if decide (6 < Nk /\ i mod Nk = 4)%nat then SubWord t else t.

Definition next_word (Nk : nat) (w : list col) : col :=
  let i := length w in col_xor (w !!! (i - Nk)%nat) (expand_temp Nk i (w !!! (i - 1)%nat)).

Fixpoint expand (Nk n : nat) (key : list col) : list col :=
  match n with
  | O => key
  | S n => let w := expand Nk n key in w ++ [next_word Nk w]
  end.

Definition round_key (w : list col) (r : nat) : state :=
  (w !!! (4 * r)%nat, w !!! (4 * r + 1)%nat, w !!! (4 * r + 2)%nat, w !!! (4 * r + 3)%nat).

Definition round (w : list col) (s : state) (r : nat) : state :=
  AddRoundKey (MixColumns (ShiftRows (SubBytes s))) (round_key w r).

(** 5.1, the cipher: [Nr - 1] rounds and one without MixColumns. *)
Definition cipher (w : list col) (Nr : nat) (s : state) : state :=
  let s := fold_left (round w) (seq 1 (Nr - 1)) (AddRoundKey s (round_key w 0)) in
  AddRoundKey (ShiftRows (SubBytes s)) (round_key w Nr).

Fixpoint cols_of (b : list Z) : list col :=
  match b with
  | x0 :: x1 :: x2 :: x3 :: r => Col x0 x1 x2 x3 :: cols_of r
  | _ => []
  end.
Definition bytes_of_col (c : col) : list Z := [c0 c; c1 c; c2 c; c3 c].
Definition bytes_of (s : state) : list Z :=
  let '(a, b, c, d) := s in bytes_of_col a ++ bytes_of_col b ++ bytes_of_col c ++ bytes_of_col d.
Definition state_of (b : list Z) : state :=
  let w := cols_of b in (w !!! 0%nat, w !!! 1%nat, w !!! 2%nat, w !!! 3%nat).

(** [Nk] words of key, [Nk + 6] rounds. *)
Definition aes (key b : list Z) : list Z :=
  let Nk := (length key / 4)%nat in
  let Nr := (Nk + 6)%nat in
  bytes_of (cipher (expand Nk (4 * (Nr + 1) - Nk) (cols_of key)) Nr (state_of b)).

(** Appendix C.1 of the standard. *)
Example aes_c1 :
  aes (map Z.of_nat (seq 0 16)) (map (fun i => 0x11 * Z.of_nat i) (seq 0 16)) =
  [0x69; 0xc4; 0xe0; 0xd8; 0x6a; 0x7b; 0x04; 0x30; 0xd8; 0xcd; 0xb7; 0x80; 0x70; 0xb4; 0xc5; 0x5a].
Proof. vm_compute. reflexivity. Qed.
End Fips.

(** ** The interface of a block cipher

    The modes use a context made from a key and an encryption of 16 byte blocks.
    [holds c k]: context [c] was made from key [k]; [block_cipher k] is the function on
    blocks the key stands for.  The key is the first bytes of a buffer; the allocation
    of the context can fail. *)

Definition is_block (b : list Z) : Prop := length b = 16%nat /\ bytes_ok b.
Definition is_key (k : list Z) : Prop := bytes_ok k /\ zlen k ∈ [16; 24; 32].
(** The result of an allocation of 61 words. *)
Definition is_mem (m : option (list Z)) : Prop := forall l, m = Some l -> length l = 61%nat.

#[export] Instance is_block_dec b : Decision (is_block b).
Proof. unfold is_block. apply _. Defined.
#[export] Instance is_key_dec k : Decision (is_key k).
Proof. unfold is_key. apply _. Defined.

Class BlockCipher (ctx : Type) := {
  block_init : option (list Z) -> list Z -> Z -> res (option ctx);
  block_encrypt : ctx -> list Z -> res (list Z);
  block_cipher : list Z -> list Z -> list Z;
  holds : ctx -> list Z -> Prop;
  init_none : forall k n, block_init None k n = Ret None;
  init_some : forall m k r, length m = 61%nat -> is_key k ->
    exists c, block_init (Some m) (k ++ r) (zlen k) = Ret (Some c) /\ holds c k;
  encrypt_holds : forall c k b, holds c k -> is_block b ->
    block_encrypt c b = Ret (block_cipher k b) /\ is_block (block_cipher k b)
}.

Module Aes.
Import Fips.

(** ** Tables and macros *)

Definition Te0 : list Z :=
  [0xc66363a5; 0xf87c7c84; 0xee777799; 0xf67b7b8d; 0xfff2f20d; 0xd66b6bbd;
   0xde6f6fb1; 0x91c5c554; 0x60303050; 0x02010103; 0xce6767a9; 0x562b2b7d;
   0xe7fefe19; 0xb5d7d762; 0x4dababe6; 0xec76769a; 0x8fcaca45; 0x1f82829d;
   0x89c9c940; 0xfa7d7d87; 0xeffafa15; 0xb25959eb; 0x8e4747c9; 0xfbf0f00b;
   0x41adadec; 0xb3d4d467; 0x5fa2a2fd; 0x45afafea; 0x239c9cbf; 0x53a4a4f7;
   0xe4727296; 0x9bc0c05b; 0x75b7b7c2; 0xe1fdfd1c; 0x3d9393ae; 0x4c26266a;
   0x6c36365a; 0x7e3f3f41; 0xf5f7f702; 0x83cccc4f; 0x6834345c; 0x51a5a5f4;
   0xd1e5e534; 0xf9f1f108; 0xe2717193; 0xabd8d873; 0x62313153; 0x2a15153f;
   0x0804040c; 0x95c7c752; 0x46232365; 0x9dc3c35e; 0x30181828; 0x379696a1;
   0x0a05050f; 0x2f9a9ab5; 0x0e070709; 0x24121236; 0x1b80809b; 0xdfe2e23d;
   0xcdebeb26; 0x4e272769; 0x7fb2b2cd; 0xea75759f; 0x1209091b; 0x1d83839e;
   0x582c2c74; 0x341a1a2e; 0x361b1b2d; 0xdc6e6eb2; 0xb45a5aee; 0x5ba0a0fb;
   0xa45252f6; 0x763b3b4d; 0xb7d6d661; 0x7db3b3ce; 0x5229297b; 0xdde3e33e;
   0x5e2f2f71; 0x13848497; 0xa65353f5; 0xb9d1d168; 0x00000000; 0xc1eded2c;
   0x40202060; 0xe3fcfc1f; 0x79b1b1c8; 0xb65b5bed; 0xd46a6abe; 0x8dcbcb46;
   0x67bebed9; 0x7239394b; 0x944a4ade; 0x984c4cd4; 0xb05858e8; 0x85cfcf4a;
   0xbbd0d06b; 0xc5efef2a; 0x4faaaae5; 0xedfbfb16; 0x864343c5; 0x9a4d4dd7;
   0x66333355; 0x11858594; 0x8a4545cf; 0xe9f9f910; 0x04020206; 0xfe7f7f81;
   0xa05050f0; 0x783c3c44; 0x259f9fba; 0x4ba8a8e3; 0xa25151f3; 0x5da3a3fe;
   0x804040c0; 0x058f8f8a; 0x3f9292ad; 0x219d9dbc; 0x70383848; 0xf1f5f504;
   0x63bcbcdf; 0x77b6b6c1; 0xafdada75; 0x42212163; 0x20101030; 0xe5ffff1a;
   0xfdf3f30e; 0xbfd2d26d; 0x81cdcd4c; 0x180c0c14; 0x26131335; 0xc3ecec2f;
   0xbe5f5fe1; 0x359797a2; 0x884444cc; 0x2e171739; 0x93c4c457; 0x55a7a7f2;
   0xfc7e7e82; 0x7a3d3d47; 0xc86464ac; 0xba5d5de7; 0x3219192b; 0xe6737395;
   0xc06060a0; 0x19818198; 0x9e4f4fd1; 0xa3dcdc7f; 0x44222266; 0x542a2a7e;
   0x3b9090ab; 0x0b888883; 0x8c4646ca; 0xc7eeee29; 0x6bb8b8d3; 0x2814143c;
   0xa7dede79; 0xbc5e5ee2; 0x160b0b1d; 0xaddbdb76; 0xdbe0e03b; 0x64323256;
   0x743a3a4e; 0x140a0a1e; 0x924949db; 0x0c06060a; 0x4824246c; 0xb85c5ce4;
   0x9fc2c25d; 0xbdd3d36e; 0x43acacef; 0xc46262a6; 0x399191a8; 0x319595a4;
   0xd3e4e437; 0xf279798b; 0xd5e7e732; 0x8bc8c843; 0x6e373759; 0xda6d6db7;
   0x018d8d8c; 0xb1d5d564; 0x9c4e4ed2; 0x49a9a9e0; 0xd86c6cb4; 0xac5656fa;
   0xf3f4f407; 0xcfeaea25; 0xca6565af; 0xf47a7a8e; 0x47aeaee9; 0x10080818;
   0x6fbabad5; 0xf0787888; 0x4a25256f; 0x5c2e2e72; 0x381c1c24; 0x57a6a6f1;
   0x73b4b4c7; 0x97c6c651; 0xcbe8e823; 0xa1dddd7c; 0xe874749c; 0x3e1f1f21;
   0x964b4bdd; 0x61bdbddc; 0x0d8b8b86; 0x0f8a8a85; 0xe0707090; 0x7c3e3e42;
   0x71b5b5c4; 0xcc6666aa; 0x904848d8; 0x06030305; 0xf7f6f601; 0x1c0e0e12;
   0xc26161a3; 0x6a35355f; 0xae5757f9; 0x69b9b9d0; 0x17868691; 0x99c1c158;
   0x3a1d1d27; 0x279e9eb9; 0xd9e1e138; 0xebf8f813; 0x2b9898b3; 0x22111133;
   0xd26969bb; 0xa9d9d970; 0x078e8e89; 0x339494a7; 0x2d9b9bb6; 0x3c1e1e22;
   0x15878792; 0xc9e9e920; 0x87cece49; 0xaa5555ff; 0x50282878; 0xa5dfdf7a;
   0x038c8c8f; 0x59a1a1f8; 0x09898980; 0x1a0d0d17; 0x65bfbfda; 0xd7e6e631;
   0x844242c6; 0xd06868b8; 0x824141c3; 0x299999b0; 0x5a2d2d77; 0x1e0f0f11;
   0x7bb0b0cb; 0xa85454fc; 0x6dbbbbd6; 0x2c16163a].

Definition rcons : list Z := [0x01; 0x02; 0x04; 0x08; 0x10; 0x20; 0x40; 0x80; 0x1B; 0x36].

Definition rotr (val bits : Z) : Z := u32 (Z.lor (Z.shiftr val bits) (Z.shiftl val (32 - bits))).

(** [Te0[((i) >> sh) & 0xff]]. *)
Definition Te (sh i : Z) : res Z := rd Te0 (Z.land (Z.shiftr i sh) 0xff).

Definition TE0 (i : Z) : res Z := Te 24 i.
Definition TE1 (i : Z) : res Z := v ← Te 16 i; Ret (rotr v 8).
Definition TE2 (i : Z) : res Z := v ← Te 8 i; Ret (rotr v 16).
Definition TE3 (i : Z) : res Z := v ← Te 0 i; Ret (rotr v 24).

(** [TEx1] to [TEx4] keep one byte of the S-box column, in the position of their
    last digit; the digit before it is the byte of [i] that is looked up. *)
Definition hi_byte (v : Z) : Z := Z.land (u32 (Z.shiftl v 8)) 0xff000000.
Definition TE41 (i : Z) : res Z := v ← Te 24 i; Ret (hi_byte v).
Definition TE42 (i : Z) : res Z := v ← Te 16 i; Ret (Z.land v 0x00ff0000).
Definition TE43 (i : Z) : res Z := v ← Te 8 i; Ret (Z.land v 0x0000ff00).
Definition TE44 (i : Z) : res Z := v ← Te 0 i; Ret (Z.land (Z.shiftr v 8) 0x000000ff).
Definition TE421 (i : Z) : res Z := v ← Te 16 i; Ret (hi_byte v).
Definition TE432 (i : Z) : res Z := v ← Te 8 i; Ret (Z.land v 0x00ff0000).
Definition TE443 (i : Z) : res Z := v ← Te 0 i; Ret (Z.land v 0x0000ff00).
Definition TE414 (i : Z) : res Z := v ← Te 24 i; Ret (Z.land (Z.shiftr v 8) 0x000000ff).
Definition TE411 (i : Z) : res Z := v ← Te 24 i; Ret (hi_byte v).
Definition TE422 (i : Z) : res Z := v ← Te 16 i; Ret (Z.land v 0x00ff0000).
Definition TE433 (i : Z) : res Z := v ← Te 8 i; Ret (Z.land v 0x0000ff00).
Definition TE444 (i : Z) : res Z := v ← Te 0 i; Ret (Z.land (Z.shiftr v 8) 0x000000ff).

Definition RCON (i : Z) : res Z := v ← rd rcons i; Ret (u32 (Z.shiftl v 24)).

Definition GETU32 (b : list Z) (p : Z) : res Z :=
  x0 ← rd b p; x1 ← rd b (p + 1); x2 ← rd b (p + 2); x3 ← rd b (p + 3);
  Ret (Z.lxor (Z.lxor (Z.lxor (u32 (Z.shiftl x0 24)) (u32 (Z.shiftl x1 16)))
         (u32 (Z.shiftl x2 8))) x3).

(** The four bytes [PUTU32] stores. *)
Definition PUTU32 (st : Z) : list Z :=
  [u8 (Z.shiftr st 24); u8 (Z.shiftr st 16); u8 (Z.shiftr st 8); u8 st].

Definition AES_PRIV_NR_POS : Z := 60.
Definition AES_PRIV_WORDS : Z := 61.

(** ** Key setup

    [rk] is the array of 32-bit words; [p] is how far the source has advanced the
    pointer [rk]. *)

(** [rk[d] = rk[a] ^ rk[b]]. *)
Definition xor_into (rk : list Z) (d a b : Z) : res (list Z) :=
  x ← rd rk a; y ← rd rk b; wr rk d (Z.lxor x y).

(** [temp = rk[t]; rk[d] = rk[a] ^ TE421(temp) ^ TE432(temp) ^ TE443(temp) ^
    TE414(temp) ^ RCON(i)]. *)
Definition rot_into (rk : list Z) (t d a i : Z) : res (list Z) :=
  temp ← rd rk t; x ← rd rk a;
  y1 ← TE421 temp; y2 ← TE432 temp; y3 ← TE443 temp; y4 ← TE414 temp; rc ← RCON i;
  wr rk d (Z.lxor (Z.lxor (Z.lxor (Z.lxor (Z.lxor x y1) y2) y3) y4) rc).

(** [temp = rk[t]; rk[d] = rk[a] ^ TE411(temp) ^ TE422(temp) ^ TE433(temp) ^
    TE444(temp)]. *)
Definition sub_into (rk : list Z) (t d a : Z) : res (list Z) :=
  temp ← rd rk t; x ← rd rk a;
  y1 ← TE411 temp; y2 ← TE422 temp; y3 ← TE433 temp; y4 ← TE444 temp;
  wr rk d (Z.lxor (Z.lxor (Z.lxor (Z.lxor x y1) y2) y3) y4).

(** [n] iterations of the 128-bit loop, from [i] on. *)
Fixpoint setup128 (n : nat) (rk : list Z) (p i : Z) : res (list Z) :=
  match n with
  | O => Ret rk
  | S n =>
      rk ← rot_into rk (p + 3) (p + 4) p i;
      rk ← xor_into rk (p + 5) (p + 1) (p + 4);
      rk ← xor_into rk (p + 6) (p + 2) (p + 5);
      rk ← xor_into rk (p + 7) (p + 3) (p + 6);
      setup128 n rk (p + 4) (i + 1)
  end.

(** The 192-bit loop; [Some 12] is the [return 12] at [i == 7]. *)
Fixpoint setup192 (n : nat) (rk : list Z) (p i : Z) : res (list Z * option Z) :=
  match n with
  | O => Ret (rk, None)
  | S n =>
      rk ← rot_into rk (p + 5) (p + 6) p i;
      rk ← xor_into rk (p + 7) (p + 1) (p + 6);
      rk ← xor_into rk (p + 8) (p + 2) (p + 7);
      rk ← xor_into rk (p + 9) (p + 3) (p + 8);
      if i =? 7 then Ret (rk, Some 12) else
      rk ← xor_into rk (p + 10) (p + 4) (p + 9);
      rk ← xor_into rk (p + 11) (p + 5) (p + 10);
      setup192 n rk (p + 6) (i + 1)
  end.

(** The 256-bit loop; [Some 14] is the [return 14] at [i == 6]. *)
Fixpoint setup256 (n : nat) (rk : list Z) (p i : Z) : res (list Z * option Z) :=
  match n with
  | O => Ret (rk, None)
  | S n =>
      rk ← rot_into rk (p + 7) (p + 8) p i;
      rk ← xor_into rk (p + 9) (p + 1) (p + 8);
      rk ← xor_into rk (p + 10) (p + 2) (p + 9);
      rk ← xor_into rk (p + 11) (p + 3) (p + 10);
      if i =? 6 then Ret (rk, Some 14) else
      rk ← sub_into rk (p + 11) (p + 12) (p + 4);
      rk ← xor_into rk (p + 13) (p + 5) (p + 12);
      rk ← xor_into rk (p + 14) (p + 6) (p + 13);
      rk ← xor_into rk (p + 15) (p + 7) (p + 14);
      setup256 n rk (p + 8) (i + 1)
  end.

(** [rk[k] = GETU32(cipherKey + 4 * k)]. *)
Definition get_key (rk cipherKey : list Z) (k : Z) : res (list Z) :=
  x ← GETU32 cipherKey (4 * k); wr rk k x.

(** The words written, and the number of rounds or -1. *)
Definition rijndaelKeySetupEnc (rk cipherKey : list Z) (keyBits : Z) : res (list Z * Z) :=
  rk ← get_key rk cipherKey 0; rk ← get_key rk cipherKey 1;
  rk ← get_key rk cipherKey 2; rk ← get_key rk cipherKey 3;
  if keyBits =? 128 then rk ← setup128 10 rk 0 0; Ret (rk, 10) else
  rk ← get_key rk cipherKey 4; rk ← get_key rk cipherKey 5;
  r ← (if keyBits =? 192 then setup192 8 rk 0 0 else Ret (rk, None));
  match snd r with
  | Some nr => Ret (fst r, nr)
  | None =>
      (** after the 192-bit loop the pointer has moved on by 48 words *)
      let p := if keyBits =? 192 then 48 else 0 in
      x ← GETU32 cipherKey 24; rk ← wr (fst r) (p + 6) x;
      x ← GETU32 cipherKey 28; rk ← wr rk (p + 7) x;
      r ← (if keyBits =? 256 then setup256 7 rk p 0 else Ret (rk, None));
      match snd r with
      | Some nr => Ret (fst r, nr)
      | None => Ret (fst r, -1)
      end
  end.

(** ** Encryption of a block *)

Definition words : Type := Z * Z * Z * Z.

(** [TE0(a) ^ TE1(b) ^ TE2(c) ^ TE3(d) ^ rk[k]]. *)
Definition round_word (rk : list Z) (k a b c d : Z) : res Z :=
  x0 ← TE0 a; x1 ← TE1 b; x2 ← TE2 c; x3 ← TE3 d; x4 ← rd rk k;
  Ret (Z.lxor (Z.lxor (Z.lxor (Z.lxor x0 x1) x2) x3) x4).

(** The macro [ROUND(i, d, s)], with [rk] advanced by [p]. *)
Definition ROUND (rk : list Z) (p i : Z) (s : words) : res words :=
  let '(s0, s1, s2, s3) := s in
  d0 ← round_word rk (p + 4 * i) s0 s1 s2 s3;
  d1 ← round_word rk (p + 4 * i + 1) s1 s2 s3 s0;
  d2 ← round_word rk (p + 4 * i + 2) s2 s3 s0 s1;
  d3 ← round_word rk (p + 4 * i + 3) s3 s0 s1 s2;
  Ret (d0, d1, d2, d3).

(** [TE41(a) ^ TE42(b) ^ TE43(c) ^ TE44(d) ^ rk[k]]. *)
Definition last_word (rk : list Z) (k a b c d : Z) : res Z :=
  x0 ← TE41 a; x1 ← TE42 b; x2 ← TE43 c; x3 ← TE44 d; x4 ← rd rk k;
  Ret (Z.lxor (Z.lxor (Z.lxor (Z.lxor x0 x1) x2) x3) x4).

(** The [for (;;)] loop: two rounds per turn, [r] turns, the last one without
    its second round. *)
Fixpoint rounds_loop (fuel : nat) (rk : list Z) (p r : Z) (s : words) : res (words * Z) :=
  match fuel with
  | O => NoFuel
  | S fuel =>
      t ← ROUND rk p 1 s;
      let p := p + 8 in
      let r := r - 1 in
      if r =? 0 then Ret (t, p) else
      s ← ROUND rk p 0 t;
      rounds_loop fuel rk p r s
  end.

Definition rijndaelEncrypt (rk : list Z) (Nr : Z) (pt : list Z) : res (list Z) :=
  w0 ← GETU32 pt 0; k0 ← rd rk 0;
  w1 ← GETU32 pt 4; k1 ← rd rk 1;
  w2 ← GETU32 pt 8; k2 ← rd rk 2;
  w3 ← GETU32 pt 12; k3 ← rd rk 3;
  let r := Z.shiftr Nr 1 in
  tp ← rounds_loop (Z.to_nat r) rk 0 r (Z.lxor w0 k0, Z.lxor w1 k1, Z.lxor w2 k2, Z.lxor w3 k3);
  let '((t0, t1, t2, t3), p) := tp in
  s0 ← last_word rk p t0 t1 t2 t3;
  s1 ← last_word rk (p + 1) t1 t2 t3 t0;
  s2 ← last_word rk (p + 2) t2 t3 t0 t1;
  s3 ← last_word rk (p + 3) t3 t0 t1 t2;
  Ret (PUTU32 s0 ++ PUTU32 s1 ++ PUTU32 s2 ++ PUTU32 s3).

(** ** The interface of the modes

    [mem] is what [os_malloc(AES_PRIV_SIZE)] returns: [None] for [NULL], or 61
    words with arbitrary contents. *)
Definition aes_encrypt_init (mem : option (list Z)) (key : list Z) (len : Z) : res (option (list Z)) :=
  match mem with
  | None => Ret None
  | Some rk =>
      r ← rijndaelKeySetupEnc rk key (s32 (len * 8));
      if snd r <? 0 then Ret None else
      rk ← wr (fst r) AES_PRIV_NR_POS (snd r);
      Ret (Some rk)
  end.

(** [plain] is the 16 byte input; the result is what is stored at [crypt], which
    may be the same buffer: the code reads all of the input first. *)
Definition aes_encrypt (ctx plain : list Z) : res (list Z) :=
  Nr ← rd ctx AES_PRIV_NR_POS; rijndaelEncrypt ctx Nr plain.

Example aes_run :
  (c ← aes_encrypt_init (Some (replicate 61 0)) (map Z.of_nat (seq 0 16)) 16;
   match c with
   | Some c => aes_encrypt c (map (fun i => 0x11 * Z.of_nat i) (seq 0 16))
   | None => Oob
   end) =
  Ret [0x69; 0xc4; 0xe0; 0xd8; 0x6a; 0x7b; 0x04; 0x30; 0xd8; 0xcd; 0xb7; 0x80; 0x70; 0xb4; 0xc5; 0x5a].
Proof. vm_compute. reflexivity. Qed.

(** ** The tables hold the S-box *)

(** The bytes of a word. *)
Definition unpack (w : Z) : col :=
  Col (Z.land (Z.shiftr w 24) 0xff) (Z.land (Z.shiftr w 16) 0xff)
      (Z.land (Z.shiftr w 8) 0xff) (Z.land (Z.shiftr w 0) 0xff).

(** All the variants of an entry of [Te0] that the macros use. *)
Definition te_ok (x : Z) : bool :=
  match rd Te0 x with
  | Ret v =>
      let s := sbox x in let s2 := gmul 2 s in let s3 := gmul 3 s in
      bool_decide (unpack v = Col s2 s s s3 /\ unpack (rotr v 8) = Col s3 s2 s s /\
        unpack (rotr v 16) = Col s s3 s2 s /\ unpack (rotr v 24) = Col s s s3 s2 /\
        unpack (hi_byte v) = Col s 0 0 0 /\ unpack (Z.land v 0x00ff0000) = Col 0 s 0 0 /\
        unpack (Z.land v 0x0000ff00) = Col 0 0 s 0 /\
        unpack (Z.land (Z.shiftr v 8) 0x000000ff) = Col 0 0 0 s)
  | _ => false
  end.

Lemma te_ok_all : forallb te_ok (seqZ 0 256) = true.
Proof. vm_compute. reflexivity. Qed.

Lemma Te_entry sh i : exists v, Te sh i = Ret v /\
  let x := Z.land (Z.shiftr i sh) 0xff in
  let s := sbox x in let s2 := gmul 2 s in let s3 := gmul 3 s in
  unpack v = Col s2 s s s3 /\ unpack (rotr v 8) = Col s3 s2 s s /\
  unpack (rotr v 16) = Col s s3 s2 s /\ unpack (rotr v 24) = Col s s s3 s2 /\
  unpack (hi_byte v) = Col s 0 0 0 /\ unpack (Z.land v 0x00ff0000) = Col 0 s 0 0 /\
  unpack (Z.land v 0x0000ff00) = Col 0 0 s 0 /\
  unpack (Z.land (Z.shiftr v 8) 0x000000ff) = Col 0 0 0 s.
Proof.
  unfold Te. set (x := Z.land (Z.shiftr i sh) 255).
  assert (fits 8 x) as Hx by (apply land_fits_r; [lia|unfold fits; lia]).
  pose proof (forallb_seqZ _ _ te_ok_all x Hx) as H. unfold te_ok in H.
  destruct (rd Te0 x) as [v| |]; [|done|done]. exists v. split; [done|].
  by apply bool_decide_eq_true in H.
Qed.

(** From here on the field arithmetic is only compared, never evaluated. *)
#[local] Opaque sbox gmul.

Lemma unpack_xor a b : unpack (Z.lxor a b) = col_xor (unpack a) (unpack b).
Proof.
  unfold unpack, col_xor. cbn [c0 c1 c2 c3].
  f_equal; zbits; btauto.
Qed.

(** The macros, as columns. *)
Lemma TE_round a b c d : exists x0 x1 x2 x3,
  TE0 a = Ret x0 /\ TE1 b = Ret x1 /\ TE2 c = Ret x2 /\ TE3 d = Ret x3 /\
  unpack (Z.lxor (Z.lxor (Z.lxor x0 x1) x2) x3) =
    MixColumn (Col (sbox (c0 (unpack a))) (sbox (c1 (unpack b)))
                   (sbox (c2 (unpack c))) (sbox (c3 (unpack d)))).
Proof.
  destruct (Te_entry 24 a) as (v0 & E0 & H0 & _).
  destruct (Te_entry 16 b) as (v1 & E1 & _ & H1 & _).
  destruct (Te_entry 8 c) as (v2 & E2 & _ & _ & H2 & _).
  destruct (Te_entry 0 d) as (v3 & E3 & _ & _ & _ & H3 & _).
  exists v0, (rotr v1 8), (rotr v2 16), (rotr v3 24).
  unfold TE0, TE1, TE2, TE3. rewrite E0, E1, E2, E3.
  repeat (split; [done|]). rewrite !unpack_xor, H0, H1, H2, H3. reflexivity.
Qed.

Lemma xor_bytes4 s0 s1 s2 s3 :
  col_xor (col_xor (col_xor (Col s0 0 0 0) (Col 0 s1 0 0)) (Col 0 0 s2 0)) (Col 0 0 0 s3)
  = Col s0 s1 s2 s3.
Proof. unfold col_xor. cbn [c0 c1 c2 c3]. by rewrite !Z.lxor_0_r, !Z.lxor_0_l. Qed.

Lemma TE_last a b c d : exists x0 x1 x2 x3,
  TE41 a = Ret x0 /\ TE42 b = Ret x1 /\ TE43 c = Ret x2 /\ TE44 d = Ret x3 /\
  unpack (Z.lxor (Z.lxor (Z.lxor x0 x1) x2) x3) =
    Col (sbox (c0 (unpack a))) (sbox (c1 (unpack b)))
        (sbox (c2 (unpack c))) (sbox (c3 (unpack d))).
Proof.
  destruct (Te_entry 24 a) as (v0 & E0 & _ & _ & _ & _ & H0 & _).
  destruct (Te_entry 16 b) as (v1 & E1 & _ & _ & _ & _ & _ & H1 & _).
  destruct (Te_entry 8 c) as (v2 & E2 & _ & _ & _ & _ & _ & _ & H2 & _).
  destruct (Te_entry 0 d) as (v3 & E3 & _ & _ & _ & _ & _ & _ & _ & H3).
  eexists _, _, _, _. unfold TE41, TE42, TE43, TE44. rewrite E0, E1, E2, E3.
  repeat (split; [done|]). rewrite !unpack_xor, H0, H1, H2, H3, xor_bytes4. reflexivity.
Qed.

(** [TE411] to [TE444] are [TE41] to [TE44] on one word, [TE421] to [TE414] the same
    on the rotated word. *)
Lemma TE_sub t : exists x0 x1 x2 x3,
  TE411 t = Ret x0 /\ TE422 t = Ret x1 /\ TE433 t = Ret x2 /\ TE444 t = Ret x3 /\
  unpack (Z.lxor (Z.lxor (Z.lxor x0 x1) x2) x3) = SubWord (unpack t).
Proof. exact (TE_last t t t t). Qed.

Lemma TE_rot t : exists x0 x1 x2 x3,
  TE421 t = Ret x0 /\ TE432 t = Ret x1 /\ TE443 t = Ret x2 /\ TE414 t = Ret x3 /\
  unpack (Z.lxor (Z.lxor (Z.lxor x0 x1) x2) x3) = SubWord (RotWord (unpack t)).
Proof.
  destruct (Te_entry 16 t) as (v0 & E0 & _ & _ & _ & _ & H0 & _).
  destruct (Te_entry 8 t) as (v1 & E1 & _ & _ & _ & _ & _ & H1 & _).
  destruct (Te_entry 0 t) as (v2 & E2 & _ & _ & _ & _ & _ & _ & H2 & _).
  destruct (Te_entry 24 t) as (v3 & E3 & _ & _ & _ & _ & _ & _ & _ & H3).
  eexists _, _, _, _. unfold TE421, TE432, TE443, TE414. rewrite E0, E1, E2, E3.
  repeat (split; [done|]). rewrite !unpack_xor, H0, H1, H2, H3, xor_bytes4. reflexivity.
Qed.

Lemma RCON_spec i : 0 <= i < 10 ->
  exists v, RCON i = Ret v /\ unpack v = Rcon (Z.to_nat i + 1).
Proof.
  intros Hi.
  assert (forallb (fun j => match RCON j with
    | Ret v => bool_decide (unpack v = Rcon (Z.to_nat j + 1)) | _ => false end)
    (seqZ 0 10) = true) as H by (vm_compute; reflexivity).
  pose proof (forallb_seqZ _ _ H i Hi) as Hx. cbv beta in Hx.
  destruct (RCON i) as [v| |]; [|done|done]. exists v. split; [done|].
  by apply bool_decide_eq_true in Hx.
Qed.

(** ** Words and bytes *)

Lemma u8_land v : u8 v = Z.land v 0xff.
Proof. unfold wrap. change 0xff with (Z.ones 8). by rewrite Z.land_ones by lia. Qed.

Lemma PUTU32_unpack w : PUTU32 w = bytes_of_col (unpack w).
Proof. unfold PUTU32, bytes_of_col, unpack. cbn [c0 c1 c2 c3]. by rewrite !u8_land, Z.shiftr_0_r. Qed.

(** A byte shifted into its place shows in that byte of the word only. *)
Lemma byte_at x k j : is_u8 x -> 0 <= k -> 0 <= j ->
  k = j \/ k + 8 <= j \/ j + 8 <= k -> k + 8 <= 32 ->
  Z.land (Z.shiftr (u32 (Z.shiftl x k)) j) 0xff = if k =? j then x else 0.
Proof.
  intros Hx Hk Hj Hd Hw. change 0xff with (Z.ones 8). zbits.
  destruct (Z.ltb_spec (i + j) 32), (Z.ltb_spec i 8); cbn [andb]; rewrite ?andb_true_r, ?andb_false_r.
  - destruct (Z.eqb_spec k j) as [->|]; [f_equal; lia|]. rewrite Z.bits_0.
    destruct (decide (i + j - k < 0)); [apply Z.testbit_neg_r; lia|].
    apply (fits_testbit 8); [lia|done|lia].
  - destruct (Z.eqb_spec k j) as [->|]; [|by rewrite Z.bits_0].
    symmetry. apply (fits_testbit 8); [lia|done|lia].
  - destruct (Z.eqb_spec k j) as [->|]; [lia|by rewrite Z.bits_0].
  - destruct (Z.eqb_spec k j) as [->|]; [|by rewrite Z.bits_0].
    symmetry. apply (fits_testbit 8); [lia|done|lia].
Qed.

Lemma GETU32_spec b p x0 x1 x2 x3 : bytes_ok [x0; x1; x2; x3] -> at_off b p [x0; x1; x2; x3] ->
  exists w, GETU32 b p = Ret w /\ unpack w = Col x0 x1 x2 x3.
Proof.
  intros HB Hat.
  apply Forall_cons in HB as [B0 HB]. apply Forall_cons in HB as [B1 HB].
  apply Forall_cons in HB as [B2 HB]. apply Forall_cons in HB as [B3 _].
  apply at_off_cons in Hat as [E0 Hat]. apply at_off_cons in Hat as [E1 Hat].
  apply at_off_cons in Hat as [E2 Hat]. apply at_off_cons in Hat as [E3 _].
  replace (p + 1 + 1) with (p + 2) in * by lia. replace (p + 2 + 1) with (p + 3) in E3 by lia.
  unfold GETU32. rewrite E0. simp_res. rewrite E1. simp_res. rewrite E2. simp_res. rewrite E3. simp_res.
  eexists. split; [done|]. rewrite !unpack_xor.
  assert (u32 (Z.shiftl x3 0) = x3) as E.
  { rewrite Z.shiftl_0_r. apply wrap_small. unfold fits in *. lia. }
  rewrite <- E at 1. unfold unpack. rewrite !byte_at by (done || lia). cbn [Z.eqb Pos.eqb].
  apply xor_bytes4.
Qed.

Lemma cols_of_at b k : (4 * k + 4 <= length b)%nat -> exists x0 x1 x2 x3,
  at_off b (4 * Z.of_nat k) [x0; x1; x2; x3] /\ cols_of b !!! k = Col x0 x1 x2 x3.
Proof.
  revert b. induction k as [|k IH]; intros b Hl.
  - destruct b as [|x0 [|x1 [|x2 [|x3 r]]]]; cbn [length] in Hl; try lia.
    exists x0, x1, x2, x3. split; [|done]. by exists [], r.
  - destruct b as [|y0 [|y1 [|y2 [|y3 r]]]]; cbn [length] in Hl; try lia.
    destruct (IH r) as (x0 & x1 & x2 & x3 & (pre & post & -> & Hp) & Hc); [lia|].
    exists x0, x1, x2, x3. split; [|done].
    exists (y0 :: y1 :: y2 :: y3 :: pre), post. split; [done|]. zlen_lia.
Qed.

Lemma at_off_Forall {A} (P : A -> Prop) b p l : Forall P b -> at_off b p l -> Forall P l.
Proof. intros Hb (pre & post & -> & _). by apply Forall_app in Hb as [_ [? _]%Forall_app]. Qed.

Lemma at_off_more {A} (b r : list A) p l : at_off b p l -> at_off (b ++ r) p l.
Proof. intros (pre & post & -> & ->). exists pre, (post ++ r). by rewrite <- !app_assoc. Qed.

Lemma GETU32_col b r (k : nat) : bytes_ok b -> (4 * k + 4 <= length b)%nat ->
  exists w, GETU32 (b ++ r) (4 * Z.of_nat k) = Ret w /\ unpack w = cols_of b !!! k.
Proof.
  intros Hb Hl. destruct (cols_of_at b k Hl) as (x0 & x1 & x2 & x3 & Hat & ->).
  apply GETU32_spec; [by eapply at_off_Forall|by apply at_off_more].
Qed.

(** ** The key schedule *)

Section Expansion.
Context (Nk : nat).
Context (HNk : (0 < Nk)%nat).

Lemma expand_len n k : length (expand Nk n k) = (length k + n)%nat.
Proof. induction n as [|n IH]; cbn [expand]; [lia|]. rewrite length_app, IH. cbn. lia. Qed.

Lemma expand_prefix n m k i : (i < length k + n)%nat -> (n <= m)%nat ->
  expand Nk m k !!! i = expand Nk n k !!! i.
Proof.
  intros Hi. induction 1 as [|m Hm IH]; [done|].
  cbn [expand]. rewrite lookup_total_app_l by (rewrite expand_len; lia). exact IH.
Qed.

(** The recurrence of the standard. *)
Lemma expand_rec k m i : (length k = Nk)%nat -> (Nk <= i < Nk + m)%nat ->
  expand Nk m k !!! i =
  col_xor (expand Nk m k !!! (i - Nk)%nat) (expand_temp Nk i (expand Nk m k !!! (i - 1)%nat)).
Proof.
  intros Hk Hi.
  rewrite (expand_prefix (S (i - Nk)) m) by lia. rewrite (expand_prefix (i - Nk) m) by lia.
  rewrite (expand_prefix (i - Nk) m) by lia.
  cbn [expand]. rewrite lookup_total_app_r by (rewrite expand_len; lia).
  rewrite expand_len. replace (i - (length k + (i - Nk)))%nat with 0%nat by lia.
  cbn [list_lookup_total]. unfold next_word. rewrite expand_len.
  by replace (length k + (i - Nk))%nat with i by lia.
Qed.

Lemma expand_temp_rot i t :
  expand_temp Nk (Nk * S i) t = col_xor (SubWord (RotWord t)) (Rcon (S i)).
Proof.
  unfold expand_temp. rewrite Nat.mul_comm, Nat.Div0.mod_mul, Nat.div_mul by lia. done.
Qed.

Lemma mod_off i j : (j < Nk)%nat -> ((Nk * S i + j) mod Nk = j)%nat.
Proof. intros. rewrite Nat.add_comm, Nat.mul_comm, Nat.Div0.mod_add. by apply Nat.mod_small. Qed.

Lemma expand_temp_id i j t : (0 < j < Nk)%nat -> ~ (6 < Nk /\ j = 4)%nat ->
  expand_temp Nk (Nk * S i + j) t = t.
Proof.
  intros Hj Hn. unfold expand_temp. rewrite mod_off by lia.
  rewrite decide_False by lia. by rewrite decide_False.
Qed.

Lemma expand_temp_sub i t : (6 < Nk)%nat -> expand_temp Nk (Nk * S i + 4) t = SubWord t.
Proof.
  intros Hj. unfold expand_temp. rewrite mod_off by lia.
  rewrite decide_False by lia. by rewrite decide_True.
Qed.
End Expansion.

Section KeySchedule.
Context (Nk m : nat) (kc : list col).

Let K : list col := expand Nk m kc.

(** The first [n] words of the array are those of the standard. *)
Definition sched (n : nat) (M : list Z) : Prop :=
  length M = 61%nat /\ forall i, (i < n)%nat -> unpack (M !!! i) = K !!! i.

Lemma sched_rd n M a : sched n M -> 0 <= a < Z.of_nat n -> (n <= 60)%nat ->
  exists x, rd M a = Ret x /\ unpack x = K !!! Z.to_nat a.
Proof.
  intros [Hl HM] Ha Hn. exists (M !!! Z.to_nat a). split; [|apply HM; lia].
  apply rd_Ret. split; [lia|]. apply list_lookup_lookup_total_lt. lia.
Qed.

Lemma sched_wr n M d v : sched n M -> d = Z.of_nat n -> (n < 60)%nat -> unpack v = K !!! n ->
  exists M', wr M d v = Ret M' /\ sched (S n) M'.
Proof.
  intros [Hl HM] -> Hn Hv. rewrite wr_Ret by (unfold zlen; lia).
  eexists. split; [done|]. rewrite Nat2Z.id. split; [by rewrite length_insert|].
  intros i Hi. destruct (decide (i = n)) as [->|].
  - by rewrite list_lookup_total_insert_eq by lia.
  - rewrite list_lookup_total_insert_ne by done. apply HM. lia.
Qed.

Context (HNk : (0 < Nk)%nat) (Hkc : length kc = Nk) (Hm : (Nk + m <= 60)%nat).

(** One plain word; every [xor_into] of the code has this form. *)
Lemma step_xor i j M d a b : sched (Nk * S i + j) M -> d = Z.of_nat (Nk * S i + j) ->
  a = d - Z.of_nat Nk -> b = d - 1 -> (Nk * S i + j < Nk + m)%nat ->
  (0 < j < Nk)%nat -> ~ (6 < Nk /\ j = 4)%nat ->
  exists M', xor_into M d a b = Ret M' /\ sched (Nk * S i + S j) M'.
Proof.
  intros HM Hd Ha Hb Hn Hj H4. unfold xor_into.
  destruct (sched_rd _ M a HM) as (x & Ex & Hx); [nia|lia|].
  destruct (sched_rd _ M b HM) as (y & Ey & Hy); [nia|lia|].
  rewrite Ex. simp_res. rewrite Ey. simp_res.
  rewrite (Nat.add_succ_r (Nk * S i)). apply sched_wr; [done|done|lia|].
  rewrite unpack_xor, Hx, Hy. unfold K. rewrite (expand_rec Nk HNk kc m (Nk * S i + j)) by (done || nia).
  rewrite expand_temp_id by done. f_equal; f_equal; lia.
Qed.

Lemma col_xor_assoc a b c : col_xor (col_xor a b) c = col_xor a (col_xor b c).
Proof. unfold col_xor. cbn [c0 c1 c2 c3]. by rewrite !Z.lxor_assoc. Qed.

Lemma unpack_xor5 x a b c d :
  unpack (Z.lxor (Z.lxor (Z.lxor (Z.lxor x a) b) c) d) =
  col_xor (unpack x) (unpack (Z.lxor (Z.lxor (Z.lxor a b) c) d)).
Proof. by rewrite <- unpack_xor, !Z.lxor_assoc. Qed.

Lemma step_rot i M t d a : sched (Nk * S i) M -> d = Z.of_nat (Nk * S i) ->
  a = d - Z.of_nat Nk -> t = d - 1 -> (Nk * S i < Nk + m)%nat -> (i < 10)%nat ->
  exists M', rot_into M t d a (Z.of_nat i) = Ret M' /\ sched (Nk * S i + 1) M'.
Proof.
  intros HM Hd Ha Ht Hn Hi. unfold rot_into.
  destruct (sched_rd _ M t HM) as (w & Ew & Hw); [nia|lia|].
  destruct (sched_rd _ M a HM) as (x & Ex & Hx); [nia|lia|].
  destruct (TE_rot w) as (y0 & y1 & y2 & y3 & E0 & E1 & E2 & E3 & Hy).
  destruct (RCON_spec (Z.of_nat i)) as (rc & Er & Hrc); [lia|].
  bind_step Ew. bind_step Ex. bind_step E0. bind_step E1. bind_step E2. bind_step E3. bind_step Er.
  rewrite Nat.add_1_r. apply sched_wr; [done|done|lia|].
  rewrite unpack_xor, unpack_xor5, Hx, Hy, Hw, Hrc, col_xor_assoc. unfold K.
  rewrite (expand_rec Nk HNk kc m (Nk * S i)), expand_temp_rot by (done || nia).
  f_equal; [f_equal; lia|]. f_equal; [|f_equal; lia]. do 3 f_equal. lia.
Qed.

Lemma step_sub i M t d a : sched (Nk * S i + 4) M -> d = Z.of_nat (Nk * S i + 4) ->
  a = d - Z.of_nat Nk -> t = d - 1 -> (Nk * S i + 4 < Nk + m)%nat -> (6 < Nk)%nat ->
  exists M', sub_into M t d a = Ret M' /\ sched (Nk * S i + 5) M'.
Proof.
  intros HM Hd Ha Ht Hn Hi. unfold sub_into.
  destruct (sched_rd _ M t HM) as (w & Ew & Hw); [nia|lia|].
  destruct (sched_rd _ M a HM) as (x & Ex & Hx); [nia|lia|].
  destruct (TE_sub w) as (y0 & y1 & y2 & y3 & E0 & E1 & E2 & E3 & Hy).
  bind_step Ew. bind_step Ex. bind_step E0. bind_step E1. bind_step E2. bind_step E3.
  rewrite (Nat.add_succ_r (Nk * S i) 4). apply sched_wr; [done|done|lia|].
  rewrite unpack_xor5, Hx, Hy, Hw.
  unfold K. rewrite (expand_rec Nk HNk kc m (Nk * S i + 4)) by (done || nia).
  rewrite expand_temp_sub by lia. f_equal; [f_equal; lia|]. do 2 f_equal. lia.
Qed.
End KeySchedule.

(** Executes the next word of a key setup loop at iteration [i], position [j]. *)
Ltac kstep Nk m kc i j :=
  let M' := fresh "M" in let E := fresh "E" in let HM := fresh "HM" in
  lazymatch goal with
  | |- context [xor_into ?M ?d ?a ?b] =>
      destruct (step_xor Nk m kc ltac:(lia) ltac:(assumption) ltac:(lia) i j M d a b)
        as (M' & E & HM); [assumption|lia|lia|lia|lia|lia|lia|]
  | |- context [rot_into ?M ?t ?d ?a ?k] =>
      destruct (step_rot Nk m kc ltac:(lia) ltac:(assumption) ltac:(lia) i M t d a)
        as (M' & E & HM); [assumption|lia|lia|lia|lia|lia|]
  | |- context [sub_into ?M ?t ?d ?a] =>
      destruct (step_sub Nk m kc ltac:(lia) ltac:(assumption) ltac:(lia) i M t d a)
        as (M' & E & HM); [assumption|lia|lia|lia|lia|lia|]
  end; bind_step E; clear E.

Lemma setup128_ok kc n i M : length kc = 4%nat -> (i + n = 10)%nat -> sched 4 40 kc (4 * S i) M ->
  exists M', setup128 n M (4 * Z.of_nat i) (Z.of_nat i) = Ret M' /\ sched 4 40 kc 44 M'.
Proof.
  intros Hk. revert i M. induction n as [|n IH]; intros i M Hi HM; cbn [setup128].
  - exists M. split; [done|]. by replace 44%nat with (4 * S i)%nat by lia.
  - kstep 4%nat 40%nat kc i 0%nat. kstep 4%nat 40%nat kc i 1%nat.
    kstep 4%nat 40%nat kc i 2%nat. kstep 4%nat 40%nat kc i 3%nat.
    replace (4 * Z.of_nat i + 4) with (4 * Z.of_nat (S i)) by lia.
    replace (Z.of_nat i + 1) with (Z.of_nat (S i)) by lia.
    apply IH; [lia|]. by replace (4 * S (S i))%nat with (4 * S i + 4)%nat by lia.
Qed.

Lemma setup192_ok kc n i M : length kc = 6%nat -> (i + S n = 8)%nat -> sched 6 46 kc (6 * S i) M ->
  exists M', setup192 (S n) M (6 * Z.of_nat i) (Z.of_nat i) = Ret (M', Some 12) /\ sched 6 46 kc 52 M'.
Proof.
  intros Hk. revert i M. induction n as [|n IH]; intros i M Hi HM; cbn [setup192];
    kstep 6%nat 46%nat kc i 0%nat; kstep 6%nat 46%nat kc i 1%nat;
    kstep 6%nat 46%nat kc i 2%nat; kstep 6%nat 46%nat kc i 3%nat; zdecide.
  - eexists. split; [done|]. by replace 52%nat with (6 * S i + 4)%nat by lia.
  - kstep 6%nat 46%nat kc i 4%nat. kstep 6%nat 46%nat kc i 5%nat.
    replace (6 * Z.of_nat i + 6) with (6 * Z.of_nat (S i)) by lia.
    replace (Z.of_nat i + 1) with (Z.of_nat (S i)) by lia.
    apply IH; [lia|]. by replace (6 * S (S i))%nat with (6 * S i + 6)%nat by lia.
Qed.

Lemma setup256_ok kc n i M : length kc = 8%nat -> (i + S n = 7)%nat -> sched 8 52 kc (8 * S i) M ->
  exists M', setup256 (S n) M (8 * Z.of_nat i) (Z.of_nat i) = Ret (M', Some 14) /\ sched 8 52 kc 60 M'.
Proof.
  intros Hk. revert i M. induction n as [|n IH]; intros i M Hi HM; cbn [setup256];
    kstep 8%nat 52%nat kc i 0%nat; kstep 8%nat 52%nat kc i 1%nat;
    kstep 8%nat 52%nat kc i 2%nat; kstep 8%nat 52%nat kc i 3%nat; zdecide.
  - eexists. split; [done|]. by replace 60%nat with (8 * S i + 4)%nat by lia.
  - kstep 8%nat 52%nat kc i 4%nat. kstep 8%nat 52%nat kc i 5%nat.
    kstep 8%nat 52%nat kc i 6%nat. kstep 8%nat 52%nat kc i 7%nat.
    replace (8 * Z.of_nat i + 8) with (8 * Z.of_nat (S i)) by lia.
    replace (Z.of_nat i + 1) with (Z.of_nat (S i)) by lia.
    apply IH; [lia|]. by replace (8 * S (S i))%nat with (8 * S i + 8)%nat by lia.
Qed.

(** The first words come from the key. *)
Lemma get_key_ok Nk m key r k n M : bytes_ok key -> length key = (4 * Nk)%nat ->
  (length (cols_of key) = Nk)%nat -> (n < Nk <= 8)%nat -> k = Z.of_nat n ->
  sched Nk m (cols_of key) n M ->
  exists M', get_key M (key ++ r) k = Ret M' /\ sched Nk m (cols_of key) (S n) M'.
Proof.
  intros Hb Hl Hc Hn -> HM. unfold get_key.
  destruct (GETU32_col key r n) as (w & E & Hw); [done|lia|]. bind_step E.
  eapply sched_wr; [exact HM|reflexivity|lia|]. rewrite Hw. symmetry. apply (expand_prefix Nk ltac:(lia) 0%nat); lia.
Qed.

Lemma cols_of_len b n : length b = (4 * n)%nat -> length (cols_of b) = n.
Proof.
  revert b. induction n as [|n IH]; intros b Hb.
  - by destruct b.
  - destruct b as [|y0 [|y1 [|y2 [|y3 r]]]]; cbn [length] in Hb; try lia.
    cbn [cols_of length]. f_equal. apply IH. lia.
Qed.

Lemma sched_0 Nk m kc M : length M = 61%nat -> sched Nk m kc 0 M.
Proof. intros. split; [done|lia]. Qed.

Ltac gkey Nk m n :=
  let M' := fresh "M" in let E := fresh "E" in let HM := fresh "HM" in
  lazymatch goal with
  | |- context [get_key ?M (?key ++ ?r) ?k] =>
      destruct (get_key_ok Nk m key r k n M) as (M' & E & HM);
      [assumption|assumption|by apply cols_of_len|lia|done|assumption|]
  end; bind_step E; clear E.

(** The number of rounds for a key of [Nk] words. *)
Lemma keysetup_ok Nk key r M : bytes_ok key -> Nk ∈ [4; 6; 8]%nat -> length key = (4 * Nk)%nat ->
  length M = 61%nat ->
  exists M', rijndaelKeySetupEnc M (key ++ r) (32 * Z.of_nat Nk) = Ret (M', Z.of_nat Nk + 6) /\
    sched Nk (4 * (Nk + 7) - Nk) (cols_of key) (4 * (Nk + 7)) M'.
Proof.
  intros Hb HNk Hl HM. unfold rijndaelKeySetupEnc.
  rewrite !elem_of_cons, elem_of_nil in HNk. destruct HNk as [->|[->|[->|[]]]];
    [change (32 * Z.of_nat 4) with 128|change (32 * Z.of_nat 6) with 192|change (32 * Z.of_nat 8) with 256];
    cbn [Z.eqb Pos.eqb]; pose proof (cols_of_len key _ Hl) as Hc.
  - apply (sched_0 4 40 (cols_of key)) in HM.
    gkey 4%nat 40%nat 0%nat. gkey 4%nat 40%nat 1%nat. gkey 4%nat 40%nat 2%nat. gkey 4%nat 40%nat 3%nat.
    destruct (setup128_ok (cols_of key) 10 0 M3) as (M' & E & H'); [done|done|done|].
    cbn [Z.of_nat Z.mul] in E. bind_step E. by exists M'.
  - apply (sched_0 6 46 (cols_of key)) in HM.
    gkey 6%nat 46%nat 0%nat. gkey 6%nat 46%nat 1%nat. gkey 6%nat 46%nat 2%nat.
    gkey 6%nat 46%nat 3%nat. gkey 6%nat 46%nat 4%nat. gkey 6%nat 46%nat 5%nat.
    destruct (setup192_ok (cols_of key) 7 0 M5) as (M' & E & H'); [done|done|done|].
    cbn [Z.of_nat Z.mul] in E. bind_step E. by exists M'.
  - apply (sched_0 8 52 (cols_of key)) in HM.
    gkey 8%nat 52%nat 0%nat. gkey 8%nat 52%nat 1%nat. gkey 8%nat 52%nat 2%nat.
    gkey 8%nat 52%nat 3%nat. gkey 8%nat 52%nat 4%nat. gkey 8%nat 52%nat 5%nat. simp_res. cbn [Z.add].
    destruct (get_key_ok 8 52 key r 6 6 M5) as (M6 & E6 & H6); [done|done|done|lia|done|done|].
    destruct (get_key_ok 8 52 key r 7 7 M6) as (M7 & E7 & H7); [done|done|done|lia|done|done|].
    apply bind_inv in E6 as (x6 & E6 & W6). apply bind_inv in E7 as (x7 & E7 & W7).
    change (4 * 6) with 24 in E6. change (4 * 7) with 28 in E7.
    bind_step E6. bind_step W6. bind_step E7. bind_step W7.
    destruct (setup256_ok (cols_of key) 6 0 M7) as (M' & E & H'); [done|done|done|].
    cbn [Z.of_nat Z.mul] in E. bind_step E. by exists M'.
Qed.

(** ** The rounds *)

Definition ust (s : words) : state :=
  let '(a, b, c, d) := s in (unpack a, unpack b, unpack c, unpack d).

Section Rounds.
Context (Nk m : nat) (kc : list col) (n : nat) (M : list Z).
Context (HM : sched Nk m kc n M) (Hn : (n <= 60)%nat).

Let K : list col := expand Nk m kc.

Lemma round_word_ok k a b c d : 0 <= k < Z.of_nat n -> exists v,
  round_word M k a b c d = Ret v /\
  unpack v = col_xor (MixColumn (Col (sbox (c0 (unpack a))) (sbox (c1 (unpack b)))
                        (sbox (c2 (unpack c))) (sbox (c3 (unpack d))))) (K !!! Z.to_nat k).
Proof.
  intros Hk. destruct (TE_round a b c d) as (x0 & x1 & x2 & x3 & E0 & E1 & E2 & E3 & Hx).
  destruct (sched_rd _ _ _ _ _ k HM) as (y & Ey & Hy); [done|done|].
  unfold round_word. bind_step E0. bind_step E1. bind_step E2. bind_step E3. bind_step Ey.
  eexists. split; [done|]. by rewrite unpack_xor, Hx, Hy.
Qed.

Lemma last_word_ok k a b c d : 0 <= k < Z.of_nat n -> exists v,
  last_word M k a b c d = Ret v /\
  unpack v = col_xor (Col (sbox (c0 (unpack a))) (sbox (c1 (unpack b)))
                        (sbox (c2 (unpack c))) (sbox (c3 (unpack d)))) (K !!! Z.to_nat k).
Proof.
  intros Hk. destruct (TE_last a b c d) as (x0 & x1 & x2 & x3 & E0 & E1 & E2 & E3 & Hx).
  destruct (sched_rd _ _ _ _ _ k HM) as (y & Ey & Hy); [done|done|].
  unfold last_word. bind_step E0. bind_step E1. bind_step E2. bind_step E3. bind_step Ey.
  eexists. split; [done|]. by rewrite unpack_xor, Hx, Hy.
Qed.

Lemma ROUND_ok p i r s : p + 4 * i = 4 * Z.of_nat r -> (4 * r + 4 <= n)%nat ->
  exists t, ROUND M p i s = Ret t /\ ust t = round K (ust s) r.
Proof.
  intros Hp Hr. destruct s as [[[a b] c] d]. unfold ROUND. rewrite Hp.
  destruct (round_word_ok (4 * Z.of_nat r) a b c d) as (v0 & E0 & H0); [lia|].
  destruct (round_word_ok (4 * Z.of_nat r + 1) b c d a) as (v1 & E1 & H1); [lia|].
  destruct (round_word_ok (4 * Z.of_nat r + 2) c d a b) as (v2 & E2 & H2); [lia|].
  destruct (round_word_ok (4 * Z.of_nat r + 3) d a b c) as (v3 & E3 & H3); [lia|].
  bind_step E0. bind_step E1. bind_step E2. bind_step E3.
  eexists. split; [done|]. cbn [ust]. rewrite H0, H1, H2, H3.
  replace (Z.to_nat (4 * Z.of_nat r)) with (4 * r)%nat by lia.
  replace (Z.to_nat (4 * Z.of_nat r + 1)) with (4 * r + 1)%nat by lia.
  replace (Z.to_nat (4 * Z.of_nat r + 2)) with (4 * r + 2)%nat by lia.
  replace (Z.to_nat (4 * Z.of_nat r + 3)) with (4 * r + 3)%nat by lia. reflexivity.
Qed.

Lemma rounds_loop_ok q R s : (4 * (R + 2 * S q) <= n)%nat ->
  exists t, rounds_loop (S q) M (4 * Z.of_nat R) (Z.of_nat (S q)) s
            = Ret (t, 4 * Z.of_nat (R + 2 * S q)) /\
    ust t = fold_left (round K) (seq (R + 1) (2 * q + 1)) (ust s).
Proof.
  revert R s. induction q as [|q IH]; intros R s Hl.
  - cbn [rounds_loop]. destruct (ROUND_ok (4 * Z.of_nat R) 1 (R + 1) s) as (t & E & Ht); [lia|lia|].
    bind_step E. cbn [Z.of_nat Pos.of_succ_nat Z.sub Z.add Z.opp Z.pos_sub Z.eqb].
    exists t. split; [do 2 f_equal; lia|done].
  - remember (S q) as q1 eqn:Hq. cbn [rounds_loop].
    destruct (ROUND_ok (4 * Z.of_nat R) 1 (R + 1) s) as (t & E & Ht); [lia|lia|].
    destruct (ROUND_ok (4 * Z.of_nat R + 8) 0 (R + 2) t) as (s' & E' & Hs'); [lia|lia|].
    bind_step E. zdecide. bind_step E'. subst q1.
    destruct (IH (R + 2)%nat s') as (t' & Et & Ht'); [lia|].
    exists t'. split.
    + replace (4 * Z.of_nat R + 8) with (4 * Z.of_nat (R + 2)) by lia.
      replace (Z.of_nat (S (S q)) - 1) with (Z.of_nat (S q)) by lia. rewrite Et. do 2 f_equal. lia.
    + rewrite Ht', Hs', Ht. replace (2 * S q + 1)%nat with (S (S (2 * q + 1))) by lia.
      cbn [seq fold_left]. replace (S (R + 1)) with (R + 2)%nat by lia.
      by replace (R + 2 + 1)%nat with (S (R + 2)) by lia.
Qed.

(** A word of the block, with the word of round key 0 added. *)
Lemma load_ok pt (k : nat) : bytes_ok pt -> (4 * k + 4 <= length pt)%nat -> (k < n)%nat ->
  exists w x, GETU32 pt (4 * Z.of_nat k) = Ret w /\ rd M (Z.of_nat k) = Ret x /\
    unpack (Z.lxor w x) = col_xor (cols_of pt !!! k) (K !!! k).
Proof.
  intros Hb Hp Hk. destruct (GETU32_col pt [] k) as (w & E & H); [done|done|].
  rewrite app_nil_r in E.
  destruct (sched_rd _ _ _ _ _ (Z.of_nat k) HM) as (x & F & G); [lia|lia|].
  exists w, x. rewrite Nat2Z.id in G. by rewrite unpack_xor, H, G.
Qed.

Lemma rijndaelEncrypt_ok q pt : (4 * (2 * S q + 1) <= n)%nat -> bytes_ok pt -> length pt = 16%nat ->
  exists s, rijndaelEncrypt M (Z.of_nat (2 * S q)) pt =
    Ret (bytes_of (ust s)) /\ ust s = cipher K (2 * S q) (state_of pt).
Proof.
  intros Hl Hb Hp. unfold rijndaelEncrypt.
  destruct (load_ok pt 0) as (w0 & k0 & E0 & F0 & H0); [done|lia|lia|].
  destruct (load_ok pt 1) as (w1 & k1 & E1 & F1 & H1); [done|lia|lia|].
  destruct (load_ok pt 2) as (w2 & k2 & E2 & F2 & H2); [done|lia|lia|].
  destruct (load_ok pt 3) as (w3 & k3 & E3 & F3 & H3); [done|lia|lia|].
  bind_step E0. bind_step F0. bind_step E1. bind_step F1.
  bind_step E2. bind_step F2. bind_step E3. bind_step F3.
  replace (Z.shiftr (Z.of_nat (2 * S q)) 1) with (Z.of_nat (S q))
    by (rewrite Nat2Z.inj_mul, Z.mul_comm, Z.shiftr_div_pow2 by lia; symmetry; by apply Z.div_mul).
  rewrite Nat2Z.id.
  destruct (rounds_loop_ok q 0 (Z.lxor w0 k0, Z.lxor w1 k1, Z.lxor w2 k2, Z.lxor w3 k3))
    as ([[[t0 t1] t2] t3] & Et & Ht); [lia|].
  change (4 * Z.of_nat 0) with 0 in Et. bind_step Et. cbv iota beta.
  set (p := 4 * Z.of_nat (0 + 2 * S q)).
  destruct (last_word_ok p t0 t1 t2 t3) as (s0 & L0 & S0); [lia|].
  destruct (last_word_ok (p + 1) t1 t2 t3 t0) as (s1 & L1 & S1); [lia|].
  destruct (last_word_ok (p + 2) t2 t3 t0 t1) as (s2 & L2 & S2); [lia|].
  destruct (last_word_ok (p + 3) t3 t0 t1 t2) as (s3 & L3 & S3); [lia|].
  bind_step L0. bind_step L1. bind_step L2. bind_step L3.
  exists (s0, s1, s2, s3). split; [by rewrite !PUTU32_unpack|].
  unfold cipher. replace (2 * S q - 1)%nat with (2 * q + 1)%nat by lia.
  change (seq (0 + 1) (2 * q + 1)) with (seq 1 (2 * q + 1)) in Ht.
  assert (ust (Z.lxor w0 k0, Z.lxor w1 k1, Z.lxor w2 k2, Z.lxor w3 k3) =
          AddRoundKey (state_of pt) (round_key K 0)) as Hs.
  { cbn [ust]. by rewrite H0, H1, H2, H3. }
  rewrite Hs in Ht. rewrite <- Ht. cbn [ust]. rewrite S0, S1, S2, S3.
  replace (Z.to_nat p) with (4 * (2 * S q))%nat by lia.
  replace (Z.to_nat (p + 1)) with (4 * (2 * S q) + 1)%nat by lia.
  replace (Z.to_nat (p + 2)) with (4 * (2 * S q) + 2)%nat by lia.
  replace (Z.to_nat (p + 3)) with (4 * (2 * S q) + 3)%nat by lia. reflexivity.
Qed.
End Rounds.

(** ** AES discharges the interface *)

(** The context of a key: its schedule, and the number of rounds behind it. *)
Definition aes_holds (ctx key : list Z) : Prop :=
  exists Nk, (Nk ∈ [4; 6; 8])%nat /\ length key = (4 * Nk)%nat /\
    sched Nk (4 * (Nk + 7) - Nk) (cols_of key) (4 * (Nk + 7)) ctx /\
    rd ctx AES_PRIV_NR_POS = Ret (Z.of_nat Nk + 6).

Lemma key_words key : is_key key -> exists Nk, (Nk ∈ [4; 6; 8])%nat /\ length key = (4 * Nk)%nat.
Proof.
  intros [_ H]. rewrite !elem_of_cons, elem_of_nil in H. unfold zlen in H.
  destruct H as [H|[H|[H|[]]]]; [exists 4%nat|exists 6%nat|exists 8%nat];
    (split; [by_eval|lia]).
Qed.

Lemma aes_encrypt_init_ok mem key r : length mem = 61%nat -> is_key key ->
  exists ctx, aes_encrypt_init (Some mem) (key ++ r) (zlen key) = Ret (Some ctx) /\ aes_holds ctx key.
Proof.
  intros Hm Hk. destruct (key_words key Hk) as (Nk & HNk & Hl).
  assert (Nk <= 8)%nat as H8 by (rewrite !elem_of_cons, elem_of_nil in HNk; lia).
  destruct (keysetup_ok Nk key r mem) as (M & E & HM); [apply Hk|done|done|done|].
  unfold aes_encrypt_init.
  replace (s32 (zlen key * 8)) with (32 * Z.of_nat Nk)
    by (unfold s32, zlen; rewrite Z.mod_small by lia; lia).
  bind_step E. zdecide. rewrite wr_Ret by (destruct HM; unfold zlen, AES_PRIV_NR_POS; lia).
  eexists. split; [reflexivity|]. exists Nk. split; [done|]. split; [done|].
  destruct HM as [HlM HM]. split; [split; [by rewrite length_insert|]|].
  - intros i Hi. rewrite list_lookup_total_insert_ne by (unfold AES_PRIV_NR_POS; lia). by apply HM.
  - apply rd_Ret. split; [done|]. apply list_lookup_insert_eq. unfold AES_PRIV_NR_POS; lia.
Qed.

Lemma bytes_of_block s : is_block (bytes_of (ust s)).
Proof.
  destruct s as [[[a b] c] d]. split; [done|]. cbn [ust bytes_of]. unfold unpack, bytes_of_col.
  cbn [c0 c1 c2 c3 app].
  repeat (apply Forall_cons_2; [apply land_fits_r; [lia|unfold fits; lia]|]). apply Forall_nil_2.
Qed.

Lemma aes_encrypt_ok ctx key b : aes_holds ctx key -> is_block b ->
  aes_encrypt ctx b = Ret (aes key b) /\ is_block (aes key b).
Proof.
  intros (Nk & HNk & Hl & HM & Hr) [Hb1 Hb2]. unfold aes_encrypt. bind_step Hr.
  assert (exists q, Nk + 6 = 2 * S q)%nat as [q Hq].
  { rewrite !elem_of_cons, elem_of_nil in HNk. destruct HNk as [->|[->|[->|[]]]];
    [by exists 4%nat|by exists 5%nat|by exists 6%nat]. }
  assert (Nk <= 8)%nat as H8 by (rewrite !elem_of_cons, elem_of_nil in HNk; lia).
  destruct (rijndaelEncrypt_ok _ _ _ _ _ HM ltac:(lia) q b) as (s & E & Hs); [lia|done|done|].
  assert (aes key b = bytes_of (ust s)) as ->; [|split; [|apply bytes_of_block]].
  - unfold aes. rewrite Hl, (Nat.mul_comm 4 Nk), Nat.div_mul, Hs by lia.
    replace (Nk + 6 + 1)%nat with (Nk + 7)%nat by lia. by rewrite Hq.
  - rewrite <- E. f_equal. lia.
Qed.

#[export, refine] Instance aes_cipher : BlockCipher (list Z) := {|
  block_init := aes_encrypt_init;
  block_encrypt := aes_encrypt;
  block_cipher := Fips.aes;
  holds := aes_holds
|}.
Proof.
  - done.
  - intros. by apply aes_encrypt_init_ok.
  - apply aes_encrypt_ok.
Defined.

(** C3: the table driven AES of the driver is the AES of FIPS 197: for every key of
    16, 24 or 32 bytes and whatever the allocated context held before,
    [aes_encrypt_init] succeeds and the context it returns encrypts every
    block to the ciphertext the standard prescribes; all accesses to the tables,
    the key, the schedule and the block are in bounds. *)
Theorem aes_is_fips mem key r : length mem = 61%nat -> is_key key ->
  exists ctx, aes_encrypt_init (Some mem) (key ++ r) (zlen key) = Ret (Some ctx) /\
    forall b, is_block b -> aes_encrypt ctx b = Ret (Fips.aes key b).
Proof.
  intros Hm Hk. destruct (aes_encrypt_init_ok mem key r Hm Hk) as (ctx & E & H).
  exists ctx. split; [done|]. intros b Hb. by apply aes_encrypt_ok.
Qed.

Lemma aes_is_fips_witness :
  exists ctx, aes_encrypt_init (Some (replicate 61 7)) (map Z.of_nat (seq 0 24) ++ [9; 9])
      (zlen (map Z.of_nat (seq 0 24))) = Ret (Some ctx) /\
    forall b, is_block b -> aes_encrypt ctx b = Ret (Fips.aes (map Z.of_nat (seq 0 24)) b).
Proof. apply (aes_is_fips (replicate 61 7) (map Z.of_nat (seq 0 24)) [9; 9]); [done|by_eval]. Defined.

(** Any other key length is refused: after reading 32 bytes of key, the context is
    freed and [NULL] returned. *)
Lemma aes_encrypt_init_badlen mem key len :
  length mem = 61%nat -> bytes_ok key -> 32 <= zlen key -> 0 <= len < 2 ^ 28 -> len ∉ [16; 24; 32] ->
  aes_encrypt_init (Some mem) key len = Ret None.
Proof.
  intros Hm Hb Hk Hlen Hn. rewrite !not_elem_of_cons in Hn. destruct Hn as (H1 & H2 & H3 & _).
  unfold aes_encrypt_init, s32. rewrite Z.mod_small by lia. unfold rijndaelKeySetupEnc. zdecide.
  assert (forall M k, length M = 61%nat -> 0 <= k < 8 -> exists M', get_key M key k = Ret M' /\ length M' = 61%nat) as G.
  { intros M k HM Hk'. unfold get_key.
    destruct (GETU32_col key [] (Z.to_nat k)) as (w & E & _); [done|unfold zlen in *; lia|].
    rewrite app_nil_r in E.
    rewrite Z2Nat.id in E by lia. bind_step E. rewrite wr_Ret by (unfold zlen; lia).
    eexists. split; [done|]. by rewrite length_insert. }
  destruct (G mem 0) as (M0 & -> & L0); [done|lia|]. simp_res.
  destruct (G M0 1) as (M1 & -> & L1); [done|lia|]. simp_res.
  destruct (G M1 2) as (M2 & -> & L2); [done|lia|]. simp_res.
  destruct (G M2 3) as (M3 & -> & L3); [done|lia|]. simp_res.
  destruct (G M3 4) as (M4 & -> & L4); [done|lia|]. simp_res.
  destruct (G M4 5) as (M5 & -> & L5); [done|lia|]. simp_res. cbn [Z.add].
  destruct (G M5 6) as (M6 & E6 & L6); [done|lia|].
  destruct (G M6 7) as (M7 & E7 & L7); [done|lia|].
  apply bind_inv in E6 as (x6 & E6 & W6). apply bind_inv in E7 as (x7 & E7 & W7).
  change (4 * 6) with 24 in E6. change (4 * 7) with 28 in E7.
  bind_step E6. bind_step W6. bind_step E7. bind_step W7. done.
Qed.
End Aes.
