(* ===== verification/Modes.v ===== *)
(** * Shared parts of the modes of operation

    Exclusive-or of byte strings ([xor_aes_block], [xor_block]), splitting into
    blocks with padding, big endian numbers, and the constant time comparison
    [os_memcmp_const] of [core/crypto/rtw_crypto_wrap.c]: the generic lemmas
    [Cmac], [Ccm] and [Gcm] share. *)
From S2P Require Import Prelude Aes.

(** ** Exclusive-or *)

Definition xorb (a b : list Z) : list Z := zip_with Z.lxor a b.

(** [xor_aes_block(dst, src)], also named [xor_block]: four 32-bit words, that is 16
    bytes; the byte order of the words does not matter to an exclusive-or. *)
Definition xor_block (dst src : list Z) : res (list Z) :=
  d ← slice dst 0 16; s ← slice src 0 16; splice dst 0 (xorb d s).

(** [for (i = 0; i < |l|; i++) x[i] ^= l[i]]. *)
Definition xor_prefix (x l : list Z) : list Z := xorb (take (length l) x) l ++ drop (length l) x.

Section Xor.
Implicit Types a b c : list Z.

Lemma xorb_len a b : length (xorb a b) = Nat.min (length a) (length b).
Proof. apply length_zip_with. Qed.

Lemma xorb_comm a b : xorb a b = xorb b a.
Proof.
  unfold xorb. revert b. induction a as [|x a IH]; intros [|y b]; cbn; try done.
  by rewrite Z.lxor_comm, IH.
Qed.

Lemma xorb_assoc a b c : xorb (xorb a b) c = xorb a (xorb b c).
Proof.
  unfold xorb. revert b c. induction a as [|x a IH]; intros [|y b] [|z c]; cbn; try done.
  by rewrite Z.lxor_assoc, IH.
Qed.

Lemma xorb_bytes a b : bytes_ok a -> bytes_ok b -> bytes_ok (xorb a b).
Proof.
  intros Ha. revert b. induction Ha as [|x a Hx Ha IH]; intros [|y b] Hb; try done.
  apply Forall_cons in Hb as [Hy Hb]. apply Forall_cons. split; [by apply lxor_fits|by apply IH].
Qed.

(** A second exclusive-or with the same key undoes the first. *)
Lemma xorb_cancel a b : (length a <= length b)%nat -> xorb (xorb a b) b = a.
Proof.
  revert b. induction a as [|x a IH]; intros [|y b] Hl; cbn in Hl |- *; try done; try lia.
  unfold xorb in *. cbn. rewrite IH by lia. f_equal.
  by rewrite Z.lxor_assoc, Z.lxor_nilpotent, Z.lxor_0_r.
Qed.

Lemma xorb_eq_iff a b c : length a = length b -> length b = length c ->
  (xorb a b = c <-> a = xorb c b).
Proof.
  intros H1 H2. split; [intros <-|intros ->].
  - by rewrite xorb_cancel by lia.
  - by rewrite xorb_cancel by lia.
Qed.

Lemma xorb_zeros a n : (length a <= n)%nat -> xorb a (replicate n 0) = a.
Proof.
  revert n. induction a as [|x a IH]; intros [|n] Hl; cbn in Hl |- *; try done; try lia.
  unfold xorb in *. cbn. by rewrite Z.lxor_0_r, IH by lia.
Qed.

Lemma xorb_app a1 a2 b1 b2 : length a1 = length b1 -> xorb (a1 ++ a2) (b1 ++ b2) = xorb a1 b1 ++ xorb a2 b2.
Proof. intros. by apply zip_with_app. Qed.

Lemma xor_block_ok a b r : length a = 16%nat -> (16 <= length b)%nat ->
  xor_block (a ++ r) b = Ret (xorb a b ++ r).
Proof.
  intros Ha Hb. unfold xor_block.
  rewrite slice_0 by (unfold zlen; lia). simp_res.
  rewrite slice_Ret by (unfold zlen; lia). simp_res.
  assert (xorb a (take (Z.to_nat 16) (drop (Z.to_nat 0) b)) = xorb a b) as ->.
  { rewrite drop_0, xorb_comm, (xorb_comm a b).
    rewrite <- (take_drop 16 b) at 2. change (Z.to_nat 16) with 16%nat.
    rewrite <- (app_nil_r a) at 2. rewrite xorb_app by (rewrite length_take; lia).
    unfold xorb. destruct (drop 16 b); by rewrite app_nil_r. }
  apply splice_0. rewrite xorb_len. lia.
Qed.

Lemma xorb_app_r a b l : length a = length b -> xorb a (b ++ l) = xorb a b.
Proof.
  intros H. rewrite <- (app_nil_r a) at 1. rewrite xorb_app by done.
  unfold xorb. destruct l; by rewrite app_nil_r.
Qed.

Lemma xor_block_app a b l : length a = 16%nat -> length b = 16%nat -> xor_block a (b ++ l) = Ret (xorb a b).
Proof.
  intros. rewrite <- (app_nil_r a) at 1. rewrite xor_block_ok by (rewrite ?length_app; lia).
  by rewrite app_nil_r, xorb_app_r by lia.
Qed.

Lemma xor_block_16 a b : length a = 16%nat -> length b = 16%nat -> xor_block a b = Ret (xorb a b).
Proof. intros. rewrite <- (app_nil_r a). rewrite xor_block_ok by lia. by rewrite !app_nil_r. Qed.

Lemma is_block_xorb a b : is_block a -> is_block b -> is_block (xorb a b).
Proof. intros [L1 B1] [L2 B2]. split; [rewrite xorb_len; lia|by apply xorb_bytes]. Qed.
End Xor.

(** ** Blocks *)

(** The zero padded block. *)
Definition pad16 (l : list Z) : list Z := l ++ replicate (16 - length l) 0.

Fixpoint blocks_n (n : nat) (l : list Z) : list (list Z) :=
  match n with
  | O => []
  | S n => pad16 (take 16 l) :: blocks_n n (drop 16 l)
  end.

(** The blocks of a byte string, the last one padded with zeros. *)
Definition blocks (l : list Z) : list (list Z) := blocks_n ((length l + 15) / 16) l.

Lemma pad16_full l : length l = 16%nat -> pad16 l = l.
Proof. intros H. unfold pad16. by rewrite H, app_nil_r. Qed.

Lemma pad16_len l : (length l <= 16)%nat -> length (pad16 l) = 16%nat.
Proof. intros. unfold pad16. rewrite length_app, length_replicate. lia. Qed.

Lemma bytes_replicate n x : is_u8 x -> bytes_ok (replicate n x).
Proof. intros. by apply Forall_replicate. Qed.

Lemma is_block_pad l : (length l <= 16)%nat -> bytes_ok l -> is_block (pad16 l).
Proof.
  intros. split; [by apply pad16_len|]. apply Forall_app. split; [done|].
  apply bytes_replicate. unfold fits. lia.
Qed.

Lemma xor_prefix_pad x l : length x = 16%nat -> (length l <= 16)%nat -> xor_prefix x l = xorb x (pad16 l).
Proof.
  intros Hx Hl. unfold xor_prefix, pad16. rewrite <- (take_drop (length l) x) at 3.
  rewrite xorb_app by (rewrite length_take; lia). f_equal. symmetry. apply xorb_zeros.
  rewrite length_drop. lia.
Qed.

Lemma blocks_nil : blocks [] = [].
Proof. done. Qed.

Lemma blocks_cons l r : length l = 16%nat -> blocks (l ++ r) = l :: blocks r.
Proof.
  intros Hl. unfold blocks. rewrite length_app, Hl.
  replace ((16 + length r + 15) / 16)%nat with (S ((length r + 15) / 16)).
  2: { replace (16 + length r + 15)%nat with ((length r + 15) + 1 * 16)%nat by lia.
       rewrite Nat.div_add by lia. lia. }
  cbn [blocks_n]. rewrite (take_app_length' l) by done. rewrite (drop_app_length' l) by done.
  by rewrite pad16_full.
Qed.

Lemma blocks_short l : (0 < length l < 16)%nat -> blocks l = [pad16 l].
Proof.
  intros Hl. unfold blocks.
  replace ((length l + 15) / 16)%nat with 1%nat.
  - cbn [blocks_n]. by rewrite take_ge by lia.
  - apply Nat.div_unique with (r := (length l - 1)%nat); lia.
Qed.

Lemma blocks_one l : (0 < length l <= 16)%nat -> blocks l = [pad16 l].
Proof.
  intros Hl. destruct (decide (length l = 16)%nat) as [H|H]; [|apply blocks_short; lia].
  rewrite <- (app_nil_r l) at 1. by rewrite blocks_cons, pad16_full by done.
Qed.

(** Induction on a byte string block by block. *)
Lemma block_ind (P : list Z -> Prop) :
  P [] -> (forall l, (0 < length l < 16)%nat -> P l) ->
  (forall b l, length b = 16%nat -> P l -> P (b ++ l)) -> forall l, P l.
Proof.
  intros H0 H1 H2 l. remember (length l) as n eqn:Hn. revert l Hn.
  induction n as [n IH] using lt_wf_ind. intros l ->.
  destruct (decide (length l < 16)%nat) as [Hl|Hl].
  - destruct l; [done|]. apply H1. cbn in *. lia.
  - rewrite <- (take_drop 16 l). apply H2; [rewrite length_take; lia|].
    eapply IH; [|done]. rewrite length_drop. lia.
Qed.

Lemma blocks_ok l : bytes_ok l -> Forall is_block (blocks l).
Proof.
  induction l as [|l Hl|b l Hb IH] using block_ind; intros H.
  - constructor.
  - rewrite blocks_short by done. apply Forall_singleton, is_block_pad; [lia|done].
  - apply Forall_app in H as [? ?]. rewrite blocks_cons by done. constructor; [done|by apply IH].
Qed.

(** Padding to a block boundary does not change the blocks. *)
Lemma blocks_app_pad l r : (length l mod 16 = 0)%nat -> blocks (l ++ r) = blocks l ++ blocks r.
Proof.
  induction l as [|l Hl|b l Hb IH] using block_ind; intros H; [done| |].
  - rewrite Nat.mod_small in H; lia.
  - rewrite <- app_assoc, (blocks_cons b (l ++ r)), (blocks_cons b l) by done. rewrite IH; [done|].
    rewrite length_app, Hb, Nat.add_comm in H. by rewrite (Nat.Div0.mod_add _ 1 16) in H.
Qed.

(** ** Comparison in constant time *)

Fixpoint memcmp_const_loop (n : nat) (a b : list Z) (i res0 : Z) : res Z :=
  match n with
  | O => Ret res0
  | S n =>
      x ← rd a i; y ← rd b i;
      memcmp_const_loop n a b (i + 1) (u8 (Z.lor res0 (Z.lxor x y)))
  end.

Definition os_memcmp_const (a b : list Z) (len : Z) : res Z :=
  memcmp_const_loop (Z.to_nat len) a b 0 0.

Lemma memcmp_const_loop_ok a b : bytes_ok a -> bytes_ok b -> length a = length b ->
  forall ra rb pa pb r, length pa = length pb -> is_u8 r ->
  exists v, memcmp_const_loop (length a) (pa ++ a ++ ra) (pb ++ b ++ rb) (zlen pa) r = Ret v /\
    (v = 0 <-> r = 0 /\ a = b).
Proof.
  intros Ha. revert b. induction Ha as [|x a Hx Ha IH]; intros [|y b] Hb Hl ra rb pa pb r Hp Hr;
    cbn in Hl; try lia; cbn [length memcmp_const_loop].
  - exists r. split; [done|]. intuition.
  - apply Forall_cons in Hb as [Hy Hb].
    assert (zlen pa = zlen pb) as Hz by (unfold zlen; lia).
    cbn [app]. rewrite rd_mid by done. simp_res. rewrite rd_mid by done. simp_res.
    rewrite (cons_middle x pa), (cons_middle y pb), (app_assoc pa), (app_assoc pb).
    assert (is_u8 (Z.lor r (Z.lxor x y))) as Hq by (apply lor_fits, lxor_fits; (done || lia)).
    rewrite wrap_small by done.
    replace (zlen pa + 1) with (zlen (pa ++ [x])) by zlen_lia.
    destruct (IH b Hb ltac:(lia) ra rb (pa ++ [x]) (pb ++ [y]) (Z.lor r (Z.lxor x y)))
      as (v & E & Hv); [rewrite !length_app; cbn; lia|done|].
    exists v. split; [exact E|]. rewrite Hv, Z.lor_eq_0_iff, Z.lxor_eq_0_iff.
    split; [intros [[-> ->] ->]|intros [-> [= -> ->]]]; done.
Qed.

(** Zero exactly when the first [len] bytes agree. *)
Lemma os_memcmp_const_ok a b ra rb : bytes_ok a -> bytes_ok b -> length a = length b ->
  exists v, os_memcmp_const (a ++ ra) (b ++ rb) (zlen a) = Ret v /\ (v = 0 <-> a = b).
Proof.
  intros Ha Hb Hl.
  destruct (memcmp_const_loop_ok a b Ha Hb Hl ra rb [] [] 0) as (v & E & Hv); [done|unfold fits; lia|].
  exists v. unfold os_memcmp_const. rewrite zlen_to_nat. split; [exact E|]. rewrite Hv. intuition.
Qed.

(** ** Blocks as integers, most significant byte first *)

Definition be_val (l : list Z) : Z := fold_left (fun a b => a * 256 + b) l 0.

Fixpoint be_bytes (n : nat) (v : Z) : list Z :=
  match n with
  | O => []
  | S n => (v / 256 ^ Z.of_nat n) `mod` 256 :: be_bytes n v
  end.

Lemma be_val_acc l a : fold_left (fun a b => a * 256 + b) l a = a * 256 ^ zlen l + be_val l.
Proof.
  unfold be_val. revert a. induction l as [|x l IH]; intros a; cbn [fold_left].
  - rewrite zlen_nil. lia.
  - rewrite IH, (IH (0 * 256 + x)), zlen_cons, Z.pow_add_r by (pose proof (zlen_nonneg l); lia). lia.
Qed.

Lemma be_val_cons x l : be_val (x :: l) = x * 256 ^ zlen l + be_val l.
Proof. unfold be_val at 1. cbn [fold_left]. rewrite be_val_acc. lia. Qed.

Lemma be_val_app l r : be_val (l ++ r) = be_val l * 256 ^ zlen r + be_val r.
Proof. unfold be_val at 1. rewrite fold_left_app. apply be_val_acc. Qed.

Lemma be_val_range l : bytes_ok l -> 0 <= be_val l < 256 ^ zlen l.
Proof.
  induction 1 as [|x l Hx Hl IH]; [done|].
  rewrite be_val_cons, zlen_cons, Z.pow_add_r by (pose proof (zlen_nonneg l); lia).
  unfold fits in Hx. nia.
Qed.

Lemma be_bytes_len n v : length (be_bytes n v) = n.
Proof. induction n as [|n IH]; cbn; [done|by rewrite IH]. Qed.

Lemma be_bytes_ok n v : bytes_ok (be_bytes n v).
Proof.
  induction n as [|n IH]; cbn; [constructor|]. apply Forall_cons. split; [|done].
  apply Z.mod_pos_bound. lia.
Qed.

Lemma be_bytes_add n x v : be_bytes n (x * 256 ^ Z.of_nat n + v) = be_bytes n v.
Proof.
  revert x. induction n as [|n IH]; intros x; [done|]. cbn [be_bytes].
  rewrite Nat2Z.inj_succ, Z.pow_succ_r by lia.
  replace (x * (256 * 256 ^ Z.of_nat n) + v) with (x * 256 * 256 ^ Z.of_nat n + v) by lia.
  rewrite IH. f_equal. rewrite Z.add_comm, Z.div_add by lia.
  by rewrite Z.mod_add by lia.
Qed.

Lemma be_bytes_val l : bytes_ok l -> be_bytes (length l) (be_val l) = l.
Proof.
  induction 1 as [|x l Hx Hl IH]; [done|]. cbn [length be_bytes].
  rewrite be_val_cons. fold (zlen l). pose proof (be_val_range l Hl). unfold fits in Hx.
  rewrite Z.add_comm, Z.div_add by (unfold zlen in *; lia).
  rewrite Z.div_small, Z.add_0_l, Z.mod_small by lia. f_equal.
  rewrite Z.add_comm. unfold zlen. by rewrite be_bytes_add.
Qed.

Lemma be_val_bytes n v : 0 <= v < 256 ^ Z.of_nat n -> be_val (be_bytes n v) = v.
Proof.
  revert v. induction n as [|n IH]; intros v Hv; [cbn in *; lia|].
  rewrite Nat2Z.inj_succ, Z.pow_succ_r in Hv by lia.
  cbn [be_bytes]. rewrite be_val_cons. unfold zlen. rewrite be_bytes_len.
  assert (0 < 256 ^ Z.of_nat n) by lia.
  rewrite Z.mod_small by (split; [apply Z.div_pos; lia|apply Z.div_lt_upper_bound; lia]).
  pose proof (Z.div_mod v (256 ^ Z.of_nat n) ltac:(lia)) as Hd.
  assert (be_bytes n v = be_bytes n (v `mod` 256 ^ Z.of_nat n)) as ->.
  { rewrite Hd at 1. rewrite (Z.mul_comm (256 ^ Z.of_nat n)). apply be_bytes_add. }
  rewrite IH by (apply Z.mod_pos_bound; lia). lia.
Qed.

Lemma be_val_inj a b : length a = length b -> bytes_ok a -> bytes_ok b -> be_val a = be_val b -> a = b.
Proof. intros Hl Ha Hb E. rewrite <- (be_bytes_val a Ha), <- (be_bytes_val b Hb). by rewrite E, Hl. Qed.
