(* ===== verification/Cmac.v ===== *)
(** * OMAC1 (AES-CMAC)

    Models [core/crypto/aes-omac1.c]: [gf_mulx], [omac1_aes_vector] over a vector
    of elements, [omac1_aes_128_vector], [omac1_aes_128], [omac1_aes_256].  The
    reference is the CMAC of SP 800-38B: subkeys by doubling in GF(2^128) on
    integers, CBC over the blocks, the last block masked with a subkey.  Proved
    against the class [BlockCipher]; the result depends only on the concatenation
    of the elements. *)
From S2P Require Import Prelude Aes Modes.

Module Cmac.
Import Aes.

(** ** Doubling *)

(** [pad[i] = (pad[i] << 1) | (pad[i + 1] >> 7)] for [n] values of [i]. *)
Fixpoint mulx_loop (n : nat) (pad : list Z) (i : Z) : res (list Z) :=
  match n with
  | O => Ret pad
  | S n =>
      x ← rd pad i; y ← rd pad (i + 1);
      pad ← wr pad i (u8 (Z.lor (Z.shiftl x 1) (Z.shiftr y 7)));
      mulx_loop n pad (i + 1)
  end.

Definition gf_mulx (pad : list Z) : res (list Z) :=
  x ← rd pad 0;
  let carry := Z.land x 0x80 in
  pad ← mulx_loop 15 pad 0;
  y ← rd pad 15;
  pad ← wr pad 15 (u8 (Z.shiftl y 1));
  if negb (carry =? 0) then y ← rd pad 15; wr pad 15 (Z.lxor y 0x87) else Ret pad.

Section Omac.
Context {ctx : Type} `{!BlockCipher ctx}.

(** ** The message authentication code *)

(** [cbc[i] ^= *pos++] for [n] values of [i]; at the end of element [e] the next
    one is taken, unless [brk i]: then the loop is left. *)
Fixpoint absorb (n : nat) (brk : Z -> bool) (addr : list (list Z)) (len : list Z)
    (cbc : list Z) (e pos i : Z) : res (list Z * Z * Z) :=
  match n with
  | O => Ret (cbc, e, pos)
  | S n =>
      o ← rd addr e; x ← rd o pos; c ← rd cbc i;
      cbc ← wr cbc i (Z.lxor c x);
      fin ← rd len e;
      if fin <=? pos + 1 then
        if brk i then Ret (cbc, e, pos + 1)
        else
          _ ← rd addr (e + 1); _ ← rd len (e + 1);
          absorb n brk addr len cbc (e + 1) 0 (i + 1)
      else absorb n brk addr len cbc e (pos + 1) (i + 1)
  end.

(** [while (left >= AES_BLOCK_SIZE)]. *)
Fixpoint omac_loop (fuel : nat) (c : ctx) (addr : list (list Z)) (len : list Z)
    (cbc : list Z) (e pos left_ : Z) : res (list Z * Z * Z * Z) :=
  match fuel with
  | O => NoFuel
  | S fuel =>
      if left_ <? 16 then Ret (cbc, e, pos, left_) else
      r ← absorb 16 (fun i => (i + 1 =? 16) && (left_ =? 16)) addr len cbc e pos 0;
      let '(cbc, e, pos) := r in
      cbc ← (if 16 <? left_ then block_encrypt c cbc else Ret cbc);
      omac_loop fuel c addr len cbc e pos (left_ - 16)
  end.

Definition total (len : list Z) : Z := fold_left (fun t l => u64 (t + l)) len 0.

(** [None] is the return value -1; [mem] is what the allocation of the context
    gives. *)
Definition omac1_aes_vector (mem : option (list Z)) (key : list Z) (key_len : Z)
    (addr : list (list Z)) (len : list Z) : res (option (list Z)) :=
  co ← block_init mem key key_len;
  match co with
  | None => Ret None
  | Some c =>
      let cbc := replicate 16 0 in
      let total_len := total len in
      _ ← rd addr 0; _ ← rd len 0;
      r ← omac_loop (S (Z.to_nat (total_len / 16))) c addr len cbc 0 0 total_len;
      let '(cbc, e, pos, left_) := r in
      pad ← block_encrypt c (replicate 16 0);
      pad ← gf_mulx pad;
      cp ← (if negb (left_ =? 0) || (total_len =? 0) then
              r ← absorb (Z.to_nat left_) (fun i => i + 1 =? left_) addr len cbc e pos 0;
              let '(cbc, e, pos) := r in
              x ← rd cbc left_;
              cbc ← wr cbc left_ (Z.lxor x 0x80);
              pad ← gf_mulx pad;
              Ret (cbc, pad)
            else Ret (cbc, pad));
      let '(cbc, pad) := cp in
      pad ← xor_block pad cbc;
      mac ← block_encrypt c pad;
      Ret (Some mac)
  end.

Definition omac1_aes_128_vector mem key addr len := omac1_aes_vector mem key 16 addr len.
Definition omac1_aes_128 mem key data data_len := omac1_aes_128_vector mem key [data] [data_len].
Definition omac1_aes_256 mem key data data_len := omac1_aes_vector mem key 32 [data] [data_len].
End Omac.

(** ** SP 800-38B *)

Section Reference.
Context (E : list Z -> list Z).

(** Multiplication by x modulo x^128 + x^7 + x^2 + x + 1. *)
Definition dbl (v : Z) : Z :=
  let w := (2 * v) `mod` 2 ^ 128 in if 2 ^ 127 <=? v then Z.lxor w 0x87 else w.

Definition K1 : list Z := be_bytes 16 (dbl (be_val (E (replicate 16 0)))).
Definition K2 : list Z := be_bytes 16 (dbl (be_val K1)).

Definition cbc_mac (x : list Z) (bs : list (list Z)) : list Z :=
  fold_left (fun x b => E (xorb x b)) bs x.

(** The full blocks before the last one, and the last one, which is empty only in
    the empty message. *)
Definition cmac_head (m : list Z) : list Z := take (16 * ((length m - 1) / 16)) m.
Definition cmac_last (m : list Z) : list Z := drop (16 * ((length m - 1) / 16)) m.

Definition cmac (m : list Z) : list Z :=
  let l := cmac_last m in
  let x := cbc_mac (replicate 16 0) (blocks (cmac_head m)) in
  E (xorb x (if decide (length l = 16%nat) then xorb l K1 else xorb (pad16 (l ++ [0x80])) K2)).
End Reference.

(** Example 3 of RFC 4493, in one element and in three. *)
Example cmac_rfc4493 :
  let k := [0x2b; 0x7e; 0x15; 0x16; 0x28; 0xae; 0xd2; 0xa6; 0xab; 0xf7; 0x15; 0x88; 0x09; 0xcf; 0x4f; 0x3c] in
  let m := [0x6b; 0xc1; 0xbe; 0xe2; 0x2e; 0x40; 0x9f; 0x96; 0xe9; 0x3d; 0x7e; 0x11; 0x73; 0x93; 0x17; 0x2a; 0xae; 0x2d; 0x8a; 0x57; 0x1e; 0x03; 0xac; 0x9c; 0x9e; 0xb7; 0x6f; 0xac; 0x45; 0xaf; 0x8e; 0x51; 0x30; 0xc8; 0x1c; 0x46; 0xa3; 0x5c; 0xe4; 0x11] in
  let t := [0xdf; 0xa6; 0x67; 0x47; 0xde; 0x9a; 0xe6; 0x30; 0x30; 0xca; 0x32; 0x61; 0x14; 0x97; 0xc8; 0x27] in
  cmac (Fips.aes k) m = t /\
  omac1_aes_128 (Some (replicate 61 0)) k m 40 = Ret (Some t) /\
  omac1_aes_128_vector (Some (replicate 61 0)) k [take 7 m; take 13 (drop 7 m); drop 20 m] [7; 13; 20]
    = Ret (Some t).
Proof. vm_compute. auto. Qed.

(** ** Doubling is doubling *)

(** What the loop of [gf_mulx] leaves: all bytes but the last shifted. *)
Fixpoint shl_list (x : Z) (r : list Z) : list Z :=
  match r with
  | [] => [x]
  | y :: r => u8 (Z.lor (Z.shiftl x 1) (Z.shiftr y 7)) :: shl_list y r
  end.

Lemma mulx_loop_ok r pre x : mulx_loop (length r) (pre ++ x :: r) (zlen pre) = Ret (pre ++ shl_list x r).
Proof.
  revert pre x. induction r as [|y r IH]; intros pre x; cbn [length mulx_loop shl_list]; [done|].
  rewrite (rd_mid pre x _ (zlen pre)) by done. simp_res. rewrite (cons_middle x pre), app_assoc, rd_mid by zlen_lia. simp_res.
  rewrite <- app_assoc. cbn [app]. rewrite wr_mid by done. simp_res.
  rewrite cons_middle, app_assoc. replace (zlen pre + 1) with (zlen (pre ++ [u8 (Z.lor (x ≪ 1) (y ≫ 7))])) by zlen_lia.
  rewrite IH. by rewrite <- app_assoc.
Qed.

Lemma shl_byte x y : is_u8 x -> is_u8 y ->
  u8 (Z.lor (Z.shiftl x 1) (Z.shiftr y 7)) = (2 * x) `mod` 256 + y / 128.
Proof.
  intros Hx Hy. rewrite Z.shiftr_div_pow2 by lia. change (2 ^ 7) with 128. unfold fits in *.
  rewrite lor_pack by (lia || (split; [apply Z.div_pos; lia|apply Z.div_lt_upper_bound; lia])). unfold wrap. change (2 ^ 8) with 256. change (2 ^ 1) with 2.
  Z.to_euclidean_division_equations. lia.
Qed.

(** The value after the last byte is shifted too. *)
Lemma shl_list_val x r : bytes_ok (x :: r) -> exists l y,
  shl_list x r = l ++ [y] /\ length l = length r /\ bytes_ok l /\ is_u8 y /\
  be_val (l ++ [u8 (Z.shiftl y 1)]) + (x / 128) * 256 ^ (1 + zlen r) = 2 * be_val (x :: r).
Proof.
  revert x. induction r as [|y r IH]; intros x H.
  - exists [], x. apply Forall_cons in H as [Hx _]. repeat (split; [done|]).
    unfold be_val, wrap. cbn [app fold_left]. rewrite Z.shiftl_mul_pow2 by lia.
    unfold fits in Hx. change (256 ^ (1 + zlen [])) with 256. change (2 ^ 8) with 256. change (2 ^ 1) with 2.
    Z.to_euclidean_division_equations. lia.
  - apply Forall_cons in H as [Hx H]. destruct (IH y H) as (l & z & El & Hl & Hb & Hz & Hv).
    apply Forall_cons in H as [Hy H].
    exists (u8 (Z.lor (Z.shiftl x 1) (Z.shiftr y 7)) :: l), z. cbn [shl_list]. rewrite El.
    split; [done|]. split; [cbn; lia|]. split; [constructor; [apply wrap_fits; lia|done]|]. split; [done|].
    cbn [app]. rewrite be_val_cons, shl_byte by done. rewrite (be_val_cons x).
    replace (zlen (l ++ [u8 (z ≪ 1)])) with (1 + zlen r) by (unfold zlen; rewrite length_app; cbn; lia).
    rewrite zlen_cons. rewrite (Z.pow_add_r 256 1 (1 + zlen r)) by (pose proof (zlen_nonneg r); lia).
    change (256 ^ 1) with 256. unfold fits in *.
    assert (2 * x = (2 * x) `mod` 256 + 256 * (x / 128)) as Hq by (Z.to_euclidean_division_equations; lia).
    set (P := 256 ^ (1 + zlen r)) in *. assert (2 * (x * P) = ((2 * x) `mod` 256) * P + 256 * (x / 128) * P)
      by (rewrite <- Z.mul_add_distr_r, <- Hq; lia). lia.
Qed.

Lemma lxor_low hi lo m : is_u8 lo -> is_u8 m -> Z.lxor (hi * 256 + lo) m = hi * 256 + Z.lxor lo m.
Proof.
  intros Hl Hm. change 256 with (2 ^ 8). rewrite <- !lor_pack by (lia || done || by apply lxor_fits).
  zbits. destruct (Z.ltb_spec i 8).
  - by rewrite (Z.testbit_neg_r hi) by lia.
  - by rewrite (fits_testbit 8 lo), (fits_testbit 8 m), !orb_false_r, !xorb_false_r by done.
Qed.

Lemma gf_mulx_ok b : is_block b -> exists b', gf_mulx b = Ret b' /\ is_block b' /\
  be_val b' = dbl (be_val b).
Proof.
  intros [Hl Hb]. destruct b as [|x r]; [done|]. cbn in Hl.
  destruct (shl_list_val x r Hb) as (l & y & El & Hlr & Hbl & Hy & Hv).
  pose proof (mulx_loop_ok r [] x) as Em. cbn [app] in Em.
  replace (length r) with 15%nat in Em by lia. change (zlen (@nil Z)) with 0 in Em. rewrite El in Em.
  unfold gf_mulx. rewrite rd_cons_0. simp_res. bind_step Em.
  rewrite rd_mid by (unfold zlen; lia). simp_res. rewrite wr_mid by (unfold zlen; lia). simp_res.
  set (z := u8 (y ≪ 1)) in *. assert (is_u8 z) as Hz by (apply wrap_fits; lia).
  assert (zlen r = 15) as Hr by (unfold zlen; lia). rewrite Hr in Hv. change (1 + 15) with 16 in Hv.
  pose proof Hb as Hb'. apply Forall_cons in Hb' as [Hx Hbr].
  pose proof (be_val_range _ Hb) as Hrg. rewrite zlen_cons, Hr in Hrg. change (256 ^ (1 + 15)) with (2 ^ 128) in Hrg.
  change (256 ^ 16) with (2 ^ 128) in Hv.
  assert (bytes_ok (l ++ [z])) as Hlz by (apply Forall_app; split; [done|by apply Forall_singleton]).
  pose proof (be_val_range _ Hlz) as Hrz.
  replace (zlen (l ++ [z])) with 16 in Hrz by (unfold zlen; rewrite length_app; cbn; lia).
  change (256 ^ 16) with (2 ^ 128) in Hrz.
  assert (be_val (l ++ [z]) = (2 * be_val (x :: r)) `mod` 2 ^ 128) as Hw.
  { rewrite <- Hv, Z.mod_add by lia. symmetry. by apply Z.mod_small. }
  assert ((Z.land x 128 =? 0) = negb (2 ^ 127 <=? be_val (x :: r))) as Hc.
  { rewrite be_val_cons, Hr. pose proof (be_val_range _ Hbr) as Hrr. rewrite Hr in Hrr.
    pose proof (forallb_seqZ (fun x => Bool.eqb (Z.land x 128 =? 0) (x <? 128)) 256 eq_refl x Hx) as Hq.
    apply Bool.eqb_prop in Hq. rewrite Hq. destruct (Z.ltb_spec x 128), (Z.leb_spec (2 ^ 127) (x * 256 ^ 15 + be_val r)); lia. }
  rewrite Hc, negb_involutive. unfold dbl. rewrite <- Hw.
  destruct (2 ^ 127 <=? be_val (x :: r)).
  - rewrite rd_mid by (unfold zlen; lia). simp_res. rewrite wr_mid by (unfold zlen; lia).
    eexists. split; [done|]. assert (is_u8 (Z.lxor z 135)) by (apply lxor_fits; [lia|done|unfold fits; lia]).
    split; [split; [rewrite length_app; cbn; lia|apply Forall_app; split; [done|by apply Forall_singleton]]|].
    rewrite !be_val_app. change (zlen [Z.lxor z 135]) with 1. change (zlen [z]) with 1. change (256 ^ 1) with 256.
    unfold be_val at 2 4. cbn [fold_left]. rewrite !Z.mul_0_l, !Z.add_0_l.
    symmetry. apply lxor_low; [done|unfold fits; lia].
  - eexists. split; [done|]. split; [split; [rewrite length_app; cbn; lia|done]|done].
Qed.

(** ** The last block *)

Lemma cmac_div n : (0 < n)%nat -> ((16 + n - 1) / 16 = S ((n - 1) / 16))%nat.
Proof. intros. replace (16 + n - 1)%nat with ((n - 1) + 1 * 16)%nat by lia. rewrite Nat.div_add; lia. Qed.

Lemma cmac_head_short m : (length m <= 16)%nat -> cmac_head m = [].
Proof. intros. unfold cmac_head. by rewrite Nat.div_small by lia. Qed.
Lemma cmac_last_short m : (length m <= 16)%nat -> cmac_last m = m.
Proof. intros. unfold cmac_last. by rewrite Nat.div_small by lia. Qed.

Lemma cmac_head_app b m : length b = 16%nat -> m ≠ [] -> cmac_head (b ++ m) = b ++ cmac_head m.
Proof.
  intros Hb Hm. unfold cmac_head. rewrite length_app, Hb, cmac_div by (destruct m; [done|cbn; lia]).
  rewrite take_app, Hb, take_ge by lia. do 2 f_equal. lia.
Qed.
Lemma cmac_last_app b m : length b = 16%nat -> m ≠ [] -> cmac_last (b ++ m) = cmac_last m.
Proof.
  intros Hb Hm. unfold cmac_last. rewrite length_app, Hb, cmac_div by (destruct m; [done|cbn; lia]).
  rewrite drop_app, Hb, drop_ge by lia. cbn [app]. f_equal. lia.
Qed.

Lemma cmac_last_len m : (length (cmac_last m) <= 16)%nat.
Proof.
  unfold cmac_last. rewrite length_drop.
  pose proof (Nat.div_mod_eq (length m - 1) 16). pose proof (Nat.mod_upper_bound (length m - 1) 16). lia.
Qed.

Lemma cmac_ind (P : list Z -> Prop) :
  P [] -> (forall l, (0 < length l)%nat -> (length l <= 16)%nat -> P l) ->
  (forall b l, length b = 16%nat -> l ≠ [] -> P l -> P (b ++ l)) -> forall l, P l.
Proof.
  intros H0 H1 H2 l. induction l as [|l Hl|b l Hb IH] using block_ind; [done|apply H1; lia|].
  destruct l as [|x l]; [rewrite app_nil_r; apply H1; lia|by apply H2].
Qed.

(** Adding the padding bit. *)
Lemma pad_bit x l : is_block x -> (length l < 16)%nat ->
  (v ← rd (xor_prefix x l) (zlen l); wr (xor_prefix x l) (zlen l) (Z.lxor v 0x80))
  = Ret (xorb x (pad16 (l ++ [0x80]))).
Proof.
  intros [Hx _] Hl. rewrite <- xor_prefix_pad by (rewrite ?length_app; cbn; lia).
  destruct (lookup_lt_is_Some_2 x (length l)) as [y Hy]; [lia|].
  unfold xor_prefix. rewrite (drop_S x y) by done.
  assert (zlen l = zlen (xorb (take (length l) x) l)) as Hz
    by (unfold zlen; rewrite xorb_len, length_take; lia).
  rewrite rd_mid by done. simp_res. rewrite wr_mid by done. f_equal.
  rewrite length_app, Nat.add_1_r, (take_S_r _ _ y) by done.
  rewrite xorb_app by (rewrite length_take; lia). by rewrite <- app_assoc.
Qed.

Lemma pad_block l : bytes_ok l -> (length l < 16)%nat -> is_block (pad16 (l ++ [0x80])).
Proof.
  intros Hb Hl. apply is_block_pad; [rewrite length_app; cbn; lia|]. apply Forall_app. split; [done|].
  apply Forall_singleton. unfold fits. lia.
Qed.

(** ** Reading the elements *)

Section Vector.
Context (els rests : list (list Z)).
Context (Hne : Forall (fun el => el ≠ []) els) (Hlen : length rests = length els).

(** Element [i] is the first [len[i]] bytes of what [addr[i]] points to. *)
Let addr : list (list Z) := zip_with app els rests.
Let len : list Z := map zlen els.

Lemma addr_rd e el : els !! e = Some el -> exists r, rd addr (Z.of_nat e) = Ret (el ++ r).
Proof.
  intros He. destruct (lookup_lt_is_Some_2 rests e) as [r Hr].
  { rewrite Hlen. by eapply lookup_lt_Some. }
  exists r. apply rd_Ret. rewrite Nat2Z.id. split; [lia|]. unfold addr.
  by apply lookup_zip_with_Some; eauto.
Qed.

Lemma len_rd e el : els !! e = Some el -> rd len (Z.of_nat e) = Ret (zlen el).
Proof.
  intros He. apply rd_Ret. rewrite Nat2Z.id. split; [lia|].
  unfold len. by rewrite list_lookup_fmap, He.
Qed.

(** What is left to read at position [pos] of element [e]. *)
Definition stream (e pos : nat) (s : list Z) : Prop :=
  exists el, els !! e = Some el /\ (pos < length el)%nat /\
    s = drop pos el ++ concat (drop (S e) els).

Lemma stream_next e : concat (drop (S e) els) ≠ [] -> stream (S e) 0 (concat (drop (S e) els)).
Proof.
  intros Hc. destruct (drop (S e) els) as [|el r] eqn:Hd; [done|].
  assert (els !! S e = Some el) as He.
  { pose proof (lookup_drop els (S e) 0) as H. rewrite Hd in H. cbn in H. by rewrite Nat.add_0_r in H. }
  exists el. split; [done|]. eapply Forall_lookup_1 in Hne; [|exact He].
  split; [destruct el; [done|cbn; lia]|]. cbn [concat]. rewrite drop_0. f_equal.
  replace (S (S e)) with (S e + 1)%nat by lia. by rewrite <- drop_drop, Hd.
Qed.

Lemma absorb_ok n brk e pos dn td s : stream e pos s -> (n <= length s)%nat -> (n <= length td)%nat ->
  (forall k, (k < n)%nat -> brk (zlen dn + Z.of_nat k) = true <-> length s = S k) ->
  exists e' pos', absorb n brk addr len (dn ++ td) (Z.of_nat e) (Z.of_nat pos) (zlen dn)
      = Ret (dn ++ xor_prefix td (take n s), Z.of_nat e', Z.of_nat pos') /\
    ((n < length s)%nat -> stream e' pos' (drop n s)).
Proof.
  revert e pos dn td s. induction n as [|n IH]; intros e pos dn td s Hs Hns Hnt Hbrk.
  - exists e, pos. cbn [absorb]. rewrite take_0. split; [done|]. by rewrite drop_0.
  - destruct Hs as (el & He & Hp & ->). destruct (lookup_lt_is_Some_2 el pos Hp) as [x Hx].
    pose proof (drop_S el x pos Hx) as Hd. rewrite Hd in *. cbn [app] in *.
    set (s' := drop (S pos) el ++ concat (drop (S e) els)) in *.
    destruct td as [|c td]; [cbn in Hnt; lia|]. cbn [length] in *.
    cbn [absorb take drop]. destruct (addr_rd e el He) as [r Hr]. rewrite Hr. simp_res.
    rewrite (rd_app_l el r) by (unfold zlen; lia).
    replace (rd el (Z.of_nat pos)) with (Ret x) by (symmetry; apply rd_Ret; rewrite Nat2Z.id; split; [lia|done]).
    simp_res. rewrite rd_mid by done. simp_res. rewrite wr_mid by done. simp_res.
    rewrite (len_rd e el He). simp_res.
    replace (dn ++ xor_prefix (c :: td) (x :: take n s')) with
      ((dn ++ [Z.lxor c x]) ++ xor_prefix td (take n s')) by (by rewrite <- app_assoc).
    rewrite cons_middle, (app_assoc dn). replace (zlen dn + 1) with (zlen (dn ++ [Z.lxor c x])) by zlen_lia.
    assert (forall k, (k < n)%nat -> brk (zlen (dn ++ [Z.lxor c x]) + Z.of_nat k) = true <-> length s' = S k) as Hbrk'.
    { intros k Hk. rewrite zlen_app. change (zlen [Z.lxor c x]) with 1.
      replace (zlen dn + 1 + Z.of_nat k) with (zlen dn + Z.of_nat (S k)) by lia. rewrite Hbrk by lia. lia. }
    specialize (Hbrk 0%nat ltac:(lia)). rewrite Z.add_0_r in Hbrk.
    destruct (Z.leb_spec (zlen el) (Z.of_nat pos + 1)) as [Hend|Hend].
    + assert (s' = concat (drop (S e) els)) as Hs'.
      { unfold s'. rewrite (drop_ge el) by (unfold zlen in Hend; lia). done. }
      destruct (brk (zlen dn)) eqn:Hb.
      * assert (length s' = 0)%nat as H0 by (destruct Hbrk; lia). assert (n = 0%nat) as -> by lia.
        exists e, (S pos). split; [rewrite take_0; do 2 f_equal; lia|lia].
      * assert (s' ≠ []) as Hn by (intros H; rewrite H in Hbrk; cbn in Hbrk; intuition congruence).
        rewrite Hs' in Hn. apply stream_next in Hn. rewrite <- Hs' in Hn.
        pose proof Hn as (el' & He' & _). destruct (addr_rd _ _ He') as [r' Hr'].
        replace (Z.of_nat e + 1) with (Z.of_nat (S e)) by lia. rewrite Hr'. simp_res.
        rewrite (len_rd _ _ He'). simp_res.
        destruct (IH (S e) 0%nat (dn ++ [Z.lxor c x]) td s') as (e' & p' & E & Hst); [done|lia|lia|done|].
        exists e', p'. split; [exact E|]. intros. apply Hst. lia.
    + replace (Z.of_nat pos + 1) with (Z.of_nat (S pos)) by lia.
      destruct (IH e (S pos) (dn ++ [Z.lxor c x]) td s') as (e' & p' & E & Hst); [|lia|lia|done|].
      { exists el. split; [done|]. split; [unfold zlen in Hend; lia|done]. }
      exists e', p'. split; [exact E|]. intros. apply Hst. lia.
Qed.

(** ** The code computes CMAC *)

Section Loop.
Context {ctx : Type} `{!BlockCipher ctx} (c : ctx) (key : list Z) (Hc : holds c key).
Let E : list Z -> list Z := block_cipher key.

Lemma omac_loop_ok fuel e pos s cbc : stream e pos s -> bytes_ok s -> is_block cbc ->
  (length s / 16 < fuel)%nat ->
  let x := cbc_mac E cbc (blocks (cmac_head s)) in let l := cmac_last s in
  exists e' pos' : nat, is_block x /\
    omac_loop fuel c addr len cbc (Z.of_nat e) (Z.of_nat pos) (zlen s) =
      Ret (if decide (length l = 16%nat) then (xorb x l, Z.of_nat e', Z.of_nat pos', 0)
           else (x, Z.of_nat e', Z.of_nat pos', zlen l)) /\
    (length l ≠ 16%nat -> stream e' pos' l).
Proof.
  revert fuel e pos cbc. induction s as [|s H0 H16|b s Hb Hs IH] using cmac_ind;
    intros [|fuel] e pos cbc Hst Hby Hcbc Hf; try lia; cbn zeta; cbn [omac_loop].
  - destruct Hst as (el & _ & Hp & Hd). apply (f_equal length) in Hd.
    rewrite length_app, length_drop in Hd. cbn in Hd. lia.
  - rewrite cmac_head_short, cmac_last_short by lia. rewrite blocks_nil. cbn [cbc_mac fold_left].
    destruct (decide (length s = 16%nat)) as [H|H].
    + rewrite (proj2 (Z.ltb_ge _ _)) by (unfold zlen; lia).
      destruct (absorb_ok 16 (fun i => (i + 1 =? 16) && (zlen s =? 16)) e pos [] cbc s)
        as (e' & p' & Ea & _); [done|lia|destruct Hcbc; lia| |].
      { intros k Hk. change (zlen (@nil Z)) with 0. unfold zlen. rewrite andb_true_iff, !Z.eqb_eq. lia. }
      cbn [app] in Ea. change (zlen (@nil Z)) with 0 in Ea. bind_step Ea. cbv iota beta.
      rewrite (proj2 (Z.ltb_ge _ _)) by (unfold zlen; lia). simp_res.
      exists e', p'. split; [done|]. split; [|done].
      replace (zlen s - 16) with 0 by (unfold zlen; lia).
      destruct fuel; [rewrite H in Hf; cbn in Hf; lia|]. cbn [omac_loop Z.ltb Z.compare].
      rewrite take_ge, xor_prefix_pad, pad16_full by (lia || (destruct Hcbc; lia)). done.
    + rewrite (proj2 (Z.ltb_lt _ _)) by (unfold zlen; lia).
      exists e, pos. by split_and!.
  - rewrite cmac_head_app, cmac_last_app by done. rewrite blocks_cons by done.
    apply Forall_app in Hby as [Hbb Hbs].
    rewrite (proj2 (Z.ltb_ge _ _)) by (unfold zlen; rewrite length_app; lia).
    destruct (absorb_ok 16 (fun i => (i + 1 =? 16) && (zlen (b ++ s) =? 16)) e pos [] cbc (b ++ s))
      as (e1 & p1 & Ea & Hst1); [done|rewrite length_app; lia|destruct Hcbc; lia| |].
    { intros k Hk. change (zlen (@nil Z)) with 0. unfold zlen. rewrite andb_true_iff, !Z.eqb_eq, length_app.
      destruct s; [done|cbn; lia]. }
    cbn [app] in Ea. change (zlen (@nil Z)) with 0 in Ea. bind_step Ea. cbv iota beta.
    assert (0 < length s)%nat as Hs0 by (destruct s; [done|cbn; lia]).
    rewrite (proj2 (Z.ltb_lt _ _)) by (unfold zlen; rewrite length_app; lia).
    rewrite (take_app_length' b) by done. rewrite (drop_app_length' b) in Hst1 by done.
    rewrite xor_prefix_pad, pad16_full by (lia || (destruct Hcbc; lia)).
    destruct (encrypt_holds c key (xorb cbc b) Hc) as [Ee He]; [by apply is_block_xorb|].
    bind_step Ee. replace (zlen (b ++ s) - 16) with (zlen s) by (unfold zlen; rewrite length_app; lia).
    apply IH; [apply Hst1; rewrite length_app; lia|done|done|].
    rewrite length_app, Hb in Hf. replace (16 + length s)%nat with (length s + 1 * 16)%nat in Hf by lia.
    rewrite Nat.div_add in Hf; lia.
Qed.
End Loop.
End Vector.

Lemma gf_mulx_bytes b : is_block b ->
  gf_mulx b = Ret (be_bytes 16 (dbl (be_val b))) /\ is_block (be_bytes 16 (dbl (be_val b))).
Proof.
  intros Hb. destruct (gf_mulx_ok b Hb) as (b' & E & [Hl Hb'] & <-).
  rewrite <- Hl, be_bytes_val by done. by split_and!.
Qed.

Lemma total_ok (els : list (list Z)) a : 0 <= a -> a + zlen (concat els) < 2 ^ 64 ->
  fold_left (fun t l => u64 (t + l)) (map zlen els) a = a + zlen (concat els).
Proof.
  revert a. induction els as [|el els IH]; intros a Ha Hl; cbn [map fold_left concat] in *.
  - change (zlen (@nil Z)) with 0. lia.
  - rewrite zlen_app in Hl. pose proof (zlen_nonneg el). pose proof (zlen_nonneg (concat els)).
    rewrite wrap_small by (unfold fits; lia). rewrite IH by lia. zlen_lia.
Qed.

Section Omac1.
Context {ctx : Type} `{!BlockCipher ctx}.

Lemma zeros_block : is_block (replicate 16 0).
Proof. split; [done|]. apply bytes_replicate. unfold fits. lia. Qed.

(** The mask and the last encryption. *)
Lemma omac_last c key x l k : holds c key -> is_block x -> is_block l -> is_block k ->
  (pad ← xor_block k (xorb x l); mac ← block_encrypt c pad; Ret (Some mac)) =
  Ret (Some (block_cipher key (xorb x (xorb l k)))).
Proof.
  intros Hc Hx Hl Hk. rewrite xor_block_16 by (rewrite ?xorb_len; destruct Hx, Hl, Hk; lia). simp_res.
  assert (xorb k (xorb x l) = xorb x (xorb l k)) as ->.
  { rewrite xorb_comm. apply xorb_assoc. }
  destruct (encrypt_holds c key (xorb x (xorb l k)) Hc) as [-> _]; [|done].
  by repeat apply is_block_xorb.
Qed.

Lemma omac1_core mem key kr els rests : length mem = 61%nat -> is_key key -> els ≠ [] ->
  Forall (fun el => el ≠ []) els \/ els = [[]] -> length rests = length els ->
  bytes_ok (concat els) -> zlen (concat els) < 2 ^ 64 ->
  omac1_aes_vector (Some mem) (key ++ kr) (zlen key) (zip_with app els rests) (map zlen els) =
  Ret (Some (cmac (block_cipher key) (concat els))).
Proof.
  intros Hm Hk Hne Hels Hr Hb Hl. unfold omac1_aes_vector.
  destruct (init_some mem key kr Hm Hk) as (c & Ec & Hc). bind_step Ec.
  set (m := concat els) in *. set (E := block_cipher key).
  assert (total (map zlen els) = zlen m) as -> by (unfold total; rewrite total_ok; [done|lia|done]).
  destruct els as [|el els]; [done|]. destruct rests as [|rst rests]; [done|].
  change (rd (zip_with app (el :: els) (rst :: rests)) 0) with (Ret (el ++ rst)).
  change (rd (map zlen (el :: els)) 0) with (Ret (zlen el)). simp_res.
  pose proof zeros_block as Hz. destruct (encrypt_holds c key _ Hc Hz) as [Ez Hz'].
  destruct (gf_mulx_bytes _ Hz') as [E1 HK1]. fold E in E1, HK1. change (be_bytes 16 _) with (K1 E) in E1, HK1.
  destruct (gf_mulx_bytes _ HK1) as [E2 HK2]. change (be_bytes 16 _) with (K2 E) in E2, HK2.
  destruct Hels as [Hels|[= -> ->]].
  - assert (stream (el :: els) 0 0 m) as Hst.
    { exists el. apply Forall_cons in Hels as [He _]. by destruct el; [done|split_and!; [|cbn; lia|]]. }
    destruct (omac_loop_ok (el :: els) (rst :: rests) Hels Hr c key Hc (S (Z.to_nat (zlen m / 16)))
      0 0 m (replicate 16 0) Hst Hb Hz) as (e & p & Hx & El & Hs).
    { unfold zlen. rewrite Z2Nat.inj_div, Nat2Z.id by lia. change (Z.to_nat 16) with 16%nat. lia. }
    fold E in Hx, El. set (x := cbc_mac E (replicate 16 0) (blocks (cmac_head m))) in *.
    set (l := cmac_last m) in *. cbn [Z.of_nat] in El. bind_step El. clear El.
    assert (0 < length m)%nat as Hm0 by (apply Forall_cons in Hels as [He _]; unfold m; destruct el; [done|cbn; lia]).
    assert (bytes_ok l) as Hbl by (by apply Forall_drop).
    assert (length l <= 16)%nat as Hl16 by apply cmac_last_len.
    unfold cmac. fold l. fold x. destruct (decide (length l = 16%nat)) as [H|H]; cbv iota beta.
    + bind_step Ez. fold E. bind_step E1. cbn [Z.eqb negb orb].
      rewrite (proj2 (Z.eqb_neq _ _)) by (unfold zlen; lia). simp_res. by apply omac_last.
    + assert (0 < length l)%nat as Hl0.
      { destruct (Hs H) as (el' & _ & Hp & ->). rewrite length_app, length_drop. lia. }
      bind_step Ez. fold E. bind_step E1.
      rewrite (proj2 (Z.eqb_neq _ 0)) by (unfold zlen; lia). cbn [negb orb].
      destruct (absorb_ok (el :: els) (rst :: rests) Hels Hr (length l) (fun i => i + 1 =? zlen l) e p [] x l)
        as (e' & p' & Ea & _); [by apply Hs|done|destruct Hx; lia| |].
      { intros k Hk'. change (zlen (@nil Z)) with 0. unfold zlen. rewrite Z.eqb_eq. lia. }
      rewrite take_ge in Ea by lia. cbn [app] in Ea. change (zlen (@nil Z)) with 0 in Ea.
      rewrite zlen_to_nat. bind_step Ea. cbv iota beta.
      pose proof (pad_bit x l Hx ltac:(lia)) as Hpb. apply bind_inv in Hpb as (v & Ev & Ew).
      bind_step Ev. bind_step Ew. bind_step E2. apply omac_last; [done|done| |done].
      apply pad_block; [done|lia].
  - subst m. cbn [concat app] in *. change (zlen (@nil Z)) with 0.
    cbn [omac_loop Z.ltb Z.compare]. simp_res. bind_step Ez. fold E. bind_step E1.
    change (Z.to_nat 0) with 0%nat. cbn [Z.eqb negb orb absorb]. simp_res.
    pose proof (pad_bit _ [] Hz ltac:(cbn; lia)) as Hpb. apply bind_inv in Hpb as (v & Ev & Ew).
    change (zlen (@nil Z)) with 0 in Ev, Ew. change (xor_prefix (replicate 16 0) []) with (replicate 16 0) in Ev, Ew.
    cbv iota beta. bind_step Ev. bind_step Ew. bind_step E2. apply omac_last; [done|done| |done].
    apply (pad_block []); [done|cbn; lia].
Qed.

(** A failed allocation of the context is reported, nothing else happens. *)
Lemma omac1_nomem key kl addr len : omac1_aes_vector None key kl addr len = Ret None.
Proof. unfold omac1_aes_vector. by rewrite init_none. Qed.
End Omac1.

Lemma cmac_block E m : (forall b, is_block b -> is_block (E b)) -> bytes_ok m -> is_block (cmac E m).
Proof.
  intros HE Hm. assert (forall v, is_block (be_bytes 16 v)) as Hbe by (intros; split; [apply be_bytes_len|apply be_bytes_ok]).
  assert (forall bs x, is_block x -> Forall is_block bs -> is_block (cbc_mac E x bs)) as Hcbc.
  { induction bs as [|b bs IH]; intros x Hx Hb; [done|]. apply Forall_cons in Hb as [Hb Hbs].
    apply IH; [|done]. by apply HE, is_block_xorb. }
  pose proof (cmac_last_len m) as Hl. assert (bytes_ok (cmac_last m)) as Bl by (by apply Forall_drop).
  apply HE, is_block_xorb; [apply Hcbc; [by_eval|apply blocks_ok; by apply Forall_take]|].
  case_decide as Hd; apply is_block_xorb; try apply Hbe; [done|].
  split; [apply pad16_len; rewrite length_app; cbn [length]; lia|]. unfold pad16.
  apply Forall_app. split; [apply Forall_app; split; [done|by_eval]|]. by apply Forall_replicate.
Qed.

(** C24: the vector interface of AES-CMAC.  For every key of 16, 24 or 32 bytes, any
    block cipher that meets the interface, and any cut of the message into
    non-empty elements (or one empty element), [omac1_aes_vector] reads within
    the elements and returns the CMAC of SP 800-38B of their concatenation. *)
Theorem omac1_is_cmac {ctx : Type} `{!BlockCipher ctx} mem key kr els rests :
  length mem = 61%nat -> is_key key -> els ≠ [] ->
  Forall (fun el => el ≠ []) els \/ els = [[]] -> length rests = length els ->
  bytes_ok (concat els) -> zlen (concat els) < 2 ^ 64 ->
  omac1_aes_vector (Some mem) (key ++ kr) (zlen key) (zip_with app els rests) (map zlen els) =
  Ret (Some (cmac (block_cipher key) (concat els))).
Proof. apply omac1_core. Qed.

Lemma omac1_is_cmac_witness :
  omac1_aes_vector (Some (replicate 61 0)) (replicate 16 1 ++ [7]) (zlen (replicate 16 1))
    (zip_with app [[1; 2; 3]; [4; 5]] [[9]; []]) (map zlen [[1; 2; 3]; [4; 5]]) =
  Ret (Some (cmac (block_cipher (replicate 16 1)) (concat [[1; 2; 3]; [4; 5]]))).
Proof.
  refine (omac1_is_cmac (replicate 61 0) (replicate 16 1) [7] [[1; 2; 3]; [4; 5]] [[9]; []] _ _ _ _ _ _ _);
    [reflexivity|by_eval|by_eval|left; by_eval|reflexivity|by_eval|by_eval].
Defined.
End Cmac.
