(* ===== verification/Ccm.v ===== *)
(** * CCM: counter mode with CBC-MAC

    Models [core/crypto/aes-ccm.c]: [aes_ccm_auth_start], [aes_ccm_auth],
    [aes_ccm_encr_start], [aes_ccm_encr], [aes_ccm_encr_auth],
    [aes_ccm_decr_auth], [aes_ccm_ae] and [aes_ccm_ad].  The reference is RFC
    3610 with a length field of two bytes: sealing gives the ciphertext and the
    tag the RFC prescribes, opening accepts exactly the sealed messages, and one
    undoes the other, for any cipher that meets [BlockCipher].

    An input pointer is the list of the cells from it on; the output buffer is an
    object with an offset, because the last, partial block is written as 16 bytes
    and runs over what follows it. *)
From S2P Require Import Prelude Aes Modes Cmac.

Module Ccm.
Import Aes Cmac.

Section Code.
Context {ctx : Type} `{!BlockCipher ctx} (aes : ctx).

(** [x], the state of the CBC-MAC, after the header blocks.  Every cell of the
    local buffers is written before it is read. *)
Definition aes_ccm_auth_start (M L : Z) (nonce aad : list Z) (aad_len plain_len : Z) : res (list Z) :=
  let b := replicate 16 0 in
  b ← wr b 0 (if negb (aad_len =? 0) then 0x40 else 0);
  b0 ← rd b 0;
  b ← wr b 0 (u8 (Z.lor b0 (Z.shiftl ((M - 2) / 2) 3)));
  b0 ← rd b 0;
  b ← wr b 0 (u8 (Z.lor b0 (L - 1)));
  n ← slice nonce 0 (15 - L);
  b ← splice b 1 n;
  b ← splice b (16 - L) (be16 plain_len);
  x ← block_encrypt aes b;
  if aad_len =? 0 then Ret x else
  let aad_buf := replicate 32 0 in
  aad_buf ← splice aad_buf 0 (be16 aad_len);
  d ← slice aad 0 aad_len;
  aad_buf ← splice aad_buf 2 d;
  aad_buf ← memset aad_buf (2 + aad_len) 0 (32 - 2 - aad_len);
  aad_buf ← xor_block aad_buf x;
  in_ ← slice aad_buf 0 16;
  x ← block_encrypt aes in_;
  if 14 <? aad_len then
    in_ ← slice aad_buf 16 16;
    in_ ← xor_block in_ x;
    block_encrypt aes in_
  else Ret x.

(** [n] full blocks; the rest of [data] is returned. *)
Fixpoint auth_loop (n : nat) (data x : list Z) : res (list Z * list Z) :=
  match n with
  | O => Ret (data, x)
  | S n =>
      x ← xor_block x data;
      x ← block_encrypt aes x;
      auth_loop n (drop 16 data) x
  end.

Definition aes_ccm_auth (data : list Z) (len : Z) (x : list Z) : res (list Z) :=
  let last := len `mod` 16 in
  r ← auth_loop (Z.to_nat (len / 16)) data x;
  let '(data, x) := r in
  if negb (last =? 0) then
    l ← slice data 0 last;
    block_encrypt aes (xor_prefix x l)
  else Ret x.

Definition aes_ccm_encr_start (L : Z) (nonce a : list Z) : res (list Z) :=
  a ← wr a 0 (u8 (L - 1));
  n ← slice nonce 0 (15 - L);
  splice a 1 n.

(** Full blocks from counter [i] on: the key stream goes to [out] at [po], then the
    input is added to it. *)
Fixpoint encr_loop (n : nat) (i : Z) (in_ out : list Z) (po : Z) (a : list Z)
    : res (list Z * list Z * list Z) :=
  match n with
  | O => Ret (in_, out, a)
  | S n =>
      a ← splice a 14 (be16 i);
      s ← block_encrypt aes a;
      out ← splice out po s;
      o ← slice out po 16;
      o ← xor_block o in_;
      out ← splice out po o;
      encr_loop n (i + 1) (drop 16 in_) out (po + 16) a
  end.

(** The output buffer and the counter block. *)
Definition aes_ccm_encr (L : Z) (in_ : list Z) (len : Z) (out : list Z) (po : Z) (a : list Z)
    : res (list Z * list Z) :=
  let last := len `mod` 16 in
  let n := len / 16 in
  r ← encr_loop (Z.to_nat n) 1 in_ out po a;
  let '(in_, out, a) := r in
  let po := po + 16 * n in
  if negb (last =? 0) then
    a ← splice a 14 (be16 (n + 1));
    s ← block_encrypt aes a;
    out ← splice out po s;
    o ← slice out po last;
    l ← slice in_ 0 last;
    out ← splice out po (xorb o l);
    Ret (out, a)
  else Ret (out, a).

(** The encrypted tag, written to [out] at [pa]. *)
Definition aes_ccm_encr_auth (M : Z) (x a out : list Z) (pa : Z) : res (list Z) :=
  a ← splice a 14 (be16 0);
  tmp ← block_encrypt aes a;
  t ← slice x 0 M; s ← slice tmp 0 M;
  splice out pa (xorb t s).

(** The decrypted tag, and the counter block it leaves. *)
Definition aes_ccm_decr_auth (M : Z) (a auth : list Z) : res (list Z * list Z) :=
  a ← splice a 14 (be16 0);
  tmp ← block_encrypt aes a;
  u ← slice auth 0 M; s ← slice tmp 0 M;
  Ret (xorb u s, a).
End Code.

Section Top.
Context {ctx : Type} `{!BlockCipher ctx}.

(** [None] is the return value -1.  [crypt] and [auth] are the offsets [po] and
    [pa] of the one buffer [out] that every caller passes; [a] starts with
    arbitrary contents [a0]. *)
Definition aes_ccm_ae (mem : option (list Z)) (a0 key : list Z) (key_len : Z) (nonce : list Z)
    (M : Z) (plain : list Z) (plain_len : Z) (aad : list Z) (aad_len : Z)
    (out : list Z) (po pa : Z) : res (option (list Z)) :=
  let L := 2 in
  if (30 <? aad_len) || (16 <? M) then Ret None else
  co ← block_init mem key key_len;
  match co with
  | None => Ret None
  | Some aes =>
      x ← aes_ccm_auth_start aes M L nonce aad aad_len plain_len;
      x ← aes_ccm_auth aes plain plain_len x;
      a ← aes_ccm_encr_start L nonce a0;
      r ← aes_ccm_encr aes L plain plain_len out po a;
      let '(out, a) := r in
      out ← aes_ccm_encr_auth aes M x a out pa;
      Ret (Some out)
  end.

(** The whole buffer [plain] is returned with the verdict: the plaintext is written
    before the tag is checked. *)
Definition aes_ccm_ad (mem : option (list Z)) (a0 key : list Z) (key_len : Z) (nonce : list Z)
    (M : Z) (crypt : list Z) (crypt_len : Z) (aad : list Z) (aad_len : Z)
    (auth plain : list Z) : res (option (list Z)) :=
  let L := 2 in
  if (30 <? aad_len) || (16 <? M) then Ret None else
  co ← block_init mem key key_len;
  match co with
  | None => Ret None
  | Some aes =>
      a ← aes_ccm_encr_start L nonce a0;
      r ← aes_ccm_decr_auth aes M a auth;
      let '(t, a) := r in
      r ← aes_ccm_encr aes L crypt crypt_len plain 0 a;
      let '(plain, a) := r in
      x ← aes_ccm_auth_start aes M L nonce aad aad_len crypt_len;
      x ← aes_ccm_auth aes plain crypt_len x;
      v ← os_memcmp_const x t M;
      if negb (v =? 0) then Ret None else Ret (Some plain)
  end.
End Top.

(** ** RFC 3610, L = 2 *)

Section Rfc3610.
Context (E : list Z -> list Z) (M : nat) (nonce aad : list Z).

Definition flags_B0 : Z := 64 * (if decide (aad = []) then 0 else 1) + 8 * ((Z.of_nat M - 2) / 2) + 1.
Definition B0 (len : Z) : list Z := [flags_B0] ++ nonce ++ be_bytes 2 len.

(** The authenticated blocks: B_0, the additional data behind its length, the
    message. *)
Definition ccm_blocks (m : list Z) : list (list Z) :=
  [B0 (zlen m)] ++ (if decide (aad = []) then [] else blocks (be_bytes 2 (zlen aad) ++ aad)) ++ blocks m.

Definition ccm_T (m : list Z) : list Z := take M (cbc_mac E (replicate 16 0) (ccm_blocks m)).

Definition A (i : Z) : list Z := [1] ++ nonce ++ be_bytes 2 i.
Definition S_ (i : nat) : list Z := E (A (Z.of_nat i)).

(** The first [n] key stream blocks from counter [i] on. *)
Definition key_stream (i n : nat) : list Z := concat (map S_ (seq i n)).

Definition ccm_crypt (m : list Z) : list Z := xorb m (key_stream 1 ((length m + 15) / 16)).
Definition ccm_tag (m : list Z) : list Z := xorb (ccm_T m) (take M (S_ 0)).

Definition ccm_seal (m : list Z) : list Z * list Z := (ccm_crypt m, ccm_tag m).
Definition ccm_open (c u : list Z) : option (list Z) :=
  let m := ccm_crypt c in if decide (ccm_tag m = u) then Some m else None.
End Rfc3610.

(** ** The reference: sealing and opening *)

Lemma be16_be_bytes v : be16 v = be_bytes 2 v.
Proof.
  unfold be16. cbn [be_bytes Z.of_nat]. change (256 ^ Z.of_nat 1) with 256. change (256 ^ 0) with 1.
  change 0xff with (Z.ones 8). rewrite Z.land_ones, Z.shiftr_div_pow2 by lia. unfold wrap.
  change (2 ^ 8) with 256. change (2 ^ 16) with 65536.
  f_equal; [|f_equal]; Z.to_euclidean_division_equations; lia.
Qed.

Lemma ceil16 n : (n <= 16 * ((n + 15) / 16))%nat.
Proof. pose proof (Nat.div_mod_eq (n + 15) 16). pose proof (Nat.mod_upper_bound (n + 15) 16). lia. Qed.

Section Laws.
Context (E : list Z -> list Z) (M : nat) (nonce aad : list Z).
Context (HE : forall b, is_block b -> is_block (E b)).
Context (Hn : length nonce = 13%nat) (Hnb : bytes_ok nonce).

Lemma A_block i : is_block (A nonce i).
Proof.
  split; [unfold A; rewrite !length_app, be_bytes_len; cbn; lia|]. unfold A.
  repeat (apply Forall_app; split); [by_eval|done|apply be_bytes_ok].
Qed.

Lemma S_block i : is_block (S_ E nonce i).
Proof. apply HE, A_block. Qed.

Lemma key_stream_len i n : length (key_stream E nonce i n) = (16 * n)%nat.
Proof.
  revert i. induction n as [|n IH]; intros i; [done|]. unfold key_stream in *. cbn [seq map concat].
  rewrite length_app, IH. destruct (S_block i) as [-> _]. lia.
Qed.

Lemma key_stream_bytes i n : bytes_ok (key_stream E nonce i n).
Proof.
  revert i. induction n as [|n IH]; intros i; [constructor|]. unfold key_stream in *. cbn [seq map concat].
  apply Forall_app. split; [apply S_block|apply IH].
Qed.

Lemma key_stream_cons i n : key_stream E nonce i (S n) = S_ E nonce i ++ key_stream E nonce (S i) n.
Proof. done. Qed.

Lemma ccm_crypt_len m : length (ccm_crypt E nonce m) = length m.
Proof. unfold ccm_crypt. rewrite xorb_len, key_stream_len. pose proof (ceil16 (length m)). lia. Qed.

Lemma ccm_crypt_bytes m : bytes_ok m -> bytes_ok (ccm_crypt E nonce m).
Proof. intros. apply xorb_bytes; [done|apply key_stream_bytes]. Qed.

Lemma ccm_crypt_involutive m : ccm_crypt E nonce (ccm_crypt E nonce m) = m.
Proof.
  unfold ccm_crypt at 1. rewrite ccm_crypt_len. apply xorb_cancel.
  rewrite key_stream_len. apply ceil16.
Qed.

(** Opening accepts exactly the sealed messages. *)
Lemma ccm_open_iff c u m :
  ccm_open E M nonce aad c u = Some m <-> ccm_seal E M nonce aad m = (c, u).
Proof.
  unfold ccm_open, ccm_seal. case_decide as Hd; split.
  - intros [= <-]. by rewrite ccm_crypt_involutive, Hd.
  - intros [= <- <-]. by rewrite ccm_crypt_involutive.
  - done.
  - intros [= <- <-]. by rewrite ccm_crypt_involutive in Hd.
Qed.
End Laws.

(** ** The code computes it *)

Section Proofs.
Context {ctx : Type} `{!BlockCipher ctx} (aes : ctx) (key : list Z) (Hc : holds aes key).
Let E : list Z -> list Z := block_cipher key.

Lemma enc_ok b : is_block b -> block_encrypt aes b = Ret (E b) /\ is_block (E b).
Proof. by apply encrypt_holds. Qed.

Lemma auth_loop_ok b l rest x : is_block x -> is_block b ->
  auth_loop aes (S (length l / 16)) (b ++ l ++ rest) x =
  auth_loop aes (length l / 16) (l ++ rest) (E (xorb x b)).
Proof.
  intros Hx Hb. cbn [auth_loop]. rewrite xor_block_app by (destruct Hx, Hb; done). simp_res.
  destruct (enc_ok (xorb x b)) as [-> _]; [by apply is_block_xorb|]. simp_res.
  by rewrite (drop_app_length' b) by (destruct Hb; done).
Qed.

Lemma div16_Z n : Z.to_nat (Z.of_nat n / 16) = (n / 16)%nat.
Proof. rewrite Z2Nat.inj_div, Nat2Z.id by lia. done. Qed.

Lemma aes_ccm_auth_ok m rest x : bytes_ok m -> is_block x ->
  aes_ccm_auth aes (m ++ rest) (zlen m) x = Ret (cbc_mac E x (blocks m)) /\
  is_block (cbc_mac E x (blocks m)).
Proof.
  revert x. induction m as [|m Hm|b m Hb IH] using block_ind; intros x Hby Hx.
  - done.
  - unfold aes_ccm_auth. rewrite Z.mod_small, Z.div_small by (unfold zlen; lia).
    change (Z.to_nat 0) with 0%nat. cbn [auth_loop].
    simp_res. rewrite (proj2 (Z.eqb_neq _ _)) by (unfold zlen; lia). cbn [negb].
    rewrite slice_0 by done. simp_res. rewrite blocks_short by done. cbn [cbc_mac fold_left].
    rewrite xor_prefix_pad by (destruct Hx; lia).
    apply enc_ok, is_block_xorb; [done|]. apply is_block_pad; [lia|done].
  - apply Forall_app in Hby as [Hbb Hbm].
    assert (is_block b) as Hblk by done.
    rewrite blocks_cons by done.
    change (cbc_mac E x (b :: blocks m)) with (cbc_mac E (E (xorb x b)) (blocks m)).
    destruct (enc_ok (xorb x b)) as [_ Hx']; [by apply is_block_xorb|].
    destruct (IH (E (xorb x b)) Hbm Hx') as [IHe IHb]. split; [|exact IHb].
    rewrite <- IHe. unfold aes_ccm_auth, zlen. rewrite length_app, Hb, !div16_Z.
    replace (Z.of_nat (16 + length m)) with (Z.of_nat (length m) + 1 * 16) by lia.
    rewrite Z.mod_add by lia.
    replace ((16 + length m) / 16)%nat with (S (length m / 16)).
    2: { replace (16 + length m)%nat with (length m + 1 * 16)%nat by lia. rewrite Nat.div_add by lia. lia. }
    by rewrite <- app_assoc, auth_loop_ok.
Qed.

Section Frame.
Context (nonce : list Z).
Context (Hn : length nonce = 13%nat) (Hnb : bytes_ok nonce).

(** A block [fl | nonce | counter], whatever the buffer held. *)
Lemma put_nonce fl (b : list Z) v : length b = 16%nat ->
  (b ← wr b 0 fl; n ← slice nonce 0 (15 - 2); b ← splice b 1 n; splice b 14 (be16 v)) =
  Ret ([fl] ++ nonce ++ be_bytes 2 v).
Proof.
  intros Hb. destruct b as [|x b]; [done|]. cbn [length] in Hb.
  rewrite <- (take_drop 13 b). rewrite wr_0. simp_res.
  rewrite <- (app_nil_r nonce) at 1. rewrite slice_0 by (unfold zlen; lia). simp_res.
  change (fl :: take 13 b ++ drop 13 b) with ([fl] ++ take 13 b ++ drop 13 b).
  rewrite splice_mid by (done || (rewrite length_take; lia)). simp_res.
  rewrite app_assoc. rewrite <- (app_nil_r (drop 13 b)).
  rewrite splice_mid; [by rewrite app_nil_r, <- app_assoc, be16_be_bytes| |].
  - unfold zlen. rewrite length_app. cbn. lia.
  - rewrite length_drop. cbn. lia.
Qed.

Lemma set_counter i j : splice (A nonce i) 14 (be16 j) = Ret (A nonce j).
Proof.
  unfold A. rewrite app_assoc, <- (app_nil_r (be_bytes 2 i)).
  rewrite splice_mid; [by rewrite app_nil_r, <- app_assoc, be16_be_bytes| |done].
  unfold zlen. rewrite length_app. cbn. lia.
Qed.

Lemma A_enc i : block_encrypt aes (A nonce (Z.of_nat i)) = Ret (S_ E nonce i) /\ is_block (S_ E nonce i).
Proof. apply enc_ok, A_block; done. Qed.

(** One block of key stream, added to the input. *)
Lemma encr_block i j b l pre o16 post : length b = 16%nat -> length o16 = 16%nat ->
  (a ← splice (A nonce j) 14 (be16 (Z.of_nat i));
   s ← block_encrypt aes a;
   out ← splice (pre ++ o16 ++ post) (zlen pre) s;
   o ← slice out (zlen pre) 16;
   o ← xor_block o (b ++ l);
   out ← splice out (zlen pre) o;
   Ret (out, a)) = Ret (pre ++ xorb b (S_ E nonce i) ++ post, A nonce (Z.of_nat i)).
Proof.
  intros Hb Ho. rewrite set_counter. simp_res. destruct (A_enc i) as [-> [Hsl Hsb]]. simp_res.
  rewrite splice_mid by (done || lia). simp_res.
  rewrite slice_mid by (done || (unfold zlen; lia)). simp_res.
  rewrite xor_block_app by lia. simp_res. rewrite xorb_comm.
  rewrite splice_mid; [done|done|]. rewrite xorb_len. lia.
Qed.

Lemma encr_loop_ok n i j m rest pre mid : length m = (16 * n)%nat -> (16 * n <= length mid)%nat ->
  exists k, encr_loop aes n (Z.of_nat i) (m ++ rest) (pre ++ mid) (zlen pre) (A nonce j) =
    Ret (rest, pre ++ xorb m (key_stream E nonce i n) ++ drop (16 * n) mid, A nonce k).
Proof.
  revert i j m pre mid. induction n as [|n IH]; intros i j m pre mid Hm Hl.
  - exists j. destruct m; [|done]. by cbn [encr_loop].
  - rewrite <- (take_drop 16 m) in Hm |- *. rewrite <- (take_drop 16 mid) in Hl |- *.
    assert (length (take 16 m) = 16)%nat as H16 by (rewrite take_drop in Hm; rewrite length_take; lia).
    assert (length (take 16 mid) = 16)%nat as H16' by (rewrite take_drop in Hl; rewrite length_take; lia).
    set (b := take 16 m) in *. set (m' := drop 16 m) in *. rewrite length_app in Hm.
    set (o := take 16 mid) in *. set (mid' := drop 16 mid) in *. rewrite length_app in Hl.
    pose proof (encr_block i j b (m' ++ rest) pre o mid' H16 H16') as Eb.
    apply bind_inv in Eb as (a & E1 & Eb). apply bind_inv in Eb as (s & E2 & Eb).
    apply bind_inv in Eb as (o1 & E3 & Eb). apply bind_inv in Eb as (o2 & E4 & Eb).
    apply bind_inv in Eb as (o3 & E5 & Eb). apply bind_inv in Eb as (o4 & E6 & [= -> ->]).
    destruct (IH (S i) (Z.of_nat i) m' (pre ++ xorb b (S_ E nonce i)) mid') as (k & IHk); [lia|lia|].
    exists k. cbn [encr_loop]. rewrite <- !app_assoc.
    bind_step E1. bind_step E2. bind_step E3. bind_step E4. bind_step E5. bind_step E6.
    rewrite (drop_app_length' b) by done.
    replace (Z.of_nat i + 1) with (Z.of_nat (S i)) by lia.
    replace (zlen pre + 16) with (zlen (pre ++ xorb b (S_ E nonce i)))
      by (unfold zlen; destruct (A_enc i) as [_ [? _]]; rewrite length_app, xorb_len; lia).
    rewrite app_assoc, IHk. do 3 f_equal. rewrite key_stream_cons, xorb_app
      by (destruct (A_enc i) as [_ [? _]]; lia).
    rewrite <- !app_assoc. do 3 f_equal. rewrite drop_app_ge by lia. f_equal. lia.
Qed.

(** The partial block: 16 bytes of key stream are written, of which [l] covers the
    first ones. *)
Lemma encr_last i j l rest pre o16 post : (0 < length l < 16)%nat -> length o16 = 16%nat ->
  (a ← splice (A nonce j) 14 (be16 (Z.of_nat i));
   s ← block_encrypt aes a;
   out ← splice (pre ++ o16 ++ post) (zlen pre) s;
   o ← slice out (zlen pre) (zlen l);
   l' ← slice (l ++ rest) 0 (zlen l);
   out ← splice out (zlen pre) (xorb o l');
   Ret (out, a)) =
  Ret (pre ++ xorb l (S_ E nonce i) ++ drop (length l) (S_ E nonce i) ++ post, A nonce (Z.of_nat i)).
Proof.
  intros Hl Ho. rewrite set_counter. simp_res. destruct (A_enc i) as [-> [Hsl Hsb]]. simp_res.
  rewrite splice_mid by (done || lia). simp_res.
  set (s := S_ E nonce i) in *.
  assert (pre ++ s ++ post = pre ++ take (length l) s ++ drop (length l) s ++ post) as ->
    by (by rewrite (app_assoc (take _ _)), take_drop).
  assert (length (take (length l) s) = length l) as Ht by (rewrite length_take; lia).
  rewrite slice_mid by (done || (unfold zlen; lia)). simp_res.
  rewrite slice_0 by done. simp_res. rewrite splice_mid; [|done|rewrite xorb_len; lia]. simp_res.
  assert (xorb (take (length l) s) l = xorb l s) as ->; [|done].
  rewrite xorb_comm, <- (xorb_app_r l _ (drop (length l) s)) by done. by rewrite take_drop.
Qed.

Lemma key_stream_snoc i n : key_stream E nonce i (n + 1) = key_stream E nonce i n ++ S_ E nonce (i + n).
Proof.
  unfold key_stream. rewrite seq_app, map_app, concat_app. cbn [seq map concat]. by rewrite app_nil_r.
Qed.

Lemma ks_len i n : length (key_stream E nonce i n) = (16 * n)%nat.
Proof. apply key_stream_len; [intros; by apply enc_ok|done|done]. Qed.

Lemma aes_ccm_encr_ok j m rest pre mid L : (16 * ((length m + 15) / 16) <= length mid)%nat ->
  exists k tail, aes_ccm_encr aes L (m ++ rest) (zlen m) (pre ++ mid) (zlen pre) (A nonce j) =
    Ret (pre ++ ccm_crypt E nonce m ++ tail, A nonce k) /\ (length m + length tail = length mid)%nat.
Proof.
  intros Hl. pose proof (Nat.div_mod_eq (length m) 16) as Hdm.
  pose proof (Nat.mod_upper_bound (length m) 16 ltac:(lia)) as Hr.
  pose proof (ceil16 (length m)) as Hce.
  set (n := (length m / 16)%nat) in *. set (r := (length m mod 16)%nat) in *.
  assert (zlen m / 16 = Z.of_nat n) as Hn16 by (unfold zlen, n; by rewrite Nat2Z.inj_div).
  assert (zlen m `mod` 16 = Z.of_nat r) as Hr16 by (unfold zlen, r; by rewrite Nat2Z.inj_mod).
  unfold aes_ccm_encr. rewrite Hn16, Hr16, Nat2Z.id.
  rewrite <- (take_drop (16 * n) m). set (f := take (16 * n) m). set (l := drop (16 * n) m).
  assert (length f = 16 * n)%nat as Hf by (unfold f; rewrite length_take; lia).
  assert (length l = r)%nat as Hlr by (unfold l; rewrite length_drop; lia).
  destruct (encr_loop_ok n 1 j f (l ++ rest) pre mid Hf ltac:(lia)) as (k & Ek).
  change (Z.of_nat 1) with 1 in Ek. rewrite <- app_assoc. bind_step Ek. cbv iota beta.
  set (ks := key_stream E nonce 1 n) in *.
  assert (zlen pre + 16 * Z.of_nat n = zlen (pre ++ xorb f ks)) as Hpo.
  { unfold zlen. rewrite length_app, xorb_len, Hf. unfold ks. rewrite ks_len. lia. }
  assert (length (f ++ l) = length m) as Hml by (rewrite length_app; lia).
  destruct (decide (r = 0%nat)) as [H0|H0].
  - rewrite (proj2 (Z.eqb_eq _ _)) by lia. cbn [negb].
    assert (l = []) as Hl0 by (apply nil_length_inv; lia). rewrite Hl0, app_nil_r.
    exists k, (drop (16 * n) mid). split; [|rewrite length_drop; lia].
    unfold ccm_crypt. replace ((length f + 15) / 16)%nat with n; [done|].
    apply Nat.div_unique with (r := 15%nat); lia.
  - rewrite (proj2 (Z.eqb_neq _ _)) by lia. cbn [negb].
    assert ((length m + 15) / 16 = n + 1)%nat as Hc1 by (symmetry; apply Nat.div_unique with (r := (r - 1)%nat); lia).
    assert (16 <= length (drop (16 * n) mid))%nat as Hd by (rewrite length_drop; lia).
    rewrite (app_assoc pre), <- (take_drop 16 (drop (16 * n) mid)), Hpo, <- Hlr. fold (zlen l).
    pose proof (encr_last (1 + n) k l rest (pre ++ xorb f ks) (take 16 (drop (16 * n) mid))
      (drop 16 (drop (16 * n) mid)) ltac:(lia) ltac:(rewrite length_take; lia)) as El.
    replace (Z.of_nat (1 + n)) with (Z.of_nat n + 1) in El by lia. rewrite El.
    exists (Z.of_nat n + 1). eexists. split.
    + unfold ccm_crypt. rewrite Hml, Hc1, key_stream_snoc. fold ks.
      rewrite xorb_app by (unfold ks; rewrite ks_len; lia). rewrite <- !app_assoc. reflexivity.
    + rewrite Hml. rewrite !length_app, !length_drop. destruct (A_enc (1 + n)) as [_ [-> _]]. lia.
Qed.

Lemma encr_start_ok a0 : is_block a0 -> exists j, aes_ccm_encr_start 2 nonce a0 = Ret (A nonce j).
Proof.
  intros [Ha Hab]. exists (be_val (drop 14 a0)).
  pose proof (put_nonce 1 a0 (be_val (drop 14 a0)) Ha) as Ep.
  unfold aes_ccm_encr_start. change (u8 (2 - 1)) with 1.
  apply bind_inv in Ep as (b1 & E1 & Ep). apply bind_inv in Ep as (b2 & E2 & Ep).
  apply bind_inv in Ep as (b3 & E3 & E4). bind_step E1. bind_step E2. rewrite E3.
  destruct a0 as [|y a0]; [done|]. rewrite wr_0 in E1. injection E1 as <-. cbn in Ha.
  rewrite <- (app_nil_r nonce), slice_0 in E2 by (unfold zlen; lia). injection E2 as <-.
  change (1 :: a0) with ([1] ++ a0) in E3. rewrite <- (take_drop 13 a0), splice_mid in E3
    by (done || (rewrite length_take; lia)). injection E3 as <-.
  cbn [drop]. unfold A. do 3 f_equal. symmetry.
  pose proof (be_bytes_val (drop 13 a0)) as Hv. rewrite length_drop in Hv.
  replace (length a0 - 13)%nat with 2%nat in Hv by lia. apply Hv.
  apply Forall_drop. apply Forall_cons in Hab. tauto.
Qed.

Context (M : nat) (HM : (2 <= M <= 16)%nat).

Lemma flags_ok b : u8 (Z.lor (u8 (Z.lor (if (b : bool) then 0x40 else 0) (Z.shiftl ((Z.of_nat M - 2) / 2) 3))) (2 - 1))
  = 64 * (if b then 1 else 0) + 8 * ((Z.of_nat M - 2) / 2) + 1.
Proof.
  pose proof (forallb_seqZ (fun m => forallb (fun b : bool =>
    u8 (Z.lor (u8 (Z.lor (if b then 0x40 else 0) (Z.shiftl ((m - 2) / 2) 3))) (2 - 1)) =?
    64 * (if b then 1 else 0) + 8 * ((m - 2) / 2) + 1) [true; false] || (m <? 2)) 17 eq_refl (Z.of_nat M) ltac:(lia)) as H.
  cbv beta in H. rewrite (proj2 (Z.ltb_ge _ _)) in H by lia. rewrite orb_false_r in H.
  cbn [forallb] in H. rewrite andb_true_r in H. apply andb_true_iff in H as [H1 H2].
  apply Z.eqb_eq in H1, H2. by destruct b.
Qed.

Lemma B0_block aad len : is_block (B0 M nonce aad len).
Proof.
  split; [unfold B0; rewrite !length_app, be_bytes_len; cbn; lia|]. unfold B0.
  repeat (apply Forall_app; split); [|done|apply be_bytes_ok]. apply Forall_singleton.
  unfold flags_B0, fits. case_decide; Z.to_euclidean_division_equations; lia.
Qed.

Lemma xorb_zeros_l b : length b = 16%nat -> xorb (replicate 16 0) b = b.
Proof. intros. rewrite xorb_comm. apply xorb_zeros. lia. Qed.

(** The additional data in its buffer of two blocks. *)
Lemma aad_buf_ok ad rest : (length ad <= 30)%nat ->
  (aad_buf ← splice (replicate 32 0) 0 (be16 (zlen ad));
   d ← slice (ad ++ rest) 0 (zlen ad);
   aad_buf ← splice aad_buf 2 d;
   memset aad_buf (2 + zlen ad) 0 (32 - 2 - zlen ad)) =
  Ret ((be_bytes 2 (zlen ad) ++ ad) ++ replicate (30 - length ad) 0).
Proof.
  intros Hl. change (replicate 32 0) with (replicate 2 0 ++ replicate 30 0).
  rewrite splice_0 by done. simp_res. rewrite slice_0 by done. simp_res.
  replace 30%nat with (length ad + (30 - length ad))%nat at 1 by lia. rewrite replicate_add.
  rewrite splice_mid by (done || (rewrite length_replicate; lia)). simp_res.
  unfold memset. rewrite app_assoc. rewrite <- (app_nil_r (replicate (30 - length ad) 0)) at 1.
  rewrite splice_mid; [rewrite app_nil_r, be16_be_bytes| |].
  - do 3 f_equal. unfold zlen. lia.
  - unfold zlen. rewrite length_app. cbn. lia.
  - rewrite !length_replicate. unfold zlen. lia.
Qed.

Lemma aad_mac_ok x ad : is_block x -> (length ad <= 30)%nat -> bytes_ok ad ->
  let f := be_bytes 2 (zlen ad) ++ ad in
  (aad_buf ← xor_block (f ++ replicate (30 - length ad) 0) x;
   in_ ← slice aad_buf 0 16;
   x ← block_encrypt aes in_;
   if 14 <? zlen ad then
     in_ ← slice aad_buf 16 16; in_ ← xor_block in_ x; block_encrypt aes in_
   else Ret x) = Ret (cbc_mac E x (blocks f)) /\ is_block (cbc_mac E x (blocks f)).
Proof.
  intros HEB Hl Hb f. set (k := (30 - length ad)%nat).
  assert (length f = 2 + length ad)%nat as Hf by (unfold f; rewrite length_app, be_bytes_len; lia).
  assert (bytes_ok f) as Hfb by (apply Forall_app; split; [apply be_bytes_ok|done]).
  destruct (Z.ltb_spec 14 (zlen ad)) as [H14|H14]; unfold zlen in H14.
  - rewrite <- (take_drop 16 f) in Hfb |- *. apply Forall_app in Hfb as [Hb1 Hb2].
    assert (length (take 16 f) = 16)%nat as L1 by (rewrite length_take; lia).
    assert (length (drop 16 f) = length ad - 14)%nat as L2 by (rewrite length_drop; lia).
    rewrite blocks_cons, blocks_one by (done || lia).
    rewrite <- app_assoc, xor_block_ok by (done || (destruct HEB; lia)). simp_res.
    assert (is_block (xorb (take 16 f) x)) as Hx1 by (apply is_block_xorb; done).
    rewrite slice_0 by (unfold zlen; destruct Hx1; lia). simp_res.
    destruct (enc_ok _ Hx1) as [Ex1 Hex1]. bind_step Ex1.
    replace (drop 16 f ++ replicate k 0) with (pad16 (drop 16 f) ++ []) by
      (unfold pad16; rewrite app_nil_r; do 2 f_equal; lia).
    assert (is_block (pad16 (drop 16 f))) as Hp by (apply is_block_pad; [lia|done]).
    rewrite slice_mid by (unfold zlen; destruct Hx1, Hp; lia). simp_res.
    rewrite xor_block_16 by (destruct Hp, Hex1; done). simp_res.
    unfold cbc_mac. cbn [fold_left]. rewrite (xorb_comm x), (xorb_comm _ (pad16 _)).
    apply enc_ok. by apply is_block_xorb.
  - rewrite blocks_one by lia.
    assert (f ++ replicate k 0 = pad16 f ++ replicate 16 0) as ->.
    { unfold pad16. rewrite <- app_assoc, <- replicate_add. do 2 f_equal. lia. }
    assert (is_block (pad16 f)) as Hp by (apply is_block_pad; [lia|done]).
    rewrite xor_block_ok by (destruct Hp, HEB; lia). simp_res.
    assert (is_block (xorb (pad16 f) x)) as Hx1 by (apply is_block_xorb; done).
    rewrite slice_0 by (unfold zlen; destruct Hx1; lia). simp_res.
    destruct (enc_ok _ Hx1) as [Ex1 Hex1]. bind_step Ex1.
    unfold cbc_mac. cbn [fold_left]. by rewrite (xorb_comm x).
Qed.

Lemma aes_ccm_auth_start_ok ad rest len : (length ad <= 30)%nat -> bytes_ok ad ->
  let bs := [B0 M nonce ad len] ++ (if decide (ad = []) then [] else blocks (be_bytes 2 (zlen ad) ++ ad)) in
  aes_ccm_auth_start aes (Z.of_nat M) 2 nonce (ad ++ rest) (zlen ad) len =
    Ret (cbc_mac E (replicate 16 0) bs) /\ is_block (cbc_mac E (replicate 16 0) bs).
Proof.
  intros Hl Hb. cbn zeta. unfold aes_ccm_auth_start.
  set (fl := if negb (zlen ad =? 0) then 64 else 0). change (replicate 16 0) with (0 :: replicate 15 0) at 1.
  rewrite wr_0. simp_res. rewrite rd_cons_0. simp_res. rewrite wr_0. simp_res. rewrite rd_cons_0. simp_res.
  pose proof (put_nonce (u8 (Z.lor (u8 (Z.lor fl (Z.shiftl ((Z.of_nat M - 2) / 2) 3))) (2 - 1)))
    (u8 (Z.lor fl (Z.shiftl ((Z.of_nat M - 2) / 2) 3)) :: replicate 15 0) len eq_refl) as Ep.
  assert (u8 (Z.lor (u8 (Z.lor fl (Z.shiftl ((Z.of_nat M - 2) / 2) 3))) (2 - 1)) = flags_B0 M ad) as Hfl.
  { unfold fl. rewrite flags_ok. unfold flags_B0. destruct ad as [|y ad']; [done|].
    rewrite (proj2 (Z.eqb_neq _ _)) by zlen_lia. done. }
  rewrite Hfl in Ep |- *. change ([flags_B0 M ad] ++ nonce ++ be_bytes 2 len) with (B0 M nonce ad len) in Ep.
  apply bind_inv in Ep as (b1 & E1 & Ep). apply bind_inv in Ep as (b2 & E2 & Ep).
  apply bind_inv in Ep as (b3 & E3 & E4).
  bind_step E1. bind_step E2. bind_step E3. change (16 - 2) with 14. bind_step E4.
  pose proof (B0_block ad len) as HB. destruct (enc_ok _ HB) as [EB HEB]. bind_step EB.
  cbn [app]. change (cbc_mac E (replicate 16 0) (?b :: ?l)) with (cbc_mac E (E (xorb (replicate 16 0) b)) l).
  rewrite xorb_zeros_l by (destruct HB; done).
  set (x := E (B0 M nonce ad len)) in *.
  destruct (decide (ad = [])) as [->|Hne]; [done|].
  rewrite (proj2 (Z.eqb_neq _ _)) by (destruct ad; [done|zlen_lia]).
  pose proof (aad_buf_ok ad rest Hl) as Ea.
  apply bind_inv in Ea as (b5 & E5 & Ea). apply bind_inv in Ea as (b6 & E6 & Ea).
  apply bind_inv in Ea as (b7 & E7 & E8).
  bind_step E5. bind_step E6. bind_step E7. bind_step E8.
  by apply aad_mac_ok.
Qed.

Lemma take_M b : is_block b -> slice b 0 (Z.of_nat M) = Ret (take M b) /\ length (take M b) = M.
Proof.
  intros [Hl _]. assert (length (take M b) = M) as Ht by (rewrite length_take; lia). split; [|done].
  rewrite <- (take_drop M b) at 1. apply slice_0. unfold zlen. by rewrite Ht.
Qed.

Lemma ccm_mac_app ad m : cbc_mac E (replicate 16 0) (ccm_blocks M nonce ad m) =
  cbc_mac E (cbc_mac E (replicate 16 0)
    ([B0 M nonce ad (zlen m)] ++ (if decide (ad = []) then [] else blocks (be_bytes 2 (zlen ad) ++ ad)))) (blocks m).
Proof. unfold ccm_blocks, cbc_mac. by rewrite app_assoc, fold_left_app. Qed.

(** The authentication of header and message together. *)
Lemma ccm_auth_ok ad r2 m r1 : (length ad <= 30)%nat -> bytes_ok ad -> bytes_ok m ->
  (x ← aes_ccm_auth_start aes (Z.of_nat M) 2 nonce (ad ++ r2) (zlen ad) (zlen m);
   aes_ccm_auth aes (m ++ r1) (zlen m) x) =
  Ret (cbc_mac E (replicate 16 0) (ccm_blocks M nonce ad m)) /\
  is_block (cbc_mac E (replicate 16 0) (ccm_blocks M nonce ad m)).
Proof.
  intros Hl Ha Hm. destruct (aes_ccm_auth_start_ok ad r2 (zlen m) Hl Ha) as [Es Hs].
  rewrite ccm_mac_app. bind_step Es. by apply aes_ccm_auth_ok.
Qed.
End Frame.
End Proofs.

Section TopProofs.
Context {ctx : Type} `{!BlockCipher ctx} (mem : list Z) (a0 key kr nonce : list Z) (M : nat).
Context (Hmem : length mem = 61%nat) (Ha0 : is_block a0) (Hkey : is_key key).
Context (HM : (2 <= M <= 16)%nat) (Hn : length nonce = 13%nat) (Hnb : bytes_ok nonce).
Let E : list Z -> list Z := block_cipher key.

Lemma aes_ccm_ae_core m r1 ad r2 pre mid :
  bytes_ok m -> (length ad <= 30)%nat -> bytes_ok ad ->
  (16 * ((length m + 15) / 16) <= length mid)%nat -> (length m + M <= length mid)%nat ->
  exists tail, aes_ccm_ae (Some mem) a0 (key ++ kr) (zlen key) nonce (Z.of_nat M) (m ++ r1) (zlen m)
      (ad ++ r2) (zlen ad) (pre ++ mid) (zlen pre) (zlen pre + zlen m) =
    Ret (Some (pre ++ ccm_crypt E nonce m ++ ccm_tag E M nonce ad m ++ tail)) /\
    (length m + M + length tail = length mid)%nat.
Proof.
  intros Hm Hl Ha Hr1 Hr2. unfold aes_ccm_ae.
  rewrite (proj2 (Z.ltb_ge 30 _)) by (unfold zlen; lia). rewrite (proj2 (Z.ltb_ge 16 _)) by lia. cbn [orb].
  destruct (init_some mem key kr Hmem Hkey) as (c & Ec & Hc). bind_step Ec.
  destruct (ccm_auth_ok c key Hc nonce Hn Hnb M HM ad r2 m r1 Hl Ha Hm) as [Ex Hx].
  apply bind_inv in Ex as (x0 & Ex0 & Ex). bind_step Ex0. bind_step Ex.
  destruct (encr_start_ok key nonce Hn a0 Ha0) as (j & Ej). bind_step Ej.
  destruct (aes_ccm_encr_ok c key Hc nonce Hn Hnb j m r1 pre mid 2 Hr1) as (k & tail & Ee & Ht).
  bind_step Ee. cbv iota beta. fold E in Hx |- *.
  unfold aes_ccm_encr_auth. rewrite set_counter by done. simp_res.
  destruct (A_enc c key Hc nonce Hn Hnb 0) as [Es Hs]. change (Z.of_nat 0) with 0 in Es. bind_step Es.
  fold E in Hs |- *. destruct (take_M nonce Hn M HM _ Hx) as [-> Lx]. simp_res.
  destruct (take_M nonce Hn M HM _ Hs) as [-> Ls]. simp_res.
  rewrite <- (take_drop M tail). rewrite (app_assoc pre), splice_mid.
  - exists (drop M tail). split; [simp_res; by rewrite <- !app_assoc|rewrite length_drop; lia].
  - unfold zlen. rewrite length_app. unfold ccm_crypt. rewrite xorb_len.
    unfold E. rewrite (ks_len c key Hc) by done. pose proof (ceil16 (length m)). lia.
  - rewrite xorb_len, Lx, Ls, length_take. lia.
Qed.

Lemma aes_ccm_ad_core c r1 ad r2 u r3 plain :
  bytes_ok c -> (length ad <= 30)%nat -> bytes_ok ad -> bytes_ok u -> length u = M ->
  (16 * ((length c + 15) / 16) <= length plain)%nat ->
  exists tail, aes_ccm_ad (Some mem) a0 (key ++ kr) (zlen key) nonce (Z.of_nat M) (c ++ r1) (zlen c)
      (ad ++ r2) (zlen ad) (u ++ r3) plain =
    Ret (option_map (fun p => p ++ tail) (ccm_open E M nonce ad c u)) /\
    (length c + length tail = length plain)%nat.
Proof.
  intros Hcb Hl Ha Hub Hu Hr. unfold aes_ccm_ad.
  rewrite (proj2 (Z.ltb_ge 30 _)) by (unfold zlen; lia). rewrite (proj2 (Z.ltb_ge 16 _)) by lia. cbn [orb].
  destruct (init_some mem key kr Hmem Hkey) as (aes & Ec & Hc). bind_step Ec.
  destruct (encr_start_ok key nonce Hn a0 Ha0) as (j & Ej). bind_step Ej.
  unfold aes_ccm_decr_auth. rewrite set_counter by done. simp_res.
  destruct (A_enc aes key Hc nonce Hn Hnb 0) as [Es Hs]. change (Z.of_nat 0) with 0 in Es. bind_step Es.
  rewrite slice_0 by (unfold zlen; lia). simp_res. destruct (take_M nonce Hn M HM _ Hs) as [-> Ls]. simp_res.
  destruct (aes_ccm_encr_ok aes key Hc nonce Hn Hnb 0 c r1 [] plain 2 Hr) as (k & tail & Ee & Ht).
  cbn [app] in Ee. change (zlen (@nil Z)) with 0 in Ee. bind_step Ee. cbv iota beta. fold E in Hs, Ls |- *.
  set (p := ccm_crypt E nonce c).
  assert (forall b, is_block b -> is_block (E b)) as HE by (intros; by eapply enc_ok).
  assert (length p = length c) as Hpl by (by apply ccm_crypt_len).
  assert (bytes_ok p) as Hpb by (by apply ccm_crypt_bytes).
  replace (zlen c) with (zlen p) by (unfold zlen; lia).
  destruct (ccm_auth_ok aes key Hc nonce Hn Hnb M HM ad r2 p tail Hl Ha Hpb) as [Ex Hx].
  apply bind_inv in Ex as (x0 & Ex0 & Ex). bind_step Ex0. bind_step Ex. fold E in Hx |- *.
  set (x := cbc_mac E (replicate 16 0) (ccm_blocks M nonce ad p)) in *.
  destruct (take_M nonce Hn M HM _ Hx) as [_ Lx]. exists tail. split; [|lia].
  destruct (os_memcmp_const_ok (take M x) (xorb u (take M (S_ E nonce 0))) (drop M x) [])
    as (v & Ev & Hv).
  { apply Forall_take, Hx. }
  { apply xorb_bytes; [done|]. apply Forall_take, Hs. }
  { rewrite xorb_len. lia. }
  rewrite take_drop, app_nil_r in Ev. replace (zlen (take M x)) with (Z.of_nat M) in Ev by (unfold zlen; lia).
  bind_step Ev. unfold ccm_open. fold p. unfold ccm_tag, ccm_T. fold x.
  rewrite <- xorb_eq_iff in Hv by lia.
  destruct (Z.eqb_spec v 0); [rewrite decide_True by (apply Hv; lia)|rewrite decide_False by tauto]; done.
Qed.
End TopProofs.

(** The lengths of ciphertext and tag. *)
Lemma enc_blocks {ctx : Type} `{!BlockCipher ctx} (key mem : list Z) : length mem = 61%nat -> is_key key ->
  forall b, is_block b -> is_block (block_cipher key b).
Proof. intros Hmem Hk. destruct (init_some mem key [] Hmem Hk) as (aes & _ & Hc). intros. by eapply enc_ok. Qed.

Lemma seal_ok {ctx : Type} `{!BlockCipher ctx} (key mem : list Z) : length mem = 61%nat -> is_key key ->
  forall nonce : list Z, length nonce = 13%nat -> bytes_ok nonce -> forall M, (2 <= M <= 16)%nat ->
  forall ad m : list Z, (length ad <= 30)%nat -> bytes_ok ad -> bytes_ok m ->
  let c := ccm_crypt (block_cipher key) nonce m in let t := ccm_tag (block_cipher key) M nonce ad m in
  (length c = length m /\ length t = M) /\ bytes_ok c /\ bytes_ok t.
Proof.
  intros Hmem Hk nonce Hn Hnb M HM ad m Hl Ha Hm c t.
  pose proof (enc_blocks key mem Hmem Hk) as HE. destruct (init_some mem key [] Hmem Hk) as (aes & _ & Hc).
  destruct (ccm_auth_ok aes key Hc nonce Hn Hnb M HM ad [] m [] Hl Ha Hm) as [_ [Hx Hxb]].
  destruct (S_block (block_cipher key) nonce HE Hn Hnb 0) as [Hs Hsb].
  split; [split|split].
  - by apply ccm_crypt_len.
  - unfold t, ccm_tag, ccm_T. rewrite xorb_len, !length_take, Hx, Hs. lia.
  - by apply ccm_crypt_bytes.
  - unfold t, ccm_tag, ccm_T. apply xorb_bytes; by apply Forall_take.
Qed.

(** C23: [aes_ccm_ae] seals as RFC 3610 prescribes (L = 2).  For every key of 16, 24
    or 32 bytes in a larger buffer, every 13 byte nonce, tag length 2 to 16, at
    most 30 bytes of additional data and whatever the local buffers hold, the
    code writes the ciphertext and the encrypted tag at their places and changes
    nothing before them; it needs room for the message rounded up to a block
    and for the tag. *)
Theorem ccm_ae_rfc3610 {ctx : Type} `{!BlockCipher ctx} mem a0 key kr nonce M m r1 ad r2 pre mid :
  length mem = 61%nat -> is_block a0 -> is_key key -> (2 <= M <= 16)%nat ->
  length nonce = 13%nat -> bytes_ok nonce -> bytes_ok m -> (length ad <= 30)%nat -> bytes_ok ad ->
  (16 * ((length m + 15) / 16) <= length mid)%nat -> (length m + M <= length mid)%nat ->
  exists tail, aes_ccm_ae (Some mem) a0 (key ++ kr) (zlen key) nonce (Z.of_nat M) (m ++ r1) (zlen m)
      (ad ++ r2) (zlen ad) (pre ++ mid) (zlen pre) (zlen pre + zlen m) =
    Ret (Some (pre ++ ccm_crypt (block_cipher key) nonce m ++ ccm_tag (block_cipher key) M nonce ad m ++ tail)) /\
    (length m + M + length tail = length mid)%nat.
Proof. intros. by apply aes_ccm_ae_core. Qed.

Lemma ccm_ae_rfc3610_witness :
  exists tail, aes_ccm_ae (Some (replicate 61 0)) (replicate 16 0) (replicate 16 1 ++ []) (zlen (replicate 16 1))
      (replicate 13 2) (Z.of_nat 8) ([1; 2; 3] ++ []) (zlen [1; 2; 3]) ([5] ++ [0]) (zlen [5])
      ([9] ++ replicate 20 0) (zlen [9]) (zlen [9] + zlen [1; 2; 3]) =
    Ret (Some ([9] ++ ccm_crypt (block_cipher (replicate 16 1)) (replicate 13 2) [1; 2; 3] ++
      ccm_tag (block_cipher (replicate 16 1)) 8 (replicate 13 2) [5] [1; 2; 3] ++ tail)) /\
    (length [1; 2; 3] + 8 + length tail = length (replicate 20 0))%nat.
Proof.
  refine (ccm_ae_rfc3610 (replicate 61 0) (replicate 16 0) (replicate 16 1) [] (replicate 13 2) 8 [1; 2; 3] []
    [5] [0] [9] (replicate 20 0) _ _ _ _ _ _ _ _ _ _ _);
    [reflexivity|by_eval|by_eval|lia|reflexivity|by_eval|by_eval|cbn; lia|by_eval|cbn; lia|cbn; lia].
Defined.

(** [aes_ccm_ad] opens exactly what is sealed: it returns the plaintext when,
    and only when, ciphertext and tag are those of RFC 3610 for it; otherwise it
    reports failure.  The tag comparison never reads outside its buffers. *)
Theorem ccm_ad_exact {ctx : Type} `{!BlockCipher ctx} mem a0 key kr nonce M c r1 ad r2 u r3 plain :
  length mem = 61%nat -> is_block a0 -> is_key key -> (2 <= M <= 16)%nat ->
  length nonce = 13%nat -> bytes_ok nonce -> bytes_ok c -> (length ad <= 30)%nat -> bytes_ok ad ->
  bytes_ok u -> length u = M -> (16 * ((length c + 15) / 16) <= length plain)%nat ->
  exists (o : option (list Z)) tail,
    aes_ccm_ad (Some mem) a0 (key ++ kr) (zlen key) nonce (Z.of_nat M) (c ++ r1) (zlen c)
      (ad ++ r2) (zlen ad) (u ++ r3) plain = Ret (option_map (fun p => p ++ tail) o) /\
    (length c + length tail = length plain)%nat /\
    forall m, o = Some m <-> ccm_seal (block_cipher key) M nonce ad m = (c, u).
Proof.
  intros Hm Ha0 Hk HM Hn Hnb Hc Hl Ha Hu Hul Hr.
  destruct (aes_ccm_ad_core mem a0 key kr nonce M Hm Ha0 Hk HM Hn Hnb c r1 ad r2 u r3 plain) as (tail & E & Ht); try done.
  exists (ccm_open (block_cipher key) M nonce ad c u), tail. split; [done|]. split; [done|]. intros m.
  apply ccm_open_iff; [|done|done]. by eapply enc_blocks.
Qed.

Lemma ccm_ad_exact_witness :
  exists (o : option (list Z)) tail,
    aes_ccm_ad (Some (replicate 61 0)) (replicate 16 0) (replicate 32 1 ++ []) (zlen (replicate 32 1))
      (replicate 13 2) (Z.of_nat 16) ([1; 2; 3] ++ []) (zlen [1; 2; 3]) ([5] ++ [0]) (zlen [5])
      (replicate 16 4 ++ []) (replicate 20 0) = Ret (option_map (fun p => p ++ tail) o) /\
    (length [1; 2; 3] + length tail = length (replicate 20 0))%nat /\
    forall m, o = Some m <->
      ccm_seal (block_cipher (replicate 32 1)) 16 (replicate 13 2) [5] m = ([1; 2; 3], replicate 16 4).
Proof.
  refine (ccm_ad_exact (replicate 61 0) (replicate 16 0) (replicate 32 1) [] (replicate 13 2) 16 [1; 2; 3] []
    [5] [0] (replicate 16 4) [] (replicate 20 0) _ _ _ _ _ _ _ _ _ _ _ _);
    [reflexivity|by_eval|by_eval|lia|reflexivity|by_eval|by_eval|cbn; lia|by_eval|by_eval|reflexivity|cbn; lia].
Defined.
End Ccm.
