(* ===== verification/Gcm.v ===== *)
(** * GCM: Galois/counter mode

    Models [core/crypto/aes-gcm.c]: [inc32], [xor_block], [shift_right_block],
    [gf_mult], [ghash_start], [ghash], [aes_gctr], [aes_gcm_init_hash_subkey],
    [aes_gcm_prepare_j0], [aes_gcm_gctr], [aes_gcm_ghash], [aes_gcm_ae],
    [aes_gcm_ad] and [aes_gmac].  The reference is SP 800-38D with the product of
    GF(2^128) taken on polynomials (coefficient of x^i in bit i), whose reduction
    modulo x^128 + x^7 + x^2 + x + 1 is proved from its definition. *)
From S2P Require Import Prelude Aes Modes Ccm.

Module Gcm.
Import Aes.

(** ** Words of a block *)

Definition get_be32 (b : list Z) (i : Z) : res Z :=
  x0 ← rd b i; x1 ← rd b (i + 1); x2 ← rd b (i + 2); x3 ← rd b (i + 3);
  Ret (u32 (Z.lor (Z.lor (Z.lor (Z.shiftl x0 24) (Z.shiftl x1 16)) (Z.shiftl x2 8)) x3)).

(** The bytes [WPA_PUT_BE32] stores. *)
Definition be32 (v : Z) : list Z :=
  [Z.land (Z.shiftr v 24) 0xff; Z.land (Z.shiftr v 16) 0xff; Z.land (Z.shiftr v 8) 0xff; Z.land v 0xff].

(** The bytes [WPA_PUT_BE64] stores. *)
Definition be64 (v : Z) : list Z :=
  [u8 (Z.shiftr (u64 v) 56); u8 (Z.shiftr (u64 v) 48); u8 (Z.shiftr (u64 v) 40); u8 (Z.shiftr (u64 v) 32);
   u8 (Z.shiftr (u64 v) 24); u8 (Z.shiftr (u64 v) 16); u8 (Z.shiftr (u64 v) 8); u8 (Z.land (u64 v) 0xff)].

Definition inc32 (block : list Z) : res (list Z) :=
  val ← get_be32 block 12;
  splice block 12 (be32 (u32 (val + 1))).

(** One word of [shift_right_block]: the word at [p], with the low bit of byte [q]
    shifted in from the left. *)
Definition shift_word (v : list Z) (p : Z) (q : option Z) : res (list Z) :=
  val ← get_be32 v p;
  let val := Z.shiftr val 1 in
  val ← match q with
        | Some q => x ← rd v q; Ret (if negb (Z.land x 0x01 =? 0) then Z.lor val 0x80000000 else val)
        | None => Ret val
        end;
  splice v p (be32 val).

Definition shift_right_block (v : list Z) : res (list Z) :=
  v ← shift_word v 12 (Some 11);
  v ← shift_word v 8 (Some 7);
  v ← shift_word v 4 (Some 3);
  shift_word v 0 None.

(** The inner loop of [gf_mult] over the bits of the byte [xi]. *)
Fixpoint gf_bits (n : nat) (xi j : Z) (z v : list Z) : res (list Z * list Z) :=
  match n with
  | O => Ret (z, v)
  | S n =>
      z ← (if negb (Z.land xi (Z.shiftl 1 (7 - j)) =? 0) then xor_block z v else Ret z);
      y ← rd v 15;
      v ← (if negb (Z.land y 0x01 =? 0) then
             v ← shift_right_block v;
             x ← rd v 0;
             wr v 0 (Z.lxor x 0xe1)
           else shift_right_block v);
      gf_bits n xi (j + 1) z v
  end.

Fixpoint gf_bytes (n : nat) (x : list Z) (i : Z) (z v : list Z) : res (list Z) :=
  match n with
  | O => Ret z
  | S n =>
      xi ← rd x i;
      r ← gf_bits 8 xi 0 z v;
      let '(z, v) := r in
      gf_bytes n x (i + 1) z v
  end.

Definition gf_mult (x y : list Z) : res (list Z) :=
  v ← slice y 0 16;
  gf_bytes 16 x 0 (replicate 16 0) v.

(** ** GHASH *)

Fixpoint ghash_loop (m : nat) (h x y : list Z) : res (list Z * list Z) :=
  match m with
  | O => Ret (x, y)
  | S m =>
      y ← xor_block y x;
      y ← gf_mult y h;
      ghash_loop m h (drop 16 x) y
  end.

Definition ghash (h x : list Z) (xlen : Z) (y : list Z) : res (list Z) :=
  r ← ghash_loop (Z.to_nat (xlen / 16)) h x y;
  let '(xpos, y) := r in
  let last := xlen - 16 * (xlen / 16) in
  if 0 <? last then
    l ← slice xpos 0 last;
    tmp ← splice (replicate 16 0) 0 l;
    tmp ← memset tmp last 0 (16 - last);
    y ← xor_block y tmp;
    gf_mult y h
  else Ret y.

Section Code.
Context {ctx : Type} `{!BlockCipher ctx} (aes : ctx).

(** ** Counter mode *)

Fixpoint gctr_loop (n : nat) (cb x out : list Z) (py : Z) : res (list Z * list Z * list Z) :=
  match n with
  | O => Ret (cb, x, out)
  | S n =>
      s ← block_encrypt aes cb;
      out ← splice out py s;
      o ← slice out py 16;
      o ← xor_block o x;
      out ← splice out py o;
      cb ← inc32 cb;
      gctr_loop n cb (drop 16 x) out (py + 16)
  end.

Definition aes_gctr (icb x : list Z) (xlen : Z) (out : list Z) (py : Z) : res (list Z) :=
  if xlen =? 0 then Ret out else
  let n := xlen / 16 in
  cb ← slice icb 0 16;
  r ← gctr_loop (Z.to_nat n) cb x out py;
  let '(cb, xpos, out) := r in
  let last := xlen - 16 * n in
  if negb (last =? 0) then
    tmp ← block_encrypt aes cb;
    l ← slice xpos 0 last; t ← slice tmp 0 last;
    splice out (py + 16 * n) (xorb l t)
  else Ret out.

Definition aes_gcm_gctr (J0 in_ : list Z) (len : Z) (out : list Z) (po : Z) : res (list Z) :=
  if len =? 0 then Ret out else
  J0inc ← slice J0 0 16;
  J0inc ← inc32 J0inc;
  aes_gctr J0inc in_ len out po.
End Code.

Definition aes_gcm_prepare_j0 (iv : list Z) (iv_len : Z) (H : list Z) : res (list Z) :=
  if iv_len =? 12 then
    l ← slice iv 0 iv_len;
    J0 ← splice (replicate 16 0) 0 l;
    J0 ← memset J0 iv_len 0 (16 - iv_len);
    wr J0 15 0x01
  else
    J0 ← ghash H iv iv_len (replicate 16 0);
    let len_buf := be64 0 ++ be64 (iv_len * 8) in
    ghash H len_buf 16 J0.

Definition aes_gcm_ghash (H aad : list Z) (aad_len : Z) (crypt : list Z) (crypt_len : Z) : res (list Z) :=
  S ← ghash H aad aad_len (replicate 16 0);
  S ← ghash H crypt crypt_len S;
  let len_buf := be64 (aad_len * 8) ++ be64 (crypt_len * 8) in
  ghash H len_buf 16 S.

Section Top.
Context {ctx : Type} `{!BlockCipher ctx}.

(** The context and the hash subkey. *)
Definition aes_gcm_init_hash_subkey (mem : option (list Z)) (key : list Z) (key_len : Z)
    : res (option (ctx * list Z)) :=
  co ← block_init mem key key_len;
  match co with
  | None => Ret None
  | Some aes => H ← block_encrypt aes (replicate 16 0); Ret (Some (aes, H))
  end.

(** [None] is the return value -1.  [crypt] and [tag] are the offsets [po] and
    [pt] of the buffer [out]. *)
Definition aes_gcm_ae (mem : option (list Z)) (key : list Z) (key_len : Z) (iv : list Z) (iv_len : Z)
    (plain : list Z) (plain_len : Z) (aad : list Z) (aad_len : Z) (out : list Z) (po pt : Z)
    : res (option (list Z)) :=
  r ← aes_gcm_init_hash_subkey mem key key_len;
  match r with
  | None => Ret None
  | Some (aes, H) =>
      J0 ← aes_gcm_prepare_j0 iv iv_len H;
      out ← aes_gcm_gctr aes J0 plain plain_len out po;
      crypt ← slice out po plain_len;
      S ← aes_gcm_ghash H aad aad_len crypt plain_len;
      out ← aes_gctr aes J0 S 16 out pt;
      Ret (Some out)
  end.

Definition aes_gcm_ad (mem : option (list Z)) (key : list Z) (key_len : Z) (iv : list Z) (iv_len : Z)
    (crypt : list Z) (crypt_len : Z) (aad : list Z) (aad_len : Z) (tag plain : list Z)
    : res (option (list Z)) :=
  r ← aes_gcm_init_hash_subkey mem key key_len;
  match r with
  | None => Ret None
  | Some (aes, H) =>
      J0 ← aes_gcm_prepare_j0 iv iv_len H;
      plain ← aes_gcm_gctr aes J0 crypt crypt_len plain 0;
      S ← aes_gcm_ghash H aad aad_len crypt crypt_len;
      T ← aes_gctr aes J0 S 16 (replicate 16 0) 0;
      v ← os_memcmp_const tag T 16;
      if negb (v =? 0) then Ret None else Ret (Some plain)
  end.

(** The tag; plaintext and ciphertext are [NULL] with length 0. *)
Definition aes_gmac (mem : option (list Z)) (key : list Z) (key_len : Z) (iv : list Z) (iv_len : Z)
    (aad : list Z) (aad_len : Z) (tag : list Z) : res (option (list Z)) :=
  aes_gcm_ae mem key key_len iv iv_len [] 0 aad aad_len tag 0 0.
End Top.

(** ** SP 800-38D *)

(** The polynomial of a block: its leftmost bit is the coefficient of x^0. *)
Fixpoint rev_bits (n : nat) (v : Z) : Z :=
  match n with
  | O => 0
  | S n => (if Z.odd v then 2 ^ Z.of_nat n else 0) + rev_bits n (Z.div2 v)
  end.
Definition poly (b : list Z) : Z := rev_bits 128 (be_val b).
Definition unpoly (v : Z) : list Z := be_bytes 16 (rev_bits 128 v).

(** Multiplication by x modulo x^128 + x^7 + x^2 + x + 1. *)
Definition gP : Z := 2 ^ 128 + 0x87.
Definition xt (v : Z) : Z :=
  let w := Z.shiftl v 1 in if Z.testbit v 127 then Z.lxor w gP else w.

(** The product: the sum of the x^i b for the coefficients of a. *)
Fixpoint mul_loop (n : nat) (i a acc b : Z) : Z :=
  match n with
  | O => acc
  | S n => mul_loop n (i + 1) a (if Z.testbit a i then Z.lxor acc b else acc) (xt b)
  end.
Definition pmul (a b : Z) : Z := mul_loop 128 0 a 0 b.

Definition gdot (x y : list Z) : list Z := unpoly (pmul (poly x) (poly y)).

Definition GHASH (H y : list Z) (bs : list (list Z)) : list Z :=
  fold_left (fun y b => gdot (xorb y b) H) bs y.

Section Sp800_38D.
Context (E : list Z -> list Z).

Definition inc (b : list Z) : list Z := take 12 b ++ be_bytes 4 (be_val (drop 12 b) + 1).

(** The key stream of [n] blocks from counter block [cb] on. *)
Fixpoint gstream (n : nat) (cb : list Z) : list Z :=
  match n with
  | O => []
  | S n => E cb ++ gstream n (inc cb)
  end.
Definition GCTR (cb x : list Z) : list Z := xorb x (gstream ((length x + 15) / 16) cb).

Definition hash_subkey : list Z := E (replicate 16 0).

Definition J0_of (iv : list Z) : list Z :=
  if decide (length iv = 12%nat) then iv ++ [0; 0; 0; 1]
  else GHASH hash_subkey (replicate 16 0)
         (blocks iv ++ [be_bytes 8 0 ++ be_bytes 8 (zlen iv * 8)]).

Definition gcm_tag (iv aad c : list Z) : list Z :=
  let S := GHASH hash_subkey (replicate 16 0)
             (blocks aad ++ blocks c ++ [be_bytes 8 (zlen aad * 8) ++ be_bytes 8 (zlen c * 8)]) in
  GCTR (J0_of iv) S.

Definition gcm_crypt (iv m : list Z) : list Z := GCTR (inc (J0_of iv)) m.

Definition gcm_seal (iv aad m : list Z) : list Z * list Z :=
  (gcm_crypt iv m, gcm_tag iv aad (gcm_crypt iv m)).
Definition gcm_open (iv aad c t : list Z) : option (list Z) :=
  if decide (gcm_tag iv aad c = t) then Some (gcm_crypt iv c) else None.
End Sp800_38D.

(** Test case 4 of the GCM submission. *)
Example gcm_case4 :
  let k := [0xfe; 0xff; 0xe9; 0x92; 0x86; 0x65; 0x73; 0x1c; 0x6d; 0x6a; 0x8f; 0x94; 0x67; 0x30; 0x83; 0x08] in
  let p := [0xd9; 0x31; 0x32; 0x25; 0xf8; 0x84; 0x06; 0xe5; 0xa5; 0x59; 0x09; 0xc5; 0xaf; 0xf5; 0x26; 0x9a; 0x86; 0xa7; 0xa9; 0x53; 0x15; 0x34; 0xf7; 0xda; 0x2e; 0x4c; 0x30; 0x3d; 0x8a; 0x31; 0x8a; 0x72; 0x1c; 0x3c; 0x0c; 0x95; 0x95; 0x68; 0x09; 0x53; 0x2f; 0xcf; 0x0e; 0x24; 0x49; 0xa6; 0xb5; 0x25; 0xb1; 0x6a; 0xed; 0xf5; 0xaa; 0x0d; 0xe6; 0x57; 0xba; 0x63; 0x7b; 0x39] in
  let a := [0xfe; 0xed; 0xfa; 0xce; 0xde; 0xad; 0xbe; 0xef; 0xfe; 0xed; 0xfa; 0xce; 0xde; 0xad; 0xbe; 0xef; 0xab; 0xad; 0xda; 0xd2] in
  let iv := [0xca; 0xfe; 0xba; 0xbe; 0xfa; 0xce; 0xdb; 0xad; 0xde; 0xca; 0xf8; 0x88] in
  let c := [0x42; 0x83; 0x1e; 0xc2; 0x21; 0x77; 0x74; 0x24; 0x4b; 0x72; 0x21; 0xb7; 0x84; 0xd0; 0xd4; 0x9c; 0xe3; 0xaa; 0x21; 0x2f; 0x2c; 0x02; 0xa4; 0xe0; 0x35; 0xc1; 0x7e; 0x23; 0x29; 0xac; 0xa1; 0x2e; 0x21; 0xd5; 0x14; 0xb2; 0x54; 0x66; 0x93; 0x1c; 0x7d; 0x8f; 0x6a; 0x5a; 0xac; 0x84; 0xaa; 0x05; 0x1b; 0xa3; 0x0b; 0x39; 0x6a; 0x0a; 0xac; 0x97; 0x3d; 0x58; 0xe0; 0x91] in
  let t := [0x5b; 0xc9; 0x4f; 0xbc; 0x32; 0x21; 0xa5; 0xdb; 0x94; 0xfa; 0xe9; 0x5a; 0xe7; 0x12; 0x1a; 0x47] in
  gcm_seal (Fips.aes k) iv a p = (c, t) /\
  aes_gcm_ae (Some (replicate 61 0)) k 16 iv 12 p 60 a 20 (replicate 76 0) 0 60 = Ret (Some (c ++ t)) /\
  aes_gcm_ad (Some (replicate 61 0)) k 16 iv 12 c 60 a 20 t (replicate 60 0) = Ret (Some p).
Proof. vm_compute. auto. Qed.

(** ** Words *)

Lemma byte_of v k : 0 <= k -> Z.land (Z.shiftr v k) 0xff = (v / 2 ^ k) `mod` 256.
Proof. intros. change 0xff with (Z.ones 8). by rewrite Z.land_ones, Z.shiftr_div_pow2 by lia. Qed.

Lemma be32_be_bytes v : be32 v = be_bytes 4 v.
Proof. unfold be32. rewrite <- (Z.shiftr_0_r v) at 4. by rewrite !byte_of by lia. Qed.

Lemma u64_byte v k : 0 <= k <= 56 -> u8 (Z.shiftr (u64 v) k) = (v / 2 ^ k) `mod` 256.
Proof.
  intros Hk. rewrite <- Z.shiftr_div_pow2 by lia. change 256 with (2 ^ 8). fold (wrap 8 (Z.shiftr v k)).
  zbits. destruct (Z.ltb_spec i 8); [|done]. rewrite (proj2 (Z.ltb_lt _ _)) by lia. done.
Qed.

Lemma be64_be_bytes v : be64 v = be_bytes 8 v.
Proof.
  unfold be64. assert (u8 (Z.land (u64 v) 0xff) = u8 (Z.shiftr (u64 v) 0)) as ->.
  { rewrite Z.shiftr_0_r. change 0xff with (Z.ones 8). zbits. btauto. }
  by rewrite !u64_byte by lia.
Qed.

Lemma get_be32_ok pre p post : length p = 4%nat -> bytes_ok p ->
  get_be32 (pre ++ p ++ post) (zlen pre) = Ret (be_val p).
Proof.
  intros Hl Hb. destruct p as [|x0 [|x1 [|x2 [|x3 [|]]]]]; try done. clear Hl.
  assert (at_off (pre ++ [x0; x1; x2; x3] ++ post) (zlen pre) [x0; x1; x2; x3]) as Hat by (by apply at_off_intro).
  apply at_off_cons in Hat as [E0 Hat]. apply at_off_cons in Hat as [E1 Hat].
  apply at_off_cons in Hat as [E2 Hat]. apply at_off_cons in Hat as [E3 _].
  replace (zlen pre + 1 + 1) with (zlen pre + 2) in * by lia.
  replace (zlen pre + 2 + 1) with (zlen pre + 3) in * by lia.
  unfold get_be32. bind_step E0. bind_step E1. bind_step E2. bind_step E3. f_equal.
  rewrite !Forall_cons in Hb. destruct Hb as (B0 & B1 & B2 & B3 & _). unfold fits in *.
  rewrite <- !Z.lor_assoc. rewrite (lor_pack x2) by (unfold fits; lia).
  rewrite (lor_pack x1) by (unfold fits; lia). rewrite (lor_pack x0) by (unfold fits; lia).
  unfold be_val. cbn [fold_left]. rewrite wrap_small by (unfold fits; lia). lia.
Qed.

Lemma inc32_ok b : is_block b -> inc32 b = Ret (inc b) /\ is_block (inc b).
Proof.
  intros [Hl Hb]. unfold inc32, inc. destruct (split_at b 12) as (p & q & -> & Hz); [unfold zlen; lia|].
  apply Forall_app in Hb as [B1 B2]. rewrite length_app in Hl.
  assert (length p = 12)%nat as L1 by (unfold zlen in Hz; lia). assert (length q = 4)%nat as L2 by lia.
  rewrite take_app_length', drop_app_length' by done.
  pose proof (get_be32_ok p q [] L2 B2) as Eg. rewrite app_nil_r, Hz in Eg. bind_step Eg.
  pose proof (splice_mid p q (be32 (u32 (be_val q + 1))) [] 12 (eq_sym Hz) L2) as Es.
  rewrite app_nil_r in Es. rewrite Es.
  assert (be32 (u32 (be_val q + 1)) = be_bytes 4 (be_val q + 1)) as ->.
  { rewrite be32_be_bytes. unfold wrap. change (2 ^ 32) with (256 ^ Z.of_nat 4).
    rewrite (Z.div_mod (be_val q + 1) (256 ^ Z.of_nat 4)) at 2 by lia.
    rewrite (Z.mul_comm (256 ^ Z.of_nat 4)). symmetry. apply be_bytes_add. }
  rewrite app_nil_r. split; [done|]. split; [rewrite length_app, be_bytes_len; lia|].
  apply Forall_app. split; [done|apply be_bytes_ok].
Qed.

(** ** Shifting right is division by two *)

Lemma or_top a c : is_u32 a -> Z.lor (Z.shiftr a 1) (if (c : bool) then 0x80000000 else 0) =
  a / 2 + (if c then 2 ^ 31 else 0).
Proof.
  intros Ha. rewrite Z.shiftr_div_pow2 by lia. change (2 ^ 1) with 2.
  destruct c; [|by rewrite Z.lor_0_r, Z.add_0_r].
  rewrite Z.lor_comm. change 0x80000000 with (Z.shiftl 1 31). rewrite lor_pack; [lia|lia|].
  unfold fits in *. Z.to_euclidean_division_equations. lia.
Qed.

Lemma low_bit x l : is_u8 x -> (Z.land x 0x01 =? 0) = Z.even (be_val (l ++ [x])).
Proof.
  intros Hx. rewrite be_val_app. change (zlen [x]) with 1. unfold be_val at 2. cbn [fold_left].
  rewrite Z.mul_0_l, Z.add_0_l, Z.even_add, Z.even_mul. change (Z.even (256 ^ 1)) with true.
  rewrite orb_true_r. change 1 with (Z.ones 1). rewrite Z.land_ones by lia. change (2 ^ 1) with 2.
  rewrite Zmod_even. by destruct (Z.even x).
Qed.

(** A word with the low bit of the word before it shifted in. *)
Lemma shift_word_ok pre p l x post : length p = 4%nat -> bytes_ok p -> is_u8 x ->
  shift_word (pre ++ (l ++ [x]) ++ p ++ post) (zlen pre + zlen l + 1) (Some (zlen pre + zlen l)) =
  Ret (pre ++ (l ++ [x]) ++ be_bytes 4 (be_val p / 2 + (if Z.odd (be_val (l ++ [x])) then 2 ^ 31 else 0)) ++ post).
Proof.
  intros Hl Hb Hx. unfold shift_word.
  pose proof (get_be32_ok (pre ++ l ++ [x]) p post Hl Hb) as Eg. rewrite <- app_assoc in Eg.
  replace (zlen (pre ++ l ++ [x])) with (zlen pre + zlen l + 1) in Eg by zlen_lia. bind_step Eg.
  assert (rd (pre ++ (l ++ [x]) ++ p ++ post) (zlen pre + zlen l) = Ret x) as Er.
  { rewrite <- app_assoc, (app_assoc pre). cbn [app]. apply rd_mid. zlen_lia. }
  bind_step Er. rewrite (low_bit x l) by done. rewrite Z.negb_even.
  pose proof (be_val_range p Hb) as Hr. replace (zlen p) with 4 in Hr by (unfold zlen; lia).
  set (c := Z.odd (be_val (l ++ [x]))).
  assert ((if c then Z.lor (Z.shiftr (be_val p) 1) 0x80000000 else Z.shiftr (be_val p) 1) =
    be_val p / 2 + (if c then 2 ^ 31 else 0)) as ->.
  { rewrite <- or_top by (unfold fits; lia). destruct c; [done|by rewrite Z.lor_0_r]. }
  simp_res. rewrite be32_be_bytes, (app_assoc pre), splice_mid; [by rewrite <- app_assoc|zlen_lia|by rewrite be_bytes_len].
Qed.

Lemma shift_word0_ok p post : length p = 4%nat -> bytes_ok p ->
  shift_word (p ++ post) 0 None = Ret (be_bytes 4 (be_val p / 2) ++ post).
Proof.
  intros Hl Hb. unfold shift_word. pose proof (get_be32_ok [] p post Hl Hb) as Eg.
  cbn [app] in Eg. change (zlen (@nil Z)) with 0 in Eg. bind_step Eg. simp_res.
  rewrite be32_be_bytes, Z.shiftr_div_pow2 by lia. change (2 ^ 1) with 2.
  apply splice_0. by rewrite be_bytes_len.
Qed.

Lemma split_last b : length b = 4%nat -> bytes_ok b -> exists l x, b = l ++ [x] /\ zlen l = 3 /\ is_u8 x.
Proof.
  intros Hl Hb. destruct b as [|x0 [|x1 [|x2 [|x3 [|]]]]]; try done.
  exists [x0; x1; x2], x3. rewrite !Forall_cons in Hb. tauto.
Qed.

Lemma split_words b : is_block b -> exists p0 p1 p2 p3, b = p0 ++ p1 ++ p2 ++ p3 /\
  Forall (fun p => length p = 4%nat /\ bytes_ok p) [p0; p1; p2; p3].
Proof.
  intros [Hl Hb]. exists (take 4 b), (take 4 (drop 4 b)), (take 4 (drop 8 b)), (drop 12 b). split.
  - rewrite <- (take_drop 4 b) at 1. f_equal. rewrite <- (take_drop 4 (drop 4 b)) at 1. f_equal.
    rewrite drop_drop. rewrite <- (take_drop 4 (drop (4 + 4) b)) at 1. f_equal. by rewrite drop_drop.
  - rewrite !Forall_cons, !length_take, !length_drop. repeat split; try lia;
      repeat (apply Forall_take || apply Forall_drop); done.
Qed.

Lemma be_val_word v : 0 <= v < 2 ^ 32 -> be_val (be_bytes 4 v) = v.
Proof. intros. apply be_val_bytes. done. Qed.

Lemma shift_right_block_ok b : is_block b ->
  shift_right_block b = Ret (be_bytes 16 (be_val b / 2)).
Proof.
  intros Hblk. destruct (split_words b Hblk) as (p0 & p1 & p2 & p3 & -> & H).
  rewrite !Forall_cons in H. destruct H as ((L0 & B0) & (L1 & B1) & (L2 & B2) & (L3 & B3) & _).
  assert (forall p, length p = 4%nat -> bytes_ok p -> zlen p = 4 /\ 0 <= be_val p < 2 ^ 32) as HW.
  { intros p Hl Hb. pose proof (be_val_range p Hb) as Hr. unfold zlen in *. rewrite Hl in *. done. }
  destruct (HW _ L0 B0) as [Z0 V0], (HW _ L1 B1) as [Z1 V1], (HW _ L2 B2) as [Z2 V2], (HW _ L3 B3) as [Z3 V3].
  set (w1 := be_val p1 / 2 + (if Z.odd (be_val p0) then 2 ^ 31 else 0)).
  set (w2 := be_val p2 / 2 + (if Z.odd (be_val p1) then 2 ^ 31 else 0)).
  set (w3 := be_val p3 / 2 + (if Z.odd (be_val p2) then 2 ^ 31 else 0)).
  assert (shift_right_block (p0 ++ p1 ++ p2 ++ p3) =
    Ret (be_bytes 4 (be_val p0 / 2) ++ be_bytes 4 w1 ++ be_bytes 4 w2 ++ be_bytes 4 w3)) as ->.
  { unfold shift_right_block.
    destruct (split_last p2 L2 B2) as (l2 & x2 & E2 & Z2' & X2).
    destruct (split_last p1 L1 B1) as (l1 & x1 & E1 & Z1' & X1).
    destruct (split_last p0 L0 B0) as (l0 & x0 & E0 & Z0' & X0).
    pose proof (shift_word_ok (p0 ++ p1) p3 l2 x2 [] L3 B3 X2) as S3.
    rewrite zlen_app, Z0, Z1, Z2', <- E2, <- !app_assoc, !app_nil_r in S3. fold w3 in S3.
    change (4 + 4 + 3 + 1) with 12 in S3. change (4 + 4 + 3) with 11 in S3. bind_step S3.
    pose proof (shift_word_ok p0 p2 l1 x1 (be_bytes 4 w3) L2 B2 X1) as S2.
    rewrite Z0, Z1', <- E1 in S2. fold w2 in S2. bind_step S2.
    pose proof (shift_word_ok [] p1 l0 x0 (be_bytes 4 w2 ++ be_bytes 4 w3) L1 B1 X0) as S1.
    cbn [app] in S1. rewrite Z0', <- E0 in S1. fold w1 in S1. bind_step S1.
    by apply shift_word0_ok. }
  f_equal. apply be_val_inj; [by rewrite !length_app, !be_bytes_len|
    repeat (apply Forall_app; split); apply be_bytes_ok|apply be_bytes_ok|].
  destruct Hblk as [_ Hb]. pose proof (be_val_range _ Hb) as Hr.
  rewrite !zlen_app, Z0, Z1, Z2, Z3 in Hr. change (256 ^ (4 + (4 + (4 + 4)))) with (2 ^ 128) in Hr.
  rewrite (be_val_bytes 16); [|change (256 ^ Z.of_nat 16) with (2 ^ 128); Z.to_euclidean_division_equations; lia].
  assert (forall v, 0 <= v < 2 ^ 32 -> forall c : bool, 0 <= v / 2 + (if c then 2 ^ 31 else 0) < 2 ^ 32) as Hw.
  { intros v Hv c. destruct c; Z.to_euclidean_division_equations; lia. }
  rewrite !be_val_app, !zlen_app, Z1, Z2, Z3. unfold zlen. rewrite !be_bytes_len.
  rewrite !be_val_word by (try apply Hw; try done; Z.to_euclidean_division_equations; lia).
  unfold w1, w2, w3.
  pose proof (Zmod_odd (be_val p0)). pose proof (Zmod_odd (be_val p1)). pose proof (Zmod_odd (be_val p2)).
  change (Z.of_nat 4) with 4. change (256 ^ (4 + (4 + 4))) with (2 ^ 96). change (256 ^ (4 + 4)) with (2 ^ 64).
  change (256 ^ 4) with (2 ^ 32).
  destruct (Z.odd (be_val p0)), (Z.odd (be_val p1)), (Z.odd (be_val p2));
    Z.to_euclidean_division_equations; lia.
Qed.

(** ** Blocks as polynomials *)

Lemma rev_bits_nonneg n v : 0 <= rev_bits n v.
Proof.
  revert v. induction n as [|n IH]; intros v; [done|]. cbn [rev_bits].
  pose proof (IH (Z.div2 v)). pose proof (Z.pow_nonneg 2 (Z.of_nat n)). destruct (Z.odd v); lia.
Qed.

Lemma rev_bits_spec n v i : 0 <= v ->
  Z.testbit (rev_bits n v) i = (0 <=? i) && (i <? Z.of_nat n) && Z.testbit v (Z.of_nat n - 1 - i).
Proof.
  intros Hv. destruct (Z.leb_spec 0 i) as [Hi|Hi]; [|by rewrite Z.testbit_neg_r]. cbn [andb].
  revert v i Hv Hi. induction n as [|n IH]; intros v i Hv Hi.
  - rewrite (proj2 (Z.ltb_ge _ _)) by lia. apply Z.bits_0.
  - cbn [rev_bits]. assert (fits (Z.of_nat n) (rev_bits n (Z.div2 v))) as Hf.
    { apply testbit_fits; [lia|apply rev_bits_nonneg|]. intros j Hj.
      rewrite IH by (try lia; by apply Z.div2_nonneg). by rewrite (proj2 (Z.ltb_ge _ _)) by lia. }
    assert ((if Z.odd v then 2 ^ Z.of_nat n else 0) + rev_bits n (Z.div2 v) =
      Z.lor (Z.shiftl (Z.b2z (Z.odd v)) (Z.of_nat n)) (rev_bits n (Z.div2 v))) as ->.
    { rewrite lor_pack by (lia || done). destruct (Z.odd v); cbn [Z.b2z]; lia. }
    rewrite Z.lor_spec, Z.shiftl_spec, IH by (try lia; by apply Z.div2_nonneg).
    destruct (Z.ltb_spec i (Z.of_nat n)).
    + rewrite (Z.testbit_neg_r _ (i - Z.of_nat n)) by lia. rewrite (proj2 (Z.ltb_lt _ _)) by lia. cbn [orb andb].
      rewrite Z.div2_spec, Z.shiftr_spec by lia. f_equal. lia.
    + rewrite orb_false_r. destruct (Z.ltb_spec i (Z.of_nat (S n))).
      * replace (i - Z.of_nat n) with 0 by lia. replace (Z.of_nat (S n) - 1 - i) with 0 by lia.
        rewrite Z.b2z_bit0. by rewrite Z.bit0_odd.
      * cbn [andb]. destruct (Z.odd v); cbn [Z.b2z]; [|apply Z.bits_0].
        change 1 with (2 ^ 0). apply Z.pow2_bits_false. lia.
Qed.

Lemma fits_128 b : is_block b -> fits 128 (be_val b).
Proof.
  intros [Hl Hb]. pose proof (be_val_range b Hb) as Hr. unfold zlen in Hr. rewrite Hl in Hr. exact Hr.
Qed.

Lemma poly_bit b i : is_block b -> 0 <= i < 128 -> Z.testbit (poly b) i = Z.testbit (be_val b) (127 - i).
Proof.
  intros Hb Hi. unfold poly. rewrite rev_bits_spec by (apply fits_128 in Hb; unfold fits in Hb; lia).
  rewrite (proj2 (Z.leb_le _ _)), (proj2 (Z.ltb_lt _ _)) by lia. cbn [andb]. done.
Qed.

Lemma poly_high b i : is_block b -> 128 <= i -> Z.testbit (poly b) i = false.
Proof.
  intros Hb Hi. unfold poly. rewrite rev_bits_spec by (apply fits_128 in Hb; unfold fits in Hb; lia).
  rewrite (proj2 (Z.ltb_ge _ _)) by lia. by rewrite andb_false_r.
Qed.

Lemma poly_fits b : is_block b -> fits 128 (poly b).
Proof. intros Hb. apply testbit_fits; [lia|apply rev_bits_nonneg|]. intros. by apply poly_high. Qed.

Lemma unpoly_poly b : is_block b -> unpoly (poly b) = b.
Proof.
  intros Hb. unfold unpoly. pose proof (fits_128 b Hb) as Hf. pose proof (poly_fits b Hb) as Hp.
  assert (rev_bits 128 (poly b) = be_val b) as ->.
  { apply Z.bits_inj'. intros i Hi. rewrite rev_bits_spec by (unfold fits in Hp; lia).
    destruct (Z.ltb_spec i (Z.of_nat 128)).
    - rewrite (proj2 (Z.leb_le _ _)) by lia. cbn [andb]. rewrite poly_bit by (done || lia). f_equal. lia.
    - rewrite andb_false_r. symmetry. apply (fits_testbit 128); [lia|done|lia]. }
  destruct Hb as [Hl Hb]. rewrite <- Hl at 1. by apply be_bytes_val.
Qed.

Lemma lxor_pack k x y a b : 0 <= k -> fits k a -> fits k b ->
  Z.lxor (x * 2 ^ k + a) (y * 2 ^ k + b) = Z.lxor x y * 2 ^ k + Z.lxor a b.
Proof.
  intros Hk Ha Hb. rewrite <- !lor_pack by (try done; by apply lxor_fits). zbits.
  destruct (Z.ltb_spec i k).
  - rewrite !(Z.testbit_neg_r _ (i - k)) by lia. done.
  - rewrite (fits_testbit k a), (fits_testbit k b) by done. cbn. by rewrite !orb_false_r.
Qed.

Lemma be_val_xorb a b : length a = length b -> bytes_ok a -> bytes_ok b ->
  be_val (xorb a b) = Z.lxor (be_val a) (be_val b).
Proof.
  intros Hl Ha. revert b Hl. induction Ha as [|x a Hx Ha IH]; intros [|y b] Hl Hb; try done.
  injection Hl as Hl. apply Forall_cons in Hb as [Hy Hb]. change (xorb (x :: a) (y :: b)) with (Z.lxor x y :: xorb a b).
  rewrite !be_val_cons, IH by (done || lia). unfold zlen. rewrite xorb_len, <- Hl.
  replace (Nat.min (length a) (length a)) with (length a) by lia.
  pose proof (be_val_range a Ha) as Ra. pose proof (be_val_range b Hb) as Rb.
  unfold zlen in Ra, Rb. replace (length b) with (length a) in Rb by lia.
  change 256 with (2 ^ 8) in *. rewrite <- Z.pow_mul_r in * by lia.
  symmetry. apply lxor_pack; [lia|done|done].
Qed.

Lemma poly_xorb a b : is_block a -> is_block b -> poly (xorb a b) = Z.lxor (poly a) (poly b).
Proof.
  intros Ha Hb. pose proof (is_block_xorb a b Ha Hb) as Hx. apply Z.bits_inj'. intros i Hi.
  rewrite Z.lxor_spec. destruct (decide (i < 128)).
  - rewrite !poly_bit by (done || lia). destruct Ha as [La Ha], Hb as [Lb Hb].
    by rewrite be_val_xorb, Z.lxor_spec by (done || lia).
  - by rewrite !poly_high by (done || lia).
Qed.

(** ** Multiplication *)

Definition v_step (v : list Z) : res (list Z) :=
  y ← rd v 15;
  if negb (Z.land y 0x01 =? 0) then
    v ← shift_right_block v; x ← rd v 0; wr v 0 (Z.lxor x 0xe1)
  else shift_right_block v.

Lemma be_bytes_block v : is_block (be_bytes 16 v).
Proof. split; [apply be_bytes_len|apply be_bytes_ok]. Qed.

(** The reduction constant of the code is the one of the polynomial, reflected. *)
Lemma gP_bit i : 0 <= i < 128 -> Z.testbit gP i = Z.testbit (0xe1 * 256 ^ 15) (127 - i).
Proof.
  intros Hi. pose proof (forallb_seqZ (fun i => Bool.eqb (Z.testbit gP i) (Z.testbit (0xe1 * 256 ^ 15) (127 - i)))
    128 ltac:(vm_compute; reflexivity) i Hi) as H. by apply Bool.eqb_prop in H.
Qed.

Lemma xt_bit v i : fits 128 v -> 0 <= i -> Z.testbit (xt v) i =
  if i <? 128 then Datatypes.xorb (Z.testbit v (i - 1)) (Z.testbit v 127 && Z.testbit gP i) else false.
Proof.
  intros Hv Hi. unfold xt. destruct (Z.ltb_spec i 128).
  - destruct (Z.testbit v 127); rewrite ?Z.lxor_spec, Z.shiftl_spec by lia; cbn [andb]; by rewrite ?xorb_false_r.
  - destruct (decide (i = 128)) as [->|].
    + destruct (Z.testbit v 127) eqn:E; rewrite ?Z.lxor_spec, Z.shiftl_spec by lia; cbn [Z.sub Z.add Z.opp Z.pos_sub];
        change (128 - 1) with 127; by rewrite E.
    + assert (Z.testbit gP i = false) as Hg.
      { apply (fits_testbit 129); [lia|unfold fits, gP; lia|lia]. }
      destruct (Z.testbit v 127); rewrite ?Z.lxor_spec, Z.shiftl_spec by lia;
        rewrite (fits_testbit 128 v (ltac:(lia)) Hv (i - 1)) by lia; by rewrite ?Hg.
Qed.

Lemma v_step_ok v : is_block v -> exists v', v_step v = Ret v' /\ is_block v' /\ poly v' = xt (poly v).
Proof.
  intros Hv. pose proof Hv as [Hl Hb]. pose proof (fits_128 v Hv) as Hf. pose proof (poly_fits v Hv) as Hp.
  destruct (split_at v 15) as (l & r & Ev & Hz); [unfold zlen; lia|].
  destruct r as [|x [|]]; rewrite Ev, length_app in Hl; unfold zlen in Hz; cbn in Hl; try lia.
  assert (is_u8 x) as Hx by (rewrite Ev in Hb; apply Forall_app in Hb as [_ Hb]; by apply Forall_cons in Hb as [? _]).
  assert (Z.testbit (poly v) 127 = Z.odd (be_val v)) as Hodd by (rewrite poly_bit by (done || lia); apply Z.bit0_odd).
  set (h := be_bytes 16 (be_val v / 2)).
  assert (be_val h = be_val v / 2) as Hh.
  { apply be_val_bytes. change (256 ^ Z.of_nat 16) with (2 ^ 128). unfold fits in Hf. Z.to_euclidean_division_equations. lia. }
  assert (is_block h) as Hbh by apply be_bytes_block.
  assert (forall i, 0 <= i < 128 -> Z.testbit (be_val h) (127 - i) = Z.testbit (poly v) (i - 1)) as Hsh.
  { intros i Hi. rewrite Hh, <- Z.div2_div, Z.div2_spec, Z.shiftr_spec by lia.
    destruct (decide (i = 0)) as [->|].
    - rewrite (Z.testbit_neg_r _ (0 - 1)) by lia. apply (fits_testbit 128); [lia|done|lia].
    - rewrite poly_bit by (done || lia). f_equal. lia. }
  assert (rd v 15 = Ret x) as Er by (rewrite Ev; apply rd_mid; unfold zlen; lia).
  unfold v_step. bind_step Er. rewrite (low_bit x l) by done. rewrite <- Ev, Z.negb_even, shift_right_block_ok by done. fold h.
  destruct (Z.odd (be_val v)) eqn:Eo; simp_res.
  - assert (is_block (0xe1 :: replicate 15 0)) as He by by_eval.
    exists (xorb h (0xe1 :: replicate 15 0)). split; [|split; [by apply is_block_xorb|]].
    + destruct Hbh as [Hlh _]. destruct h as [|y h']; [done|]. rewrite rd_cons_0. simp_res. rewrite wr_0.
      change (xorb (y :: h') (0xe1 :: replicate 15 0)) with (Z.lxor y 0xe1 :: xorb h' (replicate 15 0)).
      cbn in Hlh. by rewrite xorb_zeros by lia.
    + apply Z.bits_inj'. intros i Hi. rewrite poly_xorb, Z.lxor_spec, xt_bit, Hodd by done. cbn [andb].
      destruct (Z.ltb_spec i 128); [|by rewrite !poly_high by (done || lia)].
      rewrite !poly_bit by (done || lia). rewrite Hsh, gP_bit by lia. done.
  - exists h. split; [done|]. split; [done|].
    apply Z.bits_inj'. intros i Hi. rewrite xt_bit, Hodd by done. cbn [andb]. rewrite xorb_false_r.
    destruct (Z.ltb_spec i 128); [|by rewrite poly_high by (done || lia)].
    rewrite poly_bit by (done || lia). apply Hsh. lia.
Qed.

Lemma bit_mask x k : 0 <= k -> negb (Z.land x (Z.shiftl 1 k) =? 0) = Z.testbit x k.
Proof.
  intros Hk. destruct (Z.testbit x k) eqn:E.
  - destruct (Z.eqb_spec (Z.land x (Z.shiftl 1 k)) 0) as [H|]; [|done].
    apply (f_equal (fun z => Z.testbit z k)) in H. rewrite Z.land_spec, E, Z.shiftl_spec, Z.sub_diag, Z.bits_0 in H by lia.
    done.
  - rewrite (proj2 (Z.eqb_eq _ _)); [done|]. zbits.
    destruct (decide (i = k)) as [->|]; [by rewrite E|]. change 1 with (2 ^ 0).
    destruct (decide (i < k)); [rewrite (Z.testbit_neg_r _ (i - k)) by lia|rewrite Z.pow2_bits_false by lia];
      by rewrite andb_false_r.
Qed.

(** The bits of one byte of the first factor. *)
Lemma gf_bits_ok n xi a j k z v : is_block z -> is_block v -> 0 <= j -> j + Z.of_nat n <= 8 ->
  (forall t, 0 <= t < Z.of_nat n -> Z.testbit a (k + t) = Z.testbit xi (7 - (j + t))) ->
  exists z' v', gf_bits n xi j z v = Ret (z', v') /\ is_block z' /\ is_block v' /\
    forall m, mul_loop (n + m) k a (poly z) (poly v) = mul_loop m (k + Z.of_nat n) a (poly z') (poly v').
Proof.
  revert j k z v. induction n as [|n IH]; intros j k z v Hz Hv Hj Hn Ha.
  - exists z, v. split_and!; [done|done|done|]. intros m. by rewrite Z.add_0_r.
  - cbn [gf_bits]. rewrite bit_mask by lia. pose proof (Ha 0 ltac:(lia)) as Ha0. rewrite !Z.add_0_r in Ha0.
    destruct (v_step_ok v Hv) as (v1 & E1 & Hv1 & Hp1).
    assert (exists z1, (if Z.testbit xi (7 - j) then xor_block z v else Ret z) = Ret z1 /\ is_block z1 /\
      poly z1 = if Z.testbit a k then Z.lxor (poly z) (poly v) else poly z) as (z1 & Ez1 & Hz1 & Hpz).
    { rewrite Ha0. destruct (Z.testbit xi (7 - j)).
      - exists (xorb z v). split; [apply xor_block_16; by destruct Hz, Hv|]. split; [by apply is_block_xorb|].
        by apply poly_xorb.
      - by exists z. }
    bind_step Ez1. unfold v_step in E1. apply bind_inv in E1 as (y & Ey & E1). bind_step Ey. bind_step E1.
    destruct (IH (j + 1) (k + 1) z1 v1) as (z' & v' & E' & Hz' & Hv' & Hm); [done|done|lia|lia| |].
    { intros t Ht. replace (k + 1 + t) with (k + (t + 1)) by lia. rewrite Ha by lia. f_equal. lia. }
    exists z', v'. split_and!; [done|done|done|]. intros m. cbn [Nat.add mul_loop].
    rewrite <- Hpz, <- Hp1, Hm. f_equal. lia.
Qed.

Lemma byte_bit pre xi post t : bytes_ok pre -> is_u8 xi -> bytes_ok post -> 0 <= t < 8 ->
  Z.testbit (be_val (pre ++ xi :: post)) (8 * zlen post + t) = Z.testbit xi t.
Proof.
  intros Hp Hx Hq Ht. rewrite be_val_app, be_val_cons, zlen_cons.
  pose proof (be_val_range _ Hq) as Hr. pose proof (zlen_nonneg post) as Hn.
  rewrite Z.pow_add_r by lia. change (256 ^ 1) with 256.
  replace (be_val pre * (256 * 256 ^ zlen post) + (xi * 256 ^ zlen post + be_val post))
    with ((be_val pre * 2 ^ 8 + xi) * 256 ^ zlen post + be_val post) by lia.
  change 256 with (2 ^ 8) in *. rewrite <- Z.pow_mul_r in * by lia.
  rewrite <- lor_pack, Z.lor_spec, Z.shiftl_spec by (lia || done).
  rewrite (fits_testbit (8 * zlen post) (be_val post)) by (lia || done).
  rewrite orb_false_r. replace (8 * zlen post + t - 8 * zlen post) with t by lia.
  rewrite <- lor_pack, Z.lor_spec, Z.shiftl_spec by (lia || done).
  by rewrite (Z.testbit_neg_r _ (t - 8)) by lia.
Qed.

Lemma gf_bytes_ok post pre z v : is_block (pre ++ post) -> is_block z -> is_block v ->
  exists z', gf_bytes (length post) (pre ++ post) (zlen pre) z v = Ret z' /\ is_block z' /\
    poly z' = mul_loop (8 * length post) (8 * zlen pre) (poly (pre ++ post)) (poly z) (poly v).
Proof.
  revert pre z v. induction post as [|xi post IH]; intros pre z v Hx Hz Hv.
  - by exists z.
  - cbn [length gf_bytes]. rewrite rd_mid by done. simp_res. pose proof Hx as [Hl Hb].
    rewrite length_app in Hl. cbn [length] in Hl. apply Forall_app in Hb as [Hb1 Hb2].
    apply Forall_cons in Hb2 as [Hb2 Hb3].
    destruct (gf_bits_ok 8 xi (poly (pre ++ xi :: post)) 0 (8 * zlen pre) z v) as (z1 & v1 & E & Hz1 & Hv1 & Hm);
      [done|done|lia|lia| |].
    { intros t Ht. rewrite poly_bit by (done || (unfold zlen; lia)).
      rewrite <- (byte_bit pre xi post (7 - (0 + t))) by (done || lia). f_equal. unfold zlen. lia. }
    bind_step E. cbv iota beta.
    replace (zlen pre + 1) with (zlen (pre ++ [xi])) by zlen_lia. rewrite cons_middle, app_assoc in Hx |- *.
    destruct (IH (pre ++ [xi]) z1 v1) as (z' & E' & Hz' & Hp'); [done|done|done|].
    exists z'. split; [exact E'|]. split; [done|]. rewrite Hp'.
    replace (8 * S (length post))%nat with (8 + 8 * length post)%nat by lia.
    rewrite cons_middle, app_assoc in Hm. rewrite Hm. f_equal. zlen_lia.
Qed.

Lemma poly_zero : poly (replicate 16 0) = 0.
Proof. vm_compute. reflexivity. Qed.

Lemma gf_mult_ok x y rest : is_block x -> is_block y ->
  gf_mult x (y ++ rest) = Ret (gdot x y) /\ is_block (gdot x y) /\ poly (gdot x y) = pmul (poly x) (poly y).
Proof.
  intros Hx Hy. unfold gf_mult. rewrite slice_0 by (unfold zlen; destruct Hy; lia). simp_res.
  destruct (gf_bytes_ok x [] (replicate 16 0) y) as (z & E & Hz & Hp); [done|by_eval|done|].
  cbn [app] in E, Hp. change (zlen (@nil Z)) with 0 in E, Hp.
  assert (length x = 16)%nat as Hl by (destruct Hx; done). rewrite Hl in E, Hp. rewrite E.
  rewrite poly_zero in Hp. change (8 * 16)%nat with 128%nat in Hp. change (8 * 0) with 0 in Hp.
  assert (gdot x y = z) as Hg.
  { unfold gdot, pmul. rewrite <- Hp. apply unpoly_poly. exact Hz. }
  rewrite Hg. split; [reflexivity|]. split; [exact Hz|exact Hp].
Qed.

(** ** The product is the product of polynomials modulo [gP] *)

(** Congruence: the difference is a sum of multiples x^k gP. *)
Inductive cong : Z -> Z -> Prop :=
| cong_refl a : cong a a
| cong_step a b k : 0 <= k -> cong a b -> cong (Z.lxor a (Z.shiftl gP k)) b.

(** The product without reduction. *)
Fixpoint cl_loop (n : nat) (i a acc b : Z) : Z :=
  match n with
  | O => acc
  | S n => cl_loop n (i + 1) a (if Z.testbit a i then Z.lxor acc b else acc) (Z.shiftl b 1)
  end.
Definition clmul (a b : Z) : Z := cl_loop 128 0 a 0 b.

Lemma lxor_swap a b c : Z.lxor (Z.lxor a b) c = Z.lxor (Z.lxor a c) b.
Proof. by rewrite !Z.lxor_assoc, (Z.lxor_comm b c). Qed.

Lemma cong_lxor a a' b b' : cong a a' -> cong b b' -> cong (Z.lxor a b) (Z.lxor a' b').
Proof.
  intros Ha Hb. induction Ha as [a|a a' k Hk Ha IH].
  - induction Hb as [b|b b' k Hk Hb IH]; [constructor|]. rewrite <- Z.lxor_assoc. by constructor.
  - rewrite lxor_swap. by constructor.
Qed.

Lemma cong_shift a b : cong a b -> cong (Z.shiftl a 1) (Z.shiftl b 1).
Proof.
  induction 1 as [a|a b k Hk H IH]; [constructor|].
  rewrite Z.shiftl_lxor, Z.shiftl_shiftl by lia. apply cong_step; [lia|done].
Qed.

Lemma cong_trans a b c : cong a b -> cong b c -> cong a c.
Proof. intros H. revert c. induction H as [|a b k Hk H IH]; intros c Hc; [done|]. apply cong_step; auto. Qed.

Lemma cong_xt a : cong (Z.shiftl a 1) (xt a).
Proof.
  unfold xt. destruct (Z.testbit a 127); [|constructor].
  pose proof (cong_step _ _ 0 (Z.le_refl 0) (cong_refl (Z.lxor (Z.shiftl a 1) gP))) as H.
  by rewrite Z.shiftl_0_r, Z.lxor_assoc, Z.lxor_nilpotent, Z.lxor_0_r in H.
Qed.

Lemma cl_loop_cong n i a acc acc' b b' : cong acc acc' -> cong b b' ->
  cong (cl_loop n i a acc b) (mul_loop n i a acc' b').
Proof.
  revert i acc acc' b b'. induction n as [|n IH]; intros i acc acc' b b' Ha Hb; [done|].
  cbn [cl_loop mul_loop]. apply IH.
  - destruct (Z.testbit a i); [by apply cong_lxor|done].
  - eapply cong_trans; [by apply cong_shift|apply cong_xt].
Qed.

(** ** GHASH *)

Section Hash.
Context (H : list Z) (HH : is_block H).

Lemma gdot_ok x : is_block x -> gf_mult x H = Ret (gdot x H) /\ is_block (gdot x H).
Proof. intros Hx. rewrite <- (app_nil_r H) at 1. destruct (gf_mult_ok x H [] Hx HH) as (E & Hb & _). done. Qed.

Lemma ghash_block m b r y : is_block y -> is_block b ->
  ghash_loop (S m) H (b ++ r) y = ghash_loop m H r (gdot (xorb y b) H).
Proof.
  intros Hy Hb. cbn [ghash_loop]. rewrite xor_block_app by (by destruct Hy, Hb). simp_res.
  destruct (gdot_ok (xorb y b)) as [E _]; [by apply is_block_xorb|]. bind_step E.
  by rewrite (drop_app_length' b) by (by destruct Hb).
Qed.

Lemma ghash_ok m rest y : bytes_ok m -> is_block y ->
  ghash H (m ++ rest) (zlen m) y = Ret (GHASH H y (blocks m)) /\ is_block (GHASH H y (blocks m)).
Proof.
  revert y. induction m as [|m Hm|b m Hb IH] using block_ind; intros y Hby Hy.
  - done.
  - unfold ghash. rewrite Z.div_small by (unfold zlen; lia). change (Z.to_nat 0) with 0%nat. cbn [ghash_loop].
    simp_res. rewrite Z.sub_0_r, (proj2 (Z.ltb_lt _ _)) by (unfold zlen; lia).
    rewrite slice_0 by done. simp_res. rewrite blocks_short by done. cbn [GHASH fold_left].
    assert ((tmp ← splice (replicate 16 0) 0 m; memset tmp (zlen m) 0 (16 - zlen m)) = Ret (pad16 m)) as Ep.
    { replace 16%nat with (length m + (16 - length m))%nat at 1 by lia. rewrite replicate_add.
      rewrite splice_0 by (by rewrite length_replicate). simp_res. unfold memset.
      rewrite <- (app_nil_r (replicate (16 - length m) 0)). rewrite splice_mid.
      - rewrite app_nil_r. unfold pad16. do 3 f_equal. unfold zlen. lia.
      - done.
      - rewrite !length_replicate. unfold zlen. lia. }
    apply bind_inv in Ep as (t & E1 & E2). bind_step E1. bind_step E2.
    assert (is_block (pad16 m)) as Hp by (apply is_block_pad; [lia|done]).
    rewrite xor_block_16 by (by destruct Hy, Hp). simp_res. apply gdot_ok. by apply is_block_xorb.
  - apply Forall_app in Hby as [Hbb Hbm]. assert (is_block b) as Hblk by done.
    rewrite blocks_cons by done. change (GHASH H y (b :: blocks m)) with (GHASH H (gdot (xorb y b) H) (blocks m)).
    destruct (gdot_ok (xorb y b)) as [_ Hg]; [by apply is_block_xorb|].
    destruct (IH _ Hbm Hg) as [IHe IHb]. split; [|exact IHb]. rewrite <- IHe.
    unfold ghash, zlen. rewrite length_app, Hb, !Ccm.div16_Z.
    replace ((16 + length m) / 16)%nat with (S (length m / 16)).
    2: { replace (16 + length m)%nat with (length m + 1 * 16)%nat by lia. rewrite Nat.div_add by lia. lia. }
    rewrite <- app_assoc, ghash_block by done.
    replace (Z.of_nat (16 + length m) - 16 * (Z.of_nat (16 + length m) / 16)) with
      (Z.of_nat (length m) - 16 * (Z.of_nat (length m) / 16)); [done|].
    replace (Z.of_nat (16 + length m)) with (Z.of_nat (length m) + 1 * 16) by lia.
    rewrite Z.div_add by lia. lia.
Qed.

Lemma GHASH_app y a b : GHASH H y (a ++ b) = GHASH H (GHASH H y a) b.
Proof. apply fold_left_app. Qed.

Lemma len_block a b : is_block (be_bytes 8 a ++ be_bytes 8 b).
Proof. split; [by rewrite length_app, !be_bytes_len|]. apply Forall_app. split; apply be_bytes_ok. Qed.

Lemma ghash_lens y a b : is_block y ->
  ghash H (be64 a ++ be64 b) 16 y = Ret (GHASH H y [be_bytes 8 a ++ be_bytes 8 b]) /\
  is_block (GHASH H y [be_bytes 8 a ++ be_bytes 8 b]).
Proof.
  intros Hy. rewrite !be64_be_bytes. set (l := be_bytes 8 a ++ be_bytes 8 b).
  pose proof (len_block a b) as [Ll Bl]. fold l in Ll, Bl.
  pose proof (ghash_ok l [] y Bl Hy) as Hg. rewrite app_nil_r in Hg. unfold zlen in Hg. rewrite Ll in Hg.
  rewrite blocks_one, pad16_full in Hg by lia. exact Hg.
Qed.
End Hash.

(** ** Counter mode *)

Section Counter.
Context {ctx : Type} `{!BlockCipher ctx} (aes : ctx) (key : list Z) (Hc : holds aes key).
Let E : list Z -> list Z := block_cipher key.

Lemma genc_ok b : is_block b -> block_encrypt aes b = Ret (E b) /\ is_block (E b).
Proof. by apply encrypt_holds. Qed.

Lemma inc_block b : is_block b -> is_block (inc b).
Proof. intros. by apply inc32_ok. Qed.

Lemma gstream_len n cb : is_block cb -> length (gstream E n cb) = (16 * n)%nat.
Proof.
  revert cb. induction n as [|n IH]; intros cb Hcb; [done|]. cbn [gstream]. rewrite length_app, IH by (by apply inc_block).
  destruct (genc_ok cb Hcb) as [_ [-> _]]. lia.
Qed.

Lemma gstream_bytes n cb : is_block cb -> bytes_ok (gstream E n cb).
Proof.
  revert cb. induction n as [|n IH]; intros cb Hcb; [constructor|]. cbn [gstream]. apply Forall_app.
  split; [by apply genc_ok|by apply IH, inc_block].
Qed.

Lemma iter_inc_block n cb : is_block cb -> is_block (Nat.iter n inc cb).
Proof. intros. induction n as [|n IH]; [done|]. cbn. by apply inc_block. Qed.

Lemma gstream_snoc n cb : gstream E (n + 1) cb = gstream E n cb ++ E (Nat.iter n inc cb).
Proof.
  revert cb. induction n as [|n IH]; intros cb; [cbn; by rewrite app_nil_r|].
  cbn [Nat.add gstream]. rewrite IH, <- app_assoc. do 2 f_equal. by rewrite <- Nat.iter_succ_r.
Qed.

Lemma gctr_loop_ok n cb m rest pre mid : is_block cb -> length m = (16 * n)%nat -> (16 * n <= length mid)%nat ->
  gctr_loop aes n cb (m ++ rest) (pre ++ mid) (zlen pre) =
  Ret (Nat.iter n inc cb, rest, pre ++ xorb m (gstream E n cb) ++ drop (16 * n) mid).
Proof.
  revert cb m pre mid. induction n as [|n IH]; intros cb m pre mid Hcb Hm Hl.
  - destruct m; [|done]. by cbn [gctr_loop].
  - destruct (split_at m 16) as (b & m' & -> & Hb); [unfold zlen; lia|].
    destruct (split_at mid 16) as (o & mid' & -> & Ho); [unfold zlen; lia|]. unfold zlen in Hb, Ho.
    rewrite length_app in Hm, Hl. cbn [gctr_loop].
    destruct (genc_ok cb Hcb) as [Ee [Le Be]]. bind_step Ee. rewrite splice_mid by (done || lia). simp_res.
    rewrite slice_mid by (done || (unfold zlen; lia)). simp_res.
    rewrite <- app_assoc, xor_block_app by lia. simp_res.
    rewrite splice_mid by (done || (rewrite xorb_len; lia)). simp_res.
    destruct (inc32_ok cb Hcb) as [-> Hi]. simp_res. rewrite (drop_app_length' b) by lia.
    replace (zlen pre + 16) with (zlen (pre ++ xorb (E cb) b)) by (unfold zlen; rewrite length_app, xorb_len; lia).
    rewrite app_assoc, IH by (done || lia). rewrite Nat.iter_succ_r. do 2 f_equal. cbn [gstream].
    rewrite xorb_app by lia. rewrite <- !app_assoc, (xorb_comm (E cb)). do 3 f_equal.
    rewrite drop_app_ge by lia. f_equal. lia.
Qed.

Lemma aes_gctr_ok cb m rest pre mid : is_block cb -> (length m <= length mid)%nat ->
  aes_gctr aes cb (m ++ rest) (zlen m) (pre ++ mid) (zlen pre) =
  Ret (pre ++ GCTR E cb m ++ drop (length m) mid).
Proof.
  intros Hcb Hl. unfold aes_gctr. destruct (Z.eqb_spec (zlen m) 0) as [H0|H0].
  { unfold zlen in H0. destruct m; [|cbn in H0; lia]. done. }
  pose proof (Nat.div_mod_eq (length m) 16) as Hdm.
  pose proof (Nat.mod_upper_bound (length m) 16 ltac:(lia)) as Hr.
  set (n := (length m / 16)%nat) in *. set (r := (length m mod 16)%nat) in *.
  assert (zlen m / 16 = Z.of_nat n) as Hn16 by (unfold zlen, n; by rewrite Nat2Z.inj_div).
  rewrite Hn16, Nat2Z.id. rewrite <- (app_nil_r cb) at 1. rewrite slice_0 by (unfold zlen; destruct Hcb; lia). simp_res.
  destruct (split_at m (16 * Z.of_nat n)) as (f & l & Hml & Hf); [unfold zlen; lia|]. unfold zlen in Hf.
  assert (length f = 16 * n)%nat as Hf' by lia.
  assert (length m = length f + length l)%nat as Hlm by (rewrite Hml, length_app; lia).
  rewrite Hml, <- app_assoc, gctr_loop_ok by (done || lia). simp_res.
  replace (zlen (f ++ l) - 16 * Z.of_nat n) with (zlen l) by (unfold zlen; rewrite length_app; lia).
  assert (zlen pre + 16 * Z.of_nat n = zlen (pre ++ xorb f (gstream E n cb))) as Hpo.
  { unfold zlen. rewrite length_app, xorb_len, gstream_len by done. lia. }
  unfold GCTR. rewrite length_app. destruct (Z.eqb_spec (zlen l) 0) as [Hl0|Hl0]; cbn [negb].
  - assert (l = []) as -> by (apply nil_length_inv; unfold zlen in Hl0; lia). rewrite app_nil_r. cbn [length].
    rewrite Nat.add_0_r, Hf'. do 2 f_equal.
    replace ((16 * n + 15) / 16)%nat with n by (apply Nat.div_unique with (r := 15%nat); lia). done.
  - unfold zlen in Hl0. pose proof (iter_inc_block n cb Hcb) as Hit.
    destruct (genc_ok _ Hit) as [Ee [Le Be]]. bind_step Ee. set (s := E (Nat.iter n inc cb)) in *.
    rewrite slice_0 by done. simp_res.
    replace (slice s 0 (zlen l)) with (Ret (take (length l) s)).
    2: { rewrite <- (take_drop (length l) s) at 2. symmetry. apply slice_0. unfold zlen. rewrite length_take. lia. }
    simp_res. rewrite Hpo, (app_assoc pre), <- (take_drop (length l) (drop (16 * n) mid)).
    rewrite splice_mid; [|done|rewrite xorb_len, !length_take, length_drop; lia]. f_equal.
    assert ((length f + length l + 15) / 16 = n + 1)%nat as ->
      by (symmetry; apply Nat.div_unique with (r := (length l - 1)%nat); lia).
    rewrite gstream_snoc. fold s. rewrite xorb_app by (rewrite gstream_len by done; lia).
    rewrite <- !app_assoc. do 3 f_equal.
    + rewrite <- (take_drop (length l) s) at 2. by rewrite xorb_app_r by (rewrite length_take; lia).
    + rewrite drop_drop. f_equal. lia.
Qed.

Lemma GCTR_len cb m : is_block cb -> length (GCTR E cb m) = length m.
Proof. intros. unfold GCTR. rewrite xorb_len, gstream_len by done. pose proof (Ccm.ceil16 (length m)). lia. Qed.

Lemma GCTR_bytes cb m : is_block cb -> bytes_ok m -> bytes_ok (GCTR E cb m).
Proof. intros. apply xorb_bytes; [done|by apply gstream_bytes]. Qed.

Lemma GCTR_involutive cb m : is_block cb -> GCTR E cb (GCTR E cb m) = m.
Proof.
  intros. unfold GCTR at 1. rewrite GCTR_len by done. apply xorb_cancel.
  rewrite gstream_len by done. apply Ccm.ceil16.
Qed.

Lemma zeros16 : is_block (replicate 16 0).
Proof. by_eval. Qed.

Lemma prepare_j0_ok iv : bytes_ok iv -> let H := hash_subkey E in is_block H ->
  aes_gcm_prepare_j0 iv (zlen iv) H = Ret (J0_of E iv) /\ is_block (J0_of E iv).
Proof.
  intros Hiv H HH. unfold aes_gcm_prepare_j0, J0_of. fold H.
  destruct (decide (length iv = 12%nat)) as [H12|H12].
  - rewrite (proj2 (Z.eqb_eq _ _)) by (unfold zlen; lia). split.
    + rewrite <- (app_nil_r iv) at 1. rewrite slice_0 by done. simp_res.
      change (replicate 16 0) with (replicate 12 0 ++ replicate 4 0).
      rewrite splice_0 by (rewrite length_replicate; lia). simp_res. unfold memset.
      replace (16 - zlen iv) with 4 by (unfold zlen; lia).
      rewrite <- (app_nil_r (replicate 4 0)) at 1. rewrite splice_mid by (done || (unfold zlen; lia)). simp_res.
      change (replicate (Z.to_nat 4) 0 ++ []) with ([0; 0; 0] ++ [0]). rewrite app_assoc, wr_mid.
      * by rewrite <- app_assoc.
      * unfold zlen. rewrite length_app. cbn. lia.
    + split; [rewrite length_app; cbn; lia|]. apply Forall_app. split; [done|by_eval].
  - rewrite (proj2 (Z.eqb_neq _ _)) by (unfold zlen; lia).
    pose proof (ghash_ok H HH iv [] (replicate 16 0) Hiv zeros16) as [Eg Hg]. rewrite app_nil_r in Eg.
    bind_step Eg. rewrite GHASH_app. by apply ghash_lens.
Qed.

Lemma gcm_ghash_ok H aad r1 c r2 : is_block H -> bytes_ok aad -> bytes_ok c ->
  let S := GHASH H (replicate 16 0)
    (blocks aad ++ blocks c ++ [be_bytes 8 (zlen aad * 8) ++ be_bytes 8 (zlen c * 8)]) in
  aes_gcm_ghash H (aad ++ r1) (zlen aad) (c ++ r2) (zlen c) = Ret S /\ is_block S.
Proof.
  intros HH Ha Hcb. cbn zeta. unfold aes_gcm_ghash.
  destruct (ghash_ok H HH aad r1 _ Ha zeros16) as [E1 B1]. bind_step E1.
  destruct (ghash_ok H HH c r2 _ Hcb B1) as [E2 B2]. bind_step E2.
  rewrite !GHASH_app. by apply ghash_lens.
Qed.
End Counter.

(** ** Sealing and opening *)

Section TopProofs.
Context {ctx : Type} `{!BlockCipher ctx} (mem key kr iv : list Z).
Context (Hmem : length mem = 61%nat) (Hkey : is_key key) (Hiv : bytes_ok iv).
Let E : list Z -> list Z := block_cipher key.

(** A context exists, so the cipher maps blocks to blocks. *)
Lemma E_block : exists aes, block_init (Some mem) (key ++ kr) (zlen key) = Ret (Some aes) /\ holds aes key /\
  is_block (hash_subkey E) /\ aes_gcm_prepare_j0 iv (zlen iv) (hash_subkey E) = Ret (J0_of E iv) /\
  is_block (J0_of E iv) /\ is_block (inc (J0_of E iv)).
Proof.
  destruct (init_some mem key kr Hmem Hkey) as (aes & Ei & Hc).
  destruct (encrypt_holds aes key _ Hc zeros16) as [_ HH].
  destruct (prepare_j0_ok key iv Hiv HH) as [Ej Hj].
  exists aes. split_and!; try done. by apply inc_block.
Qed.

Lemma subkey_ok : exists aes, aes_gcm_init_hash_subkey (Some mem) (key ++ kr) (zlen key) = Ret (Some (aes, hash_subkey E)) /\
  holds aes key.
Proof.
  destruct E_block as (aes & Ei & Hc & _). exists aes. split; [|done].
  unfold aes_gcm_init_hash_subkey. bind_step Ei.
  destruct (encrypt_holds aes key _ Hc zeros16) as [Ez _]. bind_step Ez. done.
Qed.

Lemma gcm_gctr_ok aes m r pre mid : holds aes key -> (length m <= length mid)%nat ->
  aes_gcm_gctr aes (J0_of E iv) (m ++ r) (zlen m) (pre ++ mid) (zlen pre) =
  Ret (pre ++ gcm_crypt E iv m ++ drop (length m) mid).
Proof.
  intros Hc Hl. destruct E_block as (_ & _ & _ & _ & _ & Hj & Hji).
  unfold aes_gcm_gctr. destruct (Z.eqb_spec (zlen m) 0) as [H0|H0].
  { unfold zlen in H0. destruct m; [|cbn in H0; lia]. done. }
  rewrite <- (app_nil_r (J0_of E iv)) at 1. rewrite slice_0 by (unfold zlen; destruct Hj; lia). simp_res.
  destruct (inc32_ok _ Hj) as [-> _]. simp_res. by apply aes_gctr_ok.
Qed.

Lemma gcm_crypt_len m : length (gcm_crypt E iv m) = length m.
Proof. destruct E_block as (aes & _ & Hc & _ & _ & _ & Hj). by apply (GCTR_len aes). Qed.

Lemma gcm_crypt_bytes m : bytes_ok m -> bytes_ok (gcm_crypt E iv m).
Proof. destruct E_block as (aes & _ & Hc & _ & _ & _ & Hj). by apply (GCTR_bytes aes). Qed.

Lemma gcm_crypt_involutive m : gcm_crypt E iv (gcm_crypt E iv m) = m.
Proof. destruct E_block as (aes & _ & Hc & _ & _ & _ & Hj). by apply (GCTR_involutive aes). Qed.

Lemma gcm_tag_block aad c : bytes_ok aad -> bytes_ok c -> is_block (gcm_tag E iv aad c).
Proof.
  intros Ha Hcb. destruct E_block as (aes & _ & Hc & HH & _ & Hj & _).
  destruct (gcm_ghash_ok (hash_subkey E) aad [] c [] HH Ha Hcb) as [_ [Ls Bs]].
  split; [|by apply (GCTR_bytes aes)].
  unfold gcm_tag. etrans; [by apply (GCTR_len aes key Hc)|exact Ls].
Qed.

Lemma gcm_open_iff aad c t m :
  gcm_open E iv aad c t = Some m <-> gcm_seal E iv aad m = (c, t).
Proof.
  unfold gcm_open, gcm_seal. case_decide as Hd; split.
  - intros [= <-]. by rewrite gcm_crypt_involutive, Hd.
  - intros [= <- <-]. by rewrite gcm_crypt_involutive.
  - done.
  - by intros [= <- <-].
Qed.

Lemma aes_gcm_ae_core m r1 ad r2 pre mid :
  bytes_ok m -> bytes_ok ad -> (length m + 16 <= length mid)%nat ->
  aes_gcm_ae (Some mem) (key ++ kr) (zlen key) iv (zlen iv) (m ++ r1) (zlen m) (ad ++ r2) (zlen ad)
    (pre ++ mid) (zlen pre) (zlen pre + zlen m) =
  Ret (Some (pre ++ gcm_crypt E iv m ++ gcm_tag E iv ad (gcm_crypt E iv m) ++ drop (length m + 16) mid)).
Proof.
  intros Hm Ha Hl. unfold aes_gcm_ae. destruct subkey_ok as (aes & Es & Hc). bind_step Es.
  destruct E_block as (_ & _ & _ & HH & Ej & Hj & _). bind_step Ej.
  rewrite (gcm_gctr_ok aes m r1 pre mid Hc) by lia. simp_res.
  set (c := gcm_crypt E iv m). assert (length c = length m) as Lc by apply gcm_crypt_len.
  assert (bytes_ok c) as Bc by (by apply gcm_crypt_bytes).
  replace (zlen m) with (zlen c) by (unfold zlen; lia).
  rewrite slice_mid by done. simp_res.
  destruct (gcm_ghash_ok (hash_subkey E) ad r2 c [] HH Ha Bc) as [Eg [Ls Bs]]. rewrite app_nil_r in Eg. bind_step Eg.
  set (S := GHASH _ _ _) in *.
  pose proof (aes_gctr_ok aes key Hc (J0_of E iv) S [] (pre ++ c) (drop (length m) mid) Hj) as Et.
  rewrite app_nil_r, Ls, zlen_app in Et. unfold zlen in Et at 1. rewrite Ls in Et. rewrite <- !app_assoc in Et.
  change (Z.of_nat 16) with 16 in Et. rewrite Et by (rewrite length_drop; lia). simp_res. do 5 f_equal. by rewrite drop_drop.
Qed.

Lemma aes_gcm_ad_core c r1 ad r2 t r3 plain :
  bytes_ok c -> bytes_ok ad -> bytes_ok t -> length t = 16%nat -> (length c <= length plain)%nat ->
  aes_gcm_ad (Some mem) (key ++ kr) (zlen key) iv (zlen iv) (c ++ r1) (zlen c) (ad ++ r2) (zlen ad) (t ++ r3) plain =
  Ret (option_map (fun p => p ++ drop (length c) plain) (gcm_open E iv ad c t)).
Proof.
  intros Hcb Ha Bt Lt Hl. unfold aes_gcm_ad. destruct subkey_ok as (aes & Es & Hc). bind_step Es.
  destruct E_block as (_ & _ & _ & HH & Ej & Hj & _). bind_step Ej.
  pose proof (gcm_gctr_ok aes c r1 [] plain Hc Hl) as Ec. cbn [app] in Ec. change (zlen (@nil Z)) with 0 in Ec.
  bind_step Ec. destruct (gcm_ghash_ok (hash_subkey E) ad r2 c r1 HH Ha Hcb) as [Eg [Ls Bs]]. bind_step Eg.
  set (S := GHASH _ _ _) in *.
  pose proof (aes_gctr_ok aes key Hc (J0_of E iv) S [] [] (replicate 16 0) Hj ltac:(rewrite Ls; done)) as Et.
  rewrite app_nil_r, Ls in Et. unfold zlen in Et at 1. rewrite Ls in Et. cbn [app] in Et.
  change (zlen (@nil Z)) with 0 in Et. change (drop 16 (replicate 16 0)) with (@nil Z) in Et.
  rewrite app_nil_r in Et. bind_step Et. change (GCTR _ (J0_of E iv) S) with (gcm_tag E iv ad c).
  destruct (gcm_tag_block ad c Ha Hcb) as [Lg Bg].
  destruct (os_memcmp_const_ok t (gcm_tag E iv ad c) r3 []) as (v & Ev & Hv); [done|done|lia|].
  rewrite app_nil_r in Ev. unfold zlen in Ev. rewrite Lt in Ev. bind_step Ev. unfold gcm_open.
  destruct (Z.eqb_spec v 0); [rewrite decide_True by (symmetry; tauto)|rewrite decide_False by (intros <-; tauto)]; done.
Qed.
End TopProofs.

(** [gf_mult] multiplies in GF(2^128): the polynomial of the result is the
    product of the polynomials of the operands, reduced modulo
    x^128 + x^7 + x^2 + x + 1, with all accesses in bounds. *)
Theorem gf_mult_field x y rest : is_block x -> is_block y ->
  exists z, gf_mult x (y ++ rest) = Ret z /\ is_block z /\
    fits 128 (poly z) /\ cong (clmul (poly x) (poly y)) (poly z).
Proof.
  intros Hx Hy. destruct (gf_mult_ok x y rest Hx Hy) as (E & Hz & Hp).
  exists (gdot x y). split; [done|]. split; [done|]. split; [by apply poly_fits|].
  rewrite Hp. exact (cl_loop_cong 128 0 (poly x) 0 0 (poly y) (poly y) (cong_refl 0) (cong_refl _)).
Qed.

Lemma gf_mult_field_witness :
  exists z, gf_mult (replicate 16 3) (replicate 16 5 ++ [7]) = Ret z /\ is_block z /\
    fits 128 (poly z) /\ cong (clmul (poly (replicate 16 3)) (poly (replicate 16 5))) (poly z).
Proof. refine (gf_mult_field (replicate 16 3) (replicate 16 5) [7] _ _); by_eval. Defined.

(** C22: [aes_gcm_ae] seals as SP 800-38D prescribes, for every key, every nonce
    length, every message and additional data: ciphertext and 16 byte tag are
    written at their places and nothing else of the buffer changes. *)
Theorem gcm_ae_sp800 {ctx : Type} `{!BlockCipher ctx} mem key kr iv m r1 ad r2 pre mid :
  length mem = 61%nat -> is_key key -> bytes_ok iv -> bytes_ok m -> bytes_ok ad ->
  (length m + 16 <= length mid)%nat ->
  aes_gcm_ae (Some mem) (key ++ kr) (zlen key) iv (zlen iv) (m ++ r1) (zlen m) (ad ++ r2) (zlen ad)
    (pre ++ mid) (zlen pre) (zlen pre + zlen m) =
  Ret (Some (pre ++ fst (gcm_seal (block_cipher key) iv ad m) ++ snd (gcm_seal (block_cipher key) iv ad m) ++
    drop (length m + 16) mid)).
Proof. intros. by apply aes_gcm_ae_core. Qed.

Lemma gcm_ae_sp800_witness :
  aes_gcm_ae (Some (replicate 61 0)) (replicate 16 1 ++ []) (zlen (replicate 16 1)) [1; 2] (zlen [1; 2])
    ([3; 4; 5] ++ []) (zlen [3; 4; 5]) ([6] ++ []) (zlen [6]) ([9] ++ replicate 20 0) (zlen [9]) (zlen [9] + zlen [3; 4; 5]) =
  Ret (Some ([9] ++ fst (gcm_seal (block_cipher (replicate 16 1)) [1; 2] [6] [3; 4; 5]) ++
    snd (gcm_seal (block_cipher (replicate 16 1)) [1; 2] [6] [3; 4; 5]) ++ drop (length [3; 4; 5] + 16) (replicate 20 0))).
Proof.
  refine (gcm_ae_sp800 (replicate 61 0) (replicate 16 1) [] [1; 2] [3; 4; 5] [] [6] [] [9] (replicate 20 0) _ _ _ _ _ _);
    [reflexivity|by_eval|by_eval|by_eval|by_eval|cbn; lia].
Defined.

(** [aes_gcm_ad] opens exactly what is sealed: it returns the plaintext when, and
    only when, ciphertext and tag are those of SP 800-38D for it. *)
Theorem gcm_ad_exact {ctx : Type} `{!BlockCipher ctx} mem key kr iv c r1 ad r2 t r3 plain :
  length mem = 61%nat -> is_key key -> bytes_ok iv -> bytes_ok c -> bytes_ok ad -> bytes_ok t ->
  length t = 16%nat -> (length c <= length plain)%nat ->
  exists o : option (list Z),
    aes_gcm_ad (Some mem) (key ++ kr) (zlen key) iv (zlen iv) (c ++ r1) (zlen c) (ad ++ r2) (zlen ad) (t ++ r3) plain =
      Ret (option_map (fun p => p ++ drop (length c) plain) o) /\
    forall m, o = Some m <-> gcm_seal (block_cipher key) iv ad m = (c, t).
Proof.
  intros Hm Hk Hiv Hc Ha Ht Htl Hl. exists (gcm_open (block_cipher key) iv ad c t).
  split; [by apply aes_gcm_ad_core|]. intros m. by apply (gcm_open_iff mem key []).
Qed.

Lemma gcm_ad_exact_witness :
  exists o : option (list Z),
    aes_gcm_ad (Some (replicate 61 0)) (replicate 16 1 ++ []) (zlen (replicate 16 1)) (replicate 12 2) (zlen (replicate 12 2))
      ([3; 4; 5] ++ []) (zlen [3; 4; 5]) ([6] ++ []) (zlen [6]) (replicate 16 8 ++ []) (replicate 5 0) =
      Ret (option_map (fun p => p ++ drop (length [3; 4; 5]) (replicate 5 0)) o) /\
    forall m, o = Some m <-> gcm_seal (block_cipher (replicate 16 1)) (replicate 12 2) [6] m = ([3; 4; 5], replicate 16 8).
Proof.
  refine (gcm_ad_exact (replicate 61 0) (replicate 16 1) [] (replicate 12 2) [3; 4; 5] [] [6] [] (replicate 16 8) []
    (replicate 5 0) _ _ _ _ _ _ _ _); [reflexivity|by_eval|by_eval|by_eval|by_eval|by_eval|reflexivity|cbn; lia].
Defined.
End Gcm.
