(* ===== verification/Ccmp.v ===== *)
(** * CCMP and GCMP frames

    Models the frame level of the AES ciphers: [core/crypto/ccmp.c]
    ([ccmp_aad_nonce], [ccmp_encrypt], [ccmp_decrypt], [ccmp_256_encrypt],
    [ccmp_256_decrypt], [ccmp_get_pn]), [core/crypto/gcmp.c] ([gcmp_aad_nonce],
    [gcmp_encrypt], [gcmp_decrypt]), the wrappers of [core/rtw_swcrypto.c]
    ([_rtw_ccmp_encrypt], [_rtw_ccmp_decrypt], [_rtw_gcmp_encrypt],
    [_rtw_gcmp_decrypt]) and of [core/rtw_security.c] ([rtw_aes_encrypt],
    [rtw_aes_decrypt], [rtw_gcmp_encrypt], [rtw_gcmp_decrypt], in the variant
    [NEW_CRYPTO]).

    [os_malloc] is the allocator, a parameter: [None] is [NULL], otherwise a
    buffer of the requested size with arbitrary contents.  Its argument is
    converted to 32 bits, as [_rtw_malloc] does. *)
From S2P Require Import Prelude Aes Modes Ccm Gcm Arc4 Tkip.

Module Ccmp.
Import Aes Ccm Gcm Wep Tkip.

(** ** Additional data and nonce *)

Definition RTW_AMSDU_MODE_SPP : Z := 1.

Definition is_addr4 (fc : Z) : bool := Z.land fc 0x0300 =? 0x0300.
Definition is_data (fc : Z) : bool := Z.land fc 0x000c =? 0x0008.
Definition is_mgmt (fc : Z) : bool := Z.land fc 0x000c =? 0x0000.
Definition is_qos (fc : Z) : bool := is_data fc && negb (Z.land (Z.land fc 0x00f0) 0x0080 =? 0).

(** The common part of [ccmp_aad_nonce] and [gcmp_aad_nonce]; only CCMP sets the
    protected bit ([iswep]).  The buffer and the length of the additional data. *)
Definition build_aad (iswep : bool) (amsdu_mode : Z) (hdr aad : list Z) : res (list Z * Z) :=
  fc0 ← get_le16 hdr 0;
  let qos := is_qos fc0 in
  let addr4 := is_addr4 fc0 in
  let fc := if is_data fc0 then Z.ldiff fc0 0x0070 else fc0 in
  let fc := if qos then Z.ldiff fc 0x8000 else fc in
  let fc := Z.ldiff fc 0x3800 in
  let fc := if iswep then Z.lor fc 0x4000 else fc in
  aad ← splice aad 0 (le16 fc);
  a ← slice hdr 4 18;
  aad ← splice aad 2 a;
  seq ← get_le16 hdr 22;
  aad ← splice aad 20 (le16 (Z.ldiff seq 0xfff0));
  l ← slice hdr 24 ((if addr4 then 6 else 0) + (if qos then 2 else 0));
  aad ← splice aad 22 l;
  let pos := 22 + (if addr4 then 6 else 0) in
  if qos then
    x ← rd aad pos;
    aad ← wr aad pos (Z.ldiff x 0x70);
    aad ← (if negb (amsdu_mode =? RTW_AMSDU_MODE_SPP) then
             x ← rd aad pos; wr aad pos (Z.ldiff x 0x80)
           else Ret aad);
    aad ← wr aad (pos + 1) 0;
    Ret (aad, pos + 2)
  else Ret (aad, pos).

(** The packet number of the CCMP header, as the nonce orders it. *)
Definition pn_bytes (data : list Z) : res (list Z) :=
  b7 ← rd data 7; b6 ← rd data 6; b5 ← rd data 5; b4 ← rd data 4; b1 ← rd data 1; b0 ← rd data 0;
  Ret [b7; b6; b5; b4; b1; b0].

Definition ccmp_get_pn (data : list Z) : res (list Z) := pn_bytes data.

Definition ccmp_aad_nonce (amsdu_mode : Z) (hdr data aad : list Z) : res (list Z * Z * list Z) :=
  fc ← get_le16 hdr 0;
  n0 ← (if is_data fc then
          if is_qos fc then
            q ← rd hdr (24 + (if is_addr4 fc then 6 else 0)); Ret (Z.land q 0x0f)
          else Ret 0
        else if is_mgmt fc then Ret (Z.lor 0 0x10) else Ret 0);
  r ← build_aad true amsdu_mode hdr aad;
  a2 ← slice hdr 10 6;
  pn ← pn_bytes data;
  Ret (r.1, r.2, [n0] ++ a2 ++ pn).

Definition gcmp_aad_nonce (amsdu_mode : Z) (hdr data aad : list Z) : res (list Z * Z * list Z) :=
  r ← build_aad false amsdu_mode hdr aad;
  a2 ← slice hdr 10 6;
  pn ← pn_bytes data;
  Ret (r.1, r.2, a2 ++ pn).

Section Code.
Context {ctx : Type} `{!BlockCipher ctx}.
Context (os_malloc : Z -> option (list Z)) (mem : option (list Z)) (a0 : list Z) (amsdu_mode : Z).

(** A pointer [off] bytes into an object: the cells from there on. *)
Definition at_ptr (b : list Z) (off : Z) : list Z := drop (Z.to_nat off) b.

(** ** CCMP *)

(** [hdr->frame_control |= host_to_le16(WLAN_FC_ISWEP)]. *)
Definition set_iswep (b : list Z) : res (list Z) :=
  fc ← get_le16 b 0; splice b 0 (le16 (Z.lor fc 0x4000)).

(** The header part of [ccmp_encrypt] and [gcmp_encrypt]: the new buffer, and the
    payload in [frame].  [prot] is the setting of the protected bit. *)
Definition put_header (prot : list Z -> res (list Z)) (crypt frame : list Z) (hdrlen : Z)
    (pn : option (list Z)) (keyid : Z) : res (list Z * list Z) :=
  match pn with
  | None =>
      l ← slice frame 0 (hdrlen + 8);
      crypt ← splice crypt 0 l;
      crypt ← prot crypt;
      Ret (crypt, at_ptr frame (hdrlen + 8))
  | Some pn =>
      l ← slice frame 0 hdrlen;
      crypt ← splice crypt 0 l;
      crypt ← prot crypt;
      p5 ← rd pn 5; p4 ← rd pn 4; p3 ← rd pn 3; p2 ← rd pn 2; p1 ← rd pn 1; p0 ← rd pn 0;
      crypt ← splice crypt hdrlen [p5; p4; 0x00; u8 (Z.lor 0x20 (Z.shiftl keyid 6)); p3; p2; p1; p0];
      Ret (crypt, at_ptr frame hdrlen)
  end.

(** [ccmp_encrypt] (key of 16 bytes, tag of 8) and [ccmp_256_encrypt] (32 and 16):
    the new buffer and [*encrypted_len], or [None] for [NULL]. *)
Definition ccmp_encrypt_gen (tk_len M : Z) (tk frame : list Z) (len hdrlen : Z) (pn : option (list Z))
    (keyid : Z) : res (option (list Z * Z)) :=
  if (len <? hdrlen) || (hdrlen <? 24) then Ret None else
  let plen := len - hdrlen in
  match os_malloc (u32 (hdrlen + 8 + plen + M + 16)) with
  | None => Ret None
  | Some crypt =>
      r ← put_header set_iswep crypt frame hdrlen pn keyid;
      let '(crypt, pdata) := r in
      let pos := hdrlen + 8 in
      r ← ccmp_aad_nonce amsdu_mode crypt (at_ptr crypt hdrlen) (replicate 30 0);
      let '(aad, aad_len, nonce) := r in
      o ← aes_ccm_ae mem a0 tk tk_len nonce M pdata plen aad aad_len crypt pos (pos + plen);
      match o with
      | None => Ret None
      | Some crypt => Ret (Some (crypt, hdrlen + 8 + plen + M))
      end
  end.
Definition ccmp_encrypt := ccmp_encrypt_gen 16 8.
Definition ccmp_256_encrypt := ccmp_encrypt_gen 32 16.

(** [ccmp_decrypt] and [ccmp_256_decrypt]: the plaintext buffer and
    [*decrypted_len]. *)
Definition ccmp_decrypt_gen (tk_len M : Z) (tk hdr data : list Z) (data_len : Z)
    : res (option (list Z * Z)) :=
  if data_len <? 8 + M then Ret None else
  match os_malloc (u32 (data_len + 16)) with
  | None => Ret None
  | Some plain =>
      let mlen := data_len - 8 - M in
      r ← ccmp_aad_nonce amsdu_mode hdr data (replicate 30 0);
      let '(aad, aad_len, nonce) := r in
      o ← aes_ccm_ad mem a0 tk tk_len nonce M (at_ptr data 8) mlen aad aad_len
            (at_ptr data (8 + mlen)) plain;
      match o with
      | None => Ret None
      | Some plain => Ret (Some (plain, mlen))
      end
  end.
Definition ccmp_decrypt := ccmp_decrypt_gen 16 8.
Definition ccmp_256_decrypt := ccmp_decrypt_gen 32 16.

(** ** GCMP *)

Definition gcmp_encrypt (tk : list Z) (tk_len : Z) (frame : list Z) (len hdrlen : Z) (pn : option (list Z))
    (keyid : Z) : res (option (list Z * Z)) :=
  if (len <? hdrlen) || (hdrlen <? 24) then Ret None else
  let plen := len - hdrlen in
  match os_malloc (u32 (hdrlen + 8 + plen + 16 + 16)) with
  | None => Ret None
  | Some crypt =>
      r ← put_header Ret crypt frame hdrlen pn keyid;
      let '(crypt, pdata) := r in
      let pos := hdrlen + 8 in
      r ← gcmp_aad_nonce amsdu_mode crypt (at_ptr crypt hdrlen) (replicate 30 0);
      let '(aad, aad_len, nonce) := r in
      o ← aes_gcm_ae mem tk tk_len nonce 12 pdata plen aad aad_len crypt pos (pos + plen);
      match o with
      | None => Ret None
      | Some crypt => Ret (Some (crypt, hdrlen + 8 + plen + 16))
      end
  end.

Definition gcmp_decrypt (tk : list Z) (tk_len : Z) (hdr data : list Z) (data_len : Z)
    : res (option (list Z * Z)) :=
  if data_len <? 8 + 16 then Ret None else
  match os_malloc (u32 (data_len + 16)) with
  | None => Ret None
  | Some plain =>
      let m := at_ptr data 8 in
      let mlen := data_len - 8 - 16 in
      r ← gcmp_aad_nonce amsdu_mode hdr data (replicate 30 0);
      let '(aad, aad_len, nonce) := r in
      o ← aes_gcm_ad mem tk tk_len nonce 12 m mlen aad aad_len (at_ptr m mlen) plain;
      match o with
      | None => Ret None
      | Some plain => Ret (Some (plain, mlen))
      end
  end.

(** ** The wrappers

    The frame starts at offset [p] of the buffer [b] and is changed in place. *)

(** Copies the first [n] bytes of [enc] over the frame. *)
Definition copy_back (b : list Z) (p : Z) (o : option (list Z * Z)) : res (Z * list Z) :=
  match o with
  | None => Ret (_FAIL, b)
  | Some (enc, n) => l ← slice enc 0 n; b ← splice b p l; Ret (_SUCCESS, b)
  end.

Definition _rtw_ccmp_encrypt (key : list Z) (key_len hdrlen : Z) (b : list Z) (p plen : Z) : res (Z * list Z) :=
  let frame := at_ptr b p in
  enc ← (if key_len =? 16 then ccmp_encrypt key frame (u32 (hdrlen + plen)) hdrlen None 0
         else if key_len =? 32 then ccmp_256_encrypt key frame (u32 (hdrlen + plen)) hdrlen None 0
         else Ret None);
  copy_back b p enc.

Definition _rtw_ccmp_decrypt (key : list Z) (key_len hdrlen : Z) (b : list Z) (p plen : Z) : res (Z * list Z) :=
  let frame := at_ptr b p in
  plain ← (if key_len =? 16 then ccmp_decrypt key frame (at_ptr frame hdrlen) (u32 (plen - hdrlen))
           else if key_len =? 32 then ccmp_256_decrypt key frame (at_ptr frame hdrlen) (u32 (plen - hdrlen))
           else Ret None);
  copy_back b (p + hdrlen + 8) plain.

Definition _rtw_gcmp_encrypt (key : list Z) (key_len hdrlen : Z) (b : list Z) (p plen : Z) : res (Z * list Z) :=
  enc ← gcmp_encrypt key key_len (at_ptr b p) (u32 (hdrlen + plen)) hdrlen None 0;
  copy_back b p enc.

Definition _rtw_gcmp_decrypt (key : list Z) (key_len hdrlen : Z) (b : list Z) (p plen : Z) : res (Z * list Z) :=
  let frame := at_ptr b p in
  plain ← gcmp_decrypt key key_len frame (at_ptr frame hdrlen) (u32 (plen - hdrlen));
  copy_back b (p + hdrlen + 8) plain.

(** ** The transmit and receive entry points *)

Definition _AES_ : Z := 0x04.
Definition _GCMP_ : Z := 0x07.
Definition _CCMP_256_ : Z := 0x14.
Definition _GCMP_256_ : Z := 0x17.

(** One fragment after the other; the return value of the cipher is not used.
    [base] is the address of [b[0]] ([RND4] rounds addresses). *)
Fixpoint encrypt_frags (enc : Z -> list Z -> Z -> Z -> res (Z * list Z)) (n : nat) (b : list Z)
    (base pframe : Z) (a : pkt_attrib) (frag_len : Z) : res (list Z) :=
  match n with
  | O => Ret b
  | S O =>
      let plen := s32 (last_txcmdsz a - hdrlen a - iv_len a - icv_len a) in
      r ← enc (hdrlen a) b pframe (u32 plen); Ret r.2
  | S n =>
      let plen := s32 (frag_len - hdrlen a - iv_len a - icv_len a) in
      r ← enc (hdrlen a) b pframe (u32 plen);
      encrypt_frags enc n r.2 base (RND4 (base + pframe + frag_len) - base) a frag_len
  end.

Definition sw_encrypt (enc : list Z -> Z -> Z -> list Z -> Z -> Z -> res (Z * list Z)) (alg alg_256 : Z)
    (b : list Z) (buf_addr : option Z) (base pkt_offset : Z) (a : pkt_attrib) (frag_len : Z)
    (ra grpkey unicast_key : list Z) : res (Z * list Z) :=
  match buf_addr with
  | None => Ret (_FAIL, b)
  | Some addr =>
      let pframe := addr + hw_hdr_offset pkt_offset in
      if (encrypt a =? alg) || (encrypt a =? alg_256) then
        let prwskey := if IS_MCAST ra then grpkey else unicast_key in
        let prwskeylen := if encrypt a =? alg_256 then 32 else 16 in
        b ← encrypt_frags (enc prwskey prwskeylen) (Z.to_nat (nr_frags a)) b base pframe a frag_len;
        Ret (_SUCCESS, b)
      else Ret (_SUCCESS, b)
  end.

Definition rtw_aes_encrypt := sw_encrypt _rtw_ccmp_encrypt _AES_ _CCMP_256_.
Definition rtw_gcmp_encrypt := sw_encrypt _rtw_gcmp_encrypt _GCMP_ _GCMP_256_.

(** What the receive functions consult; [rx_sta] is the pairwise key of the station
    found for the transmitter, [rx_grp] the group keys by index. *)
Record rx_keys := RxKeys {
  rxk_encrypt : Z; rxk_hdrlen : Z; rxk_ra : list Z; rxk_key_index : Z;
  rxk_installGrpkey : bool; rxk_grpKeyid : Z; rxk_grp : list (list Z); rxk_sta : option (list Z) }.

(** The key for a frame, or [None] when it must be dropped. *)
Definition rx_key (x : rx_keys) : res (option (list Z)) :=
  match rxk_sta x with
  | None => Ret None
  | Some pairwise =>
      if IS_MCAST (rxk_ra x) then
        if negb (rxk_installGrpkey x) then Ret None else
        if negb (rxk_grpKeyid x =? rxk_key_index x) then Ret None else
        k ← rd (rxk_grp x) (rxk_key_index x);
        Ret (Some k)
      else Ret (Some pairwise)
  end.

Definition sw_decrypt (dec : list Z -> Z -> Z -> list Z -> Z -> Z -> res (Z * list Z)) (alg alg_256 : Z)
    (b : list Z) (p len : Z) (x : rx_keys) : res (Z * list Z) :=
  if (rxk_encrypt x =? alg) || (rxk_encrypt x =? alg_256) then
    k ← rx_key x;
    match k with
    | None => Ret (_FAIL, b)
    | Some prwskey => dec prwskey (if rxk_encrypt x =? alg_256 then 32 else 16) (rxk_hdrlen x) b p len
    end
  else Ret (_SUCCESS, b).

Definition rtw_aes_decrypt := sw_decrypt _rtw_ccmp_decrypt _AES_ _CCMP_256_.
Definition rtw_gcmp_decrypt := sw_decrypt _rtw_gcmp_decrypt _GCMP_ _GCMP_256_.
End Code.

(** ** What the standard protects

    A header is frame control, duration, the three addresses, sequence control and
    the rest (fourth address, QoS control). *)

Record mac_hdr := MacHdr { h_fc : Z; h_dur : list Z; h_addrs : list Z; h_seq : Z; h_tail : list Z }.

Definition hdr_bytes (h : mac_hdr) : list Z :=
  le16 (h_fc h) ++ h_dur h ++ h_addrs h ++ le16 (h_seq h) ++ h_tail h.

(** Where the QoS control field is in the tail. *)
Definition qos_off (fc : Z) : nat := if is_addr4 fc then 6 else 0.

Definition hdr_ok (h : mac_hdr) : Prop :=
  is_u16 (h_fc h) /\ is_u16 (h_seq h) /\ length (h_dur h) = 2%nat /\ length (h_addrs h) = 18%nat /\
  (qos_off (h_fc h) + (if is_qos (h_fc h) then 2 else 0) <= length (h_tail h))%nat /\
  bytes_ok (h_dur h) /\ bytes_ok (h_addrs h) /\ bytes_ok (h_tail h).

Definition qos_byte (h : mac_hdr) : Z := nth (qos_off (h_fc h)) (h_tail h) 0.

(** Frame control with the fields a station may change cleared. *)
Definition aad_fc (iswep : bool) (fc : Z) : Z :=
  let f := if is_data fc then Z.ldiff fc 0x0070 else fc in
  let f := if is_qos fc then Z.ldiff f 0x8000 else f in
  let f := Z.ldiff f 0x3800 in if iswep then Z.lor f 0x4000 else f.

Definition aad_qos (mode q : Z) : Z :=
  let q := Z.ldiff q 0x70 in if mode =? RTW_AMSDU_MODE_SPP then q else Z.ldiff q 0x80.

Definition aad_of (iswep : bool) (mode : Z) (h : mac_hdr) : list Z :=
  le16 (aad_fc iswep (h_fc h)) ++ h_addrs h ++ le16 (Z.ldiff (h_seq h) 0xfff0) ++
  take (qos_off (h_fc h)) (h_tail h) ++
  (if is_qos (h_fc h) then [aad_qos mode (qos_byte h); 0] else []).

Definition ccmp_prio (h : mac_hdr) : Z :=
  if is_data (h_fc h) then if is_qos (h_fc h) then Z.land (qos_byte h) 0x0f else 0
  else if is_mgmt (h_fc h) then 0x10 else 0.

Definition addr2_of (h : mac_hdr) : list Z := take 6 (drop 6 (h_addrs h)).

(** The packet number of the 8 byte CCMP or GCMP header, most significant byte
    first. *)
Definition pn_of (iv : list Z) : list Z :=
  [nth 7 iv 0; nth 6 iv 0; nth 5 iv 0; nth 4 iv 0; nth 1 iv 0; nth 0 iv 0].

Definition ccmp_nonce (h : mac_hdr) (iv : list Z) : list Z := [ccmp_prio h] ++ addr2_of h ++ pn_of iv.
Definition gcmp_nonce (h : mac_hdr) (iv : list Z) : list Z := addr2_of h ++ pn_of iv.

Section Aad.
Context (h : mac_hdr) (Hh : hdr_ok h) (rest : list Z).

Lemma hdr_split : hdr_bytes h ++ rest =
  le16 (h_fc h) ++ h_dur h ++ h_addrs h ++ le16 (h_seq h) ++ h_tail h ++ rest.
Proof. unfold hdr_bytes. by rewrite <- !app_assoc. Qed.

(** Where the fields are. *)
Lemma hdr_at : let b := hdr_bytes h ++ rest in
  at_off b 0 (le16 (h_fc h)) /\ at_off b 4 (h_addrs h) /\ at_off b 22 (le16 (h_seq h)) /\ at_off b 24 (h_tail h).
Proof.
  destruct Hh as (_ & _ & L1 & L2 & _). cbn zeta. rewrite hdr_split.
  set (b := le16 (h_fc h) ++ _). assert (at_off b 0 b) as H by (exists [], []; by rewrite app_nil_r).
  unfold b in H at 2. apply at_off_app in H as [H0 H]. apply at_off_app in H as [_ H].
  apply at_off_app in H as [H1 H]. apply at_off_app in H as [H2 H]. apply at_off_app in H as [H3 _].
  assert (zlen (h_dur h) = 2 /\ zlen (h_addrs h) = 18) as [Z1 Z2] by (unfold zlen; lia).
  rewrite !zlen_le16, ?Z1, ?Z2 in *. done.
Qed.

Lemma hdr_fc : get_le16 (hdr_bytes h ++ rest) 0 = Ret (h_fc h).
Proof. rewrite hdr_split. apply (get_le16_le16 []); [done|]. apply Hh. Qed.

Lemma hdr_addrs_slice : slice (hdr_bytes h ++ rest) 4 18 = Ret (h_addrs h).
Proof. apply at_off_slice; [apply hdr_at|]. destruct Hh as (_ & _ & _ & L2 & _). unfold zlen. lia. Qed.

Lemma hdr_addr2_slice : slice (hdr_bytes h ++ rest) 10 6 = Ret (addr2_of h) /\ length (addr2_of h) = 6%nat.
Proof.
  destruct Hh as (_ & _ & _ & L2 & _). destruct hdr_at as (_ & H & _).
  assert (length (addr2_of h) = 6%nat) as Hl by (unfold addr2_of; rewrite length_take, length_drop; lia).
  rewrite <- (take_drop 6 (h_addrs h)) in H. apply at_off_app in H as [_ H].
  rewrite <- (take_drop 6 (drop 6 (h_addrs h))) in H. apply at_off_app in H as [H _].
  split; [|done]. apply at_off_slice; [|unfold zlen; lia].
  replace 10 with (4 + zlen (take 6 (h_addrs h))) by (unfold zlen; rewrite length_take; lia). exact H.
Qed.

Lemma hdr_seq : get_le16 (hdr_bytes h ++ rest) 22 = Ret (h_seq h).
Proof.
  destruct hdr_at as (_ & _ & H & _). rewrite <- (app_nil_r (le16 _)) in H.
  apply at_off_le16 in H; [tauto|apply Hh].
Qed.

Lemma hdr_tail_slice n : (n <= length (h_tail h))%nat ->
  slice (hdr_bytes h ++ rest) 24 (Z.of_nat n) = Ret (take n (h_tail h)).
Proof.
  intros Hn. destruct hdr_at as (_ & _ & _ & H). rewrite <- (take_drop n (h_tail h)) in H.
  apply at_off_app in H as [H _]. apply at_off_slice; [done|]. unfold zlen. rewrite length_take. lia.
Qed.

Lemma qos_tail : is_qos (h_fc h) = true -> exists y, take (qos_off (h_fc h) + 2) (h_tail h) =
  take (qos_off (h_fc h)) (h_tail h) ++ [qos_byte h; y].
Proof.
  intros Hq. destruct Hh as (_ & _ & _ & _ & L3 & _). rewrite Hq in L3.
  destruct (lookup_lt_is_Some_2 (h_tail h) (qos_off (h_fc h))) as [x Hx]; [lia|].
  destruct (lookup_lt_is_Some_2 (h_tail h) (S (qos_off (h_fc h)))) as [y Hy]; [lia|].
  exists y. unfold qos_byte. rewrite (nth_lookup_Some _ _ 0 x Hx).
  rewrite Nat.add_succ_r, Nat.add_1_r, (take_S_r _ _ y Hy), (take_S_r _ _ x Hx). by rewrite <- app_assoc.
Qed.

Lemma hdr_qos_rd : is_qos (h_fc h) = true ->
  rd (hdr_bytes h ++ rest) (24 + (if is_addr4 (h_fc h) then 6 else 0)) = Ret (qos_byte h).
Proof.
  intros Hq. destruct hdr_at as (_ & _ & _ & H). destruct (qos_tail Hq) as (y & Ht).
  pose proof Hh as (_ & _ & _ & _ & L3 & _). rewrite Hq in L3.
  rewrite <- (take_drop (qos_off (h_fc h) + 2) (h_tail h)), Ht, <- app_assoc in H.
  apply at_off_app in H as [_ H]. apply at_off_cons in H as [H _]. rewrite <- H. f_equal.
  unfold zlen. rewrite length_take. unfold qos_off in *. destruct (is_addr4 (h_fc h)); lia.
Qed.

Lemma aad_len iswep mode : length (aad_of iswep mode h) = (22 + qos_off (h_fc h) + if is_qos (h_fc h) then 2 else 0)%nat.
Proof.
  destruct Hh as (_ & _ & _ & L2 & L3 & _). unfold aad_of. rewrite !length_app, length_take.
  destruct (is_qos (h_fc h)); cbn [length le16]; lia.
Qed.

Lemma aad_len_30 iswep mode : (length (aad_of iswep mode h) <= 30)%nat.
Proof. rewrite aad_len. unfold qos_off. destruct (is_addr4 _), (is_qos _); lia. Qed.

(** The fixed part of the additional data. *)
Lemma aad_fixed fc : (aad ← splice (replicate 30 0) 0 (le16 fc);
    a ← slice (hdr_bytes h ++ rest) 4 18; aad ← splice aad 2 a;
    seq ← get_le16 (hdr_bytes h ++ rest) 22; splice aad 20 (le16 (Z.ldiff seq 0xfff0))) =
  Ret ((le16 fc ++ h_addrs h ++ le16 (Z.ldiff (h_seq h) 0xfff0)) ++ replicate 8 0).
Proof.
  destruct Hh as (_ & _ & _ & L2 & _).
  change (replicate 30 0) with (replicate 2 0 ++ replicate 18 0 ++ replicate 2 0 ++ replicate 8 0).
  rewrite splice_0 by done. simp_res. rewrite hdr_addrs_slice. simp_res.
  rewrite splice_mid by (done || (rewrite length_replicate; lia)). simp_res.
  rewrite hdr_seq. simp_res. rewrite app_assoc, splice_mid by (done || (unfold zlen; rewrite length_app; cbn; lia)).
  by rewrite <- !app_assoc.
Qed.

Lemma build_aad_ok iswep mode : build_aad iswep mode (hdr_bytes h ++ rest) (replicate 30 0) =
  Ret (aad_of iswep mode h ++ replicate (30 - length (aad_of iswep mode h)) 0, zlen (aad_of iswep mode h)).
Proof.
  pose proof (aad_len iswep mode) as Hal. pose proof Hh as (_ & _ & _ & L2 & L3 & _).
  unfold build_aad. rewrite hdr_fc. simp_res. fold (aad_fc iswep (h_fc h)).
  pose proof (aad_fixed (aad_fc iswep (h_fc h))) as Ef.
  apply bind_inv in Ef as (b1 & E1 & Ef). apply bind_inv in Ef as (b2 & E2 & Ef).
  apply bind_inv in Ef as (b3 & E3 & Ef). apply bind_inv in Ef as (b4 & E4 & E5).
  bind_step E1. bind_step E2. bind_step E3. bind_step E4. bind_step E5.
  set (P := le16 (aad_fc iswep (h_fc h)) ++ h_addrs h ++ le16 (Z.ldiff (h_seq h) 0xfff0)) in *.
  assert (zlen P = 22) as HP by (unfold P, zlen; rewrite !length_app; cbn; lia).
  set (k := (qos_off (h_fc h) + if is_qos (h_fc h) then 2 else 0)%nat) in *.
  assert (k <= 8)%nat as Hk8 by (unfold k, qos_off; destruct (is_addr4 _), (is_qos _); lia).
  replace ((if is_addr4 (h_fc h) then 6 else 0) + (if is_qos (h_fc h) then 2 else 0)) with (Z.of_nat k)
    by (unfold k, qos_off; destruct (is_addr4 _), (is_qos _); lia).
  rewrite hdr_tail_slice by lia. simp_res.
  assert (replicate 8 0 = replicate k 0 ++ replicate (8 - k) 0) as ->
    by (rewrite <- replicate_add; f_equal; lia).
  rewrite splice_mid by (done || (rewrite length_replicate, length_take; lia)). simp_res.
  assert (aad_of iswep mode h = P ++ take (qos_off (h_fc h)) (h_tail h) ++
    (if is_qos (h_fc h) then [aad_qos mode (qos_byte h); 0] else [])) as Ha
    by (unfold aad_of, P; by rewrite <- !app_assoc).
  assert (30 - length (aad_of iswep mode h) = 8 - k)%nat as Hr by lia. rewrite Hr. clear Hr.
  unfold zlen at 1. rewrite Hal, Ha. clear E5. clearbody P. set (n := qos_off (h_fc h)) in *.
  assert ((if is_addr4 (h_fc h) then 6 else 0) = Z.of_nat n) as -> by (unfold n, qos_off; by destruct (is_addr4 _)).
  assert (length (take n (h_tail h)) = n) as Ln by (rewrite length_take; lia).
  destruct (is_qos (h_fc h)) eqn:Hq.
  - destruct (qos_tail Hq) as (y & Ht). fold n in Ht. unfold k. rewrite Ht, <- app_assoc, app_assoc. cbn [app].
    assert (22 + Z.of_nat n = zlen (P ++ take n (h_tail h))) as Hz by (rewrite zlen_app, HP; unfold zlen; lia).
    rewrite rd_mid by done. simp_res. rewrite wr_mid by done. simp_res.
    assert (forall q r, (aad ← (if negb (mode =? RTW_AMSDU_MODE_SPP) then
        x ← rd ((P ++ take n (h_tail h)) ++ Z.ldiff q 0x70 :: r) (22 + Z.of_nat n);
        wr ((P ++ take n (h_tail h)) ++ Z.ldiff q 0x70 :: r) (22 + Z.of_nat n) (Z.ldiff x 0x80)
        else Ret ((P ++ take n (h_tail h)) ++ Z.ldiff q 0x70 :: r)); Ret aad) =
        Ret ((P ++ take n (h_tail h)) ++ aad_qos mode q :: r)) as Hm.
    { intros q r. unfold aad_qos. destruct (mode =? RTW_AMSDU_MODE_SPP); cbn [negb]; [done|].
      rewrite rd_mid by done. simp_res. by rewrite wr_mid by done. }
    specialize (Hm (qos_byte h) (y :: replicate (8 - (n + 2)) 0)). apply bind_inv in Hm as (b6 & E6 & [= ->]).
    bind_step E6.
    rewrite (cons_middle (aad_qos mode (qos_byte h)) (P ++ take n (h_tail h))), (app_assoc (P ++ take n (h_tail h))), wr_mid by (rewrite zlen_app; change (zlen [aad_qos mode (qos_byte h)]) with 1; lia).
    simp_res. rewrite <- !app_assoc. cbn [app]. do 2 f_equal. lia.
  - unfold k. rewrite Nat.add_0_r, app_nil_r, <- app_assoc. do 2 f_equal. lia.
Qed.

Lemma pn_bytes_ok iv more : length iv = 8%nat -> pn_bytes (iv ++ more) = Ret (pn_of iv).
Proof. intros Hl. destruct iv as [|x0 [|x1 [|x2 [|x3 [|x4 [|x5 [|x6 [|x7 [|]]]]]]]]]; try done. Qed.

Lemma ccmp_aad_nonce_ok mode iv more : length iv = 8%nat ->
  ccmp_aad_nonce mode (hdr_bytes h ++ rest) (iv ++ more) (replicate 30 0) =
  Ret (aad_of true mode h ++ replicate (30 - length (aad_of true mode h)) 0, zlen (aad_of true mode h),
       ccmp_nonce h iv).
Proof.
  intros Hl. unfold ccmp_aad_nonce. rewrite hdr_fc. simp_res.
  assert ((if is_data (h_fc h) then
      if is_qos (h_fc h) then
        q ← rd (hdr_bytes h ++ rest) (24 + (if is_addr4 (h_fc h) then 6 else 0)); Ret (Z.land q 0x0f)
      else Ret 0
    else if is_mgmt (h_fc h) then Ret (Z.lor 0 0x10) else Ret 0) = Ret (ccmp_prio h)) as ->.
  { unfold ccmp_prio. destruct (is_data (h_fc h)); [|by destruct (is_mgmt (h_fc h))].
    destruct (is_qos (h_fc h)) eqn:Hq; [|done]. by rewrite (hdr_qos_rd Hq). }
  simp_res. rewrite build_aad_ok. simp_res. destruct hdr_addr2_slice as [-> _]. simp_res.
  by rewrite pn_bytes_ok.
Qed.

Lemma gcmp_aad_nonce_ok mode iv more : length iv = 8%nat ->
  gcmp_aad_nonce mode (hdr_bytes h ++ rest) (iv ++ more) (replicate 30 0) =
  Ret (aad_of false mode h ++ replicate (30 - length (aad_of false mode h)) 0, zlen (aad_of false mode h),
       gcmp_nonce h iv).
Proof.
  intros Hl. unfold gcmp_aad_nonce. rewrite build_aad_ok. simp_res.
  destruct hdr_addr2_slice as [-> _]. simp_res. by rewrite pn_bytes_ok.
Qed.
End Aad.

(** ** Frames *)

Lemma at_ptr_app a b n : n = zlen a -> at_ptr (a ++ b) n = b.
Proof. intros ->. unfold at_ptr. rewrite zlen_to_nat. by rewrite drop_app_length. Qed.

Lemma le16_bytes v : bytes_ok (le16 v).
Proof.
  unfold le16. apply Forall_cons. split; [apply land_fits_r; [lia|unfold fits; lia]|].
  apply Forall_singleton. pose proof (wrap_fits 16 v ltac:(lia)) as Hw. unfold fits in *.
  rewrite Z.shiftr_div_pow2 by lia. split; [apply Z.div_pos; lia|apply Z.div_lt_upper_bound; lia].
Qed.

Lemma ldiff_fits w x m : 0 <= w -> fits w x -> fits w (Z.ldiff x m).
Proof.
  intros Hw Hx. apply testbit_fits; [done|apply Z.ldiff_nonneg; left; unfold fits in Hx; lia|].
  intros i Hi. by rewrite Z.ldiff_spec, (fits_testbit w x).
Qed.

Lemma hdr_bytes_ok h : hdr_ok h -> bytes_ok (hdr_bytes h).
Proof.
  intros (_ & _ & _ & _ & _ & B1 & B2 & B3). unfold hdr_bytes.
  repeat (apply Forall_app; split); (done || apply le16_bytes).
Qed.

Lemma qos_byte_u8 h : hdr_ok h -> is_u8 (qos_byte h).
Proof.
  intros (_ & _ & _ & _ & _ & _ & _ & B3). unfold qos_byte.
  destruct (h_tail h !! qos_off (h_fc h)) as [x|] eqn:E.
  - rewrite (nth_lookup_Some _ _ 0 x E). by eapply Forall_lookup_1 in B3.
  - rewrite nth_overflow by (by apply lookup_ge_None_1). unfold fits. lia.
Qed.

Lemma aad_bytes iswep mode h : hdr_ok h -> bytes_ok (aad_of iswep mode h).
Proof.
  intros Hh. pose proof (qos_byte_u8 h Hh) as Hq. destruct Hh as (_ & _ & _ & _ & _ & B1 & B2 & B3).
  unfold aad_of. repeat (apply Forall_app; split); try apply le16_bytes; try done; [by apply Forall_take|].
  destruct (is_qos (h_fc h)); [|constructor]. apply Forall_cons. split; [|by_eval].
  unfold aad_qos. destruct (mode =? RTW_AMSDU_MODE_SPP); repeat apply ldiff_fits; (done || lia).
Qed.

Lemma addr2_ok h : hdr_ok h -> bytes_ok (addr2_of h) /\ length (addr2_of h) = 6%nat.
Proof.
  intros (_ & _ & _ & L & _ & _ & B & _). split; [by apply Forall_take, Forall_drop|].
  unfold addr2_of. rewrite length_take, length_drop. lia.
Qed.

Lemma pn_of_ok iv : bytes_ok iv -> length iv = 8%nat -> bytes_ok (pn_of iv).
Proof.
  intros Hb Hl. destruct iv as [|x0 [|x1 [|x2 [|x3 [|x4 [|x5 [|x6 [|x7 [|]]]]]]]]]; try done.
  rewrite !Forall_cons in Hb. unfold pn_of. cbn. rewrite !Forall_cons. tauto.
Qed.

Lemma ccmp_nonce_ok h iv : hdr_ok h -> bytes_ok iv -> length iv = 8%nat ->
  bytes_ok (ccmp_nonce h iv) /\ length (ccmp_nonce h iv) = 13%nat.
Proof.
  intros Hh Hb Hl. destruct (addr2_ok h Hh) as [B L]. unfold ccmp_nonce. split.
  - repeat (apply Forall_app; split); [|done|by apply pn_of_ok]. apply Forall_singleton. unfold ccmp_prio.
    destruct (is_data (h_fc h)), (is_qos (h_fc h)), (is_mgmt (h_fc h)); try (unfold fits; lia); apply land_fits_r; (lia || (unfold fits; lia)).
  - rewrite !length_app, L. done.
Qed.

Lemma gcmp_nonce_ok h iv : hdr_ok h -> bytes_ok iv -> length iv = 8%nat ->
  bytes_ok (gcmp_nonce h iv) /\ length (gcmp_nonce h iv) = 12%nat.
Proof.
  intros Hh Hb Hl. destruct (addr2_ok h Hh) as [B L]. unfold gcmp_nonce. split.
  - apply Forall_app. split; [done|by apply pn_of_ok].
  - by rewrite length_app, L.
Qed.

(** Fields outside a mask are not affected by setting bits inside it. *)
Lemma land_masked x g K m : Z.land K m = 0 ->
  Z.land (Z.lor (Z.ldiff x K) (Z.land g K)) m = Z.land x m.
Proof.
  intros H0. zbits. apply (f_equal (fun z => Z.testbit z i)) in H0. rewrite Z.land_spec, Z.bits_0 in H0.
  destruct (Z.testbit x i), (Z.testbit g i), (Z.testbit K i), (Z.testbit m i); done.
Qed.

Lemma lor_as_masked x K : Z.lor x K = Z.lor (Z.ldiff x K) (Z.land (-1) K).
Proof. zbits. rewrite Z.bits_m1 by lia. btauto. Qed.

Lemma fc_masked fc g K : Z.land K 0x03fc = 0 -> let fc' := Z.lor (Z.ldiff fc K) (Z.land g K) in
  is_addr4 fc' = is_addr4 fc /\ is_data fc' = is_data fc /\ is_mgmt fc' = is_mgmt fc /\ is_qos fc' = is_qos fc.
Proof.
  intros H fc'.
  assert (forall m, Z.land 0x03fc m = m -> Z.land fc' m = Z.land fc m) as Hm.
  { intros m Hmm. apply land_masked. rewrite <- Hmm, Z.land_assoc, H. done. }
  unfold is_qos, is_addr4, is_data, is_mgmt. rewrite !Hm by reflexivity. done.
Qed.

(** The header as transmitted. *)
Definition set_prot (h : mac_hdr) : mac_hdr :=
  MacHdr (Z.lor (h_fc h) 0x4000) (h_dur h) (h_addrs h) (h_seq h) (h_tail h).

Lemma set_prot_ok h : hdr_ok h -> hdr_ok (set_prot h) /\ length (hdr_bytes (set_prot h)) = length (hdr_bytes h).
Proof.
  intros (H1 & H2 & H3 & H4 & H5 & H6). split; [|unfold hdr_bytes, set_prot; cbn [h_fc h_dur h_addrs h_seq h_tail]; by rewrite !length_app].
  unfold hdr_ok, set_prot. cbn [h_fc h_dur h_addrs h_seq h_tail].
  split; [apply lor_fits; [lia|done|unfold fits; lia]|]. split; [done|]. split; [done|]. split; [done|]. split; [|done].
  rewrite lor_as_masked. unfold qos_off in *. destruct (fc_masked (h_fc h) (-1) 0x4000) as (-> & _ & _ & ->); done.
Qed.

Lemma set_iswep_ok h r : hdr_ok h -> set_iswep (hdr_bytes h ++ r) = Ret (hdr_bytes (set_prot h) ++ r).
Proof.
  intros Hh. unfold set_iswep. rewrite hdr_fc by done. simp_res. rewrite hdr_split by done.
  rewrite splice_0 by done. unfold hdr_bytes, set_prot. cbn [h_fc h_dur h_addrs h_seq h_tail].
  by rewrite <- !app_assoc.
Qed.

(** The allocator succeeds. *)
Definition mallocs (os_malloc : Z -> option (list Z)) : Prop :=
  forall n, 0 <= n -> exists l, os_malloc n = Some l /\ zlen l = n.

Lemma hdr_len h : hdr_ok h -> 24 <= zlen (hdr_bytes h).
Proof. intros (_ & _ & L1 & L2 & _). unfold hdr_bytes, zlen. rewrite !length_app. cbn. lia. Qed.

(** Header and packet number copied from the frame to the new buffer. *)
Lemma put_header_ok prot h h' iv m buf keyid : hdr_ok h -> length iv = 8%nat ->
  (zlen (hdr_bytes h) + 8 <= zlen buf) ->
  (forall r, prot (hdr_bytes h ++ r) = Ret (hdr_bytes h' ++ r)) ->
  exists mid, put_header prot buf (hdr_bytes h ++ iv ++ m) (zlen (hdr_bytes h)) None keyid =
    Ret (hdr_bytes h' ++ iv ++ mid, m) /\ zlen (hdr_bytes h) + 8 + zlen mid = zlen buf.
Proof.
  intros Hh Hiv Hb Hp. set (H := hdr_bytes h) in *.
  destruct (split_at buf (zlen H + 8)) as (b1 & mid & -> & Hz); [pose proof (zlen_nonneg H); lia|].
  exists mid. rewrite zlen_app, Hz. split; [|lia]. unfold put_header.
  rewrite app_assoc, slice_0 by (rewrite zlen_app; unfold zlen; lia). simp_res.
  rewrite splice_0 by (unfold zlen in Hz; rewrite length_app; lia). simp_res.
  rewrite <- (app_assoc H iv mid), Hp. simp_res. rewrite at_ptr_app; [done|]. rewrite zlen_app. unfold zlen. lia.
Qed.

Lemma ceil_room n : (16 * ((n + 15) / 16) <= n + 15)%nat.
Proof. pose proof (Nat.div_mod_eq (n + 15) 16). lia. Qed.

Lemma copy_back_ok pre old post l tail n : length old = length l -> n = zlen l ->
  copy_back (pre ++ old ++ post) (zlen pre) (Some (l ++ tail, n)) = Ret (_SUCCESS, pre ++ l ++ post).
Proof. intros Hl ->. unfold copy_back. rewrite slice_0 by done. simp_res. by rewrite splice_mid. Qed.

(** What a received frame becomes: the plaintext in place, or the frame as it was. *)
Definition opened (pre H iv c t post : list Z) (o : option (list Z)) : Z * list Z :=
  match o with
  | Some m => (_SUCCESS, pre ++ (H ++ iv ++ m ++ t) ++ post)
  | None => (_FAIL, pre ++ (H ++ iv ++ c ++ t) ++ post)
  end.

Lemma copy_back_opened pre H iv c t post tail o : length iv = 8%nat ->
  (forall m, o = Some m -> length m = length c) ->
  copy_back (pre ++ (H ++ iv ++ c ++ t) ++ post) (zlen pre + zlen H + 8)
    (option_map (fun p => (p ++ tail, zlen c)) o) = Ret (opened pre H iv c t post o).
Proof.
  intros Liv Ho. destruct o as [m|]; [|done]. specialize (Ho m eq_refl). cbn [option_map opened].
  replace (pre ++ (H ++ iv ++ c ++ t) ++ post) with ((pre ++ H ++ iv) ++ c ++ (t ++ post)) by (by rewrite <- !app_assoc).
  replace (zlen pre + zlen H + 8) with (zlen (pre ++ H ++ iv)) by (rewrite !zlen_app; unfold zlen; lia).
  etrans; [apply copy_back_ok; [done|unfold zlen; lia]|]. by rewrite <- !app_assoc.
Qed.

(** The tag length for a key. *)
Definition ccmp_M (key : list Z) : nat := if zlen key =? 32 then 16 else 8.

Lemma ccmp_M_range key : (2 <= ccmp_M key <= 16)%nat.
Proof. unfold ccmp_M. destruct (zlen key =? 32); lia. Qed.

Definition ccmp_key (key : list Z) : Prop := bytes_ok key /\ (zlen key = 16 \/ zlen key = 32).

Lemma ccmp_key_is_key key : ccmp_key key -> is_key key.
Proof. intros [Hb [H|H]]; (split; [done|rewrite H; by_eval]). Qed.

Lemma ccmp_gen_sel key : ccmp_key key ->
  ((zlen key =? 16) = true /\ Z.of_nat (ccmp_M key) = 8 /\ zlen key = 16) \/
  ((zlen key =? 16) = false /\ (zlen key =? 32) = true /\ Z.of_nat (ccmp_M key) = 16 /\ zlen key = 32).
Proof. intros [_ [H|H]]; unfold ccmp_M; rewrite H; auto. Qed.

(** ** What the air may change

    A frame on its way may have another duration, other retry, power management and
    more data bits and, as far as the ciphers are concerned, another sequence number. *)
Definition air (h : mac_hdr) (d : list Z) (g s : Z) : mac_hdr :=
  MacHdr (Z.lor (Z.ldiff (h_fc h) 0x3800) (Z.land g 0x3800)) d (h_addrs h)
    (Z.lor (Z.ldiff (h_seq h) 0xfff0) (Z.land s 0xfff0)) (h_tail h).

Lemma masked_fits n x g K : 0 <= n -> fits n x -> fits n K -> fits n (Z.lor (Z.ldiff x K) (Z.land g K)).
Proof. intros Hn Hx HK. exact (lor_fits n _ _ Hn (ldiff_fits n x K Hn Hx) (land_fits_r n g K Hn HK)). Qed.

Lemma ldiff_masked x g K : Z.ldiff (Z.lor (Z.ldiff x K) (Z.land g K)) K = Z.ldiff x K.
Proof. zbits. btauto. Qed.

Lemma ldiff_comm x a b : Z.ldiff (Z.ldiff x a) b = Z.ldiff (Z.ldiff x b) a.
Proof. zbits. btauto. Qed.

Lemma air_facts mode h d g s : hdr_ok h -> length d = 2%nat -> bytes_ok d -> let h' := air h d g s in
  hdr_ok h' /\ zlen (hdr_bytes h') = zlen (hdr_bytes h) /\
  (forall iswep, aad_of iswep mode h' = aad_of iswep mode h) /\
  (forall iv, ccmp_nonce h' iv = ccmp_nonce h iv) /\ (forall iv, gcmp_nonce h' iv = gcmp_nonce h iv).
Proof.
  intros (H1 & H2 & H3 & H4 & H5 & H6 & H7 & H8) Ld Bd h'.
  destruct (fc_masked (h_fc h) g 0x3800) as (Fa & Fd & Fm & Fq); [done|].
  assert (qos_off (h_fc h') = qos_off (h_fc h)) as Fo by (unfold qos_off; cbn [h' air h_fc]; by rewrite Fa).
  assert (qos_byte h' = qos_byte h) as Fb by (unfold qos_byte; by rewrite Fo).
  split; [|split; [|split; [|split]]].
  - unfold hdr_ok. rewrite Fo. unfold h', air. cbn [h_fc h_dur h_addrs h_seq h_tail]. rewrite Fq.
    split; [apply masked_fits; [lia|done|unfold fits; lia]|].
    split; [apply masked_fits; [lia|done|unfold fits; lia]|]. done.
  - unfold hdr_bytes, h', air, zlen. cbn [h_fc h_dur h_addrs h_seq h_tail]. rewrite !length_app, Ld, H3. done.
  - intros iswep. unfold aad_of. rewrite Fo, Fb. unfold h', air, aad_fc. cbn [h_fc h_dur h_addrs h_seq h_tail].
    rewrite Fq, Fd, ldiff_masked. f_equal. f_equal.
    destruct (is_data (h_fc h)), (is_qos (h_fc h)); rewrite ?(ldiff_comm _ _ 0x3800), ?ldiff_masked; done.
  - intros iv. unfold ccmp_nonce, ccmp_prio. rewrite Fb. unfold h', air. cbn [h_fc]. rewrite Fd, Fq, Fm. done.
  - done.
Qed.
(** ** The frame level against the specification *)

Section Proofs.
Context {ctx : Type} `{!BlockCipher ctx}.
Context (os_malloc : Z -> option (list Z)) (mem a0 : list Z) (mode : Z).
Context (Hmalloc : mallocs os_malloc) (Hmem : length mem = 61%nat) (Ha0 : is_block a0).

Section CcmpFrames.
Context (key kr : list Z) (M : nat) (Hkey : is_key key) (HM : (2 <= M <= 16)%nat).
Let E : list Z -> list Z := block_cipher key.

Lemma ccmp_encrypt_gen_ok h iv m more : hdr_ok h -> bytes_ok iv -> length iv = 8%nat -> bytes_ok m ->
  zlen (hdr_bytes h) + zlen m + 64 < 2 ^ 32 -> let h' := set_prot h in
  exists tail, ccmp_encrypt_gen os_malloc (Some mem) a0 mode (zlen key) (Z.of_nat M) (key ++ kr)
      (hdr_bytes h ++ iv ++ m ++ more) (zlen (hdr_bytes h) + zlen m) (zlen (hdr_bytes h)) None 0 =
    Ret (Some ((hdr_bytes h' ++ iv ++ ccm_crypt E (ccmp_nonce h' iv) m ++
                ccm_tag E M (ccmp_nonce h' iv) (aad_of true mode h') m) ++ tail,
               zlen (hdr_bytes h) + 8 + zlen m + Z.of_nat M)).
Proof.
  intros Hh Biv Liv Bm Hsz h'. pose proof (hdr_len h Hh) as H24. pose proof (zlen_nonneg m) as Hm0.
  destruct (set_prot_ok h Hh) as [Hh' Hlen]. fold h' in Hh', Hlen.
  assert (zlen (hdr_bytes h') = zlen (hdr_bytes h)) as Hz by (unfold zlen; lia).
  unfold ccmp_encrypt_gen. rewrite !(proj2 (Z.ltb_ge _ _)) by lia. cbn [orb].
  replace (zlen (hdr_bytes h) + zlen m - zlen (hdr_bytes h)) with (zlen m) by lia.
  rewrite wrap_small by (unfold fits; lia).
  destruct (Hmalloc (zlen (hdr_bytes h) + 8 + zlen m + Z.of_nat M + 16)) as (buf & -> & Hbuf); [lia|].
  destruct (put_header_ok set_iswep h h' iv (m ++ more) buf 0) as (mid & -> & Hmid);
    [done|done|lia|by intros; apply set_iswep_ok|]. simp_res.
  rewrite (at_ptr_app (hdr_bytes h')) by (by rewrite Hz).
  rewrite ccmp_aad_nonce_ok by done. simp_res.
  destruct (ccmp_nonce_ok h' iv Hh' Biv Liv) as [Bn Ln].
  pose proof (ceil_room (length m)) as Hroom.
  destruct (aes_ccm_ae_core mem a0 key kr (ccmp_nonce h' iv) M Hmem Ha0 Hkey HM Ln Bn m more (aad_of true mode h')
    (replicate (30 - length (aad_of true mode h')) 0) (hdr_bytes h' ++ iv) mid) as (tail & Ea & _);
    [done|by apply aad_len_30|by apply aad_bytes|unfold zlen in *; lia|unfold zlen in *; lia|].
  replace (zlen (hdr_bytes h' ++ iv)) with (zlen (hdr_bytes h) + 8) in Ea by (rewrite zlen_app; unfold zlen in *; lia).
  rewrite <- !app_assoc in Ea. bind_step Ea. exists tail. by rewrite <- !app_assoc.
Qed.

Lemma ccmp_decrypt_gen_ok h iv c t more rest : hdr_ok h -> bytes_ok iv -> length iv = 8%nat -> bytes_ok c ->
  bytes_ok t -> length t = M -> zlen c + 64 < 2 ^ 32 ->
  exists tail, ccmp_decrypt_gen os_malloc (Some mem) a0 mode (zlen key) (Z.of_nat M) (key ++ kr)
      (hdr_bytes h ++ rest) (iv ++ c ++ t ++ more) (8 + zlen c + Z.of_nat M) =
    Ret (option_map (fun p => (p ++ tail, zlen c)) (ccm_open E M (ccmp_nonce h iv) (aad_of true mode h) c t)).
Proof.
  intros Hh Biv Liv Bc Bt Lt Hsz. pose proof (zlen_nonneg c) as Hc0.
  unfold ccmp_decrypt_gen. rewrite (proj2 (Z.ltb_ge _ _)) by lia.
  rewrite wrap_small by (unfold fits; lia).
  destruct (Hmalloc (8 + zlen c + Z.of_nat M + 16)) as (buf & -> & Hbuf); [lia|].
  replace (8 + zlen c + Z.of_nat M - 8 - Z.of_nat M) with (zlen c) by lia.
  rewrite ccmp_aad_nonce_ok by done. simp_res.
  destruct (ccmp_nonce_ok h iv Hh Biv Liv) as [Bn Ln]. pose proof (ceil_room (length c)) as Hroom.
  assert (zlen iv = 8) as Hiv8 by (unfold zlen; lia).
  rewrite (at_ptr_app iv _ 8) by done.
  rewrite !(app_assoc iv). rewrite (at_ptr_app (iv ++ c)) by (rewrite zlen_app; lia).
  destruct (aes_ccm_ad_core mem a0 key kr (ccmp_nonce h iv) M Hmem Ha0 Hkey HM Ln Bn c (t ++ more) (aad_of true mode h)
    (replicate (30 - length (aad_of true mode h)) 0) t more buf) as (tail & Ea & Htl);
    [done|by apply aad_len_30|by apply aad_bytes|done|done|unfold zlen in *; lia|].
  bind_step Ea. fold E. exists tail. by destruct (ccm_open E M (ccmp_nonce h iv) (aad_of true mode h) c t).
Qed.
End CcmpFrames.

Section GcmpFrames.
Context (key kr : list Z) (Hkey : is_key key).
Let E : list Z -> list Z := block_cipher key.

Lemma gcmp_encrypt_ok h iv m more : hdr_ok h -> bytes_ok iv -> length iv = 8%nat -> bytes_ok m ->
  zlen (hdr_bytes h) + zlen m + 64 < 2 ^ 32 ->
  exists tail, gcmp_encrypt os_malloc (Some mem) mode (key ++ kr) (zlen key)
      (hdr_bytes h ++ iv ++ m ++ more) (zlen (hdr_bytes h) + zlen m) (zlen (hdr_bytes h)) None 0 =
    Ret (Some ((hdr_bytes h ++ iv ++ gcm_crypt E (gcmp_nonce h iv) m ++
                gcm_tag E (gcmp_nonce h iv) (aad_of false mode h) (gcm_crypt E (gcmp_nonce h iv) m)) ++ tail,
               zlen (hdr_bytes h) + 8 + zlen m + 16)).
Proof.
  intros Hh Biv Liv Bm Hsz. pose proof (hdr_len h Hh) as H24. pose proof (zlen_nonneg m) as Hm0.
  unfold gcmp_encrypt. rewrite !(proj2 (Z.ltb_ge _ _)) by lia. cbn [orb].
  replace (zlen (hdr_bytes h) + zlen m - zlen (hdr_bytes h)) with (zlen m) by lia.
  rewrite wrap_small by (unfold fits; lia).
  destruct (Hmalloc (zlen (hdr_bytes h) + 8 + zlen m + 16 + 16)) as (buf & -> & Hbuf); [lia|].
  destruct (put_header_ok Ret h h iv (m ++ more) buf 0) as (mid & -> & Hmid); [done|done|lia|done|]. simp_res.
  rewrite at_ptr_app by done. rewrite gcmp_aad_nonce_ok by done. simp_res.
  destruct (gcmp_nonce_ok h iv Hh Biv Liv) as [Bn Ln].
  pose proof (aes_gcm_ae_core mem key kr (gcmp_nonce h iv) Hmem Hkey Bn m more (aad_of false mode h)
    (replicate (30 - length (aad_of false mode h)) 0) (hdr_bytes h ++ iv) mid Bm (aad_bytes _ _ _ Hh)
    ltac:(unfold zlen in *; lia)) as Ea.
  replace (zlen (hdr_bytes h ++ iv)) with (zlen (hdr_bytes h) + 8) in Ea by (rewrite zlen_app; unfold zlen in *; lia).
  replace (zlen (gcmp_nonce h iv)) with 12 in Ea by (unfold zlen; lia).
  rewrite <- !app_assoc in Ea. bind_step Ea. eexists. by rewrite <- !app_assoc.
Qed.

Lemma gcmp_decrypt_ok h iv c t more rest : hdr_ok h -> bytes_ok iv -> length iv = 8%nat -> bytes_ok c ->
  bytes_ok t -> length t = 16%nat -> zlen c + 64 < 2 ^ 32 ->
  exists tail, gcmp_decrypt os_malloc (Some mem) mode (key ++ kr) (zlen key)
      (hdr_bytes h ++ rest) (iv ++ c ++ t ++ more) (8 + zlen c + 16) =
    Ret (option_map (fun p => (p ++ tail, zlen c)) (gcm_open E (gcmp_nonce h iv) (aad_of false mode h) c t)).
Proof.
  intros Hh Biv Liv Bc Bt Lt Hsz. pose proof (zlen_nonneg c) as Hc0.
  unfold gcmp_decrypt. rewrite (proj2 (Z.ltb_ge _ _)) by lia.
  rewrite wrap_small by (unfold fits; lia).
  destruct (Hmalloc (8 + zlen c + 16 + 16)) as (buf & -> & Hbuf); [lia|].
  replace (8 + zlen c + 16 - 8 - 16) with (zlen c) by lia.
  rewrite gcmp_aad_nonce_ok by done. simp_res.
  destruct (gcmp_nonce_ok h iv Hh Biv Liv) as [Bn Ln].
  rewrite (at_ptr_app iv) by (unfold zlen; lia). rewrite (at_ptr_app c) by done.
  pose proof (aes_gcm_ad_core mem key kr (gcmp_nonce h iv) Hmem Hkey Bn c (t ++ more) (aad_of false mode h)
    (replicate (30 - length (aad_of false mode h)) 0) t more buf Bc (aad_bytes _ _ _ Hh) Bt Lt
    ltac:(unfold zlen in *; lia)) as Ea.
  replace (zlen (gcmp_nonce h iv)) with 12 in Ea by (unfold zlen; lia). bind_step Ea. fold E.
  exists (drop (length c) buf). by destruct (gcm_open E (gcmp_nonce h iv) (aad_of false mode h) c t).
Qed.
End GcmpFrames.

Section InPlace.
Context (key kr : list Z) (Hkey : ccmp_key key).
Let E : list Z -> list Z := block_cipher key.
Let M : nat := ccmp_M key.

Lemma rtw_ccmp_encrypt_ok pre h iv m room post : hdr_ok h -> bytes_ok iv -> length iv = 8%nat -> bytes_ok m ->
  length room = M -> zlen (hdr_bytes h) + zlen m + 64 < 2 ^ 32 -> let h' := set_prot h in
  _rtw_ccmp_encrypt os_malloc (Some mem) a0 mode (key ++ kr) (zlen key) (zlen (hdr_bytes h))
    (pre ++ (hdr_bytes h ++ iv ++ m ++ room) ++ post) (zlen pre) (zlen m) =
  Ret (_SUCCESS, pre ++ (hdr_bytes h' ++ iv ++ ccm_crypt E (ccmp_nonce h' iv) m ++
    ccm_tag E M (ccmp_nonce h' iv) (aad_of true mode h') m) ++ post).
Proof.
  intros Hh Biv Liv Bm Lr Hsz h'. unfold _rtw_ccmp_encrypt. rewrite at_ptr_app by done.
  pose proof (zlen_nonneg m). pose proof (hdr_len h Hh). rewrite wrap_small by (unfold fits; lia).
  rewrite <- !app_assoc.
  destruct (ccmp_encrypt_gen_ok key kr M (ccmp_key_is_key _ Hkey) (ccmp_M_range key) h iv m (room ++ post) Hh Biv Liv Bm Hsz)
    as (tail & Eg). fold h' in Eg. fold E in Eg.
  destruct (set_prot_ok h Hh) as [Hh' Hlen]. fold h' in Hh', Hlen.
  destruct (ccmp_nonce_ok h' iv Hh' Biv Liv) as [Bn Ln].
  destruct (seal_ok key mem Hmem (ccmp_key_is_key _ Hkey) (ccmp_nonce h' iv) Ln Bn M (ccmp_M_range key) (aad_of true mode h') m)
    as [[Lc Lt] _]; [by apply aad_len_30|by apply aad_bytes|done|]. fold E in Lc, Lt.
  assert ((if zlen key =? 16 then ccmp_encrypt os_malloc (Some mem) a0 mode (key ++ kr)
             (hdr_bytes h ++ iv ++ m ++ room ++ post) (zlen (hdr_bytes h) + zlen m) (zlen (hdr_bytes h)) None 0
           else if zlen key =? 32 then ccmp_256_encrypt os_malloc (Some mem) a0 mode (key ++ kr)
             (hdr_bytes h ++ iv ++ m ++ room ++ post) (zlen (hdr_bytes h) + zlen m) (zlen (hdr_bytes h)) None 0
           else Ret None) = ccmp_encrypt_gen os_malloc (Some mem) a0 mode (zlen key) (Z.of_nat M) (key ++ kr)
             (hdr_bytes h ++ iv ++ m ++ room ++ post) (zlen (hdr_bytes h) + zlen m) (zlen (hdr_bytes h)) None 0) as ->.
  { destruct (ccmp_gen_sel key Hkey) as [(-> & HM & Hz)|(-> & -> & HM & Hz)]; unfold M; rewrite HM, Hz; done. }
  bind_step Eg.
  replace (pre ++ hdr_bytes h ++ iv ++ m ++ room ++ post) with (pre ++ (hdr_bytes h ++ iv ++ m ++ room) ++ post)
    by (by rewrite <- !app_assoc).
  etrans; [apply copy_back_ok|by rewrite <- !app_assoc].
  - rewrite !length_app, Lc, Lt, Hlen. lia.
  - unfold zlen. rewrite !length_app, Lc, Lt, Hlen, Liv. lia.
Qed.
Lemma rtw_ccmp_decrypt_ok pre h iv c t post : hdr_ok h -> bytes_ok iv -> length iv = 8%nat -> bytes_ok c ->
  bytes_ok t -> length t = M -> zlen (hdr_bytes h) + zlen c + 64 < 2 ^ 32 ->
  _rtw_ccmp_decrypt os_malloc (Some mem) a0 mode (key ++ kr) (zlen key) (zlen (hdr_bytes h))
    (pre ++ (hdr_bytes h ++ iv ++ c ++ t) ++ post) (zlen pre) (zlen (hdr_bytes h) + 8 + zlen c + Z.of_nat M) =
  Ret (opened pre (hdr_bytes h) iv c t post (ccm_open E M (ccmp_nonce h iv) (aad_of true mode h) c t)).
Proof.
  intros Hh Biv Liv Bc Bt Lt Hsz. unfold _rtw_ccmp_decrypt. rewrite at_ptr_app by done.
  pose proof (zlen_nonneg c). pose proof (zlen_nonneg (hdr_bytes h)). pose proof (ccmp_M_range key) as HMr. fold M in HMr.
  replace (zlen (hdr_bytes h) + 8 + zlen c + Z.of_nat M - zlen (hdr_bytes h)) with (8 + zlen c + Z.of_nat M) by lia.
  rewrite wrap_small by (unfold fits; lia).
  destruct (ccmp_decrypt_gen_ok key kr M (ccmp_key_is_key _ Hkey) HMr h iv c t post
    (iv ++ c ++ t ++ post) Hh Biv Liv Bc Bt Lt ltac:(lia)) as (tail & Eg). fold E in Eg.
  assert ((hdr_bytes h ++ iv ++ c ++ t) ++ post = hdr_bytes h ++ iv ++ c ++ t ++ post) as Hfr by (by rewrite <- !app_assoc).
  rewrite Hfr, (at_ptr_app (hdr_bytes h)) by done.
  assert ((if zlen key =? 16 then ccmp_decrypt os_malloc (Some mem) a0 mode (key ++ kr)
             (hdr_bytes h ++ iv ++ c ++ t ++ post) (iv ++ c ++ t ++ post) (8 + zlen c + Z.of_nat M)
           else if zlen key =? 32 then ccmp_256_decrypt os_malloc (Some mem) a0 mode (key ++ kr)
             (hdr_bytes h ++ iv ++ c ++ t ++ post) (iv ++ c ++ t ++ post) (8 + zlen c + Z.of_nat M)
           else Ret None) = ccmp_decrypt_gen os_malloc (Some mem) a0 mode (zlen key) (Z.of_nat M) (key ++ kr)
             (hdr_bytes h ++ iv ++ c ++ t ++ post) (iv ++ c ++ t ++ post) (8 + zlen c + Z.of_nat M)) as ->.
  { destruct (ccmp_gen_sel key Hkey) as [(-> & HM & Hz)|(-> & -> & HM & Hz)]; unfold M; rewrite HM, Hz; done. }
  bind_step Eg. rewrite <- Hfr. apply copy_back_opened; [done|]. intros m Hm. unfold ccm_open in Hm. case_decide; [|done].
  injection Hm as <-. destruct (ccmp_nonce_ok h iv Hh Biv Liv) as [Bn Ln].
  by destruct (seal_ok key mem Hmem (ccmp_key_is_key _ Hkey) (ccmp_nonce h iv) Ln Bn M HMr [] c)
    as [[Lc _] _]; [cbn; lia|constructor|done|].
Qed.
End InPlace.

Section GcmpInPlace.
Context (key kr : list Z) (Hkey : is_key key).
Let E : list Z -> list Z := block_cipher key.

Lemma gcm_seal_len h iv m : hdr_ok h -> bytes_ok iv -> length iv = 8%nat -> bytes_ok m ->
  let c := gcm_crypt E (gcmp_nonce h iv) m in
  length c = length m /\ length (gcm_tag E (gcmp_nonce h iv) (aad_of false mode h) c) = 16%nat.
Proof.
  intros Hh Biv Liv Bm c. destruct (gcmp_nonce_ok h iv Hh Biv Liv) as [Bn Ln].
  assert (length c = length m) as Lc by (by eapply (gcm_crypt_len mem key [])). split; [done|].
  eapply (gcm_tag_block mem key []); try done; [by apply aad_bytes|by eapply (gcm_crypt_bytes mem key [])].
Qed.

Lemma rtw_gcmp_encrypt_ok pre h iv m room post : hdr_ok h -> bytes_ok iv -> length iv = 8%nat -> bytes_ok m ->
  length room = 16%nat -> zlen (hdr_bytes h) + zlen m + 64 < 2 ^ 32 ->
  _rtw_gcmp_encrypt os_malloc (Some mem) mode (key ++ kr) (zlen key) (zlen (hdr_bytes h))
    (pre ++ (hdr_bytes h ++ iv ++ m ++ room) ++ post) (zlen pre) (zlen m) =
  Ret (_SUCCESS, pre ++ (hdr_bytes h ++ iv ++ gcm_crypt E (gcmp_nonce h iv) m ++
    gcm_tag E (gcmp_nonce h iv) (aad_of false mode h) (gcm_crypt E (gcmp_nonce h iv) m)) ++ post).
Proof.
  intros Hh Biv Liv Bm Lr Hsz. unfold _rtw_gcmp_encrypt. rewrite at_ptr_app by done.
  pose proof (zlen_nonneg m). pose proof (hdr_len h Hh). rewrite wrap_small by (unfold fits; lia).
  assert ((hdr_bytes h ++ iv ++ m ++ room) ++ post = hdr_bytes h ++ iv ++ m ++ room ++ post) as Hfr by (by rewrite <- !app_assoc).
  destruct (gcmp_encrypt_ok key kr Hkey h iv m (room ++ post) Hh Biv Liv Bm Hsz) as (tail & Eg). fold E in Eg.
  rewrite <- Hfr in Eg. bind_step Eg. destruct (gcm_seal_len h iv m Hh Biv Liv Bm) as [Lc Lt].
  apply copy_back_ok.
  - rewrite !length_app, Lt, Lc. lia.
  - unfold zlen. rewrite !length_app, Lt, Lc, Liv. lia.
Qed.

Lemma rtw_gcmp_decrypt_ok pre h iv c t post : hdr_ok h -> bytes_ok iv -> length iv = 8%nat -> bytes_ok c ->
  bytes_ok t -> length t = 16%nat -> zlen (hdr_bytes h) + zlen c + 64 < 2 ^ 32 ->
  _rtw_gcmp_decrypt os_malloc (Some mem) mode (key ++ kr) (zlen key) (zlen (hdr_bytes h))
    (pre ++ (hdr_bytes h ++ iv ++ c ++ t) ++ post) (zlen pre) (zlen (hdr_bytes h) + 8 + zlen c + 16) =
  Ret (opened pre (hdr_bytes h) iv c t post (gcm_open E (gcmp_nonce h iv) (aad_of false mode h) c t)).
Proof.
  intros Hh Biv Liv Bc Bt Lt Hsz. unfold _rtw_gcmp_decrypt. rewrite at_ptr_app by done.
  pose proof (zlen_nonneg c). pose proof (zlen_nonneg (hdr_bytes h)).
  replace (zlen (hdr_bytes h) + 8 + zlen c + 16 - zlen (hdr_bytes h)) with (8 + zlen c + 16) by lia.
  rewrite wrap_small by (unfold fits; lia).
  destruct (gcmp_decrypt_ok key kr Hkey h iv c t post (iv ++ c ++ t ++ post) Hh Biv Liv Bc Bt Lt ltac:(lia)) as (tail & Eg).
  fold E in Eg.
  assert ((hdr_bytes h ++ iv ++ c ++ t) ++ post = hdr_bytes h ++ iv ++ c ++ t ++ post) as Hfr by (by rewrite <- !app_assoc).
  rewrite Hfr, (at_ptr_app (hdr_bytes h)) by done.
  bind_step Eg. rewrite <- Hfr. apply copy_back_opened; [done|]. intros m Hm. unfold gcm_open in Hm. case_decide; [|done].
  injection Hm as <-. by apply (gcm_seal_len h iv c).
Qed.
End GcmpInPlace.

End Proofs.
(** ** Theorems *)

(** C4: A CCMP frame survives the air.  [_rtw_ccmp_encrypt] seals the frame in place
    and sets the protected bit; whatever duration, retry, power management, more
    data bits and sequence number the frame arrives with, [_rtw_ccmp_decrypt]
    with the same key restores the payload in place and touches nothing around
    the frame.  Both key lengths, every header shape (three or four addresses,
    with or without QoS, management), every payload. *)
Theorem ccmp_air_roundtrip {ctx : Type} `{!BlockCipher ctx} os_malloc mem a0 mode key kr pre h iv m room post :
  mallocs os_malloc -> length mem = 61%nat -> is_block a0 -> ccmp_key key -> hdr_ok h -> bytes_ok iv ->
  length iv = 8%nat -> bytes_ok m -> length room = ccmp_M key -> zlen (hdr_bytes h) + zlen m + 64 < 2 ^ 32 ->
  exists body,
    _rtw_ccmp_encrypt os_malloc (Some mem) a0 mode (key ++ kr) (zlen key) (zlen (hdr_bytes h))
      (pre ++ (hdr_bytes h ++ iv ++ m ++ room) ++ post) (zlen pre) (zlen m) =
      Ret (_SUCCESS, pre ++ (hdr_bytes (set_prot h) ++ iv ++ body) ++ post) /\
    forall d g s pre' post', length d = 2%nat -> bytes_ok d -> let H' := hdr_bytes (air (set_prot h) d g s) in
    exists t, _rtw_ccmp_decrypt os_malloc (Some mem) a0 mode (key ++ kr) (zlen key) (zlen H')
      (pre' ++ (H' ++ iv ++ body) ++ post') (zlen pre') (zlen (H' ++ iv ++ body)) =
      Ret (_SUCCESS, pre' ++ (H' ++ iv ++ m ++ t) ++ post').
Proof.
  intros Hmal Hmem Ha0 Hk Hh Biv Liv Bm Lr Hsz. set (E := block_cipher key). set (M := ccmp_M key).
  destruct (set_prot_ok h Hh) as [Hp Hlen]. destruct (ccmp_nonce_ok (set_prot h) iv Hp Biv Liv) as [Bn Ln].
  destruct (seal_ok key mem Hmem (ccmp_key_is_key _ Hk) _ Ln Bn M (ccmp_M_range key) (aad_of true mode (set_prot h)) m)
    as [[Lc Lt] [Bc Bt]]; [by apply aad_len_30|by apply aad_bytes|done|].
  eexists. split; [by apply rtw_ccmp_encrypt_ok|]. intros d g s pre' post' Ld Bd H'.
  destruct (air_facts mode (set_prot h) d g s Hp Ld Bd) as (Hair & Hz & Haad & Hn & _). eexists.
  pose proof (rtw_ccmp_decrypt_ok os_malloc mem a0 mode Hmal Hmem Ha0 key kr Hk pre' _ iv _ _ post' Hair Biv Liv Bc Bt Lt) as Ed.
  rewrite Haad, Hn in Ed. fold E M H' in Ed.
  rewrite (proj2 (ccm_open_iff E M _ _ (enc_blocks key mem Hmem (ccmp_key_is_key _ Hk)) Ln Bn _ _ m)) in Ed by done.
  cbn [opened] in Ed. rewrite <- Ed.
  - f_equal. unfold zlen. rewrite !length_app. subst E M. rewrite Liv. lia.
  - unfold zlen in *. subst E H'. lia.
Qed.
(** An allocator and a QoS data header to instantiate the theorems with. *)
Definition zalloc (n : Z) : option (list Z) := Some (replicate (Z.to_nat n) 0).
Definition sample_hdr : mac_hdr := MacHdr 0x0188 [0; 0] (replicate 18 2) 0x0010 [5; 0].

Lemma zalloc_ok : mallocs zalloc.
Proof. intros n Hn. eexists. split; [done|]. unfold zlen. rewrite length_replicate. lia. Qed.

Lemma ccmp_air_roundtrip_witness :
  exists body,
    _rtw_ccmp_encrypt zalloc (Some (replicate 61 0)) (replicate 16 0) 0 (replicate 16 1 ++ []) (zlen (replicate 16 1))
      (zlen (hdr_bytes sample_hdr))
      ([9] ++ (hdr_bytes sample_hdr ++ replicate 8 3 ++ [1; 2; 3] ++ replicate 8 0) ++ []) (zlen [9]) (zlen [1; 2; 3]) =
      Ret (_SUCCESS, [9] ++ (hdr_bytes (set_prot sample_hdr) ++ replicate 8 3 ++ body) ++ []) /\
    forall d g s pre' post', length d = 2%nat -> bytes_ok d -> let H' := hdr_bytes (air (set_prot sample_hdr) d g s) in
    exists t, _rtw_ccmp_decrypt zalloc (Some (replicate 61 0)) (replicate 16 0) 0 (replicate 16 1 ++ []) (zlen (replicate 16 1))
      (zlen H') (pre' ++ (H' ++ replicate 8 3 ++ body) ++ post') (zlen pre') (zlen (H' ++ replicate 8 3 ++ body)) =
      Ret (_SUCCESS, pre' ++ (H' ++ replicate 8 3 ++ [1; 2; 3] ++ t) ++ post').
Proof.
  refine (ccmp_air_roundtrip zalloc (replicate 61 0) (replicate 16 0) 0 (replicate 16 1) [] [9] sample_hdr (replicate 8 3)
    [1; 2; 3] (replicate 8 0) [] zalloc_ok _ _ _ _ _ _ _ _ _);
    [reflexivity|by_eval|split; [by_eval|by left]|repeat split; by_eval|by_eval|reflexivity|by_eval|reflexivity|reflexivity].
Defined.

(** [_rtw_ccmp_decrypt] accepts exactly the sealed frames: for any received
    frame with a complete header, it reports success when, and only when, ciphertext
    and tag are the CCM seal of a payload under the nonce and the additional data
    802.11 builds from this header, and then that payload is put in place; a
    rejected frame is left as it was. *)
Theorem ccmp_decrypt_exact {ctx : Type} `{!BlockCipher ctx} os_malloc mem a0 mode key kr pre h iv c t post :
  mallocs os_malloc -> length mem = 61%nat -> is_block a0 -> ccmp_key key -> hdr_ok h -> bytes_ok iv ->
  length iv = 8%nat -> bytes_ok c -> bytes_ok t -> length t = ccmp_M key ->
  zlen (hdr_bytes h) + zlen c + 64 < 2 ^ 32 ->
  exists o : option (list Z),
    _rtw_ccmp_decrypt os_malloc (Some mem) a0 mode (key ++ kr) (zlen key) (zlen (hdr_bytes h))
      (pre ++ (hdr_bytes h ++ iv ++ c ++ t) ++ post) (zlen pre)
      (zlen (hdr_bytes h) + 8 + zlen c + Z.of_nat (ccmp_M key)) =
      Ret (opened pre (hdr_bytes h) iv c t post o) /\
    forall m, o = Some m <->
      ccm_seal (block_cipher key) (ccmp_M key) (ccmp_nonce h iv) (aad_of true mode h) m = (c, t).
Proof.
  intros Hmal Hmem Ha0 Hk Hh Biv Liv Bc Bt Lt Hsz. destruct (ccmp_nonce_ok h iv Hh Biv Liv) as [Bn Ln].
  eexists. split; [by apply rtw_ccmp_decrypt_ok|]. intros m.
  apply ccm_open_iff; [|done|done]. exact (enc_blocks key mem Hmem (ccmp_key_is_key _ Hk)).
Qed.

Lemma ccmp_decrypt_exact_witness :
  exists o : option (list Z),
    _rtw_ccmp_decrypt zalloc (Some (replicate 61 0)) (replicate 16 0) 0 (replicate 32 1 ++ []) (zlen (replicate 32 1))
      (zlen (hdr_bytes sample_hdr))
      ([] ++ (hdr_bytes sample_hdr ++ replicate 8 3 ++ [1; 2; 3] ++ replicate 16 7) ++ []) (zlen (A:=Z) [])
      (zlen (hdr_bytes sample_hdr) + 8 + zlen [1; 2; 3] + Z.of_nat (ccmp_M (replicate 32 1))) =
      Ret (opened [] (hdr_bytes sample_hdr) (replicate 8 3) [1; 2; 3] (replicate 16 7) [] o) /\
    forall m, o = Some m <->
      ccm_seal (block_cipher (replicate 32 1)) (ccmp_M (replicate 32 1)) (ccmp_nonce sample_hdr (replicate 8 3))
        (aad_of true 0 sample_hdr) m = ([1; 2; 3], replicate 16 7).
Proof.
  refine (ccmp_decrypt_exact zalloc (replicate 61 0) (replicate 16 0) 0 (replicate 32 1) [] [] sample_hdr (replicate 8 3)
    [1; 2; 3] (replicate 16 7) [] zalloc_ok _ _ _ _ _ _ _ _ _ _);
    [reflexivity|by_eval|split; [by_eval|by right]|repeat split; by_eval|by_eval|reflexivity|by_eval|by_eval|reflexivity|reflexivity].
Defined.

(** GCMP frames, both directions: [_rtw_gcmp_encrypt] seals in place, the sealed
    frame is opened whatever the air changed, and [_rtw_gcmp_decrypt] accepts
    exactly the frames that are GCM seals under their header. *)
Theorem gcmp_frames {ctx : Type} `{!BlockCipher ctx} os_malloc mem mode key kr h iv :
  mallocs os_malloc -> length mem = 61%nat -> is_key key -> hdr_ok h -> bytes_ok iv -> length iv = 8%nat ->
  let E := block_cipher key in let H := hdr_bytes h in
  (forall pre m room post, bytes_ok m -> length room = 16%nat -> zlen H + zlen m + 64 < 2 ^ 32 ->
    let '(c, t) := gcm_seal E (gcmp_nonce h iv) (aad_of false mode h) m in
    _rtw_gcmp_encrypt os_malloc (Some mem) mode (key ++ kr) (zlen key) (zlen H)
      (pre ++ (H ++ iv ++ m ++ room) ++ post) (zlen pre) (zlen m) = Ret (_SUCCESS, pre ++ (H ++ iv ++ c ++ t) ++ post)) /\
  (forall d g s pre c t post, length d = 2%nat -> bytes_ok d -> bytes_ok c -> bytes_ok t -> length t = 16%nat ->
    zlen H + zlen c + 64 < 2 ^ 32 -> let H' := hdr_bytes (air h d g s) in
    exists o, _rtw_gcmp_decrypt os_malloc (Some mem) mode (key ++ kr) (zlen key) (zlen H')
      (pre ++ (H' ++ iv ++ c ++ t) ++ post) (zlen pre) (zlen H' + 8 + zlen c + 16) = Ret (opened pre H' iv c t post o) /\
      forall m, o = Some m <-> gcm_seal E (gcmp_nonce h iv) (aad_of false mode h) m = (c, t)).
Proof.
  intros Hmal Hmem Hk Hh Biv Liv E H. split.
  - intros pre m room post Bm Lr Hsz. by apply rtw_gcmp_encrypt_ok.
  - intros d g s pre c t post Ld Bd Bc Bt Lt Hsz H'.
    destruct (air_facts mode h d g s Hh Ld Bd) as (Hair & Hz & Haad & _ & Hn).
    destruct (gcmp_nonce_ok h iv Hh Biv Liv) as [Bn Ln].
    exists (gcm_open E (gcmp_nonce h iv) (aad_of false mode h) c t). split.
    + rewrite <- (Haad false), <- (Hn iv). apply rtw_gcmp_decrypt_ok; try done. by rewrite Hz.
    + intros m. by apply (gcm_open_iff mem key []).
Qed.
Lemma gcmp_frames_witness :
  let E := block_cipher (replicate 16 1) in let H := hdr_bytes sample_hdr in
  (forall pre m room post, bytes_ok m -> length room = 16%nat -> zlen H + zlen m + 64 < 2 ^ 32 ->
    let '(c, t) := gcm_seal E (gcmp_nonce sample_hdr (replicate 8 3)) (aad_of false 1 sample_hdr) m in
    _rtw_gcmp_encrypt zalloc (Some (replicate 61 0)) 1 (replicate 16 1 ++ []) (zlen (replicate 16 1)) (zlen H)
      (pre ++ (H ++ replicate 8 3 ++ m ++ room) ++ post) (zlen pre) (zlen m) =
      Ret (_SUCCESS, pre ++ (H ++ replicate 8 3 ++ c ++ t) ++ post)) /\
  (forall d g s pre c t post, length d = 2%nat -> bytes_ok d -> bytes_ok c -> bytes_ok t -> length t = 16%nat ->
    zlen H + zlen c + 64 < 2 ^ 32 -> let H' := hdr_bytes (air sample_hdr d g s) in
    exists o, _rtw_gcmp_decrypt zalloc (Some (replicate 61 0)) 1 (replicate 16 1 ++ []) (zlen (replicate 16 1)) (zlen H')
      (pre ++ (H' ++ replicate 8 3 ++ c ++ t) ++ post) (zlen pre) (zlen H' + 8 + zlen c + 16) =
      Ret (opened pre H' (replicate 8 3) c t post o) /\
      forall m, o = Some m <-> gcm_seal E (gcmp_nonce sample_hdr (replicate 8 3)) (aad_of false 1 sample_hdr) m = (c, t)).
Proof.
  refine (gcmp_frames zalloc (replicate 61 0) 1 (replicate 16 1) [] sample_hdr (replicate 8 3) zalloc_ok _ _ _ _ _);
    [reflexivity|by_eval|repeat split; by_eval|by_eval|reflexivity].
Defined.

(** A cipher that fails leaves all fragments as they are. *)
Lemma encrypt_frags_fail enc n b base pframe a frag_len :
  (forall h p l, enc h b p l = Ret (_FAIL, b)) -> encrypt_frags enc n b base pframe a frag_len = Ret b.
Proof.
  intros He. revert pframe. induction n as [|[|n] IH]; intros pframe; [done|by cbn; rewrite He|].
  cbn [encrypt_frags]. rewrite He. simp_res. apply IH.
Qed.

Lemma sw_encrypt_fail enc alg alg' b addr base po a frag_len ra grp uni :
  (forall k kl h p l, enc k kl h b p l = Ret (_FAIL, b)) ->
  sw_encrypt enc alg alg' b (Some addr) base po a frag_len ra grp uni = Ret (_SUCCESS, b).
Proof.
  intros He. unfold sw_encrypt. destruct (_ || _); [|done]. rewrite encrypt_frags_fail; [done|]. intros. apply He.
Qed.

(** When no memory can be allocated, the software encryption of a frame changes
    nothing and still reports [_SUCCESS]: the result of the cipher is not looked at,
    so the caller sends the frame with its payload in the clear. *)
Theorem sw_encrypt_nomem {ctx : Type} `{!BlockCipher ctx} os_malloc mem a0 mode b addr base po a frag_len ra grp uni :
  (forall n, os_malloc n = None) ->
  rtw_aes_encrypt os_malloc mem a0 mode b (Some addr) base po a frag_len ra grp uni = Ret (_SUCCESS, b) /\
  rtw_gcmp_encrypt os_malloc mem mode b (Some addr) base po a frag_len ra grp uni = Ret (_SUCCESS, b).
Proof.
  intros Hn. split; apply sw_encrypt_fail; intros.
  - unfold _rtw_ccmp_encrypt, ccmp_encrypt, ccmp_256_encrypt, ccmp_encrypt_gen.
    destruct (kl =? 16); [|destruct (kl =? 32)]; [destruct (_ || _)|destruct (_ || _)|]; rewrite ?Hn; done.
  - unfold _rtw_gcmp_encrypt, gcmp_encrypt. destruct (_ || _); rewrite ?Hn; done.
Qed.
Lemma sw_encrypt_nomem_witness :
  let a := PktAttrib _AES_ 1 24 8 8 43 in
  rtw_aes_encrypt (fun _ => None) None [] 0 (replicate 83 7) (Some 0) 0 0 a 0 (replicate 6 2) [] (replicate 16 1) =
    Ret (_SUCCESS, replicate 83 7) /\
  rtw_gcmp_encrypt (fun _ => None) None 0 (replicate 83 7) (Some 0) 0 0 a 0 (replicate 6 2) [] (replicate 16 1) =
    Ret (_SUCCESS, replicate 83 7).
Proof.
  refine (sw_encrypt_nomem (fun _ => None) None [] 0 (replicate 83 7) 0 0 0 (PktAttrib _AES_ 1 24 8 8 43) 0 (replicate 6 2)
    [] (replicate 16 1) _). intros n. reflexivity.
Defined.
End Ccmp.
