(* ===== verification/Bip.v ===== *)
(** * Broadcast integrity protocol

    Models the protection of group addressed management frames: [_bip_ccmp_protect]
    and [_bip_gcmp_protect] of [core/rtw_swcrypto.c], [rtw_calculate_bip_mic] and
    [rtw_bip_verify] of [core/rtw_security.c].  A frame is the object [whdr], which
    starts at [whdr_pos]; its last element is the management MIC element (MME):
    id 76, length, key id, packet number (IPN), MIC.

    Proved: the verifier accepts exactly the frames with the installed key id, a
    fresh IPN and the MIC of 802.11 (CMAC or GMAC over the masked header, the body
    and the MME with a zero MIC); over any sequence of frames the accepted IPNs
    are strictly increasing. *)
From Stdlib Require Import Sorted.
From S2P Require Import Prelude Aes Modes Cmac Ccm Gcm Arc4 Tkip Ccmp.

Module Bip.
Import Aes Cmac Ccm Gcm Wep Tkip Ccmp.

Definition _BIP_CMAC_128_ : Z := 0x20.
Definition _BIP_GMAC_128_ : Z := 0x21.
Definition _BIP_GMAC_256_ : Z := 0x22.
Definition _BIP_CMAC_256_ : Z := 0x23.
Definition RTW_RX_HANDLED : Z := 2.
Definition WLAN_HDR_A3_LEN : Z := 24.
Definition _MME_IE_ : Z := 76.
Definition BIP_AAD_SIZE : Z := 20.

Section Code.
Context {ctx : Type} `{!BlockCipher ctx}.
Context (mem : option (list Z)) (rtw_zmalloc : Z -> option (list Z)).

(** ** The MIC

    Status and the buffer [mic]; a cipher that fails leaves it as it is. *)

Definition put_mac (mic : list Z) (o : option (list Z)) : res (Z * list Z) :=
  match o with
  | None => Ret (_FAIL, mic)
  | Some t => mic ← splice mic 0 t; Ret (_SUCCESS, mic)
  end.

Definition _bip_ccmp_protect (key : list Z) (key_len : Z) (data : list Z) (data_len : Z) (mic : list Z)
    : res (Z * list Z) :=
  if key_len =? 16 then o ← omac1_aes_128 mem key data data_len; put_mac mic o
  else if key_len =? 32 then o ← omac1_aes_256 mem key data data_len; put_mac mic o
  else Ret (_FAIL, mic).

Definition _bip_gcmp_protect (whdr : list Z) (len : Z) (key : list Z) (key_len : Z) (data : list Z)
    (data_len : Z) (mic : list Z) : res (Z * list Z) :=
  let gcmp_ipn := len - 16 - 6 in
  a2 ← slice whdr 10 6;
  i5 ← rd whdr (gcmp_ipn + 5); i4 ← rd whdr (gcmp_ipn + 4); i3 ← rd whdr (gcmp_ipn + 3);
  i2 ← rd whdr (gcmp_ipn + 2); i1 ← rd whdr (gcmp_ipn + 1); i0 ← rd whdr gcmp_ipn;
  o ← aes_gmac mem key key_len (a2 ++ [i5; i4; i3; i2; i1; i0]) 12 data data_len mic;
  match o with
  | None => Ret (_FAIL, mic)
  | Some mic => Ret (_SUCCESS, mic)
  end.

Definition rtw_calculate_bip_mic (gmcs : Z) (whdr : list Z) (len : Z) (key data : list Z) (data_len : Z)
    (mic : list Z) : res (Z * list Z) :=
  if gmcs =? _BIP_CMAC_128_ then _bip_ccmp_protect key 16 data data_len mic
  else if gmcs =? _BIP_CMAC_256_ then _bip_ccmp_protect key 32 data data_len mic
  else if gmcs =? _BIP_GMAC_128_ then _bip_gcmp_protect whdr len key 16 data data_len mic
  else if gmcs =? _BIP_GMAC_256_ then _bip_gcmp_protect whdr len key 32 data data_len mic
  else Ret (_FAIL, mic).

(** ** Verification *)

Definition bip_mic_len (gmcs : Z) : Z := if gmcs =? _BIP_CMAC_128_ then 8 else 16.

(** Frame control with retry, power management and more data cleared. *)
Definition clear_fc (aad : list Z) : res (list Z) :=
  fc ← get_le16 aad 0;
  splice aad 0 (le16 (Z.ldiff (Z.ldiff (Z.ldiff fc 0x0800) 0x1000) 0x2000)).

(** The value [_rtw_memcpy(&pkt_ipn, mme + 4, 6)] leaves in a zeroed [u64]. *)
Definition get_ipn (whdr : list Z) (i : Z) : res Z :=
  l ← slice whdr i 6; Ret (be_val (rev l)).

(** The status and the stored packet number. *)
Definition rtw_bip_verify (gmcs pkt_len : Z) (whdr : list Z) (flen : Z) (key : list Z) (keyid ipn : Z)
    (mic : list Z) : res (Z * Z) :=
  let mic_len := bip_mic_len gmcs in
  if (flen <? WLAN_HDR_A3_LEN) || (flen - WLAN_HDR_A3_LEN <? mic_len) then Ret (RTW_RX_HANDLED, ipn) else
  let mme := flen - (if mic_len =? 8 then 18 else 26) in
  x ← rd whdr mme;
  if negb (x =? _MME_IE_) then Ret (RTW_RX_HANDLED, ipn) else
  pkt_keyid ← get_le16 whdr (mme + 2);
  if negb (pkt_keyid =? keyid) then Ret (_FAIL, ipn) else
  pkt_ipn ← get_ipn whdr (mme + 4);
  if pkt_ipn <=? ipn then Ret (_FAIL, ipn) else
  let ori_len := flen - WLAN_HDR_A3_LEN + BIP_AAD_SIZE in
  match rtw_zmalloc (u32 ori_len) with
  | None => Ret (_FAIL, ipn)
  | Some BIP_AAD =>
      body ← slice whdr WLAN_HDR_A3_LEN (flen - WLAN_HDR_A3_LEN - mic_len);
      aad ← splice BIP_AAD BIP_AAD_SIZE body;
      fc ← slice whdr 0 2;
      aad ← splice aad 0 fc;
      aad ← clear_fc aad;
      a ← slice whdr 4 18;
      aad ← splice aad 2 a;
      r ← rtw_calculate_bip_mic gmcs whdr pkt_len key aad ori_len mic;
      if r.1 =? _FAIL then Ret (_FAIL, ipn) else
      x ← slice r.2 0 mic_len; y ← slice whdr (flen - mic_len) mic_len;
      if bool_decide (x = y) then Ret (_SUCCESS, pkt_ipn) else Ret (_FAIL, ipn)
  end.

(** A receiver that verifies one frame after the other: the packet numbers of the
    accepted frames. *)
Fixpoint bip_run (gmcs : Z) (key : list Z) (keyid ipn : Z) (mic : list Z) (frames : list (list Z))
    : res (list Z) :=
  match frames with
  | [] => Ret []
  | f :: frames =>
      r ← rtw_bip_verify gmcs (zlen f) f (zlen f) key keyid ipn mic;
      l ← bip_run gmcs key keyid r.2 mic frames;
      Ret (if r.1 =? _SUCCESS then r.2 :: l else l)
  end.
End Code.

(** ** What 802.11 prescribes *)

Definition is_bip (gmcs : Z) : bool := (_BIP_CMAC_128_ <=? gmcs) && (gmcs <=? _BIP_CMAC_256_).
Definition bip_key_len (gmcs : Z) : Z :=
  if (gmcs =? _BIP_CMAC_128_) || (gmcs =? _BIP_GMAC_128_) then 16 else 32.

(** A management header ends with the sequence control field. *)
Definition hdr3_ok (h : mac_hdr) : Prop := hdr_ok h /\ h_tail h = [].

Definition bip_aad (h : mac_hdr) : list Z := le16 (Z.ldiff (h_fc h) 0x3800) ++ h_addrs h.

(** The element up to its MIC, and the frame. *)
Definition mme_head (el keyid : Z) (ipn : list Z) : list Z := [_MME_IE_; el] ++ le16 keyid ++ ipn.
Definition bip_frame (h : mac_hdr) (body : list Z) (el keyid : Z) (ipn mic : list Z) : list Z :=
  hdr_bytes h ++ body ++ mme_head el keyid ipn ++ mic.

(** The 16 byte MAC over [data]. *)
Definition bip_mac (E : list Z -> list Z) (gmcs : Z) (a2 ipn data : list Z) : list Z :=
  if (gmcs =? _BIP_CMAC_128_) || (gmcs =? _BIP_CMAC_256_) then cmac E data
  else gcm_tag E (a2 ++ rev ipn) data [].

Definition bip_mic (E : list Z -> list Z) (gmcs : Z) (h : mac_hdr) (body : list Z) (el keyid : Z) (ipn : list Z) : list Z :=
  take (Z.to_nat (bip_mic_len gmcs))
    (bip_mac E gmcs (addr2_of h) ipn
      (bip_aad h ++ body ++ mme_head el keyid ipn ++ replicate (Z.to_nat (bip_mic_len gmcs)) 0)).
(** ** The MAC computed by the code *)

Section Mac.
Context {ctx : Type} `{!BlockCipher ctx}.
Context (mem key kr : list Z) (Hmem : length mem = 61%nat) (Hkey : bytes_ok key).
Let E : list Z -> list Z := block_cipher key.

Lemma bip_key_ok gmcs : zlen key = bip_key_len gmcs -> is_key key.
Proof.
  intros Hz. split; [done|]. rewrite Hz. unfold bip_key_len. destruct (_ || _); by_eval.
Qed.

Lemma omac1_one kl data more : is_key key -> zlen key = kl -> data ≠ [] -> bytes_ok data -> zlen data < 2 ^ 64 ->
  omac1_aes_vector (Some mem) (key ++ kr) kl [data ++ more] [zlen data] = Ret (Some (cmac E data)).
Proof.
  intros Hk <- Hd Bd Hl.
  pose proof (omac1_core mem key kr [data] [more] Hmem Hk) as H. cbn [zip_with map concat] in H.
  rewrite app_nil_r in H. apply H; try done. left. by apply Forall_singleton.
Qed.

Lemma gmac_one kl iv data more mic : is_key key -> zlen key = kl -> bytes_ok iv -> zlen iv = 12 -> bytes_ok data ->
  length mic = 16%nat ->
  aes_gmac (Some mem) (key ++ kr) kl iv 12 (data ++ more) (zlen data) mic = Ret (Some (gcm_tag E iv data [])).
Proof.
  intros Hk <- Bi Li Bd Lm. unfold aes_gmac. rewrite <- Li.
  pose proof (aes_gcm_ae_core mem key kr iv Hmem Hk Bi [] [] data more [] mic) as H. cbn [app] in H.
  change (zlen (A:=Z) []) with 0 in H. rewrite Z.add_0_r in H. rewrite H; [|constructor|done|cbn; lia].
  f_equal. f_equal. rewrite (drop_ge mic) by (cbn; lia). rewrite app_nil_r. done.
Qed.

Lemma rd6 (whdr ipn : list Z) i : at_off whdr i ipn -> length ipn = 6%nat -> exists a b c d e f, ipn = [a; b; c; d; e; f] /\
  rd whdr i = Ret a /\ rd whdr (i + 1) = Ret b /\ rd whdr (i + 2) = Ret c /\ rd whdr (i + 3) = Ret d /\
  rd whdr (i + 4) = Ret e /\ rd whdr (i + 5) = Ret f.
Proof.
  intros H Hl. do 7 (destruct ipn as [|? ipn]; try discriminate Hl).
  repeat (apply at_off_cons in H as [? H]). rewrite <- ?Z.add_assoc in *. by eauto 20.
Qed.

Lemma bip_mac_ok gmcs whdr len a2 ipn data more mic : is_bip gmcs = true -> zlen key = bip_key_len gmcs ->
  slice whdr 10 6 = Ret a2 -> bytes_ok a2 -> length a2 = 6%nat ->
  (bip_mic_len gmcs = 16 -> at_off whdr (len - 16 - 6) ipn) -> length ipn = 6%nat -> bytes_ok ipn ->
  data ≠ [] -> bytes_ok data -> zlen data < 2 ^ 64 -> length mic = 16%nat ->
  rtw_calculate_bip_mic (Some mem) gmcs whdr len (key ++ kr) (data ++ more) (zlen data) mic =
  Ret (_SUCCESS, bip_mac E gmcs a2 ipn data) /\ length (bip_mac E gmcs a2 ipn data) = 16%nat.
Proof.
  intros Hg Hk Ha2 Ba2 La2 Hip Li Bi Hd Bd Hl Lm. pose proof (bip_key_ok gmcs Hk) as Hik.
  assert (forall b, is_block b -> is_block (E b)) as HE by (by apply (enc_blocks key mem)).
  unfold rtw_calculate_bip_mic, bip_mac, bip_key_len, is_bip in *. apply andb_prop in Hg as [G1 G2].
  assert (gmcs = _BIP_CMAC_128_ \/ gmcs = _BIP_CMAC_256_ \/ gmcs = _BIP_GMAC_128_ \/ gmcs = _BIP_GMAC_256_) as Hc
    by (unfold _BIP_CMAC_128_, _BIP_CMAC_256_, _BIP_GMAC_128_, _BIP_GMAC_256_ in *; lia).
  assert (forall kl, zlen key = kl -> (o ← omac1_aes_vector (Some mem) (key ++ kr) kl [data ++ more] [zlen data]; put_mac mic o) =
    Ret (_SUCCESS, cmac E data)) as Hcm.
  { intros kl Hkl. pose proof (omac1_one kl data more Hik Hkl Hd Bd Hl) as Eo. bind_step Eo. unfold put_mac.
    destruct (cmac_block E data HE Bd) as [Lc _].
    rewrite <- (app_nil_r mic), splice_0 by lia. by rewrite app_nil_r. }
  assert (forall kl, zlen key = kl -> bip_mic_len gmcs = 16 ->
    _bip_gcmp_protect (Some mem) whdr len (key ++ kr) kl (data ++ more) (zlen data) mic =
    Ret (_SUCCESS, gcm_tag E (a2 ++ rev ipn) data [])) as Hgm.
  { intros kl Hkl Hml. destruct (rd6 _ _ _ (Hip Hml) Li) as (i0 & i1 & i2 & i3 & i4 & i5 & Hi & R0 & R1 & R2 & R3 & R4 & R5).
    unfold _bip_gcmp_protect. rewrite Ha2, R0, R1, R2, R3, R4, R5. simp_res.
    change [i5; i4; i3; i2; i1; i0] with (rev [i0; i1; i2; i3; i4; i5]). rewrite <- Hi.
    rewrite gmac_one; [done|done|done| | |done|done].
    - apply Forall_app. split; [done|]. by apply Forall_rev.
    - unfold zlen. rewrite length_app, length_rev. lia. }
  destruct (cmac_block E data HE Bd) as [Lc _].
  assert (length (gcm_tag E (a2 ++ rev ipn) data []) = 16%nat) as Lg.
  { eapply (gcm_tag_block mem key []); try done. apply Forall_app. split; [done|]. by apply Forall_rev. }
  destruct Hc as [-> |[-> |[-> | ->]]]; cbn [Z.eqb orb] in *; (split; [|done]).
  - by apply Hcm.
  - by apply Hcm.
  - by apply Hgm.
  - by apply Hgm.
Qed.
End Mac.
(** ** Verification against the prescription *)

(** The allocator succeeds and clears. *)
Definition zmallocs (rtw_zmalloc : Z -> option (list Z)) : Prop :=
  forall n, 0 <= n -> rtw_zmalloc n = Some (replicate (Z.to_nat n) 0).

Lemma hdr3_len h : hdr3_ok h -> zlen (hdr_bytes h) = 24.
Proof. intros [(_ & _ & L1 & L2 & _) Ht]. unfold hdr_bytes, zlen. rewrite Ht, !length_app. cbn [length le16]. lia. Qed.

Lemma clear_fc_ok fc r : is_u16 fc -> clear_fc (le16 fc ++ r) = Ret (le16 (Z.ldiff fc 0x3800) ++ r).
Proof.
  intros Hf. unfold clear_fc. assert (get_le16 (le16 fc ++ r) 0 = Ret fc) as -> by (by apply (get_le16_le16 [])).
  simp_res.
  rewrite splice_0 by done. by rewrite !Z.ldiff_ldiff_l.
Qed.

(** Where the fields of a protected frame are. *)
Lemma bip_frame_at h body el kid ipn mic post : hdr3_ok h -> length ipn = 6%nat -> let F := bip_frame h body el kid ipn mic ++ post in
  let q := 24 + zlen body in
  at_off F 24 (body ++ mme_head el kid ipn) /\ at_off F q [_MME_IE_; el] /\ at_off F (q + 2) (le16 kid) /\
  at_off F (q + 4) ipn /\ at_off F (q + 10) mic /\ zlen (bip_frame h body el kid ipn mic) = q + 10 + zlen mic.
Proof.
  intros Hh Li F q. pose proof (hdr3_len h Hh) as H24.
  assert (at_off F 0 F) as H by (exists [], []; by rewrite app_nil_r).
  unfold F in H at 2. unfold bip_frame in H. rewrite <- !app_assoc in H. apply at_off_app in H as [_ H].
  rewrite H24 in H. change (0 + 24) with 24 in H. pose proof H as H1. apply at_off_app in H as [_ H].
  assert (zlen ipn = 6) as Z6 by (unfold zlen; lia). fold q in H.
  split; [|unfold mme_head in H; rewrite <- !app_assoc in H].
  - rewrite (app_assoc body) in H1. by apply at_off_app in H1 as [H1 _].
  - apply at_off_app in H as [H2 H]. apply at_off_app in H as [H3 H]. apply at_off_app in H as [H4 H].
    apply at_off_app in H as [H5 _]. rewrite zlen_le16, ?Z6 in *. change (zlen [_MME_IE_; el]) with 2 in *.
    replace (q + 4) with (q + 2 + 2) by lia. replace (q + 10) with (q + 2 + 2 + 6) by lia. split_and!; try done.
    unfold bip_frame, mme_head. rewrite !zlen_app, zlen_le16, H24, Z6. unfold q. change (zlen [_MME_IE_; el]) with 2. lia.
Qed.

(** The buffer over which the MIC is computed. *)
Lemma bip_aad_build h B rest n : hdr3_ok h ->
  (aad ← splice (replicate (Z.to_nat (20 + zlen B + Z.of_nat n)) 0) 20 B;
   fc ← slice (hdr_bytes h ++ rest) 0 2;
   aad ← splice aad 0 fc;
   aad ← clear_fc aad;
   a ← slice (hdr_bytes h ++ rest) 4 18;
   splice aad 2 a) = Ret (bip_aad h ++ B ++ replicate n 0).
Proof.
  intros [Hh _]. pose proof Hh as (Hf & _ & _ & La & _).
  replace (Z.to_nat (20 + zlen B + Z.of_nat n)) with (20 + (length B + n))%nat by (unfold zlen; lia).
  rewrite !replicate_add, splice_mid by (by rewrite ?length_replicate). simp_res.
  destruct (hdr_at h Hh rest) as (Hat & _). rewrite (at_off_slice _ _ _ _ Hat) by done. simp_res.
  change (replicate 20 0 ++ B ++ replicate n 0) with ([0; 0] ++ (replicate 18 0 ++ B ++ replicate n 0)).
  rewrite splice_0 by done. simp_res. rewrite clear_fc_ok by done. simp_res.
  rewrite hdr_addrs_slice by done. simp_res. rewrite splice_mid by (by rewrite ?length_replicate, ?La).
  unfold bip_aad. by rewrite <- app_assoc.
Qed.

Section Verify.
Context {ctx : Type} `{!BlockCipher ctx}.
Context (mem key kr : list Z) (Hmem : length mem = 61%nat) (Hkey : bytes_ok key).
Context (rtw_zmalloc : Z -> option (list Z)) (Hz : zmallocs rtw_zmalloc).
Let E : list Z -> list Z := block_cipher key.

(** What the verifier answers. *)
Definition bip_verdict (gmcs keyid ipn : Z) (h : mac_hdr) (body : list Z) (el kid : Z) (ipn6 mic : list Z) : Z * Z :=
  let pn := be_val (rev ipn6) in
  if bool_decide (kid = keyid /\ ipn < pn /\ bip_mic E gmcs h body el kid ipn6 = mic)
  then (_SUCCESS, pn) else (_FAIL, ipn).

(** The MIC over a frame, as sender and receiver compute it. *)
Lemma bip_calc_frame gmcs h body el kid ipn6 mic post more mic0 :
  is_bip gmcs = true -> zlen key = bip_key_len gmcs -> hdr3_ok h -> bytes_ok body -> is_u8 el ->
  bytes_ok ipn6 -> length ipn6 = 6%nat -> zlen mic = bip_mic_len gmcs -> length mic0 = 16%nat ->
  let F := bip_frame h body el kid ipn6 mic in let n := Z.to_nat (bip_mic_len gmcs) in zlen F < 2 ^ 31 ->
  exists mac,
    rtw_calculate_bip_mic (Some mem) gmcs (F ++ post) (zlen F) (key ++ kr)
      (bip_aad h ++ (body ++ mme_head el kid ipn6 ++ replicate n 0) ++ more) (zlen F - 24 + 20) mic0 = Ret (_SUCCESS, mac) /\
    slice mac 0 (bip_mic_len gmcs) = Ret (bip_mic E gmcs h body el kid ipn6) /\
    zlen (bip_mic E gmcs h body el kid ipn6) = bip_mic_len gmcs.
Proof.
  intros Hg Hk Hh Bb Be Bi Li Lm L0 F n HF. pose proof Hh as [Hh0 _].
  destruct (bip_frame_at h body el kid ipn6 mic post Hh Li) as (_ & _ & _ & A4 & _ & A6). fold F in A4, A6.
  pose proof (zlen_nonneg body) as Hb0.
  assert (bip_mic_len gmcs = 8 \/ bip_mic_len gmcs = 16) as Hml by (unfold bip_mic_len; destruct (_ =? _); auto).
  set (D := bip_aad h ++ body ++ mme_head el kid ipn6 ++ replicate n 0).
  assert (zlen D = zlen F - 24 + 20) as HD.
  { unfold D, bip_aad, mme_head. rewrite !zlen_app, !zlen_le16, zlen_replicate. change (zlen [_MME_IE_; el]) with 2.
    destruct Hh0 as (_ & _ & _ & La & _). unfold zlen in *. unfold n. lia. }
  assert (bytes_ok D) as BD.
  { unfold D, mme_head, bip_aad. destruct Hh0 as (_ & _ & _ & _ & _ & _ & Ba & _).
    repeat (apply Forall_app; split); try done; try apply le16_bytes; [|by apply Forall_replicate].
    apply Forall_cons. split; [by_eval|]. by apply Forall_singleton. }
  assert (D ≠ []) as HD0 by (intros H0; apply (f_equal zlen) in H0; rewrite HD, zlen_nil in H0; lia).
  assert (F ++ post = hdr_bytes h ++ (body ++ mme_head el kid ipn6 ++ mic) ++ post) as HFr by (unfold F, bip_frame; by rewrite <- !app_assoc).
  destruct (hdr_addr2_slice h Hh0 ((body ++ mme_head el kid ipn6 ++ mic) ++ post)) as [Es La2]. rewrite <- HFr in Es.
  destruct (addr2_ok h Hh0) as [Ba2 _].
  destruct (bip_mac_ok mem key kr Hmem Hkey gmcs (F ++ post) (zlen F) (addr2_of h) ipn6 D more mic0 Hg Hk Es Ba2 La2) as [Em Lmac];
    [|done|done|done|done|lia|done|].
  { intros H16. replace (zlen F - 16 - 6) with (24 + zlen body + 4) by lia. done. }
  fold E in Em, Lmac. set (mac := bip_mac E gmcs (addr2_of h) ipn6 D) in *.
  assert (bip_mic E gmcs h body el kid ipn6 = take n mac) as -> by done.
  assert (zlen (take n mac) = bip_mic_len gmcs) as Hz1 by (unfold zlen; rewrite length_take, Lmac; unfold n; lia).
  exists mac. split_and!; [|by rewrite <- (take_drop n mac) at 1; apply slice_0|done].
  rewrite <- HD, (app_assoc (bip_aad h)). exact Em.
Qed.

Lemma bip_verify_core gmcs h body el kid ipn6 mic post keyid ipn mic0 :
  is_bip gmcs = true -> zlen key = bip_key_len gmcs -> hdr3_ok h -> bytes_ok body -> is_u8 el -> is_u16 kid ->
  bytes_ok ipn6 -> length ipn6 = 6%nat -> zlen mic = bip_mic_len gmcs -> length mic0 = 16%nat ->
  let F := bip_frame h body el kid ipn6 mic in zlen F < 2 ^ 31 ->
  rtw_bip_verify (Some mem) rtw_zmalloc gmcs (zlen F) (F ++ post) (zlen F) (key ++ kr) keyid ipn mic0 =
  Ret (bip_verdict gmcs keyid ipn h body el kid ipn6 mic).
Proof.
  intros Hg Hk Hh Bb Be Bk Bi Li Lm L0 F HF. pose proof Hh as [Hh0 _].
  destruct (bip_frame_at h body el kid ipn6 mic post Hh Li) as (A1 & A2 & A3 & A4 & A5 & A6).
  fold F in A1, A2, A3, A4, A5, A6. set (q := 24 + zlen body) in *. pose proof (zlen_nonneg body) as Hb0.
  assert (bip_mic_len gmcs = 8 \/ bip_mic_len gmcs = 16) as Hml by (unfold bip_mic_len; destruct (_ =? _); auto).
  unfold rtw_bip_verify, WLAN_HDR_A3_LEN. rewrite !(proj2 (Z.ltb_ge _ _)) by lia. cbn [orb].
  replace (zlen F - (if bip_mic_len gmcs =? 8 then 18 else 26)) with q by (rewrite A6, Lm; destruct Hml as [-> | ->]; cbn; lia).
  apply at_off_cons in A2 as [-> _]. simp_res. rewrite Z.eqb_refl. cbn [negb].
  rewrite <- (app_nil_r (le16 kid)) in A3. destruct (at_off_le16 _ _ _ _ Bk A3) as [-> _]. simp_res.
  unfold bip_verdict. destruct (kid =? keyid) eqn:Ek; cbn [negb];
    [|rewrite bool_decide_eq_false_2 by lia; done]. apply Z.eqb_eq in Ek. subst keyid.
  unfold get_ipn. rewrite (at_off_slice _ _ _ 6 A4) by (unfold zlen; lia). simp_res.
  destruct (_ <=? ipn) eqn:El; [rewrite bool_decide_eq_false_2 by lia; done|].
  unfold BIP_AAD_SIZE. rewrite wrap_small by (unfold fits; lia). rewrite Hz by lia.
  set (B := body ++ mme_head el kid ipn6) in *.
  assert (zlen B = zlen body + 10) as HB
    by (unfold B, mme_head; rewrite !zlen_app, zlen_le16; change (zlen [_MME_IE_; el]) with 2; unfold zlen in *; lia).
  rewrite (at_off_slice _ _ _ _ A1) by lia. simp_res.
  set (n := Z.to_nat (bip_mic_len gmcs)). set (D := bip_aad h ++ B ++ replicate n 0).
  assert (F ++ post = hdr_bytes h ++ (body ++ mme_head el kid ipn6 ++ mic) ++ post) as HFr by (unfold F, bip_frame; by rewrite <- !app_assoc).
  pose proof (bip_aad_build h B ((body ++ mme_head el kid ipn6 ++ mic) ++ post) n Hh) as EB. rewrite <- HFr in EB. fold D in EB.
  replace (20 + zlen B + Z.of_nat n) with (zlen F - 24 + 20) in EB by (unfold n; lia).
  do 5 (apply bind_inv in EB as (? & Ex & EB); bind_step Ex; clear Ex). bind_step EB.
  destruct (bip_calc_frame gmcs h body el kid ipn6 mic post [] mic0 Hg Hk Hh Bb Be Bi Li Lm L0 HF) as (mac & Em & Es & _).
  rewrite app_nil_r in Em. fold n F in Em. replace (bip_aad h ++ body ++ mme_head el kid ipn6 ++ replicate n 0) with D in Em
    by (unfold D, B; by rewrite <- !app_assoc).
  bind_step Em. cbn [Z.eqb _SUCCESS _FAIL]. bind_step Es.
  rewrite (at_off_slice (F ++ post) (zlen F - bip_mic_len gmcs) mic) by (first [lia|replace (zlen F - bip_mic_len gmcs) with (q + 10) by lia; done]).
  simp_res. case_bool_decide as Hc; [rewrite bool_decide_eq_true_2; [done|]|rewrite bool_decide_eq_false_2; [done|]].
  - split; [done|]. split; [lia|done].
  - intros (_ & _ & H). by apply Hc.
Qed.
End Verify.
(** ** No replay *)

Section Replay.
Context {ctx : Type} `{!BlockCipher ctx}.
Context (mem : option (list Z)) (rtw_zmalloc : Z -> option (list Z)).

(** The stored number changes only when a frame is accepted, and then it grows. *)
Lemma bip_verify_mono gmcs pkt_len whdr flen key keyid ipn mic r ipn' :
  rtw_bip_verify mem rtw_zmalloc gmcs pkt_len whdr flen key keyid ipn mic = Ret (r, ipn') ->
  (r = _SUCCESS /\ ipn < ipn') \/ ((r = _FAIL \/ r = RTW_RX_HANDLED) /\ ipn' = ipn).
Proof.
  unfold rtw_bip_verify. intros H.
  destruct (_ || _); [injection H as <- <-; by auto|].
  apply bind_inv in H as (x & _ & H). destruct (negb (x =? _)); [injection H as <- <-; by auto|].
  apply bind_inv in H as (k & _ & H). destruct (negb (k =? _)); [injection H as <- <-; by auto|].
  apply bind_inv in H as (pn & _ & H). destruct (pn <=? ipn) eqn:El; [injection H as <- <-; by auto|].
  destruct (rtw_zmalloc _); [|injection H as <- <-; by auto].
  do 7 apply bind_inv in H as (? & _ & H). apply bind_inv in H as ([? ?] & _ & H).
  destruct (_ =? _FAIL); [injection H as <- <-; by auto|]. do 2 apply bind_inv in H as (? & _ & H).
  destruct (bool_decide _); injection H as <- <-; [left; split; [done|lia]|by auto].
Qed.

Lemma bip_run_sorted gmcs key keyid mic frames ipn l :
  bip_run mem rtw_zmalloc gmcs key keyid ipn mic frames = Ret l -> Forall (Z.lt ipn) l /\ StronglySorted Z.lt l.
Proof.
  revert ipn l. induction frames as [|f frames IH]; intros ipn l H; cbn [bip_run] in H.
  { injection H as <-. split; constructor. }
  apply bind_inv in H as ([r ipn'] & Ev & H). apply bind_inv in H as (l' & El & H). injection H as <-.
  apply IH in El as [Hf Hs]. cbn [fst snd] in *. apply bip_verify_mono in Ev as [[-> Hlt]|[Hr ->]].
  - rewrite Z.eqb_refl. split; [constructor; [done|]|by constructor].
    eapply Forall_impl; [exact Hf|]. intros y Hy. cbn beta in Hy. lia.
  - by destruct Hr as [-> | ->].
Qed.
End Replay.

(** ** Theorems *)

(** C7: [rtw_bip_verify] accepts exactly the protected frames.  For each of the four
    BIP ciphers and every frame that ends with an MME, it succeeds when, and only
    when, the key id is the installed one, the packet number is greater than the
    stored one and the MIC is the one 802.11 prescribes; only then the stored
    number becomes the frame's. *)
Theorem bip_verify_exact {ctx : Type} `{!BlockCipher ctx} mem key kr rtw_zmalloc gmcs h body el kid ipn6 mic post keyid ipn mic0 :
  length mem = 61%nat -> bytes_ok key -> zmallocs rtw_zmalloc ->
  is_bip gmcs = true -> zlen key = bip_key_len gmcs -> hdr3_ok h -> bytes_ok body -> is_u8 el -> is_u16 kid ->
  bytes_ok ipn6 -> length ipn6 = 6%nat -> zlen mic = bip_mic_len gmcs -> length mic0 = 16%nat ->
  let F := bip_frame h body el kid ipn6 mic in zlen F < 2 ^ 31 ->
  rtw_bip_verify (Some mem) rtw_zmalloc gmcs (zlen F) (F ++ post) (zlen F) (key ++ kr) keyid ipn mic0 =
  Ret (if bool_decide (kid = keyid /\ ipn < be_val (rev ipn6) /\
         bip_mic (block_cipher key) gmcs h body el kid ipn6 = mic)
       then (_SUCCESS, be_val (rev ipn6)) else (_FAIL, ipn)).
Proof. intros. by apply bip_verify_core. Qed.

Definition zeroed (n : Z) : option (list Z) := Some (replicate (Z.to_nat n) 0).
Definition sample_mgmt : mac_hdr := MacHdr 0x00c0 [0; 0] (replicate 18 255) 0x0010 [].

Lemma bip_verify_exact_witness :
  let F := bip_frame sample_mgmt [3; 0] 16 4 [1; 0; 0; 0; 0; 0] (replicate 8 7) in
  rtw_bip_verify (Some (replicate 61 0)) zeroed _BIP_CMAC_128_ (zlen F) (F ++ []) (zlen F) (replicate 16 1 ++ []) 4 0 (replicate 16 0) =
  Ret (if bool_decide (4 = 4 /\ 0 < be_val (rev [1; 0; 0; 0; 0; 0]) /\
         bip_mic (block_cipher (replicate 16 1)) _BIP_CMAC_128_ sample_mgmt [3; 0] 16 4 [1; 0; 0; 0; 0; 0] = replicate 8 7)
       then (_SUCCESS, be_val (rev [1; 0; 0; 0; 0; 0])) else (_FAIL, 0)).
Proof.
  refine (bip_verify_exact (replicate 61 0) (replicate 16 1) [] zeroed _BIP_CMAC_128_ sample_mgmt [3; 0] 16 4 [1; 0; 0; 0; 0; 0]
    (replicate 8 7) [] 4 0 (replicate 16 0) _ _ _ _ _ _ _ _ _ _ _ _ _ _);
    [reflexivity|by_eval|intros n _; reflexivity|reflexivity|reflexivity|split; [repeat split; by_eval|reflexivity]|by_eval|by_eval|by_eval|by_eval
    |reflexivity|reflexivity|reflexivity|reflexivity].
Defined.

(** No replay.  Whatever frames arrive, in whatever order, the packet numbers of
    the frames [rtw_bip_verify] accepts are all greater than the number stored at
    the start and strictly increase, so that no frame is accepted twice. *)
Theorem bip_no_replay {ctx : Type} `{!BlockCipher ctx} mem rtw_zmalloc gmcs key keyid mic frames ipn l :
  bip_run mem rtw_zmalloc gmcs key keyid ipn mic frames = Ret l ->
  Forall (Z.lt ipn) l /\ StronglySorted Z.lt l /\ NoDup l.
Proof.
  intros H. apply bip_run_sorted in H as [Hf Hs]. split; [done|]. split; [done|].
  clear Hf. induction Hs as [|x l Hs IH Hx]; constructor; [|done].
  intros Hin. rewrite Forall_forall in Hx. specialize (Hx x Hin). lia.
Qed.

(** Two frames, the second one twice, with their MICs under this key. *)
Definition sample_bip (n : Z) : list Z :=
  let ipn := [n; 0; 0; 0; 0; 0] in
  bip_frame sample_mgmt [3; 0] 16 4 ipn (bip_mic (block_cipher (replicate 16 1)) _BIP_CMAC_128_ sample_mgmt [3; 0] 16 4 ipn).

Example bip_run_ex :
  bip_run (Some (replicate 61 0)) zeroed _BIP_CMAC_128_ (replicate 16 1) 4 0 (replicate 16 0)
    [sample_bip 1; sample_bip 2; sample_bip 2; sample_bip 1; sample_bip 5] = Ret [1; 2; 5].
Proof. vm_compute. reflexivity. Qed.

Lemma bip_no_replay_witness : Forall (Z.lt 0) [1; 2; 5] /\ StronglySorted Z.lt [1; 2; 5] /\ NoDup [1; 2; 5].
Proof.
  refine (bip_no_replay (Some (replicate 61 0)) zeroed _BIP_CMAC_128_ (replicate 16 1) 4 (replicate 16 0)
    [sample_bip 1; sample_bip 2; sample_bip 2; sample_bip 1; sample_bip 5] 0 [1; 2; 5] _). exact bip_run_ex.
Defined.
End Bip.
