(* ===== verification/Mfp.v ===== *)
(** * Protected management frames

    Models, on the receive side ([core/rtw_recv.c]), the software decryption
    [decryptor] and the policy [validate_mgmt_protect]; on the transmit side
    ([core/rtw_xmit.c]) [xmitframe_swencrypt] and [rtw_mgmt_xmitframe_coalesce].
    They compose the ciphers of [Arc4], [Tkip], [Ccmp] and [Bip].

    A frame that [decryptor] rejects is freed: its buffer is then the empty
    object, in which every access is [Oob]. *)
From S2P Require Import Prelude Ies Aes Modes Cmac Ccm Gcm Arc4 Tkip Ccmp Bip.

Module Mfp.
Import Aes Ccm Gcm Crc32 Wep Tkip Ccmp Bip.

(** ** Constants and frame fields *)

Definition WIFI_DISASSOC : Z := 0xa0.
Definition WIFI_DEAUTH : Z := 0xc0.
Definition WIFI_ACTION : Z := 0xd0.
Definition WIFI_DATA_TYPE : Z := 0x08.
Definition WEP_KEYS : Z := 4.
Definition IEEE80211W_WRONG_KEY : Z := 1.
Definition IEEE80211W_NO_KEY : Z := 2.
Definition HDR_3ADDR : Z := 24.
Definition TXDESC_OFFSET : Z := TXDESC_SIZE + PACKET_OFFSET_SZ.
Definition _MME_IE_LENGTH_ : Z := 26.

Definition CATEGORY_IS_GROUP_PRIVACY (cat : Z) : bool := (cat =? 13) || (cat =? 14).
Definition CATEGORY_IS_NON_ROBUST (cat : Z) : bool :=
  (cat =? 4) || (cat =? 7) || (cat =? 11) || (cat =? 15) || (cat =? 21) || (cat =? 0x7f).
Definition CATEGORY_IS_ROBUST (cat : Z) : bool := negb (CATEGORY_IS_NON_ROBUST cat).

Definition get_frame_sub_type (b : list Z) (p : Z) : res Z := fc ← get_le16 b p; Ret (Z.land fc 0xfc).
Definition GetFrameType (b : list Z) (p : Z) : res Z := fc ← get_le16 b p; Ret (Z.land fc 0x0c).

(** [SET_ICE_IV_LEN]. *)
Definition ice_iv_len (enc : Z) : Z * Z :=
  if (enc =? _WEP40_) || (enc =? _WEP104_) then (4, 4)
  else if enc =? _TKIP_ then (8, 4)
  else if enc =? _AES_ then (8, 8)
  else if (enc =? _GCMP_) || (enc =? _GCMP_256_) then (8, 16)
  else if enc =? _CCMP_256_ then (8, 16)
  else if enc =? 6 then (18, 16) else (0, 0).

(** ** State *)

(** The fields of [struct security_priv] these functions use. *)
Record security_priv := SecurityPriv {
  dot11PrivacyKeyIndex : Z; dot11DefKey : list (list Z); dot11DefKeylen : list Z;
  dot118021XGrpPrivacy : Z; dot118021XGrpKeyid : Z; dot118021XGrpKey : list (list Z);
  sec_installGrpkey : bool; busetkipkey : bool; hw_decrypted : bool;
  binstallBIPkey : bool; dot11wCipher : Z; dot11wBIPKeyid : Z; dot11wBIPKey : list (list Z);
  dot11wBIPtxpn : Z; dot11wBIPrxpn : Z }.

Definition set_hw_decrypted (x : bool) (s : security_priv) : security_priv :=
  SecurityPriv (dot11PrivacyKeyIndex s) (dot11DefKey s) (dot11DefKeylen s) (dot118021XGrpPrivacy s)
    (dot118021XGrpKeyid s) (dot118021XGrpKey s) (sec_installGrpkey s) (busetkipkey s) x
    (binstallBIPkey s) (dot11wCipher s) (dot11wBIPKeyid s) (dot11wBIPKey s) (dot11wBIPtxpn s) (dot11wBIPrxpn s).
Definition set_bip_pn (tx rx : Z) (s : security_priv) : security_priv :=
  SecurityPriv (dot11PrivacyKeyIndex s) (dot11DefKey s) (dot11DefKeylen s) (dot118021XGrpPrivacy s)
    (dot118021XGrpKeyid s) (dot118021XGrpKey s) (sec_installGrpkey s) (busetkipkey s) (hw_decrypted s)
    (binstallBIPkey s) (dot11wCipher s) (dot11wBIPKeyid s) (dot11wBIPKey s) tx rx.

(** The fields of [struct sta_info]. *)
Record sta_info := StaInfo {
  sta_mfp : bool; bpairwise_key_installed : bool; dot118021XPrivacy : Z;
  dot118021x_UncstKey : list Z; dot11txpn : Z }.

(** The fields of [struct rx_pkt_attrib]; [rxa_len] is the length of the frame. *)
Record rx_attrib := RxAttrib {
  rxa_privacy : bool; rxa_encrypt : Z; rxa_bdecrypted : bool; rxa_hdrlen : Z; rxa_iv_len : Z; rxa_icv_len : Z;
  rxa_pkt_len : Z; rxa_key_index : Z; rxa_ra : list Z; rxa_ta : list Z; rxa_len : Z }.

Definition set_key_index (k : Z) (a : rx_attrib) : rx_attrib :=
  RxAttrib (rxa_privacy a) (rxa_encrypt a) (rxa_bdecrypted a) (rxa_hdrlen a) (rxa_iv_len a) (rxa_icv_len a)
    (rxa_pkt_len a) k (rxa_ra a) (rxa_ta a) (rxa_len a).
Definition set_bdecrypted (x : bool) (a : rx_attrib) : rx_attrib :=
  RxAttrib (rxa_privacy a) (rxa_encrypt a) x (rxa_hdrlen a) (rxa_iv_len a) (rxa_icv_len a)
    (rxa_pkt_len a) (rxa_key_index a) (rxa_ra a) (rxa_ta a) (rxa_len a).
Definition set_pkt_len (n : Z) (a : rx_attrib) : rx_attrib :=
  RxAttrib (rxa_privacy a) (rxa_encrypt a) (rxa_bdecrypted a) (rxa_hdrlen a) (rxa_iv_len a) (rxa_icv_len a)
    n (rxa_key_index a) (rxa_ra a) (rxa_ta a) (rxa_len a).

Section Code.
Context {ctx : Type} `{!BlockCipher ctx}.
Context (os_malloc rtw_zmalloc : Z -> option (list Z)) (mem : option (list Z)) (a0 mic0 : list Z) (amsdu_mode : Z).

(** ** Software decryption *)

(** The frame starts at offset [p] of [b]; [sta] is the station [rtw_get_stainfo]
    finds for the transmitter.  [None] for the buffer: the frame was freed. *)
Definition decryptor (st : crc_state) (s : security_priv) (sta : option (list Z)) (a : rx_attrib) (b : list Z) (p : Z)
    : res (option (list Z) * rx_attrib * security_priv * crc_state) :=
  a ← (if 0 <? rxa_encrypt a then
         x ← rd b (p + rxa_hdrlen a + 3);
         let k := Z.land (Z.shiftr x 6) 0x3 in
         Ret (set_key_index (if WEP_KEYS <? k then
                if (rxa_encrypt a =? _WEP40_) || (rxa_encrypt a =? _WEP104_) then dot11PrivacyKeyIndex s
                else dot118021XGrpKeyid s else k) a)
       else Ret a);
  let enc := rxa_encrypt a in
  r ← (if negb (enc =? 0) && negb (rxa_bdecrypted a) then
         t ← GetFrameType b p;
         let s := if t =? WIFI_DATA_TYPE then set_hw_decrypted false s else s in
         let x := RxKeys enc (rxa_hdrlen a) (rxa_ra a) (rxa_key_index a) (sec_installGrpkey s) (dot118021XGrpKeyid s)
                    (dot118021XGrpKey s) sta in
         if (enc =? _WEP40_) || (enc =? _WEP104_) then
           skey ← rd (dot11DefKey s) (rxa_key_index a); kl ← rd (dot11DefKeylen s) (rxa_key_index a);
           r ← rtw_wep_decrypt st b p (rxa_len a) enc (rxa_hdrlen a) (rxa_iv_len a) skey kl;
           Ret (_SUCCESS, r.1, s, r.2)
         else if enc =? _TKIP_ then
           k ← rd (dot118021XGrpKey s) (rxa_key_index a);
           r ← rtw_tkip_decrypt st b p (rxa_len a)
                 (RxTkip enc (rxa_hdrlen a) (rxa_iv_len a) (rxa_ra a) (rxa_ta a) (sec_installGrpkey s) k sta);
           Ret (r.1.1, r.1.2, s, r.2)
         else if (enc =? _AES_) || (enc =? _CCMP_256_) then
           r ← rtw_aes_decrypt os_malloc mem a0 amsdu_mode b p (rxa_len a) x; Ret (r.1, r.2, s, st)
         else if (enc =? _GCMP_) || (enc =? _GCMP_256_) then
           r ← rtw_gcmp_decrypt os_malloc mem amsdu_mode b p (rxa_len a) x; Ret (r.1, r.2, s, st)
         else Ret (_SUCCESS, b, s, st)
       else if rxa_bdecrypted a && (0 <? enc) && (busetkipkey s || negb (enc =? _TKIP_))
       then Ret (_SUCCESS, b, set_hw_decrypted true s, st)
       else Ret (_SUCCESS, b, s, st));
  let '(res, b, s, st) := r in
  if res =? _FAIL then Ret (None, a, s, st) else Ret (Some b, set_bdecrypted true a, s, st).

(** ** The receive policy *)

Definition object (o : option (list Z)) : list Z := match o with Some b => b | None => [] end.

(** [bip_verify]: the group addressed frame must carry a valid MIC. *)
Definition check_bip (s : security_priv) (a : rx_attrib) (b : list Z) (p : Z) : res (Z * security_priv) :=
  igtk ← rd (dot11wBIPKey s) (dot11wBIPKeyid s);
  r ← rtw_bip_verify mem rtw_zmalloc (dot11wCipher s) (rxa_pkt_len a) (at_ptr b p) (rxa_len a) igtk
        (u16 (dot11wBIPKeyid s)) (dot11wBIPrxpn s) mic0;
  let s := set_bip_pn (dot11wBIPtxpn s) r.2 s in
  Ret (if (r.1 =? _FAIL) || (r.1 =? RTW_RX_HANDLED) then _FAIL else _SUCCESS, s).

(** An unprotected management frame.  The boolean: [issue_action_SA_Query] was called. *)
Definition unprotected (s : security_priv) (sta : option sta_info) (a : rx_attrib) (b : list Z) (p : Z)
    : res (Z * bool * security_priv) :=
  subtype ← get_frame_sub_type b p;
  a1 ← slice b (p + 4) 6;
  match sta with
  | None => Ret (_SUCCESS, false, s)
  | Some psta =>
      if negb (sta_mfp psta) then Ret (_SUCCESS, false, s) else
      category ← (if subtype =? WIFI_ACTION then rd b (p + HDR_3ADDR) else Ret 0xff);
      if IS_MCAST a1 then
        if (subtype =? WIFI_ACTION) && CATEGORY_IS_GROUP_PRIVACY category then Ret (_FAIL, false, s)
        else if ((subtype =? WIFI_ACTION) && CATEGORY_IS_ROBUST category) ||
                (subtype =? WIFI_DEAUTH) || (subtype =? WIFI_DISASSOC)
        then r ← check_bip s a b p; Ret (r.1, false, r.2)
        else Ret (_SUCCESS, false, s)
      else if (subtype =? WIFI_DEAUTH) || (subtype =? WIFI_DISASSOC) then
        reason ← get_le16 b (p + WLAN_HDR_A3_LEN);
        Ret (_FAIL, (reason =? 6) || (reason =? 7), s)
      else if (subtype =? WIFI_ACTION) && CATEGORY_IS_ROBUST category && bpairwise_key_installed psta
      then Ret (_FAIL, false, s)
      else Ret (_SUCCESS, false, s)
  end.

(** A protected management frame: decrypted, its body moved over the IV.  The frame
    is accessed through [ptr] also when [decryptor] has freed it. *)
Definition protected_ (st : crc_state) (s : security_priv) (sta : option sta_info) (a : rx_attrib) (b : list Z) (p : Z)
    : res (Z * option (list Z) * rx_attrib * security_priv * crc_state) :=
  match sta with
  | Some psta =>
      if negb (sta_mfp psta) then Ret (_FAIL, Some b, a, s, st) else
      let enc := dot118021XPrivacy psta in
      let '(iv, icv) := ice_iv_len enc in
      ra ← slice b (p + 4) 6; ta ← slice b (p + 10) 6;
      let a := RxAttrib (rxa_privacy a) enc false HDR_3ADDR iv icv (rxa_pkt_len a) (rxa_key_index a) ra ta (rxa_len a) in
      let data_len := u32 (rxa_pkt_len a - HDR_3ADDR - iv - icv) in
      match rtw_zmalloc data_len with
      | None => Ret (_FAIL, Some b, a, s, st)
      | Some mgmt_DATA =>
          r ← decryptor st s (Some (dot118021x_UncstKey psta)) a b p;
          let '(o, a, s, st) := r in
          let b := object o in
          body ← slice b (p + rxa_hdrlen a + iv) data_len;
          mgmt_DATA ← splice mgmt_DATA 0 body;
          body ← slice mgmt_DATA 0 data_len;
          b ← splice b (p + rxa_hdrlen a) body;
          let a := set_pkt_len (u16 (rxa_pkt_len a - iv - icv)) a in
          match o with
          | None => Ret (_FAIL, None, a, s, st)
          | Some _ => Ret (_SUCCESS, Some b, a, s, st)
          end
      end
  | None => Ret (_FAIL, Some b, a, s, st)
  end.

Definition validate_mgmt_protect (st : crc_state) (s : security_priv) (sta : option sta_info) (a : rx_attrib)
    (b : list Z) (p : Z) : res (Z * option (list Z) * rx_attrib * security_priv * crc_state * bool) :=
  if negb (binstallBIPkey s) then Ret (_SUCCESS, Some b, a, s, st, false) else
  if negb (rxa_privacy a) then
    r ← unprotected s sta a b p; Ret (r.1.1, Some b, a, r.2, st, r.1.2)
  else r ← protected_ st s sta a b p; Ret (r, false).
(** ** The transmit path *)

(** The attributes of a frame to be sent: those of [Wep.pkt_attrib] and more. *)
Record tx_attrib := TxAttrib {
  txa : pkt_attrib; pktlen : Z; bswenc : bool; key_type : Z; tx_ra : list Z; tx_ta : list Z;
  tx_icv : list Z; tx_skey : list Z }.

(** [xmitframe_swencrypt]; the ciphers' status is not used.  [grpkey] is the group
    key selected by [dot118021XGrpKeyid], [wepkey] and [weplen] the default key
    selected by [dot11PrivacyKeyIndex]. *)
Definition xmitframe_swencrypt (st : crc_state) (b : list Z) (buf_addr : option Z) (base pkt_offset : Z) (a : tx_attrib)
    (frag_len : Z) (grpkey wepkey : list Z) (weplen : Z) : res (list Z * crc_state) :=
  if bswenc a then
    let enc := encrypt (txa a) in
    if (enc =? _WEP40_) || (enc =? _WEP104_) then
      rtw_wep_encrypt st b buf_addr base pkt_offset (txa a) frag_len wepkey weplen
    else if enc =? _TKIP_ then
      r ← rtw_tkip_encrypt st b buf_addr base pkt_offset (txa a) frag_len (tx_ra a) (tx_ta a) grpkey (tx_skey a);
      Ret (r.1.2, r.2)
    else if (enc =? _AES_) || (enc =? _CCMP_256_) then
      r ← rtw_aes_encrypt os_malloc mem a0 amsdu_mode b buf_addr base pkt_offset (txa a) frag_len (tx_ra a) grpkey (tx_skey a);
      Ret (r.2, st)
    else if (enc =? _GCMP_) || (enc =? _GCMP_256_) then
      r ← rtw_gcmp_encrypt os_malloc mem amsdu_mode b buf_addr base pkt_offset (txa a) frag_len (tx_ra a) grpkey (tx_skey a);
      Ret (r.2, st)
    else Ret (b, st)
  else Ret (b, st).

(** The macro [AES_IV]: the next packet number and the IV it gives. *)
Definition next_pn (pn : Z) : Z := if pn =? 0xffffffffffff then 0 else u64 (pn + 1).
Definition pn_byte (pn i : Z) : Z := Z.land (Z.shiftr pn (8 * i)) 0xff.
Definition aes_iv (pn keyidx : Z) : list Z :=
  [pn_byte pn 0; pn_byte pn 1; 0; u8 (Z.lor 0x20 (Z.shiftl (Z.land keyidx 0x3) 6));
   pn_byte pn 2; pn_byte pn 3; pn_byte pn 4; pn_byte pn 5].

(** [RTW_PUT_LE64]. *)
Definition le64 (v : Z) : list Z := map (fun i => pn_byte v (Z.of_nat i)) (seq 0 8).

(** The broadcast robust frame: the MME is appended and filled in.  The frame starts
    at [mem_start]; [BIP_AAD] is the cleared buffer.  Result: the status, the frame
    buffer, the new length, the state. *)
Definition put_bip (s : security_priv) (b : list Z) (mem_start pktlen : Z) (BIP_AAD : list Z)
    : res (Z * list Z * Z * security_priv) :=
  let mme_clen := if dot11wCipher s =? _BIP_CMAC_128_ then 16 else 24 in
  let mme_cont := replicate (Z.to_nat (_MME_IE_LENGTH_ - 2)) 0 in
  let pframe := mem_start + pktlen in
  mme_cont ← wr mme_cont 0 (u8 (dot11wBIPKeyid s));
  let txpn := u64 (dot11wBIPtxpn s + 1) in
  let s := set_bip_pn txpn (dot11wBIPrxpn s) s in
  mme_cont ← splice mme_cont 2 (le64 txpn);
  r ← Ies.rtw_set_ie b pframe _MME_IE_ mme_clen mme_cont (Some pktlen);
  let '(b, pframe, len) := r in
  let pktlen := match len with Some n => n | None => pktlen end in
  let frame_body_len := s32 (pktlen - HDR_3ADDR) in
  fc ← slice b mem_start 2;
  aad ← splice BIP_AAD 0 fc;
  aad ← clear_fc aad;
  x ← slice b (mem_start + 4) 18;
  aad ← splice aad 2 x;
  body ← slice b (mem_start + HDR_3ADDR) frame_body_len;
  aad ← splice aad BIP_AAD_SIZE body;
  igtk ← rd (dot11wBIPKey s) (dot11wBIPKeyid s);
  r ← rtw_calculate_bip_mic mem (dot11wCipher s) (at_ptr b mem_start) pktlen igtk aad (BIP_AAD_SIZE + frame_body_len) mic0;
  if r.1 =? _FAIL then Ret (_FAIL, b, pktlen, s) else
  let n := if dot11wCipher s =? _BIP_CMAC_128_ then 8 else 16 in
  mic ← slice r.2 0 n;
  b ← splice b (pframe - n) mic;
  Ret (_SUCCESS, b, pktlen, s).

Definition set_tx (enc : Z) (sw : bool) (iv icv pktlen last : Z) (skey : list Z) (a : tx_attrib) : tx_attrib :=
  TxAttrib (PktAttrib enc (nr_frags (txa a)) (hdrlen (txa a)) iv icv last) pktlen sw (key_type a) (tx_ra a) (tx_ta a)
    (tx_icv a) skey.

(** The frame is encrypted: IV inserted behind the header, room for the MIC added,
    protected bit set, cipher called.  [tmp_buf] is the cleared buffer.  Status,
    frame buffer, attributes, packet number. *)
Definition put_encrypted (st : crc_state) (b : list Z) (buf_addr base pkt_offset : Z) (a : tx_attrib) (cipher kid pn : Z)
    (tmp_buf : list Z) (frag_len : Z) (grpkey wepkey : list Z) (weplen : Z)
    : res (Z * list Z * tx_attrib * Z * crc_state) :=
  let mem_start := buf_addr + TXDESC_OFFSET in
  l ← slice b mem_start (pktlen a);
  tmp_buf ← splice tmp_buf 0 l;
  let h := hdrlen (txa a) in
  let enc := if negb (key_type a =? IEEE80211W_NO_KEY) then cipher else encrypt (txa a) in
  let sw := if negb (key_type a =? IEEE80211W_NO_KEY) then true else bswenc a in
  if negb ((enc =? _AES_) || (enc =? _CCMP_256_) || (enc =? _GCMP_) || (enc =? _GCMP_256_))
  then Ret (_FAIL, b, set_tx enc sw (iv_len (txa a)) (icv_len (txa a)) (pktlen a) (last_txcmdsz (txa a)) (tx_skey a) a, pn, st) else
  let icv := if enc =? _AES_ then 8 else 16 in
  let pn := next_pn pn in
  b ← splice b (mem_start + h) (aes_iv pn kid);
  let pframe := mem_start + h + 8 in
  l ← slice tmp_buf h (pktlen a - h);
  b ← splice b pframe l;
  let pframe := pframe + (pktlen a - h) in
  b ← (if (0 <? icv) && sw then x ← slice (tx_icv a) 0 icv; splice b pframe x else Ret b);
  let len := u32 (pktlen a + 8 + icv) in
  let a := set_tx enc sw 8 icv len len (tx_skey a) a in
  fc ← get_le16 b mem_start;
  b ← splice b mem_start (le16 (Z.lor fc 0x4000));
  r ← xmitframe_swencrypt st b (Some buf_addr) base pkt_offset a frag_len grpkey wepkey weplen;
  Ret (_SUCCESS, r.1, a, pn, r.2).

(** [rtw_mgmt_xmitframe_coalesce].  [sta] is the station of the receiver address,
    [bcmc] the broadcast one; the returned number is the packet number of the
    station that was used. *)
Definition rtw_mgmt_xmitframe_coalesce (st : crc_state) (s : security_priv) (sta bcmc : option sta_info) (b : list Z)
    (buf_addr : option Z) (base pkt_offset : Z) (a : tx_attrib) (frag_len : Z) (grpkey wepkey : list Z) (weplen : Z)
    : res (Z * list Z * tx_attrib * security_priv * option Z * crc_state) :=
  match buf_addr with
  | None => Ret (_FAIL, b, a, s, None, st)
  | Some addr =>
      let mem_start := addr + TXDESC_OFFSET in
      subtype ← get_frame_sub_type b mem_start;
      if negb (subtype =? WIFI_DEAUTH) && negb (subtype =? WIFI_DISASSOC) && negb (subtype =? WIFI_ACTION)
      then Ret (_SUCCESS, b, a, s, None, st) else
      category ← (if subtype =? WIFI_ACTION then rd b (mem_start + HDR_3ADDR) else Ret 0xff);
      if (subtype =? WIFI_ACTION) && CATEGORY_IS_NON_ROBUST category then Ret (_SUCCESS, b, a, s, None, st) else
      let bmcst := IS_MCAST (tx_ra a) in
      let buf := rtw_zmalloc (u32 (BIP_AAD_SIZE + pktlen a + _MME_IE_LENGTH_)) in
      if negb bmcst then
        match sta with
        | None => Ret (_FAIL, b, a, s, None, st)
        | Some psta =>
            if negb (sta_mfp psta) then Ret (_SUCCESS, b, a, s, None, st) else
            if negb (bpairwise_key_installed psta) then Ret (_FAIL, b, a, s, None, st) else
            match buf with
            | None => Ret (_FAIL, b, a, s, None, st)
            | Some tmp_buf =>
                let cipher := dot118021XPrivacy psta in
                k ← slice (dot118021x_UncstKey psta) 0 (if Z.land cipher 0x10 =? 0 then 16 else 32);
                skey ← splice (tx_skey a) 0 k;
                skey ← (if key_type a =? IEEE80211W_WRONG_KEY then wr skey 0 0xff else Ret skey);
                let a := set_tx (encrypt (txa a)) (bswenc a) (iv_len (txa a)) (icv_len (txa a)) (pktlen a)
                           (last_txcmdsz (txa a)) skey a in
                r ← put_encrypted st b addr base pkt_offset a cipher 0 (dot11txpn psta) tmp_buf frag_len grpkey wepkey weplen;
                let '(v, b, a, pn, st) := r in Ret (v, b, a, s, Some pn, st)
            end
        end
      else
        match buf with
        | None => Ret (_FAIL, b, a, s, None, st)
        | Some buf =>
            if (subtype =? WIFI_ACTION) && CATEGORY_IS_GROUP_PRIVACY category then
              match bcmc with
              | None => Ret (_FAIL, b, a, s, None, st)
              | Some psta =>
                  if negb (sec_installGrpkey s) then Ret (_FAIL, b, a, s, None, st) else
                  r ← put_encrypted st b addr base pkt_offset a (dot118021XGrpPrivacy s) (dot118021XGrpKeyid s) (dot11txpn psta)
                        buf frag_len grpkey wepkey weplen;
                  let '(v, b, a, pn, st) := r in Ret (v, b, a, s, Some pn, st)
              end
            else if negb (binstallBIPkey s) then Ret (_SUCCESS, b, a, s, None, st)
            else
              r ← put_bip s b mem_start (pktlen a) buf;
              let '(v, b, len, s) := r in
              Ret (v, b, set_tx (encrypt (txa a)) (bswenc a) (iv_len (txa a)) (icv_len (txa a)) len len (tx_skey a) a,
                   s, None, st)
        end
  end.
End Code.
(** ** Sending with BIP *)

(** The six bytes of a packet number, least significant first. *)
Definition pn6 (v : Z) : list Z := map (fun i => pn_byte v (Z.of_nat i)) (seq 0 6).

Lemma pn_byte_u8 v i : is_u8 (pn_byte v i).
Proof. apply land_fits_r; [lia|unfold fits; lia]. Qed.

Lemma pn6_ok v : bytes_ok (pn6 v) /\ length (pn6 v) = 6%nat.
Proof. split; [|done]. repeat (apply Forall_cons; split; [apply pn_byte_u8|]). constructor. Qed.

Lemma pn_byte_div v i : 0 <= i -> pn_byte v i = v / 256 ^ i mod 256.
Proof.
  intros Hi. unfold pn_byte. change 0xff with (Z.ones 8). rewrite Z.land_ones, Z.shiftr_div_pow2 by lia.
  by replace (2 ^ (8 * i)) with (256 ^ i) by (change 256 with (2 ^ 8); rewrite <- Z.pow_mul_r; lia).
Qed.

Lemma pn6_val v : 0 <= v < 2 ^ 48 -> be_val (rev (pn6 v)) = v.
Proof.
  intros Hv. rewrite <- (be_val_bytes 6 v) at 2 by done. f_equal. unfold pn6.
  cbn [seq map rev app be_bytes]. by rewrite !pn_byte_div by lia.
Qed.

Lemma le64_small v : 0 <= v < 2 ^ 48 -> le64 v = pn6 v ++ [0; 0].
Proof.
  intros Hv. unfold le64, pn6. cbn [seq map app]. do 6 f_equal.
  assert (forall i, 6 <= i -> pn_byte v i = 0) as Hp.
  { intros i Hi. assert (256 ^ 6 <= 256 ^ i) by (apply Z.pow_le_mono_r; lia).
    rewrite pn_byte_div, Z.div_small; [done| |lia]. lia. }
  by rewrite !Hp by lia.
Qed.
Lemma at_off_shift (pre F l : list Z) i : at_off F i l -> at_off (pre ++ F) (zlen pre + i) l.
Proof.
  intros (x & y & -> & ->). exists (pre ++ x), y. split; [by rewrite <- app_assoc|by rewrite zlen_app].
Qed.

(** The MIC is computed over the masked header, the body and the cleared MME. *)
Lemma put_aad_ok h B k : hdr3_ok h ->
  (aad ← splice (replicate (20 + length B + k)%nat 0) 0 (le16 (h_fc h));
   aad ← clear_fc aad;
   aad ← splice aad 2 (h_addrs h);
   splice aad 20 B) = Ret (bip_aad h ++ B ++ replicate k 0).
Proof.
  intros [Hh _]. pose proof Hh as (Hf & _ & _ & La & _). rewrite !replicate_add, <- app_assoc.
  change (replicate 20 0) with ([0; 0] ++ replicate 18 0). rewrite <- app_assoc.
  rewrite splice_0 by done. simp_res. rewrite clear_fc_ok by done. simp_res.
  rewrite splice_mid by (by rewrite ?length_replicate, ?La). simp_res. rewrite (app_assoc (le16 _)).
  rewrite splice_mid; [done| |by rewrite length_replicate]. rewrite zlen_app, zlen_le16. unfold zlen. by rewrite La.
Qed.

Lemma mme_cont_ok kid v : is_u8 kid -> 0 <= v < 2 ^ 48 ->
  (m ← wr (replicate 24 0) 0 (u8 kid); splice m 2 (le64 v)) = Ret (le16 kid ++ pn6 v ++ replicate 16 0).
Proof.
  intros Hk Hv. rewrite le64_small by done. destruct (pn6_ok v) as [_ L6].
  assert (le16 kid = [u8 kid; 0]) as ->.
  { unfold fits in Hk. unfold le16. rewrite (wrap_small 16 kid), (wrap_small 8 kid) by (unfold fits; lia).
    rewrite Z.shiftr_div_pow2, Z.div_small by lia. f_equal. change 0xff with (Z.ones 8).
    rewrite Z.land_ones by lia. apply Z.mod_small. lia. }
  change (wr (replicate 24 0) 0 (u8 kid)) with (Ret ([u8 kid; 0] ++ replicate 8 0 ++ replicate 14 0)). simp_res.
  rewrite splice_mid by (done || (rewrite length_app, L6; done)). by rewrite <- app_assoc.
Qed.
Section SendBip.
Context {ctx : Type} `{!BlockCipher ctx}.
Context (mem mic0 key kr : list Z) (Hmem : length mem = 61%nat) (Hmic0 : length mic0 = 16%nat) (Hkey : bytes_ok key).
Let E : list Z -> list Z := block_cipher key.

(** The state in which a frame can be sent. *)
Definition bip_ready (s : security_priv) : Prop :=
  is_bip (dot11wCipher s) = true /\ rd (dot11wBIPKey s) (dot11wBIPKeyid s) = Ret (key ++ kr) /\
  zlen key = bip_key_len (dot11wCipher s) /\ is_u8 (dot11wBIPKeyid s) /\
  0 <= dot11wBIPtxpn s /\ dot11wBIPtxpn s + 1 < 2 ^ 48.

(** The frame that is sent. *)
Definition bip_sent (s : security_priv) (h : mac_hdr) (body : list Z) : list Z :=
  let g := dot11wCipher s in let el := 8 + bip_mic_len g in let ipn := pn6 (dot11wBIPtxpn s + 1) in
  bip_frame h body el (dot11wBIPKeyid s) ipn (bip_mic E g h body el (dot11wBIPKeyid s) ipn).

Lemma put_bip_ok s pre h body room post : bip_ready s -> hdr3_ok h -> bytes_ok body ->
  zlen room = 10 + bip_mic_len (dot11wCipher s) -> zlen body < 2 ^ 30 -> let L := 24 + zlen body in
  put_bip (Some mem) mic0 s (pre ++ (hdr_bytes h ++ body ++ room) ++ post) (zlen pre) L
    (replicate (Z.to_nat (BIP_AAD_SIZE + L + _MME_IE_LENGTH_)) 0) =
  Ret (_SUCCESS, pre ++ bip_sent s h body ++ post, zlen (bip_sent s h body),
       set_bip_pn (dot11wBIPtxpn s + 1) (dot11wBIPrxpn s) s).
Proof.
  intros (Hg & Hrd & Hkl & Hkid & Hp0 & Hp1) Hh Bb Lr Hsz L. pose proof Hh as [Hh0 _].
  set (g := dot11wCipher s) in *. set (kid := dot11wBIPKeyid s) in *. set (v := dot11wBIPtxpn s + 1) in *.
  assert (bip_mic_len g = 8 \/ bip_mic_len g = 16) as Hml by (unfold bip_mic_len; destruct (_ =? _); auto).
  pose proof (hdr3_len h Hh) as H24. destruct (pn6_ok v) as [B6 L6]. pose proof (zlen_nonneg body) as Hb0.
  set (n := Z.to_nat (bip_mic_len g)). set (el := 8 + bip_mic_len g).
  unfold put_bip. fold g kid. change (Z.to_nat (_MME_IE_LENGTH_ - 2)) with 24%nat.
  replace (u64 (dot11wBIPtxpn s + 1)) with v by (symmetry; apply wrap_small; unfold fits; lia).
  pose proof (mme_cont_ok kid v Hkid ltac:(lia)) as Ec. apply bind_inv in Ec as (m1 & Ec1 & Ec). bind_step Ec1. bind_step Ec.
  replace (if g =? _BIP_CMAC_128_ then 16 else 24) with el by (unfold el, bip_mic_len; destruct (g =? _); done).
  set (cont := le16 kid ++ pn6 v ++ replicate n 0).
  assert (zlen cont = el) as Hcont by (unfold cont, zlen; rewrite !length_app, L6, length_replicate; unfold el, n; cbn [length le16]; lia).
  replace (le16 kid ++ pn6 v ++ replicate 16 0) with (cont ++ replicate (16 - n) 0)
    by (unfold cont; rewrite <- !app_assoc, <- replicate_add; do 3 f_equal; unfold n; lia).
  pose proof (Ies.rtw_set_ie_writes (pre ++ hdr_bytes h ++ body) room post _MME_IE_ cont (replicate (16 - n) 0) (Some L)) as Es.
  rewrite Hcont in Es. change (zlen (pre ++ _)) with (zlen (pre ++ hdr_bytes h ++ body)) in Es.
  assert (zlen (pre ++ hdr_bytes h ++ body) = zlen pre + L) as HpL by (rewrite !zlen_app, H24; unfold L; lia).
  rewrite HpL in Es. set (Fz := bip_frame h body el kid (pn6 v) (replicate n 0)).
  replace ((pre ++ hdr_bytes h ++ body) ++ room ++ post) with (pre ++ (hdr_bytes h ++ body ++ room) ++ post) in Es
    by (by rewrite <- !app_assoc).
  replace ((pre ++ hdr_bytes h ++ body) ++ ([u8 _MME_IE_; u8 el] ++ cont) ++ post) with (pre ++ Fz ++ post) in Es.
  2:{ rewrite (wrap_small 8 el) by (unfold fits, el; lia). change (u8 _MME_IE_) with _MME_IE_.
      unfold Fz, bip_frame, mme_head, cont. by rewrite <- !app_assoc. }
  rewrite Es by (unfold zlen in *; lia). clear Es. simp_res. cbn [option_fmap option_map].
  destruct (bip_frame_at h body el kid (pn6 v) (replicate n 0) post Hh L6) as (A1 & A2 & A3 & A4 & A5 & A6).
  fold Fz in A1, A2, A3, A4, A5, A6. rewrite zlen_replicate in A6.
  assert (zlen Fz = L + (el + 2)) as HFz by (unfold L, el; lia).
  rewrite (wrap_small 32) by (unfold fits, L, el; lia). rewrite <- HFz.
  replace (s32 (zlen Fz - HDR_3ADDR)) with (zlen Fz - 24)
    by (unfold s32, HDR_3ADDR; rewrite HFz; unfold L, el; Z.to_euclidean_division_equations; lia).
  set (B := body ++ mme_head el kid (pn6 v) ++ replicate n 0).
  assert (Fz ++ post = hdr_bytes h ++ (B ++ post)) as HFB by (unfold Fz, bip_frame, B; by rewrite <- !app_assoc).
  assert (zlen B = zlen Fz - 24) as HB.
  { assert (zlen Fz = zlen (hdr_bytes h ++ B)) as -> by (unfold Fz, bip_frame, B; done). rewrite zlen_app. lia. }
  destruct (hdr_at h Hh0 (B ++ post)) as (D1 & D2 & _). rewrite <- HFB in D1, D2.
  apply (at_off_shift pre) in D1, D2. rewrite Z.add_0_r in D1.
  assert (at_off (Fz ++ post) 24 B) as D3 by (rewrite HFB; apply at_off_intro; done). apply (at_off_shift pre) in D3.
  rewrite (at_off_slice _ _ _ _ D1) by done. simp_res.
  pose proof (put_aad_ok h B (40 - n) Hh) as EB.
  replace (20 + length B + (40 - n))%nat with (Z.to_nat (BIP_AAD_SIZE + L + _MME_IE_LENGTH_)) in EB
    by (unfold BIP_AAD_SIZE, _MME_IE_LENGTH_, zlen, n, L, el in *; lia).
  do 2 (apply bind_inv in EB as (? & Ex & EB); bind_step Ex; clear Ex).
  rewrite (at_off_slice _ _ _ _ D2) by (destruct Hh0 as (_ & _ & _ & La & _); unfold zlen; by rewrite La). simp_res.
  apply bind_inv in EB as (? & Ex & EB); bind_step Ex; clear Ex.
  rewrite (at_off_slice _ _ _ _ D3) by lia. simp_res. bind_step EB. clear EB.
  cbn [dot11wBIPKey dot11wBIPKeyid set_bip_pn dot11wCipher]. fold kid. bind_step Hrd. fold g.
  rewrite at_ptr_app by done. replace (BIP_AAD_SIZE + (zlen Fz - 24)) with (zlen Fz - 24 + 20) by (unfold BIP_AAD_SIZE; lia).
  destruct (bip_calc_frame mem key kr Hmem Hkey g h body el kid (pn6 v) (replicate n 0) post (replicate (40 - n) 0) mic0 Hg Hkl Hh Bb
    ltac:(unfold fits, el; lia) B6 L6 ltac:(rewrite zlen_replicate; unfold n; lia) Hmic0) as (mac & Em & Es & Hmz);
    [fold Fz; unfold L, el in HFz; lia|]. fold n Fz in Em. fold B in Em. bind_step Em. cbn [Z.eqb _SUCCESS _FAIL]. fold E in Es, Hmz.
  change (if g =? _BIP_CMAC_128_ then 8 else 16) with (bip_mic_len g). bind_step Es.
  replace (pre ++ Fz ++ post) with ((pre ++ hdr_bytes h ++ body ++ mme_head el kid (pn6 v)) ++ replicate n 0 ++ post)
    by (unfold Fz, bip_frame; by rewrite <- !app_assoc).
  rewrite splice_mid; [simp_res| |rewrite length_replicate; unfold zlen, n in *; lia].
  - assert (zlen (bip_sent s h body) = zlen Fz) as -> by (unfold bip_sent; fold g v kid el; unfold Fz, bip_frame;
      rewrite !zlen_app, Hmz, zlen_replicate; unfold n; lia).
    unfold bip_sent. fold g v kid el. unfold bip_frame. by rewrite <- !app_assoc.
  - rewrite !zlen_app, H24. unfold mme_head. rewrite !zlen_app, zlen_le16. change (zlen [_MME_IE_; el]) with 2.
    replace (zlen (pn6 v)) with 6 by (unfold zlen; lia). unfold L, el. lia.
Qed.
(** Every station that has not yet seen the number accepts it. *)
Lemma bip_sent_verified rtw_zmalloc s h m post rxpn : zmallocs rtw_zmalloc -> bip_ready s -> hdr3_ok h -> bytes_ok m ->
  zlen m < 2 ^ 30 -> rxpn < dot11wBIPtxpn s + 1 -> let F := bip_sent s h m in
  rtw_bip_verify (Some mem) rtw_zmalloc (dot11wCipher s) (zlen F) (F ++ post) (zlen F) (key ++ kr) (dot11wBIPKeyid s) rxpn mic0 =
  Ret (_SUCCESS, dot11wBIPtxpn s + 1).
Proof.
  intros Hzm (Hg & Hrd & Hkl & Hkid & Hp0 & Hp1) Hh Bm Hsz Hpn F. set (v := dot11wBIPtxpn s + 1) in *. destruct (pn6_ok v) as [B6 L6].
  set (g := dot11wCipher s) in *. set (kid := dot11wBIPKeyid s) in *. set (el := 8 + bip_mic_len g).
  assert (bip_mic_len g = 8 \/ bip_mic_len g = 16) as Hml by (unfold bip_mic_len; destruct (_ =? _); auto).
  set (z := replicate (Z.to_nat (bip_mic_len g)) 0). assert (zlen z = bip_mic_len g) as Hz by (unfold z; rewrite zlen_replicate; lia).
  destruct (bip_frame_at h m el kid (pn6 v) z [] Hh L6) as (_ & _ & _ & _ & _ & Hfz).
  destruct (bip_calc_frame mem key kr Hmem Hkey g h m el kid (pn6 v) z [] [] mic0 Hg Hkl Hh Bm ltac:(unfold fits, el; lia) B6 L6 Hz Hmic0 ltac:(lia))
    as (_ & _ & _ & Hmz). set (mic := bip_mic _ _ _ _ _ _ _) in Hmz.
  destruct (bip_frame_at h m el kid (pn6 v) mic [] Hh L6) as (_ & _ & _ & _ & _ & HFl).
  pose proof (bip_verify_core mem key kr Hmem Hkey rtw_zmalloc Hzm g h m el kid (pn6 v) mic post kid rxpn mic0 Hg Hkl Hh Bm
    ltac:(unfold fits, el; lia) ltac:(unfold fits in *; lia) B6 L6 Hmz Hmic0 ltac:(lia)) as Ev.
  unfold F, bip_sent. fold v g kid el. etrans; [exact Ev|]. unfold bip_verdict. rewrite pn6_val by lia.
  by rewrite bool_decide_eq_true_2 by (split; [done|]; split; [lia|done]).
Qed.
End SendBip.
(** ** Receiving a CCMP protected frame *)

Definition ccmp_enc (key : list Z) : Z := if zlen key =? 32 then _CCMP_256_ else _AES_.

Lemma ccmp_enc_cases key : ccmp_key key ->
  (zlen key = 16 /\ ccmp_enc key = _AES_ /\ Z.of_nat (ccmp_M key) = 8) \/
  (zlen key = 32 /\ ccmp_enc key = _CCMP_256_ /\ Z.of_nat (ccmp_M key) = 16).
Proof. intros [_ [H|H]]; unfold ccmp_enc, ccmp_M; rewrite H; auto. Qed.

Lemma ccmp_ice key : ccmp_key key -> ice_iv_len (ccmp_enc key) = (8, Z.of_nat (ccmp_M key)).
Proof. intros Hk. destruct (ccmp_enc_cases key Hk) as [(_ & -> & ->)|(_ & -> & ->)]; done. Qed.

Section Receive.
Context {ctx : Type} `{!BlockCipher ctx}.
Context (os_malloc rtw_zmalloc : Z -> option (list Z)) (mem a0 mic0 : list Z) (mode : Z).
Context (Hmalloc : mallocs os_malloc) (Hzm : zmallocs rtw_zmalloc) (Hmem : length mem = 61%nat) (Ha0 : is_block a0).
Context (key kr : list Z) (Hkey : ccmp_key key).
Let E : list Z -> list Z := block_cipher key.
Let M : nat := ccmp_M key.

(** The attributes of a received frame before decryption. *)
Definition rx_before (a : rx_attrib) (hl : Z) : Prop :=
  rxa_encrypt a = ccmp_enc key /\ rxa_bdecrypted a = false /\ rxa_hdrlen a = hl /\ IS_MCAST (rxa_ra a) = false.

Lemma decryptor_ccmp st s a pre h iv c t post : rx_before a (zlen (hdr_bytes h)) -> hdr_ok h -> bytes_ok iv -> length iv = 8%nat ->
  bytes_ok c -> bytes_ok t -> length t = M -> zlen (hdr_bytes h) + zlen c < 2 ^ 31 ->
  rxa_len a = zlen (hdr_bytes h ++ iv ++ c ++ t) ->
  let k := Z.land (Z.shiftr (nth 3 iv 0) 6) 0x3 in
  let s' := if Z.land (h_fc h) 0x0c =? WIFI_DATA_TYPE then set_hw_decrypted false s else s in
  decryptor os_malloc (Some mem) a0 mode st s (Some (key ++ kr)) a (pre ++ (hdr_bytes h ++ iv ++ c ++ t) ++ post) (zlen pre) =
  Ret (match ccm_open E M (ccmp_nonce h iv) (aad_of true mode h) c t with
       | Some m => (Some (pre ++ (hdr_bytes h ++ iv ++ m ++ t) ++ post), set_bdecrypted true (set_key_index k a), s', st)
       | None => (None, set_key_index k a, s', st)
       end).
Proof.
  intros (He & Hb & HL & Hra) Hh Biv Liv Bc Bt Lt Hsz Hlen k s'. pose proof Hh as Hh0.
  set (H := hdr_bytes h) in *. set (b := pre ++ (H ++ iv ++ c ++ t) ++ post).
  assert (0 < ccmp_enc key) as He0 by (unfold ccmp_enc; destruct (zlen key =? 32); by_eval).
  assert (at_off b (zlen pre) (H ++ iv ++ c ++ t)) as Hat by (by apply at_off_intro).
  unfold decryptor. rewrite He, (proj2 (Z.ltb_lt 0 _)) by done. rewrite HL.
  assert (rd b (zlen pre + zlen H + 3) = Ret (nth 3 iv 0)) as ->.
  { apply at_off_app in Hat as [_ Hat]. do 4 (destruct iv as [|? iv]; [done|]).
    do 3 apply at_off_cons in Hat as [_ Hat]. apply at_off_cons in Hat as [Hr _].
    cbn [nth]. rewrite <- Hr. f_equal. lia. }
  simp_res. fold k. assert ((WEP_KEYS <? k) = false) as ->.
  { apply Z.ltb_ge. pose proof (land_fits_r 2 (Z.shiftr (nth 3 iv 0) 6) 3 ltac:(lia) ltac:(unfold fits; lia)) as Hk.
    fold k in Hk. unfold fits, WEP_KEYS in *. lia. }
  cbn [rxa_encrypt rxa_bdecrypted set_key_index rxa_len rxa_hdrlen rxa_ra rxa_key_index rxa_ta rxa_iv_len].
  rewrite He, Hb, HL, (proj2 (Z.eqb_neq (ccmp_enc key) 0)) by lia. cbn [negb andb].
  assert (GetFrameType b (zlen pre) = Ret (Z.land (h_fc h) 0x0c)) as ->.
  { unfold GetFrameType. destruct (hdr_at h Hh0 ((iv ++ c ++ t) ++ post)) as (D & _). apply (at_off_shift pre) in D.
    rewrite Z.add_0_r in D. fold H in D. replace (pre ++ H ++ (iv ++ c ++ t) ++ post) with b in D by (unfold b; by rewrite <- !app_assoc).
    rewrite <- (app_nil_r (le16 _)) in D. destruct (at_off_le16 _ _ _ _ (proj1 Hh0) D) as [-> _]. done. }
  simp_res. fold s'.
  assert (rtw_aes_decrypt os_malloc (Some mem) a0 mode b (zlen pre) (rxa_len a)
      (RxKeys (ccmp_enc key) (zlen H) (rxa_ra a) k (sec_installGrpkey s') (dot118021XGrpKeyid s') (dot118021XGrpKey s') (Some (key ++ kr))) =
    Ret (opened pre H iv c t post (ccm_open E M (ccmp_nonce h iv) (aad_of true mode h) c t))) as Ed.
  { unfold rtw_aes_decrypt, sw_decrypt, rx_key. cbn [rxk_encrypt rxk_sta rxk_ra rxk_hdrlen]. rewrite Hra. simp_res.
    pose proof (rtw_ccmp_decrypt_ok os_malloc mem a0 mode Hmalloc Hmem Ha0 key kr Hkey pre h iv c t post Hh0 Biv Liv Bc Bt Lt) as Hd.
    fold H b E in Hd. rewrite Hlen, !zlen_app. replace (zlen H + (zlen iv + (zlen c + zlen t))) with (zlen H + 8 + zlen c + Z.of_nat (ccmp_M key)).
    2:{ unfold zlen. rewrite Liv, Lt. unfold M. lia. }
    destruct (ccmp_enc_cases key Hkey) as [(Hz & -> & _)|(Hz & -> & _)]; rewrite Hz in Hd; apply Hd; lia. }
  destruct (ccmp_enc_cases key Hkey) as [(Hz & Hce & _)|(Hz & Hce & _)]; rewrite Hce in Ed |- *;
    cbn [Z.eqb Pos.eqb orb _AES_ _CCMP_256_ _WEP40_ _WEP104_ _TKIP_]; bind_step Ed;
    destruct (ccm_open E M (ccmp_nonce h iv) (aad_of true mode h) c t); done.
Qed.
(** The body moved over the IV through the intermediate buffer. *)
Lemma move_body_ok pre H iv m t post n : length iv = 8%nat -> n = zlen m ->
  exists rest, length rest = 8%nat /\
  (body ← slice (pre ++ (H ++ iv ++ m ++ t) ++ post) (zlen pre + zlen H + 8) n;
   d ← splice (replicate (Z.to_nat n) 0) 0 body;
   body ← slice d 0 n;
   splice (pre ++ (H ++ iv ++ m ++ t) ++ post) (zlen pre + zlen H) body) =
  Ret (pre ++ (H ++ m ++ rest ++ t) ++ post).
Proof.
  intros Liv ->. rewrite zlen_to_nat.
  set (x := iv ++ m). exists (drop (length m) x). split; [unfold x; rewrite length_drop, length_app; lia|].
  set (b := pre ++ (H ++ iv ++ m ++ t) ++ post).
  assert (b = (pre ++ H ++ iv) ++ m ++ (t ++ post)) as Hb1 by (unfold b; by rewrite <- !app_assoc).
  assert (slice b (zlen pre + zlen H + 8) (zlen m) = Ret m) as ->
    by (rewrite Hb1; apply slice_mid; [rewrite !zlen_app; unfold zlen; lia|done]). simp_res.
  rewrite <- (app_nil_r (replicate _ 0)), splice_0 by (by rewrite length_replicate). simp_res.
  rewrite slice_0 by done. simp_res.
  assert (b = (pre ++ H) ++ take (length m) x ++ (drop (length m) x ++ t ++ post)) as ->.
  { rewrite (app_assoc (take _ _)), take_drop. unfold b, x. by rewrite <- !app_assoc. }
  rewrite splice_mid; [by rewrite <- !app_assoc|by rewrite zlen_app|].
  unfold x. rewrite length_take, length_app. lia.
Qed.

Lemma protected_ccmp st s psta a pre h iv c t post : sta_mfp psta = true -> dot118021XPrivacy psta = ccmp_enc key ->
  dot118021x_UncstKey psta = key ++ kr -> hdr3_ok h -> bytes_ok iv -> length iv = 8%nat ->
  bytes_ok c -> bytes_ok t -> length t = M -> Z.land (h_fc h) 0x0c ≠ WIFI_DATA_TYPE ->
  IS_MCAST (take 6 (h_addrs h)) = false -> let F := hdr_bytes h ++ iv ++ c ++ t in
  rxa_len a = zlen F -> rxa_pkt_len a = zlen F -> zlen F < 2 ^ 16 ->
  match ccm_open E M (ccmp_nonce h iv) (aad_of true mode h) c t with
  | Some m => exists rest a', length rest = 8%nat /\ rxa_pkt_len a' = zlen (hdr_bytes h ++ m) /\
      protected_ os_malloc rtw_zmalloc (Some mem) a0 mode st s (Some psta) a (pre ++ F ++ post) (zlen pre) =
      Ret (_SUCCESS, Some (pre ++ (hdr_bytes h ++ m ++ rest ++ t) ++ post), a', s, st)
  | None => protected_ os_malloc rtw_zmalloc (Some mem) a0 mode st s (Some psta) a (pre ++ F ++ post) (zlen pre) = Oob
  end.
Proof.
  intros Hmfp Hpriv Hsk Hh Biv Liv Bc Bt Lt Hty Hra F Hlen Hpl H16. pose proof Hh as [Hh0 _].
  pose proof (hdr3_len h Hh) as H24. pose proof (zlen_nonneg c) as Hc0.
  assert (zlen F = 24 + 8 + zlen c + Z.of_nat M) as HF by (unfold F; rewrite !zlen_app, H24; unfold zlen; rewrite Liv, Lt; lia).
  destruct (hdr_at h Hh0 ((iv ++ c ++ t) ++ post)) as (_ & D2 & _). apply (at_off_shift pre) in D2.
  replace (pre ++ hdr_bytes h ++ (iv ++ c ++ t) ++ post) with (pre ++ F ++ post) in D2 by (unfold F; by rewrite <- !app_assoc).
  pose proof Hh0 as (_ & _ & _ & La & _). pose proof D2 as D3.
  rewrite <- (take_drop 6 (h_addrs h)) in D2. apply at_off_app in D2 as [D2 _].
  destruct (slice_total (pre ++ F ++ post) (zlen pre + 10) 6) as (ta & Hta & _);
    [pose proof (zlen_nonneg pre); lia|lia|rewrite !zlen_app; pose proof (zlen_nonneg post); lia|].
  unfold protected_. rewrite Hmfp, Hpriv, (ccmp_ice key Hkey), Hsk. cbn [negb]. fold M.
  rewrite (at_off_slice _ _ _ _ D2) by (unfold zlen; rewrite length_take, La; done). simp_res. bind_step Hta.
  cbn [rxa_pkt_len]. rewrite Hpl.
  replace (u32 (zlen F - HDR_3ADDR - 8 - Z.of_nat M)) with (zlen c) by (rewrite wrap_small; unfold fits, HDR_3ADDR; lia).
  rewrite Hzm by lia.
  set (a1 := RxAttrib _ _ _ _ _ _ _ _ _ _ _).
  pose proof (decryptor_ccmp st s a1 pre h iv c t post) as Ed. cbn zeta in Ed.
  rewrite H24 in Ed.
  specialize (Ed ltac:(done) Hh0 Biv Liv Bc Bt Lt ltac:(lia) Hlen). rewrite (proj2 (Z.eqb_neq _ WIFI_DATA_TYPE) Hty) in Ed. fold F in Ed.
  destruct (ccm_open E M (ccmp_nonce h iv) (aad_of true mode h) c t) as [m|] eqn:Eo.
  - assert (zlen c = zlen m) as Hm.
    { unfold ccm_open in Eo. case_decide; [|done]. injection Eo as <-. destruct (ccmp_nonce_ok h iv Hh0 Biv Liv) as [Bn Ln].
      destruct (seal_ok key mem Hmem (ccmp_key_is_key _ Hkey) _ Ln Bn M (ccmp_M_range key) [] c) as [[Lc _] _];
        [cbn; lia|constructor|done|]. unfold zlen. f_equal. symmetry. exact Lc. }
    destruct (move_body_ok pre (hdr_bytes h) iv m t post (zlen c) Liv Hm) as (rest & Lr & Em).
    exists rest. eexists. split; [done|]. split; [|bind_step Ed; cbn [object set_bdecrypted set_key_index rxa_hdrlen a1]].
    2:{ change HDR_3ADDR with 24. rewrite H24 in Em. do 3 (apply bind_inv in Em as (? & Ex & Em); bind_step Ex; clear Ex).
        bind_step Em. reflexivity. }
    cbn [set_pkt_len rxa_pkt_len set_bdecrypted set_key_index a1]. rewrite wrap_small by (unfold fits; lia).
    rewrite zlen_app, H24. lia.
  - bind_step Ed. cbn [object]. rewrite slice_oob; [done|]. cbn [set_key_index rxa_hdrlen a1]. unfold HDR_3ADDR, zlen. cbn [length]. lia.
Qed.
End Receive.
(** ** Sending a CCMP protected frame *)

Lemma set_prot_idem h : set_prot (set_prot h) = set_prot h.
Proof. unfold set_prot. cbn [h_fc h_dur h_addrs h_seq h_tail]. f_equal. rewrite <- Z.lor_assoc. done. Qed.

Lemma set_prot_hdr3 h : hdr3_ok h -> hdr3_ok (set_prot h).
Proof. intros [Hh Ht]. split; [by apply set_prot_ok|done]. Qed.

Lemma aes_iv_ok pn kid : bytes_ok (aes_iv pn kid) /\ length (aes_iv pn kid) = 8%nat.
Proof.
  split; [|done]. repeat (apply Forall_cons; split; [apply pn_byte_u8 || (apply wrap_fits; lia) || (unfold fits; lia)|]). constructor.
Qed.

Section Send.
Context {ctx : Type} `{!BlockCipher ctx}.
Context (os_malloc rtw_zmalloc : Z -> option (list Z)) (mem a0 mic0 : list Z) (mode : Z).
Context (Hmalloc : mallocs os_malloc) (Hzm : zmallocs rtw_zmalloc) (Hmem : length mem = 61%nat) (Ha0 : is_block a0).
Context (key kr : list Z) (Hkey : ccmp_key key).
Let E : list Z -> list Z := block_cipher key.
Let M : nat := ccmp_M key.

(** One fragment whose header has the protected bit set. *)
Lemma aes_encrypt_one pre h iv m room post base po a frag_len ra grp addr : hdr_ok h -> set_prot h = h ->
  bytes_ok iv -> length iv = 8%nat -> bytes_ok m -> length room = M -> zlen m < 2 ^ 30 ->
  encrypt a = ccmp_enc key -> nr_frags a = 1 -> hdrlen a = zlen (hdr_bytes h) -> iv_len a = 8 -> icv_len a = Z.of_nat M ->
  zlen (hdr_bytes h) < 2 ^ 20 ->
  last_txcmdsz a = zlen (hdr_bytes h) + zlen m + 8 + Z.of_nat M -> IS_MCAST ra = false -> addr + hw_hdr_offset po = zlen pre ->
  rtw_aes_encrypt os_malloc (Some mem) a0 mode (pre ++ (hdr_bytes h ++ iv ++ m ++ room) ++ post) (Some addr) base po a frag_len ra grp (key ++ kr) =
  Ret (_SUCCESS, pre ++ (hdr_bytes h ++ iv ++ ccm_crypt E (ccmp_nonce h iv) m ++
    ccm_tag E M (ccmp_nonce h iv) (aad_of true mode h) m) ++ post).
Proof.
  intros Hh Hp Biv Liv Bm Lr Hsz He Hn Hhl Hiv Hicv HL Hlast Hra Haddr.
  unfold rtw_aes_encrypt, sw_encrypt. rewrite Haddr, Hra, Hn, He.
  change (Z.to_nat 1) with 1%nat. cbn [encrypt_frags]. rewrite Hlast, Hhl, Hiv, Hicv.
  pose proof (zlen_nonneg m) as Hm0.
  replace (s32 (zlen (hdr_bytes h) + zlen m + 8 + Z.of_nat M - zlen (hdr_bytes h) - 8 - Z.of_nat M)) with (zlen m)
    by (replace (_ - Z.of_nat M) with (zlen m) by lia; unfold s32; rewrite Z.mod_small; lia).
  rewrite (wrap_small 32) by (unfold fits; lia).
  pose proof (rtw_ccmp_encrypt_ok os_malloc mem a0 mode Hmalloc Hmem Ha0 key kr Hkey pre h iv m room post Hh Biv Liv Bm Lr ltac:(lia)) as Ee.
  cbn zeta in Ee. rewrite Hp in Ee. fold E M in Ee.
  destruct (ccmp_enc_cases key Hkey) as [(Hz & -> & _)|(Hz & -> & _)]; cbn [Z.eqb Pos.eqb orb _AES_ _CCMP_256_];
    rewrite Hz in Ee; rewrite Ee; done.
Qed.
(** The attributes of an unencrypted unicast management frame. *)
Definition tx_before (a : tx_attrib) (body : list Z) : Prop :=
  nr_frags (txa a) = 1 /\ hdrlen (txa a) = 24 /\ pktlen a = 24 + zlen body /\ key_type a = 0 /\
  IS_MCAST (tx_ra a) = false /\ (16 <= length (tx_icv a))%nat.

(** The frame with IV and room for the MIC, and the frame that is sent. *)
Definition ccmp_sent (h : mac_hdr) (iv m : list Z) : list Z :=
  hdr_bytes h ++ iv ++ ccm_crypt E (ccmp_nonce h iv) m ++ ccm_tag E M (ccmp_nonce h iv) (aad_of true mode h) m.

Lemma set_bits_ok h r pre : hdr_ok h ->
  (fc ← get_le16 (pre ++ hdr_bytes h ++ r) (zlen pre); splice (pre ++ hdr_bytes h ++ r) (zlen pre) (le16 (Z.lor fc 0x4000))) =
  Ret (pre ++ hdr_bytes (set_prot h) ++ r).
Proof.
  intros Hh. destruct (hdr_at h Hh r) as (D & _). apply (at_off_shift pre) in D. rewrite Z.add_0_r in D.
  rewrite <- (app_nil_r (le16 _)) in D. destruct (at_off_le16 _ _ _ _ (proj1 Hh) D) as [-> _]. simp_res.
  rewrite hdr_split, splice_mid by done. unfold hdr_bytes, set_prot. cbn [h_fc h_dur h_addrs h_seq h_tail]. by rewrite <- !app_assoc.
Qed.

Lemma insert_iv_ok (P m r1 Q iv : list Z) : length r1 = 8%nat -> length iv = 8%nat ->
  (b ← splice (P ++ (m ++ r1) ++ Q) (zlen P) iv; splice b (zlen P + 8) m) = Ret (P ++ iv ++ m ++ Q).
Proof.
  intros L1 Li. set (X := m ++ r1).
  assert (length X = length m + 8)%nat as LX by (unfold X; rewrite length_app; lia).
  rewrite <- (take_drop 8 X), <- (app_assoc (take 8 X)). rewrite splice_mid by (first [done|rewrite length_take; lia]). simp_res.
  rewrite (app_assoc P). rewrite splice_mid by (first [rewrite zlen_app; unfold zlen; lia|rewrite length_drop; lia]).
  by rewrite <- app_assoc.
Qed.

Lemma put_encrypted_ccmp st pre h m room post addr base a kid pn frag_len grp wep wl : hdr3_ok h -> bytes_ok m ->
  tx_before a m -> tx_skey a = key ++ kr -> zlen room = 8 + Z.of_nat M -> zlen m < 2 ^ 30 -> addr + TXDESC_OFFSET = zlen pre ->
  let iv := aes_iv (next_pn pn) kid in let len := 24 + zlen m + 8 + Z.of_nat M in
  put_encrypted os_malloc (Some mem) a0 mode st (pre ++ (hdr_bytes h ++ m ++ room) ++ post) addr base 1 a (ccmp_enc key) kid pn
    (replicate (Z.to_nat (BIP_AAD_SIZE + pktlen a + _MME_IE_LENGTH_)) 0) frag_len grp wep wl =
  Ret (_SUCCESS, pre ++ ccmp_sent (set_prot h) iv m ++ post, set_tx (ccmp_enc key) true 8 (Z.of_nat M) len len (key ++ kr) a,
       next_pn pn, st).
Proof.
  intros Hh Bm (Hn & Hhl & Hpl & Hkt & Hra & Hicv) Hsk Lr Hsz Haddr iv len. pose proof Hh as [Hh0 _].
  pose proof (hdr3_len h Hh) as H24. pose proof (zlen_nonneg m) as Hm0. destruct (aes_iv_ok (next_pn pn) kid) as [Biv Liv]. fold iv in Biv, Liv.
  set (H := hdr_bytes h) in *. set (b := pre ++ (H ++ m ++ room) ++ post).
  unfold put_encrypted. rewrite Hkt, Hhl, Hpl, Haddr. change (negb (0 =? IEEE80211W_NO_KEY)) with true. cbv iota beta.
  assert (slice b (zlen pre) (24 + zlen m) = Ret (H ++ m)) as ->.
  { assert (b = pre ++ (H ++ m) ++ (room ++ post)) as -> by (unfold b; by rewrite <- !app_assoc).
    apply slice_mid; [done|]. rewrite zlen_app. lia. }
  simp_res. set (n0 := Z.to_nat _).
  assert (splice (replicate n0 0) 0 (H ++ m) = Ret ((H ++ m) ++ replicate 46 0)) as ->.
  { replace n0 with (length (H ++ m) + 46)%nat
      by (rewrite length_app; unfold n0, BIP_AAD_SIZE, _MME_IE_LENGTH_, zlen in *; lia).
    rewrite replicate_add. apply splice_0. by rewrite length_replicate. }
  simp_res.
  assert (negb ((ccmp_enc key =? _AES_) || (ccmp_enc key =? _CCMP_256_) || (ccmp_enc key =? _GCMP_) || (ccmp_enc key =? _GCMP_256_)) = false /\
    (if ccmp_enc key =? _AES_ then 8 else 16) = Z.of_nat M) as [-> ->].
  { unfold M. destruct (ccmp_enc_cases key Hkey) as [(_ & -> & ->)|(_ & -> & ->)]; done. }
  fold iv. destruct (split_at room 8) as (r1 & r2 & -> & Hr1); [lia|]. rewrite zlen_app in Lr.
  pose proof (insert_iv_ok (pre ++ H) m r1 (r2 ++ post) iv ltac:(unfold zlen in Hr1; lia) Liv) as Ei.
  replace ((pre ++ H) ++ (m ++ r1) ++ r2 ++ post) with b in Ei by (unfold b; by rewrite <- !app_assoc).
  replace (zlen (pre ++ H)) with (zlen pre + 24) in Ei by (rewrite zlen_app; lia).
  apply bind_inv in Ei as (b1 & Ei1 & Ei). bind_step Ei1.
  replace (24 + zlen m - 24) with (zlen m) by lia. rewrite <- (app_assoc H m), (slice_mid H m) by done. simp_res.
  bind_step Ei. rewrite andb_true_r.
  pose proof (ccmp_M_range key) as HMr. fold M in HMr. rewrite (proj2 (Z.ltb_lt 0 (Z.of_nat M))) by lia.
  destruct (split_at (tx_icv a) (Z.of_nat M)) as (x & y & Hxy & Hx); [unfold zlen; lia|]. rewrite Hxy, slice_0 by done. simp_res.
  replace ((pre ++ H) ++ iv ++ m ++ r2 ++ post) with ((pre ++ H ++ iv ++ m) ++ r2 ++ post) by (by rewrite <- !app_assoc).
  rewrite splice_mid by (first [rewrite !zlen_app; unfold zlen in *; lia|unfold zlen in *; lia]). simp_res.
  replace ((pre ++ H ++ iv ++ m) ++ x ++ post) with (pre ++ H ++ (iv ++ m ++ x ++ post)) by (by rewrite <- !app_assoc).
  pose proof (set_bits_ok h (iv ++ m ++ x ++ post) pre Hh0) as Eb. fold H in Eb.
  apply bind_inv in Eb as (fc & Eb1 & Eb). bind_step Eb1. bind_step Eb.
  replace (u32 (24 + zlen m + 8 + Z.of_nat M)) with len by (symmetry; apply wrap_small; unfold fits, len; lia).
  rewrite Hsk. set (a' := set_tx _ _ _ _ _ _ _ _).
  pose proof (hdr3_len _ (set_prot_hdr3 h Hh)) as H24'.
  pose proof (aes_encrypt_one pre (set_prot h) iv m x post base 1 (txa a') frag_len (tx_ra a') grp addr (proj1 (set_prot_hdr3 h Hh)) (set_prot_idem h)
    Biv Liv Bm ltac:(unfold zlen in Hx; lia) Hsz eq_refl Hn) as Ee. rewrite H24' in Ee.
  specialize (Ee Hhl eq_refl eq_refl ltac:(lia) eq_refl Hra Haddr).
  replace (pre ++ (hdr_bytes (set_prot h) ++ iv ++ m ++ x) ++ post) with (pre ++ hdr_bytes (set_prot h) ++ iv ++ m ++ x ++ post) in Ee
    by (by rewrite <- !app_assoc).
  unfold xmitframe_swencrypt. cbn [bswenc a' set_tx]. change (encrypt (txa a')) with (ccmp_enc key). change (tx_skey a') with (key ++ kr).
  destruct (ccmp_enc_cases key Hkey) as [(_ & Hce & _)|(_ & Hce & _)]; rewrite Hce; cbn [Z.eqb Pos.eqb orb _AES_ _CCMP_256_ _WEP40_ _WEP104_ _TKIP_];
    bind_step Ee; done.
Qed.
End Send.
(** ** Which frames are protected *)

Definition subtype_of (h : mac_hdr) : Z := Z.land (h_fc h) 0xfc.

(** Deauthentication, disassociation and robust action frames. *)
Definition robust_mgmt (h : mac_hdr) (m : list Z) : bool :=
  (subtype_of h =? WIFI_DEAUTH) || (subtype_of h =? WIFI_DISASSOC) ||
  ((subtype_of h =? WIFI_ACTION) && match m with c :: _ => CATEGORY_IS_ROBUST c | [] => false end).

(** Group addressed action frames that are encrypted rather than signed. *)
Definition group_privacy (h : mac_hdr) (m : list Z) : bool :=
  (subtype_of h =? WIFI_ACTION) && match m with c :: _ => CATEGORY_IS_GROUP_PRIVACY c | [] => false end.

(** The three tests of the code on a frame in a buffer. *)
Lemma frame_tests pre h m rest : hdr3_ok h -> let b := pre ++ hdr_bytes h ++ m ++ rest in
  get_frame_sub_type b (zlen pre) = Ret (subtype_of h) /\
  slice b (zlen pre + 4) 6 = Ret (take 6 (h_addrs h)) /\
  (forall c m', m = c :: m' -> rd b (zlen pre + HDR_3ADDR) = Ret c).
Proof.
  intros Hh b. pose proof Hh as [Hh0 _]. pose proof (hdr3_len h Hh) as H24. pose proof Hh0 as (Hf & _ & _ & La & _).
  destruct (hdr_at h Hh0 (m ++ rest)) as (D1 & D2 & _). apply (at_off_shift pre) in D1, D2. rewrite Z.add_0_r in D1. fold b in D1, D2.
  split; [|split].
  - unfold get_frame_sub_type. rewrite <- (app_nil_r (le16 _)) in D1. destruct (at_off_le16 _ _ _ _ Hf D1) as [-> _]. done.
  - rewrite <- (take_drop 6 (h_addrs h)) in D2. apply at_off_app in D2 as [D2 _]. apply (at_off_slice _ _ _ _ D2).
    unfold zlen. by rewrite length_take, La.
  - intros c m' ->. unfold b. rewrite app_assoc. apply rd_mid. rewrite zlen_app. unfold HDR_3ADDR. lia.
Qed.

Lemma subtype_set_prot h : subtype_of (set_prot h) = subtype_of h.
Proof. unfold subtype_of, set_prot. cbn [h_fc]. rewrite lor_as_masked. by apply land_masked. Qed.

Lemma robust_not_data h m : robust_mgmt h m = true -> Z.land (h_fc h) 0x0c ≠ WIFI_DATA_TYPE.
Proof.
  intros Hr. assert (Z.land (h_fc h) 0x0c = Z.land (subtype_of h) 0x0c) as -> by (unfold subtype_of; by rewrite <- Z.land_assoc).
  unfold robust_mgmt in Hr. destruct (subtype_of h =? WIFI_DEAUTH) eqn:E1; [apply Z.eqb_eq in E1; by rewrite E1|].
  destruct (subtype_of h =? WIFI_DISASSOC) eqn:E2; [apply Z.eqb_eq in E2; by rewrite E2|].
  destruct (subtype_of h =? WIFI_ACTION) eqn:E3; [apply Z.eqb_eq in E3; by rewrite E3|done].
Qed.

(** What the sender concludes from them. *)
Lemma tests_robust h m : robust_mgmt h m = true -> forall b p, get_frame_sub_type b p = Ret (subtype_of h) ->
  (forall c m', m = c :: m' -> rd b (p + HDR_3ADDR) = Ret c) ->
  exists cat, (if subtype_of h =? WIFI_ACTION then rd b (p + HDR_3ADDR) else Ret 0xff) = Ret cat /\
  negb (subtype_of h =? WIFI_DEAUTH) && negb (subtype_of h =? WIFI_DISASSOC) && negb (subtype_of h =? WIFI_ACTION) = false /\
  (subtype_of h =? WIFI_ACTION) && CATEGORY_IS_NON_ROBUST cat = false /\
  (subtype_of h =? WIFI_ACTION) && CATEGORY_IS_GROUP_PRIVACY cat = group_privacy h m /\
  ((subtype_of h =? WIFI_ACTION) && CATEGORY_IS_ROBUST cat) || (subtype_of h =? WIFI_DEAUTH) || (subtype_of h =? WIFI_DISASSOC) = true.
Proof.
  intros Hr b p _ Hc. unfold robust_mgmt, group_privacy, CATEGORY_IS_ROBUST in *.
  destruct (subtype_of h =? WIFI_ACTION) eqn:Ea.
  - apply Z.eqb_eq in Ea. rewrite Ea in *. cbn [Z.eqb Pos.eqb WIFI_ACTION WIFI_DEAUTH WIFI_DISASSOC orb andb negb] in *.
    destruct m as [|c m]; [done|]. exists c. rewrite (Hc c m) by done. apply negb_true_iff in Hr. rewrite Hr. done.
  - exists 0xff. rewrite orb_false_r in Hr. split_and!; try done.
    + destruct (_ =? WIFI_DEAUTH), (_ =? WIFI_DISASSOC); done.
Qed.
(** ** Theorems *)

(** The transmitter's and the receiver's view of one pairwise key. *)
Definition shares_key (key : list Z) (psta : sta_info) : Prop :=
  sta_mfp psta = true /\ bpairwise_key_installed psta = true /\ dot118021XPrivacy psta = ccmp_enc key /\
  exists kr, dot118021x_UncstKey psta = key ++ kr.

Lemma coalesce_unicast {ctx : Type} `{!BlockCipher ctx} os_malloc rtw_zmalloc mem a0 mic0 mode key
    st s psta bcmc pre h m room post addr base a frag_len grp wep wl :
  mallocs os_malloc -> zmallocs rtw_zmalloc -> length mem = 61%nat -> is_block a0 -> ccmp_key key ->
  shares_key key psta -> hdr3_ok h -> bytes_ok m -> robust_mgmt h m = true -> tx_before a m ->
  length (tx_skey a) = 32%nat -> zlen room = 8 + Z.of_nat (ccmp_M key) -> zlen m < 2 ^ 15 -> addr + TXDESC_OFFSET = zlen pre ->
  let pn := next_pn (dot11txpn psta) in
  exists a', rtw_mgmt_xmitframe_coalesce os_malloc rtw_zmalloc (Some mem) a0 mic0 mode st s (Some psta) bcmc
      (pre ++ (hdr_bytes h ++ m ++ room) ++ post) (Some addr) base 1 a frag_len grp wep wl =
    Ret (_SUCCESS, pre ++ ccmp_sent mode key (set_prot h) (aes_iv pn 0) m ++ post, a', s, Some pn, st).
Proof.
  intros Hmal Hzm Hmem Ha0 Hkey (Hmfp & Hinst & Hpriv & kr & Hkr) Hh Bm Hrob Htb Lsk Lr Hsz Haddr pn.
  assert (exists kr', splice (tx_skey a) 0 key = Ret (key ++ kr')) as [kr' Esp].
  { assert (length key <= 32)%nat as Hkl by (destruct Hkey as [_ [Hz|Hz]]; unfold zlen in Hz; lia).
    exists (drop (length key) (tx_skey a)). rewrite <- (take_drop (length key) (tx_skey a)) at 1.
    apply splice_0. rewrite length_take. lia. }
  pose proof Htb as (Hn & Hhl & Hpl & Hkt & Hmc & Hicv). pose proof (zlen_nonneg m) as Hm0. eexists.
  unfold rtw_mgmt_xmitframe_coalesce. rewrite Haddr.
  destruct (frame_tests pre h m (room ++ post) Hh) as (T1 & _ & T3). cbn zeta in T1, T3.
  replace (pre ++ (hdr_bytes h ++ m ++ room) ++ post) with (pre ++ hdr_bytes h ++ m ++ room ++ post) by (by rewrite <- !app_assoc).
  destruct (tests_robust h m Hrob _ _ T1 T3) as (cat & Ec & C1 & C2 & _). bind_step T1. rewrite C1. bind_step Ec. rewrite C2, Hmc.
  cbn [negb]. rewrite Hmfp, Hinst. cbn [negb]. rewrite wrap_small by (unfold fits, BIP_AAD_SIZE, _MME_IE_LENGTH_; lia).
  rewrite Hzm by (unfold BIP_AAD_SIZE, _MME_IE_LENGTH_; lia). rewrite Hpriv, Hkr, Hkt.
  assert (slice (key ++ kr) 0 (if Z.land (ccmp_enc key) 16 =? 0 then 16 else 32) = Ret key) as ->.
  { apply slice_0. destruct (ccmp_enc_cases key Hkey) as [(-> & -> & _)|(-> & -> & _)]; done. }
  simp_res. bind_step Esp. cbn [Z.eqb IEEE80211W_WRONG_KEY]. simp_res.
  replace (pre ++ hdr_bytes h ++ m ++ room ++ post) with (pre ++ (hdr_bytes h ++ m ++ room) ++ post) by (by rewrite <- !app_assoc).
  match goal with |- context [put_encrypted _ _ _ _ _ _ _ _ _ ?x] => set (a1 := x) end.
  pose proof (put_encrypted_ccmp os_malloc mem a0 mode Hmal Hmem Ha0 key kr' Hkey st pre h m room post addr base a1 0 (dot11txpn psta)
    frag_len grp wep wl Hh Bm Htb eq_refl Lr ltac:(lia) Haddr) as Ep. bind_step Ep. reflexivity.
Qed.

Lemma validate_ccmp_sent {ctx : Type} `{!BlockCipher ctx} os_malloc rtw_zmalloc mem a0 mic0 mode key st s psta ra pre h iv m post :
  mallocs os_malloc -> zmallocs rtw_zmalloc -> length mem = 61%nat -> is_block a0 -> ccmp_key key ->
  shares_key key psta -> hdr3_ok h -> bytes_ok iv -> length iv = 8%nat -> bytes_ok m -> robust_mgmt h m = true ->
  IS_MCAST (take 6 (h_addrs h)) = false -> zlen m < 2 ^ 15 -> let F := ccmp_sent mode key h iv m in
  binstallBIPkey s = true -> rxa_privacy ra = true -> rxa_len ra = zlen F -> rxa_pkt_len ra = zlen F ->
  exists rest ra', rxa_pkt_len ra' = zlen (hdr_bytes h ++ m) /\
    validate_mgmt_protect os_malloc rtw_zmalloc (Some mem) a0 mic0 mode st s (Some psta) ra (pre ++ F ++ post) (zlen pre) =
    Ret (_SUCCESS, Some (pre ++ (hdr_bytes h ++ m ++ rest) ++ post), ra', s, st, false).
Proof.
  intros Hmal Hzm Hmem Ha0 Hkey (Hmfp & _ & Hpriv & kr & Hkr) Hh Biv Liv Bm Hrob Hmc Hsz F Hbip Hpriva Hl1 Hl2.
  set (E := block_cipher key). set (M := ccmp_M key). pose proof Hh as [Hh0 _]. pose proof (hdr3_len h Hh) as H24.
  destruct (ccmp_nonce_ok _ iv Hh0 Biv Liv) as [Bn Ln]. pose proof (ccmp_M_range key) as HMr. fold M in HMr.
  destruct (seal_ok key mem Hmem (ccmp_key_is_key _ Hkey) _ Ln Bn M HMr (aad_of true mode h) m)
    as [[Lc Lt] [Bc Bt]]; [by apply aad_len_30|by apply aad_bytes|done|].
  assert (zlen F = 24 + 8 + zlen m + Z.of_nat M) as HF.
  { unfold F, ccmp_sent. rewrite !zlen_app, H24. fold M. unfold zlen. rewrite Lc, Lt, Liv. lia. }
  pose proof (protected_ccmp os_malloc rtw_zmalloc mem a0 mode Hmal Hzm Hmem Ha0 key kr Hkey st s psta ra pre h iv _ _
    post Hmfp Hpriv Hkr Hh Biv Liv Bc Bt Lt (robust_not_data h m Hrob) Hmc Hl1 Hl2 ltac:(change (zlen F < 2 ^ 16); lia)) as Hp.
  cbn zeta in Hp. rewrite (proj2 (ccm_open_iff E M _ _ (enc_blocks key mem Hmem (ccmp_key_is_key _ Hkey)) Ln Bn _ _ m)) in Hp by done.
  destruct Hp as (rest & ra' & _ & Hpk & Ev).
  exists (rest ++ ccm_tag E M (ccmp_nonce h iv) (aad_of true mode h) m), ra'.
  split; [done|]. unfold validate_mgmt_protect. rewrite Hbip, Hpriva. cbn [negb]. bind_step Ev. reflexivity.
Qed.

(** The number behind the last one, 48 bits wide. *)
Lemma next_pn_mod pn : 0 <= pn < 2 ^ 48 -> next_pn pn = (pn + 1) `mod` 2 ^ 48.
Proof.
  intros H. unfold next_pn. destruct (Z.eqb_spec pn 0xffffffffffff) as [->|]; [done|]. change (2 ^ 48) with 281474976710656 in *.
  rewrite wrap_small by (unfold fits; lia). by rewrite Z.mod_small by lia.
Qed.

(** C6: A robust unicast management frame to a station with a CCMP key (16 or 32
    octets) is protected end to end.  [rtw_mgmt_xmitframe_coalesce] increments the
    packet number of the station (modulo 2^48), puts it into the CCMP header, sets the
    protected bit and seals the body as CCM prescribes; [validate_mgmt_protect] of a
    peer with the same key, which has its group management key, accepts the frame and
    hands over header and body as they were, without the IV, and with the length of
    the plain frame. *)
Theorem mfp_unicast_roundtrip {ctx : Type} `{!BlockCipher ctx} os_malloc rtw_zmalloc mem a0 mic0 mode key
    st s psta bcmc pre h m room post addr base a frag_len grp wep wl :
  mallocs os_malloc -> zmallocs rtw_zmalloc -> length mem = 61%nat -> is_block a0 -> ccmp_key key ->
  shares_key key psta -> hdr3_ok h -> bytes_ok m -> robust_mgmt h m = true -> tx_before a m ->
  tx_ra a = take 6 (h_addrs h) -> length (tx_skey a) = 32%nat -> zlen room = 8 + Z.of_nat (ccmp_M key) ->
  zlen m < 2 ^ 15 -> addr + TXDESC_OFFSET = zlen pre -> 0 <= dot11txpn psta < 2 ^ 48 ->
  let pn := (dot11txpn psta + 1) `mod` 2 ^ 48 in let F := ccmp_sent mode key (set_prot h) (aes_iv pn 0) m in
  (exists a', rtw_mgmt_xmitframe_coalesce os_malloc rtw_zmalloc (Some mem) a0 mic0 mode st s (Some psta) bcmc
      (pre ++ (hdr_bytes h ++ m ++ room) ++ post) (Some addr) base 1 a frag_len grp wep wl =
    Ret (_SUCCESS, pre ++ F ++ post, a', s, Some pn, st)) /\
  forall st' s' psta' ra pre' post', shares_key key psta' -> binstallBIPkey s' = true -> rxa_privacy ra = true ->
    rxa_len ra = zlen F -> rxa_pkt_len ra = zlen F ->
    exists rest ra', rxa_pkt_len ra' = zlen (hdr_bytes h ++ m) /\
      validate_mgmt_protect os_malloc rtw_zmalloc (Some mem) a0 mic0 mode st' s' (Some psta') ra (pre' ++ F ++ post') (zlen pre') =
      Ret (_SUCCESS, Some (pre' ++ (hdr_bytes (set_prot h) ++ m ++ rest) ++ post'), ra', s', st', false).
Proof.
  intros Hmal Hzm Hmem Ha0 Hkey Hsh Hh Bm Hrob Htb Hra Lsk Lr Hsz Haddr Hpn pn F. pose proof Htb as (_ & _ & _ & _ & Hmc & _).
  destruct (coalesce_unicast os_malloc rtw_zmalloc mem a0 mic0 mode key st s psta bcmc pre h m room post addr base a frag_len grp wep wl)
    as (a' & Et); try done.
  rewrite (next_pn_mod _ Hpn) in Et. fold pn F in Et. split; [by exists a'|]. intros st' s' psta' ra pre' post' Hsh' Hbip Hp Hl1 Hl2.
  destruct (aes_iv_ok pn 0) as [Biv Liv].
  replace (zlen (hdr_bytes h ++ m)) with (zlen (hdr_bytes (set_prot h) ++ m))
    by (rewrite !zlen_app, (hdr3_len _ Hh), (hdr3_len _ (set_prot_hdr3 h Hh)); done).
  apply validate_ccmp_sent; try done; [by apply set_prot_hdr3|unfold robust_mgmt; by rewrite subtype_set_prot|by cbn [set_prot h_addrs]; rewrite <- Hra].
Qed.

(** A state, a peer and a frame to instantiate the theorems with. *)
Definition sample_sec : security_priv :=
  SecurityPriv 0 [] [] 0 0 [] false false false true _BIP_CMAC_128_ 4 (replicate 6 (replicate 32 1)) 9 8.
Definition sample_sta : sta_info := StaInfo true true _AES_ (replicate 32 1) 5.
Definition sample_deauth (d : Z) : mac_hdr := MacHdr 0x00c0 [0; 0] (replicate 6 d ++ replicate 12 2) 0x0010 [].
Definition sample_tx (d : Z) : tx_attrib :=
  TxAttrib (PktAttrib 0 1 24 0 0 0) 26 false 0 (replicate 6 d) (replicate 6 2) (replicate 16 0) (replicate 32 0).
Definition sample_crc : crc_state := Crc 0 [].

Lemma mfp_unicast_roundtrip_witness : let F := ccmp_sent 0 (replicate 16 1) (set_prot (sample_deauth 2)) (aes_iv 6 0) [3; 0] in
  (exists a', rtw_mgmt_xmitframe_coalesce zalloc zeroed (Some (replicate 61 0)) (replicate 16 0) (replicate 16 0) 0
      sample_crc sample_sec (Some sample_sta) None
      (replicate 56 0 ++ (hdr_bytes (sample_deauth 2) ++ [3; 0] ++ replicate 16 0) ++ []) (Some 0) 0 1 (sample_tx 2) 0 [] [] 0 =
    Ret (_SUCCESS, replicate 56 0 ++ F ++ [], a', sample_sec, Some 6, sample_crc)) /\
  forall st' s' psta' ra pre' post', shares_key (replicate 16 1) psta' -> binstallBIPkey s' = true -> rxa_privacy ra = true ->
    rxa_len ra = zlen F -> rxa_pkt_len ra = zlen F ->
    exists rest ra', rxa_pkt_len ra' = zlen (hdr_bytes (sample_deauth 2) ++ [3; 0]) /\
      validate_mgmt_protect zalloc zeroed (Some (replicate 61 0)) (replicate 16 0) (replicate 16 0) 0 st' s' (Some psta') ra
        (pre' ++ F ++ post') (zlen pre') =
      Ret (_SUCCESS, Some (pre' ++ (hdr_bytes (set_prot (sample_deauth 2)) ++ [3; 0] ++ rest) ++ post'), ra', s', st', false).
Proof.
  refine (mfp_unicast_roundtrip zalloc zeroed (replicate 61 0) (replicate 16 0) (replicate 16 0) 0 (replicate 16 1)
    sample_crc sample_sec sample_sta None (replicate 56 0) (sample_deauth 2) [3; 0] (replicate 16 0) [] 0 0 (sample_tx 2) 0 [] [] 0
    zalloc_ok _ _ _ _ _ _ _ _ _ _ _ _ _ _ _);
    [intros n _; reflexivity|reflexivity|by_eval|split; [by_eval|by left]
    |split; [reflexivity|split; [reflexivity|split; [reflexivity|exists (replicate 16 1); reflexivity]]]
    |split; [repeat split; by_eval|reflexivity]|by_eval|reflexivity|repeat split; cbn; lia|reflexivity|reflexivity|reflexivity|reflexivity|reflexivity|by_eval].
Defined.

Lemma coalesce_group {ctx : Type} `{!BlockCipher ctx} os_malloc rtw_zmalloc mem a0 mic0 mode key kr
    st s sta bcmc pre h m room post addr base po a frag_len grp wep wl :
  zmallocs rtw_zmalloc -> length mem = 61%nat -> length mic0 = 16%nat -> bytes_ok key -> bip_ready key kr s ->
  binstallBIPkey s = true -> hdr3_ok h -> bytes_ok m -> robust_mgmt h m = true -> group_privacy h m = false ->
  IS_MCAST (tx_ra a) = true -> pktlen a = 24 + zlen m -> zlen room = 10 + bip_mic_len (dot11wCipher s) ->
  zlen m < 2 ^ 30 -> addr + TXDESC_OFFSET = zlen pre -> let F := bip_sent key s h m in
  exists a', rtw_mgmt_xmitframe_coalesce os_malloc rtw_zmalloc (Some mem) a0 mic0 mode st s sta bcmc
      (pre ++ (hdr_bytes h ++ m ++ room) ++ post) (Some addr) base po a frag_len grp wep wl =
    Ret (_SUCCESS, pre ++ F ++ post, a', set_bip_pn (dot11wBIPtxpn s + 1) (dot11wBIPrxpn s) s, None, st) /\ pktlen a' = zlen F.
Proof.
  intros Hzm Hmem Hm0 Hk Hrdy Hbip Hh Bm Hrob Hgp Hmc Hpl Lr Hsz Haddr F. pose proof (zlen_nonneg m) as Hn0. eexists.
  unfold rtw_mgmt_xmitframe_coalesce. rewrite Haddr.
  destruct (frame_tests pre h m (room ++ post) Hh) as (T1 & _ & T3). cbn zeta in T1, T3.
  replace (pre ++ (hdr_bytes h ++ m ++ room) ++ post) with (pre ++ hdr_bytes h ++ m ++ room ++ post) by (by rewrite <- !app_assoc).
  destruct (tests_robust h m Hrob _ _ T1 T3) as (cat & Ec & C1 & C2 & C3 & _). bind_step T1. rewrite C1. bind_step Ec.
  rewrite C2, C3, Hgp, Hmc, Hbip. cbn [negb]. rewrite wrap_small by (unfold fits, BIP_AAD_SIZE, _MME_IE_LENGTH_; lia).
  rewrite Hzm by (unfold BIP_AAD_SIZE, _MME_IE_LENGTH_; lia).
  replace (pre ++ hdr_bytes h ++ m ++ room ++ post) with (pre ++ (hdr_bytes h ++ m ++ room) ++ post) by (by rewrite <- !app_assoc).
  rewrite Hpl. pose proof (put_bip_ok mem mic0 key kr Hmem Hm0 Hk s pre h m room post Hrdy Hh Bm Lr Hsz) as Ep. cbn zeta in Ep.
  bind_step Ep. split; reflexivity.
Qed.

(** C33: A robust group addressed management frame is protected end to end.
    [rtw_mgmt_xmitframe_coalesce] appends the MME with the next packet number and
    the MIC; [validate_mgmt_protect] of every station with the same integrity key
    that has not yet seen that number accepts the frame, leaves it as it is and
    remembers the number.  All four BIP ciphers. *)
Theorem mfp_group_roundtrip {ctx : Type} `{!BlockCipher ctx} os_malloc rtw_zmalloc mem a0 mic0 mode key kr
    st s sta bcmc pre h m room post addr base po a frag_len grp wep wl :
  zmallocs rtw_zmalloc -> length mem = 61%nat -> length mic0 = 16%nat -> bytes_ok key -> bip_ready key kr s ->
  binstallBIPkey s = true -> hdr3_ok h -> bytes_ok m -> robust_mgmt h m = true -> group_privacy h m = false ->
  tx_ra a = take 6 (h_addrs h) -> IS_MCAST (tx_ra a) = true -> pktlen a = 24 + zlen m ->
  zlen room = 10 + bip_mic_len (dot11wCipher s) -> zlen m < 2 ^ 30 -> addr + TXDESC_OFFSET = zlen pre ->
  exists F a', rtw_mgmt_xmitframe_coalesce os_malloc rtw_zmalloc (Some mem) a0 mic0 mode st s sta bcmc
      (pre ++ (hdr_bytes h ++ m ++ room) ++ post) (Some addr) base po a frag_len grp wep wl =
    Ret (_SUCCESS, pre ++ F ++ post, a', set_bip_pn (dot11wBIPtxpn s + 1) (dot11wBIPrxpn s) s, None, st) /\ pktlen a' = zlen F /\
  forall st' s' psta ra pre' post', sta_mfp psta = true -> binstallBIPkey s' = true -> dot11wCipher s' = dot11wCipher s ->
    dot11wBIPKeyid s' = dot11wBIPKeyid s -> rd (dot11wBIPKey s') (dot11wBIPKeyid s') = Ret (key ++ kr) ->
    dot11wBIPrxpn s' < dot11wBIPtxpn s + 1 -> rxa_privacy ra = false -> rxa_len ra = zlen F -> rxa_pkt_len ra = zlen F ->
    validate_mgmt_protect os_malloc rtw_zmalloc (Some mem) a0 mic0 mode st' s' (Some psta) ra (pre' ++ F ++ post') (zlen pre') =
    Ret (_SUCCESS, Some (pre' ++ F ++ post'), ra, set_bip_pn (dot11wBIPtxpn s') (dot11wBIPtxpn s + 1) s', st', false).
Proof.
  intros Hzm Hmem Hm0 Hk Hrdy Hbip Hh Bm Hrob Hgp Hra Hmc Hpl Lr Hsz Haddr.
  destruct (coalesce_group os_malloc rtw_zmalloc mem a0 mic0 mode key kr st s sta bcmc pre h m room post addr base po a frag_len grp wep wl)
    as (a' & Et & Hpk); try done.
  set (F := bip_sent key s h m) in *. exists F, a'. split; [done|]. split; [done|].
  intros st' s' psta ra pre' post' Hmfp Hbip' Hci Hid Hkey' Hpn Hp Hl1 Hl2.
  pose proof Hrdy as (_ & _ & _ & Hkid & _). unfold validate_mgmt_protect, unprotected. rewrite Hbip', Hp, Hmfp. cbn [negb].
  set (g := dot11wCipher s) in *. set (el := 8 + bip_mic_len g). set (ipn := pn6 (dot11wBIPtxpn s + 1)). set (kid := dot11wBIPKeyid s) in *.
  destruct (frame_tests pre' h m (mme_head el kid ipn ++ bip_mic (block_cipher key) g h m el kid ipn ++ post') Hh) as (T1 & T2 & T3).
  cbn zeta in T1, T2, T3. replace (pre' ++ hdr_bytes h ++ m ++ _) with (pre' ++ F ++ post') in T1, T2, T3
    by (unfold F, bip_sent, bip_frame; by rewrite <- !app_assoc).
  destruct (tests_robust h m Hrob _ _ T1 T3) as (cat & Ec & _ & _ & C3 & C4). bind_step T1. bind_step T2. bind_step Ec.
  rewrite C3, C4, Hgp, <- Hra, Hmc. unfold check_bip. bind_step Hkey'. rewrite Hci, Hid, at_ptr_app, Hl1, Hl2 by done.
  rewrite (wrap_small 16) by (unfold fits in *; lia).
  pose proof (bip_sent_verified mem mic0 key kr Hmem Hm0 Hk rtw_zmalloc s h m post' _ Hzm Hrdy Hh Bm Hsz Hpn) as Ev.
  cbn zeta in Ev. fold F g kid in Ev. bind_step Ev. reflexivity.
Qed.
Lemma mfp_group_roundtrip_witness :
  exists F a', rtw_mgmt_xmitframe_coalesce zalloc zeroed (Some (replicate 61 0)) (replicate 16 0) (replicate 16 0) 0
      sample_crc sample_sec None None
      (replicate 56 0 ++ (hdr_bytes (sample_deauth 255) ++ [3; 0] ++ replicate 18 0) ++ []) (Some 0) 0 1 (sample_tx 255) 0 [] [] 0 =
    Ret (_SUCCESS, replicate 56 0 ++ F ++ [], a', set_bip_pn (dot11wBIPtxpn sample_sec + 1) (dot11wBIPrxpn sample_sec) sample_sec,
         None, sample_crc) /\ pktlen a' = zlen F /\
  forall st' s' psta ra pre' post', sta_mfp psta = true -> binstallBIPkey s' = true -> dot11wCipher s' = dot11wCipher sample_sec ->
    dot11wBIPKeyid s' = dot11wBIPKeyid sample_sec -> rd (dot11wBIPKey s') (dot11wBIPKeyid s') = Ret (replicate 16 1 ++ replicate 16 1) ->
    dot11wBIPrxpn s' < dot11wBIPtxpn sample_sec + 1 -> rxa_privacy ra = false -> rxa_len ra = zlen F -> rxa_pkt_len ra = zlen F ->
    validate_mgmt_protect zalloc zeroed (Some (replicate 61 0)) (replicate 16 0) (replicate 16 0) 0 st' s' (Some psta) ra
      (pre' ++ F ++ post') (zlen pre') =
    Ret (_SUCCESS, Some (pre' ++ F ++ post'), ra, set_bip_pn (dot11wBIPtxpn s') (dot11wBIPtxpn sample_sec + 1) s', st', false).
Proof.
  refine (mfp_group_roundtrip zalloc zeroed (replicate 61 0) (replicate 16 0) (replicate 16 0) 0 (replicate 16 1) (replicate 16 1)
    sample_crc sample_sec None None (replicate 56 0) (sample_deauth 255) [3; 0] (replicate 18 0) [] 0 0 1 (sample_tx 255) 0 [] [] 0
    _ _ _ _ _ _ _ _ _ _ _ _ _ _ _ _);
    [intros n _; reflexivity|reflexivity|reflexivity|by_eval|repeat split; by_eval|reflexivity|split; [repeat split; by_eval|reflexivity]
    |by_eval|reflexivity|reflexivity|reflexivity|reflexivity|reflexivity|reflexivity|reflexivity|reflexivity].
Defined.
Lemma check_bip_accept {ctx : Type} `{!BlockCipher ctx} rtw_zmalloc mem mic0 s a b p s' :
  check_bip rtw_zmalloc mem mic0 s a b p = Ret (_SUCCESS, s') ->
  exists igtk, rd (dot11wBIPKey s) (dot11wBIPKeyid s) = Ret igtk /\
    rtw_bip_verify mem rtw_zmalloc (dot11wCipher s) (rxa_pkt_len a) (at_ptr b p) (rxa_len a) igtk (u16 (dot11wBIPKeyid s))
      (dot11wBIPrxpn s) mic0 = Ret (_SUCCESS, dot11wBIPrxpn s').
Proof.
  unfold check_bip. intros H. apply bind_inv in H as (igtk & Hk & H). apply bind_inv in H as ([v pn] & Hv & H).
  exists igtk. split; [done|]. cbn [fst snd] in H. pose proof (bip_verify_mono _ _ _ _ _ _ _ _ _ _ _ _ Hv) as Hm.
  destruct Hm as [[-> _]|[[-> | ->] _]]; [|done|done]. injection H as <-. done.
Qed.

(** C34: The policy for unprotected frames.  When an integrity key is installed and
    the peer negotiated protection, [validate_mgmt_protect] accepts an unprotected
    deauthentication or disassociation frame only if it is group addressed and
    [rtw_bip_verify] accepted it, and an unprotected robust action frame only
    then or, unicast, while no pairwise key is installed.  Any bytes. *)
Theorem mfp_policy {ctx : Type} `{!BlockCipher ctx} os_malloc rtw_zmalloc mem a0 mic0 mode st s psta a b p o a' s' st' q sub a1 :
  binstallBIPkey s = true -> sta_mfp psta = true -> rxa_privacy a = false ->
  get_frame_sub_type b p = Ret sub -> slice b (p + 4) 6 = Ret a1 ->
  validate_mgmt_protect os_malloc rtw_zmalloc mem a0 mic0 mode st s (Some psta) a b p = Ret (_SUCCESS, o, a', s', st', q) ->
  let bip_ok := exists igtk, rd (dot11wBIPKey s) (dot11wBIPKeyid s) = Ret igtk /\
    rtw_bip_verify mem rtw_zmalloc (dot11wCipher s) (rxa_pkt_len a) (at_ptr b p) (rxa_len a) igtk (u16 (dot11wBIPKeyid s))
      (dot11wBIPrxpn s) mic0 = Ret (_SUCCESS, dot11wBIPrxpn s') in
  o = Some b /\
  (sub = WIFI_DEAUTH \/ sub = WIFI_DISASSOC -> IS_MCAST a1 = true /\ bip_ok) /\
  (sub = WIFI_ACTION -> forall cat, rd b (p + HDR_3ADDR) = Ret cat -> CATEGORY_IS_ROBUST cat = true ->
    (IS_MCAST a1 = true /\ CATEGORY_IS_GROUP_PRIVACY cat = false /\ bip_ok) \/
    (IS_MCAST a1 = false /\ bpairwise_key_installed psta = false)).
Proof.
  intros Hbip Hmfp Hp Hsub Ha1 H bip_ok. unfold validate_mgmt_protect in H. rewrite Hbip, Hp in H. cbn [negb] in H.
  apply bind_inv in H as (r & Hu & H). injection H as Hr <- _ Hs _ _. split; [done|].
  unfold unprotected in Hu. rewrite Hsub, Ha1, Hmfp in Hu. simp_res in Hu. cbn [negb] in Hu.
  apply bind_inv in Hu as (cat & Hc & Hu).
  assert ((x ← check_bip rtw_zmalloc mem mic0 s a b p; Ret (x.1, false, x.2)) = Ret r -> bip_ok) as Hck.
  { intros Hx. apply bind_inv in Hx as ([v s2] & Hy & Hx). injection Hx as <-. cbn [fst snd] in *. subst v s2.
    by apply check_bip_accept in Hy. }
  split.
  - intros Hd. assert ((sub =? WIFI_ACTION) = false /\ (sub =? WIFI_DEAUTH) || (sub =? WIFI_DISASSOC) = true) as [H1 H2]
      by (destruct Hd as [-> | ->]; done).
    rewrite H1, H2 in Hu. cbn [andb orb] in Hu. rewrite H2 in Hu. destruct (IS_MCAST a1); [by auto|].
    apply bind_inv in Hu as (? & _ & Hu). by injection Hu as <-.
  - intros -> cat' Hcat Hrob. cbn [Z.eqb Pos.eqb WIFI_ACTION WIFI_DEAUTH WIFI_DISASSOC andb orb] in *.
    rewrite Hc in Hcat. injection Hcat as <-. rewrite Hrob in Hu. cbn [andb orb] in Hu.
    destruct (IS_MCAST a1); [left|right].
    + destruct (CATEGORY_IS_GROUP_PRIVACY cat); [by injection Hu as <-|by auto].
    + destruct (bpairwise_key_installed psta); [by injection Hu as <-|done].
Qed.
(** A signed deauthentication frame as it is received. *)
Definition sample_signed : list Z := bip_sent (replicate 16 1) sample_sec (sample_deauth 255) [3; 0].
Definition sample_rx (privacy : bool) (n : Z) : rx_attrib :=
  RxAttrib privacy 0 false 24 0 0 n 0 (replicate 6 255) (replicate 6 2) n.

Lemma mfp_policy_witness :
  let s' := set_bip_pn 9 10 sample_sec in
  let bip_ok := exists igtk, rd (dot11wBIPKey sample_sec) (dot11wBIPKeyid sample_sec) = Ret igtk /\
    rtw_bip_verify (Some (replicate 61 0)) zeroed (dot11wCipher sample_sec) (rxa_pkt_len (sample_rx false 44)) (at_ptr sample_signed 0)
      (rxa_len (sample_rx false 44)) igtk (u16 (dot11wBIPKeyid sample_sec)) (dot11wBIPrxpn sample_sec) (replicate 16 0) =
      Ret (_SUCCESS, dot11wBIPrxpn s') in
  Some sample_signed = Some sample_signed /\
  (WIFI_DEAUTH = WIFI_DEAUTH \/ WIFI_DEAUTH = WIFI_DISASSOC -> IS_MCAST (replicate 6 255) = true /\ bip_ok) /\
  (WIFI_DEAUTH = WIFI_ACTION -> forall cat, rd sample_signed (0 + HDR_3ADDR) = Ret cat -> CATEGORY_IS_ROBUST cat = true ->
    (IS_MCAST (replicate 6 255) = true /\ CATEGORY_IS_GROUP_PRIVACY cat = false /\ bip_ok) \/
    (IS_MCAST (replicate 6 255) = false /\ bpairwise_key_installed sample_sta = false)).
Proof.
  refine (mfp_policy zalloc zeroed (Some (replicate 61 0)) (replicate 16 0) (replicate 16 0) 0 sample_crc sample_sec sample_sta
    (sample_rx false 44) sample_signed 0 (Some sample_signed) (sample_rx false 44) (set_bip_pn 9 10 sample_sec) sample_crc false
    WIFI_DEAUTH (replicate 6 255) _ _ _ _ _ _);
    [reflexivity|reflexivity|reflexivity|vm_compute; reflexivity|vm_compute; reflexivity|vm_compute; reflexivity].
Defined.


End Mfp.
