(* ===== verification/Acl.v ===== *)
(** * Access control lists

    Models the MAC address lists of an access point: [rtw_macaddr_acl_init],
    [_rtw_macaddr_acl_deinit], [rtw_set_macaddr_acl], [rtw_acl_add_sta],
    [rtw_acl_remove_sta] of [core/rtw_ap.c] and [_rtw_access_ctrl],
    [rtw_access_ctrl] of [core/rtw_sta_mgt.c].

    A pool is an array of 16 nodes with a queue linking the valid ones; the queue
    is the list of the array indices in queue order.  The specification is a mode
    and a finite set of addresses; every operation refines its counterpart on
    sets, and so does every sequence of operations. *)
From stdpp Require Import gmap.
From S2P Require Import Prelude.

#[local] Set Warnings "-clear-no-such-hyp".

Module Acl.

Definition NUM_ACL : nat := 16.
Definition RTW_ACL_PERIOD_NUM : Z := 2.
Definition RTW_ACL_MODE_DISABLED : Z := 0.
Definition RTW_ACL_MODE_ACCEPT_UNLESS_LISTED : Z := 1.
Definition RTW_ACL_MODE_DENY_UNLESS_LISTED : Z := 2.
Definition bcast : list Z := [0xff; 0xff; 0xff; 0xff; 0xff; 0xff].

Record rtw_wlan_acl_node := AclNode { addr : list Z; valid : bool }.
Record wlan_acl_pool := AclPool {
  mode : Z; num : Z; aclnode : list rtw_wlan_acl_node; acl_node_q : list nat }.

(** ** The code *)

(** [addr] and [valid] of the node a queue element stands for. *)
Definition node_at (p : wlan_acl_pool) (i : nat) : rtw_wlan_acl_node :=
  default (AclNode [] false) (aclnode p !! i).

(** The search loop: a valid node with this address. *)
Fixpoint acl_search (p : wlan_acl_pool) (q : list nat) (a : list Z) : bool :=
  match q with
  | [] => false
  | i :: q =>
      if bool_decide (addr (node_at p i) = a) && valid (node_at p i) then true else acl_search p q a
  end.

Definition _rtw_access_ctrl (acl_list : list wlan_acl_pool) (period : Z) (mac_addr : list Z) : res bool :=
  if RTW_ACL_PERIOD_NUM <=? period then Ret true else
  acl ← rd acl_list period;
  if negb (mode acl =? RTW_ACL_MODE_ACCEPT_UNLESS_LISTED) && negb (mode acl =? RTW_ACL_MODE_DENY_UNLESS_LISTED)
  then Ret true else
  let match_ := acl_search acl (acl_node_q acl) mac_addr in
  Ret (if mode acl =? RTW_ACL_MODE_ACCEPT_UNLESS_LISTED then negb match_ else match_).

Definition rtw_access_ctrl (acl_list : list wlan_acl_pool) (mac_addr : list Z) : res bool :=
  r ← _rtw_access_ctrl acl_list 0 mac_addr;
  if negb r then Ret false else
  r ← _rtw_access_ctrl acl_list 1 mac_addr;
  if negb r then Ret false else Ret true.

Definition rtw_macaddr_acl_init : wlan_acl_pool :=
  AclPool RTW_ACL_MODE_DISABLED 0 (replicate NUM_ACL (AclNode [] false)) [].

Definition acl_set_mode (m : Z) (p : wlan_acl_pool) : wlan_acl_pool :=
  AclPool m (num p) (aclnode p) (acl_node_q p).

(** [for (i = 0; i < NUM_ACL; i++)]: the first node that is not valid. *)
Fixpoint find_empty (l : list rtw_wlan_acl_node) (i : nat) : option nat :=
  match l with
  | [] => None
  | n :: l => if valid n then find_empty l (S i) else Some i
  end.

(** The return value and the pool. *)
Definition acl_add (a : list Z) (p : wlan_acl_pool) : Z * wlan_acl_pool :=
  if acl_search p (acl_node_q p) a then (0, p) else
  if Z.of_nat NUM_ACL <=? num p then (-1, p) else
  match find_empty (aclnode p) 0 with
  | None => (-1, p)
  | Some i => (0, AclPool (mode p) (num p + 1) (<[i := AclNode a true]> (aclnode p)) (acl_node_q p ++ [i]))
  end.

(** The removal loop over the queue: [hit] tells which addresses go. *)
Fixpoint acl_remove (hit : list Z -> bool) (q : list nat) (p : wlan_acl_pool) : wlan_acl_pool :=
  match q with
  | [] => p
  | i :: q =>
      let n := node_at p i in
      acl_remove hit q
        (if hit (addr n) && valid n
         then AclPool (mode p) (num p - 1) (<[i := AclNode (addr n) false]> (aclnode p)) (filter (fun j => j ≠ i) (acl_node_q p))
         else p)
  end.

Definition acl_del (a : list Z) (p : wlan_acl_pool) : wlan_acl_pool :=
  acl_remove (fun x => bool_decide (a = bcast) || bool_decide (x = a)) (acl_node_q p) p.

Definition acl_clear (p : wlan_acl_pool) : wlan_acl_pool :=
  let p := acl_remove (fun _ => true) (acl_node_q p) p in
  AclPool RTW_ACL_MODE_DISABLED (num p) (aclnode p) (acl_node_q p).
(** The functions select the pool by period. *)
Definition on_period {A} (bad : A) (f : wlan_acl_pool -> A * wlan_acl_pool) (acl_list : list wlan_acl_pool) (period : Z)
    : res (A * list wlan_acl_pool) :=
  if RTW_ACL_PERIOD_NUM <=? period then Ret (bad, acl_list) else
  p ← rd acl_list period;
  l ← wr acl_list period (f p).2;
  Ret ((f p).1, l).

Definition rtw_set_macaddr_acl (m : Z) := on_period tt (fun p => (tt, acl_set_mode m p)).
Definition rtw_acl_add_sta (a : list Z) := on_period (-1) (acl_add a).
Definition rtw_acl_remove_sta (a : list Z) := on_period 0 (fun p => (0, acl_del a p)).
Definition _rtw_macaddr_acl_deinit := on_period tt (fun p => (tt, acl_clear p)).

(** ** The specification: a mode and a set *)

Record spec := Spec { sp_mode : Z; sp_set : gset (list Z) }.

Definition sp_add (a : list Z) (s : spec) : Z * spec :=
  if decide (a ∈ sp_set s) then (0, s)
  else if decide (NUM_ACL <= size (sp_set s))%nat then (-1, s) else (0, Spec (sp_mode s) ({[a]} ∪ sp_set s)).
Definition sp_del (a : list Z) (s : spec) : spec :=
  Spec (sp_mode s) (if decide (a = bcast) then ∅ else sp_set s ∖ {[a]}).
Definition sp_accepts (s : spec) (a : list Z) : bool :=
  if sp_mode s =? RTW_ACL_MODE_ACCEPT_UNLESS_LISTED then bool_decide (a ∉ sp_set s)
  else if sp_mode s =? RTW_ACL_MODE_DENY_UNLESS_LISTED then bool_decide (a ∈ sp_set s) else true.

(** ** Invariant and abstraction *)

Definition addr_at (p : wlan_acl_pool) (i : nat) : list Z := addr (node_at p i).

Record acl_ok (p : wlan_acl_pool) : Prop := {
  ok_len : length (aclnode p) = NUM_ACL;
  ok_q : forall i, i ∈ acl_node_q p <-> (i < NUM_ACL)%nat /\ valid (node_at p i) = true;
  ok_nodup : NoDup (acl_node_q p);
  ok_num : num p = Z.of_nat (length (acl_node_q p));
  ok_addr : NoDup (addr_at p <$> acl_node_q p) }.

Definition acl_abs (p : wlan_acl_pool) : spec := Spec (mode p) (list_to_set (addr_at p <$> acl_node_q p)).

Lemma acl_init_ok : acl_ok rtw_macaddr_acl_init /\ acl_abs rtw_macaddr_acl_init = Spec RTW_ACL_MODE_DISABLED ∅.
Proof.
  split; [|done]. split; [done| |apply NoDup_nil_2|done|apply NoDup_nil_2].
  intros i. cbn [acl_node_q rtw_macaddr_acl_init].
  split; [by intros ?%elem_of_nil|]. intros [Hi Hv]. unfold node_at in Hv. cbn [aclnode rtw_macaddr_acl_init] in Hv.
  by rewrite lookup_replicate_2 in Hv.
Qed.

Lemma search_spec p q a : (forall i, i ∈ q -> valid (node_at p i) = true) -> acl_search p q a = bool_decide (a ∈ addr_at p <$> q).
Proof.
  induction q as [|i q IH]; intros Hv; cbn [acl_search fmap list_fmap]; [done|].
  rewrite (Hv i) by set_solver. rewrite andb_true_r, IH by set_solver. unfold addr_at at 2.
  repeat case_bool_decide; set_solver.
Qed.

Lemma acl_search_abs p a : acl_ok p -> acl_search p (acl_node_q p) a = bool_decide (a ∈ sp_set (acl_abs p)).
Proof.
  intros Hok. rewrite search_spec by (intros i Hi; by apply (ok_q p Hok)). cbn [sp_set acl_abs].
  apply bool_decide_ext. by rewrite elem_of_list_to_set.
Qed.

Lemma acl_size p : acl_ok p -> size (sp_set (acl_abs p)) = length (acl_node_q p).
Proof. intros Hok. cbn [sp_set acl_abs]. rewrite size_list_to_set by apply Hok. by rewrite length_fmap. Qed.
(** ** Each operation refines its specification *)

Lemma node_at_insert p i n q m' num' : (i < length (aclnode p))%nat ->
  node_at (AclPool m' num' (<[i := n]> (aclnode p)) q) i = n /\
  forall j, j ≠ i -> node_at (AclPool m' num' (<[i := n]> (aclnode p)) q) j = node_at p j.
Proof.
  intros Hi. unfold node_at. cbn [aclnode]. split; [by rewrite list_lookup_insert_eq|].
  intros j Hj. by rewrite list_lookup_insert_ne.
Qed.

Lemma find_empty_spec l k : match find_empty l k with
  | Some j => (k <= j < k + length l)%nat /\ exists n, l !! (j - k)%nat = Some n /\ valid n = false
  | None => forall i n, l !! i = Some n -> valid n = true
  end.
Proof.
  revert k. induction l as [|n l IH]; intros k; cbn [find_empty]; [done|].
  destruct (valid n) eqn:Hn.
  - specialize (IH (S k)). destruct (find_empty l (S k)) as [j|].
    + destruct IH as (Hj & n' & Hl & Hv). cbn [length]. split; [lia|]. exists n'. split; [|done].
      by replace (j - k)%nat with (S (j - S k)) by lia.
    + intros [|i] n' Hl; cbn in Hl; [by injection Hl as <-|by eapply IH].
  - rewrite Nat.sub_diag. cbn [length]. split; [lia|]. by exists n.
Qed.

Lemma acl_room p : acl_ok p -> num p < Z.of_nat NUM_ACL -> exists i, find_empty (aclnode p) 0 = Some i /\ (i < NUM_ACL)%nat /\ i ∉ acl_node_q p.
Proof.
  intros Hok Hn. pose proof (find_empty_spec (aclnode p) 0) as Hf. rewrite (ok_len p Hok) in Hf.
  destruct (find_empty (aclnode p) 0) as [i|].
  - destruct Hf as (Hi & n & Hl & Hv). exists i. split; [done|]. split; [lia|]. rewrite (ok_q p Hok). unfold node_at.
    rewrite Nat.sub_0_r in Hl. rewrite Hl. cbn. intros [_ H]. congruence.
  - exfalso. assert (seq 0 NUM_ACL ⊆+ acl_node_q p) as Hsub.
    { apply NoDup_submseteq; [apply NoDup_seq|]. intros i Hi%elem_of_seq. apply (ok_q p Hok). split; [lia|].
      unfold node_at. destruct (lookup_lt_is_Some_2 (aclnode p) i) as [n Hl]; [rewrite (ok_len p Hok); lia|].
      rewrite Hl. cbn. by eapply Hf. }
    apply submseteq_length in Hsub. rewrite length_seq in Hsub. rewrite (ok_num p Hok) in Hn. lia.
Qed.

Lemma acl_add_refines p a : acl_ok p ->
  acl_ok (acl_add a p).2 /\ (acl_add a p).1 = (sp_add a (acl_abs p)).1 /\ acl_abs (acl_add a p).2 = (sp_add a (acl_abs p)).2.
Proof.
  intros Hok. unfold acl_add, sp_add. rewrite acl_search_abs by done. rewrite acl_size by done.
  case_bool_decide as Ha; [by rewrite decide_True by done|]. rewrite decide_False by done.
  destruct (Z.leb_spec (Z.of_nat NUM_ACL) (num p)) as [Hn|Hn].
  - rewrite decide_True by (rewrite (ok_num p Hok) in Hn; lia). done.
  - rewrite decide_False by (rewrite (ok_num p Hok) in Hn; lia).
    destruct (acl_room p Hok Hn) as (i & -> & Hi & Hiq). cbn [fst snd].
    destruct (node_at_insert p i (AclNode a true) (acl_node_q p ++ [i]) (mode p) (num p + 1)) as [N1 N2]; [by rewrite (ok_len p Hok)|].
    set (p' := AclPool _ _ _ _) in *.
    assert (addr_at p' <$> acl_node_q p = addr_at p <$> acl_node_q p) as Hmap.
    { apply list_fmap_ext. intros k j Hj. unfold addr_at. rewrite N2; [done|]. intros ->. apply Hiq. by eapply list_elem_of_lookup_2. }
    assert (addr_at p' i = a) as Hai by (unfold addr_at; by rewrite N1).
    assert (a ∉ addr_at p <$> acl_node_q p) as Han by (by rewrite <- (elem_of_list_to_set (C := gset (list Z)))).
    split; [|split; [done|]].
    + split.
      * cbn [aclnode p']. rewrite length_insert. apply Hok.
      * intros j. cbn [acl_node_q p']. rewrite elem_of_app, list_elem_of_singleton, (ok_q p Hok).
        destruct (decide (j = i)) as [->|Hj]; [rewrite N1; cbn; naive_solver|]. rewrite N2 by done. naive_solver.
      * cbn [acl_node_q p']. apply NoDup_app. split; [apply Hok|]. split; [set_solver|apply NoDup_singleton].
      * cbn [num acl_node_q p']. rewrite length_app, (ok_num p Hok). cbn. lia.
      * cbn [acl_node_q p']. rewrite fmap_app. cbn. rewrite Hai, Hmap. apply NoDup_app. split; [apply Hok|]. split; [set_solver|apply NoDup_singleton].
    + unfold acl_abs. cbn [mode acl_node_q p' sp_mode sp_set]. f_equal. rewrite fmap_app, list_to_set_app_L, Hmap. cbn. rewrite Hai. set_solver.
Qed.
(** One node taken out of the queue. *)
Lemma acl_drop_ok p i : acl_ok p -> i ∈ acl_node_q p ->
  let p' := AclPool (mode p) (num p - 1) (<[i := AclNode (addr_at p i) false]> (aclnode p)) (filter (fun j => j ≠ i) (acl_node_q p)) in
  acl_ok p' /\ sp_set (acl_abs p') = sp_set (acl_abs p) ∖ {[addr_at p i]} /\ (forall j, addr_at p' j = addr_at p j) /\
  (forall j, j ≠ i -> node_at p' j = node_at p j).
Proof.
  intros Hok Hiq p'. pose proof (proj1 (ok_q p Hok i) Hiq) as [Hi Hvi].
  destruct (node_at_insert p i (AclNode (addr_at p i) false) (filter (fun j => j ≠ i) (acl_node_q p)) (mode p) (num p - 1)) as [N1 N2];
    [by rewrite (ok_len p Hok)|]. fold p' in N1, N2.
  assert (forall j, addr_at p' j = addr_at p j) as Hadr.
  { intros j. unfold addr_at. destruct (decide (j = i)) as [->|Hj]; [by rewrite N1|by rewrite N2]. }
  assert (acl_node_q p ≡ₚ i :: filter (fun j => j ≠ i) (acl_node_q p)) as Hperm.
  { apply NoDup_Permutation; [apply Hok| |].
    - apply NoDup_cons. split; [by rewrite list_elem_of_filter; intros [? _]|apply NoDup_filter, Hok].
    - intros x. rewrite elem_of_cons, list_elem_of_filter. destruct (decide (x = i)); naive_solver. }
  assert (addr_at p' <$> acl_node_q p' = addr_at p <$> filter (fun j => j ≠ i) (acl_node_q p)) as Hmap
    by (apply list_fmap_ext; intros; apply Hadr).
  pose proof (ok_addr p Hok) as Hnd. rewrite Hperm in Hnd. cbn [fmap list_fmap] in Hnd. apply NoDup_cons in Hnd as [Hni Hnd].
  split_and!; [split| |done|done].
  - cbn [aclnode p']. rewrite length_insert. apply Hok.
  - intros j. cbn [acl_node_q p']. rewrite list_elem_of_filter, (ok_q p Hok).
    destruct (decide (j = i)) as [->|Hj]; [rewrite N1; cbn; naive_solver|]. rewrite N2 by done. naive_solver.
  - cbn [acl_node_q p']. apply NoDup_filter, Hok.
  - cbn [num acl_node_q p']. rewrite (ok_num p Hok), Hperm at 1. cbn [length]. lia.
  - by rewrite Hmap.
  - cbn [sp_set acl_abs]. rewrite Hmap.
    assert (list_to_set (addr_at p <$> acl_node_q p) = {[addr_at p i]} ∪ list_to_set (C := gset (list Z)) (addr_at p <$> filter (fun j => j ≠ i) (acl_node_q p))) as ->.
    { rewrite <- list_to_set_cons. apply list_to_set_perm_L. by rewrite Hperm at 1. }
    rewrite <- (elem_of_list_to_set (C := gset (list Z))) in Hni. set_solver.
Qed.

Lemma acl_remove_ok hit q p : acl_ok p -> NoDup q -> (forall i, i ∈ q -> i ∈ acl_node_q p) ->
  let p' := acl_remove hit q p in
  acl_ok p' /\ mode p' = mode p /\
  forall a, a ∈ sp_set (acl_abs p') <-> a ∈ sp_set (acl_abs p) /\ ~ (hit a = true /\ a ∈ addr_at p <$> q).
Proof.
  revert p. induction q as [|i q IH]; intros p Hok Hnd Hq; cbn [acl_remove]; [split_and!; [done|done|]; set_solver|].
  apply NoDup_cons in Hnd as [Hiq Hnd]. fold (addr_at p i).
  destruct (proj1 (ok_q p Hok i) (Hq i ltac:(set_solver))) as [_ ->]. rewrite andb_true_r.
  destruct (hit (addr_at p i)) eqn:Hh.
  - destruct (acl_drop_ok p i Hok) as (Hok' & Hset & Hadr & _); [set_solver|]. set (p1 := AclPool _ _ _ _) in *.
    destruct (IH p1 Hok' Hnd) as (H1 & H2 & H3).
    { intros j Hj. cbn [acl_node_q p1]. rewrite list_elem_of_filter. split; [set_solver|]. apply Hq. set_solver. }
    split; [done|]. split; [done|]. intros a. rewrite H3, Hset. cbn [fmap list_fmap].
    replace (addr_at p1 <$> q) with (addr_at p <$> q) by (apply list_fmap_ext; intros; by rewrite Hadr).
    rewrite elem_of_difference, elem_of_singleton, elem_of_cons. clear -Hh. destruct (decide (a = addr_at p i)) as [->|]; naive_solver.
  - destruct (IH p Hok Hnd) as (H1 & H2 & H3); [set_solver|]. split; [done|]. split; [done|]. intros a. rewrite H3.
    cbn [fmap list_fmap]. rewrite elem_of_cons. clear -Hh. destruct (decide (a = addr_at p i)) as [->|]; [|naive_solver].
    rewrite Hh. naive_solver.
Qed.

Lemma acl_del_refines p a : acl_ok p -> acl_ok (acl_del a p) /\ acl_abs (acl_del a p) = sp_del a (acl_abs p).
Proof.
  intros Hok. unfold acl_del. destruct (acl_remove_ok (fun x => bool_decide (a = bcast) || bool_decide (x = a)) (acl_node_q p) p Hok)
    as (H1 & H2 & H3); [apply Hok|done|]. split; [done|]. set (p' := acl_remove _ _ _) in *.
  assert (sp_set (acl_abs p') = sp_set (sp_del a (acl_abs p))) as Hs.
  { apply set_eq. intros x. rewrite H3, orb_true_iff, !bool_decide_eq_true. cbn [sp_set sp_del acl_abs].
    rewrite elem_of_list_to_set. case_decide; set_solver. }
  unfold acl_abs in *. cbn [sp_set sp_mode sp_del] in *. by rewrite Hs, H2.
Qed.

Lemma acl_clear_refines p : acl_ok p -> acl_ok (acl_clear p) /\ acl_abs (acl_clear p) = Spec RTW_ACL_MODE_DISABLED ∅.
Proof.
  intros Hok. unfold acl_clear. destruct (acl_remove_ok (fun _ => true) (acl_node_q p) p Hok) as (H1 & H2 & H3); [apply Hok|done|].
  set (p' := acl_remove _ _ _) in *. split; [by destruct H1|]. unfold acl_abs at 1. cbn [mode acl_node_q]. f_equal.
  change (addr_at _ <$> _) with (addr_at p' <$> acl_node_q p'). apply set_eq. intros x.
  change (x ∈ list_to_set (addr_at p' <$> acl_node_q p')) with (x ∈ sp_set (acl_abs p')). rewrite H3. cbn [sp_set acl_abs].
  rewrite elem_of_list_to_set. set_solver.
Qed.
(** ** Sequences of operations *)

Inductive acl_op :=
| OpMode (period : nat) (m : Z)
| OpAdd (period : nat) (a : list Z)
| OpDel (period : nat) (a : list Z)
| OpClear (period : nat).

(** The status of [rtw_acl_add_sta], 0 for the others, and the lists. *)
Definition acl_step (l : list wlan_acl_pool) (o : acl_op) : res (Z * list wlan_acl_pool) :=
  match o with
  | OpMode k m => r ← rtw_set_macaddr_acl m l (Z.of_nat k); Ret (0, r.2)
  | OpAdd k a => rtw_acl_add_sta a l (Z.of_nat k)
  | OpDel k a => rtw_acl_remove_sta a l (Z.of_nat k)
  | OpClear k => r ← _rtw_macaddr_acl_deinit l (Z.of_nat k); Ret (0, r.2)
  end.

Fixpoint acl_run (l : list wlan_acl_pool) (ops : list acl_op) : res (list Z * list wlan_acl_pool) :=
  match ops with
  | [] => Ret ([], l)
  | o :: ops => r ← acl_step l o; t ← acl_run r.2 ops; Ret (r.1 :: t.1, t.2)
  end.

(** The same on two modes and sets. *)
Definition sp_on {A} (bad : A) (f : spec -> A * spec) (k : nat) (l : list spec) : A * list spec :=
  match l !! k with
  | None => (bad, l)
  | Some s => ((f s).1, <[k := (f s).2]> l)
  end.
Definition sp_step (l : list spec) (o : acl_op) : Z * list spec :=
  match o with
  | OpMode k m => sp_on 0 (fun s => (0, Spec m (sp_set s))) k l
  | OpAdd k a => sp_on (-1) (sp_add a) k l
  | OpDel k a => sp_on 0 (fun s => (0, sp_del a s)) k l
  | OpClear k => sp_on 0 (fun _ => (0, Spec RTW_ACL_MODE_DISABLED ∅)) k l
  end.
Fixpoint sp_run (l : list spec) (ops : list acl_op) : list Z * list spec :=
  match ops with
  | [] => ([], l)
  | o :: ops => let r := sp_step l o in let t := sp_run r.2 ops in (r.1 :: t.1, t.2)
  end.

(** One operation on the selected pool. *)
Lemma on_period_refines {A} (bad : A) f g k l : Forall acl_ok l -> length l = 2%nat ->
  (forall p, acl_ok p -> acl_ok (f p).2 /\ (f p).1 = (g (acl_abs p)).1 /\ acl_abs (f p).2 = (g (acl_abs p)).2) ->
  exists l', on_period bad f l (Z.of_nat k) = Ret ((sp_on bad g k (acl_abs <$> l)).1, l') /\
    Forall acl_ok l' /\ length l' = 2%nat /\ acl_abs <$> l' = (sp_on bad g k (acl_abs <$> l)).2.
Proof.
  intros Hok Hl Hf. unfold on_period, sp_on. rewrite list_lookup_fmap.
  destruct (l !! k) as [p|] eqn:Hp; cbn [fmap option_fmap option_map].
  - pose proof (lookup_lt_Some _ _ _ Hp) as Hk. rewrite (proj2 (Z.leb_gt _ _)) by (unfold RTW_ACL_PERIOD_NUM; lia).
    rewrite (proj2 (rd_Ret l (Z.of_nat k) p)) by (split; [lia|by rewrite Nat2Z.id]). simp_res.
    rewrite wr_Ret, Nat2Z.id by (unfold zlen; lia). simp_res.
    destruct (Hf p) as (H1 & H2 & H3); [by eapply Forall_lookup_1|]. rewrite H2. eexists. split; [done|].
    split; [by apply Forall_insert|]. split; [by rewrite length_insert|]. by rewrite list_fmap_insert, H3.
  - apply lookup_ge_None in Hp. rewrite (proj2 (Z.leb_le _ _)) by (unfold RTW_ACL_PERIOD_NUM; lia). by exists l.
Qed.

Lemma acl_step_refines l o : Forall acl_ok l -> length l = 2%nat ->
  exists l', acl_step l o = Ret ((sp_step (acl_abs <$> l) o).1, l') /\ Forall acl_ok l' /\ length l' = 2%nat /\
    acl_abs <$> l' = (sp_step (acl_abs <$> l) o).2.
Proof.
  intros Hok Hl. destruct o as [k m|k a|k a|k]; cbn [acl_step sp_step].
  - destruct (on_period_refines tt (fun p => (tt, acl_set_mode m p)) (fun s => (tt, Spec m (sp_set s))) k l Hok Hl) as (l' & E & H).
    { intros p Hp. split; [by destruct Hp|done]. }
    unfold rtw_set_macaddr_acl. bind_step E. exists l'. unfold sp_on in *. destruct ((acl_abs <$> l) !! k); done.
  - apply on_period_refines; [done|done|]. intros p. apply acl_add_refines.
  - apply on_period_refines; [done|done|]. intros p Hp. cbn. destruct (acl_del_refines p a Hp) as [? ?]. done.
  - destruct (on_period_refines tt (fun p => (tt, acl_clear p)) (fun _ => (tt, Spec RTW_ACL_MODE_DISABLED ∅)) k l Hok Hl) as (l' & E & H).
    { intros p Hp. cbn. destruct (acl_clear_refines p Hp) as [? ?]. done. }
    unfold _rtw_macaddr_acl_deinit. bind_step E. exists l'. unfold sp_on in *. destruct ((acl_abs <$> l) !! k); done.
Qed.

Lemma access_ctrl_spec l mac : Forall acl_ok l -> length l = 2%nat ->
  rtw_access_ctrl l mac = Ret (forallb (fun s => sp_accepts s mac) (acl_abs <$> l)).
Proof.
  intros Hok Hl. destruct l as [|p [|p' [|]]]; try done. apply Forall_cons in Hok as [H1 [H2 _]%Forall_cons].
  assert (forall k q, [p; p'] !! k = Some q -> acl_ok q -> _rtw_access_ctrl [p; p'] (Z.of_nat k) mac = Ret (sp_accepts (acl_abs q) mac)) as Ha.
  { intros k q Hk Hq. pose proof (lookup_lt_Some _ _ _ Hk) as Hlt. cbn in Hlt. unfold _rtw_access_ctrl.
    rewrite (proj2 (Z.leb_gt _ _)) by (unfold RTW_ACL_PERIOD_NUM; lia).
    rewrite (proj2 (rd_Ret _ (Z.of_nat k) q)) by (split; [lia|by rewrite Nat2Z.id]). simp_res.
    rewrite acl_search_abs by done. unfold sp_accepts. cbn [sp_mode acl_abs].
    destruct (mode q =? RTW_ACL_MODE_ACCEPT_UNLESS_LISTED), (mode q =? RTW_ACL_MODE_DENY_UNLESS_LISTED); cbn [negb andb];
      rewrite ?bool_decide_not; done. }
  pose proof (Ha 0%nat p eq_refl H1) as E0. pose proof (Ha 1%nat p' eq_refl H2) as E1. change (Z.of_nat 0) with 0 in E0. change (Z.of_nat 1) with 1 in E1.
  unfold rtw_access_ctrl. rewrite E0, E1. simp_res. cbn [fmap list_fmap forallb].
  destruct (sp_accepts (acl_abs p) mac), (sp_accepts (acl_abs p') mac); done.
Qed.

(** C12: The access control lists are two sets of at most 16 addresses with a mode.
    After any sequence of mode changes, additions, removals and clearings, for
    any period (also one out of range), every status returned is the one of the
    operation on sets and the decision of [rtw_access_ctrl] about any address is
    the one the sets prescribe; adding fails exactly when a new address meets a
    full list, and removing the broadcast address empties it. *)
Theorem acl_refines_sets ops mac : let init := [rtw_macaddr_acl_init; rtw_macaddr_acl_init] in
  let s := sp_run [Spec RTW_ACL_MODE_DISABLED ∅; Spec RTW_ACL_MODE_DISABLED ∅] ops in
  exists l, acl_run init ops = Ret (s.1, l) /\ rtw_access_ctrl l mac = Ret (forallb (fun x => sp_accepts x mac) s.2) /\
    Forall (fun x => size (sp_set x) <= NUM_ACL)%nat s.2.
Proof.
  cbn zeta. set (init := [_; _]). change [Spec _ ∅; Spec _ ∅] with (acl_abs <$> init).
  assert (Forall acl_ok init /\ length init = 2%nat) as [Hok Hl] by (split; [repeat (apply Forall_cons; split; [apply acl_init_ok|]); apply Forall_nil_2|done]).
  clearbody init. revert init Hok Hl. induction ops as [|o ops IH]; intros l Hok Hl; cbn [acl_run sp_run fst snd].
  - exists l. split; [done|]. split; [by apply access_ctrl_spec|]. apply Forall_fmap. eapply Forall_impl; [exact Hok|].
    intros p Hp. unfold compose. rewrite acl_size by done. pose proof (NoDup_submseteq (acl_node_q p) (seq 0 NUM_ACL) (ok_nodup p Hp)) as Hs.
    apply (Nat.le_trans _ _ _ (submseteq_length _ _ (Hs ltac:(intros i [? ?]%(ok_q p Hp); apply elem_of_seq; lia)))). by rewrite length_seq.
  - destruct (acl_step_refines l o Hok Hl) as (l1 & E & Hok1 & Hl1 & Habs). bind_step E.
    destruct (IH l1 Hok1 Hl1) as (l2 & E2 & H2 & H3). rewrite Habs in E2, H2, H3. bind_step E2. exists l2. done.
Qed.
End Acl.
