(* ===== verification/Cam.v ===== *)
(** * The key cache of the security engine

    Models the allocation of entries in the key CAM ([core/rtw_wlan_util.c]:
    [rtw_sec_camid_is_set], [rtw_sec_cam_map_set], [rtw_sec_cam_map_clr],
    [_rtw_sec_camid_is_used], [_rtw_camid_is_gk], [cam_cache_chk],
    [_rtw_camid_search], [rtw_get_camid], [rtw_camid_alloc], [rtw_camid_set],
    [rtw_camid_free], [write_cam], [clear_cam_entry], [rtw_get_sec_camid],
    [rtw_get_empty_cam_entry]), the command [set_stakey_hdl]
    ([core/rtw_mlme_ext.c]) that installs and removes the keys of a station, and
    the synchronous branch of [rtw_clearstakey_cmd] ([core/rtw_cmd.c]).

    The hardware receives the same writes as the cache [cam_cache], which is the
    state here.  [None] for an address is [NULL], -1 for a key id or a group
    flag is the wildcard. *)
From S2P Require Import Prelude.

Module Cam.

Definition SEC_CAM_ENT_NUM_SW_LIMIT : Z := 32.
Definition SEC_CAP_CHK_BMC : Z := 0x01.
Definition _NO_PRIVACY_ : Z := 0.
Definition _SEC_TYPE_256_ : Z := 0x10.
Definition H2C_SUCCESS : Z := 0.
Definition H2C_SUCCESS_RSP : Z := 1.
Definition H2C_REJECTED : Z := 5.
Definition SEC_STATUS_STA_PK_GK_CONFLICT_DIS_BMC_SEARCH : Z := 0x1.

Record sec_cam_ent := CamEnt { ctrl : Z; mac : list Z; key : list Z }.
Definition null_ent : sec_cam_ent := CamEnt 0 (replicate 6 0) (replicate 16 0).

(** [struct cam_ctl_t] and [cam_cache]. *)
Record cam_state := CamState { num : Z; used : Z; sec_cap : Z; flags : Z; cam_cache : list sec_cam_ent }.

Definition set_used (u : Z) (c : cam_state) : cam_state := CamState (num c) u (sec_cap c) (flags c) (cam_cache c).
Definition set_cache (l : list sec_cam_ent) (c : cam_state) : cam_state :=
  CamState (num c) (used c) (sec_cap c) (flags c) l.
Definition rtw_camctl_set_flags (f : Z) (c : cam_state) : cam_state :=
  CamState (num c) (used c) (sec_cap c) (Z.lor (flags c) f) (cam_cache c).

(** ** The bitmap *)

Definition BIT (i : Z) : Z := Z.shiftl 1 i.

Definition rtw_sec_camid_is_set (m0 id : Z) : bool := if id <? 32 then negb (Z.land m0 (BIT id) =? 0) else false.
Definition rtw_sec_cam_map_set (m0 id : Z) : Z := if id <? 32 then Z.lor m0 (BIT id) else m0.
Definition rtw_sec_cam_map_clr (m0 id : Z) : Z := if id <? 32 then Z.ldiff m0 (BIT id) else m0.

(** ** Queries *)

Definition _rtw_sec_camid_is_used (c : cam_state) (id : Z) : bool :=
  if num c <=? id then false else rtw_sec_camid_is_set (used c) id.

Definition _rtw_camid_is_gk (c : cam_state) (cam_id : Z) : res bool :=
  if num c <=? cam_id then Ret false else
  if negb (_rtw_sec_camid_is_used c cam_id) then Ret false else
  e ← rd (cam_cache c) cam_id; Ret (negb (Z.land (ctrl e) (BIT 6) =? 0)).

Definition cam_cache_chk (c : cam_state) (id : Z) (addr : option (list Z)) (kid gk : Z) : res bool :=
  e ← rd (cam_cache c) id;
  let miss := match addr with Some a => bool_decide (mac e ≠ a) | None => false end in
  if miss then Ret false else
  if (0 <=? kid) && negb (kid =? Z.land (ctrl e) 0x03) then Ret false else
  if negb (gk =? -1) then
    g ← _rtw_camid_is_gk c id; Ret (Bool.eqb (negb (gk =? 0)) g)
  else Ret true.

(** [for (; i < num; i++)], [n] values of [i] left: the first that satisfies [f]. *)
Fixpoint first_id (f : Z -> res bool) (n : nat) (i : Z) : res Z :=
  match n with
  | O => Ret (-1)
  | S n => r ← f i; if (r : bool) then Ret i else first_id f n (i + 1)
  end.

Definition _rtw_camid_search (c : cam_state) (addr : option (list Z)) (kid gk : Z) : res Z :=
  first_id (fun i => cam_cache_chk c i addr kid gk) (Z.to_nat (num c)) 0.

(** A free entry; with [ext_sec] two in a row. *)
Definition slot_free (c : cam_state) (ext_sec : bool) (i : Z) : bool :=
  if negb (_rtw_sec_camid_is_used c i) then
    if ext_sec then (i + 1 <? num c) && negb (_rtw_sec_camid_is_used c (i + 1)) else true
  else false.

Definition rtw_get_camid (c : cam_state) (addr : option (list Z)) (kid gk : Z) (ext_sec : bool) : res Z :=
  match addr with
  | None => Ret (-1)
  | Some _ =>
      i ← _rtw_camid_search c addr kid (if negb (Z.land (sec_cap c) SEC_CAP_CHK_BMC =? 0) then gk else -1);
      if 0 <=? i then Ret i
      else first_id (fun i => Ret (slot_free c ext_sec i)) (Z.to_nat (num c)) 0
  end.

(** ** Allocation *)

(** [ap]: the interface is an access point or ad hoc; [assoc]: it is associated.
    The entry (-1: none), [*used] and the state. *)
Definition rtw_camid_alloc (c : cam_state) (ap assoc : bool) (own bssid : list Z) (sta : option (list Z)) (kid gk : Z)
    (ext_sec : bool) : res (Z * bool * cam_state) :=
  cam_id ← (match sta with
            | None => if ap then rtw_get_camid c (Some own) kid gk ext_sec
                      else if assoc then rtw_get_camid c (Some bssid) kid gk ext_sec else Ret (-1)
            | Some a => rtw_get_camid c (Some a) kid gk ext_sec
            end);
  if 0 <=? cam_id then
    let u := rtw_sec_cam_map_set (used c) cam_id in
    let u' := if ext_sec then rtw_sec_cam_map_set u (cam_id + 1) else u in
    Ret (cam_id, _rtw_sec_camid_is_used c cam_id, set_used u' c)
  else Ret (cam_id, false, c).

Definition rtw_camid_set (c : cam_state) (cam_id : Z) : cam_state :=
  if cam_id <? num c then set_used (rtw_sec_cam_map_set (used c) cam_id) c else c.
Definition rtw_camid_free (c : cam_state) (cam_id : Z) : cam_state :=
  if cam_id <? num c then set_used (rtw_sec_cam_map_clr (used c) cam_id) c else c.

(** ** Entries *)

Definition write_cam_cache (c : cam_state) (id ctrl : Z) (mac key : list Z) : res cam_state :=
  m ← slice mac 0 6; k ← slice key 0 16; l ← wr (cam_cache c) id (CamEnt ctrl m k); Ret (set_cache l c).

(** An entry with bit 9 takes two slots. *)
Definition write_cam (c : cam_state) (id ctrl : Z) (mac key : list Z) : res cam_state :=
  if negb (Z.land ctrl (BIT 9) =? 0) then
    c ← write_cam_cache c id ctrl mac key;
    write_cam_cache c (id + 1) (Z.lor ctrl (BIT 5)) mac (drop 16 key)
  else write_cam_cache c id ctrl mac key.

Definition clear_cam_entry (c : cam_state) (id : Z) : res cam_state :=
  l ← wr (cam_cache c) id null_ent; Ret (set_cache l c).

Fixpoint get_sec_camids (c : cam_state) (n : nat) (i : Z) (left_ : nat) : list Z :=
  match n with
  | O => []
  | S n =>
      if _rtw_sec_camid_is_used c i then
        match left_ with
        | O => []
        | S O => [i]
        | S l => i :: get_sec_camids c n (i + 1) l
        end
      else get_sec_camids c n (i + 1) left_
  end.

(** [rtw_get_sec_camid]: the ids stored, at most [max_bk_key_num] (positive). *)
Definition rtw_get_sec_camid (c : cam_state) (max_bk_key_num : nat) : list Z :=
  get_sec_camids c (Z.to_nat (num c)) 0 max_bk_key_num.

Definition rtw_get_empty_cam_entry (c : cam_state) (start_camid : Z) : res Z :=
  first_id (fun i => Ret (negb (_rtw_sec_camid_is_used c i))) (Z.to_nat (num c - start_camid)) start_camid.

(** [while ((id = rtw_camid_search(addr, kid, gk)) >= 0) { clear; free; }]. *)
Fixpoint clear_keys (fuel : nat) (c : cam_state) (addr : list Z) (kid gk : Z) : res cam_state :=
  match fuel with
  | O => NoFuel
  | S fuel =>
      id ← _rtw_camid_search c (Some addr) kid gk;
      if 0 <=? id then c ← clear_cam_entry c id; clear_keys fuel (rtw_camid_free c id) addr kid gk
      else Ret c
  end.

(** The synchronous branch of [rtw_clearstakey_cmd]. *)
Definition rtw_clearstakey_cmd (fuel : nat) (c : cam_state) (addr : list Z) : res cam_state := clear_keys fuel c addr (-1) (-1).

(** ** Installing the key of a station *)

Record set_stakey_parm := StakeyParm { algorithm : Z; keyid : Z; gk : bool; sta_addr : list Z; sta_key : list Z }.

(** What the handler leaves: the code it returns, [enc_algo] of the interface when
    it is set, whether [psta->keytrack] was incremented, and the cache. *)
Record stakey_out := StakeyOut { rsp : Z; enc_algo : option Z; keytrack_inc : bool; after : cam_state }.

Definition stakey_ctrl (p : set_stakey_parm) (spp : bool) : Z :=
  let ctrl := Z.lor (Z.lor (BIT 15) (Z.shiftl (Z.land (algorithm p) 0x07) 2)) (keyid p) in
  let ctrl := if gk p then Z.lor ctrl (BIT 6) else ctrl in
  let ctrl := if negb (Z.land (algorithm p) _SEC_TYPE_256_ =? 0) then Z.lor ctrl (BIT 9) else ctrl in
  if spp then Z.lor ctrl (BIT 7) else ctrl.

(** [known]: [rtw_get_stainfo] finds the address; [spp]: [amsdu_spp_enable] succeeds. *)
Definition set_stakey_hdl (fuel : nat) (c : cam_state) (ap assoc known spp : bool) (own bssid : list Z) (p : set_stakey_parm)
    : res stakey_out :=
  if algorithm p =? _NO_PRIVACY_ then
    c ← clear_keys fuel c (sta_addr p) (-1) (-1); Ret (StakeyOut H2C_SUCCESS_RSP None false c)
  else if negb known then Ret (StakeyOut H2C_REJECTED None false c)
  else
  let ext := negb (Z.land (algorithm p) _SEC_TYPE_256_ =? 0) in
  '(cam_id, was_used, c) ← rtw_camid_alloc c ap assoc own bssid (Some (sta_addr p)) (keyid p) (if gk p then 1 else 0) ext;
  if cam_id <? 0 then Ret (StakeyOut H2C_SUCCESS (Some (algorithm p)) false c) else
  g ← _rtw_camid_is_gk c cam_id;
  c ← (if negb (gk p) && was_used && g
       then clear_keys fuel (rtw_camctl_set_flags SEC_STATUS_STA_PK_GK_CONFLICT_DIS_BMC_SEARCH c) (sta_addr p) (-1) 1
       else Ret c);
  c ← write_cam c cam_id (stakey_ctrl p spp) (sta_addr p) (sta_key p);
  Ret (StakeyOut H2C_SUCCESS_RSP (Some (algorithm p)) (negb (gk p)) c).

(** ** Specification *)

(** The entry at [i], and whether its bit is set. *)
Definition entry (c : cam_state) (i : Z) : option sec_cam_ent := cam_cache c !! Z.to_nat i.
Definition in_use (c : cam_state) (i : Z) : bool := Z.testbit (used c) i.

Record cam_inv (c : cam_state) : Prop := {
  inv_num : 0 <= num c <= SEC_CAM_ENT_NUM_SW_LIMIT;
  inv_len : zlen (cam_cache c) = SEC_CAM_ENT_NUM_SW_LIMIT;
  inv_free : forall i, 0 <= i < num c -> in_use c i = false -> entry c i = Some null_ent
}.

(** The test of [cam_cache_chk] on the fields of the entry. *)
Definition ent_matches (addr : list Z) (kid gk : Z) (e : sec_cam_ent) (u : bool) : bool :=
  bool_decide (mac e = addr) && ((kid <? 0) || (kid =? Z.land (ctrl e) 3))
  && ((gk =? -1) || Bool.eqb (negb (gk =? 0)) (u && Z.testbit (ctrl e) 6)).

Definition matches (c : cam_state) (addr : list Z) (kid gk : Z) (i : Z) : bool :=
  match entry c i with Some e => ent_matches addr kid gk e (in_use c i) | None => false end.

(** ** Bits *)

Lemma testbit_BIT i j : 0 <= i -> 0 <= j -> Z.testbit (BIT i) j = (i =? j).
Proof. intros. unfold BIT. rewrite Z.shiftl_1_l. destruct (Z.eqb_spec i j) as [->|]; [by rewrite Z.pow2_bits_true|by rewrite Z.pow2_bits_false]. Qed.

Lemma land_BIT x i : 0 <= i -> negb (Z.land x (BIT i) =? 0) = Z.testbit x i.
Proof.
  intros Hi. destruct (Z.testbit x i) eqn:E.
  - apply negb_true_iff, Z.eqb_neq. intros H. apply (f_equal (fun z => Z.testbit z i)) in H.
    rewrite Z.land_spec, testbit_BIT, E, Z.eqb_refl, Z.bits_0 in H by lia. done.
  - apply negb_false_iff, Z.eqb_eq, Z.bits_inj'. intros j Hj. rewrite Z.land_spec, testbit_BIT, Z.bits_0 by lia.
    destruct (Z.eqb_spec i j) as [->|]; [by rewrite E|by rewrite andb_false_r].
Qed.

Lemma used_spec c i : 0 <= i < num c -> num c <= 32 -> _rtw_sec_camid_is_used c i = in_use c i.
Proof. intros. unfold _rtw_sec_camid_is_used, rtw_sec_camid_is_set, in_use. zdecide. by rewrite land_BIT by lia. Qed.

Lemma map_set_spec m i j : 0 <= i < 32 -> 0 <= j -> Z.testbit (rtw_sec_cam_map_set m i) j = (i =? j) || Z.testbit m j.
Proof. intros. unfold rtw_sec_cam_map_set. zdecide. rewrite Z.lor_spec, testbit_BIT by lia. apply orb_comm. Qed.

Lemma map_set_out m i : 32 <= i -> rtw_sec_cam_map_set m i = m.
Proof. intros. unfold rtw_sec_cam_map_set. by zdecide. Qed.

Lemma map_clr_spec m i j : 0 <= i < 32 -> 0 <= j -> Z.testbit (rtw_sec_cam_map_clr m i) j = negb (i =? j) && Z.testbit m j.
Proof. intros. unfold rtw_sec_cam_map_clr. zdecide. rewrite Z.ldiff_spec, testbit_BIT by lia. apply andb_comm. Qed.

(** ** Searching *)

Lemma entry_in c i : cam_inv c -> 0 <= i < 32 -> exists e, entry c i = Some e /\ rd (cam_cache c) i = Ret e.
Proof.
  intros Hc Hi. pose proof (inv_len _ Hc) as L. unfold SEC_CAM_ENT_NUM_SW_LIMIT in L.
  destruct (rd_in (cam_cache c) i) as (e & E & _); [lia|]. exists e. split; [|done].
  by apply rd_Ret in E as [_ ?].
Qed.

Lemma is_gk_spec c i e : cam_inv c -> 0 <= i < num c -> entry c i = Some e ->
  _rtw_camid_is_gk c i = Ret (in_use c i && Z.testbit (ctrl e) 6).
Proof.
  intros Hc Hi E. pose proof (inv_num _ Hc) as N. unfold SEC_CAM_ENT_NUM_SW_LIMIT in N.
  unfold _rtw_camid_is_gk. zdecide. rewrite used_spec by lia. destruct (in_use c i); [|done]. simpl.
  destruct (entry_in c i) as (e' & E' & ->); [done|lia|]. simp_res. rewrite land_BIT by lia. by simplify_eq.
Qed.

Lemma chk_spec c addr kid gk i : cam_inv c -> 0 <= i < num c ->
  cam_cache_chk c i (Some addr) kid gk = Ret (matches c addr kid gk i).
Proof.
  intros Hc Hi. pose proof (inv_num _ Hc) as N. unfold SEC_CAM_ENT_NUM_SW_LIMIT in N.
  destruct (entry_in c i) as (e & E & R); [done|lia|].
  unfold cam_cache_chk, matches, ent_matches. rewrite E, R. simp_res.
  rewrite bool_decide_not. destruct (bool_decide (mac e = addr)); [|done]. simpl.
  rewrite (is_gk_spec c i e) by done.
  destruct (Z.leb_spec 0 kid), (Z.ltb_spec kid 0); try lia; simpl; [destruct (kid =? _)|]; simpl; try done;
    by destruct (gk =? -1).
Qed.

(** The first index from [i] on that satisfies [g]: the outcome of the scan. *)
Definition is_first (g : Z -> bool) (i n k : Z) : Prop :=
  (i <= k < n /\ g k = true /\ forall j, i <= j < k -> g j = false)
  \/ (k = -1 /\ forall j, i <= j < n -> g j = false).

Lemma first_id_spec f g n i : (forall j, i <= j < i + Z.of_nat n -> f j = Ret (g j)) ->
  exists k, first_id f n i = Ret k /\ is_first g i (i + Z.of_nat n) k.
Proof.
  revert i. induction n as [|n IH]; intros i H; simpl.
  { exists (-1). split; [done|]. right. split; [done|lia]. }
  rewrite (H i) by lia. simp_res. destruct (g i) eqn:G.
  { exists i. split; [done|]. left. repeat split; try lia. done. }
  destruct (IH (i + 1)) as (k & E & F). { intros. apply H. lia. }
  exists k. split; [done|]. replace (i + Z.of_nat (S n)) with (i + 1 + Z.of_nat n) by lia.
  assert (forall P, (forall j, i + 1 <= j < P -> g j = false) -> forall j, i <= j < P -> g j = false) as X.
  { intros P HP j Hj. destruct (decide (j = i)) as [->|]; [done|]. apply HP. lia. }
  destruct F as [(? & ? & F)|(? & F)]; [left|right]; repeat split; try lia; try done; by apply X.
Qed.

Lemma camid_search_spec c addr kid gk : cam_inv c ->
  exists k, _rtw_camid_search c (Some addr) kid gk = Ret k /\ is_first (matches c addr kid gk) 0 (num c) k.
Proof.
  intros Hc. pose proof (inv_num _ Hc). unfold _rtw_camid_search.
  destruct (first_id_spec (fun i => cam_cache_chk c i (Some addr) kid gk) (matches c addr kid gk) (Z.to_nat (num c)) 0)
    as (k & E & F).
  { intros j Hj. apply chk_spec; [done|lia]. }
  exists k. split; [done|]. by rewrite Z2Nat.id in F by lia.
Qed.

(** ** Clearing *)

(** [c'] is [c] with the slots that satisfy [P] emptied and freed. *)
Record cleared (P : Z -> bool) (c c' : cam_state) : Prop := {
  clr_num : num c' = num c;
  clr_cap : sec_cap c' = sec_cap c;
  clr_flags : flags c' = flags c;
  clr_entry : forall i, 0 <= i -> entry c' i = if P i then Some null_ent else entry c i;
  clr_used : forall i, 0 <= i -> in_use c' i = negb (P i) && in_use c i
}.

Lemma zlen_insert {A} (l : list A) n x : zlen (<[n := x]> l) = zlen l.
Proof. unfold zlen. by rewrite length_insert. Qed.

Lemma clear_one c k : cam_inv c -> 0 <= k < num c -> exists c1, clear_cam_entry c k = Ret c1
  /\ cleared (fun i => i =? k) c (rtw_camid_free c1 k) /\ cam_inv (rtw_camid_free c1 k).
Proof.
  intros Hc Hk. pose proof (inv_num _ Hc) as N. pose proof (inv_len _ Hc) as L.
  unfold SEC_CAM_ENT_NUM_SW_LIMIT in *. unfold clear_cam_entry. rewrite wr_Ret by lia. simp_res.
  eexists. split; [done|].
  assert (cleared (fun i => i =? k) c
    (rtw_camid_free (set_cache (<[Z.to_nat k := null_ent]> (cam_cache c)) c) k)) as Hcl.
  { unfold rtw_camid_free. simpl. zdecide. split; simpl; try done.
    - intros i Hi. unfold entry. simpl. destruct (Z.eqb_spec i k) as [->|Hne].
      + apply list_lookup_insert_eq. unfold zlen in L. lia.
      + apply list_lookup_insert_ne. lia.
    - intros i Hi. unfold in_use. simpl. rewrite map_clr_spec by lia. by rewrite Z.eqb_sym. }
  split; [done|]. split; unfold SEC_CAM_ENT_NUM_SW_LIMIT.
  - by rewrite (clr_num _ _ _ Hcl).
  - unfold rtw_camid_free. simpl. zdecide. simpl. by rewrite zlen_insert.
  - rewrite (clr_num _ _ _ Hcl). intros i Hi U.
    rewrite (clr_entry _ _ _ Hcl) by lia. rewrite (clr_used _ _ _ Hcl) in U by lia.
    destruct (i =? k); [done|]. by apply (inv_free _ Hc).
Qed.

Lemma null_matches addr kid gk u : addr <> replicate 6 0 -> ent_matches addr kid gk null_ent u = false.
Proof. intros H. unfold ent_matches. rewrite bool_decide_false; [done|]. intros X. by apply H. Qed.

Lemma matches_cleared P c c' addr kid gk i : addr <> replicate 6 0 -> 0 <= i -> cleared P c c' ->
  matches c' addr kid gk i = negb (P i) && matches c addr kid gk i.
Proof.
  intros Ha Hi H. unfold matches. rewrite (clr_entry _ _ _ H), (clr_used _ _ _ H) by done.
  destruct (P i); simpl; [by apply null_matches|done].
Qed.

Lemma cleared_none P c : (forall i, 0 <= i -> P i = false) -> cleared P c c.
Proof. intros H. split; try done; intros i Hi; by rewrite H. Qed.

Lemma cleared_trans P Q R c c' c'' : (forall i, 0 <= i -> R i = P i || (negb (P i) && Q i)) ->
  cleared P c c' -> cleared Q c' c'' -> cleared R c c''.
Proof.
  intros HR [? ? ? E1 U1] [? ? ? E2 U2]. split; try congruence; intros i Hi; rewrite HR by done.
  - rewrite E2, E1 by done. by destruct (P i), (Q i).
  - rewrite U2, U1 by done. by destruct (P i), (Q i).
Qed.

Lemma clear_keys_from fuel c addr kid gk lo :
  cam_inv c -> addr <> replicate 6 0 -> 0 <= lo <= num c -> num c - lo < Z.of_nat fuel ->
  (forall i, 0 <= i < lo -> matches c addr kid gk i = false) ->
  exists c', clear_keys fuel c addr kid gk = Ret c'
  /\ cleared (fun i => (i <? num c) && matches c addr kid gk i) c c' /\ cam_inv c'.
Proof.
  revert c lo. induction fuel as [|fuel IH]; intros c lo Hc Ha Hlo Hf Hm; [lia|]. simpl.
  destruct (camid_search_spec c addr kid gk Hc) as (k & E & F). bind_step E.
  destruct F as [(Hk & Mk & Hlt)|(-> & Hno)].
  - zdecide. destruct (clear_one c k Hc) as (c1 & E1 & Hcl & Hc1); [lia|]. bind_step E1.
    assert (lo <= k) as Hlok.
    { destruct (decide (k < lo)); [|lia]. rewrite Hm in Mk by lia. done. }
    pose proof (clr_num _ _ _ Hcl) as Hn.
    destruct (IH (rtw_camid_free c1 k) (k + 1)) as (c' & E' & Hcl' & Hc'); [done|done|lia|lia| |].
    { intros i Hi. rewrite (matches_cleared _ _ _ _ _ _ i Ha (proj1 Hi) Hcl).
      destruct (Z.eqb_spec i k); [done|]. simpl. apply Hlt. lia. }
    exists c'. split; [done|]. split; [|done]. eapply cleared_trans; [|done|done].
    intros i Hi. simpl. rewrite Hn, (matches_cleared _ _ _ _ _ _ i Ha Hi Hcl).
    destruct (Z.eqb_spec i k) as [->|]; simpl; [zdecide; by rewrite Mk|done].
  - exists c. split; [done|]. split; [|done]. apply cleared_none. intros i Hi.
    destruct (Z.ltb_spec i (num c)); [|done]. apply Hno. lia.
Qed.

(** The slots that hold a key of [addr]. *)
Definition owns (c : cam_state) (addr : list Z) (i : Z) : bool :=
  (i <? num c) && match entry c i with Some e => bool_decide (mac e = addr) | None => false end.

Lemma matches_any c addr i : matches c addr (-1) (-1) i = match entry c i with Some e => bool_decide (mac e = addr) | None => false end.
Proof. unfold matches, ent_matches. destruct (entry c i); [|done]. simpl. by rewrite !andb_true_r. Qed.

Lemma cleared_ext P Q c c' : (forall i, P i = Q i) -> cleared P c c' -> cleared Q c c'.
Proof. intros H [? ? ? E U]. split; try done; intros i Hi; rewrite <- H; auto. Qed.

(** C35: Removing the keys of a station with a non-zero address, by [rtw_clearstakey_cmd] or by [set_stakey_hdl] with
    no cipher, ends within one search per slot plus one, empties and frees exactly the slots that hold the address,
    leaves the others as they are, and keeps the invariant that a free slot is empty. *)
Theorem cam_clear_exact fuel c addr ap assoc known spp own bssid p :
  cam_inv c -> addr <> replicate 6 0 -> num c < Z.of_nat fuel -> algorithm p = _NO_PRIVACY_ -> sta_addr p = addr ->
  exists c', rtw_clearstakey_cmd fuel c addr = Ret c'
  /\ set_stakey_hdl fuel c ap assoc known spp own bssid p = Ret (StakeyOut H2C_SUCCESS_RSP None false c')
  /\ cleared (owns c addr) c c' /\ cam_inv c'.
Proof.
  intros Hc Ha Hf Hp Hs. pose proof (inv_num _ Hc).
  destruct (clear_keys_from fuel c addr (-1) (-1) 0 Hc Ha) as (c' & E & Hcl & Hc'); [lia|lia|lia|].
  exists c'. split; [done|]. split.
  { unfold set_stakey_hdl. rewrite Hp, Hs. simpl. by bind_step E. }
  split; [|done]. eapply cleared_ext; [|done]. intros i. unfold owns. by rewrite matches_any.
Qed.

(** For the all-zero address the loop that removes keys never ends as long as one slot is free: an empty slot
    matches the address and clearing it changes nothing. *)
Theorem cam_clear_zero_diverges c i fuel :
  cam_inv c -> 0 <= i < num c -> in_use c i = false -> rtw_clearstakey_cmd fuel c (replicate 6 0) = NoFuel.
Proof.
  revert c i. unfold rtw_clearstakey_cmd. induction fuel as [|fuel IH]; intros c i Hc Hi U; [done|]. simpl.
  destruct (camid_search_spec c (replicate 6 0) (-1) (-1) Hc) as (k & E & F). bind_step E.
  destruct F as [(Hk & _ & _)|(-> & Hno)].
  - zdecide. destruct (clear_one c k Hc) as (c1 & E1 & Hcl & Hc1); [lia|]. bind_step E1.
    apply (IH _ k Hc1); [rewrite (clr_num _ _ _ Hcl); lia|]. rewrite (clr_used _ _ _ Hcl) by lia. by rewrite Z.eqb_refl.
  - specialize (Hno i ltac:(lia)). rewrite matches_any, (inv_free _ Hc) in Hno by done. done.
Qed.

(** ** Installing *)

Definition is_ext (p : set_stakey_parm) : bool := negb (Z.land (algorithm p) _SEC_TYPE_256_ =? 0).
Definition gk_arg (p : set_stakey_parm) : Z := if gk p then 1 else 0.

Record parm_ok (p : set_stakey_parm) : Prop := {
  p_alg : algorithm p <> _NO_PRIVACY_;
  p_kid : 0 <= keyid p < 4;
  p_addr : zlen (sta_addr p) = 6;
  p_nz : sta_addr p <> replicate 6 0;
  p_key : zlen (sta_key p) = 32
}.

Lemma stakey_ctrl_bits p spp : 0 <= keyid p < 4 ->
  Z.land (stakey_ctrl p spp) 3 = keyid p /\ Z.testbit (stakey_ctrl p spp) 6 = gk p
  /\ Z.testbit (stakey_ctrl p spp) 9 = is_ext p.
Proof.
  intros Hk. unfold stakey_ctrl. fold (is_ext p).
  assert (0 <= Z.land (algorithm p) 0x07 < 8) as Ha by (apply (land_fits_r 3); unfold fits; lia).
  revert Ha. generalize (Z.land (algorithm p) 0x07) as a. intros a Ha. revert Hk. generalize (keyid p) as k. intros k Hk.
  assert (forallb (fun k => forallb (fun a => forallb (fun b => forallb (fun e => forallb (fun s =>
    let x := Z.lor (Z.lor (BIT 15) (Z.shiftl a 2)) k in let x := if b : bool then Z.lor x (BIT 6) else x in
    let x := if e : bool then Z.lor x (BIT 9) else x in let x := if s : bool then Z.lor x (BIT 7) else x in
    (Z.land x 3 =? k) && Bool.eqb (Z.testbit x 6) b && Bool.eqb (Z.testbit x 9) e) [true; false]) [true; false]) [true; false])
    (seqZ 0 8)) (seqZ 0 4) = true) as T by by_eval.
  pose proof (forallb_seqZ _ _ (forallb_seqZ _ _ T k Hk) a Ha) as T'. rewrite !forallb_forall in T'.
  specialize (T' (gk p) ltac:(destruct (gk p); simpl; auto)). rewrite forallb_forall in T'.
  specialize (T' (is_ext p) ltac:(destruct (is_ext p); simpl; auto)). rewrite forallb_forall in T'.
  specialize (T' spp ltac:(destruct spp; simpl; auto)).
  apply andb_true_iff in T' as [T' T3]. apply andb_true_iff in T' as [T1 T2].
  apply Z.eqb_eq in T1. apply eqb_prop in T2, T3. done.
Qed.

(** [c'] is [c] with the entries [e] at [id] and, for two-slot keys, [e'] after it. *)
Record written (id : Z) (e : sec_cam_ent) (e' : option sec_cam_ent) (c c' : cam_state) : Prop := {
  wrt_num : num c' = num c;
  wrt_cap : sec_cap c' = sec_cap c;
  wrt_used : used c' = used c;
  wrt_len : zlen (cam_cache c') = zlen (cam_cache c);
  wrt_entry : forall j, 0 <= j -> entry c' j =
    if j =? id then Some e else
    match e' with Some e' => if j =? id + 1 then Some e' else entry c j | None => entry c j end
}.

Lemma write_cache_spec c id ct addr key : zlen addr = 6 -> 16 <= zlen key -> 0 <= id < zlen (cam_cache c) ->
  exists c', write_cam_cache c id ct addr key = Ret c' /\ written id (CamEnt ct addr (take 16 key)) None c c'.
Proof.
  intros Ha Hk Hid. unfold write_cam_cache.
  rewrite (slice_Ret addr 0 6) by lia. simp_res. rewrite (slice_Ret key 0 16) by lia. simp_res.
  rewrite wr_Ret by lia. simp_res. eexists. split; [done|].
  rewrite (take_ge (drop _ addr)) by (rewrite length_drop; unfold zlen in Ha; lia).
  split; simpl; try done; [by rewrite zlen_insert|].
  intros j Hj. unfold entry. simpl. destruct (Z.eqb_spec j id) as [->|Hne].
  - apply list_lookup_insert_eq. unfold zlen in Hid. lia.
  - apply list_lookup_insert_ne. lia.
Qed.

Lemma write_cam_spec c id ct addr key : zlen addr = 6 -> zlen key = 32 -> 0 <= id < zlen (cam_cache c) ->
  (Z.testbit ct 9 = true -> id + 1 < zlen (cam_cache c)) ->
  exists c', write_cam c id ct addr key = Ret c' /\ written id (CamEnt ct addr (take 16 key))
    (if Z.testbit ct 9 then Some (CamEnt (Z.lor ct (BIT 5)) addr (take 16 (drop 16 key))) else None) c c'.
Proof.
  intros Ha Hk Hid Hx. unfold write_cam. rewrite land_BIT by lia. destruct (Z.testbit ct 9).
  - destruct (write_cache_spec c id ct addr key) as (c1 & E1 & W1); [done|lia|done|]. bind_step E1.
    destruct (write_cache_spec c1 (id + 1) (Z.lor ct (BIT 5)) addr (drop 16 key)) as (c2 & E2 & W2); [done| | |].
    { unfold zlen in *. rewrite length_drop. lia. }
    { rewrite (wrt_len _ _ _ _ _ W1). specialize (Hx eq_refl). lia. }
    exists c2. split; [done|]. destruct W1 as [? ? ? ? V1], W2 as [? ? ? ? V2]. split; try congruence.
    intros j Hj. rewrite V2, V1 by done. destruct (Z.eqb_spec j id), (Z.eqb_spec j (id + 1)); try lia; done.
  - destruct (write_cache_spec c id ct addr key) as (c1 & E1 & W1); [done|lia|done|]. by exists c1.
Qed.

(** The slot [rtw_get_camid] takes: the first that matches, else the first free one. *)
Definition slot_for (c : cam_state) (addr : list Z) (kid gk : Z) (ext : bool) (k : Z) : Prop :=
  (0 <= k < num c /\ matches c addr kid gk k = true /\ forall j, 0 <= j < k -> matches c addr kid gk j = false)
  \/ ((forall j, 0 <= j < num c -> matches c addr kid gk j = false) /\ is_first (slot_free c ext) 0 (num c) k).

Lemma get_camid_spec c addr kid gk ext : cam_inv c -> Z.testbit (sec_cap c) 0 = true ->
  exists k, rtw_get_camid c (Some addr) kid gk ext = Ret k /\ slot_for c addr kid gk ext k.
Proof.
  intros Hc Hb. pose proof (inv_num _ Hc). unfold rtw_get_camid.
  change SEC_CAP_CHK_BMC with (BIT 0). rewrite land_BIT, Hb by lia.
  destruct (camid_search_spec c addr kid gk Hc) as (k & E & F). bind_step E.
  destruct F as [F|(-> & Hno)].
  - exists k. destruct F as (? & F). zdecide. split; [done|]. by left.
  - simpl. destruct (first_id_spec (fun i => Ret (slot_free c ext i)) (slot_free c ext) (Z.to_nat (num c)) 0)
      as (k & Ek & Fk); [done|].
    exists k. split; [done|]. right. split; [done|]. by rewrite Z2Nat.id in Fk by lia.
Qed.

Lemma slot_free_spec c ext k : cam_inv c -> 0 <= k < num c -> slot_free c ext k = true ->
  in_use c k = false /\ (ext = true -> k + 1 < num c /\ in_use c (k + 1) = false).
Proof.
  intros Hc Hk H. pose proof (inv_num _ Hc) as N. unfold SEC_CAM_ENT_NUM_SW_LIMIT in N. unfold slot_free in H.
  rewrite used_spec in H by lia. destruct (in_use c k); [done|]. split; [done|]. intros ->. simpl in H. invbool.
  rewrite used_spec in * by lia. done.
Qed.

Lemma matches_owns c addr kid gk k : 0 <= k < num c -> matches c addr kid gk k = true -> owns c addr k = true.
Proof.
  unfold matches, owns, ent_matches. intros Hk H. zdecide. destruct (entry c k); [|done]. simpl. by invbool; rewrite bool_decide_true.
Qed.

(** A slot that holds a non-zero address is in use. *)
Lemma owns_used c addr k : cam_inv c -> addr <> replicate 6 0 -> 0 <= k -> owns c addr k = true -> in_use c k = true.
Proof.
  intros Hc Ha Hk H. unfold owns in H. apply andb_true_iff in H as [Hn H]. apply Z.ltb_lt in Hn.
  destruct (in_use c k) eqn:U; [done|]. rewrite (inv_free _ Hc) in H by done. apply bool_decide_eq_true in H. by destruct Ha.
Qed.

(** What holds of the slot taken: it is free or the station's, and the one after it, for a 256-bit key, is free unless
    the slot held the key already. *)
Lemma slot_for_owner c p k : cam_inv c -> parm_ok p -> 0 <= k ->
  slot_for c (sta_addr p) (keyid p) (gk_arg p) (is_ext p) k ->
  k < num c /\ (in_use c k = true -> owns c (sta_addr p) k = true)
  /\ (matches c (sta_addr p) (keyid p) (gk_arg p) k = true
      \/ (is_ext p = true -> k + 1 < num c /\ in_use c (k + 1) = false)).
Proof.
  intros Hc Hp Hk [(Hr & M & _)|(_ & [(Hr & F & _)|(-> & _)])]; [| |lia].
  - split; [lia|]. split; [intros _; by eapply matches_owns|by left].
  - apply slot_free_spec in F as [F1 F2]; [|done|done]. split; [lia|]. split; [congruence|]. by right.
Qed.

Lemma alloc_spec c ap assoc own bssid a kid gk ext k : cam_inv c -> rtw_get_camid c (Some a) kid gk ext = Ret k ->
  0 <= k < num c -> (ext = true -> k + 1 < SEC_CAM_ENT_NUM_SW_LIMIT) ->
  exists c', rtw_camid_alloc c ap assoc own bssid (Some a) kid gk ext = Ret (k, in_use c k, c')
  /\ num c' = num c /\ sec_cap c' = sec_cap c /\ cam_cache c' = cam_cache c
  /\ (forall j, 0 <= j -> in_use c' j = (j =? k) || (ext && (j =? k + 1)) || in_use c j).
Proof.
  intros Hc E Hk Hx. pose proof (inv_num _ Hc) as N. unfold SEC_CAM_ENT_NUM_SW_LIMIT in N, Hx.
  unfold rtw_camid_alloc. bind_step E. zdecide. rewrite used_spec by lia. eexists. split; [done|]. repeat split.
  intros j Hj. unfold in_use. simpl. destruct ext; simpl.
  - specialize (Hx eq_refl). rewrite !map_set_spec by lia. rewrite (Z.eqb_sym (k + 1)), (Z.eqb_sym k).
    by destruct (j =? k), (j =? k + 1).
  - rewrite map_set_spec by lia. rewrite (Z.eqb_sym k). by rewrite orb_false_r.
Qed.

Definition new_ent (p : set_stakey_parm) (spp : bool) : sec_cam_ent :=
  CamEnt (stakey_ctrl p spp) (sta_addr p) (take 16 (sta_key p)).
Definition new_ent2 (p : set_stakey_parm) (spp : bool) : sec_cam_ent :=
  CamEnt (Z.lor (stakey_ctrl p spp) (BIT 5)) (sta_addr p) (take 16 (drop 16 (sta_key p))).

(** [c'] is [c] with the key of [p] in slot [k], or in [k] and the one after it. *)
Record installed (p : set_stakey_parm) (spp : bool) (k : Z) (c c' : cam_state) : Prop := {
  ins_num : num c' = num c;
  ins_len : zlen (cam_cache c') = zlen (cam_cache c);
  ins_used : forall j, 0 <= j -> in_use c' j = (j =? k) || (is_ext p && (j =? k + 1)) || in_use c j;
  ins_entry : forall j, 0 <= j -> entry c' j =
    if j =? k then Some (new_ent p spp) else
    if is_ext p && (j =? k + 1) then Some (new_ent2 p spp) else entry c j
}.

(** A pairwise key does not take a slot that holds a group key. *)
Lemma no_conflict c p k e : cam_inv c -> 0 <= k < num c -> entry c k = Some e ->
  slot_for c (sta_addr p) (keyid p) (gk_arg p) (is_ext p) k -> negb (gk p) && in_use c k && Z.testbit (ctrl e) 6 = false.
Proof.
  intros Hc Hk E [(Hr & M & _)|(_ & [(_ & F & _)|(-> & _)])]; [| |lia].
  - unfold matches in M. rewrite E in M. unfold ent_matches, gk_arg in M. destruct (gk p); [done|]. simpl in *.
    apply andb_true_iff in M as [_ M]. by destruct (in_use c k && _).
  - apply slot_free_spec in F as [-> _]; [|done|done]. by rewrite andb_false_r.
Qed.

Lemma stakey_run fuel c ap assoc spp own bssid p k :
  cam_inv c -> parm_ok p -> 0 <= k < num c -> (is_ext p = true -> k + 1 < SEC_CAM_ENT_NUM_SW_LIMIT) ->
  rtw_get_camid c (Some (sta_addr p)) (keyid p) (gk_arg p) (is_ext p) = Ret k ->
  slot_for c (sta_addr p) (keyid p) (gk_arg p) (is_ext p) k ->
  exists c', set_stakey_hdl fuel c ap assoc true spp own bssid p
    = Ret (StakeyOut H2C_SUCCESS_RSP (Some (algorithm p)) (negb (gk p)) c') /\ installed p spp k c c'.
Proof.
  intros Hc Hp Hk Hn2 G S.
  pose proof (inv_num _ Hc) as N. pose proof (inv_len _ Hc) as L. unfold SEC_CAM_ENT_NUM_SW_LIMIT in N, L.
  destruct (alloc_spec c ap assoc own bssid _ _ _ _ k Hc G) as (c1 & E1 & N1 & B1 & C1 & U1); [lia|done|].
  unfold SEC_CAM_ENT_NUM_SW_LIMIT in Hn2.
  unfold set_stakey_hdl. rewrite (proj2 (Z.eqb_neq _ _) (p_alg _ Hp)). simpl.
  fold (is_ext p) (gk_arg p). bind_step E1. zdecide.
  destruct (entry_in c k Hc) as (e & E & R); [lia|].
  assert (_rtw_camid_is_gk c1 k = Ret (Z.testbit (ctrl e) 6)) as Eg.
  { unfold _rtw_camid_is_gk. rewrite N1. zdecide. rewrite used_spec, U1, Z.eqb_refl by lia. simpl.
    rewrite C1. bind_step R. by rewrite land_BIT by lia. }
  bind_step Eg. rewrite (no_conflict c p k e Hc) by done. simp_res.
  destruct (stakey_ctrl_bits p spp (p_kid _ Hp)) as (_ & _ & B9).
  destruct (write_cam_spec c1 k (stakey_ctrl p spp) (sta_addr p) (sta_key p)) as (c2 & E2 & W);
    [apply Hp|apply Hp|rewrite C1; lia|rewrite C1, B9; intros X; specialize (Hn2 X); lia|].
  bind_step E2. exists c2. split; [done|]. destruct W as [Wn _ Wu Wl We]. rewrite B9 in We.
  split; [congruence|congruence| |].
  - intros j Hj. unfold in_use. rewrite Wu. by apply U1.
  - intros j Hj. rewrite We by done. unfold entry. rewrite C1. by destruct (is_ext p).
Qed.

Lemma installed_inv p spp k c c' : cam_inv c -> installed p spp k c c' -> cam_inv c'.
Proof.
  intros [N L F] [N' L' U' E']. split; [by rewrite N'|by rewrite L'|].
  intros i Hi U. rewrite N' in Hi. rewrite U' in U by lia. rewrite E' by lia.
  destruct (i =? k), (is_ext p && (i =? k + 1)); try done. by apply F.
Qed.

Lemma new_matches p spp : parm_ok p -> ent_matches (sta_addr p) (keyid p) (gk_arg p) (new_ent p spp) true = true.
Proof.
  intros Hp. destruct (stakey_ctrl_bits p spp (p_kid _ Hp)) as (B3 & B6 & _). pose proof (p_kid _ Hp).
  unfold ent_matches, new_ent, gk_arg. cbn [mac ctrl]. rewrite bool_decide_true, B3, B6, Z.eqb_refl by done.
  rewrite orb_true_r. by destruct (gk p).
Qed.

(** The key is found again, at the slot it was written to. *)
Lemma installed_search p spp k c c' : cam_inv c -> parm_ok p -> 0 <= k < num c -> installed p spp k c c' ->
  slot_for c (sta_addr p) (keyid p) (gk_arg p) (is_ext p) k ->
  _rtw_camid_search c' (Some (sta_addr p)) (keyid p) (gk_arg p) = Ret k.
Proof.
  intros Hc Hp Hk I S. pose proof (installed_inv _ _ _ _ _ Hc I) as Hc'.
  destruct (camid_search_spec c' (sta_addr p) (keyid p) (gk_arg p) Hc') as (k' & -> & F). f_equal.
  assert (matches c' (sta_addr p) (keyid p) (gk_arg p) k = true) as Mk.
  { unfold matches. rewrite (ins_entry _ _ _ _ _ I), (ins_used _ _ _ _ _ I), Z.eqb_refl by lia. by apply new_matches. }
  assert (forall j, 0 <= j < k -> matches c' (sta_addr p) (keyid p) (gk_arg p) j = false) as Hlt.
  { intros j Hj. unfold matches. rewrite (ins_entry _ _ _ _ _ I), (ins_used _ _ _ _ _ I) by lia.
    zdecide. rewrite andb_false_r. simpl. fold (matches c (sta_addr p) (keyid p) (gk_arg p) j).
    destruct S as [(_ & _ & S)|(S & _)]; apply S; lia. }
  rewrite (ins_num _ _ _ _ _ I) in F. destruct F as [(Hr & M & Fl)|(_ & Fn)].
  - destruct (Z.lt_trichotomy k k') as [?|[->|?]]; [|done|].
    + rewrite Fl in Mk by lia. done.
    + rewrite Hlt in M by lia. done.
  - rewrite Fn in Mk by lia. done.
Qed.

(** ** Keys the handler does not keep *)

#[local] Arguments Z.testbit : simpl never.

Lemma get_camid_first c addr kid gk ext k : cam_inv c -> 0 <= k < num c ->
  let g := if Z.testbit (sec_cap c) 0 then gk else -1 in
  matches c addr kid g k = true -> (forall j, 0 <= j < k -> matches c addr kid g j = false) ->
  rtw_get_camid c (Some addr) kid gk ext = Ret k.
Proof.
  intros Hc Hk g M Hlt. unfold rtw_get_camid. change SEC_CAP_CHK_BMC with (BIT 0). rewrite land_BIT by lia. fold g.
  destruct (camid_search_spec c addr kid g Hc) as (k' & E & F). bind_step E.
  assert (k' = k) as ->.
  { destruct F as [(Hr & M' & Fl)|(_ & Fn)]; [|rewrite Fn in M by lia; done].
    destruct (Z.lt_trichotomy k k') as [?|[->|?]]; [rewrite Fl in M by lia; done|done|rewrite Hlt in M' by lia; done]. }
  by zdecide.
Qed.

Lemma write_cam_oob c id ct addr key : zlen addr = 6 -> zlen key = 32 -> id + 1 = zlen (cam_cache c) ->
  Z.testbit ct 9 = true -> write_cam c id ct addr key = Oob.
Proof.
  intros Ha Hk Hid B9. unfold write_cam. rewrite land_BIT, B9 by lia.
  destruct (decide (0 <= id)).
  - destruct (write_cache_spec c id ct addr key) as (c1 & E1 & W1); [done|lia|lia|]. bind_step E1.
    unfold write_cam_cache. rewrite (slice_Ret addr 0 6) by lia. simp_res.
    rewrite (slice_Ret (drop _ _) 0 16) by (unfold zlen in *; try rewrite length_drop; lia). simp_res.
    unfold wr. rewrite (wrt_len _ _ _ _ _ W1). zdecide. by rewrite andb_false_r.
  - unfold write_cam_cache. rewrite (slice_Ret addr 0 6) by lia. simp_res. rewrite (slice_Ret key 0 16) by lia. simp_res.
    unfold wr. by zdecide.
Qed.

(** A 256-bit key whose slot is the last of the cache is written past its end. *)
Lemma stakey_oob fuel c ap assoc spp own bssid p :
  cam_inv c -> parm_ok p -> is_ext p = true -> num c = SEC_CAM_ENT_NUM_SW_LIMIT ->
  rtw_get_camid c (Some (sta_addr p)) (keyid p) (gk_arg p) (is_ext p) = Ret 31 ->
  slot_for c (sta_addr p) (keyid p) (gk_arg p) (is_ext p) 31 ->
  set_stakey_hdl fuel c ap assoc true spp own bssid p = Oob.
Proof.
  intros Hc Hp Ex N G S. pose proof (inv_len _ Hc) as L. unfold SEC_CAM_ENT_NUM_SW_LIMIT in N, L.
  unfold set_stakey_hdl. rewrite (proj2 (Z.eqb_neq _ _) (p_alg _ Hp)). simpl. fold (is_ext p) (gk_arg p).
  unfold rtw_camid_alloc. bind_step G. simpl. rewrite Ex. simpl.
  destruct (entry_in c 31 Hc) as (e & E & R); [lia|]. unfold _rtw_camid_is_gk at 1. simpl.
  rewrite !used_spec by (simpl; lia). zdecide.
  rewrite map_set_out by lia.
  match goal with |- context [in_use (set_used ?u c) 31] => assert (in_use (set_used u c) 31 = true) as -> end.
  { unfold in_use. cbn [used set_used]. by rewrite map_set_spec by lia. }
  simpl. bind_step R. rewrite land_BIT by lia.
  simp_res. rewrite (no_conflict c p 31 e Hc) by (done || lia). simp_res.
  destruct (stakey_ctrl_bits p spp (p_kid _ Hp)) as (_ & _ & B9). rewrite Ex in B9.
  rewrite write_cam_oob; [done|apply Hp|apply Hp|simpl; lia|done].
Qed.

(** C9: [set_stakey_hdl] with a key for a known station, on a chip that tells group from pairwise keys, does one of
    three things.  No slot matches and none (no two in a row for a 256-bit key) is free, and nothing changes.  Or the
    key is written, looking it up by address, key id and kind finds it, its slot is marked used, a free slot is still
    empty, and every key of another station stays where it is, except, when a 256-bit key goes to a slot that already
    held that key id of the station, whatever is in the slot after it.  Or a 256-bit key goes to the last slot, which
    already held that key id, and the handler writes past the end of the cache. *)
Theorem cam_install fuel c ap assoc spp own bssid p :
  cam_inv c -> Z.testbit (sec_cap c) 0 = true -> parm_ok p ->
  (set_stakey_hdl fuel c ap assoc true spp own bssid p = Ret (StakeyOut H2C_SUCCESS (Some (algorithm p)) false c)
   /\ forall j, 0 <= j < num c ->
      matches c (sta_addr p) (keyid p) (gk_arg p) j = false /\ slot_free c (is_ext p) j = false)
  \/ (exists k c', set_stakey_hdl fuel c ap assoc true spp own bssid p
      = Ret (StakeyOut H2C_SUCCESS_RSP (Some (algorithm p)) (negb (gk p)) c')
    /\ _rtw_camid_search c' (Some (sta_addr p)) (keyid p) (gk_arg p) = Ret k
    /\ entry c' k = Some (new_ent p spp) /\ (is_ext p = true -> entry c' (k + 1) = Some (new_ent2 p spp))
    /\ in_use c' k = true /\ cam_inv c'
    /\ forall j, 0 <= j < num c -> in_use c j = true -> owns c (sta_addr p) j = false ->
       in_use c' j = true /\
       (entry c' j = entry c j
        \/ (j = k + 1 /\ is_ext p = true /\ matches c (sta_addr p) (keyid p) (gk_arg p) k = true)))
  \/ (set_stakey_hdl fuel c ap assoc true spp own bssid p = Oob
      /\ is_ext p = true /\ matches c (sta_addr p) (keyid p) (gk_arg p) (SEC_CAM_ENT_NUM_SW_LIMIT - 1) = true).
Proof.
  intros Hc Hb Hp. destruct (get_camid_spec c (sta_addr p) (keyid p) (gk_arg p) (is_ext p) Hc Hb) as (k & G & S).
  pose proof (inv_num _ Hc) as N. unfold SEC_CAM_ENT_NUM_SW_LIMIT in N.
  destruct (decide (0 <= k)) as [Hk|Hk].
  - right. destruct (slot_for_owner c p k Hc Hp Hk S) as (Hn & O1 & O2).
    destruct (decide (is_ext p = true /\ k = 31)) as [[Ex ->]|Hlast].
    { right. split; [apply stakey_oob; try done; unfold SEC_CAM_ENT_NUM_SW_LIMIT; lia|]. split; [done|].
      destruct O2 as [M|O2]; [done|]. specialize (O2 Ex). lia. }
    left. destruct (stakey_run fuel c ap assoc spp own bssid p k) as (c' & E & I); try done; [|].
    { intros Ex. unfold SEC_CAM_ENT_NUM_SW_LIMIT. destruct (decide (k = 31)); [tauto|lia]. }
    exists k, c'. split; [done|]. split; [by apply (installed_search p spp k c)|].
    rewrite (ins_entry _ _ _ _ _ I), (ins_used _ _ _ _ _ I), Z.eqb_refl by lia. split; [done|]. split.
    { intros Ex. rewrite (ins_entry _ _ _ _ _ I), Ex, Z.eqb_refl by lia. by zdecide. }
    split; [done|]. split; [by apply (installed_inv p spp k c)|]. intros j Hj Uj Oj.
    rewrite (ins_entry _ _ _ _ _ I), (ins_used _ _ _ _ _ I), Uj by lia. rewrite orb_true_r. split; [done|].
    destruct (Z.eqb_spec j k) as [->|]; [rewrite O1 in Oj by done; done|].
    destruct (is_ext p) eqn:Ex, (Z.eqb_spec j (k + 1)) as [->|]; try (by left).
    destruct O2 as [M|O2]; [by right|]. destruct O2 as [_ O2]; [done|]. by rewrite O2 in Uj.
  - left. destruct S as [(? & _)|(Hno & [(? & _)|(-> & Hfree)])]; [lia|lia|]. split; [|by auto].
    unfold set_stakey_hdl. rewrite (proj2 (Z.eqb_neq _ _) (p_alg _ Hp)). simpl. fold (is_ext p) (gk_arg p).
    unfold rtw_camid_alloc. bind_step G. done.
Qed.

(** A 256-bit key for a station whose slot [k] for that key id exists already does not look for two slots: it
    overwrites slot [k + 1] whatever it holds, and writes past the end of the key cache when [k] is the last slot. *)
Theorem cam_256_overwrites fuel c ap assoc spp own bssid p k :
  cam_inv c -> Z.testbit (sec_cap c) 0 = true -> parm_ok p -> is_ext p = true -> 0 <= k < num c ->
  matches c (sta_addr p) (keyid p) (gk_arg p) k = true ->
  (forall j, 0 <= j < k -> matches c (sta_addr p) (keyid p) (gk_arg p) j = false) ->
  (k + 1 < num c -> exists c', set_stakey_hdl fuel c ap assoc true spp own bssid p
      = Ret (StakeyOut H2C_SUCCESS_RSP (Some (algorithm p)) (negb (gk p)) c')
    /\ entry c' (k + 1) = Some (new_ent2 p spp))
  /\ (k = 31 -> set_stakey_hdl fuel c ap assoc true spp own bssid p = Oob).
Proof.
  intros Hc Hb Hp Ex Hk M Hlt.
  assert (rtw_get_camid c (Some (sta_addr p)) (keyid p) (gk_arg p) (is_ext p) = Ret k) as G
    by (apply get_camid_first; [done|done|by rewrite Hb|by rewrite Hb]).
  split.
  - intros Hn. destruct (stakey_run fuel c ap assoc spp own bssid p k) as (c' & E & I); try done; [unfold SEC_CAM_ENT_NUM_SW_LIMIT; pose proof (inv_num _ Hc) as N; unfold SEC_CAM_ENT_NUM_SW_LIMIT in N; lia|by left|].
    exists c'. split; [done|]. rewrite (ins_entry _ _ _ _ _ I), Ex, Z.eqb_refl by lia. by zdecide.
  - intros ->. pose proof (inv_num _ Hc) as N. unfold SEC_CAM_ENT_NUM_SW_LIMIT in N.
    apply stakey_oob; try done; [unfold SEC_CAM_ENT_NUM_SW_LIMIT; lia|by left].
Qed.

(** On a chip that does not tell group from pairwise keys, a pairwise key whose address and key id are those of an
    installed group key is written to the slot of that key and the slot is then marked free: the loop that clears the
    group keys releases the slot the new key is about to be written to, so the next key installed may take it. *)
Theorem cam_conflict_unmarks fuel c ap assoc spp own bssid p k e :
  cam_inv c -> Z.testbit (sec_cap c) 0 = false -> parm_ok p -> is_ext p = false -> gk p = false ->
  num c < Z.of_nat fuel -> 0 <= k < num c -> entry c k = Some e -> Z.testbit (ctrl e) 6 = true ->
  matches c (sta_addr p) (keyid p) (-1) k = true ->
  (forall j, 0 <= j < k -> matches c (sta_addr p) (keyid p) (-1) j = false) ->
  exists c', set_stakey_hdl fuel c ap assoc true spp own bssid p
      = Ret (StakeyOut H2C_SUCCESS_RSP (Some (algorithm p)) true c')
  /\ entry c' k = Some (new_ent p spp) /\ _rtw_sec_camid_is_used c' k = false.
Proof.
  intros Hc Hb Hp Ex Hg Hf Hk Ek B6 M Hlt. pose proof (inv_num _ Hc) as N. pose proof (inv_len _ Hc) as L.
  pose proof (p_nz _ Hp) as Hnz. unfold SEC_CAM_ENT_NUM_SW_LIMIT in N, L.
  assert (in_use c k = true) as Uk by (eapply owns_used; [done|done|lia|by eapply matches_owns]).
  assert (rtw_get_camid c (Some (sta_addr p)) (keyid p) 0 false = Ret k) as G
    by (apply get_camid_first; [done|done|by rewrite Hb|by rewrite Hb]).
  destruct (alloc_spec c ap assoc own bssid _ _ _ _ k Hc G) as (c1 & E1 & N1 & B1 & C1 & U1); [lia|done|].
  assert (cam_inv c1) as Hc1.
  { split; [by rewrite N1|by rewrite C1|]. rewrite N1. intros i Hi. rewrite U1 by lia. intros U.
    unfold entry. rewrite C1. apply (inv_free _ Hc); [done|]. by destruct (i =? k). }
  assert (entry c1 k = Some e) as Ek1 by (unfold entry; by rewrite C1).
  assert (in_use c1 k = true) as Uk1 by (rewrite U1, Z.eqb_refl by lia; done).
  unfold set_stakey_hdl. rewrite (proj2 (Z.eqb_neq _ _) (p_alg _ Hp)). fold (is_ext p). rewrite Ex, Hg. cbn [negb].
  bind_step E1. zdecide. pose proof (is_gk_spec c1 k e Hc1 ltac:(lia) Ek1) as Eg. bind_step Eg. rewrite Uk, Uk1, B6. cbn [negb andb].
  set (c1' := rtw_camctl_set_flags _ c1).
  assert (cam_inv c1') as Hc1' by (destruct Hc1; by split).
  destruct (clear_keys_from fuel c1' (sta_addr p) (-1) 1 0 Hc1' Hnz) as (c2 & E2 & Hcl & Hc2); [simpl; lia|simpl; lia|lia|].
  bind_step E2. destruct (stakey_ctrl_bits p spp (p_kid _ Hp)) as (_ & _ & B9). rewrite Ex in B9.
  pose proof (inv_len _ Hc2) as L2. unfold SEC_CAM_ENT_NUM_SW_LIMIT in L2.
  destruct (write_cam_spec c2 k (stakey_ctrl p spp) (sta_addr p) (sta_key p)) as (c3 & E3 & W);
    [apply Hp|apply Hp|lia|by rewrite B9|].
  bind_step E3. exists c3. split; [done|]. split; [rewrite (wrt_entry _ _ _ _ _ W), Z.eqb_refl by lia; done|].
  pose proof (clr_num _ _ _ Hcl) as Nc. change (num c1') with (num c1) in Nc.
  rewrite used_spec; [|rewrite (wrt_num _ _ _ _ _ W); lia..].
  unfold in_use. rewrite (wrt_used _ _ _ _ _ W). fold (in_use c2 k). rewrite (clr_used _ _ _ Hcl) by lia.
  change (num c1') with (num c1). zdecide. unfold matches. change (entry c1' k) with (entry c1 k). change (in_use c1' k) with (in_use c1 k).
  rewrite Ek1, Uk1. unfold ent_matches. rewrite B6. unfold matches in M. rewrite Ek in M. unfold ent_matches in M.
  apply andb_true_iff in M as [M _]. apply andb_true_iff in M as [-> _]. done.
Qed.

(** ** Instances *)

#[export] Instance sec_cam_ent_eq_dec : EqDecision sec_cam_ent.
Proof. solve_decision. Defined.

Definition cam_inv_check (c : cam_state) : bool :=
  (0 <=? num c) && (num c <=? SEC_CAM_ENT_NUM_SW_LIMIT) && (zlen (cam_cache c) =? SEC_CAM_ENT_NUM_SW_LIMIT)
  && forallb (fun i => in_use c i || bool_decide (entry c i = Some null_ent)) (seqZ 0 (num c)).

Lemma cam_inv_checked c : cam_inv_check c = true -> cam_inv c.
Proof.
  unfold cam_inv_check. intros H. apply andb_true_iff in H as [H F]. invbool. split; [lia|done|].
  intros i Hi U. pose proof (forallb_seqZ _ _ F i Hi) as X. cbv beta in X. rewrite U in X. by apply bool_decide_eq_true in X.
Qed.

Definition sta_a : list Z := [2; 0; 0; 0; 0; 0xa].
Definition sta_b : list Z := [2; 0; 0; 0; 0; 0xb].
Definition key32 : list Z := seqZ 1 32.
(** A pairwise key of [sta_a] in slot 0, a group key of [sta_b] in slot 1. *)
Definition sample_cam (cap : Z) : cam_state :=
  CamState 32 3 cap 0
    (CamEnt 0x8010 sta_a (replicate 16 7) :: CamEnt 0x8050 sta_b (replicate 16 9) :: replicate 30 null_ent).
Definition sample_parm (alg : Z) (a : list Z) : set_stakey_parm := StakeyParm alg 0 false a key32.

Lemma sample_cam_inv cap : cam_inv (sample_cam cap).
Proof. apply cam_inv_checked. vm_compute. done. Qed.

Lemma sample_parm_ok alg a : alg <> 0 -> zlen a = 6 -> a <> replicate 6 0 -> parm_ok (sample_parm alg a).
Proof. intros. by split. Qed.

Lemma cam_clear_exact_witness :
  exists c', rtw_clearstakey_cmd 33 (sample_cam 1) sta_a = Ret c'
  /\ set_stakey_hdl 33 (sample_cam 1) false true true false sta_b sta_b (sample_parm 0 sta_a)
     = Ret (StakeyOut H2C_SUCCESS_RSP None false c')
  /\ cleared (owns (sample_cam 1) sta_a) (sample_cam 1) c' /\ cam_inv c'.
Proof. refine (cam_clear_exact 33 (sample_cam 1) sta_a false true true false sta_b sta_b (sample_parm 0 sta_a) (sample_cam_inv 1) _ _ _ _); [by_eval|reflexivity|reflexivity|reflexivity]. Defined.

Lemma cam_clear_zero_diverges_witness : rtw_clearstakey_cmd 1000 (sample_cam 1) (replicate 6 0) = NoFuel.
Proof. refine (cam_clear_zero_diverges (sample_cam 1) 2 1000 (sample_cam_inv 1) _ _); [by_eval|reflexivity]. Defined.

(** A 256-bit key for [sta_a], which has a 128-bit key in the slot in front of the key of [sta_b]. *)
Lemma cam_install_witness :
  let c := sample_cam 1 in let p := sample_parm 0x15 sta_a in
  (set_stakey_hdl 0 c false true true false sta_b sta_b p = Ret (StakeyOut H2C_SUCCESS (Some (algorithm p)) false c)
   /\ forall j, 0 <= j < num c ->
      matches c (sta_addr p) (keyid p) (gk_arg p) j = false /\ slot_free c (is_ext p) j = false)
  \/ (exists k c', set_stakey_hdl 0 c false true true false sta_b sta_b p
      = Ret (StakeyOut H2C_SUCCESS_RSP (Some (algorithm p)) (negb (gk p)) c')
    /\ _rtw_camid_search c' (Some (sta_addr p)) (keyid p) (gk_arg p) = Ret k
    /\ entry c' k = Some (new_ent p false) /\ (is_ext p = true -> entry c' (k + 1) = Some (new_ent2 p false))
    /\ in_use c' k = true /\ cam_inv c'
    /\ forall j, 0 <= j < num c -> in_use c j = true -> owns c (sta_addr p) j = false ->
       in_use c' j = true /\
       (entry c' j = entry c j
        \/ (j = k + 1 /\ is_ext p = true /\ matches c (sta_addr p) (keyid p) (gk_arg p) k = true)))
  \/ (set_stakey_hdl 0 c false true true false sta_b sta_b p = Oob
      /\ is_ext p = true /\ matches c (sta_addr p) (keyid p) (gk_arg p) (SEC_CAM_ENT_NUM_SW_LIMIT - 1) = true).
Proof.
  refine (cam_install 0 (sample_cam 1) false true false sta_b sta_b (sample_parm 0x15 sta_a)
    (sample_cam_inv 1) _ (sample_parm_ok _ _ _ _ _)); by_eval.
Defined.

(** The slot of [sta_b] is lost to the second half of the key of [sta_a]. *)
Lemma cam_256_overwrites_witness :
  let c := sample_cam 1 in let p := sample_parm 0x15 sta_a in
  (0 + 1 < num c -> exists c', set_stakey_hdl 0 c false true true false sta_b sta_b p
      = Ret (StakeyOut H2C_SUCCESS_RSP (Some (algorithm p)) (negb (gk p)) c')
    /\ entry c' (0 + 1) = Some (new_ent2 p false))
  /\ (0 = 31 -> set_stakey_hdl 0 c false true true false sta_b sta_b p = Oob).
Proof.
  refine (cam_256_overwrites 0 (sample_cam 1) false true false sta_b sta_b (sample_parm 0x15 sta_a) 0
    (sample_cam_inv 1) _ (sample_parm_ok _ _ _ _ _) _ _ _ _); [by_eval|by_eval|by_eval|by_eval|by_eval|by_eval|by_eval|lia].
Defined.

Lemma cam_conflict_unmarks_witness :
  let c := sample_cam 0 in let p := sample_parm 4 sta_b in
  exists c', set_stakey_hdl 33 c false true true false sta_b sta_b p
      = Ret (StakeyOut H2C_SUCCESS_RSP (Some (algorithm p)) true c')
  /\ entry c' 1 = Some (new_ent p false) /\ _rtw_sec_camid_is_used c' 1 = false.
Proof.
  refine (cam_conflict_unmarks 33 (sample_cam 0) false true false sta_b sta_b (sample_parm 4 sta_b) 1
    (CamEnt 0x8050 sta_b (replicate 16 9)) (sample_cam_inv 0) _ (sample_parm_ok _ _ _ _ _) _ _ _ _ _ _ _ _);
    try by_eval.
  intros j Hj. assert (j = 0) as -> by lia. reflexivity.
Defined.
End Cam.
