(* ===== verification/Macid.v ===== *)
(** * Station identifiers of the hardware and group keys

    Models the allocation of the hardware's station identifiers, macids
    ([core/rtw_wlan_util.c]: [rtw_macid_is_set], [rtw_macid_map_set],
    [rtw_macid_map_clr], [rtw_macid_get_iface_bmp], [rtw_iface_bcmc_id_set],
    [rtw_iface_bcmc_id_get], [rtw_alloc_macid], [rtw_release_macid],
    [rtw_macid_ctl_init]) and the operations on the key cache that depend on
    them: the group key command [setkey_hdl] ([core/rtw_mlme_ext.c]),
    [invalidate_cam_all], [rtw_sec_cam_swap] and [rtw_clean_dk_section].

    The station that sends the group frames of an access point owns a macid and
    the slot of the key cache with the same number ("force camid"), which couples
    the two bitmaps; [SEC_DEFAULT_KEY_SEARCH] and [CONFIG_MCC_MODE] are not
    defined. *)
From S2P Require Import Prelude Cam.

Module Macid.
Import Cam.

Definition MACID_NUM_SW_LIMIT : Z := 32.
Definition RTW_DEFAULT_MGMT_MACID : Z := 1.
Definition INVALID_SEC_MAC_CAM_ID : Z := 0xff.
Definition bc_addr : list Z := replicate 6 0xff.
Definition _WEP40_ : Z := 1.
Definition _WEP104_ : Z := 5.

(** [struct macid_ctl_t]; a station is known by its index. *)
Record macid_ctl := MacidCtl {
  m_num : Z;
  m_used : Z;
  m_bmc : Z;
  if_g : list Z;
  ch_g : list Z;
  iface_bmc : list Z;
  m_sta : list (option nat)
}.

(** The interface: [sta_mode] for [MLME_IS_STA] or [MLME_IS_NULL]. *)
Record adapter := Adapter { iface_id : Z; mac_addr : list Z; sta_mode : bool }.

(** ** Bitmaps ([struct macid_bmp] with one word) *)

Definition rtw_macid_is_set (m0 id : Z) : bool := if id <? 32 then negb (Z.land m0 (BIT id) =? 0) else false.
Definition rtw_macid_map_set (m0 id : Z) : Z := if id <? 32 then Z.lor m0 (BIT id) else m0.
Definition rtw_macid_map_clr (m0 id : Z) : Z := if id <? 32 then Z.ldiff m0 (BIT id) else m0.
Definition rtw_macid_is_used (m : macid_ctl) (id : Z) : bool := rtw_macid_is_set (m_used m) id.

(** The loop over the interfaces, from [i] on. *)
Fixpoint iface_bmp_from (l : list Z) (id i : Z) : Z :=
  match l with
  | [] => 0
  | g :: l => Z.lor (if rtw_macid_is_set g id then BIT i else 0) (iface_bmp_from l id (i + 1))
  end.
Definition rtw_macid_get_iface_bmp (m : macid_ctl) (id : Z) : Z := iface_bmp_from (if_g m) id 0.

Definition rtw_iface_bcmc_id_set (m : macid_ctl) (a : adapter) (id : Z) : res macid_ctl :=
  l ← wr (iface_bmc m) (iface_id a) id;
  Ret (MacidCtl (m_num m) (m_used m) (m_bmc m) (if_g m) (ch_g m) l (m_sta m)).
Definition rtw_iface_bcmc_id_get (m : macid_ctl) (a : adapter) : res Z := rd (iface_bmc m) (iface_id a).

Definition SEC_CAP_CHK_EXTRA_SEC : Z := 0x02.
Definition chk_cap (c : cam_state) (cap : Z) : bool := negb (Z.land (sec_cap c) cap =? 0).

(** ** Allocation *)

(** [for (i = 0; i < num; i++)], [n] values left: the first macid that is free and, for the
    broadcast station, whose slot in the key cache is free too. *)
Fixpoint find_macid (m : macid_ctl) (c : cam_state) (bc : bool) (n : nat) (i : Z) : Z :=
  match n with
  | O => i
  | S n =>
      if bc && _rtw_sec_camid_is_used c i then find_macid m c bc n (i + 1)
      else if negb (rtw_macid_is_used m i) then i
      else find_macid m c bc n (i + 1)
  end.

(** The macid given to station [s] with address [addr], and both states. *)
Definition rtw_alloc_macid (m : macid_ctl) (c : cam_state) (a : adapter) (s : nat) (addr : list Z)
    : res (Z * macid_ctl * cam_state) :=
  if bool_decide (addr = mac_addr a) then Ret (m_num m, m, c) else
  let bc := bool_decide (addr = bc_addr) in
  m ← (if bc then rtw_iface_bcmc_id_set m a INVALID_SEC_MAC_CAM_ID else Ret m);
  if bc && sta_mode a then Ret (RTW_DEFAULT_MGMT_MACID, m, c) else
  let i := find_macid m c bc (Z.to_nat (m_num m)) 0 in
  if m_num m <=? i then Ret (m_num m, m, c) else
  '(m, c) ← (if bc then
               m ← rtw_iface_bcmc_id_set m a i;
               let u := rtw_sec_cam_map_set (used c) i in
               let u := if chk_cap c SEC_CAP_CHK_EXTRA_SEC then rtw_sec_cam_map_set u (i + 1) else u in
               Ret (MacidCtl (m_num m) (m_used m) (rtw_macid_map_set (m_bmc m) i) (if_g m) (ch_g m) (iface_bmc m) (m_sta m),
                    set_used u c)
             else Ret (m, c));
  g ← rd (if_g m) (iface_id a);
  ig ← wr (if_g m) (iface_id a) (rtw_macid_map_set g i);
  st ← wr (m_sta m) i (Some s);
  Ret (i, MacidCtl (m_num m) (rtw_macid_map_set (m_used m) i) (m_bmc m) ig (ch_g m) (iface_bmc m) st, c).

(** The group key slots of the broadcast station. *)
Definition release_bmc (m : macid_ctl) (c : cam_state) (a : adapter) (addr : list Z) : res (macid_ctl * cam_state) :=
  if bool_decide (addr = bc_addr) then
    id ← rtw_iface_bcmc_id_get m a;
    let c :=
      if negb (id =? INVALID_SEC_MAC_CAM_ID) && (id <? num c) then
        let u := rtw_sec_cam_map_clr (used c) id in
        set_used (if chk_cap c SEC_CAP_CHK_EXTRA_SEC then rtw_sec_cam_map_clr u (id + 1) else u) c
      else c in
    m ← rtw_iface_bcmc_id_set m a INVALID_SEC_MAC_CAM_ID; Ret (m, c)
  else Ret (m, c).

(** The station's macid afterwards is [num]. *)
Definition rtw_release_macid (m : macid_ctl) (c : cam_state) (a : adapter) (addr : list Z) (mac_id : Z)
    : res (Z * macid_ctl * cam_state) :=
  if bool_decide (addr = mac_addr a) then Ret (m_num m, m, c) else
  if m_num m <=? mac_id then Ret (m_num m, m, c) else
  if mac_id =? RTW_DEFAULT_MGMT_MACID then Ret (m_num m, m, c) else
  if negb (rtw_macid_is_used m mac_id) then Ret (m_num m, m, c) else
  let ifbmp := rtw_macid_get_iface_bmp m mac_id in
  if Z.land ifbmp (BIT (iface_id a)) =? 0 then Ret (m_num m, m, c) else
  '(m, c) ← release_bmc m c a addr;
  g ← rd (if_g m) (iface_id a);
  ig ← wr (if_g m) (iface_id a) (rtw_macid_map_clr g mac_id);
  if Z.ldiff ifbmp (BIT (iface_id a)) =? 0 then
    st ← wr (m_sta m) mac_id None;
    Ret (m_num m, MacidCtl (m_num m) (rtw_macid_map_clr (m_used m) mac_id) (rtw_macid_map_clr (m_bmc m) mac_id) ig
           (map (fun x => rtw_macid_map_clr x mac_id) (ch_g m)) (iface_bmc m) st, c)
  else Ret (m_num m, MacidCtl (m_num m) (m_used m) (m_bmc m) ig (ch_g m) (iface_bmc m) (m_sta m), c).

Definition rtw_macid_ctl_init (m : macid_ctl) : res macid_ctl :=
  let id := RTW_DEFAULT_MGMT_MACID in
  st ← wr (m_sta m) id None;
  Ret (MacidCtl (m_num m) (rtw_macid_map_set (m_used m) id) (rtw_macid_map_set (m_bmc m) id)
         (map (fun g => rtw_macid_map_set g id) (if_g m)) (ch_g m) (iface_bmc m) st).

(** ** Group keys *)

Record setkey_parm := SetkeyParm { k_algorithm : Z; k_keyid : Z; set_tx : bool; k_key : list Z }.

(** What the command changes besides the cache: [key_index] of the interface and the slots noted in
    [securitypriv]. *)
Record group_keys := GroupKeys { key_index : Z; def_camid : list Z; bmc_cam_id : Z; privacy_index : Z }.

Definition is_wep_enc (alg : Z) : bool := (alg =? _WEP40_) || (alg =? _WEP104_).

Definition group_ctrl (p : setkey_parm) (spp : bool) : Z :=
  let ctrl := Z.lor (Z.lor (Z.lor (BIT 15) (BIT 6)) (Z.shiftl (Z.land (k_algorithm p) 0x07) 2)) (k_keyid p) in
  let ctrl := if negb (Z.land (k_algorithm p) _SEC_TYPE_256_ =? 0) then Z.lor ctrl (BIT 9) else ctrl in
  if spp then Z.lor ctrl (BIT 7) else ctrl.

(** The slots noted for the transmission of group frames. *)
Definition note_camid (g : group_keys) (p : setkey_parm) (cam_id : Z) : res group_keys :=
  if is_wep_enc (k_algorithm p) then
    l ← wr (def_camid g) (k_keyid p) cam_id;
    b ← rd l (privacy_index g);
    Ret (GroupKeys (key_index g) l b (privacy_index g))
  else Ret (GroupKeys (key_index g) (def_camid g) cam_id (privacy_index g)).

(** [ap]: access point or ad hoc; [station]: [WIFI_FW_STATION_STATE]; [known], [spp] as in [set_stakey_hdl]. *)
Definition setkey_hdl (fuel : nat) (m : macid_ctl) (c : cam_state) (g : group_keys) (a : adapter)
    (ap assoc station known spp : bool) (bssid : list Z) (p : setkey_parm) : res (group_keys * cam_state) :=
  let g := if set_tx p then GroupKeys (k_keyid p) (def_camid g) (bmc_cam_id g) (privacy_index g) else g in
  '(cam_id, was_used, c) ←
    (if ap then id ← rtw_iface_bcmc_id_get m a; Ret (id, false, c)
     else rtw_camid_alloc c ap assoc (mac_addr a) bssid None (k_keyid p) 1
            (negb (Z.land (k_algorithm p) _SEC_TYPE_256_ =? 0)));
  if cam_id <? 0 then Ret (g, c) else
  let addr := if ap then mac_addr a else bssid in
  gk ← _rtw_camid_is_gk c cam_id;
  if was_used && negb gk then
    c ← clear_keys fuel (rtw_camctl_set_flags SEC_STATUS_STA_PK_GK_CONFLICT_DIS_BMC_SEARCH c) addr (-1) 1; Ret (g, c)
  else
  c ← write_cam c cam_id (group_ctrl p spp) addr (k_key p);
  g ← (if ap then note_camid g p cam_id else Ret g);
  c ← (if is_wep_enc (k_algorithm p) && station && chk_cap c SEC_CAP_CHK_BMC then
         k ← slice (k_key p) 0 16;
         o ← set_stakey_hdl fuel c ap assoc known spp (mac_addr a) bssid
               (StakeyParm (k_algorithm p) (k_keyid p) false bssid (k ++ replicate 16 0));
         Ret (after o)
       else Ret c);
  Ret (g, c).

(** ** The whole cache *)

Definition invalidate_cam_all (m : macid_ctl) (c : cam_state) (a : adapter) : res cam_state :=
  bmc_id ← rtw_iface_bcmc_id_get m a;
  let u :=
    if negb (bmc_id =? INVALID_SEC_MAC_CAM_ID) then
      let u := rtw_sec_cam_map_set 0 bmc_id in
      if chk_cap c SEC_CAP_CHK_EXTRA_SEC then rtw_sec_cam_map_set u (bmc_id + 1) else u
    else 0 in
  Ret (set_cache (replicate 32 null_ent) (set_used u c)).

(** [rtw_mi_update_ap_bmc_camid] is empty without [CONFIG_CONCURRENT_MODE]. *)
Definition rtw_sec_cam_swap (c : cam_state) (x y : Z) : res cam_state :=
  if x =? y then Ret c else
  let ux := _rtw_sec_camid_is_used c x in
  let uy := _rtw_sec_camid_is_used c y in
  ex ← (if ux then rd (cam_cache c) x else Ret null_ent); ey ← (if uy then rd (cam_cache c) y else Ret null_ent);
  c ← (if ux then clear_cam_entry (rtw_camid_free c x) x else Ret c);
  c ← (if uy then clear_cam_entry (rtw_camid_free c y) y else Ret c);
  c ← (if ux then c ← write_cam c y (ctrl ex) (mac ex) (key ex); Ret (rtw_camid_set c y) else Ret c);
  if uy then c ← write_cam c x (ctrl ey) (mac ey) (key ey); Ret (rtw_camid_set c x) else Ret c.

(** [for (i = 0; i < 4; i++)], [n] values left. *)
Fixpoint clean_dk_from (c : cam_state) (n : nat) (i : Z) : res cam_state :=
  match n with
  | O => Ret c
  | S n =>
      c ← (if _rtw_sec_camid_is_used c i then
             e ← rtw_get_empty_cam_entry c 4;
             if 0 <? e then rtw_sec_cam_swap c i e else Ret c
           else Ret c);
      clean_dk_from c n (i + 1)
  end.
Definition rtw_clean_dk_section (c : cam_state) : res cam_state := clean_dk_from c 4 0.

(** ** Bitmaps *)

Lemma is_set_spec u i : 0 <= i < 32 -> rtw_macid_is_set u i = Z.testbit u i.
Proof. intros. unfold rtw_macid_is_set. zdecide. by rewrite land_BIT by lia. Qed.

Lemma clr_unset u i : 0 <= i -> Z.testbit u i = false -> rtw_sec_cam_map_clr u i = u.
Proof.
  intros Hi H. unfold rtw_sec_cam_map_clr. destruct (i <? 32) eqn:E; [|done]. apply Z.ltb_lt in E.
  apply Z.bits_inj'. intros j Hj. rewrite Z.ldiff_spec, testbit_BIT by lia.
  destruct (Z.eqb_spec i j) as [->|]; [by rewrite H|by rewrite andb_true_r].
Qed.

Lemma clr_set u i : 0 <= i -> Z.testbit u i = false -> rtw_sec_cam_map_clr (rtw_sec_cam_map_set u i) i = u.
Proof.
  intros Hi H. destruct (decide (i < 32)) as [Hl|Hl].
  - apply Z.bits_inj'. intros j Hj. rewrite map_clr_spec, map_set_spec by lia.
    destruct (Z.eqb_spec i j) as [->|]; [by rewrite H|done].
  - rewrite map_set_out by lia. by apply clr_unset.
Qed.

Lemma set_set_comm u i j : rtw_sec_cam_map_set (rtw_sec_cam_map_set u i) j = rtw_sec_cam_map_set (rtw_sec_cam_map_set u j) i.
Proof.
  unfold rtw_sec_cam_map_set. destruct (i <? 32), (j <? 32); try done.
  by rewrite <- !Z.lor_assoc, (Z.lor_comm (BIT i)).
Qed.

Lemma iface_bmp_testbit l id i0 j : 0 <= id < 32 -> 0 <= i0 -> 0 <= j ->
  Z.testbit (iface_bmp_from l id i0) j
  = (i0 <=? j) && match l !! Z.to_nat (j - i0) with Some g => Z.testbit g id | None => false end.
Proof.
  intros Hid. revert i0. induction l as [|g l IH]; intros i0 Hi Hj; simpl.
  { rewrite Z.bits_0. by rewrite andb_false_r. }
  rewrite Z.lor_spec, IH, is_set_spec by lia.
  assert (Z.testbit (if Z.testbit g id then BIT i0 else 0) j = (i0 =? j) && Z.testbit g id) as ->.
  { destruct (Z.testbit g id); [by rewrite testbit_BIT, andb_true_r by lia|by rewrite Z.bits_0, andb_false_r]. }
  destruct (Z.eqb_spec i0 j) as [->|]; simpl.
  - rewrite Z.sub_diag, Z.leb_refl. simpl. zdecide. by rewrite orb_false_r.
  - destruct (Z.leb_spec (i0 + 1) j), (Z.leb_spec i0 j); try done; try lia. simpl.
    replace (Z.to_nat (j - i0)) with (S (Z.to_nat (j - (i0 + 1)))) by lia. done.
Qed.

(** ** Invariant *)

(** The interface has its place in the tables, the shared macid is taken, and nothing refers to a free macid. *)
Record macid_inv (m : macid_ctl) (a : adapter) : Prop := {
  mi_num : 2 <= m_num m <= MACID_NUM_SW_LIMIT;
  mi_if : 0 <= iface_id a < zlen (if_g m);
  mi_bmcs : zlen (iface_bmc m) = zlen (if_g m);
  mi_sta : zlen (m_sta m) = MACID_NUM_SW_LIMIT;
  mi_mgmt : Z.testbit (m_used m) RTW_DEFAULT_MGMT_MACID = true;
  mi_free : forall i, 0 <= i < m_num m -> Z.testbit (m_used m) i = false ->
    Z.testbit (m_bmc m) i = false /\ Forall (fun g => Z.testbit g i = false) (if_g m)
    /\ Forall (fun g => Z.testbit g i = false) (ch_g m) /\ m_sta m !! Z.to_nat i = Some None
}.

(** The macid is free, and its slot too for the broadcast station. *)
Definition macid_ok (m : macid_ctl) (c : cam_state) (bc : bool) (i : Z) : bool :=
  negb (bc && _rtw_sec_camid_is_used c i) && negb (rtw_macid_is_used m i).

Lemma find_macid_spec m c bc n i : let k := find_macid m c bc n i in
  i <= k <= i + Z.of_nat n /\ (k < i + Z.of_nat n -> macid_ok m c bc k = true)
  /\ (forall j, i <= j < k -> macid_ok m c bc j = false).
Proof.
  revert i. induction n as [|n IH]; intros i; simpl; [repeat split; lia|].
  destruct (IH (i + 1)) as (H1 & H2 & H3). unfold macid_ok in *.
  assert (macid_ok m c bc i = false -> let k := find_macid m c bc n (i + 1) in i <= k <= i + Z.of_nat (S n)
    /\ (k < i + Z.of_nat (S n) -> macid_ok m c bc k = true) /\ (forall j, i <= j < k -> macid_ok m c bc j = false)) as X.
  { intros N. split; [lia|]. split; [intros; apply H2; lia|]. intros j Hj. destruct (decide (j = i)) as [->|]; [done|]. apply H3. lia. }
  unfold macid_ok in X. destruct (bc && _rtw_sec_camid_is_used c i) eqn:B; simpl in *; [by apply X|].
  destruct (rtw_macid_is_used m i) eqn:U; simpl in *; [by apply X|].
  split; [lia|]. rewrite B, U. split; [done|]. intros; lia.
Qed.

Lemma find_macid_ext m m' c bc n i : m_used m = m_used m' -> find_macid m c bc n i = find_macid m' c bc n i.
Proof.
  intros E. revert i. induction n as [|n IH]; intros i; simpl; [done|]. unfold rtw_macid_is_used. by rewrite E, IH.
Qed.

(** ** Allocation and release *)

Definition is_bc (addr : list Z) : bool := bool_decide (addr = bc_addr).

(** The macid an allocation finds. *)
Definition slot_of (m : macid_ctl) (c : cam_state) (addr : list Z) : Z :=
  find_macid m c (is_bc addr) (Z.to_nat (m_num m)) 0.

(** [m] with [id] noted for the group frames of the interface. *)
Definition with_bmc (m : macid_ctl) (a : adapter) (id : Z) : macid_ctl :=
  MacidCtl (m_num m) (m_used m) (m_bmc m) (if_g m) (ch_g m) (<[Z.to_nat (iface_id a) := id]> (iface_bmc m)) (m_sta m).

(** [m] after macid [i] was given to station [s]. *)
Definition given (m : macid_ctl) (a : adapter) (bc : bool) (s : nat) (i : Z) : macid_ctl :=
  MacidCtl (m_num m) (rtw_macid_map_set (m_used m) i) (if bc then rtw_macid_map_set (m_bmc m) i else m_bmc m)
    (alter (fun g => rtw_macid_map_set g i) (Z.to_nat (iface_id a)) (if_g m)) (ch_g m)
    (if bc then <[Z.to_nat (iface_id a) := i]> (iface_bmc m) else iface_bmc m) (<[Z.to_nat i := Some s]> (m_sta m)).

(** The slots of the key cache an allocation for the broadcast station marks. *)
Definition bmc_mark (c : cam_state) (i : Z) : cam_state :=
  let u := rtw_sec_cam_map_set (used c) i in
  set_used (if chk_cap c SEC_CAP_CHK_EXTRA_SEC then rtw_sec_cam_map_set u (i + 1) else u) c.
Definition bmc_unmark (c : cam_state) (i : Z) : cam_state :=
  let u := rtw_sec_cam_map_clr (used c) i in
  set_used (if chk_cap c SEC_CAP_CHK_EXTRA_SEC then rtw_sec_cam_map_clr u (i + 1) else u) c.

Lemma bmc_set m a id : 0 <= iface_id a < zlen (iface_bmc m) -> rtw_iface_bcmc_id_set m a id = Ret (with_bmc m a id).
Proof. intros. unfold rtw_iface_bcmc_id_set. by rewrite wr_Ret by lia. Qed.

Lemma rd_alter (l : list Z) (i : Z) (f : Z -> Z) : 0 <= i < zlen l ->
  (g ← rd l i; wr l i (f g)) = Ret (alter f (Z.to_nat i) l).
Proof.
  intros Hi. destruct (rd_in l i) as (g & E & _); [done|]. bind_step E. rewrite wr_Ret by done. f_equal.
  apply rd_Ret in E as [_ E]. apply list_eq. intros k. destruct (decide (k = Z.to_nat i)) as [->|].
  - rewrite list_lookup_insert_eq by (unfold zlen in Hi; lia). by rewrite list_lookup_alter_eq, E.
  - by rewrite list_lookup_insert_ne, list_lookup_alter_ne by done.
Qed.

Lemma bind_bind {A B C} (x : res A) (f : A -> res B) (g : B -> res C) : (y ← (z ← x; f z); g y) = (z ← x; y ← f z; g y).
Proof. by destruct x. Qed.

Lemma alloc_run m c a s addr i : macid_inv m a -> addr <> mac_addr a -> is_bc addr && sta_mode a = false ->
  slot_of m c addr = i -> i < m_num m ->
  rtw_alloc_macid m c a s addr = Ret (i, given m a (is_bc addr) s i, if is_bc addr then bmc_mark c i else c).
Proof.
  intros [N If Lb Ls _ _] Ho Hs Hi Hl. unfold MACID_NUM_SW_LIMIT in *. unfold slot_of in Hi.
  destruct (find_macid_spec m c (is_bc addr) (Z.to_nat (m_num m)) 0) as (Hr & _). rewrite Hi in Hr.
  unfold rtw_alloc_macid. rewrite bool_decide_false by done. fold (is_bc addr). unfold given.
  destruct (is_bc addr).
  - rewrite bmc_set by lia. simp_res. rewrite Hs.
    rewrite (find_macid_ext _ m) by done. change (m_num (with_bmc _ _ _)) with (m_num m). rewrite Hi. zdecide.
    rewrite bmc_set by (cbn [iface_bmc with_bmc]; unfold zlen in *; rewrite length_insert; lia). simp_res.
    rewrite <- bind_bind. cbn [if_g with_bmc].
    rewrite (rd_alter (if_g m) (iface_id a) (fun g => rtw_macid_map_set g i)) by lia. simp_res. cbn [m_sta with_bmc].
    rewrite wr_Ret by lia. simp_res. cbn [m_num m_used m_bmc ch_g iface_bmc with_bmc]. by rewrite list_insert_insert_eq.
  - simp_res. simpl. rewrite Hi. zdecide. simp_res.
    rewrite <- bind_bind, (rd_alter (if_g m) (iface_id a) (fun g => rtw_macid_map_set g i)) by lia. simp_res.
    rewrite wr_Ret by lia. done.
Qed.

Lemma alter_clr_set i (l : list Z) k : 0 <= i -> Forall (fun g => Z.testbit g i = false) l ->
  alter (fun g => rtw_macid_map_clr g i) k (alter (fun g => rtw_macid_map_set g i) k l) = l.
Proof.
  intros Hi H. apply list_eq. intros j. destruct (decide (j = k)) as [->|].
  - rewrite !list_lookup_alter_eq. destruct (l !! k) as [g|] eqn:E; [|done]. simpl. f_equal.
    apply (clr_set g i Hi). by eapply Forall_lookup_1 in H.
  - by rewrite !list_lookup_alter_ne by done.
Qed.

Lemma map_clr_unset i (l : list Z) : 0 <= i -> Forall (fun g => Z.testbit g i = false) l ->
  map (fun x => rtw_macid_map_clr x i) l = l.
Proof. intros Hi. induction 1 as [|g l Hg _ IH]; simpl; [done|]. rewrite IH. f_equal. by apply (clr_unset g i Hi). Qed.

(** After the allocation only the allocating interface uses the macid. *)
Lemma given_iface m a bc s i : macid_inv m a -> 0 <= i < m_num m -> Z.testbit (m_used m) i = false ->
  rtw_macid_get_iface_bmp (given m a bc s i) i = BIT (iface_id a).
Proof.
  intros [N If _ _ _ F] Hi U. unfold MACID_NUM_SW_LIMIT in N. destruct (F i Hi U) as (_ & Fg & _).
  unfold rtw_macid_get_iface_bmp, given. cbn [if_g]. apply Z.bits_inj'. intros j Hj.
  rewrite iface_bmp_testbit, testbit_BIT by lia. zdecide. rewrite Z.sub_0_r. simpl.
  destruct (Z.eqb_spec (iface_id a) j) as [<-|Hne].
  - rewrite list_lookup_alter_eq. destruct (lookup_lt_is_Some_2 (if_g m) (Z.to_nat (iface_id a))) as (g & E).
    { unfold zlen in If. lia. }
    rewrite E. simpl. change (Z.testbit (rtw_sec_cam_map_set g i) i = true). rewrite map_set_spec by lia. by rewrite Z.eqb_refl.
  - rewrite list_lookup_alter_ne by lia. destruct (if_g m !! Z.to_nat j) as [g|] eqn:E; [|done].
    by eapply Forall_lookup_1 in Fg.
Qed.

Lemma release_run m c a s addr i : macid_inv m a -> addr <> mac_addr a -> 0 <= i < m_num m -> m_num m <= num c ->
  Z.testbit (m_used m) i = false -> i <> RTW_DEFAULT_MGMT_MACID ->
  rtw_release_macid (given m a (is_bc addr) s i) c a addr i
  = Ret (m_num m, if is_bc addr then with_bmc m a INVALID_SEC_MAC_CAM_ID else m, if is_bc addr then bmc_unmark c i else c).
Proof.
  intros Hm Ho Hi Hc U Hd. pose proof (given_iface m a (is_bc addr) s i Hm Hi U) as G.
  destruct Hm as [N If Lb Ls _ F]. destruct (F i Hi U) as (Fb & Fg & Fc & Fs). unfold MACID_NUM_SW_LIMIT in *.
  unfold rtw_release_macid, release_bmc. rewrite bool_decide_false by done. rewrite G. fold (is_bc addr).
  change (m_num (given _ _ _ _ _)) with (m_num m). zdecide.
  assert (rtw_macid_is_used (given m a (is_bc addr) s i) i = true) as ->.
  { unfold rtw_macid_is_used, given. cbn [m_used]. rewrite is_set_spec by lia.
    change (Z.testbit (rtw_sec_cam_map_set (m_used m) i) i = true). rewrite map_set_spec by lia. by rewrite Z.eqb_refl. }
  assert ((Z.land (BIT (iface_id a)) (BIT (iface_id a)) =? 0) = false) as ->.
  { apply negb_true_iff. rewrite land_BIT, testbit_BIT by lia. by rewrite Z.eqb_refl. }
  assert ((Z.ldiff (BIT (iface_id a)) (BIT (iface_id a)) =? 0) = true) as -> by (apply Z.eqb_eq, Z.ldiff_diag).
  cbn [negb]. unfold given. destruct (is_bc addr).
  - unfold rtw_iface_bcmc_id_get. cbn [iface_bmc].
    assert (rd (<[Z.to_nat (iface_id a) := i]> (iface_bmc m)) (iface_id a) = Ret i) as R.
    { apply rd_Ret. split; [lia|]. apply list_lookup_insert_eq. unfold zlen in *. lia. }
    rewrite bind_bind. bind_step R. unfold INVALID_SEC_MAC_CAM_ID at 1. zdecide. cbn [negb andb].
    rewrite bmc_set by (cbn [iface_bmc]; unfold zlen in *; rewrite length_insert; lia). simp_res.
    rewrite <- bind_bind. cbn [if_g with_bmc].
    rewrite (rd_alter _ (iface_id a) (fun g => rtw_macid_map_clr g i)) by (unfold zlen in *; rewrite length_alter; lia). simp_res.
    cbn [m_sta with_bmc]. rewrite wr_Ret by (unfold zlen in *; rewrite length_insert; lia). simp_res.
    unfold with_bmc, bmc_unmark. cbn [m_num m_used m_bmc ch_g iface_bmc].
    rewrite alter_clr_set, map_clr_unset, !list_insert_insert_eq by (lia || done).
    change rtw_macid_map_clr with rtw_sec_cam_map_clr. change rtw_macid_map_set with rtw_sec_cam_map_set.
    rewrite !clr_set by (lia || done).
    by rewrite (list_insert_id (m_sta m)) by done.
  - simp_res. rewrite <- bind_bind. cbn [if_g].
    rewrite (rd_alter _ (iface_id a) (fun g => rtw_macid_map_clr g i)) by (unfold zlen in *; rewrite length_alter; lia). simp_res.
    cbn [m_sta]. rewrite wr_Ret by (unfold zlen in *; rewrite length_insert; lia). simp_res.
    cbn [m_num m_used m_bmc ch_g iface_bmc].
    rewrite alter_clr_set, map_clr_unset, !list_insert_insert_eq by (lia || done).
    change rtw_macid_map_clr with rtw_sec_cam_map_clr. change rtw_macid_map_set with rtw_sec_cam_map_set.
    rewrite clr_set, clr_unset by (lia || done). rewrite (list_insert_id (m_sta m)) by done. by destruct m.
Qed.

Lemma slot_free_of m c addr : (exists a, macid_inv m a) -> m_num m <= num c <= 32 ->
  slot_of m c addr < m_num m ->
  0 <= slot_of m c addr /\ Z.testbit (m_used m) (slot_of m c addr) = false
  /\ slot_of m c addr <> RTW_DEFAULT_MGMT_MACID /\ (is_bc addr = true -> in_use c (slot_of m c addr) = false).
Proof.
  intros Hm Hc Hl. assert (2 <= m_num m <= 32 /\ Z.testbit (m_used m) RTW_DEFAULT_MGMT_MACID = true) as [N Md].
  { destruct Hm as [? []]; done. }
  unfold slot_of in *. destruct (find_macid_spec m c (is_bc addr) (Z.to_nat (m_num m)) 0) as (Hr & Hok & _).
  revert Hr Hok Hl. generalize (find_macid m c (is_bc addr) (Z.to_nat (m_num m)) 0) as i. intros i Hr Hok Hl.
  specialize (Hok ltac:(lia)). unfold macid_ok, rtw_macid_is_used in Hok. rewrite is_set_spec, used_spec in Hok by lia.
  apply andb_true_iff in Hok as [H1 H2]. apply negb_true_iff in H1, H2.
  split; [lia|]. split; [done|]. split; [congruence|]. intros B. by rewrite B in H1.
Qed.

Lemma unmark_mark c i : 0 <= i -> in_use c i = false ->
  (chk_cap c SEC_CAP_CHK_EXTRA_SEC = true -> in_use c (i + 1) = false) -> bmc_unmark (bmc_mark c i) i = c.
Proof.
  unfold in_use, bmc_unmark, bmc_mark. intros Hi U Ux. destruct c as [n u cap f l]. cbn [used] in *.
  change (chk_cap (set_used _ _) _) with (chk_cap (CamState n u cap f l) SEC_CAP_CHK_EXTRA_SEC).
  unfold set_used. cbn [used num sec_cap flags cam_cache]. f_equal. destruct (chk_cap _ _).
  - rewrite set_set_comm, (clr_set _ i Hi); [apply clr_set; [lia|auto]|].
    destruct (decide (i + 1 < 32)); [|by rewrite map_set_out by lia]. rewrite map_set_spec, U by lia. by zdecide.
  - by apply clr_set.
Qed.

(** Every address gets a macid and gives it back: the macid is one no station has (or the shared one, for the
    broadcast address of a station, or [num] when none is left), the station is noted for it, and releasing it restores
    the macid tables and the bitmap of the key cache exactly, the slot noted for group frames apart, which is reset.  For
    the broadcast address of an access point this holds as long as the slot after the one found is free. *)
Theorem macid_roundtrip m c a s addr :
  macid_inv m a -> m_num m <= num c <= 32 ->
  (is_bc addr = true -> chk_cap c SEC_CAP_CHK_EXTRA_SEC = true -> in_use c (slot_of m c addr + 1) = false) ->
  exists i m1 c1, rtw_alloc_macid m c a s addr = Ret (i, m1, c1)
  /\ (i < m_num m -> (i = RTW_DEFAULT_MGMT_MACID /\ is_bc addr = true /\ sta_mode a = true)
       \/ (Z.testbit (m_used m) i = false /\ Z.testbit (m_used m1) i = true /\ m_sta m1 !! Z.to_nat i = Some (Some s)))
  /\ rtw_release_macid m1 c1 a addr i
     = Ret (m_num m, if is_bc addr && bool_decide (addr <> mac_addr a) then with_bmc m a INVALID_SEC_MAC_CAM_ID else m, c).
Proof.
  intros Hm Hc Hx. rewrite bool_decide_not.
  destruct (decide (addr = mac_addr a)) as [Ho|Ho].
  { exists (m_num m), m, c. unfold rtw_alloc_macid, rtw_release_macid. rewrite !bool_decide_true by done.
    rewrite andb_false_r. split; [done|]. split; [lia|done]. }
  assert (2 <= m_num m <= 32) as N by apply Hm. pose proof (mi_if _ _ Hm) as If. pose proof (mi_bmcs _ _ Hm) as Lb.
  rewrite (bool_decide_false (addr = mac_addr a)) by done. rewrite andb_true_r.
  destruct (is_bc addr && sta_mode a) eqn:Bs.
  { apply andb_true_iff in Bs as [B S]. exists RTW_DEFAULT_MGMT_MACID, (with_bmc m a INVALID_SEC_MAC_CAM_ID), c.
    unfold rtw_alloc_macid, rtw_release_macid. fold (is_bc addr). rewrite B, S, !bool_decide_false by done.
    rewrite bmc_set by lia. simp_res. simpl. split; [done|]. split; [by left|].
    unfold RTW_DEFAULT_MGMT_MACID. cbn [m_num with_bmc]. by zdecide. }
  destruct (decide (slot_of m c addr < m_num m)) as [Hl|Hl].
  - destruct (slot_free_of m c addr) as (H0 & U & Hd & Ub); [by exists a|done|done|].
    eexists _, _, _. split; [by apply alloc_run|]. split.
    { right. split; [done|]. unfold given. cbn [m_used m_sta]. split.
      - change (Z.testbit (rtw_sec_cam_map_set (m_used m) (slot_of m c addr)) (slot_of m c addr) = true).
        rewrite map_set_spec by lia. by rewrite Z.eqb_refl.
      - apply list_lookup_insert_eq. pose proof (mi_sta _ _ Hm) as Ls. unfold zlen, MACID_NUM_SW_LIMIT in Ls. lia. }
    rewrite release_run; [|done|done|lia|destruct (is_bc addr); simpl; lia|done|done].
    destruct (is_bc addr); [|done]. rewrite unmark_mark by auto. done.
  - unfold rtw_alloc_macid, rtw_release_macid. fold (is_bc addr). rewrite !bool_decide_false by done.
    assert (m_num m <= slot_of m c addr) as Hge by lia. unfold slot_of in Hge. destruct (is_bc addr).
    + rewrite bmc_set by lia. simp_res. simpl in Bs. rewrite Bs. cbn [andb].
      rewrite (find_macid_ext _ m) by done. change (m_num (with_bmc _ _ _)) with (m_num m). zdecide.
      eexists _, _, _. split; [done|]. split; [lia|]. change (m_num (with_bmc _ _ _)) with (m_num m). by zdecide.
    + simp_res. simpl. zdecide. eexists _, _, _. split; [done|]. split; [lia|]. by zdecide.
Qed.

(** The broadcast station of an access point marks the slot after its own in the key cache without looking at it,
    and its release frees that slot: a key of another station stored there stays in the cache but its slot counts as
    free, so a later key may be written over it. *)
Theorem macid_bmc_frees_other m c a s :
  macid_inv m a -> m_num m <= num c <= 32 -> mac_addr a <> bc_addr -> sta_mode a = false ->
  chk_cap c SEC_CAP_CHK_EXTRA_SEC = true -> slot_of m c bc_addr < m_num m -> slot_of m c bc_addr + 1 < 32 ->
  in_use c (slot_of m c bc_addr + 1) = true ->
  exists i m1 c1 m2 c2, rtw_alloc_macid m c a s bc_addr = Ret (i, m1, c1)
  /\ rtw_release_macid m1 c1 a bc_addr i = Ret (m_num m, m2, c2)
  /\ cam_cache c2 = cam_cache c /\ in_use c2 (slot_of m c bc_addr + 1) = false.
Proof.
  intros Hm Hc Ho Hs Hx Hl Hl' U1. assert (is_bc bc_addr = true) as B by done.
  destruct (slot_free_of m c bc_addr) as (H0 & U & Hd & Ub); [by exists a|done|done|].
  assert (is_bc bc_addr && sta_mode a = false) as Bs by (by rewrite Hs, andb_false_r).
  eexists _, _, _, _, _. split; [by apply alloc_run|].
  split; [apply release_run; [done|done|lia|rewrite B; simpl; lia|done|done]|]. rewrite B.
  split; [done|]. unfold in_use, bmc_unmark, bmc_mark. cbn [used set_used].
  change (chk_cap (set_used _ _) _) with (chk_cap c SEC_CAP_CHK_EXTRA_SEC). rewrite Hx.
  rewrite map_clr_spec by lia. by rewrite Z.eqb_refl.
Qed.

(** ** Preservation of the invariant *)

Lemma testbit_set u i j : 0 <= j -> 0 <= i < 32 -> Z.testbit (rtw_macid_map_set u i) j = (i =? j) || Z.testbit u j.
Proof. intros. change rtw_macid_map_set with rtw_sec_cam_map_set. by apply map_set_spec. Qed.
Lemma testbit_clr u i j : 0 <= j -> 0 <= i < 32 -> Z.testbit (rtw_macid_map_clr u i) j = negb (i =? j) && Z.testbit u j.
Proof. intros. change rtw_macid_map_clr with rtw_sec_cam_map_clr. by apply map_clr_spec. Qed.

Lemma Forall_alter_bit (f : Z -> Z) (l : list Z) k j :
  (forall g, Z.testbit g j = false -> Z.testbit (f g) j = false) ->
  Forall (fun g => Z.testbit g j = false) l -> Forall (fun g => Z.testbit g j = false) (alter f k l).
Proof. intros Hf H. apply Forall_alter; [done|]. intros x _. apply Hf. Qed.

Lemma given_inv m a bc s i : macid_inv m a -> 0 <= i < m_num m -> macid_inv (given m a bc s i) a.
Proof.
  intros [N If Lb Ls Md F] Hi. unfold MACID_NUM_SW_LIMIT in *. split; unfold given; cbn [m_num if_g iface_bmc m_sta m_used m_bmc ch_g]; unfold MACID_NUM_SW_LIMIT.
  - done.
  - unfold zlen in *. by rewrite length_alter.
  - unfold zlen in *. destruct bc; by rewrite ?length_insert, length_alter.
  - by rewrite zlen_insert.
  - rewrite testbit_set by (unfold RTW_DEFAULT_MGMT_MACID; lia). rewrite Md. apply orb_true_r.
  - intros j Hj U. rewrite testbit_set in U by lia. apply orb_false_iff in U as [Hne U]. destruct (F j Hj U) as (Fb & Fg & Fc & Fs).
    split; [destruct bc; [rewrite testbit_set, Hne by lia|]; done|].
    split; [apply Forall_alter_bit; [|done]; intros g Hg; by rewrite testbit_set, Hne by lia|].
    split; [done|]. apply Z.eqb_neq in Hne. by rewrite list_lookup_insert_ne by lia.
Qed.

Lemma with_bmc_inv m a id : macid_inv m a -> macid_inv (with_bmc m a id) a.
Proof. intros [N If Lb Ls Md F]. split; try done. cbn. by rewrite zlen_insert. Qed.

Lemma alloc_inv m c a s addr : macid_inv m a -> exists i m1 c1,
  rtw_alloc_macid m c a s addr = Ret (i, m1, c1) /\ macid_inv m1 a /\ 0 <= i <= m_num m1 /\ num c1 = num c.
Proof.
  intros Hm. pose proof (mi_num _ _ Hm) as N. pose proof (mi_if _ _ Hm) as If. pose proof (mi_bmcs _ _ Hm) as Lb.
  destruct (decide (addr = mac_addr a)) as [Ho|Ho].
  { exists (m_num m), m, c. unfold rtw_alloc_macid. rewrite bool_decide_true by done. split; [done|]. split; [done|]. split; [lia|done]. }
  destruct (is_bc addr && sta_mode a) eqn:Bs.
  { apply andb_true_iff in Bs as [B S]. eexists _, (with_bmc m a INVALID_SEC_MAC_CAM_ID), c.
    unfold rtw_alloc_macid. fold (is_bc addr). rewrite B, S, !bool_decide_false by done. rewrite bmc_set by lia. simp_res.
    split; [done|]. split; [by apply with_bmc_inv|]. unfold RTW_DEFAULT_MGMT_MACID. cbn. split; [lia|done]. }
  destruct (decide (slot_of m c addr < m_num m)) as [Hl|Hl].
  - assert (0 <= slot_of m c addr) as H0 by (unfold slot_of; apply find_macid_spec).
    eexists _, _, _. split; [by apply alloc_run|]. split; [apply given_inv; [done|lia]|]. split; [cbn; lia|by destruct (is_bc addr)].
  - unfold rtw_alloc_macid. fold (is_bc addr). rewrite !bool_decide_false by done.
    assert (m_num m <= slot_of m c addr) as Hge by lia. unfold slot_of in Hge. destruct (is_bc addr).
    + rewrite bmc_set by lia. simp_res. simpl in Bs. rewrite Bs. cbn [andb].
      rewrite (find_macid_ext _ m) by done. change (m_num (with_bmc _ _ _)) with (m_num m). zdecide.
      eexists _, _, _. split; [done|]. split; [by apply with_bmc_inv|]. cbn. split; [lia|done].
    + simp_res. simpl. zdecide. eexists _, _, _. split; [done|]. split; [done|]. split; [lia|done].
Qed.

(** No other interface uses the macid when only the own bit is set. *)
Lemma only_self m a id : 0 <= id < 32 -> 0 <= iface_id a ->
  (Z.ldiff (rtw_macid_get_iface_bmp m id) (BIT (iface_id a)) =? 0) = true ->
  Forall (fun g => Z.testbit g id = false) (alter (fun g => rtw_macid_map_clr g id) (Z.to_nat (iface_id a)) (if_g m)).
Proof.
  intros Hid Hif H. apply Z.eqb_eq in H. apply Forall_lookup_2. intros k g Hg.
  destruct (decide (k = Z.to_nat (iface_id a))) as [->|Hk].
  - rewrite list_lookup_alter_eq in Hg. destruct (if_g m !! _); [|done]. simplify_eq/=.
    rewrite testbit_clr by lia. by rewrite Z.eqb_refl.
  - rewrite list_lookup_alter_ne in Hg by done.
    apply (f_equal (fun z => Z.testbit z (Z.of_nat k))) in H. unfold rtw_macid_get_iface_bmp in H.
    rewrite Z.ldiff_spec, iface_bmp_testbit, testbit_BIT, Z.bits_0, Z.sub_0_r, Nat2Z.id, Hg in H by lia.
    zdecide. rewrite (proj2 (Z.leb_le 0 (Z.of_nat k))) in H by lia. rewrite (proj2 (Z.eqb_neq _ _)) in H by lia.
    simpl in H. by rewrite andb_true_r in H.
Qed.

Lemma release_bmc_inv m c a addr : macid_inv m a -> exists m1 c1, release_bmc m c a addr = Ret (m1, c1)
  /\ macid_inv m1 a /\ m_num m1 = m_num m /\ num c1 = num c /\ if_g m1 = if_g m.
Proof.
  intros Hm. unfold release_bmc. destruct (bool_decide (addr = bc_addr)); [|by exists m, c].
  pose proof (mi_if _ _ Hm) as If. pose proof (mi_bmcs _ _ Hm) as Lb.
  destruct (rd_in (iface_bmc m) (iface_id a)) as (x & Ex & _); [lia|]. unfold rtw_iface_bcmc_id_get. bind_step Ex.
  rewrite bmc_set by lia. simp_res. eexists _, _. split; [done|]. split; [by apply with_bmc_inv|]. split; [done|].
  by destruct (_ && _).
Qed.

Lemma release_inv m c a addr id : macid_inv m a -> 0 <= id -> exists m1 c1,
  rtw_release_macid m c a addr id = Ret (m_num m, m1, c1) /\ macid_inv m1 a /\ m_num m1 = m_num m /\ num c1 = num c.
Proof.
  intros Hm Hid. unfold rtw_release_macid. pose proof (mi_num _ _ Hm) as N. unfold MACID_NUM_SW_LIMIT in N.
  destruct (bool_decide (addr = mac_addr a)); [by exists m, c|]. destruct (m_num m <=? id) eqn:E1; [by exists m, c|].
  apply Z.leb_gt in E1. destruct (Z.eqb_spec id RTW_DEFAULT_MGMT_MACID) as [|Hd]; [by exists m, c|].
  destruct (negb (rtw_macid_is_used m id)) eqn:E2; [by exists m, c|].
  destruct (Z.land _ (BIT (iface_id a)) =? 0) eqn:E3; [by exists m, c|].
  destruct (release_bmc_inv m c a addr Hm) as (m1 & c1 & E & Hm1 & N1 & Nc & Eg).
  bind_step E. destruct Hm1 as [N' If Lb Ls Md F]. unfold MACID_NUM_SW_LIMIT in *. rewrite <- bind_bind.
  rewrite (rd_alter _ (iface_id a) (fun g => rtw_macid_map_clr g id)) by lia. simp_res.
  assert (forall j k, 0 <= j -> Forall (fun g => Z.testbit g j = false) (if_g m1) ->
    Forall (fun g => Z.testbit g j = false) (alter (fun g => rtw_macid_map_clr g id) k (if_g m1))) as Fa.
  { intros j k Hj. apply Forall_alter_bit. intros g Hg. rewrite testbit_clr, Hg by lia. apply andb_false_r. }
  destruct (Z.ldiff _ (BIT (iface_id a)) =? 0) eqn:E4.
  - rewrite wr_Ret by lia. simp_res. rewrite N1. eexists _, _. split; [done|]. split; [|done].
    split; cbn [m_num if_g iface_bmc m_sta m_used m_bmc ch_g]; unfold MACID_NUM_SW_LIMIT.
    + lia.
    + unfold zlen in *. by rewrite length_alter.
    + unfold zlen in *. by rewrite length_alter.
    + by rewrite zlen_insert.
    + rewrite testbit_clr, Md by (unfold RTW_DEFAULT_MGMT_MACID in *; lia). by rewrite (proj2 (Z.eqb_neq _ _)) by done.
    + intros j Hj U. rewrite testbit_clr in U by lia. rewrite testbit_clr by lia.
      destruct (Z.eqb_spec id j) as [<-|Hne]; simpl in *.
      * split; [done|]. rewrite Eg. split; [apply only_self; [lia|lia|done]|]. split.
        { apply Forall_map, Forall_true. intros x. rewrite testbit_clr by lia. by rewrite Z.eqb_refl. }
        apply list_lookup_insert_eq. unfold zlen in Ls. lia.
      * destruct (F j ltac:(lia) U) as (Fb & Fg & Fc & Fs). split; [done|]. split; [by apply Fa; [lia|]|]. split.
        { apply Forall_map. eapply Forall_impl; [done|]. intros x Hx. simpl. rewrite testbit_clr, Hx by lia. apply andb_false_r. }
        by rewrite list_lookup_insert_ne by lia.
  - rewrite N1. eexists _, _. split; [done|]. split; [|done]. split; cbn [m_num if_g iface_bmc m_sta m_used m_bmc ch_g]; unfold MACID_NUM_SW_LIMIT; try done; try lia.
    + unfold zlen in *. by rewrite length_alter.
    + unfold zlen in *. by rewrite length_alter.
    + intros j Hj U. destruct (F j ltac:(lia) U) as (Fb & Fg & Fc & Fs). split; [done|]. split; [by apply Fa; [lia|]|]. done.
Qed.

(** ** Group keys of an access point *)

Definition k_ext (p : setkey_parm) : bool := negb (Z.land (k_algorithm p) _SEC_TYPE_256_ =? 0).
Definition with_index (g : group_keys) (p : setkey_parm) : group_keys :=
  if set_tx p then GroupKeys (k_keyid p) (def_camid g) (bmc_cam_id g) (privacy_index g) else g.

Lemma group_ctrl_bit9 p spp : 0 <= k_keyid p < 4 -> Z.testbit (group_ctrl p spp) 9 = k_ext p.
Proof.
  intros Hk. unfold group_ctrl. fold (k_ext p).
  assert (0 <= Z.land (k_algorithm p) 0x07 < 8) as Ha by (apply (land_fits_r 3); unfold fits; lia).
  revert Ha. generalize (Z.land (k_algorithm p) 0x07) as x. intros x Hx. revert Hk. generalize (k_keyid p) as k. intros k Hk.
  assert (forallb (fun k => forallb (fun x => forallb (fun e => forallb (fun s =>
    let y := Z.lor (Z.lor (Z.lor (BIT 15) (BIT 6)) (Z.shiftl x 2)) k in
    let y := if e : bool then Z.lor y (BIT 9) else y in let y := if s : bool then Z.lor y (BIT 7) else y in
    Bool.eqb (Z.testbit y 9) e) [true; false]) [true; false]) (seqZ 0 8)) (seqZ 0 4) = true) as T by by_eval.
  pose proof (forallb_seqZ _ _ (forallb_seqZ _ _ T k Hk) x Hx) as T'. rewrite forallb_forall in T'.
  specialize (T' (k_ext p) ltac:(destruct (k_ext p); simpl; auto)). rewrite forallb_forall in T'.
  specialize (T' spp ltac:(destruct spp; simpl; auto)). by apply eqb_prop in T'.
Qed.

(** [setkey_hdl] of an access point with slot [id] noted for its group frames. *)
Lemma setkey_ap_run fuel m c g a assoc known spp bssid p id :
  zlen (cam_cache c) = 32 -> num c <= 32 -> zlen (mac_addr a) = 6 -> zlen (k_key p) = 32 -> 0 <= k_keyid p < 4 ->
  is_wep_enc (k_algorithm p) = false -> rtw_iface_bcmc_id_get m a = Ret id -> 0 <= id < 32 ->
  (k_ext p = true -> id + 1 < 32) ->
  exists c', setkey_hdl fuel m c g a true assoc false known spp bssid p
    = Ret (GroupKeys (key_index (with_index g p)) (def_camid g) id (privacy_index g), c')
  /\ written id (CamEnt (group_ctrl p spp) (mac_addr a) (take 16 (k_key p)))
      (if k_ext p then Some (CamEnt (Z.lor (group_ctrl p spp) (BIT 5)) (mac_addr a) (take 16 (drop 16 (k_key p)))) else None) c c'.
Proof.
  intros L N La Lk Hk Hw Hid Hr Hx. unfold setkey_hdl. rewrite bind_bind. bind_step Hid. simp_res. zdecide.
  assert (exists b, _rtw_camid_is_gk c id = Ret b) as (b & Eb).
  { unfold _rtw_camid_is_gk. destruct (num c <=? id); [by eexists|]. destruct (negb _); [by eexists|].
    destruct (rd_in (cam_cache c) id) as (e & E & _); [lia|]. rewrite E. by eexists. }
  bind_step Eb. cbn [andb]. pose proof (group_ctrl_bit9 p spp Hk) as B9.
  destruct (write_cam_spec c id (group_ctrl p spp) (mac_addr a) (k_key p)) as (c' & E & W);
    [done|done|lia|rewrite B9; intros X; specialize (Hx X); lia|].
  bind_step E. rewrite B9 in W. exists c'. split; [|done].
  unfold note_camid. rewrite Hw. simp_res. cbn [andb]. unfold with_index. by destruct (set_tx p).
Qed.

(** The group key of an access point.  When its broadcast station got a macid [i], [setkey_hdl] writes the key (both
    halves of a 256-bit one) to slot [i] of the key cache, changes no other slot and notes [i] for group frames; when no
    macid was left, the same command writes outside the key cache, because the "no slot" number 255 passes the test
    [cam_id < 0]. *)
Theorem setkey_group_slot fuel m c g a s assoc known spp bssid p :
  macid_inv m a -> m_num m <= num c <= 32 -> zlen (cam_cache c) = 32 -> zlen (mac_addr a) = 6 -> mac_addr a <> bc_addr ->
  sta_mode a = false -> zlen (k_key p) = 32 -> 0 <= k_keyid p < 4 -> is_wep_enc (k_algorithm p) = false ->
  exists i m1 c1, rtw_alloc_macid m c a s bc_addr = Ret (i, m1, c1)
  /\ (i < m_num m -> (k_ext p = true -> i + 1 < 32) -> exists c2,
        setkey_hdl fuel m1 c1 g a true assoc false known spp bssid p
          = Ret (GroupKeys (key_index (with_index g p)) (def_camid g) i (privacy_index g), c2)
        /\ written i (CamEnt (group_ctrl p spp) (mac_addr a) (take 16 (k_key p)))
             (if k_ext p then Some (CamEnt (Z.lor (group_ctrl p spp) (BIT 5)) (mac_addr a) (take 16 (drop 16 (k_key p)))) else None)
             c1 c2)
  /\ (m_num m <= i -> setkey_hdl fuel m1 c1 g a true assoc false known spp bssid p = Oob).
Proof.
  intros Hm Hc L La Ho Hs Lk Hk Hw. assert (2 <= m_num m <= 32) as N by apply Hm.
  pose proof (mi_if _ _ Hm) as If. pose proof (mi_bmcs _ _ Hm) as Lb. assert (is_bc bc_addr = true) as B by done.
  destruct (decide (slot_of m c bc_addr < m_num m)) as [Hl|Hl].
  - destruct (slot_free_of m c bc_addr) as (H0 & U & Hd & Ub); [by exists a|done|done|].
    eexists _, _, _. split; [apply alloc_run; [done|done|by rewrite Hs, andb_false_r|done|done]|].
    split; [|lia]. intros Hi Hx. apply setkey_ap_run; try done; [simpl; lia| |lia].
    unfold rtw_iface_bcmc_id_get, given. cbn [iface_bmc]. rewrite B. apply rd_Ret. split; [lia|].
    apply list_lookup_insert_eq. unfold zlen in *. lia.
  - exists (m_num m), (with_bmc m a INVALID_SEC_MAC_CAM_ID), c. split.
    { unfold rtw_alloc_macid. fold (is_bc bc_addr). rewrite bool_decide_false, B, bmc_set, Hs by (lia || done).
      simp_res. cbn [andb]. rewrite (find_macid_ext _ m) by done.
      assert (m_num m <= find_macid m c true (Z.to_nat (m_num m)) 0) by (unfold slot_of in Hl; rewrite B in Hl; lia).
      change (m_num (with_bmc _ _ _)) with (m_num m). by zdecide. }
    split; [lia|]. intros _. unfold setkey_hdl, rtw_iface_bcmc_id_get. cbn [iface_bmc with_bmc].
    rewrite bind_bind, (bind_Ret _ _ INVALID_SEC_MAC_CAM_ID).
    2: { apply rd_Ret. split; [lia|]. apply list_lookup_insert_eq. unfold zlen in *. lia. }
    simp_res. simpl. unfold _rtw_camid_is_gk, INVALID_SEC_MAC_CAM_ID. zdecide. simp_res.
    unfold write_cam, write_cam_cache. rewrite (slice_Ret (mac_addr a) 0 6) by lia. simp_res.
    rewrite (slice_Ret (k_key p) 0 16) by lia. simp_res.
    unfold wr. rewrite L. simpl. by destruct (negb _).
Qed.

(** ** Instances *)

Definition sample_ap : adapter := Adapter 0 [2; 0; 0; 0; 0; 1] false.
(** The tables after [rtw_macid_ctl_init], and with every macid taken. *)
Definition sample_macid : macid_ctl := MacidCtl 32 2 2 [2] [0; 0] [0xff] (replicate 32 None).
Definition full_macid : macid_ctl := MacidCtl 32 0xffffffff 2 [0xffffffff] [0; 0] [0xff] (replicate 32 None).

Lemma sample_macid_inv : macid_inv sample_macid sample_ap.
Proof.
  split; try by_eval. intros i Hi U. cbn [m_used m_bmc if_g ch_g m_sta sample_macid m_num] in *.
  split; [done|]. split; [by repeat constructor|]. split; [repeat constructor; apply Z.bits_0|]. apply lookup_replicate_2. lia.
Qed.

Lemma full_macid_inv : macid_inv full_macid sample_ap.
Proof.
  split; try by_eval. intros i Hi U. exfalso. cbn [m_used full_macid m_num] in *.
  assert (forallb (fun i => Z.testbit 0xffffffff i) (seqZ 0 32) = true) as T by by_eval.
  by rewrite (forallb_seqZ _ _ T i Hi) in U.
Qed.

Lemma macid_roundtrip_witness : let m := sample_macid in let c := sample_cam 1 in let a := sample_ap in
  exists i m1 c1, rtw_alloc_macid m c a 5 bc_addr = Ret (i, m1, c1)
  /\ (i < m_num m -> (i = RTW_DEFAULT_MGMT_MACID /\ is_bc bc_addr = true /\ sta_mode a = true)
       \/ (Z.testbit (m_used m) i = false /\ Z.testbit (m_used m1) i = true /\ m_sta m1 !! Z.to_nat i = Some (Some 5%nat)))
  /\ rtw_release_macid m1 c1 a bc_addr i
     = Ret (m_num m, if is_bc bc_addr && bool_decide (bc_addr <> mac_addr a) then with_bmc m a INVALID_SEC_MAC_CAM_ID else m, c).
Proof. refine (macid_roundtrip sample_macid (sample_cam 1) sample_ap 5 bc_addr sample_macid_inv _ _); [by_eval|reflexivity]. Defined.

(** Slots 0 and 3 of the cache are taken: the broadcast station gets macid 2 and with it slot 3. *)
Definition taken_cam : cam_state :=
  CamState 32 9 3 0 (CamEnt 0x8010 sta_a (replicate 16 7) :: null_ent :: null_ent
    :: CamEnt 0x8050 sta_b (replicate 16 9) :: replicate 28 null_ent).

Lemma macid_bmc_frees_other_witness : let m := sample_macid in let c := taken_cam in
  exists i m1 c1 m2 c2, rtw_alloc_macid m c sample_ap 5 bc_addr = Ret (i, m1, c1)
  /\ rtw_release_macid m1 c1 sample_ap bc_addr i = Ret (m_num m, m2, c2)
  /\ cam_cache c2 = cam_cache c /\ in_use c2 (slot_of m c bc_addr + 1) = false.
Proof. refine (macid_bmc_frees_other sample_macid taken_cam sample_ap 5 sample_macid_inv _ _ _ _ _ _ _); by_eval. Defined.

Definition sample_gtk : setkey_parm := SetkeyParm 4 1 true key32.
Definition no_keys : group_keys := GroupKeys 0 (replicate 6 0) 0xff 0.

Lemma setkey_group_slot_witness : let m := full_macid in let c := sample_cam 3 in let a := sample_ap in let p := sample_gtk in
  exists i m1 c1, rtw_alloc_macid m c a 5 bc_addr = Ret (i, m1, c1)
  /\ (i < m_num m -> (k_ext p = true -> i + 1 < 32) -> exists c2,
        setkey_hdl 33 m1 c1 no_keys a true true false true false sta_b p
          = Ret (GroupKeys (key_index (with_index no_keys p)) (def_camid no_keys) i (privacy_index no_keys), c2)
        /\ written i (CamEnt (group_ctrl p false) (mac_addr a) (take 16 (k_key p)))
             (if k_ext p then Some (CamEnt (Z.lor (group_ctrl p false) (BIT 5)) (mac_addr a) (take 16 (drop 16 (k_key p)))) else None)
             c1 c2)
  /\ (m_num m <= i -> setkey_hdl 33 m1 c1 no_keys a true true false true false sta_b p = Oob).
Proof.
  refine (setkey_group_slot 33 full_macid (sample_cam 3) no_keys sample_ap 5 true true false sta_b sample_gtk full_macid_inv
    _ _ _ _ _ _ _ _); by_eval.
Defined.
End Macid.
