(* ===== verification/Sta.v ===== *)
(** * The station table

    Models [core/rtw_sta_mgt.c]: [_rtw_init_sta_priv] (the table),
    [rtw_alloc_stainfo], [rtw_free_stainfo], [rtw_get_stainfo],
    [rtw_free_all_stainfo], [rtw_init_bcmc_stainfo], [rtw_get_bcmc_stainfo],
    [rtw_aid_alloc], with [wifi_mac_hash] ([include/sta_info.h]) and the bitmaps
    of sleeping stations ([rtw_bmp_clear], [core/rtw_wlan_util.c]).

    A station is its index in the pool of 32.  Every station is either in the
    free queue or in the chain of the hash table that its address selects.
    Allocation and release take and give back a macid ([Macid]).  The table
    refines a finite map from addresses to stations.  [CONFIG_RTW_PRE_LINK_STA]
    is 0, so [rtw_is_pre_link_sta] is false.  Timers and the fields that are only
    zeroed are left out. *)
From stdpp Require Import gmap.
From S2P Require Import Prelude Cam Macid.

Module Sta.
Import Cam Macid.

Definition NUM_STA : Z := 32.
Definition WIFI_ASOC_STATE : Z := 1.

(** [struct sta_info]: address, macid, association id, state, the transmit queues ([ac_q]: vo, vi, be,
    bk and mgmt with their counts [qcnt]), the 16 reordering queues, the fragment queue and the last sequence numbers. *)
Record sta_info := StaInfo {
  sta_mac : list Z; sta_macid : Z; aid : Z; sta_state : Z;
  tx_queue : list Z; sleep_q : list Z; mgmt_sleep_q : list Z; ac_q : list (list Z); qcnt : list Z;
  reorder_q : list (list Z); defrag_q : list Z; tid_rxseq : list Z
}.

(** [struct sta_priv]; [accnt] are the counts of [pxmitpriv->hwxmits]. *)
Record sta_priv := StaPriv {
  pool : list sta_info; free_q : list nat; sta_hash : list (list nat); asoc_sta_count : Z;
  auth_list : list nat; auth_list_cnt : Z;
  sta_aid : list (option nat); max_aid : Z; max_num_sta : Z; started_aid : Z; rr_aid : bool;
  sta_dz_bitmap : list Z; tim_bitmap : list Z; accnt : list Z
}.

Definition set_table (f : list nat) (h : list (list nat)) (n : Z) (st : sta_priv) : sta_priv :=
  StaPriv (pool st) f h n (auth_list st) (auth_list_cnt st) (sta_aid st) (max_aid st) (max_num_sta st) (started_aid st)
    (rr_aid st) (sta_dz_bitmap st) (tim_bitmap st) (accnt st).
Definition set_pool (p : list sta_info) (st : sta_priv) : sta_priv :=
  StaPriv p (free_q st) (sta_hash st) (asoc_sta_count st) (auth_list st) (auth_list_cnt st) (sta_aid st) (max_aid st)
    (max_num_sta st) (started_aid st) (rr_aid st) (sta_dz_bitmap st) (tim_bitmap st) (accnt st).
Definition set_aids (l : list (option nat)) (s : Z) (dz tim : list Z) (st : sta_priv) : sta_priv :=
  StaPriv (pool st) (free_q st) (sta_hash st) (asoc_sta_count st) (auth_list st) (auth_list_cnt st) l (max_aid st)
    (max_num_sta st) s (rr_aid st) dz tim (accnt st).
Definition set_auth (l : list nat) (n : Z) (acc : list Z) (st : sta_priv) : sta_priv :=
  StaPriv (pool st) (free_q st) (sta_hash st) (asoc_sta_count st) l n (sta_aid st) (max_aid st)
    (max_num_sta st) (started_aid st) (rr_aid st) (sta_dz_bitmap st) (tim_bitmap st) acc.

Definition wifi_mac_hash (mac : list Z) : res Z :=
  m0 ← rd mac 0; m1 ← rd mac 1; m2 ← rd mac 2; m3 ← rd mac 3; m4 ← rd mac 4; m5 ← rd mac 5;
  let x := m0 in
  let x := Z.lxor (u32 (Z.shiftl x 2)) m1 in
  let x := Z.lxor (u32 (Z.shiftl x 2)) m2 in
  let x := Z.lxor (u32 (Z.shiftl x 2)) m3 in
  let x := Z.lxor (u32 (Z.shiftl x 2)) m4 in
  let x := Z.lxor (u32 (Z.shiftl x 2)) m5 in
  let x := Z.lxor x (Z.shiftr x 8) in
  Ret (Z.land x (NUM_STA - 1)).

(** [_rtw_init_stainfo] and the fields [rtw_alloc_stainfo] sets. *)
Definition blank : sta_info :=
  StaInfo (replicate 6 0) 0 0 0 [] [] [] (replicate 5 []) (replicate 5 0) (replicate 16 []) [] (replicate 16 0).
Definition fresh_sta (hwaddr : list Z) (macid : Z) : sta_info :=
  StaInfo hwaddr macid 0 0 [] [] [] (replicate 5 []) (replicate 5 0) (replicate 16 []) [] (replicate 16 0xffff).

(** [_rtw_init_sta_priv] when the allocations succeed. *)
Definition _rtw_init_sta_priv (m : macid_ctl) : sta_priv :=
  let len := (m_num m + 1) / 8 + (if (m_num m + 1) `mod` 8 =? 0 then 0 else 1) in
  StaPriv (replicate 32 blank) (seq 0 32) (replicate 32 []) 0 [] 0 (replicate (Z.to_nat (m_num m)) None) (m_num m) NUM_STA 1
    false (replicate (Z.to_nat len) 0) (replicate (Z.to_nat len) 0) (replicate 5 0).

(** ** Lookup *)

(** The first station of a chain with the address. *)
Fixpoint chain_find (p : list sta_info) (addr : list Z) (l : list nat) : res (option nat) :=
  match l with
  | [] => Ret None
  | s :: l => x ← rd p (Z.of_nat s); if bool_decide (sta_mac x = addr) then Ret (Some s) else chain_find p addr l
  end.

Definition IS_MCAST (a : list Z) : res bool := x ← rd a 0; Ret (negb (Z.land x 1 =? 0)).

Definition rtw_get_stainfo (st : sta_priv) (hwaddr : list Z) : res (option nat) :=
  mc ← IS_MCAST hwaddr;
  let addr := if (mc : bool) then bc_addr else hwaddr in
  index ← wifi_mac_hash addr;
  chain ← rd (sta_hash st) index;
  chain_find (pool st) addr chain.

Definition rtw_get_bcmc_stainfo (st : sta_priv) : res (option nat) := rtw_get_stainfo st bc_addr.

(** ** Allocation *)

Definition rtw_alloc_stainfo (st : sta_priv) (m : macid_ctl) (c : cam_state) (a : adapter) (hwaddr : list Z)
    : res (option nat * sta_priv * macid_ctl * cam_state) :=
  match free_q st with
  | [] => Ret (None, st, m, c)
  | s :: fq =>
      index ← wifi_mac_hash hwaddr;
      if NUM_STA <=? index then
        p ← wr (pool st) (Z.of_nat s) (fresh_sta hwaddr 0);
        Ret (None, set_pool p (set_table fq (sta_hash st) (asoc_sta_count st) st), m, c)
      else
      chain ← rd (sta_hash st) index;
      h ← wr (sta_hash st) index (chain ++ [s]);
      '(id, m, c) ← rtw_alloc_macid m c a s hwaddr;
      p ← wr (pool st) (Z.of_nat s) (fresh_sta hwaddr id);
      Ret (Some s, set_pool p (set_table fq h (asoc_sta_count st + 1) st), m, c)
  end.

(** It returns [_SUCCESS] whether or not a station was left. *)
Definition rtw_init_bcmc_stainfo (st : sta_priv) (m : macid_ctl) (c : cam_state) (a : adapter)
    : res (sta_priv * macid_ctl * cam_state) :=
  '(_, st, m, c) ← rtw_alloc_stainfo st m c a bc_addr; Ret (st, m, c).

(** ** Release *)

Definition rtw_bmp_clear (bmp : list Z) (bmp_len id : Z) : res (list Z) :=
  if id / 8 <? bmp_len then x ← rd bmp (id / 8); wr bmp (id / 8) (Z.ldiff x (BIT (id `mod` 8))) else Ret bmp.

(** [rtw_list_delete(&psta->hash_list)]. *)
Definition unhash (s : nat) (h : list (list nat)) : list (list nat) := map (filter (fun x => x <> s)) h.

(** The association id of a station of an access point. *)
Definition free_aid (st : sta_priv) (s : nat) (x : sta_info) : res (Z * sta_priv) :=
  let len := zlen (sta_dz_bitmap st) in
  dz ← rtw_bmp_clear (sta_dz_bitmap st) len (u8 (aid x));
  tim ← rtw_bmp_clear (tim_bitmap st) len (u8 (aid x));
  if 0 <? aid x then
    o ← rd (sta_aid st) (aid x - 1);
    if bool_decide (o = Some s) then
      l ← wr (sta_aid st) (aid x - 1) None; Ret (0, set_aids l (started_aid st) dz tim st)
    else Ret (aid x, set_aids (sta_aid st) (started_aid st) dz tim st)
  else Ret (aid x, set_aids (sta_aid st) (started_aid st) dz tim st).

(** Releases station [s]; [hw_ap] for [pmlmeinfo->state == _HW_STATE_AP_].  Also the received and the outgoing frames
    that are freed. *)
Definition rtw_free_stainfo (st : sta_priv) (m : macid_ctl) (c : cam_state) (a : adapter) (hw_ap : bool) (s : nat)
    : res (sta_priv * macid_ctl * cam_state * list Z * list Z) :=
  x ← rd (pool st) (Z.of_nat s);
  let st := set_table (free_q st) (unhash s (sta_hash st)) (asoc_sta_count st - 1) st in
  let tx := tx_queue x ++ sleep_q x ++ mgmt_sleep_q x ++ concat (ac_q x) in
  let acc := zip_with Z.sub (accnt st) (qcnt x) in
  let rx := concat (reorder_q x) ++ defrag_q x in
  '(id, m, c) ← rtw_release_macid m c a (sta_mac x) (sta_macid x);
  let st :=
    if bool_decide (s ∈ auth_list st)
    then set_auth (filter (fun y => y <> s) (auth_list st)) (u8 (auth_list_cnt st - 1)) acc st
    else set_auth (auth_list st) (auth_list_cnt st) acc st in
  '(aid', st) ← (if hw_ap then free_aid st s x else Ret (aid x, st));
  p ← wr (pool st) (Z.of_nat s)
        (StaInfo (sta_mac x) id aid' (Z.ldiff (sta_state x) WIFI_ASOC_STATE) [] [] [] (replicate 5 []) (replicate 5 0)
           (replicate 16 []) [] (tid_rxseq x));
  Ret (set_pool p (set_table (free_q st ++ [s]) (sta_hash st) (asoc_sta_count st) st), m, c, rx, tx).

Fixpoint free_each (st : sta_priv) (m : macid_ctl) (c : cam_state) (a : adapter) (hw_ap : bool) (l : list nat)
    : res (sta_priv * macid_ctl * cam_state) :=
  match l with
  | [] => Ret (st, m, c)
  | s :: l => '(st, m, c, _, _) ← rtw_free_stainfo st m c a hw_ap s; free_each st m c a hw_ap l
  end.

(** All stations but the broadcast one: unhashed first, then released. *)
Definition rtw_free_all_stainfo (st : sta_priv) (m : macid_ctl) (c : cam_state) (a : adapter) (hw_ap : bool)
    : res (sta_priv * macid_ctl * cam_state) :=
  bcmc ← rtw_get_bcmc_stainfo st;
  if asoc_sta_count st =? 1 then Ret (st, m, c) else
  let l := filter (fun s => Some s <> bcmc) (concat (sta_hash st)) in
  let h := map (filter (fun s => Some s = bcmc)) (sta_hash st) in
  free_each (set_table (free_q st) h (asoc_sta_count st) st) m c a hw_ap l.

(** ** Association ids *)

(** [for (i = 0; i < max_aid; i++)], [n] values left: the aid the loop stops at, [i] and [used_cnt]. *)
Fixpoint aid_scan (st : sta_priv) (n : nat) (i aid used_cnt : Z) : res (Z * Z * Z) :=
  match n with
  | O => Ret (aid, i, used_cnt)
  | S n =>
      let aid := u16 ((i + started_aid st - 1) `mod` max_aid st + 1) in
      o ← rd (sta_aid st) (aid - 1);
      match o with
      | None => Ret (aid, i, used_cnt)
      | Some _ =>
          let used_cnt := u16 (used_cnt + 1) in
          if max_num_sta st <=? used_cnt then Ret (aid, i, used_cnt) else aid_scan st n (u16 (i + 1)) aid used_cnt
      end
  end.

Definition rtw_aid_alloc (st : sta_priv) (s : nat) : res (Z * sta_priv) :=
  '(aid, i, used_cnt) ← aid_scan st (Z.to_nat (max_aid st)) 0 0 0;
  let aid := if (max_aid st <=? i) || (max_num_sta st <=? used_cnt) then 0 else aid in
  x ← rd (pool st) (Z.of_nat s);
  p ← wr (pool st) (Z.of_nat s)
        (StaInfo (sta_mac x) (sta_macid x) aid (sta_state x) (tx_queue x) (sleep_q x) (mgmt_sleep_q x) (ac_q x) (qcnt x) (reorder_q x)
           (defrag_q x) (tid_rxseq x));
  let st := set_pool p st in
  if negb (aid =? 0) then
    l ← wr (sta_aid st) (aid - 1) (Some s);
    Ret (aid, set_aids l (if rr_aid st then aid `mod` max_aid st + 1 else started_aid st) (sta_dz_bitmap st) (tim_bitmap st) st)
  else Ret (aid, st).

(** ** Specification: a finite map *)

Definition mac_of (st : sta_priv) (s : nat) : list Z := default [] (sta_mac <$> pool st !! s).
Definition hashed (st : sta_priv) : list nat := concat (sta_hash st).
Definition table (st : sta_priv) : gmap (list Z) nat := list_to_map ((fun s => (mac_of st s, s)) <$> hashed st).

(** The stations [L] are in neither list: they are being released. *)
Record sta_mid (st : sta_priv) (L : list nat) : Prop := {
  si_pool : length (pool st) = 32%nat;
  si_hash : length (sta_hash st) = 32%nat;
  si_perm : free_q st ++ L ++ hashed st ≡ₚ seq 0 32;
  si_chain : forall h ch s, sta_hash st !! h = Some ch -> s ∈ ch -> wifi_mac_hash (mac_of st s) = Ret (Z.of_nat h);
  si_macs : NoDup (mac_of st <$> hashed st);
  si_count : asoc_sta_count st = zlen L + zlen (hashed st);
  si_ids : Forall (fun x => 0 <= sta_macid x /\ 0 <= aid x <= zlen (sta_aid st)) (pool st);
  si_bmp : zlen (tim_bitmap st) = zlen (sta_dz_bitmap st)
}.
Definition sta_inv (st : sta_priv) : Prop := sta_mid st [].

(** An address of six bytes. *)
Definition is_mac (l : list Z) : Prop := zlen l = 6.

(** ** Hashing *)

Lemma hash_total l : is_mac l -> exists h, wifi_mac_hash l = Ret (Z.of_nat h) /\ (h < 32)%nat.
Proof.
  unfold is_mac, zlen. intros H. destruct l as [|a0 [|a1 [|a2 [|a3 [|a4 [|a5 l]]]]]]; try (simpl in H; lia).
  eassert (wifi_mac_hash (a0 :: a1 :: a2 :: a3 :: a4 :: a5 :: l) = Ret (Z.land _ (NUM_STA - 1))) as E by reflexivity. rewrite E.
  match goal with |- context [Z.land ?x (NUM_STA - 1)] => set (y := Z.land x (NUM_STA - 1)) end.
  assert (fits 5 y) as Hy by (apply land_fits_r; [lia|by_eval]). unfold fits in Hy.
  exists (Z.to_nat y). split; [|lia]. by rewrite Z2Nat.id by lia.
Qed.

Lemma rd_nat {A} (l : list A) n x : rd l (Z.of_nat n) = Ret x <-> l !! n = Some x.
Proof. rewrite rd_Ret, Nat2Z.id. split; [by intros [_ ?]|]. split; [lia|done]. Qed.

Lemma wr_nat {A} (l : list A) n x : (n < length l)%nat -> wr l (Z.of_nat n) x = Ret (<[n := x]> l).
Proof. intros. rewrite wr_Ret by (unfold zlen; lia). by rewrite Nat2Z.id. Qed.

(** ** The map behind the table *)

Lemma hashed_lt st L s : sta_mid st L -> s ∈ hashed st -> (s < 32)%nat.
Proof.
  intros Hi Hs. assert (s ∈ seq 0 32) as H. { rewrite <- (si_perm _ _ Hi). rewrite !elem_of_app. auto. }
  apply elem_of_seq in H. lia.
Qed.

Lemma free_lt st L s : sta_mid st L -> s ∈ free_q st -> (s < 32)%nat.
Proof.
  intros Hi Hs. assert (s ∈ seq 0 32) as H. { rewrite <- (si_perm _ _ Hi). rewrite !elem_of_app. auto. }
  apply elem_of_seq in H. lia.
Qed.

Lemma all_nodup st L : sta_mid st L -> NoDup (free_q st ++ L ++ hashed st).
Proof. intros Hi. rewrite (si_perm _ _ Hi). apply NoDup_seq. Qed.

Lemma table_lookup st L a s : sta_mid st L -> table st !! a = Some s <-> s ∈ hashed st /\ mac_of st s = a.
Proof.
  intros Hi. unfold table. rewrite <- elem_of_list_to_map.
  2: { rewrite <- list_fmap_compose. apply (si_macs _ _ Hi). }
  rewrite list_elem_of_fmap. split.
  - intros (s' & ? & ?). by simplify_eq.
  - intros [? <-]. by exists s.
Qed.

Lemma hashed_elem st s : s ∈ hashed st <-> exists h ch, sta_hash st !! h = Some ch /\ s ∈ ch.
Proof.
  unfold hashed. rewrite list_elem_of_In, in_concat. split.
  - intros (ch & Hc & Hs). apply list_elem_of_In, list_elem_of_lookup in Hc as [h Hh]. exists h, ch.
    split; [done|]. by apply list_elem_of_In.
  - intros (h & ch & Hh & Hs). exists ch. split; [|by apply list_elem_of_In].
    apply list_elem_of_In. by apply list_elem_of_lookup_2 in Hh.
Qed.

Lemma chain_find_spec st addr l : (forall s, s ∈ l -> is_Some (pool st !! s)) ->
  exists o, chain_find (pool st) addr l = Ret o /\
  match o with Some s => s ∈ l /\ mac_of st s = addr | None => forall s, s ∈ l -> mac_of st s <> addr end.
Proof.
  induction l as [|s l IH]; intros H; simpl; [exists None; split; [done|]; intros s Hs; by apply elem_of_nil in Hs|].
  destruct (H s) as [x Hx]; [by left|]. rewrite (bind_Ret _ _ x) by (by apply rd_nat).
  assert (mac_of st s = sta_mac x) as Em by (unfold mac_of; by rewrite Hx).
  case_bool_decide as D.
  - exists (Some s). split; [done|]. split; [by left|congruence].
  - destruct IH as (o & E & Ho). { intros. apply H. by right. }
    exists o. split; [done|]. destruct o as [s'|].
    + destruct Ho. split; [by right|done].
    + intros s' Hs'. apply elem_of_cons in Hs' as [->|]; [congruence|by apply Ho].
Qed.

(** Searching the chain of an address finds what the map holds. *)
Lemma search_table st L a : sta_mid st L -> is_mac a ->
  (index ← wifi_mac_hash a; chain ← rd (sta_hash st) index; chain_find (pool st) a chain) = Ret (table st !! a).
Proof.
  intros Hi Ha. destruct (hash_total a Ha) as (h & E & Hh). bind_step E.
  destruct (lookup_lt_is_Some_2 (sta_hash st) h) as [ch Hch]; [by rewrite (si_hash _ _ Hi)|].
  rewrite (bind_Ret _ _ ch) by (by apply rd_nat).
  destruct (chain_find_spec st a ch) as (o & Eo & Ho).
  { intros s Hs. apply lookup_lt_is_Some_2. rewrite (si_pool _ _ Hi). apply (hashed_lt st L); [done|]. apply hashed_elem. by exists h, ch. }
  rewrite Eo. f_equal. destruct o as [s|].
  - symmetry. eapply table_lookup; [done|]. destruct Ho. split; [|done]. apply hashed_elem. by exists h, ch.
  - destruct (table st !! a) as [s|] eqn:T; [|done]. eapply table_lookup in T as [Hs Hm]; [|done].
    apply hashed_elem in Hs as (h' & ch' & Hh' & Hs). pose proof (si_chain _ _ Hi _ _ _ Hh' Hs) as X.
    rewrite Hm, E in X. assert (h' = h) as -> by (injection X; lia). simplify_eq. by apply Ho in Hs.
Qed.

(** ** Lists of chains *)

Lemma concat_insert_snoc (l : list (list nat)) h ch s : l !! h = Some ch -> concat (<[h := ch ++ [s]]> l) ≡ₚ s :: concat l.
Proof.
  intros H. rewrite <- (take_drop_middle l h ch H) at 2.
  rewrite insert_take_drop by (by eapply lookup_lt_Some). rewrite !concat_app. simpl.
  rewrite <- (app_assoc ch [s]), (app_assoc (concat _) ch). simpl. rewrite (app_assoc _ ch (concat _)).
  symmetry. apply Permutation_middle.
Qed.

Lemma concat_map_filter (P : nat -> Prop) `{forall x, Decision (P x)} (l : list (list nat)) :
  concat (map (filter P) l) = filter P (concat l).
Proof. induction l as [|x l IH]; simpl; [done|]. by rewrite filter_app, IH. Qed.

Lemma perm_remove (l : list nat) s : NoDup l -> s ∈ l -> l ≡ₚ s :: filter (fun x => x <> s) l.
Proof.
  intros Hn Hs. apply NoDup_Permutation; [done| |].
  - constructor; [|by apply NoDup_filter]. intros H. by apply list_elem_of_filter in H as [? _].
  - intros x. rewrite elem_of_cons, list_elem_of_filter. destruct (decide (x = s)) as [->|]; tauto.
Qed.

Lemma filter_all (P : nat -> Prop) `{forall x, Decision (P x)} (l : list nat) : (forall x, x ∈ l -> P x) -> filter P l = l.
Proof.
  induction l as [|x l IH]; intros Hp; [done|]. rewrite filter_cons_True by (apply Hp; by left). f_equal. apply IH.
  intros y Hy. apply Hp. by right.
Qed.

Lemma unhash_id s h : s ∉ concat h -> unhash s h = h.
Proof.
  unfold unhash. induction h as [|ch h IH]; intros H; [done|]. simpl in *. rewrite not_elem_of_app in H. destruct H as [H1 H2].
  rewrite filter_all by (intros x Hx ->; done). by rewrite IH.
Qed.

(** ** Allocation *)

(** Appending free station [s] to the chain of address [a]. *)
Lemma add_mid st s fq a h ch x : sta_mid st [] -> free_q st = s :: fq -> is_mac a -> table st !! a = None ->
  wifi_mac_hash a = Ret (Z.of_nat h) -> sta_hash st !! h = Some ch -> sta_mac x = a -> 0 <= sta_macid x -> aid x = 0 ->
  let st' := set_pool (<[s := x]> (pool st)) (set_table fq (<[h := ch ++ [s]]> (sta_hash st)) (asoc_sta_count st + 1) st) in
  sta_mid st' [] /\ table st' = <[a := s]> (table st) /\ s ∉ hashed st.
Proof.
  intros Hi Ef Ha Hn Eh Hch Ex Hm Hx st'.
  assert (s < 32)%nat as Hs by (apply (free_lt st [] s Hi); rewrite Ef; by left).
  pose proof (all_nodup st [] Hi) as ND. rewrite Ef in ND. simpl in ND. apply NoDup_cons in ND as [Hsn ND].
  rewrite elem_of_app in Hsn. assert (s ∉ hashed st) as Hsh by tauto.
  assert (forall t, mac_of st' t = if decide (t = s) then a else mac_of st t) as Em.
  { intros t. rewrite <- Ex. unfold st', mac_of. simpl. case_decide as D; [subst|by rewrite list_lookup_insert_ne].
    by rewrite list_lookup_insert_eq by (rewrite (si_pool _ _ Hi); lia). }
  assert (hashed st' ≡ₚ s :: hashed st) as Ep by (by apply concat_insert_snoc).
  assert (mac_of st' <$> hashed st = mac_of st <$> hashed st) as Emap.
  { apply list_fmap_ext. intros i t Ht. rewrite Em. rewrite decide_False; [done|]. intros ->.
    by apply list_elem_of_lookup_2 in Ht. }
  assert (sta_mid st' []) as Hi'.
  { split; simpl.
    - by rewrite length_insert, (si_pool _ _ Hi).
    - by rewrite length_insert, (si_hash _ _ Hi).
    - rewrite Ep, <- (si_perm _ _ Hi), Ef. simpl. by rewrite <- Permutation_middle.
    - intros h' ch' t Hh' Ht. rewrite Em. destruct (decide (h' = h)) as [->|Hne].
      + rewrite list_lookup_insert_eq in Hh' by (by eapply lookup_lt_Some). simplify_eq. case_decide; [done|].
        apply elem_of_app in Ht as [Ht|Ht]; [by eapply (si_chain _ _ Hi)|]. by apply list_elem_of_singleton in Ht.
      + rewrite list_lookup_insert_ne in Hh' by done. rewrite decide_False; [by eapply (si_chain _ _ Hi)|].
        intros ->. apply Hsh, hashed_elem. by exists h', ch'.
    - rewrite Ep, fmap_cons, Em, decide_True, Emap by done. constructor; [|apply (si_macs _ _ Hi)].
      intros H. apply list_elem_of_fmap in H as (t & Et & Ht). assert (table st !! a = Some t) by (by eapply table_lookup).
      congruence.
    - unfold zlen in *. rewrite Ep, (si_count _ _ Hi). unfold zlen. simpl. lia.
    - apply Forall_insert; [apply (si_ids _ _ Hi)|]. rewrite Hx. unfold zlen. lia.
    - apply (si_bmp _ _ Hi). }
  split; [done|]. split; [|done]. apply map_eq. intros k. apply option_eq. intros t.
  rewrite (table_lookup st' [] k t Hi'), Ep, elem_of_cons, Em. destruct (decide (k = a)) as [->|Hk].
  - rewrite lookup_insert_eq. split; [|intros ?; simplify_eq; rewrite decide_True by done; auto].
    case_decide; [by subst|]. intros [[->|Ht] Et]; [done|]. assert (table st !! a = Some t) by (by eapply table_lookup). congruence.
  - rewrite lookup_insert_ne by done. rewrite (table_lookup st [] k t Hi). case_decide as D; [subst; split; [intros [_ E]; by rewrite E in Hk|by intros [? _]]|tauto].
Qed.

Lemma alloc_table st m c a addr : sta_inv st -> macid_inv m a -> is_mac addr -> table st !! addr = None ->
  (free_q st = [] /\ rtw_alloc_stainfo st m c a addr = Ret (None, st, m, c))
  \/ exists s st' m' c', rtw_alloc_stainfo st m c a addr = Ret (Some s, st', m', c')
     /\ sta_inv st' /\ macid_inv m' a /\ table st' = <[addr := s]> (table st) /\ s ∉ hashed st.
Proof.
  intros Hi Hm Ha Hn. unfold rtw_alloc_stainfo. destruct (free_q st) as [|s fq] eqn:Ef; [by left|right].
  destruct (hash_total addr Ha) as (h & Eh & Hh). bind_step Eh. unfold NUM_STA. zdecide.
  destruct (lookup_lt_is_Some_2 (sta_hash st) h) as [ch Hch]; [by rewrite (si_hash _ _ Hi)|].
  rewrite (bind_Ret _ _ ch) by (by apply rd_nat). rewrite wr_nat by (by rewrite (si_hash _ _ Hi)). simp_res.
  destruct (alloc_inv m c a s addr Hm) as (i & m1 & c1 & E & Hm1 & Hr & _). bind_step E.
  assert (s < 32)%nat as Hs by (apply (free_lt st [] s Hi); rewrite Ef; by left).
  rewrite wr_nat by (rewrite (si_pool _ _ Hi); lia). simp_res.
  destruct (add_mid st s fq addr h ch (fresh_sta addr i)) as (Hi' & Ht & Hs'); try done; [simpl; lia|].
  eexists _, _, _, _. split; [done|]. by repeat (split; [done|]).
Qed.

(** ** Release *)

(** Taking station [s] off its chain. *)
Lemma unhash_mid st s : sta_mid st [] -> s ∈ hashed st ->
  let st' := set_table (free_q st) (unhash s (sta_hash st)) (asoc_sta_count st) st in
  sta_mid st' [s] /\ table st' = delete (mac_of st s) (table st).
Proof.
  intros Hi Hs st'. assert (hashed st' = filter (fun x => x <> s) (hashed st)) as Eh by apply concat_map_filter.
  pose proof (all_nodup st [] Hi) as ND. apply NoDup_app in ND as (_ & _ & ND). simpl in ND.
  pose proof (perm_remove (hashed st) s ND Hs) as Ep. rewrite <- Eh in Ep.
  assert (sta_mid st' [s]) as Hi'.
  { split; simpl; try apply Hi.
    - unfold unhash. by rewrite length_map, (si_hash _ _ Hi).
    - rewrite <- (si_perm _ _ Hi), Ep. done.
    - intros h ch t Hh Ht. unfold unhash in Hh. rewrite list_lookup_fmap in Hh.
      destruct (sta_hash st !! h) as [ch0|] eqn:E; [|done]. simplify_eq/=. apply list_elem_of_filter in Ht as [_ Ht].
      by eapply (si_chain _ _ Hi).
    - rewrite Eh. eapply sublist_NoDup; [apply (si_macs _ _ Hi)|]. apply fmap_sublist, sublist_filter.
    - rewrite (si_count _ _ Hi). unfold zlen. rewrite Ep. simpl. lia. }
  split; [done|]. apply map_eq. intros k. apply option_eq. intros t.
  rewrite (table_lookup st' [s] k t Hi'), lookup_delete_Some, (table_lookup st [] k t Hi), Eh, list_elem_of_filter.
  change (mac_of st' t) with (mac_of st t). split; [|intuition congruence]. intros ((Hne & Ht) & <-). split; [|done].
  intros E. apply Hne. assert (table st !! mac_of st s = Some s) by (by eapply table_lookup).
  assert (table st !! mac_of st s = Some t) by (by eapply table_lookup). congruence.
Qed.

Lemma bmp_clear_total b n i : n = zlen b -> 0 <= i -> exists b', rtw_bmp_clear b n i = Ret b' /\ zlen b' = zlen b.
Proof.
  intros -> Hi. unfold rtw_bmp_clear. destruct (i / 8 <? zlen b) eqn:E; [|by exists b]. apply Z.ltb_lt in E.
  assert (0 <= i / 8) by (apply Z.div_pos; lia). destruct (rd_in b (i / 8)) as (x & Ex & _); [lia|]. bind_step Ex.
  rewrite wr_Ret by lia. eexists. split; [done|]. by rewrite zlen_insert.
Qed.

(** [free_aid] changes the table of association ids and the bitmaps only. *)
Lemma free_aid_total st s x : zlen (tim_bitmap st) = zlen (sta_dz_bitmap st) -> 0 <= aid x <= zlen (sta_aid st) ->
  exists i l dz tim, free_aid st s x = Ret (i, set_aids l (started_aid st) dz tim st) /\ 0 <= i <= zlen (sta_aid st)
  /\ zlen l = zlen (sta_aid st) /\ zlen tim = zlen dz.
Proof.
  intros Hb Ha. assert (0 <= u8 (aid x)) as Hu by (apply Z.mod_pos_bound; lia). unfold free_aid.
  destruct (bmp_clear_total (sta_dz_bitmap st) (zlen (sta_dz_bitmap st)) (u8 (aid x))) as (dz & E1 & L1); [done|done|]. bind_step E1.
  destruct (bmp_clear_total (tim_bitmap st) (zlen (sta_dz_bitmap st)) (u8 (aid x))) as (tim & E2 & L2); [done|done|]. bind_step E2.
  assert (zlen tim = zlen dz) as Lt by congruence.
  destruct (0 <? aid x) eqn:E; [|by eexists _, _, _, _; split; [done|]]. apply Z.ltb_lt in E.
  destruct (rd_in (sta_aid st) (aid x - 1)) as (o & Eo & _); [lia|]. bind_step Eo.
  case_bool_decide; [|by eexists _, _, _, _; split; [done|]]. rewrite wr_Ret by lia. simp_res.
  eexists _, _, _, _. split; [done|]. split; [lia|]. by rewrite zlen_insert.
Qed.

(** The step that frees the association id, with the interface an access point or not. *)
Lemma aid_stage st s x (ap : bool) : zlen (tim_bitmap st) = zlen (sta_dz_bitmap st) -> 0 <= aid x <= zlen (sta_aid st) ->
  exists i l dz tim, (if ap then free_aid st s x else Ret (aid x, st)) = Ret (i, set_aids l (started_aid st) dz tim st)
  /\ 0 <= i <= zlen (sta_aid st) /\ zlen l = zlen (sta_aid st) /\ zlen tim = zlen dz.
Proof.
  intros Hb Ha. destruct ap; [by apply free_aid_total|].
  exists (aid x), (sta_aid st), (sta_dz_bitmap st), (tim_bitmap st). split; [by destruct st|]. done.
Qed.

(** Putting a station that is off its chain back in the free queue. *)
Lemma put_back st st2 s L x x' : sta_mid st (s :: L) -> pool st !! s = Some x -> pool st2 = <[s := x']> (pool st) ->
  free_q st2 = free_q st ++ [s] -> sta_hash st2 = sta_hash st -> asoc_sta_count st2 = asoc_sta_count st - 1 ->
  zlen (sta_aid st2) = zlen (sta_aid st) -> zlen (tim_bitmap st2) = zlen (sta_dz_bitmap st2) ->
  sta_mac x' = sta_mac x -> 0 <= sta_macid x' -> 0 <= aid x' <= zlen (sta_aid st) ->
  sta_mid st2 L /\ table st2 = table st /\ hashed st2 = hashed st.
Proof.
  intros Hi Hx Ep Ef Eh Ec Ea Eb Em Hm Haid.
  assert (forall t, mac_of st2 t = mac_of st t) as Emac.
  { intros t. unfold mac_of. rewrite Ep. destruct (decide (t = s)) as [->|]; [|by rewrite list_lookup_insert_ne].
    rewrite list_lookup_insert_eq by (by eapply lookup_lt_Some). rewrite Hx. simpl. by rewrite Em. }
  assert (hashed st2 = hashed st) as Ehd by (unfold hashed; by rewrite Eh).
  split; [split|].
  - by rewrite Ep, length_insert, (si_pool _ _ Hi).
  - by rewrite Eh, (si_hash _ _ Hi).
  - rewrite <- (si_perm _ _ Hi), Ehd, Ef, <- app_assoc. done.
  - intros h ch t Hh Ht. rewrite Eh in Hh. rewrite Emac. by eapply (si_chain _ _ Hi).
  - rewrite Ehd. erewrite list_fmap_ext; [apply (si_macs _ _ Hi)|]. intros i t _. apply Emac.
  - rewrite Ec, Ehd, (si_count _ _ Hi), zlen_cons. lia.
  - rewrite Ep, Ea. apply Forall_insert; [apply (si_ids _ _ Hi)|done].
  - done.
  - split; [|done]. unfold table. rewrite Ehd. f_equal. apply list_fmap_ext. intros i t _. by rewrite Emac.
Qed.

(** Releasing a station that is off its chain. *)
Lemma free_mid st m c a ap s L : sta_mid st (s :: L) -> macid_inv m a ->
  exists st' m' c' x, pool st !! s = Some x
  /\ rtw_free_stainfo st m c a ap s
     = Ret (st', m', c', concat (reorder_q x) ++ defrag_q x, tx_queue x ++ sleep_q x ++ mgmt_sleep_q x ++ concat (ac_q x))
  /\ sta_mid st' L /\ macid_inv m' a /\ table st' = table st /\ hashed st' = hashed st.
Proof.
  intros Hi Hm. pose proof (all_nodup st (s :: L) Hi) as ND.
  apply NoDup_app in ND as (_ & _ & ND). simpl in ND. apply NoDup_cons in ND as [Hsn _]. rewrite elem_of_app in Hsn.
  assert (s ∉ hashed st) as Hsh by tauto.
  assert (s < 32)%nat as Hs.
  { assert (s ∈ seq 0 32) as H by (rewrite <- (si_perm _ _ Hi), !elem_of_app, elem_of_cons; auto). apply elem_of_seq in H. lia. }
  destruct (lookup_lt_is_Some_2 (pool st) s) as [x Hx]; [rewrite (si_pool _ _ Hi); lia|].
  pose proof (proj1 (Forall_lookup _ _) (si_ids _ _ Hi) s x Hx) as [Hid Haid].
  unfold rtw_free_stainfo. rewrite (bind_Ret _ _ x) by (by apply rd_nat). rewrite unhash_id by done.
  destruct (release_inv m c a (sta_mac x) (sta_macid x) Hm Hid) as (m1 & c1 & E & Hm1 & N1 & _). bind_step E.
  match goal with |- context [if bool_decide (s ∈ auth_list ?t) then ?p else ?q] =>
    set (st1 := if bool_decide (s ∈ auth_list t) then p else q) end.
  destruct (aid_stage st1 s x ap) as (i & l & dz & tim & E1 & Hr & Ll & Lb);
    [unfold st1; case_bool_decide; apply Hi|unfold st1; by case_bool_decide|].
  bind_step E1. assert (pool (set_aids l (started_aid st1) dz tim st1) = pool st) as Ep by (unfold st1; by case_bool_decide).
  assert (sta_aid st1 = sta_aid st) as Ea by (unfold st1; by case_bool_decide). rewrite Ea in *.
  rewrite Ep, wr_nat by (rewrite (si_pool _ _ Hi); lia). simp_res.
  eexists _, _, _, x. split; [done|]. split; [done|]. pose proof (mi_num _ _ Hm) as N.
  match goal with |- sta_mid ?s2 L /\ _ => destruct (put_back st s2 s L x
    (StaInfo (sta_mac x) (m_num m) i (Z.ldiff (sta_state x) WIFI_ASOC_STATE) [] [] [] (replicate 5 []) (replicate 5 0)
       (replicate 16 []) [] (tid_rxseq x))) as (? & ? & ?) end; try done; try (unfold st1; by case_bool_decide); simpl; lia.
Qed.

Lemma free_unhash st m c a ap s :
  rtw_free_stainfo st m c a ap s
  = rtw_free_stainfo (set_table (free_q st) (unhash s (sta_hash st)) (asoc_sta_count st) st) m c a ap s.
Proof.
  unfold rtw_free_stainfo. simpl. rewrite (unhash_id s (unhash s (sta_hash st))); [done|].
  unfold unhash. rewrite concat_map_filter. rewrite list_elem_of_filter. tauto.
Qed.

Lemma table_size st : sta_inv st -> size (table st) = length (hashed st).
Proof.
  intros Hi. unfold table. rewrite map_size_list_to_map; [by rewrite length_fmap|].
  rewrite <- list_fmap_compose. apply (si_macs _ _ Hi).
Qed.

Lemma full_size st : sta_inv st -> free_q st = [] -> size (table st) = 32%nat.
Proof.
  intros Hi Ef. rewrite table_size by done. pose proof (si_perm _ _ Hi) as P. rewrite Ef in P. by rewrite P.
Qed.

(** C8: The station table is a finite map from addresses to stations, which all its operations keep.  [rtw_get_stainfo]
    returns what the map holds for the address (for every multicast address: for the broadcast address).
    [rtw_alloc_stainfo] with a new address adds it with a station no address had, or returns NULL and changes nothing
    when 32 stations are in use.  [rtw_free_stainfo] removes exactly the station's address and frees every received and
    outgoing frame the station holds (those of its transmit queue, of both sleep queues and of the queues of the four
    categories and of management frames), each once. *)
Theorem sta_table_refines st m c a addr ap mc :
  sta_inv st -> macid_inv m a -> is_mac addr -> IS_MCAST addr = Ret mc ->
  rtw_get_stainfo st addr = Ret (table st !! (if mc then bc_addr else addr))
  /\ (table st !! addr = None ->
       (size (table st) = 32%nat /\ rtw_alloc_stainfo st m c a addr = Ret (None, st, m, c))
       \/ exists s st' m' c', rtw_alloc_stainfo st m c a addr = Ret (Some s, st', m', c')
          /\ sta_inv st' /\ macid_inv m' a /\ table st' = <[addr := s]> (table st) /\ s ∉ hashed st)
  /\ (forall s, table st !! addr = Some s -> exists st' m' c' x, pool st !! s = Some x
       /\ rtw_free_stainfo st m c a ap s
          = Ret (st', m', c', concat (reorder_q x) ++ defrag_q x, tx_queue x ++ sleep_q x ++ mgmt_sleep_q x ++ concat (ac_q x))
       /\ sta_inv st' /\ macid_inv m' a /\ table st' = delete addr (table st)).
Proof.
  intros Hi Hm Ha Hmc. split; [|split].
  - unfold rtw_get_stainfo. bind_step Hmc. apply (search_table st []); [done|]. by destruct mc.
  - intros Hn. destruct (alloc_table st m c a addr Hi Hm Ha Hn) as [[Ef E]|X]; [left|by right].
    split; [by apply full_size|done].
  - intros s Hs. apply (table_lookup st [] addr s Hi) in Hs as [Hs Em]. destruct (unhash_mid st s Hi Hs) as [Hi1 T1].
    destruct (free_mid _ m c a ap s [] Hi1 Hm) as (st' & m' & c' & x & Hx & E & Hi' & Hm' & T & _).
    exists st', m', c', x. split; [done|]. split; [by rewrite free_unhash|]. split; [done|]. split; [done|].
    by rewrite T, T1, Em.
Qed.

Lemma free_each_mid st m c a ap L : sta_mid st L -> macid_inv m a ->
  exists st' m' c', free_each st m c a ap L = Ret (st', m', c') /\ sta_inv st' /\ macid_inv m' a /\ table st' = table st.
Proof.
  revert st m c. induction L as [|s L IH]; intros st m c Hi Hm; simpl; [by exists st, m, c|].
  destruct (free_mid st m c a ap s L Hi Hm) as (st1 & m1 & c1 & x & _ & E & Hi1 & Hm1 & T1 & _). bind_step E.
  destruct (IH st1 m1 c1 Hi1 Hm1) as (st2 & m2 & c2 & E2 & Hi2 & Hm2 & T2).
  exists st2, m2, c2. split; [done|]. split; [done|]. split; [done|]. congruence.
Qed.

(** Keeping on the chains only the stations that satisfy [P]. *)
Lemma keep_mid st (P : nat -> Prop) `{forall s, Decision (P s)} : sta_inv st ->
  let st' := set_table (free_q st) (map (filter P) (sta_hash st)) (asoc_sta_count st) st in
  sta_mid st' (filter (fun s => ~ P s) (hashed st)) /\ hashed st' = filter P (hashed st).
Proof.
  intros Hi st'. assert (hashed st' = filter P (hashed st)) as Eh by apply concat_map_filter. split; [|done].
  assert (filter (fun s => ~ P s) (hashed st) ++ filter P (hashed st) ≡ₚ hashed st) as Ep.
  { rewrite Permutation_app_comm. symmetry. rewrite <- (filter_app_complement P (hashed st)) at 1. done. }
  split; simpl; try apply Hi.
  - by rewrite length_map, (si_hash _ _ Hi).
  - rewrite Eh, Ep. apply (si_perm _ _ Hi).
  - intros h ch t Hh Ht. rewrite list_lookup_fmap in Hh.
    destruct (sta_hash st !! h) as [ch0|] eqn:E; [|done]. simplify_eq/=. apply list_elem_of_filter in Ht as [_ Ht].
    by eapply (si_chain _ _ Hi).
  - rewrite Eh. eapply sublist_NoDup; [apply (si_macs _ _ Hi)|]. apply fmap_sublist, sublist_filter.
  - rewrite (si_count _ _ Hi), Eh. apply Permutation_length in Ep. rewrite length_app in Ep. unfold zlen. simpl. lia.
Qed.

Lemma bc_lookup st : sta_inv st -> rtw_get_bcmc_stainfo st = Ret (table st !! bc_addr).
Proof. intros Hi. unfold rtw_get_bcmc_stainfo, rtw_get_stainfo. simp_res. by apply (search_table st []). Qed.

(** [rtw_free_all_stainfo] releases every station but the broadcast one: afterwards the table holds the broadcast
    address only, or nothing when there was no broadcast station.  In that second case a table with exactly one station
    is left as it is, because the count 1 is taken for the broadcast station. *)
Theorem sta_free_all st m c a ap : sta_inv st -> macid_inv m a ->
  exists st' m' c', rtw_free_all_stainfo st m c a ap = Ret (st', m', c') /\ sta_inv st' /\ macid_inv m' a
  /\ table st' = match table st !! bc_addr with
                 | Some b => {[bc_addr := b]}
                 | None => if asoc_sta_count st =? 1 then table st else ∅
                 end.
Proof.
  intros Hi Hm. unfold rtw_free_all_stainfo. pose proof (bc_lookup st Hi) as E. bind_step E. set (bc := table st !! bc_addr) in *.
  destruct (asoc_sta_count st =? 1) eqn:Ec.
  - exists st, m, c. split; [done|]. split; [done|]. split; [done|]. destruct bc as [b|] eqn:Eb; [|done].
    apply Z.eqb_eq in Ec. rewrite (si_count _ _ Hi) in Ec. unfold zlen in Ec. simpl in Ec.
    destruct (hashed st) as [|y [|]] eqn:Eh; simpl in Ec; try lia.
    apply (table_lookup st [] _ b Hi) in Eb as [Hb Em]. rewrite Eh in Hb. apply list_elem_of_singleton in Hb as ->.
    apply map_eq. intros k. apply option_eq. intros t.
    rewrite (table_lookup st [] k t Hi), Eh, list_elem_of_singleton, lookup_singleton_Some. split.
    + intros [-> <-]. by rewrite Em.
    + intros [<- <-]. done.
  - destruct (keep_mid st (fun s => Some s = bc) Hi) as [Hi1 Eh].
    destruct (free_each_mid _ m c a ap _ Hi1 Hm) as (st' & m' & c' & E' & Hi' & Hm' & T').
    exists st', m', c'. split; [exact E'|]. split; [done|]. split; [done|]. rewrite T'.
    apply map_eq. intros k. apply option_eq. intros t.
    rewrite (table_lookup _ _ k t Hi1), Eh, list_elem_of_filter.
    change (mac_of (set_table _ _ _ st) t) with (mac_of st t).
    assert ((Some t = bc /\ t ∈ hashed st) /\ mac_of st t = k <-> k = bc_addr /\ bc = Some t) as ->.
    { unfold bc. split.
      - intros ((Hb & Ht) & <-). symmetry in Hb. pose proof Hb as Hb'. apply (table_lookup st [] _ t Hi) in Hb' as [_ ?]. done.
      - intros [-> Hb]. pose proof Hb as Hb'. apply (table_lookup st [] _ t Hi) in Hb' as [? ?]. done. }
    destruct bc as [b|]; [|rewrite lookup_empty; by split; intros H; [destruct H|]].
    rewrite lookup_singleton_Some. split; [intros [-> E1]; by injection E1|by intros [-> ->]].
Qed.

(** The table [_rtw_init_sta_priv] builds is empty and satisfies the invariant. *)
Lemma init_inv m : sta_inv (_rtw_init_sta_priv m) /\ table (_rtw_init_sta_priv m) = ∅.
Proof.
  split; [|done]. split; try done; simpl.
  - intros h ch s Hh Hs. change (replicate 32 [] !! h = Some ch) in Hh. apply lookup_replicate in Hh as [-> _].
    by apply elem_of_nil in Hs.
  - constructor.
  - repeat constructor; simpl; unfold zlen; lia.
Qed.

(** ** Association ids *)

Record aid_ok (st : sta_priv) : Prop := {
  ao_max : 0 < max_aid st < 65536;
  ao_len : zlen (sta_aid st) = max_aid st;
  ao_start : 1 <= started_aid st;
  ao_num : 0 <= max_num_sta st
}.

(** The index the loop looks at in round [i], and whether it is taken. *)
Definition aid_pos (st : sta_priv) (i : Z) : Z := (i + started_aid st - 1) `mod` max_aid st.
Definition taken (st : sta_priv) (k : Z) : Prop := exists s, sta_aid st !! Z.to_nat k = Some (Some s).

Lemma aid_pos_range st i : aid_ok st -> 0 <= aid_pos st i < max_aid st.
Proof. intros H. apply Z.mod_pos_bound, H. Qed.

(** The scan stops in round [k] with the rounds before it taken: at a free index, at the limit of
    stations, or at the end. *)
Lemma aid_scan_spec st n i a0 : aid_ok st -> i + Z.of_nat n = max_aid st -> 0 <= i ->
  (forall j, 0 <= j < i -> taken st (aid_pos st j)) ->
  exists k a r, 0 <= k <= max_aid st /\ (forall j, 0 <= j < k -> taken st (aid_pos st j))
  /\ aid_scan st n i a0 i = Ret (a, r, k)
  /\ ((k < max_aid st /\ r = k /\ a = aid_pos st k + 1 /\ sta_aid st !! Z.to_nat (aid_pos st k) = Some None)
      \/ max_num_sta st <= k \/ (k = max_aid st /\ r = max_aid st)).
Proof.
  intros Ho. revert i a0. induction n as [|n IH]; intros i a0 Hn Hi Ht; simpl.
  { exists i, a0, i. split; [lia|]. split; [done|]. split; [done|]. right; right. lia. }
  pose proof (ao_max _ Ho) as Hm. pose proof (aid_pos_range st i Ho) as Hp. pose proof (ao_len _ Ho) as L.
  fold (aid_pos st i). rewrite (wrap_small 16 (aid_pos st i + 1)) by (unfold fits; lia).
  replace (aid_pos st i + 1 - 1) with (aid_pos st i) by lia.
  destruct (rd_in (sta_aid st) (aid_pos st i)) as (o & E & _); [lia|]. bind_step E. apply rd_Ret in E as [_ E].
  destruct o as [s|].
  - assert (forall j, 0 <= j < i + 1 -> taken st (aid_pos st j)) as Ht'.
    { intros j Hj. destruct (decide (j = i)) as [->|]; [by exists s|apply Ht; lia]. }
    rewrite !(wrap_small 16 (i + 1)) by (unfold fits; lia). destruct (max_num_sta st <=? i + 1) eqn:El.
    + apply Z.leb_le in El. eexists (i + 1), _, _. split; [lia|]. split; [done|]. split; [done|]. by right; left.
    + apply IH; [lia|lia|done].
  - exists i, (aid_pos st i + 1), i. split; [lia|]. split; [done|]. split; [done|]. left. split; [lia|]. done.
Qed.

(** The indices of the taken entries. *)
Fixpoint taken_at (l : list (option nat)) (off : nat) : list nat :=
  match l with
  | [] => []
  | Some _ :: l => off :: taken_at l (S off)
  | None :: l => taken_at l (S off)
  end.

Lemma taken_at_length l off : length (taken_at l off) = length (filter (fun o => o <> None) l).
Proof.
  revert off. induction l as [|[s|] l IH]; intros off; cbn [taken_at]; [done| |].
  - rewrite filter_cons_True by done. cbn [length]. by rewrite IH.
  - rewrite filter_cons_False by auto. apply IH.
Qed.

Lemma taken_at_elem l off k s : l !! k = Some (Some s) -> (off + k)%nat ∈ taken_at l off.
Proof.
  revert off k. induction l as [|o l IH]; intros off k H; [done|]. destruct k as [|k]; simpl in *.
  - simplify_eq. rewrite Nat.add_0_r. by left.
  - specialize (IH (S off) k H). rewrite Nat.add_succ_r. destruct o; [by right|done].
Qed.

Lemma aid_pos_inj st x y : aid_ok st -> 0 <= x < max_aid st -> 0 <= y < max_aid st -> aid_pos st x = aid_pos st y -> x = y.
Proof.
  intros Ho Hx Hy E. pose proof (ao_max _ Ho) as Hm. unfold aid_pos in E.
  pose proof (Z.div_mod (x + started_aid st - 1) (max_aid st) ltac:(lia)) as D1.
  pose proof (Z.div_mod (y + started_aid st - 1) (max_aid st) ltac:(lia)) as D2. rewrite E in D1.
  revert D1 D2. generalize ((x + started_aid st - 1) / max_aid st) as p, ((y + started_aid st - 1) / max_aid st) as q.
  intros p q D1 D2. assert (x - y = max_aid st * (p - q)) as D by (rewrite Z.mul_sub_distr_l; lia).
  destruct (Z.lt_trichotomy p q) as [|[->|]]; nia.
Qed.

Lemma count_taken st k : aid_ok st -> 0 <= k <= max_aid st -> (forall j, 0 <= j < k -> taken st (aid_pos st j)) ->
  k <= zlen (filter (fun o => o <> None) (sta_aid st)).
Proof.
  intros Ho Hk Ht. unfold zlen. rewrite <- (taken_at_length _ 0).
  set (ps := (fun j => Z.to_nat (aid_pos st j)) <$> seqZ 0 k).
  assert (NoDup ps) as ND.
  { apply NoDup_fmap_2_strong; [|apply NoDup_seqZ]. intros x y Hx Hy E. apply elem_of_seqZ in Hx, Hy.
    pose proof (aid_pos_range st x Ho). pose proof (aid_pos_range st y Ho). apply (aid_pos_inj st); try done; lia. }
  assert (length ps = Z.to_nat k) as Lp by (unfold ps; by rewrite length_fmap, length_seqZ).
  assert (ps ⊆+ taken_at (sta_aid st) 0) as Hsub.
  { apply NoDup_submseteq; [done|]. intros x Hx. apply list_elem_of_fmap in Hx as (j & -> & Hj). apply elem_of_seqZ in Hj.
    destruct (Ht j ltac:(lia)) as [s Hs]. by apply (taken_at_elem _ 0) in Hs. }
  apply submseteq_length in Hsub. lia.
Qed.

(** [rtw_aid_alloc] gives a station an association id between 1 and the maximum that no station has, notes the
    station for it and leaves every other id alone; it gives 0 and changes no id only when as many ids are taken as
    stations are allowed, or as there are ids. *)
Theorem sta_aid_alloc st s x : aid_ok st -> pool st !! s = Some x ->
  exists k st', rtw_aid_alloc st s = Ret (k, st') /\ (aid <$> pool st' !! s) = Some k
  /\ ((1 <= k <= max_aid st /\ sta_aid st !! Z.to_nat (k - 1) = Some None
       /\ sta_aid st' = <[Z.to_nat (k - 1) := Some s]> (sta_aid st))
      \/ (k = 0 /\ sta_aid st' = sta_aid st
          /\ Z.min (max_aid st) (max_num_sta st) <= zlen (filter (fun o => o <> None) (sta_aid st)))).
Proof.
  intros Ho Hx. pose proof (ao_max _ Ho) as Hm. pose proof (ao_len _ Ho) as L.
  destruct (aid_scan_spec st (Z.to_nat (max_aid st)) 0 0 Ho) as (k & a & r & Hk & Ht & E & Hc); [lia|lia|lia|].
  pose proof (count_taken st k Ho Hk Ht) as Hcnt. unfold rtw_aid_alloc. bind_step E.
  rewrite (bind_Ret _ _ x) by (by apply rd_nat). rewrite wr_nat by (by eapply lookup_lt_Some). simp_res.
  destruct ((max_aid st <=? r) || (max_num_sta st <=? k)) eqn:Eg.
  - simpl. eexists 0, _. split; [done|]. simpl. rewrite list_lookup_insert_eq by (by eapply lookup_lt_Some).
    split; [done|]. right. split; [done|]. split; [done|]. apply orb_true_iff in Eg as [Eg|Eg]; apply Z.leb_le in Eg; [|lia].
    destruct Hc as [(? & -> & _)|[?|[? ?]]]; lia.
  - apply orb_false_iff in Eg as [Eg1 Eg2]. apply Z.leb_gt in Eg1, Eg2.
    destruct Hc as [(Hl & -> & -> & Hf)|[?|[? ?]]]; [|lia|lia]. pose proof (aid_pos_range st k Ho) as Hp.
    rewrite (proj2 (Z.eqb_neq _ 0)) by lia. cbn [negb]. cbn [sta_aid set_pool].
    rewrite wr_Ret by lia. simp_res. eexists _, _. split; [done|]. simpl.
    rewrite list_lookup_insert_eq by (by eapply lookup_lt_Some). split; [done|]. left. split; [lia|].
    by replace (aid_pos st k + 1 - 1) with (aid_pos st k) by lia.
Qed.

(** ** Instances *)

(** One station, [sta_a], with macid 2. *)
Definition one_sta : sta_priv :=
  let st := _rtw_init_sta_priv sample_macid in
  set_pool (<[0%nat := fresh_sta sta_a 2]> (pool st)) (set_table (seq 1 31) (<[2%nat := [] ++ [0%nat]]> (sta_hash st)) (0 + 1) st).

Lemma one_sta_inv : sta_inv one_sta.
Proof. refine (proj1 (add_mid _ 0 (seq 1 31) sta_a 2 [] (fresh_sta sta_a 2) (proj1 (init_inv _)) _ _ _ _ _ _ _ _)); try done. Qed.

(** A station with frames in each of its queues. *)
Definition busy_sta : sta_info :=
  StaInfo sta_a 2 0 1 [1] [2; 3] [4] [[5]; []; [6; 7]; []; [8]] [1; 0; 2; 0; 1] (replicate 16 [9]) [10] (replicate 16 0xffff).
Definition busy_table : sta_priv :=
  let st := _rtw_init_sta_priv sample_macid in
  set_pool (<[0%nat := busy_sta]> (pool st)) (set_table (seq 1 31) (<[2%nat := [] ++ [0%nat]]> (sta_hash st)) (0 + 1) st).

Lemma busy_inv : sta_inv busy_table.
Proof. refine (proj1 (add_mid _ 0 (seq 1 31) sta_a 2 [] busy_sta (proj1 (init_inv _)) _ _ _ _ _ _ _ _)); try done. Qed.

Lemma sta_table_refines_witness : let st := busy_table in let m := sample_macid in let c := sample_cam 1 in let a := sample_ap in
  rtw_get_stainfo st sta_a = Ret (table st !! (if false then bc_addr else sta_a))
  /\ (table st !! sta_a = None ->
       (size (table st) = 32%nat /\ rtw_alloc_stainfo st m c a sta_a = Ret (None, st, m, c))
       \/ exists s st' m' c', rtw_alloc_stainfo st m c a sta_a = Ret (Some s, st', m', c')
          /\ sta_inv st' /\ macid_inv m' a /\ table st' = <[sta_a := s]> (table st) /\ s ∉ hashed st)
  /\ (forall s, table st !! sta_a = Some s -> exists st' m' c' x, pool st !! s = Some x
       /\ rtw_free_stainfo st m c a true s
          = Ret (st', m', c', concat (reorder_q x) ++ defrag_q x, tx_queue x ++ sleep_q x ++ mgmt_sleep_q x ++ concat (ac_q x))
       /\ sta_inv st' /\ macid_inv m' a /\ table st' = delete sta_a (table st)).
Proof.
  refine (sta_table_refines busy_table sample_macid (sample_cam 1) sample_ap sta_a true false busy_inv sample_macid_inv _ _);
    reflexivity.
Defined.

Lemma sta_free_all_witness : exists st' m' c',
  rtw_free_all_stainfo one_sta sample_macid (sample_cam 1) sample_ap true = Ret (st', m', c') /\ sta_inv st' /\ macid_inv m' sample_ap
  /\ table st' = match table one_sta !! bc_addr with
                 | Some b => {[bc_addr := b]}
                 | None => if asoc_sta_count one_sta =? 1 then table one_sta else ∅
                 end.
Proof. exact (sta_free_all one_sta sample_macid (sample_cam 1) sample_ap true one_sta_inv sample_macid_inv). Defined.

Lemma sta_aid_alloc_witness : let st := one_sta in
  exists k st', rtw_aid_alloc st 0 = Ret (k, st') /\ (aid <$> pool st' !! 0%nat) = Some k
  /\ ((1 <= k <= max_aid st /\ sta_aid st !! Z.to_nat (k - 1) = Some None
       /\ sta_aid st' = <[Z.to_nat (k - 1) := Some 0%nat]> (sta_aid st))
      \/ (k = 0 /\ sta_aid st' = sta_aid st
          /\ Z.min (max_aid st) (max_num_sta st) <= zlen (filter (fun o => o <> None) (sta_aid st)))).
Proof. refine (sta_aid_alloc one_sta 0 (fresh_sta sta_a 2) _ _); [split; by_eval|reflexivity]. Defined.
End Sta.
