(* ===== verification/Tim.v ===== *)
(** * The beacon: traffic indication map and element list

    Models, of [core/rtw_wlan_util.c], the bitmaps [rtw_bmp_is_set],
    [rtw_bmp_set], [rtw_bmp_not_empty] and [rtw_bmp_not_empty_exclude_bit0]
    ([rtw_bmp_clear] is in [Sta]; the [rtw_tim_map_*] functions are these with
    the length of the station table's bitmaps), and of [core/rtw_ap.c]
    [rtw_set_tim_ie], [update_BCNTIM], [rtw_add_bcn_ie] and
    [rtw_remove_bcn_ie], which edit the elements of the beacon in place.

    A bitmap is read back as a set of association ids; the element that
    [rtw_set_tim_ie] writes is read back as IEEE 802.11 defines its fields, and
    the two readings agree. *)
From S2P Require Import Prelude Ies Cam Macid Sta.

Module Tim.
Import Ies Cam Sta.

(** ** Bitmaps *)

Definition rtw_bmp_is_set (bmp : list Z) (bmp_len id : Z) : res bool :=
  if bmp_len <=? id / 8 then Ret false
  else x ← rd bmp (id / 8); Ret (negb (Z.land x (BIT (id `mod` 8)) =? 0)).

Definition rtw_bmp_set (bmp : list Z) (bmp_len id : Z) : res (list Z) :=
  if id / 8 <? bmp_len then x ← rd bmp (id / 8); wr bmp (id / 8) (Z.lor x (BIT (id `mod` 8))) else Ret bmp.

(** The loop of [rtw_bmp_not_empty] from [i], [n] octets left. *)
Fixpoint not_empty_from (bmp : list Z) (n : nat) (i : Z) : res bool :=
  match n with
  | O => Ret false
  | S n => x ← rd bmp i; if negb (x =? 0) then Ret true else not_empty_from bmp n (i + 1)
  end.

Definition rtw_bmp_not_empty (bmp : list Z) (bmp_len : Z) : res bool := not_empty_from bmp (Z.to_nat bmp_len) 0.

(** The first octet is looked at without its bit 0. *)
Definition rtw_bmp_not_empty_exclude_bit0 (bmp : list Z) (bmp_len : Z) : res bool :=
  match Z.to_nat bmp_len with
  | O => Ret false
  | S n => x ← rd bmp 0; if negb (Z.land x 0xFE =? 0) then Ret true else not_empty_from bmp n 1
  end.

(** ** The element *)

Definition WLAN_EID_TIM : Z := 5.
Definition _TIM_IE_ : Z := 5.
Definition _SSID_IE_ : Z := 0.
Definition _SUPPORTEDRATES_IE_ : Z := 1.
Definition _FIXED_IE_LENGTH_ : Z := 12.

(** [for (i = 0; i < tim_bmp_len; i++) if (tim_bmp[i]) break;] from [i]. *)
Fixpoint first_nonzero (bmp : list Z) (n : nat) (i : Z) : res Z :=
  match n with
  | O => Ret i
  | S n => x ← rd bmp i; if negb (x =? 0) then Ret i else first_nonzero bmp n (i + 1)
  end.

(** [for (i = tim_bmp_len - 1; i > 0; i--) if (tim_bmp[i]) break;] from [i = n]. *)
Fixpoint last_nonzero (bmp : list Z) (n : nat) : res Z :=
  match n with
  | O => Ret 0
  | S m => x ← rd bmp (Z.of_nat n); if negb (x =? 0) then Ret (Z.of_nat n) else last_nonzero bmp m
  end.

(** [rtw_set_tim_ie(dtim_cnt, dtim_period, tim_bmp, tim_bmp_len, b + p)]: the
    object written and the length of the element. *)
Definition rtw_set_tim_ie (dtim_cnt dtim_period : Z) (tim_bmp : list Z) (tim_bmp_len : Z) (b : list Z) (p : Z)
    : res (list Z * Z) :=
  ne ← rtw_bmp_not_empty tim_bmp tim_bmp_len;
  '(n1, bmp_len) ← (if ne : bool then
      i ← first_nonzero tim_bmp (Z.to_nat tim_bmp_len) 0;
      let n1 := Z.land i 0xFE in
      n2 ← last_nonzero tim_bmp (Z.to_nat (u8 (tim_bmp_len - 1)));
      Ret (n1, u8 (n2 - n1 + 1))
    else Ret (0, 1));
  mc ← rtw_bmp_is_set tim_bmp tim_bmp_len 0;
  b ← splice b p [WLAN_EID_TIM; u8 (2 + 1 + bmp_len); dtim_cnt; dtim_period;
                  Z.lor (if mc : bool then BIT 0 else 0) n1];
  l ← slice tim_bmp n1 bmp_len;
  b ← splice b (p + 5) l;
  Ret (b, u8 (2 + 2 + 1 + bmp_len)).

(** ** Editing the elements of the beacon

    [ies] is [pnetwork->IEs], [ielen] is [IELength].  [alloc] says whether
    [rtw_malloc] gives the buffer that keeps the elements behind the edit. *)

(** What the three editors share: keep the [rem] bytes at [prem], write the new
    element at [dst], put them back behind it. *)
Definition rewrite_tail (alloc : bool) (ies : list Z) (dst prem rem : Z) (put : list Z -> Z -> res (list Z * Z))
    : res (list Z * Z) :=
  bak ← (if (0 <? rem) && alloc then l ← slice ies prem rem; Ret (Some l) else Ret None);
  '(ies, n) ← put ies dst;
  ies ← match bak with Some l => splice ies (dst + n) l | None => Ret ies end;
  Ret (ies, u32 (dst + n + rem)).

(** Where [update_BCNTIM] puts the element when there is none: behind SSID and
    rates, three octets further. *)
Definition tim_offset (ies : list Z) (ielen : Z) : res Z :=
  '(p, l) ← rtw_get_ie ies _FIXED_IE_LENGTH_ _SSID_IE_ 0 (ielen - _FIXED_IE_LENGTH_);
  let offset := match p with Some _ => _FIXED_IE_LENGTH_ + (l + 2) | None => _FIXED_IE_LENGTH_ end in
  '(p, l) ← rtw_get_ie ies _FIXED_IE_LENGTH_ _SUPPORTEDRATES_IE_ 0 (ielen - _FIXED_IE_LENGTH_);
  let offset := match p with Some _ => offset + (l + 2) | None => offset end in
  Ret (offset + 3).

Definition update_BCNTIM (alloc : bool) (tim_bitmap : list Z) (ies : list Z) (ielen : Z) : res (list Z * Z) :=
  '(p, tim_ielen) ← rtw_get_ie ies _FIXED_IE_LENGTH_ _TIM_IE_ 0 (ielen - _FIXED_IE_LENGTH_);
  let put := rtw_set_tim_ie 0 1 tim_bitmap (zlen tim_bitmap) in
  match p with
  | Some p =>
      if 0 <? tim_ielen then
        let tim_ielen := tim_ielen + 2 in
        rewrite_tail alloc ies p (p + tim_ielen) (u32 (ielen - p - tim_ielen)) put
      else offset ← tim_offset ies ielen; rewrite_tail alloc ies offset offset (u32 (ielen - offset)) put
  | None => offset ← tim_offset ies ielen; rewrite_tail alloc ies offset offset (u32 (ielen - offset)) put
  end.

(** The walk of [rtw_add_bcn_ie] over the elements, which it expects in the
    order of their ids: the last element looked at, its length and whether it
    has the id. *)
Fixpoint add_walk (fuel : nat) (ies : list Z) (ielen index i : Z) (last : option (Z * Z))
    : res (option (Z * Z) * bool) :=
  match fuel with
  | O => NoFuel
  | S fuel =>
      if i <? ielen then
        id ← rd ies i;
        if index <? id then Ret (last, false)
        else
          l ← rd ies (i + 1);
          if id =? index then Ret (Some (i, l), true)
          else add_walk fuel ies ielen index (i + (l + 2)) (Some (i, l))
      else Ret (last, false)
  end.

(** [*dst_ie++ = index; *dst_ie++ = len; memcpy(dst_ie, data, len);] *)
Definition put_ie (index : Z) (data : list Z) (b : list Z) (p : Z) : res (list Z * Z) :=
  b ← splice b p (index :: zlen data :: data); Ret (b, zlen data + 2).

Definition rtw_add_bcn_ie (alloc : bool) (ies : list Z) (ielen index : Z) (data : list Z) : res (list Z * Z) :=
  '(last, bmatch) ← add_walk (S (Z.to_nat ielen)) ies ielen index _FIXED_IE_LENGTH_ None;
  match last with
  | Some (p, l) =>
      if 0 <? l then
        let l := l + 2 in
        rewrite_tail alloc ies (if bmatch : bool then p else p + l) (p + l) (u32 (ielen - p - l)) (put_ie index data)
      else Ret (ies, ielen)
  | None => Ret (ies, ielen)
  end.

Definition rtw_remove_bcn_ie (alloc : bool) (ies : list Z) (ielen index : Z) : res (list Z * Z) :=
  '(p, l) ← rtw_get_ie ies _FIXED_IE_LENGTH_ index 0 (ielen - _FIXED_IE_LENGTH_);
  match p with
  | Some p =>
      if 0 <? l then rewrite_tail alloc ies p (p + (l + 2)) (u32 (ielen - p - (l + 2))) (fun b _ => Ret (b, 0))
      else Ret (ies, ielen)
  | None => Ret (ies, ielen)
  end.

(** ** Bitmaps as sets of association ids *)

Definition octet (bmp : list Z) (k : Z) : Z := default 0 (bmp !! Z.to_nat k).
Definition aid_in (bmp : list Z) (id : Z) : bool := Z.testbit (octet bmp (id / 8)) (id `mod` 8).

#[local] Arguments Z.testbit : simpl never.

Lemma octet_rd bmp k : 0 <= k < zlen bmp -> rd bmp k = Ret (octet bmp k).
Proof. intros H. destruct (rd_in bmp k H) as (x & R & _). apply rd_Ret in R as R'. unfold octet. by rewrite (proj2 R'). Qed.

Lemma octet_out bmp k : zlen bmp <= k -> octet bmp k = 0.
Proof. intros H. unfold octet. rewrite lookup_ge_None_2; [done|]. unfold zlen in H. lia. Qed.

Lemma octet_u8 bmp k : bytes_ok bmp -> is_u8 (octet bmp k).
Proof.
  intros H. unfold octet. destruct (bmp !! Z.to_nat k) eqn:E; [|done]. by eapply Forall_lookup in H; [|exact E].
Qed.

Lemma octet_insert bmp i k v : 0 <= i < zlen bmp -> 0 <= k ->
  octet (<[Z.to_nat i := v]> bmp) k = if k =? i then v else octet bmp k.
Proof.
  intros Hi Hk. unfold octet, zlen in *. destruct (Z.eqb_spec k i) as [->|N].
  - rewrite list_lookup_insert_eq by lia. done.
  - rewrite list_lookup_insert_ne by lia. done.
Qed.

Lemma aid_is_set_spec bmp id : 0 <= id -> rtw_bmp_is_set bmp (zlen bmp) id = Ret (aid_in bmp id).
Proof.
  intros H. unfold rtw_bmp_is_set, aid_in. assert (0 <= id / 8) by (apply Z.div_pos; lia).
  destruct (Z.leb_spec (zlen bmp) (id / 8)).
  - rewrite octet_out by lia. by rewrite Z.bits_0.
  - rewrite octet_rd by lia. simp_res. by rewrite land_BIT by (apply Z.mod_pos_bound; lia).
Qed.

(** An octet is rewritten by a function of its bits. *)
Lemma bmp_update bmp id (g : Z -> Z) (c : bool -> bool -> bool) :
  0 <= id < 8 * zlen bmp ->
  (forall x, is_u8 x -> is_u8 (g x)) ->
  (forall x j, 0 <= j -> Z.testbit (g x) j = c (id `mod` 8 =? j) (Z.testbit x j)) ->
  (forall v, c false v = v) ->
  exists bmp', (x ← rd bmp (id / 8); wr bmp (id / 8) (g x)) = Ret bmp' /\ zlen bmp' = zlen bmp /\
    (bytes_ok bmp -> bytes_ok bmp') /\ forall j, 0 <= j -> aid_in bmp' j = c (j =? id) (aid_in bmp j).
Proof.
  intros H Hg Hb Hc. assert (0 <= id / 8 < zlen bmp) as H8.
  { split; [apply Z.div_pos; lia|]. apply Z.div_lt_upper_bound; lia. }
  rewrite octet_rd by lia. simp_res. rewrite wr_Ret by lia. eexists. split; [done|]. split; [by apply zlen_insert|].
  split. { intros B. apply Forall_insert; [done|]. by apply Hg, octet_u8. }
  intros j Hj. unfold aid_in. assert (0 <= j / 8) by (apply Z.div_pos; lia). rewrite octet_insert by lia.
  pose proof (Z.mod_pos_bound j 8 eq_refl).
  destruct (Z.eqb_spec (j / 8) (id / 8)) as [E|N].
  - rewrite Hb, E by lia. f_equal. apply eq_true_iff_eq. rewrite !Z.eqb_eq.
    pose proof (Z.div_mod j 8 ltac:(lia)). pose proof (Z.div_mod id 8 ltac:(lia)). split; intros; subst; lia.
  - assert (j <> id) by (intros ->; done). zdecide. by rewrite Hc.
Qed.

Lemma lor_BIT_spec x i j : 0 <= i -> 0 <= j -> Z.testbit (Z.lor x (BIT i)) j = (i =? j) || Z.testbit x j.
Proof. intros. rewrite Z.lor_spec, testbit_BIT by lia. apply orb_comm. Qed.
Lemma ldiff_BIT_spec x i j : 0 <= i -> 0 <= j -> Z.testbit (Z.ldiff x (BIT i)) j = negb (i =? j) && Z.testbit x j.
Proof. intros. rewrite Z.ldiff_spec, testbit_BIT by lia. apply andb_comm. Qed.

Lemma BIT_fits i w : 0 <= i < w -> fits w (BIT i).
Proof.
  intros H. apply testbit_fits; [lia|unfold BIT; apply Z.shiftl_nonneg; lia|].
  intros j Hj. rewrite testbit_BIT by lia. by zdecide.
Qed.

Lemma bmp_set_spec bmp id : 0 <= id < 8 * zlen bmp ->
  exists bmp', rtw_bmp_set bmp (zlen bmp) id = Ret bmp' /\ zlen bmp' = zlen bmp /\ (bytes_ok bmp -> bytes_ok bmp') /\
    forall j, 0 <= j -> aid_in bmp' j = (j =? id) || aid_in bmp j.
Proof.
  intros H. unfold rtw_bmp_set. assert (id / 8 < zlen bmp) by (apply Z.div_lt_upper_bound; lia). zdecide.
  pose proof (Z.mod_pos_bound id 8 eq_refl).
  apply (bmp_update bmp id (fun x => Z.lor x (BIT (id `mod` 8))) orb); [done|..|done].
  - intros x Hx. apply lor_fits; [lia|done|]. by apply BIT_fits.
  - intros x j Hj. apply lor_BIT_spec; lia.
Qed.

Lemma bmp_clear_spec bmp id : 0 <= id < 8 * zlen bmp ->
  exists bmp', rtw_bmp_clear bmp (zlen bmp) id = Ret bmp' /\ zlen bmp' = zlen bmp /\ (bytes_ok bmp -> bytes_ok bmp') /\
    forall j, 0 <= j -> aid_in bmp' j = negb (j =? id) && aid_in bmp j.
Proof.
  intros H. unfold rtw_bmp_clear. assert (id / 8 < zlen bmp) by (apply Z.div_lt_upper_bound; lia). zdecide.
  pose proof (Z.mod_pos_bound id 8 eq_refl).
  apply (bmp_update bmp id (fun x => Z.ldiff x (BIT (id `mod` 8))) (fun e v => negb e && v)); [done|..|done].
  - intros x Hx. apply testbit_fits; [lia|apply Z.ldiff_nonneg; left; apply Hx|].
    intros j Hj. rewrite Z.ldiff_spec, (fits_testbit 8 x) by (done || lia). done.
  - intros x j Hj. apply ldiff_BIT_spec; lia.
Qed.

(** A bitmap is empty when no id is in it. *)
Lemma octet_bit bmp k : bytes_ok bmp -> 0 <= k -> octet bmp k <> 0 -> exists id, k = id / 8 /\ 0 <= id /\ aid_in bmp id = true.
Proof.
  intros B Hk N. pose proof (octet_u8 bmp k B) as [N0 L].
  destruct (Z.eq_dec (Z.log2 (octet bmp k)) 0) as [E0|E0].
  all: pose proof (Z.bit_log2 (octet bmp k) ltac:(lia)) as T;
    assert (Z.log2 (octet bmp k) < 8) by (apply Z.log2_lt_pow2; lia); pose proof (Z.log2_nonneg (octet bmp k));
    exists (8 * k + Z.log2 (octet bmp k));
    assert ((8 * k + Z.log2 (octet bmp k)) / 8 = k) as D by (symmetry; apply (Z.div_unique _ _ _ (Z.log2 (octet bmp k))); lia);
    assert ((8 * k + Z.log2 (octet bmp k)) `mod` 8 = Z.log2 (octet bmp k)) as M
      by (symmetry; apply (Z.mod_unique _ _ k); lia);
    (split; [done|]); (split; [lia|]); unfold aid_in; by rewrite D, M.
Qed.

Lemma not_empty_from_spec bmp : bytes_ok bmp -> forall n i, 0 <= i -> i + Z.of_nat n = zlen bmp ->
  exists r, not_empty_from bmp n i = Ret r /\ (r = true <-> exists id, i <= id / 8 /\ 0 <= id /\ aid_in bmp id = true).
Proof.
  intros B. induction n as [|n IH]; intros i Hi E; cbn [not_empty_from].
  - exists false. split; [done|]. split; [done|]. intros (id & L & P & T). unfold aid_in in T.
    rewrite octet_out, Z.bits_0 in T by lia. done.
  - rewrite octet_rd by lia. simp_res. destruct (Z.eqb_spec (octet bmp i) 0) as [Z0|N]; simpl.
    + destruct (IH (i + 1)) as (r & -> & S); [lia..|]. exists r. split; [done|]. rewrite S.
      split; intros (id & L & P & T); exists id; (split; [|done]); [lia|].
      destruct (Z.eq_dec (id / 8) i) as [Q|]; [|lia]. unfold aid_in in T. rewrite Q, Z0, Z.bits_0 in T. done.
    + exists true. split; [done|]. split; [|done]. intros _.
      destruct (octet_bit bmp i B Hi N) as (id & -> & P & T). by exists id.
Qed.

Lemma not_empty_spec bmp : bytes_ok bmp ->
  exists r, rtw_bmp_not_empty bmp (zlen bmp) = Ret r /\ (r = true <-> exists id, 0 <= id /\ aid_in bmp id = true).
Proof.
  intros B. destruct (not_empty_from_spec bmp B (Z.to_nat (zlen bmp)) 0) as (r & E & S); [lia|zlen_lia|].
  exists r. split; [done|]. rewrite S. split; intros (id & H); exists id; [tauto|].
  destruct H. split; [apply Z.div_pos; lia|]. done.
Qed.

Lemma land_FE x : is_u8 x -> Z.land x 0xFE = 0 <-> forall j, 1 <= j < 8 -> Z.testbit x j = false.
Proof.
  intros Hx. split.
  - intros H j Hj. assert (Z.testbit (Z.land x 0xFE) j = false) as T by (rewrite H; apply Z.bits_0).
    rewrite Z.land_spec in T. assert (Z.testbit 0xFE j = true) as F.
    { pose proof (forallb_seqZ (fun j => (j =? 0) || Z.testbit 0xFE j) 8 eq_refl j ltac:(lia)) as Q. simpl in Q.
      by destruct (Z.eqb_spec j 0); [lia|]. }
    rewrite F in T. by rewrite andb_true_r in T.
  - intros H. apply Z.bits_inj'. intros j Hj. rewrite Z.land_spec, Z.bits_0.
    destruct (decide (j = 0)) as [->|]; [by rewrite andb_comm|]. destruct (decide (j < 8)); [by rewrite H by lia|].
    rewrite (fits_testbit 8 x) by (done || lia). done.
Qed.

Lemma not_empty_exclude_spec bmp : bytes_ok bmp ->
  exists r, rtw_bmp_not_empty_exclude_bit0 bmp (zlen bmp) = Ret r /\
    (r = true <-> exists id, 1 <= id /\ aid_in bmp id = true).
Proof.
  intros B. unfold rtw_bmp_not_empty_exclude_bit0. destruct (Z.to_nat (zlen bmp)) as [|n] eqn:En.
  { exists false. split; [done|]. split; [done|]. intros (id & L & T). unfold aid_in in T.
    rewrite octet_out, Z.bits_0 in T; [done|]. assert (0 <= id / 8) by (apply Z.div_pos; lia). lia. }
  rewrite octet_rd by lia. simp_res. pose proof (land_FE _ (octet_u8 bmp 0 B)) as F.
  destruct (Z.eqb_spec (Z.land (octet bmp 0) 0xFE) 0) as [E|N]; simpl.
  - destruct (not_empty_from_spec bmp B n 1) as (r & -> & S); [lia..|]. exists r. split; [done|]. rewrite S.
    split; intros (id & H); exists id.
    + destruct H as (L & P & T). split; [|done]. destruct (decide (id = 0)) as [->|]; [|lia]. by vm_compute in L.
    + destruct H as (L & T). assert (0 <= id / 8) by (apply Z.div_pos; lia).
      destruct (decide (id / 8 = 0)) as [Q|]; [|split; [lia|split; [lia|done]]]. exfalso.
      apply Z.div_small_iff in Q; [|lia]. unfold aid_in in T. rewrite Z.div_small, Z.mod_small in T by lia.
      by rewrite (proj1 F E) in T by lia.
  - exists true. split; [done|]. split; [|done]. intros _.
    destruct (existsb (Z.testbit (octet bmp 0)) (seqZ 1 7)) eqn:X.
    + apply existsb_exists in X as (j & I & T). apply list_elem_of_In, elem_of_seqZ in I. exists j. split; [lia|].
      unfold aid_in. by rewrite Z.div_small, Z.mod_small by lia.
    + exfalso. apply N, F. intros j Hj. destruct (Z.testbit (octet bmp 0) j) eqn:T; [|done].
      assert (existsb (Z.testbit (octet bmp 0)) (seqZ 1 7) = true); [|congruence].
      apply existsb_exists. exists j. split; [|done]. apply list_elem_of_In, elem_of_seqZ. lia.
Qed.

(** ** Reading a TIM element (IEEE 802.11, 9.4.2.5) *)

(** The bitmap control octet holds the group traffic indicator and N1; the
    partial virtual bitmap holds the octets from N1 on. *)
Definition tim_group (body : list Z) : bool := Z.testbit (octet body 2) 0.
Definition tim_octet (body : list Z) (k : Z) : Z :=
  let n1 := Z.land (octet body 2) 0xFE in
  if (n1 <=? k) && (k <? n1 + (zlen body - 3)) then octet body (3 + (k - n1)) else 0.
Definition tim_traffic (body : list Z) (aid : Z) : bool := Z.testbit (tim_octet body (aid / 8)) (aid `mod` 8).

(** An element body that tells of every octet of [bmp]. *)
Definition tim_of (bmp body : list Z) : Prop :=
  4 <= zlen body <= 255 /\ bytes_ok body /\ tim_group body = aid_in bmp 0 /\
  forall k, 0 <= k -> tim_octet body k = octet bmp k.

Lemma first_nonzero_spec bmp : forall n i, 0 <= i -> i + Z.of_nat n = zlen bmp ->
  exists j, first_nonzero bmp n i = Ret j /\ i <= j <= zlen bmp /\ (forall k, i <= k < j -> octet bmp k = 0) /\
    (j < zlen bmp -> octet bmp j <> 0).
Proof.
  induction n as [|n IH]; intros i Hi E; cbn [first_nonzero].
  { exists i. split; [done|]. split; [lia|]. split; intros; lia. }
  rewrite octet_rd by lia. simp_res. destruct (Z.eqb_spec (octet bmp i) 0) as [Z0|N]; simpl.
  - destruct (IH (i + 1)) as (j & -> & L & Z1 & N1); [lia..|]. exists j. split; [done|]. split; [lia|]. split; [|done].
    intros k Hk. destruct (decide (k = i)) as [->|]; [done|]. apply Z1. lia.
  - exists i. split; [done|]. split; [lia|]. split; [intros; lia|done].
Qed.

Lemma last_nonzero_spec bmp : forall n, Z.of_nat n < zlen bmp ->
  exists j, last_nonzero bmp n = Ret j /\ 0 <= j <= Z.of_nat n /\ (forall k, j < k <= Z.of_nat n -> octet bmp k = 0) /\
    (0 < j -> octet bmp j <> 0).
Proof.
  induction n as [|n IH]; intros L; cbn [last_nonzero].
  { exists 0. split; [done|]. split; [lia|]. split; intros; lia. }
  rewrite octet_rd by lia. simp_res. destruct (Z.eqb_spec (octet bmp (Z.of_nat (S n))) 0) as [Z0|N]; simpl.
  - destruct (IH ltac:(lia)) as (j & -> & J & Z1 & N1). exists j. split; [done|]. split; [lia|]. split; [|done].
    intros k Hk. destruct (decide (k = Z.of_nat (S n))) as [->|]; [done|]. apply Z1. lia.
  - exists (Z.of_nat (S n)). split; [done|]. split; [lia|]. split; [intros; lia|done].
Qed.

(** The part of the bitmap that goes into the element. *)
Definition tim_window (bmp : list Z) : res (Z * Z) :=
  ne ← rtw_bmp_not_empty bmp (zlen bmp);
  if ne : bool then
    i ← first_nonzero bmp (Z.to_nat (zlen bmp)) 0;
    let n1 := Z.land i 0xFE in
    n2 ← last_nonzero bmp (Z.to_nat (u8 (zlen bmp - 1)));
    Ret (n1, u8 (n2 - n1 + 1))
  else Ret (0, 1).

Lemma land_FE_even i : is_u8 i -> Z.land i 0xFE = i - i `mod` 2 /\ Z.land (Z.land i 0xFE) 0xFE = Z.land i 0xFE.
Proof.
  intros H. split.
  - pose proof (forallb_seqZ (fun i => Z.land i 0xFE =? i - i `mod` 2) 256 ltac:(by vm_compute) i H) as Q. by apply Z.eqb_eq in Q.
  - rewrite <- Z.land_assoc. done.
Qed.

Lemma tim_window_spec bmp : bytes_ok bmp -> 1 <= zlen bmp <= 250 ->
  exists n1 bl, tim_window bmp = Ret (n1, bl) /\ Z.land n1 0xFE = n1 /\ 0 <= n1 /\ 1 <= bl /\ n1 + bl <= zlen bmp /\
    forall k, 0 <= k -> ~ (n1 <= k < n1 + bl) -> octet bmp k = 0.
Proof.
  intros B L. unfold tim_window. destruct (not_empty_spec bmp B) as (r & -> & S). simp_res. destruct r.
  - destruct (proj1 S eq_refl) as (id & P & T).
    destruct (first_nonzero_spec bmp (Z.to_nat (zlen bmp)) 0) as (i & -> & Hi & Zi & Ni); [lia..|]. simp_res.
    rewrite (wrap_small 8) by (unfold fits; lia).
    destruct (last_nonzero_spec bmp (Z.to_nat (zlen bmp - 1))) as (n2 & -> & H2 & Z2 & N2); [lia|]. simp_res.
    assert (i < zlen bmp) as Li.
    { destruct (decide (i < zlen bmp)); [done|]. exfalso. unfold aid_in in T. assert (0 <= id / 8) by (apply Z.div_pos; lia).
      destruct (decide (id / 8 < zlen bmp)).
      - rewrite Zi, Z.bits_0 in T by lia. done.
      - rewrite octet_out, Z.bits_0 in T by lia. done. }
    destruct (land_FE_even i ltac:(unfold fits; lia)) as (E1 & E2). pose proof (Z.mod_pos_bound i 2 eq_refl).
    assert (i mod 2 <= i) by (apply Z.mod_le; lia).
    assert (i <= n2 \/ i = 0) as Hin. { destruct (decide (i <= n2)); [by left|]. right. specialize (Ni Li).
      destruct (decide (i = 0)); [done|]. exfalso. apply Ni, Z2. lia. }
    exists (Z.land i 0xFE), (n2 - Z.land i 0xFE + 1). rewrite (wrap_small 8) by (unfold fits; lia).
    split; [done|]. split; [done|]. split; [lia|]. split; [lia|]. split; [lia|].
    intros k Hk N. destruct (decide (k < i)); [apply Zi; lia|].
    destruct (decide (k < zlen bmp)); [apply Z2; lia|]. apply octet_out. lia.
  - exists 0, 1. split; [done|]. split; [done|]. do 3 (split; [lia|]). intros k Hk N.
    destruct (decide (octet bmp k = 0)); [done|]. exfalso.
    destruct (octet_bit bmp k B Hk n) as (id & _ & P & T). assert (false = true); [|done]. apply S. by exists id.
Qed.

Lemma octet_take_drop bmp n1 bl k : 0 <= n1 -> 0 <= k < bl -> n1 + bl <= zlen bmp ->
  octet (take (Z.to_nat bl) (drop (Z.to_nat n1) bmp)) k = octet bmp (n1 + k).
Proof.
  intros. unfold octet. rewrite lookup_take_lt by lia. rewrite lookup_drop. do 2 f_equal. lia.
Qed.

Lemma set_tim_ok cnt per bmp : bytes_ok bmp -> 1 <= zlen bmp <= 250 -> is_u8 cnt -> is_u8 per ->
  exists body, tim_of bmp body /\ zlen body <= 3 + zlen bmp /\ forall pre old post, zlen old = zlen body + 2 ->
    rtw_set_tim_ie cnt per bmp (zlen bmp) (pre ++ old ++ post) (zlen pre) =
    Ret (pre ++ enc_ie (WLAN_EID_TIM, body) ++ post, zlen body + 2).
Proof.
  intros B L Hc Hp. destruct (tim_window_spec bmp B L) as (n1 & bl & W & Ev & N1 & Bl & Hb & Out).
  set (m := if aid_in bmp 0 then BIT 0 else 0). set (l := take (Z.to_nat bl) (drop (Z.to_nat n1) bmp)).
  assert (zlen l = bl) as Hl. { unfold l, zlen in *. rewrite length_take, length_drop. lia. }
  assert (Z.testbit n1 0 = false) as B0 by (rewrite <- Ev, Z.land_spec; apply andb_false_r).
  assert (Z.land (Z.lor m n1) 0xFE = n1) as Eo.
  { rewrite Z.land_lor_distr_l, Ev. replace (Z.land m 0xFE) with 0 by (unfold m; by destruct (aid_in bmp 0)). done. }
  assert (is_u8 (Z.lor m n1)) as U8.
  { apply lor_fits; [lia|unfold m; by destruct (aid_in bmp 0)|unfold fits; lia]. }
  exists ([cnt; per; Z.lor m n1] ++ l). assert (zlen ([cnt; per; Z.lor m n1] ++ l) = 3 + bl) as Hz by zlen_lia.
  split; [split; [lia|split]|split; [lia|]].
  - repeat (constructor; [done|]). unfold l. by apply Forall_take, Forall_drop.
  - split.
    + unfold tim_group. change (octet _ 2) with (Z.lor m n1). rewrite Z.lor_spec, B0, orb_false_r.
      unfold m. by destruct (aid_in bmp 0).
    + intros k Hk. unfold tim_octet. change (octet ([cnt; per; Z.lor m n1] ++ l) 2) with (Z.lor m n1). rewrite Eo, Hz.
      destruct ((n1 <=? k) && (k <? n1 + (3 + bl - 3))) eqn:C.
      * invbool. unfold octet at 1. rewrite lookup_app_r by (simpl; lia). cbn [length].
        replace (Z.to_nat (3 + (k - n1)) - 3)%nat with (Z.to_nat (k - n1)) by lia.
        fold (octet l (k - n1)). unfold l. rewrite octet_take_drop by lia. f_equal. lia.
      * symmetry. apply Out; [done|]. intros [? ?]. apply andb_false_iff in C as [C|C]; invbool; lia.
  - intros pre old post Ho. rewrite Hz in Ho. unfold rtw_set_tim_ie. unfold tim_window in W.
    apply bind_inv in W as (ne & E & W). rewrite E. simp_res. rewrite W. simp_res. rewrite aid_is_set_spec by lia. simp_res.
    fold m. rewrite (wrap_small 8 (2 + 1 + bl)), (wrap_small 8 (2 + 2 + 1 + bl)) by (unfold fits; lia).
    destruct (split_at old 5) as (o1 & o2 & -> & H1); [zlen_lia|]. rewrite <- (app_assoc o1).
    rewrite splice_mid by (done || (unfold zlen in H1; simpl; lia)). simp_res.
    rewrite slice_Ret by lia. simp_res. fold l.
    replace (pre ++ _ ++ o2 ++ post) with ((pre ++ [WLAN_EID_TIM; 2 + 1 + bl; cnt; per; Z.lor m n1]) ++ o2 ++ post)
      by (by rewrite <- app_assoc).
    rewrite splice_mid by (rewrite ?zlen_app in *; unfold zlen in *; simpl in *; lia). simp_res. unfold enc_ie. cbn [fst snd].
    rewrite Hz. f_equal. f_equal; [|lia]. rewrite <- !app_assoc. simpl. by replace (2 + 1 + bl) with (3 + bl) by lia.
Qed.

(** ** The editors of the beacon *)

(** [put] writes [new] at the place it is given, whatever was there. *)
Definition writes (put : list Z -> Z -> res (list Z * Z)) (new : list Z) : Prop :=
  forall pre old post, zlen old = zlen new -> put (pre ++ old ++ post) (zlen pre) = Ret (pre ++ new ++ post, zlen new).

Lemma put_ie_writes index data : writes (put_ie index data) (enc_ie (index, data)).
Proof.
  intros pre old post H. unfold put_ie, enc_ie in *. cbn [fst snd] in *.
  rewrite splice_mid by (done || (unfold zlen in *; simpl in *; lia)). simp_res. do 2 f_equal. zlen_lia.
Qed.
Lemma put_nothing : writes (fun b _ => Ret (b, 0)) [].
Proof. intros pre old post H. destruct old; [done|zlen_lia]. Qed.

Lemma rewrite_tail_ok pre old rest spare put new dst prem rem :
  writes put new -> zlen new <= zlen old + zlen spare -> zlen (pre ++ old ++ rest ++ spare) < 2 ^ 32 ->
  dst = zlen pre -> prem = zlen pre + zlen old -> rem = zlen rest ->
  exists spare', rewrite_tail true (pre ++ old ++ rest ++ spare) dst prem rem put =
      Ret (pre ++ new ++ rest ++ spare', zlen (pre ++ new ++ rest)) /\
    zlen spare' = zlen old + zlen spare - zlen new.
Proof.
  intros W R C -> -> ->. unfold rewrite_tail.
  destruct (split_at (old ++ rest ++ spare) (zlen new)) as (o & q & E & Ho); [zlen_lia|].
  assert (zlen q = zlen old + zlen rest + zlen spare - zlen new) as Hq by (apply (f_equal zlen) in E; zlen_lia).
  assert (zlen (pre ++ new ++ rest) < 2 ^ 32) as C' by zlen_lia.
  assert (zlen pre + zlen new + zlen rest = zlen (pre ++ new ++ rest)) as Hz by zlen_lia.
  assert (u32 (zlen pre + zlen new + zlen rest) = zlen (pre ++ new ++ rest)) as U.
  { rewrite (wrap_small 32) by (unfold fits; zlen_lia). done. }
  destruct (Z.ltb_spec 0 (zlen rest)) as [P|P]; simpl.
  - replace (slice (pre ++ old ++ rest ++ spare) (zlen pre + zlen old) (zlen rest)) with (Ret rest)
      by (symmetry; rewrite (app_assoc pre); apply slice_mid; zlen_lia || done).
    simp_res. rewrite E, (W pre o q Ho). simp_res.
    destruct (split_at q (zlen rest)) as (q1 & q2 & -> & H1); [zlen_lia|].
    exists q2. rewrite (app_assoc pre new). rewrite splice_mid by (zlen_lia || (unfold zlen in *; lia)). simp_res.
    rewrite U. rewrite <- app_assoc. split; [done|zlen_lia].
  - assert (rest = []) as -> by (destruct rest; [done|zlen_lia]). simp_res. rewrite E, (W pre o q Ho). simp_res.
    exists q. rewrite U. split; [done|zlen_lia].
Qed.

Lemma find_ie_app es1 es2 : forall off index, Forall (fun e => e.1 <> index) es1 ->
  find_ie (es1 ++ es2) off index = find_ie es2 (off + zlen (enc_ies es1)) index.
Proof.
  induction es1 as [|[id l] es1 IH]; intros off index H; cbn [app find_ie].
  { change (zlen (enc_ies [])) with 0. by rewrite Z.add_0_r. }
  inversion_clear H as [|? ? N H']. simpl in N. rewrite enc_ies_cons, zlen_app, zlen_enc_ie. zdecide.
  rewrite IH by done. f_equal. simpl. lia.
Qed.

(** What the search of the editors finds. *)
Lemma get_ie_hit fixed es1 e es2 spare len0 :
  zlen fixed = 12 -> Forall (fun x => x.1 <> e.1) es1 ->
  rtw_get_ie (fixed ++ enc_ies (es1 ++ e :: es2) ++ spare) 12 e.1 len0 (zlen (enc_ies (es1 ++ e :: es2))) =
  Ret (Some (12 + zlen (enc_ies es1)), zlen e.2).
Proof.
  intros F N. rewrite <- F. rewrite rtw_get_ie_enc by (by destruct es1). rewrite find_ie_app by done.
  destruct e as [id l]. cbn [find_ie fst snd find_result]. rewrite F. by rewrite Z.eqb_refl.
Qed.
Lemma find_ie_none es : forall off index, Forall (fun x => x.1 <> index) es -> find_ie es off index = None.
Proof. 
  induction es as [|[id l] es IH]; intros off index H; [done|]. inversion_clear H as [|? ? N H']. simpl in N |- *.
  zdecide. by apply IH.
Qed.
Lemma get_ie_miss fixed es spare index :
  zlen fixed = 12 -> Forall (fun x => x.1 <> index) es ->
  rtw_get_ie (fixed ++ enc_ies es ++ spare) 12 index 0 (zlen (enc_ies es)) = Ret (None, 0).
Proof.
  intros F N. destruct es as [|e es]; [done|]. rewrite <- F. rewrite rtw_get_ie_enc by done. by rewrite find_ie_none.
Qed.

(** Where the element goes: in place of the first TIM element, or behind SSID,
    rates and DS parameter set when there is none. *)
Inductive tim_place : list ie -> list ie -> list ie -> Prop :=
| place_replace es1 t es2 :
    Forall (fun x => x.1 <> _TIM_IE_) es1 -> t <> [] -> tim_place es1 [(_TIM_IE_, t)] es2
| place_insert ssid rates ch es2 :
    Forall (fun x => x.1 <> _TIM_IE_) es2 -> tim_place [(_SSID_IE_, ssid); (_SUPPORTEDRATES_IE_, rates); (3, [ch])] [] es2.

Lemma place_before es1 old es2 : tim_place es1 old es2 -> Forall (fun x => x.1 <> _TIM_IE_) es1.
Proof. intros []; [done|]. repeat constructor; done. Qed.

Lemma tim_writes cnt per bmp body :
  (forall pre old post, zlen old = zlen body + 2 ->
    rtw_set_tim_ie cnt per bmp (zlen bmp) (pre ++ old ++ post) (zlen pre) =
    Ret (pre ++ enc_ie (WLAN_EID_TIM, body) ++ post, zlen body + 2)) ->
  writes (rtw_set_tim_ie cnt per bmp (zlen bmp)) (enc_ie (_TIM_IE_, body)).
Proof. intros W pre old post H. rewrite zlen_enc_ie in *. by apply W. Qed.

(** Unfolds serialised element lists. *)
Create Rewrite HintDb enc.
#[local] Hint Rewrite enc_ies_app enc_ies_cons enc_ies_nil @zlen_app zlen_enc_ie : enc.

Lemma update_place bmp fixed es1 old es2 spare :
  zlen fixed = 12 -> tim_place es1 old es2 -> zlen (fixed ++ enc_ies (es1 ++ old ++ es2) ++ spare) < 2 ^ 32 ->
  update_BCNTIM true bmp (fixed ++ enc_ies (es1 ++ old ++ es2) ++ spare) (12 + zlen (enc_ies (es1 ++ old ++ es2))) =
  rewrite_tail true ((fixed ++ enc_ies es1) ++ enc_ies old ++ enc_ies es2 ++ spare) (zlen (fixed ++ enc_ies es1))
    (zlen (fixed ++ enc_ies es1) + zlen (enc_ies old)) (zlen (enc_ies es2)) (rtw_set_tim_ie 0 1 bmp (zlen bmp)).
Proof.
  intros F P C. unfold update_BCNTIM, _FIXED_IE_LENGTH_.
  replace (12 + zlen (enc_ies (es1 ++ old ++ es2)) - 12) with (zlen (enc_ies (es1 ++ old ++ es2))) by lia.
  assert (forall a b, a = b -> fits 32 b -> u32 a = b) as U by (intros a b -> ?; by apply wrap_small).
  destruct P as [es1 t es2 N T|ssid rates ch es2 N].
  - change ([(_TIM_IE_, t)] ++ es2) with ((_TIM_IE_, t) :: es2).
    pose proof (get_ie_hit fixed es1 (_TIM_IE_, t) es2 spare 0 F N) as G. cbn [fst snd] in G. bind_step G.
    assert (0 < zlen t) by (destruct t; [done|zlen_lia]). zdecide.
    autorewrite with enc in C |- *. cbn [snd] in C |- *.
    rewrite (U _ (zlen (enc_ies es2))) by (unfold fits; zlen_lia). rewrite F. f_equal; [|zlen_lia..].
    change (enc_ies []) with (@nil Z). by rewrite app_nil_r, <- !app_assoc.
  - set (es := (_SSID_IE_, ssid) :: (_SUPPORTEDRATES_IE_, rates) :: (3, [ch]) :: es2 : list ie).
    change ([(_SSID_IE_, ssid); (_SUPPORTEDRATES_IE_, rates); (3, [ch])] ++ [] ++ es2) with es in C |- *.
    rewrite (get_ie_miss fixed es spare _TIM_IE_) by (done || (unfold es; by repeat constructor)). simp_res.
    unfold tim_offset, _FIXED_IE_LENGTH_. replace (12 + zlen (enc_ies es) - 12) with (zlen (enc_ies es)) by lia.
    pose proof (get_ie_hit fixed ([] : list ie) (_SSID_IE_, ssid) ((_SUPPORTEDRATES_IE_, rates) :: (3, [ch]) :: es2) spare 0 F
      (List.Forall_nil _)) as G1.
    pose proof (get_ie_hit fixed [(_SSID_IE_, ssid)] (_SUPPORTEDRATES_IE_, rates) ((3, [ch]) :: es2) spare 0 F
      ltac:(by repeat constructor)) as G2.
    cbn [fst snd app] in G1, G2. fold es in G1, G2. bind_step G1. bind_step G2.
    unfold es in C |- *. autorewrite with enc in C |- *. cbn [snd] in C |- *. simp_res.
    change (enc_ies []) with (@nil Z).
    rewrite (U _ (zlen (enc_ies es2))) by (unfold fits; zlen_lia). rewrite F. f_equal; [|zlen_lia..].
    by rewrite app_nil_r, <- !app_assoc.
Qed.

(** The element is put in its place, with room for the longest bitmap. *)
Lemma update_BCNTIM_ok bmp fixed es1 old es2 spare :
  bytes_ok bmp -> 1 <= zlen bmp <= 250 -> zlen fixed = 12 -> tim_place es1 old es2 -> 5 + zlen bmp <= zlen (enc_ies old) + zlen spare ->
  zlen (fixed ++ enc_ies (es1 ++ old ++ es2) ++ spare) < 2 ^ 32 ->
  exists body spare', tim_of bmp body /\ zlen body <= 3 + zlen bmp /\
    let new := es1 ++ (_TIM_IE_, body) :: es2 in
    update_BCNTIM true bmp (fixed ++ enc_ies (es1 ++ old ++ es2) ++ spare) (12 + zlen (enc_ies (es1 ++ old ++ es2))) =
      Ret (fixed ++ enc_ies new ++ spare', 12 + zlen (enc_ies new)) /\
    zlen (fixed ++ enc_ies new ++ spare') = zlen (fixed ++ enc_ies (es1 ++ old ++ es2) ++ spare).
Proof.
  intros B L F P R C. destruct (set_tim_ok 0 1 bmp B L) as (body & Ht & Lb & W%tim_writes); [done..|].
  rewrite update_place by done.
  destruct (rewrite_tail_ok (fixed ++ enc_ies es1) (enc_ies old) (enc_ies es2) spare _ _ (zlen (fixed ++ enc_ies es1))
    (zlen (fixed ++ enc_ies es1) + zlen (enc_ies old)) (zlen (enc_ies es2)) W) as (spare' & E & Hs);
    [rewrite zlen_enc_ie; cbn [snd]; zlen_lia| |done..|].
  { rewrite !enc_ies_app, <- !app_assoc in C. by rewrite <- !app_assoc. }
  exists body, spare'. split; [done|]. split; [done|]. intros new.
  assert (enc_ies new = enc_ies es1 ++ enc_ie (_TIM_IE_, body) ++ enc_ies es2) as En by (unfold new; by rewrite enc_ies_app, enc_ies_cons).
  split; [rewrite E, En, <- !app_assoc; f_equal; f_equal; zlen_lia|].
  rewrite En, !enc_ies_app. rewrite zlen_enc_ie in Hs. autorewrite with enc. zlen_lia.
Qed.

(** C21: the beacon tells every sleeping station the truth.  The beacon has 12 fixed
    octets and the elements [es1 ++ old ++ es2], where [old] is its first TIM element,
    which is not empty, or where it has none and [es1] is an SSID, a supported rates
    and a DS parameter set element ([tim_place]; without the DS parameter set the
    code goes wrong, [update_BCNTIM_splits_element]); the buffer has room for the
    element, and the memory for a copy of [es2] is granted.  For a bitmap of 1 to 250
    octets [update_BCNTIM] then puts one TIM element between [es1] and [es2] and leaves
    every other element as it was; the element decodes, as IEEE 802.11 reads it, to
    the bitmap (the group bit, and for every association id its bit), and
    [rtw_get_ie] finds it. *)
Theorem update_BCNTIM_refines bmp fixed es1 old es2 spare :
  bytes_ok bmp -> 1 <= zlen bmp <= 250 -> zlen fixed = 12 -> tim_place es1 old es2 -> 5 + zlen bmp <= zlen spare ->
  zlen (fixed ++ enc_ies (es1 ++ old ++ es2) ++ spare) < 2 ^ 32 ->
  exists body spare', tim_group body = aid_in bmp 0 /\ (forall aid, 0 <= aid -> tim_traffic body aid = aid_in bmp aid) /\
    let new := es1 ++ (_TIM_IE_, body) :: es2 in
    let ies := fixed ++ enc_ies new ++ spare' in
    update_BCNTIM true bmp (fixed ++ enc_ies (es1 ++ old ++ es2) ++ spare) (12 + zlen (enc_ies (es1 ++ old ++ es2))) =
      Ret (ies, 12 + zlen (enc_ies new)) /\
    zlen ies = zlen (fixed ++ enc_ies (es1 ++ old ++ es2) ++ spare) /\
    rtw_get_ie ies 12 _TIM_IE_ 0 (zlen (enc_ies new)) = Ret (Some (12 + zlen (enc_ies es1)), zlen body).
Proof.
  intros B L F P R C. destruct (update_BCNTIM_ok bmp fixed es1 old es2 spare) as (body & spare' & (_ & _ & G & O) & Lb & E & Hz); [done..|pose proof (zlen_nonneg (enc_ies old)); lia|done|].
  exists body, spare'. split; [done|]. split; [intros aid Ha; unfold tim_traffic, aid_in; by rewrite O by (apply Z.div_pos; lia)|].
  intros new ies. split; [exact E|]. split; [exact Hz|].
  apply (get_ie_hit fixed es1 (_TIM_IE_, body) es2 spare' 0 F (place_before _ _ _ P)).
Qed.

(** What [update_BCNTIM_refines] concludes, of concrete elements. *)
Definition tim_updated (bmp fixed : list Z) (es1 old es2 : list ie) (spare : list Z) : Prop :=
  exists body spare', tim_group body = aid_in bmp 0 /\ (forall aid, 0 <= aid -> tim_traffic body aid = aid_in bmp aid) /\
    let new := es1 ++ (_TIM_IE_, body) :: es2 in
    let ies := fixed ++ enc_ies new ++ spare' in
    update_BCNTIM true bmp (fixed ++ enc_ies (es1 ++ old ++ es2) ++ spare) (12 + zlen (enc_ies (es1 ++ old ++ es2))) =
      Ret (ies, 12 + zlen (enc_ies new)) /\
    zlen ies = zlen (fixed ++ enc_ies (es1 ++ old ++ es2) ++ spare) /\
    rtw_get_ie ies 12 _TIM_IE_ 0 (zlen (enc_ies new)) = Ret (Some (12 + zlen (enc_ies es1)), zlen body).

(** A TIM element is replaced; one is inserted. *)
Lemma update_BCNTIM_refines_witness :
  tim_updated [3; 0; 16] (replicate 12 7) [(_SSID_IE_, [65; 66]); (_SUPPORTEDRATES_IE_, [130])] [(_TIM_IE_, [0; 1; 0; 0])] [(42, [0])] (replicate 9 0) /\
  tim_updated [3; 0; 16] (replicate 12 7) [(_SSID_IE_, [65; 66]); (_SUPPORTEDRATES_IE_, [130]); (3, [6])] [] [(42, [0])] (replicate 9 0).
Proof.
  split.
  - refine (update_BCNTIM_refines [3; 0; 16] (replicate 12 7) [(_SSID_IE_, [65; 66]); (_SUPPORTEDRATES_IE_, [130])]
      [(_TIM_IE_, [0; 1; 0; 0])] [(42, [0])] (replicate 9 0) _ _ _ _ _ _); [by_eval|by_eval|reflexivity| |by_eval|by_eval].
    apply place_replace; [by_eval|discriminate].
  - refine (update_BCNTIM_refines [3; 0; 16] (replicate 12 7) [(_SSID_IE_, [65; 66]); (_SUPPORTEDRATES_IE_, [130]); (3, [6])]
      [] [(42, [0])] (replicate 9 0) _ _ _ _ _ _); [by_eval|by_eval|reflexivity| |by_eval|by_eval].
    apply place_insert. by_eval.
Defined.

(** Without a DS parameter set the new element lands three octets inside the
    element that follows the rates. *)
Theorem update_BCNTIM_splits_element bmp fixed ssid rates es spare a b c tl :
  bytes_ok bmp -> 1 <= zlen bmp <= 250 -> zlen fixed = 12 -> Forall (fun x => x.1 <> _TIM_IE_) es ->
  enc_ies es = a :: b :: c :: tl -> 5 + zlen bmp <= zlen spare ->
  let es1 := [(_SSID_IE_, ssid); (_SUPPORTEDRATES_IE_, rates)] in
  zlen (fixed ++ enc_ies (es1 ++ es) ++ spare) < 2 ^ 32 ->
  exists body spare', tim_of bmp body /\
    update_BCNTIM true bmp (fixed ++ enc_ies (es1 ++ es) ++ spare) (12 + zlen (enc_ies (es1 ++ es))) =
      Ret (fixed ++ enc_ies es1 ++ [a; b; c] ++ enc_ie (_TIM_IE_, body) ++ tl ++ spare',
           12 + zlen (enc_ies es1 ++ [a; b; c] ++ enc_ie (_TIM_IE_, body) ++ tl)).
Proof.
  intros B L F N Ee R es1 C. destruct (set_tim_ok 0 1 bmp B L) as (body & T & Lb & W%tim_writes); [done..|].
  unfold update_BCNTIM, _FIXED_IE_LENGTH_. replace (12 + zlen (enc_ies (es1 ++ es)) - 12) with (zlen (enc_ies (es1 ++ es))) by lia.
  rewrite (get_ie_miss fixed (es1 ++ es) spare _TIM_IE_ F) by (by repeat constructor). simp_res. unfold tim_offset, _FIXED_IE_LENGTH_.
  replace (12 + zlen (enc_ies (es1 ++ es)) - 12) with (zlen (enc_ies (es1 ++ es))) by lia.
  pose proof (get_ie_hit fixed ([] : list ie) (_SSID_IE_, ssid) ((_SUPPORTEDRATES_IE_, rates) :: es) spare 0 F
    (List.Forall_nil _)) as G1.
  pose proof (get_ie_hit fixed [(_SSID_IE_, ssid)] (_SUPPORTEDRATES_IE_, rates) es spare 0 F
    ltac:(by repeat constructor)) as G2.
  cbn [fst snd app] in G1, G2. change (_ :: _ :: es) with (es1 ++ es) in G1, G2. bind_step G1. bind_step G2. simp_res.
  clear G1 G2. assert (enc_ies (es1 ++ es) = enc_ies es1 ++ [a; b; c] ++ tl) as Es by (by rewrite enc_ies_app, Ee).
  assert (zlen (enc_ies es1) = (zlen ssid + 2) + (zlen rates + 2)) as E1
    by (unfold es1; autorewrite with enc; change (enc_ies []) with (@nil Z); cbn [snd]; zlen_lia).
  clearbody es1. rewrite Es in C |- *. autorewrite with enc in C.
  destruct (rewrite_tail_ok (fixed ++ enc_ies es1 ++ [a; b; c]) [] tl spare _ _ (12 + (zlen ssid + 2) + (zlen rates + 2) + 3)
    (12 + (zlen ssid + 2) + (zlen rates + 2) + 3) (u32 (12 + zlen (enc_ies es1 ++ [a; b; c] ++ tl) -
      (12 + (zlen ssid + 2) + (zlen rates + 2) + 3))) W) as (spare' & E & Hs).
  { rewrite zlen_enc_ie; cbn [snd]; zlen_lia. }
  { zlen_lia. } { zlen_lia. } { zlen_lia. }
  { rewrite (wrap_small 32); autorewrite with enc; unfold fits; zlen_lia. }
  exists body, spare'. split; [done|]. rewrite app_nil_l in E. rewrite <- !app_assoc in E |- *. rewrite E.
  f_equal. f_equal; [by rewrite <- !app_assoc|zlen_lia].
Qed.

Lemma update_BCNTIM_splits_element_witness :
  exists body spare', tim_of [4] body /\
    let es1 := [(_SSID_IE_, [65]); (_SUPPORTEDRATES_IE_, [140; 18])] in
    update_BCNTIM true [4] (replicate 12 7 ++ enc_ies (es1 ++ [(7, [85; 83; 32])]) ++ replicate 9 0)
      (12 + zlen (enc_ies (es1 ++ [(7, [85; 83; 32])]))) =
      Ret (replicate 12 7 ++ enc_ies es1 ++ [7; 3; 85] ++ enc_ie (_TIM_IE_, body) ++ [83; 32] ++ spare',
           12 + zlen (enc_ies es1 ++ [7; 3; 85] ++ enc_ie (_TIM_IE_, body) ++ [83; 32])).
Proof.
  refine (update_BCNTIM_splits_element [4] (replicate 12 7) [65] [140; 18] [(7, [85; 83; 32])] (replicate 9 0) 7 3 85 [83; 32]
    _ _ _ _ _ _ _); [by_eval|by_eval|reflexivity|by_eval|reflexivity|by_eval|by_eval].
Defined.

(** ** Inserting and removing one element *)

(** What [rtw_add_bcn_ie] does to a list of elements: the element with the id is
    replaced, otherwise the new one goes in front of the first larger id; [ok]
    tells that there is an element before with a body that is not empty, without
    which nothing is inserted. *)
Fixpoint add_ie (index : Z) (data : list Z) (ok : bool) (es : list ie) : list ie :=
  match es with
  | [] => if ok then [(index, data)] else []
  | e :: es' =>
      if index <? e.1 then (if ok then (index, data) :: es else es)
      else if e.1 =? index then (if 0 <? zlen e.2 then (index, data) :: es' else es)
      else e :: add_ie index data (0 <? zlen e.2) es'
  end.

Definition remove_ie (index : Z) : list ie -> list ie :=
  fix go es := match es with
               | [] => []
               | e :: es' => if e.1 =? index then (if 0 <? zlen e.2 then es' else es) else e :: go es'
               end.

(** The walk, started behind [done_]: where it stops decides the edit. *)
Definition walk_stop (fixed : list Z) (es1 : list ie) : option (Z * Z) :=
  match last es1 with
  | Some e => Some (zlen fixed + zlen (enc_ies es1) - (zlen e.2 + 2), zlen e.2)
  | None => None
  end.

Lemma add_walk_ok (es2 : list ie) : forall fuel fixed (es1 : list ie) spare index,
  (length es2 < fuel)%nat ->
  exists mid rest : list ie, es2 = mid ++ rest /\ Forall (fun e => e.1 < index) mid /\
    (match rest with [] => True | e :: _ => index <= e.1 end) /\
    add_walk fuel (fixed ++ enc_ies (es1 ++ es2) ++ spare) (zlen fixed + zlen (enc_ies (es1 ++ es2))) index
      (zlen fixed + zlen (enc_ies es1)) (walk_stop fixed es1) =
    Ret (match rest with
         | e :: _ => if e.1 =? index then (Some (zlen fixed + zlen (enc_ies (es1 ++ mid)), zlen e.2), true)
                     else (walk_stop fixed (es1 ++ mid), false)
         | [] => (walk_stop fixed (es1 ++ mid), false)
         end).
Proof.
  induction es2 as [|e es2 IH]; intros fuel fixed es1 spare index Hf; destruct fuel as [|fuel]; simpl in Hf; try lia.
  - exists [], []. split; [done|]. split; [constructor|]. split; [done|]. cbn [add_walk]. rewrite !app_nil_r. by zdecide.
  - cbn [add_walk]. pose proof (enc_ies_app es1 (e :: es2)) as En. rewrite enc_ies_cons in En.
    assert (fixed ++ enc_ies (es1 ++ e :: es2) ++ spare = (fixed ++ enc_ies es1) ++ enc_ie e ++ enc_ies es2 ++ spare) as Eb
      by (rewrite En, <- !app_assoc; done).
    assert (zlen fixed + zlen (enc_ies es1) < zlen fixed + zlen (enc_ies (es1 ++ e :: es2))).
    { rewrite En. autorewrite with enc. zlen_lia. }
    pose proof (rd_enc_id (fixed ++ enc_ies es1) e (enc_ies es2 ++ spare) (zlen fixed + zlen (enc_ies es1))
      ltac:(by rewrite zlen_app)) as Rid.
    pose proof (rd_enc_len (fixed ++ enc_ies es1) e (enc_ies es2 ++ spare) (zlen fixed + zlen (enc_ies es1) + 1)
      ltac:(rewrite zlen_app; lia)) as Rl.
    zdecide. rewrite Eb, Rid. simp_res. destruct (Z.ltb_spec index e.1).
    { exists [], (e :: es2). split; [done|]. split; [constructor|]. split; [lia|]. rewrite app_nil_r. zdecide. done. }
    rewrite Rl. simp_res. destruct (Z.eqb_spec e.1 index) as [E|N].
    { exists [], (e :: es2). split; [done|]. split; [constructor|]. split; [lia|]. rewrite app_nil_r. zdecide. done. }
    destruct (IH fuel fixed (es1 ++ [e]) spare index ltac:(lia)) as (mid & rest & -> & M & R & W).
    exists (e :: mid), rest. split; [done|]. split; [constructor; [lia|done]|]. split; [done|].
    rewrite <- !app_assoc in W. cbn [app] in W. rewrite Eb in W. unfold walk_stop at 1 in W. rewrite last_snoc in W.
    assert (zlen (enc_ies (es1 ++ [e])) = zlen (enc_ies es1) + (zlen e.2 + 2)) as Ez.
    { rewrite enc_ies_app, enc_ies_cons, zlen_app. change (enc_ies []) with (@nil Z). by rewrite app_nil_r, zlen_enc_ie. }
    rewrite Ez in W. rewrite <- W. f_equal; [lia|]. do 2 f_equal. lia.
Qed.

Lemma add_ie_split index data (mid rest : list ie) : forall ok,
  Forall (fun e => e.1 < index) mid -> (match rest with [] => True | e :: _ => index <= e.1 end) ->
  add_ie index data ok (mid ++ rest) =
  mid ++ add_ie index data (match last mid with Some e => 0 <? zlen e.2 | None => ok end) rest.
Proof.
  induction mid as [|e mid IH]; intros ok M R; [done|]. inversion_clear M. cbn [app add_ie]. zdecide.
  rewrite IH by done. f_equal. f_equal. destruct mid as [|x mid]; [done|]. cbn [last].
  by destruct (last (x :: mid)) eqn:E; [|apply last_None in E].
Qed.

(** The two ways the beacon changes: [old] is replaced by [new], or nothing
    happens. *)
Lemma rewrite_elems fixed (es1 old es2 new : list ie) spare put dst prem rem :
  zlen fixed = 12 -> writes put (enc_ies new) -> zlen (enc_ies new) <= zlen spare ->
  zlen (fixed ++ enc_ies (es1 ++ old ++ es2) ++ spare) < 2 ^ 32 ->
  dst = 12 + zlen (enc_ies es1) -> prem = dst + zlen (enc_ies old) -> rem = zlen (enc_ies es2) ->
  exists spare', rewrite_tail true (fixed ++ enc_ies (es1 ++ old ++ es2) ++ spare) dst prem rem put =
      Ret (fixed ++ enc_ies (es1 ++ new ++ es2) ++ spare', 12 + zlen (enc_ies (es1 ++ new ++ es2))) /\
    zlen (enc_ies (es1 ++ new ++ es2)) + zlen spare' = zlen (enc_ies (es1 ++ old ++ es2)) + zlen spare.
Proof.
  intros F W R C -> -> ->.
  assert (fixed ++ enc_ies (es1 ++ old ++ es2) ++ spare = (fixed ++ enc_ies es1) ++ enc_ies old ++ enc_ies es2 ++ spare) as Eo
    by (rewrite !enc_ies_app, <- !app_assoc; done).
  rewrite Eo in C |- *.
  destruct (rewrite_tail_ok (fixed ++ enc_ies es1) (enc_ies old) (enc_ies es2) spare put (enc_ies new)
    (12 + zlen (enc_ies es1)) (12 + zlen (enc_ies es1) + zlen (enc_ies old)) (zlen (enc_ies es2)) W) as (spare' & E & Hs);
    [zlen_lia|done|rewrite zlen_app; lia..|done|].
  exists spare'. rewrite E. rewrite !enc_ies_app. rewrite <- !app_assoc. autorewrite with zlen. split; [f_equal; f_equal; lia|lia].
Qed.

(** The new beacon and how much of the object stays spare. *)
Definition edited (fixed : list Z) (es new : list ie) (spare : list Z) (r : res (list Z * Z)) : Prop :=
  exists spare', r = Ret (fixed ++ enc_ies new ++ spare', 12 + zlen (enc_ies new)) /\
    zlen (enc_ies new) + zlen spare' = zlen (enc_ies es) + zlen spare.

Lemma edited_same fixed es spare : edited fixed es es spare (Ret (fixed ++ enc_ies es ++ spare, 12 + zlen (enc_ies es))).
Proof. by exists spare. Qed.

Lemma enc_one index data : enc_ies [(index, data)] = enc_ie (index, data).
Proof. unfold enc_ies. simpl. by rewrite app_nil_r. Qed.

(** Whether an element can be put behind [mid]. *)
Definition has_body (mid : list ie) : bool := match last mid with Some e => 0 <? zlen e.2 | None => false end.

Section AddElement.
Context (fixed spare : list Z) (index : Z) (data : list Z) (mid rest : list ie).
Hypothesis F : zlen fixed = 12.
Hypothesis R : zlen data + 2 <= zlen spare.
Hypothesis C : zlen (fixed ++ enc_ies (mid ++ rest) ++ spare) < 2 ^ 32.

Let ies := fixed ++ enc_ies (mid ++ rest) ++ spare.
Let ielen := 12 + zlen (enc_ies (mid ++ rest)).

Lemma add_split : ielen = 12 + zlen (enc_ies mid) + zlen (enc_ies rest) /\ ielen < 2 ^ 32.
Proof. unfold ielen. rewrite enc_ies_app, zlen_app in *. autorewrite with enc in C. zlen_lia. Qed.

Lemma add_writes : writes (put_ie index data) (enc_ies [(index, data)]) /\ zlen (enc_ies [(index, data)]) <= zlen spare.
Proof. rewrite enc_one. split; [apply put_ie_writes|by rewrite zlen_enc_ie]. Qed.

Lemma add_insert :
  edited fixed (mid ++ rest) (mid ++ (if has_body mid then (index, data) :: rest else rest)) spare
    (match walk_stop fixed mid with
     | Some (p, l) => if 0 <? l then rewrite_tail true ies (p + (l + 2)) (p + (l + 2)) (u32 (ielen - p - (l + 2))) (put_ie index data)
                      else Ret (ies, ielen)
     | None => Ret (ies, ielen)
     end).
Proof.
  destruct add_writes as [W L], add_split as [S1 S2]. unfold walk_stop, has_body.
  destruct (last mid) as [e|]; [|apply edited_same]. destruct (Z.ltb_spec 0 (zlen e.2)); [|apply edited_same].
  apply (rewrite_elems fixed mid [] rest [(index, data)] spare (put_ie index data)); try done; [rewrite F; lia| |].
  - change (zlen (enc_ies [])) with 0. lia.
  - rewrite (wrap_small 32); rewrite F; [|unfold fits; zlen_lia]. lia.
Qed.

Lemma add_replace e rest' : rest = e :: rest' -> 0 < zlen e.2 ->
  edited fixed (mid ++ rest) (mid ++ (index, data) :: rest') spare
    (rewrite_tail true ies (12 + zlen (enc_ies mid)) (12 + zlen (enc_ies mid) + (zlen e.2 + 2))
      (u32 (ielen - (12 + zlen (enc_ies mid)) - (zlen e.2 + 2))) (put_ie index data)).
Proof.
  intros E P. destruct add_writes as [W L], add_split as [S1 S2]. unfold ies in *. subst rest.
  rewrite enc_ies_cons, zlen_app, zlen_enc_ie in S1.
  apply (rewrite_elems fixed mid [e] rest' [(index, data)] spare (put_ie index data)); try done.
  - destruct e as [id l]. rewrite enc_one, zlen_enc_ie. done.
  - rewrite (wrap_small 32); [lia|unfold fits; zlen_lia].
Qed.
End AddElement.

(** [rtw_add_bcn_ie] is insertion into the list of elements, [add_ie], with
    all other elements unchanged. *)
Theorem rtw_add_bcn_ie_refines fixed (es : list ie) spare index data :
  zlen fixed = 12 -> zlen data + 2 <= zlen spare -> zlen (fixed ++ enc_ies es ++ spare) < 2 ^ 32 ->
  edited fixed es (add_ie index data false es) spare
    (rtw_add_bcn_ie true (fixed ++ enc_ies es ++ spare) (12 + zlen (enc_ies es)) index data).
Proof.
  intros F R C. unfold rtw_add_bcn_ie, _FIXED_IE_LENGTH_.
  destruct (add_walk_ok es (S (Z.to_nat (12 + zlen (enc_ies es)))) fixed [] spare index) as (mid & rest & -> & M & Hr & W).
  { pose proof (enc_ies_length es). unfold zlen. lia. }
  change (enc_ies []) with (@nil Z) in W. rewrite zlen_nil, F in W. cbn [app] in W.
  change (walk_stop fixed []) with (@None (Z * Z)) in W. change (12 + 0) with 12 in W. rewrite W. clear W. simp_res.
  rewrite add_ie_split by done. change (match last mid with Some e => 0 <? zlen e.2 | None => false end) with (has_body mid).
  pose proof (add_insert fixed spare index data mid rest F R C) as I.
  destruct rest as [|e rest]; [done|]. cbn [add_ie]. destruct (Z.eqb_spec e.1 index) as [Q|Q].
  - zdecide. destruct (Z.ltb_spec 0 (zlen e.2)); [|apply edited_same].
    by apply (add_replace fixed spare index data mid (e :: rest) F R C e rest).
  - by zdecide.
Qed.

Lemma rtw_add_bcn_ie_refines_witness :
  edited (replicate 12 7) [(0, [65]); (1, [2]); (50, [9])] (add_ie 42 [4] false [(0, [65]); (1, [2]); (50, [9])]) (replicate 4 0)
    (rtw_add_bcn_ie true (replicate 12 7 ++ enc_ies [(0, [65]); (1, [2]); (50, [9])] ++ replicate 4 0)
       (12 + zlen (enc_ies [(0, [65]); (1, [2]); (50, [9])])) 42 [4]).
Proof.
  refine (rtw_add_bcn_ie_refines (replicate 12 7) [(0, [65]); (1, [2]); (50, [9])] (replicate 4 0) 42 [4] _ _ _); by_eval.
Defined.

Lemma remove_ie_split index (es1 : list ie) e es2 :
  Forall (fun x => x.1 <> index) es1 -> e.1 = index ->
  remove_ie index (es1 ++ e :: es2) = es1 ++ (if 0 <? zlen e.2 then es2 else e :: es2).
Proof.
  intros N E. induction N as [|x es1 H N IH]; simpl.
  - by rewrite (proj2 (Z.eqb_eq e.1 index) E).
  - rewrite (proj2 (Z.eqb_neq x.1 index) H). by rewrite IH.
Qed.
Lemma remove_ie_none index (es : list ie) : Forall (fun x => x.1 <> index) es -> remove_ie index es = es.
Proof. intros N. induction N as [|x es H N IH]; simpl; [done|]. rewrite (proj2 (Z.eqb_neq x.1 index) H). by rewrite IH. Qed.

Lemma first_with index (es : list ie) :
  Forall (fun x => x.1 <> index) es \/
  exists es1 e es2, es = es1 ++ e :: es2 /\ Forall (fun x => x.1 <> index) es1 /\ e.1 = index.
Proof.
  induction es as [|x es [IH|(es1 & e & es2 & -> & N & E)]]; [by left|..];
    (destruct (Z.eq_dec x.1 index); [right; by exists [], x; eexists|]).
  - left. by constructor.
  - right. exists (x :: es1), e, es2. split; [done|]. split; [by constructor|done].
Qed.

(** [rtw_remove_bcn_ie] removes the first element with the id, if its body is
    not empty. *)
Theorem rtw_remove_bcn_ie_refines fixed (es : list ie) spare index :
  zlen fixed = 12 -> zlen (fixed ++ enc_ies es ++ spare) < 2 ^ 32 ->
  edited fixed es (remove_ie index es) spare
    (rtw_remove_bcn_ie true (fixed ++ enc_ies es ++ spare) (12 + zlen (enc_ies es)) index).
Proof.
  intros F C. unfold rtw_remove_bcn_ie, _FIXED_IE_LENGTH_. replace (12 + zlen (enc_ies es) - 12) with (zlen (enc_ies es)) by lia.
  destruct (first_with index es) as [N|(es1 & e & es2 & -> & N & <-)].
  - rewrite get_ie_miss by done. simp_res. rewrite remove_ie_none by done. apply edited_same.
  - rewrite get_ie_hit by done. simp_res. rewrite remove_ie_split by done.
    destruct (Z.ltb_spec 0 (zlen e.2)); [|apply edited_same].
    apply (rewrite_elems fixed es1 [e] es2 [] spare (fun b _ => Ret (b, 0))); try done.
    + apply put_nothing.
    + change (zlen (enc_ies [])) with 0. zlen_lia.
    + destruct e as [id l]. rewrite enc_one, zlen_enc_ie. done.
    + rewrite enc_ies_app, enc_ies_cons in C |- *. autorewrite with enc in C |- *. rewrite (wrap_small 32); [lia|unfold fits; zlen_lia].
Qed.
End Tim.
