(* ===== verification/Ps.v ===== *)
(** * Transmit queues of an access point and stations that sleep

    Models, of [core/rtw_xmit.c], the queues in front of the hardware
    ([rtw_get_sta_pending], [rtw_xmit_classifier], [rtw_mgmt_xmitframe_enqueue],
    [dequeue_one_xmitframe], [rtw_dequeue_xframe], [rtw_dequeue_mgmt_xframe]) and
    the buffers of sleeping stations ([xmitframe_hiq_filter],
    [xmitframe_enqueue_for_sleeping_sta],
    [mgmt_xmitframe_enqueue_for_sleeping_sta],
    [dequeue_xmitframes_to_sleeping_queue], [dequeue_mgmt_xmitframe_to_sleepq],
    [stop_sta_xmit], [wakeup_sta_to_xmit], [xmit_delivery_enabled_frames]); the
    power management of received frames in [core/rtw_recv.c]
    ([process_pwrbit_data], [process_wmmps_data] and the PS-Poll part of
    [validate_recv_ctrl_frame]); [chk_bmc_sleepq_hdl] of [core/rtw_mlme_ext.c]
    and [rtw_ap_bmc_frames_hdl] of [core/rtw_ap.c]; the enqueue functions of
    [hal/rtl8821c/usb/rtl8821cu_xmit.c].

    A station is an index.  Every frame is in exactly one queue: of frames to
    send now (four access categories and management), or of frames kept while the
    station sleeps.  [CONFIG_RTW_MGMT_QUEUE] is defined, [CONFIG_TDLS] and
    [CONFIG_RTW_MESH] are not. *)
From S2P Require Import Prelude Recv Ies Cam Macid Sta Tim.

Module Ps.
Import Cam Tim.

Definition WIFI_ASOC_STATE : Z := 0x1.
Definition WIFI_SLEEP_STATE : Z := 0x4.
Definition WIFI_STA_ALIVE_CHK_STATE : Z := 0x400.
Definition RTW_QUEUE_MGMT : Z := 14.
Definition HIQ_XMIT_COUNTS : Z := 6.

(** [struct xmit_frame] with the fields of its [attrib] used here; [x_high] for
    [qsel == QSLT_HIGH]. *)
Record xframe := XFrame {
  x_id : Z; x_ra : list Z; x_sta : option nat; x_prio : Z; x_ether : Z; x_dhcp : bool; x_dontq : bool;
  x_trig : bool; x_mdata : bool; x_eosp : bool; x_high : bool }.

Definition set_trig (t : bool) (f : xframe) : xframe :=
  XFrame (x_id f) (x_ra f) (x_sta f) (x_prio f) (x_ether f) (x_dhcp f) (x_dontq f) t (x_mdata f) (x_eosp f) (x_high f).
Definition set_mdata (m : bool) (f : xframe) : xframe :=
  XFrame (x_id f) (x_ra f) (x_sta f) (x_prio f) (x_ether f) (x_dhcp f) (x_dontq f) (x_trig f) m (x_eosp f) (x_high f).
Definition set_eosp (e : bool) (f : xframe) : xframe :=
  XFrame (x_id f) (x_ra f) (x_sta f) (x_prio f) (x_ether f) (x_dhcp f) (x_dontq f) (x_trig f) (x_mdata f) e (x_high f).
Definition set_high (f : xframe) : xframe :=
  XFrame (x_id f) (x_ra f) (x_sta f) (x_prio f) (x_ether f) (x_dhcp f) (x_dontq f) (x_trig f) (x_mdata f) (x_eosp f) true.

(** [struct sta_info].  The lists [servq], [qcnt] (vo, vi, be, bk, management)
    and [uapsd] (vo, vi, be, bk) are indexed as [hwxmits] is. *)
Record psta := PSta {
  p_aid : Z; p_state : Z; sleepq : list xframe; sleepq_len : Z; sleepq_ac_len : Z;
  mgmt_sleepq : list xframe; mgmt_sleepq_len : Z;
  servq : list (list xframe); qcnt : list Z;
  uapsd : list Z; has_legacy_ac : bool; qos_option : bool; qos_info : Z }.

Definition set_state (x : Z) (s : psta) : psta :=
  PSta (p_aid s) x (sleepq s) (sleepq_len s) (sleepq_ac_len s) (mgmt_sleepq s) (mgmt_sleepq_len s) (servq s) (qcnt s)
    (uapsd s) (has_legacy_ac s) (qos_option s) (qos_info s).
Definition set_sleepq (q : list xframe) (n ac : Z) (s : psta) : psta :=
  PSta (p_aid s) (p_state s) q n ac (mgmt_sleepq s) (mgmt_sleepq_len s) (servq s) (qcnt s)
    (uapsd s) (has_legacy_ac s) (qos_option s) (qos_info s).
Definition set_mgmt (q : list xframe) (n : Z) (s : psta) : psta :=
  PSta (p_aid s) (p_state s) (sleepq s) (sleepq_len s) (sleepq_ac_len s) q n (servq s) (qcnt s)
    (uapsd s) (has_legacy_ac s) (qos_option s) (qos_info s).
Definition set_servq (q : list (list xframe)) (n : list Z) (s : psta) : psta :=
  PSta (p_aid s) (p_state s) (sleepq s) (sleepq_len s) (sleepq_ac_len s) (mgmt_sleepq s) (mgmt_sleepq_len s) q n
    (uapsd s) (has_legacy_ac s) (qos_option s) (qos_info s).

(** The stations, the bitmaps of [sta_priv], the stations linked in the five
    [hwxmits] with their counts, the frames freed by failed enqueues, and the
    number of TIM updates asked of the beacon. *)
Record ps := PS {
  stas : list psta; dz : list Z; tim : list Z; hwq : list (list nat); accnt : list Z;
  dropped : list xframe; tim_updates : Z }.

Definition set_stas (l : list psta) (st : ps) : ps :=
  PS l (dz st) (tim st) (hwq st) (accnt st) (dropped st) (tim_updates st).
Definition set_dz (b : list Z) (st : ps) : ps :=
  PS (stas st) b (tim st) (hwq st) (accnt st) (dropped st) (tim_updates st).
Definition set_tim (b : list Z) (st : ps) : ps :=
  PS (stas st) (dz st) b (hwq st) (accnt st) (dropped st) (tim_updates st).
Definition set_hwq (q : list (list nat)) (a : list Z) (st : ps) : ps :=
  PS (stas st) (dz st) (tim st) q a (dropped st) (tim_updates st).
Definition drop_frame (f : xframe) (st : ps) : ps :=
  PS (stas st) (dz st) (tim st) (hwq st) (accnt st) (dropped st ++ [f]) (tim_updates st).
Definition update_beacon_tim (st : ps) : ps :=
  PS (stas st) (dz st) (tim st) (hwq st) (accnt st) (dropped st) (tim_updates st + 1).

Definition get (st : ps) (i : nat) : res psta := match stas st !! i with Some s => Ret s | None => Oob end.
Definition put (i : nat) (s : psta) (st : ps) : ps := set_stas (<[i := s]> (stas st)) st.

Definition asoc (s : psta) : bool := negb (Z.land (p_state s) WIFI_ASOC_STATE =? 0).
Definition sleeping (s : psta) : bool := negb (Z.land (p_state s) WIFI_SLEEP_STATE =? 0).
Definition mcast (ra : list Z) : bool := negb (Z.land (hd 0 ra) 1 =? 0).

(** The bitmaps, with [u8 id]. *)
Definition tim_map_is_set (b : list Z) (aid : Z) : res bool := rtw_bmp_is_set b (zlen b) (u8 aid).
Definition tim_map_set (b : list Z) (aid : Z) : res (list Z) := rtw_bmp_set b (zlen b) (u8 aid).
Definition tim_map_clear (b : list Z) (aid : Z) : res (list Z) := Sta.rtw_bmp_clear b (zlen b) (u8 aid).

(** ** The queues in front of the hardware *)

(** [rtw_get_sta_pending]: the access category of a user priority. *)
Definition rtw_get_sta_pending (up : Z) : nat :=
  if (up =? 1) || (up =? 2) then 3%nat else if (up =? 4) || (up =? 5) then 1%nat
  else if (up =? 6) || (up =? 7) then 0%nat else 2%nat.

(** The switch on the priority that selects [uapsd_xx & BIT(bit)]. *)
Definition wmmps_ac (s : psta) (up bit : Z) : bool :=
  negb (Z.land (default 0 (uapsd s !! rtw_get_sta_pending up)) (BIT bit) =? 0).

Section Code.
(** The station table, a map from addresses ([Sta]); group addresses give the
    broadcast station [bmc].  [ap] for [MLME_IS_AP]. *)
Context (get_sta : list Z -> option nat) (bmc : option nat) (ap : bool) (wifi_spec : bool) (hiq_filter : Z).

(** [rtw_list_insert_tail(&ptxservq->tx_pending, ...)] when it is not linked. *)
Definition link (i : nat) (l : list nat) : list nat := if bool_decide (i ∈ l) then l else l ++ [i].
Definition unlink (i : nat) (l : list nat) : list nat := filter (fun j => j <> i) l.

(** The frame goes to queue [k] of station [i]. *)
Definition push_servq (st : ps) (i k : nat) (f : xframe) : res ps :=
  s ← get st i;
  Ret (set_hwq (alter (link i) k (hwq st)) (alter (Z.add 1) k (accnt st))
        (put i (set_servq (alter (fun q => q ++ [f]) k (servq s)) (alter (Z.add 1) k (qcnt s)) s) st)).

(** The checks shared by the two enqueue functions: the station of the frame. *)
Definition frame_sta (st : ps) (f : xframe) : res (option nat) :=
  let psta := get_sta (x_ra f) in
  if bool_decide (x_sta f = psta) then
    match psta with
    | None => Ret None
    | Some i => s ← get st i; Ret (if asoc s then Some i else None)
    end
  else Ret None.

Definition rtw_xmit_classifier (st : ps) (f : xframe) : res (Z * ps) :=
  o ← frame_sta st f;
  match o with
  | None => Ret (_FAIL, st)
  | Some i => st ← push_servq st i (rtw_get_sta_pending (x_prio f)) f; Ret (_SUCCESS, st)
  end.

Definition rtw_mgmt_xmitframe_enqueue (st : ps) (f : xframe) : res (Z * ps) :=
  o ← frame_sta st f;
  match o with
  | None => Ret (_FAIL, st)
  | Some i => st ← push_servq st i 4 f; Ret (_SUCCESS, st)
  end.

(** [rtl8821cu_hal_xmitframe_enqueue] and its management twin: a frame that
    cannot be queued is freed. *)
Definition rtw_hal_xmitframe_enqueue (st : ps) (f : xframe) : res ps :=
  '(err, st) ← rtw_xmit_classifier st f; Ret (if err =? _SUCCESS then st else drop_frame f st).
Definition rtw_hal_mgmt_xmitframe_enqueue (st : ps) (f : xframe) : res ps :=
  '(err, st) ← rtw_mgmt_xmitframe_enqueue st f; Ret (if err =? _SUCCESS then st else drop_frame f st).

(** [dequeue_one_xmitframe] and what follows it: the first frame of the queues
    of the linked stations. *)
Fixpoint dequeue_linked (st : ps) (k : nat) (l : list nat) : res (option xframe * ps) :=
  match l with
  | [] => Ret (None, st)
  | i :: l =>
      s ← get st i;
      match servq s !! k with
      | Some (f :: q) =>
          let st := put i (set_servq (<[k := q]> (servq s)) (alter (fun n => n - 1) k (qcnt s)) s) st in
          let h := match q with [] => alter (unlink i) k (hwq st) | _ => hwq st end in
          Ret (Some f, set_hwq h (alter (fun n => n - 1) k (accnt st)) st)
      | _ => dequeue_linked st k l
      end
  end.

(** [rtw_dequeue_xframe]: [inx] is the order of the access categories. *)
Fixpoint dequeue_acs (st : ps) (inx : list nat) : res (option xframe * ps) :=
  match inx with
  | [] => Ret (None, st)
  | k :: inx =>
      r ← dequeue_linked st k (default [] (hwq st !! k));
      match r.1 with Some _ => Ret r | None => dequeue_acs st inx end
  end.
Definition rtw_dequeue_xframe (wmm_para_seq : list nat) (st : ps) : res (option xframe * ps) :=
  dequeue_acs st (if wifi_spec then wmm_para_seq else [0; 1; 2; 3]%nat).

Definition rtw_dequeue_mgmt_xframe (st : ps) : res (option xframe * ps) :=
  dequeue_linked st 4 (default [] (hwq st !! 4%nat)).

(** ** Buffering for sleeping stations *)

Definition RTW_HIQ_FILTER_ALLOW_ALL : Z := 0.
Definition RTW_HIQ_FILTER_ALLOW_SPECIAL : Z := 1.

Definition xmitframe_hiq_filter (f : xframe) : bool :=
  if wifi_spec then true
  else if hiq_filter =? RTW_HIQ_FILTER_ALLOW_SPECIAL then (x_ether f =? 0x0806) || (x_ether f =? 0x888e) || x_dhcp f
  else hiq_filter =? RTW_HIQ_FILTER_ALLOW_ALL.

(** [rtw_tim_map_set(tim_bitmap, aid)], with a beacon update when the bit was
    clear. *)
Definition announce (st : ps) (aid : Z) : res (bool * ps) :=
  b ← tim_map_is_set (tim st) aid;
  t ← tim_map_set (tim st) aid;
  Ret (negb b, set_tim t st).

(** A group frame is kept when any station sleeps.  When the bit was set already,
    the code asks for [chk_bmc_sleepq_hdl] by a command, which runs on its own. *)
Definition sleep_bmc (st : ps) (i : nat) (f : xframe) : res (bool * ps) :=
  any ← rtw_bmp_not_empty (dz st) (zlen (dz st));
  if any : bool then
    s ← get st i;
    let st := put i (set_sleepq (sleepq s ++ [f]) (u32 (sleepq_len s + 1)) (sleepq_ac_len s) s) st in
    '(update_tim, st) ← announce st 0;
    d ← tim_map_set (dz st) 0;
    let st := set_dz d st in
    Ret (true, if update_tim : bool then update_beacon_tim st else st)
  else Ret (false, st).

(** A frame to one station is kept while it sleeps. *)
Definition sleep_ucast (st : ps) (i : nat) (f : xframe) : res (bool * ps) :=
  s ← get st i;
  if sleeping s then
    b ← tim_map_is_set (dz st) (p_aid s);
    if b : bool then
      let wmm := wmmps_ac s (x_prio f) 0 in
      let ac := if wmm then u32 (sleepq_ac_len s + 1) else sleepq_ac_len s in
      let st := put i (set_sleepq (sleepq s ++ [f]) (u32 (sleepq_len s + 1)) ac s) st in
      if (has_legacy_ac s && negb wmm) || (negb (has_legacy_ac s) && wmm) then
        '(update_tim, st) ← announce st (p_aid s);
        Ret (true, if update_tim : bool then update_beacon_tim st else st)
      else Ret (true, st)
    else Ret (false, st)
  else Ret (false, st).

(** [xmitframe_enqueue_for_sleeping_sta]: whether the frame was taken, the frame
    (whose queue selection may change) and the state. *)
Definition xmitframe_enqueue_for_sleeping_sta (st : ps) (f : xframe) : res (bool * xframe * ps) :=
  if negb ap then Ret (false, f, st)
  else
    o ← frame_sta st f;
    match o with
    | None => Ret (false, f, st)
    | Some i =>
        if x_trig f then Ret (false, if mcast (x_ra f) && xmitframe_hiq_filter f then set_high f else f, st)
        else '(b, st) ← (if mcast (x_ra f) then sleep_bmc st i f else sleep_ucast st i f); Ret (b, f, st)
    end.

(** [mgmt_xmitframe_enqueue_for_sleeping_sta]. *)
Definition mgmt_xmitframe_enqueue_for_sleeping_sta (st : ps) (f : xframe) : res (Z * ps) :=
  if bool_decide (x_ra f = replicate 6 255) || x_dontq f then Ret (0, st)
  else
    match x_sta f with
    | None => Ret (0, st)
    | Some i =>
        s ← get st i;
        if asoc s then
          b ← (if sleeping s then tim_map_is_set (dz st) (p_aid s) else Ret false);
          if b : bool then
            let st := put i (set_mgmt (mgmt_sleepq s ++ [f]) (u32 (mgmt_sleepq_len s + 1)) s) st in
            '(update_tim, st) ← announce st (p_aid s);
            Ret (RTW_QUEUE_MGMT, if update_tim : bool then update_beacon_tim st else st)
          else Ret (1, st)
        else Ret (0, st)
    end.

(** The frame that was looked at stays in queue [k] of station [i], or leaves it
    and the counts of category [c]. *)
Definition stay (st : ps) (i k : nat) (q : list xframe) : res ps :=
  s ← get st i; Ret (put i (set_servq (<[k := q]> (servq s)) (qcnt s) s) st).
Definition leave (st : ps) (i k c : nat) (q : list xframe) : res ps :=
  s ← get st i;
  Ret (set_hwq (hwq st) (alter (fun n => n - 1) c (accnt st))
        (put i (set_servq (<[k := q]> (servq s)) (alter (fun n => n - 1) c (qcnt s)) s) st)).

(** The loop of [dequeue_xmitframes_to_sleeping_queue] over the frames [q] of
    queue [k]; [kept] are the frames already passed that stay. *)
Fixpoint to_sleeping (st : ps) (i k : nat) (kept q : list xframe) : res ps :=
  match q with
  | [] => Ret st
  | f :: q =>
      '(b, f, st) ← xmitframe_enqueue_for_sleeping_sta st (set_trig false f);
      if b : bool then
        st ← leave st i k (rtw_get_sta_pending (x_prio f)) (kept ++ q); to_sleeping st i k kept q
      else st ← stay st i k (kept ++ f :: q); to_sleeping st i k (kept ++ [f]) q
  end.

(** The loop of [dequeue_mgmt_xmitframe_to_sleepq]. *)
Fixpoint mgmt_to_sleepq (st : ps) (i k : nat) (kept q : list xframe) : res ps :=
  match q with
  | [] => Ret st
  | f :: q =>
      let f := set_trig false f in
      '(r, st) ← mgmt_xmitframe_enqueue_for_sleeping_sta st f;
      if r =? RTW_QUEUE_MGMT then
        st ← leave st i k 4 (kept ++ q); mgmt_to_sleepq st i k kept q
      else st ← stay st i k (kept ++ f :: q); mgmt_to_sleepq st i k (kept ++ [f]) q
  end.

(** One queue of the station: move what can be moved, then
    [rtw_list_delete(&...tx_pending)]. *)
Definition stop_queue (loop : ps -> nat -> nat -> list xframe -> list xframe -> res ps) (st : ps) (i k : nat) : res ps :=
  s ← get st i;
  st ← loop st i k [] (default [] (servq s !! k));
  Ret (set_hwq (alter (unlink i) k (hwq st)) (accnt st) st).

Fixpoint stop_queues (st : ps) (i : nat) (ks : list nat) : res ps :=
  match ks with
  | [] => Ret st
  | k :: ks => st ← stop_queue to_sleeping st i k; stop_queues st i ks
  end.

Definition stop_sta_xmit (st : ps) (i : nat) : res ps :=
  s ← get st i;
  let s := set_state (Z.lor (p_state s) WIFI_SLEEP_STATE) s in
  let st := put i s st in
  d ← tim_map_set (dz st) (p_aid s);
  st ← stop_queue mgmt_to_sleepq (set_dz d st) i 4;
  st ← stop_queues st i [0; 1; 2; 3]%nat;
  match bmc with
  | Some j => stop_queues st j [0; 1; 2; 3]%nat
  | None => Ret st
  end.

(** ** Delivery *)

(** The first loop of [wakeup_sta_to_xmit], over [mgmt_sleep_q]. *)
Fixpoint wake_mgmt (st : ps) (i : nat) (q : list xframe) : res ps :=
  match q with
  | [] => Ret st
  | f :: q =>
      s ← get st i;
      let st := put i (set_mgmt q (u32 (mgmt_sleepq_len s - 1)) s) st in
      st ← rtw_hal_mgmt_xmitframe_enqueue st (set_trig true f);
      wake_mgmt st i q
  end.

(** The second loop, over [sleep_q]. *)
Fixpoint wake_ac (st : ps) (i : nat) (q : list xframe) : res ps :=
  match q with
  | [] => Ret st
  | f :: q =>
      s ← get st i;
      let wmm := wmmps_ac s (x_prio f) 1 in
      let n := u32 (sleepq_len s - 1) in
      let f := set_mdata (0 <? n) f in
      let ac := if wmm then u32 (sleepq_ac_len s - 1) else sleepq_ac_len s in
      let f := if wmm then set_eosp (negb (0 <? ac)) (set_mdata (0 <? ac) f) else f in
      let st := put i (set_sleepq q n ac s) st in
      st ← rtw_hal_xmitframe_enqueue st (set_trig true f);
      wake_ac st i q
  end.

(** The loop over the group frames, of [wakeup_sta_to_xmit] ([hi] false) and of
    [chk_bmc_sleepq_hdl] ([hi] true). *)
Fixpoint wake_bmc (hi : bool) (st : ps) (j : nat) (q : list xframe) : res ps :=
  match q with
  | [] => Ret st
  | f :: q =>
      s ← get st j;
      let n := u32 (sleepq_len s - 1) in
      let f := set_trig true (set_mdata (0 <? n) f) in
      let f := if hi && xmitframe_hiq_filter f then set_high f else f in
      let st := put j (set_sleepq q n (sleepq_ac_len s) s) st in
      st ← rtw_hal_xmitframe_enqueue st f;
      wake_bmc hi st j q
  end.

(** The station is awake once nothing is left for it: whether its TIM bit was
    set, and the new state. *)
Definition wake_up_done (st : ps) (i : nat) : res (bool * ps) :=
  s ← get st i;
  if (sleepq_len s =? 0) && (mgmt_sleepq_len s =? 0) then
    b ← tim_map_is_set (tim st) (p_aid s);
    t ← tim_map_clear (tim st) (p_aid s);
    let x := if sleeping s then Z.lxor (p_state s) WIFI_SLEEP_STATE else p_state s in
    let x := if Z.land x WIFI_STA_ALIVE_CHK_STATE =? 0 then x else Z.lxor x WIFI_STA_ALIVE_CHK_STATE in
    d ← tim_map_clear (dz st) (p_aid s);
    Ret (b, put i (set_state x s) (set_dz d (set_tim t st)))
  else Ret (false, st).

(** The group frames go when no station is left asleep. *)
Definition wake_group (st : ps) (j : nat) : res (bool * ps) :=
  any ← rtw_bmp_not_empty_exclude_bit0 (dz st) (zlen (dz st));
  if any : bool then Ret (false, st)
  else
    s ← get st j;
    st ← wake_bmc false st j (sleepq s);
    s ← get st j;
    if sleepq_len s =? 0 then
      b ← tim_map_is_set (tim st) 0;
      t ← tim_map_clear (tim st) 0;
      d ← tim_map_clear (dz st) 0;
      Ret (b, set_dz d (set_tim t st))
    else Ret (false, st).

Definition wakeup_sta_to_xmit (st : ps) (i : nat) : res ps :=
  s ← get st i;
  st ← wake_mgmt st i (mgmt_sleepq s);
  s ← get st i;
  st ← wake_ac st i (sleepq s);
  '(uc, st) ← wake_up_done st i;
  '(mc, st) ← match bmc with Some j => wake_group st j | None => Ret (false, st) end;
  Ret (if uc || mc : bool then update_beacon_tim st else st).

(** [xmit_delivery_enabled_frames]: the loop over the frames of [sleep_q]; [pre]
    are the frames passed over, which stay. *)
Fixpoint deliver (st : ps) (i : nat) (pre q : list xframe) : res ps :=
  match q with
  | [] => Ret st
  | f :: q =>
      s ← get st i;
      if wmmps_ac s (x_prio f) 1 then
        let n := u32 (sleepq_len s - 1) in
        let ac := u32 (sleepq_ac_len s - 1) in
        let f := set_eosp (negb (0 <? ac)) (set_mdata (0 <? ac) f) in
        let st := put i (set_sleepq (pre ++ q) n ac s) st in
        st ← rtw_hal_xmitframe_enqueue st (set_trig true f);
        if (ac =? 0) && negb (has_legacy_ac s) then
          t ← tim_map_clear (tim st) (p_aid s);
          deliver (update_beacon_tim (set_tim t st)) i pre q
        else deliver st i pre q
      else deliver st i (pre ++ [f]) q
  end.

Definition xmit_delivery_enabled_frames (st : ps) (i : nat) : res ps :=
  s ← get st i; deliver st i [] (sleepq s).

(** ** Received frames of stations in power save *)

(** The power management bit of a received data frame. *)
Definition process_pwrbit_data (st : ps) (i : nat) (pwrbit : bool) : res ps :=
  s ← get st i;
  if pwrbit then if sleeping s then Ret st else stop_sta_xmit st i
  else if sleeping s then wakeup_sta_to_xmit st i else Ret st.

(** A trigger frame; also whether a QoS null frame that ends the service period
    is sent. *)
Definition process_wmmps_data (st : ps) (i : nat) (priority : Z) : res (bool * ps) :=
  s ← get st i;
  if negb (qos_option s) then Ret (false, st)
  else if Z.land (qos_info s) 0xf =? 0 then Ret (false, st)
  else if sleeping s && wmmps_ac s priority 1 then
    if 0 <? sleepq_ac_len s then st ← xmit_delivery_enabled_frames st i; Ret (false, st)
    else Ret (true, st)
  else Ret (false, st).

(** The PS-Poll part of [validate_recv_ctrl_frame], [aid] from the frame; also
    whether a null frame that announces no more data is sent. *)
Definition ps_poll (st : ps) (i : nat) (aid priority : Z) : res (bool * ps) :=
  s ← get st i;
  if negb (p_aid s =? aid) then Ret (false, st)
  else if wmmps_ac s priority 0 then Ret (false, st)
  else
    let s := if Z.land (p_state s) WIFI_STA_ALIVE_CHK_STATE =? 0 then s
             else set_state (Z.lxor (p_state s) WIFI_STA_ALIVE_CHK_STATE) s in
    let st := put i s st in
    b ← (if sleeping s then tim_map_is_set (dz st) (p_aid s) else Ret false);
    if b : bool then
      match sleepq s with
      | f :: q =>
          let n := u32 (sleepq_len s - 1) in
          let st := put i (set_sleepq q n (sleepq_ac_len s) s) st in
          st ← rtw_hal_xmitframe_enqueue st (set_trig true (set_mdata (0 <? n) f));
          if n =? 0 then t ← tim_map_clear (tim st) (p_aid s); Ret (false, update_beacon_tim (set_tim t st))
          else Ret (false, st)
      | [] =>
          m ← tim_map_is_set (tim st) (p_aid s);
          if m : bool then
            let null := sleepq_len s =? 0 in
            let st := if null then st else put i (set_sleepq (sleepq s) 0 (sleepq_ac_len s) s) st in
            t ← tim_map_clear (tim st) (p_aid s);
            Ret (null, update_beacon_tim (set_tim t st))
          else Ret (false, st)
      end
    else Ret (false, st).

(** [chk_bmc_sleepq_hdl]: the group frames after a DTIM beacon. *)
Definition chk_bmc_sleepq_hdl (st : ps) : res ps :=
  match bmc with
  | None => Ret st
  | Some j =>
      s ← get st j;
      b ← tim_map_is_set (tim st) 0;
      if b && (0 <? sleepq_len s) then wake_bmc true st j (sleepq s) else Ret st
  end.

(** The loop of [rtw_ap_bmc_frames_hdl]: at most [HIQ_XMIT_COUNTS] frames. *)
Fixpoint bmc_burst (n : nat) (st : ps) (j : nat) (q : list xframe) : res ps :=
  match n, q with
  | O, _ | _, [] => Ret st
  | S m, f :: q =>
      s ← get st j;
      let l := u32 (sleepq_len s - 1) in
      let f := set_trig true (set_mdata ((0 <? l) && negb (bool_decide (m = O))) f) in
      let f := if xmitframe_hiq_filter f then set_high f else f in
      let st := put j (set_sleepq q l (sleepq_ac_len s) s) st in
      st ← rtw_hal_xmitframe_enqueue st f;
      bmc_burst m st j q
  end.

Definition rtw_ap_bmc_frames_hdl (st : ps) : res ps :=
  if negb wifi_spec then Ret st
  else
    match bmc with
    | None => Ret st
    | Some j =>
        s ← get st j;
        b ← tim_map_is_set (tim st) 0;
        if b && (0 <? sleepq_len s) then bmc_burst (Z.to_nat HIQ_XMIT_COUNTS) (update_beacon_tim st) j (sleepq s)
        else if sleepq_len s =? 0 then
          t ← tim_map_clear (tim st) 0;
          d ← tim_map_clear (dz st) 0;
          Ret (let st := set_dz d (set_tim t st) in if b : bool then update_beacon_tim st else st)
        else Ret st
    end.

(** ** Entries of the transmit path *)

(** [rtw_txframes_sta_ac_pending]: how many frames wait before this one. *)
Definition rtw_txframes_sta_ac_pending (st : ps) (f : xframe) : res Z :=
  o ← frame_sta st f;
  match o with
  | None => Ret 0
  | Some i => s ← get st i; Ret (default 0 (qcnt s !! rtw_get_sta_pending (x_prio f)))
  end.

(** [pre_xmitframe]: the frame goes to the hardware at once, unless frames wait
    before it or the hardware is [busy] ([rtw_xmit_ac_blocked], an interface is
    linking, no free transmit buffer); a frame that cannot be queued is freed. *)
Definition pre_xmitframe (busy : bool) (st : ps) (f : xframe) : res (list xframe * ps) :=
  n ← rtw_txframes_sta_ac_pending st f;
  if (0 <? n) || busy then
    '(err, st) ← rtw_xmit_classifier st f; Ret ([], if err =? _SUCCESS then st else drop_frame f st)
  else Ret ([f], st).

(** [rtw_hal_mgnt_xmit]. *)
Definition rtw_hal_mgnt_xmit (st : ps) (f : xframe) : res (list xframe * ps) :=
  if ap then
    '(r, st) ← mgmt_xmitframe_enqueue_for_sleeping_sta st f;
    Ret (if r =? RTW_QUEUE_MGMT then [] else [f], st)
  else Ret ([f], st).
End Code.

(** ** Where the frames are *)

Definition fids (q : list xframe) : list Z := map x_id q.
Definition nq (s : psta) (k : nat) : list xframe := default [] (servq s !! k).
Definition frames (s : psta) : list xframe := sleepq s ++ mgmt_sleepq s ++ concat (servq s).
Definition ids (st : ps) : list Z := concat (map (fun s => fids (frames s)) (stas st)) ++ fids (dropped st).

Lemma stas_split st i s : stas st !! i = Some s ->
  exists l1 l2, stas st = l1 ++ s :: l2 /\ length l1 = i /\ forall s', <[i := s']> (stas st) = l1 ++ s' :: l2.
Proof.
  intros H. exists (take i (stas st)), (drop (S i) (stas st)). pose proof (lookup_lt_Some _ _ _ H).
  split; [by rewrite take_drop_middle|]. split; [rewrite length_take; lia|]. intros s'. by rewrite insert_take_drop.
Qed.

(** Replacing a station changes the frames of the system as it changes the
    frames of the station. *)
Lemma ids_put st i s s' a b : stas st !! i = Some s ->
  fids (frames s') ++ a ≡ₚ fids (frames s) ++ b -> ids (put i s' st) ++ a ≡ₚ ids st ++ b.
Proof.
  intros H P. destruct (stas_split st i s H) as (l1 & l2 & E & _ & I). unfold ids, put. cbn [stas set_stas dropped].
  rewrite I, E, !map_app, !concat_app. cbn [map concat]. rewrite <- !app_assoc. apply Permutation_app_head.
  rewrite (Permutation_app_comm (fids (frames s'))), (Permutation_app_comm (fids (frames s))). rewrite <- !app_assoc.
  apply Permutation_app_head, Permutation_app_head.
  by rewrite (Permutation_app_comm a), (Permutation_app_comm b).
Qed.

Lemma ids_put_same st i s s' : stas st !! i = Some s -> fids (frames s') ≡ₚ fids (frames s) -> ids (put i s' st) ≡ₚ ids st.
Proof. intros H P. pose proof (ids_put st i s s' [] [] H) as Q. rewrite !app_nil_r in Q. by apply Q. Qed.

Lemma ids_put_add st i s s' b : stas st !! i = Some s -> frames s' ≡ₚ frames s ++ b -> ids (put i s' st) ≡ₚ ids st ++ fids b.
Proof.
  intros H P. pose proof (ids_put st i s s' [] (fids b) H) as Q. rewrite !app_nil_r in Q. apply Q.
  unfold fids. rewrite <- map_app. by apply fmap_Permutation.
Qed.
Lemma ids_put_sub st i s s' a : stas st !! i = Some s -> frames s' ++ a ≡ₚ frames s -> ids (put i s' st) ++ fids a ≡ₚ ids st.
Proof.
  intros H P. pose proof (ids_put st i s s' (fids a) [] H) as Q. rewrite !app_nil_r in Q. apply Q.
  unfold fids. rewrite <- map_app. by apply fmap_Permutation.
Qed.

Lemma get_put st i s s' : stas st !! i = Some s -> get (put i s' st) i = Ret s'.
Proof. intros H. unfold get, put. cbn [stas set_stas]. rewrite list_lookup_insert_eq; [done|]. by eapply lookup_lt_Some. Qed.

(** Sums over the stations. *)
Definition zsum {A} (g : A -> Z) (l : list A) : Z := foldr (fun x a => g x + a) 0 l.
Lemma zsum_app {A} (g : A -> Z) l1 l2 : zsum g (l1 ++ l2) = zsum g l1 + zsum g l2.
Proof. induction l1 as [|x l1 IH]; simpl; [done|]. unfold zsum in *. simpl. rewrite IH. lia. Qed.
Lemma zsum_insert {A} (g : A -> Z) l i x y : l !! i = Some x -> zsum g (<[i := y]> l) = zsum g l - g x + g y.
Proof.
  intros H. pose proof (lookup_lt_Some _ _ _ H). rewrite insert_take_drop by done.
  rewrite <- (take_drop_middle l i x H) at 3. rewrite !zsum_app. unfold zsum. simpl. lia.
Qed.

(** ** The invariant *)

Section Inv.
Context (get_sta : list Z -> option nat) (bmc : option nat).

(** A frame that belongs to station [i]. *)
Definition frame_ok (i : nat) (f : xframe) : Prop :=
  x_sta f = Some i /\ get_sta (x_ra f) = Some i /\ mcast (x_ra f) = bool_decide (bmc = Some i).

(** The counters of a station match its queues ([sleepq_ac_len] is the number of
    frames of delivery enabled categories), frames are in the queue of their
    category. *)
Record sta_ok (i : nat) (s : psta) : Prop := {
  so_len : sleepq_len s = zlen (sleepq s);
  so_ac : sleepq_ac_len s = zlen (filter (fun f => wmmps_ac s (x_prio f) 1 = true) (sleepq s));
  so_mlen : mgmt_sleepq_len s = zlen (mgmt_sleepq s);
  so_uapsd : Forall (fun u => u = 0 \/ u = 3) (uapsd s);
  so_cnt : qcnt s = map zlen (servq s);
  so_five : length (servq s) = 5%nat;
  so_place : forall k f, (k < 4)%nat -> f ∈ nq s k -> rtw_get_sta_pending (x_prio f) = k;
  so_frames : Forall (frame_ok i) (frames s);
  so_dontq : Forall (fun f => x_dontq f = false) (mgmt_sleepq s ++ nq s 4);
  so_asoc : frames s <> [] -> asoc s = true;
  so_bmc : bmc = Some i -> Forall (fun u => u = 0) (uapsd s) /\ p_aid s = 0
}.

(** The stations linked in a hardware queue are those with frames for it;
    [ex i k] exempts a queue that is being emptied. *)
Definition linked_but (ex : nat -> nat -> Prop) (st : ps) : Prop :=
  length (hwq st) = 5%nat /\
  forall k l, hwq st !! k = Some l -> NoDup l /\
    forall i, ~ ex i k -> i ∈ l <-> exists s, stas st !! i = Some s /\ nq s k <> [].
Definition counted (st : ps) : Prop :=
  length (accnt st) = 5%nat /\
  forall k n, accnt st !! k = Some n -> n = zsum (fun s => zlen (nq s k)) (stas st).
Definition maps_ok (st : ps) : Prop :=
  bytes_ok (dz st) /\ bytes_ok (tim st) /\ zlen (dz st) = zlen (tim st) /\ 1 <= zlen (tim st) <= 32 /\
  forall i s, stas st !! i = Some s -> 0 <= p_aid s < 8 * zlen (tim st).

(** Associated stations have their own identifiers. *)
Definition aids_ok (st : ps) : Prop := forall i j s s', stas st !! i = Some s -> stas st !! j = Some s' ->
  asoc s = true -> asoc s' = true -> p_aid s = p_aid s' -> i = j.

(** The station must learn of a buffered data frame from the beacon: any frame for the
    group, and for a station those of the legacy categories, or all of them when
    every category is delivery enabled.  Management frames ([mgmt_sleepq]) are not
    meant: the code does not keep them announced. *)
Definition must_announce (i : nat) (s : psta) : Prop :=
  exists f, f ∈ sleepq s /\ (bmc = Some i \/ wmmps_ac s (x_prio f) 1 = negb (has_legacy_ac s)).
Definition announced (st : ps) : Prop := forall i s, stas st !! i = Some s -> must_announce i s -> aid_in (tim st) (p_aid s) = true.

Record ps_inv_but (ex : nat -> nat -> Prop) (st : ps) : Prop := {
  pi_sta : forall i s, stas st !! i = Some s -> sta_ok i s;
  pi_link : linked_but ex st;
  pi_cnt : counted st;
  pi_maps : maps_ok st;
  pi_aids : aids_ok st;
  pi_tim : announced st
}.
Definition nowhere (i k : nat) : Prop := False.
Definition ps_inv : ps -> Prop := ps_inv_but nowhere.

Implicit Types (ex : nat -> nat -> Prop) (st : ps) (s : psta) (f : xframe).

Lemma wmm_bits s p : Forall (fun u => u = 0 \/ u = 3) (uapsd s) -> wmmps_ac s p 0 = wmmps_ac s p 1.
Proof.
  intros U. unfold wmmps_ac. destruct (uapsd s !! rtw_get_sta_pending p) as [u|] eqn:E; [|done].
  eapply Forall_lookup in U; [|exact E]. simpl. by destruct U as [->| ->].
Qed.

Lemma pending_lt p : (rtw_get_sta_pending p < 4)%nat.
Proof. unfold rtw_get_sta_pending. repeat case_match; lia. Qed.

Lemma must_sub i s s' : (forall f, f ∈ sleepq s' -> f ∈ sleepq s) -> uapsd s' = uapsd s -> has_legacy_ac s' = has_legacy_ac s ->
  must_announce i s' -> must_announce i s.
Proof.
  intros Q U L (f & Hf & C). exists f. split; [by apply Q|]. unfold wmmps_ac in *. by rewrite <- U, <- L.
Qed.

(** A change of a station that leaves its send queues alone, with new bits of the
    traffic map. *)
Lemma put_tim_inv ex st i s s' t : ps_inv_but ex st -> stas st !! i = Some s -> sta_ok i s' -> servq s' = servq s -> p_aid s' = p_aid s ->
  asoc s' = asoc s -> bytes_ok t -> zlen t = zlen (tim st) -> (forall id, 0 <= id -> aid_in (tim st) id = true -> aid_in t id = true) ->
  (must_announce i s' -> aid_in t (p_aid s) = true) -> ps_inv_but ex (set_tim t (put i s' st)).
Proof.
  intros [S L C M D T] H O Q A As Bt Zt Gt Mt.
  assert (forall j x', stas (put i s' st) !! j = Some x' -> exists x, stas st !! j = Some x /\ servq x' = servq x /\ p_aid x' = p_aid x /\
    asoc x' = asoc x /\ sta_ok j x' /\ (must_announce j x' -> aid_in t (p_aid x) = true)) as B1.
  { intros j x' Hj. unfold put in Hj. cbn [stas set_stas] in Hj. destruct (decide (j = i)) as [->|N].
    - rewrite list_lookup_insert_eq in Hj by (by eapply lookup_lt_Some). simplify_eq. by exists s.
    - rewrite list_lookup_insert_ne in Hj by done. exists x'. do 4 (split; [done|]). split; [by apply S|]. intros Hm. apply Gt; [|by eapply T].
      destruct M as (_ & _ & _ & _ & M5). specialize (M5 j x' Hj). lia. }
  assert (forall j x, stas st !! j = Some x -> exists x', stas (put i s' st) !! j = Some x' /\ servq x' = servq x) as B2.
  { intros j x Hj. unfold put. cbn [stas set_stas]. destruct (decide (j = i)) as [->|N].
    - exists s'. rewrite list_lookup_insert_eq by (by eapply lookup_lt_Some). by simplify_eq.
    - exists x. by rewrite list_lookup_insert_ne by done. }
  constructor.
  - intros j x' Hj. by destruct (B1 j x' Hj) as (x & _ & _ & _ & _ & ? & _).
  - destruct L as [L5 L]. split; [done|]. intros k l Hk. destruct (L k l Hk) as [Nd I]. split; [done|].
    intros j Hj. rewrite (I j Hj). unfold nq. split; intros (x & Hx & E).
    + destruct (B2 j x Hx) as (x' & ? & Qx). exists x'. by rewrite Qx.
    + destruct (B1 j x Hx) as (x' & ? & Qx & _). exists x'. by rewrite <- Qx.
  - destruct C as [C5 C]. split; [done|]. intros k n Hk. rewrite (C k n Hk). unfold put. cbn [stas set_stas set_tim].
    rewrite (zsum_insert _ _ _ s) by done. unfold nq. rewrite Q. lia.
  - destruct M as (M1 & M2 & M3 & M4 & M5). unfold maps_ok. cbn [tim set_tim dz]. rewrite Zt. do 4 (split; [done|]). intros j x' Hj.
    destruct (B1 j x' Hj) as (x & ? & _ & -> & _). by eapply M5.
  - intros j j' x x' Hj Hj'. destruct (B1 j x Hj) as (y & ? & _ & -> & -> & _). destruct (B1 j' x' Hj') as (y' & ? & _ & -> & -> & _).
    by eapply D.
  - intros j x Hj Hm. destruct (B1 j x Hj) as (y & ? & _ & -> & _ & _ & Hy). by apply Hy.
Qed.
Lemma put_inv ex st i s s' : ps_inv_but ex st -> stas st !! i = Some s -> sta_ok i s' -> servq s' = servq s -> p_aid s' = p_aid s ->
  asoc s' = asoc s -> (must_announce i s' -> must_announce i s) -> ps_inv_but ex (put i s' st).
Proof.
  intros I H O Q A As Mt. destruct (pi_maps ex st I) as (_ & M2 & _). apply (put_tim_inv ex st i s s' (tim st)); try done.
  intros Hm. by apply (pi_tim ex st I i s), Mt.
Qed.

(** Changes of the bitmaps. *)
Lemma set_tim_inv ex st t : ps_inv_but ex st -> bytes_ok t -> zlen t = zlen (tim st) ->
  (forall i s, stas st !! i = Some s -> must_announce i s -> aid_in (tim st) (p_aid s) = true -> aid_in t (p_aid s) = true) ->
  ps_inv_but ex (set_tim t st).
Proof.
  intros [S L C (M1 & M2 & M3 & M4 & M5) D T] B E G. constructor; try done.
  - unfold maps_ok. simpl. by rewrite E.
  - intros i s H Hm. apply (G i); [done|done|by eapply T].
Qed.
Lemma set_dz_inv ex st t : ps_inv_but ex st -> bytes_ok t -> zlen t = zlen (dz st) -> ps_inv_but ex (set_dz t st).
Proof. intros [S L C (M1 & M2 & M3 & M4 & M5) D T] B E. constructor; try done. unfold maps_ok. simpl. by rewrite E. Qed.

(** A bit may be cleared when its station need not be told of anything. *)
Lemma must_asoc ex st i s : ps_inv_but ex st -> stas st !! i = Some s -> must_announce i s -> asoc s = true.
Proof.
  intros I H (f & Hf & _). apply (so_asoc i s (pi_sta ex st I i s H)). unfold frames. intros E. apply app_nil in E as [E _].
  rewrite E in Hf. by apply elem_of_nil in Hf.
Qed.
Lemma clear_tim_inv ex st i s : ps_inv_but ex st -> stas st !! i = Some s -> asoc s = true -> ~ must_announce i s ->
  exists t, tim_map_clear (tim st) (p_aid s) = Ret t /\ ps_inv_but ex (set_tim t st) /\
    forall id, 0 <= id -> aid_in t id = negb (id =? p_aid s) && aid_in (tim st) id.
Proof.
  intros I H As Nm. destruct (pi_maps ex st I) as (M1 & M2 & M3 & M4 & M5). specialize (M5 i s H) as M5i. unfold tim_map_clear.
  rewrite (wrap_small 8) by (unfold fits; lia). destruct (bmp_clear_spec (tim st) (p_aid s) M5i) as (t & E & Z & B & Sp).
  exists t. split; [done|]. split; [|done]. apply set_tim_inv; [done|by apply B|done|]. intros j x Hj Hm Ha.
  specialize (M5 j x Hj). rewrite Sp by lia. rewrite Ha, andb_true_r. apply negb_true_iff, Z.eqb_neq. intros Ea.
  assert (j = i) as -> by (by eapply (pi_aids ex st I j i x s); [..|eapply must_asoc| |]). by simplify_eq.
Qed.
Lemma beacon_inv ex st : ps_inv_but ex st -> ps_inv_but ex (update_beacon_tim st).
Proof. intros [S L C M D T]. by constructor. Qed.

Lemma nq_alter s g k k' c : (k < length (servq s))%nat ->
  nq (set_servq (alter g k (servq s)) c s) k' = if decide (k' = k) then g (nq s k) else nq s k'.
Proof.
  intros H. unfold nq. cbn [servq set_servq]. destruct (decide (k' = k)) as [->|N].
  - rewrite list_lookup_alter_eq. destruct (servq s !! k) eqn:E; [done|]. apply lookup_ge_None in E. lia.
  - by rewrite list_lookup_alter_ne by done.
Qed.
Lemma insert_alter {A} (l : list A) k x : <[k := x]> l = alter (fun _ => x) k l.
Proof. revert k. induction l as [|y l IH]; intros [|k]; [done..|]. cbn. f_equal. apply IH. Qed.

(** A change of one send queue, with the list and the count of its category. *)
Lemma servq_inv ex ex' st i k s s' (g : list nat -> list nat) (d : Z) :
  ps_inv_but ex st -> stas st !! i = Some s -> sta_ok i s' -> p_aid s' = p_aid s -> asoc s' = asoc s ->
  (must_announce i s' -> must_announce i s) ->
  (forall k', k' <> k -> nq s' k' = nq s k') -> d = zlen (nq s' k) - zlen (nq s k) ->
  (forall l, NoDup l -> NoDup (g l)) -> (forall l j, j <> i -> j ∈ g l <-> j ∈ l) ->
  (forall j k', ex j k' -> (j, k') <> (i, k) -> ex' j k') ->
  (~ ex' i k -> forall l, (~ ex i k -> i ∈ l <-> nq s k <> []) -> i ∈ g l <-> nq s' k <> []) ->
  ps_inv_but ex' (set_hwq (alter g k (hwq st)) (alter (fun n => n + d) k (accnt st)) (put i s' st)).
Proof.
  intros [S L C M Da T] H O A As Mt Nq D G1 G2 X G3. pose proof (lookup_lt_Some _ _ _ H) as Lt.
  constructor.
  - intros j x. cbn [stas set_hwq put set_stas]. destruct (decide (j = i)) as [->|N].
    + rewrite list_lookup_insert_eq by done. intros [= <-]. done.
    + rewrite list_lookup_insert_ne by done. apply S.
  - destruct L as [L5 L]. split; [cbn [hwq set_hwq]; by rewrite length_alter|]. intros k' l' Hk. cbn [hwq set_hwq] in Hk.
    assert (exists l, hwq st !! k' = Some l /\ l' = if decide (k' = k) then g l else l) as (l & Hl & ->).
    { destruct (decide (k' = k)) as [->|N]; [rewrite list_lookup_alter_eq in Hk|rewrite list_lookup_alter_ne in Hk by done];
        destruct (hwq st !! _) as [l|]; simpl in Hk; simplify_eq; by eexists. }
    destruct (L k' l Hl) as [Nd I]. split; [destruct (decide (k' = k)); [by apply G1|done]|].
    intros j Hj. cbn [stas set_hwq put set_stas]. destruct (decide (j = i)) as [->|Ni].
    + rewrite list_lookup_insert_eq by done. destruct (decide (k' = k)) as [->|Nk].
      * rewrite G3; [|done|]. { split; [intros; by exists s'|]. by intros (x & [= <-] & ?). }
        intros Hx. rewrite (I i Hx). split; [intros (x & Hx' & E); by simplify_eq|intros; by exists s].
      * rewrite I by (intros E; apply Hj, X; [done|congruence]).
        split; intros (x & Hx & E); simplify_eq; [exists s'|exists s]; by rewrite Nq in * by done.
    + rewrite list_lookup_insert_ne by done.
      rewrite <- (I j) by (intros E; apply Hj, X; [done|congruence]). destruct (decide (k' = k)); [by apply G2|done].
  - destruct C as [C5 C]. split; [cbn [accnt set_hwq]; by rewrite length_alter|]. intros k' n Hk. cbn [accnt set_hwq] in Hk.
    cbn [stas set_hwq put set_stas]. rewrite (zsum_insert _ _ _ s) by done. destruct (decide (k' = k)) as [->|N].
    + rewrite list_lookup_alter_eq in Hk. destruct (accnt st !! k) as [m|] eqn:E; simpl in Hk; simplify_eq.
      rewrite (C k m E). lia.
    + rewrite list_lookup_alter_ne in Hk by done. rewrite (C k' n Hk), Nq by done. lia.
  - destruct M as (M1 & M2 & M3 & M4 & M5). do 4 (split; [done|]). intros j x. cbn [stas set_hwq put set_stas tim].
    destruct (decide (j = i)) as [->|N].
    + rewrite list_lookup_insert_eq by done. intros [= <-]. rewrite A. by eapply M5.
    + rewrite list_lookup_insert_ne by done. apply M5.
  - assert (forall j x, <[i := s']> (stas st) !! j = Some x -> exists y, stas st !! j = Some y /\ asoc x = asoc y /\ p_aid x = p_aid y) as B.
    { intros j x. destruct (decide (j = i)) as [->|N]; [rewrite list_lookup_insert_eq by done|rewrite list_lookup_insert_ne by done].
      - intros [= <-]. by exists s.
      - intros ?. by exists x. }
    intros j j' x x' Hj Hj'. destruct (B j x Hj) as (y & ? & -> & ->). destruct (B j' x' Hj') as (y' & ? & -> & ->). by eapply Da.
  - intros j x. cbn [stas set_hwq put set_stas tim]. destruct (decide (j = i)) as [->|N].
    + rewrite list_lookup_insert_eq by done. intros [= <-] Hm. rewrite A. by apply (T i s), Mt.
    + rewrite list_lookup_insert_ne by done. apply T.
Qed.

Lemma link_nodup i l : NoDup l -> NoDup (link i l).
Proof.
  intros H. unfold link. case_bool_decide; [done|]. apply NoDup_app. split; [done|]. split; [|apply NoDup_singleton].
  intros x Hx Hi. apply list_elem_of_singleton in Hi as ->. done.
Qed.
Lemma link_elem i j l : j ∈ link i l <-> j = i \/ j ∈ l.
Proof.
  unfold link. case_bool_decide.
  - split; [by right|]. by intros [->|].
  - rewrite elem_of_app, list_elem_of_singleton. tauto.
Qed.
Lemma unlink_nodup i l : NoDup l -> NoDup (unlink i l).
Proof. apply NoDup_filter. Qed.
Lemma unlink_elem i j l : j ∈ unlink i l <-> j <> i /\ j ∈ l.
Proof. unfold unlink. by rewrite list_elem_of_filter. Qed.

Lemma alter_to_insert {A} (g : A -> A) (l : list A) k x : l !! k = Some x -> alter g k l = <[k := g x]> l.
Proof. revert k. induction l as [|y l IH]; intros [|k] H; simplify_eq/=; [done|]. f_equal. by apply IH. Qed.

Lemma nq_lookup i s k : sta_ok i s -> (k < 5)%nat -> servq s !! k = Some (nq s k) /\ qcnt s !! k = Some (zlen (nq s k)).
Proof.
  intros O Hk. destruct (lookup_lt_is_Some_2 (servq s) k) as [q E]; [by rewrite (so_five i s O)|].
  unfold nq. rewrite E. split; [done|]. rewrite (so_cnt i s O), list_lookup_fmap, E. done.
Qed.

Lemma elem_frames f s : f ∈ frames s <-> f ∈ sleepq s \/ f ∈ mgmt_sleepq s \/ exists k, f ∈ nq s k.
Proof.
  unfold frames. rewrite !elem_of_app, (list_elem_of_In (concat _)), in_concat. do 2 apply or_iff_compat_l. split.
  - intros (q & Q & I). apply list_elem_of_In in Q, I. apply list_elem_of_lookup in Q as [k E]. exists k. unfold nq. by rewrite E.
  - intros (k & I). unfold nq in I. destruct (servq s !! k) as [q|] eqn:E; [|by apply elem_of_nil in I].
    exists q. split; apply list_elem_of_In; [by eapply list_elem_of_lookup_2|done].
Qed.

(** Replacing one send queue of a station. *)
Definition set_queue (k : nat) (q : list xframe) (s : psta) : psta :=
  set_servq (<[k := q]> (servq s)) (<[k := zlen q]> (qcnt s)) s.

Lemma nq_set_queue_lt s k k' q : (k < length (servq s))%nat -> nq (set_queue k q s) k' = if decide (k' = k) then q else nq s k'.
Proof. intros H. unfold set_queue. rewrite insert_alter. by rewrite nq_alter. Qed.
Lemma nq_set_queue i s k k' q : sta_ok i s -> (k < 5)%nat -> nq (set_queue k q s) k' = if decide (k' = k) then q else nq s k'.
Proof.
  intros O Hk. apply nq_set_queue_lt. by rewrite (so_five i s O).
Qed.

Lemma set_queue_ok i s k q : sta_ok i s -> (k < 5)%nat ->
  Forall (frame_ok i) q -> (forall f, (k < 4)%nat -> f ∈ q -> rtw_get_sta_pending (x_prio f) = k) ->
  (k = 4%nat -> Forall (fun f => x_dontq f = false) q) -> (q <> [] -> asoc s = true) ->
  sta_ok i (set_queue k q s).
Proof.
  intros O Hk Fq Pq Dq Aq. pose proof (nq_set_queue i s k) as N. destruct (O) as [O1 O2 O3 O4 O5 O6 O7 O8 O9 O10 O11].
  constructor; try done.
  - unfold set_queue. cbn [qcnt servq set_servq]. rewrite O5. by rewrite list_fmap_insert.
  - unfold set_queue. cbn [servq set_servq]. by rewrite length_insert.
  - intros k' f Hk' Hf. rewrite N in Hf by done. destruct (decide (k' = k)) as [->|]; [by apply Pq|by apply O7].
  - apply Forall_forall. intros f Hf. apply elem_frames in Hf as [Hf|[Hf|[k' Hf]]].
    + eapply Forall_forall in O8; [done|]. apply elem_frames. by left.
    + eapply Forall_forall in O8; [done|]. apply elem_frames. by right; left.
    + rewrite N in Hf by done. destruct (decide (k' = k)); [by eapply Forall_forall in Fq|].
      eapply Forall_forall in O8; [done|]. apply elem_frames. right; right. by exists k'.
  - rewrite N by done. change (mgmt_sleepq (set_queue k q s)) with (mgmt_sleepq s). apply Forall_app in O9 as [O9 O9'].
    apply Forall_app. split; [done|]. destruct (decide (4%nat = k)) as [<-|]; [by apply Dq|done].
  - intros Hf. change (asoc (set_queue k q s)) with (asoc s). destruct (decide (q = [])) as [->|]; [|by apply Aq].
    apply O10. intros E. apply Hf. unfold frames in *. cbn [sleepq mgmt_sleepq set_queue set_servq servq].
    apply app_nil in E as [-> E]. apply app_nil in E as [-> E]. simpl.
    rewrite insert_take_drop by lia. rewrite concat_app. cbn [concat].
    rewrite <- (take_drop k (servq s)) in E. rewrite concat_app in E. apply app_nil in E as [-> E].
    rewrite (drop_S _ (nq s k)) in E by (by apply (nq_lookup i)). simpl in E. by apply app_nil in E as [_ ->].
Qed.

Lemma concat_insert_perm (q : list (list xframe)) k x x' a b : q !! k = Some x ->
  x' ++ a ≡ₚ x ++ b -> concat (<[k := x']> q) ++ a ≡ₚ concat q ++ b.
Proof.
  intros H P. pose proof (lookup_lt_Some _ _ _ H). rewrite insert_take_drop by done.
  rewrite <- (take_drop_middle q k x H) at 3. rewrite !concat_app. cbn [concat]. rewrite <- !app_assoc.
  apply Permutation_app_head.
  rewrite (Permutation_app_comm x'), (Permutation_app_comm x), <- !app_assoc. apply Permutation_app_head.
  by rewrite (Permutation_app_comm a), (Permutation_app_comm b).
Qed.

Lemma frames_set_queue i s k q a b : sta_ok i s -> (k < 5)%nat -> q ++ a ≡ₚ nq s k ++ b ->
  frames (set_queue k q s) ++ a ≡ₚ frames s ++ b.
Proof.
  intros O Hk P. unfold frames, set_queue. cbn [sleepq mgmt_sleepq servq set_servq]. rewrite <- !app_assoc.
  do 2 apply Permutation_app_head. eapply concat_insert_perm; [by apply (nq_lookup i)|done].
Qed.

(** ** Queueing a frame for the hardware *)

Definition pushed (i k : nat) (f : xframe) (s : psta) (st : ps) : ps :=
  set_hwq (alter (link i) k (hwq st)) (alter (Z.add 1) k (accnt st)) (put i (set_queue k (nq s k ++ [f]) s) st).

Lemma alter_add_comm k (l : list Z) d : alter (Z.add d) k l = alter (fun n => n + d) k l.
Proof. apply list_alter_ext; [|done]. intros. lia. Qed.

Lemma push_servq_ok ex st i k f s : ps_inv_but ex st -> stas st !! i = Some s -> (k < 5)%nat ->
  frame_ok i f -> asoc s = true -> ((k < 4)%nat -> rtw_get_sta_pending (x_prio f) = k) -> (k = 4%nat -> x_dontq f = false) ->
  push_servq st i k f = Ret (pushed i k f s st) /\ ps_inv_but ex (pushed i k f s st) /\
  ids (pushed i k f s st) ≡ₚ ids st ++ [x_id f].
Proof.
  intros I H Hk Fo As Pl Dq. pose proof (pi_sta ex st I i s H) as O. destruct (nq_lookup i s k O Hk) as [E1 E2].
  assert (sta_ok i (set_queue k (nq s k ++ [f]) s)) as O'.
  { apply set_queue_ok; try done.
    - apply Forall_app. split; [|by constructor]. apply Forall_forall. intros x Hx.
      eapply Forall_forall; [apply (so_frames i s O)|]. apply elem_frames. right; right. by exists k.
    - intros x Hk4 Hx. apply elem_of_app in Hx as [Hx|Hx]; [by apply (so_place i s O)|].
      apply list_elem_of_singleton in Hx as ->. by apply Pl.
    - intros ->. apply Forall_app. pose proof (so_dontq i s O) as [_ ?]%Forall_app. split; [done|]. constructor; [by apply Dq|done]. }
  split; [|split].
  - unfold push_servq, get. rewrite H. simp_res. unfold pushed, set_queue.
    rewrite (alter_to_insert _ (servq s) k _ E1), (alter_to_insert _ (qcnt s) k _ E2).
    do 5 f_equal. rewrite zlen_app, zlen_cons, zlen_nil. lia.
  - unfold pushed. rewrite alter_add_comm. apply (servq_inv ex ex st i k s); try done.
    + intros k' N. rewrite (nq_set_queue i) by done. by rewrite decide_False.
    + rewrite (nq_set_queue i) by done. rewrite decide_True by done. zlen_lia.
    + apply link_nodup.
    + intros l j N. rewrite link_elem. tauto.
    + intros _ l _. rewrite link_elem, (nq_set_queue i) by done. rewrite decide_True by done.
      split; [intros _ E; by apply app_nil in E as [_ ?]|by left].
  - change (ids (pushed i k f s st)) with (ids (put i (set_queue k (nq s k ++ [f]) s) st)).
    apply (ids_put_add st i s _ [f] H). pose proof (frames_set_queue i s k (nq s k ++ [f]) [] [f] O Hk) as P. rewrite !app_nil_r in P. by apply P.
Qed.

Lemma hal_enqueue_ok ex st i f s : ps_inv_but ex st -> stas st !! i = Some s -> frame_ok i f -> asoc s = true ->
  let st' := pushed i (rtw_get_sta_pending (x_prio f)) f s st in
  rtw_hal_xmitframe_enqueue get_sta st f = Ret st' /\ ps_inv_but ex st' /\ ids st' ≡ₚ ids st ++ [x_id f].
Proof.
  intros I H Fo As st'. pose proof (pending_lt (x_prio f)).
  destruct (push_servq_ok ex st i (rtw_get_sta_pending (x_prio f)) f s I H) as (E & ? & ?); [lia|done..|lia|].
  split; [|done]. destruct Fo as (F1 & F2 & _). unfold rtw_hal_xmitframe_enqueue, rtw_xmit_classifier, frame_sta.
  rewrite F2, F1, bool_decide_true by done. unfold get at 1. rewrite H. simp_res. rewrite As. simp_res. rewrite E. done.
Qed.

Lemma hal_mgmt_enqueue_ok ex st i f s : ps_inv_but ex st -> stas st !! i = Some s -> frame_ok i f -> asoc s = true ->
  x_dontq f = false ->
  let st' := pushed i 4 f s st in
  rtw_hal_mgmt_xmitframe_enqueue get_sta st f = Ret st' /\ ps_inv_but ex st' /\ ids st' ≡ₚ ids st ++ [x_id f].
Proof.
  intros I H Fo As Dq st'. destruct (push_servq_ok ex st i 4 f s I H) as (E & ? & ?); [lia|done..|lia|done|].
  split; [|done]. destruct Fo as (F1 & F2 & _). unfold rtw_hal_mgmt_xmitframe_enqueue, rtw_mgmt_xmitframe_enqueue, frame_sta.
  rewrite F2, F1, bool_decide_true by done. unfold get at 1. rewrite H. simp_res. rewrite As. simp_res. rewrite E. done.
Qed.

(** ** Taking frames out of the buffers *)

Definition wmm_count (s : psta) (q : list xframe) : Z := zlen (filter (fun f => wmmps_ac s (x_prio f) 1 = true) q).

Lemma wmm_count_cons s f q : wmm_count s (f :: q) = (if wmmps_ac s (x_prio f) 1 then 1 else 0) + wmm_count s q.
Proof.
  unfold wmm_count. rewrite filter_cons. destruct (wmmps_ac s (x_prio f) 1); [rewrite decide_True by done|rewrite decide_False by done]; [|lia].
  by rewrite zlen_cons.
Qed.
Lemma wmm_count_app s q1 q2 : wmm_count s (q1 ++ q2) = wmm_count s q1 + wmm_count s q2.
Proof. unfold wmm_count. by rewrite filter_app, zlen_app. Qed.
Lemma wmm_count_le s q : 0 <= wmm_count s q <= zlen q.
Proof.
  induction q as [|f q IH]; [done|]. rewrite wmm_count_cons, zlen_cons. destruct (wmmps_ac s (x_prio f) 1); lia.
Qed.

Lemma wmm_count_0 s q f : wmm_count s q = 0 -> f ∈ q -> wmmps_ac s (x_prio f) 1 <> true.
Proof.
  intros C Hf W. apply list_elem_of_split in Hf as (q1 & q2 & ->). rewrite wmm_count_app, wmm_count_cons, W in C.
  pose proof (wmm_count_le s q1). pose proof (wmm_count_le s q2). lia.
Qed.

(** A new content of [sleep_q], with its counts. *)
Definition set_sleep (q : list xframe) (s : psta) : psta := set_sleepq q (zlen q) (wmm_count s q) s.

Lemma set_sleep_ok i s q : sta_ok i s -> Forall (frame_ok i) q -> (q <> [] -> asoc s = true) -> sta_ok i (set_sleep q s).
Proof.
  intros [O1 O2 O3 O4 O5 O6 O7 O8 O9 O10 O11] Fq Aq. constructor; try done.
  - unfold frames in *. simpl. apply Forall_app in O8 as [_ O8]. by apply Forall_app.
  - intros N. change (asoc (set_sleep q s)) with (asoc s). destruct (decide (q = [])) as [->|]; [|by apply Aq].
    apply O10. unfold frames in *. simpl in N. intros E. apply N. by apply app_nil in E as [_ ->].
Qed.
Lemma frames_set_sleep s q a b : q ++ a ≡ₚ sleepq s ++ b -> frames (set_sleep q s) ++ a ≡ₚ frames s ++ b.
Proof.
  intros P. unfold frames, set_sleep. cbn [sleepq mgmt_sleepq servq set_sleepq].
  rewrite (Permutation_app_comm q), (Permutation_app_comm (sleepq s)), <- !app_assoc. do 2 apply Permutation_app_head. done.
Qed.

Definition set_mgmt_sleep (q : list xframe) (s : psta) : psta := set_mgmt q (zlen q) s.

Lemma set_mgmt_sleep_ok i s q : sta_ok i s -> Forall (frame_ok i) q -> Forall (fun f => x_dontq f = false) q ->
  (q <> [] -> asoc s = true) -> sta_ok i (set_mgmt_sleep q s).
Proof.
  intros [O1 O2 O3 O4 O5 O6 O7 O8 O9 O10 O11] Fq Dq Aq. constructor; try done.
  - unfold frames in *. simpl. rewrite !Forall_app in *. tauto.
  - simpl. rewrite Forall_app in *. tauto.
  - intros N. change (asoc (set_mgmt_sleep q s)) with (asoc s). destruct (decide (q = [])) as [->|]; [|by apply Aq].
    apply O10. unfold frames in *. simpl in N. intros E. apply N. by apply app_nil in E as [-> [_ ->]%app_nil].
Qed.
Lemma frames_set_mgmt_sleep s q a b : q ++ a ≡ₚ mgmt_sleepq s ++ b -> frames (set_mgmt_sleep q s) ++ a ≡ₚ frames s ++ b.
Proof.
  intros P. unfold frames, set_mgmt_sleep. cbn [sleepq mgmt_sleepq servq set_mgmt]. rewrite <- !app_assoc.
  apply Permutation_app_head.
  rewrite (Permutation_app_comm (concat _) a), (Permutation_app_comm (concat _) b), !app_assoc. by apply Permutation_app_tail.
Qed.

(** The frame as it is sent: flags may change. *)
Definition same_frame (f f' : xframe) : Prop :=
  x_id f' = x_id f /\ x_ra f' = x_ra f /\ x_sta f' = x_sta f /\ x_prio f' = x_prio f /\ x_dontq f' = x_dontq f.

Lemma same_frame_ok i f f' : same_frame f f' -> frame_ok i f -> frame_ok i f'.
Proof. intros (_ & E1 & E2 & _ & _) (F1 & F2 & F3). unfold frame_ok. by rewrite E1, E2. Qed.

(** Everything but station [i] and the hardware queues is as before. *)
Definition others (i : nat) (st st' : ps) : Prop :=
  dz st' = dz st /\ tim st' = tim st /\ dropped st' = dropped st /\ forall j, j <> i -> stas st' !! j = stas st !! j.
Lemma others_refl i st : others i st st.
Proof. by repeat split. Qed.
Lemma others_trans i a b c : others i a b -> others i b c -> others i a c.
Proof.
  intros (E1 & E2 & E3 & E4) (F1 & F2 & F3 & F4). split; [by rewrite F1|]. split; [by rewrite F2|]. split; [by rewrite F3|].
  intros j N. by rewrite F4, E4.
Qed.
Lemma others_pushed i k f s s1 st : others i st (pushed i k f s (put i s1 st)).
Proof.
  split; [done|]. split; [done|]. split; [done|]. intros j N. unfold pushed, put. cbn [stas set_hwq set_stas].
  by rewrite !list_lookup_insert_ne by done.
Qed.

(** One step of the delivery loops: a frame leaves [sleep_q] and is queued for
    the hardware. *)
Lemma take_step ex st i s pre f q f' : ps_inv_but ex st -> stas st !! i = Some s -> sleepq s = pre ++ f :: q -> same_frame f f' ->
  let s1 := set_sleep (pre ++ q) s in
  let s2 := set_queue (rtw_get_sta_pending (x_prio f)) (nq s (rtw_get_sta_pending (x_prio f)) ++ [f']) s1 in
  exists st', rtw_hal_xmitframe_enqueue get_sta (put i s1 st) f' = Ret st' /\ ps_inv_but ex st' /\ ids st' ≡ₚ ids st /\
    others i st st' /\ stas st' !! i = Some s2.
Proof.
  intros I H Q Sf s1 s2. pose proof (pi_sta ex st I i s H) as O.
  assert (Forall (frame_ok i) (pre ++ f :: q)) as Fa.
  { rewrite <- Q. pose proof (so_frames i s O) as Fr. unfold frames in Fr. by apply Forall_app in Fr as [? _]. }
  assert (asoc s = true) as As by (apply (so_asoc i s O); unfold frames; rewrite Q; by destruct pre).
  assert (Forall (frame_ok i) (pre ++ q)) as Fq.
  { apply Forall_app in Fa as [? Fa]. inversion_clear Fa. by apply Forall_app. }
  assert (frame_ok i f) as Ff by (apply Forall_app in Fa as [_ Fa]; by inversion_clear Fa).
  assert (sta_ok i s1) as O1 by (by apply set_sleep_ok).
  assert (must_announce i s1 -> must_announce i s) as Ms.
  { apply must_sub; [|done|done]. cbn [sleepq s1 set_sleep set_sleepq]. rewrite Q. intros x. rewrite !elem_of_app, elem_of_cons. tauto. }
  pose proof (put_inv ex st i s s1 I H O1 eq_refl eq_refl eq_refl Ms) as I1.
  assert (stas (put i s1 st) !! i = Some s1) as H1.
  { unfold put. cbn [stas set_stas]. rewrite list_lookup_insert_eq; [done|]. by eapply lookup_lt_Some. }
  destruct (hal_enqueue_ok ex (put i s1 st) i f' s1 I1 H1) as (E & I2 & P2); [by eapply same_frame_ok|done|].
  eexists. split; [exact E|]. split; [done|]. split; [|split].
  - rewrite P2. destruct Sf as (-> & _). apply (ids_put_sub st i s s1 [f] H).
    pose proof (frames_set_sleep s (pre ++ q) [f] []) as Pf. rewrite !app_nil_r in Pf. apply Pf. rewrite Q, <- app_assoc.
    apply Permutation_app_head. by rewrite Permutation_app_comm.
  - apply others_pushed.
  - unfold pushed, put. cbn [stas set_hwq set_stas]. rewrite list_lookup_insert_eq
      by (rewrite length_insert; by eapply lookup_lt_Some). destruct Sf as (_ & _ & _ & -> & _). done.
Qed.

(** What does not change while frames move. *)
Definition same_sta (s s' : psta) : Prop :=
  p_aid s' = p_aid s /\ p_state s' = p_state s /\ uapsd s' = uapsd s /\ has_legacy_ac s' = has_legacy_ac s /\
  qos_option s' = qos_option s /\ qos_info s' = qos_info s.
Lemma same_sta_refl s : same_sta s s.
Proof. by repeat split. Qed.
Lemma same_sta_trans a b c : same_sta a b -> same_sta b c -> same_sta a c.
Proof. intros (?&?&?&?&?&?) (?&?&?&?&?&?). repeat split; congruence. Qed.
Lemma wmm_same s s' p b : same_sta s s' -> wmmps_ac s' p b = wmmps_ac s p b.
Proof. intros (_&_&E&_). unfold wmmps_ac. by rewrite E. Qed.

(** The frames of a station as they are sent when it wakes up: more data follow
    unless it is the last one, for frames of delivery enabled categories the last
    one of those, which ends the service period. *)
Definition mark (s : psta) (f : xframe) (q : list xframe) : xframe :=
  let f := set_mdata (0 <? zlen q) f in
  let f := if wmmps_ac s (x_prio f) 1
           then set_eosp (negb (0 <? wmm_count s q)) (set_mdata (0 <? wmm_count s q) f) else f in
  set_trig true f.
Fixpoint marks (s : psta) (q : list xframe) : list xframe :=
  match q with [] => [] | f :: q => mark s f q :: marks s q end.

Lemma mark_same s f q : same_frame f (mark s f q).
Proof. unfold mark. cbn [x_prio set_mdata]. by destruct (wmmps_ac s (x_prio f) 1). Qed.
Lemma marks_same s s' q : same_sta s s' -> marks s' q = marks s q.
Proof.
  intros E. induction q as [|f q IH]; [done|]. cbn [marks]. rewrite IH. f_equal. unfold mark, wmm_count.
  rewrite (wmm_same s s') by done. assert (forall l, filter (fun f => wmmps_ac s' (x_prio f) 1 = true) l = filter (fun f => wmmps_ac s (x_prio f) 1 = true) l) as ->; [|done].
  intros l. apply list_filter_iff. intros x. by rewrite (wmm_same s s').
Qed.

(** The queue of a category gets the frames of that category, in order. *)
Definition of_ac (k : nat) (q : list xframe) : list xframe := filter (fun f => rtw_get_sta_pending (x_prio f) = k) q.

Lemma wake_ac_ok ex i q : forall st s, ps_inv_but ex st -> stas st !! i = Some s -> sleepq s = q -> zlen q < 2 ^ 32 ->
  exists st' s', wake_ac get_sta st i q = Ret st' /\ ps_inv_but ex st' /\ ids st' ≡ₚ ids st /\ others i st st' /\
    stas st' !! i = Some s' /\ sleepq s' = [] /\ mgmt_sleepq s' = mgmt_sleepq s /\ same_sta s s' /\
    forall k, nq s' k = nq s k ++ of_ac k (marks s q).
Proof.
  induction q as [|f q IH]; intros st s I H Q L; cbn [wake_ac].
  { exists st, s. do 3 (split; [done|]). split; [apply others_refl|]. do 3 (split; [done|]). split; [apply same_sta_refl|].
    intros k. by rewrite app_nil_r. }
  pose proof (pi_sta ex st I i s H) as O. unfold get at 1. rewrite H. simp_res.
  assert (u32 (sleepq_len s - 1) = zlen q) as En.
  { rewrite (so_len i s O), Q, zlen_cons. rewrite (wrap_small 32) by (unfold fits; zlen_lia). lia. }
  assert ((if wmmps_ac s (x_prio f) 1 then u32 (sleepq_ac_len s - 1) else sleepq_ac_len s) = wmm_count s q) as Ea.
  { rewrite (so_ac i s O), Q. fold (wmm_count s (f :: q)). rewrite wmm_count_cons. pose proof (wmm_count_le s q).
    destruct (wmmps_ac s (x_prio f) 1); [|lia]. rewrite (wrap_small 32) by (unfold fits; zlen_lia). lia. }
  rewrite En, Ea. set (f' := set_trig true _). assert (f' = mark s f q) as ->.
  { unfold f', mark. cbn [x_prio set_mdata]. done. }
  fold (set_sleep q s).
  destruct (take_step ex st i s [] f q (mark s f q) I H Q (mark_same s f q)) as (st1 & E1 & I1 & P1 & T1 & H1).
  cbn [app] in E1, H1. bind_step E1. set (k := rtw_get_sta_pending (x_prio f)) in *.
  set (s1 := set_queue k (nq s k ++ [mark s f q]) (set_sleep q s)) in *.
  destruct (IH st1 s1 I1 H1 eq_refl) as (st' & s' & E' & I' & P' & T' & H' & Q' & M' & S' & N'); [zlen_lia|].
  assert (same_sta s s1) as S1 by (by repeat split).
  exists st', s'. split; [done|]. split; [done|]. split; [by rewrite P'|]. split; [by eapply others_trans|]. split; [done|].
  split; [done|]. split; [done|]. split; [by eapply same_sta_trans|].
  intros k'. rewrite N'. unfold s1 at 1. rewrite nq_set_queue_lt
    by (cbn [servq set_sleep set_sleepq]; rewrite (so_five i s O); unfold k; pose proof (pending_lt (x_prio f)); lia).
  rewrite (marks_same s s1) by done. cbn [marks]. unfold of_ac. rewrite filter_cons.
  destruct (mark_same s f q) as (_ & _ & _ & -> & _). fold k. destruct (decide (k' = k)) as [->|Nk].
  - rewrite decide_True by done. by rewrite <- app_assoc.
  - rewrite decide_False by done. done.
Qed.

Lemma bmc_not_wmm i s p b : sta_ok i s -> bmc = Some i -> wmmps_ac s p b = false.
Proof.
  intros O E. destruct (so_bmc i s O E) as [U _]. unfold wmmps_ac. destruct (uapsd s !! rtw_get_sta_pending p) as [u|] eqn:Eu; [|done].
  eapply Forall_lookup in U; [|exact Eu]. simpl. by rewrite U.
Qed.
Lemma bmc_count i s q : sta_ok i s -> bmc = Some i -> wmm_count s q = 0.
Proof. intros O E. induction q as [|f q IH]; [done|]. rewrite wmm_count_cons, IH, (bmc_not_wmm i) by done. done. Qed.

(** The management frames of a station that wakes up. *)
Lemma wake_mgmt_ok ex i q : forall st s, ps_inv_but ex st -> stas st !! i = Some s -> mgmt_sleepq s = q -> zlen q < 2 ^ 32 ->
  exists st' s', wake_mgmt get_sta st i q = Ret st' /\ ps_inv_but ex st' /\ ids st' ≡ₚ ids st /\ others i st st' /\
    stas st' !! i = Some s' /\ sleepq s' = sleepq s /\ mgmt_sleepq s' = [] /\ same_sta s s' /\
    nq s' 4 = nq s 4 ++ map (set_trig true) q /\ forall k, k <> 4%nat -> nq s' k = nq s k.
Proof.
  induction q as [|f q IH]; intros st s I H Q L; cbn [wake_mgmt].
  { exists st, s. do 3 (split; [done|]). split; [apply others_refl|]. do 3 (split; [done|]). split; [apply same_sta_refl|].
    split; [by rewrite app_nil_r|done]. }
  pose proof (pi_sta ex st I i s H) as O. unfold get at 1. rewrite H. simp_res.
  assert (u32 (mgmt_sleepq_len s - 1) = zlen q) as En.
  { rewrite (so_mlen i s O), Q, zlen_cons. rewrite (wrap_small 32) by (unfold fits; zlen_lia). lia. }
  rewrite En. fold (set_mgmt_sleep q s). set (s1 := set_mgmt_sleep q s).
  pose proof (so_frames i s O) as Fr. unfold frames in Fr. rewrite !Forall_app, Q in Fr. destruct Fr as (_ & Fr & _).
  pose proof (so_dontq i s O) as Dr. rewrite Forall_app, Q in Dr. destruct Dr as (Dr & _).
  inversion Fr as [|? ? F1 F2]. inversion Dr as [|? ? D1 D2]. subst.
  assert (asoc s = true) as As by (apply (so_asoc i s O); unfold frames; rewrite Q; by destruct (sleepq s)).
  assert (sta_ok i s1) as O1 by (by apply set_mgmt_sleep_ok).
  pose proof (put_inv ex st i s s1 I H O1 eq_refl eq_refl eq_refl (fun x => x)) as I1.
  assert (stas (put i s1 st) !! i = Some s1) as H1.
  { unfold put. cbn [stas set_stas]. rewrite list_lookup_insert_eq; [done|]. by eapply lookup_lt_Some. }
  destruct (hal_mgmt_enqueue_ok ex (put i s1 st) i (set_trig true f) s1 I1 H1) as (E & I2 & P2); [done..|]. bind_step E.
  set (st2 := pushed i 4 (set_trig true f) s1 (put i s1 st)) in *. set (s2 := set_queue 4 (nq s1 4 ++ [set_trig true f]) s1).
  assert (stas st2 !! i = Some s2) as H2.
  { unfold st2, pushed, put. cbn [stas set_hwq set_stas]. rewrite list_lookup_insert_eq; [done|].
    rewrite length_insert. by eapply lookup_lt_Some. }
  destruct (IH st2 s2 I2 H2 eq_refl) as (st' & s' & E' & I' & P' & T' & H' & Q' & M' & S' & N4 & N'); [zlen_lia|].
  assert ((4 < length (servq s1))%nat) by (change (servq s1) with (servq s); rewrite (so_five i s O); lia).
  exists st', s'. split; [done|]. split; [done|]. split.
  { rewrite P', P2. apply (ids_put_sub st i s s1 [f] H).
    pose proof (frames_set_mgmt_sleep s q [f] []) as Pf. rewrite !app_nil_r in Pf. apply Pf. rewrite Q. by rewrite Permutation_app_comm. }
  split; [eapply others_trans; [apply others_pushed|done]|]. split; [done|]. split; [done|]. split; [done|].
  split; [by eapply same_sta_trans|]. split.
  - rewrite N4. unfold s2. rewrite nq_set_queue_lt by done. rewrite decide_True by done. by rewrite <- app_assoc.
  - intros k Nk. rewrite N' by done. unfold s2. rewrite nq_set_queue_lt by done. by rewrite decide_False by done.
Qed.

(** The group frames. *)
Lemma wake_bmc_ok ex wifi_spec hiq hi j q : bmc = Some j -> forall st s, ps_inv_but ex st -> stas st !! j = Some s -> sleepq s = q ->
  zlen q < 2 ^ 32 ->
  exists st' s', wake_bmc get_sta wifi_spec hiq hi st j q = Ret st' /\ ps_inv_but ex st' /\ ids st' ≡ₚ ids st /\ others j st st' /\
    stas st' !! j = Some s' /\ sleepq s' = [] /\ same_sta s s'.
Proof.
  intros Bj. induction q as [|f q IH]; intros st s I H Q L; cbn [wake_bmc].
  { exists st, s. do 3 (split; [done|]). split; [apply others_refl|]. by repeat split. }
  pose proof (pi_sta ex st I j s H) as O. unfold get at 1. rewrite H. simp_res.
  assert (u32 (sleepq_len s - 1) = zlen q) as En.
  { rewrite (so_len j s O), Q, zlen_cons. rewrite (wrap_small 32) by (unfold fits; zlen_lia). lia. }
  assert (sleepq_ac_len s = wmm_count s q) as Ea.
  { rewrite (so_ac j s O), Q. fold (wmm_count s (f :: q)). by rewrite !(bmc_count j). }
  rewrite En, Ea. fold (set_sleep q s).
  match goal with |- context [rtw_hal_xmitframe_enqueue _ _ ?x] => set (f' := x) end.
  assert (same_frame f f') as Sf by (unfold f'; by destruct (hi && _)).
  destruct (take_step ex st j s [] f q f' I H Q Sf) as (st1 & E1 & I1 & P1 & T1 & H1). cbn [app] in E1, H1. bind_step E1.
  edestruct (IH st1 _ I1 H1 eq_refl) as (st' & s' & E' & I' & P' & T' & H' & Q' & S'); [zlen_lia|].
  exists st', s'. split; [done|]. split; [done|]. split; [by rewrite P'|]. split; [by eapply others_trans|]. done.
Qed.

(** The frames of delivery enabled categories, on a trigger frame; the others
    stay. *)
Lemma deliver_ok ex i q : forall st s pre, ps_inv_but ex st -> stas st !! i = Some s -> sleepq s = pre ++ q -> zlen (pre ++ q) < 2 ^ 32 ->
  exists st' s', deliver get_sta st i pre q = Ret st' /\ ps_inv_but ex st' /\ ids st' ≡ₚ ids st /\
    stas st' !! i = Some s' /\ sleepq s' = pre ++ filter (fun f => wmmps_ac s (x_prio f) 1 = false) q /\ same_sta s s' /\
    mgmt_sleepq s' = mgmt_sleepq s /\ dz st' = dz st /\ (forall j, j <> i -> stas st' !! j = stas st !! j).
Proof.
  induction q as [|f q IH]; intros st s pre I H Q L; cbn [deliver].
  { exists st, s. do 4 (split; [done|]). split; [by rewrite filter_nil|]. by repeat split. }
  pose proof (pi_sta ex st I i s H) as O. unfold get at 1. rewrite H. simp_res. rewrite filter_cons.
  destruct (wmmps_ac s (x_prio f) 1) eqn:W.
  - rewrite decide_False by done.
    assert (u32 (sleepq_len s - 1) = zlen (pre ++ q)) as En.
    { rewrite (so_len i s O), Q in *. rewrite !zlen_app, zlen_cons in *. rewrite (wrap_small 32) by (unfold fits; zlen_lia). lia. }
    assert (u32 (sleepq_ac_len s - 1) = wmm_count s (pre ++ q)) as Ea.
    { rewrite (so_ac i s O), Q. fold (wmm_count s (pre ++ f :: q)). rewrite !wmm_count_app, wmm_count_cons, W.
      pose proof (wmm_count_le s pre). pose proof (wmm_count_le s q). rewrite (wrap_small 32) by (unfold fits; zlen_lia). lia. }
    rewrite En, Ea. fold (set_sleep (pre ++ q) s).
    match goal with |- context [rtw_hal_xmitframe_enqueue _ _ ?x] => set (f' := x) end.
    destruct (take_step ex st i s pre f q f' I H Q) as (st1 & E1 & I1 & P1 & T1 & H1); [by repeat split|]. bind_step E1.
    set (s1 := set_queue _ _ _) in H1.
    assert (exists t, (if (wmm_count s (pre ++ q) =? 0) && negb (has_legacy_ac s)
        then t ← tim_map_clear (tim st1) (p_aid s); deliver get_sta (update_beacon_tim (set_tim t st1)) i pre q
        else deliver get_sta st1 i pre q) = deliver get_sta t i pre q /\ ps_inv_but ex t /\ ids t = ids st1 /\ stas t = stas st1 /\ dz t = dz st1)
      as (t & -> & It & Pt & Ht & Dt).
    { destruct (_ && _) eqn:Cl; [|by exists st1]. apply andb_true_iff in Cl as [C0 Cl]. apply Z.eqb_eq in C0.
      destruct (clear_tim_inv ex st1 i s1 I1 H1) as (t & E & It & _).
      { change (asoc s1) with (asoc s). apply (so_asoc i s O). unfold frames. rewrite Q. by destruct pre. }
      { intros (x & Hx & [Cx|Cx]); [by rewrite (bmc_not_wmm i s (x_prio f) 1 O Cx) in W|].
        change (has_legacy_ac s1) with (has_legacy_ac s) in Cx. change (wmmps_ac s1) with (wmmps_ac s) in Cx. rewrite Cl in Cx.
        by apply (wmm_count_0 s (pre ++ q) x C0 Hx) in Cx. }
      change (p_aid s1) with (p_aid s) in E. rewrite E. simp_res. eexists. split; [done|]. split; [|done]. by apply beacon_inv. }
    destruct (IH t s1 pre It) as (st' & s' & E' & I' & P' & H' & Q' & S' & M' & D' & J');
      [by rewrite Ht|done|rewrite !zlen_app in *; zlen_lia|].
    exists st', s'. destruct T1 as (T1 & _ & _ & T4). split; [done|]. split; [done|]. split; [by rewrite P', Pt|].
    split; [done|]. split.
    { by rewrite Q'. }
    split; [eapply same_sta_trans; [|done]; by repeat split|]. split; [done|]. split; [by rewrite D', Dt|].
    intros j N. by rewrite J', Ht, T4.
  - rewrite decide_True by done.
    destruct (IH st s (pre ++ [f]) I H) as (st' & s' & E' & I' & P' & H' & Q' & S'); [by rewrite <- app_assoc|by rewrite <- app_assoc|].
    exists st', s'. do 4 (split; [done|]). split; [|done]. by rewrite Q', <- app_assoc.
Qed.

(** ** Buffering *)

Lemma aid_nonneg ex st i s : ps_inv_but ex st -> stas st !! i = Some s -> 0 <= p_aid s.
Proof. intros I H. destruct (pi_maps ex st I) as (_ & _ & _ & _ & M5). specialize (M5 i s H). lia. Qed.

Lemma announce_ok st aid : maps_ok st -> 0 <= aid < 8 * zlen (tim st) ->
  exists b t, announce st aid = Ret (b, set_tim t st) /\ bytes_ok t /\ zlen t = zlen (tim st) /\
    forall j, 0 <= j -> aid_in t j = (j =? aid) || aid_in (tim st) j.
Proof.
  intros (M1 & M2 & M3 & M4 & M5) A. unfold announce, tim_map_is_set, tim_map_set.
  rewrite (wrap_small 8) by (unfold fits; lia). rewrite aid_is_set_spec by lia. simp_res.
  destruct (bmp_set_spec (tim st) aid A) as (t & -> & Z & B & S). simp_res. eexists _, t. split; [done|]. split; [by apply B|done].
Qed.
Lemma put_maps st i s s' : maps_ok st -> stas st !! i = Some s -> p_aid s' = p_aid s -> maps_ok (put i s' st).
Proof.
  intros (M1 & M2 & M3 & M4 & M5) H A. do 4 (split; [done|]). intros j x. cbn [stas put set_stas tim].
  destruct (decide (j = i)) as [->|N].
  - rewrite list_lookup_insert_eq by (by eapply lookup_lt_Some). intros [= <-]. rewrite A. by eapply M5.
  - rewrite list_lookup_insert_ne by done. apply M5.
Qed.

(** [f] is now kept in [sleep_q] of station [i], whose record was [s]. *)
Definition kept_in (i : nat) (f : xframe) (s : psta) (st st' : ps) : Prop :=
  stas st' = <[i := set_sleep (sleepq s ++ [f]) s]> (stas st) /\ hwq st' = hwq st /\ accnt st' = accnt st /\
  dropped st' = dropped st /\ zlen (tim st') = zlen (tim st) /\
  (forall id, 0 <= id -> aid_in (dz st) id = true -> aid_in (dz st') id = true) /\
  (forall id, 0 <= id -> aid_in (tim st) id = true -> aid_in (tim st') id = true).

Lemma kept_ids i f s st st' : stas st !! i = Some s -> kept_in i f s st st' -> ids st' ≡ₚ ids st ++ [x_id f].
Proof.
  intros H (E & _ & _ & D & _). assert (ids st' = ids (put i (set_sleep (sleepq s ++ [f]) s) st)) as ->
    by (unfold ids, put; cbn [stas set_stas dropped]; by rewrite E, D).
  apply (ids_put_add st i s _ [f] H). pose proof (frames_set_sleep s (sleepq s ++ [f]) [] [f]) as P. rewrite !app_nil_r in P. by apply P.
Qed.

Lemma append_sleep_ok i s f : sta_ok i s -> frame_ok i f -> asoc s = true -> sta_ok i (set_sleep (sleepq s ++ [f]) s).
Proof.
  intros O Fo As. apply set_sleep_ok; [done| |done]. pose proof (so_frames i s O) as Fr. unfold frames in Fr.
  rewrite !Forall_app in *. split; [tauto|by constructor].
Qed.

Lemma sleep_ucast_ok ex st i s f : ps_inv_but ex st -> stas st !! i = Some s -> frame_ok i f -> asoc s = true ->
  bmc <> Some i -> zlen (sleepq s) + 1 < 2 ^ 32 ->
  exists st', sleep_ucast st i f = Ret (sleeping s && aid_in (dz st) (p_aid s), st') /\ ps_inv_but ex st' /\
    (if sleeping s && aid_in (dz st) (p_aid s) then kept_in i f s st st' else st' = st).
Proof.
  intros I H Fo As Nb L. pose proof (pi_sta ex st I i s H) as O. destruct (pi_maps ex st I) as (M1 & M2 & M3 & M4 & M5).
  specialize (M5 i s H). unfold sleep_ucast, get. rewrite H. simp_res. destruct (sleeping s); simpl; [|by exists st].
  unfold tim_map_is_set. rewrite (wrap_small 8) by (unfold fits; lia). rewrite aid_is_set_spec by lia. simp_res.
  destruct (aid_in (dz st) (p_aid s)); [|by exists st].
  rewrite (wmm_bits s) by apply (so_uapsd i s O).
  assert (set_sleepq (sleepq s ++ [f]) (u32 (sleepq_len s + 1))
      (if wmmps_ac s (x_prio f) 1 then u32 (sleepq_ac_len s + 1) else sleepq_ac_len s) s = set_sleep (sleepq s ++ [f]) s) as ->.
  { unfold set_sleep. rewrite (so_len i s O), (so_ac i s O), wmm_count_app, zlen_app, zlen_cons, zlen_nil.
    pose proof (wmm_count_le s (sleepq s)). fold (wmm_count s (sleepq s)). rewrite wmm_count_cons.
    change (wmm_count s []) with 0. rewrite (wrap_small 32 (zlen _ + 1)) by (unfold fits; zlen_lia).
    f_equal; destruct (wmmps_ac s (x_prio f) 1); [rewrite (wrap_small 32) by (unfold fits; zlen_lia)|]; lia. }
  pose proof (append_sleep_ok i s f O Fo As) as O1. set (s1 := set_sleep (sleepq s ++ [f]) s) in *.
  assert (kept_in i f s st (put i s1 st)) as K by (unfold kept_in; repeat split; auto).
  destruct (_ || _) eqn:An.
  - destruct (announce_ok (put i s1 st) (p_aid s)) as (b & t & -> & Bt & Zt & S2); [by eapply put_maps; [apply (pi_maps ex st I)|..]|done|].
    change (tim (put i s1 st)) with (tim st) in *.
    assert (ps_inv_but ex (set_tim t (put i s1 st))) as I2.
    { apply (put_tim_inv ex st i s); try done; [intros id Hi Ha; rewrite S2 by done; rewrite Ha; apply orb_true_r|].
      intros _. rewrite S2 by lia. by rewrite Z.eqb_refl. }
    simp_res. eexists. split; [done|]. split; [destruct b; [apply beacon_inv|]; done|].
    assert (kept_in i f s st (set_tim t (put i s1 st))) as K2.
    { destruct K as (K1 & K2 & K3 & K4 & K5 & K6 & K7). repeat split; try done. intros id Hid Ha. cbn [tim set_tim]. rewrite S2 by done.
      rewrite Ha. apply orb_true_r. }
    destruct b; done.
  - exists (put i s1 st). split; [done|]. split; [|done]. apply (put_inv ex st i s); try done.
    intros (x & Hx & Cx). cbn [sleepq s1 set_sleep set_sleepq] in Hx. exists x. split; [|done].
    apply elem_of_app in Hx as [Hx|Hx]; [done|]. apply list_elem_of_singleton in Hx as ->. exfalso.
    destruct Cx as [Cx|Cx]; [by apply Nb|]. change (wmmps_ac s1) with (wmmps_ac s) in Cx. change (has_legacy_ac s1) with (has_legacy_ac s) in Cx.
    rewrite Cx in An. by destruct (has_legacy_ac s).
Qed.

Lemma sleep_bmc_ok ex st i s f : ps_inv_but ex st -> stas st !! i = Some s -> frame_ok i f -> asoc s = true -> bmc = Some i ->
  zlen (sleepq s) + 1 < 2 ^ 32 ->
  exists b st', sleep_bmc st i f = Ret (b, st') /\ ps_inv_but ex st' /\ (b = true <-> exists id, 0 <= id /\ aid_in (dz st) id = true) /\
    (if b then kept_in i f s st st' else st' = st).
Proof.
  intros I H Fo As Bi L. pose proof (pi_sta ex st I i s H) as O. destruct (pi_maps ex st I) as (M1 & M2 & M3 & M4 & M5).
  unfold sleep_bmc. destruct (not_empty_spec (dz st) M1) as (r & -> & R). simp_res. destruct r; [|by exists false, st].
  unfold get. rewrite H. simp_res.
  assert (set_sleepq (sleepq s ++ [f]) (u32 (sleepq_len s + 1)) (sleepq_ac_len s) s = set_sleep (sleepq s ++ [f]) s) as ->.
  { unfold set_sleep. rewrite (so_len i s O), (so_ac i s O). fold (wmm_count s (sleepq s)). rewrite !(bmc_count i) by done.
    rewrite (wrap_small 32) by (unfold fits; zlen_lia). f_equal. zlen_lia. }
  pose proof (append_sleep_ok i s f O Fo As) as O1. set (s1 := set_sleep (sleepq s ++ [f]) s) in *.
  destruct (so_bmc i s O Bi) as [_ A0].
  destruct (announce_ok (put i s1 st) 0) as (b & t & -> & Bt & Zt & S2);
    [by eapply put_maps; [apply (pi_maps ex st I)|..]|change (tim (put i s1 st)) with (tim st); lia|].
  change (tim (put i s1 st)) with (tim st) in *.
  assert (ps_inv_but ex (set_tim t (put i s1 st))) as I2.
  { apply (put_tim_inv ex st i s); try done; [intros id Hi Ha; rewrite S2 by done; rewrite Ha; apply orb_true_r|].
    intros _. rewrite A0, S2 by lia. done. }
  simp_res. unfold tim_map_set. change (u8 0) with 0. change (dz (set_tim t (put i s1 st))) with (dz st).
  destruct (bmp_set_spec (dz st) 0) as (d & -> & Zd & Bd & Sd); [lia|]. simp_res.
  assert (ps_inv_but ex (set_dz d (set_tim t (put i s1 st)))) as I3 by (apply set_dz_inv; [done|by apply Bd|done]).
  assert (kept_in i f s st (set_dz d (set_tim t (put i s1 st)))) as K.
  { repeat split; try done; intros id Hid Ha; simpl; [rewrite Sd by done|rewrite S2 by done]; rewrite Ha; apply orb_true_r. }
  exists true. destruct b; eexists; (split; [done|]); (split; [first [done|by apply beacon_inv]|]); by split.
Qed.

(** Why a frame for station [i] is kept: the station sleeps, or for the
    broadcast station any station does. *)
Definition keeps (st : ps) (i : nat) (s : psta) : Prop :=
  if bool_decide (bmc = Some i) then exists id, 0 <= id /\ aid_in (dz st) id = true
  else sleeping s = true /\ aid_in (dz st) (p_aid s) = true.

Lemma keeps_mono st st' i s s' : (forall id, 0 <= id -> aid_in (dz st) id = true -> aid_in (dz st') id = true) ->
  0 <= p_aid s -> same_sta s s' -> keeps st i s -> keeps st' i s'.
Proof.
  intros D A (E1 & E2 & _). unfold keeps. case_bool_decide.
  - intros (id & P & T). exists id. split; [done|by apply D].
  - unfold sleeping. rewrite E1, E2. intros [? ?]. split; [done|by apply D].
Qed.

Lemma enqueue_sleeping_ok ex ws hf st i s f : ps_inv_but ex st -> stas st !! i = Some s -> frame_ok i f -> asoc s = true ->
  x_trig f = false -> zlen (sleepq s) + 1 < 2 ^ 32 -> keeps st i s ->
  exists st', xmitframe_enqueue_for_sleeping_sta get_sta true ws hf st f = Ret (true, f, st') /\ ps_inv_but ex st' /\
    kept_in i f s st st'.
Proof.
  intros I H Fo As T L K. destruct (Fo) as (F1 & F2 & F3). unfold xmitframe_enqueue_for_sleeping_sta, frame_sta. cbn [negb].
  rewrite F2, F1, bool_decide_true by done. unfold get at 1. rewrite H. simp_res. rewrite As. simp_res. rewrite T, F3.
  unfold keeps in K. case_bool_decide as Bi.
  - destruct (sleep_bmc_ok ex st i s f I H Fo As Bi L) as (b & st' & E & I' & R & Kp). assert (b = true) as -> by (by apply R).
    rewrite E. simp_res. by exists st'.
  - destruct (sleep_ucast_ok ex st i s f I H Fo As Bi L) as (st' & E & I' & Kp). destruct K as [K1 K2]. rewrite K1, K2 in *. simpl in *.
    rewrite E. simp_res. by exists st'.
Qed.

(** A queue that is being emptied. *)
Definition at_queue (i k : nat) (ex : nat -> nat -> Prop) (a b : nat) : Prop := (a = i /\ b = k) \/ ex a b.

Lemma leave_ok ex st i k s f q : ps_inv_but (at_queue i k ex) st -> stas st !! i = Some s -> (k < 5)%nat -> nq s k = f :: q ->
  exists st', leave st i k k q = Ret st' /\ ps_inv_but (at_queue i k ex) st' /\ ids st' ++ [x_id f] ≡ₚ ids st /\
    others i st st' /\ stas st' !! i = Some (set_queue k q s).
Proof.
  intros I H Hk Q. pose proof (pi_sta _ st I i s H) as O. destruct (nq_lookup i s k O Hk) as [E1 E2]. rewrite Q in E1, E2.
  assert (forall x, x ∈ q -> x ∈ nq s k) as Sub by (intros x Hx; rewrite Q; by right).
  assert (forall x, x ∈ nq s k -> x ∈ frames s) as Sub' by (intros x Hx; apply elem_frames; right; right; by exists k).
  assert (sta_ok i (set_queue k q s)) as O'.
  { apply set_queue_ok; try done.
    - apply Forall_forall. intros x Hx. eapply Forall_forall; [apply (so_frames i s O)|]. by apply Sub', Sub.
    - intros x Hk4 Hx. apply (so_place i s O); [done|by apply Sub].
    - intros ->. apply Forall_forall. intros x Hx. pose proof (so_dontq i s O) as D.
      rewrite Forall_forall in D. apply D, elem_of_app. right. by apply Sub.
    - intros _. apply (so_asoc i s O). intros E. assert (f ∈ frames s) as Hf by (apply Sub'; rewrite Q; by left).
      rewrite E in Hf. by apply elem_of_nil in Hf. }
  unfold leave, get. rewrite H. simp_res. eexists. split; [done|].
  rewrite (alter_to_insert _ (qcnt s) k _ E2). replace (zlen (f :: q) - 1) with (zlen q) by zlen_lia. fold (set_queue k q s).
  split; [|split; [|split]].
  - assert (hwq st = alter (fun l => l) k (hwq st)) as Eh.
    { symmetry. clear. generalize (hwq st). intros h. revert k. induction h as [|l h IH]; intros [|k]; simpl; [done..|]. f_equal. apply IH. }
    rewrite Eh. assert (alter (fun n => n - 1) k (accnt st) = alter (fun n => n + -1) k (accnt st)) as ->.
    { apply list_alter_ext; [|done]. intros. lia. }
    apply (servq_inv (at_queue i k ex) (at_queue i k ex) st i k s); try done.
    + intros k' N. rewrite (nq_set_queue i) by done. by rewrite decide_False.
    + rewrite (nq_set_queue i) by done. rewrite decide_True, Q by done. zlen_lia.
    + intros N. exfalso. apply N. by left.
  - change (ids (put i (set_queue k q s) st) ++ fids [f] ≡ₚ ids st). apply (ids_put_sub st i s _ [f] H).
    pose proof (frames_set_queue i s k q [f] [] O Hk) as P. rewrite !app_nil_r in P. apply P. rewrite Q. by rewrite Permutation_app_comm.
  - split; [done|]. split; [done|]. split; [done|]. intros j N. cbn [stas set_hwq put set_stas]. by rewrite list_lookup_insert_ne.
  - cbn [stas set_hwq put set_stas]. rewrite list_lookup_insert_eq; [done|]. by eapply lookup_lt_Some.
Qed.

(** The bitmaps only grow. *)
Definition grows (st st' : ps) : Prop :=
  (forall id, 0 <= id -> aid_in (dz st) id = true -> aid_in (dz st') id = true) /\
  (forall id, 0 <= id -> aid_in (tim st) id = true -> aid_in (tim st') id = true) /\ dropped st' = dropped st.
Lemma grows_refl st : grows st st.
Proof. by repeat split. Qed.
Lemma grows_trans a b c : grows a b -> grows b c -> grows a c.
Proof. intros (A1 & A2 & A3) (B1 & B2 & B3). repeat split; auto. congruence. Qed.
Lemma others_grows i st st' : others i st st' -> grows st st'.
Proof. intros (E1 & E2 & E3 & _). unfold grows. by rewrite E1, E2, E3. Qed.

Lemma head_asoc i s k f q : sta_ok i s -> nq s k = f :: q -> asoc s = true /\ frame_ok i f.
Proof.
  intros O Q. assert (f ∈ frames s) as Hf by (apply elem_frames; right; right; exists k; rewrite Q; by left).
  split; [apply (so_asoc i s O); intros E; rewrite E in Hf; by apply elem_of_nil in Hf|].
  pose proof (so_frames i s O) as Fr. rewrite Forall_forall in Fr. by apply Fr.
Qed.

Lemma to_sleeping_ok ex ws hf i k q : (k < 4)%nat -> forall st s, ps_inv_but (at_queue i k ex) st -> stas st !! i = Some s ->
  nq s k = q -> keeps st i s -> zlen (sleepq s) + zlen q < 2 ^ 32 ->
  exists st' s', to_sleeping get_sta true ws hf st i k [] q = Ret st' /\ ps_inv_but (at_queue i k ex) st' /\ ids st' ≡ₚ ids st /\
    stas st' !! i = Some s' /\ nq s' k = [] /\ (forall k', k' <> k -> nq s' k' = nq s k') /\
    sleepq s' = sleepq s ++ map (set_trig false) q /\ mgmt_sleepq s' = mgmt_sleepq s /\ same_sta s s' /\
    (forall j, j <> i -> stas st' !! j = stas st !! j) /\ grows st st'.
Proof.
  intros Hk. induction q as [|f q IH]; intros st s I H Q K L; cbn [to_sleeping].
  { exists st, s. rewrite app_nil_r. do 9 (split; [done|]). split; [done|]. apply grows_refl. }
  pose proof (pi_sta _ st I i s H) as O. destruct (head_asoc i s k f q O Q) as [As Fo].
  destruct (enqueue_sleeping_ok _ ws hf st i s (set_trig false f) I H) as (st1 & E1 & I1 & K1); [done..|zlen_lia|done|].
  pose proof (kept_ids i _ s st st1 H K1) as P1. destruct K1 as (S1 & W1 & A1 & D1 & Z1 & Kd & Kt).
  bind_step E1. cbn [x_prio set_trig]. rewrite (so_place i s O k f Hk) by (rewrite Q; by left).
  set (s1 := set_sleep (sleepq s ++ [set_trig false f]) s) in *.
  assert (stas st1 !! i = Some s1) as H1 by (rewrite S1, list_lookup_insert_eq; [done|by eapply lookup_lt_Some]).
  destruct (leave_ok ex st1 i k s1 f q I1 H1) as (st2 & E2 & I2 & P2 & T2 & H2); [lia|done|]. cbn [app]. bind_step E2.
  set (s2 := set_queue k q s1) in *. assert (same_sta s s2) as S2 by (by repeat split).
  destruct (T2) as (Td & Tt & Tp & Tj).
  assert ((k < length (servq s1))%nat) as Hk5 by (change (servq s1) with (servq s); rewrite (so_five i s O); lia).
  destruct (IH st2 s2 I2 H2) as (st' & s' & E' & I' & P' & H' & N' & Nk' & Q' & M' & S' & J' & G').
  { unfold s2. rewrite nq_set_queue_lt by done. by rewrite decide_True. }
  { eapply (keeps_mono st st2 i s s2); [|exact (aid_nonneg _ st i s I H)|done|done]. intros id Hi Ha. rewrite Td. by apply Kd. }
  { cbn [sleepq s2 s1 set_queue set_servq set_sleep set_sleepq]. zlen_lia. }
  exists st', s'. split; [done|]. split; [done|]. split.
  { rewrite P'. apply (Permutation_app_inv_r [x_id f]). by rewrite P2, P1. }
  split; [done|]. split; [done|]. split.
  { intros k' Nk. rewrite Nk' by done. unfold s2. rewrite nq_set_queue_lt by done. by rewrite decide_False. }
  split; [rewrite Q'; cbn [sleepq s2 s1 set_queue set_servq set_sleep set_sleepq map]; by rewrite <- app_assoc|].
  split; [by rewrite M'|]. split; [by eapply same_sta_trans|]. split.
  { intros j Nj. rewrite J', Tj, S1 by done. by rewrite list_lookup_insert_ne. }
  eapply grows_trans; [|exact G']. split; [|split].
  - intros id Hi Ha. rewrite Td. by apply Kd.
  - intros id Hi Ha. rewrite Tt. by apply Kt.
  - congruence.
Qed.

Lemma mgmt_enqueue_ok ex st i s f : ps_inv_but ex st -> stas st !! i = Some s -> frame_ok i f -> asoc s = true -> x_dontq f = false ->
  bmc <> Some i -> zlen (mgmt_sleepq s) + 1 < 2 ^ 32 -> keeps st i s ->
  exists st', mgmt_xmitframe_enqueue_for_sleeping_sta st f = Ret (RTW_QUEUE_MGMT, st') /\ ps_inv_but ex st' /\
    ids st' ≡ₚ ids st ++ [x_id f] /\ grows st st' /\ stas st' = <[i := set_mgmt_sleep (mgmt_sleepq s ++ [f]) s]> (stas st) /\
    hwq st' = hwq st.
Proof.
  intros I H Fo As Dq Nb L K. pose proof (pi_sta ex st I i s H) as O. destruct (pi_maps ex st I) as (M1 & M2 & M3 & M4 & M5).
  specialize (M5 i s H). unfold keeps in K. rewrite bool_decide_false in K by done. destruct K as [K1 K2].
  destruct (Fo) as (F1 & _ & F3). rewrite bool_decide_false in F3 by done.
  unfold mgmt_xmitframe_enqueue_for_sleeping_sta. rewrite bool_decide_false by (intros E; by rewrite E in F3). rewrite Dq, F1. simpl.
  unfold get. rewrite H. simp_res. rewrite As, K1. unfold tim_map_is_set. rewrite (wrap_small 8) by (unfold fits; lia).
  rewrite aid_is_set_spec by lia. simp_res. rewrite K2.
  assert (set_mgmt (mgmt_sleepq s ++ [f]) (u32 (mgmt_sleepq_len s + 1)) s = set_mgmt_sleep (mgmt_sleepq s ++ [f]) s) as ->.
  { unfold set_mgmt_sleep. rewrite (so_mlen i s O), (wrap_small 32) by (unfold fits; zlen_lia). f_equal. zlen_lia. }
  set (s1 := set_mgmt_sleep (mgmt_sleepq s ++ [f]) s).
  assert (sta_ok i s1) as O1.
  { apply set_mgmt_sleep_ok; [done|..|done].
    - pose proof (so_frames i s O) as Fr. unfold frames in Fr. rewrite !Forall_app in *. split; [tauto|by constructor].
    - pose proof (so_dontq i s O) as Dr. rewrite !Forall_app in *. split; [tauto|by constructor]. }
  pose proof (put_inv ex st i s s1 I H O1 eq_refl eq_refl eq_refl (fun x => x)) as I1.
  destruct (announce_ok (put i s1 st) (p_aid s) (pi_maps ex _ I1)) as (b & t & -> & Bt & Zt & S2); [done|]. simp_res.
  assert (ps_inv_but ex (set_tim t (put i s1 st))) as I2.
  { apply set_tim_inv; try done. intros j x Hj _ Ha. rewrite S2 by exact (aid_nonneg ex _ j x I1 Hj). rewrite Ha. apply orb_true_r. }
  assert (grows st (set_tim t (put i s1 st))) as G.
  { repeat split; [done|]. intros id Hi Ha. simpl. rewrite S2 by done. change (tim (put i s1 st)) with (tim st). rewrite Ha. apply orb_true_r. }
  assert (ids (set_tim t (put i s1 st)) ≡ₚ ids st ++ [x_id f]) as P.
  { apply (ids_put_add st i s s1 [f] H). pose proof (frames_set_mgmt_sleep s (mgmt_sleepq s ++ [f]) [] [f]) as P.
    rewrite !app_nil_r in P. by apply P. }
  destruct b; eexists; (split; [done|]); (split; [first [done|by apply beacon_inv]|]); done.
Qed.

Lemma mgmt_to_sleepq_ok ex i q : bmc <> Some i -> forall st s, ps_inv_but (at_queue i 4 ex) st -> stas st !! i = Some s ->
  nq s 4 = q -> keeps st i s -> zlen (mgmt_sleepq s) + zlen q < 2 ^ 32 ->
  exists st' s', mgmt_to_sleepq st i 4 [] q = Ret st' /\ ps_inv_but (at_queue i 4 ex) st' /\ ids st' ≡ₚ ids st /\
    stas st' !! i = Some s' /\ nq s' 4 = [] /\ (forall k', k' <> 4%nat -> nq s' k' = nq s k') /\
    sleepq s' = sleepq s /\ mgmt_sleepq s' = mgmt_sleepq s ++ map (set_trig false) q /\ same_sta s s' /\
    (forall j, j <> i -> stas st' !! j = stas st !! j) /\ grows st st'.
Proof.
  intros Nb. induction q as [|f q IH]; intros st s I H Q K L; cbn [mgmt_to_sleepq].
  { exists st, s. rewrite app_nil_r. do 9 (split; [done|]). split; [done|]. apply grows_refl. }
  pose proof (pi_sta _ st I i s H) as O. destruct (head_asoc i s 4 f q O Q) as [As Fo].
  assert (x_dontq f = false) as Dq.
  { pose proof (so_dontq i s O) as Dr. rewrite Forall_forall in Dr. apply Dr, elem_of_app. right. rewrite Q. by left. }
  destruct (mgmt_enqueue_ok _ st i s (set_trig false f) I H) as (st1 & E1 & I1 & P1 & G1 & S1 & _); [done..|zlen_lia|done|].
  bind_step E1. cbn [Z.eqb RTW_QUEUE_MGMT]. change (RTW_QUEUE_MGMT =? RTW_QUEUE_MGMT) with true. cbv iota.
  set (s1 := set_mgmt_sleep (mgmt_sleepq s ++ [set_trig false f]) s) in *.
  assert (stas st1 !! i = Some s1) as H1 by (rewrite S1, list_lookup_insert_eq; [done|by eapply lookup_lt_Some]).
  destruct (leave_ok ex st1 i 4 s1 f q I1 H1) as (st2 & E2 & I2 & P2 & T2 & H2); [lia|done|]. cbn [app]. bind_step E2.
  set (s2 := set_queue 4 q s1) in *. assert (same_sta s s2) as S2 by (by repeat split).
  assert ((4 < length (servq s1))%nat) as Hk5 by (change (servq s1) with (servq s); rewrite (so_five i s O); lia).
  pose proof (grows_trans _ _ _ G1 (others_grows _ _ _ T2)) as G2. destruct (T2) as (_ & _ & _ & Tj).
  destruct (IH st2 s2 I2 H2) as (st' & s' & E' & I' & P' & H' & N' & Nk' & Q' & M' & S' & J' & G').
  { unfold s2. rewrite nq_set_queue_lt by done. by rewrite decide_True. }
  { eapply (keeps_mono st st2 i s s2); [apply G2|exact (aid_nonneg _ st i s I H)|done|done]. }
  { cbn [mgmt_sleepq s2 s1 set_queue set_servq set_mgmt_sleep set_mgmt]. zlen_lia. }
  exists st', s'. split; [done|]. split; [done|]. split.
  { rewrite P'. apply (Permutation_app_inv_r [x_id f]). by rewrite P2, P1. }
  split; [done|]. split; [done|]. split.
  { intros k' Nk. rewrite Nk' by done. unfold s2. rewrite nq_set_queue_lt by done. by rewrite decide_False. }
  split; [done|]. split; [rewrite M'; cbn [mgmt_sleepq s2 s1 set_queue set_servq set_mgmt_sleep set_mgmt map]; by rewrite <- app_assoc|].
  split; [by eapply same_sta_trans|]. split; [|by eapply grows_trans].
  intros j Nj. rewrite J', Tj, S1 by done. by rewrite list_lookup_insert_ne.
Qed.

(** The end of [stop_queue]: an emptied queue is unlinked. *)
Lemma unlink_ok ex st i k s : ps_inv_but (at_queue i k ex) st -> stas st !! i = Some s -> nq s k = [] ->
  ps_inv_but ex (set_hwq (alter (unlink i) k (hwq st)) (accnt st) st).
Proof.
  intros [S [L5 L] C M Da T] H N. constructor; try done. split; [cbn [hwq set_hwq]; by rewrite length_alter|].
  intros k' l' Hk. cbn [hwq set_hwq stas] in *. destruct (decide (k' = k)) as [->|Nk].
  - rewrite list_lookup_alter_eq in Hk. destruct (hwq st !! k) as [l|] eqn:E; simpl in Hk; simplify_eq.
    destruct (L k l E) as [D I]. split; [by apply unlink_nodup|]. intros j Hj. rewrite unlink_elem.
    destruct (decide (j = i)) as [->|Ni].
    + split; [by intros [? _]|]. intros (x & Hx & ?). by simplify_eq.
    + rewrite I; [tauto|]. intros [[? _]|?]; done.
  - rewrite list_lookup_alter_ne in Hk by done. destruct (L k' l' Hk) as [D I]. split; [done|].
    intros j Hj. apply I. intros [[_ ?]|?]; done.
Qed.

Lemma inv_weaken ex st i k : ps_inv_but ex st -> ps_inv_but (at_queue i k ex) st.
Proof.
  intros [S [L5 L] C M Da T]. constructor; try done. split; [done|]. intros k' l Hk. destruct (L k' l Hk) as [D I]. split; [done|].
  intros j Hj. apply I. intros ?. apply Hj. by right.
Qed.

(** What stopping a set of queues [ks] of station [i] does. *)
Definition stopped (i : nat) (ks : list nat) (st st' : ps) (s s' : psta) : Prop :=
  ids st' ≡ₚ ids st /\ stas st' !! i = Some s' /\ (forall k, k ∈ ks -> nq s' k = []) /\ (forall k, k ∉ ks -> nq s' k = nq s k) /\
  sleepq s' = sleepq s ++ map (set_trig false) (concat (map (nq s) ks)) /\ mgmt_sleepq s' = mgmt_sleepq s /\
  same_sta s s' /\ (forall j, j <> i -> stas st' !! j = stas st !! j) /\ grows st st'.

Lemma stop_queues_ok ex ws hf i ks : NoDup ks -> Forall (fun k => (k < 4)%nat) ks -> forall st s, ps_inv_but ex st -> stas st !! i = Some s ->
  keeps st i s -> zlen (sleepq s) + zlen (concat (map (nq s) ks)) < 2 ^ 32 ->
  exists st' s', stop_queues get_sta true ws hf st i ks = Ret st' /\ ps_inv_but ex st' /\ stopped i ks st st' s s'.
Proof.
  induction ks as [|k ks IH]; intros Nd Hk st s I H K L; cbn [stop_queues].
  { exists st, s. split; [done|]. split; [done|]. repeat split; try done; [by intros k ?%elem_of_nil|by rewrite app_nil_r]. }
  apply NoDup_cons in Nd as [Nk Nd]. inversion_clear Hk as [|? ? Hk0 Hk']. cbn [map concat] in L. rewrite zlen_app in L.
  unfold stop_queue. unfold get at 1. rewrite H. simp_res. fold (nq s k).
  destruct (to_sleeping_ok ex ws hf i k (nq s k) Hk0 st s (inv_weaken ex st i k I) H eq_refl K) as
    (st1 & s1 & E1 & I1 & P1 & H1 & N1 & Nk1 & Q1 & M1 & S1 & J1 & G1); [zlen_lia|].
  bind_step E1. set (st2 := set_hwq (alter (unlink i) k (hwq st1)) (accnt st1) st1).
  assert (ps_inv_but ex st2) as I2 by (by eapply unlink_ok).
  assert (map (nq s1) ks = map (nq s) ks) as Em.
  { apply map_ext_in. intros k' Hk1. apply Nk1. intros ->. apply Nk. by apply list_elem_of_In. }
  destruct (IH Nd Hk' st2 s1 I2 H1) as (st' & s' & E' & I' & P' & H' & Z' & Nz' & Q' & M' & S' & J' & G').
  { eapply (keeps_mono st st2 i s s1); [apply G1|exact (aid_nonneg _ st i s I H)|done|done]. }
  { rewrite Em, Q1. unfold zlen in *. rewrite length_app, length_map. lia. }
  exists st', s'. split; [done|]. split; [done|]. split; [by rewrite P'|]. split; [done|]. split.
  { intros k' [->|Hk1]%elem_of_cons; [|by apply Z']. by rewrite Nz'. }
  split; [intros k' Hk1; apply not_elem_of_cons in Hk1 as [? ?]; by rewrite Nz', Nk1|].
  split; [cbn [map concat]; rewrite Q', Q1, Em, map_app, <- app_assoc; done|]. split; [congruence|]. split; [by eapply same_sta_trans|].
  split; [|by eapply grows_trans]. intros j Nj. rewrite J' by done. by apply J1.
Qed.

Lemma servq_five i s : sta_ok i s -> servq s = [nq s 0; nq s 1; nq s 2; nq s 3; nq s 4].
Proof.
  intros O. pose proof (so_five i s O) as L. unfold nq. destruct (servq s) as [|a [|b [|c [|d [|e [|]]]]]]; done.
Qed.

Lemma frames_le st i s : stas st !! i = Some s -> zlen (frames s) <= zlen (ids st).
Proof.
  intros H. destruct (stas_split st i s H) as (l1 & l2 & E & _). unfold ids. rewrite E, map_app, concat_app. cbn [map concat].
  autorewrite with zlen. assert (zlen (fids (frames s)) = zlen (frames s)) as -> by (unfold zlen, fids; by rewrite length_map). zlen_lia.
Qed.

(** A station's share of the bound on the number of frames. *)
Lemma station_bound st i s : sta_ok i s -> stas st !! i = Some s -> zlen (ids st) < 2 ^ 32 ->
  zlen (sleepq s) + zlen (concat (map (nq s) [0; 1; 2; 3]%nat)) < 2 ^ 32 /\ zlen (mgmt_sleepq s) + zlen (nq s 4) < 2 ^ 32.
Proof.
  intros O H L. pose proof (frames_le st i s H) as F. unfold frames in F. rewrite (servq_five i s O) in F. cbn [map concat] in *.
  autorewrite with zlen in *. zlen_lia.
Qed.

Lemma set_state_ok i s x : sta_ok i s -> asoc (set_state x s) = asoc s -> sta_ok i (set_state x s).
Proof.
  intros [O1 O2 O3 O4 O5 O6 O7 O8 O9 O10 O11] A. constructor; try done. intros F. rewrite A. by apply O10.
Qed.

Lemma state_bits x : Z.land (Z.lor x WIFI_SLEEP_STATE) WIFI_SLEEP_STATE <> 0 /\
  Z.land (Z.lor x WIFI_SLEEP_STATE) WIFI_ASOC_STATE = Z.land x WIFI_ASOC_STATE.
Proof.
  split.
  - intros E. apply (f_equal (fun z => Z.testbit z 2)) in E. rewrite Z.land_spec, Z.lor_spec, Z.bits_0 in E.
    change (Z.testbit WIFI_SLEEP_STATE 2) with true in E. by rewrite orb_true_r in E.
  - rewrite Z.land_lor_distr_l. change (Z.land WIFI_SLEEP_STATE WIFI_ASOC_STATE) with 0. apply Z.lor_0_r.
Qed.

(** What the operations leave alone in every station. *)
Definition kin (s s' : psta) : Prop :=
  asoc s' = asoc s /\ p_aid s' = p_aid s /\ uapsd s' = uapsd s /\ has_legacy_ac s' = has_legacy_ac s.
Definition kins (st st' : ps) : Prop := forall j, option_Forall2 kin (stas st !! j) (stas st' !! j).

Lemma same_kin s s' : same_sta s s' -> kin s s'.
Proof. intros (E1 & E2 & E3 & E4 & _). unfold kin, asoc. by rewrite E2. Qed.
Lemma kins_same st st' : stas st' = stas st -> kins st st'.
Proof. intros E j. rewrite E. destruct (stas st !! j); by constructor. Qed.
Lemma kins_trans a b c : kins a b -> kins b c -> kins a c.
Proof.
  intros H1 H2 j. specialize (H1 j). specialize (H2 j). destruct (stas a !! j), (stas b !! j), (stas c !! j);
    inversion_clear H1; inversion_clear H2; constructor. unfold kin in *. intuition congruence.
Qed.
Lemma kins_at i st st' s s' : stas st !! i = Some s -> stas st' !! i = Some s' -> kin s s' ->
  (forall j, j <> i -> stas st' !! j = stas st !! j) -> kins st st'.
Proof.
  intros H H' K J j. destruct (decide (j = i)) as [->|N]; [rewrite H, H'; by constructor|]. rewrite J by done.
  destruct (stas st !! j); by constructor.
Qed.

Definition bmc_exists (st : ps) : Prop := forall j, bmc = Some j -> is_Some (stas st !! j).

(** All frames for a station that goes to sleep are buffered, in order; group
    frames are buffered too. *)
Lemma stop_sta_xmit_ok ws hf st i s : ps_inv st -> bmc_exists st -> stas st !! i = Some s -> bmc <> Some i ->
  zlen (ids st) < 2 ^ 32 ->
  exists st' s', stop_sta_xmit get_sta bmc true ws hf st i = Ret st' /\ ps_inv st' /\ ids st' ≡ₚ ids st /\
    stas st' !! i = Some s' /\ sleeping s' = true /\ aid_in (dz st') (p_aid s) = true /\
    sleepq s' = sleepq s ++ map (set_trig false) (nq s 0 ++ nq s 1 ++ nq s 2 ++ nq s 3) /\
    mgmt_sleepq s' = mgmt_sleepq s ++ map (set_trig false) (nq s 4) /\ (forall k, nq s' k = []) /\
    (forall j x, bmc = Some j -> stas st !! j = Some x -> exists x', stas st' !! j = Some x' /\
       sleepq x' = sleepq x ++ map (set_trig false) (nq x 0 ++ nq x 1 ++ nq x 2 ++ nq x 3)) /\ kins st st'.
Proof.
  intros I Be H Nb L. pose proof (pi_sta _ st I i s H) as O. destruct (pi_maps _ st I) as (M1 & M2 & M3 & M4 & M5).
  unfold stop_sta_xmit. unfold get at 1. rewrite H. simp_res. destruct (state_bits (p_state s)) as [B1 B2].
  set (s0 := set_state (Z.lor (p_state s) WIFI_SLEEP_STATE) s).
  assert (asoc s0 = asoc s) as A0 by (unfold asoc; cbn [p_state s0 set_state]; by rewrite B2).
  assert (sta_ok i s0) as O0 by (by apply set_state_ok).
  pose proof (put_inv _ st i s s0 I H O0 eq_refl eq_refl A0 (fun x => x)) as I0. change (p_aid s0) with (p_aid s). change (dz (put i s0 st)) with (dz st).
  unfold tim_map_set. specialize (M5 i s H) as M5i. rewrite (wrap_small 8) by (unfold fits; lia).
  destruct (bmp_set_spec (dz st) (p_aid s)) as (d & -> & Zd & Bd & Sd); [lia|]. simp_res.
  set (st0 := set_dz d (put i s0 st)). assert (ps_inv st0) as I0' by (apply set_dz_inv; [done|by apply Bd|done]).
  assert (stas st0 !! i = Some s0) as H0 by (cbn; rewrite list_lookup_insert_eq; [done|by eapply lookup_lt_Some]).
  assert (ids st0 ≡ₚ ids st) as P0 by (by apply (ids_put_same st i s s0)).
  assert (zlen (ids st0) = zlen (ids st)) as Z0 by (unfold zlen; by rewrite P0).
  destruct (station_bound st0 i s0 O0 H0) as [Lq Lm]; [lia|].
  assert (keeps st0 i s0) as K0.
  { unfold keeps. rewrite bool_decide_false by done. split.
    - unfold sleeping. cbn [p_state s0 set_state]. apply negb_true_iff, Z.eqb_neq, B1.
    - cbn [dz st0 set_dz]. change (p_aid s0) with (p_aid s). rewrite Sd by lia. by rewrite Z.eqb_refl. }
  unfold stop_queue at 1. unfold get at 1. rewrite H0. simp_res. fold (nq s0 4).
  destruct (mgmt_to_sleepq_ok nowhere i (nq s0 4) Nb st0 s0 (inv_weaken _ st0 i 4 I0') H0 eq_refl K0 Lm) as
    (st1 & s1 & E1 & I1 & P1 & H1 & N1 & Nk1 & Q1 & G1 & S1 & J1 & W1). bind_step E1.
  set (st2 := set_hwq (alter (unlink i) 4%nat (hwq st1)) (accnt st1) st1).
  assert (ps_inv st2) as I2 by (by eapply unlink_ok).
  assert (map (nq s1) [0; 1; 2; 3]%nat = map (nq s) [0; 1; 2; 3]%nat) as Em by (cbn [map]; by rewrite !Nk1).
  destruct (stop_queues_ok nowhere ws hf i [0; 1; 2; 3]%nat) with (st := st2) (s := s1) as
    (st3 & s3 & E3 & I3 & P3 & H3 & Y3 & X3 & Q3 & M3' & S3 & J3 & W3); try done.
  { by_eval. } { by repeat constructor. }
  { eapply (keeps_mono st0 st2 i s0 s1); [apply W1|exact (aid_nonneg _ st0 i s0 I0' H0)|done|done]. }
  { rewrite Em, Q1. done. }
  simp_res. fold st2. rewrite E3. simp_res.
  assert (aid_in (dz st3) (p_aid s) = true) as D3.
  { apply W3; [lia|]. apply W1; [lia|]. cbn [dz st0 set_dz]. rewrite Sd by lia. by rewrite Z.eqb_refl. }
  assert (sleeping s3 = true) as L3.
  { pose proof (same_sta_trans _ _ _ S1 S3) as (_ & E & _). unfold sleeping. rewrite E. apply negb_true_iff, Z.eqb_neq, B1. }
  assert (forall k, nq s3 k = []) as N3.
  { intros k. destruct (decide (k < 4)%nat).
    - apply Y3. apply list_elem_of_In. simpl. lia.
    - rewrite X3 by (rewrite list_elem_of_In; simpl; lia). destruct (decide (k = 4%nat)) as [->|]; [done|]. rewrite Nk1 by done.
      unfold nq. rewrite lookup_ge_None_2; [done|]. change (servq s0) with (servq s). rewrite (so_five i s O). lia. }
  assert (sleepq s3 = sleepq s ++ map (set_trig false) (nq s 0 ++ nq s 1 ++ nq s 2 ++ nq s 3)) as Q3'.
  { rewrite Q3, Em, Q1. cbn [map concat]. by rewrite app_nil_r. }
  assert (mgmt_sleepq s3 = mgmt_sleepq s ++ map (set_trig false) (nq s 4)) as M3'' by (rewrite M3', G1; done).
  assert (ids st3 ≡ₚ ids st) as P3' by (rewrite P3; transitivity (ids st0); [exact P1|done]).
  assert (kins st st3) as Kn.
  { apply (kins_at i st st3 s s3 H H3).
    - destruct (same_kin _ _ (same_sta_trans _ _ _ S1 S3)) as (K1 & K2 & K3 & K4). unfold kin. by rewrite K1, K2, K3, K4, A0.
    - intros j Nj. rewrite J3 by done. change (stas st2) with (stas st1). rewrite J1 by done. cbn. by rewrite list_lookup_insert_ne. }
  destruct bmc as [j|] eqn:Eb.
  - destruct (Be j Eb) as [x Hx]. assert (j <> i) as Nj by congruence.
    assert (stas st3 !! j = Some x) as Hx3.
    { rewrite J3 by done. change (stas st2) with (stas st1). rewrite J1 by done. cbn. by rewrite list_lookup_insert_ne. }
    pose proof (pi_sta _ st3 I3 j x Hx3) as Ox.
    assert (zlen (ids st3) = zlen (ids st)) as Z3 by (unfold zlen; by rewrite P3').
    destruct (station_bound st3 j x Ox Hx3) as [Lx _]; [lia|].
    destruct (stop_queues_ok nowhere ws hf j [0; 1; 2; 3]%nat) with (st := st3) (s := x) as
      (st4 & s4 & E4 & I4 & P4 & H4 & Y4 & X4 & Q4 & M4' & S4 & J4 & W4); try done.
    { by_eval. } { by repeat constructor. }
    { unfold keeps. rewrite bool_decide_true by done. exists (p_aid s). split; [lia|done]. }
    exists st4, s3. split; [done|]. split; [done|]. split; [by rewrite P4|]. split; [by rewrite J4|]. split; [done|].
    split; [apply W4; [lia|done]|]. split; [done|]. split; [done|]. split; [done|].
    split; [intros j' x' [= <-] Hx'; simplify_eq; exists s4; split; [done|]; rewrite Q4; cbn [map concat]; by rewrite app_nil_r|].
    eapply kins_trans; [exact Kn|]. by apply (kins_at j st3 st4 x s4 Hx3 H4 (same_kin _ _ S4)).
  - exists st3, s3. do 9 (split; [done|]). split; [by intros|done].
Qed.
End Inv.
End Ps.
