(* ===== verification/PsRun.v ===== *)
(** * Power save of an access point: sleep, wake up and runs

    What the operations of [Ps] do as a whole: [rtw_dequeue_xframe] serves the
    access categories by priority and never leaves a pending frame behind;
    [wakeup_sta_to_xmit] undoes [stop_sta_xmit] without losing or reordering a
    frame; any sequence of transmissions, power management bits, trigger and
    PS-Poll frames, DTIM beacons and dequeues keeps every frame in exactly one
    queue and every counter right; what a PS-Poll frame does to a station with
    delivery enabled categories, and to buffered management frames. *)
From S2P Require Import Prelude Recv Ies Cam Macid Sta Tim Ps.

Module PsRun.
Import Cam Tim Ps.

Section Run.
Context (get_sta : list Z -> option nat) (bmc : option nat).
Implicit Types (st : ps) (s : psta) (f : xframe) (ex : nat -> nat -> Prop).

Local Notation sta_ok := (sta_ok get_sta bmc).
Local Notation ps_inv_but := (ps_inv_but get_sta bmc).
Local Notation ps_inv := (ps_inv get_sta bmc).
Local Notation frame_ok := (frame_ok get_sta bmc).

Lemma get_some st i s : stas st !! i = Some s -> get st i = Ret s.
Proof. intros H. unfold get. by rewrite H. Qed.

(** ** Dequeueing for the hardware *)

Lemma relink_ok ex st i k s l : ps_inv_but (at_queue i k ex) st -> stas st !! i = Some s -> nq s k <> [] ->
  hwq st !! k = Some l -> i ∈ l -> ps_inv_but ex st.
Proof.
  intros [S [L5 L] C M Da T] H N Hl Il. constructor; try done. split; [done|]. intros k' l' Hk. destruct (L k' l' Hk) as [D I].
  split; [done|]. intros j Hj. destruct (decide ((j, k') = (i, k))) as [[= -> ->]|Nj].
  - simplify_eq. split; [intros _; by exists s|done].
  - apply I. intros [[-> ->]|?]; [by apply Nj|by apply Hj].
Qed.

(** The frame [f] was taken from the head of queue [k] of station [i]. *)
Definition taken (i k : nat) (f : xframe) (st st' : ps) : Prop :=
  exists s q, stas st !! i = Some s /\ nq s k = f :: q /\ stas st' = <[i := set_queue k q s]> (stas st) /\
    dz st' = dz st /\ tim st' = tim st.

Lemma dequeue_linked_ok st k : ps_inv st -> (k < 5)%nat ->
  exists l, hwq st !! k = Some l /\
    match l with
    | [] => dequeue_linked st k l = Ret (None, st)
    | i :: _ => exists f st', dequeue_linked st k l = Ret (Some f, st') /\ taken i k f st st' /\
                  ps_inv st' /\ ids st' ++ [x_id f] ≡ₚ ids st
    end.
Proof.
  intros I Hk. destruct (pi_link _ _ _ st I) as [L5 L].
  destruct (lookup_lt_is_Some_2 (hwq st) k) as [l El]; [lia|]. exists l. split; [done|]. destruct l as [|i l]; [done|].
  destruct (L k _ El) as [_ Li]. destruct (proj1 (Li i (fun x => x))) as (s & H & N); [by left|].
  pose proof (pi_sta _ _ _ st I i s H) as O. destruct (nq s k) as [|f q] eqn:Q; [done|].
  destruct (nq_lookup get_sta bmc i s k O Hk) as [E1 E2]. rewrite Q in E1, E2.
  destruct (leave_ok get_sta bmc nowhere st i k s f q (inv_weaken _ _ _ _ _ _ I) H Hk Q) as (st1 & Le & I1 & P1 & T1 & H1).
  unfold leave, get in Le. rewrite H in Le. cbn in Le. injection Le as <-.
  assert (nq (set_queue k q s) k = q) as Nq by (rewrite (nq_set_queue get_sta bmc i) by done; by rewrite decide_True).
  cbn [dequeue_linked]. unfold get. rewrite H. simp_res. rewrite E1. eexists f, _. split; [done|].
  assert (forall h a, taken i k f st (set_hwq h a (put i (set_servq (<[k:=q]> (servq s)) (alter (fun n => n - 1) k (qcnt s)) s) st))) as T.
  { intros h a. exists s, q. do 2 (split; [done|]). split; [|done]. cbn. do 2 f_equal. unfold set_queue. f_equal.
    rewrite (alter_to_insert _ (qcnt s) k _ E2). f_equal. zlen_lia. }
  split; [apply T|]. split; [|exact P1]. destruct q as [|f' q].
  - exact (unlink_ok get_sta bmc nowhere _ i k _ I1 H1 Nq).
  - eapply (relink_ok nowhere _ i k _ (i :: l)); [exact I1|exact H1|by rewrite Nq|exact El|by left].
Qed.

(** No station has a frame in queue [k]. *)
Definition idle (st : ps) (k : nat) : Prop := forall i s, stas st !! i = Some s -> nq s k = [].

Lemma linked_idle st k : ps_inv st -> hwq st !! k = Some [] -> idle st k.
Proof.
  intros I H i s Hs. destruct (pi_link _ _ _ st I) as [_ L]. destruct (L k [] H) as [_ Li].
  destruct (nq s k) eqn:E; [done|]. assert (i ∈ @nil nat) as C by (apply (Li i (fun x => x)); exists s; by rewrite E).
  by apply elem_of_nil in C.
Qed.

Lemma dequeue_acs_ok inx : forall st, ps_inv st -> Forall (fun k => (k < 5)%nat) inx ->
  (dequeue_acs st inx = Ret (None, st) /\ Forall (idle st) inx) \/
  exists pre k post i f st', inx = pre ++ k :: post /\ Forall (idle st) pre /\ dequeue_acs st inx = Ret (Some f, st') /\
    taken i k f st st' /\ ps_inv st' /\ ids st' ++ [x_id f] ≡ₚ ids st.
Proof.
  induction inx as [|k inx IH]; intros st I F; cbn [dequeue_acs]; [by left|].
  inversion_clear F as [|? ? Fk F']. destruct (dequeue_linked_ok st k I Fk) as (l & El & D). rewrite El. change (default [] (Some l)) with l.
  destruct l as [|i l].
  - simp_res. assert (idle st k) as Ik by (by apply linked_idle).
    destruct (IH st I F') as [[-> ?]|(pre & k' & post & i & f & st' & -> & Fp & E & R)]; [left; by split; [|constructor]|].
    right. exists (k :: pre), k', post, i, f, st'. split; [done|]. split; [by constructor|]. by split.
  - destruct D as (f & st' & E & R). right. exists [], k, inx, i, f, st'. split; [done|]. split; [done|]. split; [|done].
    rewrite E. done.
Qed.

(** ** Waking up *)

(** The state word of a station that woke up. *)
Definition awake (x : Z) : Z :=
  let x := if negb (Z.land x WIFI_SLEEP_STATE =? 0) then Z.lxor x WIFI_SLEEP_STATE else x in
  if Z.land x WIFI_STA_ALIVE_CHK_STATE =? 0 then x else Z.lxor x WIFI_STA_ALIVE_CHK_STATE.

Lemma flip_bit x i j : 0 <= i -> 0 <= j -> Z.testbit (Z.lxor x (BIT i)) j = xorb (Z.testbit x j) (i =? j).
Proof. intros Hi Hj. rewrite Z.lxor_spec. f_equal. unfold BIT. rewrite Z.shiftl_1_l. by apply Z.pow2_bits_eqb. Qed.

Lemma awake_bits x : negb (Z.land (awake x) WIFI_SLEEP_STATE =? 0) = false /\
  negb (Z.land (awake x) WIFI_ASOC_STATE =? 0) = negb (Z.land x WIFI_ASOC_STATE =? 0).
Proof.
  assert (forall j, 0 <= j -> Z.testbit (awake x) j = Z.testbit x j && negb (2 =? j) && negb (10 =? j)) as T.
  { intros j Hj. unfold awake. change WIFI_SLEEP_STATE with (BIT 2). change WIFI_STA_ALIVE_CHK_STATE with (BIT 10).
    rewrite (land_BIT x 2) by lia. set (y := if Z.testbit x 2 then _ else _).
    assert (forall k, 0 <= k -> Z.testbit y k = Z.testbit x k && negb (2 =? k)) as Ty.
    { intros k Hk. unfold y. destruct (Z.testbit x 2) eqn:E; [rewrite flip_bit by lia|]; destruct (Z.eqb_spec 2 k) as [<-|];
        by rewrite ?E, ?andb_true_r, ?xorb_false_r. }
    pose proof (land_BIT y 10 ltac:(lia)) as L. rewrite Ty in L by lia. change (2 =? 10) with false in L. rewrite andb_true_r in L. destruct (Z.land y (BIT 10) =? 0) eqn:Ey.
    - rewrite Ty by done. destruct (Z.eqb_spec 10 j) as [<-|]; [|by rewrite andb_true_r]. by rewrite <- L.
    - rewrite flip_bit by lia. rewrite Ty by done. destruct (Z.eqb_spec 10 j) as [<-|]; [|by rewrite andb_true_r, xorb_false_r].
      by rewrite <- L. }
  change WIFI_SLEEP_STATE with (BIT 2). change WIFI_ASOC_STATE with (BIT 0). rewrite !land_BIT, !T by lia.
  change (2 =? 2) with true. change (2 =? 0) with false. change (10 =? 0) with false. cbn [negb]. by rewrite !andb_true_r, andb_false_r.
Qed.

Lemma dz_clear_ok ex st aid : ps_inv_but ex st -> 0 <= aid < 8 * zlen (tim st) ->
  exists d, tim_map_clear (dz st) aid = Ret d /\ ps_inv_but ex (set_dz d st) /\
    forall id, 0 <= id -> aid_in d id = negb (id =? aid) && aid_in (dz st) id.
Proof.
  intros I A. destruct (pi_maps _ _ ex st I) as (M1 & M2 & M3 & M4 & M5). unfold tim_map_clear.
  rewrite (wrap_small 8) by (unfold fits; lia). destruct (bmp_clear_spec (dz st) aid) as (d & E & Z & B & S); [lia|].
  exists d. split; [done|]. split; [|done]. apply set_dz_inv; [done|by apply B|done].
Qed.

Lemma no_frames_no_must i s : sleepq s = [] -> ~ must_announce bmc i s.
Proof. intros E (f & Hf & _). rewrite E in Hf. by apply elem_of_nil in Hf. Qed.

Lemma is_set_ok ex st b aid : ps_inv_but ex st -> 0 <= aid < 8 * zlen (tim st) -> tim_map_is_set b aid = Ret (aid_in b aid).
Proof.
  intros I A. destruct (pi_maps _ _ ex st I) as (M1 & M2 & M3 & M4 & M5). unfold tim_map_is_set.
  rewrite (wrap_small 8) by (unfold fits; lia). by rewrite aid_is_set_spec by lia.
Qed.

(** Bit [aid] of a map is cleared, the others stay. *)
Definition without (aid : Z) (b b' : list Z) : Prop := forall id, 0 <= id -> aid_in b' id = negb (id =? aid) && aid_in b id.

Lemma wake_up_done_ok ex st i s : ps_inv_but ex st -> stas st !! i = Some s -> asoc s = true -> sleepq s = [] -> mgmt_sleepq s = [] ->
  exists st', wake_up_done st i = Ret (aid_in (tim st) (p_aid s), st') /\ ps_inv_but ex st' /\ ids st' ≡ₚ ids st /\
    stas st' = <[i := set_state (awake (p_state s)) s]> (stas st) /\ without (p_aid s) (tim st) (tim st') /\ without (p_aid s) (dz st) (dz st') /\
    hwq st' = hwq st.
Proof.
  intros I H As Q M. pose proof (pi_sta _ _ ex st I i s H) as O. destruct (pi_maps _ _ ex st I) as (_ & _ & _ & _ & M5). specialize (M5 i s H).
  unfold wake_up_done. unfold get. rewrite H. simp_res. rewrite (so_len _ _ i s O), (so_mlen _ _ i s O), Q, M. cbn [zlen length Z.of_nat Z.eqb andb].
  rewrite (is_set_ok ex st) by done. simp_res.
  destruct (clear_tim_inv get_sta bmc ex st i s I H As (no_frames_no_must i s Q)) as (t & Et & It & St). bind_step Et.
  destruct (dz_clear_ok ex (set_tim t st) (p_aid s) It) as (d & Ed & Id & Sd).
  { destruct (pi_maps _ _ ex _ It) as (_ & _ & _ & _ & M5'). exact (M5' i s H). }
  change (dz (set_tim t st)) with (dz st) in *. bind_step Ed. eexists. split; [done|].
  destruct (awake_bits (p_state s)) as [B1 B2]. fold (awake (p_state s)) in *.
  set (s' := set_state (awake (p_state s)) s). change (set_state _ s) with s'.
  assert (asoc s' = asoc s) as A' by exact B2. split; [|split; [exact (ids_put_same (set_dz d (set_tim t st)) i s s' H (reflexivity _))|done]].
  apply (put_inv get_sta bmc ex (set_dz d (set_tim t st)) i s s' Id H); try done. by apply set_state_ok.
Qed.

(** The broadcast station is there, and associated. *)
Definition bmc_ready (st : ps) : Prop := forall j, bmc = Some j -> exists x, stas st !! j = Some x /\ asoc x = true.
Definition some_asleep (b : list Z) : Prop := exists id, 1 <= id /\ aid_in b id = true.

Lemma sleep_le st i s : stas st !! i = Some s -> zlen (sleepq s) <= zlen (ids st) /\ zlen (mgmt_sleepq s) <= zlen (ids st).
Proof. intros H. pose proof (frames_le st i s H) as F. unfold frames in F. autorewrite with zlen in F. zlen_lia. Qed.

(** The group frames are released once no station is asleep. *)
Lemma wake_group_ok ws hf st j x : ps_inv st -> bmc = Some j -> stas st !! j = Some x -> asoc x = true -> zlen (ids st) < 2 ^ 32 ->
  exists b st' x', wake_group get_sta ws hf st j = Ret (b, st') /\ ps_inv st' /\ ids st' ≡ₚ ids st /\
    stas st' !! j = Some x' /\ same_sta x x' /\ (forall k, k <> j -> stas st' !! k = stas st !! k) /\
    (some_asleep (dz st) -> st' = st) /\
    (~ some_asleep (dz st) -> sleepq x' = [] /\ without 0 (tim st) (tim st') /\ without 0 (dz st) (dz st')).
Proof.
  intros I Bj H As L. destruct (pi_maps _ _ _ st I) as (M1 & M2 & M3 & M4 & M5). unfold wake_group.
  destruct (not_empty_exclude_spec (dz st) M1) as (r & -> & R). simp_res. destruct r.
  { exists false, st, x. split; [done|]. do 4 (split; [done|]). split; [done|]. split; [done|]. intros N. exfalso. by apply N, R. }
  rewrite (get_some _ _ _ H). simp_res. destruct (sleep_le st j x H) as [Lx _].
  destruct (wake_bmc_ok get_sta bmc nowhere ws hf false j (sleepq x) Bj st x I H eq_refl) as
    (st1 & x1 & E1 & I1 & P1 & (T1 & T2 & T3 & T4) & H1 & Q1 & S1); [lia|]. bind_step E1.
  pose proof (pi_sta _ _ _ st1 I1 j x1 H1) as O1. destruct (so_bmc _ _ j x1 O1 Bj) as [_ A0].
  rewrite (get_some _ _ _ H1). simp_res. rewrite (so_len _ _ j x1 O1), Q1. cbn [zlen length Z.of_nat Z.eqb].
  destruct (pi_maps _ _ _ st1 I1) as (_ & _ & _ & M4' & _). rewrite (is_set_ok nowhere st1) by (done || lia). simp_res.
  assert (asoc x1 = true) as As1 by (destruct S1 as (_ & E & _); unfold asoc; by rewrite E).
  destruct (clear_tim_inv get_sta bmc nowhere st1 j x1 I1 H1 As1 (no_frames_no_must j x1 Q1)) as (t & Et & It & St).
  rewrite A0 in Et, St. bind_step Et. destruct (dz_clear_ok nowhere (set_tim t st1) 0 It) as (d & Ed & Id & Sd).
  { destruct (pi_maps _ _ _ _ It) as (_ & _ & _ & ? & _). lia. }
  change (dz (set_tim t st1)) with (dz st1) in *. bind_step Ed.
  eexists _, _, x1. split; [done|]. split; [done|]. split; [exact P1|]. do 2 (split; [done|]). split; [exact T4|].
  split; [intros C; apply R in C; done|]. intros _. split; [done|]. unfold without. cbn [tim dz set_dz set_tim]. rewrite T1 in Sd. rewrite T2 in St. done.
Qed.

Lemma beacon_if (c : bool) ex st : ps_inv_but ex st -> let st' := if c then update_beacon_tim st else st in
  ps_inv_but ex st' /\ stas st' = stas st /\ dz st' = dz st /\ tim st' = tim st /\ ids st' = ids st.
Proof. intros I. destruct c; [|done]. split; [by apply beacon_inv|done]. Qed.

Lemma kins_bmc st st' : kins st st' -> bmc_ready st -> bmc_ready st'.
Proof.
  intros K B j Hj. destruct (B j Hj) as (x & Hx & Ax). specialize (K j). rewrite Hx in K. inversion K as [? y (E & _) E1 E2|].
  exists y. split; [done|]. by rewrite E.
Qed.

Lemma marks_4 s q : of_ac 4 (marks s q) = [].
Proof.
  unfold of_ac. induction q as [|f q IH]; [done|]. cbn [marks]. rewrite filter_cons, decide_False; [done|].
  destruct (mark_same s f q) as (_ & _ & _ & -> & _). pose proof (pending_lt (x_prio f)). lia.
Qed.

(** Waking up: every buffered frame of the station is queued for the hardware, in
    order, and its bits in the two maps are cleared. *)
Lemma wakeup_ok ws hf st i s : ps_inv st -> bmc_ready st -> stas st !! i = Some s -> bmc <> Some i -> asoc s = true -> zlen (ids st) < 2 ^ 32 ->
  exists st' s', wakeup_sta_to_xmit get_sta bmc ws hf st i = Ret st' /\ ps_inv st' /\ ids st' ≡ₚ ids st /\ kins st st' /\
    stas st' !! i = Some s' /\ sleeping s' = false /\ sleepq s' = [] /\ mgmt_sleepq s' = [] /\
    (forall k, nq s' k = if decide (k = 4%nat) then nq s 4 ++ map (set_trig true) (mgmt_sleepq s) else nq s k ++ of_ac k (marks s (sleepq s))) /\
    aid_in (tim st') (p_aid s) = false /\ aid_in (dz st') (p_aid s) = false /\
    (forall j, bmc = Some j -> (forall id, 1 <= id -> id <> p_aid s -> aid_in (dz st) id = false) ->
       exists x', stas st' !! j = Some x' /\ sleepq x' = [] /\ aid_in (tim st') 0 = false).
Proof.
  intros I Br H Nb As L. destruct (sleep_le st i s H) as [Lq Lm]. unfold wakeup_sta_to_xmit. rewrite (get_some _ _ _ H). simp_res.
  destruct (wake_mgmt_ok get_sta bmc nowhere i (mgmt_sleepq s) st s I H eq_refl) as
    (st1 & s1 & E1 & I1 & P1 & T1 & H1 & Q1 & G1 & S1 & N4 & N1); [lia|]. bind_step E1. rewrite (get_some _ _ _ H1). simp_res.
  destruct (wake_ac_ok get_sta bmc nowhere i (sleepq s1) st1 s1 I1 H1 eq_refl) as
    (st2 & s2 & E2 & I2 & P2 & T2 & H2 & Q2 & G2 & S2 & N2); [rewrite Q1; lia|]. bind_step E2.
  pose proof (same_sta_trans _ _ _ S1 S2) as S12. pose proof (others_trans _ _ _ _ T1 T2) as T12.
  assert (asoc s2 = true) as As2 by (destruct S12 as (_ & E & _); unfold asoc; by rewrite E).
  destruct (wake_up_done_ok nowhere st2 i s2 I2 H2 As2 Q2) as (st3 & E3 & I3 & P3 & W3 & Wt & Wd & _); [congruence|]. bind_step E3.
  set (s3 := set_state (awake (p_state s2)) s2) in *. assert (p_aid s2 = p_aid s) as Ea by apply S12. rewrite Ea in *.
  assert (stas st3 !! i = Some s3) as H3 by (rewrite W3, list_lookup_insert_eq; [done|by eapply lookup_lt_Some]).
  assert (forall j, j <> i -> stas st3 !! j = stas st !! j) as J3.
  { intros j N. rewrite W3, list_lookup_insert_ne by done. by apply T12. }
  assert (ids st3 ≡ₚ ids st) as P by (by rewrite P3, P2, P1).
  assert (0 <= p_aid s) as Pa by (by eapply (aid_nonneg _ _ nowhere st)).
  assert (aid_in (tim st3) (p_aid s) = false /\ aid_in (dz st3) (p_aid s) = false) as [Ct Cd].
  { rewrite Wt, Wd by done. by rewrite Z.eqb_refl. }
  assert (forall k, nq s3 k = if decide (k = 4%nat) then nq s 4 ++ map (set_trig true) (mgmt_sleepq s) else nq s k ++ of_ac k (marks s (sleepq s))) as N3.
  { intros k. change (nq s3 k) with (nq s2 k). rewrite N2, Q1. rewrite (marks_same s s1) by done.
    destruct (decide (k = 4%nat)) as [->|Nk]; [by rewrite marks_4, app_nil_r|by rewrite N1]. }
  assert (sleeping s3 = false) as Sl by apply awake_bits.
  assert (kins st st3) as Kn.
  { apply (kins_at i st st3 s s3 H H3); [|done]. destruct (same_kin _ _ S12) as (K1 & K2 & K3 & K4). repeat split; try done.
    unfold asoc in *. rewrite <- K1. apply awake_bits. }
  destruct bmc as [j|] eqn:Eb.
  - assert (j <> i) as Nj by congruence. destruct (Br j Eb) as (x & Hx & Ax).
    assert (stas st3 !! j = Some x) as Hx3 by (by rewrite J3).
    destruct (wake_group_ok ws hf st3 j x) as (b & st4 & x' & E4 & I4 & P4 & H4 & S4 & J4 & G4a & G4b); try congruence.
    { by rewrite Eb. } { unfold zlen in *. by rewrite P. }
    bind_step E4. rewrite <- Eb. destruct (beacon_if (aid_in (tim st2) (p_aid s) || b) nowhere st4 I4) as (I5 & F1 & F2 & F3 & F4).
    eexists _, s3. split; [done|]. split; [done|]. rewrite F1, F2, F3, F4. split; [by rewrite P4|]. split.
    { eapply kins_trans; [exact Kn|]. eapply kins_trans; [apply (kins_at j st3 st4 x x' Hx3 H4 (same_kin _ _ S4) J4)|by apply kins_same]. }
    split; [by rewrite J4|]. do 2 (split; [done|]). split; [by rewrite <- G2 in G1|]. split; [done|].
    assert (some_asleep (dz st3) \/ ~ some_asleep (dz st3)) as [C|C].
    { destruct (pi_maps _ _ _ st3 I3) as (M1 & _). destruct (not_empty_exclude_spec (dz st3) M1) as (r & _ & R). unfold some_asleep. rewrite <- R. destruct r; auto. }
    + rewrite (G4a C). do 2 (split; [done|]). intros j' Hj' Nd. exfalso. destruct C as (id & Hid & Ha). rewrite Wd in Ha by lia.
      apply andb_true_iff in Ha as [Na Ha]. apply negb_true_iff, Z.eqb_neq in Na. destruct T12 as (Td & _). rewrite Td, Nd in Ha by done. done.
    + destruct (G4b C) as (Q4 & W4t & W4d). rewrite W4t, W4d, Ct, Cd, !andb_false_r by done. do 2 (split; [done|]).
      intros j' Hj' _. assert (j' = j) as -> by congruence. exists x'. split; [done|]. split; [done|]. by rewrite W4t.
  - rewrite <- Eb in I3 |- *. simp_res. destruct (beacon_if (aid_in (tim st2) (p_aid s) || false) nowhere st3 I3) as (I5 & F1 & F2 & F3 & F4).
    eexists _, s3. split; [done|]. split; [done|]. rewrite F1, F2, F3, F4. split; [done|]. split; [eapply kins_trans; [exact Kn|by apply kins_same]|].
    do 3 (split; [done|]). split; [by rewrite <- G2 in G1|]. do 3 (split; [done|]). intros j Hj. congruence.
Qed.

(** ** Any sequence of events *)

(** The station table: addresses of the group, and only those, give the
    broadcast station. *)
Definition table_ok (st : ps) : Prop := forall ra i, get_sta ra = Some i ->
  is_Some (stas st !! i) /\ mcast ra = bool_decide (bmc = Some i).

(** The frames [ins] came in and the frames [out] went out. *)
Definition moved (ins out : list xframe) (st st' : ps) : Prop :=
  ps_inv st' /\ kins st st' /\ fids out ++ ids st' ≡ₚ fids ins ++ ids st.

Lemma kins_table st st' : kins st st' -> table_ok st -> table_ok st'.
Proof.
  intros K T ra i H. destruct (T ra i H) as [[x Hx] ?]. split; [|done]. specialize (K i). rewrite Hx in K. inversion K. by eexists.
Qed.
Lemma kins_refl st : kins st st.
Proof. by apply kins_same. Qed.

Lemma frame_sta_ok st f : table_ok st -> exists o, frame_sta get_sta st f = Ret o /\
  forall i, o = Some i -> frame_ok i f /\ exists s, stas st !! i = Some s /\ asoc s = true.
Proof.
  intros T. unfold frame_sta. case_bool_decide as E; [|by exists None]. destruct (get_sta (x_ra f)) as [i|] eqn:G; [|by exists None].
  destruct (T _ i G) as [[s Hs] Mc]. rewrite (get_some _ _ _ Hs). simp_res. eexists. split; [done|]. intros j Hj.
  destruct (asoc s) eqn:As; [|done]. injection Hj as <-. split; [done|by exists s].
Qed.

Lemma kept_moved i f s st st' : stas st !! i = Some s -> ps_inv st' -> kept_in i f s st st' -> moved [f] [] st st'.
Proof.
  intros H I K. split; [done|]. pose proof (kept_ids i f s st st' H K) as P. destruct K as (E & _). split.
  - apply (kins_at i st st' s (set_sleep (sleepq s ++ [f]) s) H); [rewrite E; apply list_lookup_insert_eq; by eapply lookup_lt_Some|done|].
    intros j N. by rewrite E, list_lookup_insert_ne.
  - simpl. rewrite P. by rewrite Permutation_app_comm.
Qed.
Lemma refused_moved f f' st : ps_inv st -> x_id f' = x_id f -> moved [f] [f'] st st.
Proof. intros I E. split; [done|]. split; [apply kins_refl|]. simpl. by rewrite E. Qed.

Lemma offer_ok ws hf st f : ps_inv st -> table_ok st -> zlen (ids st) + 1 < 2 ^ 32 ->
  exists b f' st', xmitframe_enqueue_for_sleeping_sta get_sta true ws hf st f = Ret (b, f', st') /\
    moved [f] (if b then [] else [f']) st st'.
Proof.
  intros I T L. unfold xmitframe_enqueue_for_sleeping_sta. cbn [negb]. destruct (frame_sta_ok st f T) as (o & E & O). bind_step E.
  destruct o as [i|]; [|eexists _, _, _; split; [done|by apply refused_moved]]. destruct (O i eq_refl) as (Fo & s & H & As).
  destruct (x_trig f).
  { eexists false, _, _. split; [done|]. apply refused_moved; [done|]. by destruct (mcast (x_ra f) && _). }
  destruct (sleep_le st i s H) as [Ls _]. destruct (Fo) as (_ & _ & ->). case_bool_decide as Bi.
  - destruct (sleep_bmc_ok get_sta bmc nowhere st i s f I H Fo As Bi) as (b & st' & E' & I' & _ & K); [lia|]. bind_step E'.
    eexists _, _, _. split; [done|]. destruct b; [by eapply kept_moved|subst; by apply refused_moved].
  - destruct (sleep_ucast_ok get_sta bmc nowhere st i s f I H Fo As Bi) as (st' & E' & I' & K); [lia|]. bind_step E'.
    eexists _, _, _. split; [done|]. destruct (sleeping s && _); [by eapply kept_moved|subst; by apply refused_moved].
Qed.

Lemma drop_ok ex st f : ps_inv_but ex st -> ps_inv_but ex (drop_frame f st).
Proof. intros [S L C M Da T]. by constructor. Qed.
Lemma drop_moved f st : ps_inv st -> moved [f] [] st (drop_frame f st).
Proof.
  intros I. split; [by apply drop_ok|]. split; [by apply kins_same|]. unfold ids, drop_frame. cbn [stas dropped].
  unfold fids. rewrite (map_app x_id (dropped st)). simpl. rewrite app_assoc. symmetry. apply Permutation_cons_append.
Qed.
Lemma pushed_moved i k f s st : stas st !! i = Some s -> ps_inv (pushed i k f s st) -> ids (pushed i k f s st) ≡ₚ ids st ++ [x_id f] ->
  moved [f] [] st (pushed i k f s st).
Proof.
  intros H I P. split; [done|]. split; [|simpl; rewrite P; by rewrite Permutation_app_comm].
  apply (kins_at i st _ s (set_queue k (nq s k ++ [f]) s) H); [|done|]; unfold pushed, put; cbn [stas set_hwq set_stas].
  - apply list_lookup_insert_eq. by eapply lookup_lt_Some.
  - intros j N. by rewrite list_lookup_insert_ne.
Qed.

Lemma pre_ok busy st f : ps_inv st -> table_ok st -> exists out st', pre_xmitframe get_sta busy st f = Ret (out, st') /\ moved [f] out st st'.
Proof.
  intros I T. unfold pre_xmitframe, rtw_txframes_sta_ac_pending, rtw_xmit_classifier. destruct (frame_sta_ok st f T) as (o & E & O).
  rewrite E. simp_res. destruct o as [i|].
  - destruct (O i eq_refl) as (Fo & s & H & As). rewrite (get_some _ _ _ H). simp_res.
    destruct (_ || busy); [|eexists _, _; split; [done|by apply refused_moved]].
    pose proof (pending_lt (x_prio f)).
    destruct (push_servq_ok get_sta bmc nowhere st i (rtw_get_sta_pending (x_prio f)) f s I H) as (E1 & I1 & P1); [lia|done..|lia|].
    bind_step E1. eexists _, _. split; [done|]. by apply pushed_moved.
  - destruct busy; eexists _, _; (split; [done|]); [by apply drop_moved|by apply refused_moved].
Qed.

Lemma mgmt_ok st f : ps_inv st -> table_ok st -> x_sta f = get_sta (x_ra f) -> (mcast (x_ra f) = true -> x_ra f = replicate 6 255) ->
  zlen (ids st) + 1 < 2 ^ 32 -> exists out st', rtw_hal_mgnt_xmit true st f = Ret (out, st') /\ moved [f] out st st'.
Proof.
  intros I T Es Bc L. unfold rtw_hal_mgnt_xmit.
  assert (forall r, r <> RTW_QUEUE_MGMT -> mgmt_xmitframe_enqueue_for_sleeping_sta st f = Ret (r, st) ->
    exists out st', ('(r, st) ← mgmt_xmitframe_enqueue_for_sleeping_sta st f; Ret (if r =? RTW_QUEUE_MGMT then [] else [f], st)) = Ret (out, st') /\
      moved [f] out st st') as No.
  { intros r Nr E. bind_step E. apply Z.eqb_neq in Nr. rewrite Nr. eexists _, _. split; [done|by apply refused_moved]. }
  destruct (bool_decide (x_ra f = replicate 6 255) || x_dontq f) eqn:Eb.
  { apply (No 0); [done|]. unfold mgmt_xmitframe_enqueue_for_sleeping_sta. by rewrite Eb. }
  apply orb_false_iff in Eb as [Eb Dq]. apply bool_decide_eq_false in Eb.
  destruct (x_sta f) as [i|] eqn:Xs; [|apply (No 0); [done|]; unfold mgmt_xmitframe_enqueue_for_sleeping_sta;
    rewrite bool_decide_false, Dq, Xs by done; done].
  destruct (T _ i (eq_sym Es)) as [[s H] Mc].
  assert (mcast (x_ra f) = false) as Mf by (destruct (mcast (x_ra f)); [by destruct Eb; apply Bc|done]).
  assert (bmc <> Some i) as Nb by (rewrite Mf in Mc; intros C; by rewrite bool_decide_true in Mc).
  destruct (asoc s) eqn:As; [|apply (No 0); [done|]; unfold mgmt_xmitframe_enqueue_for_sleeping_sta;
    rewrite bool_decide_false, Dq, Xs by done; simpl; rewrite (get_some _ _ _ H); simp_res; by rewrite As].
  assert (frame_ok i f) as Fo by done. destruct (sleep_le st i s H) as [_ Lm].
  destruct (pi_maps _ _ _ st I) as (_ & _ & _ & _ & M5). specialize (M5 i s H).
  destruct (sleeping s && aid_in (dz st) (p_aid s)) eqn:K.
  - apply andb_true_iff in K as [K1 K2]. assert (keeps bmc st i s) as Kp by (unfold keeps; by rewrite bool_decide_false).
    destruct (mgmt_enqueue_ok get_sta bmc nowhere st i s f I H Fo As Dq Nb) as (st' & E & I' & P & _ & Es' & _); [lia|done|].
    bind_step E. eexists _, _. split; [done|]. split; [done|]. split; [|simpl; rewrite P; by rewrite Permutation_app_comm].
    apply (kins_at i st st' s (set_mgmt_sleep (mgmt_sleepq s ++ [f]) s) H); [rewrite Es'; apply list_lookup_insert_eq; by eapply lookup_lt_Some|done|].
    intros j N. by rewrite Es', list_lookup_insert_ne.
  - apply (No 1); [done|]. unfold mgmt_xmitframe_enqueue_for_sleeping_sta. rewrite bool_decide_false, Dq, Xs by done. simpl.
    rewrite (get_some _ _ _ H). simp_res. rewrite As. destruct (sleeping s); [|done]. rewrite (is_set_ok nowhere st) by done. simp_res.
    simpl in K. by rewrite K.
Qed.

(** A step that keeps every frame. *)
Lemma moved_same st st' : ps_inv st' -> kins st st' -> ids st' ≡ₚ ids st -> moved [] [] st st'.
Proof. intros I K P. by split. Qed.
Lemma moved_refl st : ps_inv st -> moved [] [] st st.
Proof. intros I. apply moved_same; [done|apply kins_refl|done]. Qed.

Lemma power_ok ws hf st i b s : ps_inv st -> bmc_ready st -> stas st !! i = Some s -> asoc s = true -> bmc <> Some i -> zlen (ids st) < 2 ^ 32 ->
  exists st', process_pwrbit_data get_sta bmc true ws hf st i b = Ret st' /\ moved [] [] st st'.
Proof.
  intros I Br H As Nb L. unfold process_pwrbit_data. rewrite (get_some _ _ _ H). simp_res.
  assert (bmc_exists bmc st) as Be by (intros j Hj; destruct (Br j Hj) as (x & Hx & _); by exists x).
  destruct b, (sleeping s); try (eexists; split; [done|by apply moved_refl]).
  - destruct (stop_sta_xmit_ok get_sta bmc ws hf st i s I Be H Nb L) as (st' & s' & E & I' & P & _ & _ & _ & _ & _ & _ & _ & K).
    exists st'. split; [done|by apply moved_same].
  - destruct (wakeup_ok ws hf st i s I Br H Nb As L) as (st' & s' & E & I' & P & K & _). exists st'. split; [done|by apply moved_same].
Qed.

Lemma trigger_ok st i prio s : ps_inv st -> stas st !! i = Some s -> zlen (ids st) < 2 ^ 32 ->
  exists b st', process_wmmps_data get_sta st i prio = Ret (b, st') /\ moved [] [] st st'.
Proof.
  intros I H L. unfold process_wmmps_data. rewrite (get_some _ _ _ H). simp_res. destruct (sleep_le st i s H) as [Ls _].
  destruct (qos_option s); [|by exists false, st; split; [|apply moved_refl]]. simpl.
  destruct (_ =? 0); [by exists false, st; split; [|apply moved_refl]|]. destruct (sleeping s && _); [|by exists false, st; split; [|apply moved_refl]].
  destruct (0 <? _); [|by exists true, st; split; [|apply moved_refl]]. unfold xmit_delivery_enabled_frames. rewrite (get_some _ _ _ H). simp_res.
  destruct (deliver_ok get_sta bmc nowhere i (sleepq s) st s [] I H eq_refl) as (st' & s' & E & I' & P & H' & _ & S & _ & _ & J); [simpl; lia|].
  bind_step E. exists false, st'. split; [done|]. apply moved_same; [done| |done]. by apply (kins_at i st st' s s' H H' (same_kin _ _ S)).
Qed.

Lemma dtim_ok ws hf st : ps_inv st -> bmc_ready st -> zlen (ids st) < 2 ^ 32 ->
  exists st', chk_bmc_sleepq_hdl get_sta bmc ws hf st = Ret st' /\ moved [] [] st st'.
Proof.
  intros I Br L. unfold chk_bmc_sleepq_hdl. destruct bmc as [j|] eqn:Eb; [|rewrite <- Eb in I; exists st; split; [done|by apply moved_refl]].
  rewrite <- Eb in I. destruct (Br j Eb) as (x & H & _). rewrite (get_some _ _ _ H). simp_res. destruct (sleep_le st j x H) as [Ls _].
  destruct (pi_maps _ _ _ st I) as (_ & _ & _ & M4 & _). rewrite (is_set_ok nowhere st) by (done || lia). simp_res.
  destruct (_ && _); [|exists st; split; [done|by apply moved_refl]].
  destruct (wake_bmc_ok get_sta bmc nowhere ws hf true j (sleepq x) Eb st x I H eq_refl) as (st' & x' & E & I' & P & T & H' & _ & S); [lia|].
  exists st'. split; [done|]. apply moved_same; [done| |done]. apply (kins_at j st st' x x' H H' (same_kin _ _ S)). apply T.
Qed.

Lemma burst_ok ws hf j n : bmc = Some j -> forall st x, ps_inv st -> stas st !! j = Some x -> zlen (ids st) < 2 ^ 32 ->
  exists st', bmc_burst get_sta ws hf n st j (sleepq x) = Ret st' /\ moved [] [] st st' /\ tim st' = tim st /\
    exists x', stas st' !! j = Some x' /\ sleepq x' = drop n (sleepq x).
Proof.
  intros Bj. induction n as [|n IH]; intros st x I H L; cbn [bmc_burst].
  { exists st. split; [by destruct (sleepq x)|]. split; [by apply moved_refl|]. split; [done|]. exists x. by rewrite drop_0. }
  destruct (sleepq x) as [|f q] eqn:Q; [exists st; split; [done|]; split; [by apply moved_refl|]; split; [done|]; by exists x; rewrite Q|].
  pose proof (pi_sta _ _ _ st I j x H) as O. rewrite (get_some _ _ _ H). simp_res. destruct (sleep_le st j x H) as [Ls _].
  assert (u32 (sleepq_len x - 1) = zlen q) as En.
  { rewrite (so_len _ _ j x O), Q, zlen_cons in *. rewrite (wrap_small 32) by (unfold fits; zlen_lia). lia. }
  assert (sleepq_ac_len x = wmm_count x q) as Ea.
  { rewrite (so_ac _ _ j x O), Q. fold (wmm_count x (f :: q)). by rewrite !(bmc_count get_sta bmc j). }
  rewrite En, Ea. fold (set_sleep q x). match goal with |- context [rtw_hal_xmitframe_enqueue _ _ ?x] => set (f' := x) end.
  assert (same_frame f f') as Sf by (unfold f'; by destruct (xmitframe_hiq_filter _ _ _)).
  destruct (take_step get_sta bmc nowhere st j x [] f q f' I H Q Sf) as (st1 & E1 & I1 & P1 & T1 & H1). cbn [app] in E1, H1. bind_step E1.
  set (x1 := set_queue _ _ _) in H1. destruct (IH st1 x1 I1 H1) as (st' & E' & (I' & K' & P') & T' & x' & Hx' & Qx'); [unfold zlen in *; by rewrite P1|].
  exists st'. split; [exact E'|]. destruct T1 as (_ & Tt & _ & Tj). split; [|split; [by rewrite T', Tt|]].
  - apply moved_same; [done| |by rewrite <- P1]. eapply kins_trans; [|exact K']. by apply (kins_at j st st1 x x1 H H1).
  - by exists x'.
Qed.

Lemma bmc_frames_ok ws hf st : ps_inv st -> bmc_ready st -> zlen (ids st) < 2 ^ 32 ->
  exists st', rtw_ap_bmc_frames_hdl get_sta bmc ws hf st = Ret st' /\ moved [] [] st st'.
Proof.
  intros I Br L. unfold rtw_ap_bmc_frames_hdl. destruct ws; simpl; [|exists st; split; [done|by apply moved_refl]].
  destruct bmc as [j|] eqn:Eb; [|rewrite <- Eb in I; exists st; split; [done|by apply moved_refl]]. rewrite <- Eb in I.
  destruct (Br j Eb) as (x & H & As). rewrite (get_some _ _ _ H). simp_res. pose proof (pi_sta _ _ _ st I j x H) as O.
  destruct (pi_maps _ _ _ st I) as (_ & _ & _ & M4 & _). rewrite (is_set_ok nowhere st) by (done || lia). simp_res.
  rewrite (so_len _ _ j x O). destruct (_ && _).
  - destruct (burst_ok true hf j (Z.to_nat HIQ_XMIT_COUNTS) Eb (update_beacon_tim st) x) as (st' & E & Mv & _); [by apply beacon_inv|done|done|].
    exists st'. split; [exact E|exact Mv].
  - destruct (Z.eqb_spec (zlen (sleepq x)) 0) as [Z0|]; [|exists st; split; [done|by apply moved_refl]].
    assert (sleepq x = []) as Q by (destruct (sleepq x); [done|zlen_lia]). destruct (so_bmc _ _ j x O Eb) as [_ A0].
    destruct (clear_tim_inv get_sta bmc nowhere st j x I H As (no_frames_no_must j x Q)) as (t & Et & It & _). rewrite A0 in Et. bind_step Et.
    destruct (dz_clear_ok nowhere (set_tim t st) 0 It) as (d & Ed & Id & _).
    { destruct (pi_maps _ _ _ _ It) as (_ & _ & _ & ? & _). lia. }
    change (dz (set_tim t st)) with (dz st) in *. bind_step Ed. eexists. split; [done|].
    destruct (beacon_if (aid_in (tim st) 0) nowhere (set_dz d (set_tim t st)) Id) as (I5 & F1 & F2 & F3 & F4).
    apply moved_same; [done|by apply kins_same|by rewrite F4].
Qed.

(** A PS-Poll frame, when the frame it asks for is not of a delivery enabled
    category. *)
Definition poll_legacy (s : psta) : bool :=
  match sleepq s with [] => true | f :: _ => negb (wmmps_ac s (x_prio f) 1) end.

Lemma put_kins st i s s' : stas st !! i = Some s -> kin s s' -> kins st (put i s' st).
Proof.
  intros H K. apply (kins_at i st _ s s' H); [apply list_lookup_insert_eq; by eapply lookup_lt_Some|done|].
  intros j N. unfold put. cbn [stas set_stas]. by rewrite list_lookup_insert_ne.
Qed.

Lemma alive_asoc x : negb (Z.land (Z.lxor x WIFI_STA_ALIVE_CHK_STATE) WIFI_ASOC_STATE =? 0) = negb (Z.land x WIFI_ASOC_STATE =? 0).
Proof.
  change WIFI_ASOC_STATE with (BIT 0). change WIFI_STA_ALIVE_CHK_STATE with (BIT 10). rewrite !land_BIT, flip_bit by lia.
  change (10 =? 0) with false. apply xorb_false_r.
Qed.

Lemma poll_ok st i aid prio s : ps_inv st -> stas st !! i = Some s -> asoc s = true -> poll_legacy s = true -> zlen (ids st) < 2 ^ 32 ->
  exists b st', ps_poll get_sta st i aid prio = Ret (b, st') /\ moved [] [] st st'.
Proof.
  intros I H As Pl L. unfold ps_poll. rewrite (get_some _ _ _ H). simp_res.
  destruct (negb (p_aid s =? aid)); [by exists false, st; split; [|apply moved_refl]|].
  destruct (wmmps_ac s prio 0); [by exists false, st; split; [|apply moved_refl]|].
  set (s0 := if Z.land (p_state s) WIFI_STA_ALIVE_CHK_STATE =? 0 then _ else _).
  pose proof (pi_sta _ _ _ st I i s H) as O.
  assert (asoc s0 = asoc s /\ sta_ok i s0 /\ ps_inv (put i s0 st) /\ kin s s0) as (A0 & O0 & I0 & K0).
  { assert (asoc s0 = asoc s) as A0 by (unfold s0; destruct (_ =? 0); [done|apply alive_asoc]).
    assert (sta_ok i s0) as O0 by (unfold s0 in *; destruct (_ =? 0); [done|by apply set_state_ok]). split; [done|]. split; [done|].
    assert (servq s0 = servq s /\ p_aid s0 = p_aid s /\ sleepq s0 = sleepq s /\ uapsd s0 = uapsd s /\ has_legacy_ac s0 = has_legacy_ac s) as
      (E1 & E2 & E3 & E4 & E5) by (unfold s0; by destruct (_ =? 0)).
    split; [|by repeat split]. apply (put_inv get_sta bmc nowhere st i s); try done. apply must_sub; [by rewrite E3|done|done]. }
  assert (sleepq s0 = sleepq s /\ (forall p, wmmps_ac s0 p 1 = wmmps_ac s p 1)) as [Q0 W0] by (unfold s0; by destruct (_ =? 0)).
  set (st0 := put i s0 st) in *. assert (stas st0 !! i = Some s0) as H0 by (apply list_lookup_insert_eq; by eapply lookup_lt_Some).
  assert (ids st0 ≡ₚ ids st) as P0.
  { apply (ids_put_same st i s s0 H). unfold s0. by destruct (_ =? 0). }
  assert (kins st st0) as Kn by (by eapply put_kins). assert (moved [] [] st st0) as Mv0 by (by apply moved_same).
  destruct (sleep_le st0 i s0 H0) as [Ls _]. assert (zlen (ids st0) = zlen (ids st)) as Zl by (unfold zlen; by rewrite P0).
  clearbody s0. destruct (pi_maps _ _ _ st0 I0) as (_ & _ & _ & _ & M5). specialize (M5 i s0 H0).
  assert ((if sleeping s0 then tim_map_is_set (dz st0) (p_aid s0) else Ret false) = Ret (sleeping s0 && aid_in (dz st0) (p_aid s0))) as ->
    by (destruct (sleeping s0); [by rewrite (is_set_ok nowhere st0)|done]). simp_res.
  destruct (sleeping s0 && _); [|by exists false, st0]. unfold poll_legacy in Pl. rewrite <- Q0 in Pl. destruct (sleepq s0) as [|f q] eqn:Q.
  - rewrite (is_set_ok nowhere st0) by done. simp_res. destruct (aid_in (tim st0) (p_aid s0)); [|by exists false, st0].
    rewrite (so_len _ _ i s0 O0), Q. change (zlen [] =? 0) with true. cbv iota.
    destruct (clear_tim_inv get_sta bmc nowhere st0 i s0 I0 H0 ltac:(congruence) (no_frames_no_must i s0 Q)) as (t & Et & It & _).
    bind_step Et. eexists _, _. split; [done|]. apply moved_same; [by apply beacon_inv|exact Kn|exact P0].
  - apply negb_true_iff in Pl. rewrite <- W0 in Pl.
    assert (u32 (sleepq_len s0 - 1) = zlen q) as En.
    { rewrite (so_len _ _ i s0 O0), Q, zlen_cons in *. rewrite (wrap_small 32) by (unfold fits; zlen_lia). lia. }
    assert (sleepq_ac_len s0 = wmm_count s0 q) as Ea.
    { rewrite (so_ac _ _ i s0 O0), Q. fold (wmm_count s0 (f :: q)). by rewrite wmm_count_cons, Pl. }
    rewrite En, Ea. fold (set_sleep q s0). match goal with |- context [rtw_hal_xmitframe_enqueue _ _ ?x] => set (f' := x) end.
    destruct (take_step get_sta bmc nowhere st0 i s0 [] f q f' I0 H0 Q) as (st1 & E1 & I1 & P1 & T1 & H1); [by repeat split|].
    cbn [app] in E1, H1. bind_step E1. set (s1 := set_queue _ _ _) in H1.
    assert (kins st st1) as Kn1 by (eapply kins_trans; [exact Kn|]; apply (kins_at i st0 st1 s0 s1 H0 H1); [done|apply T1]).
    assert (ids st1 ≡ₚ ids st) as P1' by (by rewrite P1). destruct (Z.eqb_spec (zlen q) 0) as [Z0|].
    + assert (sleepq s1 = []) as Q1 by (change (sleepq s1) with q; destruct q; [done|zlen_lia]).
      destruct (clear_tim_inv get_sta bmc nowhere st1 i s1 I1 H1) as (t & Et & It & _);
        [change (asoc s1) with (asoc s0); congruence|by apply no_frames_no_must|].
      change (p_aid s1) with (p_aid s0) in Et. bind_step Et. eexists _, _. split; [done|]. apply moved_same; [by apply beacon_inv|exact Kn1|exact P1'].
    + exists false, st1. split; [done|]. by apply moved_same.
Qed.

(** The events of an access point; [Offer] is the first critical section of a
    transmission and [Pre] the second one, so that a station may fall asleep
    between the two. *)
Inductive event :=
| Offer (f : xframe) | Pre (busy : bool) (f : xframe) | Mgmt (f : xframe) | Power (i : nat) (pwrbit : bool)
| Trigger (i : nat) (priority : Z) | Poll (i : nat) (aid priority : Z) | Dtim | Burst | Dequeue | DequeueMgmt.

Definition given (e : event) : list xframe := match e with Offer f | Pre _ f | Mgmt f => [f] | _ => [] end.

(** What the runs leave out: management frames that name another station than their
    address or are for a group other than the broadcast one, the power bit of the group,
    of a station that is not associated or not there, trigger and PS-Poll frames of such
    stations, and the PS-Poll frames that would take a delivery enabled frame. *)
Definition event_ok (st : ps) (e : event) : bool :=
  match e with
  | Mgmt f => bool_decide (x_sta f = get_sta (x_ra f)) && (negb (mcast (x_ra f)) || bool_decide (x_ra f = replicate 6 255))
  | Power i _ => match stas st !! i with Some s => asoc s && bool_decide (bmc <> Some i) | None => false end
  | Trigger i _ => match stas st !! i with Some s => true | None => false end
  | Poll i _ _ => match stas st !! i with Some s => asoc s && poll_legacy s | None => false end
  | _ => true
  end.

Context (ws : bool) (hf : Z) (wmm_para_seq : list nat).

Definition step (st : ps) (e : event) : res (list xframe * ps) :=
  match e with
  | Offer f => '(b, f, st) ← xmitframe_enqueue_for_sleeping_sta get_sta true ws hf st f; Ret (if b : bool then [] else [f], st)
  | Pre busy f => pre_xmitframe get_sta busy st f
  | Mgmt f => rtw_hal_mgnt_xmit true st f
  | Power i b => st ← process_pwrbit_data get_sta bmc true ws hf st i b; Ret ([], st)
  | Trigger i p => '(_, st) ← process_wmmps_data get_sta st i p; Ret ([], st)
  | Poll i aid p => '(_, st) ← ps_poll get_sta st i aid p; Ret ([], st)
  | Dtim => st ← chk_bmc_sleepq_hdl get_sta bmc ws hf st; Ret ([], st)
  | Burst => st ← rtw_ap_bmc_frames_hdl get_sta bmc ws hf st; Ret ([], st)
  | Dequeue => '(o, st) ← rtw_dequeue_xframe ws wmm_para_seq st; Ret (match o with Some f => [f] | None => [] end, st)
  | DequeueMgmt => '(o, st) ← rtw_dequeue_mgmt_xframe st; Ret (match o with Some f => [f] | None => [] end, st)
  end.

Fixpoint run (st : ps) (es : list event) : res (list xframe * ps) :=
  match es with
  | [] => Ret ([], st)
  | e :: es => '(out, st) ← step st e; '(out', st) ← run st es; Ret (out ++ out', st)
  end.
Fixpoint events_ok (st : ps) (es : list event) : bool :=
  match es with
  | [] => true
  | e :: es => event_ok st e && match step st e with Ret (_, st) => events_ok st es | _ => true end
  end.

Lemma taken_kins i k f st st' : taken i k f st st' -> kins st st'.
Proof.
  intros (s & q & H & _ & E & _). apply (kins_at i st st' s (set_queue k q s) H); rewrite ?E; [apply list_lookup_insert_eq; by eapply lookup_lt_Some|done|].
  intros j N. by rewrite list_lookup_insert_ne.
Qed.

Lemma dequeue_moved st inx : ps_inv st -> Forall (fun k => (k < 5)%nat) inx ->
  exists out st', ('(o, st) ← dequeue_acs st inx; Ret (match o with Some f => [f] | None => [] end, st)) = Ret (out, st') /\ moved [] out st st'.
Proof.
  intros I F. destruct (dequeue_acs_ok inx st I F) as [[E _]|(pre & k & post & i & f & st' & _ & _ & E & T & I' & P)]; bind_step E.
  - exists [], st. split; [done|by apply moved_refl].
  - exists [f], st'. split; [done|]. split; [done|]. split; [by eapply taken_kins|]. simpl. rewrite <- P. apply Permutation_cons_append.
Qed.

Lemma step_ok st e : ps_inv st -> bmc_ready st -> table_ok st -> Forall (fun k => (k < 4)%nat) wmm_para_seq ->
  event_ok st e = true -> zlen (ids st) + 1 < 2 ^ 32 -> exists out st', step st e = Ret (out, st') /\ moved (given e) out st st'.
Proof.
  intros I Br T Sq Ok L. destruct e; cbn [step given event_ok] in *.
  - destruct (offer_ok ws hf st f I T L) as (b & f' & st' & E & Mv). bind_step E. by eexists _, _.
  - by apply pre_ok.
  - apply andb_true_iff in Ok as [O1 O2]. apply bool_decide_eq_true in O1. apply mgmt_ok; try done. intros Mc. rewrite Mc in O2. by apply bool_decide_eq_true in O2.
  - destruct (stas st !! i) as [s|] eqn:H; [|done]. apply andb_true_iff in Ok as [O1 O2]. apply bool_decide_eq_true in O2.
    destruct (power_ok ws hf st i pwrbit s I Br H O1 O2) as (st' & E & Mv); [lia|]. bind_step E. by eexists _, _.
  - destruct (stas st !! i) as [s|] eqn:H; [|done]. destruct (trigger_ok st i priority s I H) as (b & st' & E & Mv); [lia|]. bind_step E. by eexists _, _.
  - destruct (stas st !! i) as [s|] eqn:H; [|done]. apply andb_true_iff in Ok as [O1 O2].
    destruct (poll_ok st i aid priority s I H O1 O2) as (b & st' & E & Mv); [lia|]. bind_step E. by eexists _, _.
  - destruct (dtim_ok ws hf st I Br) as (st' & E & Mv); [lia|]. bind_step E. by eexists _, _.
  - destruct (bmc_frames_ok ws hf st I Br) as (st' & E & Mv); [lia|]. bind_step E. by eexists _, _.
  - apply dequeue_moved; [done|]. destruct ws; [by eapply Forall_impl; [exact Sq|simpl; lia]|repeat constructor; lia].
  - destruct (dequeue_moved st [4%nat] I) as (out & st' & E & Mv); [by repeat constructor|]. exists out, st'. split; [|done].
    rewrite <- E. cbn [dequeue_acs]. unfold rtw_dequeue_mgmt_xframe.
    destruct (dequeue_linked st 4 (default [] (hwq st !! 4%nat))) as [[[f'|] st1]| |] eqn:D; try done.
    destruct (dequeue_linked_ok st 4 I) as (l & El & Dl); [lia|]. rewrite El in D. change (default [] (Some l)) with l in D.
    destruct l; [rewrite Dl in D; by simplify_eq|]. destruct Dl as (f' & st2 & D' & _). congruence.
Qed.

Lemma run_ok es : forall st, ps_inv st -> bmc_ready st -> table_ok st -> Forall (fun k => (k < 4)%nat) wmm_para_seq ->
  events_ok st es = true -> zlen (ids st) + zlen es < 2 ^ 32 -> exists out st', run st es = Ret (out, st') /\ moved (concat (map given es)) out st st'.
Proof.
  induction es as [|e es IH]; intros st I Br T Sq Ok L; cbn [run map concat].
  { exists [], st. split; [done|by apply moved_refl]. }
  cbn [events_ok] in Ok. apply andb_true_iff in Ok as [O1 O2]. rewrite zlen_cons in L. pose proof (zlen_nonneg es).
  destruct (step_ok st e I Br T Sq O1) as (out & st1 & E & I1 & K1 & P1); [lia|]. bind_step E. rewrite E in O2.
  destruct (IH st1 I1 (kins_bmc _ _ K1 Br) (kins_table _ _ K1 T) Sq O2) as (out' & st' & E' & I' & K' & P').
  { assert (zlen (fids out ++ ids st1) = zlen (fids (given e) ++ ids st)) as Z by (unfold zlen; by rewrite P1). rewrite !zlen_app in Z.
    assert (zlen (fids (given e)) <= 1) by (by destruct e). pose proof (zlen_nonneg (fids out)). lia. }
  bind_step E'. exists (out ++ out'), st'. split; [done|]. split; [done|]. split; [by eapply kins_trans|]. unfold fids in *. rewrite !map_app, <- !app_assoc.
  rewrite P', app_assoc, (Permutation_app_comm (map x_id out)), <- app_assoc, P1, !app_assoc.
  apply Permutation_app_tail, Permutation_app_comm.
Qed.

(** ** What the queues promise *)

(** C13: In any sequence of transmissions, changes of the power management bit,
    trigger frames, PS-Poll frames, DTIM beacons and dequeues that [events_ok] admits,
    with fewer than 2^32 frames in all, every operation of the access point returns;
    every frame handed in is in exactly one place afterwards (a queue for the hardware,
    a buffer of a sleeping station, sent, or counted as dropped), none is lost or
    doubled; all counters, linked lists and bitmaps are consistent; and a station for
    which a data frame is buffered that it must learn of from the beacon has its bit in
    the traffic map.  [events_ok] asks that management frames name the station of their
    address or are broadcast; that the power bit comes from an associated station (not
    the group), a trigger frame from a known one, and a PS-Poll from an associated one
    whose oldest buffered frame, if it has one, is not of a delivery enabled category.
    Without the last condition the count of delivery enabled frames goes wrong
    ([ps_poll_silences_triggers]); and buffered management frames need not be announced
    ([ps_poll_hides_management]). *)
Theorem ps_run_conserves es st : ps_inv st -> bmc_ready st -> table_ok st -> Forall (fun k => (k < 4)%nat) wmm_para_seq ->
  events_ok st es = true -> zlen (ids st) + zlen es < 2 ^ 32 ->
  exists out st', run st es = Ret (out, st') /\ ps_inv st' /\ fids out ++ ids st' ≡ₚ fids (concat (map given es)) ++ ids st /\
    forall i s, stas st' !! i = Some s -> must_announce bmc i s -> aid_in (tim st') (p_aid s) = true.
Proof.
  intros I Br T Sq Ok L. destruct (run_ok es st I Br T Sq Ok L) as (out & st' & E & I' & _ & P).
  exists out, st'. do 3 (split; [done|]). apply (pi_tim _ _ _ st' I').
Qed.

(** C38: [rtw_dequeue_xframe] never leaves a pending frame behind and serves the
    access categories strictly in their order: it answers [None] only when no
    station has a frame of any category pending; otherwise it takes the oldest
    frame of a station from the first category, in the order of the queues, for
    which any frame is pending, and keeps everything else. *)
Theorem rtw_dequeue_xframe_strict st : ps_inv st -> Permutation wmm_para_seq [0; 1; 2; 3]%nat ->
  let inx := if ws then wmm_para_seq else [0; 1; 2; 3]%nat in
  (rtw_dequeue_xframe ws wmm_para_seq st = Ret (None, st) /\ forall k, (k < 4)%nat -> idle st k) \/
  exists pre k post i s f q st', rtw_dequeue_xframe ws wmm_para_seq st = Ret (Some f, st') /\ inx = pre ++ k :: post /\
    (forall k', k' ∈ pre -> idle st k') /\ stas st !! i = Some s /\ nq s k = f :: q /\
    stas st' = <[i := set_queue k q s]> (stas st) /\ ps_inv st' /\ ids st' ++ [x_id f] ≡ₚ ids st.
Proof.
  intros I Sq inx. assert (Permutation inx [0; 1; 2; 3]%nat) as Pi by (unfold inx; by destruct ws).
  assert (forall k, k ∈ inx <-> (k < 4)%nat) as In by (intros k; rewrite Pi, list_elem_of_In; simpl; lia).
  assert (Forall (fun k => (k < 5)%nat) inx) as F by (apply Forall_forall; intros k Hk; apply In in Hk; lia).
  unfold rtw_dequeue_xframe. fold inx.
  destruct (dequeue_acs_ok inx st I F) as [[E Id]|(pre & k & post & i & f & st' & Ei & Id & E & (s & q & H & Q & Es & _) & I' & P)].
  - left. split; [done|]. intros k Hk. rewrite Forall_forall in Id. by apply Id, In.
  - right. exists pre, k, post, i, s, f, q, st'. rewrite Forall_forall in Id. done.
Qed.

Lemma fids_marks s q : fids (marks s q) = fids q.
Proof. induction q as [|f q IH]; [done|]. cbn [marks fids map]. unfold fids in IH. rewrite IH. by destruct (mark_same s f q) as (-> & _). Qed.
Lemma of_ac_marks s k q : fids (of_ac k (marks s q)) = fids (of_ac k q).
Proof.
  unfold of_ac. induction q as [|f q IH]; [done|]. cbn [marks]. rewrite !filter_cons. destruct (mark_same s f q) as (E & _ & _ & -> & _).
  destruct (decide _); [cbn [fids map]; unfold fids in IH; by rewrite IH, E|done].
Qed.
Lemma of_ac_trig b k q : fids (of_ac k (map (set_trig b) q)) = fids (of_ac k q).
Proof.
  unfold of_ac. induction q as [|f q IH]; [done|]. cbn [map]. rewrite !filter_cons. change (x_prio (set_trig b f)) with (x_prio f).
  destruct (decide _); [cbn [fids map]; unfold fids in IH; by rewrite IH|done].
Qed.
Lemma of_ac_all k q : (forall f, f ∈ q -> rtw_get_sta_pending (x_prio f) = k) -> of_ac k q = q.
Proof.
  unfold of_ac. induction q as [|f q IH]; intros P; [done|]. rewrite filter_cons, decide_True by (apply P; by left). f_equal.
  apply IH. intros x Hx. apply P. by right.
Qed.
Lemma of_ac_none k q : (forall f, f ∈ q -> rtw_get_sta_pending (x_prio f) <> k) -> of_ac k q = [].
Proof.
  unfold of_ac. induction q as [|f q IH]; intros P; [done|]. rewrite filter_cons, decide_False by (apply P; by left).
  apply IH. intros x Hx. apply P. by right.
Qed.
Lemma of_ac_queues i s k : sta_ok i s -> (k < 4)%nat -> of_ac k (nq s 0 ++ nq s 1 ++ nq s 2 ++ nq s 3) = nq s k.
Proof.
  intros O Hk. assert (forall k', (k' < 4)%nat -> of_ac k (nq s k') = if decide (k' = k) then nq s k else []) as E.
  { intros k' Hk'. destruct (decide (k' = k)) as [->|N].
    - apply of_ac_all. intros f. by apply (so_place _ _ i s O).
    - apply of_ac_none. intros f Hf. by rewrite (so_place _ _ i s O k' f Hk' Hf). }
  unfold of_ac in *. rewrite !filter_app, !E by lia. repeat destruct (decide _); try lia; by rewrite ?app_nil_r.
Qed.

(** C26: Falling asleep and waking up is lossless: when an associated station whose
    buffers are empty announces power save, all its pending frames are buffered;
    when it wakes up each of its send queues holds the same frames in the same
    order as before, its buffers are empty, it is awake, and its traffic bit and
    its sleep bit are clear. *)
Theorem sleep_wake_roundtrip st i s : ps_inv st -> bmc_ready st -> stas st !! i = Some s -> bmc <> Some i -> asoc s = true ->
  sleepq s = [] -> mgmt_sleepq s = [] -> zlen (ids st) < 2 ^ 32 ->
  exists st1 s1 st2 s2, stop_sta_xmit get_sta bmc true ws hf st i = Ret st1 /\ stas st1 !! i = Some s1 /\ (forall k, nq s1 k = []) /\
    wakeup_sta_to_xmit get_sta bmc ws hf st1 i = Ret st2 /\ stas st2 !! i = Some s2 /\ sleeping s2 = false /\
    sleepq s2 = [] /\ mgmt_sleepq s2 = [] /\ (forall k, fids (nq s2 k) = fids (nq s k)) /\
    aid_in (tim st2) (p_aid s) = false /\ aid_in (dz st2) (p_aid s) = false /\ ps_inv st2 /\ ids st2 ≡ₚ ids st.
Proof.
  intros I Br H Nb As Q M L. pose proof (pi_sta _ _ _ st I i s H) as O.
  assert (bmc_exists bmc st) as Be by (intros j Hj; destruct (Br j Hj) as (x & Hx & _); by exists x).
  destruct (stop_sta_xmit_ok get_sta bmc ws hf st i s I Be H Nb L) as (st1 & s1 & E1 & I1 & P1 & H1 & _ & _ & Q1 & M1 & N1 & _ & K1).
  assert (kin s s1) as (A1 & A2 & _) by (pose proof (K1 i) as Ki; rewrite H, H1 in Ki; by inversion Ki).
  destruct (wakeup_ok ws hf st1 i s1 I1 (kins_bmc _ _ K1 Br) H1 Nb) as (st2 & s2 & E2 & I2 & P2 & _ & H2 & S2 & Q2 & M2 & N2 & T2 & D2 & _).
  { by rewrite A1. } { unfold zlen in *. by rewrite P1. }
  exists st1, s1, st2, s2. rewrite A2 in T2, D2. do 8 (split; [done|]). split; [|do 3 (split; [done|]); by rewrite P2].
  intros k. rewrite N2, !N1, Q1, M1, Q, M. cbn [app]. destruct (decide (k = 4%nat)) as [->|N4].
  - unfold fids. rewrite !map_map. done.
  - rewrite of_ac_marks, of_ac_trig. destruct (decide (k < 4)%nat) as [Hk|Hk]; [by rewrite (of_ac_queues i)|].
    rewrite of_ac_none by (intros f _; pose proof (pending_lt (x_prio f)); lia).
    unfold nq. rewrite lookup_ge_None_2; [done|]. rewrite (so_five _ _ i s O). lia.
Qed.

(** A PS-Poll frame takes the head of the buffer whatever its category, but only
    counts it in [sleepq_len]: when it takes the last frame of a delivery enabled
    category, the count of such frames stays at one, and the next trigger frame of
    the station is answered neither with data nor with a QoS null frame. *)
Theorem ps_poll_silences_triggers st i s f prio tprio : ps_inv st -> stas st !! i = Some s -> sleeping s = true ->
  aid_in (dz st) (p_aid s) = true -> wmmps_ac s prio 0 = false -> sleepq s = [f] -> wmmps_ac s (x_prio f) 1 = true ->
  Z.land (p_state s) WIFI_STA_ALIVE_CHK_STATE = 0 ->
  exists st' s', ps_poll get_sta st i (p_aid s) prio = Ret (false, st') /\ stas st' !! i = Some s' /\ sleepq s' = [] /\ sleepq_ac_len s' = 1 /\
    sleeping s' = true /\
    (wmmps_ac s tprio 1 = true -> process_wmmps_data get_sta st' i tprio = Ret (false, st')).
Proof.
  intros I H Sl Dz W Q Wf Al. pose proof (pi_sta _ _ _ st I i s H) as O. destruct (pi_maps _ _ _ st I) as (_ & M2 & _ & _ & M5). specialize (M5 i s H).
  assert (sleepq_ac_len s = 1 /\ sleepq_len s = 1) as [Ac Ln].
  { rewrite (so_ac _ _ i s O), (so_len _ _ i s O), Q. fold (wmm_count s [f]). by rewrite wmm_count_cons, Wf. }
  assert (frame_ok i f) as (F1 & F2 & _).
  { pose proof (so_frames _ _ i s O) as Fr. unfold frames in Fr. rewrite Q in Fr. by inversion Fr. }
  assert (asoc s = true) as As by (apply (so_asoc _ _ i s O); unfold frames; by rewrite Q).
  unfold ps_poll. rewrite (get_some _ _ _ H). simp_res. rewrite Z.eqb_refl. cbn [negb]. rewrite W, Al. change (0 =? 0) with true. cbv iota zeta. rewrite Sl. cbv iota.
  change (dz (put i s st)) with (dz st). rewrite (is_set_ok nowhere st (dz st)) by done. simp_res. rewrite Dz, Q, Ln. change (u32 (1 - 1)) with 0.
  pose proof (lookup_lt_Some _ _ _ H) as Lt. set (s1 := set_sleepq [] 0 (sleepq_ac_len s) s). set (f' := set_trig true _).
  unfold rtw_hal_xmitframe_enqueue, rtw_xmit_classifier, frame_sta. change (x_ra f') with (x_ra f). change (x_sta f') with (x_sta f).
  rewrite F1, F2, bool_decide_true by done.
  assert (stas (put i s1 (put i s st)) !! i = Some s1) as H1 by (unfold put; cbn; rewrite list_lookup_insert_eq; [done|by rewrite length_insert]).
  rewrite (get_some _ _ _ H1). simp_res. change (asoc s1) with (asoc s). rewrite As. simp_res. unfold push_servq. rewrite (get_some _ _ _ H1). simp_res.
  cbn [Z.eqb _SUCCESS]. destruct (bmp_clear_spec (tim st) (p_aid s) M5) as (t & Et & _).
  match goal with |- context [set_hwq ?h ?a (put i ?s (put i s1 ?x))] => set (s2 := s); set (st2 := set_hwq h a (put i s (put i s1 x))) end.
  assert (stas st2 !! i = Some s2) as H2 by (unfold st2, put; cbn; rewrite list_lookup_insert_eq; [done|by rewrite !length_insert]).
  change (tim st2) with (tim st). assert (tim_map_clear (tim st) (p_aid s) = Ret t) as E by (unfold tim_map_clear; by rewrite (wrap_small 8) by (unfold fits;
    destruct (pi_maps _ _ _ st I) as (_ & _ & _ & ? & _); lia)).
  simp_res. bind_step E. exists (update_beacon_tim (set_tim t st2)), s2. do 3 (split; [done|]). split; [exact Ac|]. split; [exact Sl|].
  intros Wt. unfold process_wmmps_data. rewrite (get_some _ _ s2) by exact H2. simp_res. destruct (qos_option s2); [|done]. cbn [negb].
  destruct (Z.land (qos_info s2) 0xf =? 0); [done|]. change (sleeping s2) with (sleeping s). change (wmmps_ac s2) with (wmmps_ac s). rewrite Sl, Wt. cbn [andb].
  change (sleepq_ac_len s2) with (sleepq_ac_len s). rewrite Ac. unfold xmit_delivery_enabled_frames. rewrite (get_some _ _ s2) by exact H2. simp_res. done.
Qed.

(** A PS-Poll frame of a station for which only management frames are buffered is
    answered with a null frame without More Data, and the station's bit leaves
    the traffic map: the management frames stay buffered, unannounced. *)
Theorem ps_poll_hides_management st i s prio : ps_inv st -> stas st !! i = Some s -> sleeping s = true -> asoc s = true ->
  aid_in (dz st) (p_aid s) = true -> wmmps_ac s prio 0 = false -> Z.land (p_state s) WIFI_STA_ALIVE_CHK_STATE = 0 ->
  sleepq s = [] -> mgmt_sleepq s <> [] -> aid_in (tim st) (p_aid s) = true ->
  exists st' s', ps_poll get_sta st i (p_aid s) prio = Ret (true, st') /\ stas st' !! i = Some s' /\ mgmt_sleepq s' = mgmt_sleepq s /\
    sleeping s' = true /\ aid_in (tim st') (p_aid s) = false.
Proof.
  intros I H Sl As Dz W Al Q M Tm. pose proof (pi_sta _ _ _ st I i s H) as O.
  destruct (pi_maps _ _ _ st I) as (_ & _ & _ & _ & M5). specialize (M5 i s H).
  unfold ps_poll. rewrite (get_some _ _ _ H). simp_res. rewrite Z.eqb_refl. cbn [negb]. rewrite W, Al. change (0 =? 0) with true. cbv iota zeta. rewrite Sl. cbv iota.
  change (dz (put i s st)) with (dz st). rewrite (is_set_ok nowhere st (dz st)) by done. simp_res. rewrite Dz, Q.
  change (tim (put i s st)) with (tim st). rewrite (is_set_ok nowhere st) by done. simp_res. rewrite Tm, (so_len _ _ i s O), Q.
  change (zlen [] =? 0) with true. cbv iota. change (tim (put i s st)) with (tim st).
  destruct (clear_tim_inv get_sta bmc nowhere st i s I H As (no_frames_no_must i s Q)) as (t & E & _ & Sp). bind_step E.
  eexists _, s. split; [done|]. split; [cbn; apply list_lookup_insert_eq; by eapply lookup_lt_Some|]. do 2 (split; [done|]).
  cbn [tim set_tim update_beacon_tim]. rewrite Sp by lia. by rewrite Z.eqb_refl.
Qed.

(** ** The start *)

(** A station without frames. *)
Definition fresh (aid state : Z) (u : list Z) (legacy qos : bool) (info : Z) : psta :=
  PSta aid state [] 0 0 [] 0 (replicate 5 []) (replicate 5 0) u legacy qos info.
Definition start (l : list psta) (n : nat) : ps :=
  PS l (replicate n 0) (replicate n 0) (replicate 5 []) (replicate 5 0) [] 0.

Definition fresh_ok (i : nat) (s : psta) : Prop :=
  s = fresh (p_aid s) (p_state s) (uapsd s) (has_legacy_ac s) (qos_option s) (qos_info s) /\
  Forall (fun u => u = 0 \/ u = 3) (uapsd s) /\ (bmc = Some i -> Forall (fun u => u = 0) (uapsd s) /\ p_aid s = 0).

Lemma fresh_nq s k : servq s = replicate 5 [] -> nq s k = [].
Proof. intros E. unfold nq. rewrite E. by destruct k as [|[|[|[|[|k]]]]]. Qed.

Lemma start_inv l n : (1 <= n <= 32)%nat -> (forall i s, l !! i = Some s -> fresh_ok i s /\ 0 <= p_aid s < 8 * Z.of_nat n) ->
  aids_ok (start l n) -> ps_inv (start l n).
Proof.
  intros Hn F A. assert (forall i s, l !! i = Some s -> servq s = replicate 5 [] /\ sleepq s = []) as Q.
  { intros i s H. destruct (F i s H) as [[E _] _]. by rewrite E. }
  constructor; try done.
  - intros i s H. destruct (F i s H) as [(E & U & B) _]. destruct (Q i s H) as [Qs _]. constructor; try done; try (rewrite E; done).
    intros k f _ Hf. rewrite (fresh_nq s k Qs) in Hf. by apply elem_of_nil in Hf.
  - split; [done|]. intros k l' Hk. apply lookup_replicate in Hk as [-> _]. split; [constructor|]. intros i _. split; [by intros ?%elem_of_nil|].
    intros (s & H & C). exfalso. apply C. by apply fresh_nq, (Q i).
  - split; [done|]. intros k m Hk. apply lookup_replicate in Hk as [-> _].
    assert (forall l', (forall s, s ∈ l' -> servq s = replicate 5 []) -> zsum (fun s => zlen (nq s k)) l' = 0) as Z.
    { induction l' as [|s l' IH]; intros Hl; [done|]. unfold zsum in *. simpl. rewrite IH by (intros x Hx; apply Hl; by right).
      by rewrite (fresh_nq s k) by (apply Hl; by left). }
    symmetry. apply Z. intros s Hs. apply list_elem_of_lookup in Hs as [i Hi]. by apply (Q i).
  - assert (forall m, bytes_ok (replicate m 0)) as B by (intros m; apply Forall_replicate; by split).
    split; [apply B|]. split; [apply B|]. cbn [dz tim start stas]. rewrite zlen_replicate. split; [done|]. split; [lia|]. intros i s H. by apply (F i).
  - intros i s H (f & Hf & _). destruct (Q i s H) as [_ E]. rewrite E in Hf. by apply elem_of_nil in Hf.
Qed.
End Run.

(** ** A small network: the group and two stations, one with delivery enabled
    voice and video *)

Definition ex_table (ra : list Z) : option nat :=
  if mcast ra then Some 0%nat else if bool_decide (ra = [2; 0; 0; 0; 0; 1]) then Some 1%nat
  else if bool_decide (ra = [2; 0; 0; 0; 0; 2]) then Some 2%nat else None.
Definition ex_start : ps := start [fresh 0 1 [0; 0; 0; 0] true false 0; fresh 1 1 [0; 0; 0; 0] true false 0; fresh 2 1 [3; 3; 0; 0] true true 3] 2.
Definition ex_frame (id : Z) (i : nat) (prio : Z) : xframe :=
  XFrame id (match i with O => replicate 6 255 | _ => [2; 0; 0; 0; 0; Z.of_nat i] end) (Some i) prio 0x0800 false false false false false false.
Definition ex_events : list event :=
  [Pre true (ex_frame 1 1 0); Pre true (ex_frame 2 1 6); Pre true (ex_frame 3 1 0); Mgmt (ex_frame 4 2 0); Pre false (ex_frame 5 1 0)].
Definition ex_busy : ps := match run ex_table (Some 0%nat) false 0 [0; 1; 2; 3]%nat ex_start ex_events with Ret (_, st) => st | _ => ex_start end.

Lemma ex_start_ok : ps_inv ex_table (Some 0%nat) ex_start /\ bmc_ready (Some 0%nat) ex_start /\ table_ok ex_table (Some 0%nat) ex_start.
Proof.
  split; [|split].
  - apply start_inv; [lia|..].
    + intros i s H. destruct i as [|[|[|i]]]; simplify_eq/=; (split; [|lia]); (split; [done|]); (split; [by repeat constructor; auto|]);
        intros [=]; by repeat constructor.
    + intros i j s s' Hi Hj _ _ E. destruct i as [|[|[|i]]], j as [|[|[|j]]]; simplify_eq/=; done.
  - intros j [= <-]. by eexists.
  - intros ra i H. unfold ex_table in H. destruct (mcast ra) eqn:M; [simplify_eq; split; [by eexists|done]|].
    repeat case_bool_decide; simplify_eq; (split; [by eexists|]); by vm_compute.
Qed.

Lemma ex_busy_ok : ps_inv ex_table (Some 0%nat) ex_busy /\ bmc_ready (Some 0%nat) ex_busy.
Proof.
  destruct ex_start_ok as (I & Br & T).
  destruct (run_ok ex_table (Some 0%nat) false 0 [0; 1; 2; 3]%nat ex_events ex_start I Br T) as (out & st' & E & I' & K & _);
    [repeat constructor|by_eval|by_eval|]. assert (ex_busy = st') as -> by (unfold ex_busy; by rewrite E). split; [done|by eapply kins_bmc].
Qed.

Lemma ps_run_conserves_witness : exists out st', run ex_table (Some 0%nat) false 0 [0; 1; 2; 3]%nat ex_start (ex_events ++ [Power 1 true; Offer (ex_frame 6 1 0); Poll 1 1 0; Dequeue]) = Ret (out, st') /\
  ps_inv ex_table (Some 0%nat) st' /\
  fids out ++ ids st' ≡ₚ fids (concat (map given (ex_events ++ [Power 1 true; Offer (ex_frame 6 1 0); Poll 1 1 0; Dequeue]))) ++ ids ex_start /\
  forall i s, stas st' !! i = Some s -> must_announce (Some 0%nat) i s -> aid_in (tim st') (p_aid s) = true.
Proof.
  refine (ps_run_conserves ex_table (Some 0%nat) false 0 [0; 1; 2; 3]%nat _ ex_start _ _ _ _ _ _);
    [apply ex_start_ok|apply ex_start_ok|apply ex_start_ok|repeat constructor|by_eval|by_eval].
Defined.

Lemma rtw_dequeue_xframe_strict_witness : let inx := [0; 1; 2; 3]%nat in
  (rtw_dequeue_xframe false [0; 1; 2; 3]%nat ex_busy = Ret (None, ex_busy) /\ forall k, (k < 4)%nat -> idle ex_busy k) \/
  exists pre k post i s f q st', rtw_dequeue_xframe false [0; 1; 2; 3]%nat ex_busy = Ret (Some f, st') /\ inx = pre ++ k :: post /\
    (forall k', k' ∈ pre -> idle ex_busy k') /\ stas ex_busy !! i = Some s /\ nq s k = f :: q /\
    stas st' = <[i := set_queue k q s]> (stas ex_busy) /\ ps_inv ex_table (Some 0%nat) st' /\ ids st' ++ [x_id f] ≡ₚ ids ex_busy.
Proof. refine (rtw_dequeue_xframe_strict ex_table (Some 0%nat) false [0; 1; 2; 3]%nat ex_busy _ _); [apply ex_busy_ok|done]. Defined.

Lemma sleep_wake_roundtrip_witness : exists s, stas ex_busy !! 1%nat = Some s /\ fids (nq s 2) = [1; 3; 5] /\
  exists st1 s1 st2 s2, stop_sta_xmit ex_table (Some 0%nat) true false 0 ex_busy 1 = Ret st1 /\ stas st1 !! 1%nat = Some s1 /\ (forall k, nq s1 k = []) /\
    wakeup_sta_to_xmit ex_table (Some 0%nat) false 0 st1 1 = Ret st2 /\ stas st2 !! 1%nat = Some s2 /\ sleeping s2 = false /\
    sleepq s2 = [] /\ mgmt_sleepq s2 = [] /\ (forall k, fids (nq s2 k) = fids (nq s k)) /\
    aid_in (tim st2) (p_aid s) = false /\ aid_in (dz st2) (p_aid s) = false /\ ps_inv ex_table (Some 0%nat) st2 /\ ids st2 ≡ₚ ids ex_busy.
Proof.
  eexists. split; [vm_compute; reflexivity|]. split; [reflexivity|].
  refine (sleep_wake_roundtrip ex_table (Some 0%nat) false 0 ex_busy 1%nat _ _ _ _ _ _ _ _ _);
    [apply ex_busy_ok|apply ex_busy_ok|vm_compute; reflexivity|discriminate|reflexivity|reflexivity|reflexivity|by_eval].
Defined.

(** The two PS-Poll cases happen: a voice frame buffered alone, and a management
    frame. *)
Example ps_poll_takes_voice :
  ('(_, st) ← run ex_table (Some 0%nat) false 0 [0; 1; 2; 3]%nat ex_start [Power 2 true; Offer (ex_frame 1 2 6)];
   '(_, st) ← ps_poll ex_table st 2 2 0;
   '(null, st') ← process_wmmps_data ex_table st 2 6;
   Ret (null, bool_decide (ids st' = [1]), map sleepq_ac_len (stas st'), map sleepq_len (stas st'))) = Ret (false, true, [0; 0; 1], [0; 0; 0]).
Proof. reflexivity. Qed.
Example ps_poll_leaves_management :
  ('(_, st) ← run ex_table (Some 0%nat) false 0 [0; 1; 2; 3]%nat ex_start [Power 1 true; Mgmt (ex_frame 1 1 0)];
   let before := tim st in
   '(null, st) ← ps_poll ex_table st 1 1 0;
   Ret (null, before, tim st, map mgmt_sleepq_len (stas st))) = Ret (true, [2; 0], [0; 0], [0; 1; 0]).
Proof. reflexivity. Qed.
End PsRun.
