(* ===== verification/Validate.v ===== *)
(** * Validation of received frames

    Models, of [core/rtw_recv.c], [validate_recv_frame] for data and control
    frames, [validate_recv_ctrl_frame], [validate_recv_data_frame],
    [rtw_sta_rx_data_validate_hdr], [sta2sta_data_frame], [ap2sta_data_frame] and
    [sta2ap_data_frame]; [rtw_ap_rx_data_validate_hdr] of [core/rtw_ap.c];
    [GET_ENCRY_ALGO] of [include/rtw_security.h] and the header accessors of
    [include/wifi.h].  Duplicate and replay detection are those of [Recv], the
    power management of [Ps].  [CONFIG_TDLS], [CONFIG_RTW_WDS], [CONFIG_RTW_MESH]
    and [CONFIG_WAPI_SUPPORT] are not defined.  Statistics are left out.

    The theorems: which addresses an accepted frame may have; an accepted frame
    without protection in a protected network is a unicast EAPOL frame; a frame is
    accepted once; when validation returns at all, and that it reads behind a frame
    without a body. *)
From S2P Require Import Prelude Arc4 Tkip Recv Amsdu Ccmp Mfp Ies Cam Macid Sta Tim Ps PsRun.

Module Validate.
Import Amsdu Ps.

Definition RTW_RX_HANDLED : Z := 2.
Definition WIFI_STATION_STATE : Z := 0x8.
Definition WIFI_AP_STATE : Z := 0x10.
Definition WIFI_ADHOC_STATE : Z := 0x20.
Definition WIFI_ADHOC_MASTER_STATE : Z := 0x40.
Definition WIFI_UNDER_LINKING : Z := 0x80.
Definition WIFI_MP_STATE : Z := 0x10000.
Definition WLAN_STA_AMSDU_DISABLE : Z := 0x20000.
Definition WLAN_HDR_A3_LEN : Z := 24.
Definition WLAN_HDR_A3_QOS_LEN : Z := 26.

(** ** Header fields *)

(** Bit [m] of the frame control field ([GetToDs], [GetRetry], ...). *)
Definition fc_bit (b : list Z) (m : Z) : res bool := fc ← get_le16 b 0; Ret (negb (Z.land fc m =? 0)).
Definition get_tofr_ds (b : list Z) : res Z :=
  fr ← fc_bit b 0x200; to ← fc_bit b 0x100; Ret (Z.lor (Z.shiftl (Z.b2z fr) 1) (Z.b2z to)).
Definition GetFragNum (b : list Z) : res Z := s ← get_le16 b 22; Ret (Z.land s 0x0f).
Definition GetSequence (b : list Z) : res Z := s ← get_le16 b 22; Ret (Z.shiftr s 4).
Definition GetAid (b : list Z) : res Z := s ← get_le16 b 2; Ret (Z.land s 0x3fff).
Definition addr1 (b : list Z) : res (list Z) := slice b 4 6.
Definition addr2 (b : list Z) : res (list Z) := slice b 10 6.
Definition addr3 (b : list Z) : res (list Z) := slice b 16 6.
Definition addr4 (b : list Z) : res (list Z) := slice b 24 6.

(** [LE_BITS_TO_2BYTE(qc, off, len)]. *)
Definition qc_bits (b : list Z) (qc off len : Z) : res Z :=
  q ← get_le16 b qc; Ret (Z.land (Z.shiftr q off) (Z.ones len)).

(** The fields [validate_recv_frame] reads from the header. *)
Record fcinfo := FCInfo {
  f_tofr_ds : Z; f_frag_num : Z; f_seq_num : Z; f_pw_save : bool; f_mfrag : bool; f_mdata : bool;
  f_privacy : bool; f_order : bool; f_qos : bool }.

(** The addresses of [struct rx_pkt_attrib]. *)
Record addrs := Addrs { v_ra : list Z; v_ta : list Z; v_dst : list Z; v_src : list Z; v_bssid : list Z }.

(** ** State *)

(** What is used of the adapter: state word, addresses, security configuration,
    whether a radar was detected, the kernel's clock and the milliseconds since a time
    ([rtw_get_passing_time_ms]). *)
Record config := Config {
  fw_state : Z; myhwaddr : list Z; mybssid : list Z; PrivacyAlgrthm : Z; AuthAlgrthm : Z; GrpPrivacy : Z;
  radar : bool; now : Z; passing_ms : Z -> Z }.

Definition check_fwstate (c : config) (s : Z) : bool :=
  ((s =? 0) && (fw_state c =? 0)) || negb (Z.land (fw_state c) s =? 0).

(** The receive side of [struct sta_info]. *)
Record vsta := VSta { v_flags : Z; v_privacy : Z; v_recv : Decache.sta_recv; v_iv : list Z; v_last_tid : Z }.

(** Stations (at the indices of [Ps]), the power save state, the group replay
    counters, the deauthentication and QoS null frames sent, and the two times
    [send_issue_deauth_time]. *)
Record vstate := VState {
  vstas : list vsta; vps : ps; iv_seq : list Z; deauths : list (list Z); nulls : list nat; time_sta : Z; time_ap2sta : Z }.

Definition set_vsta (i : nat) (s : vsta) (st : vstate) : vstate :=
  VState (<[i := s]> (vstas st)) (vps st) (iv_seq st) (deauths st) (nulls st) (time_sta st) (time_ap2sta st).
Definition set_vps (p : ps) (st : vstate) : vstate :=
  VState (vstas st) p (iv_seq st) (deauths st) (nulls st) (time_sta st) (time_ap2sta st).
Definition set_iv_seq (l : list Z) (st : vstate) : vstate :=
  VState (vstas st) (vps st) l (deauths st) (nulls st) (time_sta st) (time_ap2sta st).
Definition issue_deauth (a : list Z) (st : vstate) : vstate :=
  VState (vstas st) (vps st) (iv_seq st) (deauths st ++ [a]) (nulls st) (time_sta st) (time_ap2sta st).
Definition issue_null (i : nat) (st : vstate) : vstate :=
  VState (vstas st) (vps st) (iv_seq st) (deauths st) (nulls st ++ [i]) (time_sta st) (time_ap2sta st).
Definition set_times (t1 t2 : Z) (st : vstate) : vstate :=
  VState (vstas st) (vps st) (iv_seq st) (deauths st) (nulls st) t1 t2.

(** At most one deauthentication frame in ten seconds. *)
Definition deauth_due (c : config) (t : Z) : bool := (10000 <? passing_ms c t) || (t =? 0).

Section Code.
(** The station table and the broadcast station, and what the power save code
    uses of the registry. *)
Context (get_sta : list Z -> option nat) (bmc : option nat) (wifi_spec : bool) (hiq_filter : Z).
Context (c : config).

(** ** Addresses *)

Definition rtw_sta_rx_data_validate_hdr (tofr : Z) (amsdu : bool) (b : list Z) (a : addrs) (st : vstate)
  : res (Z * option nat * addrs * vstate) :=
  a1 ← addr1 b; a2 ← addr2 b; a3 ← addr3 b;
  if tofr =? 0 then
    let a := Addrs a1 a2 a1 a2 a3 in
    if negb (bool_decide (v_bssid a = v_src a)) then Ret (_FAIL, None, a, st)
    else match get_sta a2 with Some i => Ret (_SUCCESS, Some i, a, st) | None => Ret (_FAIL, None, a, st) end
  else if Z.land (fw_state c) (Z.lor WIFI_ASOC_STATE WIFI_UNDER_LINKING) =? 0 then
    Ret (_FAIL, None, a,
      if negb (mcast a1) && deauth_due c (time_sta st) then issue_deauth a2 (set_times (now c) (time_ap2sta st) st) else st)
  else
    let a := Addrs a1 a2 (v_dst a) (v_src a) (v_bssid a) in
    o ← (if tofr =? 2 then Ret (Some (Addrs a1 a2 a1 a3 a2))
         else if tofr =? 3 then a4 ← addr4 b; Ret (Some (Addrs a1 a2 a3 a4 a2)) else Ret None);
    match o with
    | None => Ret (RTW_RX_HANDLED, None, a, st)
    | Some a =>
        if negb amsdu && bool_decide (myhwaddr c = v_src a) then Ret (_FAIL, None, a, st)
        else
          match get_sta (v_ta a) with
          | None => Ret (_FAIL, None, a, if negb (mcast a1) && negb (radar c) then issue_deauth (v_ta a) st else st)
          | Some i =>
              sub ← Mfp.get_frame_sub_type b 0;
              Ret (if Z.land sub 0x40 =? 0 then _SUCCESS else RTW_RX_HANDLED, Some i, a, st)
          end
    end.

(** [rtw_ap_rx_data_validate_hdr]; [prio] is the TID of the receive descriptor. *)
Definition rtw_ap_rx_data_validate_hdr (tofr : Z) (pw_save : bool) (prio : Z) (b : list Z) (a : addrs) (st : vstate)
  : res (Z * option nat * addrs * vstate) :=
  if Z.land (fw_state c) WIFI_ASOC_STATE =? 0 then Ret (_FAIL, None, a, st)
  else
    a1 ← addr1 b; a2 ← addr2 b; a3 ← addr3 b;
    o ← (if tofr =? 1 then
           if mcast a1 then Ret (_FAIL, None) else Ret (_SUCCESS, Some (Addrs a1 a2 a3 a2 a1))
         else if tofr =? 3 then
           a4 ← addr4 b; Ret (_SUCCESS, Some (Addrs a1 a2 a3 a4 (if mcast a1 then v_bssid a else a1)))
         else Ret (RTW_RX_HANDLED, None));
    match o.2 with
    | None => Ret (o.1, None, a, st)
    | Some a =>
        let bmc_ra := (tofr =? 3) && mcast a1 in
        match get_sta (v_ta a) with
        | None => Ret (RTW_RX_HANDLED, None, a, if negb bmc_ra && negb (radar c) then issue_deauth (v_ta a) st else st)
        | Some i =>
            p ← process_pwrbit_data get_sta bmc true wifi_spec hiq_filter (vps st) i pw_save;
            let st := set_vps p st in
            sub ← Mfp.get_frame_sub_type b 0;
            st ← (if Z.land sub 0x88 =? 0x88 then
                    '(null, p) ← process_wmmps_data get_sta (vps st) i prio;
                    Ret (let st := set_vps p st in if null : bool then issue_null i st else st)
                  else Ret st);
            Ret (if Z.land sub 0x40 =? 0 then _SUCCESS else RTW_RX_HANDLED, Some i, a, st)
        end
    end.

Definition sta2sta_data_frame (b : list Z) (a : addrs) : res (Z * option nat * addrs) :=
  if check_fwstate c WIFI_ADHOC_STATE || check_fwstate c WIFI_ADHOC_MASTER_STATE then
    if bool_decide (myhwaddr c = v_src a) then Ret (_FAIL, None, a)
    else if negb (bool_decide (myhwaddr c = v_dst a)) && negb (mcast (v_dst a)) then Ret (_FAIL, None, a)
    else if bool_decide (v_bssid a = replicate 6 0) || bool_decide (mybssid c = replicate 6 0) || negb (bool_decide (v_bssid a = mybssid c))
    then Ret (_FAIL, None, a)
    else match get_sta (v_ta a) with Some i => Ret (_SUCCESS, Some i, a) | None => Ret (_FAIL, None, a) end
  else if check_fwstate c WIFI_MP_STATE then
    a1 ← addr1 b; a2 ← addr2 b; a3 ← addr3 b;
    let a := Addrs a1 a2 a1 a2 a3 in
    match get_sta (mybssid c) with Some i => Ret (_SUCCESS, Some i, a) | None => Ret (_FAIL, None, a) end
  else Ret (_FAIL, get_sta (v_ta a), a).

(** The two functions below in [WIFI_MP_STATE]. *)
Definition mp_data_frame (b : list Z) : res (Z * option nat * addrs) :=
  a1 ← addr1 b; a2 ← addr2 b; a3 ← addr3 b;
  let a := Addrs a1 a2 a1 a2 a3 in
  match get_sta (v_bssid a) with Some i => Ret (_SUCCESS, Some i, a) | None => Ret (_FAIL, None, a) end.

Definition ap2sta_data_frame (b : list Z) (a : addrs) (st : vstate) : res (Z * option nat * addrs * vstate) :=
  if check_fwstate c WIFI_MP_STATE && check_fwstate c WIFI_ASOC_STATE then
    '(ret, i, a) ← mp_data_frame b; Ret (ret, i, a, st)
  else if bool_decide (myhwaddr c = v_dst a) && negb (mcast (v_dst a)) then
    match get_sta (v_ta a) with
    | Some i => Ret (_FAIL, Some i, a, st)
    | None => Ret (_FAIL, None, a,
        if deauth_due c (time_ap2sta st) then issue_deauth (v_bssid a) (set_times (time_sta st) (now c) st) else st)
    end
  else Ret (_FAIL, None, a, st).

Definition sta2ap_data_frame (b : list Z) (a : addrs) (st : vstate) : res (Z * option nat * addrs * vstate) :=
  if check_fwstate c WIFI_MP_STATE && check_fwstate c WIFI_ASOC_STATE then
    '(ret, i, a) ← mp_data_frame b; Ret (ret, i, a, st)
  else if negb (bool_decide (v_ra a = myhwaddr c)) then Ret (RTW_RX_HANDLED, None, a, st)
  else Ret (RTW_RX_HANDLED, None, a, issue_deauth (v_src a) st).

(** The first half of [validate_recv_data_frame]: the addresses, by the role of
    the interface. *)
Definition rx_data_validate_hdr (f : fcinfo) (amsdu : bool) (prio : Z) (b : list Z) (a : addrs) (st : vstate)
  : res (Z * option nat * addrs * vstate) :=
  if check_fwstate c WIFI_AP_STATE then rtw_ap_rx_data_validate_hdr (f_tofr_ds f) (f_pw_save f) prio b a st
  else if check_fwstate c WIFI_STATION_STATE then rtw_sta_rx_data_validate_hdr (f_tofr_ds f) amsdu b a st
  else
    a1 ← addr1 b; a2 ← addr2 b; a3 ← addr3 b;
    if f_tofr_ds f =? 0 then '(ret, i, a) ← sta2sta_data_frame b (Addrs a1 a2 a1 a2 a3); Ret (ret, i, a, st)
    else if f_tofr_ds f =? 1 then sta2ap_data_frame b (Addrs a1 a2 a3 a2 a1) st
    else if f_tofr_ds f =? 2 then ap2sta_data_frame b (Addrs a1 a2 a1 a3 a2) st
    else Ret (_FAIL, None, a, st).

(** ** Security *)

(** [GET_ENCRY_ALGO]: no assignment for an unknown authentication algorithm. *)
Definition GET_ENCRY_ALGO (psta_privacy : Z) (bmcst : bool) (encry_algo : Z) : Z :=
  if (AuthAlgrthm c =? 0) || (AuthAlgrthm c =? 1) || (AuthAlgrthm c =? 3) then u8 (PrivacyAlgrthm c)
  else if AuthAlgrthm c =? dot11AuthAlgrthm_8021X then u8 (if bmcst then GrpPrivacy c else psta_privacy)
  else if AuthAlgrthm c =? 4 then u8 (PrivacyAlgrthm c) else encry_algo.

(** Whether a frame may be processed in this network: [iv_len] and [hdrlen] are
    those of the frame, [psta_privacy] the cipher of the station. *)
Definition privacy_policy (f : fcinfo) (amsdu : bool) (a : addrs) (hdrlen iv_len psta_privacy : Z) (b : list Z) : res Z :=
  if PrivacyAlgrthm c =? _NO_PRIVACY_ then Ret _SUCCESS
  else if mcast (v_ra a) then Ret (if f_privacy f then _SUCCESS else _FAIL)
  else
    ether_type ← get_be16 b (hdrlen + iv_len + LLC_HEADER_SIZE);
    if AuthAlgrthm c =? dot11AuthAlgrthm_8021X then
      if negb (f_privacy f) && negb (ether_type =? 0x888e) then Ret _FAIL
      else if negb (f_privacy f) && amsdu then Ret _FAIL
      else if (ether_type =? 0x888e) && check_fwstate c WIFI_AP_STATE && (psta_privacy =? _NO_PRIVACY_)
              && negb (bool_decide (myhwaddr c = v_dst a)) then Ret _FAIL
      else Ret _SUCCESS
    else Ret (if f_privacy f then _SUCCESS else _FAIL).

(** ** Data frames *)

(** The attributes of an accepted frame. *)
Record rx_ok := RxOk {
  r_sta : nat; r_addrs : addrs; r_amsdu : bool; r_priority : Z; r_ack_policy : Z; r_hdrlen : Z;
  r_encrypt : Z; r_iv_len : Z; r_icv_len : Z; r_reorder : bool }.

(** Duplicate and replay detection. *)
Definition decache (f : fcinfo) (a : addrs) (i : nat) (prio enc hdrlen : Z) (b : list Z) (st : vstate) : res (Z * vstate) :=
  match vstas st !! i with
  | None => Oob
  | Some s =>
      '(ret, r) ← Decache.recv_decache (v_recv s) prio (f_qos f) (mcast (v_ra a)) (f_seq_num f) (f_frag_num f);
      let s := VSta (v_flags s) (v_privacy s) r (v_iv s) (v_last_tid s) in
      let st := set_vsta i s st in
      if ret =? _FAIL then Ret (_FAIL, st)
      else if negb (mcast (v_ra a)) then
        '(ret, iv, lt) ← Decache.recv_ucast_pn_decache (v_iv s) (v_last_tid s) prio enc b hdrlen;
        Ret (ret, set_vsta i (VSta (v_flags s) (v_privacy s) (v_recv s) iv lt) st)
      else
        '(ret, l) ← Decache.recv_bcast_pn_decache (iv_seq st) (check_fwstate c WIFI_STATION_STATE) enc b hdrlen;
        Ret (ret, set_iv_seq l st)
  end.

(** [validate_recv_data_frame]; [prio] and [enc] are the TID and the cipher of the
    receive descriptor, [a] the previous contents of the addresses. *)
Definition validate_recv_data_frame (f : fcinfo) (prio enc : Z) (b : list Z) (a : addrs) (st : vstate)
  : res (Z * option rx_ok * vstate) :=
  let a4_shift := if f_tofr_ds f =? 3 then 6 else 0 in
  amsdu ← (if f_qos f then q ← qc_bits b (WLAN_HDR_A3_LEN + a4_shift) 7 1; Ret (negb (q =? 0)) else Ret false);
  '(ret, o, a, st) ← rx_data_validate_hdr f amsdu prio b a st;
  if (ret =? _FAIL) || (ret =? RTW_RX_HANDLED) then Ret (ret, None, st)
  else
    match o with
    | None => Ret (_FAIL, None, st)
    | Some i =>
        match vstas st !! i with
        | None => Oob
        | Some s =>
            if negb (Z.land (v_flags s) WLAN_STA_AMSDU_DISABLE =? 0) && amsdu then Ret (_FAIL, None, st)
            else
              pr ← (if f_qos f then qc_bits b (WLAN_HDR_A3_LEN + a4_shift) 0 4 else Ret 0);
              ack ← (if f_qos f then qc_bits b (WLAN_HDR_A3_LEN + a4_shift) 5 2 else Ret 0);
              let hdrlen := (if f_qos f then WLAN_HDR_A3_QOS_LEN else WLAN_HDR_A3_LEN) + a4_shift + (if f_order f then 4 else 0) in
              '(ret, st) ← decache f a i pr enc hdrlen b st;
              if ret =? _FAIL then Ret (_FAIL, None, st)
              else
                let enc := if f_privacy f then GET_ENCRY_ALGO (v_privacy s) (mcast (v_ra a)) enc else 0 in
                let '(iv, icv) := if f_privacy f then Mfp.ice_iv_len enc else (0, 0) in
                ret ← privacy_policy f amsdu a hdrlen iv (v_privacy s) b;
                if ret =? _FAIL then Ret (_FAIL, None, st)
                else Ret (_SUCCESS, Some (RxOk i a amsdu pr ack hdrlen enc iv icv (negb (mcast (v_ra a)) && f_qos f)), st)
        end
    end.

(** ** Control frames: only PS-Poll changes anything *)

Definition validate_recv_ctrl_frame (prio : Z) (b : list Z) (st : vstate) : res vstate :=
  a1 ← addr1 b;
  if negb (bool_decide (a1 = myhwaddr c)) then Ret st
  else
    a2 ← addr2 b;
    match get_sta a2 with
    | None => Ret st
    | Some i =>
        sub ← Mfp.get_frame_sub_type b 0;
        if sub =? 0xa4 then
          aid ← GetAid b;
          '(null, p) ← ps_poll get_sta (vps st) i aid prio;
          Ret (let st := set_vps p st in if null : bool then issue_null i st else st)
        else Ret st
    end.

(** [validate_recv_frame]; [mgnt] is [validate_recv_mgnt_frame], whose parts are
    [Mfp.validate_mgmt_protect], [Recv.Defrag.recvframe_chk_defrag] and the
    handlers of management frames. *)
Definition parse_fc (b : list Z) : res fcinfo :=
  tofr ← get_tofr_ds b; fn ← GetFragNum b; sn ← GetSequence b;
  pw ← fc_bit b 0x1000; mf ← fc_bit b 0x400; md ← fc_bit b 0x2000; pv ← fc_bit b 0x4000; od ← fc_bit b 0x8000;
  sub ← Mfp.get_frame_sub_type b 0;
  Ret (FCInfo tofr fn sn pw mf md pv od (negb (Z.land sub 0x80 =? 0))).

Definition validate_recv_frame (mgnt : vstate -> res vstate) (prio enc : Z) (b : list Z) (a : addrs) (st : vstate)
  : res (Z * option rx_ok * vstate) :=
  v ← rd b 0;
  if negb (Z.land v 0x3 =? 0) then Ret (_FAIL, None, st)
  else
    ty ← Mfp.GetFrameType b 0;
    f ← parse_fc b;
    if ty =? 0 then st ← mgnt st; Ret (_FAIL, None, st)
    else if ty =? 0x4 then st ← validate_recv_ctrl_frame prio b st; Ret (_FAIL, None, st)
    else if ty =? 0x8 then validate_recv_data_frame f prio enc b a st
    else Ret (_FAIL, None, st).
End Code.

(** ** Addresses of accepted frames *)

(** IEEE 802.11, the address fields of data frames: destination and source by
    [To DS] and [From DS]. *)
Definition ds_dst (tofr : Z) (a1 a3 : list Z) : list Z := if Z.testbit tofr 0 then a3 else a1.
Definition ds_src (tofr : Z) (a2 a3 a4 : list Z) : list Z :=
  if Z.testbit tofr 1 then if Z.testbit tofr 0 then a4 else a3 else a2.

Definition same_recv (st st' : vstate) : Prop := vstas st' = vstas st /\ iv_seq st' = iv_seq st.

Section Facts.
Context (get_sta : list Z -> option nat) (bmc : option nat) (wifi_spec : bool) (hiq_filter : Z) (c : config).

Lemma deauth_same (x : bool) a st : same_recv st (if x then issue_deauth a st else st).
Proof. by destruct x. Qed.

(** The addresses an accepted header has. *)
Definition hdr_accepts (tofr : Z) (b : list Z) (a : addrs) (i : nat) : Prop :=
  exists a1 a2 a3, addr1 b = Ret a1 /\ addr2 b = Ret a2 /\ addr3 b = Ret a3 /\ v_ra a = a1 /\ v_ta a = a2 /\
    get_sta a2 = Some i /\ v_dst a = ds_dst tofr a1 a3 /\
    (tofr = 3 -> addr4 b = Ret (v_src a)) /\ (tofr <> 3 -> v_src a = ds_src tofr a2 a3 []).

Lemma sta_hdr_inv tofr amsdu b a st ret o a' st' : rtw_sta_rx_data_validate_hdr get_sta c tofr amsdu b a st = Ret (ret, o, a', st') ->
  same_recv st st' /\ (ret <> _FAIL -> ret <> RTW_RX_HANDLED -> exists i, o = Some i /\ hdr_accepts tofr b a' i /\ (tofr = 0 \/ tofr = 2 \/ tofr = 3) /\
    (tofr <> 0 -> amsdu = false -> v_src a' <> myhwaddr c)).
Proof.
  unfold rtw_sta_rx_data_validate_hdr. intros H. apply bind_inv in H as (a1 & E1 & H). apply bind_inv in H as (a2 & E2 & H).
  apply bind_inv in H as (a3 & E3 & H). destruct (Z.eqb_spec tofr 0) as [T0|T0].
  - cbn [v_bssid v_src] in H. destruct (negb _) eqn:Eb; [by simplify_eq|]. destruct (get_sta a2) as [i|] eqn:G; simplify_eq; (split; [done|]); [|done].
    intros _ _. exists i. split; [done|]. split; [|tauto]. exists a1, a2, a3. done.
  - destruct (_ =? 0); [injection H as <- <- <- <-; split; [by destruct (_ && _)|done]|].
    apply bind_inv in H as (o' & E4 & H).
    assert (forall x, o' = Some x -> v_ra x = a1 /\ v_ta x = a2 /\ v_dst x = ds_dst tofr a1 a3 /\ (tofr = 2 \/ tofr = 3) /\
      (tofr = 3 -> addr4 b = Ret (v_src x)) /\ (tofr <> 3 -> v_src x = ds_src tofr a2 a3 [])) as O.
    { intros x ->. destruct (Z.eqb_spec tofr 2) as [->|]; [simplify_eq/=; by split_and!; first [done|by left|by right]|]. destruct (Z.eqb_spec tofr 3) as [->|]; [|by simplify_eq].
      apply bind_inv in E4 as (a4 & E & E4). simplify_eq/=. by split_and!; first [done|by left|by right]. }
    destruct o' as [x|]; [|by simplify_eq]. destruct (O x eq_refl) as (R1 & R2 & R3 & R4 & R5 & R6). rewrite R2 in H.
    destruct (negb amsdu && _) eqn:Em; [by simplify_eq|]. destruct (get_sta a2) as [i|] eqn:G; [|injection H as <- <- <- <-; split; [apply deauth_same|done]].
    apply bind_inv in H as (sub & E5 & H). injection H as <- <- <- <-. split; [done|]. intros _ _. exists i. split; [done|]. split; [by exists a1, a2, a3|].
    split; [tauto|]. intros _ ->. simpl in Em. apply bool_decide_eq_false in Em. congruence.
Qed.

Lemma ap_hdr_inv tofr pw prio b a st ret o a' st' : rtw_ap_rx_data_validate_hdr get_sta bmc wifi_spec hiq_filter c tofr pw prio b a st = Ret (ret, o, a', st') ->
  same_recv st st' /\ (ret <> _FAIL -> ret <> RTW_RX_HANDLED -> exists i, o = Some i /\ hdr_accepts tofr b a' i /\ (tofr = 1 \/ tofr = 3) /\ (tofr = 1 -> mcast (v_ra a') = false)).
Proof.
  unfold rtw_ap_rx_data_validate_hdr. intros H. destruct (_ =? 0); [by simplify_eq|].
  apply bind_inv in H as (a1 & E1 & H). apply bind_inv in H as (a2 & E2 & H). apply bind_inv in H as (a3 & E3 & H). apply bind_inv in H as (o' & E4 & H).
  assert (match o'.2 with
          | Some x => v_ra x = a1 /\ v_ta x = a2 /\ v_dst x = ds_dst tofr a1 a3 /\ (tofr = 1 \/ tofr = 3) /\ (tofr = 1 -> mcast a1 = false) /\
              (tofr = 3 -> addr4 b = Ret (v_src x)) /\ (tofr <> 3 -> v_src x = ds_src tofr a2 a3 [])
          | None => o'.1 = _FAIL \/ o'.1 = RTW_RX_HANDLED
          end) as O.
  { destruct (Z.eqb_spec tofr 1) as [->|]; [destruct (mcast a1) eqn:M; simplify_eq/=; [by left|by split_and!; first [done|by left|by right]]|].
    destruct (Z.eqb_spec tofr 3) as [->|]; [|simplify_eq/=; by right]. apply bind_inv in E4 as (a4 & E & E4). simplify_eq/=. by split_and!; first [done|by left|by right]. }
  destruct (o'.2) as [x|]; [|injection H as <- <- <- <-; split; [done|by destruct O as [->| ->]]]. destruct O as (R1 & R2 & R3 & R4 & R5 & R6 & R7). rewrite R2 in H.
  destruct (get_sta a2) as [i|] eqn:G; [|injection H as <- <- <- <-; split; [apply deauth_same|done]].
  apply bind_inv in H as (p & E5 & H). apply bind_inv in H as (sub & E6 & H). apply bind_inv in H as (st1 & E7 & H).
  injection H as <- <- <- <-. split.
  - destruct (_ =? 0x88); [|by simplify_eq]. apply bind_inv in E7 as ([nl p'] & E8 & E7). simplify_eq. by destruct nl.
  - intros _ _. exists i. split; [done|]. rewrite R1. split; [by exists a1, a2, a3|]. tauto.
Qed.

(** The interface is an access point or a station of an infrastructure network. *)
Definition infrastructure : bool := check_fwstate c WIFI_AP_STATE || check_fwstate c WIFI_STATION_STATE.

Lemma hdr_inv f amsdu prio b a st ret o a' st' : infrastructure = true ->
  rx_data_validate_hdr get_sta bmc wifi_spec hiq_filter c f amsdu prio b a st = Ret (ret, o, a', st') ->
  same_recv st st' /\ (ret <> _FAIL -> ret <> RTW_RX_HANDLED -> exists i, o = Some i /\ hdr_accepts (f_tofr_ds f) b a' i /\
    (if check_fwstate c WIFI_AP_STATE then (f_tofr_ds f = 1 /\ mcast (v_ra a') = false) \/ f_tofr_ds f = 3
     else f_tofr_ds f <> 1 /\ (f_tofr_ds f <> 0 -> amsdu = false -> v_src a' <> myhwaddr c))).
Proof.
  unfold infrastructure, rx_data_validate_hdr. destruct (check_fwstate c WIFI_AP_STATE); cbn [orb].
  - intros _ H. destruct (ap_hdr_inv _ _ _ _ _ _ _ _ _ _ H) as [S A]. split; [done|]. intros R1 R2. destruct (A R1 R2) as (i & ? & ? & T & M). exists i. do 2 (split; [done|]).
    destruct T as [T|T]; [left; auto|by right].
  - intros ->. intros H. destruct (sta_hdr_inv _ _ _ _ _ _ _ _ _ H) as [S A]. split; [done|]. intros R1 R2. destruct (A R1 R2) as (i & ? & ? & T & M). exists i. do 2 (split; [done|]).
    split; [lia|done].
Qed.

Lemma decache_inv f a i pr enc hl b st ret st' : decache c f a i pr enc hl b st = Ret (ret, st') ->
  exists s s', vstas st !! i = Some s /\ vstas st' = <[i := s']> (vstas st) /\ v_flags s' = v_flags s /\ v_privacy s' = v_privacy s /\
    (ret <> _FAIL -> Decache.recv_decache (v_recv s) pr (f_qos f) (mcast (v_ra a)) (f_seq_num f) (f_frag_num f) = Ret (_SUCCESS, v_recv s')).
Proof.
  unfold decache. destruct (vstas st !! i) as [s|] eqn:H; [|done]. intros E. apply bind_inv in E as ([r rv] & E1 & E).
  pose proof (lookup_lt_Some _ _ _ H) as Lt. destruct (Z.eqb_spec r _FAIL) as [->|Nr].
  { injection E as <- <-. eexists s, _. by do 4 (split; [done|]). }
  assert (r = _SUCCESS) as ->.
  { unfold Decache.recv_decache in E1. destruct (15 <? pr); [by simplify_eq|]. apply bind_inv in E1 as (old & _ & E1).
    destruct (_ =? old); [by simplify_eq|]. apply bind_inv in E1 as (s' & _ & E1). by simplify_eq. }
  destruct (negb _).
  - apply bind_inv in E as ([[r' iv] lt] & E2 & E). simplify_eq/=. eexists s, _. split; [done|]. split; [by rewrite list_insert_insert_eq|]. done.
  - apply bind_inv in E as ([r' l] & E2 & E). simplify_eq/=. eexists s, _. by do 4 (split; [done|]).
Qed.

(** What is known of an accepted frame. *)
Record accepted (f : fcinfo) (b : list Z) (st st' : vstate) (r : rx_ok) : Prop := {
  ac_addrs : hdr_accepts (f_tofr_ds f) b (r_addrs r) (r_sta r);
  ac_role : if check_fwstate c WIFI_AP_STATE then (f_tofr_ds f = 1 /\ mcast (v_ra (r_addrs r)) = false) \/ f_tofr_ds f = 3
            else f_tofr_ds f <> 1 /\ (f_tofr_ds f <> 0 -> r_amsdu r = false -> v_src (r_addrs r) <> myhwaddr c);
  ac_hdrlen : r_hdrlen r = (if f_qos f then 26 else 24) + (if f_tofr_ds f =? 3 then 6 else 0) + (if f_order f then 4 else 0);
  ac_dup : exists s s', vstas st !! r_sta r = Some s /\ vstas st' = <[r_sta r := s']> (vstas st) /\
    v_flags s' = v_flags s /\ v_privacy s' = v_privacy s /\ (r_amsdu r = true -> Z.land (v_flags s) WLAN_STA_AMSDU_DISABLE = 0) /\
    Decache.recv_decache (v_recv s) (r_priority r) (f_qos f) (mcast (v_ra (r_addrs r))) (f_seq_num f) (f_frag_num f) = Ret (_SUCCESS, v_recv s') /\
    privacy_policy c f (r_amsdu r) (r_addrs r) (r_hdrlen r) (r_iv_len r) (v_privacy s) b = Ret _SUCCESS;
  ac_prio : (if f_qos f then qc_bits b (WLAN_HDR_A3_LEN + (if f_tofr_ds f =? 3 then 6 else 0)) 0 4 else Ret 0) = Ret (r_priority r);
  ac_plain : f_privacy f = false -> r_encrypt r = 0 /\ r_iv_len r = 0 /\ r_icv_len r = 0
}.

Lemma policy_ret f amsdu a hl iv pv b ret : privacy_policy c f amsdu a hl iv pv b = Ret ret -> ret <> _FAIL -> ret = _SUCCESS.
Proof.
  unfold privacy_policy. intros H N. destruct (_ =? _); [by simplify_eq|]. destruct (mcast _); [destruct (f_privacy f); by simplify_eq|].
  apply bind_inv in H as (et & _ & H). repeat case_match; by simplify_eq.
Qed.

Lemma validate_inv f prio enc b a st ret o st' : infrastructure = true ->
  validate_recv_data_frame get_sta bmc wifi_spec hiq_filter c f prio enc b a st = Ret (ret, o, st') ->
  (ret = _SUCCESS <-> is_Some o) /\ forall r, o = Some r -> accepted f b st st' r.
Proof.
  intros Inf. unfold validate_recv_data_frame. intros H. apply bind_inv in H as (amsdu & Ea & H). apply bind_inv in H as ([[[rh oh] ah] sth] & Eh & H).
  assert (forall x y, x <> _SUCCESS -> Ret (x, None, y) = Ret (ret, o, st') -> (ret = _SUCCESS <-> is_Some o) /\ forall r, o = Some r -> accepted f b st st' r) as No.
  { intros x y Nx [= <- <- <-]. split; [|done]. split; [done|]. by intros [? ?]. }
  destruct (hdr_inv _ _ _ _ _ _ _ _ _ _ Inf Eh) as [[Sv Si] Acc].
  destruct ((rh =? _FAIL) || (rh =? RTW_RX_HANDLED)) eqn:Er.
  { eapply No; [|exact H]. intros ->. done. }
  destruct oh as [i|]; [|by eapply No; [|exact H]]. destruct (vstas sth !! i) as [s|] eqn:Hs; [|done].
  destruct (_ && amsdu) eqn:Ed; [by eapply No; [|exact H]|].
  apply bind_inv in H as (pr & Ep & H). apply bind_inv in H as (ack & Ek & H). apply bind_inv in H as ([rd std] & Edc & H).
  destruct (decache_inv _ _ _ _ _ _ _ _ _ _ Edc) as (s0 & s1 & Hs0 & Vd & Fl & Pv & Dc). destruct (Z.eqb_spec rd _FAIL); [by eapply No; [|exact H]|].
  set (en := if f_privacy f then GET_ENCRY_ALGO c (v_privacy s) (mcast (v_ra ah)) enc else 0) in H. destruct (if f_privacy f then Mfp.ice_iv_len en else (0, 0)) as [iv icv] eqn:Ei.
  apply bind_inv in H as (rp & Epp & H). destruct (Z.eqb_spec rp _FAIL) as [|Np]; [by eapply No; [|exact H]|].
  injection H as <- <- <-. split; [split; [by eexists|done]|]. intros r [= <-].
  apply orb_false_iff in Er as [R1 R2]. apply Z.eqb_neq in R1, R2.
  destruct (Acc R1 R2) as (i' & [= <-] & Ha & Hr). constructor; cbn [r_addrs r_sta r_amsdu r_hdrlen r_priority r_iv_len r_encrypt r_icv_len]; try done.
  - exists s, s1. rewrite Sv in *. simplify_eq. do 4 (split; [done|]). split.
    + intros ->. rewrite andb_true_r in Ed. by apply negb_false_iff, Z.eqb_eq in Ed.
    + split; [by apply Dc|]. rewrite <- (policy_ret _ _ _ _ _ _ _ _ Epp Np). exact Epp.
  - intros Pf. unfold en in *. rewrite Pf in *. by simplify_eq.
Qed.

(** ** Validation returns *)

(** The receive state is well formed: every station of the table has its caches. *)
Definition vsta_ok (s : vsta) : Prop := Decache.sta_ok (v_recv s) /\ zlen (v_iv s) = 16.
Definition rx_inv (st : vstate) : Prop :=
  Forall vsta_ok (vstas st) /\ (forall a i, get_sta a = Some i -> is_Some (vstas st !! i)) /\ zlen (iv_seq st) = 4.

(** The longest header the fields announce, an IV and an Ethernet type behind it. *)
Definition need_len (f : fcinfo) : Z :=
  24 + (if f_tofr_ds f =? 3 then 6 else 0) + (if f_qos f then 2 else 0) + (if f_order f then 4 else 0) + 26.

(** The power save state of an access point, and that the transmitter of a frame is
    an associated station. *)
Definition ap_inv (st : vstate) : Prop :=
  check_fwstate c WIFI_AP_STATE = true -> ps_inv get_sta bmc (vps st) /\ PsRun.bmc_ready bmc (vps st) /\ zlen (ids (vps st)) < 2 ^ 32.
Definition from_assoc (b : list Z) (st : vstate) : Prop :=
  check_fwstate c WIFI_AP_STATE = true -> forall a2 i, addr2 b = Ret a2 -> get_sta a2 = Some i ->
    bmc <> Some i /\ exists s, stas (vps st) !! i = Some s /\ asoc s = true.

(** The power save state moves on without changing who is associated. *)
Definition ps_moves (st st' : vstate) : Prop := ap_inv st' /\ forall b, from_assoc b st -> from_assoc b st'.

Lemma kins_moves st st' : PsRun.moved get_sta bmc [] [] (vps st) (vps st') -> ap_inv st -> ps_moves st st'.
Proof.
  intros (I & K & P) A. split.
  - intros Ap. destruct (A Ap) as (_ & Br & L). split; [done|]. split; [by eapply PsRun.kins_bmc|]. unfold zlen in *. by rewrite P.
  - intros b F Ap a2 i E G. destruct (F Ap a2 i E G) as (Nb & s & Hs & As). split; [done|]. specialize (K i). rewrite Hs in K.
    inversion K as [? s' (Ea & _) E1 E2|]. exists s'. split; [done|]. by rewrite Ea.
Qed.
Lemma moves_refl st : ap_inv st -> ps_moves st st.
Proof. done. Qed.
Lemma moves_same st st' : vps st' = vps st -> ap_inv st -> ps_moves st st'.
Proof. intros E A. unfold ps_moves, ap_inv, from_assoc in *. by rewrite E. Qed.
Lemma moves_trans a b d : ps_moves a b -> ps_moves b d -> ps_moves a d.
Proof. intros [_ F1] [A2 F2]. split; [done|]. intros x Fx. by apply F2, F1. Qed.

Lemma not_ap_moves st st' : check_fwstate c WIFI_AP_STATE = false -> ps_moves st st'.
Proof. intros N. split; [intros Ap|intros b _ Ap]; congruence. Qed.

Lemma ps_after st i pw s : ps_inv get_sta bmc st -> PsRun.bmc_ready bmc st -> zlen (ids st) < 2 ^ 32 -> bmc <> Some i ->
  stas st !! i = Some s -> asoc s = true ->
  exists p, process_pwrbit_data get_sta bmc true wifi_spec hiq_filter st i pw = Ret p /\ PsRun.moved get_sta bmc [] [] st p /\
    forall prio, exists nl p', process_wmmps_data get_sta p i prio = Ret (nl, p') /\ PsRun.moved get_sta bmc [] [] st p'.
Proof.
  intros I Br L Nb H As. destruct (PsRun.power_ok get_sta bmc wifi_spec hiq_filter st i pw s I Br H As Nb L) as (p & E & I' & K & P).
  exists p. split; [done|]. split; [done|]. intros prio. pose proof (K i) as Ki. rewrite H in Ki. inversion Ki as [? s' Ks E1 E2|].
  destruct (PsRun.trigger_ok get_sta bmc p i prio s' I' (eq_sym E2)) as (nl & p' & E' & I2 & K2 & P2); [unfold zlen in *; by rewrite P|].
  exists nl, p'. split; [done|]. split; [done|]. split; [by eapply kins_trans|]. by rewrite P2.
Qed.

Lemma addrs_total (b : list Z) : 24 <= zlen b -> exists a1 a2 a3, addr1 b = Ret a1 /\ addr2 b = Ret a2 /\ addr3 b = Ret a3.
Proof.
  intros L. unfold addr1, addr2, addr3. destruct (slice_total b 4 6) as (a1 & -> & _); [lia..|]. destruct (slice_total b 10 6) as (a2 & -> & _); [lia..|].
  destruct (slice_total b 16 6) as (a3 & -> & _); [lia..|]. by exists a1, a2, a3.
Qed.
Lemma sub_total (b : list Z) : bytes_ok b -> 24 <= zlen b -> exists s, Mfp.get_frame_sub_type b 0 = Ret s.
Proof. intros B L. unfold Mfp.get_frame_sub_type. destruct (get_le16_total b 0 B) as (v & -> & _); [lia..|]. by eexists. Qed.

Lemma hdr_total f amsdu prio b a st : infrastructure = true -> bytes_ok b -> need_len f <= zlen b -> ap_inv st -> from_assoc b st ->
  exists ret o a' st', rx_data_validate_hdr get_sta bmc wifi_spec hiq_filter c f amsdu prio b a st = Ret (ret, o, a', st') /\ ps_moves st st'.
Proof.
  intros Inf B L Ai Fa. unfold need_len in L. assert (24 <= zlen b) as L24 by (repeat case_match; lia).
  destruct (addrs_total b L24) as (a1 & a2 & a3 & E1 & E2 & E3). destruct (sub_total b B L24) as (sub & Es).
  assert (f_tofr_ds f = 3 -> exists a4, addr4 b = Ret a4) as E4.
  { intros T. rewrite T in L. unfold addr4. destruct (slice_total b 24 6) as (a4 & -> & _); [lia|lia|simpl in L; repeat case_match; lia|by eexists]. }
  unfold rx_data_validate_hdr. unfold infrastructure in Inf. destruct (check_fwstate c WIFI_AP_STATE) eqn:Ap; cbn [orb] in Inf.
  - destruct (Ai Ap) as (I & Br & Li). specialize (Fa Ap) as Ta. unfold rtw_ap_rx_data_validate_hdr. destruct (_ =? 0); [by eexists _, _, _, _|].
    rewrite E1, E2, E3. simp_res.
    assert (exists o, (if f_tofr_ds f =? 1 then if mcast a1 then Ret (_FAIL, None) else Ret (_SUCCESS, Some (Addrs a1 a2 a3 a2 a1))
      else if f_tofr_ds f =? 3 then a4 ← addr4 b; Ret (_SUCCESS, Some (Addrs a1 a2 a3 a4 (if mcast a1 then v_bssid a else a1)))
      else Ret (RTW_RX_HANDLED, None)) = Ret o /\ forall x, o.2 = Some x -> v_ta x = a2) as (o & -> & Ox).
    { destruct (_ =? 1); [destruct (mcast a1); eexists; (split; [done|]); [done|by intros x [= <-]]|].
      destruct (Z.eqb_spec (f_tofr_ds f) 3) as [T|]; [|by eexists]. destruct (E4 T) as (a4 & ->). eexists. split; [done|]. by intros x [= <-]. }
    simp_res. destruct (o.2) as [x|]; [|by eexists _, _, _, _]. rewrite (Ox x eq_refl). destruct (get_sta a2) as [i|] eqn:G.
    + destruct (Ta a2 i E2 G) as (Nb & s & Hs & As). destruct (ps_after (vps st) i (f_pw_save f) s I Br Li Nb Hs As) as (p & Ep & Mp & Tr). bind_step Ep.
      assert (ps_moves st (set_vps p st)) as Mv by (by apply kins_moves).
      rewrite Es. simp_res. destruct (_ =? 0x88); simp_res; [|by eexists _, _, _, _].
      destruct (Tr prio) as (nl & p' & Et & Mt). change (vps (set_vps p st)) with p. rewrite Et. simp_res. eexists _, _, _, _. split; [done|].
      apply kins_moves; [by destruct nl|done].
    + eexists _, _, _, _. split; [done|]. apply moves_same; [by destruct (_ && _)|done].
  - rewrite Inf. unfold rtw_sta_rx_data_validate_hdr. rewrite E1, E2, E3. simp_res. destruct (_ =? 0).
    { destruct (negb _); [(eexists _, _, _, _; split; [done|by apply not_ap_moves])|]. destruct (get_sta a2); (eexists _, _, _, _; split; [done|by apply not_ap_moves]). }
    destruct (_ =? 0); [(eexists _, _, _, _; split; [done|by apply not_ap_moves])|]. destruct (_ =? 2).
    + simp_res. destruct (_ && _); [(eexists _, _, _, _; split; [done|by apply not_ap_moves])|]. destruct (get_sta _); [|(eexists _, _, _, _; split; [done|by apply not_ap_moves])]. rewrite Es. (eexists _, _, _, _; split; [done|by apply not_ap_moves]).
    + destruct (Z.eqb_spec (f_tofr_ds f) 3) as [T|]; [|(eexists _, _, _, _; split; [done|by apply not_ap_moves])]. destruct (E4 T) as (a4 & ->). simp_res.
      destruct (_ && _); [(eexists _, _, _, _; split; [done|by apply not_ap_moves])|]. destruct (get_sta _); [|(eexists _, _, _, _; split; [done|by apply not_ap_moves])]. rewrite Es. (eexists _, _, _, _; split; [done|by apply not_ap_moves]).
Qed.

Lemma le_val_fits l : bytes_ok l -> 0 <= le_val l < 2 ^ (8 * zlen l).
Proof.
  induction 1 as [|x l Hx Hl IH]; [done|]. cbn [le_val]. rewrite zlen_cons, Z.mul_add_distr_l, Z.pow_add_r by (pose proof (zlen_nonneg l); lia).
  unfold fits in Hx. lia.
Qed.
Lemma get_le64_total b i : bytes_ok b -> 0 <= i -> i + 8 <= zlen b -> exists h, get_le64 b i = Ret h /\ is_u64 h.
Proof.
  intros B Hi L. unfold get_le64. destruct (slice_total b i 8) as (l & E & Zl); [lia..|]. rewrite E. eexists. split; [done|].
  pose proof (slice_inv _ _ _ _ E) as H. assert (bytes_ok l) as Bl by (rewrite slice_Ret in E by lia; injection E as <-; by apply Forall_take, Forall_drop).
  pose proof (le_val_fits l Bl) as V. rewrite Zl in V. exact V.
Qed.

Lemma decache_total f a i pr enc hl b st s : vstas st !! i = Some s -> vsta_ok s -> zlen (iv_seq st) = 4 -> bytes_ok b -> 0 <= pr <= 15 ->
  0 <= hl -> hl + 8 <= zlen b ->
  exists ret st', decache c f a i pr enc hl b st = Ret (ret, st') /\ vps st' = vps st /\ zlen (iv_seq st') = 4 /\
    exists s', vstas st' = <[i := s']> (vstas st) /\ vsta_ok s'.
Proof.
  intros H [O1 O2] Zs B Hp Hh L. unfold decache. rewrite H. pose proof (lookup_lt_Some _ _ _ H) as Lt.
  destruct (Decache.recv_decache_dup (v_recv s) pr (f_qos f) (mcast (v_ra a)) (f_seq_num f) (f_frag_num f) O1 Hp) as (old & r & s' & _ & E & _ & O' & _).
  bind_step E. destruct (r =? _FAIL).
  { eexists _, _. split; [done|]. do 2 (split; [done|]). eexists. split; [done|]. by split. }
  destruct (get_le64_total b hl B Hh L) as (h & Eh & Uh). destruct (negb _).
  - unfold Decache.recv_ucast_pn_decache. rewrite (proj2 (Z.ltb_ge 15 pr)) by lia. cbn [v_iv v_last_tid].
    destruct (_ =? _AES_); [|eexists _, _; split; [done|]; do 2 (split; [done|]); eexists; split; [cbn; by rewrite list_insert_insert_eq|by split]].
    rewrite Eh. simp_res. destruct (rd_in (v_iv s) pr) as (x & -> & _); [lia|]. simp_res. destruct (negb _); simp_res.
    + eexists _, _. split; [done|]. do 2 (split; [done|]). eexists. split; [cbn; by rewrite list_insert_insert_eq|by split].
    + rewrite wr_Ret by lia. simp_res. eexists _, _. split; [done|]. do 2 (split; [done|]). eexists. split; [cbn; by rewrite list_insert_insert_eq|].
      split; [done|]. cbn [v_iv]. unfold zlen in *. by rewrite length_insert.
  - unfold Decache.recv_bcast_pn_decache. destruct (_ && _).
    + cbn [iv_seq set_vsta]. rewrite Eh. simp_res. pose proof (Decache.CCMPH_2_KEYID_fits h Uh). destruct (rd_in (iv_seq st) (CCMPH_2_KEYID h)) as (x & -> & _); [lia|]. simp_res.
      destruct (negb _); simp_res; [|rewrite wr_Ret by lia; simp_res]; (eexists _, _; split; [done|]; split; [done|]; split;
        [cbn [iv_seq set_iv_seq set_vsta]; unfold zlen in *; by rewrite ?length_insert|eexists; split; [done|by split]]).
    + eexists _, _. split; [done|]. do 2 (split; [done|]). eexists. split; [done|by split].
Qed.

Lemma qc_total b q off len : bytes_ok b -> 0 <= q -> q + 2 <= zlen b -> 0 <= off -> 0 <= len -> exists v, qc_bits b q off len = Ret v /\ 0 <= v < 2 ^ len.
Proof.
  intros B Hq L Ho Hl. unfold qc_bits. destruct (get_le16_total b q B Hq L) as (v & -> & _). eexists. split; [done|].
  rewrite Z.land_ones by done. apply Z.mod_pos_bound. by apply Z.pow_pos_nonneg.
Qed.

Lemma ice_iv_bound e iv icv : Mfp.ice_iv_len e = (iv, icv) -> 0 <= iv <= 18.
Proof. unfold Mfp.ice_iv_len. intros H. repeat case_match; simplify_eq; lia. Qed.

Lemma policy_total f amsdu a hl iv pv b : bytes_ok b -> 0 <= hl -> 0 <= iv -> hl + iv + 8 <= zlen b -> exists ret, privacy_policy c f amsdu a hl iv pv b = Ret ret.
Proof.
  intros B Hh Hi L. unfold privacy_policy. destruct (_ =? _); [by eexists|]. destruct (mcast _); [by eexists|].
  destruct (get_be16_total b (hl + iv + LLC_HEADER_SIZE) B) as (et & -> & _); [unfold LLC_HEADER_SIZE; lia..|]. simp_res. repeat case_match; by eexists.
Qed.

Lemma validate_total f prio enc b a st : infrastructure = true -> bytes_ok b -> need_len f <= zlen b -> rx_inv st -> ap_inv st -> from_assoc b st ->
  exists ret o st', validate_recv_data_frame get_sta bmc wifi_spec hiq_filter c f prio enc b a st = Ret (ret, o, st') /\ rx_inv st' /\ ps_moves st st'.
Proof.
  intros Inf B L (V1 & V2 & V3) Ai Fa. unfold validate_recv_data_frame. set (sh := if f_tofr_ds f =? 3 then 6 else 0).
  assert (0 <= sh <= 6) as Sh by (unfold sh; destruct (_ =? 3); lia). unfold need_len in L. fold sh in L.
  assert (f_qos f = true -> forall off len, 0 <= off -> 0 <= len -> exists v, qc_bits b (WLAN_HDR_A3_LEN + sh) off len = Ret v /\ 0 <= v < 2 ^ len) as Qc.
  { intros Q off len Ho Hl. rewrite Q in L. apply qc_total; unfold WLAN_HDR_A3_LEN; try done; [lia|]. destruct (f_order f); lia. }
  assert (exists am, (if f_qos f then q ← qc_bits b (WLAN_HDR_A3_LEN + sh) 7 1; Ret (negb (q =? 0)) else Ret false) = Ret am) as (am & ->).
  { destruct (f_qos f); [|by eexists]. destruct (Qc eq_refl 7 1) as (v & -> & _); [lia..|]. by eexists. }
  simp_res. destruct (hdr_total f am prio b a st Inf B) as (rh & oh & ah & sth & Eh & Ph); [unfold need_len; fold sh; lia|done|done|]. bind_step Eh.
  destruct (hdr_inv _ _ _ _ _ _ _ _ _ _ Inf Eh) as [[Sv Si] Acc].
  assert (rx_inv sth) as Ih by (unfold rx_inv; rewrite Sv, Si; done).
  destruct ((rh =? _FAIL) || (rh =? RTW_RX_HANDLED)) eqn:Er; [by eexists _, _, _|].
  apply orb_false_iff in Er as [R1 R2]. apply Z.eqb_neq in R1, R2. destruct (Acc R1 R2) as (i & -> & (a1 & a2 & a3 & _ & _ & _ & _ & _ & G & _) & _).
  destruct (V2 a2 i G) as [s Hs]. rewrite Sv, Hs. destruct (_ && am); [by eexists _, _, _|].
  assert (exists pr, (if f_qos f then qc_bits b (WLAN_HDR_A3_LEN + sh) 0 4 else Ret 0) = Ret pr /\ 0 <= pr <= 15) as (pr & -> & Hp).
  { destruct (f_qos f); [|by exists 0]. destruct (Qc eq_refl 0 4) as (v & -> & ?); [lia..|]. exists v. split; [done|lia]. }
  assert (exists ack, (if f_qos f then qc_bits b (WLAN_HDR_A3_LEN + sh) 5 2 else Ret 0) = Ret ack) as (ack & ->).
  { destruct (f_qos f); [|by eexists]. destruct (Qc eq_refl 5 2) as (v & -> & _); [lia..|]. by eexists. }
  simp_res. set (hl := _ + (if f_order f then 4 else 0)).
  assert (0 <= hl /\ hl + 26 <= zlen b) as [Hh Lh] by (unfold hl, WLAN_HDR_A3_QOS_LEN, WLAN_HDR_A3_LEN; destruct (f_qos f), (f_order f); lia).
  assert (vsta_ok s) as Os by (by eapply Forall_lookup_1 in V1).
  destruct (decache_total f ah i pr enc hl b sth s) as (rd & std & Ed & Pd & Zd & s' & Vd & Od); try done; [by rewrite Sv|by rewrite Si|lia|]. bind_step Ed.
  assert (rx_inv std) as Id.
  { unfold rx_inv. rewrite Vd, Sv. split; [by apply Forall_insert|]. split; [|done]. intros x j Gx. destruct (V2 x j Gx) as [y Hy].
    apply lookup_lt_is_Some. rewrite length_insert. by eapply lookup_lt_Some. }
  assert (ps_moves st std) as Md by (eapply moves_trans; [exact Ph|]; apply moves_same; [done|apply Ph]). destruct (_ =? _FAIL); [by eexists _, _, _|].
  destruct (if f_privacy f then Mfp.ice_iv_len _ else (0, 0)) as [iv icv] eqn:Ei.
  assert (0 <= iv <= 18) by (destruct (f_privacy f); [by eapply ice_iv_bound|by simplify_eq]).
  destruct (policy_total f am ah hl iv (v_privacy s) b B Hh) as (rp & ->); [lia..|]. simp_res. destruct (_ =? _FAIL); by eexists _, _, _.
Qed.

(** ** What validation promises *)

(** C15: The plain text rule of a protected network (an infrastructure interface whose
    cipher is not "none"): a data frame without protection is accepted only when it
    is addressed to one station, authentication is IEEE 802.1X, its Ethernet type
    is EAPOL and it is not an A-MSDU; an access point takes it from a station
    without a pairwise key only when it is addressed to the access point itself. *)
Theorem plaintext_only_eapol f prio enc b a st r st' : infrastructure = true -> PrivacyAlgrthm c <> _NO_PRIVACY_ -> f_privacy f = false ->
  validate_recv_data_frame get_sta bmc wifi_spec hiq_filter c f prio enc b a st = Ret (_SUCCESS, Some r, st') ->
  mcast (v_ra (r_addrs r)) = false /\ AuthAlgrthm c = dot11AuthAlgrthm_8021X /\ get_be16 b (r_hdrlen r + LLC_HEADER_SIZE) = Ret 0x888e /\
  r_amsdu r = false /\ r_encrypt r = 0 /\
  exists s, vstas st !! r_sta r = Some s /\ (check_fwstate c WIFI_AP_STATE = true -> v_privacy s = _NO_PRIVACY_ -> v_dst (r_addrs r) = myhwaddr c).
Proof.
  intros Inf Np Pf H. destruct (validate_inv _ _ _ _ _ _ _ _ _ Inf H) as [_ A]. specialize (A r eq_refl).
  destruct (ac_plain _ _ _ _ _ A Pf) as (E0 & I0 & _). destruct (ac_dup _ _ _ _ _ A) as (s & s' & Hs & _ & _ & _ & _ & _ & Pp).
  unfold privacy_policy in Pp. rewrite (proj2 (Z.eqb_neq _ _) Np), Pf, I0, Z.add_0_r in Pp. destruct (mcast _); [done|].
  apply bind_inv in Pp as (et & Et & Pp). destruct (Z.eqb_spec (AuthAlgrthm c) dot11AuthAlgrthm_8021X) as [Ea|]; [|done]. cbn [negb andb] in Pp.
  destruct (Z.eqb_spec et 0x888e) as [->|]; [|done]. cbn [negb andb] in Pp. destruct (r_amsdu r); [done|]. do 5 (split; [done|]).
  exists s. split; [done|]. intros Ap Ps. rewrite Ap, Ps in Pp. cbn [andb Z.eqb _NO_PRIVACY_] in Pp. destruct (bool_decide _) eqn:Ed; [|done].
  by apply bool_decide_eq_true in Ed.
Qed.

(** C28: A data frame is accepted at most once in a row: after an accepted frame,
    validating the same frame again (a retransmission, whatever the receive
    descriptor says) returns, and does not accept it. *)
Theorem accepted_once f prio enc b a st r st1 prio' enc' a' : infrastructure = true -> bytes_ok b -> need_len f <= zlen b ->
  rx_inv st -> ap_inv st -> from_assoc b st ->
  validate_recv_data_frame get_sta bmc wifi_spec hiq_filter c f prio enc b a st = Ret (_SUCCESS, Some r, st1) ->
  exists ret st2, validate_recv_data_frame get_sta bmc wifi_spec hiq_filter c f prio' enc' b a' st1 = Ret (ret, None, st2) /\ ret <> _SUCCESS.
Proof.
  intros Inf B L Ri Ai Fa H. destruct (validate_total f prio enc b a st Inf B L Ri Ai Fa) as (ret1 & o1 & st1' & E & Ri1 & Ai1 & Fa1).
  rewrite H in E. simplify_eq. destruct (validate_total f prio' enc' b a' st1' Inf B L Ri1 Ai1 (Fa1 b Fa)) as (ret2 & o2 & st2 & E2 & _).
  destruct (validate_inv _ _ _ _ _ _ _ _ _ Inf H) as [_ A]. specialize (A r eq_refl). destruct (validate_inv _ _ _ _ _ _ _ _ _ Inf E2) as [S2 A2].
  destruct o2 as [r2|]; [|exists ret2, st2; split; [done|]; intros ->; by destruct (proj1 S2 eq_refl)]. exfalso. specialize (A2 r2 eq_refl).
  destruct (ac_addrs _ _ _ _ _ A) as (a1 & a2 & a3 & Ea1 & Ea2 & _ & Er & _ & G & _).
  destruct (ac_addrs _ _ _ _ _ A2) as (b1 & b2 & b3 & Eb1 & Eb2 & _ & Er2 & _ & G2 & _).
  assert (b1 = a1) as -> by congruence. assert (b2 = a2) as -> by congruence.
  destruct (ac_dup _ _ _ _ _ A) as (s & s' & Hs & Vs & _ & _ & _ & D1 & _). destruct (ac_dup _ _ _ _ _ A2) as (t & t' & Ht & _ & _ & _ & _ & D2 & _).
  assert (r_sta r2 = r_sta r) as Ei by congruence. rewrite Ei, Vs, list_lookup_insert_eq in Ht by (by eapply lookup_lt_Some). injection Ht as <-.
  assert (r_priority r2 = r_priority r) as Ep by (pose proof (ac_prio _ _ _ _ _ A); pose proof (ac_prio _ _ _ _ _ A2); congruence).
  rewrite Er2, <- Er, Ep in D2. destruct Ri as (V1 & _ & _). eapply Forall_lookup_1 in V1 as [Os _]; [|exact Hs].
  destruct (Decache.recv_decache_dup (v_recv s) (r_priority r) (f_qos f) (mcast (v_ra (r_addrs r))) (f_seq_num f) (f_frag_num f) Os) as (old & x & y & _ & Ed & _ & _ & [z Dz] & _).
  { pose proof (ac_prio _ _ _ _ _ A) as P. unfold Decache.recv_decache in D1. destruct (Z.ltb_spec 15 (r_priority r)); [done|]. split; [|lia].
    destruct (f_qos f); [|by injection P as <-]. unfold qc_bits in P. apply bind_inv in P as (q & _ & P). injection P as <-. change (Z.ones 4) with 15. apply Z.land_nonneg. by right. }
  rewrite D1 in Ed. injection Ed as <- <-. by rewrite D2 in Dz.
Qed.

(** Any sequence of received data frames. *)
Fixpoint rx_run (st : vstate) (l : list (Z * Z * list Z * addrs)) : res (list (option rx_ok) * vstate) :=
  match l with
  | [] => Ret ([], st)
  | (prio, enc, b, a) :: l =>
      f ← parse_fc b;
      '(_, o, st) ← validate_recv_data_frame get_sta bmc wifi_spec hiq_filter c f prio enc b a st;
      '(os, st) ← rx_run st l; Ret (o :: os, st)
  end.

Definition long_enough (b : list Z) : Prop := bytes_ok b /\ forall f, parse_fc b = Ret f -> need_len f <= zlen b.

Lemma parse_fc_total b : bytes_ok b -> 24 <= zlen b -> exists f, parse_fc b = Ret f.
Proof.
  intros B L. unfold parse_fc, get_tofr_ds, GetFragNum, GetSequence, fc_bit, Mfp.get_frame_sub_type.
  destruct (get_le16_total b 0 B) as (v & -> & _); [lia..|]. destruct (get_le16_total b 22 B) as (w & -> & _); [lia..|]. simp_res. by eexists.
Qed.

(** C27: Validation of data frames is total and keeps the receive state well formed:
    for every sequence of frames that are long enough for the header their frame
    control announces, an IV and an Ethernet type, and that an access point gets
    from associated stations, every frame gets an answer, no read leaves a frame
    or a table, and afterwards every station has its sequence caches and replay
    counters and the power save state satisfies its invariant. *)
Theorem rx_run_total l : forall st, infrastructure = true -> rx_inv st -> ap_inv st ->
  Forall (fun x => long_enough x.1.2 /\ 24 <= zlen x.1.2 /\ from_assoc x.1.2 st) l ->
  exists os st', rx_run st l = Ret (os, st') /\ length os = length l /\ rx_inv st' /\ ap_inv st'.
Proof.
  induction l as [|[[[prio enc] b] a] l IH]; intros st Inf Ri Ai F; cbn [rx_run]; [by exists [], st|].
  apply Forall_cons in F as [((B & Lf) & L & Fa) F']. cbn [fst snd] in *. destruct (parse_fc_total b B L) as (f & Ef). bind_step Ef.
  destruct (validate_total f prio enc b a st Inf B (Lf f Ef) Ri Ai Fa) as (ret & o & st1 & E & Ri1 & Ai1 & Fa1). bind_step E.
  destruct (IH st1 Inf Ri1 Ai1) as (os & st' & E' & Ln & Ri' & Ai').
  { eapply Forall_impl; [exact F'|]. cbn. intros x (? & ? & ?). split; [done|]. split; [done|]. by apply Fa1. }
  bind_step E'. exists (o :: os), st'. split; [done|]. split; [simpl; by rewrite Ln|done].
Qed.

(** The addresses of an accepted frame are those IEEE 802.11 gives to the
    combination of To DS and From DS, the transmitter is a known station; a station
    never accepts frames towards the distribution system, nor its own frames back,
    an access point accepts only frames towards the distribution system, sent to a
    group only with four addresses. *)
Theorem accepted_addresses f prio enc b a st r st' : infrastructure = true ->
  validate_recv_data_frame get_sta bmc wifi_spec hiq_filter c f prio enc b a st = Ret (_SUCCESS, Some r, st') ->
  exists a1 a2 a3, addr1 b = Ret a1 /\ addr2 b = Ret a2 /\ addr3 b = Ret a3 /\ v_ra (r_addrs r) = a1 /\ v_ta (r_addrs r) = a2 /\
    get_sta a2 = Some (r_sta r) /\ v_dst (r_addrs r) = ds_dst (f_tofr_ds f) a1 a3 /\
    (f_tofr_ds f = 3 -> addr4 b = Ret (v_src (r_addrs r))) /\ (f_tofr_ds f <> 3 -> v_src (r_addrs r) = ds_src (f_tofr_ds f) a2 a3 []) /\
    (if check_fwstate c WIFI_AP_STATE then (f_tofr_ds f = 1 /\ mcast a1 = false) \/ f_tofr_ds f = 3
     else f_tofr_ds f <> 1 /\ (f_tofr_ds f <> 0 -> r_amsdu r = false -> v_src (r_addrs r) <> myhwaddr c)).
Proof.
  intros Inf H. destruct (validate_inv _ _ _ _ _ _ _ _ _ Inf H) as [_ A]. specialize (A r eq_refl).
  pose proof (ac_role _ _ _ _ _ A) as R. destruct (ac_addrs _ _ _ _ _ A) as (a1 & a2 & a3 & E1 & E2 & E3 & Er & Et & G & D & S3 & Sn).
  exists a1, a2, a3. do 9 (split; [done|]). by rewrite Er in R.
Qed.
End Facts.

(** ** Concrete frames *)

Definition ap_addr : list Z := [2; 0; 0; 0; 0; 9].
Definition ex_ap (auth : Z) : config := Config 0x11 ap_addr ap_addr 4 auth 4 false 1 (fun _ => 0).
Definition ex_vsta : vsta := VSta 0 0 (Decache.StaRecv (replicate 16 0xffff) (replicate 16 0xffff) 0xffff 0xffff 0) (replicate 16 0) 0.
Definition ex_vstate : vstate := VState (replicate 3 ex_vsta) PsRun.ex_start (replicate 4 0) [] [] 0 0.
(** A data frame to the access point: frame control, transmitter, sequence control,
    body. *)
Definition ex_data (fc ta seq : Z) (body : list Z) : list Z := le16 fc ++ [0; 0] ++ ap_addr ++ [2; 0; 0; 0; 0; ta] ++ ap_addr ++ le16 seq ++ body.
Definition ex_eapol : list Z := ex_data 0x0108 1 0x0010 ([0xaa; 0xaa; 3; 0; 0; 0; 0x88; 0x8e] ++ replicate 40 0).
Definition no_addrs : addrs := Addrs [] [] [] [] [].
Definition ex_fc (b : list Z) : fcinfo := match parse_fc b with Ret f => f | _ => FCInfo 0 0 0 false false false false false false end.
Definition ex_validate (auth : Z) (enc : Z) (b : list Z) (st : vstate) : res (Z * option rx_ok * vstate) :=
  validate_recv_data_frame PsRun.ex_table (Some 0%nat) false 0 (ex_ap auth) (ex_fc b) 0 enc b no_addrs st.

Definition ex_rx : rx_ok := RxOk 1 (Addrs ap_addr [2; 0; 0; 0; 0; 1] ap_addr [2; 0; 0; 0; 0; 1] ap_addr) false 0 0 24 0 0 0 false.

Definition ex_after : vstate := match ex_validate 2 0 ex_eapol ex_vstate with Ret (_, _, st) => st | _ => ex_vstate end.

Lemma plaintext_only_eapol_witness :
  mcast (v_ra (r_addrs ex_rx)) = false /\ AuthAlgrthm (ex_ap 2) = dot11AuthAlgrthm_8021X /\ get_be16 ex_eapol (r_hdrlen ex_rx + LLC_HEADER_SIZE) = Ret 0x888e /\
  r_amsdu ex_rx = false /\ r_encrypt ex_rx = 0 /\
  exists s, vstas ex_vstate !! r_sta ex_rx = Some s /\
    (check_fwstate (ex_ap 2) WIFI_AP_STATE = true -> v_privacy s = _NO_PRIVACY_ -> v_dst (r_addrs ex_rx) = myhwaddr (ex_ap 2)).
Proof.
  refine (plaintext_only_eapol PsRun.ex_table (Some 0%nat) false 0 (ex_ap 2) (ex_fc ex_eapol) 0 0 ex_eapol no_addrs ex_vstate ex_rx ex_after _ _ _ _);
    [reflexivity|discriminate|reflexivity|vm_compute; reflexivity].
Defined.

Lemma ex_rx_inv : rx_inv PsRun.ex_table ex_vstate.
Proof.
  split; [repeat constructor|]. split; [|done]. intros a i H. destruct PsRun.ex_start_ok as (_ & _ & T). destruct (T a i H) as [[x Hx] _].
  cbn [vstas ex_vstate]. destruct i as [|[|[|i]]]; [by eexists..|done].
Qed.
Lemma ex_ap_inv auth : ap_inv PsRun.ex_table (Some 0%nat) (ex_ap auth) ex_vstate.
Proof. intros _. destruct PsRun.ex_start_ok as (I & Br & _). split; [done|]. split; [done|]. by_eval. Qed.
Lemma ex_from_assoc auth b a2 : addr2 b = Ret a2 -> a2 = [2; 0; 0; 0; 0; 1] -> from_assoc PsRun.ex_table (Some 0%nat) (ex_ap auth) b ex_vstate.
Proof. intros E -> _ a i E' G. rewrite E in E'. injection E' as <-. vm_compute in G. injection G as <-. split; [done|]. by eexists. Qed.

Lemma accepted_once_witness : exists ret st2,
  validate_recv_data_frame PsRun.ex_table (Some 0%nat) false 0 (ex_ap 2) (ex_fc ex_eapol) 5 4 ex_eapol no_addrs ex_after = Ret (ret, None, st2) /\ ret <> _SUCCESS.
Proof.
  refine (accepted_once PsRun.ex_table (Some 0%nat) false 0 (ex_ap 2) (ex_fc ex_eapol) 0 0 ex_eapol no_addrs ex_vstate ex_rx ex_after 5 4 no_addrs _ _ _ _ _ _ _);
    [reflexivity|by_eval|by_eval|apply ex_rx_inv|apply ex_ap_inv|by eapply ex_from_assoc|vm_compute; reflexivity].
Defined.

Lemma rx_run_total_witness : exists os st', rx_run PsRun.ex_table (Some 0%nat) false 0 (ex_ap 2) ex_vstate [(0, 0, ex_eapol, no_addrs)] = Ret (os, st') /\
  length os = 1%nat /\ rx_inv PsRun.ex_table st' /\ ap_inv PsRun.ex_table (Some 0%nat) (ex_ap 2) st'.
Proof.
  refine (rx_run_total PsRun.ex_table (Some 0%nat) false 0 (ex_ap 2) [(0, 0, ex_eapol, no_addrs)] ex_vstate _ _ _ _);
    [reflexivity|apply ex_rx_inv|apply ex_ap_inv|].
  constructor; [|constructor]. split; [split; [by_eval|]|split; [by_eval|by eapply ex_from_assoc]].
  intros f E. vm_compute in E. injection E as <-. by_eval.
Defined.

Lemma accepted_addresses_witness :
  exists a1 a2 a3, addr1 ex_eapol = Ret a1 /\ addr2 ex_eapol = Ret a2 /\ addr3 ex_eapol = Ret a3 /\ v_ra (r_addrs ex_rx) = a1 /\ v_ta (r_addrs ex_rx) = a2 /\
    PsRun.ex_table a2 = Some (r_sta ex_rx) /\ v_dst (r_addrs ex_rx) = ds_dst (f_tofr_ds (ex_fc ex_eapol)) a1 a3 /\
    (f_tofr_ds (ex_fc ex_eapol) = 3 -> addr4 ex_eapol = Ret (v_src (r_addrs ex_rx))) /\
    (f_tofr_ds (ex_fc ex_eapol) <> 3 -> v_src (r_addrs ex_rx) = ds_src (f_tofr_ds (ex_fc ex_eapol)) a2 a3 []) /\
    (if check_fwstate (ex_ap 2) WIFI_AP_STATE then (f_tofr_ds (ex_fc ex_eapol) = 1 /\ mcast a1 = false) \/ f_tofr_ds (ex_fc ex_eapol) = 3
     else f_tofr_ds (ex_fc ex_eapol) <> 1 /\ (f_tofr_ds (ex_fc ex_eapol) <> 0 -> r_amsdu ex_rx = false -> v_src (r_addrs ex_rx) <> myhwaddr (ex_ap 2))).
Proof.
  refine (accepted_addresses PsRun.ex_table (Some 0%nat) false 0 (ex_ap 2) (ex_fc ex_eapol) 0 0 ex_eapol no_addrs ex_vstate ex_rx ex_after _ _);
    [reflexivity|vm_compute; reflexivity].
Defined.

(** ** Where the code does less *)

(** A data frame without a body, in a protected network: the Ethernet type is read
    behind the frame. *)
Example validate_overread : ex_validate 2 0 (ex_data 0x0108 1 0x0010 []) ex_vstate = Oob.
Proof. reflexivity. Qed.

(** A control frame is read up to the sequence control field, which a PS-Poll frame
    (16 octets and the check sequence) does not have. *)
Example ctrl_overread mgnt :
  validate_recv_frame PsRun.ex_table (Some 0%nat) false 0 (ex_ap 2) mgnt 0 0 (le16 0x00a4 ++ [1; 0xc0] ++ ap_addr ++ [2; 0; 0; 0; 0; 1] ++ replicate 4 0) no_addrs ex_vstate = Oob.
Proof. reflexivity. Qed.

(** A protected unicast frame is replayed: after another frame it is accepted again,
    with an old packet number. *)
Definition ccmp_frame (seq pn : Z) : list Z := ex_data 0x4108 1 seq ([pn; 0; 0; 0x20; 0; 0; 0; 0] ++ replicate 48 7).
Example ucast_replay :
  ('(r1, _, st) ← ex_validate 2 4 (ccmp_frame 0x10 1) ex_vstate;
   '(r2, _, st) ← ex_validate 2 4 (ccmp_frame 0x20 2) st;
   '(r3, _, st) ← ex_validate 2 4 (ccmp_frame 0x10 1) st;
   Ret (r1, r2, r3)) = Ret (_SUCCESS, _SUCCESS, _SUCCESS).
Proof. reflexivity. Qed.

(** A frame whose transmitter address is a group address is taken as one of the
    broadcast station: with the power management bit it puts the group to sleep,
    with no station asleep, and from then on group frames are buffered. *)
Example group_transmitter :
  ('(r, _, st) ← ex_validate 2 0 (le16 0x1108 ++ [0; 0] ++ ap_addr ++ replicate 6 255 ++ ap_addr ++ le16 0x10 ++ replicate 40 0) ex_vstate;
   '(kept, _, p) ← xmitframe_enqueue_for_sleeping_sta PsRun.ex_table true false 0 (vps st) (PsRun.ex_frame 7 0 0);
   Ret (kept, dz (vps st), map sleepq_len (stas p))) = Ret (true, [1; 0], [1; 0; 0]).
Proof. reflexivity. Qed.

(** A data frame of a station that is not associated is accepted, and its power
    management bit clears bit 0, that of the group, in the traffic map. *)
Definition ex_unassociated : vstate :=
  VState (replicate 3 ex_vsta) (PS [PSta 0 1 [PsRun.ex_frame 7 0 0] 1 0 [] 0 (replicate 5 []) (replicate 5 0) [0; 0; 0; 0] true false 0;
     PsRun.fresh 0 4 [0; 0; 0; 0] true false 0; PsRun.fresh 1 5 [0; 0; 0; 0] true false 0] [2; 0] [1; 0] (replicate 5 []) (replicate 5 0) [] 0) (replicate 4 0) [] [] 0 0.
Example unassociated_station :
  ('(r, _, st) ← ex_validate 2 0 ex_eapol ex_unassociated; Ret (r, tim (vps st), map sleepq_len (stas (vps st)))) = Ret (_SUCCESS, [0; 0], [1; 0; 0]).
Proof. reflexivity. Qed.
End Validate.
