(* ===== verification/Attrib.v ===== *)
(** * From an Ethernet packet to the attributes of the frames

    Models the packet reader [rtw_remainder_len], [_rtw_open_pktfile],
    [_rtw_pktfile_read] and [rtw_endofpktfile] of [os_dep/linux/xmit_linux.c]; of
    [core/rtw_xmit.c] [qos_acm], [tos_to_up], [set_qos], [update_attrib_sec_info],
    [update_attrib_trigger_frame_info], [_rtw_lps_chk_packet_type] and
    [update_attrib]; the macros [WEP_IV] and [TKIP_IV] of [include/rtw_xmit.h];
    [rtw_ap_nexthop_resolve] and the resolution of [rtw_ap_addr_resolve] of
    [core/rtw_ap.c]; EAPOL packets are read by [Indicate.parsing_eapol_packet].
    Attributes that only go to the transmit descriptor (rate, bandwidth, beamforming)
    are left out, and commands to other parts of the driver are outputs.

    Local arrays that the code reads before it has written all of them are
    parameters ([stack_...]).

    The theorems: what the reader returns; the packet number that goes into an IV is
    never one that was used before; which packets leave unencrypted; what the
    handling of IP options and of short EAPOL packets does. *)
From S2P Require Import Prelude Arc4 Tkip Ccmp Mfp Recv Indicate Forward Amsdu Ies Cam Macid Sta Tim Ps PsRun Validate.

Module Attrib.
Import Wep Tkip Ccmp Amsdu Validate.

(** ** Reading a packet *)

(** [struct pkt_file]: the packet, the offset of [cur_addr] in it, [pkt_len]. *)
Record pkt_file := PktFile { pf_buf : list Z; pf_cur : Z; pf_len : Z }.

Definition rtw_remainder_len (f : pkt_file) : Z := u32 (zlen (pf_buf f) - pf_cur f).
Definition _rtw_open_pktfile (pkt : list Z) : pkt_file := PktFile pkt 0 (zlen pkt).

(** [skb_copy_bits] of the kernel: nothing is copied when the range is not inside
    the packet. *)
Definition skb_copy_bits (pkt : list Z) (offset len : Z) : list Z :=
  match slice pkt offset len with Ret l => l | _ => [] end.

(** The length returned, the bytes stored through [rmem] if it is not null. *)
Definition _rtw_pktfile_read (f : pkt_file) (rlen : Z) : Z * list Z * pkt_file :=
  let len := rtw_remainder_len f in
  let len := if len <? u32 rlen then len else u32 rlen in
  (len, skb_copy_bits (pf_buf f) (zlen (pf_buf f) - pf_len f) len, PktFile (pf_buf f) (pf_cur f + len) (u64 (pf_len f - len))).

Definition rtw_endofpktfile (f : pkt_file) : bool := pf_len f =? 0.

(** ** User priority *)

Definition qos_acm (acm_mask priority : Z) : Z :=
  if (priority =? 0) || (priority =? 3) then if Z.testbit acm_mask 1 then 1 else priority
  else if (priority =? 1) || (priority =? 2) then priority
  else if (priority =? 4) || (priority =? 5) then if Z.testbit acm_mask 2 then 0 else priority
  else if (priority =? 6) || (priority =? 7) then if Z.testbit acm_mask 3 then 5 else priority
  else priority.

(** [mode] is [CONFIG_RTW_UP_MAPPING_RULE]. *)
Definition tos_to_up (mode tos : Z) : Z :=
  if mode =? 0 then Z.shiftr tos 5
  else
    let dscp := Z.shiftr tos 2 in
    if dscp =? 0 then 0
    else if (1 <=? dscp) && (dscp <=? 9) then 1
    else if (10 <=? dscp) && (dscp <=? 16) then 2
    else if (17 <=? dscp) && (dscp <=? 23) then 3
    else if (24 <=? dscp) && (dscp <=? 31) then 4
    else if (33 <=? dscp) && (dscp <=? 40) then 5
    else if ((41 <=? dscp) && (dscp <=? 47)) || (dscp =? 32) then 6
    else if (48 <=? dscp) && (dscp <=? 63) then 7 else 0.

(** [hdrlen], [subtype], [qos_en], [priority] of [struct pkt_attrib]. *)
Record hdr_attr := HdrAttr { x_hdrlen : Z; x_subtype : Z; x_qos_en : bool; x_priority : Z }.
Definition WIFI_QOS_DATA_TYPE : Z := 0x88.

Definition set_qos (mode : Z) (stack_ip : list Z) (pkt : list Z) (ether_type : Z) (h : hdr_attr) : res hdr_attr :=
  up ← (if ether_type =? 0x0800 then
          let f := (_rtw_pktfile_read (_rtw_open_pktfile pkt) ETH_HLEN).2 in
          ip ← splice stack_ip 0 (_rtw_pktfile_read f 20).1.2;
          tos ← rd ip 1;
          Ret (tos_to_up mode tos)
        else Ret 0);
  Ret (HdrAttr WLAN_HDR_A3_QOS_LEN WIFI_QOS_DATA_TYPE (x_qos_en h) (u8 up)).

(** ** State *)

(** The transmit side of [struct sta_info]. *)
Record xsta := XSta {
  xs_state : Z; xs_qos_option : bool; xs_blocked : bool; xs_privacy : Z; xs_txpn : Z; xs_key : list Z; xs_mickey : list Z;
  xs_txseq : list Z; xs_ba : list Z; xs_eapol_start : Z; xs_ht_option : bool; xs_ampdu_enable : bool; xs_agg_bitmap : Z }.

Definition set_txpn (pn : Z) (s : xsta) : xsta :=
  XSta (xs_state s) (xs_qos_option s) (xs_blocked s) (xs_privacy s) pn (xs_key s) (xs_mickey s) (xs_txseq s) (xs_ba s)
    (xs_eapol_start s) (xs_ht_option s) (xs_ampdu_enable s) (xs_agg_bitmap s).
Definition set_xstate (v : Z) (s : xsta) : xsta :=
  XSta v (xs_qos_option s) (xs_blocked s) (xs_privacy s) (xs_txpn s) (xs_key s) (xs_mickey s) (xs_txseq s) (xs_ba s)
    (xs_eapol_start s) (xs_ht_option s) (xs_ampdu_enable s) (xs_agg_bitmap s).
Definition set_seqs (txseq ba : list Z) (s : xsta) : xsta :=
  XSta (xs_state s) (xs_qos_option s) (xs_blocked s) (xs_privacy s) (xs_txpn s) (xs_key s) (xs_mickey s) txseq ba
    (xs_eapol_start s) (xs_ht_option s) (xs_ampdu_enable s) (xs_agg_bitmap s).

Definition xs_asoc (s : xsta) : bool := negb (Z.land (xs_state s) Ps.WIFI_ASOC_STATE =? 0).

(** What is used of the adapter beside [Validate.config]: [qospriv.qos_option],
    [acm_mask], the security settings, whether group frames must be encrypted in
    software ([SEC_STATUS_STA_PK_GK_CONFLICT_DIS_BMC_SEARCH]), whether HT is on. *)
Record xconfig := XConfig {
  c_qos_option : bool; c_acm_mask : Z; c_sw_encrypt : bool; c_hw_decrypted : bool; c_busetkipkey : bool;
  c_PrivacyKeyIndex : Z; c_GrpKeyid : Z; c_bmc_sw : bool; c_wpapsk : bool; c_ht : bool; c_up_rule : Z }.

(** ** Security attributes *)

(** [WEP_IV] and [TKIP_IV] with the packet number [pn] (after its increment). *)
Definition next_pn24 (pn : Z) : Z := if pn =? 0xffffff then 0 else u64 (pn + 1).
Definition wep_iv (pn keyidx : Z) : list Z :=
  [Mfp.pn_byte pn 0; Mfp.pn_byte pn 1; Mfp.pn_byte pn 2; u8 (Z.shiftl (Z.land keyidx 0x3) 6)].
Definition tkip_iv (pn keyidx : Z) : list Z :=
  [Mfp.pn_byte pn 1; Z.land (Z.lor (Mfp.pn_byte pn 1) 0x20) 0x7f; Mfp.pn_byte pn 0;
   u8 (Z.lor 0x20 (Z.shiftl (Z.land keyidx 0x3) 6));
   Mfp.pn_byte pn 2; Mfp.pn_byte pn 3; Mfp.pn_byte pn 4; Mfp.pn_byte pn 5].

Record sec_attr := SecAttr {
  x_encrypt : Z; x_key_idx : Z; x_iv_len : Z; x_icv_len : Z; x_iv : list Z; x_skey : list Z; x_mickey : list Z; x_bswenc : bool }.

(** Start of [update_attrib_sec_info]: cipher and key index, or the refusal to send.
    The attributes were cleared when the frame was allocated. *)
Definition tx_cipher (c : config) (x : xconfig) (s : xsta) (bmcast : bool) (ether_type : Z) (et : eap_type) : option (Z * Z) :=
  if xs_blocked s || (bool_decide (et = EAPOL_2_4 \/ et = EAPOL_4_4) && (passing_ms c (xs_eapol_start s) <=? 100)) then
    if negb (ether_type =? 0x888e) && negb (check_fwstate c WIFI_MP_STATE) then None else Some (0, 0)
  else
    let enc := GET_ENCRY_ALGO c (xs_privacy s) bmcast 0 in
    let kid :=
      if (AuthAlgrthm c =? 0) || (AuthAlgrthm c =? 1) || (AuthAlgrthm c =? 3) then u8 (c_PrivacyKeyIndex x)
      else if AuthAlgrthm c =? dot11AuthAlgrthm_8021X then if bmcast then u8 (c_GrpKeyid x) else 0 else 0 in
    Some (if ((enc =? _WEP40_) || (enc =? _WEP104_)) && (ether_type =? 0x888e) then _NO_PRIVACY_ else enc, kid).

(** The switch over the ciphers: [iv_len], [icv_len], the IV, the next packet
    number; [None]: the TKIP key is not installed. *)
Definition tx_iv (x : xconfig) (bmcast : bool) (enc kid pn : Z) : option (Z * Z * list Z * Z) :=
  let kid' := if bmcast then kid else 0 in
  let pn' := Mfp.next_pn pn in
  if (enc =? _WEP40_) || (enc =? _WEP104_) then Some (4, 4, wep_iv (next_pn24 pn) kid, next_pn24 pn)
  else if enc =? _TKIP_ then if c_busetkipkey x then Some (8, 4, tkip_iv pn' kid', pn') else None
  else if enc =? _AES_ then Some (8, 8, Mfp.aes_iv pn' kid', pn')
  else if (enc =? _GCMP_) || (enc =? _GCMP_256_) then Some (8, 16, Mfp.aes_iv pn' kid', pn')
  else if enc =? _CCMP_256_ then Some (8, 16, Mfp.aes_iv pn' kid', pn')
  else Some (0, 0, [], pn).

Definition update_attrib_sec_info (c : config) (x : xconfig) (s : xsta) (ra : list Z) (ether_type : Z) (et : eap_type)
  : option sec_attr * xsta :=
  let bmcast := Ps.mcast ra in
  match tx_cipher c x s bmcast ether_type et with
  | None => (None, s)
  | Some (enc, kid) =>
      match tx_iv x bmcast enc kid (xs_txpn s) with
      | None => (None, s)
      | Some (ivl, icvl, iv, pn) =>
          let n := if Z.land enc 0x10 =? 0 then 16%nat else 32%nat in
          let skey := if 0 <? enc then take n (xs_key s) ++ replicate (32 - n) 0 else replicate 32 0 in
          let mickey := (if enc =? _TKIP_ then take 16 (xs_mickey s) else replicate 16 0) ++ replicate 16 0 in
          let sw := negb (enc =? 0) &&
            (c_sw_encrypt x || negb (c_hw_decrypted x) || (bmcast && c_bmc_sw x) || bool_decide (et = EAPOL_4_4)) in
          (Some (SecAttr enc kid ivl icvl (iv ++ replicate (18 - length iv) 0) skey mickey sw), set_txpn pn s)
      end
  end.

(** ** Addresses *)

Record addr_attr := AddrAttr { x_dst : list Z; x_src : list Z; x_ta : list Z; x_ra : list Z }.

(** [rtw_ap_nexthop_resolve] without WDS. *)
Definition rtw_ap_nexthop_resolve (a : addr_attr) : addr_attr := AddrAttr (x_dst a) (x_src a) (x_ta a) (x_dst a).

Definition RTW_ORI_NO_NEED : Z := 10.

(** [rtw_ap_addr_resolve]; [to_uc da sa] is the conversion of a group frame into
    unicast frames: [Some n], [n] frames remain to be sent as group frames. *)
Definition rtw_ap_addr_resolve (c : config) (to_uc : list Z -> list Z -> option Z) (pkt : list Z) (a : addr_attr)
  : res (Z * addr_attr) :=
  let '(n, hdr, _) := _rtw_pktfile_read (_rtw_open_pktfile pkt) ETH_HLEN in
  if negb (n =? ETH_HLEN) then Ret (_FAIL, a)
  else
    da ← slice hdr 0 6; sa ← slice hdr 6 6;
    if Ps.mcast da && bool_decide (to_uc da sa = Some 0) then Ret (RTW_ORI_NO_NEED, a)
    else
      let a := AddrAttr da sa (myhwaddr c) (x_ra a) in
      Ret (_SUCCESS, if Ps.mcast da then AddrAttr da sa (myhwaddr c) da else rtw_ap_nexthop_resolve a).

(** ** Attributes of a packet *)

(** Commands to the scan, power save and session tracking code. *)
Inductive effect :=
| SCAN_DENY (ms : Z) | SCAN_ABORT | LPS_SPECIAL_PACKET | LPS_LEAVE
| SESSION_ADD (local_ip local_port remote_ip remote_port : list Z)
| SESSION_DEL (local_ip local_port remote_ip remote_port : list Z).

(** [icmp_pkt], [dhcp_pkt], [hipriority_pkt]. *)
Record ip_info := IpInfo { x_icmp : bool; x_dhcp : bool; x_hipri : bool }.

Record attrib := Attr {
  x_ether_type : Z; x_addr : addr_attr; x_pktlen : Z; x_ip : ip_info; x_sec : sec_attr; x_pkt_hdrlen : Z; x_hdr : hdr_attr;
  x_mdata : bool; x_eosp : bool; x_ampdu_en : bool; x_amsdu : bool; x_ack_policy : Z; x_psta : nat; x_trigger_frame : bool }.

(** The local arrays of [update_attrib] and [set_qos]. *)
Record stack := Stack { stack_eth : list Z; stack_ip : list Z; stack_udp : list Z; stack_tcp : list Z; stack_ip_hdr : list Z }.

(** The IP packet at the reading position; [pktlen] is its length. *)
Definition ip_attrib (k : stack) (sc : st_ctl) (f : pkt_file) (pktlen : Z) : res (ip_info * list effect) :=
  let '(_, l, f) := _rtw_pktfile_read f 20 in
  ip ← splice (stack_ip k) 0 l;
  v ← rd ip 0;
  let ihl := Z.land v 0xf in
  let f := if 20 <? ihl * 4 then (_rtw_pktfile_read f (ihl - 20)).2 else f in
  proto ← rd ip 9;
  if proto =? 0x01 then Ret (IpInfo true false false, [])
  else if proto =? 0x11 then
    udp ← splice (stack_udp k) 0 (_rtw_pktfile_read f 24).1.2;
    src ← get_be16 udp 0; dst ← get_be16 udp 2;
    let dhcp := ((src =? 68) && (dst =? 67)) || ((src =? 67) && (dst =? 68)) in
    sig1 ← rd udp 8; sig2 ← rd udp 23;
    Ret (IpInfo false (dhcp && (282 <? pktlen)) (((sig1 =? 0xcc) || (sig1 =? 0xdd)) && (sig2 =? 0xe2)), [])
  else if (proto =? 0x06) && s_tcp sc then
    tcp ← splice (stack_tcp k) 0 (_rtw_pktfile_read f 20).1.2;
    sip ← slice ip 12 4; dip ← slice ip 16 4; sp ← slice tcp 0 2; dp ← slice tcp 2 2;
    fl ← rd tcp 13;
    Ret (IpInfo false false false,
      if rule sc sip sp dip dp then
        (if Z.testbit fl 1 && Z.testbit fl 4 then [SESSION_ADD sip sp sip dp] else []) ++
        (if Z.testbit fl 0 then [SESSION_DEL sip sp sip dp] else [])
      else [])
  else Ret (IpInfo false false false, []).

Definition LPS_PT_NORMAL : Z := 0.
Definition LPS_PT_SP : Z := 1.
Definition LPS_PT_ICMP : Z := 2.
Definition _rtw_lps_chk_packet_type (i : ip_info) : Z :=
  if x_icmp i then LPS_PT_ICMP else if x_dhcp i then LPS_PT_SP else LPS_PT_NORMAL.

(** [update_attrib_trigger_frame_info]; [(uapsd_tid & BIT(priority)) == _TRUE] is a
    comparison with 1. *)
Definition update_attrib_trigger_frame_info (c : config) (pwr_mode uapsd_tid : Z) (uapsd_ap_supported : bool) (priority : Z) : bool :=
  check_fwstate c WIFI_STATION_STATE && ((pwr_mode =? 1) || (pwr_mode =? 2)) && uapsd_ap_supported
  && (Z.land uapsd_tid (Z.shiftl 1 priority) =? 1).

Definition WIFI_MESH_STATE : Z := 0x200.
Definition ETH_P_ARP : Z := 0x0806.

Section Code.
Context (get_sta : list Z -> option nat) (bmc : option nat) (c : config) (x : xconfig) (k : stack).
Context (sc : nat -> st_ctl) (pwr_mode uapsd_tid : Z) (uapsd_ap : bool).

(** The header attributes of a data frame. *)
Definition hdr_attrib (pkt : list Z) (ether_type : Z) (qos_option : bool) : res hdr_attr :=
  let h := HdrAttr WLAN_HDR_A3_LEN Mfp.WIFI_DATA_TYPE qos_option 0 in
  if check_fwstate c (Z.lor (Z.lor (Z.lor WIFI_AP_STATE WIFI_MESH_STATE) WIFI_ADHOC_STATE) WIFI_ADHOC_MASTER_STATE) then
    if qos_option then set_qos (c_up_rule x) (stack_ip_hdr k) pkt ether_type h else Ret h
  else if c_qos_option x then
    h ← set_qos (c_up_rule x) (stack_ip_hdr k) pkt ether_type h;
    Ret (if c_acm_mask x =? 0 then h
         else HdrAttr (x_hdrlen h) (x_subtype h) (x_qos_en h) (qos_acm (c_acm_mask x) (x_priority h)))
  else Ret h.

(** The receiver and transmitter address of a packet that is not of an access point
    or mesh interface. *)
Definition sta_addrs (hdr : list Z) (a : addr_attr) : res addr_attr :=
  da ← slice hdr 0 6; sa ← slice hdr 6 6;
  Ret (AddrAttr da sa (myhwaddr c)
    (if check_fwstate c WIFI_ADHOC_STATE || check_fwstate c WIFI_ADHOC_MASTER_STATE then da
     else if check_fwstate c WIFI_STATION_STATE then mybssid c else x_ra a)).

(** The station a packet is for. *)
Definition tx_sta (a : addr_attr) (st : list xsta) : res (option nat) :=
  match (if Ps.mcast (x_ra a) then bmc else get_sta (x_ra a)) with
  | None => Ret None
  | Some i =>
      match st !! i with
      | None => Oob
      | Some s => Ret (if xs_asoc s then Some i else None)
      end
  end.

(** [update_attrib]; [a] holds the addresses resolved before, for an access point. *)
Definition update_attrib (pkt : list Z) (a : addr_attr) (st : list xsta) : res (option attrib * list xsta * list effect) :=
  let '(_, l, f) := _rtw_pktfile_read (_rtw_open_pktfile pkt) ETH_HLEN in
  hdr ← splice (stack_eth k) 0 l;
  ether_type ← get_be16 hdr 12;
  a ← (if negb (Z.land (fw_state c) (Z.lor WIFI_AP_STATE WIFI_MESH_STATE) =? 0) then Ret a else sta_addrs hdr a);
  o ← tx_sta a st;
  match o with
  | None => Ret (None, st, [])
  | Some i =>
      match st !! i with
      | None => Oob
      | Some s =>
          let pktlen := u32 (pf_len f) in
          '(ip, es) ← (if ether_type =? 0x0800 then ip_attrib k (sc i) f pktlen else Ret (IpInfo false false false, []));
          '(et, done) ← (if ether_type =? 0x888e then parsing_eapol_packet (c_wpapsk x) pkt (pf_cur f) else Ret (NON_EAPOL, false));
          let s := if done : bool then set_xstate (Z.land (xs_state s) (0xffffffff - 0x01000000)) s else s in
          let es := es ++ (if (ether_type =? 0x888e) || x_dhcp ip then [SCAN_DENY 3000] else [])
            ++ (if check_fwstate c WIFI_STATION_STATE && (ether_type =? ETH_P_ARP) && negb (Ps.mcast (x_dst a))
                then [SCAN_DENY 1000; SCAN_ABORT] else [])
            ++ (if _rtw_lps_chk_packet_type ip =? LPS_PT_SP then [LPS_SPECIAL_PACKET]
                else if _rtw_lps_chk_packet_type ip =? LPS_PT_ICMP then [LPS_LEAVE] else []) in
          let '(sec, s) := update_attrib_sec_info c x s (x_ra a) ether_type et in
          let st := <[i := s]> st in
          match sec with
          | None => Ret (None, st, es)
          | Some sec =>
              h ← hdr_attrib pkt ether_type (xs_qos_option s);
              let ampdu := c_ht x && xs_ht_option s && xs_ampdu_enable s && Z.testbit (xs_agg_bitmap s) (x_priority h) in
              Ret (Some (Attr ether_type a pktlen ip sec ETH_HLEN h false false ampdu false 0 i
                     (update_attrib_trigger_frame_info c pwr_mode uapsd_tid uapsd_ap (x_priority h))), st, es)
          end
      end
  end.
End Code.

(** ** The reader *)

(** A reader behind [pre], with [rest] to come. *)
Definition reading (f : pkt_file) (pre rest : list Z) : Prop :=
  f = PktFile (pre ++ rest) (zlen pre) (zlen rest) /\ zlen (pre ++ rest) < 2 ^ 32.

Lemma open_reading pkt : zlen pkt < 2 ^ 32 -> reading (_rtw_open_pktfile pkt) [] pkt.
Proof. done. Qed.

(** A read returns the next bytes, as many as there are. *)
Lemma read_ok f pre rest n : reading f pre rest -> 0 <= n < 2 ^ 32 ->
  exists f', _rtw_pktfile_read f n = (Z.min n (zlen rest), take (Z.to_nat n) rest, f') /\
    reading f' (pre ++ take (Z.to_nat n) rest) (drop (Z.to_nat n) rest).
Proof.
  intros [-> Hl] Hn. pose proof (zlen_nonneg pre). pose proof (zlen_nonneg rest). rewrite zlen_app in Hl.
  unfold _rtw_pktfile_read, rtw_remainder_len. cbn [pf_buf pf_cur pf_len]. rewrite zlen_app.
  rewrite !wrap_small by (unfold fits; lia).
  replace (zlen pre + zlen rest - zlen pre) with (zlen rest) by lia.
  replace (zlen pre + zlen rest - zlen rest) with (zlen pre) by lia.
  assert ((if zlen rest <? n then zlen rest else n) = Z.min n (zlen rest)) as -> by (destruct (zlen rest <? n) eqn:E; lia).
  assert (zlen (take (Z.to_nat n) rest) = Z.min n (zlen rest)) as Ht by (unfold zlen in *; rewrite length_take; lia).
  assert (zlen (drop (Z.to_nat n) rest) = zlen rest - Z.min n (zlen rest)) as Hd by (unfold zlen in *; rewrite length_drop; lia).
  eexists. split.
  - repeat f_equal. unfold skb_copy_bits. rewrite <- (take_drop (Z.to_nat n) rest) at 1.
    rewrite (slice_mid pre (take (Z.to_nat n) rest) (drop (Z.to_nat n) rest)); [done|done|by rewrite Ht].
  - unfold reading. rewrite <- app_assoc, take_drop, !zlen_app, Ht, Hd. split; [|lia]. rewrite wrap_small; [done|unfold fits; lia].
Qed.

(** A length that is negative when it is converted is larger than every packet. *)
Lemma read_negative f pre rest n : reading f pre rest -> - 2 ^ 31 <= n < 0 -> zlen (pre ++ rest) < 2 ^ 31 ->
  exists f', (_rtw_pktfile_read f n).2 = f' /\ reading f' (pre ++ rest) [].
Proof.
  intros [-> Hl] Hn Hs. pose proof (zlen_nonneg pre). pose proof (zlen_nonneg rest). rewrite zlen_app in Hl, Hs.
  eexists. split; [done|]. unfold _rtw_pktfile_read, rtw_remainder_len, reading. cbn [pf_buf pf_cur pf_len fst snd].
  rewrite !app_nil_r, !zlen_app, (wrap_small 32 (zlen pre + zlen rest - zlen pre)) by (unfold fits; lia).
  assert (u32 n = n + 2 ^ 32) as ->.
  { unfold wrap. rewrite <- (Z_mod_plus_full n 1). rewrite Z.mod_small; lia. }
  split; [|lia]. rewrite (proj2 (Z.ltb_lt (zlen pre + zlen rest - zlen pre) (n + 2 ^ 32))) by lia.
  rewrite wrap_small by (unfold fits; lia). rewrite zlen_nil. f_equal; lia.
Qed.

(** ** Packet numbers *)

Lemma pn_bytes_inj p q : 0 <= p < 2 ^ 48 -> 0 <= q < 2 ^ 48 -> (forall i, 0 <= i < 6 -> Mfp.pn_byte p i = Mfp.pn_byte q i) -> p = q.
Proof.
  intros Hp Hq E. rewrite <- (Mfp.pn6_val p), <- (Mfp.pn6_val q) by done. do 2 f_equal. unfold Mfp.pn6.
  apply map_ext_in. intros i Hi%in_seq. apply E. lia.
Qed.

Lemma aes_iv_inj p q k1 k2 : 0 <= p < 2 ^ 48 -> 0 <= q < 2 ^ 48 -> Mfp.aes_iv p k1 = Mfp.aes_iv q k2 -> p = q.
Proof.
  intros Hp Hq E. injection E as E0 E1 _ E2 E3 E4 E5. apply pn_bytes_inj; [done|done|].
  intros i Hi. assert (i = 0 \/ i = 1 \/ i = 2 \/ i = 3 \/ i = 4 \/ i = 5) as C by lia.
  by destruct C as [->|[->|[->|[->|[->| ->]]]]].
Qed.

Lemma tkip_iv_inj p q k1 k2 : 0 <= p < 2 ^ 48 -> 0 <= q < 2 ^ 48 -> tkip_iv p k1 = tkip_iv q k2 -> p = q.
Proof.
  intros Hp Hq E. injection E as E1 _ E0 _ E2 E3 E4 E5. apply pn_bytes_inj; [done|done|].
  intros i Hi. assert (i = 0 \/ i = 1 \/ i = 2 \/ i = 3 \/ i = 4 \/ i = 5) as C by lia.
  by destruct C as [->|[->|[->|[->|[->| ->]]]]].
Qed.

(** The ciphers with a packet number of 48 bits. *)
Definition pn48 (enc : Z) : bool :=
  (enc =? _TKIP_) || (enc =? _AES_) || (enc =? _GCMP_) || (enc =? _GCMP_256_) || (enc =? _CCMP_256_).
Definition iv_of (enc kid pn : Z) : list Z := if enc =? _TKIP_ then tkip_iv pn kid else Mfp.aes_iv pn kid.

Lemma iv_of_inj enc p q k1 k2 : 0 <= p < 2 ^ 48 -> 0 <= q < 2 ^ 48 -> iv_of enc k1 p = iv_of enc k2 q -> p = q.
Proof. unfold iv_of. destruct (enc =? _TKIP_); [apply tkip_iv_inj|apply aes_iv_inj]. Qed.

Lemma tx_iv_pn48 x bm enc kid pn l1 l2 iv pn' : pn48 enc = true -> tx_iv x bm enc kid pn = Some (l1, l2, iv, pn') ->
  iv = iv_of enc (if bm then kid else 0) pn' /\ pn' = Mfp.next_pn pn /\ l1 = 8 /\ length iv = 8%nat.
Proof.
  unfold tx_iv, pn48, iv_of. intros Hc.
  destruct ((enc =? _WEP40_) || (enc =? _WEP104_)) eqn:Ew.
  { exfalso. apply orb_true_iff in Ew as [->%Z.eqb_eq | ->%Z.eqb_eq]; discriminate. }
  destruct (enc =? _TKIP_) eqn:Et; [destruct (c_busetkipkey x); [|done]; by injection 1 as <- <- <- <-|].
  destruct (enc =? _AES_) eqn:E1; [by injection 1 as <- <- <- <-|].
  destruct ((enc =? _GCMP_) || (enc =? _GCMP_256_)) eqn:E2; [by injection 1 as <- <- <- <-|].
  destruct (enc =? _CCMP_256_) eqn:E3; [by injection 1 as <- <- <- <-|].
  exfalso. apply orb_false_iff in E2 as [E2a E2b]. cbn [orb] in Hc. rewrite E2a, E2b in Hc. done.
Qed.

Lemma sec_info_pn c x s ra ty et sec s' : update_attrib_sec_info c x s ra ty et = (Some sec, s') -> pn48 (x_encrypt sec) = true ->
  exists k, take 8 (x_iv sec) = iv_of (x_encrypt sec) k (xs_txpn s') /\ xs_txpn s' = Mfp.next_pn (xs_txpn s).
Proof.
  unfold update_attrib_sec_info. destruct (tx_cipher _ _ _ _ _ _) as [[enc kid]|]; [|done].
  destruct (tx_iv _ _ _ _ _) as [[[[l1 l2] iv] pn]|] eqn:E; [|done].
  injection 1 as <- <-. cbn [x_encrypt x_iv xs_txpn set_txpn]. intros Hp.
  destruct (tx_iv_pn48 _ _ _ _ _ _ _ _ _ Hp E) as (Hiv & -> & _ & Hl). eexists. split; [|done].
  rewrite take_app_le by lia. rewrite firstn_all2 by lia. exact Hiv.
Qed.

(** The security attributes of the packets sent to one station. *)
Fixpoint sec_run (c : config) (x : xconfig) (s : xsta) (l : list (list Z * Z * eap_type)) : list sec_attr :=
  match l with
  | [] => []
  | (ra, ty, et) :: l =>
      let '(o, s) := update_attrib_sec_info c x s ra ty et in
      match o with Some a => a :: sec_run c x s l | None => sec_run c x s l end
  end.

(** A packet number is not decreased, and not changed without a cipher. *)
Lemma sec_info_mono c x s ra ty et o s' : update_attrib_sec_info c x s ra ty et = (o, s') -> 0 <= xs_txpn s -> xs_txpn s < 2 ^ 48 - 1 ->
  match o with
  | Some a => if pn48 (x_encrypt a) then xs_txpn s' = xs_txpn s + 1 else (x_encrypt a = _WEP40_ \/ x_encrypt a = _WEP104_) \/ xs_txpn s' = xs_txpn s
  | None => xs_txpn s' = xs_txpn s
  end.
Proof.
  intros E H0 H1. destruct o as [a|].
  - destruct (pn48 (x_encrypt a)) eqn:Ep.
    + destruct (sec_info_pn _ _ _ _ _ _ _ _ E Ep) as (? & _ & ->). unfold Mfp.next_pn.
      rewrite (proj2 (Z.eqb_neq _ _)) by lia. apply wrap_small. unfold fits. lia.
    + revert E Ep. unfold update_attrib_sec_info. destruct (tx_cipher _ _ _ _ _ _) as [[enc kid]|]; [|done].
      destruct (tx_iv _ _ _ _ _) as [[[[l1 l2] iv] pn]|] eqn:E; [|done].
      injection 1 as <- <-. cbn [x_encrypt xs_txpn set_txpn]. revert E. unfold tx_iv, pn48.
      destruct ((enc =? _WEP40_) || (enc =? _WEP104_)) eqn:Ew.
      { intros _ _. left. apply orb_true_iff in Ew as [->%Z.eqb_eq | ->%Z.eqb_eq]; auto. }
      destruct (enc =? _TKIP_), (enc =? _AES_), (enc =? _GCMP_), (enc =? _GCMP_256_), (enc =? _CCMP_256_); try done.
      cbn [orb]. injection 1 as <- <- <- <-. by right.
  - revert E. unfold update_attrib_sec_info. repeat case_match; try done; by injection 1 as <-.
Qed.

Definition no_wep (enc : Z) : Prop := u8 enc <> _WEP40_ /\ u8 enc <> _WEP104_.

(** The cipher of a packet in a network with 802.1X. *)
Lemma tx_cipher_8021X c x s bm ty et enc kid : AuthAlgrthm c = dot11AuthAlgrthm_8021X -> tx_cipher c x s bm ty et = Some (enc, kid) ->
  enc = 0 /\ (ty = 0x888e \/ check_fwstate c WIFI_MP_STATE = true) \/ xs_blocked s = false /\ enc = u8 (if bm then GrpPrivacy c else xs_privacy s).
Proof.
  intros Ha. unfold tx_cipher, GET_ENCRY_ALGO. rewrite Ha. cbn [Z.eqb orb Pos.eqb].
  destruct (xs_blocked s || _) eqn:Eb.
  - destruct (negb _ && negb _) eqn:En; [done|]. injection 1 as <- <-. left. split; [done|].
    apply andb_false_iff in En as [En|En]; [left|right]; apply negb_false_iff in En; [by apply Z.eqb_eq|done].
  - apply orb_false_iff in Eb as [Eb _]. destruct (((_ =? _WEP40_) || _) && _) eqn:Ew; injection 1 as <- <-.
    + left. split; [done|]. apply andb_true_iff in Ew as [_ Ew%Z.eqb_eq]. by left.
    + right. split; [done|]. by destruct bm.
Qed.

Lemma sec_info_8021X c x s ra ty et sec s' : AuthAlgrthm c = dot11AuthAlgrthm_8021X -> update_attrib_sec_info c x s ra ty et = (Some sec, s') ->
  (x_encrypt sec = 0 /\ (ty = 0x888e \/ check_fwstate c WIFI_MP_STATE = true) \/ xs_blocked s = false /\ x_encrypt sec = u8 (if Ps.mcast ra then GrpPrivacy c else xs_privacy s))
  /\ xs_privacy s' = xs_privacy s.
Proof.
  intros Ha. unfold update_attrib_sec_info. destruct (tx_cipher _ _ _ _ _ _) as [[enc kid]|] eqn:Ec; [|done].
  destruct (tx_iv _ _ _ _ _) as [[[[l1 l2] iv] pn]|] eqn:E; [|done]. injection 1 as <- <-.
  split; [|done]. exact (tx_cipher_8021X _ _ _ _ _ _ _ _ Ha Ec).
Qed.

Definition tx_nonce (a : sec_attr) : Z * list Z := (x_encrypt a, take 8 (x_iv a)).
Definition numbered (l : list sec_attr) : list sec_attr := List.filter (fun a => pn48 (x_encrypt a)) l.

Lemma sec_run_pn c x l : AuthAlgrthm c = dot11AuthAlgrthm_8021X -> no_wep (GrpPrivacy c) -> forall s, no_wep (xs_privacy s) ->
  0 <= xs_txpn s -> xs_txpn s + zlen l < 2 ^ 48 ->
  NoDup (map tx_nonce (numbered (sec_run c x s l))) /\
  Forall (fun a => exists k p, xs_txpn s < p <= xs_txpn s + zlen l /\ take 8 (x_iv a) = iv_of (x_encrypt a) k p) (numbered (sec_run c x s l)).
Proof.
  intros Ha Hg. induction l as [|[[ra ty] et] l IH]; intros s Hs H0 H1; [split; constructor|].
  rewrite zlen_cons in H1. pose proof (zlen_nonneg l). cbn [sec_run].
  destruct (update_attrib_sec_info c x s ra ty et) as [o s'] eqn:E.
  pose proof (sec_info_mono _ _ _ _ _ _ _ _ E H0 ltac:(lia)) as Hm. destruct o as [a|].
  - destruct (sec_info_8021X _ _ _ _ _ _ _ _ Ha E) as [Hc Hp].
    assert (no_wep (xs_privacy s')) as Hs' by by rewrite Hp.
    assert (xs_txpn s <= xs_txpn s' <= xs_txpn s + 1) as Hb.
    { destruct (pn48 (x_encrypt a)); [lia|]. destruct Hm as [Hw|]; [|lia]. exfalso.
      destruct Hc as [[Hc _]|[_ Hc]]; rewrite Hc in Hw; [by destruct Hw|]. destruct (Ps.mcast ra), Hw, Hs, Hg; done. }
    destruct (IH s' Hs') as [Hn Hf]; [lia|lia|]. unfold numbered in *. cbn [List.filter].
    assert (Forall (fun a => exists k p, xs_txpn s < p <= xs_txpn s + zlen ((ra, ty, et) :: l) /\ take 8 (x_iv a) = iv_of (x_encrypt a) k p)
      (List.filter (fun a => pn48 (x_encrypt a)) (sec_run c x s' l))) as Hf'.
    { apply (Forall_impl _ _ _ Hf). intros y (k & p & Hr & Hy). exists k, p. rewrite zlen_cons. split; [lia|done]. }
    destruct (pn48 (x_encrypt a)) eqn:Ep; [|done]. destruct (sec_info_pn _ _ _ _ _ _ _ _ E Ep) as (k & Hk & _).
    cbn [map]. split; [constructor; [|done]|constructor; [|done]].
    + intros (b & Hb1 & Hb2%list_elem_of_In)%list_elem_of_In%in_map_iff.
      rewrite Forall_forall in Hf. destruct (Hf b Hb2) as (k' & p & Hr & Hy).
      injection Hb1 as Ee Ei. rewrite Hy, Ee, Hk in Ei. apply iv_of_inj in Ei; lia.
    + exists k, (xs_txpn s'). rewrite zlen_cons. split; [lia|done].
  - destruct (IH s') as [Hn Hf]; [|lia|lia|].
    + revert E. unfold update_attrib_sec_info. repeat case_match; try done; injection 1 as <-; done.
    + split; [done|]. apply (Forall_impl _ _ _ Hf). intros y (k & p & Hr & Hy). exists k, p. rewrite zlen_cons. split; [lia|done].
Qed.

(** ** What [update_attrib] returns *)

Section Inv.
Context (get_sta : list Z -> option nat) (bmc : option nat) (c : config) (x : xconfig) (k : stack).
Context (sc : nat -> st_ctl) (pwr_mode uapsd_tid : Z) (uapsd_ap : bool).
Abbreviation update := (update_attrib get_sta bmc c x k sc pwr_mode uapsd_tid uapsd_ap).

Definition is_ap : bool := negb (Z.land (fw_state c) (Z.lor WIFI_AP_STATE WIFI_MESH_STATE) =? 0).

(** The attributes of a packet that is accepted for transmission. *)
Record attributed (pkt : list Z) (a : addr_attr) (st : list xsta) (at' : attrib) (st' : list xsta) : Prop := {
  at_hdr : exists hdr, splice (stack_eth k) 0 (take 14 pkt) = Ret hdr /\ get_be16 hdr 12 = Ret (x_ether_type at') /\
    (if is_ap then x_addr at' = a else sta_addrs c hdr a = Ret (x_addr at'));
  at_len : x_pktlen at' = zlen (drop 14 pkt) /\ x_pkt_hdrlen at' = ETH_HLEN;
  at_sta : (if Ps.mcast (x_ra (x_addr at')) then bmc else get_sta (x_ra (x_addr at'))) = Some (x_psta at');
  at_sec : exists s s0 s1 et, st !! x_psta at' = Some s /\ xs_asoc s = true /\ (s0 = s \/ s0 = set_xstate (Z.land (xs_state s) (0xffffffff - 0x01000000)) s) /\
    update_attrib_sec_info c x s0 (x_ra (x_addr at')) (x_ether_type at') et = (Some (x_sec at'), s1) /\ st' = <[x_psta at' := s1]> st /\
    hdr_attrib c x k pkt (x_ether_type at') (xs_qos_option s1) = Ret (x_hdr at');
  at_flags : x_mdata at' = false /\ x_eosp at' = false /\ x_amsdu at' = false /\ x_ack_policy at' = 0 }.

Lemma update_attrib_inv pkt a st at' st' es : zlen pkt < 2 ^ 32 -> update pkt a st = Ret (Some at', st', es) -> attributed pkt a st at' st'.
Proof.
  intros Hl. unfold update_attrib.
  destruct (read_ok _ _ _ 14 (open_reading pkt Hl)) as (f & Er & [Hf _]); [lia|].
  change ETH_HLEN with 14. rewrite Er. cbn [fst snd]. change (Z.to_nat 14) with 14%nat in *.
  intros (hdr & Eh & H)%bind_inv. apply bind_inv in H as (ty & Ety & H). apply bind_inv in H as (a' & Ea & H).
  apply bind_inv in H as (o & Eo & H). destruct o as [i|]; [|done].
  destruct (st !! i) as [s|] eqn:Ei; [|done].
  apply bind_inv in H as ([ip es1] & _ & H). apply bind_inv in H as ([et dn] & _ & H).
  destruct (update_attrib_sec_info _ _ _ _ _ _) as [sec s1] eqn:Es. destruct sec as [sec|]; [|done].
  apply bind_inv in H as (h & Ehd & H). injection H as <- <- _.
  unfold tx_sta in Eo. destruct (if Ps.mcast (x_ra a') then bmc else get_sta (x_ra a')) as [j|] eqn:Ej; [|done].
  destruct (st !! j) as [sj|] eqn:Esj; [|done]. destruct (xs_asoc sj) eqn:Eas; [|done]. injection Eo as ->.
  rewrite Ei in Esj. injection Esj as <-.
  split; cbn [x_ether_type x_addr x_pktlen x_pkt_hdrlen x_psta x_sec x_hdr x_mdata x_eosp x_amsdu x_ack_policy]; [|split|..]; try done.
  - exists hdr. split_and!; [done|done|]. revert Ea. unfold is_ap. destruct (negb _); [by intros [= ->]|done].
  - rewrite Hf. cbn [pf_len]. apply wrap_small. pose proof (zlen_nonneg (drop 14 pkt)). unfold fits, zlen in *. rewrite length_drop in *. lia.
  - exists s, (if dn then set_xstate (Z.land (xs_state s) (0xffffffff - 0x01000000)) s else s), s1, et.
    split_and!; try done. destruct dn; auto.
Qed.

(** ** When it returns *)

Record stack_ok : Prop := {
  so_eth : zlen (stack_eth k) = 14; so_ip : zlen (stack_ip k) = 20; so_udp : zlen (stack_udp k) = 24; so_tcp : zlen (stack_tcp k) = 20;
  so_ip_hdr : zlen (stack_ip_hdr k) = 20;
  so_bytes : bytes_ok (stack_eth k) /\ bytes_ok (stack_ip k) /\ bytes_ok (stack_udp k) /\ bytes_ok (stack_tcp k) /\ bytes_ok (stack_ip_hdr k) }.

(** What is read into a local array. *)
Lemma read_array (arr l : list Z) : bytes_ok arr -> bytes_ok l -> zlen l <= zlen arr ->
  exists a, splice arr 0 l = Ret a /\ zlen a = zlen arr /\ bytes_ok a.
Proof.
  intros Ha Hl Hn. rewrite <- (take_drop (length l) arr).
  assert (length (take (length l) arr) = length l) as E by (rewrite length_take; unfold zlen in Hn; lia).
  rewrite (splice_0 _ l _ E). eexists. split; [done|]. split.
  - unfold zlen. rewrite !length_app, E. done.
  - apply Forall_app. split; [done|]. by apply Forall_drop.
Qed.

Lemma array_rd (a : list Z) i : bytes_ok a -> 0 <= i < zlen a -> exists v, rd a i = Ret v /\ is_u8 v.
Proof. intros Hb Hi. destruct (rd_bytes a i Hb Hi) as (v & E & Hv). eauto. Qed.

Lemma reading_bytes f pre rest : reading f pre rest -> bytes_ok (pre ++ rest) -> bytes_ok rest.
Proof. intros _ [_ ?]%Forall_app. done. Qed.

Lemma ip_attrib_total f pre rest i pktlen : stack_ok -> reading f pre rest -> bytes_ok (pre ++ rest) -> zlen (pre ++ rest) < 2 ^ 31 ->
  exists r, ip_attrib k (sc i) f pktlen = Ret r.
Proof.
  intros [] Hf Hb Hs. destruct so_bytes0 as (Be & Bi & Bu & Bt & Bh). unfold ip_attrib.
  destruct (read_ok f pre rest 20 Hf) as (f1 & E1 & R1); [lia|]. rewrite E1. cbn [fst snd]. change (Z.to_nat 20) with 20%nat in *.
  pose proof (reading_bytes _ _ _ Hf Hb) as Hr.
  destruct (read_array (stack_ip k) (take 20 rest)) as (ip & -> & Li & Bip); [done|by apply Forall_take|rewrite so_ip0; unfold zlen; rewrite length_take; lia|].
  simp_res. destruct (array_rd ip 0) as (v & Ev & Hv); [done|lia|]. bind_step Ev.
  destruct (array_rd ip 9) as (pr & Ep & _); [done|lia|]. bind_step Ep.
  set (f2 := if 20 <? Z.land v 15 * 4 then (_rtw_pktfile_read f1 (Z.land v 15 - 20)).2 else f1).
  assert (exists p2 r2, reading f2 p2 r2 /\ bytes_ok (p2 ++ r2)) as (p2 & r2 & R2 & B2).
  { assert (bytes_ok ((pre ++ take 20 rest) ++ drop 20 rest)) by by rewrite <- app_assoc, take_drop.
    subst f2. destruct (20 <? _); [|eauto].
    assert (0 <= Z.land v 15 <= 15) by (pose proof (land_fits_r 4 v 15 ltac:(lia) ltac:(unfold fits; lia)); unfold fits in *; lia).
    destruct (read_negative f1 _ _ (Z.land v 15 - 20) R1) as (f' & -> & R'); [lia|by rewrite <- app_assoc, take_drop|].
    exists ((pre ++ take 20 rest) ++ drop 20 rest), []. split; [done|]. by rewrite app_nil_r. }
  clearbody f2. pose proof (reading_bytes _ _ _ R2 B2) as Br2.
  assert (forall n, 0 <= n < 2 ^ 32 -> exists l, (_rtw_pktfile_read f2 n).1.2 = l /\ bytes_ok l /\ zlen l <= n) as Hrd.
  { intros n Hn. destruct (read_ok f2 p2 r2 n R2 Hn) as (f3 & -> & _). eexists. split; [done|]. cbn [fst snd].
    split; [by apply Forall_take|unfold zlen; rewrite length_take; lia]. }
  destruct (pr =? 1); [eauto|]. destruct (pr =? 17).
  - destruct (Hrd 24) as (l & -> & Bl & Ll); [lia|].
    destruct (read_array (stack_udp k) l) as (udp & -> & Lu & Bu'); [done|done|lia|]. simp_res.
    destruct (get_be16_total udp 0) as (s1 & -> & _); [done|lia..|]. simp_res.
    destruct (get_be16_total udp 2) as (s2 & -> & _); [done|lia..|]. simp_res.
    destruct (array_rd udp 8) as (g1 & -> & _); [done|lia|]. destruct (array_rd udp 23) as (g2 & -> & _); [done|lia|]. simp_res. eauto.
  - destruct ((pr =? 6) && s_tcp (sc i)); [|eauto].
    destruct (Hrd 20) as (l & -> & Bl & Ll); [lia|].
    destruct (read_array (stack_tcp k) l) as (tcp & -> & Lt & Bt'); [done|done|lia|]. simp_res.
    destruct (slice_total ip 12 4) as (? & -> & _); [lia..|]. destruct (slice_total ip 16 4) as (? & -> & _); [lia..|].
    destruct (slice_total tcp 0 2) as (? & -> & _); [lia..|]. destruct (slice_total tcp 2 2) as (? & -> & _); [lia..|]. simp_res.
    destruct (array_rd tcp 13) as (? & -> & _); [done|lia|]. simp_res. eauto.
Qed.

Lemma set_qos_total pkt ty h : stack_ok -> bytes_ok pkt -> zlen pkt < 2 ^ 31 ->
  exists p, set_qos (c_up_rule x) (stack_ip_hdr k) pkt ty h = Ret (HdrAttr WLAN_HDR_A3_QOS_LEN WIFI_QOS_DATA_TYPE (x_qos_en h) p) /\ 0 <= p < 8.
Proof.
  intros [] Hb Hl. destruct so_bytes0 as (Be & Bi & Bu & Bt & Bh). unfold set_qos. destruct (ty =? 0x800); [|exists 0; done].
  destruct (read_ok _ _ _ 14 (open_reading pkt ltac:(lia))) as (f & Er & R); [lia|].
  change ETH_HLEN with 14. rewrite Er. cbn [fst snd].
  destruct (read_ok _ _ _ 20 R) as (f2 & Er2 & _); [lia|]. rewrite Er2. cbn [fst snd].
  destruct (read_array (stack_ip_hdr k) (take 20 (drop 14 pkt))) as (ip & Ei & Li & Bip);
    [done|by apply Forall_take, Forall_drop|rewrite so_ip_hdr0; unfold zlen; rewrite length_take; lia|].
  change (Z.to_nat 20) with 20%nat. change (Z.to_nat 14) with 14%nat. rewrite Ei. simp_res.
  destruct (array_rd ip 1) as (v & -> & Hv); [done|lia|]. simp_res.
  assert (0 <= tos_to_up (c_up_rule x) v < 8) as Hup.
  { unfold tos_to_up. destruct (_ =? 0).
    - unfold fits in Hv. rewrite Z.shiftr_div_pow2 by lia. split; [apply Z.div_pos; lia|apply Z.div_lt_upper_bound; lia].
    - repeat case_match; lia. }
  eexists. split; [done|]. rewrite wrap_small; [done|unfold fits; lia].
Qed.

Lemma acm_range m p : 0 <= p < 8 -> 0 <= qos_acm m p < 8.
Proof. unfold qos_acm. intros. repeat case_match; lia. Qed.

Lemma hdr_attrib_total pkt ty q : stack_ok -> bytes_ok pkt -> zlen pkt < 2 ^ 31 ->
  exists qos p, hdr_attrib c x k pkt ty q = Ret (if qos : bool then HdrAttr WLAN_HDR_A3_QOS_LEN WIFI_QOS_DATA_TYPE q p else HdrAttr WLAN_HDR_A3_LEN Mfp.WIFI_DATA_TYPE q 0) /\
    0 <= p < 8 /\ qos = if check_fwstate c (Z.lor (Z.lor (Z.lor WIFI_AP_STATE WIFI_MESH_STATE) WIFI_ADHOC_STATE) WIFI_ADHOC_MASTER_STATE) then q else c_qos_option x.
Proof.
  intros Hk Hb Hl. unfold hdr_attrib.
  destruct (set_qos_total pkt ty (HdrAttr WLAN_HDR_A3_LEN Mfp.WIFI_DATA_TYPE q 0) Hk Hb Hl) as (p & E & Hp). cbn [x_qos_en] in E.
  destruct (check_fwstate _ _).
  - destruct q; [exists true, p; rewrite E; done|exists false, 0; done].
  - destruct (c_qos_option x); [|exists false, 0; done]. exists true. rewrite E. simp_res.
    destruct (c_acm_mask x =? 0); [exists p; done|]. exists (qos_acm (c_acm_mask x) p). split; [done|]. split; [by apply acm_range|done].
Qed.

(** The shortest EAPOL packet that is parsed without reading behind it. *)
Definition eapol_room (pkt : list Z) (ty : Z) : Prop := ty = 0x888e -> 14 + 99 <= zlen pkt.

Lemma eapol_total pkt : bytes_ok pkt -> 14 + 99 <= zlen pkt -> exists r, parsing_eapol_packet (c_wpapsk x) pkt 14 = Ret r.
Proof.
  intros Hb Hl. unfold parsing_eapol_packet. destruct (array_rd pkt (14 + 1)) as (v & -> & _); [done|lia|]. simp_res.
  destruct (get_le16_total pkt (14 + 2)) as (n & En & _); [done|lia..|].
  destruct (v =? 1); [rewrite En; simp_res; destruct (n =? 0); [eauto|]|simp_res]; cbn [andb].
  all: destruct (v =? 0); [eauto|].
  all: destruct (get_be16_total pkt (14 + 5)) as (i & -> & _); [done|lia..|].
  all: destruct (get_be16_total pkt (14 + 97)) as (n' & -> & _); [done|lia..|]; simp_res; eauto.
Qed.

Lemma update_attrib_total pkt a st ty i s : stack_ok -> bytes_ok pkt -> 14 <= zlen pkt -> zlen pkt < 2 ^ 31 -> get_be16 pkt 12 = Ret ty -> eapol_room pkt ty ->
  let ra := if is_ap then x_ra a else if check_fwstate c WIFI_ADHOC_STATE || check_fwstate c WIFI_ADHOC_MASTER_STATE then take 6 pkt
            else if check_fwstate c WIFI_STATION_STATE then mybssid c else x_ra a in
  (if Ps.mcast ra then bmc else get_sta ra) = Some i -> st !! i = Some s -> xs_asoc s = true ->
  exists o st' es et dn, update pkt a st = Ret (o, st', es) /\
    (o = None <-> (update_attrib_sec_info c x (if dn : bool then set_xstate (Z.land (xs_state s) (0xffffffff - 0x01000000)) s else s) ra ty et).1 = None) /\
    (ty <> 0x888e -> dn = false /\ et = NON_EAPOL).
Proof.
  intros Hk Hb Hl Hl2 Hty He ra Hi Hs Has. unfold update_attrib.
  destruct (read_ok _ _ _ 14 (open_reading pkt ltac:(lia))) as (f & Er & Rf); [lia|].
  change ETH_HLEN with 14. rewrite Er. cbn [fst snd]. change (Z.to_nat 14) with 14%nat in *.
  assert (splice (stack_eth k) 0 (take 14 pkt) = Ret (take 14 pkt)) as ->.
  { rewrite <- (app_nil_r (stack_eth k)), splice_0, app_nil_r; [done|]. destruct Hk. rewrite length_take. unfold zlen in *. lia. }
  simp_res.
  assert (get_be16 (take 14 pkt) 12 = Ret ty) as ->.
  { revert Hty. unfold get_be16. change 14%nat with (Z.to_nat 14). rewrite !rd_take by lia. done. }
  simp_res.
  set (ca := if negb _ then _ else _).
  assert (exists a', ca = Ret a' /\ x_ra a' = ra) as (a' & -> & Hra).
  { subst ca ra. unfold is_ap. destruct (negb _); [eauto|]. unfold sta_addrs.
    rewrite (slice_Ret (take 14 pkt) 0 6), (slice_Ret (take 14 pkt) 6 6); [|unfold zlen in *; rewrite ?length_take; lia..].
    simp_res. eexists. split; [done|]. cbn [x_ra]. destruct (_ || _); [|done]. change (take 6 (take 14 pkt) = take 6 pkt). by rewrite take_take. }
  simp_res. unfold tx_sta. rewrite Hra, Hi, Hs, Has. simp_res. rewrite Hs.
  assert (bytes_ok (take 14 pkt ++ drop 14 pkt)) as Hb2 by by rewrite take_drop.
  set (ci := if ty =? 0x800 then _ else _).
  assert (exists r, ci = Ret r) as [[ip es1] ->].
  { subst ci. destruct (ty =? 0x800); [|eauto]. apply (ip_attrib_total f (take 14 pkt) (drop 14 pkt)); try done. by rewrite take_drop. }
  simp_res. set (ce := if ty =? 0x888e then _ else _).
  assert (exists et dn, ce = Ret (et, dn) /\ (ty <> 0x888e -> dn = false /\ et = NON_EAPOL)) as (et & dn & -> & Hne).
  { subst ce. destruct (ty =? 0x888e) eqn:E; [|exists NON_EAPOL, false; done]. apply Z.eqb_eq in E.
    destruct Rf as [-> _]. cbn [pf_cur]. replace (zlen ([] ++ take 14 pkt)) with 14 by (unfold zlen in *; rewrite length_app, length_take; cbn [length]; lia).
    destruct (eapol_total pkt Hb (He E)) as [[et dn] ->]. exists et, dn. split; [done|]. by intros []. }
  simp_res. destruct (update_attrib_sec_info _ _ _ _ _ _) as [sec s1] eqn:Es. destruct sec as [sec|].
  - destruct (hdr_attrib_total pkt ty (xs_qos_option s1) Hk Hb Hl2) as (qos & p & -> & _). simp_res.
    do 5 eexists. split; [done|]. split; [|exact Hne]. rewrite Es. done.
  - do 5 eexists. split; [done|]. split; [|exact Hne]. rewrite Es. done.
Qed.
End Inv.

(** ** Theorems *)

(** C19: Over any sequence of packets to one station in a network with 802.1X keys,
    no two packets get the same packet number: the pairs of cipher and IV of the
    packets with a 48-bit packet number are all different, until 2^48 is reached. *)
Theorem iv_never_repeats c x s l : AuthAlgrthm c = dot11AuthAlgrthm_8021X -> no_wep (GrpPrivacy c) -> no_wep (xs_privacy s) ->
  0 <= xs_txpn s -> xs_txpn s + zlen l < 2 ^ 48 ->
  NoDup (map tx_nonce (numbered (sec_run c x s l))).
Proof. intros Ha Hg Hs H0 H1. by apply sec_run_pn. Qed.

(** C29: A packet that leaves an interface with 802.1X security is either an EAPOL
    packet or goes to a station whose port is open and carries the station's cipher
    (the group cipher for a group address); its receiver is associated. *)
Theorem tx_only_protected get_sta bmc c x k sc pwr_mode uapsd_tid uapsd_ap pkt a st at' st' es :
  AuthAlgrthm c = dot11AuthAlgrthm_8021X -> check_fwstate c WIFI_MP_STATE = false -> zlen pkt < 2 ^ 32 ->
  update_attrib get_sta bmc c x k sc pwr_mode uapsd_tid uapsd_ap pkt a st = Ret (Some at', st', es) ->
  exists s, st !! x_psta at' = Some s /\ xs_asoc s = true /\
    (x_ether_type at' = 0x888e \/
     xs_blocked s = false /\ x_encrypt (x_sec at') = u8 (if Ps.mcast (x_ra (x_addr at')) then GrpPrivacy c else xs_privacy s)).
Proof.
  intros Ha Hm Hl H%update_attrib_inv; [|done]. destruct H as [_ _ _ (s & s0 & s1 & et & Hs & Has & H0 & Hsec & _) _].
  exists s. split_and!; [done|done|]. destruct (sec_info_8021X _ _ _ _ _ _ _ _ Ha Hsec) as [[[_ [Hty|Hmp]]|[Hb He]] _].
  - by left.
  - rewrite Hm in Hmp. done.
  - right. by destruct H0 as [-> | ->].
Qed.

(** ** Witnesses *)

Definition sta_addr : list Z := [2; 0; 0; 0; 0; 1].
Definition ex_sta (auth : Z) : config := Config 0x9 sta_addr ap_addr (if auth =? 2 then 4 else 0) auth 4 false 1 (fun _ => 1000).
Definition ex_xcfg : xconfig := XConfig true 0 true false true 0 0 false false false 0.
Definition ex_xsta (enc : Z) : xsta :=
  XSta 1 true false enc 5 (map Z.of_nat (seq 1 32)) (replicate 32 0) (replicate 16 0) (replicate 16 0) 0 false false 0.
Definition ex_stack (v : Z) : stack := Stack (replicate 14 v) (replicate 20 v) (replicate 24 v) (replicate 20 v) (replicate 20 v).
Definition ex_rules (i : nat) : st_ctl := StCtl true (fun _ _ _ _ => true).
Definition ex_to_ap (a : list Z) : option nat := if bool_decide (a = ap_addr) then Some 0%nat else None.
Definition no_addr_attr : addr_attr := AddrAttr [] [] [] [].
Definition ex_update (auth v : Z) (pkt : list Z) : res (option attrib * list xsta * list effect) :=
  update_attrib ex_to_ap None (ex_sta auth) ex_xcfg (ex_stack v) ex_rules 0 0 false pkt no_addr_attr [ex_xsta (if auth =? 2 then 4 else 0)].
Definition ex_attr (r : res (option attrib * list xsta * list effect)) : option attrib := match r with Ret (o, _, _) => o | _ => None end.
Definition ex_pkt (ty : Z) (l : list Z) : list Z := [2; 0; 0; 0; 0; 7] ++ sta_addr ++ be16 ty ++ l.

Lemma iv_never_repeats_witness :
  NoDup (map tx_nonce (numbered (sec_run (ex_sta 2) ex_xcfg (ex_xsta 4) (replicate 3 (ap_addr, 0x800, NON_EAPOL))))).
Proof. refine (iv_never_repeats (ex_sta 2) ex_xcfg (ex_xsta 4) (replicate 3 (ap_addr, 0x800, NON_EAPOL)) _ _ _ _ _); [reflexivity|split; discriminate|split; discriminate|by_eval|by_eval]. Defined.

Lemma tx_only_protected_witness : exists at', ex_attr (ex_update 2 0 (ex_pkt 0x0806 (replicate 28 0))) = Some at' /\
  exists s, [ex_xsta 4] !! x_psta at' = Some s /\ xs_asoc s = true /\
    (x_ether_type at' = 0x888e \/ xs_blocked s = false /\ x_encrypt (x_sec at') = u8 (if Ps.mcast (x_ra (x_addr at')) then GrpPrivacy (ex_sta 2) else xs_privacy s)).
Proof.
  eexists. split; [vm_compute; reflexivity|].
  refine (tx_only_protected ex_to_ap None (ex_sta 2) ex_xcfg (ex_stack 0) ex_rules 0 0 false (ex_pkt 0x0806 (replicate 28 0)) no_addr_attr [ex_xsta 4] _ _ _ _ _ _ _);
    [reflexivity|reflexivity|by_eval|vm_compute; reflexivity].
Defined.

(** ** Where the code does less *)

(** A DHCP request in an IP packet with options: [IHL - 20] is negative, so the
    whole packet is skipped and the ports are those of a local array that was never
    written. *)
Definition ex_dhcp (ihl : Z) : list Z :=
  ex_pkt 0x0800 ([0x40 + ihl; 0; 1; 94; 0; 0; 0; 0; 64; 0x11; 0; 0; 10; 0; 0; 1; 10; 0; 0; 2] ++ replicate (Z.to_nat (4 * ihl - 20)) 1 ++ [0; 68; 0; 67; 1; 0] ++ replicate 300 0).
Definition ex_is_dhcp (v ihl : Z) : option bool := o ← ex_attr (ex_update 0 v (ex_dhcp ihl)); Some (x_dhcp (x_ip o)).
Example ip_options_skipped : ex_is_dhcp 0 5 = Some true /\ ex_is_dhcp 0 6 = Some false.
Proof. done. Qed.

(** The priority of an IP packet that ends with the Ethernet header is that of an
    array that was never written. *)
Example qos_of_nothing : (x_priority ∘ x_hdr <$> ex_attr (ex_update 0 0 (ex_pkt 0x0800 []))) = Some 0 /\
  (x_priority ∘ x_hdr <$> ex_attr (ex_update 0 0xff (ex_pkt 0x0800 []))) = Some 7.
Proof. done. Qed.

(** An EAPOL logoff packet: four octets, but the key information is read behind
    them. *)
Example eapol_overread : ex_update 2 0 (ex_pkt 0x888e [1; 2; 0; 0]) = Oob.
Proof. done. Qed.

(** The session tracker is given the local address as the remote one. *)
Example session_remote : (match ex_update 0 0 (ex_pkt 0x0800 ([0x45; 0; 0; 40; 0; 0; 0; 0; 64; 6; 0; 0; 10; 0; 0; 1; 10; 0; 0; 2] ++ [0; 80; 4; 1; 0; 0; 0; 0; 0; 0; 0; 0; 0x50; 0x12] ++ replicate 6 0)) with
  Ret (_, _, es) => es | _ => [] end) = [SESSION_ADD [10; 0; 0; 1] [0; 80] [10; 0; 0; 1] [4; 1]].
Proof. done. Qed.

(** The test for a trigger frame compares a bit with 1: it holds for priority 0
    only. *)
Lemma trigger_only_be c pm tid ap p : 0 <= p -> update_attrib_trigger_frame_info c pm tid ap p = true -> p = 0.
Proof.
  intros Hp H. unfold update_attrib_trigger_frame_info in H. apply andb_true_iff in H as [_ H%Z.eqb_eq].
  destruct (decide (p = 0)); [done|]. assert (Z.testbit (Z.land tid (Z.shiftl 1 p)) 0 = false) as E.
  { rewrite Z.land_spec, Z.shiftl_spec, (Z.testbit_neg_r 1 (0 - p)) by lia. apply andb_false_r. }
  rewrite H in E. done.
Qed.
End Attrib.
