(* ===== verification/Xmit.v ===== *)
(** * Building data frames

    Models, of [core/rtw_xmit.c], [rtw_put_snap], [rtw_make_wlanhdr],
    [xmitframe_addmic] and [rtw_xmitframe_coalesce] (without A-MSDU and mesh, which
    are compiled out); the software encryption it ends with is
    [Mfp.xmitframe_swencrypt], the attributes are those of [Attrib].  The virtual
    carrier sense mode, which goes to the descriptor only, is left out.

    A frame is written into the transmit buffer [b], whose first byte has the address
    [base]; [addr] is the offset of [buf_addr] in it.  The octets of [pattrib->icv],
    which nothing sets and the encryption overwrites, are written as zeros.  The loop
    over the fragments has fuel: one more than the number of octets of the packet is
    enough (in [Frag]).

    The lemmas: the header is built in place; sequence numbers are consecutive; the
    header and the body of a frame that is sent in one fragment.  [Frag] has the
    theorem on fragments, [Path] the one on a frame that is sent and received. *)
From S2P Require Import Prelude Ies Aes Modes Cmac Ccm Gcm Arc4 Michael Tkip Ccmp Mfp Reorder Recv Amsdu Cam Macid Sta Tim Ps PsRun Validate Attrib.

Module Xmit.
Import Aes Ccm Crc32 Wep Michael Tkip Ccmp Amsdu Validate Attrib.

(** ** Writing fields *)

Definition WLANHDR_OFFSET : Z := 64.

(** A read-modify-write of a little-endian field ([SetToDs], [SetMFrag], ...). *)
Definition upd_le16 (b : list Z) (q : Z) (f : Z -> Z) : res (list Z) := v ← get_le16 b q; splice b q (le16 (f v)).

(** [SET_BITS_TO_LE_2BYTE(qc, off, len, v)]. *)
Definition set_bits (b : list Z) (qc off len v : Z) : res (list Z) :=
  upd_le16 b qc (fun q => Z.lor (Z.ldiff q (Z.shiftl (Z.ones len) off)) (Z.shiftl (Z.land (u16 v) (Z.ones len)) off)).

(** [rtw_put_snap]: the encapsulation header of a protocol. *)
Definition snap (h_proto : Z) : list Z :=
  [0xaa; 0xaa; 0x03] ++ (if (h_proto =? 0x8137) || (h_proto =? 0x80f3) then [0; 0; 0xf8] else [0; 0; 0]) ++ be16 h_proto.
Definition rtw_put_snap (b : list Z) (data h_proto : Z) : res (list Z * Z) := b ← splice b data (snap h_proto); Ret (b, 8).

(** ** The header *)

Section Code.
Context (get_sta : list Z -> option nat) (c : config) (x : xconfig).

(** Receiver, transmitter and third address, the bits of the frame control field and
    whether there is a QoS control field, by the role of the interface. *)
Definition wlanhdr_addrs (a : attrib) : option (Z * list Z * list Z * list Z * bool) :=
  let d := x_addr a in
  if check_fwstate c WIFI_STATION_STATE then Some (0x100, mybssid c, x_ta d, x_dst d, c_qos_option x)
  else if check_fwstate c WIFI_AP_STATE then Some (0x200, x_dst d, mybssid c, x_src d, x_qos_en (x_hdr a))
  else if check_fwstate c WIFI_ADHOC_STATE || check_fwstate c WIFI_ADHOC_MASTER_STATE then
    Some (0, x_dst d, x_ta d, mybssid c, x_qos_en (x_hdr a))
  else None.

(** The next sequence number of the station, and whether the frame may still be
    aggregated: with [BA_starting_seqctrl] when it was so before. *)
Definition next_seq (s : xsta) (prio : Z) (ampdu : bool) : res (Z * bool * xsta) :=
  v ← rd (xs_txseq s) prio;
  let seqnum := Z.land (u16 (v + 1)) 0xfff in
  txseq ← wr (xs_txseq s) prio seqnum;
  if ampdu then
    tx_seq ← rd (xs_ba s) (Z.land prio 0x0f);
    if Reorder.SN_LESS seqnum tx_seq then Ret (seqnum, false, set_seqs txseq (xs_ba s) s)
    else
      let next := if seqnum =? tx_seq then Z.land (tx_seq + 1) 0xfff else Z.land (seqnum + 1) 0xfff in
      ba ← wr (xs_ba s) (Z.land prio 0x0f) next;
      Ret (seqnum, true, set_seqs txseq ba s)
  else Ret (seqnum, false, set_seqs txseq (xs_ba s) s).

(** The result: the status, the buffer, the sequence number, [ampdu_en], the
    stations. *)
Definition rtw_make_wlanhdr (b : list Z) (hdr : Z) (a : attrib) (st : list xsta) : res (Z * list Z * Z * bool * list xsta) :=
  let h := x_hdr a in
  b ← memset b hdr 0 WLANHDR_OFFSET;
  b ← upd_le16 b hdr (fun fc => Z.lor (Z.ldiff fc 0xfc) (x_subtype h));
  if negb (Z.land (x_subtype h) Mfp.WIFI_DATA_TYPE =? 0) then
    match wlanhdr_addrs a with
    | None => Ret (_FAIL, b, 0, x_ampdu_en a, st)
    | Some (ds, a1, a2, a3, qos_option) =>
        b ← (if ds =? 0 then Ret b else upd_le16 b hdr (fun fc => Z.lor fc ds));
        b ← splice b (hdr + 4) a1; b ← splice b (hdr + 10) a2; b ← splice b (hdr + 16) a3;
        b ← (if x_mdata a then upd_le16 b hdr (fun fc => Z.lor fc 0x2000) else Ret b);
        b ← (if x_encrypt (x_sec a) =? 0 then Ret b else upd_le16 b hdr (fun fc => Z.lor fc 0x4000));
        b ← (if qos_option : bool then
               let qc := hdr + x_hdrlen h - 2 in
               b ← (if x_priority h =? 0 then Ret b else set_bits b qc 0 4 (x_priority h));
               b ← set_bits b qc 4 1 (Z.b2z (x_eosp a));
               b ← set_bits b qc 5 2 (x_ack_policy a);
               if x_amsdu a then set_bits b qc 7 1 1 else Ret b
             else Ret b);
        match get_sta (x_ra (x_addr a)) with
        | None => Ret (_FAIL, b, 0, x_ampdu_en a, st)
        | Some i =>
            if negb (bool_decide (i = x_psta a)) then Ret (_FAIL, b, 0, x_ampdu_en a, st)
            else
              match st !! i with
              | None => Oob
              | Some s =>
                  if negb (xs_asoc s) then Ret (_FAIL, b, 0, x_ampdu_en a, st)
                  else
                    '(seqnum, ampdu, s) ← next_seq s (x_priority h) (x_ampdu_en a);
                    b ← upd_le16 b (hdr + 22) (fun v => Z.lor (Z.land v 0xf) (Z.land (Z.shiftl seqnum 4) 0xfff0));
                    Ret (_SUCCESS, b, seqnum, ampdu, <[i := s]> st)
              end
        end
    end
  else Ret (_SUCCESS, b, 0, x_ampdu_en a, st).

(** ** Fragments *)

Section Loop.
Context (base addr off : Z) (frag_len : Z) (a : attrib).
Abbreviation sec := (x_sec a).
Abbreviation hl := (x_hdrlen (x_hdr a)).

Definition bmcst : bool := Ps.mcast (x_ra (x_addr a)).
Definition sw_icv : Z := if x_bswenc sec then x_icv_len sec else 0.

(** One turn of the loop: [mem_start] is the offset of the fragment. *)
Definition coalesce_frag (b : list Z) (mem_start : Z) (f : pkt_file) (frg_inx : Z) : res (list Z * Z * Z * Z * pkt_file) :=
  b ← upd_le16 b mem_start (fun fc => Z.lor fc 0x400);
  iv ← slice (x_iv sec) 0 (x_iv_len sec);
  b ← splice b (mem_start + hl) iv;
  let pframe := mem_start + hl + x_iv_len sec in
  '(b, llc_sz) ← (if frg_inx =? 0 then rtw_put_snap b pframe (x_ether_type a) else Ret (b, 0));
  let pframe := pframe + llc_sz in
  let mpdu_len := frag_len - 4 - hl - x_iv_len sec - llc_sz - sw_icv in
  let '(mem_sz, bytes, f) := _rtw_pktfile_read f (if bmcst then x_pktlen a else mpdu_len) in
  b ← splice b pframe bytes;
  let pframe := pframe + mem_sz in
  b ← splice b pframe (replicate (Z.to_nat sw_icv) 0);
  Ret (b, pframe + sw_icv, llc_sz, mem_sz, f).

(** The loop: the buffer, [nr_frags] and [last_txcmdsz]. *)
Fixpoint coalesce_loop (fuel : nat) (b : list Z) (mem_start : Z) (f : pkt_file) (frg_inx : Z) : res (list Z * Z * Z) :=
  match fuel with
  | O => NoFuel
  | S fuel =>
      '(b, pframe, llc_sz, mem_sz, f) ← coalesce_frag b mem_start f frg_inx;
      let frg_inx := frg_inx + 1 in
      if bmcst || rtw_endofpktfile f then
        b ← upd_le16 b mem_start (fun fc => Z.ldiff fc 0x400);
        Ret (b, u8 frg_inx, u32 (hl + x_iv_len sec + (if u8 frg_inx =? 1 then llc_sz else 0) + sw_icv + mem_sz))
      else
        let mem_start := RND4 (base + pframe) - base + off in
        h ← slice b (addr + off) hl;
        b ← splice b mem_start h;
        coalesce_loop fuel b mem_start f frg_inx
  end.
End Loop.

(** ** The MIC *)

(** The loop over the fragments of [xmitframe_addmic]. *)
Fixpoint addmic_loop (n : nat) (base frag_len : Z) (a : attrib) (last_txcmdsz : Z) (b : list Z) (payload : Z) (d : mic_data) : res (mic_data * Z) :=
  match n with
  | O => Ret (d, payload)
  | S n =>
      let skip := x_hdrlen (x_hdr a) + x_iv_len (x_sec a) in
      let payload := RND4 (base + payload) - base + skip in
      let length := (match n with O => last_txcmdsz | S _ => frag_len end) - skip - sw_icv a in
      l ← slice b payload length;
      addmic_loop n base frag_len a last_txcmdsz b (payload + length + (match n with O => 0 | S _ => x_icv_len (x_sec a) end))
        (rtw_secmicappend d l)
  end.

(** [xmitframe_addmic]; [grpmic] is the group MIC key in use.  The result: the
    status, the buffer, [last_txcmdsz]. *)
Definition xmitframe_addmic (b : list Z) (base addr off frag_len : Z) (a : attrib) (grpmic : list Z) (nr_frags last_txcmdsz : Z)
  : res (Z * list Z * Z) :=
  if x_encrypt (x_sec a) =? _TKIP_ then
    let key := if bmcst a then grpmic else x_mickey (x_sec a) in
    let pframe := addr + off in
    k16 ← slice key 0 16;
    if bool_decide (k16 = replicate 16 0) then Ret (_FAIL, b, last_txcmdsz)
    else
      d ← rtw_secmicsetkey key;
      f1 ← rd b (pframe + 1);
      da ← slice b (pframe + (if Z.land f1 1 =? 0 then 4 else 16)) 6;
      sa ← slice b (pframe + (if Z.land f1 2 =? 0 then 10 else if Z.land f1 1 =? 0 then 16 else 24)) 6;
      let d := rtw_secmicappend (rtw_secmicappend d da) sa in
      let d := rtw_secmicappend d [if x_qos_en (x_hdr a) then u8 (x_priority (x_hdr a)) else 0; 0; 0; 0] in
      '(d, payload) ← addmic_loop (Z.to_nat nr_frags) base frag_len a last_txcmdsz b pframe d;
      '(mic, _) ← rtw_secgetmic d;
      b ← splice b payload mic;
      Ret (_SUCCESS, b, u32 (last_txcmdsz + 8))
  else Ret (_SUCCESS, b, last_txcmdsz).

(** ** Putting it together *)

Section Crypto.
Context {ctx : Type} `{!BlockCipher ctx} (os_malloc : Z -> option (list Z)) (mem : option (list Z)) (a0 : list Z) (amsdu_mode : Z).

(** What [xmitframe_swencrypt] reads of the attributes. *)
Definition sw_attrib (a : attrib) (nr_frags last_txcmdsz : Z) : Mfp.tx_attrib :=
  Mfp.TxAttrib (PktAttrib (x_encrypt (x_sec a)) nr_frags (x_hdrlen (x_hdr a)) (x_iv_len (x_sec a)) (x_icv_len (x_sec a)) last_txcmdsz)
    (x_pktlen a) (x_bswenc (x_sec a)) 0 (x_ra (x_addr a)) (x_ta (x_addr a)) (replicate 16 0) (x_skey (x_sec a)).

(** The keys of the adapter: group MIC key, group key, default WEP key. *)
Record tx_keys := TxKeys { k_grpmic : list Z; k_grp : list Z; k_wep : list Z; k_weplen : Z }.

(** [rtw_xmitframe_coalesce]: the status, the buffer, [nr_frags], [last_txcmdsz],
    [ampdu_en], the stations, the state of the CRC table. *)
Definition rtw_xmitframe_coalesce (fuel : nat) (crc : crc_state) (keys : tx_keys) (frag_len : Z) (pkt : list Z) (b : list Z)
    (buf_addr : option Z) (base pkt_offset : Z) (a : attrib) (st : list xsta)
  : res (Z * list Z * Z * Z * bool * list xsta * crc_state) :=
  match buf_addr with
  | None => Ret (_FAIL, b, 0, 0, x_ampdu_en a, st, crc)
  | Some addr =>
      let off := hw_hdr_offset pkt_offset in
      '(ret, b, _, ampdu, st) ← rtw_make_wlanhdr b (addr + off) a st;
      if ret =? _FAIL then Ret (_FAIL, b, 0, 0, ampdu, st, crc)
      else
        let f := (_rtw_pktfile_read (_rtw_open_pktfile pkt) (x_pkt_hdrlen a)).2 in
        '(b, n, last) ← coalesce_loop base addr off frag_len a fuel b (addr + off) f 0;
        '(ret, b, last) ← xmitframe_addmic b base addr off frag_len a (k_grpmic keys) n last;
        if ret =? _FAIL then Ret (_FAIL, b, n, last, ampdu, st, crc)
        else
          '(b, crc) ← Mfp.xmitframe_swencrypt (ctx := ctx) os_malloc mem a0 amsdu_mode crc b (Some addr) base pkt_offset (sw_attrib a n last)
                        frag_len (k_grp keys) (k_wep keys) (k_weplen keys);
          Ret (_SUCCESS, b, n, last, ampdu, st, crc)
  end.
End Crypto.
End Code.

(** ** Working in a part of the buffer *)

Section Part.
Context (pre post : list Z).

Lemma slice_in b i n l : 0 <= i -> slice b i n = Ret l -> slice (pre ++ b ++ post) (zlen pre + i) n = Ret l.
Proof.
  intros Hi H. destruct (at_off_of_slice _ _ _ _ H) as (l1 & l2 & -> & ->).
  rewrite <- app_assoc. rewrite (app_assoc pre), <- (app_assoc l). apply slice_mid; [by rewrite zlen_app|].
  apply slice_inv in H. lia.
Qed.

Lemma splice_in b i l b' : splice b i l = Ret b' -> splice (pre ++ b ++ post) (zlen pre + i) l = Ret (pre ++ b' ++ post).
Proof.
  unfold splice. pose proof (zlen_nonneg pre). pose proof (zlen_nonneg post). rewrite !zlen_app.
  destruct ((0 <=? i) && (i + zlen l <=? zlen b)) eqn:E; [|done]. apply andb_true_iff in E as [E1%Z.leb_le E2%Z.leb_le].
  injection 1 as <-. zdecide. cbn [andb]. f_equal. pose proof (zlen_nonneg l). unfold zlen in *.
  rewrite (Z2Nat.inj_add (Z.of_nat (length pre)) i), Nat2Z.id by lia.
  rewrite (take_app_ge pre) by lia. rewrite (drop_app_ge pre) by lia.
  replace (length pre + Z.to_nat i - length pre)%nat with (Z.to_nat i) by lia.
  replace (length pre + Z.to_nat i + length l - length pre)%nat with (Z.to_nat i + length l)%nat by lia.
  rewrite take_app_le by lia. rewrite drop_app_le by lia. by rewrite <- !app_assoc.
Qed.

Lemma rd_in_part (b : list Z) i v : rd b i = Ret v -> rd (pre ++ b ++ post) (zlen pre + i) = Ret v.
Proof.
  intros H. pose proof (rd_Ret_lt _ _ _ H). rewrite rd_app_r by lia. replace (zlen pre + i - zlen pre) with i by lia.
  by rewrite rd_app_l by lia.
Qed.

Lemma get_le16_in b i v : get_le16 b i = Ret v -> get_le16 (pre ++ b ++ post) (zlen pre + i) = Ret v.
Proof.
  unfold get_le16. intros (x & Ex & H)%bind_inv. apply bind_inv in H as (y & Ey & H). injection H as <-.
  rewrite (rd_in_part _ _ _ Ex), <- Z.add_assoc, (rd_in_part _ _ _ Ey). done.
Qed.

Lemma upd_in b i f b' : upd_le16 b i f = Ret b' -> upd_le16 (pre ++ b ++ post) (zlen pre + i) f = Ret (pre ++ b' ++ post).
Proof. unfold upd_le16. intros (v & Ev & H)%bind_inv. bind_step (get_le16_in _ _ _ Ev). by apply splice_in. Qed.

Lemma set_bits_in b i o n v b' : set_bits b i o n v = Ret b' -> set_bits (pre ++ b ++ post) (zlen pre + i) o n v = Ret (pre ++ b' ++ post).
Proof. apply upd_in. Qed.

Lemma memset_in b i v n b' : memset b i v n = Ret b' -> memset (pre ++ b ++ post) (zlen pre + i) v n = Ret (pre ++ b' ++ post).
Proof. apply splice_in. Qed.
End Part.

(** Rewrites one step on the whole buffer with the step on its part. *)
Ltac in_part pre post E :=
  let F := fresh in
  first [ pose proof (memset_in pre post _ _ _ _ _ E) as F; rewrite ?Z.add_0_r in F; bind_step F
        | pose proof (set_bits_in pre post _ _ _ _ _ _ E) as F; rewrite ?Z.add_0_r in F; bind_step F
        | pose proof (upd_in pre post _ _ _ _ E) as F; rewrite ?Z.add_0_r in F; bind_step F
        | pose proof (splice_in pre post _ _ _ _ E) as F; rewrite ?Z.add_0_r in F; bind_step F ];
  clear F.

(** The header is built in place: what is around it does not matter. *)
Lemma make_wlanhdr_in get_sta c x pre post room a st r room' sq am st' :
  rtw_make_wlanhdr get_sta c x room 0 a st = Ret (r, room', sq, am, st') ->
  rtw_make_wlanhdr get_sta c x (pre ++ room ++ post) (zlen pre) a st = Ret (r, pre ++ room' ++ post, sq, am, st').
Proof.
  unfold rtw_make_wlanhdr. intros (b1 & E1 & H)%bind_inv. in_part pre post E1.
  apply bind_inv in H as (b2 & E2 & H). in_part pre post E2.
  destruct (negb _); [|by injection H as <- <- <- <- <-].
  destruct (wlanhdr_addrs c x a) as [[[[[ds a1] a2] a3] q]|]; [|by injection H as <- <- <- <- <-].
  apply bind_inv in H as (b3 & E3 & H).
  assert ((if ds =? 0 then Ret (pre ++ b2 ++ post) else upd_le16 (pre ++ b2 ++ post) (zlen pre) (fun fc => Z.lor fc ds)) = Ret (pre ++ b3 ++ post)) as ->.
  { destruct (ds =? 0); [by injection E3 as ->|]. rewrite <- (Z.add_0_r (zlen pre)). by apply upd_in. }
  simp_res. apply bind_inv in H as (b4 & E4 & H). in_part pre post E4. apply bind_inv in H as (b5 & E5 & H). in_part pre post E5.
  apply bind_inv in H as (b6 & E6 & H). in_part pre post E6. apply bind_inv in H as (b7 & E7 & H).
  assert ((if x_mdata a then upd_le16 (pre ++ b6 ++ post) (zlen pre) (fun fc => Z.lor fc 0x2000) else Ret (pre ++ b6 ++ post)) = Ret (pre ++ b7 ++ post)) as ->.
  { destruct (x_mdata a); [|by injection E7 as ->]. rewrite <- (Z.add_0_r (zlen pre)). by apply upd_in. }
  simp_res. apply bind_inv in H as (b8 & E8 & H).
  assert ((if x_encrypt (x_sec a) =? 0 then Ret (pre ++ b7 ++ post) else upd_le16 (pre ++ b7 ++ post) (zlen pre) (fun fc => Z.lor fc 0x4000)) = Ret (pre ++ b8 ++ post)) as ->.
  { destruct (x_encrypt (x_sec a) =? 0); [by injection E8 as ->|]. rewrite <- (Z.add_0_r (zlen pre)). by apply upd_in. }
  simp_res. apply bind_inv in H as (b9 & E9 & H).
  rewrite <- (Z.add_sub_assoc (zlen pre)). rewrite Z.add_0_l in E9. 
  match goal with |- mbind _ ?m = _ => assert (m = Ret (pre ++ b9 ++ post)) as -> end.
  { destruct q; [|by injection E9 as ->]. apply bind_inv in E9 as (c1 & F1 & E9).
    assert ((if x_priority (x_hdr a) =? 0 then Ret (pre ++ b8 ++ post) else set_bits (pre ++ b8 ++ post) (zlen pre + (x_hdrlen (x_hdr a) - 2)) 0 4 (x_priority (x_hdr a))) = Ret (pre ++ c1 ++ post)) as ->.
    { destruct (x_priority (x_hdr a) =? 0); [by injection F1 as ->|by apply set_bits_in]. }
    simp_res. apply bind_inv in E9 as (c2 & F2 & E9). in_part pre post F2. apply bind_inv in E9 as (c3 & F3 & E9). in_part pre post F3.
    destruct (x_amsdu a); [by apply set_bits_in|by injection E9 as ->]. }
  simp_res. destruct (get_sta _) as [i|]; [|by injection H as <- <- <- <- <-].
  destruct (negb _); [by injection H as <- <- <- <- <-|]. destruct (st !! i) as [s|]; [|done].
  destruct (negb _); [by injection H as <- <- <- <- <-|]. apply bind_inv in H as ([[sq' am'] s'] & -> & H). simp_res.
  apply bind_inv in H as (bA & EA & H). in_part pre post EA. by injection H as <- <- <- <- <-.
Qed.

(** ** The header of a frame *)

(** The header for the given direction bits and addresses. *)
Definition tx_hdr (ds : Z) (a1 a2 a3 : list Z) (protected qos : bool) (prio seqnum : Z) : mac_hdr :=
  MacHdr (Z.lor (Z.lor (if qos then 0x88 else 0x08) ds) (if protected then 0x4000 else 0)) [0; 0] (a1 ++ a2 ++ a3)
    (Z.shiftl seqnum 4) (if qos then [prio; 0] else []).

(** The attributes [update_attrib] gives to an ordinary packet. *)
Definition plain_attrib (a : attrib) (qos : bool) (prio : Z) : Prop :=
  (exists q, x_hdr a = HdrAttr (if qos then WLAN_HDR_A3_QOS_LEN else WLAN_HDR_A3_LEN) (if qos then WIFI_QOS_DATA_TYPE else Mfp.WIFI_DATA_TYPE) q prio)
  /\ 0 <= prio < 8 /\ (qos = false -> prio = 0) /\ x_mdata a = false /\ x_eosp a = false /\ x_amsdu a = false /\ x_ack_policy a = 0.

Lemma addr_cells (l : list Z) : length l = 6%nat -> exists a b c d e f, l = [a; b; c; d; e; f].
Proof. intros H. do 6 (destruct l as [|? l]; [done|]). destruct l; [|done]. do 6 eexists. done. Qed.

Lemma seq_field n : 0 <= n < 4096 -> Z.lor (Z.land 0 0xf) (Z.land (Z.shiftl n 4) 0xfff0) = Z.shiftl n 4.
Proof.
  intros Hn. rewrite Z.land_0_l, Z.lor_0_l. apply Z.bits_inj'. intros i Hi. rewrite Z.land_spec.
  destruct (Z.testbit (Z.shiftl n 4) i) eqn:E; [|done]. cbn [andb].
  rewrite Z.shiftl_spec in E by lia. assert (0 <= i - 4).
  { destruct (Z.neg_nonneg_cases (i - 4)); [|done]. rewrite Z.testbit_neg_r in E by lia. done. }
  assert (i - 4 < 12).
  { destruct (Z.lt_ge_cases (i - 4) 12); [done|]. rewrite (fits_testbit 12 n) in E; [done|lia|unfold fits; lia|lia]. }
  assert (exists j, (j < 12)%nat /\ i = 4 + Z.of_nat j) as (j & Hj & ->) by (exists (Z.to_nat (i - 4)); lia).
  do 12 (destruct j as [|j]; [done|]). lia.
Qed.

(** The eight values of the QoS control field. *)
Lemma qos_field (l r : list Z) p : 0 <= p < 8 ->
  (b ← (if p =? 0 then Ret (l ++ [0; 0] ++ r) else set_bits (l ++ [0; 0] ++ r) (zlen l) 0 4 p);
   b ← set_bits b (zlen l) 4 1 0; b ← set_bits b (zlen l) 5 2 0; Ret b) = Ret (l ++ [p; 0] ++ r).
Proof.
  intros Hp.
  assert ((b ← (if p =? 0 then Ret [0; 0] else set_bits [0; 0] 0 0 4 p); b ← set_bits b 0 4 1 0; set_bits b 0 5 2 0) = Ret [p; 0]) as H.
  { assert (p = 0 \/ p = 1 \/ p = 2 \/ p = 3 \/ p = 4 \/ p = 5 \/ p = 6 \/ p = 7) as C by lia.
    by destruct C as [->|[->|[->|[->|[->|[->|[-> | ->]]]]]]]. }
  apply bind_inv in H as (b1 & E1 & H). apply bind_inv in H as (b2 & E2 & H).
  assert ((if p =? 0 then Ret (l ++ [0; 0] ++ r) else set_bits (l ++ [0; 0] ++ r) (zlen l) 0 4 p) = Ret (l ++ b1 ++ r)) as ->.
  { destruct (p =? 0); [by injection E1 as <-|]. pose proof (set_bits_in l r _ _ _ _ _ _ E1) as F. by rewrite Z.add_0_r in F. }
  simp_res. in_part l r E2. by in_part l r H.
Qed.

(** Evaluates a closed step on cells. *)
Ltac eval_step m := let v := eval vm_compute in m in change m with v; simp_res.

Section Make.
Context (get_sta : list Z -> option nat) (c : config) (x : xconfig).

Lemma make_local a st room ds a1 a2 a3 qos prio s seqnum am s' : zlen room = 64 -> plain_attrib a qos prio ->
  wlanhdr_addrs c x a = Some (ds, a1, a2, a3, qos) -> ds = 0 \/ ds = 0x100 \/ ds = 0x200 ->
  length a1 = 6%nat -> length a2 = 6%nat -> length a3 = 6%nat ->
  get_sta (x_ra (x_addr a)) = Some (x_psta a) -> st !! x_psta a = Some s -> xs_asoc s = true ->
  next_seq s prio (x_ampdu_en a) = Ret (seqnum, am, s') -> 0 <= seqnum < 4096 ->
  rtw_make_wlanhdr get_sta c x room 0 a st =
  Ret (_SUCCESS, hdr_bytes (tx_hdr ds a1 a2 a3 (negb (x_encrypt (x_sec a) =? 0)) qos prio seqnum) ++ replicate (if qos then 38 else 40) 0, seqnum, am, <[x_psta a := s']> st).
Proof.
  intros Hr ([q Hh] & Hp & Hq & Hm & Heo & Ham & Hak) Ha Hds L1 L2 L3 Hg Hs Has Hn Hsq.
  destruct (addr_cells a1 L1) as (b1 & b2 & b3 & b4 & b5 & b6 & ->).
  destruct (addr_cells a2 L2) as (c1 & c2 & c3 & c4 & c5 & c6 & ->).
  destruct (addr_cells a3 L3) as (d1 & d2 & d3 & d4 & d5 & d6 & ->).
  unfold rtw_make_wlanhdr. rewrite Hh, Ha, Hm, Heo, Ham, Hak, Hg, Hs, Has. cbn [x_subtype x_hdrlen x_priority negb].
  assert (memset room 0 0 WLANHDR_OFFSET = Ret (replicate 64 0)) as ->.
  { unfold memset. rewrite <- (app_nil_r room), splice_0, app_nil_r; [done|]. unfold zlen in Hr. change (Z.to_nat WLANHDR_OFFSET) with 64%nat. rewrite length_replicate. lia. }
  simp_res. rewrite bool_decide_true by done. cbn [negb].
  assert (upd_le16 [0; 0] 0 (fun v => Z.lor (Z.land v 0xf) (Z.land (Z.shiftl seqnum 4) 0xfff0)) = Ret (le16 (Z.shiftl seqnum 4))) as Hf.
  { transitivity (Ret (le16 (Z.lor (Z.land 0 0xf) (Z.land (Z.shiftl seqnum 4) 0xfff0)))); [reflexivity|by rewrite seq_field]. }
  destruct qos; destruct (x_encrypt (x_sec a) =? 0); destruct Hds as [->|[-> | ->]]; cbn [Z.eqb].
  all: repeat match goal with |- mbind _ (upd_le16 ?b 0 ?f) = _ => eval_step (upd_le16 b 0 f) | |- mbind _ (splice ?b ?i ?l) = _ => eval_step (splice b i l) | |- (if ?t then _ else _) = _ => eval_step t end.
  all: try (match goal with |- mbind _ (mbind _ (if _ then Ret ?L else _)) = _ => let l := eval vm_compute in (take 24 L) in let r := eval vm_compute in (drop 26 L) in etransitivity; [exact (bind_Ret _ _ _ (qos_field l r prio Hp))|] end).
  all: bind_step Hn.
  all: match goal with |- mbind _ (upd_le16 ?L _ _) = _ => let L := eval cbv [app] in L in let l := eval vm_compute in (take 22 L) in let r := eval vm_compute in (drop 24 L) in etransitivity; [exact (bind_Ret _ _ _ (upd_in l r _ _ _ _ Hf))|] end.
  all: reflexivity.
Qed.
End Make.

(** ** Sequence numbers *)

Definition seqs_ok (s : xsta) : Prop := length (xs_txseq s) = 16%nat /\ length (xs_ba s) = 16%nat.

Lemma low12 v : Z.land v 0xfff = v `mod` 4096.
Proof. change 0xfff with (Z.ones 12). by rewrite Z.land_ones by lia. Qed.

Lemma next_seq_ok s p am v : seqs_ok s -> 0 <= p < 16 -> xs_txseq s !! Z.to_nat p = Some v ->
  exists am' s', next_seq s p am = Ret ((v + 1) `mod` 4096, am', s') /\ xs_txseq s' = <[Z.to_nat p := (v + 1) `mod` 4096]> (xs_txseq s) /\
    s' = set_seqs (xs_txseq s') (xs_ba s') s /\ seqs_ok s' /\ (am = false -> am' = false /\ xs_ba s' = xs_ba s).
Proof.
  intros [L1 L2] Hp Hv. unfold next_seq. rewrite (proj2 (rd_Ret (xs_txseq s) p v) (conj (proj1 Hp) Hv)). simp_res.
  assert (Z.land (u16 (v + 1)) 0xfff = (v + 1) `mod` 4096) as ->.
  { rewrite low12. unfold wrap. apply Z.mod_mod_divide. by exists 16. }
  rewrite wr_Ret by (unfold zlen; lia). simp_res. destruct am.
  - assert (0 <= Z.land p 15 < 16) as Hq by (apply (land_fits_r 4); [lia|unfold fits; lia]).
    destruct (rd_in (xs_ba s) (Z.land p 15)) as (t & -> & _); [unfold zlen; lia|]. simp_res.
    destruct (Reorder.SN_LESS _ _).
    + do 2 eexists. split; [done|]. cbn [xs_txseq xs_ba set_seqs]. split_and!; try done. split; cbn [xs_txseq xs_ba set_seqs]; by rewrite ?length_insert.
    + rewrite wr_Ret by (unfold zlen; lia). simp_res. do 2 eexists. split; [done|]. cbn [xs_txseq xs_ba set_seqs].
      split_and!; try done. split; cbn [xs_txseq xs_ba set_seqs]; by rewrite ?length_insert.
  - do 2 eexists. split; [done|]. cbn [xs_txseq xs_ba set_seqs]. split_and!; try done. split; cbn [xs_txseq xs_ba set_seqs]; by rewrite ?length_insert.
Qed.

(** ** A frame in one fragment *)

(** The two ways of testing for a group address. *)
Lemma mcast_IS l : IS_MCAST l = Ps.mcast l.
Proof. by destruct l. Qed.

Lemma be16_ok v : is_u16 v -> bytes_ok (be16 v).
Proof.
  intros Hv. unfold be16. rewrite wrap_small by done.
  apply Forall_cons. split; [|apply Forall_cons; split; [apply land_fits_r; [lia|unfold fits; lia]|done]].
  unfold fits in *. rewrite Z.shiftr_div_pow2 by lia. split; [apply Z.div_pos; lia|apply Z.div_lt_upper_bound; lia].
Qed.

Lemma snap_len h : zlen (snap h) = 8.
Proof. unfold snap. by destruct ((h =? 0x8137) || (h =? 0x80f3)). Qed.

Lemma snap_ok h : is_u16 h -> bytes_ok (snap h).
Proof.
  intros Hh. unfold snap. apply Forall_app. split; [repeat constructor; unfold fits; lia|].
  apply Forall_app. split; [destruct (_ || _); repeat constructor; unfold fits; lia|by apply be16_ok].
Qed.

(** Writing on from a position. *)
Lemma splice_next (pre room l : list Z) p : p = zlen pre -> zlen l <= zlen room -> splice (pre ++ room) p l = Ret ((pre ++ l) ++ drop (length l) room).
Proof.
  intros -> Hl. rewrite <- (take_drop (length l) room) at 1. unfold zlen in Hl.
  rewrite splice_mid; [by rewrite <- app_assoc|done|rewrite length_take; lia].
Qed.

Lemma get_le16_word (pre r : list Z) fc p : p = zlen pre -> is_u16 fc -> get_le16 (pre ++ le16 fc ++ r) p = Ret fc.
Proof. intros -> Hf. apply get_le16_le16; [done|done]. Qed.

Lemma upd_word (pre r : list Z) fc p f : p = zlen pre -> is_u16 fc -> upd_le16 (pre ++ le16 fc ++ r) p f = Ret (pre ++ le16 (f fc) ++ r).
Proof. intros -> Hf. unfold upd_le16. rewrite get_le16_word by done. simp_res. by apply splice_mid. Qed.

Lemma mfrag_on_off fc : Z.land fc 0x400 = 0 -> Z.ldiff (Z.lor fc 0x400) 0x400 = fc.
Proof.
  intros H. apply Z.bits_inj'. intros i Hi. rewrite Z.ldiff_spec, Z.lor_spec.
  assert (Z.testbit fc i && Z.testbit 0x400 i = false) as E by (by rewrite <- Z.land_spec, H, Z.bits_0).
  destruct (Z.testbit fc i), (Z.testbit 0x400 i); done.
Qed.

Section One.
Context (base addr off frag_len : Z) (a : attrib).
Abbreviation sec := (x_sec a).
Abbreviation hl := (x_hdrlen (x_hdr a)).

(** The sizes of IV and ICV are those of the cipher. *)
Definition sec_ok : Prop :=
  0 <= x_iv_len sec <= 18 /\ length (x_iv sec) = 18%nat /\ 0 <= x_icv_len sec <= 16.

Definition tx_iv_bytes : list Z := take (Z.to_nat (x_iv_len sec)) (x_iv sec).

(** What a fragment may hold. *)
Definition mpdu_room : Z := frag_len - 4 - hl - x_iv_len sec - 8 - sw_icv a.

Lemma coalesce_one fuel pre h room post f P payload : sec_ok -> hdr_ok h -> zlen (hdr_bytes h) = hl -> Z.land (h_fc h) 0x400 = 0 ->
  reading f P payload -> (if bmcst a then x_pktlen a = zlen payload else zlen payload <= mpdu_room < 2 ^ 31) ->
  zlen room = x_iv_len sec + 8 + zlen payload + sw_icv a -> zlen room + hl < 2 ^ 32 ->
  coalesce_loop base addr off frag_len a (S fuel) (pre ++ hdr_bytes h ++ room ++ post) (zlen pre) f 0 =
  Ret (pre ++ hdr_bytes h ++ (tx_iv_bytes ++ snap (x_ether_type a) ++ payload ++ replicate (Z.to_nat (sw_icv a)) 0) ++ post, 1, hl + zlen room).
Proof.
  intros (Hiv & Liv & Hicv) Hh Lh Hmf Hf Hfit Hroom Hsm. pose proof (zlen_nonneg payload) as Hp0.
  assert (0 <= sw_icv a <= 16) as Hsw by (unfold sw_icv; destruct (x_bswenc sec); lia).
  destruct Hh as (Hfc & _). cbn [coalesce_loop]. unfold coalesce_frag.
  set (T := h_dur h ++ h_addrs h ++ le16 (h_seq h) ++ h_tail h).
  assert (hdr_bytes h = le16 (h_fc h) ++ T) as Hhb by done. rewrite Hhb in Lh |- *.
  rewrite <- (app_assoc (le16 (h_fc h))), upd_word by done. simp_res.
  set (fc' := Z.lor (h_fc h) 0x400). assert (is_u16 fc') as Hfc' by (apply lor_fits; [lia|done|unfold fits; lia]).
  rewrite slice_Ret by (unfold zlen; lia). change (drop (Z.to_nat 0) (x_iv sec)) with (x_iv sec). fold tx_iv_bytes. simp_res.
  assert (zlen tx_iv_bytes = x_iv_len sec) as Li by (unfold tx_iv_bytes, zlen; rewrite length_take; lia).
  assert (zlen (le16 fc' ++ T) = hl) as Lh' by (rewrite <- Lh, !zlen_app; done).
  rewrite (app_assoc (le16 fc')), (app_assoc pre).
  rewrite (splice_next (pre ++ le16 fc' ++ T) (room ++ post) tx_iv_bytes); [|by rewrite zlen_app, Lh'|rewrite zlen_app; pose proof (zlen_nonneg post); lia].
  simp_res. set (B1 := pre ++ le16 fc' ++ T) in *.
  assert (zlen B1 = zlen pre + hl) as LB1 by (subst B1; by rewrite zlen_app, Lh').
  unfold rtw_put_snap. set (S8 := snap (x_ether_type a)). assert (zlen S8 = 8) as Ls by apply snap_len.
  set (R1 := drop (length tx_iv_bytes) (room ++ post)).
  assert (zlen R1 = 8 + zlen payload + sw_icv a + zlen post) as LR1.
  { subst R1. unfold zlen in *. rewrite length_drop, length_app. lia. }
  rewrite (splice_next (B1 ++ tx_iv_bytes) R1 S8); [|rewrite zlen_app; lia|pose proof (zlen_nonneg post); lia]. simp_res.
  assert (exists f', _rtw_pktfile_read f (if bmcst a then x_pktlen a else frag_len - 4 - hl - x_iv_len sec - 8 - sw_icv a) = (zlen payload, payload, f') /\ reading f' (P ++ payload) [])
    as (f' & Erd & Hf').
  { destruct (bmcst a).
    - rewrite Hfit. destruct (read_ok f P payload (zlen payload) Hf) as (f' & -> & Hr); [destruct Hf as [_ Hf]; rewrite zlen_app in Hf; pose proof (zlen_nonneg P); lia|].
      rewrite zlen_to_nat, firstn_all, drop_all, Z.min_id in *. eauto.
    - fold mpdu_room. destruct (read_ok f P payload mpdu_room Hf) as (f' & -> & Hr); [lia|].
      rewrite Z.min_r by lia. rewrite firstn_all2, drop_ge in * by (unfold zlen in *; lia). eauto. }
  cbn [Z.eqb]. simp_res. rewrite Erd. cbn [fst snd].
  set (R2 := drop (length S8) R1). assert (zlen R2 = zlen payload + sw_icv a + zlen post) as LR2.
  { subst R2. unfold zlen in *. rewrite length_drop. lia. }
  pose proof (zlen_nonneg post).
  rewrite (splice_next ((B1 ++ tx_iv_bytes) ++ S8) R2 payload); [|rewrite !zlen_app; lia|lia]. simp_res.
  set (R3 := drop (length payload) R2). assert (zlen R3 = sw_icv a + zlen post) as LR3.
  { subst R3. unfold zlen in *. rewrite length_drop. lia. }
  set (I := replicate (Z.to_nat (sw_icv a)) 0). assert (zlen I = sw_icv a) as LI by (subst I; rewrite zlen_replicate; lia).
  rewrite (splice_next (((B1 ++ tx_iv_bytes) ++ S8) ++ payload) R3 I); [|rewrite !zlen_app; lia|lia]. simp_res.
  assert (rtw_endofpktfile f' = true) as -> by (destruct Hf' as [-> _]; done). rewrite orb_true_r.
  assert (drop (length I) R3 = post) as ->.
  { subst R3 R2 R1. rewrite !drop_drop. rewrite drop_app_ge by (unfold zlen in *; lia).
    replace (_ - length room)%nat with 0%nat by (unfold zlen in *; lia). done. }
  subst B1. rewrite <- !app_assoc, upd_word by done. simp_res. subst fc'. rewrite mfrag_on_off by done.
  change (u8 (0 + 1)) with 1. cbn [Z.eqb Pos.eqb].
  assert (0 <= hl) by (rewrite <- Lh; apply zlen_nonneg).
  rewrite wrap_small by (unfold fits; lia). rewrite Hroom. do 2 f_equal. lia.
Qed.
End One.

(** ** The frame on the air *)

Lemma tx_hdr_ok ds a1 a2 a3 pr qos prio seqnum : ds = 0 \/ ds = 0x100 \/ ds = 0x200 -> length a1 = 6%nat -> length a2 = 6%nat -> length a3 = 6%nat ->
  bytes_ok a1 -> bytes_ok a2 -> bytes_ok a3 -> 0 <= prio < 8 -> 0 <= seqnum < 4096 -> let h := tx_hdr ds a1 a2 a3 pr qos prio seqnum in
  hdr_ok h /\ zlen (hdr_bytes h) = (if qos then 26 else 24) /\ Z.land (h_fc h) 0x400 = 0 /\ (pr = true -> set_prot h = h).
Proof.
  intros Hds L1 L2 L3 B1 B2 B3 Hp Hs h.
  assert (length (a1 ++ a2 ++ a3) = 18%nat) as La by (rewrite !length_app; lia).
  assert (is_u16 (Z.shiftl seqnum 4)) as Hq by (unfold fits; rewrite Z.shiftl_mul_pow2 by lia; lia).
  assert (is_u16 (h_fc h) /\ is_qos (h_fc h) = qos /\ is_addr4 (h_fc h) = false /\ Z.land (h_fc h) 0x400 = 0 /\ (pr = true -> Z.lor (h_fc h) 0x4000 = h_fc h)) as (F1 & F2 & F3 & F4 & F5).
  { subst h. destruct Hds as [->|[-> | ->]], pr, qos; cbn [tx_hdr h_fc]; (split; [by_eval|]); (split; [reflexivity|]); (split; [reflexivity|]); (split; [reflexivity|]); intros; done || reflexivity. }
  split_and!; [|..].
  - unfold hdr_ok. rewrite F2. unfold qos_off. rewrite F3. subst h. unfold tx_hdr in *. cbn [h_fc h_dur h_addrs h_seq h_tail] in *.
    split_and!; try done; [destruct qos; cbn; lia|repeat constructor; unfold fits; lia|by repeat (apply Forall_app; split)|].
    destruct qos; repeat constructor; unfold fits; lia.
  - subst h. unfold hdr_bytes, tx_hdr. cbn [h_fc h_dur h_addrs h_seq h_tail]. unfold zlen. rewrite !length_app in *. destruct qos; cbn [length le16]; lia.
  - exact F4.
  - intros Hpr. unfold set_prot. rewrite (F5 Hpr). by subst h.
Qed.

(** The cipher of a frame: none, or CCMP in software with the given key. *)
Definition sec_is (key : option (list Z)) (iv : list Z) (a : attrib) : Prop :=
  match key with
  | None => x_encrypt (x_sec a) = 0 /\ x_iv_len (x_sec a) = 0 /\ x_icv_len (x_sec a) = 0 /\ x_bswenc (x_sec a) = false /\ iv = [] /\ length (x_iv (x_sec a)) = 18%nat
  | Some key => ccmp_key key /\ x_encrypt (x_sec a) = Mfp.ccmp_enc key /\ x_iv_len (x_sec a) = 8 /\ x_icv_len (x_sec a) = Z.of_nat (ccmp_M key) /\
      x_bswenc (x_sec a) = true /\ (exists kr, x_skey (x_sec a) = key ++ kr) /\ x_iv (x_sec a) = iv ++ replicate 10 0 /\ length iv = 8%nat /\ bytes_ok iv /\ bmcst a = false
  end.

(** IV and MIC. *)
Definition overhead (key : option (list Z)) : Z := match key with None => 0 | Some key => 8 + Z.of_nat (ccmp_M key) end.

Lemma overhead_range key : 0 <= overhead key <= 24.
Proof. destruct key as [key|]; cbn [overhead]; [pose proof (ccmp_M_range key); lia|lia]. Qed.

Lemma sec_is_sizes key iv a : sec_is key iv a -> 0 <= x_iv_len (x_sec a) <= 18 /\ length (x_iv (x_sec a)) = 18%nat /\ 0 <= x_icv_len (x_sec a) <= 16 /\
  tx_iv_bytes a = iv /\ zlen iv = x_iv_len (x_sec a) /\ x_iv_len (x_sec a) + sw_icv a = overhead key /\ negb (x_encrypt (x_sec a) =? 0) = bool_decide (is_Some key).
Proof.
  unfold sec_is, tx_iv_bytes, sw_icv, overhead. destruct key as [key|].
  - intros (Hk & -> & -> & -> & -> & _ & -> & Li & _ & _). pose proof (ccmp_M_range key) as HM.
    rewrite length_app, length_replicate. change (Z.to_nat 8) with 8%nat. rewrite <- Li at 3. rewrite take_app_length. unfold zlen.
    split_and!; try lia; try done. destruct (Mfp.ccmp_enc_cases key Hk) as [(_ & -> & _)|(_ & -> & _)]; done.
  - intros (-> & -> & -> & -> & -> & Hl). rewrite Hl. split_and!; try lia; done.
Qed.

Lemma tkip_no_mic key iv a : sec_is key iv a -> (x_encrypt (x_sec a) =? _TKIP_) = false.
Proof.
  destruct key as [key|]; [|by intros (-> & _)]. intros (Hk & -> & _).
  destruct (Mfp.ccmp_enc_cases key Hk) as [(_ & -> & _)|(_ & -> & _)]; done.
Qed.

Section Frame.
Context {ctx : Type} `{!BlockCipher ctx}.
Context (os_malloc : Z -> option (list Z)) (mem a0 : list Z) (mode : Z).
Context (Hmalloc : mallocs os_malloc) (Hmem : length mem = 61%nat) (Ha0 : is_block a0).
Context (get_sta : list Z -> option nat) (c : config) (x : xconfig).

(** The body behind the header: the MSDU, or IV, cipher text and MIC. *)
Definition sealed (key : option (list Z)) (h : mac_hdr) (iv m : list Z) : list Z :=
  match key with
  | None => m
  | Some key => iv ++ ccm_crypt (block_cipher key) (ccmp_nonce h iv) m ++ ccm_tag (block_cipher key) (ccmp_M key) (ccmp_nonce h iv) (aad_of true mode h) m
  end.

(** The software encryption of the frame in place. *)
Lemma swencrypt_sealed key iv a pre h m post crc addr base po frag_len grp wep wl : sec_is key iv a -> hdr_ok h ->
  (is_Some key -> set_prot h = h) -> bytes_ok m -> zlen (hdr_bytes h) = x_hdrlen (x_hdr a) -> zlen (hdr_bytes h) + zlen m < 2 ^ 20 -> addr + hw_hdr_offset po = zlen pre ->
  Mfp.xmitframe_swencrypt (ctx := ctx) os_malloc (Some mem) a0 mode crc (pre ++ hdr_bytes h ++ (iv ++ m ++ replicate (Z.to_nat (sw_icv a)) 0) ++ post) (Some addr) base po
    (sw_attrib a 1 (zlen (hdr_bytes h) + overhead key + zlen m)) frag_len grp wep wl =
  Ret (pre ++ hdr_bytes h ++ sealed key h iv m ++ post, crc).
Proof.
  intros Hs Hh Hp Bm Hl Hsz Haddr. unfold Mfp.xmitframe_swencrypt. cbn [Mfp.bswenc sw_attrib Mfp.txa encrypt Mfp.tx_ra Mfp.tx_skey].
  pose proof (zlen_nonneg m). pose proof (zlen_nonneg (hdr_bytes h)). destruct key as [key|].
  2:{ destruct Hs as (He & Hi & Hc & Hb & -> & _). rewrite Hb. unfold sw_icv. rewrite Hb. cbn [sealed Z.to_nat replicate app]. by rewrite app_nil_r. }
  destruct Hs as (Hk & He & Hi & Hc & Hb & (kr & Hkr) & Hiv & Liv & Biv & Hbm). unfold sw_icv. rewrite Hb, He, Hkr, Hc, Hi.
  rewrite Nat2Z.id. cbn [sealed overhead].
  pose proof (Mfp.aes_encrypt_one os_malloc mem a0 mode Hmalloc Hmem Ha0 key kr Hk pre h iv m (replicate (ccmp_M key) 0) post base po
    (Mfp.txa (sw_attrib a 1 (zlen (hdr_bytes h) + (8 + Z.of_nat (ccmp_M key)) + zlen m))) frag_len (x_ra (x_addr a)) grp addr Hh (Hp ltac:(by eexists)) Biv Liv Bm) as Ee.
  cbn [sw_attrib Mfp.txa encrypt nr_frags hdrlen iv_len icv_len last_txcmdsz] in Ee. rewrite He, Hi, Hc, Hl in Ee. rewrite Hl in Hsz.
  specialize (Ee ltac:(by rewrite length_replicate) ltac:(lia) eq_refl eq_refl eq_refl eq_refl eq_refl ltac:(lia) ltac:(lia) ltac:(by rewrite mcast_IS) Haddr).
  assert (forall q w, pre ++ (hdr_bytes h ++ iv ++ q ++ w) ++ post = pre ++ hdr_bytes h ++ (iv ++ q ++ w) ++ post) as As by (intros; by rewrite <- !app_assoc).
  rewrite !As in Ee. rewrite Hl.
  destruct (Mfp.ccmp_enc_cases key Hk) as [(_ & Hce & _)|(_ & Hce & _)]; rewrite Hce in Ee |- *; cbn [Z.eqb Pos.eqb orb _AES_ _CCMP_256_ _WEP40_ _WEP104_ _TKIP_];
    bind_step Ee; done.
Qed.

(** [rtw_xmitframe_coalesce] of a packet that fits in one fragment. *)
Lemma coalesce_frame key iv a st fuel crc keys frag_len pkt pre rest addr base po ds a1 a2 a3 qos prio s seqnum am s' payload : sec_is key iv a -> plain_attrib a qos prio ->
  wlanhdr_addrs c x a = Some (ds, a1, a2, a3, qos) -> ds = 0 \/ ds = 0x100 \/ ds = 0x200 ->
  length a1 = 6%nat -> length a2 = 6%nat -> length a3 = 6%nat -> bytes_ok a1 -> bytes_ok a2 -> bytes_ok a3 ->
  get_sta (x_ra (x_addr a)) = Some (x_psta a) -> st !! x_psta a = Some s -> xs_asoc s = true ->
  next_seq s prio (x_ampdu_en a) = Ret (seqnum, am, s') -> 0 <= seqnum < 4096 ->
  x_pkt_hdrlen a = 14 -> payload = drop 14 pkt -> 14 <= zlen pkt -> bytes_ok pkt -> zlen pkt < 2 ^ 16 -> is_u16 (x_ether_type a) ->
  (if bmcst a then x_pktlen a = zlen payload else zlen payload <= mpdu_room frag_len a < 2 ^ 31) ->
  zlen pre = addr + hw_hdr_offset po -> let h := tx_hdr ds a1 a2 a3 (bool_decide (is_Some key)) qos prio seqnum in
  let m := snap (x_ether_type a) ++ payload in let F := hdr_bytes h ++ sealed key h iv m in
  64 <= zlen rest -> zlen (hdr_bytes h) + overhead key + zlen m <= zlen rest ->
  exists post, rtw_xmitframe_coalesce get_sta c x (ctx := ctx) os_malloc (Some mem) a0 mode (S fuel) crc keys frag_len pkt (pre ++ rest) (Some addr) base po a st =
    Ret (_SUCCESS, pre ++ F ++ post, 1, zlen (hdr_bytes h) + overhead key + zlen m, am, <[x_psta a := s']> st, crc).
Proof.
  intros Hs Hpl Hw Hds L1 L2 L3 B1 B2 B3 Hg Hst Has Hn Hsq Hph Hpay Hlp Bp Hp16 Hty Hfit Hpre h m F Hr1 Hr2.
  destruct (sec_is_sizes _ _ _ Hs) as (Si & Sl & Sc & Siv & Szi & Sov & Senc).
  destruct (Hpl) as ([q Hh] & Hpr & Hq0 & _).
  destruct (tx_hdr_ok ds a1 a2 a3 (bool_decide (is_Some key)) qos prio seqnum Hds L1 L2 L3 B1 B2 B3 Hpr Hsq) as (Hok & Hlen & Hmf & Hprot). fold h in Hok, Hlen, Hmf, Hprot.
  assert (zlen (hdr_bytes h) = x_hdrlen (x_hdr a)) as Hhl by (rewrite Hlen, Hh; by destruct qos).
  unfold rtw_xmitframe_coalesce. destruct (split_at rest 64) as (r1 & r2 & -> & Lr1); [lia|].
  pose proof (make_local get_sta c x a st r1 ds a1 a2 a3 qos prio s seqnum am s' Lr1 Hpl Hw Hds L1 L2 L3 Hg Hst Has Hn Hsq) as Em.
  rewrite Senc in Em. fold h in Em. apply (make_wlanhdr_in _ _ _ pre r2) in Em. rewrite <- Hpre. bind_step Em. cbn [Z.eqb _SUCCESS _FAIL].
  destruct (read_ok _ _ _ 14 (open_reading pkt ltac:(lia))) as (f & Er & Rf); [lia|]. rewrite Hph, Er. cbn [fst snd]. change (Z.to_nat 14) with 14%nat in Rf.
  rewrite <- Hpay in Rf. set (Z0 := replicate (if qos then 38%nat else 40%nat) 0).
  assert (zlen payload = zlen pkt - 14) as Lpay by (rewrite Hpay; unfold zlen in *; rewrite length_drop; lia).
  assert (zlen m = 8 + zlen payload) as Lm by (unfold m; rewrite zlen_app, snap_len; lia).
  assert (zlen Z0 = 64 - zlen (hdr_bytes h)) as LZ0 by (rewrite Hlen; subst Z0; rewrite zlen_replicate; by destruct qos).
  rewrite !zlen_app in Hr2. destruct (split_at (Z0 ++ r2) (overhead key + zlen m)) as (room & post & Esp & Lroom); [rewrite zlen_app; pose proof (overhead_range key); lia|].
  exists post. rewrite <- (app_assoc (hdr_bytes h)), Esp.
  rewrite (coalesce_one base addr (hw_hdr_offset po) frag_len a fuel pre h room post f ([] ++ take 14 pkt) payload);
    [|exact (conj Si (conj Sl Sc))|done|done|done|done|done|lia|].
  2:{ pose proof (overhead_range key). rewrite Lroom, Lm, <- Hhl, Hlen. destruct qos; lia. }
  simp_res. unfold xmitframe_addmic. rewrite (tkip_no_mic _ _ _ Hs). simp_res. cbn [Z.eqb _SUCCESS _FAIL].
  rewrite Siv. replace (x_hdrlen (x_hdr a) + zlen room) with (zlen (hdr_bytes h) + overhead key + zlen m) by lia.
  replace (iv ++ snap (x_ether_type a) ++ payload ++ replicate (Z.to_nat (sw_icv a)) 0) with (iv ++ m ++ replicate (Z.to_nat (sw_icv a)) 0) by (unfold m; by rewrite <- !app_assoc).
  rewrite swencrypt_sealed; [|done|done|intros Hsm; apply Hprot; by rewrite bool_decide_true| |done|rewrite Hlen, Lm; destruct qos; lia|done].
  - simp_res. unfold F. by rewrite <- !app_assoc.
  - unfold m. apply Forall_app. split; [by apply snap_ok|subst payload; by apply Forall_drop].
Qed.
End Frame.
End Xmit.
