(* ===== verification/Frag.v ===== *)
(** * Fragmentation

    What [rtw_xmitframe_coalesce] of [core/rtw_xmit.c] ([Xmit]) does with a packet
    that is longer than the fragmentation threshold: the loop ends, the fragments lie
    one behind the other in the transmit buffer, and their bodies are the packet.
    The reference is [frag_chunks], which cuts a list, [frag_list], the fragments, and
    [laid_out], where the loop leaves them.  [rtw_dump_xframe]
    ([hal/rtl8821c/usb/rtl8821cu_xmit.c], with [rtw_usb_bulk_size_boundary] of
    [include/usb_ops.h]) is what hands them to the port, fragment by fragment. *)
From S2P Require Import Prelude Ies Aes Modes Cmac Ccm Gcm Arc4 Michael Tkip Ccmp Mfp Reorder Recv Amsdu Cam Macid Sta Tim Ps PsRun Validate Attrib Xmit.

Module Frag.
Import Aes Ccm Crc32 Wep Michael Tkip Ccmp Amsdu Validate Attrib Xmit.

Lemma RND4_range v : 0 <= v -> v <= RND4 v <= v + 3.
Proof.
  intros Hv. unfold RND4. rewrite Z.shiftl_mul_pow2, Z.shiftr_div_pow2 by lia. change 3 with (Z.ones 2) at 1 2. rewrite Z.land_ones by lia.
  change (2 ^ 2) with 4. pose proof (Z.div_mod v 4 ltac:(lia)). pose proof (Z.mod_pos_bound v 4 ltac:(lia)).
  destruct (v `mod` 4 =? 0) eqn:E; invbool; lia.
Qed.

Section Layout.
Context (base addr off frag_len : Z) (a : attrib) (fc : Z) (T : list Z).
Abbreviation sec := (x_sec a).
Abbreviation hl := (x_hdrlen (x_hdr a)).

(** What a fragment holds of the packet; the first one has the encapsulation
    header. *)
Definition llc (first : bool) : list Z := if first then snap (x_ether_type a) else [].
Definition chunk_room (first : bool) : Z := frag_len - 4 - hl - x_iv_len sec - zlen (llc first) - sw_icv a.

Fixpoint frag_chunks (n : nat) (first : bool) (l : list Z) : list (list Z) :=
  if zlen l <=? chunk_room first then [l]
  else match n with
       | O => [l]
       | S n => take (Z.to_nat (chunk_room first)) l :: frag_chunks n false (drop (Z.to_nat (chunk_room first)) l)
       end.

Definition frag_fc (more : bool) : Z := if more then Z.lor fc 0x400 else fc.
Definition frag_body (first : bool) (chunk : list Z) : list Z := tx_iv_bytes a ++ llc first ++ chunk ++ replicate (Z.to_nat (sw_icv a)) 0.
Definition frag_bytes (first more : bool) (chunk : list Z) : list Z := (le16 (frag_fc more) ++ T) ++ frag_body first chunk.

(** The fragments of the pieces, headers included. *)
Fixpoint frag_list (first : bool) (cs : list (list Z)) : list (list Z) :=
  match cs with
  | [] => []
  | [c] => [frag_bytes first false c]
  | c :: cs => frag_bytes first true c :: frag_list false cs
  end.

(** Where the loop leaves them: each on a multiple of 4, [off] octets behind it. *)
Fixpoint laid_out (b : list Z) (o : Z) (first : bool) (cs : list (list Z)) : Prop :=
  match cs with
  | [] => False
  | [c] => at_off b o (frag_bytes first false c)
  | c :: cs => at_off b o (frag_bytes first true c) /\ laid_out b (RND4 (base + (o + zlen (frag_bytes first true c))) - base + off) false cs
  end.

Lemma frag_list_cons first c1 c2 cs : frag_list first (c1 :: c2 :: cs) = frag_bytes first true c1 :: frag_list false (c2 :: cs).
Proof. done. Qed.

Lemma frag_chunks_concat n first l : concat (frag_chunks n first l) = l.
Proof.
  revert first l. induction n as [|n IH]; intros first l; cbn [frag_chunks]; destruct (zlen l <=? _); cbn [concat]; rewrite ?app_nil_r; try done.
  by rewrite IH, take_drop.
Qed.

Lemma chunks_some n first l : frag_chunks n first l <> [].
Proof. destruct n; cbn [frag_chunks]; by destruct (zlen l <=? _). Qed.

Lemma frag_chunks_room n first l : 0 < chunk_room first -> 0 < chunk_room false -> (length l <= n)%nat -> Forall (fun c => zlen c <= Z.max (chunk_room first) (chunk_room false)) (frag_chunks n first l).
Proof.
  revert first l. induction n as [|n IH]; intros first l H1 H2 Hl; cbn [frag_chunks]; destruct (Z.leb_spec (zlen l) (chunk_room first)).
  - repeat constructor. lia.
  - exfalso. unfold zlen in *. lia.
  - repeat constructor. lia.
  - constructor; [unfold zlen; rewrite length_take; lia|]. eapply Forall_impl; [apply IH; [done|done|rewrite length_drop; lia]|]. cbn. lia.
Qed.

Context (Hsec : sec_ok a) (Hfc : is_u16 fc) (Hmf : Z.land fc 0x400 = 0) (HT : zlen T + 2 = hl) (Huni : bmcst a = false).
Context (Hroom1 : 0 < chunk_room false) (Hfl : frag_len < 2 ^ 31) (Hroom0 : 0 < chunk_room true).

Lemma sw_range : 0 <= sw_icv a <= 16.
Proof. destruct Hsec as (_ & _ & H). unfold sw_icv. destruct (x_bswenc sec); lia. Qed.

Lemma body_len first chunk : zlen (frag_body first chunk) = x_iv_len sec + zlen (llc first) + zlen chunk + sw_icv a.
Proof.
  pose proof sw_range. destruct Hsec as (H1 & H2 & _). unfold frag_body. rewrite !zlen_app, zlen_replicate.
  assert (zlen (tx_iv_bytes a) = x_iv_len sec) as -> by (unfold tx_iv_bytes, zlen; rewrite length_take; lia). rewrite Z2Nat.id; lia.
Qed.

Lemma llc_len first : 0 <= zlen (llc first) <= 8.
Proof. destruct first; [change (llc true) with (snap (x_ether_type a)); rewrite snap_len; lia|done]. Qed.

Lemma last_frag cs : forall first, cs <> [] -> default [] (last (frag_list first cs)) = frag_bytes (first && (zlen cs =? 1)) false (default [] (last cs)).
Proof.
  induction cs as [|c1 [|c2 cs] IH]; intros first Hne; [done|by rewrite andb_true_r|]. rewrite frag_list_cons.
  assert (last (frag_bytes first true c1 :: frag_list false (c2 :: cs)) = last (frag_list false (c2 :: cs))) as ->.
  { destruct (frag_list false (c2 :: cs)) eqn:E; [by destruct cs|done]. }
  rewrite IH by done. cbn [andb]. rewrite (proj2 (Z.eqb_neq (zlen (c1 :: c2 :: cs)) 1)) by (unfold zlen; cbn [length]; lia). by rewrite andb_false_r.
Qed.

(** One turn of the loop. *)
Lemma frag_step pre fc0 R f P l inx : let first := inx =? 0 in let chunk := take (Z.to_nat (chunk_room first)) l in
  Z.lor fc0 0x400 = Z.lor fc 0x400 -> is_u16 fc0 -> reading f P l -> zlen (frag_body first chunk) <= zlen R ->
  exists R' f', coalesce_frag frag_len a (pre ++ (le16 fc0 ++ T) ++ R) (zlen pre) f inx =
      Ret (pre ++ frag_bytes first true chunk ++ R', zlen pre + zlen (frag_bytes first true chunk), zlen (llc first), zlen chunk, f') /\
    reading f' (P ++ chunk) (drop (Z.to_nat (chunk_room first)) l) /\ zlen R' = zlen R - zlen (frag_body first chunk).
Proof.
  intros first chunk Hf0 Hu Hf HR.
  pose proof sw_range as Hsw. destruct Hsec as (Hiv & Liv & Hicv). pose proof (llc_len first) as Hll. unfold coalesce_frag.
  rewrite <- (app_assoc (le16 fc0)), upd_word by done. simp_res. rewrite Hf0.
  rewrite slice_Ret by (unfold zlen; lia). change (drop (Z.to_nat 0) (x_iv sec)) with (x_iv sec). fold (tx_iv_bytes a). simp_res.
  assert (zlen (tx_iv_bytes a) = x_iv_len sec) as Li by (unfold tx_iv_bytes, zlen; rewrite length_take; lia).
  set (H' := le16 (Z.lor fc 0x400) ++ T). assert (zlen H' = hl) as LH by (unfold H'; rewrite zlen_app; unfold zlen at 1; cbn [le16 length]; lia).
  rewrite body_len in HR. pose proof (zlen_nonneg chunk).
  rewrite (app_assoc (le16 _)), (app_assoc pre). fold H'.
  rewrite (splice_next (pre ++ H') R (tx_iv_bytes a)); [|by rewrite zlen_app, LH|lia]. simp_res. set (R1 := drop _ R).
  assert (zlen R1 = zlen R - x_iv_len sec) as LR1 by (subst R1; unfold zlen in *; rewrite length_drop; lia).
  assert ((if inx =? 0 then rtw_put_snap (((pre ++ H') ++ tx_iv_bytes a) ++ R1) (zlen pre + hl + x_iv_len sec) (x_ether_type a) else Ret (((pre ++ H') ++ tx_iv_bytes a) ++ R1, 0)) =
    Ret ((((pre ++ H') ++ tx_iv_bytes a) ++ llc first) ++ drop (length (llc first)) R1, zlen (llc first))) as ->.
  { subst first. destruct (inx =? 0); cbn [llc]; [|by rewrite app_nil_r, drop_0]. unfold rtw_put_snap. rewrite splice_next; [by rewrite snap_len|rewrite !zlen_app; lia|cbn [llc] in HR; lia]. }
  simp_res. rewrite Huni. set (R2 := drop _ R1). assert (zlen R2 = zlen R1 - zlen (llc first)) as LR2 by (subst R2; unfold zlen in *; rewrite length_drop; lia).
  assert (0 < chunk_room first < 2 ^ 31) as Hcr by (unfold chunk_room in *; pose proof (zlen_nonneg T); destruct first; lia).
  destruct (read_ok f P l (chunk_room first) Hf ltac:(lia)) as (f' & Er & Rf). fold (chunk_room first). rewrite Er.
  assert (Z.min (chunk_room first) (zlen l) = zlen chunk) as -> by (unfold chunk, zlen; rewrite length_take; lia). fold chunk.
  rewrite (splice_next (((pre ++ H') ++ tx_iv_bytes a) ++ llc first) R2 chunk); [|rewrite !zlen_app; lia|lia]. simp_res. set (R3 := drop _ R2).
  assert (zlen R3 = zlen R2 - zlen chunk) as LR3 by (subst R3; unfold zlen in *; rewrite length_drop; lia).
  set (I := replicate (Z.to_nat (sw_icv a)) 0). assert (zlen I = sw_icv a) as LI by (subst I; rewrite zlen_replicate; lia).
  rewrite (splice_next ((((pre ++ H') ++ tx_iv_bytes a) ++ llc first) ++ chunk) R3 I); [|rewrite !zlen_app; lia|lia]. simp_res.
  exists (drop (length I) R3), f'. split_and!; [|done|].
  - unfold frag_bytes, frag_fc. fold H'. rewrite zlen_app, LH, body_len. rewrite !Z.add_assoc. unfold frag_body. fold I. by rewrite <- !app_assoc.
  - rewrite body_len. unfold zlen in *. rewrite length_drop. lia.
Qed.

Lemma frag_len_ok first chunk : zlen chunk <= chunk_room first -> hl + zlen (frag_body first chunk) <= frag_len - 4.
Proof. rewrite body_len. unfold chunk_room. lia. Qed.

Lemma bytes_len first more chunk : zlen (frag_bytes first more chunk) = hl + zlen (frag_body first chunk).
Proof. unfold frag_bytes. rewrite !zlen_app. unfold zlen at 1. cbn [le16 length]. lia. Qed.

(** Every fragment but the last is as long as the threshold allows, the last is not
    longer. *)
Lemma frag_list_len n first l : (length l <= n)%nat -> let fs := frag_list first (frag_chunks n first l) in
  Forall (fun p => zlen p = frag_len - 4) (removelast fs) /\ zlen (default [] (last fs)) <= frag_len - 4 /\ fs <> [].
Proof.
  revert first l. induction n as [|n IH]; intros first l Hn fs; subst fs; cbn [frag_chunks]; destruct (Z.leb_spec (zlen l) (chunk_room first)) as [Hl|Hl].
  - cbn [frag_list removelast]. split_and!; [done| |done]. change (zlen (frag_bytes first false l) <= frag_len - 4). rewrite bytes_len. by apply frag_len_ok.
  - assert (0 < chunk_room first) by (by destruct first). unfold zlen in Hl. lia.
  - cbn [frag_list removelast]. split_and!; [done| |done]. change (zlen (frag_bytes first false l) <= frag_len - 4). rewrite bytes_len. by apply frag_len_ok.
  - assert (0 < chunk_room first) by (by destruct first). set (k := Z.to_nat (chunk_room first)).
    destruct (IH false (drop k l)) as (H1 & H2 & H3); [rewrite length_drop; unfold k, zlen in *; lia|].
    pose proof (chunks_some n false (drop k l)) as Hne. destruct (frag_chunks n false (drop k l)) as [|c2 cs2]; [done|]. rewrite frag_list_cons.
    destruct (frag_list false (c2 :: cs2)) as [|f2 fs2] eqn:E; [done|]. cbn [removelast]. split_and!; [|exact H2|done].
    apply Forall_cons. split; [|exact H1]. rewrite bytes_len, body_len.
    assert (zlen (take k l) = chunk_room first) as -> by (unfold k, zlen in *; rewrite length_take; lia). unfold chunk_room. lia.
Qed.

Lemma end_of f P l : reading f P l -> rtw_endofpktfile f = true <-> l = [].
Proof.
  intros [-> _]. unfold rtw_endofpktfile. cbn [pf_len]. rewrite Z.eqb_eq. split; [|by intros ->].
  intros H. apply nil_length_inv. unfold zlen in H. lia.
Qed.

Context (Hbase : 0 <= base) (Hoff : 0 <= off) (Haddr : 0 <= addr).

Lemma at_off_grow (b r l : list Z) p : at_off b p l -> at_off (b ++ r) p l.
Proof. intros (x & y & -> & ->). exists x, (y ++ r). by rewrite <- !app_assoc. Qed.

Lemma chunks_nonempty n first l : 1 <= zlen (frag_chunks n first l).
Proof. destruct n; cbn [frag_chunks]; destruct (zlen l <=? _); unfold zlen; cbn [length]; lia. Qed.

(** The loop when the rest of the packet fits. *)
Lemma loop_last fuel pre fc0 R f P l inx : let first := inx =? 0 in
  zlen l <= chunk_room first -> 0 <= inx -> fc0 = fc \/ fc0 = Z.lor fc 0x400 -> reading f P l -> frag_len - 4 <= hl + zlen R ->
  exists R', coalesce_loop base addr off frag_len a (S fuel) (pre ++ (le16 fc0 ++ T) ++ R) (zlen pre) f inx =
    Ret (pre ++ frag_bytes first false l ++ R', u8 (inx + 1), u32 (zlen (frag_bytes first false l))).
Proof.
  intros first Hl Hi Hf0 Hrd HR. assert (take (Z.to_nat (chunk_room first)) l = l) as Ht by (apply firstn_all2; unfold zlen in Hl; lia).
  assert (is_u16 (Z.lor fc 0x400)) as Hfm by (apply lor_fits; [lia|done|unfold fits; lia]).
  destruct (frag_step pre fc0 R f P l inx) as (R' & f' & Es & Rf & _).
  - destruct Hf0 as [->| ->]; [done|]. by rewrite <- Z.lor_assoc.
  - by destruct Hf0 as [->| ->].
  - done.
  - fold first. rewrite Ht. pose proof (frag_len_ok first l Hl). lia.
  - fold first in Es, Rf. rewrite Ht in Es, Rf. cbn [coalesce_loop]. bind_step Es.
    rewrite drop_ge in Rf by (unfold zlen in Hl; lia). rewrite (proj2 (end_of _ _ _ Rf) eq_refl), orb_true_r.
    unfold frag_bytes at 1. rewrite <- !app_assoc. cbn [frag_fc]. rewrite upd_word by done. simp_res. rewrite mfrag_on_off by done.
    exists R'. unfold frag_bytes at 1. rewrite <- !app_assoc. cbn [frag_fc]. do 2 f_equal. rewrite bytes_len, body_len. f_equal.
    destruct (u8 (inx + 1) =? 1) eqn:E; [lia|]. assert (zlen (llc first) = 0) as ->; [|lia].
    assert (inx <> 0) as Hne by (intros H0; by rewrite H0 in E). unfold first. by rewrite (proj2 (Z.eqb_neq _ _) Hne).
Qed.

(** The loop: every fragment is where [laid_out] says, nothing in front of it has
    changed. *)
Lemma loop_laid_out n : forall fuel pre fc0 R f P l inx, let first := inx =? 0 in let cs := frag_chunks n first l in
  (length l <= n)%nat -> (length cs <= fuel)%nat -> 0 <= inx -> fc0 = fc \/ fc0 = Z.lor fc 0x400 -> reading f P l ->
  at_off (pre ++ le16 (Z.lor fc 0x400) ++ T) (addr + off) (le16 (Z.lor fc 0x400) ++ T) ->
  zlen cs * (frag_len - 1 + off) <= hl + zlen R ->
  exists b', coalesce_loop base addr off frag_len a fuel (pre ++ (le16 fc0 ++ T) ++ R) (zlen pre) f inx =
      Ret (pre ++ b', u8 (inx + zlen cs), u32 (zlen (frag_bytes (first && (zlen cs =? 1)) false (default [] (last cs))))) /\
    laid_out (pre ++ b') (zlen pre) first cs.
Proof.
  induction n as [|n IH]; intros fuel pre fc0 R f P l inx first cs Hn Hfu Hi Hf0 Hrd Hat HR.
  all: destruct fuel as [|fuel]; [assert (1 <= zlen cs) as Hc by apply chunks_nonempty; unfold zlen in Hc; lia|].
  all: assert (0 < chunk_room first) as Hcr by (by destruct first).
  all: destruct (Z.leb_spec (zlen l) (chunk_room first)) as [Hl|Hl].
  2:{ unfold zlen in Hl. lia. }
  1,2: assert (cs = [l]) as -> by (unfold cs; cbn [frag_chunks]; by rewrite (proj2 (Z.leb_le _ _) Hl)).
  1,2: destruct (loop_last fuel pre fc0 R f P l inx Hl Hi Hf0 Hrd) as (R' & E); [unfold zlen at 1 in HR; cbn [length] in HR; lia|].
  1,2: rewrite E; eexists; rewrite andb_true_r; split; [done|]; cbn [laid_out]; by apply at_off_intro.
  set (k := Z.to_nat (chunk_room first)) in *. set (chunk := take k l). set (cs' := frag_chunks n false (drop k l)).
  assert (cs = chunk :: cs') as Hcs by (unfold cs; cbn [frag_chunks]; by rewrite (proj2 (Z.leb_gt _ _) Hl)).
  assert (1 <= zlen cs') as Hc' by apply chunks_nonempty. assert (zlen cs = 1 + zlen cs') as Lcs by (rewrite Hcs; unfold zlen; cbn [length]; lia).
  rewrite Lcs in HR. assert (zlen chunk = chunk_room first) as Lch by (unfold chunk, k, zlen in *; rewrite length_take; lia).
  pose proof (frag_len_ok first chunk ltac:(lia)) as Hfit. pose proof (zlen_nonneg (frag_body first chunk)) as Hb0. pose proof (zlen_nonneg T) as HT0.
  assert (frag_len - 1 + off <= zlen cs' * (frag_len - 1 + off)) as Hmul by nia.
  destruct (frag_step pre fc0 R f P l inx) as (R' & f' & Es & Rf & LR').
  { destruct Hf0 as [->| ->]; [done|]. by rewrite <- Z.lor_assoc. }
  { destruct Hf0 as [->| ->]; [done|]. apply lor_fits; [lia|done|unfold fits; lia]. }
  { done. }
  { fold first k chunk. lia. }
  fold first k chunk in Es, Rf, LR'. set (F := frag_bytes first true chunk) in *.
  assert (zlen F = hl + zlen (frag_body first chunk)) as LF by apply bytes_len.
  cbn [coalesce_loop]. bind_step Es. rewrite Huni.
  assert (rtw_endofpktfile f' = false) as ->.
  { apply not_true_iff_false. intros H%(end_of _ _ _ Rf). apply (f_equal length) in H. rewrite length_drop in H. unfold k, zlen in *. cbn [length] in H. lia. }
  cbn [orb]. pose proof (zlen_nonneg pre) as Hp0. pose proof (RND4_range (base + (zlen pre + zlen F)) ltac:(lia)) as Hrnd.
  set (G := RND4 (base + (zlen pre + zlen F)) - base + off - (zlen pre + zlen F)).
  destruct (split_at R' G) as (g & R2 & -> & Lg); [lia|]. rewrite zlen_app in LR'.
  destruct (split_at R2 hl) as (h & R3 & -> & Lh); [lia|]. rewrite zlen_app in LR'.
  assert (slice (pre ++ F ++ g ++ h ++ R3) (addr + off) hl = Ret (le16 (Z.lor fc 0x400) ++ T)) as ->.
  { apply at_off_slice; [|rewrite zlen_app; unfold zlen at 1; cbn [le16 length]; lia]. unfold F, frag_bytes. cbn [frag_fc].
    rewrite <- (app_assoc (_ ++ T)), (app_assoc pre). by apply at_off_grow. }
  simp_res. rewrite !app_assoc. rewrite <- (app_assoc ((pre ++ F) ++ g)).
  rewrite (splice_mid ((pre ++ F) ++ g) h); [|rewrite !zlen_app; lia|rewrite length_app; cbn [le16 length]; unfold zlen in *; lia]. simp_res.
  assert (RND4 (base + (zlen pre + zlen F)) - base + off = zlen ((pre ++ F) ++ g)) as Hpos by (rewrite !zlen_app; lia). rewrite Hpos.
  destruct (IH fuel ((pre ++ F) ++ g) (Z.lor fc 0x400) R3 f' (P ++ chunk) (drop k l) (inx + 1)) as (b2 & E2 & Lo); rewrite ?(proj2 (Z.eqb_neq (inx + 1) 0)) in * by lia; fold cs'.
  - rewrite length_drop. unfold k, zlen in *. lia.
  - rewrite Hcs in Hfu. cbn [length] in Hfu. lia.
  - lia.
  - by right.
  - done.
  - rewrite <- !app_assoc. unfold F, frag_bytes. cbn [frag_fc]. rewrite <- (app_assoc (_ ++ T)), (app_assoc pre). by apply at_off_grow.
  - lia.
  - fold cs' in E2, Lo. rewrite E2. exists (F ++ g ++ b2). rewrite <- !app_assoc in *. split.
    + rewrite Lcs, Z.add_assoc. do 2 f_equal. rewrite (proj2 (Z.eqb_neq (1 + zlen cs') 1)) by lia. rewrite andb_false_r. cbn [andb].
      rewrite Hcs. destruct cs' as [|c1 cs']; [by unfold zlen in Hc'; cbn in Hc'|]. done.
    + rewrite Hcs. destruct cs' as [|c1 cs']; [by unfold zlen in Hc'; cbn in Hc'|]. cbn [laid_out]. split; [by apply at_off_intro|].
      fold F. rewrite Hpos. exact Lo.
Qed.

(** ** What reaches the port *)

(** One transfer of [rtw_dump_xframe]: its address and size, and the size and the packet
    offset (in 8 octets) its descriptor gives the frame. *)
Record port_write := PortWrite { pw_addr : Z; pw_size : Z; pw_pktsize : Z; pw_offset : Z }.

Definition rtw_usb_bulk_size_boundary (bulk buf_len : Z) : bool := buf_len `mod` bulk =? 0.

(** The loop, [nr] fragments left; [mem_addr] relative to the buffer like [addr].  The
    descriptor is pulled towards the frame unless the transfer would end on a packet
    boundary of the bus. *)
Fixpoint dump_frags (bulk icv_len last_txcmdsz : Z) (sw_encrypt : bool) (nr : nat) (mem_addr pkt_offset : Z) : list port_write :=
  match nr with
  | O => []
  | S n =>
      let sz := match n with O => last_txcmdsz | _ => frag_len - 4 - (if sw_encrypt then 0 else icv_len) end in
      let pull := negb (rtw_usb_bulk_size_boundary bulk (TXDESC_SIZE + sz)) in
      let pkt_offset := if pull && (0 <? pkt_offset) then pkt_offset - 1 else pkt_offset in
      let mem_addr := if pull then mem_addr + PACKET_OFFSET_SZ else mem_addr in
      let w_sz := if pull then sz + TXDESC_SIZE else sz + TXDESC_SIZE + PACKET_OFFSET_SZ in
      PortWrite mem_addr w_sz sz pkt_offset :: dump_frags bulk icv_len last_txcmdsz sw_encrypt n (RND4 (base + (mem_addr + w_sz)) - base) pkt_offset
  end.
Definition rtw_dump_xframe (bulk icv_len last_txcmdsz : Z) (sw_encrypt : bool) (nr_frags pkt_offset : Z) : list port_write :=
  dump_frags bulk icv_len last_txcmdsz sw_encrypt (Z.to_nat nr_frags) addr pkt_offset.

(** The frame the descriptor of a transfer points at. *)
Definition pw_frame (b : list Z) (w : port_write) : res (list Z) :=
  slice b (pw_addr w + TXDESC_SIZE + 8 * pw_offset w) (pw_pktsize w).

Lemma dump_pulled bulk icv lst (sw : bool) n mem po : po = 0 \/ po = 1 ->
  let sz := match n with O => lst | _ => frag_len - 4 - (if sw then 0 else icv) end in
  (TXDESC_SIZE + sz) `mod` bulk <> 0 ->
  dump_frags bulk icv lst sw (S n) mem po = PortWrite (mem + 8) (sz + 48) sz 0 :: dump_frags bulk icv lst sw n (RND4 (base + (mem + 56 + sz)) - base) 0.
Proof.
  intros Hpo sz Hb. cbn [dump_frags]. fold sz. unfold rtw_usb_bulk_size_boundary. rewrite (proj2 (Z.eqb_neq _ _) Hb). cbn [negb andb].
  change TXDESC_SIZE with 48. change PACKET_OFFSET_SZ with 8. replace (mem + 8 + (sz + 48)) with (mem + 56 + sz) by lia.
  by destruct Hpo as [->| ->].
Qed.

(** Without an integrity value of the hardware, the transfers carry the fragments. *)
Lemma dump_reads bulk lst sw b cs : forall first mem po, po = 0 \/ po = 1 -> off = 56 -> let fs := frag_list first cs in
  laid_out b (mem + 56) first cs -> Forall (fun p => zlen p = frag_len - 4) (removelast fs) -> lst = zlen (default [] (last fs)) ->
  Forall (fun p => (TXDESC_SIZE + zlen p) `mod` bulk <> 0) fs ->
  map (pw_frame b) (dump_frags bulk 0 lst sw (length cs) mem po) = map Ret fs.
Proof.
  induction cs as [|c1 [|c2 cs] IH]; intros first mem po Hpo Ho fs Hlay Hlen Hlst Hb; [done| |].
  - assert (lst = zlen (frag_bytes first false c1)) as -> by done. subst fs. cbn [frag_list laid_out length] in *. apply Forall_cons in Hb as [Hb _].
    rewrite dump_pulled by done. cbn [map dump_frags]. f_equal. unfold pw_frame. cbn [pw_addr pw_offset pw_pktsize].
    apply at_off_slice; [|done]. change TXDESC_SIZE with 48. by replace (mem + 8 + 48 + 8 * 0) with (mem + 56) by lia.
  - subst fs. rewrite frag_list_cons in *. destruct (frag_list false (c2 :: cs)) as [|f2 fs2] eqn:E; [by destruct cs|].
    cbn [removelast] in Hlen. apply Forall_cons in Hlen as [Hl1 Hlen]. apply Forall_cons in Hb as [Hb1 Hb]. destruct Hlay as [Hat Hlay].
    cbn [length]. rewrite dump_pulled; [|done|by replace (frag_len - 4 - (if sw then 0 else 0)) with (zlen (frag_bytes first true c1)) by (destruct sw; lia)].
    replace (frag_len - 4 - (if sw then 0 else 0)) with (zlen (frag_bytes first true c1)) by (destruct sw; lia).
    cbn [map]. f_equal.
    + unfold pw_frame. cbn [pw_addr pw_offset pw_pktsize]. apply at_off_slice; [|done]. change TXDESC_SIZE with 48.
      by replace (mem + 8 + 48 + 8 * 0) with (mem + 56) by lia.
    + change (Ret f2 :: map Ret fs2) with (map Ret (f2 :: fs2)). rewrite <- E. change (S (length cs)) with (length (c2 :: cs)). apply IH; [by left|done| | | |]; rewrite ?E; try done.
      rewrite Ho in Hlay. exact Hlay.
Qed.

(** With a cipher of the hardware, the size taken for every fragment but the last leaves
    room for an integrity value that the loop did not leave room for: as many octets of
    the packet are cut off its end. *)
Lemma dump_cuts bulk icv lst b c1 c2 cs first mem po : po = 0 \/ po = 1 -> 0 <= icv <= frag_len - 4 -> zlen (frag_bytes first true c1) = frag_len - 4 ->
  laid_out b (mem + 56) first (c1 :: c2 :: cs) -> (TXDESC_SIZE + (frag_len - 4 - icv)) `mod` bulk <> 0 ->
  exists w ws, dump_frags bulk icv lst false (length (c1 :: c2 :: cs)) mem po = w :: ws /\
    pw_frame b w = Ret (take (Z.to_nat (frag_len - 4 - icv)) (frag_bytes first true c1)).
Proof.
  intros Hpo Hi Hl [Hat _] Hb. cbn [length]. rewrite dump_pulled by done. eexists _, _. split; [done|]. unfold pw_frame. cbn [pw_addr pw_offset pw_pktsize].
  apply at_off_slice; [|unfold zlen in *; rewrite length_take; lia]. change TXDESC_SIZE with 48. replace (mem + 8 + 48 + 8 * 0) with (mem + 56) by lia.
  destruct Hat as (x & y & -> & E). exists x, (drop (Z.to_nat (frag_len - 4 - icv)) (frag_bytes first true c1) ++ y). split; [|done].
  by rewrite (app_assoc (take _ _)), take_drop.
Qed.
End Layout.

Lemma chunks_count frag_len a n first l : (length (frag_chunks frag_len a n first l) <= S n)%nat.
Proof. revert first l. induction n as [|n IH]; intros first l; cbn [frag_chunks]; destruct (_ <=? _); cbn [length]; [lia..|]. specialize (IH false (drop (Z.to_nat (chunk_room frag_len a first)) l)). lia. Qed.

(** What [rtw_make_wlanhdr] needs: the addresses of the role, and an associated
    station that is the one of the attributes. *)
Record sendable (get_sta : list Z -> option nat) (c : config) (x : xconfig) (a : attrib) (st : list xsta) (ds : Z) (a1 a2 a3 : list Z) (qos : bool) (prio seqnum : Z)
    (am : bool) (s s' : xsta) : Prop := {
  sd_plain : plain_attrib a qos prio; sd_addrs : wlanhdr_addrs c x a = Some (ds, a1, a2, a3, qos) /\ (ds = 0 \/ ds = 0x100 \/ ds = 0x200);
  sd_len : length a1 = 6%nat /\ length a2 = 6%nat /\ length a3 = 6%nat; sd_bytes : bytes_ok a1 /\ bytes_ok a2 /\ bytes_ok a3;
  sd_sta : get_sta (x_ra (x_addr a)) = Some (x_psta a) /\ st !! x_psta a = Some s /\ xs_asoc s = true;
  sd_seq : next_seq s prio (x_ampdu_en a) = Ret (seqnum, am, s') /\ 0 <= seqnum < 4096 }.

(** C20: Fragmentation of a unicast packet by [rtw_xmitframe_coalesce], with a cipher other
    than TKIP or none and no encryption in software, in a transmit buffer with room for
    the fragments: the loop ends within as many turns as the packet has octets, and the
    buffer then holds one frame per piece of the packet, each on a multiple of 4 octets
    behind the room for its descriptor.  The pieces joined are the packet; the first
    fragment has the encapsulation header; all but the last have the more-fragments bit
    and exactly the length the threshold allows; the last is not longer, and its length is
    the [last_txcmdsz] left; all have the same header otherwise.  Without a cipher, and
    when no transfer ends on a packet boundary of the bus, the transfers of
    [rtw_dump_xframe] point at exactly these fragments, in order.  (With a cipher of the
    hardware they do not: [hardware_fragments_cut].) *)
Theorem fragments_carry_packet {ctx : Type} `{!BlockCipher ctx} os_malloc mem a0 mode get_sta c x a st ds a1 a2 a3 qos prio seqnum am s s' fuel crc keys frag_len pkt pre rest addr base po bulk (sw : bool) :
  let payload := drop 14 pkt in let cs := frag_chunks frag_len a (length payload) true payload in
  let h := tx_hdr ds a1 a2 a3 (negb (x_encrypt (x_sec a) =? 0)) qos prio seqnum in
  sendable get_sta c x a st ds a1 a2 a3 qos prio seqnum am s s' -> sec_ok a -> x_bswenc (x_sec a) = false -> x_encrypt (x_sec a) <> _TKIP_ -> bmcst a = false ->
  x_pkt_hdrlen a = 14 -> 14 <= zlen pkt < 2 ^ 32 -> 0 < chunk_room frag_len a true -> frag_len < 2 ^ 31 -> (length payload < fuel)%nat ->
  0 <= base -> 0 <= addr -> zlen pre = addr + hw_hdr_offset po -> 64 <= zlen rest -> zlen cs * (frag_len - 1 + hw_hdr_offset po) <= zlen rest ->
  let frags := frag_list a (h_fc h) (h_dur h ++ h_addrs h ++ le16 (Z.shiftl seqnum 4) ++ h_tail h) true cs in
  let sz := zlen (default [] (last frags)) in
  exists b', rtw_xmitframe_coalesce get_sta c x (ctx := ctx) os_malloc mem a0 mode fuel crc keys frag_len pkt (pre ++ rest) (Some addr) base po a st =
      Ret (_SUCCESS, pre ++ b', u8 (zlen cs), sz, am, <[x_psta a := s']> st, crc) /\
    laid_out base (hw_hdr_offset po) a (h_fc h) (h_dur h ++ h_addrs h ++ le16 (Z.shiftl seqnum 4) ++ h_tail h) (pre ++ b') (zlen pre) true cs /\
    concat cs = payload /\ Forall (fun p => zlen p = frag_len - 4) (removelast frags) /\ sz <= frag_len - 4 /\
    (po = 1 -> x_icv_len (x_sec a) = 0 -> zlen cs < 256 -> Forall (fun p => (TXDESC_SIZE + zlen p) `mod` bulk <> 0) frags ->
     map (pw_frame (pre ++ b')) (rtw_dump_xframe base addr frag_len bulk (x_icv_len (x_sec a)) sz sw (u8 (zlen cs)) po) = map Ret frags).
Proof.
  intros payload cs h Hsend Hsec Hsw Htk Huni Hph Hlp Hroom Hfl Hfuel Hbase Haddr Hpre Hr1 Hr2 frags sz. destruct Hsend as [Hpl (Hw & Hds) (L1 & L2 & L3) (B1 & B2 & B3) (Hg & Hst & Has) (Hn & Hsq)].
  assert (chunk_room frag_len a false = chunk_room frag_len a true + 8) as Hcr.
  { unfold chunk_room. change (zlen (llc a false)) with 0. change (llc a true) with (snap (x_ether_type a)). rewrite snap_len. lia. }
  destruct (Hpl) as ([q Hh] & Hpr & Hq0 & _).
  destruct (tx_hdr_ok ds a1 a2 a3 (negb (x_encrypt (x_sec a) =? 0)) qos prio seqnum Hds L1 L2 L3 B1 B2 B3 Hpr Hsq) as (Hok & Hlen & Hmf & _). fold h in Hok, Hlen, Hmf.
  assert (zlen (hdr_bytes h) = x_hdrlen (x_hdr a)) as Hhl by (rewrite Hlen, Hh; by destruct qos).
  unfold rtw_xmitframe_coalesce. destruct (split_at rest 64) as (r1 & r2 & -> & Lr1); [lia|].
  pose proof (make_local get_sta c x a st r1 ds a1 a2 a3 qos prio s seqnum am s' Lr1 Hpl Hw Hds L1 L2 L3 Hg Hst Has Hn Hsq) as Em. fold h in Em.
  apply (make_wlanhdr_in _ _ _ pre r2) in Em. rewrite <- Hpre. bind_step Em. cbn [Z.eqb _SUCCESS _FAIL].
  destruct (read_ok _ _ _ 14 (open_reading pkt ltac:(lia))) as (f & Er & Rf); [lia|]. rewrite Hph, Er. cbn [fst snd]. change (Z.to_nat 14) with 14%nat in Rf. fold payload in Rf.
  set (Z0 := replicate (if qos then 38%nat else 40%nat) 0). assert (zlen Z0 = 64 - zlen (hdr_bytes h)) as LZ0 by (rewrite Hlen; subst Z0; rewrite zlen_replicate; by destruct qos).
  set (T := h_dur h ++ h_addrs h ++ le16 (h_seq h) ++ h_tail h). assert (hdr_bytes h = le16 (h_fc h) ++ T) as Hhb by done. rewrite <- (app_assoc (hdr_bytes h)), Hhb in *.
  destruct (loop_laid_out base addr (hw_hdr_offset po) frag_len a (h_fc h) T) with (n := length payload) (fuel := fuel) (pre := pre) (fc0 := h_fc h) (R := Z0 ++ r2) (f := f)
    (P := [] ++ take 14 pkt) (l := payload) (inx := 0) as (b' & El & Lo); try done.
  - destruct Hok as (Hf & _). exact Hf.
  - rewrite zlen_app in Hhl. unfold zlen at 1 in Hhl. cbn [le16 length] in Hhl. lia.
  - lia.
  - unfold hw_hdr_offset. apply wrap_fits. lia.
  - pose proof (chunks_count frag_len a (length payload) true payload) as Hc. change (0 =? 0) with true. lia.
  - by left.
  - rewrite <- (app_nil_r (pre ++ _)). rewrite <- app_assoc. by apply at_off_intro.
  - change (0 =? 0) with true. fold cs. rewrite zlen_app in Hr2 |- *. lia.
  - change (0 =? 0) with true in El, Lo. fold cs in El, Lo. bind_step El. unfold xmitframe_addmic. rewrite (proj2 (Z.eqb_neq _ _) Htk). simp_res.
    cbn [Z.eqb _SUCCESS _FAIL]. unfold Mfp.xmitframe_swencrypt. cbn [Mfp.bswenc sw_attrib]. rewrite Hsw. simp_res.
    assert (zlen T + 2 = x_hdrlen (x_hdr a)) as HT by (rewrite zlen_app in Hhl; unfold zlen at 1 in Hhl; cbn [le16 length] in Hhl; lia).
    destruct (frag_list_len frag_len a (h_fc h) T Hsec HT) with (n := length payload) (first := true) (l := payload) as (F1 & F2 & F3); [lia|lia|done|].
    change (sz <= frag_len - 4) in F2. change (Forall (fun p => zlen p = frag_len - 4) (removelast frags)) in F1.
    assert (zlen (frag_bytes a (h_fc h) T (true && (zlen cs =? 1)) false (default [] (last cs))) = sz) as Hsz.
    { unfold sz, frags, T. rewrite last_frag by apply chunks_some. done. }
    assert (0 <= sz) as Hsz0 by apply zlen_nonneg. rewrite Hsz. rewrite (wrap_small 32 sz) by (unfold fits; lia).
    exists b'. rewrite Z.add_0_l. split_and!; [done|exact Lo|apply frag_chunks_concat|done|done|].
    intros -> Hicv Hc256 Hb. rewrite Hicv. unfold rtw_dump_xframe. rewrite (wrap_small 8) by (unfold fits, zlen in *; lia).
    unfold zlen at 1. rewrite Nat2Z.id. eapply (dump_reads base (hw_hdr_offset 1)); try done; [by right|].
    change 56 with (hw_hdr_offset 1). by rewrite <- Hpre.
Qed.

(** ** A packet of 60 octets with a threshold of 80 *)

Definition ex_long : list Z := ex_pkt 0x0806 (map Z.of_nat (seq 0 60)).
Definition ex_attrib : attrib :=
  Attr 0x0806 (AddrAttr [2; 0; 0; 0; 0; 7] sta_addr sta_addr ap_addr) 60 (IpInfo false false false)
    (SecAttr 0 0 0 0 (replicate 18 0) (replicate 32 0) (replicate 32 0) false) 14 (HdrAttr 26 0x88 true 0) false false false false 0 0 false.
Definition ex_xsta' : xsta := set_seqs (1 :: replicate 15 0) (replicate 16 0) (ex_xsta 0).

Lemma ex_sendable : sendable ex_to_ap (ex_sta 0) ex_xcfg ex_attrib [ex_xsta 0] 0x100 ap_addr sta_addr [2; 0; 0; 0; 0; 7] true 0 1 false (ex_xsta 0) ex_xsta'.
Proof.
  split.
  - split; [by eexists|]. split_and!; by_eval.
  - split; [done|by right; left].
  - done.
  - split_and!; by_eval.
  - done.
  - split; [done|lia].
Qed.

Lemma fragments_carry_packet_witness :
  ex_attr (ex_update 0 0 ex_long) = Some ex_attrib /\
  let h := tx_hdr 0x100 ap_addr sta_addr [2; 0; 0; 0; 0; 7] false true 0 1 in let cs := [map Z.of_nat (seq 0 42); map Z.of_nat (seq 42 18)] in
  let frags := frag_list ex_attrib (h_fc h) (h_dur h ++ h_addrs h ++ le16 (Z.shiftl 1 4) ++ h_tail h) true cs in
  exists b', rtw_xmitframe_coalesce ex_to_ap (ex_sta 0) ex_xcfg (ctx := list Z) zalloc None [] 0 61 Mfp.sample_crc (TxKeys [] [] [] 0) 80 ex_long
        (replicate 56 0 ++ replicate 600 0) (Some 0) 1000 1 ex_attrib [ex_xsta 0] =
      Ret (_SUCCESS, replicate 56 0 ++ b', 2, 44, false, [ex_xsta'], Mfp.sample_crc) /\
    laid_out 1000 56 ex_attrib (h_fc h) (h_dur h ++ h_addrs h ++ le16 (Z.shiftl 1 4) ++ h_tail h) (replicate 56 0 ++ b') 56 true cs /\
    concat cs = map Z.of_nat (seq 0 60) /\ Forall (fun p => zlen p = 76) (removelast frags) /\ 44 <= 76 /\
    map (pw_frame (replicate 56 0 ++ b')) (rtw_dump_xframe 1000 0 80 512 0 44 false 2 1) = map Ret frags.
Proof.
  split; [by vm_compute|].
  destruct (fragments_carry_packet zalloc None [] 0 ex_to_ap (ex_sta 0) ex_xcfg ex_attrib [ex_xsta 0] 0x100 ap_addr sta_addr [2; 0; 0; 0; 0; 7] true 0 1 false (ex_xsta 0) ex_xsta' 61
    Mfp.sample_crc (TxKeys [] [] [] 0) 80 ex_long (replicate 56 0) (replicate 600 0) 0 1000 1 512 false ex_sendable) as (b' & H1 & H2 & H3 & H4 & H5 & H6);
    [by_eval|reflexivity|discriminate|reflexivity|reflexivity|by_eval|by_eval|by_eval|by_eval|by_eval|by_eval|reflexivity|by_eval|by_eval|].
  exists b'. split_and!; [exact H1|exact H2|exact H3|exact H4|exact H5|].
  apply H6; [reflexivity|reflexivity|reflexivity|]. repeat constructor; vm_compute; discriminate.
Defined.

(** ** Where the code does less *)

Definition ex_send (auth : Z) : list Z :=
  match ex_update auth 0 ex_long with
  | Ret (Some a, st, _) =>
      match rtw_xmitframe_coalesce ex_to_ap (ex_sta auth) ex_xcfg (ctx := list Z) zalloc (Some (replicate 61 0)) (replicate 16 0) 0 20 Mfp.sample_crc (TxKeys [] [] [] 0) 80
              ex_long (replicate 600 0) (Some 0) 1000 0 a st with
      | Ret (_, b, _, _, _, _, _) => b
      | _ => []
      end
  | _ => []
  end.

(** With a cipher of the hardware ([sw_encrypt] clear, an integrity value of [icv] octets),
    [rtw_dump_xframe] sends every fragment but the last without its last [icv] octets:
    here the first of two fragments of any packet. *)
Theorem hardware_fragments_cut base addr frag_len a fc T b c1 c2 cs bulk icv lst : 0 < icv <= frag_len - 4 -> zlen cs < 254 ->
  zlen (frag_bytes a fc T true true c1) = frag_len - 4 -> laid_out base 56 a fc T b (addr + 56) true (c1 :: c2 :: cs) ->
  (TXDESC_SIZE + (frag_len - 4 - icv)) `mod` bulk <> 0 ->
  exists w ws, rtw_dump_xframe base addr frag_len bulk icv lst false (u8 (zlen (c1 :: c2 :: cs))) 1 = w :: ws /\
    pw_frame b w = Ret (take (Z.to_nat (frag_len - 4 - icv)) (frag_bytes a fc T true true c1)).
Proof.
  intros Hi Hc Hl Hlay Hb. unfold rtw_dump_xframe. rewrite (wrap_small 8) by (unfold fits, zlen in *; cbn [length] in *; lia). unfold zlen at 1. rewrite Nat2Z.id.
  apply (dump_cuts base 56); try done; [by right|lia].
Qed.

(** Both fragments have sequence control 0x0010: the fragment number stays 0. *)
Example fragment_number_zero : slice (ex_send 0) (48 + 22) 2 = Ret [0x10; 0] /\
  slice (ex_send 0) (172 + 10) 6 = Ret sta_addr /\ slice (ex_send 0) (172 + 22) 2 = Ret [0x10; 0].
Proof. by vm_compute. Qed.

(** With encryption in software the fragments are looked for at other places than
    those they were written to: the second one is sent in the clear. *)
Example second_fragment_clear : exists p, slice (ex_send 2) p 34 = Ret (map Z.of_nat (seq 26 34)).
Proof. exists 206. by vm_compute. Qed.
End Frag.
