(* ===== verification/Path.v ===== *)
(** * The data path from end to end

    Composes the transmit side ([Attrib], [Xmit]) with the receive side:
    [recv_func_prehandle] and [recv_func_posthandle] of [core/rtw_recv.c] ([decryptor],
    [recvframe_chk_defrag], [portctrl], [recv_indicatepkt_reorder],
    [recv_process_mpdu]).  MP mode and TDLS are compiled out or not entered.

    The theorem: an Ethernet packet that a station sends, without a cipher or with
    CCMP in software, is delivered by the access point as it was. *)
From S2P Require Import Prelude Ies Aes Modes Cmac Ccm Gcm Arc4 Michael Tkip Ccmp Mfp Reorder Recv Indicate Forward Amsdu Cam Macid Sta Tim Ps PsRun Validate Attrib Xmit.

Module Path.
Import Aes Ccm Crc32 Wep Tkip Ccmp Amsdu Validate Attrib Xmit.

Section Code.
Context {ctx : Type} `{!BlockCipher ctx} (os_malloc : Z -> option (list Z)) (mem : option (list Z)) (a0 : list Z) (mode : Z).

(** What the receive path knows of the transmitter beside [Validate.vsta]: pairwise
    key, MIC key, defragmentation queue, key counter, whether its port is blocked. *)
Record rx_peer := RxPeer { p_key : list Z; p_mickey : list Z; p_defrag : list Defrag.rhdr; p_keytrack : Z; p_blocked : bool }.

(** The frame as the security and defragmentation code sees it. *)
Definition frame_attrib (f : fcinfo) (r : rx_ok) (bdecrypted : bool) (len : Z) : Mfp.rx_attrib :=
  Mfp.RxAttrib (f_privacy f) (r_encrypt r) bdecrypted (r_hdrlen r) (r_iv_len r) (r_icv_len r) len 0 (v_ra (r_addrs r)) (v_ta (r_addrs r)) len.
Definition frame_hdr (id room : Z) (f : fcinfo) (r : rx_ok) (a : Mfp.rx_attrib) (b : list Z) : Defrag.rhdr :=
  Defrag.RHdr id b room (f_frag_num f) (f_mfrag f) (r_hdrlen r) (r_iv_len r) (r_icv_len r) (r_encrypt r) 0 (Ps.mcast (v_ra (r_addrs r)))
    (f_privacy f) (r_priority r) (Mfp.rxa_key_index a) (Mfp.rxa_bdecrypted a).

(** [recv_func_posthandle] up to [portctrl], for a data frame: the frame goes on, or it
    was dropped or is kept for reassembly and [recv_func_posthandle] returns the code. *)
Definition posthandle_front (crc : crc_state) (s : Mfp.security_priv) (HZ now : Z) (ms : Defrag.mic_sec) (auth_alg : Z) (peer : rx_peer)
    (id room : Z) (bdecrypted : bool) (f : fcinfo) (r : rx_ok) (b : list Z)
  : res ((Z + Defrag.rhdr) * Mfp.security_priv * crc_state * Defrag.mic_sec * option (list Defrag.rhdr)) :=
  '(o, a, s, crc) ← Mfp.decryptor (ctx := ctx) os_malloc mem a0 mode crc s (Some (p_key peer)) (frame_attrib f r bdecrypted (zlen b)) b 0;
  match o with
  | None => Ret (inl _FAIL, s, crc, ms, Some (p_defrag peer))
  | Some b =>
      '(o, _, q, ms) ← Defrag.recvframe_chk_defrag HZ now ms (Some (p_mickey peer)) (Some (p_defrag peer, p_keytrack peer)) None true (frame_hdr id room f r a b);
      match o with
      | None => Ret (inl _SUCCESS, s, crc, ms, q)
      | Some g =>
          go ← portctrl auth_alg (Some (p_blocked peer)) g;
          Ret (if go : bool then inr g else inl _FAIL, s, crc, ms, q)
      end
  end.

(** A frame as [recv_process_mpdu] gets it: what it reads of the adapter and of the
    attributes, and its surroundings. *)
Record ready := Ready { h_ctx : rx_ctx; h_env : rx_env; h_amsdu : bool; h_dst : list Z; h_src : list Z; h_frame : Defrag.rhdr }.

(** The rest of the receive path: the access point, if the interface is one;
    [RTW_CANNOT_RUN]; the outcome of [rtw_recv_indicatepkt]; the frames waiting in the
    reordering queues, by identity. *)
Record rx_side := RxSide { q_ap : option (fwd_cfg * (Z -> Z)); q_cannot_run : bool; q_indicate : Z; q_waiting : Z -> option ready }.

Definition process (q : rx_side) (w : ready) : res mpdu_out :=
  recv_process_mpdu (h_ctx w) (q_ap q) (h_env w) (q_cannot_run q) (q_indicate q) (h_amsdu w) (h_dst w) (h_src w) (h_frame w).

(** The frames the reordering buffer hands on, one after the other; [w] is the one that
    came in last. *)
Fixpoint process_all (q : rx_side) (w : ready) (l : list Reorder.rframe) : res (list mpdu_out) :=
  match l with
  | [] => Ret []
  | f :: l =>
      match (if Reorder.rf_id f =? Defrag.fid (h_frame w) then Some w else q_waiting q (Reorder.rf_id f)) with
      | None => Oob
      | Some v => o ← process q v; os ← process_all q w l; Ret (o :: os)
      end
  end.

(** What [recv_func_posthandle] returns, whether it counts a dropped frame itself, whether it
    frees the frame itself, what was processed, the reordering state afterwards. *)
Record post_out := PostOut { po_ret : Z; po_drop : bool; po_freed : bool; po_done : list mpdu_out; po_ctrl : Reorder.reorder_ctrl }.

(** [recv_func_posthandle] behind [portctrl]; [rc] is the reordering state of the
    frame's priority, which the frame refers to if it is unicast and has one
    ([r_reorder]). *)
Definition posthandle_back (q : rx_side) (f : fcinfo) (r : rx_ok) (rc : Reorder.reorder_ctrl) (w : ready) : res post_out :=
  let '(ret, out, rc) :=
    if r_reorder r then Reorder.recv_indicatepkt_reorder rc (f_qos f) (Reorder.RFrame (Defrag.fid (h_frame w)) (f_seq_num f))
    else (Reorder._SUCCESS, [], rc) in
  if ret =? Reorder._FAIL then Ret (PostOut _FAIL true true [] rc)
  else if ret =? Reorder.RTW_RX_HANDLED then
    os ← process_all q w out;
    Ret (PostOut Reorder.RTW_RX_HANDLED false false os rc)
  else
    let rc := if r_reorder r then Reorder.recv_set_iseq_before_mpdu_process rc (f_seq_num f) else rc in
    o ← process q w;
    let rc := if r_reorder r then Reorder.recv_set_iseq_after_mpdu_process rc else rc in
    Ret (PostOut (status o) (status o =? _FAIL) false [o] rc).

(** [recv_func_posthandle] of a data frame.  The attributes of the frame just received
    stand for those of a frame put together from fragments. *)
Definition recv_func_posthandle (c : config) (amsdu_mode : Z) (q : rx_side) (e : rx_env) (crc : crc_state) (s : Mfp.security_priv) (HZ now : Z)
    (ms : Defrag.mic_sec) (peer : rx_peer) (id room : Z) (bdecrypted : bool) (f : fcinfo) (r : rx_ok) (b : list Z) (rc : Reorder.reorder_ctrl)
  : res (post_out * Mfp.security_priv * crc_state * Defrag.mic_sec * option (list Defrag.rhdr)) :=
  '(o, s, crc, ms, dq) ← posthandle_front crc s HZ now ms (AuthAlgrthm c) peer id room bdecrypted f r b;
  match o with
  | inl ret => Ret (PostOut ret true false [] rc, s, crc, ms, dq)
  | inr g =>
      let a := r_addrs r in
      p ← posthandle_back q f r rc
            (Ready (RxCtx amsdu_mode (PrivacyAlgrthm c) (f_tofr_ds f) (v_ra a) (v_ta a)) e (r_amsdu r) (v_dst a) (v_src a) g);
      Ret (p, s, crc, ms, dq)
  end.
End Code.

(** ** Reading the header of a sent frame *)

Section Header.
Context (ds : Z) (a1 a2 a3 : list Z) (pr qos : bool) (prio seqnum : Z) (rest : list Z).
Context (L1 : length a1 = 6%nat) (L2 : length a2 = 6%nat) (L3 : length a3 = 6%nat) (Hds : ds = 0x100 \/ ds = 0x200).
Context (B1 : bytes_ok a1) (B2 : bytes_ok a2) (B3 : bytes_ok a3) (Hp : 0 <= prio < 8) (Hs : 0 <= seqnum < 4096).
Let h := tx_hdr ds a1 a2 a3 pr qos prio seqnum.
Let F := hdr_bytes h ++ rest.

Lemma sent_ok : hdr_ok h.
Proof. apply tx_hdr_ok; try done. by right. Qed.

Lemma sent_addrs : addr1 F = Ret a1 /\ addr2 F = Ret a2 /\ addr3 F = Ret a3.
Proof.
  destruct (hdr_at h sent_ok rest) as (_ & D & _). fold F in D. cbn [h h_addrs tx_hdr] in D.
  apply at_off_app in D as [D1 D]. apply at_off_app in D as [D2 D3]. unfold zlen in *. rewrite L1 in *. rewrite L2 in *.
  unfold addr1, addr2, addr3. split_and!; apply at_off_slice; unfold zlen; rewrite ?L1, ?L2, ?L3; done.
Qed.

Lemma sent_fc : parse_fc F = Ret (FCInfo (if ds =? 0x100 then 1 else 2) 0 seqnum false false false pr false qos) /\
  Mfp.GetFrameType F 0 = Ret 0x8 /\ rd F 0 = Ret (if qos then 0x88 else 0x08) /\ Mfp.get_frame_sub_type F 0 = Ret (if qos then 0x88 else 0x08).
Proof.
  pose proof (hdr_fc h sent_ok rest) as Ef. pose proof (hdr_seq h sent_ok rest) as Es. fold F in Ef, Es. cbn [h tx_hdr h_fc h_seq] in Ef, Es.
  assert (Z.land (Z.shiftl seqnum 4) 0x0f = 0 /\ Z.shiftr (Z.shiftl seqnum 4) 4 = seqnum) as [E1 E2].
  { split; [|by rewrite Z.shiftr_shiftl_l, Z.shiftl_0_r by lia]. change 0xf with (Z.ones 4). rewrite Z.land_ones, Z.shiftl_mul_pow2 by lia. by apply Z.mod_mul. }
  split_and!.
  - unfold parse_fc, get_tofr_ds, GetFragNum, GetSequence, fc_bit, Mfp.get_frame_sub_type. rewrite Ef, Es. simp_res. rewrite E1, E2.
    destruct Hds as [-> | ->], pr, qos; reflexivity.
  - unfold Mfp.GetFrameType. rewrite Ef. simp_res. destruct Hds as [-> | ->], pr, qos; reflexivity.
  - destruct (hdr_at h sent_ok rest) as (D & _). fold F in D. cbn [h h_fc tx_hdr] in D. apply at_off_cons in D as [D _]. rewrite D.
    destruct Hds as [-> | ->], pr, qos; reflexivity.
  - unfold Mfp.get_frame_sub_type. rewrite Ef. simp_res. destruct Hds as [-> | ->], pr, qos; reflexivity.
Qed.

Lemma sent_qos : qos = true -> get_le16 F 24 = Ret prio.
Proof.
  intros Hq. assert (h_tail h = [prio; 0]) as Ht by (cbn [h h_tail tx_hdr]; by rewrite Hq).
  pose proof (hdr_tail_slice h sent_ok rest 2) as D. rewrite Ht in D. specialize (D ltac:(done)).
  fold F in D. apply at_off_of_slice in D. change (take 2 [prio; 0]) with [prio; 0] in D.
  apply at_off_cons in D as [D1 D]. apply at_off_cons in D as [D2 _]. rewrite (get_le16_spec F 24 prio 0) by (try done; unfold fits; lia). f_equal.
Qed.
End Header.

(** ** The access point accepts *)

Section Accept.
Context (get_sta : list Z -> option nat) (bmc : option nat) (wifi_spec : bool) (hiq_filter : Z) (c : config).

(** An access point that is up, and a transmitter [ta] that is associated. *)
Record ap_ready (st : vstate) (ta : list Z) (i : nat) (s : vsta) : Prop := {
  ar_ap : check_fwstate c WIFI_AP_STATE = true; ar_up : Z.land (fw_state c) Ps.WIFI_ASOC_STATE <> 0;
  ar_ps : Ps.ps_inv get_sta bmc (vps st) /\ PsRun.bmc_ready bmc (vps st) /\ zlen (Ps.ids (vps st)) < 2 ^ 32;
  ar_sta : get_sta ta = Some i /\ bmc <> Some i /\ exists p, Ps.stas (vps st) !! i = Some p /\ Ps.asoc p = true;
  ar_rx : vstas st !! i = Some s /\ vsta_ok s }.

(** The frame is not the one received last in its category. *)
Definition fresh_seq (s : vsta) (qos : bool) (prio seqnum : Z) : Prop :=
  Decache.get_rxseq (v_recv s) qos false prio <> Ret (Decache.seq_ctrl seqnum 0).

(** The network is open and the frame plain, or the frame is protected and the
    station has a key. *)
Definition policy_ok (s : vsta) (pr : bool) : Prop :=
  PrivacyAlgrthm c = _NO_PRIVACY_ \/ pr = true /\ v_privacy s <> _NO_PRIVACY_.

Lemma decache_fresh f a i qos prio seqnum enc hl b st s : vstas st !! i = Some s -> vsta_ok s -> Ps.mcast (v_ra a) = false ->
  f_qos f = qos -> f_seq_num f = seqnum -> f_frag_num f = 0 -> 0 <= prio < 8 -> fresh_seq s qos prio seqnum -> bytes_ok b -> 0 <= hl -> hl + 8 <= zlen b ->
  exists st', decache c f a i prio enc hl b st = Ret (_SUCCESS, st').
Proof.
  intros Hi [Hr Hv] Hm <- <- Hf Hp Hfr Bb Hl Hb. unfold decache. rewrite Hi, Hm, Hf.
  destruct (Decache.recv_decache_dup (v_recv s) prio (f_qos f) false (f_seq_num f) 0 Hr) as (old & ret & r & Eo & Ed & Hiff & _); [lia|].
  bind_step Ed. assert (ret = _SUCCESS) as ->.
  { unfold Decache.recv_decache in Ed. rewrite (proj2 (Z.ltb_ge 15 prio)) in Ed by lia. rewrite Eo in Ed. simp_res in Ed.
    destruct (Z.eqb_spec (Decache.seq_ctrl (f_seq_num f) 0) old) as [E|]; [|by apply bind_inv in Ed as (? & _ & [= <- _])].
    exfalso. apply Hfr. rewrite Eo, E. done. }
  cbn [Z.eqb Recv._SUCCESS Recv._FAIL Tkip._SUCCESS Tkip._FAIL negb]. unfold Decache.recv_ucast_pn_decache. rewrite (proj2 (Z.ltb_ge 15 prio)) by lia.
  destruct (enc =? Recv._AES_); [|by eexists]. destruct (get_le64_total b hl Bb Hl Hb) as (w & -> & _). simp_res.
  cbn [v_iv]. destruct (rd_in (v_iv s) prio) as (t & -> & _); [lia|]. simp_res. destruct (negb _); [by eexists|].
  rewrite wr_Ret by lia. simp_res. by eexists.
Qed.

Context (a1 a2 a3 : list Z) (pr qos : bool) (prio seqnum : Z) (rest : list Z).
Context (L1 : length a1 = 6%nat) (L2 : length a2 = 6%nat) (L3 : length a3 = 6%nat).
Context (B1 : bytes_ok a1) (B2 : bytes_ok a2) (B3 : bytes_ok a3) (Hp : 0 <= prio < 8) (Hs : 0 <= seqnum < 4096) (Hq0 : qos = false -> prio = 0).
Let h := tx_hdr 0x100 a1 a2 a3 pr qos prio seqnum.
Let F := hdr_bytes h ++ rest.

Lemma ap_hdr_accepts f amsdu dprio a st i s : ap_ready st a2 i s -> Ps.mcast a1 = false -> f_tofr_ds f = 1 ->
  exists st', rx_data_validate_hdr get_sta bmc wifi_spec hiq_filter c f amsdu dprio F a st = Ret (_SUCCESS, Some i, Addrs a1 a2 a3 a2 a1, st') /\ same_recv st st'.
Proof.
  intros [Hap Hup (I & Br & Li) (G & Nb & p & Hps & Has) _] Hm Ht. unfold rx_data_validate_hdr. rewrite Hap. unfold rtw_ap_rx_data_validate_hdr.
  rewrite (proj2 (Z.eqb_neq _ 0)) by exact Hup.
  destruct (sent_addrs 0x100 a1 a2 a3 pr qos prio seqnum rest L1 L2 L3) as (E1 & E2 & E3); try done; [by left|]. fold h F in E1, E2, E3.
  destruct (sent_fc 0x100 a1 a2 a3 pr qos prio seqnum rest L1 L2 L3) as (_ & _ & _ & Esub); try done; [by left|]. fold h F in Esub.
  rewrite E1, E2, E3, Ht. simp_res. cbn [Z.eqb Pos.eqb]. rewrite Hm. simp_res. cbn [fst snd v_ta]. rewrite G.
  destruct (ps_after get_sta bmc wifi_spec hiq_filter (vps st) i (f_pw_save f) p I Br Li Nb Hps Has) as (p' & Ep & _ & Tr). bind_step Ep.
  rewrite Esub. simp_res. destruct qos; [|by eexists].
  cbn [Z.land Pos.land Z.eqb Pos.eqb]. destruct (Tr dprio) as (nl & p2 & Et & _). change (vps (set_vps p' st)) with p'. bind_step Et.
  eexists. split; [done|]. by destruct nl.
Qed.

Lemma ap_accepts mgnt dprio enc a st i s : ap_ready st a2 i s -> Ps.mcast a1 = false -> fresh_seq s qos prio seqnum -> policy_ok s pr -> bytes_ok rest ->
  let cipher := if pr then GET_ENCRY_ALGO c (v_privacy s) false enc else 0 in
  let ivs := if pr then Mfp.ice_iv_len cipher else (0, 0) in
  8 + ivs.1 <= zlen rest ->
  exists f st', parse_fc F = Ret f /\ f_privacy f = pr /\ f_mfrag f = false /\ f_frag_num f = 0 /\ f_tofr_ds f = 1 /\ f_qos f = qos /\ f_seq_num f = seqnum /\
    validate_recv_frame get_sta bmc wifi_spec hiq_filter c mgnt dprio enc F a st =
    Ret (_SUCCESS, Some (RxOk i (Addrs a1 a2 a3 a2 a1) false prio 0 (zlen (hdr_bytes h)) cipher ivs.1 ivs.2 qos), st').
Proof.
  intros Ar Hm Hfr Hpol Br cipher ivs Hlen.
  destruct (sent_fc 0x100 a1 a2 a3 pr qos prio seqnum rest L1 L2 L3) as (Ef & Ety & E0 & _); try done; [by left|]. fold h F in Ef, Ety, E0.
  destruct (tx_hdr_ok 0x100 a1 a2 a3 pr qos prio seqnum) as (Hok & Hhl & _); try done; [by right; left|]. fold h in Hok, Hhl.
  cbn [Z.eqb Pos.eqb] in Ef.
  enough (exists st', validate_recv_frame get_sta bmc wifi_spec hiq_filter c mgnt dprio enc F a st =
    Ret (_SUCCESS, Some (RxOk i (Addrs a1 a2 a3 a2 a1) false prio 0 (zlen (hdr_bytes h)) cipher ivs.1 ivs.2 qos), st')) as [st' Ev] by (eexists _, st'; split; [exact Ef|done]).
  unfold validate_recv_frame. rewrite E0. simp_res. assert (negb (Z.land (if qos then 0x88 else 0x08) 3 =? 0) = false) as -> by by destruct qos.
  rewrite Ety. simp_res. rewrite Ef. simp_res. cbn [Z.eqb Pos.eqb].
  unfold validate_recv_data_frame. cbn [f_tofr_ds f_qos f_order f_privacy Z.eqb Pos.eqb].
  assert (forall off len, (0 <= off) -> qos = true -> qc_bits F (WLAN_HDR_A3_LEN + 0) off len = Ret (Z.land (Z.shiftr prio off) (Z.ones len))) as Hqc.
  { intros off len _ Hq. unfold qc_bits. change (WLAN_HDR_A3_LEN + 0) with 24. unfold F, h.
    rewrite (sent_qos 0x100 a1 a2 a3 pr qos prio seqnum rest L1 L2 L3); try done. by left. }
  assert ((if qos then q ← qc_bits F (WLAN_HDR_A3_LEN + 0) 7 1; Ret (negb (q =? 0)) else Ret false) = Ret false) as ->.
  { destruct qos eqn:Eq; [|done]. rewrite Hqc by done. simp_res. f_equal.
    assert (prio = 0 \/ prio = 1 \/ prio = 2 \/ prio = 3 \/ prio = 4 \/ prio = 5 \/ prio = 6 \/ prio = 7) as C by lia.
    by destruct C as [->|[->|[->|[->|[->|[->|[-> | ->]]]]]]]. }
  simp_res. destruct (ap_hdr_accepts (FCInfo 1 0 seqnum false false false pr false qos) false dprio a st i s Ar Hm eq_refl) as (st1 & Eh & Sv & _).
  bind_step Eh. cbn [Z.eqb Pos.eqb orb Recv._SUCCESS Recv._FAIL Tkip._SUCCESS Tkip._FAIL RTW_RX_HANDLED]. destruct (ar_rx _ _ _ _ Ar) as [Hrx Hvo]. rewrite Sv, Hrx, andb_false_r.
  assert ((if qos then qc_bits F (WLAN_HDR_A3_LEN + 0) 0 4 else Ret 0) = Ret prio /\ (if qos then qc_bits F (WLAN_HDR_A3_LEN + 0) 5 2 else Ret 0) = Ret 0) as [-> ->].
  { destruct qos eqn:Eq; [|by rewrite (Hq0 eq_refl)]. rewrite !Hqc by done.
    assert (prio = 0 \/ prio = 1 \/ prio = 2 \/ prio = 3 \/ prio = 4 \/ prio = 5 \/ prio = 6 \/ prio = 7) as C by lia.
    by destruct C as [->|[->|[->|[->|[->|[->|[-> | ->]]]]]]]. }
  simp_res. assert ((if qos then WLAN_HDR_A3_QOS_LEN else WLAN_HDR_A3_LEN) + 0 + 0 = zlen (hdr_bytes h)) as -> by (rewrite Hhl; by destruct qos).
  assert (bytes_ok F) as BF by (apply Forall_app; split; [by apply hdr_bytes_ok|done]).
  assert (zlen F = zlen (hdr_bytes h) + zlen rest) as LF by (unfold F; by rewrite zlen_app).
  assert (0 <= ivs.1 <= 18) as Hiv.
  { unfold ivs. destruct pr; [|cbn; lia]. destruct (Mfp.ice_iv_len cipher) as [iv icv] eqn:E. cbn. by eapply ice_iv_bound. }
  destruct (decache_fresh (FCInfo 1 0 seqnum false false false pr false qos) (Addrs a1 a2 a3 a2 a1) i qos prio seqnum enc (zlen (hdr_bytes h)) F st1 s) as (st2 & Ed);
    try done; [by rewrite Sv|lia..|].
  bind_step Ed. cbn [Z.eqb Recv._SUCCESS Recv._FAIL Tkip._SUCCESS Tkip._FAIL]. cbn [v_ra]. rewrite Hm. fold cipher. fold ivs. rewrite (surjective_pairing ivs).
  assert (privacy_policy c (FCInfo 1 0 seqnum false false false pr false qos) false (Addrs a1 a2 a3 a2 a1) (zlen (hdr_bytes h)) ivs.1 (v_privacy s) F = Ret _SUCCESS) as ->.
  { unfold privacy_policy. destruct (Z.eqb_spec (PrivacyAlgrthm c) _NO_PRIVACY_) as [|Np]; [done|]. cbn [v_ra f_privacy]. rewrite Hm.
    destruct Hpol as [|[-> Hv]]; [done|]. destruct (get_be16_total F (zlen (hdr_bytes h) + ivs.1 + LLC_HEADER_SIZE) BF) as (et & -> & _);
      [unfold LLC_HEADER_SIZE; destruct qos; lia|unfold LLC_HEADER_SIZE; lia|].
    simp_res. cbn [negb andb]. rewrite (proj2 (Z.eqb_neq _ _) Hv), andb_false_r. cbn [andb]. by destruct (_ =? dot11AuthAlgrthm_8021X). }
  simp_res. cbn [Z.eqb Recv._SUCCESS Recv._FAIL Tkip._SUCCESS Tkip._FAIL fst snd negb andb]. eexists. reflexivity.
Qed.
End Accept.

(** ** Behind validation *)

Section Open.
Context {ctx : Type} `{!BlockCipher ctx}.
Context (os_malloc : Z -> option (list Z)) (mem a0 : list Z) (mode : Z).
Context (Hmalloc : mallocs os_malloc) (Hmem : length mem = 61%nat) (Ha0 : is_block a0).

(** Cipher, IV and MIC length, and the MIC itself. *)
Definition cipher_of (key : option (list Z)) : Z * Z * Z :=
  match key with None => (0, 0, 0) | Some key => (Mfp.ccmp_enc key, 8, Z.of_nat (ccmp_M key)) end.
Definition mic_of (key : option (list Z)) (h : mac_hdr) (iv m : list Z) : list Z :=
  match key with None => [] | Some key => ccm_tag (block_cipher key) (ccmp_M key) (ccmp_nonce h iv) (aad_of true mode h) m end.
Definition key_fits (key : option (list Z)) (iv : list Z) : Prop :=
  match key with None => iv = [] | Some key => ccmp_key key /\ bytes_ok iv /\ length iv = 8%nat end.

Lemma seal_facts key iv h m : ccmp_key key -> bytes_ok iv -> length iv = 8%nat -> hdr_ok h -> bytes_ok m ->
  let E := block_cipher key in let M := ccmp_M key in let n := ccmp_nonce h iv in
  length (ccm_crypt E n m) = length m /\ length (ccm_tag E M n (aad_of true mode h) m) = M /\ bytes_ok (ccm_crypt E n m) /\ bytes_ok (ccm_tag E M n (aad_of true mode h) m) /\
  ccm_open E M n (aad_of true mode h) (ccm_crypt E n m) (ccm_tag E M n (aad_of true mode h) m) = Some m.
Proof.
  intros Hk Biv Liv Hh Bm E M n. destruct (ccmp_nonce_ok h iv Hh Biv Liv) as [Bn Ln]. pose proof (ccmp_M_range key) as HMr. fold M in HMr.
  destruct (seal_ok key mem Hmem (ccmp_key_is_key _ Hk) n Ln Bn M HMr (aad_of true mode h) m) as [[Lc Lt] [Bc Bt]]; [by apply aad_len_30|by apply aad_bytes|done|].
  split_and!; try done. apply (proj2 (ccm_open_iff E M _ _ (enc_blocks key mem Hmem (ccmp_key_is_key _ Hk)) Ln Bn _ _ m)). done.
Qed.

Lemma sealed_facts key iv h m : key_fits key iv -> hdr_ok h -> bytes_ok m ->
  bytes_ok (sealed mode key h iv m) /\ zlen (sealed mode key h iv m) = overhead key + zlen m /\ zlen (mic_of key h iv m) = (cipher_of key).2 /\ zlen iv = (cipher_of key).1.2.
Proof.
  intros Hk Hh Bm. destruct key as [key|]; [|cbn in *; by rewrite Hk, Z.add_0_l]. destruct Hk as (Hk & Biv & Liv).
  destruct (seal_facts key iv h m Hk Biv Liv Hh Bm) as (Lc & Lt & Bc & Bt & _). cbn [sealed mic_of cipher_of overhead fst snd].
  split_and!; [by repeat (apply Forall_app; split)|unfold zlen; rewrite !length_app, Lc, Lt; lia|unfold zlen; lia|unfold zlen; lia].
Qed.

Lemma front_ok key iv h m crc s HZ now ms auth peer id room f r : key_fits key iv -> (exists kr, default [] key ++ kr = p_key peer) -> hdr_ok h -> bytes_ok m ->
  r_hdrlen r = zlen (hdr_bytes h) -> (r_encrypt r, r_iv_len r, r_icv_len r) = cipher_of key -> Ps.mcast (v_ra (r_addrs r)) = false ->
  f_mfrag f = false -> f_frag_num f = 0 -> p_blocked peer = false -> zlen (hdr_bytes h) + zlen m < 2 ^ 20 ->
  exists g s', posthandle_front (ctx := ctx) os_malloc (Some mem) a0 mode crc s HZ now ms auth peer id room false f r (hdr_bytes h ++ sealed mode key h iv m) =
      Ret (inr g, s', crc, ms, Some (p_defrag peer)) /\
    Defrag.data g = hdr_bytes h ++ iv ++ m ++ mic_of key h iv m /\ Defrag.hdrlen g = zlen (hdr_bytes h) /\ (Defrag.encrypt g, Defrag.iv_len g, Defrag.icv_len g) = cipher_of key.
Proof.
  intros Hk [kr Hkr] Hh Bm Hhl Hc Hm Hmf Hfn Hbl Hsz. unfold posthandle_front. set (A := frame_attrib f r false _).
  assert (exists a' s', Mfp.decryptor (ctx := ctx) os_malloc (Some mem) a0 mode crc s (Some (p_key peer)) A (hdr_bytes h ++ sealed mode key h iv m) 0 =
    Ret (Some (hdr_bytes h ++ iv ++ m ++ mic_of key h iv m), a', s', crc)) as (a' & s' & Ed).
  { destruct key as [key|].
    - destruct Hk as (Hk & Biv & Liv). destruct (seal_facts key iv h m Hk Biv Liv Hh Bm) as (Lc & Lt & Bc & Bt & Hop). injection Hc as He Hi Hic.
      pose proof (Mfp.decryptor_ccmp os_malloc mem a0 mode Hmalloc Hmem Ha0 key kr Hk crc s A [] h iv (ccm_crypt (block_cipher key) (ccmp_nonce h iv) m) (ccm_tag (block_cipher key) (ccmp_M key) (ccmp_nonce h iv) (aad_of true mode h) m) []) as Hd.
      specialize (Hd ltac:(split_and!; [exact He|done|exact Hhl|by rewrite mcast_IS]) Hh Biv Liv Bc Bt Lt ltac:(unfold zlen in *; lia) eq_refl).
      rewrite !app_nil_l, app_nil_r, Hop in Hd. change (zlen (@nil Z)) with 0 in Hd. cbn zeta in Hd. change (default [] (Some key)) with key in Hkr. rewrite Hkr in Hd. cbn [sealed mic_of].
      eexists _, _. rewrite Hd, app_nil_r. reflexivity.
    - injection Hc as He Hi Hic. cbn in Hk. subst iv. cbn [sealed mic_of]. rewrite app_nil_r. eexists _, s. unfold Mfp.decryptor. subst A. cbn [frame_attrib Mfp.rxa_encrypt Mfp.rxa_bdecrypted].
      rewrite He. change (0 <? 0) with false. simp_res. cbn [frame_attrib Mfp.rxa_encrypt Mfp.rxa_bdecrypted]. rewrite He. reflexivity. }
  bind_step Ed. unfold Defrag.recvframe_chk_defrag, Defrag.chk_defrag_queue, frame_hdr. cbn [Defrag.mfrag Defrag.frag_num]. rewrite Hmf, Hfn. cbn [negb andb Z.eqb]. simp_res. cbn [fst snd].
  assert (((r_encrypt r) =? Tkip._TKIP_) = false) as Ht.
  { destruct key as [key|]; injection Hc as -> _ _; [|done]. destruct Hk as (Hk & _). destruct (Mfp.ccmp_enc_cases key Hk) as [(_ & -> & _)|(_ & -> & _)]; done. }
  match goal with |- context [Defrag.privacy ?x] => set (g := x) end.
  assert ((if Defrag.privacy g then m0 ← Defrag.recvframe_chkmic HZ now ms (Some (p_mickey peer)) g;
      if m0.1.1 =? Recv._FAIL then Ret (None, [] ++ [Defrag.fid g], Some (p_defrag peer), m0.2) else Ret (Some m0.1.2, [], Some (p_defrag peer), m0.2)
     else Ret (Some g, [], Some (p_defrag peer), ms)) = Ret (Some g, [], Some (p_defrag peer), ms)) as Eg.
  { destruct (Defrag.privacy g); [|done]. unfold Defrag.recvframe_chkmic. subst g. cbn [Defrag.encrypt]. rewrite Ht. reflexivity. }
  bind_step Eg. unfold portctrl. rewrite Hbl. exists g, s'. split_and!; [by destruct (auth =? _)|done|exact Hhl|exact Hc].
Qed.
End Open.

(** ** A station sends *)

(** The security of a link: none, or CCMP with [key] in software. *)
Inductive tx_link (c : config) (x : xconfig) (s : xsta) (ty : Z) : option (list Z) -> Prop :=
| tx_open : xs_blocked s = false -> AuthAlgrthm c = 0 -> PrivacyAlgrthm c = _NO_PRIVACY_ -> tx_link c x s ty None
| tx_ccmp key kr : xs_blocked s = false -> AuthAlgrthm c = dot11AuthAlgrthm_8021X -> ty <> 0x888e -> xs_key s = key ++ kr -> length (xs_key s) = 32%nat ->
    ccmp_key key -> xs_privacy s = Mfp.ccmp_enc key -> c_sw_encrypt x = true -> tx_link c x s ty (Some key).

Lemma ccmp_key_len key : ccmp_key key -> (if Z.land (Mfp.ccmp_enc key) 0x10 =? 0 then 16%nat else 32%nat) = length key /\ 0 < Mfp.ccmp_enc key /\ u8 (Mfp.ccmp_enc key) = Mfp.ccmp_enc key.
Proof.
  intros Hk. destruct (Mfp.ccmp_enc_cases key Hk) as [(Hz & -> & _)|(Hz & -> & _)]; unfold zlen in Hz.
  - split; [change (16%nat = length key); lia|done].
  - split; [change (32%nat = length key); lia|done].
Qed.

Definition same_sec (s s0 : xsta) : Prop := s0 = s \/ exists v, s0 = set_xstate v s.

Lemma link_some c x s s0 ty key ra et : tx_link c x s ty key -> same_sec s s0 -> Ps.mcast ra = false -> (ty <> 0x888e -> et = NON_EAPOL) ->
  is_Some (update_attrib_sec_info c x s0 ra ty et).1.
Proof.
  intros Hl Hs Hm He.
  assert (xs_blocked s0 = xs_blocked s /\ xs_privacy s0 = xs_privacy s) as [Hb Hp] by (by destruct Hs as [->|[v ->]]).
  unfold update_attrib_sec_info, tx_cipher, GET_ENCRY_ALGO. rewrite Hm, Hb, Hp. destruct Hl as [B A P|key kr B A T K L Ck Pv Sw]; rewrite B, A.
  - destruct (Z.eqb_spec ty 0x888e) as [->|Hn]; [|rewrite (He Hn)]; cbn [negb andb orb]; rewrite P; cbn [Z.eqb orb].
    + destruct (_ && _); by eexists.
    + by eexists.
  - rewrite (He T). cbn [orb Z.eqb Pos.eqb dot11AuthAlgrthm_8021X]. rewrite bool_decide_false by (by intros [|]). cbn [andb]. rewrite Pv.
    rewrite (proj2 (Z.eqb_neq ty 0x888e) T), andb_false_r. destruct (Mfp.ccmp_enc_cases key Ck) as [(_ & -> & _)|(_ & -> & _)]; by eexists.
Qed.

Lemma link_sec c x s s0 ty key et (a : attrib) s1 : tx_link c x s ty key -> same_sec s s0 -> check_fwstate c WIFI_MP_STATE = false -> bmcst a = false ->
  update_attrib_sec_info c x s0 (x_ra (x_addr a)) ty et = (Some (x_sec a), s1) -> exists iv, sec_is key iv a /\ key_fits key iv.
Proof.
  intros Hl Hs Hmp Hm H.
  assert (xs_blocked s0 = xs_blocked s /\ xs_privacy s0 = xs_privacy s /\ xs_key s0 = xs_key s) as (Hb & Hp & Hk) by (by destruct Hs as [->|[v ->]]).
  destruct Hl as [B A P|key kr B A T K L Ck Pv Sw].
  - exists []. split; [|done]. revert H. unfold update_attrib_sec_info, tx_cipher, GET_ENCRY_ALGO. rewrite A, P.
    destruct (xs_blocked s0 || _); [destruct (negb _ && negb _); [done|]|]; cbn [Z.eqb orb]; injection 1 as Hq _; unfold sec_is; rewrite <- Hq; done.
  - destruct (sec_info_8021X _ _ _ _ _ _ _ _ A H) as [[[_ [?|Hmp']]|[_ He]] _]; [done|rewrite Hmp in Hmp'; done|].
    unfold bmcst in Hm. rewrite Hm, Hp, Pv in He. destruct (ccmp_key_len key Ck) as (Hn & H0 & Hu). rewrite Hu in He.
    revert H. unfold update_attrib_sec_info. rewrite Hm. destruct (tx_cipher _ _ _ _ _ _) as [[enc kid]|]; [|done].
    destruct (tx_iv _ _ _ _ _) as [[[[l1 l2] iv] pn]|] eqn:E; [|done]. injection 1 as H _.
    rewrite <- H in He. cbn [x_encrypt] in He. subst enc.
    assert (tx_iv x false (Mfp.ccmp_enc key) kid (xs_txpn s0) = Some (8, Z.of_nat (ccmp_M key), Mfp.aes_iv (Mfp.next_pn (xs_txpn s0)) 0, Mfp.next_pn (xs_txpn s0))) as E'.
    { unfold tx_iv. destruct (Mfp.ccmp_enc_cases key Ck) as [(_ & -> & ->)|(_ & -> & ->)]; reflexivity. }
    rewrite E' in E. injection E as <- <- <- <-. destruct (Mfp.aes_iv_ok (Mfp.next_pn (xs_txpn s0)) 0) as [Biv Liv].
    exists (Mfp.aes_iv (Mfp.next_pn (xs_txpn s0)) 0). split; [|done]. unfold sec_is. rewrite <- H. cbn [x_encrypt x_iv_len x_icv_len x_bswenc x_skey x_iv].
    split_and!; try done.
    + rewrite (proj2 (Z.eqb_neq _ 0)) by lia. rewrite Sw. done.
    + rewrite (proj2 (Z.ltb_lt 0 _)) by lia. rewrite Hn, Hk, K. rewrite take_app_length. by eexists.
Qed.

(** A station interface, associated with the access point [mybssid]. *)
Record sta_ready (get_sta : list Z -> option nat) (c : config) (st : list xsta) (i : nat) (s : xsta) : Prop := {
  sr_role : check_fwstate c WIFI_STATION_STATE = true /\ Z.land (fw_state c) 0x270 = 0 /\ check_fwstate c WIFI_MP_STATE = false;
  sr_addr : length (myhwaddr c) = 6%nat /\ bytes_ok (myhwaddr c); sr_bss : length (mybssid c) = 6%nat /\ bytes_ok (mybssid c) /\ Ps.mcast (mybssid c) = false;
  sr_sta : get_sta (mybssid c) = Some i /\ st !! i = Some s /\ xs_asoc s = true /\ seqs_ok s }.

Lemma not_role c m : Z.land (fw_state c) 0x270 = 0 -> Z.land m 0x270 = m -> m <> 0 -> check_fwstate c m = false.
Proof.
  intros H Hm H0. unfold check_fwstate. rewrite (proj2 (Z.eqb_neq m 0) H0). cbn [andb orb].
  rewrite <- Hm, (Z.land_comm m), Z.land_assoc, H, Z.land_0_l. done.
Qed.

(** A packet with its parts. *)
Definition packet (da sa : list Z) (ty : Z) (payload : list Z) : list Z := da ++ sa ++ be16 ty ++ payload.

Lemma packet_parts da sa ty payload : length da = 6%nat -> length sa = 6%nat -> is_u16 ty -> let pkt := packet da sa ty payload in
  drop 14 pkt = payload /\ get_be16 pkt 12 = Ret ty /\ slice pkt 0 6 = Ret da /\ slice pkt 6 6 = Ret sa /\ take 6 pkt = da.
Proof.
  intros L1 L2 Ht pkt. unfold pkt, packet.
  assert (at_off (da ++ sa ++ be16 ty ++ payload) 12 (be16 ty ++ payload)) as At.
  { exists (da ++ sa), []. split; [by rewrite app_nil_r, <- app_assoc|]. unfold zlen. rewrite length_app. lia. }
  split_and!.
  - rewrite !app_assoc. apply drop_app_length'. rewrite !length_app, L1, L2. done.
  - by destruct (at_off_be16 _ _ _ _ Ht At).
  - apply (slice_0 da). unfold zlen. lia.
  - apply slice_mid; unfold zlen; lia.
  - apply take_app_length'. lia.
Qed.

Section Send.
Context {ctx : Type} `{!BlockCipher ctx}.
Context (os_malloc : Z -> option (list Z)) (mem a0 : list Z) (mode : Z).
Context (Hmalloc : mallocs os_malloc) (Hmem : length mem = 61%nat) (Ha0 : is_block a0).
Context (get_sta : list Z -> option nat) (bmc : option nat) (c : config) (x : xconfig) (k : stack).
Context (sc : nat -> st_ctl) (pwr_mode uapsd_tid : Z) (uapsd_ap : bool).

(** The header attributes of an accepted packet. *)
Lemma sta_plain pkt a st at' st' : stack_ok k -> bytes_ok pkt -> zlen pkt < 2 ^ 31 -> Z.land (fw_state c) 0x270 = 0 -> attributed get_sta bmc c x k pkt a st at' st' ->
  plain_attrib at' (c_qos_option x) (x_priority (x_hdr at')).
Proof.
  intros Hk Hb Hl Hr [_ _ _ (s & s0 & s1 & et & _ & _ & _ & _ & _ & Hh) (F1 & F2 & F3 & F4)].
  destruct (hdr_attrib_total c x k pkt (x_ether_type at') (xs_qos_option s1) Hk Hb Hl) as (qos & p & E & Hp & Hq).
  rewrite (not_role c) in Hq by done. rewrite E in Hh. injection Hh as Hh. rewrite <- Hh. subst qos. unfold plain_attrib.
  destruct (c_qos_option x); cbn [x_priority]; (split; [by eexists|]); split_and!; try done; lia.
Qed.

Lemma sta_tx_addrs pkt da ty payload a st at' st' : pkt = packet da (myhwaddr c) ty payload -> length da = 6%nat -> length (myhwaddr c) = 6%nat -> is_u16 ty -> stack_ok k -> zlen pkt < 2 ^ 31 ->
  check_fwstate c WIFI_STATION_STATE = true -> Z.land (fw_state c) 0x270 = 0 -> attributed get_sta bmc c x k pkt a st at' st' ->
  x_ether_type at' = ty /\ x_addr at' = AddrAttr da (myhwaddr c) (myhwaddr c) (mybssid c).
Proof.
  intros Hpkt Ld Ls Ht [Ke _ _ _ _ _] Hl Hst Hr [(hdr & Eh & Ety & Ea) _ _ _ _].
  destruct (packet_parts da (myhwaddr c) ty payload Ld Ls Ht) as (_ & Pt & Pd & Psa & _). rewrite <- Hpkt in *.
  assert (14 <= zlen pkt) as L14 by (rewrite Hpkt; unfold packet; rewrite !zlen_app; pose proof (zlen_nonneg payload); unfold zlen in *; cbn [be16 length]; lia).
  assert (hdr = take 14 pkt) as ->.
  { rewrite <- (app_nil_r (stack_eth k)), splice_0, app_nil_r in Eh; [by injection Eh|]. rewrite length_take. unfold zlen in *. lia. }
  assert (forall i n l, slice pkt i n = Ret l -> i + n <= 14 -> slice (take 14 pkt) i n = Ret l) as Tk.
  { intros i n l E Hin. pose proof (slice_inv _ _ _ _ E) as (I0 & I1 & I2 & _). rewrite slice_Ret in E by lia. rewrite slice_Ret by (try lia; unfold zlen in *; rewrite length_take; lia).
    injection E as <-. f_equal. rewrite skipn_firstn_comm, take_take. f_equal. lia. }
  split.
  - unfold get_be16 in Pt, Ety. change 14%nat with (Z.to_nat 14) in Ety. rewrite !rd_take in Ety by lia. rewrite Pt in Ety. by injection Ety.
  - unfold is_ap in Ea. change (Z.lor WIFI_AP_STATE WIFI_MESH_STATE) with 0x210 in Ea.
    assert (Z.land (fw_state c) 0x210 = 0) as E0.
    { change 0x210 with (Z.land 0x270 0x210). by rewrite Z.land_assoc, Hr. }
    rewrite E0 in Ea. cbn [Z.eqb negb] in Ea. unfold sta_addrs in Ea. rewrite (Tk _ _ _ Pd), (Tk _ _ _ Psa) in Ea by lia. simp_res in Ea.
    rewrite !(not_role c), Hst in Ea by done. by injection Ea.
Qed.

Lemma sec_keeps s0 ra ty et o s1 : update_attrib_sec_info c x s0 ra ty et = (o, s1) -> xs_state s1 = xs_state s0 /\ xs_txseq s1 = xs_txseq s0 /\ xs_ba s1 = xs_ba s0.
Proof. unfold update_attrib_sec_info. repeat case_match; injection 1 as <- <-; done. Qed.

Lemma asoc_kept s : xs_asoc (set_xstate (Z.land (xs_state s) (0xffffffff - 0x01000000)) s) = xs_asoc s.
Proof. unfold xs_asoc. cbn [xs_state set_xstate]. by rewrite <- Z.land_assoc. Qed.

(** The frame a station sends for a packet. *)
Definition uplink_frame (key : option (list Z)) (da : list Z) (ty : Z) (payload iv : list Z) (prio seqnum : Z) : list Z :=
  let h := tx_hdr 0x100 (mybssid c) (myhwaddr c) da (bool_decide (is_Some key)) (c_qos_option x) prio seqnum in
  hdr_bytes h ++ sealed (ctx := ctx) mode key h iv (snap ty ++ payload).

Lemma sta_sends st i s key da ty payload a crc keys frag_len fuel pre rest addr base po : let pkt := packet da (myhwaddr c) ty payload in
  sta_ready get_sta c st i s -> stack_ok k -> length da = 6%nat -> bytes_ok da -> is_u16 ty -> bytes_ok payload -> eapol_room pkt ty -> tx_link c x s ty key ->
  zlen pkt < 2 ^ 16 -> zlen payload + 38 + overhead key <= frag_len < 2 ^ 31 ->
  zlen pre = addr + hw_hdr_offset po -> 64 <= zlen rest -> 34 + overhead key + zlen payload <= zlen rest ->
  exists at' st1 es iv prio seqnum len post am st2,
    update_attrib get_sta bmc c x k sc pwr_mode uapsd_tid uapsd_ap pkt a st = Ret (Some at', st1, es) /\
    rtw_xmitframe_coalesce get_sta c x (ctx := ctx) os_malloc (Some mem) a0 mode (S fuel) crc keys frag_len pkt (pre ++ rest) (Some addr) base po at' st1 =
      Ret (_SUCCESS, pre ++ uplink_frame key da ty payload iv prio seqnum ++ post, 1, len, am, st2, crc) /\
    len = zlen (uplink_frame key da ty payload iv prio seqnum) /\
    key_fits key iv /\ 0 <= prio < 8 /\ (c_qos_option x = false -> prio = 0) /\ 0 <= seqnum < 4096 /\
    (exists v, xs_txseq s !! Z.to_nat prio = Some v /\ seqnum = (v + 1) `mod` 4096).
Proof.
  intros pkt [(Hst & Hrole & Hmp) (Lh & Bh) (Lb & Bb & Hmb) (Hg & Hi & Has & Hsq)] Hk Ld Bd Ht Bp He Hlink Hl16 Hfrag Hpre Hr64 Hroom.
  destruct (packet_parts da (myhwaddr c) ty payload Ld Lh Ht) as (Pdrop & Pty & Pda & Psa & _). fold pkt in Pdrop, Pty, Pda, Psa.
  assert (zlen pkt = 14 + zlen payload) as Lpkt by (unfold pkt, packet; rewrite !zlen_app; unfold zlen; cbn [be16 length]; lia).
  pose proof (zlen_nonneg payload) as Hp0.
  assert (bytes_ok pkt) as Bpkt by (unfold pkt, packet; repeat (apply Forall_app; split); try done; by apply be16_ok).
  assert ((if is_ap c then x_ra a else if check_fwstate c WIFI_ADHOC_STATE || check_fwstate c WIFI_ADHOC_MASTER_STATE then take 6 pkt
            else if check_fwstate c WIFI_STATION_STATE then mybssid c else x_ra a) = mybssid c) as Era.
  { rewrite !(not_role c), Hst by done. assert (is_ap c = false) as ->; [|done]. unfold is_ap. change (Z.lor WIFI_AP_STATE WIFI_MESH_STATE) with (Z.land 0x270 0x210).
    by rewrite Z.land_assoc, Hrole. }
  destruct (update_attrib_total get_sta bmc c x k sc pwr_mode uapsd_tid uapsd_ap pkt a st ty i s Hk Bpkt) as (o & st1 & es & et & dn & Eu & Hnone & Hne); try done; [lia|lia|by rewrite Era, Hmb|].
  destruct o as [at'|].
  2:{ exfalso. rewrite Era in Hnone. destruct (link_some c x s (if dn then set_xstate (Z.land (xs_state s) (0xffffffff - 0x01000000)) s else s) ty key (mybssid c) et Hlink) as [w Hw].
      - destruct dn; [by right; eexists|by left].
      - done.
      - intros Hn. by apply Hne.
      - rewrite (proj1 Hnone eq_refl) in Hw. done. }
  assert (zlen pkt < 2 ^ 32) as Hl32 by lia.
  pose proof (update_attrib_inv _ _ _ _ _ _ _ _ _ _ _ _ _ _ _ Hl32 Eu) as Hat.
  pose proof (sta_plain pkt a st at' st1 Hk Bpkt ltac:(lia) Hrole Hat) as Hplain.
  destruct (sta_tx_addrs pkt da ty payload a st at' st1 eq_refl Ld Lh Ht Hk ltac:(lia) Hst Hrole Hat) as [Hty Hadr].
  destruct Hat as [_ [Hplen Hphl] Hsta (s' & s0 & s1 & et' & Hs' & _ & Hs0 & Hsec & -> & _) _].
  rewrite Hadr in Hsta, Hsec. cbn [x_ra] in Hsta, Hsec. rewrite Hmb, Hg in Hsta. injection Hsta as Hix. rewrite <- Hix in Hs'. rewrite Hi in Hs'. injection Hs' as <-.
  assert (bmcst at' = false) as Hbm by (unfold bmcst; by rewrite Hadr).
  assert (same_sec s s0) as Hss by (destruct Hs0 as [->| ->]; [by left|right; by eexists]).
  destruct (link_sec c x s s0 ty key et' at' s1 Hlink Hss Hmp Hbm) as (iv & Hseci & Hkf); [rewrite Hadr; by rewrite Hty in Hsec|].
  destruct (sec_keeps _ _ _ _ _ _ Hsec) as (K1 & K2 & K3).
  assert (xs_asoc s1 = true /\ seqs_ok s1 /\ xs_txseq s1 = xs_txseq s) as (Has1 & Hsq1 & Hts).
  { unfold xs_asoc, seqs_ok. rewrite K1, K2, K3. destruct Hs0 as [->| ->]; [done|]. split_and!; [|apply Hsq..|done]. exact (eq_trans (asoc_kept s) Has). }
  pose proof Hplain as (_ & Hpr & Hpr0 & _). set (prio := x_priority (x_hdr at')) in *.
  destruct (lookup_lt_is_Some_2 (xs_txseq s1) (Z.to_nat prio)) as [v Hv]; [destruct Hsq1 as [-> _]; lia|].
  destruct (next_seq_ok s1 prio (x_ampdu_en at') v Hsq1 ltac:(lia) Hv) as (am & s2 & Hn & _).
  set (seqnum := (v + 1) `mod` 4096) in *. assert (0 <= seqnum < 4096) as Hsn by (apply Z.mod_pos_bound; lia).
  assert (wlanhdr_addrs c x at' = Some (0x100, mybssid c, myhwaddr c, da, c_qos_option x)) as Hw by (unfold wlanhdr_addrs; by rewrite Hst, Hadr).
  pose proof Hplain as ([q Hh] & _). destruct (sec_is_sizes key iv at' Hseci) as (_ & _ & _ & _ & _ & Sov & _).
  pose proof (overhead_range key) as Hor.
  destruct (tx_hdr_ok 0x100 (mybssid c) (myhwaddr c) da (bool_decide (is_Some key)) (c_qos_option x) prio seqnum) as (Hhok & Hhl & _); try done; [by right; left|].
  destruct (coalesce_frame os_malloc mem a0 mode Hmalloc Hmem Ha0 get_sta c x key iv at' (<[x_psta at' := s1]> st) fuel crc keys frag_len pkt pre rest addr base po
    0x100 (mybssid c) (myhwaddr c) da (c_qos_option x) prio s1 seqnum am s2 payload) as (post & Ec); try done.
  - by right; left.
  - by rewrite Hadr, <- Hix.
  - rewrite <- Hix. apply list_lookup_insert_eq. by eapply lookup_lt_Some.
  - lia.
  - by rewrite Hty.
  - rewrite Hbm. unfold mpdu_room. rewrite Hh. cbn [x_hdrlen]. destruct (c_qos_option x); unfold WLAN_HDR_A3_QOS_LEN, WLAN_HDR_A3_LEN; lia.
  - rewrite Hhl, zlen_app, snap_len. destruct (c_qos_option x); lia.
  - rewrite Hty in Ec. eexists _, _, _, iv, prio, seqnum, _, post, am, _. split; [exact Eu|]. split; [exact Ec|]. split; [|split_and!; try done; try lia].
    + unfold uplink_frame. rewrite (zlen_app (hdr_bytes _)). destruct (sealed_facts mem mode Hmem key iv _ (snap ty ++ payload) Hkf Hhok) as (_ & -> & _); [|lia].
      by apply Forall_app; split; [apply snap_ok|].
    + rewrite <- Hts. by exists v.
Qed.
End Send.

(** ** The access point delivers *)

(** The same security on the side of the access point. *)
Inductive rx_link (c : config) (s : vsta) (peer : rx_peer) : option (list Z) -> Prop :=
| rx_open : PrivacyAlgrthm c = _NO_PRIVACY_ -> rx_link c s peer None
| rx_ccmp key kr : AuthAlgrthm c = dot11AuthAlgrthm_8021X -> v_privacy s = Mfp.ccmp_enc key -> key ++ kr = p_key peer -> rx_link c s peer (Some key).

Lemma rx_link_facts c s peer key iv enc : rx_link c s peer key -> key_fits key iv ->
  policy_ok c s (bool_decide (is_Some key)) /\ (exists kr, default [] key ++ kr = p_key peer) /\
  let cipher := if bool_decide (is_Some key) then GET_ENCRY_ALGO c (v_privacy s) false enc else 0 in
  (cipher, if bool_decide (is_Some key) then Mfp.ice_iv_len cipher else (0, 0)) = ((cipher_of key).1.1, ((cipher_of key).1.2, (cipher_of key).2)).
Proof.
  intros [P|k kr A V K] Hf.
  - rewrite bool_decide_false by (by intros [? ?]). split_and!; [by left|by exists (p_key peer)|done].
  - rewrite bool_decide_true by done. destruct Hf as (Hk & _). destruct (ccmp_key_len k Hk) as (_ & H0 & Hu).
    split_and!; [right; split; [done|]; rewrite V; unfold _NO_PRIVACY_; lia|by exists kr|].
    unfold GET_ENCRY_ALGO. rewrite A, V. cbn [Z.eqb Pos.eqb orb dot11AuthAlgrthm_8021X]. rewrite Hu, (Mfp.ccmp_ice k Hk). done.
Qed.

(** What [rtw_put_snap] writes is what [rtw_recv_llc_parse] removes. *)
Lemma snap_eth da sa ty payload : is_u16 ty -> eth_frame da sa (snap ty ++ payload) = packet da sa ty payload.
Proof.
  intros Ht. unfold eth_frame. assert (encapsulated (snap ty ++ payload) = true) as ->; [|unfold snap; by destruct (_ || _)].
  unfold encapsulated. rewrite (proj2 (Z.leb_le 8 _)) by (rewrite zlen_app, snap_len; pose proof (zlen_nonneg payload); lia). cbn [andb]. unfold snap.
  destruct ((ty =? 0x8137) || (ty =? 0x80f3)) eqn:E; [apply orb_true_r|].
  apply orb_false_iff in E as [E1%Z.eqb_neq E2%Z.eqb_neq].
  change (take 6 _) with rtw_rfc1042_header. rewrite bool_decide_true by done. cbn [andb].
  assert (take 2 (drop 6 (([0xaa; 0xaa; 0x03] ++ [0; 0; 0] ++ be16 ty) ++ payload)) = be16 ty) as -> by done.
  assert (forall v, is_u16 v -> ty <> v -> bool_decide (be16 ty = be16 v) = false) as Hne
    by (intros v Hv Hn; apply bool_decide_false; intros H; by apply be16_inj in H).
  rewrite (Hne ETH_P_AARP), (Hne ETH_P_IPX) by done. done.
Qed.

(** The frame with sequence number [s] is not held back by reordering: no block ack
    agreement is in force for its priority, or nothing waits and the frame is the next
    expected, or the first after the agreement. *)
Definition in_turn (rc : Reorder.reorder_ctrl) (s : Z) : Prop :=
  Reorder.enable rc = false \/
  Reorder.pending rc = [] /\ (Reorder.rec_abba_rsp_ack rc = true \/ Reorder.indicate_seq rc = 0xFFFF \/ Reorder.indicate_seq rc = s).

Lemma in_turn_reorder rc f : 0 <= Reorder.seq_num f < 4096 -> in_turn rc (Reorder.seq_num f) ->
  Reorder.recv_indicatepkt_reorder rc true f = (Reorder._SUCCESS, [], rc) \/
  exists rc', Reorder.recv_indicatepkt_reorder rc true f = (Reorder.RTW_RX_HANDLED, [f], rc').
Proof.
  intros Hs [He|[Hp Hi]]; unfold Reorder.recv_indicatepkt_reorder; [left; by rewrite He|].
  destruct (Reorder.enable rc); [right|by left]. cbn [negb orb].
  set (rc1 := if Reorder.rec_abba_rsp_ack rc then _ else _).
  assert (Reorder.pending rc1 = [] /\ (Reorder.indicate_seq rc1 = 0xFFFF \/ Reorder.indicate_seq rc1 = Reorder.seq_num f)) as [Hp1 Hi1].
  { unfold rc1. destruct (Reorder.rec_abba_rsp_ack rc); cbn; [by split; [|left]|]. split; [done|]. by destruct Hi as [|[|]]; [|left|right]. }
  clearbody rc1. set (s := Reorder.seq_num f) in *.
  assert (exists rc2, Reorder.check_indicate_seq rc1 s = (true, Reorder.set_iseq (Z.land (s + 1) 0xFFF) rc2) /\ Reorder.pending rc2 = []) as (rc2 & E & Hp2).
  { unfold Reorder.check_indicate_seq. set (rc2 := if _ =? 0xFFFF then _ else _).
    assert (Reorder.indicate_seq rc2 = s /\ Reorder.pending rc2 = []) as [E2 P2].
    { unfold rc2. destruct Hi1 as [E1|E1]; rewrite E1; [by rewrite Z.eqb_refl|]. by destruct (s =? 0xFFFF). }
    exists rc2. rewrite E2, Reorder.SN_LESS_mod, Z.sub_diag. unfold Reorder.SN_EQUAL. rewrite Z.eqb_refl. done. }
  rewrite E. cbn [negb]. unfold Reorder.enqueue_reorder_recvframe. cbn [Reorder.pending Reorder.set_iseq]. rewrite Hp2. cbn [Reorder.enqueue_walk negb].
  unfold Reorder.recv_indicatepkts_in_order. cbn [Reorder.pending Reorder.indicate_seq Reorder.set_iseq Reorder.set_pending Reorder.indicate_loop].
  fold s. rewrite Reorder.SN_LESS_mod, Reorder.land_FFF.
  assert (((s + 1) `mod` 4096 - s) `mod` 4096 = 1) as -> by (rewrite Zminus_mod_idemp_l; by replace (s + 1 - s) with 1 by lia).
  cbn [Z.leb Z.compare Pos.compare negb]. by eexists.
Qed.

(** Then its processing is all that happens. *)
Lemma posthandle_back_turn q f r rc w o : 0 <= f_seq_num f < 4096 -> (r_reorder r = true -> f_qos f = true /\ in_turn rc (f_seq_num f)) ->
  process q w = Ret o ->
  exists rc', posthandle_back q f r rc w = Ret (PostOut (status o) (status o =? _FAIL) false [o] rc') \/
    posthandle_back q f r rc w = Ret (PostOut Reorder.RTW_RX_HANDLED false false [o] rc').
Proof.
  intros Hs Ht Ho. unfold posthandle_back. destruct (r_reorder r).
  - destruct (Ht eq_refl) as [-> Hin].
    destruct (in_turn_reorder rc (Reorder.RFrame (Defrag.fid (h_frame w)) (f_seq_num f)) Hs Hin) as [-> | [rc' ->]];
      cbn [Z.eqb Pos.eqb Reorder._SUCCESS Reorder._FAIL Reorder.RTW_RX_HANDLED].
    + eexists. left. bind_step Ho. done.
    + exists rc'. right. cbn [process_all Reorder.rf_id]. rewrite Z.eqb_refl. bind_step Ho. done.
  - eexists. left. cbn [Z.eqb Pos.eqb Reorder._SUCCESS Reorder._FAIL Reorder.RTW_RX_HANDLED]. bind_step Ho. done.
Qed.

(** What the access point must make of a packet for [da] from [sa]. *)
Definition handed_on (indicate : Z) (host others : bool) (pkt : list Z) (ns : list note) : mpdu_out :=
  MpduOut (if host then indicate else if others then _SUCCESS else _FAIL)
    (RxOut (if host then [pkt] else []) (if others then [pkt] else []) ns) (negb host).

(** Processing a frame that carries the packet. *)
Lemma process_packet w free cr e indicate wait amsdu_mode priv ra ta da sa ty payload g pre icv :
  let q := RxSide (Some (w, free)) false indicate wait in
  let c := RxCtx amsdu_mode priv 1 ra ta in let m := snap ty ++ payload in
  let host := to_host w da in let others := to_others w (FwdRx 1 ra ta) (free (zlen pre)) da sa in
  cr = Ready c e false da sa g -> (forall n, 0 <= free n) -> env_ok e -> sa <> fw_addr w ->
  Defrag.data g = pre ++ m ++ icv -> zlen pre = Defrag.hdrlen g + Defrag.iv_len g -> 14 <= zlen pre ->
  zlen icv = (if Defrag.encrypt g =? 0 then 0 else Defrag.icv_len g) -> bytes_ok m -> zlen m < 2 ^ 16 -> zlen da = 6 -> zlen sa = 6 -> is_u16 ty ->
  exists ns, process q cr = Ret (handed_on indicate host others (packet da sa ty payload) ns).
Proof.
  intros q c m host others -> Hf He Hsa Hd Hp H14 Hi Bm Lm Ld Ls Ht. unfold process. cbn [h_ctx h_env h_amsdu h_dst h_src h_frame q q_ap q_cannot_run q_indicate].
  assert (decision (Some (w, free)) (FwdRx (to_fr_ds c) (Amsdu.ra c) (Amsdu.ta c)) (zlen pre) da sa = (if host then 1 else 0) + (if others then 2 else 0)) as Ea.
  { cbn [decision]. unfold ap_decision. by rewrite bool_decide_false by done. }
  clearbody host others. destruct (host || others) eqn:Eh.
  - rewrite (recv_process_mpdu_single c (Some (w, free)) e indicate da sa g pre m icv Hf He); try done.
    + rewrite Ea. exists (if host then looked_at e (Defrag.encrypt g) (packet da sa ty payload) (tail e) else []). unfold deliver1, handed_on. cbn [fst snd]. fold m. unfold m. rewrite (snap_eth da sa ty payload Ht).
      by destruct host, others.
    + rewrite Ea. by destruct host, others.
  - apply orb_false_iff in Eh as [-> ->]. exists [].
    by rewrite (recv_process_mpdu_refused c (Some (w, free)) e false indicate da sa g pre m icv Hf He Ea).
Qed.

Section Deliver.
Context {ctx : Type} `{!BlockCipher ctx}.
Context (os_malloc : Z -> option (list Z)) (mem a0 : list Z) (mode : Z).
Context (Hmalloc : mallocs os_malloc) (Hmem : length mem = 61%nat) (Ha0 : is_block a0).
Context (c : config) (x : xconfig).

(** The forwarding settings of the access point [c]. *)
Definition ap_of (get_sta : list Z -> option nat) (wifi_spec : bool) (c : config) (isolate : bool) (cnt : Z) (asoc : list fwd_sta) (b2u : Z) : fwd_cfg :=
  FwdCfg (myhwaddr c) isolate (fun a => bool_decide (is_Some (get_sta a))) cnt asoc b2u wifi_spec.

(** The packet is all that becomes of the frame, without or with the reordering buffer. *)
Definition delivered (p : post_out) (o : mpdu_out) : Prop :=
  po_done p = [o] /\ po_freed p = false /\
  (po_ret p = status o /\ po_drop p = (status o =? _FAIL) \/ po_ret p = Reorder.RTW_RX_HANDLED /\ po_drop p = false).

Lemma ap_delivers key da ty payload iv prio seqnum get_sta bmc wifi_spec hiq_filter c' mgnt dprio enc v0 rst j s' peer crc s HZ now ms id room
    isolate cnt asoc b2u free indicate wait e amsdu_mode rc :
  let F := uplink_frame (ctx := ctx) mode c x key da ty payload iv prio seqnum in
  let w := ap_of get_sta wifi_spec c' isolate cnt asoc b2u in
  length (myhwaddr c) = 6%nat -> bytes_ok (myhwaddr c) -> length (mybssid c) = 6%nat -> bytes_ok (mybssid c) -> Ps.mcast (mybssid c) = false ->
  length da = 6%nat -> bytes_ok da -> is_u16 ty -> bytes_ok payload -> zlen payload < 2 ^ 16 - 64 -> key_fits key iv -> 0 <= prio < 8 -> (c_qos_option x = false -> prio = 0) -> 0 <= seqnum < 4096 ->
  ap_ready get_sta bmc c' rst (myhwaddr c) j s' -> fresh_seq s' (c_qos_option x) prio seqnum -> rx_link c' s' peer key -> p_blocked peer = false ->
  myhwaddr c <> myhwaddr c' -> in_turn rc seqnum -> (forall n, 0 <= free n) -> env_ok e ->
  exists f r rst' sec' p ns, parse_fc F = Ret f /\
    validate_recv_frame get_sta bmc wifi_spec hiq_filter c' mgnt dprio enc F v0 rst = Ret (_SUCCESS, Some r, rst') /\
    recv_func_posthandle (ctx := ctx) os_malloc (Some mem) a0 mode c' amsdu_mode (RxSide (Some (w, free)) false indicate wait) e crc s HZ now ms peer id room false f r F rc =
      Ret (p, sec', crc, ms, Some (p_defrag peer)) /\
    delivered p (handed_on indicate (to_host w da) (to_others w (FwdRx 1 (mybssid c) (myhwaddr c)) (free (r_hdrlen r + r_iv_len r)) da (myhwaddr c))
      (packet da (myhwaddr c) ty payload) ns).
Proof.
  intros F w Lh Bh Lb Bb Hmb Ld Bd Ht Bp Hp16 Hkf Hpr Hpr0 Hsn Ar Hfr Hl Hbl Hown Hturn Hfree Henv.
  destruct (rx_link_facts c' s' peer key iv enc Hl Hkf) as (Hpol & Hkr & Hci). cbn zeta in Hci.
  destruct (tx_hdr_ok 0x100 (mybssid c) (myhwaddr c) da (bool_decide (is_Some key)) (c_qos_option x) prio seqnum) as (Hhok & Hhl & _); try done; [by right; left|].
  set (h := tx_hdr _ _ _ _ _ _ _ _) in *. set (m := snap ty ++ payload).
  assert (bytes_ok m) as Bm by (apply Forall_app; split; [by apply snap_ok|done]).
  assert (zlen m = 8 + zlen payload) as Lm by (unfold m; rewrite zlen_app, snap_len; lia). pose proof (zlen_nonneg payload).
  destruct (sealed_facts mem mode Hmem key iv h m Hkf Hhok Bm) as (Bsl & Lsl & Lmic & Liv).
  assert (overhead key = (cipher_of key).1.2 + (cipher_of key).2 /\ 0 <= (cipher_of key).2) as [Hov Hic] by (destruct key as [key|]; cbn; lia).
  injection Hci as Hc1 Hc2.
  destruct (ap_accepts get_sta bmc wifi_spec hiq_filter c' (mybssid c) (myhwaddr c) da (bool_decide (is_Some key)) (c_qos_option x) prio seqnum (sealed mode key h iv m)
    Lb Lh Ld Bb Bh Bd Hpr Hsn Hpr0 mgnt dprio enc v0 rst j s' Ar Hmb Hfr Hpol Bsl) as (f & rst' & Ef & Fp & Fm & Fn & Ft & Fq & Fs & Ev).
  { rewrite Hc2. cbn [fst]. lia. }
  rewrite Hc2 in Ev. rewrite Hc1 in Ev. cbn [fst snd] in Ev. fold h in Ef, Ev.
  destruct (front_ok os_malloc mem a0 mode Hmalloc Hmem Ha0 key iv h m crc s HZ now ms (AuthAlgrthm c') peer id room f
    (RxOk j (Addrs (mybssid c) (myhwaddr c) da (myhwaddr c) (mybssid c)) false prio 0 (zlen (hdr_bytes h)) (cipher_of key).1.1 (cipher_of key).1.2 (cipher_of key).2 (c_qos_option x)))
    as (g & sec' & Eg & Gd & Gh & Gc); try done; [by destruct (cipher_of key) as [[? ?] ?]|rewrite Hhl, Lm; destruct (c_qos_option x); lia|].
  rewrite (surjective_pairing (cipher_of key)), (surjective_pairing (cipher_of key).1) in Gc. injection Gc as Ge Gi Gic.
  destruct (process_packet w free (Ready (RxCtx amsdu_mode (PrivacyAlgrthm c') 1 (mybssid c) (myhwaddr c)) e false da (myhwaddr c) g) e indicate wait amsdu_mode (PrivacyAlgrthm c')
    (mybssid c) (myhwaddr c) da (myhwaddr c) ty payload g (hdr_bytes h ++ iv) (mic_of mode key h iv m)) as (ns & Ho); try done.
  - rewrite Gd. by rewrite <- app_assoc.
  - by rewrite zlen_app, Gh, Gi, Liv.
  - rewrite zlen_app, Hhl. pose proof (zlen_nonneg iv). destruct (c_qos_option x); lia.
  - rewrite Lmic, Ge, Gic. destruct key as [key|]; [|done]. cbn [cipher_of fst snd]. destruct Hkf as (Hk & _). destruct (ccmp_key_len key Hk) as (_ & H0 & _). rewrite (proj2 (Z.eqb_neq _ 0)) by lia. done.
  - fold m. lia.
  - unfold zlen. lia.
  - unfold zlen. lia.
  - destruct (posthandle_back_turn (RxSide (Some (w, free)) false indicate wait) f
      (RxOk j (Addrs (mybssid c) (myhwaddr c) da (myhwaddr c) (mybssid c)) false prio 0 (zlen (hdr_bytes h)) (cipher_of key).1.1 (cipher_of key).1.2 (cipher_of key).2 (c_qos_option x))
      rc _ _ ltac:(by rewrite Fs) ltac:(cbn [r_reorder]; by rewrite Fq, Fs) Ho) as (rc' & Hb).
    enough (forall p, posthandle_back (RxSide (Some (w, free)) false indicate wait) f
        (RxOk j (Addrs (mybssid c) (myhwaddr c) da (myhwaddr c) (mybssid c)) false prio 0 (zlen (hdr_bytes h)) (cipher_of key).1.1 (cipher_of key).1.2 (cipher_of key).2 (c_qos_option x))
        rc (Ready (RxCtx amsdu_mode (PrivacyAlgrthm c') 1 (mybssid c) (myhwaddr c)) e false da (myhwaddr c) g) = Ret p ->
      recv_func_posthandle (ctx := ctx) os_malloc (Some mem) a0 mode c' amsdu_mode (RxSide (Some (w, free)) false indicate wait) e crc s HZ now ms peer id room false f
        (RxOk j (Addrs (mybssid c) (myhwaddr c) da (myhwaddr c) (mybssid c)) false prio 0 (zlen (hdr_bytes h)) (cipher_of key).1.1 (cipher_of key).1.2 (cipher_of key).2 (c_qos_option x)) F rc =
      Ret (p, sec', crc, ms, Some (p_defrag peer))) as Hpost.
    { rewrite zlen_app, Liv in Hb.
      destruct Hb as [Hb|Hb]; eexists f, _, rst', sec', _, ns; (split; [exact Ef|]); (split; [exact Ev|]); (split; [apply Hpost; exact Hb|]);
        (split; [done|]); (split; [done|]); [by left|by right]. }
    intros p Hpb. unfold recv_func_posthandle. bind_step Eg. rewrite Ft. cbn [r_addrs r_amsdu v_ra v_ta v_dst v_src]. bind_step Hpb. done.
Qed.
End Deliver.

(** ** From station to access point *)

(** A packet of the network stack. *)
Record packet_ok (da : list Z) (ty : Z) (payload : list Z) : Prop := {
  po_da : length da = 6%nat /\ bytes_ok da; po_ty : is_u16 ty; po_payload : bytes_ok payload; po_len : zlen payload < 2 ^ 16 - 64 }.

(** C16: Round trip of the data path: a packet that an associated station accepts for
    transmission, in an open network (an EAPOL packet with a whole key message there) or,
    EAPOL excepted and with its port open, with CCMP (16 or 32 octet key) in software, and
    that fits one fragment and the transmit buffer is written as one frame
    behind the hardware header, with the next sequence number of its priority (memory can
    be allocated).  An access point that is running, with another address and the same key
    for this station, receives this frame as it went out, not decrypted by hardware, in
    whatever state of its other stations and of power save.  It has not received the same sequence number
    last, the port of the station is not blocked, reordering does not hold the frame back
    (no block ack agreement for the priority is in force, or nothing waits and the frame
    is the next expected or the first), and 99 octets can be read behind the frame.  Then
    it validates, decrypts and processes the frame, and what comes out is the packet of
    the station octet by octet: to its own network stack if the packet is for itself, for
    a group or for an unknown address, and to the forwarding path if it is not for itself,
    stations are not isolated, another station is associated and a transmit frame is free
    (for a group frame copied to the stations: if there is a station to copy it to). *)
Theorem uplink_delivery {ctx : Type} `{!BlockCipher ctx} os_malloc mem a0 mode get_sta bmc c x k sc pwr_mode uapsd_tid uapsd_ap st i s key da ty payload a crc keys frag_len fuel
    pre rest addr base po :
  let pkt := packet da (myhwaddr c) ty payload in
  mallocs os_malloc -> length mem = 61%nat -> is_block a0 ->
  sta_ready get_sta c st i s -> stack_ok k -> packet_ok da ty payload -> eapol_room pkt ty -> tx_link c x s ty key ->
  zlen payload + 38 + overhead key <= frag_len < 2 ^ 31 ->
  zlen pre = addr + hw_hdr_offset po -> 64 <= zlen rest -> 34 + overhead key + zlen payload <= zlen rest ->
  exists at' st1 es F prio seqnum post am st2,
    update_attrib get_sta bmc c x k sc pwr_mode uapsd_tid uapsd_ap pkt a st = Ret (Some at', st1, es) /\
    rtw_xmitframe_coalesce get_sta c x (ctx := ctx) os_malloc (Some mem) a0 mode (S fuel) crc keys frag_len pkt (pre ++ rest) (Some addr) base po at' st1 =
      Ret (_SUCCESS, pre ++ F ++ post, 1, zlen F, am, st2, crc) /\
    0 <= prio < 8 /\ (exists v, xs_txseq s !! Z.to_nat prio = Some v /\ seqnum = (v + 1) `mod` 4096) /\
    forall get_sta' bmc' wifi_spec hiq_filter c' mgnt dprio enc v0 rst j s' peer crc' sec HZ now ms id room isolate cnt asoc b2u free indicate wait e amsdu_mode rc,
      let w := ap_of get_sta' wifi_spec c' isolate cnt asoc b2u in
      ap_ready get_sta' bmc' c' rst (myhwaddr c) j s' -> fresh_seq s' (c_qos_option x) prio seqnum -> rx_link c' s' peer key -> p_blocked peer = false ->
      myhwaddr c <> myhwaddr c' -> in_turn rc seqnum -> (forall n, 0 <= free n) -> env_ok e ->
      exists f r rst' sec' p ns, parse_fc F = Ret f /\
        validate_recv_frame get_sta' bmc' wifi_spec hiq_filter c' mgnt dprio enc F v0 rst = Ret (_SUCCESS, Some r, rst') /\
        recv_func_posthandle (ctx := ctx) os_malloc (Some mem) a0 mode c' amsdu_mode (RxSide (Some (w, free)) false indicate wait) e crc' sec HZ now ms peer id room false f r F rc =
          Ret (p, sec', crc', ms, Some (p_defrag peer)) /\
        delivered p (handed_on indicate (to_host w da) (to_others w (FwdRx 1 (mybssid c) (myhwaddr c)) (free (r_hdrlen r + r_iv_len r)) da (myhwaddr c)) pkt ns).
Proof.
  intros pkt Hmalloc Hmem Ha0 Hr Hk [[Ld Bd] Ht Bp Lp] He Hl Hfrag Hpre Hr64 Hroom.
  assert (zlen pkt < 2 ^ 16) as Hp16.
  { destruct Hr as [_ (Lh & _) _ _]. unfold pkt, packet. rewrite !zlen_app. unfold zlen in *. cbn [be16 length]. lia. }
  destruct (sta_sends os_malloc mem a0 mode Hmalloc Hmem Ha0 get_sta bmc c x k sc pwr_mode uapsd_tid uapsd_ap st i s key da ty payload a crc keys frag_len fuel pre rest addr base po)
    as (at' & st1 & es & iv & prio & seqnum & len & post & am & st2 & Eu & Ec & -> & Hkf & Hpr & Hpr0 & Hsn & Hv); try done.
  eexists at', st1, es, _, prio, seqnum, post, am, st2. split; [exact Eu|]. split; [exact Ec|]. split; [exact Hpr|]. split; [exact Hv|].
  destruct Hr as [_ (Lh & Bh) (Lb & Bb & Hmb) _]. intros. apply ap_delivers with (s' := s') (j := j); done.
Qed.

(** ** Witness: CCMP with a 16 octet key *)

Definition ex_key : list Z := map Z.of_nat (seq 1 16).
Definition ex_ctx_rest : list Z := map Z.of_nat (seq 17 16).
Definition ex_vsta4 : vsta := VSta 0 4 (Decache.StaRecv (replicate 16 0xffff) (replicate 16 0xffff) 0xffff 0xffff 0) (replicate 16 0) 0.
Definition ex_vstate4 : vstate := VState (replicate 3 ex_vsta4) PsRun.ex_start (replicate 4 0) [] [] 0 0.
Definition ex_peer : rx_peer := RxPeer (ex_key ++ ex_ctx_rest) (replicate 16 0) [] 0 false.
Definition ex_mic : Defrag.mic_sec := Defrag.MicSec [] false false 0 (Tkip.Countermeasure false 0 0).
Definition ex_da : list Z := [2; 0; 0; 0; 0; 7].

Lemma ex_ap_ready : ap_ready PsRun.ex_table (Some 0%nat) (ex_ap 2) ex_vstate4 sta_addr 1 ex_vsta4.
Proof.
  destruct PsRun.ex_start_ok as (I & Br & _). split; [done|done|split_and!; [exact I|exact Br|by_eval]| |].
  - split; [done|]. split; [done|]. by eexists.
  - split; [done|]. split; [repeat constructor|done].
Qed.

(** Reordering is in force and the next frame expected is number 1. *)
Definition ex_ctrl : Reorder.reorder_ctrl := Reorder.ReorderCtrl true 1 64 [] false false false (Reorder.RxStats 0 0 0 0 0).
Definition ex_side (da : list Z) : rx_side :=
  RxSide (Some (ap_of PsRun.ex_table false (ex_ap 2) false 2 [FwdSta sta_addr true; FwdSta da true] 8, fun _ => 200)) false 1 (fun _ => None).

Lemma uplink_delivery_witness : exists at' st1 es F post am st2,
    update_attrib ex_to_ap None (ex_sta 2) ex_xcfg (ex_stack 0) ex_rules 0 0 false (packet ex_da sta_addr 0x0806 (replicate 28 7)) no_addr_attr [ex_xsta 4] = Ret (Some at', st1, es) /\
    rtw_xmitframe_coalesce ex_to_ap (ex_sta 2) ex_xcfg (ctx := list Z) zalloc (Some (replicate 61 0)) (replicate 16 0) 0 3 Mfp.sample_crc (TxKeys [] [] [] 0) 2346
      (packet ex_da sta_addr 0x0806 (replicate 28 7)) (replicate 48 0 ++ replicate 200 0) (Some 0) 0 0 at' st1 =
      Ret (_SUCCESS, replicate 48 0 ++ F ++ post, 1, zlen F, am, st2, Mfp.sample_crc) /\
    exists f r rst' sec' p ns, parse_fc F = Ret f /\
      validate_recv_frame PsRun.ex_table (Some 0%nat) false 0 (ex_ap 2) (fun v => Ret v) 0 4 F no_addrs ex_vstate4 = Ret (_SUCCESS, Some r, rst') /\
      recv_func_posthandle (ctx := list Z) zalloc (Some (replicate 61 0)) (replicate 16 0) 0 (ex_ap 2) 0 (ex_side ex_da) ex_env Mfp.sample_crc Mfp.sample_sec 100 0 ex_mic ex_peer 0 9 false f r F ex_ctrl =
        Ret (p, sec', Mfp.sample_crc, ex_mic, Some []) /\
      delivered p (MpduOut 1 (RxOut [packet ex_da sta_addr 0x0806 (replicate 28 7)] [packet ex_da sta_addr 0x0806 (replicate 28 7)] ns) false).
Proof.
  destruct (uplink_delivery zalloc (replicate 61 0) (replicate 16 0) 0 ex_to_ap None (ex_sta 2) ex_xcfg (ex_stack 0) ex_rules 0 0 false [ex_xsta 4] 0 (ex_xsta 4) (Some ex_key)
    ex_da 0x0806 (replicate 28 7) no_addr_attr Mfp.sample_crc (TxKeys [] [] [] 0) 2346 2 (replicate 48 0) (replicate 200 0) 0 0 0)
    as (at' & st1 & es & F & prio & seqnum & post & am & st2 & Eu & Ec & Hpr & (v & Hv & ->) & Hrx);
    [exact zalloc_ok|reflexivity|by_eval|..].
  - split; [done|split; [done|by_eval]|split_and!; [done|by_eval|done]|split_and!; [done|done|done|]]. split_and!; by_eval.
  - split; by_eval.
  - split; [split; [done|by_eval]|by_eval|by_eval|by_eval].
  - intros [=].
  - apply (tx_ccmp _ _ _ _ ex_key ex_ctx_rest); try done. split; [by_eval|by left].
  - by_eval.
  - by_eval.
  - by_eval.
  - by_eval.
  - exists at', st1, es, F, post, am, st2. split; [exact Eu|]. split; [exact Ec|].
    change (xs_txseq (ex_xsta 4)) with (replicate 16 0) in Hv. apply lookup_replicate in Hv as [-> _].
    destruct (Hrx PsRun.ex_table (Some 0%nat) false 0 (ex_ap 2) (fun v => Ret v) 0 4 no_addrs ex_vstate4 1%nat ex_vsta4 ex_peer Mfp.sample_crc Mfp.sample_sec 100 0 ex_mic 0 9
      false 2 [FwdSta sta_addr true; FwdSta ex_da true] 8 (fun _ => 200) 1 (fun _ => None) ex_env 0 ex_ctrl) as (f & r & rst' & sec' & p & ns & E1 & E2 & E3 & E4);
      [exact ex_ap_ready| | |reflexivity|by intros [=]|by right; split; [|right; right]|by intros|exact ex_env_ok|].
    + assert (prio = 0 \/ prio = 1 \/ prio = 2 \/ prio = 3 \/ prio = 4 \/ prio = 5 \/ prio = 6 \/ prio = 7) as Hp by lia.
      destruct Hp as [->|[->|[->|[->|[->|[->|[-> | ->]]]]]]]; discriminate.
    + apply (rx_ccmp _ _ _ ex_key ex_ctx_rest); done.
    + exists f, r, rst', sec', p, ns. split_and!; [exact E1|exact E2|exact E3|exact E4].
Defined.
End Path.
