(* ===== verification/Table.v ===== *)
(** * The station table as an interface

    What the handlers of an access point ([Auth], [Assoc]) rely on of
    [core/rtw_sta_mgt.c]: the class [StaTable] has the operations and, as laws on a
    finite map from addresses to stations, what they promise; the instance is the
    code as modelled in [Sta].  To the refinement that [Sta] proves the laws add the
    authentication list and the association ids: no two stations of the table have
    the same id. *)
From stdpp Require Import gmap.
From S2P Require Import Prelude Cam Macid Sta.

Module Table.
Import Cam Macid Sta.

(** A unicast address. *)
Definition is_unicast (a : list Z) : Prop := is_mac a /\ IS_MCAST a = Ret false.

Class StaTable (T : Type) := {
  (** [rtw_get_stainfo], [rtw_alloc_stainfo], [rtw_free_stainfo], [rtw_aid_alloc] *)
  tb_get : T -> list Z -> res (option nat);
  tb_alloc : T -> list Z -> res (option nat * T);
  tb_free : T -> nat -> res T;
  tb_aid_alloc : T -> nat -> res (Z * T);
  (** [psta->cmn.aid], the authentication list, the stations of the hash table *)
  tb_aid : T -> nat -> Z;
  tb_auth : T -> list nat;
  tb_set_auth : list nat -> Z -> T -> T;
  tb_auth_cnt : T -> Z;
  tb_members : T -> list nat;
  (** what they promise *)
  tb_inv : T -> Prop;
  tb_map : T -> gmap (list Z) nat;
  tb_members_map t i : tb_inv t -> i ∈ tb_members t <-> exists a, tb_map t !! a = Some i;
  tb_map_inj t a b i : tb_inv t -> tb_map t !! a = Some i -> tb_map t !! b = Some i -> a = b;
  tb_lt t a i : tb_inv t -> tb_map t !! a = Some i -> (i < 32)%nat;
  tb_get_ok t a mc : tb_inv t -> is_mac a -> IS_MCAST a = Ret mc -> tb_get t a = Ret (tb_map t !! if mc : bool then bc_addr else a);
  tb_alloc_ok t a : tb_inv t -> is_unicast a -> tb_map t !! a = None ->
    tb_alloc t a = Ret (None, t) \/
    exists i t', tb_alloc t a = Ret (Some i, t') /\ tb_inv t' /\ tb_map t' = <[a := i]> (tb_map t) /\ (forall b, tb_map t !! b <> Some i) /\
      tb_aid t' i = 0 /\ (forall j, j <> i -> tb_aid t' j = tb_aid t j) /\ tb_auth t' = tb_auth t /\ tb_auth_cnt t' = tb_auth_cnt t;
  tb_free_ok t a i : tb_inv t -> tb_map t !! a = Some i ->
    exists t', tb_free t i = Ret t' /\ tb_inv t' /\ tb_map t' = delete a (tb_map t) /\ (forall j, j <> i -> tb_aid t' j = tb_aid t j) /\
      tb_auth t' = filter (fun j => j <> i) (tb_auth t) /\ tb_auth_cnt t' = (if bool_decide (i ∈ tb_auth t) then u8 (tb_auth_cnt t - 1) else tb_auth_cnt t);
  tb_aid_alloc_ok t a i : tb_inv t -> tb_map t !! a = Some i -> tb_aid t i = 0 ->
    exists k t', tb_aid_alloc t i = Ret (k, t') /\ tb_inv t' /\ tb_map t' = tb_map t /\ tb_aid t' i = k /\ (forall j, j <> i -> tb_aid t' j = tb_aid t j) /\
      tb_auth t' = tb_auth t /\ tb_auth_cnt t' = tb_auth_cnt t /\ 0 <= k /\ (forall b j, tb_map t !! b = Some j -> j <> i -> 0 < k -> tb_aid t j <> k);
  tb_set_auth_ok l n t : tb_inv t -> tb_inv (tb_set_auth l n t) /\ tb_map (tb_set_auth l n t) = tb_map t /\ tb_auth (tb_set_auth l n t) = l /\
    tb_auth_cnt (tb_set_auth l n t) = n /\ forall j, tb_aid (tb_set_auth l n t) j = tb_aid t j }.

(** ** The code as an instance *)

Record table_st := TableSt { t_sta : sta_priv; t_macid : macid_ctl; t_cam : cam_state; t_adapter : adapter }.

Definition aid_at (st : sta_priv) (i : nat) : Z := default 0 (aid <$> pool st !! i).

(** Every id that a station of the table has is noted for it. *)
Record aids_inv (st : sta_priv) : Prop := {
  ai_ok : aid_ok st;
  ai_noted : forall i, i ∈ hashed st -> 0 < aid_at st i -> sta_aid st !! Z.to_nat (aid_at st i - 1) = Some (Some i) }.

(** *** The fields an operation leaves alone *)

Lemma alloc_fields st m c a addr s st' m' c' : rtw_alloc_stainfo st m c a addr = Ret (Some s, st', m', c') ->
  exists id, pool st' = <[s := fresh_sta addr id]> (pool st) /\ (s < length (pool st))%nat /\ sta_aid st' = sta_aid st /\ auth_list st' = auth_list st /\ auth_list_cnt st' = auth_list_cnt st /\
    max_aid st' = max_aid st /\ max_num_sta st' = max_num_sta st /\ started_aid st' = started_aid st.
Proof.
  unfold rtw_alloc_stainfo. destruct (free_q st) as [|s0 fq]; [done|]. intros (i & _ & H)%bind_inv.
  destruct (NUM_STA <=? i); [by apply bind_inv in H as (? & _ & [=])|].
  apply bind_inv in H as (ch & _ & H). apply bind_inv in H as (h & _ & H). apply bind_inv in H as ([[id m1] c1] & _ & H).
  apply bind_inv in H as (p & Hp & H). injection H as <- <- <- <-. exists id.
  assert (s0 < length (pool st))%nat as Hl.
  { unfold wr in Hp. destruct (_ && _) eqn:E; [|done]. invbool. unfold zlen in *. lia. }
  rewrite wr_nat in Hp by done. injection Hp as <-. cbn. by split_and!.
Qed.

Lemma free_fields st m c a ap s x st' m' c' rx tx : pool st !! s = Some x -> rtw_free_stainfo st m c a ap s = Ret (st', m', c', rx, tx) ->
  exists x', pool st' = <[s := x']> (pool st) /\ auth_list st' = filter (fun y => y <> s) (auth_list st) /\
    auth_list_cnt st' = (if bool_decide (s ∈ auth_list st) then u8 (auth_list_cnt st - 1) else auth_list_cnt st) /\
    max_aid st' = max_aid st /\ max_num_sta st' = max_num_sta st /\ started_aid st' = started_aid st /\
    (sta_aid st' = sta_aid st \/ exists k, 0 <= k /\ sta_aid st !! Z.to_nat k = Some (Some s) /\ sta_aid st' = <[Z.to_nat k := None]> (sta_aid st)).
Proof.
  intros Hx. unfold rtw_free_stainfo. rewrite (bind_Ret _ _ x) by (by apply rd_nat). intros ([[id m1] c1] & _ & H)%bind_inv.
  match type of H with context [if bool_decide (s ∈ auth_list ?t) then ?p else ?q] =>
    set (st1 := if bool_decide (s ∈ auth_list t) then p else q) in H end.
  assert (pool st1 = pool st /\ sta_aid st1 = sta_aid st /\ auth_list st1 = filter (fun y => y <> s) (auth_list st) /\
    auth_list_cnt st1 = (if bool_decide (s ∈ auth_list st) then u8 (auth_list_cnt st - 1) else auth_list_cnt st) /\
    max_aid st1 = max_aid st /\ max_num_sta st1 = max_num_sta st /\ started_aid st1 = started_aid st) as (P1 & P2 & P3 & P4 & P5 & P6 & P7).
  { unfold st1. cbn [auth_list set_table]. case_bool_decide as Hin; cbn; split_and!; try done. symmetry. apply filter_all. by intros y Hy ->. }
  clearbody st1. apply bind_inv in H as ([aid' st2] & Ha & H). apply bind_inv in H as (p & Hp & H). injection H as <- _ _ _ _.
  assert (exists l dz tim, st2 = set_aids l (started_aid st1) dz tim st1 /\
    (l = sta_aid st \/ exists k, 0 <= k /\ sta_aid st !! Z.to_nat k = Some (Some s) /\ l = <[Z.to_nat k := None]> (sta_aid st))) as (l & dz & tim & -> & Hl).
  { destruct ap.
    - unfold free_aid in Ha. apply bind_inv in Ha as (dz & _ & Ha). apply bind_inv in Ha as (tim & _ & Ha). rewrite P2 in Ha.
      destruct (0 <? aid x) eqn:E0; [|injection Ha as _ <-; eexists _, _, _; split; [done|by left]].
      apply bind_inv in Ha as (o & Ho & Ha). destruct (bool_decide (o = Some s)) eqn:Hs; [apply bool_decide_eq_true in Hs|injection Ha as _ <-; eexists _, _, _; split; [done|by left]].
      apply bind_inv in Ha as (l & Hl & Ha). injection Ha as _ <-. eexists _, _, _. split; [done|]. right. subst o.
      pose proof (rd_Ret_lt _ _ _ Ho) as Hlt. apply rd_Ret in Ho as [Hr Ho]. exists (aid x - 1). split; [lia|]. split; [exact Ho|]. rewrite wr_Ret in Hl by lia. by injection Hl.
    - injection Ha as _ <-. exists (sta_aid st1), (sta_dz_bitmap st1), (tim_bitmap st1). split; [by destruct st1|]. left. exact P2. }
  rewrite wr_nat in Hp by (cbn; rewrite P1; by eapply lookup_lt_Some). injection Hp as <-. eexists. cbn. rewrite P1. by split_and!.
Qed.

Lemma aid_fields st s x k st' : pool st !! s = Some x -> rtw_aid_alloc st s = Ret (k, st') ->
  exists x', pool st' = <[s := x']> (pool st) /\ sta_mac x' = sta_mac x /\ sta_macid x' = sta_macid x /\ aid x' = k /\ free_q st' = free_q st /\ sta_hash st' = sta_hash st /\ asoc_sta_count st' = asoc_sta_count st /\
    auth_list st' = auth_list st /\ auth_list_cnt st' = auth_list_cnt st /\ max_aid st' = max_aid st /\ max_num_sta st' = max_num_sta st /\
    (started_aid st' = started_aid st \/ started_aid st' = k `mod` max_aid st + 1) /\ tim_bitmap st' = tim_bitmap st /\ sta_dz_bitmap st' = sta_dz_bitmap st.
Proof.
  intros Hx. unfold rtw_aid_alloc. intros ([[a0 i0] u0] & _ & H)%bind_inv. rewrite (bind_Ret _ _ x) in H by (by apply rd_nat).
  set (k0 := if _ || _ then 0 else a0) in H. rewrite wr_nat in H by (by eapply lookup_lt_Some). simp_res in H.
  destruct (negb (k0 =? 0)).
  - apply bind_inv in H as (l & _ & H). injection H as <- <-. eexists. cbn. split_and!; try done. destruct (rr_aid st); [by right|by left].
  - injection H as <- <-. eexists. cbn. split_and!; try done. by left.
Qed.

(** *** The laws *)

Lemma aid_at_insert st st' s x' j : pool st' = <[s := x']> (pool st) -> j <> s -> aid_at st' j = aid_at st j.
Proof. intros E Hj. unfold aid_at. by rewrite E, list_lookup_insert_ne by done. Qed.

Lemma mac_of_insert st st' s x x' j : pool st !! s = Some x -> pool st' = <[s := x']> (pool st) -> sta_mac x' = sta_mac x -> mac_of st' j = mac_of st j.
Proof.
  intros Hx E Hm. unfold mac_of. rewrite E. destruct (decide (j = s)) as [->|Hj]; [|by rewrite list_lookup_insert_ne].
  rewrite list_lookup_insert_eq, Hx by (by eapply lookup_lt_Some). cbn. done.
Qed.

Lemma alloc_law st m c a addr : sta_inv st -> macid_inv m a -> aids_inv st -> is_mac addr -> table st !! addr = None ->
  rtw_alloc_stainfo st m c a addr = Ret (None, st, m, c) \/
  exists s st' m' c', rtw_alloc_stainfo st m c a addr = Ret (Some s, st', m', c') /\ sta_inv st' /\ macid_inv m' a /\ aids_inv st' /\ table st' = <[addr := s]> (table st) /\
    (forall b, table st !! b <> Some s) /\ aid_at st' s = 0 /\ (forall j, j <> s -> aid_at st' j = aid_at st j) /\ auth_list st' = auth_list st /\ auth_list_cnt st' = auth_list_cnt st.
Proof.
  intros Hi Hm [Ho Hn] Ha Hf. destruct (alloc_table st m c a addr Hi Hm Ha Hf) as [[_ E]|(s & st' & m' & c' & E & Hi' & Hm' & Ht & Hs)]; [by left|right].
  destruct (alloc_fields _ _ _ _ _ _ _ _ _ E) as (id & Ep & Hl & Ea & El & Ec & E1 & E2 & E3).
  assert (aid_at st' s = 0) as H0 by (unfold aid_at; by rewrite Ep, list_lookup_insert_eq).
  assert (forall j, j <> s -> aid_at st' j = aid_at st j) as Hk by (intros j Hj; by eapply aid_at_insert).
  assert (aids_inv st') as Hai.
  { split; [split; rewrite ?E1, ?E2, ?E3, ?Ea; apply Ho|]. intros j Hj Hp. destruct (decide (j = s)) as [->|Hjs]; [lia|]. rewrite (Hk j Hjs) in *. rewrite Ea. apply Hn; [|done].
    assert (table st' !! mac_of st' j = Some j) as Hjt by (by apply (table_lookup st' [])). rewrite Ht in Hjt.
    apply lookup_insert_Some in Hjt as [[_ ->]|[_ Hjt]]; [done|]. by apply (table_lookup st []) in Hjt as [? _]. }
  exists s, st', m', c'. split_and!; try done. intros b Hb. apply (table_lookup st []) in Hb as [? _]; done.
Qed.

Lemma free_law st m c a addr s : sta_inv st -> macid_inv m a -> aids_inv st -> table st !! addr = Some s ->
  exists st' m' c' rx tx, rtw_free_stainfo st m c a true s = Ret (st', m', c', rx, tx) /\ sta_inv st' /\ macid_inv m' a /\ aids_inv st' /\ table st' = delete addr (table st) /\
    (forall j, j <> s -> aid_at st' j = aid_at st j) /\ auth_list st' = filter (fun j => j <> s) (auth_list st) /\
    auth_list_cnt st' = (if bool_decide (s ∈ auth_list st) then u8 (auth_list_cnt st - 1) else auth_list_cnt st).
Proof.
  intros Hi Hm [Ho Hn] Hs. apply (table_lookup st [] addr s Hi) in Hs as [Hs Em]. destruct (unhash_mid st s Hi Hs) as [Hi1 T1].
  destruct (free_mid _ m c a true s [] Hi1 Hm) as (st' & m' & c' & x & Hx & E & Hi' & Hm' & T & _). rewrite <- free_unhash in E. cbn [pool set_table] in Hx.
  destruct (free_fields _ _ _ _ _ _ _ _ _ _ _ _ Hx E) as (x' & Ep & El & Ec & E1 & E2 & E3 & Ea).
  assert (forall j, j <> s -> aid_at st' j = aid_at st j) as Hk by (intros j Hj; by eapply aid_at_insert).
  assert (table st' = delete addr (table st)) as Ht by (by rewrite T, T1, Em).
  assert (zlen (sta_aid st') = zlen (sta_aid st)) as Hla by (destruct Ea as [->|(k & _ & _ & ->)]; [done|unfold zlen; by rewrite length_insert]).
  assert (aids_inv st') as Hai.
  { split; [split; rewrite ?E1, ?E2, ?E3, ?Hla; apply Ho|]. intros j Hj Hp.
    assert (table st' !! mac_of st' j = Some j) as Hjt by (by apply (table_lookup st' [])). rewrite Ht in Hjt. apply lookup_delete_Some in Hjt as [Hne Hjt].
    apply (table_lookup st []) in Hjt as [Hjh Hjm]; [|done]. assert (j <> s) as Hjs by (intros ->; apply Hne; by rewrite <- Em, Hjm).
    rewrite (Hk j Hjs) in *. specialize (Hn j Hjh Hp). destruct Ea as [->|(k & Hk0 & Hks & ->)]; [done|]. rewrite list_lookup_insert_ne; [done|]. intros Heq. rewrite Heq in Hks. rewrite Hks in Hn. by injection Hn. }
  eexists st', m', c', _, _. split_and!; done.
Qed.

Lemma aid_law st addr s : sta_inv st -> aids_inv st -> table st !! addr = Some s -> aid_at st s = 0 ->
  exists k st', rtw_aid_alloc st s = Ret (k, st') /\ sta_inv st' /\ aids_inv st' /\ table st' = table st /\ aid_at st' s = k /\ (forall j, j <> s -> aid_at st' j = aid_at st j) /\
    auth_list st' = auth_list st /\ auth_list_cnt st' = auth_list_cnt st /\ 0 <= k /\ (forall b j, table st !! b = Some j -> j <> s -> 0 < k -> aid_at st j <> k).
Proof.
  intros Hi [Ho Hn] Hs H0. pose proof (proj1 (table_lookup st [] addr s Hi) Hs) as [Hh Em]. pose proof (hashed_lt st [] s Hi Hh) as Hlt.
  destruct (lookup_lt_is_Some_2 (pool st) s) as [x Hx]; [by rewrite (si_pool _ _ Hi)|].
  destruct (sta_aid_alloc st s x Ho Hx) as (k & st' & E & Hk & Hc).
  destruct (aid_fields _ _ _ _ _ Hx E) as (x' & Ep & M1 & M2 & M3 & F1 & F2 & F3 & F4 & F5 & F6 & F7 & F8 & F9 & F10).
  assert (forall j, mac_of st' j = mac_of st j) as Hmac by (intros j; by eapply mac_of_insert).
  assert (forall j, j <> s -> aid_at st' j = aid_at st j) as Hoth by (intros j Hj; by eapply aid_at_insert).
  assert (aid_at st' s = k) as Hks by (unfold aid_at; by rewrite Hk).
  assert (hashed st' = hashed st) as Hhs by (unfold hashed; by rewrite F2).
  assert (zlen (sta_aid st') = zlen (sta_aid st) /\ 0 <= k <= zlen (sta_aid st)) as [Hla Hkr].
  { pose proof (ao_len _ Ho). pose proof (zlen_nonneg (sta_aid st)). destruct Hc as [(Hr & _ & ->)|(-> & -> & _)]; [|lia]. split; [unfold zlen; by rewrite length_insert|lia]. }
  assert (sta_inv st') as Hi'.
  { destruct Hi as [A1 A2 A3 A4 A5 A6 A7 A8]. split; rewrite ?Ep, ?F1, ?F2, ?F3, ?F9, ?F10, ?Hhs, ?Hla; try done.
    - by rewrite length_insert.
    - intros h ch j Hch Hj. rewrite Hmac. by eapply A4.
    - assert (mac_of st' <$> hashed st = mac_of st <$> hashed st) as -> by (apply list_fmap_ext; intros ? j _; apply Hmac). done.
    - apply Forall_insert; [done|]. rewrite M2, M3. split; [|lia]. by destruct (proj1 (Forall_lookup _ _) A7 s x Hx). }
  assert (aids_inv st') as Hai.
  { split.
    - pose proof (ao_max _ Ho). split; rewrite ?F6, ?F7, ?Hla; try apply Ho. destruct F8 as [->| ->]; [apply Ho|]. pose proof (Z.mod_pos_bound k (max_aid st) ltac:(lia)). lia.
    - intros j Hj Hp. rewrite Hhs in Hj. destruct (decide (j = s)) as [->|Hjs].
      + rewrite Hks in *. destruct Hc as [(Hr & Hf & ->)|(-> & _)]; [|lia]. apply list_lookup_insert_eq. by eapply lookup_lt_Some.
      + rewrite (Hoth j Hjs) in *. specialize (Hn j Hj Hp). destruct Hc as [(Hr & Hf & ->)|(-> & -> & _)]; [|done].
        rewrite list_lookup_insert_ne; [done|]. intros Heq. rewrite <- Heq, Hf in Hn. done. }
  exists k, st'. split_and!; try done; [|lia|].
  - unfold table. rewrite Hhs. f_equal. apply list_fmap_ext. intros ? j _. by rewrite Hmac.
  - intros b j Hb Hjs Hk0 Hjk. apply (table_lookup st []) in Hb as [Hjh _]; [|done]. specialize (Hn j Hjh). rewrite Hjk in Hn. specialize (Hn Hk0).
    destruct Hc as [(_ & Hf & _)|(-> & _)]; [|lia]. rewrite Hf in Hn. done.
Qed.

#[export, refine] Instance sta_table : StaTable table_st := {|
  tb_get t addr := rtw_get_stainfo (t_sta t) addr;
  tb_alloc t addr := '(o, st, m, c) ← rtw_alloc_stainfo (t_sta t) (t_macid t) (t_cam t) (t_adapter t) addr; Ret (o, TableSt st m c (t_adapter t));
  tb_free t i := '(st, m, c, _, _) ← rtw_free_stainfo (t_sta t) (t_macid t) (t_cam t) (t_adapter t) true i; Ret (TableSt st m c (t_adapter t));
  tb_aid_alloc t i := '(k, st) ← rtw_aid_alloc (t_sta t) i; Ret (k, TableSt st (t_macid t) (t_cam t) (t_adapter t));
  tb_aid t i := aid_at (t_sta t) i;
  tb_auth t := auth_list (t_sta t);
  tb_set_auth l n t := TableSt (set_auth l n (accnt (t_sta t)) (t_sta t)) (t_macid t) (t_cam t) (t_adapter t);
  tb_auth_cnt t := auth_list_cnt (t_sta t);
  tb_members t := hashed (t_sta t);
  tb_inv t := sta_inv (t_sta t) /\ macid_inv (t_macid t) (t_adapter t) /\ aids_inv (t_sta t);
  tb_map t := table (t_sta t) |}.
Proof.
  1-7: intros [st m c a]; cbn [t_sta t_macid t_cam t_adapter].
  - intros i (Hi & _). split; [intros H; eexists; by apply (table_lookup st [])|]. by intros [b [H _]%(table_lookup st [])].
  - intros b d i (Hi & _) H1 H2. apply (table_lookup st []) in H1 as [_ <-], H2 as [_ <-]; done.
  - intros b i (Hi & _) H. apply (table_lookup st []) in H as [H _]; [|done]. by eapply hashed_lt.
  - intros addr mc (Hi & _) Ha Hu. unfold rtw_get_stainfo. bind_step Hu. apply (search_table st []); [done|]. by destruct mc.
  - intros addr (Hi & Hm & Hn) [Ha _] Hf. destruct (alloc_law st m c a addr Hi Hm Hn Ha Hf) as [E|(s & st' & m' & c' & E & H)]; [left; by bind_step E|right].
    bind_step E. eexists s, _. split; [done|]. cbn. by destruct_and!; split_and!.
  - intros addr i (Hi & Hm & Hn) Hf. destruct (free_law st m c a addr i Hi Hm Hn Hf) as (st' & m' & c' & rx & tx & E & H).
    bind_step E. eexists. split; [done|]. cbn. by destruct_and!; split_and!.
  - intros addr i (Hi & Hm & Hn) Hf H0. destruct (aid_law st addr i Hi Hn Hf H0) as (k & st' & E & H).
    bind_step E. eexists k, _. split; [done|]. cbn. by destruct_and!; split_and!.
  - intros l n [st m c a] (Hi & Hm & [Ho Hn]). cbn. split_and!; try done; [|split; [|done]].
    + destruct Hi. by split.
    + destruct Ho. by split.
Defined.
End Table.
