(* ===== verification/Auth.v ===== *)
(** * Authentication at an access point

    Models [OnAuth] of [core/rtw_mlme_ext.c] with [rtw_defs_attack_chk],
    [rtw_get_sta_num_by_state] and the part of [issue_auth] for an access point, and
    [rtw_check_invalid_mac_address] of [core/rtw_ieee80211.c].  It composes the
    station table (interface [StaTable] of [Table]), the access lists ([Acl]), the
    element search ([Ies]) and WEP ([Arc4]).

    A station is its index in the pool; [jsta] has the fields of [struct sta_info]
    that the handlers of management frames use beside those of [Sta].  The frame is
    the [len] octets from the start of the buffer [b].  Sending is an output.  Mesh
    and TBTX are compiled out, there is one interface. *)
From S2P Require Import Prelude Ies Arc4 Michael Tkip Cam Macid Sta Acl Mfp Table.

Module Auth.
Import Ies Crc32 Wep Table.
Import Acl.

Abbreviation _FAIL := Tkip._FAIL.
Abbreviation _SUCCESS := Tkip._SUCCESS.

(** ** Data *)

(** What an association request says of a station ([Assoc] fills it in): security,
    WMM with [uapsd_vo], [_vi], [_be] and [_bk], HT and VHT. *)
Record sec_neg := SecNeg {
  n_dot8021xalg : Z; n_wpa_psk : Z; n_wpa_group : Z; n_wpa2_group : Z; n_wpa_pairwise : Z; n_wpa2_pairwise : Z; n_akm : Z; n_wpa_ie : list Z }.
Record wmm_neg := WmmNeg { w_qos_option : Z; w_qos_info : Z; w_max_sp_len : Z; w_legacy_ac : bool; w_uapsd : list Z }.
Record ht_neg := HtNeg { h_ht_cap : list Z; h_ht_op : option (list Z); h_vht_cap : list Z; h_vht_op : option (list Z); h_vht_notify : option Z }.
Record assoc_info := AssocInfo { a_capability : Z; a_rates : list Z; a_sec : sec_neg; a_wmm : wmm_neg; a_ht : ht_neg; a_req : option (list Z) }.
Definition no_sec : sec_neg := SecNeg 0 0 0 0 0 0 0 (replicate 32 0).
Definition no_info : assoc_info :=
  AssocInfo 0 [] no_sec (WmmNeg 0 0 0 false (replicate 4 0)) (HtNeg (replicate 26 0) None (replicate 12 0) None None) None.

Record jsta := JSta {
  j_state : Z; j_auth_seq : Z; j_authalg : Z; j_expire_to : Z; j_chg_txt : list Z; j_flags : Z; j_key_installed : bool; j_blocked : bool; j_info : assoc_info }.
Definition blank_jsta : jsta := JSta 0 0 0 0 (replicate 128 0) 0 false false no_info.

Definition set_j_state (v : Z) (s : jsta) : jsta := JSta v (j_auth_seq s) (j_authalg s) (j_expire_to s) (j_chg_txt s) (j_flags s) (j_key_installed s) (j_blocked s) (j_info s).
Definition set_j_seq (v : Z) (s : jsta) : jsta := JSta (j_state s) v (j_authalg s) (j_expire_to s) (j_chg_txt s) (j_flags s) (j_key_installed s) (j_blocked s) (j_info s).
Definition set_j_alg (v : Z) (s : jsta) : jsta := JSta (j_state s) (j_auth_seq s) v (j_expire_to s) (j_chg_txt s) (j_flags s) (j_key_installed s) (j_blocked s) (j_info s).
Definition set_j_expire (v : Z) (s : jsta) : jsta := JSta (j_state s) (j_auth_seq s) (j_authalg s) v (j_chg_txt s) (j_flags s) (j_key_installed s) (j_blocked s) (j_info s).
Definition set_j_chg (v : list Z) (s : jsta) : jsta := JSta (j_state s) (j_auth_seq s) (j_authalg s) (j_expire_to s) v (j_flags s) (j_key_installed s) (j_blocked s) (j_info s).
Definition set_j_flags (v : Z) (s : jsta) : jsta := JSta (j_state s) (j_auth_seq s) (j_authalg s) (j_expire_to s) (j_chg_txt s) v (j_key_installed s) (j_blocked s) (j_info s).
Definition set_j_info (v : assoc_info) (s : jsta) : jsta := JSta (j_state s) (j_auth_seq s) (j_authalg s) (j_expire_to s) (j_chg_txt s) (j_flags s) (j_key_installed s) (j_blocked s) v.

Definition set_j_blocked (v : bool) (s : jsta) : jsta := JSta (j_state s) (j_auth_seq s) (j_authalg s) (j_expire_to s) (j_chg_txt s) (j_flags s) (j_key_installed s) v (j_info s).

Definition WIFI_FW_AP_STATE : Z := 3.
Definition WIFI_FW_AUTH_NULL : Z := 0x100.
Definition WIFI_FW_AUTH_STATE : Z := 0x200.
Definition WIFI_FW_AUTH_SUCCESS : Z := 0x400.
Definition WIFI_FW_ASSOC_STATE : Z := 0x2000.
Definition WIFI_FW_ASSOC_SUCCESS : Z := 0x4000.
Definition WIFI_FW_LINKING_STATE : Z := 0x2700.
Definition WLAN_STA_MFP : Z := 0x400.
Definition WLAN_AUTH_SAE : Z := 3.
Definition _CHLGETXT_IE_ : Z := 16.

Definition _STATS_NO_SUPP_ALG_ : Z := 13.
Definition _STATS_OUT_OF_AUTH_SEQ_ : Z := 14.
Definition _STATS_CHALLENGE_FAIL_ : Z := 15.
Definition _STATS_UNABLE_HANDLE_STA_ : Z := 17.
Definition _STATS_REFUSED_TEMPORARILY_ : Z := 30.

Definition has (v m : Z) : bool := negb (Z.land v m =? 0).

(** The station has no protected association: the test before every change of its
    state. *)
Definition unprotected (s : jsta) : bool :=
  (negb (j_key_installed s) && has (j_flags s) WLAN_STA_MFP) || negb (has (j_flags s) WLAN_STA_MFP).

(** What the handlers cause. *)
Inductive out :=
| AUTH (addr body : list Z)              (** [issue_auth] *)
| EXTERNAL_AUTH (frame : list Z)         (** [rtw_cfg80211_rx_mframe] *)
| ASOCRSP (addr : list Z) (status : Z) (reassoc : bool)  (** [issue_asocrsp] *)
| DEAUTH (addr : list Z) (reason : Z)    (** [issue_deauth] *)
| BSS_JOIN (sta : nat) | BSS_LEAVE (sta : nat)  (** [bss_cap_update_on_sta_join], [_leave] *)
| ADD_STA (addr : list Z) | DEL_STA (addr : list Z)  (** [report_add_sta_event], [report_del_sta_event] *)
| CLEAR_KEYS (sta : nat)                 (** [rtw_clearstakey_cmd] *)
| SA_QUERY (addr : list Z).              (** [issue_action_SA_Query] *)

(** The configuration of the access point. *)
Record ap_cfg := ApCfg {
  hw_state : Z; fw_asoc : bool; auth_alg : Z; privacy : Z; def_keys : list (list Z); def_keylen : list Z; acl : list wlan_acl_pool;
  report_auth : bool; force_auth_fail : Z; force_asoc_fail : Z; auth_to : Z; assoc_to : Z; expire_to : Z; defs_lmt_sta : Z; defs_lmt_time : Z }.

Section Code.
Context {T : Type} `{!StaTable T}.

(** [struct sta_priv]; [ptime] is the static variable of [rtw_defs_attack_chk]. *)
Record ap_st := ApSt { tab : T; js : list jsta; asoc_list : list nat; asoc_list_cnt : Z; ptime : Z; crc : crc_state }.
Definition set_tab (t : T) (st : ap_st) : ap_st := ApSt t (js st) (asoc_list st) (asoc_list_cnt st) (ptime st) (crc st).
Definition put_js (i : nat) (s : jsta) (st : ap_st) : ap_st := ApSt (tab st) (<[i := s]> (js st)) (asoc_list st) (asoc_list_cnt st) (ptime st) (crc st).
Definition set_asoc (l : list nat) (n : Z) (st : ap_st) : ap_st := ApSt (tab st) (js st) l n (ptime st) (crc st).
Definition set_ptime (n : Z) (st : ap_st) : ap_st := ApSt (tab st) (js st) (asoc_list st) (asoc_list_cnt st) n (crc st).
Definition set_crc (k : crc_state) (st : ap_st) : ap_st := ApSt (tab st) (js st) (asoc_list st) (asoc_list_cnt st) (ptime st) k.

Definition get_js (st : ap_st) (i : nat) : res jsta := match js st !! i with Some s => Ret s | None => Oob end.

(** Taking a station off the list of the associated ones, and the two changes of the
    authentication list. *)
Definition asoc_del (i : nat) (st : ap_st) : ap_st :=
  if bool_decide (i ∈ asoc_list st) then set_asoc (filter (fun j => j <> i) (asoc_list st)) (u8 (asoc_list_cnt st - 1)) st else st.
Definition auth_add (i : nat) (st : ap_st) : ap_st :=
  if bool_decide (i ∈ tb_auth (tab st)) then st
  else set_tab (tb_set_auth (tb_auth (tab st) ++ [i]) (u8 (tb_auth_cnt (tab st) + 1)) (tab st)) st.
Definition auth_del (i : nat) (st : ap_st) : ap_st :=
  if bool_decide (i ∈ tb_auth (tab st)) then set_tab (tb_set_auth (filter (fun j => j <> i) (tb_auth (tab st))) (u8 (tb_auth_cnt (tab st) - 1)) (tab st)) st
  else st.

(** [rtw_alloc_stainfo] zeroes the station. *)
Definition alloc_sta (st : ap_st) (addr : list Z) : res (option nat * ap_st) :=
  '(o, t) ← tb_alloc (tab st) addr;
  Ret (o, match o with Some i => put_js i blank_jsta (set_tab t st) | None => set_tab t st end).

(** [rtw_free_stainfo]; it does not touch the list of the associated stations. *)
Definition free_sta (st : ap_st) (i : nat) : res ap_st :=
  t ← tb_free (tab st) i; s ← get_js st i;
  let a := j_info s in
  let a := AssocInfo (a_capability a) (a_rates a) (a_sec a) (WmmNeg (w_qos_option (a_wmm a)) 0 0 false (replicate 4 0)) (a_ht a) (a_req a) in
  Ret (put_js i (set_j_info a (set_j_expire 0 (set_j_state (Z.ldiff (j_state s) Sta.WIFI_ASOC_STATE) s))) (set_tab t st)).

(** ** Too many stations at once *)

Definition rtw_get_sta_num_by_state (st : ap_st) (state : Z) : Z :=
  zlen (filter (fun i => has (default 0 (j_state <$> js st !! i)) state = true) (tb_members (tab st))).

Definition rtw_defs_attack_chk (c : ap_cfg) (stime : Z) (st : ap_st) : bool * ap_st :=
  let reject := (0 <? ptime st) && (u32 (stime - ptime st) <? defs_lmt_time c) && (defs_lmt_sta c <=? rtw_get_sta_num_by_state st WIFI_FW_LINKING_STATE) in
  (reject, set_ptime stime st).

Definition rtw_check_invalid_mac_address (a : list Z) (check_local_bit : bool) : res bool :=
  if bool_decide (a = replicate 6 0) || bool_decide (a = replicate 6 0xff) then Ret true
  else a0 ← rd a 0; Ret (negb (Z.land a0 1 =? 0) || (check_local_bit && negb (Z.land a0 2 =? 0))).

(** ** The reply *)

(** The body of the frame [issue_auth] sends to a station. *)
Definition auth_body (s : jsta) (status : Z) : list Z :=
  let alg := if status =? 0 then u16 (j_authalg s) else 0 in
  le16 alg ++ le16 (u16 (j_auth_seq s)) ++ le16 status ++
  (if (j_auth_seq s =? 2) && has (j_state s) WIFI_FW_AUTH_STATE && negb (alg =? 0) then _CHLGETXT_IE_ :: 128 :: j_chg_txt s else []).

(** ** The handler *)

(** The steps of the authentication, once the station is known: the status of a
    refusal, or the station as it is when the reply is sent. *)
Definition auth_step (c : ap_cfg) (algorithm seq auth_mode len : Z) (b : list Z) (s : jsta) : res (Z + jsta) :=
  if negb (u32 (j_auth_seq s + 1) =? seq) then Ret (inl _STATS_OUT_OF_AUTH_SEQ_)
  else if (algorithm =? 0) && ((auth_mode =? 0) || (auth_mode =? 2) || (auth_mode =? 3)) then
    if seq =? 1 then
      let s := if unprotected s then set_j_expire (assoc_to c) (set_j_state (Z.lor (Z.ldiff (j_state s) WIFI_FW_AUTH_NULL) WIFI_FW_AUTH_SUCCESS) s) else s in
      Ret (inr (set_j_seq (u32 (seq + 1)) (set_j_alg algorithm s)))
    else Ret (inl _STATS_OUT_OF_AUTH_SEQ_)
  else if seq =? 1 then
    let s := set_j_chg (replicate 128 78) s in
    let s := if unprotected s then set_j_state (Z.lor (Z.ldiff (j_state s) WIFI_FW_AUTH_NULL) WIFI_FW_AUTH_STATE) s else s in
    Ret (inr (set_j_seq (u32 (seq + 1)) (set_j_alg algorithm s)))
  else if seq =? 3 then
    '(p, ie_len) ← rtw_get_ie b 34 _CHLGETXT_IE_ 0 (s32 (len - 34));
    match p with
    | Some p =>
        if ie_len =? 0 then Ret (inl _STATS_CHALLENGE_FAIL_)
        else
          same ← memcmp_at b (p + 2) (j_chg_txt s);
          if same : bool then
            let s := if unprotected s then set_j_expire (assoc_to c) (set_j_state (Z.lor (Z.ldiff (j_state s) WIFI_FW_AUTH_STATE) WIFI_FW_AUTH_SUCCESS) s) else s in
            Ret (inr (set_j_seq (u32 (seq + 1)) s))
          else Ret (inl _STATS_CHALLENGE_FAIL_)
    | None => Ret (inl _STATS_CHALLENGE_FAIL_)
    end
  else Ret (inl _STATS_OUT_OF_AUTH_SEQ_).

(** The exit [auth_fail]: the reply comes from a static, zeroed station. *)
Definition auth_fail (sa : list Z) (status : Z) (pstat : option nat) (st : ap_st) : res (Z * ap_st * list out) :=
  st ← match pstat with Some i => free_sta st i | None => Ret st end;
  Ret (_FAIL, st, [AUTH sa (auth_body (set_j_seq 2 blank_jsta) status)]).

(** The station is looked up or allocated; one that is known leaves the list of the
    associated ones. *)
Definition auth_enter (sa : list Z) (st : ap_st) : res (option nat * ap_st) :=
  o ← tb_get (tab st) sa;
  match o with
  | None =>
      '(o, st) ← alloc_sta st sa;
      Ret (o, match o with Some i => put_js i (set_j_seq 0 (set_j_state WIFI_FW_AUTH_NULL blank_jsta)) st | None => st end)
  | Some i => s ← get_js st i; Ret (Some i, if unprotected s then asoc_del i st else st)
  end.

(** The handler from the lookup of the station on. *)
Definition auth_sta (c : ap_cfg) (algorithm seq auth_mode len : Z) (b sa : list Z) (st : ap_st) : res (Z * ap_st * list out) :=
  '(pstat, st) ← auth_enter sa st;
  match pstat with
  | None => auth_fail sa _STATS_UNABLE_HANDLE_STA_ None st
  | Some i =>
      s ← get_js st i;
      let st := if unprotected s then auth_add i st else st in
      let s := if j_auth_seq s =? 0 then set_j_expire (auth_to c) s else s in
      if report_auth c && (algorithm =? WLAN_AUTH_SAE) && (auth_mode =? 2) then
        Ret (_SUCCESS, put_js i (set_j_alg algorithm s) st, [EXTERNAL_AUTH b])
      else
        r ← auth_step c algorithm seq auth_mode len b s;
        match r with
        | inl status => auth_fail sa status (Some i) (put_js i s st)
        | inr s =>
            let s' := if has (j_state s) WIFI_FW_AUTH_SUCCESS || has (j_state s) WIFI_FW_ASSOC_SUCCESS then set_j_seq 0 s else s in
            Ret (_SUCCESS, put_js i s' st, [AUTH sa (auth_body s 0)])
        end
  end.

Definition OnAuth (c : ap_cfg) (stime len : Z) (b : list Z) (st : ap_st) : res (Z * ap_st * list out) :=
  if negb (Z.land (hw_state c) 3 =? WIFI_FW_AP_STATE) then Ret (_FAIL, st, [])
  else if negb (fw_asoc c) then Ret (_SUCCESS, st, [])
  else
    sa ← slice b 10 6;
    fc1 ← rd b 1;
    '(b, k, offset) ← (if negb (Z.land fc1 0x40 =? 0) then
                         iv3 ← rd b 27;
                         let key_index := Z.land (Z.shiftr iv3 6) 3 in
                         skey ← rd (def_keys c) key_index; kl ← rd (def_keylen c) key_index;
                         '(b, k) ← rtw_wep_decrypt (crc st) b 0 len _WEP40_ 24 4 skey kl;
                         Ret (b, k, 4)
                       else Ret (b, crc st, 0));
    let st := set_crc k st in
    algorithm ← get_le16 b (24 + offset);
    seq ← get_le16 b (24 + offset + 2);
    bad ← rtw_check_invalid_mac_address sa false;
    if bad : bool then Ret (_FAIL, st, [])
    else
      let '(attack, st) := rtw_defs_attack_chk c stime st in
      known ← (if attack then o ← tb_get (tab st) sa;
                 match o with None => Ret false | Some i => s ← get_js st i; Ret (has (j_state s) WIFI_FW_ASSOC_SUCCESS) end
               else Ret true);
      if negb known then auth_fail sa _STATS_REFUSED_TEMPORARILY_ None st
      else if negb (force_auth_fail c =? 0) then auth_fail sa (force_auth_fail c) None st
      else
        let auth_mode := if (auth_alg c =? 2) && negb (algorithm =? WLAN_AUTH_SAE) && negb (privacy c =? _WEP40_) && negb (privacy c =? _WEP104_) then 0 else auth_alg c in
        if ((0 <? algorithm) && (auth_mode =? 0)) || ((algorithm =? 0) && (auth_mode =? 1)) then auth_fail sa _STATS_NO_SUPP_ALG_ None st
        else
          ok ← rtw_access_ctrl (acl c) sa;
          if negb ok then auth_fail sa _STATS_UNABLE_HANDLE_STA_ None st
          else auth_sta c algorithm seq auth_mode len b sa st.
End Code.
End Auth.
