(* ===== verification/Assoc.v ===== *)
(** * Association with an access point

    Models [OnAssocReq] and, for an access point, [OnDeAuth] and [OnDisassoc] of
    [core/rtw_mlme_ext.c]; [rtw_ap_parse_sta_capability], [_supported_rates],
    [_security_ie], [_wmm_ie], [_ht_ie], [_vht_ie] and [ap_free_sta] of
    [core/rtw_ap.c]; [rtw_ies_get_supported_rate] and [UpdateBrateTblForSoftAP] of
    [core/rtw_wlan_util.c]; [security_type_bip_to_gmcs] of [core/rtw_security.c];
    [rtw_check_amsdu_disable] of [core/rtw_ieee80211.c].  Elements are parsed by
    [Elems], [Rsn], [Ies] and [Attrs], stations are those of [Auth] and [Table].

    The interface is an access point, not a P2P group owner; repeater, multi-AP, TBTX
    and mesh are compiled out; the radio measurement capabilities are left out. *)
From S2P Require Import Prelude Ies Elems Rsn Attrs Arc4 Michael Tkip Bip Cam Macid Sta Acl Mfp Table Auth.

Module Assoc.
Import Ies Elems Bip Table Auth.

Definition WLAN_STA_SHORT_PREAMBLE : Z := 0x80.
Definition WLAN_STA_WME : Z := 0x200.
Definition WLAN_STA_HT : Z := 0x800.
Definition WLAN_STA_WPS : Z := 0x1000.
Definition WLAN_STA_MAYBE_WPS : Z := 0x2000.
Definition WLAN_STA_VHT : Z := 0x4000.
Definition WLAN_STA_MULTI_AP : Z := 0x10000.
Definition WLAN_STA_AMSDU_DISABLE : Z := 0x20000.
Definition WLAN_STA_NONERP : Z := 0x80000000.
Definition WPA_CIPHER_TKIP : Z := 0x8.
Definition WLAN_AKM_TYPE_SAE : Z := 0x80.
Definition MFP_OPTIONAL : Z := 2.
Definition MFP_REQUIRED : Z := 3.

Definition _STATS_FAILURE_ : Z := 1.
Definition _RSON_CLS2_ : Z := 6.
Definition WLAN_STATUS_AP_UNABLE_TO_HANDLE_NEW_STA : Z := 17.
Definition WLAN_STATUS_ROBUST_MGMT_FRAME_POLICY_VIOLATION : Z := 31.
Definition WLAN_STATUS_INVALID_IE : Z := 40.
Definition WLAN_STATUS_GROUP_CIPHER_NOT_VALID : Z := 41.
Definition WLAN_STATUS_PAIRWISE_CIPHER_NOT_VALID : Z := 42.
Definition WLAN_STATUS_AKMP_NOT_VALID : Z := 43.
Definition WLAN_STATUS_CIPHER_REJECTED_PER_POLICY : Z := 46.
Definition WLAN_STATUS_INVALID_PMKID : Z := 53.

(** [struct security_priv] and the options of [mlme_priv] that decide. *)
Record sec_cfg := SecCfg {
  s_wpa_psk : Z; s_akmp : Z; s_wpa_group : Z; s_wpa2_group : Z; s_wpa_pairwise : Z; s_wpa2_pairwise : Z; s_privacy : Z; s_mfp_opt : Z;
  s_dot11wCipher : Z; s_amsdu_mode : Z; s_auth_sae : bool; s_pmkid : list Z -> bool; s_wps_beacon_ie : option (list Z);
  s_qos_option : bool; s_ht_option : bool; s_vht_option : bool; s_ssid : list Z }.

(** ** Capability and rates *)

Definition rtw_ap_parse_sta_capability (cap : Z) (s : jsta) : jsta :=
  let a := j_info s in
  set_j_flags (if has cap 0x20 then Z.lor (j_flags s) WLAN_STA_SHORT_PREAMBLE else Z.ldiff (j_flags s) WLAN_STA_SHORT_PREAMBLE)
    (set_j_info (AssocInfo cap (a_rates a) (a_sec a) (a_wmm a) (a_ht a) (a_req a)) s).

(** [support_rate_tbl]: rate, existence, basic. *)
Definition support_rate_tbl : list (Z * bool * bool) := map (fun r => (r, false, false)) [2; 4; 11; 22; 12; 18; 24; 36; 48; 72; 96; 108].
Definition scan_rate (l : list Z) (e : Z * bool * bool) : Z * bool * bool :=
  fold_left (fun e v => if Z.land v 0x7f =? e.1.1 then (e.1.1, true, e.2 || has v 0x80) else e) l e.

Definition rtw_ies_get_supported_rate (b : list Z) (ies ies_len : Z) : res (list Z) :=
  '(ie, ie_len) ← rtw_get_ie b ies 1 0 ies_len;
  tbl ← match ie with Some p => l ← slice b (p + 2) ie_len; Ret (map (scan_rate l) support_rate_tbl) | None => Ret support_rate_tbl end;
  '(ie, ie_len) ← rtw_get_ie b ies 50 ie_len ies_len;
  tbl ← match ie with Some p => l ← slice b (p + 2) ie_len; Ret (map (scan_rate l) tbl) | None => Ret tbl end;
  Ret (map (fun e => if e.2 : bool then Z.lor e.1.1 0x80 else e.1.1) (filter (fun e => e.1.2 = true) tbl)).

Definition UpdateBrateTblForSoftAP (l : list Z) : list Z :=
  map (fun v => if bool_decide (Z.land v 0x7f ∈ [2; 4; 11; 22]) then Z.lor v 0x80 else v) l.

Definition rtw_ap_parse_sta_supported_rates (b : list Z) (ies ies_len : Z) (s : jsta) : res (Z * jsta) :=
  rate_set ← rtw_ies_get_supported_rate b ies ies_len;
  if zlen rate_set =? 0 then Ret (_STATS_FAILURE_, s)
  else
    let a := j_info s in
    let rates := UpdateBrateTblForSoftAP rate_set in
    let s := set_j_info (AssocInfo (a_capability a) rates (a_sec a) (a_wmm a) (a_ht a) (a_req a)) s in
    let f := Z.lor (j_flags s) WLAN_STA_NONERP in
    Ret (0, set_j_flags (if existsb (fun v => 22 <? Z.land v 0x7f) rates then Z.ldiff f WLAN_STA_NONERP else f) s).

(** ** Security *)

Definition security_type_bip_to_gmcs (type : Z) : Z :=
  if type =? _BIP_CMAC_128_ then 0x100 else if type =? _BIP_GMAC_128_ then 0x200 else if type =? _BIP_GMAC_256_ then 0x400
  else if type =? _BIP_CMAC_256_ then 0x800 else 0.

Definition rtw_check_amsdu_disable (mode spp_opt : Z) : bool :=
  if (mode =? 0) && has spp_opt 2 then true else if (mode =? 1) && negb (has spp_opt 1) then true else mode =? 2.

Definition set_sec (n : sec_neg) (s : jsta) : jsta :=
  let a := j_info s in set_j_info (AssocInfo (a_capability a) (a_rates a) n (a_wmm a) (a_ht a) (a_req a)) s.
Definition sec (s : jsta) : sec_neg := a_sec (j_info s).

(** The first part: the element, if the network uses it, is parsed and compared.  The
    element with its length, [gmcs], [mfp_opt] and [spp_opt]. *)
Definition parse_security (c : sec_cfg) (b : list Z) (el : elems) (s : jsta)
  : res (Z * jsta * option (Z * Z) * Z * Z * Z) :=
  let n := SecNeg 0 0 0 0 0 0 (n_akm (sec s)) (replicate 32 0) in
  let s := set_sec n s in
  match (if has (s_wpa_psk c) 2 then el rsn_ie else None), (if has (s_wpa_psk c) 1 then el wpa_ie else None) with
  | Some (p, l), _ =>
      '(ret, o) ← Rsn.rtw_parse_wpa2_ie b (p - 2) (l + 2);
      match (if ret =? _SUCCESS then o else None) with
      | None => Ret (WLAN_STATUS_INVALID_IE, s, Some (p, l), 0, 0, 0)
      | Some r =>
          let s := set_sec (SecNeg 1 2 0 (Z.land (Rsn.group_cipher r) (s_wpa2_group c)) 0 (Z.land (Rsn.pairwise_cipher r) (s_wpa2_pairwise c))
                              (Rsn.akm r) (replicate 32 0)) s in
          let status :=
            if has WLAN_AKM_TYPE_SAE (Rsn.akm r) && (Rsn.mfp_opt r =? 0) then WLAN_STATUS_ROBUST_MGMT_FRAME_POLICY_VIOLATION
            else if negb (has (s_akmp c) (Rsn.akm r)) then WLAN_STATUS_AKMP_NOT_VALID
            else if n_wpa2_group (sec s) =? 0 then WLAN_STATUS_GROUP_CIPHER_NOT_VALID
            else if n_wpa2_pairwise (sec s) =? 0 then WLAN_STATUS_PAIRWISE_CIPHER_NOT_VALID
            else 0 in
          Ret (status, s, Some (p, l), Rsn.group_mgmt_cipher r, Rsn.mfp_opt r, Rsn.spp_opt r)
      end
  | None, Some (p, l) =>
      '(ret, o) ← Rsn.rtw_parse_wpa_ie b (p - 2) (l + 2) (Rsn.WpaOut 0 0 0);
      if negb (ret =? _SUCCESS) then Ret (WLAN_STATUS_INVALID_IE, s, Some (p, l), 0, 0, 0)
      else
        let s := set_sec (SecNeg 1 1 (Z.land (Rsn.w_group o) (s_wpa_group c)) 0 (Z.land (Rsn.w_pairwise o) (s_wpa_pairwise c)) 0
                            (n_akm (sec s)) (replicate 32 0)) s in
        let status :=
          if n_wpa_group (sec s) =? 0 then WLAN_STATUS_GROUP_CIPHER_NOT_VALID
          else if n_wpa_pairwise (sec s) =? 0 then WLAN_STATUS_PAIRWISE_CIPHER_NOT_VALID
          else 0 in
        Ret (status, s, Some (p, l), 0, 0, 0)
  | None, None => Ret (0, s, None, 0, 0, 0)
  end.

(** Is the registrar of the beacon selected, where there is one? *)
Definition registrar_ok (c : sec_cfg) : res bool :=
  match s_wps_beacon_ie c with
  | None => Ret true
  | Some ie =>
      '(_, content, _) ← Attrs.rtw_get_wps_attr_content ie 0 (zlen ie) 0x1041 (Some [0]) None;
      Ret (negb (bool_decide (content = Some [0])))
  end.

(** The last part: WPS, or a copy of the element. *)
Definition parse_wps (c : sec_cfg) (b : list Z) (el : elems) (ie : option (Z * Z)) (s : jsta) : res (Z * jsta) :=
  let s := set_j_flags (Z.ldiff (j_flags s) (Z.lor WLAN_STA_WPS WLAN_STA_MAYBE_WPS)) s in
  match ie with
  | None =>
      let s := set_j_flags (Z.lor (j_flags s) (match el wps_ie with Some _ => WLAN_STA_WPS | None => WLAN_STA_MAYBE_WPS end)) s in
      if 0 <? s_wpa_psk c then ok ← registrar_ok c; Ret (if ok : bool then 0 else _STATS_UNABLE_HANDLE_STA_, s)
      else Ret (0, s)
  | Some (p, l) =>
      if s_wpa_psk c =? 0 then Ret (WLAN_STATUS_INVALID_IE, s)
      else match el wps_ie with
           | Some _ => Ret (0, set_j_flags (Z.lor (j_flags s) WLAN_STA_WPS) s)
           | None =>
               let copy_len := if 32 <? l + 2 then 32 else l + 2 in
               v ← slice b (p - 2) copy_len;
               w ← splice (replicate 32 0) 0 v;
               let n := sec s in
               Ret (0, set_sec (SecNeg (n_dot8021xalg n) (n_wpa_psk n) (n_wpa_group n) (n_wpa2_group n) (n_wpa_pairwise n) (n_wpa2_pairwise n) (n_akm n) w) s)
           end
  end.

Definition rtw_ap_parse_sta_security_ie (c : sec_cfg) (addr : list Z) (b : list Z) (el : elems) (s : jsta) : res (Z * jsta) :=
  '(status, s, ie, gmcs, mfp, spp) ← parse_security c b el s;
  if negb (status =? 0) then Ret (status, s)
  else
    let s := if negb (s_privacy c =? 0) && rtw_check_amsdu_disable (s_amsdu_mode c) spp then set_j_flags (Z.lor (j_flags s) WLAN_STA_AMSDU_DISABLE) s else s in
    if ((s_mfp_opt c =? MFP_REQUIRED) && (mfp <? MFP_OPTIONAL)) || ((mfp =? MFP_REQUIRED) && (s_mfp_opt c <? MFP_OPTIONAL)) then
      Ret (WLAN_STATUS_ROBUST_MGMT_FRAME_POLICY_VIOLATION, s)
    else
      let both := (MFP_OPTIONAL <=? s_mfp_opt c) && (MFP_OPTIONAL <=? mfp) in
      let s := if both then set_j_flags (Z.lor (j_flags s) WLAN_STA_MFP) s else s in
      if has (j_flags s) WLAN_STA_MFP && both && negb (security_type_bip_to_gmcs (s_dot11wCipher c) =? gmcs) then
        Ret (WLAN_STATUS_CIPHER_REJECTED_PER_POLICY, s)
      else if s_auth_sae c && has WLAN_AKM_TYPE_SAE (n_akm (sec s)) && (j_authalg s =? 0) && negb (s_pmkid c addr) then Ret (WLAN_STATUS_INVALID_PMKID, s)
      else parse_wps c b el ie s.

(** ** WMM, HT and VHT *)

Definition WMM_IE : list Z := [0x00; 0x50; 0xf2; 0x02; 0x00; 0x01].

Definition rtw_ap_parse_sta_wmm_ie (c : sec_cfg) (b : list Z) (ies ies_len : Z) (s : jsta) : res jsta :=
  let put w f := let a := j_info s in set_j_flags f (set_j_info (AssocInfo (a_capability a) (a_rates a) (a_sec a) w (a_ht a) (a_req a)) s) in
  let f := Z.ldiff (j_flags s) WLAN_STA_WME in
  let none := put (WmmNeg 0 0 (w_max_sp_len (a_wmm (j_info s))) true (replicate 4 0)) f in
  if negb (s_qos_option c) then Ret none
  else
    '(p, _, _) ← rtw_get_ie_ex b ies ies_len WLAN_EID_VENDOR_SPECIFIC (Some WMM_IE) None;
    match p with
    | None => Ret none
    | Some p =>
        q ← rd b (p + 8);
        let ac k := if has q k then 3 else 0 in
        Ret (put (WmmNeg 1 q (Z.land (Z.shiftr q 5) 3) (negb (Z.land q 0xf =? 0xf)) [ac 1; ac 2; ac 8; ac 4]) (Z.lor f WLAN_STA_WME))
    end.

Definition set_ht (h : ht_neg) (s : jsta) : jsta :=
  let a := j_info s in set_j_info (AssocInfo (a_capability a) (a_rates a) (a_sec a) (a_wmm a) h (a_req a)) s.

(** An operation element of exactly the given length, else what was there. *)
Definition op_element (b : list Z) (e : option (Z * Z)) (n : Z) (old : option (list Z)) : res (option (list Z)) :=
  match e with Some (p, l) => if l =? n then v ← slice b p n; Ret (Some v) else Ret old | None => Ret old end.

Definition rtw_ap_parse_sta_ht_ie (c : sec_cfg) (b : list Z) (el : elems) (s : jsta) : res jsta :=
  let s := set_j_flags (Z.ldiff (j_flags s) WLAN_STA_HT) s in
  if negb (s_ht_option c) then Ret s
  else
    let h := a_ht (j_info s) in
    match el ht_capabilities with
    | Some (p, l) =>
        if 26 <=? l then
          cap ← slice b p 26;
          op ← op_element b (el ht_operation) 22 (h_ht_op h);
          Ret (set_j_flags (Z.lor (Z.lor (j_flags s) WLAN_STA_HT) WLAN_STA_WME) (set_ht (HtNeg cap op (h_vht_cap h) (h_vht_op h) (h_vht_notify h)) s))
        else Ret (set_ht (HtNeg (replicate 26 0) (h_ht_op h) (h_vht_cap h) (h_vht_op h) (h_vht_notify h)) s)
    | None => Ret (set_ht (HtNeg (replicate 26 0) (h_ht_op h) (h_vht_cap h) (h_vht_op h) (h_vht_notify h)) s)
    end.

Definition rtw_ap_parse_sta_vht_ie (c : sec_cfg) (b : list Z) (el : elems) (s : jsta) : res jsta :=
  let s := set_j_flags (Z.ldiff (j_flags s) WLAN_STA_VHT) s in
  if negb (s_vht_option c) then Ret s
  else
    let h := a_ht (j_info s) in
    let none := set_ht (HtNeg (h_ht_cap h) (h_ht_op h) (replicate 12 0) None None) s in
    match el vht_capabilities with
    | Some (p, l) =>
        if l =? 12 then
          cap ← slice b p 12;
          op ← op_element b (el vht_operation) 5 None;
          nt ← op_element b (el vht_op_mode_notify) 1 None;
          Ret (set_j_flags (Z.lor (j_flags s) WLAN_STA_VHT) (set_ht (HtNeg (h_ht_cap h) (h_ht_op h) cap op (match nt with Some (v :: _) => Some v | _ => None end)) s))
        else Ret none
    | None => Ret none
    end.

(** ** The handlers *)

Section Code.
Context {T : Type} `{!StaTable T}.

(** The fields of the request, in the order the handler looks at them; a status, and
    the station as far as it was filled in. *)
Definition parse_request (c : ap_cfg) (k : sec_cfg) (addr b : list Z) (ie_offset len : Z) (s : jsta) : res (Z * jsta) :=
  if negb (force_asoc_fail c =? 0) then Ret (force_asoc_fail c, s)
  else
    let pos := 24 + ie_offset in
    let left := len - pos in
    '(r, el) ← rtw_ieee802_11_parse_elems b pos left;
    if bool_decide (r = ParseFailed) then Ret (_STATS_FAILURE_, s)
    else
      cap ← get_le16 b 24;
      let s := rtw_ap_parse_sta_capability cap s in
      ok ← match el ssid with
           | None => Ret false
           | Some (p, l) => if (l =? 0) || negb (l =? zlen (s_ssid k)) then Ret false else memcmp_at b p (s_ssid k)
           end;
      if negb ok then Ret (_STATS_FAILURE_, s)
      else
        '(status, s) ← rtw_ap_parse_sta_supported_rates b pos (u16 left) s;
        if negb (status =? 0) then Ret (status, s)
        else
          '(status, s) ← rtw_ap_parse_sta_security_ie k addr b el s;
          if negb (status =? 0) then Ret (status, s)
          else
            s ← rtw_ap_parse_sta_wmm_ie k b pos (u16 left) s;
            s ← rtw_ap_parse_sta_ht_ie k b el s;
            s ← rtw_ap_parse_sta_vht_ie k b el s;
            let tkip := has (n_wpa2_pairwise (sec s)) WPA_CIPHER_TKIP || has (n_wpa_pairwise (sec s)) WPA_CIPHER_TKIP in
            let s := if (has (j_flags s) WLAN_STA_HT || has (j_flags s) WLAN_STA_VHT) && tkip
                     then set_j_flags (Z.ldiff (j_flags s) (Z.lor WLAN_STA_HT WLAN_STA_VHT)) s else s in
            Ret (0, set_j_flags (Z.ldiff (j_flags s) WLAN_STA_MULTI_AP) s).

(** The association id: the one the station has, or a new one. *)
Definition assign_aid (st : ap_st (T := T)) (i : nat) : res (bool * ap_st) :=
  if 0 <? tb_aid (tab st) i then Ret (true, st)
  else '(k, t) ← tb_aid_alloc (tab st) i; Ret (negb (k =? 0), set_tab t st).

(** [sta_info_update] and the end of [update_sta_info_apmode]: QoS, the port and the
    state; bandwidth, guard interval and rates are left out. *)
Definition WIFI_UNDER_KEY_HANDSHAKE : Z := 0x01000000.
Definition sta_info_update (c : ap_cfg) (k : sec_cfg) (s : jsta) : jsta :=
  let a := j_info s in let w := a_wmm a in
  let ht := has (j_flags s) WLAN_STA_HT in
  let qos := if ht then 1 else if has (j_flags s) WLAN_STA_WME && s_qos_option k then 1 else 0 in
  let s := set_j_info (AssocInfo (a_capability a) (a_rates a) (a_sec a) (WmmNeg qos (w_qos_info w) (w_max_sp_len w) (w_legacy_ac w) (w_uapsd w)) (a_ht a) (a_req a)) s in
  set_j_blocked (auth_alg c =? 2)
    (set_j_state (Z.lor (if auth_alg c =? 2 then Z.lor (j_state s) WIFI_UNDER_KEY_HANDSHAKE else j_state s) Sta.WIFI_ASOC_STATE) s).

(** The station is put on the list of the associated ones, unless its association is
    protected; then the answer and the events. *)
Definition join (c : ap_cfg) (k : sec_cfg) (addr b : list Z) (len : Z) (reassoc alloc : bool) (i : nat) (s : jsta) (st : ap_st (T := T)) : res (Z * ap_st * list out) :=
  let s := set_j_state (Z.lor (Z.ldiff (j_state s) WIFI_FW_ASSOC_STATE) WIFI_FW_ASSOC_SUCCESS) s in
  let free := unprotected s in
  let st := if free then auth_del i st else st in
  let '(s, st) :=
    if free && negb (bool_decide (i ∈ asoc_list st))
    then (set_j_expire (expire_to c) s, set_asoc (asoc_list st ++ [i]) (u8 (asoc_list_cnt st + 1)) st) else (s, st) in
  let s := if free then sta_info_update c k s else s in
  let prot := j_key_installed s && has (j_flags s) WLAN_STA_MFP in
  req ← slice b 0 len;
  let a := j_info s in
  let s := set_j_info (AssocInfo (a_capability a) (a_rates a) (a_sec a) (a_wmm a) (a_ht a) (if alloc then Some req else None)) s in
  Ret (_SUCCESS, put_js i s st,
    (if free then [BSS_JOIN i] else []) ++ [ASOCRSP addr (if prot then _STATS_REFUSED_TEMPORARILY_ else 0) reassoc] ++
    (if free then [ADD_STA addr] else []) ++ (if prot then [SA_QUERY addr] else [])).

(** [alloc]: is there memory for the copy of the request? *)
Definition OnAssocReq (c : ap_cfg) (k : sec_cfg) (alloc : bool) (len : Z) (b : list Z) (st : ap_st (T := T)) : res (Z * ap_st * list out) :=
  if negb (Z.land (hw_state c) 3 =? WIFI_FW_AP_STATE) then Ret (_FAIL, st, [])
  else
    addr ← slice b 10 6;
    bad ← rtw_check_invalid_mac_address addr false;
    if bad : bool then Ret (_FAIL, st, [])
    else
      fc ← get_le16 b 0;
      let reassoc := negb (Z.land fc 0xfc =? 0) in
      let ie_offset := if reassoc then 10 else 4 in
      if len <? 24 + ie_offset then Ret (_FAIL, st, [])
      else
        o ← tb_get (tab st) addr;
        match o with
        | None => Ret (_FAIL, st, [DEAUTH addr _RSON_CLS2_])
        | Some i =>
            s ← get_js st i;
            if (j_authalg s =? WLAN_AUTH_SAE) && has (j_state s) WIFI_FW_AUTH_NULL then Ret (_SUCCESS, st, [])
            else if negb (has (j_state s) WIFI_FW_AUTH_SUCCESS) && negb (has (j_state s) WIFI_FW_ASSOC_SUCCESS) then Ret (_FAIL, st, [DEAUTH addr _RSON_CLS2_])
            else
              let was := if has (j_state s) WIFI_FW_AUTH_SUCCESS then WIFI_FW_AUTH_SUCCESS else WIFI_FW_ASSOC_SUCCESS in
              let s := set_j_state (Z.lor (Z.ldiff (j_state s) was) WIFI_FW_ASSOC_STATE) s in
              '(status, s) ← parse_request c k addr b ie_offset len s;
              if negb (status =? 0) then Ret (_FAIL, put_js i s st, [ASOCRSP addr status reassoc])
              else
                '(ok, st) ← assign_aid st i;
                if negb ok then Ret (_FAIL, put_js i s st, [ASOCRSP addr WLAN_STATUS_AP_UNABLE_TO_HANDLE_NEW_STA reassoc])
                else join c k addr b len reassoc alloc i s st
        end.

(** [ap_free_sta] without a frame to the station ([active] false); the station is
    released when the event it reports has been handled. *)
Definition ap_free_sta (st : ap_st (T := T)) (addr : list Z) (i : nat) : res (ap_st * list out) :=
  s ← get_js st i;
  let a := j_info s in
  let s := set_j_info (AssocInfo (a_capability a) (a_rates a) (a_sec a) (a_wmm a) (a_ht a) None)
             (set_j_state (Z.ldiff (j_state s) (Z.lor Sta.WIFI_ASOC_STATE WIFI_UNDER_KEY_HANDSHAKE)) s) in
  Ret (put_js i s st, [BSS_LEAVE i; DEL_STA addr; CLEAR_KEYS i]).

(** What [OnDeAuth] and [OnDisassoc] do at an access point with address [bssid]. *)
Definition OnDeAuth (bssid : list Z) (b : list Z) (st : ap_st (T := T)) : res (Z * ap_st * list out) :=
  a3 ← slice b 16 6;
  if negb (bool_decide (a3 = bssid)) then Ret (_SUCCESS, st, [])
  else
    reason ← get_le16 b 24;
    addr ← slice b 10 6;
    o ← tb_get (tab st) addr;
    match o with
    | Some i =>
        if bool_decide (i ∈ asoc_list st) then '(st, o) ← ap_free_sta (asoc_del i st) addr i; Ret (_SUCCESS, st, o)
        else Ret (_SUCCESS, st, [])
    | None => Ret (_SUCCESS, st, [])
    end.

(** [OnDisassoc] is the same at an access point. *)
Definition OnDisassoc := OnDeAuth.

(** [rtw_stadel_event_callback] at an access point. *)
Definition rtw_stadel_event_callback (addr : list Z) (st : ap_st (T := T)) : res ap_st :=
  o ← tb_get (tab st) addr;
  match o with Some i => free_sta st i | None => Ret st end.
End Code.
End Assoc.
