(* ===== verification/Admit.v ===== *)
(** * Which stations an access point admits

    Theorems on the handlers of [Auth] and [Assoc], over sequences of received frames.
    A handler that lets a station go only reports it; the report waits in the queue of
    the command thread, and the station is released when its turn comes, in between
    any other frames.  The network does not use protected management frames: with them
    the invariant fails, as [Accept] shows. *)
From stdpp Require Import gmap.
From S2P Require Import Prelude Ies Elems Rsn Attrs Arc4 Michael Tkip Bip Cam Macid Sta Acl Mfp Table Auth Assoc.

Module Admit.
Import Ies Elems Table Auth Assoc.

(** ** Runs *)

Section Run.
Context {T : Type} `{!StaTable T} (c : ap_cfg) (k : sec_cfg) (bssid : list Z).

(** A received frame of [len] octets in the buffer [b], a pairwise key that was
    installed, or the command thread takes the oldest report. *)
Inductive event :=
| EvAuth (stime len : Z) (b : list Z) | EvAssoc (alloc : bool) (len : Z) (b : list Z) | EvDeauth (b : list Z) | EvDisassoc (b : list Z) | EvKey (addr : list Z)
| EvReport.

Definition set_key (s : jsta) : jsta :=
  JSta (j_state s) (j_auth_seq s) (j_authalg s) (j_expire_to s) (j_chg_txt s) (j_flags s) true false (j_info s).

(** The stations reported as gone, in order. *)
Fixpoint departures (o : list out) : list (list Z) :=
  match o with [] => [] | DEL_STA addr :: o => addr :: departures o | _ :: o => departures o end.

(** The access point and the reports that wait. *)
Definition node : Type := ap_st (T := T) * list (list Z).

Definition queued (q : list (list Z)) (r : res (Z * ap_st (T := T) * list out)) : res (node * list out) :=
  '(_, st, o) ← r; Ret ((st, q ++ departures o), o).

Definition step (e : event) (n : node) : res (node * list out) :=
  let '(st, q) := n in
  match e with
  | EvAuth stime len b => queued q (OnAuth c stime len b st)
  | EvAssoc alloc len b => queued q (OnAssocReq c k alloc len b st)
  | EvDeauth b => queued q (OnDeAuth bssid b st)
  | EvDisassoc b => queued q (OnDisassoc bssid b st)
  | EvKey addr =>
      o ← tb_get (tab st) addr;
      match o with Some i => s ← get_js st i; Ret ((put_js i (set_key s) st, q), []) | None => Ret ((st, q), []) end
  | EvReport =>
      match q with
      | [] => Ret ((st, q), [])
      | addr :: q => st ← rtw_stadel_event_callback addr st; Ret ((st, q), [])
      end
  end.

Fixpoint run (l : list event) (n : node) : res (node * list out) :=
  match l with
  | [] => Ret (n, [])
  | e :: l => '(n, o) ← step e n; '(n, o') ← run l n; Ret (n, o ++ o')
  end.

(** ** The invariant *)

Definition member (t : T) (i : nat) : Prop := exists a, tb_map t !! a = Some i.

Record lists_ok (st : ap_st (T := T)) : Prop := {
  lo_tab : tb_inv (tab st); lo_js : length (js st) = 32%nat;
  lo_asoc : NoDup (asoc_list st) /\ (forall i, i ∈ asoc_list st -> member (tab st) i) /\ asoc_list_cnt st = u8 (zlen (asoc_list st));
  lo_auth : NoDup (tb_auth (tab st)) /\ (forall i, i ∈ tb_auth (tab st) -> member (tab st) i) /\ tb_auth_cnt (tab st) = u8 (zlen (tb_auth (tab st))) }.

(** No station has management frame protection, and the challenge is 128 octets. *)
Definition js_ok (s : jsta) : Prop := has (j_flags s) WLAN_STA_MFP = false /\ zlen (j_chg_txt s) = 128.

(** A station of the table is one the access list admits; one that is associated has
    an association id, which no other station has, and its data may pass. *)
Record admitted (st : ap_st (T := T)) : Prop := {
  ad_acl : forall a i, is_unicast a -> tb_map (tab st) !! a = Some i -> Acl.rtw_access_ctrl (acl c) a = Ret true;
  ad_aid : forall a i, tb_map (tab st) !! a = Some i -> 0 <= tb_aid (tab st) i;
  ad_aids : forall a b i j, tb_map (tab st) !! a = Some i -> tb_map (tab st) !! b = Some j -> i <> j -> 0 < tb_aid (tab st) i -> tb_aid (tab st) i <> tb_aid (tab st) j;
  ad_asoc : forall i, i ∈ asoc_list st -> 0 < tb_aid (tab st) i /\ exists s, js st !! i = Some s /\ has (j_state s) Sta.WIFI_ASOC_STATE = true;
  ad_js : Forall js_ok (js st);
  ad_crc : Crc32.crc_inv (crc st) }.

Definition ap_inv (st : ap_st) : Prop := lists_ok st /\ admitted st.

(** What an address is looked up under. *)
Definition key_of (mc : bool) (a : list Z) : list Z := if mc then Macid.bc_addr else a.

(** The station of an address that was reported is not associated. *)
Definition leaving (st : ap_st (T := T)) (a : list Z) : Prop :=
  Sta.is_mac a /\ forall mc i, Sta.IS_MCAST a = Ret mc -> tb_map (tab st) !! key_of mc a = Some i -> i ∉ asoc_list st.

Definition node_inv (n : node) : Prop := ap_inv n.1 /\ Forall (leaving n.1) n.2.
End Run.

(** ** Lists *)

(** The branches a computation that returned can have taken. *)
Ltac ret_cases := repeat match goal with
  | H : Oob = Ret _ |- _ => discriminate H
  | H : Ret _ = Ret _ |- _ => injection H; clear H; intros; try subst
  | H : mbind _ _ = Ret _ |- _ => apply bind_inv in H as (? & ? & H)
  | H : (if ?b then _ else _) = Ret _ |- _ => destruct b eqn:?
  | H : match ?x with _ => _ end = Ret _ |- _ => destruct x eqn:?
  | H : inl _ = inr _ |- _ => discriminate H
  end.


Lemma u8_pred n l : n = u8 l -> u8 (n - 1) = u8 (l - 1).
Proof. intros ->. unfold wrap. rewrite Zminus_mod_idemp_l. done. Qed.
Lemma u8_succ n l : n = u8 l -> u8 (n + 1) = u8 (l + 1).
Proof. intros ->. unfold wrap. by rewrite Zplus_mod_idemp_l. Qed.

Lemma filter_out_len (l : list nat) i : NoDup l -> i ∈ l -> zlen (filter (fun j => j <> i) l) = zlen l - 1.
Proof.
  intros N H. pose proof (Permutation_length (Sta.perm_remove l i N H)) as E. unfold zlen. cbn [length] in E. lia.
Qed.

(** ** Flags *)

Lemma has_lor v m n : Z.land m n = 0 -> has (Z.lor v m) n = has v n.
Proof. intros H. unfold has. by rewrite Z.land_lor_distr_l, H, Z.lor_0_r. Qed.
Lemma has_ldiff v m n : Z.land m n = 0 -> has (Z.ldiff v m) n = has v n.
Proof.
  intros H. unfold has. f_equal. f_equal. apply Z.bits_inj'. intros i Hi. zbits_norm.
  assert (Z.testbit m i && Z.testbit n i = false) as E by (by rewrite <- Z.land_spec, H, Z.bits_0).
  by destruct (Z.testbit v i), (Z.testbit m i), (Z.testbit n i).
Qed.
Lemma has_lor_same v m : m <> 0 -> has (Z.lor v m) m = true.
Proof.
  intros H. unfold has. rewrite Z.land_lor_distr_l, Z.land_diag. apply negb_true_iff, Z.eqb_neq. intros [_ E]%Z.lor_eq_0_iff. done.
Qed.

Ltac flags := repeat first [rewrite has_lor by reflexivity | rewrite has_ldiff by reflexivity].

Section Inv.
Context {T : Type} `{!StaTable T} (c : ap_cfg) (k : sec_cfg).

Lemma unprot s : js_ok s -> unprotected s = true.
Proof. intros [H _]. unfold unprotected. rewrite H. apply orb_true_r. Qed.

Lemma get_js_inv (st : ap_st (T := T)) i s : get_js st i = Ret s -> js st !! i = Some s.
Proof. unfold get_js. destruct (js st !! i); [by intros [= ->]|done]. Qed.

(** Changing the record of a station that is not associated, or one that stays
    linked. *)
Lemma put_js_inv st i s : ap_inv c st -> js_ok s -> (i ∈ asoc_list st -> has (j_state s) Sta.WIFI_ASOC_STATE = true) ->
  ap_inv c (put_js i s st).
Proof.
  intros [[L1 L2 L3 L4] [A1 A2 A3 A4 A5 A6]] Hf Hs. split; split; try done.
  - cbn. by rewrite length_insert.
  - cbn. intros j Hj. destruct (A4 j Hj) as (Ha & s0 & Hs0 & Hst). split; [done|].
    destruct (decide (j = i)) as [->|Hn]; [|exists s0; by rewrite list_lookup_insert_ne].
    exists s. split; [apply list_lookup_insert_eq; by eapply lookup_lt_Some|by apply Hs].
  - cbn. by apply Forall_insert.
Qed.

Lemma asoc_del_inv st i : ap_inv c st -> ap_inv c (asoc_del i st) /\ i ∉ asoc_list (asoc_del i st) /\ tab (asoc_del i st) = tab st /\ js (asoc_del i st) = js st /\
  (forall j, j ∈ asoc_list (asoc_del i st) -> j ∈ asoc_list st).
Proof.
  intros I. unfold asoc_del. case_bool_decide as Hi; [|by split_and!]. destruct I as [[L1 L2 (L3 & L3' & L3'') L4] [A1 A2 A3 A4 A5 A6]]. split; [split; split; try done|split_and!; try done].
  - cbn. split_and!.
    + by apply NoDup_filter.
    + intros j [_ Hj]%list_elem_of_filter. by apply L3'.
    + rewrite filter_out_len by done. by apply u8_pred.
  - cbn. intros j [_ Hj]%list_elem_of_filter. by apply A4.
  - cbn. rewrite list_elem_of_filter. naive_solver.
  - cbn. intros j [_ Hj]%list_elem_of_filter. done.
Qed.

Lemma auth_add_inv st i : ap_inv c st -> member (tab st) i -> ap_inv c (auth_add i st) /\ js (auth_add i st) = js st /\ asoc_list (auth_add i st) = asoc_list st /\
  tb_map (tab (auth_add i st)) = tb_map (tab st) /\ (forall j, tb_aid (tab (auth_add i st)) j = tb_aid (tab st) j).
Proof.
  intros I Hm. unfold auth_add. case_bool_decide as Hi; [by split_and!|].
  destruct I as [[L1 L2 L3 (L4 & L4' & L4'')] [A1 A2 A3 A4 A5 A6]].
  destruct (tb_set_auth_ok (tb_auth (tab st) ++ [i]) (u8 (tb_auth_cnt (tab st) + 1)) (tab st) L1) as (T1 & T2 & T3 & T4 & T5).
  split; [split; split; cbn [tab set_tab js asoc_list asoc_list_cnt]; unfold member; rewrite ?T2, ?T3, ?T4; try done|by split_and!].
  - split_and!.
    + apply NoDup_app. split_and!; [done| |apply NoDup_singleton]. intros j Hj ->%list_elem_of_singleton. done.
    + intros j [Hj| ->%list_elem_of_singleton]%elem_of_app; [by apply L4'|done].
    + rewrite zlen_app. by apply u8_succ.
  - intros a j H. rewrite T5. by eapply A2.
  - intros a b i' j H1 H2. rewrite !T5. by eapply A3.
  - intros j H. rewrite T5. by apply A4.
Qed.

Lemma auth_del_inv st i : ap_inv c st -> ap_inv c (auth_del i st) /\ js (auth_del i st) = js st /\ asoc_list (auth_del i st) = asoc_list st /\
  asoc_list_cnt (auth_del i st) = asoc_list_cnt st /\ tb_map (tab (auth_del i st)) = tb_map (tab st) /\ (forall j, tb_aid (tab (auth_del i st)) j = tb_aid (tab st) j).
Proof.
  intros I. unfold auth_del. case_bool_decide as Hi; [|by split_and!].
  destruct I as [[L1 L2 L3 (L4 & L4' & L4'')] [A1 A2 A3 A4 A5 A6]].
  destruct (tb_set_auth_ok (filter (fun j => j <> i) (tb_auth (tab st))) (u8 (tb_auth_cnt (tab st) - 1)) (tab st) L1) as (T1 & T2 & T3 & T4 & T5).
  split; [split; split; cbn [tab set_tab js asoc_list asoc_list_cnt]; unfold member; rewrite ?T2, ?T3, ?T4; try done|by split_and!].
  - split_and!; [by apply NoDup_filter| |rewrite filter_out_len by done; by apply u8_pred]. intros j [_ Hj]%list_elem_of_filter. by apply L4'.
  - intros a j H. rewrite T5. by eapply A2.
  - intros a b i' j H1 H2. rewrite !T5. by eapply A3.
  - intros j H. rewrite T5. by apply A4.
Qed.

(** A station that is not on the list of the associated ones is released. *)
Lemma free_sta_inv st a i st' : ap_inv c st -> tb_map (tab st) !! a = Some i -> i ∉ asoc_list st -> free_sta st i = Ret st' -> ap_inv c st'.
Proof.
  intros [[L1 L2 (L3 & L3' & L3'') (L4 & L4' & L4'')] [A1 A2 A3 A4 A5 A6]] Hm Hi. unfold free_sta.
  destruct (tb_free_ok (tab st) a i L1 Hm) as (t' & E & T1 & T2 & T3 & T4 & T5). bind_step E. intros (s & Hs%get_js_inv & H)%bind_inv. injection H as <-.
  assert (forall b j, tb_map t' !! b = Some j -> tb_map (tab st) !! b = Some j /\ j <> i) as Hsub.
  { intros b j H. rewrite T2 in H. apply lookup_delete_Some in H as [Hn H]. split; [done|]. intros ->. apply Hn. exact (tb_map_inj _ _ _ _ L1 Hm H). }
  assert (forall j, member (tab st) j -> j <> i -> member t' j) as Hkeep.
  { intros j (b & H) Hn. exists b. rewrite T2. apply lookup_delete_Some. split; [|done]. intros ->. rewrite Hm in H. by injection H. }
  split; split; cbn [tab put_js set_tab js asoc_list asoc_list_cnt]; try done.
  - by rewrite length_insert.
  - split_and!; try done. intros j Hj. apply Hkeep; [by apply L3'|by intros ->].
  - rewrite T4. split_and!; [by apply NoDup_filter| |].
    + intros j [Hn Hj]%list_elem_of_filter. apply Hkeep; [by apply L4'|done].
    + rewrite T5. case_bool_decide as Hin; [rewrite filter_out_len by done; by apply u8_pred|]. rewrite L4''. do 2 f_equal. symmetry. apply Sta.filter_all. by intros j Hj ->.
  - intros b j Hu H%Hsub. by eapply A1; [|apply H].
  - intros b j [H Hn]%Hsub. rewrite T3 by done. by eapply A2.
  - intros b b' j j' [H1 N1]%Hsub [H2 N2]%Hsub. rewrite !T3 by done. by eapply A3.
  - intros j Hj. assert (j <> i) as Hn by (by intros ->). rewrite T3 by done. destruct (A4 j Hj) as (Ha & s0 & Hs0 & Hst). split; [done|]. exists s0. by rewrite list_lookup_insert_ne.
  - apply Forall_insert; [done|]. exact (proj1 (Forall_lookup _ _) A5 i s Hs).
Qed.

Lemma alloc_sta_inv st a o st' : ap_inv c st -> is_unicast a -> tb_map (tab st) !! a = None -> Acl.rtw_access_ctrl (acl c) a = Ret true ->
  alloc_sta st a = Ret (o, st') -> ap_inv c st' /\ match o with Some i => tb_map (tab st') !! a = Some i /\ i ∉ asoc_list st' /\ js st' !! i = Some blank_jsta | None => True end.
Proof.
  intros [[L1 L2 (L3 & L3' & L3'') (L4 & L4' & L4'')] [A1 A2 A3 A4 A5 A6]] Hu Hn Hacl. unfold alloc_sta.
  destruct (tb_alloc_ok (tab st) a L1 Hu Hn) as [E|(i & t' & E & T1 & T2 & T3 & T4 & T5 & T6 & T7)]; bind_step E; injection 1 as <- <-.
  { split; [|done]. by split; split. }
  assert (forall b j, tb_map t' !! b = Some j -> b = a /\ j = i \/ tb_map (tab st) !! b = Some j /\ j <> i) as Hsub.
  { intros b j H. rewrite T2 in H. apply lookup_insert_Some in H as [[-> ->]|[_ H]]; [by left|right]. split; [done|]. intros ->. by apply (T3 b). }
  assert (forall j, member (tab st) j -> member t' j /\ j <> i) as Hkeep.
  { intros j (b & H). split; [|intros ->; by apply (T3 b)]. exists b. rewrite T2. rewrite lookup_insert_ne; [done|]. intros ->. by rewrite Hn in H. }
  assert (i < length (js st))%nat as Hil by (rewrite L2; eapply tb_lt; [exact T1|rewrite T2; apply lookup_insert_eq]).
  split; [split; split; cbn [tab put_js set_tab js asoc_list asoc_list_cnt]; try done|].
  - by rewrite length_insert.
  - split_and!; try done. intros j Hj. by apply Hkeep, L3'.
  - rewrite T6, T7. split_and!; try done. intros j Hj. by apply Hkeep, L4'.
  - intros b j Hb [[-> ->]|[H _]]%Hsub; [done|by eapply A1].
  - intros b j [[-> ->]|[H Hne]]%Hsub; [by rewrite T4|]. rewrite T5 by done. by eapply A2.
  - intros b b' j j' H1 H2 Hne. destruct (Hsub _ _ H1) as [[-> ->]|[H1' N1]]; [rewrite T4; lia|]. destruct (Hsub _ _ H2) as [[-> ->]|[H2' N2]].
    + rewrite T4, T5 by done. lia.
    + rewrite !T5 by done. by eapply A3.
  - intros j Hj. assert (j <> i) as Hji by (by apply Hkeep, L3'). rewrite T5 by done. destruct (A4 j Hj) as (Ha & s0 & Hs0 & Hst). split; [done|]. exists s0. by rewrite list_lookup_insert_ne.
  - by apply Forall_insert.
  - cbn. split_and!; [rewrite T2; apply lookup_insert_eq|intros Hin; by destruct (Hkeep i (L3' i Hin))|by apply list_lookup_insert_eq].
Qed.

(** ** Looking a station up *)

Lemma get_uni (t : T) a : tb_inv t -> is_unicast a -> tb_get t a = Ret (tb_map t !! a).
Proof. intros I [Ha Hu]. by rewrite (tb_get_ok t a false). Qed.

Lemma mcast_total a : Sta.is_mac a -> exists mc, Sta.IS_MCAST a = Ret mc.
Proof. intros Ha. unfold Sta.IS_MCAST. destruct (rd_in a 0) as (x & Hx & _); [unfold Sta.is_mac in Ha; lia|]. bind_step Hx. by eexists. Qed.

Lemma lookup_some (t : T) a i : tb_inv t -> Sta.is_mac a -> tb_get t a = Ret (Some i) -> exists b, tb_map t !! b = Some i.
Proof.
  intros I Ha. destruct (mcast_total a Ha) as [mc E]. rewrite (tb_get_ok t a mc) by done. intros [= H]. by eexists.
Qed.

Lemma slice_mac b i a : slice b i 6 = Ret a -> Sta.is_mac a.
Proof. intros H. by apply slice_inv in H as (_ & _ & _ & H & _). Qed.

(** An address the handlers accept is a unicast one. *)
Lemma valid_unicast a : Sta.is_mac a -> rtw_check_invalid_mac_address a false = Ret false -> is_unicast a.
Proof.
  intros Ha H. split; [done|]. unfold rtw_check_invalid_mac_address in H. destruct (_ || _); [done|]. unfold Sta.IS_MCAST.
  apply bind_inv in H as (x & Hx & H). bind_step Hx. assert (negb (Z.land x 1 =? 0) = false) as -> by (destruct (negb _); [discriminate H|done]). done.
Qed.

(** ** Authentication *)

Definition no_del (o : list out) : Prop := Forall (fun x => match x with DEL_STA _ => False | _ => True end) o.

Lemma departures_none o : no_del o -> departures o = [].
Proof. induction 1 as [|x o Hx _ IH]; [done|]. by destruct x. Qed.

Lemma auth_step_flags algorithm seq mode len b s s' : auth_step c algorithm seq mode len b s = Ret (inr s') -> js_ok s -> js_ok s'.
Proof. unfold auth_step, js_ok. intros H. ret_cases; cbn; repeat match goal with |- context [if ?b then _ else _] => destruct b end; naive_solver. Qed.

Lemma auth_fail_inv sa status pstat st r st' o :
  ap_inv c st -> match pstat with Some i => tb_map (tab st) !! sa = Some i /\ i ∉ asoc_list st | None => True end ->
  auth_fail sa status pstat st = Ret (r, st', o) -> ap_inv c st' /\ no_del o.
Proof.
  intros I Hp (st1 & H1 & H)%bind_inv. injection H as <- <- <-. split; [|by repeat constructor].
  destruct pstat as [i|]; [|by injection H1 as <-]. destruct Hp as [Hm Hi]. exact (free_sta_inv st sa i st1 I Hm Hi H1).
Qed.

Lemma js_flags st i s : ap_inv c st -> js st !! i = Some s -> js_ok s.
Proof. intros [_ A] H. exact (proj1 (Forall_lookup _ _) (ad_js _ _ A) i s H). Qed.

Lemma auth_enter_inv sa st pstat st1 : ap_inv c st -> is_unicast sa -> Acl.rtw_access_ctrl (acl c) sa = Ret true -> auth_enter sa st = Ret (pstat, st1) ->
  ap_inv c st1 /\ match pstat with Some i => tb_map (tab st1) !! sa = Some i /\ i ∉ asoc_list st1 | None => True end.
Proof.
  intros I Hu Hacl H1. unfold auth_enter in H1. rewrite get_uni in H1 by (done || apply I). simp_res in H1. destruct (tb_map (tab st) !! sa) as [i|] eqn:E.
  - apply bind_inv in H1 as (s & Hs%get_js_inv & H1). injection H1 as <- <-. rewrite unprot by (by eapply js_flags).
    destruct (asoc_del_inv st i I) as (I' & Hi & Et & _). by rewrite Et.
  - apply bind_inv in H1 as ([q st2] & H1 & H2). injection H2 as <- <-. destruct (alloc_sta_inv st sa q st2 I Hu E Hacl H1) as [I2 Hq].
    destruct q as [i|]; [|done]. destruct Hq as (Hm & Hi & _). split; [|done]. by apply put_js_inv.
Qed.

Lemma auth_sta_inv algorithm seq mode len b sa st r st' o : ap_inv c st -> is_unicast sa -> Acl.rtw_access_ctrl (acl c) sa = Ret true ->
  auth_sta c algorithm seq mode len b sa st = Ret (r, st', o) -> ap_inv c st' /\ no_del o.
Proof.
  intros I Hu Hacl. unfold auth_sta. intros ([pstat st1] & H1 & H)%bind_inv. destruct (auth_enter_inv _ _ _ _ I Hu Hacl H1) as [I1 Hp].
  destruct pstat as [i|]; [|by eapply auth_fail_inv in H]. destruct Hp as [Hm Hi].
  apply bind_inv in H as (s & Hs%get_js_inv & H). pose proof (js_flags _ _ _ I1 Hs) as Hf. rewrite unprot in H by done.
  destruct (auth_add_inv st1 i I1) as (I2 & _ & Ea & Em & _); [by exists sa|]. set (st2 := auth_add i st1) in *. clearbody st2.
  set (s1 := if j_auth_seq s =? 0 then _ else s) in H. assert (js_ok s1) as E1 by (unfold s1; by destruct (j_auth_seq s =? 0)). clearbody s1.
  assert (forall s', js_ok s' -> ap_inv c (put_js i s' st2)) as Hput.
  { intros s' E. apply put_js_inv; [done|done|]. rewrite Ea. done. }
  destruct (_ && _); [injection H as <- <- <-; split; [by apply Hput|by repeat constructor]|].
  apply bind_inv in H as ([status|s'] & Hr & H).
  - eapply auth_fail_inv in H; [done|by apply Hput|]. cbn. by rewrite Em, Ea.
  - injection H as <- <- <-. split; [|by repeat constructor]. apply Hput. apply auth_step_flags in Hr; [|done]. by destruct (_ || _).
Qed.

Lemma set_crc_inv x st : Crc32.crc_inv x -> ap_inv c st -> ap_inv c (set_crc x st).
Proof. intros Hx [[] []]. by split; split. Qed.
Lemma set_ptime_inv x st : ap_inv c st -> ap_inv c (set_ptime x st).
Proof. intros [[] []]. by split; split. Qed.

(** The check sum tables after the decryption of a frame. *)
Lemma wep_crc k0 b len skey kl b' k' : Crc32.crc_inv k0 -> Wep.rtw_wep_decrypt k0 b 0 len Wep._WEP40_ 24 4 skey kl = Ret (b', k') -> Crc32.crc_inv k'.
Proof.
  intros Hk0. unfold Wep.rtw_wep_decrypt. cbn [Z.eqb Wep._WEP40_ Pos.eqb orb]. intros (w & _ & H)%bind_inv. apply bind_inv in H as ([[b1 v] k1] & H & E). injection E as <- <-.
  unfold Wep.open_fragment in H. apply bind_inv in H as (p & _ & H). apply bind_inv in H as (c0 & _ & H). apply bind_inv in H as (e & _ & H). apply bind_inv in H as (b2 & _ & H).
  apply bind_inv in H as (p2 & _ & H). apply bind_inv in H as ([v2 k2] & H & E). injection E as _ _ <-. right. by eapply Crc32.getcrc32_ready.
Qed.

Lemma auth_crc (st : ap_st (T := T)) b fc1 len b' k' off : Crc32.crc_inv (crc st) ->
  (if negb (Z.land fc1 0x40 =? 0) then
     iv3 ← rd b 27; skey ← rd (def_keys c) (Z.land (Z.shiftr iv3 6) 3); kl ← rd (def_keylen c) (Z.land (Z.shiftr iv3 6) 3);
     '(b, k) ← Wep.rtw_wep_decrypt (crc st) b 0 len Wep._WEP40_ 24 4 skey kl; Ret (b, k, 4)
   else Ret (b, crc st, 0)) = Ret (b', k', off) -> Crc32.crc_inv k'.
Proof.
  intros Hc. destruct (negb _); [|intros [= _ <- _]; done]. intros (iv3 & _ & H)%bind_inv. apply bind_inv in H as (skey & _ & H). apply bind_inv in H as (kl & _ & H).
  apply bind_inv in H as ([b1 k1] & H & E). injection E as <- <- <-. by eapply wep_crc.
Qed.

Lemma OnAuth_inv stime len b st r st' o : ap_inv c st -> OnAuth c stime len b st = Ret (r, st', o) -> ap_inv c st' /\ no_del o.
Proof.
  intros I. unfold OnAuth. destruct (negb _); [intros [= <- <- <-]; split; [done|constructor]|]. destruct (negb _); [intros [= <- <- <-]; split; [done|constructor]|].
  intros (sa & Hsa%slice_mac & H)%bind_inv. apply bind_inv in H as (fc1 & _ & H). apply bind_inv in H as ([[b' k'] offset] & Hk & H).
  apply bind_inv in H as (alg & _ & H). apply bind_inv in H as (seq & _ & H). apply bind_inv in H as (bad & Hbad & H).
  apply (set_crc_inv k') in I; [|eapply auth_crc; [exact (ad_crc _ _ (proj2 I))|exact Hk]]. clear Hk. revert I H. generalize (set_crc k' st) as st1. intros st1 I H.
  destruct bad; [injection H as <- <- <-; split; [done|constructor]|]. apply valid_unicast in Hbad; [|done].
  unfold rtw_defs_attack_chk in H. apply (set_ptime_inv stime) in I. revert I H. generalize (set_ptime stime st1) as st2. intros st2 I H.
  apply bind_inv in H as (known & _ & H). repeat (destruct (negb _); [by eapply auth_fail_inv in H|]).
  match type of H with (if ?x then _ else _) = _ => destruct x end; [by eapply auth_fail_inv in H|].
  apply bind_inv in H as (ok & Hok & H). destruct ok; [|by eapply auth_fail_inv in H]. by eapply auth_sta_inv in H.
Qed.

(** ** Association *)

(** Parsing changes neither the state of a station nor, without management frame
    protection, the flag for it. *)
Definition quiet (s s' : jsta) : Prop := j_state s' = j_state s /\ has (j_flags s') WLAN_STA_MFP = has (j_flags s) WLAN_STA_MFP /\ j_chg_txt s' = j_chg_txt s.

Ltac quiet_tac := intros; ret_cases; unfold quiet, js_ok in *; cbn; destruct_and?; 
  repeat match goal with |- context [if ?b then _ else _] => destruct b end; cbn; flags; try done.

Lemma quiet_trans s1 s2 s3 : quiet s1 s2 -> quiet s2 s3 -> quiet s1 s3.
Proof. unfold quiet. intros (-> & -> & ->) (-> & -> & ->). done. Qed.

Lemma quiet_ok s s' : quiet s s' -> js_ok s -> js_ok s'.
Proof. unfold quiet, js_ok. by intros (_ & -> & ->). Qed.

Lemma rates_quiet b ies len s status s' : rtw_ap_parse_sta_supported_rates b ies len s = Ret (status, s') -> quiet s s'.
Proof. unfold rtw_ap_parse_sta_supported_rates. quiet_tac. Qed.

Lemma security_quiet b el s status s' ie g m sp : parse_security k b el s = Ret (status, s', ie, g, m, sp) -> quiet s s'.
Proof. unfold parse_security, set_sec. quiet_tac. Qed.

Lemma wps_quiet b el ie s status s' : parse_wps k b el ie s = Ret (status, s') -> quiet s s'.
Proof. unfold parse_wps, set_sec. quiet_tac. Qed.

Lemma security_ie_quiet addr b el s status s' : s_mfp_opt k < 2 -> rtw_ap_parse_sta_security_ie k addr b el s = Ret (status, s') -> quiet s s'.
Proof.
  intros Hk. unfold rtw_ap_parse_sta_security_ie. intros ([[[[[r s1] ie] g] m] sp] & H1%security_quiet & H)%bind_inv. eapply quiet_trans; [exact H1|].
  destruct (negb _); [by injection H as _ <-|].
  assert ((MFP_OPTIONAL <=? s_mfp_opt k) = false) as E by (apply Z.leb_gt; exact Hk). rewrite E in H. cbn in H. rewrite andb_false_r in H.
  match type of H with context [parse_wps _ _ _ _ ?s] => set (s2 := s) in H end.
  assert (quiet s1 s2) as H2 by (unfold s2, js_ok; destruct (_ && rtw_check_amsdu_disable _ _); [|done]; split_and!; [done| |done]; cbn; by flags). clearbody s2.
  eapply quiet_trans; [exact H2|]. repeat (match type of H with (if ?x then _ else _) = _ => destruct x end; [by injection H as _ <-|]). by apply wps_quiet in H.
Qed.

Lemma wmm_quiet b ies len s s' : rtw_ap_parse_sta_wmm_ie k b ies len s = Ret s' -> quiet s s'.
Proof. unfold rtw_ap_parse_sta_wmm_ie. quiet_tac. Qed.
Lemma ht_quiet b el s s' : rtw_ap_parse_sta_ht_ie k b el s = Ret s' -> quiet s s'.
Proof. unfold rtw_ap_parse_sta_ht_ie, set_ht. quiet_tac. Qed.
Lemma vht_quiet b el s s' : rtw_ap_parse_sta_vht_ie k b el s = Ret s' -> quiet s s'.
Proof. unfold rtw_ap_parse_sta_vht_ie, set_ht. quiet_tac. Qed.

Lemma parse_request_quiet addr b off len s status s' : s_mfp_opt k < 2 -> parse_request c k addr b off len s = Ret (status, s') -> quiet s s'.
Proof.
  intros Hk. unfold parse_request. destruct (negb _); [by intros [= _ <-]|]. intros ([r el] & _ & H)%bind_inv. destruct (bool_decide _); [by injection H as _ <-|].
  apply bind_inv in H as (cap & _ & H). match type of H with context [rtw_ap_parse_sta_supported_rates _ _ _ ?s] => set (s0 := s) in H end.
  assert (quiet s s0) as H0 by (unfold s0, rtw_ap_parse_sta_capability; split_and!; [done| |done]; cbn; destruct (has cap 32); by flags).
  clearbody s0. eapply quiet_trans; [exact H0|]. clear H0. apply bind_inv in H as (ok & _ & H). destruct (negb ok); [by injection H as _ <-|].
  apply bind_inv in H as ([st1 s1] & H1%rates_quiet & H). eapply quiet_trans; [exact H1|]. clear H1. destruct (negb _); [by injection H as _ <-|].
  apply bind_inv in H as ([st2 s2] & H2%security_ie_quiet & H); [|done]. eapply quiet_trans; [exact H2|]. clear H2. destruct (negb _); [by injection H as _ <-|].
  apply bind_inv in H as (s3 & H3%wmm_quiet & H). eapply quiet_trans; [exact H3|]. clear H3.
  apply bind_inv in H as (s4 & H4%ht_quiet & H). eapply quiet_trans; [exact H4|]. clear H4.
  apply bind_inv in H as (s5 & H5%vht_quiet & H). eapply quiet_trans; [exact H5|]. clear H5.
  injection H as <- <-. destruct ((has (j_flags s5) WLAN_STA_HT || has (j_flags s5) WLAN_STA_VHT) && _); split_and!; try done; cbn; by flags.
Qed.

Lemma assign_aid_inv st a i ok st' : ap_inv c st -> tb_map (tab st) !! a = Some i -> assign_aid st i = Ret (ok, st') ->
  ap_inv c st' /\ js st' = js st /\ asoc_list st' = asoc_list st /\ tb_map (tab st') = tb_map (tab st) /\ (ok = true -> 0 < tb_aid (tab st') i).
Proof.
  intros I Hm. unfold assign_aid. destruct (0 <? tb_aid (tab st) i) eqn:E0; [intros [= <- <-]; split_and!; try done; intros _; lia|].
  pose proof I as [[L1 L2 L3 L4] [A1 A2 A3 A4 A5 A6]].
  destruct (tb_aid_alloc_ok (tab st) a i L1 Hm) as (n & t & E & T1 & T2 & T3 & T4 & T5 & T6 & T7 & T8); [specialize (A2 a i Hm); lia|].
  bind_step E. intros [= <- <-]. cbn [js asoc_list tab set_tab]. split_and!; try done; [|intros Hn; rewrite T3; destruct (n =? 0) eqn:En; [done|lia]].
  assert (i ∉ asoc_list st) as Hi by (intros Hin; destruct (A4 i Hin); lia).
  split; split; cbn [tab set_tab js asoc_list asoc_list_cnt]; unfold member; rewrite ?T2, ?T5, ?T6; try done.
  - intros b j Hj. destruct (decide (j = i)) as [->|Hn]; [by rewrite T3|]. rewrite T4 by done. by eapply A2.
  - intros b d j j' Hj Hj' Hne. destruct (decide (j = i)) as [->|N1].
    + rewrite T3, T4 by done. intros Hp Heq. by eapply T8.
    + rewrite T4 by done. destruct (decide (j' = i)) as [->|N2]; [rewrite T3; intros Hp Heq; eapply (T8 b j); [done..|lia|done]|]. rewrite T4 by done. by eapply A3.
  - intros j Hj. rewrite T4 by (by intros ->). by apply A4.
Qed.

Lemma asoc_add_inv st a i s : ap_inv c st -> tb_map (tab st) !! a = Some i -> i ∉ asoc_list st -> 0 < tb_aid (tab st) i ->
  has (j_state s) Sta.WIFI_ASOC_STATE = true -> js_ok s ->
  ap_inv c (put_js i s (set_asoc (asoc_list st ++ [i]) (u8 (asoc_list_cnt st + 1)) st)).
Proof.
  intros [[L1 L2 (L3 & L3' & L3'') L4] [A1 A2 A3 A4 A5 A6]] Hm Hi Haid Hs Hf.
  assert (i < length (js st))%nat as Hlt by (rewrite L2; by eapply tb_lt).
  split; split; cbn; try done; [by rewrite length_insert| | |by apply Forall_insert].
  - split_and!.
    + apply NoDup_app. split_and!; [done| |apply NoDup_singleton]. by intros j Hj ->%list_elem_of_singleton.
    + intros j [Hj| ->%list_elem_of_singleton]%elem_of_app; [by apply L3'|by exists a].
    + rewrite zlen_app. by apply u8_succ.
  - intros j Hj. destruct (decide (j = i)) as [->|Hn]; [split; [done|]; exists s; by rewrite list_lookup_insert_eq|].
    apply elem_of_app in Hj as [Hj|Hj%list_elem_of_singleton]; [|done]. rewrite list_lookup_insert_ne by done. by apply A4.
Qed.

(** The list of the associated stations with [i] on it. *)
Definition asoc_add (i : nat) (st : ap_st (T := T)) : ap_st :=
  if bool_decide (i ∈ asoc_list st) then st else set_asoc (asoc_list st ++ [i]) (u8 (asoc_list_cnt st + 1)) st.

Lemma asoc_add_in i st : i ∈ asoc_list (asoc_add i st).
Proof. unfold asoc_add. case_bool_decide; [done|]. cbn. apply elem_of_app. right. by apply list_elem_of_singleton. Qed.

(** What joining leaves of a station without management frame protection. *)
Record joined (s s' : jsta) : Prop := {
  jn_flags : j_flags s' = j_flags s; jn_chg : j_chg_txt s' = j_chg_txt s; jn_sec : sec s' = sec s;
  jn_asoc : has (j_state s') Sta.WIFI_ASOC_STATE = true; jn_success : has (j_state s') WIFI_FW_ASSOC_SUCCESS = true;
  jn_blocked : j_blocked s' = (auth_alg c =? 2) }.

Lemma join_shape addr b len reassoc alloc i s st r st' o : unprotected s = true ->
  join c k addr b len reassoc alloc i s st = Ret (r, st', o) ->
  exists s', joined s s' /\ st' = put_js i s' (asoc_add i (auth_del i st)) /\ o = [BSS_JOIN i; ASOCRSP addr 0 reassoc; ADD_STA addr].
Proof.
  intros Hf. unfold join. match goal with |- context [unprotected ?s1] => assert (unprotected s1 = true) as -> by exact Hf end. cbn [andb]. unfold asoc_add.
  destruct (bool_decide (i ∈ asoc_list (auth_del i st))); cbn [negb]; intros (req & _ & H)%bind_inv; injection H as <- <- <-; eexists; (split; [|split; [done|]]).
  1, 3: split; cbn; try done; destruct (auth_alg c =? 2); flags; try (by apply has_lor_same); by flags; apply has_lor_same.
  all: unfold unprotected in Hf; cbn; by destruct (j_key_installed s), (has (j_flags s) WLAN_STA_MFP).
Qed.

Lemma join_inv addr b len reassoc alloc i s st r st' o : ap_inv c st -> tb_map (tab st) !! addr = Some i -> 0 < tb_aid (tab st) i ->
  js_ok s -> join c k addr b len reassoc alloc i s st = Ret (r, st', o) -> ap_inv c st' /\ no_del o.
Proof.
  intros I Hm Ha Hf H. destruct (join_shape _ _ _ _ _ _ _ _ _ _ _ (unprot s Hf) H) as (s' & [J1 J2 _ J3 _ _] & -> & ->). split; [|by repeat constructor].
  assert (js_ok s') as Hf' by (unfold js_ok; by rewrite J1, J2).
  destruct (auth_del_inv st i I) as (I1 & _ & _ & _ & Em & Et). unfold asoc_add. case_bool_decide as Hi.
  - by apply put_js_inv.
  - eapply asoc_add_inv; [done|by rewrite Em|done|by rewrite Et|done|done].
Qed.

Lemma OnAssocReq_inv alloc len b st r st' o : s_mfp_opt k < 2 -> ap_inv c st -> OnAssocReq c k alloc len b st = Ret (r, st', o) -> ap_inv c st' /\ no_del o.
Proof.
  intros Hk I. unfold OnAssocReq. destruct (negb _); [intros [= <- <- <-]; split; [done|constructor]|].
  intros (addr & Ha%slice_mac & H)%bind_inv. apply bind_inv in H as (bad & Hbad & H). destruct bad; [injection H as <- <- <-; split; [done|constructor]|].
  apply valid_unicast in Hbad; [|done]. apply bind_inv in H as (fc & _ & H). destruct (len <? _); [injection H as <- <- <-; split; [done|constructor]|].
  rewrite get_uni in H by (done || apply I). simp_res in H. destruct (tb_map (tab st) !! addr) as [i|] eqn:Hm; [|injection H as <- <- <-; split; [done|by repeat constructor]].
  apply bind_inv in H as (s & Hs%get_js_inv & H). pose proof (js_flags _ _ _ I Hs) as Hf.
  destruct (_ && has (j_state s) WIFI_FW_AUTH_NULL); [injection H as <- <- <-; split; [done|constructor]|].
  destruct (_ && _); [injection H as <- <- <-; split; [done|by repeat constructor]|].
  match type of H with context [set_j_state ?v s] => set (v1 := v) in H end.
  assert (has v1 Sta.WIFI_ASOC_STATE = has (j_state s) Sta.WIFI_ASOC_STATE) as Hv by (unfold v1; destruct (has (j_state s) WIFI_FW_AUTH_SUCCESS); by flags).
  clearbody v1. apply bind_inv in H as ([status s1] & Q%parse_request_quiet & H); [|done]. pose proof (quiet_ok _ _ Q Hf) as Q2. destruct Q as [Q1 _]. cbn in Q1.
  assert (i ∈ asoc_list st -> has (j_state s1) Sta.WIFI_ASOC_STATE = true) as Hlink.
  { intros Hi. rewrite Q1, Hv. destruct I as [_ A]. destruct (ad_asoc _ _ A i Hi) as (_ & s0 & Hs0 & Hst). rewrite Hs in Hs0. by injection Hs0 as ->. }
  destruct (negb _); [injection H as <- <- <-; split; [by apply put_js_inv|by repeat constructor]|].
  apply bind_inv in H as ([ok st1] & H1 & H). destruct (assign_aid_inv st addr i ok st1 I Hm H1) as (I1 & E1 & E2 & E3 & Haid).
  destruct ok; cbn [negb] in H; [|injection H as <- <- <-; split; [by apply put_js_inv; [| |rewrite E2]|by repeat constructor]].
  eapply join_inv in H; [done|done|by rewrite E3|by apply Haid|done].
Qed.

(** ** Leaving *)

Lemma ap_free_sta_inv st b i addr st' o : ap_inv c st -> tb_map (tab st) !! b = Some i -> i ∉ asoc_list st -> ap_free_sta st addr i = Ret (st', o) ->
  ap_inv c st' /\ tb_map (tab st') = tb_map (tab st) /\ asoc_list st' = asoc_list st /\ o = [BSS_LEAVE i; DEL_STA addr; CLEAR_KEYS i].
Proof.
  intros I Hm Hi. unfold ap_free_sta. intros (s & Hs%get_js_inv & H)%bind_inv. injection H as <- <-. split_and!; try done.
  apply put_js_inv; [done| |done]. exact (js_flags _ _ _ I Hs).
Qed.

Lemma stadel_inv st addr st' : ap_inv c st -> Sta.is_mac addr -> (forall i, tb_get (tab st) addr = Ret (Some i) -> i ∉ asoc_list st) ->
  rtw_stadel_event_callback addr st = Ret st' -> ap_inv c st'.
Proof.
  intros I Ha Hn. unfold rtw_stadel_event_callback. intros (q & Hg & H)%bind_inv. destruct q as [i|]; [|by injection H as <-].
  destruct (lookup_some (tab st) addr i) as [b Hm]; [apply I|done|done|]. eapply free_sta_inv; [done|done|by apply Hn|done].
Qed.

(** What a deauthentication does: nothing, or it takes the station off the list of the
    associated ones and reports it. *)
Lemma OnDeAuth_inv bssid b st r st' o : ap_inv c st -> OnDeAuth bssid b st = Ret (r, st', o) ->
  ap_inv c st' /\ tb_map (tab st') = tb_map (tab st) /\ (forall j, j ∈ asoc_list st' -> j ∈ asoc_list st) /\ Forall (leaving st') (departures o).
Proof.
  intros I. unfold OnDeAuth. intros (a3 & _ & H)%bind_inv. destruct (negb _); [injection H as <- <- <-; by split_and!|].
  apply bind_inv in H as (reason & _ & H). apply bind_inv in H as (addr & Ha%slice_mac & H). apply bind_inv in H as (q & Hg & H).
  destruct q as [i|]; [|injection H as <- <- <-; by split_and!]. case_bool_decide as Hi; [|injection H as <- <- <-; by split_and!].
  apply bind_inv in H as ([st2 o2] & H2 & H). injection H as <- <- <-. destruct (lookup_some (tab st) addr i) as [d Hm]; [apply I|done|done|].
  destruct (asoc_del_inv st i I) as (I1 & Hni & Et & _ & Hsub). destruct (ap_free_sta_inv _ d i addr st2 o2 I1) as (I2 & Em & Ea & ->); [by rewrite Et|done|done|].
  rewrite Em, Et, Ea. split_and!; try done. apply Forall_cons. split; [|constructor]. split; [done|]. intros mc j Hmc Hj. rewrite Ea.
  rewrite (tb_get_ok _ _ mc) in Hg by (done || apply I). rewrite Em, Et in Hj. unfold key_of in Hj. rewrite Hj in Hg. by injection Hg as ->.
Qed.

Lemma set_key_inv st i s : ap_inv c st -> js st !! i = Some s -> ap_inv c (put_js i (set_key s) st).
Proof.
  intros I Hs. apply put_js_inv; [done|exact (js_flags _ _ _ I Hs)|]. intros Hi. destruct I as [_ A]. destruct (ad_asoc _ _ A i Hi) as (_ & s0 & Hs0 & Hst).
  rewrite Hs in Hs0. by injection Hs0 as ->.
Qed.

(** ** Reports that wait *)

(** Nobody has joined: the associated stations were associated before, under the same
    address. *)
Definition calm (st st' : ap_st (T := T)) : Prop :=
  (forall j, j ∈ asoc_list st' -> j ∈ asoc_list st) /\
  forall a i, tb_map (tab st') !! a = Some i -> i ∈ asoc_list st' -> tb_map (tab st) !! a = Some i.

Lemma calm_refl st st' : asoc_list st' = asoc_list st -> tb_map (tab st') = tb_map (tab st) -> calm st st'.
Proof. unfold calm. by intros -> ->. Qed.
Lemma calm_trans st1 st2 st3 : calm st1 st2 -> calm st2 st3 -> calm st1 st3.
Proof. intros [A1 B1] [A2 B2]. split; [auto|]. intros a i Hm Hi. apply B1; auto. Qed.

Lemma leaving_calm st st' a : calm st st' -> leaving st a -> leaving st' a.
Proof. intros [A B] [Ha H]. split; [done|]. intros mc i Hmc Hm Hi. exact (H mc i Hmc (B _ _ Hm Hi) (A i Hi)). Qed.

Lemma free_calm st a i st' : ap_inv c st -> tb_map (tab st) !! a = Some i -> free_sta st i = Ret st' -> calm st st'.
Proof.
  intros [[L1 _ _ _] _] Hm. unfold free_sta. destruct (tb_free_ok (tab st) a i L1 Hm) as (t' & E & _ & T2 & _). bind_step E.
  intros (s & _ & H)%bind_inv. injection H as <-. split; [done|]. intros b j Hj _. cbn in Hj. rewrite T2 in Hj. by apply lookup_delete_Some in Hj as [_ ?].
Qed.

Lemma auth_fail_calm sa status pstat st r st' o : ap_inv c st -> match pstat with Some i => tb_map (tab st) !! sa = Some i | None => True end ->
  auth_fail sa status pstat st = Ret (r, st', o) -> calm st st'.
Proof.
  intros I Hp (st1 & H1 & H)%bind_inv. injection H as <- <- <-. destruct pstat as [i|]; [|injection H1 as <-; by apply calm_refl]. by eapply free_calm.
Qed.

Lemma auth_enter_calm sa st pstat st1 : ap_inv c st -> is_unicast sa -> auth_enter sa st = Ret (pstat, st1) -> calm st st1.
Proof.
  intros I Hu H1. unfold auth_enter in H1. rewrite get_uni in H1 by (done || apply I). simp_res in H1. destruct (tb_map (tab st) !! sa) as [i|] eqn:E.
  - apply bind_inv in H1 as (s & _ & H1). injection H1 as <- <-. destruct (unprotected s); [|by apply calm_refl].
    destruct (asoc_del_inv st i I) as (_ & _ & Et & _ & Hsub). split; [done|]. by rewrite Et.
  - apply bind_inv in H1 as ([q st2] & H1 & H2). injection H2 as <- <-. unfold alloc_sta in H1. pose proof I as [[L1 _ (_ & L3 & _) _] _].
    destruct (tb_alloc_ok (tab st) sa L1 Hu E) as [Ea|(i & t' & Ea & T1 & T2 & T3 & _)]; rewrite Ea in H1; simp_res in H1; injection H1 as <- <-; [by apply calm_refl|].
    split; [done|]. cbn. intros a j Hj Hin. rewrite T2 in Hj. apply lookup_insert_Some in Hj as [[-> ->]|[_ Hj]]; [|done]. destruct (L3 j Hin) as [d Hd]. by destruct (T3 d).
Qed.

Lemma auth_sta_calm algorithm seq mode len b sa st r st' o : ap_inv c st -> is_unicast sa -> Acl.rtw_access_ctrl (acl c) sa = Ret true ->
  auth_sta c algorithm seq mode len b sa st = Ret (r, st', o) -> calm st st'.
Proof.
  intros I Hu Hacl. unfold auth_sta. intros ([pstat st1] & H1 & H)%bind_inv. destruct (auth_enter_inv _ _ _ _ I Hu Hacl H1) as [I1 Hp].
  eapply calm_trans; [by eapply auth_enter_calm|]. destruct pstat as [i|]; [|by eapply auth_fail_calm in H]. destruct Hp as [Hm Hi].
  apply bind_inv in H as (s & Hs%get_js_inv & H). pose proof (js_flags _ _ _ I1 Hs) as Hf. rewrite unprot in H by done.
  destruct (auth_add_inv st1 i I1) as (I2 & _ & Ea & Em & _); [by exists sa|]. eapply calm_trans; [by apply (calm_refl st1 (auth_add i st1))|].
  set (st2 := auth_add i st1) in *. clearbody st2. set (s1 := if j_auth_seq s =? 0 then _ else s) in H.
  assert (js_ok s1) as E1 by (unfold s1; by destruct (j_auth_seq s =? 0)). clearbody s1.
  destruct (_ && _); [injection H as <- <- <-; by apply calm_refl|]. apply bind_inv in H as ([status|s'] & Hr & H); [|injection H as <- <- <-; by apply calm_refl].
  eapply calm_trans; [by apply (calm_refl st2 (put_js i s1 st2))|]. eapply (auth_fail_calm sa status (Some i)); [|cbn; by rewrite Em|exact H]. apply put_js_inv; [done|done|]. rewrite Ea. done.
Qed.

Lemma OnAuth_calm stime len b st r st' o : ap_inv c st -> OnAuth c stime len b st = Ret (r, st', o) -> calm st st'.
Proof.
  intros I. unfold OnAuth. destruct (negb _); [intros [= <- <- <-]; by apply calm_refl|]. destruct (negb _); [intros [= <- <- <-]; by apply calm_refl|].
  intros (sa & Hsa%slice_mac & H)%bind_inv. apply bind_inv in H as (fc1 & _ & H). apply bind_inv in H as ([[b' k'] offset] & Hk & H).
  apply bind_inv in H as (alg & _ & H). apply bind_inv in H as (seq & _ & H). apply bind_inv in H as (bad & Hbad & H).
  pose proof (set_crc_inv k' st (auth_crc _ _ _ _ _ _ _ (ad_crc _ _ (proj2 I)) Hk) I) as I1. clear Hk.
  eapply calm_trans; [by apply (calm_refl st (set_crc k' st))|]. revert I1 H. generalize (set_crc k' st) as st1. intros st1 I1 H.
  destruct bad; [injection H as <- <- <-; by apply calm_refl|]. apply valid_unicast in Hbad; [|done].
  unfold rtw_defs_attack_chk in H. apply (set_ptime_inv stime) in I1. eapply calm_trans; [by apply (calm_refl st1 (set_ptime stime st1))|].
  revert I1 H. generalize (set_ptime stime st1) as st2. intros st2 I2 H.
  apply bind_inv in H as (known & _ & H). repeat (destruct (negb _); [by eapply auth_fail_calm in H|]).
  match type of H with (if ?x then _ else _) = _ => destruct x end; [by eapply auth_fail_calm in H|].
  apply bind_inv in H as (ok & Hok & H). destruct ok; [|by eapply auth_fail_calm in H]. by eapply auth_sta_calm in H.
Qed.

(** An association changes the table in nothing but ids, and adds at most the station
    that asked. *)
Lemma join_adds addr b len reassoc alloc i s st r st' o : ap_inv c st -> js_ok s -> join c k addr b len reassoc alloc i s st = Ret (r, st', o) ->
  tb_map (tab st') = tb_map (tab st) /\ forall j, j ∈ asoc_list st' -> j ∈ asoc_list st \/ j = i.
Proof.
  intros I Hf H. destruct (join_shape _ _ _ _ _ _ _ _ _ _ _ (unprot s Hf) H) as (s' & _ & -> & _). destruct (auth_del_inv st i I) as (_ & _ & Ea & _ & Em & _). cbn.
  unfold asoc_add. case_bool_decide; [by rewrite Em, Ea; auto|]. cbn. rewrite Em, Ea. split; [done|]. intros j [?|?%list_elem_of_singleton]%elem_of_app; auto.
Qed.

Lemma OnAssocReq_adds alloc len b st r st' o : s_mfp_opt k < 2 -> ap_inv c st -> OnAssocReq c k alloc len b st = Ret (r, st', o) ->
  tb_map (tab st') = tb_map (tab st) /\
  forall j, j ∈ asoc_list st' -> j ∈ asoc_list st \/ exists addr, slice b 10 6 = Ret addr /\ is_unicast addr /\ tb_map (tab st) !! addr = Some j.
Proof.
  intros Hk I. unfold OnAssocReq. destruct (negb _); [intros [= <- <- <-]; by auto|].
  intros (addr & Hsl & H)%bind_inv. pose proof (slice_mac _ _ _ Hsl) as Ha. apply bind_inv in H as (bad & Hbad & H). destruct bad; [injection H as <- <- <-; by auto|].
  apply valid_unicast in Hbad; [|done]. apply bind_inv in H as (fc & _ & H). destruct (len <? _); [injection H as <- <- <-; by auto|].
  rewrite get_uni in H by (done || apply I). simp_res in H. destruct (tb_map (tab st) !! addr) as [i|] eqn:Hm; [|injection H as <- <- <-; by auto].
  apply bind_inv in H as (s & Hs%get_js_inv & H). pose proof (js_flags _ _ _ I Hs) as Hf.
  destruct (_ && has (j_state s) WIFI_FW_AUTH_NULL); [injection H as <- <- <-; by auto|]. destruct (_ && _); [injection H as <- <- <-; by auto|].
  apply bind_inv in H as ([status s1] & Q%parse_request_quiet & H); [|done]. pose proof (quiet_ok _ _ Q Hf) as Q2.
  destruct (negb _); [injection H as <- <- <-; by auto|].
  apply bind_inv in H as ([ok st1] & H1 & H). destruct (assign_aid_inv st addr i ok st1 I Hm H1) as (I1 & E1 & E2 & E3 & Haid).
  destruct ok; cbn [negb] in H; [|injection H as <- <- <-; cbn; rewrite E2, E3; by auto].
  apply join_adds in H as [J1 J2]; [|done|done]. rewrite J1, E3. split; [done|]. intros j Hj. rewrite <- E2. destruct (J2 j Hj) as [?| ->]; [by left|]. right. by exists addr.
Qed.

Lemma bc_not_unicast a : is_unicast a -> a <> Macid.bc_addr.
Proof. intros [_ Hu] ->. vm_compute in Hu. discriminate Hu. Qed.

(** No station asks to be associated while its own departure waits to be handled. *)
Definition timely (q : list (list Z)) (e : event) : Prop :=
  match e with EvAssoc _ _ b => forall a, slice b 10 6 = Ret a -> a ∉ q | _ => True end.

Lemma queue_inv q (st st' : ap_st (T := T)) o : ap_inv c st' -> Forall (leaving st') (q ++ departures o) -> node_inv c (st', q ++ departures o).
Proof. by split. Qed.

Lemma stays st st' q : calm st st' -> Forall (leaving st) q -> Forall (leaving st') q.
Proof. intros C H. eapply Forall_impl; [exact H|]. intros a. by apply leaving_calm. Qed.

Lemma assoc_inv alloc len b st q r st' o : s_mfp_opt k < 2 -> ap_inv c st -> Forall (leaving st) q -> timely q (EvAssoc alloc len b) ->
  OnAssocReq c k alloc len b st = Ret (r, st', o) -> node_inv c (st', q ++ departures o).
Proof.
  intros Hk I Hq Ht H. destruct (OnAssocReq_inv _ _ _ _ _ _ _ Hk I H) as [I' Hd]. destruct (OnAssocReq_adds _ _ _ _ _ _ _ Hk I H) as [Em Ha].
  rewrite departures_none, app_nil_r by done. split; [done|]. apply Forall_forall. intros a Hin. pose proof (proj1 (Forall_forall _ _) Hq a Hin) as [Hmac Hl].
  split; [done|]. intros mc i Hmc Hmap Hi. cbn [fst] in *. rewrite Em in Hmap. destruct (Ha i Hi) as [Hold|(addr & Hsl & Hu & Hma)]; [by eapply Hl|].
  pose proof (tb_map_inj _ _ _ _ (lo_tab _ (proj1 I)) Hmap Hma) as E. unfold key_of in E. destruct mc; [by apply (bc_not_unicast addr)|]. subst addr. by apply (Ht a).
Qed.

Lemma report_inv addr st q st' : ap_inv c st -> leaving st addr -> Forall (leaving st) q -> rtw_stadel_event_callback addr st = Ret st' -> node_inv c (st', q).
Proof.
  intros I [Ha Hl] Hq H. destruct (mcast_total addr Ha) as [mc Hmc]. unfold rtw_stadel_event_callback in H. rewrite (tb_get_ok _ _ mc) in H by (done || apply I).
  simp_res in H. destruct (tb_map (tab st) !! _) as [i|] eqn:Hm; [|injection H as <-; by split].
  split; [eapply free_sta_inv; [done|exact Hm| |exact H]; by eapply Hl|]. eapply stays; [by eapply free_calm|done].
Qed.

Lemma step_inv bssid e n n' o : s_mfp_opt k < 2 -> node_inv c n -> timely n.2 e -> step c k bssid e n = Ret (n', o) -> node_inv c n'.
Proof.
  intros Hk [I Hq] Ht. destruct n as [st q]. cbn [fst snd] in *. destruct e as [stime len b|alloc len b|b|b|addr|]; cbn [step]; unfold queued.
  - intros ([[r s1] o1] & H & E)%bind_inv. injection E as <- <-. destruct (OnAuth_inv _ _ _ _ _ _ _ I H) as [I1 Hd]. rewrite departures_none, app_nil_r by done.
    split; [done|]. eapply stays; [exact (OnAuth_calm _ _ _ _ _ _ _ I H)|done].
  - intros ([[r s1] o1] & H & E)%bind_inv. injection E as <- <-. exact (assoc_inv _ _ _ _ _ _ _ _ Hk I Hq Ht H).
  - intros ([[r s1] o1] & H & E)%bind_inv. injection E as <- <-. destruct (OnDeAuth_inv _ _ _ _ _ _ I H) as (I1 & Em & Hs & Hd). split; [done|]. apply Forall_app. split; [|done].
    eapply stays; [|done]. split; [done|]. cbn [fst]. intros a i. by rewrite Em.
  - intros ([[r s1] o1] & H & E)%bind_inv. injection E as <- <-. destruct (OnDeAuth_inv _ _ _ _ _ _ I H) as (I1 & Em & Hs & Hd). split; [done|]. apply Forall_app. split; [|done].
    eapply stays; [|done]. split; [done|]. cbn [fst]. intros a i. by rewrite Em.
  - intros ([i|] & _ & H)%bind_inv; [|by injection H as <- <-]. apply bind_inv in H as (s & Hs%get_js_inv & H). injection H as <- <-. split; [by apply set_key_inv|].
    eapply stays; [|done]. by apply calm_refl.
  - destruct q as [|addr q]; [by intros [= <- <-]|]. apply Forall_cons in Hq as [Ha Hq]. intros (s1 & H & E)%bind_inv. injection E as <- <-. by eapply report_inv.
Qed.
End Inv.
End Admit.
