(* ===== verification/Total.v ===== *)
(** * An access point serves every sequence of frames

    The handlers of [Auth] and [Assoc] terminate on arbitrary octets without leaving
    their buffers, given 300 readable octets behind the frame: they compare and copy
    without looking at the length of the frame.  With the invariant of [Admit] this
    holds along every run. *)
From stdpp Require Import gmap.
From S2P Require Import Prelude Ies Elems Rsn Attrs Arc4 Michael Tkip Bip Cam Macid Sta Acl Mfp Table Auth Assoc Admit.

Module Total.
Import Ies Elems Table Auth Assoc Admit.

(** ** Reading *)

Lemma splice_total b i l : 0 <= i -> i + zlen l <= zlen b -> exists r : list Z, splice b i l = Ret r.
Proof. intros. unfold splice. zdecide. by eexists. Qed.

Lemma ie_ex_loop_total b base len eid oui : bytes_ok b -> 0 <= base -> base + len + 10 <= zlen b -> zlen oui <= 8 -> forall fuel cnt, 0 <= cnt -> Z.max 0 (len - cnt) < Z.of_nat fuel ->
  exists p l, get_ie_ex_loop fuel b base len eid (Some oui) None cnt = Ret (p, l, None) /\ forall q, p = Some q -> base <= q < base + len.
Proof.
  intros Hb H0 Hl Ho. induction fuel as [|fuel IH]; intros cnt Hc Hf; cbn [get_ie_ex_loop]; destruct (Z.ltb_spec cnt len).
  1: lia. 1: exfalso; lia. 2: by eexists _, _.
  assert (exists m, ie_match b (base + cnt) eid (Some oui) = Ret m) as [m Em].
  { unfold ie_match. destruct (rd_bytes b (base + cnt)) as (x & Ex & _); [done|lia|]. bind_step Ex. destruct (x =? eid); [|by eexists].
    pose proof (zlen_nonneg oui). destruct (memcmp_at_total b (base + cnt + 2) oui) as [r Er]; [lia..|]. cbn. rewrite ?Er. by eexists. }
  bind_step Em. destruct (rd_bytes b (base + cnt + 1)) as (l & El & Hlu); [done|lia|]. bind_step El. destruct m.
  - eexists _, _. split; [done|]. intros q [= <-]. lia.
  - apply IH; unfold is_u8 in Hlu; lia.
Qed.

Lemma ie_ex_total b base len eid oui : bytes_ok b -> 0 <= base -> base + len + 10 <= zlen b -> zlen oui <= 8 ->
  exists p l, rtw_get_ie_ex b base len eid (Some oui) None = Ret (p, l, None) /\ forall q, p = Some q -> base <= q < base + len.
Proof.
  intros. unfold rtw_get_ie_ex. destruct (Z.leb_spec len 0); [by eexists _, _|]. apply ie_ex_loop_total; try done. lia.
Qed.

(** A WPA element anywhere in a buffer. *)
Lemma wpa_akm_total b p l o : 0 <= p -> p + l <= zlen b -> exists r, Rsn.parse_wpa_akm b p l o = Ret r.
Proof.
  intros Hp Hl. unfold Rsn.parse_wpa_akm. destruct (Z.leb_spec 6 l); [|by eexists].
  destruct (memcmp_at_total b (p + 2) Rsn.RTW_WPA_OUI_TYPE) as [m Em]; [lia|change (zlen Rsn.RTW_WPA_OUI_TYPE) with 4; lia|]. bind_step Em. by eexists.
Qed.

Lemma wpa_pairwise_total b p l o : bytes_ok b -> fits 12 (Rsn.w_pairwise o) -> 0 <= p -> p + l <= zlen b -> exists r, Rsn.parse_wpa_pairwise b p l o = Ret r.
Proof.
  intros Hb Hf Hp Hl. unfold Rsn.parse_wpa_pairwise. destruct (Z.leb_spec 2 l); [|destruct (l =? 1); [by eexists|by apply wpa_akm_total]].
  destruct (get_le16_total b p) as (n & En & Hn); [done|lia|lia|]. bind_step En. destruct (Z.eqb_spec n 0); [by eexists|]. destruct (Z.ltb_spec (l - 2) (n * 4)); cbn [orb]; [by eexists|].
  unfold is_u16 in Hn. destruct (Rsn.or_suites_total Rsn.wpa_cipher_suites (HS := Rsn.wpa_selectors) (Z.to_nat n) b (p + 2) (Rsn.w_pairwise o)) as (v & Ev & _); [done|lia|lia|].
  unfold Rsn.rtw_get_wpa_cipher_suite. bind_step Ev. apply wpa_akm_total; lia.
Qed.

Lemma wpa_total b p l : bytes_ok b -> 0 <= p -> p + l + 10 <= zlen b -> exists r o, Rsn.rtw_parse_wpa_ie b p l (Rsn.WpaOut 0 0 0) = Ret (r, o).
Proof.
  intros Hb Hp Hl. unfold Rsn.rtw_parse_wpa_ie. destruct (Z.leb_spec l 0); [by eexists _, _|].
  destruct (rd_bytes b p) as (x & Ex & _); [done|lia|]. bind_step Ex. destruct (negb _); [by eexists _, _|].
  destruct (rd_bytes b (p + 1)) as (y & Ey & _); [done|lia|]. bind_step Ey. destruct (negb _); [by eexists _, _|].
  destruct (memcmp_at_total b (p + 2) Rsn.RTW_WPA_OUI_TYPE) as [m Em]; [lia|change (zlen Rsn.RTW_WPA_OUI_TYPE) with 4; lia|]. bind_step Em. destruct (negb m); [by eexists _, _|].
  assert (forall q o, fits 12 (Rsn.w_pairwise o) -> 0 <= q -> forall n, q + n <= zlen b -> exists r o', Rsn.parse_wpa_pairwise b q n o = Ret (r, o')) as Hpw.
  { intros q o Hf Hq n Hn. destruct (wpa_pairwise_total b q n o Hb Hf Hq Hn) as [[r o'] E]. by eexists r, o'. }
  destruct (Z.leb_spec 4 (l - 8)).
  - destruct (Rsn.selector_chain_total Rsn.wpa_cipher_suites (HS := Rsn.wpa_selectors) b (p + 8)) as (g & Eg & _); [lia..|]. unfold Rsn.rtw_get_wpa_cipher_suite. bind_step Eg. apply Hpw; [done|lia..].
  - destruct (0 <? l - 8); [by eexists _, _|]. apply Hpw; [done|lia..].
Qed.

(** ** The request *)

Section Request.
Context (c : ap_cfg) (k : sec_cfg) (b : list Z) (pos left : Z).
Context (Hb : bytes_ok b) (Hp : 0 <= pos) (Hl : 0 <= left) (Hz : pos + left + 260 <= zlen b).
Context (el : elems) (Hel : forall f p l, el f = Some (p, l) -> pos + 2 <= p /\ p + l <= pos + left /\ is_u8 l).
Context (Hreg : exists r, registrar_ok k = Ret r).

Lemma rates_total n : 0 <= n <= left -> exists l, rtw_ies_get_supported_rate b pos n = Ret l.
Proof using Hb Hp Hz.
  intros Hn. unfold rtw_ies_get_supported_rate.
  assert (forall id l0 tbl, exists o l t, rtw_get_ie b pos id l0 n = Ret (o, l) /\
    match o with Some p => l ← slice b (p + 2) l; Ret (map (scan_rate l) tbl) | None => Ret tbl end = Ret t) as Hs.
  { intros id l0 tbl. destruct (rtw_get_ie_safe b pos id l0 n Hb Hp) as ([o l] & E & H); [lia|]. eexists o, l. destruct o as [p|]; [|by eexists].
    destruct (H p l eq_refl) as (Hr & _ & _ & Hu). unfold is_u8 in Hu. destruct (slice_total b (p + 2) l) as (v & Ev & _); [lia..|]. eexists. split; [exact E|]. by bind_step Ev. }
  destruct (Hs 1 0 support_rate_tbl) as (o & l & t & E & Et). bind_step E. bind_step Et.
  destruct (Hs 50 l t) as (o' & l' & t' & E' & Et'). bind_step E'. bind_step Et'. by eexists.
Qed.

Lemma parse_rates_total n s : 0 <= n <= left -> exists r s', rtw_ap_parse_sta_supported_rates b pos n s = Ret (r, s').
Proof using Hb Hp Hz.
  intros Hn. unfold rtw_ap_parse_sta_supported_rates. destruct (rates_total n Hn) as [l E]. bind_step E. destruct (_ =? _); by eexists _, _.
Qed.

Lemma parse_security_total s : exists r s' ie g m sp, parse_security k b el s = Ret (r, s', ie, g, m, sp) /\
  match ie with Some (p, l) => pos + 2 <= p /\ p + l <= pos + left /\ is_u8 l | None => True end.
Proof using Hb Hp Hz Hel.
  unfold parse_security.
  destruct (if has (s_wpa_psk k) 2 then el rsn_ie else None) as [[p l]|] eqn:E1; [|destruct (if has (s_wpa_psk k) 1 then el wpa_ie else None) as [[p l]|] eqn:E2].
  - destruct (has (s_wpa_psk k) 2); [|done]. apply Hel in E1 as Hb1. destruct Hb1 as (B1 & B2 & B3).
    destruct (Rsn.rtw_parse_wpa2_ie_safe b (p - 2) (l + 2)) as [E|(o & E & _)]; [done|lia|lia| |]; bind_step E; cbn [Z.eqb]; eexists _, _, (Some (p, l)), _, _, _; done.
  - destruct (has (s_wpa_psk k) 1); [|done]. apply Hel in E2 as Hb1. destruct Hb1 as (B1 & B2 & B3).
    destruct (wpa_total b (p - 2) (l + 2)) as (r & o & E); [done|lia|lia|]. bind_step E. destruct (negb _); eexists _, _, (Some (p, l)), _, _, _; done.
  - by eexists _, _, None, _, _, _.
Qed.

Lemma parse_wps_total ie s : match ie with Some (p, l) => pos + 2 <= p /\ p + l <= pos + left /\ is_u8 l | None => True end -> exists r s', parse_wps k b el ie s = Ret (r, s').
Proof using Hp Hz Hreg.
  intros Hie. unfold parse_wps. destruct ie as [[p l]|].
  - destruct (_ =? _); [by eexists _, _|]. destruct (el wps_ie); [by eexists _, _|]. destruct Hie as (B1 & B2 & B3). unfold is_u8 in B3.
    set (n := if 32 <? l + 2 then 32 else l + 2). assert (0 <= n <= 32 /\ n <= l + 2) as Hn by (unfold n; destruct (Z.ltb_spec 32 (l + 2)); lia). clearbody n.
    destruct (slice_total b (p - 2) n) as (v & Ev & Hv); [lia..|]. bind_step Ev. destruct (splice_total (replicate 32 0) 0 v) as [w Ew]; [done|change (zlen (replicate 32 0)) with 32; lia|]. bind_step Ew. by eexists _, _.
  - destruct Hreg as [r Er]. destruct (_ <? _); [bind_step Er|]; by eexists _, _.
Qed.

Lemma security_ie_total addr s : exists r s', rtw_ap_parse_sta_security_ie k addr b el s = Ret (r, s').
Proof using Hb Hp Hz Hel Hreg.
  unfold rtw_ap_parse_sta_security_ie. destruct (parse_security_total s) as (r & s' & ie & g & m & sp & E & Hie). bind_step E.
  repeat (match goal with |- exists _ _, (if ?x then _ else _) = _ => destruct x end; [by eexists _, _|]). by apply parse_wps_total.
Qed.

Lemma wmm_total n s : 0 <= n <= left -> exists s', rtw_ap_parse_sta_wmm_ie k b pos n s = Ret s'.
Proof using Hb Hp Hz.
  intros Hn. unfold rtw_ap_parse_sta_wmm_ie. destruct (negb _); [by eexists|].
  destruct (ie_ex_total b pos n WLAN_EID_VENDOR_SPECIFIC WMM_IE) as (p & l & E & Hq); [done|done|lia|done|]. bind_step E. destruct p as [p|]; [|by eexists].
  specialize (Hq p eq_refl). destruct (rd_bytes b (p + 8)) as (x & Ex & _); [done|lia|]. bind_step Ex. by eexists.
Qed.

Lemma op_element_total e n old : 0 <= n -> (forall p l, e = Some (p, l) -> 0 <= p /\ p + l <= zlen b) -> exists v, op_element b e n old = Ret v.
Proof.
  intros Hn He. unfold op_element. destruct e as [[p l]|]; [|by eexists]. destruct (Z.eqb_spec l n) as [->|]; [|by eexists].
  destruct (He p n eq_refl) as [B1 B2]. destruct (slice_total b p n) as (v & E & _); [done..|]. bind_step E. by eexists.
Qed.

Lemma el_inside f : forall p l, el f = Some (p, l) -> 0 <= p /\ p + l <= zlen b.
Proof using Hp Hz Hel. intros p l H. apply Hel in H as (? & ? & _). lia. Qed.

Lemma ht_total s : exists s', rtw_ap_parse_sta_ht_ie k b el s = Ret s'.
Proof using Hp Hz Hel.
  unfold rtw_ap_parse_sta_ht_ie. destruct (negb _); [by eexists|]. destruct (el ht_capabilities) as [[p l]|] eqn:E; [|by eexists].
  destruct (Z.leb_spec 26 l); [|by eexists]. apply el_inside in E as [B1 B2]. destruct (slice_total b p 26) as (v & Ev & _); [lia..|]. bind_step Ev.
  match goal with |- context [op_element b ?e ?n ?o] => destruct (op_element_total e n o) as [w Ew]; [lia|apply el_inside|] end. bind_step Ew. by eexists.
Qed.

Lemma vht_total s : exists s', rtw_ap_parse_sta_vht_ie k b el s = Ret s'.
Proof using Hp Hz Hel.
  unfold rtw_ap_parse_sta_vht_ie. destruct (negb _); [by eexists|]. destruct (el vht_capabilities) as [[p l]|] eqn:E; [|by eexists].
  destruct (Z.eqb_spec l 12) as [->|]; [|by eexists]. apply el_inside in E as [B1 B2]. destruct (slice_total b p 12) as (v & Ev & _); [lia..|]. bind_step Ev.
  destruct (op_element_total (el vht_operation) 5 None) as [w Ew]; [lia|apply el_inside|]. bind_step Ew.
  destruct (op_element_total (el vht_op_mode_notify) 1 None) as [x Ex]; [lia|apply el_inside|]. bind_step Ex. by eexists.
Qed.
End Request.

Lemma u16_le n : 0 <= n -> 0 <= u16 n <= n.
Proof. intros. unfold wrap. pose proof (Z.mod_pos_bound n (2 ^ 16) ltac:(lia)). pose proof (Z.mod_le n (2 ^ 16)). lia. Qed.

Lemma s32_small n : - 2 ^ 31 <= n < 2 ^ 31 -> s32 n = n.
Proof. intros. unfold s32. rewrite Z.mod_small; lia. Qed.

(** A frame of [len] octets, with room behind it. *)
Definition frame_ok (len : Z) (b : list Z) : Prop := bytes_ok b /\ 0 <= len < 2 ^ 31 /\ len + 300 <= zlen b.

Lemma parse_request_total c k addr b off len s : (exists r, registrar_ok k = Ret r) -> frame_ok len b -> 0 <= off <= 10 -> 24 + off <= len ->
  exists r s', parse_request c k addr b off len s = Ret (r, s').
Proof.
  intros Hreg (Hb & Hl & Hz) Ho Hle. unfold parse_request. destruct (negb _); [by eexists _, _|].
  destruct (parse_elems_total b (24 + off) (len - (24 + off))) as (r & el & E & Hel); [done|lia..|]. bind_step E. destruct (bool_decide _); [by eexists _, _|].
  destruct (get_le16_total b 24) as (cap & Ec & _); [done|lia|lia|]. bind_step Ec.
  assert (exists ok, match el ssid with None => Ret false | Some (p, l) => if (l =? 0) || negb (l =? zlen (s_ssid k)) then Ret false else memcmp_at b p (s_ssid k) end = Ret ok) as [ok Eok].
  { destruct (el ssid) as [[p l]|] eqn:Es; [|by eexists]. apply Hel in Es as (B1 & B2 & _). destruct (Z.eqb_spec l 0); [by eexists|]. destruct (Z.eqb_spec l (zlen (s_ssid k))); [|by eexists].
    cbn [orb negb]. apply memcmp_at_total; lia. }
  bind_step Eok. destruct (negb ok); [by eexists _, _|]. pose proof (u16_le (len - (24 + off)) ltac:(lia)) as Hu.
  match goal with |- context [rtw_ap_parse_sta_supported_rates b _ _ ?s0] => destruct (parse_rates_total b (24 + off) (len - (24 + off)) Hb ltac:(lia) ltac:(lia) _ s0 Hu) as (r1 & s1 & E1) end.
  bind_step E1. destruct (negb _); [by eexists _, _|].
  destruct (security_ie_total k b (24 + off) (len - (24 + off)) Hb ltac:(lia) ltac:(lia) el Hel Hreg addr s1) as (r2 & s2 & E2). bind_step E2. destruct (negb _); [by eexists _, _|].
  destruct (wmm_total k b (24 + off) (len - (24 + off)) Hb ltac:(lia) ltac:(lia) _ s2 Hu) as (s3 & E3). bind_step E3.
  destruct (ht_total k b (24 + off) (len - (24 + off)) ltac:(lia) ltac:(lia) el Hel s3) as (s4 & E4). bind_step E4.
  destruct (vht_total k b (24 + off) (len - (24 + off)) ltac:(lia) ltac:(lia) el Hel s4) as (s5 & E5). bind_step E5. by eexists _, _.
Qed.

(** ** The handlers *)

Section Handlers.
Context {T : Type} `{!StaTable T} (c : ap_cfg) (k : sec_cfg).
Context (Hacl : length (acl c) = 2%nat) (Hreg : exists r, registrar_ok k = Ret r) (Hmfp : s_mfp_opt k < 2).

Lemma js_total (st : ap_st (T := T)) a i : ap_inv c st -> tb_map (tab st) !! a = Some i -> exists s, get_js st i = Ret s /\ js st !! i = Some s.
Proof.
  intros [[L1 L2 _ _] _] Hm. unfold get_js. destruct (lookup_lt_is_Some_2 (js st) i) as [s Hs]; [rewrite L2; by eapply tb_lt|]. rewrite Hs. by eexists.
Qed.

Lemma free_total st a i : ap_inv c st -> tb_map (tab st) !! a = Some i -> exists st', free_sta st i = Ret st'.
Proof.
  intros I Hm. unfold free_sta. destruct (tb_free_ok (tab st) a i) as (t' & E & _); [apply I|done|]. bind_step E. destruct (js_total st a i I Hm) as (s & Es & _). bind_step Es. by eexists.
Qed.

Lemma auth_fail_total sa status o (st : ap_st (T := T)) : ap_inv c st -> match o with Some i => tb_map (tab st) !! sa = Some i | None => True end ->
  exists r st' out, auth_fail sa status o st = Ret (r, st', out).
Proof.
  intros I Ho. unfold auth_fail. destruct o as [i|]; [destruct (free_total st sa i I Ho) as [st' E]; bind_step E|]; by eexists _, _, _.
Qed.

Lemma auth_step_total algorithm seq mode len b s : frame_ok len b -> js_ok s -> exists r, auth_step c algorithm seq mode len b s = Ret r.
Proof.
  intros (Hb & Hl & Hz) [_ Hs]. unfold auth_step. destruct (negb _); [by eexists|]. destruct (_ && _); [destruct (seq =? 1); by eexists|].
  destruct (seq =? 1); [by eexists|]. destruct (seq =? 3); [|by eexists]. rewrite s32_small by lia.
  destruct (rtw_get_ie_safe b 34 _CHLGETXT_IE_ 0 (len - 34)) as ([o l] & E & H); [done|lia|lia|]. bind_step E. destruct o as [p|]; [|by eexists].
  destruct (l =? 0); [by eexists|]. destruct (H p l eq_refl) as (Hp & _). destruct (memcmp_at_total b (p + 2) (j_chg_txt s)) as [m Em]; [lia|lia|]. bind_step Em. destruct m; by eexists.
Qed.

Lemma auth_enter_total sa st : ap_inv c st -> is_unicast sa -> exists o st', auth_enter sa st = Ret (o, st').
Proof.
  intros I Hu. unfold auth_enter. rewrite get_uni by (done || apply I). simp_res. destruct (tb_map (tab st) !! sa) as [i|] eqn:E.
  - destruct (js_total st sa i I E) as (s & Es & _). bind_step Es. by eexists _, _.
  - unfold alloc_sta. destruct (tb_alloc_ok (tab st) sa) as [Ea|(i & t & Ea & _)]; [apply I|done|done| |]; bind_step Ea; simp_res; by eexists _, _.
Qed.

Lemma auth_sta_total algorithm seq mode len b sa st : ap_inv c st -> is_unicast sa -> Acl.rtw_access_ctrl (acl c) sa = Ret true -> frame_ok len b ->
  exists r st' o, auth_sta c algorithm seq mode len b sa st = Ret (r, st', o).
Proof.
  intros I Hu Ha Hf. unfold auth_sta. destruct (auth_enter_total sa st I Hu) as (q & st1 & E). destruct (auth_enter_inv c _ _ _ _ I Hu Ha E) as [I1 Hq]. bind_step E.
  destruct q as [i|]; [|by apply auth_fail_total]. destruct Hq as [Hm Hi]. destruct (js_total st1 sa i I1 Hm) as (s & Es & Hs). bind_step Es. pose proof (js_flags c _ _ _ I1 Hs) as Hok.
  rewrite unprot by done. destruct (auth_add_inv c st1 i I1) as (I2 & _ & Ea & Em & _); [by exists sa|]. set (st2 := auth_add i st1) in *. clearbody st2.
  set (s1 := if j_auth_seq s =? 0 then _ else s). assert (js_ok s1) as Hok1 by (unfold s1; by destruct (j_auth_seq s =? 0)). clearbody s1.
  destruct (_ && _); [by eexists _, _, _|]. destruct (auth_step_total algorithm seq mode len b s1 Hf Hok1) as [[status|s2] Er]; bind_step Er; [|by eexists _, _, _].
  apply auth_fail_total; [by apply put_js_inv; [| |rewrite Ea]|]. cbn. by rewrite Em.
Qed.

Lemma access_total a : exists r, Acl.rtw_access_ctrl (acl c) a = Ret r.
Proof using Hacl.
  assert (forall n, 0 <= n < 2 -> exists r, Acl._rtw_access_ctrl (acl c) n a = Ret r) as Hn.
  { intros n Hn. unfold Acl._rtw_access_ctrl. destruct (_ <=? _); [by eexists|]. destruct (rd_in (acl c) n) as (p & Ep & _); [unfold zlen; lia|].
    bind_step Ep. destruct (_ && _); by eexists. }
  unfold Acl.rtw_access_ctrl. destruct (Hn 0) as [r E]; [lia|]. bind_step E. destruct (negb r); [by eexists|]. destruct (Hn 1) as [r' E']; [lia|]. bind_step E'. destruct (negb r'); by eexists.
Qed.

Lemma check_total a : Sta.is_mac a -> exists r, rtw_check_invalid_mac_address a false = Ret r.
Proof.
  intros Ha. unfold rtw_check_invalid_mac_address, Sta.is_mac in *. destruct (_ || _); [by eexists|]. destruct (rd_in a 0) as (x & Ex & _); [lia|]. bind_step Ex. by eexists.
Qed.

(** Four default keys, each as long as its length says and of at most 13 octets. *)
Definition keys_ok : Prop := forall n, 0 <= n < 4 -> exists skey kl, rd (def_keys c) n = Ret skey /\ rd (def_keylen c) n = Ret kl /\ 0 <= kl <= 13 /\ kl <= zlen skey.

(** A frame whose body is not encrypted, or can be decrypted. *)
Definition readable (len : Z) (b : list Z) : Prop := exists x, rd b 1 = Ret x /\ (Z.land x 0x40 = 0 \/ (28 <= len /\ keys_ok)).

(** The first part of [OnAuth]: the frame as the rest of it reads it. *)
Lemma opened_total fc1 len b st : ap_inv c st -> frame_ok len b -> Z.land fc1 0x40 = 0 \/ (28 <= len /\ keys_ok) ->
  exists b' k' off, (if negb (Z.land fc1 0x40 =? 0) then
     iv3 ← rd b 27; skey ← rd (def_keys c) (Z.land (Z.shiftr iv3 6) 3); kl ← rd (def_keylen c) (Z.land (Z.shiftr iv3 6) 3);
     '(b, k) ← Wep.rtw_wep_decrypt (crc (T := T) st) b 0 len Wep._WEP40_ 24 4 skey kl; Ret (b, k, 4)
   else Ret (b, crc st, 0)) = Ret (b', k', off) /\ frame_ok len b' /\ Crc32.crc_inv k' /\ 0 <= off <= 4.
Proof.
  intros I Hf H. pose proof (ad_crc _ _ (proj2 I)) as Hc. pose proof Hf as (Hb & Hl & Hz). destruct (Z.eqb_spec (Z.land fc1 0x40) 0) as [E0|Hn]; cbn [negb].
  { exists b, (crc st), 0. split_and!; (done || lia). }
  destruct H as [?|[Hlen Hk]]; [done|]. destruct (rd_bytes b 27) as (iv3 & Ei & Bi); [done|lia|]. bind_step Ei.
  assert (0 <= Z.land (Z.shiftr iv3 6) 3 < 4) as Hr by (change 3 with (Z.ones 2); rewrite Z.land_ones by lia; apply Z.mod_pos_bound; lia).
  destruct (Hk _ Hr) as (skey & kl & E1 & E2 & Hkl & Hks). bind_step E1. bind_step E2.
  destruct (Wep.wep_decrypt_total (crc st) b len Wep._WEP40_ 24 4 skey kl) as (b' & E & Hb' & Lb'); [done|done|lia..|done|]. bind_step E.
  exists b', Crc32.crc_ready, 4. split; [done|]. unfold frame_ok. rewrite Lb'. split_and!; (done || lia || by right).
Qed.

Lemma OnAuth_total stime len b st : ap_inv c st -> frame_ok len b -> readable len b -> exists r st' o, OnAuth c stime len b st = Ret (r, st', o).
Proof using Hacl.
  intros I Hf0 (fc1 & E1 & Hp). pose proof Hf0 as (Hb0 & Hl0 & Hz0). unfold OnAuth. destruct (negb _); [by eexists _, _, _|]. destruct (negb _); [by eexists _, _, _|].
  destruct (slice_total b 10 6) as (sa & Es & Hsa); [lia..|]. bind_step Es. bind_step E1.
  destruct (opened_total fc1 len b st I Hf0 Hp) as (b' & k' & off & Eo & Hf & Hk' & Hoff). cbn zeta. rewrite Eo. simp_res.
  pose proof Hf as (Hb & Hl & Hz).
  destruct (get_le16_total b' (24 + off)) as (alg & Ea & _); [done|lia|lia|]. bind_step Ea. destruct (get_le16_total b' (24 + off + 2)) as (seq & Eq & _); [done|lia|lia|]. bind_step Eq.
  destruct (check_total sa Hsa) as [bad Eb]. bind_step Eb. destruct bad; [by eexists _, _, _|]. apply valid_unicast in Eb; [|done].
  unfold rtw_defs_attack_chk. apply (set_crc_inv c k') in I; [|done]. revert I. clear Eo. generalize (set_crc k' st) as st1. intros st1 I.
  apply (set_ptime_inv c stime) in I. set (attack := _ && (defs_lmt_sta c <=? _)). clearbody attack. revert I. generalize (set_ptime stime st1) as st2. intros st2 I.
  assert (exists known, (if attack then o ← tb_get (tab st2) sa; match o with None => Ret false | Some i => s ← get_js st2 i; Ret (has (j_state s) WIFI_FW_ASSOC_SUCCESS) end else Ret true) = Ret known)
    as [known Ek].
  { destruct attack; [|by eexists]. rewrite get_uni by (done || apply I). simp_res. destruct (tb_map (tab st2) !! sa) as [i|] eqn:Em; [|by eexists].
    destruct (js_total st2 sa i I Em) as (s & Ej & _). bind_step Ej. by eexists. }
  bind_step Ek. repeat (destruct (negb _); [by apply auth_fail_total|]). match goal with |- context [(0 <? alg) && ?x || ?y] => destruct ((0 <? alg) && x || y) end; [by apply auth_fail_total|].
  destruct (access_total sa) as [ok Eok]. bind_step Eok. destruct ok; cbn [negb]; [by apply auth_sta_total|by apply auth_fail_total].
Qed.

Lemma OnAssocReq_total alloc len b st : ap_inv c st -> frame_ok len b -> exists r st' o, OnAssocReq c k alloc len b st = Ret (r, st', o).
Proof using Hacl Hreg.
  intros I Hf. pose proof Hf as (Hb & Hl & Hz). unfold OnAssocReq. destruct (negb _); [by eexists _, _, _|].
  destruct (slice_total b 10 6) as (sa & Es & Hsa); [lia..|]. bind_step Es. destruct (check_total sa Hsa) as [bad Eb]. bind_step Eb. destruct bad; [by eexists _, _, _|].
  apply valid_unicast in Eb; [|done]. destruct (get_le16_total b 0) as (fc & Ec & _); [done|lia|lia|]. bind_step Ec.
  set (off := if negb (Z.land fc 252 =? 0) then 10 else 4). assert (0 <= off <= 10) as Ho by (unfold off; destruct (negb _); lia). clearbody off.
  destruct (Z.ltb_spec len (24 + off)); [by eexists _, _, _|]. rewrite get_uni by (done || apply I). simp_res. destruct (tb_map (tab st) !! sa) as [i|] eqn:Hm; [|by eexists _, _, _].
  destruct (js_total st sa i I Hm) as (s & Ej & _). bind_step Ej. destruct (_ && has (j_state s) WIFI_FW_AUTH_NULL); [by eexists _, _, _|]. destruct (_ && _); [by eexists _, _, _|].
  match goal with |- context [parse_request c k sa b off len ?s0] => destruct (parse_request_total c k sa b off len s0 Hreg Hf Ho ltac:(lia)) as (r1 & s1 & E1) end.
  bind_step E1. destruct (negb _); [by eexists _, _, _|].
  assert (exists ok st1, assign_aid st i = Ret (ok, st1)) as (ok & st1 & Ea).
  { unfold assign_aid. destruct (0 <? tb_aid (tab st) i) eqn:E0; [by eexists _, _|]. pose proof I as [[L1 _ _ _] [_ A2 _ _ _ _]].
    destruct (tb_aid_alloc_ok (tab st) sa i L1 Hm) as (n & t & E & _); [specialize (A2 sa i Hm); lia|]. bind_step E. by eexists _, _. }
  bind_step Ea. destruct (negb ok); [by eexists _, _, _|]. unfold join. destruct (slice_total b 0 len) as (req & Er & _); [lia..|].
  match goal with |- context [if ?x then (?p, ?q) else (?p', ?q')] => destruct x end; bind_step Er; by eexists _, _, _.
Qed.

(** ** Events *)

(** A frame as [step] needs it; deauthentication and disassociation reach their
    handlers with at least a header and a reason code. *)
Definition event_ok (e : event) : Prop :=
  match e with
  | EvAuth _ len b => frame_ok len b /\ readable len b
  | EvAssoc _ len b => frame_ok len b
  | EvDeauth b | EvDisassoc b => bytes_ok b /\ 26 <= zlen b
  | EvKey a => Sta.is_mac a
  | EvReport => True
  end.

Lemma get_total (t : T) a : tb_inv t -> Sta.is_mac a -> exists d, tb_get t a = Ret (tb_map t !! d).
Proof. intros I Ha. destruct (mcast_total a Ha) as [mc E]. eexists. by apply tb_get_ok. Qed.

Lemma OnDeAuth_total bssid b st : ap_inv c st -> bytes_ok b /\ 26 <= zlen b -> exists r st' o, OnDeAuth bssid b st = Ret (r, st', o).
Proof.
  intros I [Hb Hl]. unfold OnDeAuth. destruct (slice_total b 16 6) as (a3 & E3 & _); [lia..|]. bind_step E3. destruct (negb _); [by eexists _, _, _|].
  destruct (get_le16_total b 24) as (reason & Er & _); [done|lia|lia|]. bind_step Er. destruct (slice_total b 10 6) as (a & Ea & Ha); [lia..|]. bind_step Ea.
  destruct (get_total (tab st) a) as [d Ed]; [apply I|done|]. bind_step Ed. destruct (tb_map (tab st) !! d) as [i|] eqn:Hm; [|by eexists _, _, _]. case_bool_decide as Hi; [|by eexists _, _, _].
  destruct (asoc_del_inv c st i I) as (I1 & Hni & Et & Ej & _). destruct (js_total (asoc_del i st) d i I1) as (s & Es & _); [by rewrite Et|].
  unfold ap_free_sta. bind_step Es. by eexists _, _, _.
Qed.

Lemma step_total bssid e n : node_inv c n -> event_ok e -> exists n' o, step c k bssid e n = Ret (n', o).
Proof using Hacl Hreg Hmfp.
  destruct n as [st q]. intros [I Hq] He. cbn [fst snd] in *. destruct e as [stime len b|alloc len b|b|b|a|]; cbn [step event_ok] in *; unfold queued.
  - destruct He as [Hf Hc]. destruct (OnAuth_total stime len b st I Hf Hc) as (r & st1 & o & E). bind_step E. by eexists _, _.
  - destruct (OnAssocReq_total alloc len b st I He) as (r & st1 & o & E). bind_step E. by eexists _, _.
  - destruct (OnDeAuth_total bssid b st I He) as (r & st1 & o & E). bind_step E. by eexists _, _.
  - destruct (OnDeAuth_total bssid b st I He) as (r & st1 & o & E). unfold OnDisassoc. bind_step E. by eexists _, _.
  - destruct (get_total (tab st) a) as [d Ed]; [apply I|done|]. bind_step Ed. destruct (tb_map (tab st) !! d) as [i|] eqn:Hm; [|by eexists _, _].
    destruct (js_total st d i I Hm) as (s & Es & _). bind_step Es. by eexists _, _.
  - destruct q as [|a q]; [by eexists _, _|]. apply Forall_cons in Hq as [[Ha _] _]. unfold rtw_stadel_event_callback.
    destruct (get_total (tab st) a) as [d Ed]; [apply I|done|]. bind_step Ed. destruct (tb_map (tab st) !! d) as [i|] eqn:Hm; [|simp_res; by eexists _, _].
    destruct (free_total st d i I Hm) as (st1 & E). bind_step E. by eexists _, _.
Qed.

(** A sequence of events along which every frame can be read and no station asks to be
    associated while its own departure waits. *)
Fixpoint admissible (bssid : list Z) (l : list event) (n : node (T := T)) : Prop :=
  match l with
  | [] => True
  | e :: l => event_ok e /\ timely n.2 e /\ forall n' o, step c k bssid e n = Ret (n', o) -> admissible bssid l n'
  end.
End Handlers.

(** ** A concrete access point *)

Definition sample_table : table_st := TableSt (Sta._rtw_init_sta_priv Macid.sample_macid) Macid.sample_macid (Cam.sample_cam 1) Macid.sample_ap.
Definition sample_st : ap_st := ApSt sample_table (replicate 32 blank_jsta) [] 0 0 Mfp.sample_crc.
Definition sample_cfg (alg priv : Z) (keys : list (list Z)) : ap_cfg :=
  ApCfg 3 true alg priv keys (replicate 4 5) (replicate 2 Acl.rtw_macaddr_acl_init) true 0 0 10 10 60 20 1000.
Definition wpa2 : ap_cfg := sample_cfg 2 4 [].
Definition sample_sec (mfp : Z) : sec_cfg :=
  SecCfg 2 2 0 0x10 0 0x10 4 mfp Bip._BIP_CMAC_128_ 0 false (fun _ => false) None true false false [110; 101; 116].
Definition ap_addr : list Z := [2; 2; 2; 2; 2; 2].
Definition sta : list Z := [2; 0; 0; 0; 0; 1].
Definition mgmt (fc : Z) (body : list Z) : list Z := [fc; 0; 0; 0] ++ ap_addr ++ sta ++ ap_addr ++ [0; 0] ++ body ++ replicate 300 0.
Definition auth_ev (body : list Z) : event := EvAuth 5 (24 + zlen body) (mgmt 0xb0 body).
Definition rsn_elem (caps : Z) : list Z := [48; 20; 1; 0; 0; 15; 0xac; 4; 1; 0; 0; 15; 0xac; 4; 1; 0; 0; 15; 0xac; 2; caps; 0].
Definition request (caps : Z) : list Z := [0x11; 0; 10; 0; 0; 3; 110; 101; 116; 1; 2; 0x82; 12] ++ rsn_elem caps.
Definition assoc_ev (caps : Z) : event := EvAssoc true (24 + zlen (request caps)) (mgmt 0 (request caps)).
Definition open1 : list Z := [0; 0; 1; 0; 0; 0].

Lemma sample_inv c : ap_inv c sample_st.
Proof.
  destruct (Sta.init_inv Macid.sample_macid) as [Hi Ht].
  assert (tb_map (tab sample_st) = ∅) as Hm by exact Ht.
  split; split; try done; rewrite ?Hm; try by intros ?.
  - split; [exact Hi|]. split; [exact Macid.sample_macid_inv|]. split; [by split; by_eval|]. intros i Hh. exfalso. revert Hh. vm_compute. by intros []%elem_of_nil.
  - split_and!; [constructor| |done]. by intros i []%elem_of_nil.
  - split_and!; [constructor| |done]. by intros i []%elem_of_nil.
  - by intros i []%elem_of_nil.
  - by apply Forall_replicate.
  - by left.
Qed.

(** ** Every run *)

(** C14: An access point that does not use management frame protection serves every
    sequence of authentication, association, deauthentication and disassociation
    frames, key installations and turns of the command thread (which releases the
    station whose departure was reported first), in any order, whatever octets the
    frames hold: no handler leaves a buffer or fails to return.  Afterwards the table,
    the lists and their counters agree, every unicast station of the table is one the
    access list admits, no two stations have the same association id, every station on
    the list of the associated ones has an id and the state of an associated station,
    and no station whose departure waits is on that list.  [admissible] asks that 300
    octets behind an authentication or association frame are readable; that a protected
    authentication frame has 28 octets and finds four default keys of at most 13 octets;
    that a deauthentication or disassociation has 26 octets; and that no station sends an
    association request while its own departure waits to be handled: that one case
    breaks the invariant ([late_event_dangles]). *)
Theorem admission_invariant {T} `{!StaTable T} (c : ap_cfg) (k : sec_cfg) bssid l (n : node (T := T)) :
  length (acl c) = 2%nat -> (exists r, registrar_ok k = Ret r) -> s_mfp_opt k < 2 -> node_inv c n -> admissible c k bssid l n ->
  exists n' o, run c k bssid l n = Ret (n', o) /\ node_inv c n'.
Proof.
  intros Ha Hr Hk. revert n. induction l as [|e l IH]; intros n I He; cbn [run]; [by eexists _, _|]. destruct He as (He & Ht & Hl).
  destruct (step_total c k Ha Hr Hk bssid e n I He) as (n1 & o1 & E1). pose proof (step_inv c k bssid e n n1 o1 Hk I Ht E1) as I1. specialize (Hl _ _ E1). bind_step E1.
  destruct (IH n1 I1 Hl) as (n2 & o2 & E2 & I2). bind_step E2. by eexists _, _.
Qed.

Lemma mgmt_frame_ok fc body : is_u8 fc -> bytes_ok body -> zlen body <= 1000 -> frame_ok (24 + zlen body) (mgmt fc body) /\ bytes_ok (mgmt fc body) /\ 26 <= zlen (mgmt fc body).
Proof.
  intros Hf Hb Hl. pose proof (zlen_nonneg body).
  assert (bytes_ok (mgmt fc body)) as Hm.
  { apply Forall_app. split; [apply Forall_cons; split; [done|by_eval]|]. do 4 (apply Forall_app; split; [by_eval|]). apply Forall_app. split; [done|]. by apply Forall_replicate. }
  assert (zlen (mgmt fc body) = 324 + zlen body) as Hz.
  { unfold mgmt. rewrite !zlen_app. change (zlen (replicate 300 0)) with 300. change (zlen [fc; 0; 0; 0]) with 4. change (zlen ap_addr) with 6. change (zlen sta) with 6. change (zlen [0; 0]) with 2. lia. }
  unfold frame_ok. rewrite Hz. split_and!; (done || lia).
Qed.

(** A station authenticates, associates and gets its key; it deauthenticates and, before
    its departure is handled, authenticates again; then it is released, and comes back. *)
Definition sample_run : list event :=
  [auth_ev open1; assoc_ev 0; EvKey sta; EvDeauth (mgmt 0xc0 [3; 0]); auth_ev open1; EvReport; auth_ev open1; assoc_ev 0; EvDisassoc (mgmt 0xa0 [8; 0])].

Lemma sample_admissible : admissible wpa2 (sample_sec 0) ap_addr sample_run (sample_st, []).
Proof.
  assert (forall stime body, bytes_ok body -> zlen body <= 1000 -> event_ok wpa2 (EvAuth stime (24 + zlen body) (mgmt 0xb0 body))) as Hauth.
  { intros stime body Hb Hl. split; [by apply mgmt_frame_ok|]. exists 0. split; [done|by left]. }
  unfold sample_run.
  repeat (split; [first [exact I|reflexivity|by apply Hauth; by_eval|apply mgmt_frame_ok; by_eval]|split; [first [exact I|intros a _; by apply not_elem_of_nil]|
    intros n' o H; vm_compute in H; injection H as <- <-]]). exact I.
Qed.

Lemma admission_invariant_witness : exists n' o, run wpa2 (sample_sec 0) ap_addr sample_run (sample_st, []) = Ret (n', o) /\ node_inv wpa2 n'.
Proof.
  apply (admission_invariant wpa2 (sample_sec 0) ap_addr sample_run (sample_st, []));
    [reflexivity|exists true; reflexivity|reflexivity|split; [apply sample_inv|apply Forall_nil_2]|exact sample_admissible].
Defined.
End Total.
