(* ===== verification/Accept.v ===== *)
(** * What it takes to be accepted, and what goes wrong

    A station whose association request is answered with success was authenticated,
    asked for this network, and agreed on ciphers the network uses; runs on concrete
    frames, also those in which the handlers lose track of a station. *)
From stdpp Require Import gmap.
From S2P Require Import Prelude Ies Elems Rsn Attrs Arc4 Michael Tkip Bip Cam Macid Sta Acl Mfp Table Auth Assoc Admit Total.

Module Accept.
Import Ies Elems Table Auth Assoc Admit Total.

(** ** Agreement *)













(** ** Acceptance *)

Section Accept.
Context {T : Type} `{!StaTable T} (c : ap_cfg) (k : sec_cfg).




End Accept.

(** ** Runs *)

Definition associated : list event := [auth_ev open1; assoc_ev 0].
Definition associated_mfp : list event := [auth_ev open1; assoc_ev 0x80].


(** The third way in: a network with RSN and without a WPS element in its beacon
    associates a station whose request has no RSN element; its port stays closed. *)
Definition bare_request : list Z := [0x11; 0; 10; 0; 0; 3; 110; 101; 116; 1; 2; 0x82; 12].
Theorem no_ciphers_associates : exists n o,
  run wpa2 (sample_sec 0) ap_addr [auth_ev open1; EvAssoc true (24 + zlen bare_request) (mgmt 0 bare_request)] (sample_st, []) = Ret (n, o) /\
  ASOCRSP sta 0 false ∈ o /\ asoc_list n.1 = [0%nat] /\
  (fun s => (n_wpa_psk (sec s), j_blocked s)) <$> js n.1 !! 0%nat = Some (0, true).
Proof. eexists _, _. split; [vm_compute; reflexivity|]. split; [by right; right; left|]. split; reflexivity. Qed.

(** What a reader of the two lists sees: the associated stations and the stations of
    the table. *)
Definition lists (r : res (node (T := table_st) * list out)) : option (list nat * list nat) :=
  match r with Ret ((st, _), _) => Some (asoc_list st, tb_members (tab st)) | _ => None end.

(** With management frame protection the invariant fails.  An authentication frame
    with a wrong sequence number, which anyone can send, makes [OnAuth] release a
    station that is associated and has its key; the list of the associated stations
    still has it. *)
Theorem mfp_auth_fail_dangles :
  lists (run wpa2 (sample_sec 2) ap_addr (associated_mfp ++ [EvKey sta]) (sample_st, [])) = Some ([0%nat], [0%nat]) /\
  lists (run wpa2 (sample_sec 2) ap_addr (associated_mfp ++ [EvKey sta; auth_ev [0; 0; 2; 0; 0; 0]]) (sample_st, [])) = Some ([0%nat], []).
Proof. split; vm_compute; reflexivity. Qed.

(** A station that deauthenticates and associates again before the report of its
    departure is handled is released by that report, and stays on the list. *)
Theorem late_event_dangles :
  lists (run wpa2 (sample_sec 0) ap_addr (associated ++ [EvDeauth (mgmt 0xc0 [3; 0])] ++ associated) (sample_st, [])) = Some ([0%nat], [0%nat]) /\
  lists (run wpa2 (sample_sec 0) ap_addr (associated ++ [EvDeauth (mgmt 0xc0 [3; 0])] ++ associated ++ [EvReport]) (sample_st, [])) = Some ([0%nat], []).
Proof. split; vm_compute; reflexivity. Qed.

(** Shared key authentication admits a station that knows no key: the challenge is
    always the same 128 octets, and the answer need not be encrypted. *)
Theorem shared_key_needs_no_key keys : exists n o,
  run (sample_cfg 1 Wep._WEP40_ keys) (sample_sec 0) ap_addr
    [auth_ev [1; 0; 1; 0; 0; 0]; auth_ev ([1; 0; 3; 0; 0; 0] ++ replicate 4 0 ++ _CHLGETXT_IE_ :: 128 :: replicate 128 78)] (sample_st, []) = Ret (n, o) /\
  (fun s => has (j_state s) WIFI_FW_AUTH_SUCCESS) <$> js n.1 !! 0%nat = Some true.
Proof. eexists _, _. split; [vm_compute; reflexivity|]. reflexivity. Qed.

(** A station that authenticates again out of sequence is released without
    [bss_cap_update_on_sta_leave]: what it was counted for when it joined stays
    counted. *)
Theorem release_without_leave : exists n o, run wpa2 (sample_sec 0) ap_addr (associated ++ [auth_ev [0; 0; 2; 0; 0; 0]]) (sample_st, []) = Ret (n, o) /\
  BSS_JOIN 0 ∈ o /\ tb_members (tab n.1) = [] /\ Forall (fun x => match x with BSS_LEAVE _ => False | _ => True end) o.
Proof. eexists _, _. split; [vm_compute; reflexivity|]. split; [by right; left|]. split; [reflexivity|by repeat constructor]. Qed.

(** A protected authentication frame of which nothing follows the IV is decrypted; one
    that ends before the IV makes the length of the cipher text wrap. *)
Example short_wep_auth : let c := sample_cfg 1 Wep._WEP40_ (replicate 4 (replicate 16 7)) in let f n := EvAuth 5 n ([0xb0; 0x40; 0; 0] ++ drop 4 (mgmt 0xb0 open1)) in
  (exists n o, run c (sample_sec 0) ap_addr [f 28] (sample_st, []) = Ret (n, o)) /\ run c (sample_sec 0) ap_addr [f 27] (sample_st, []) = Oob.
Proof. split; [eexists _, _|]; vm_compute; reflexivity. Qed.
End Accept.
