(* ===== verification/Bss.v ===== *)
(** * Capabilities of the network, protection of legacy stations

    Models, of [core/rtw_ap.c], [bss_cap_update_on_sta_join] and
    [bss_cap_update_on_sta_leave], [rtw_ht_operation_update],
    [rtw_process_public_act_bsscoex], [_update_beacon], [update_bcn_erpinfo_ie] and
    [update_bcn_htinfo_ie], and [ERP_IE_handler] of [core/rtw_wlan_util.c].  They count
    the associated stations that lack a capability and tell all stations, in the ERP
    and HT operation elements of the beacon, to protect their transmissions.

    The seven counters [num_sta_*] of [mlme_priv] and the seven flags [*_set] of
    [sta_info] are functions of [feat].  A station is its index.  Mesh is compiled
    out; the bandwidth of the stations ([associated_clients_update],
    [associated_stainfo_update]) and the mark [update_bcn] are left out; sending the beacon
    ([set_tx_beacon_cmd]) is counted. *)
From stdpp Require Import functions.
From S2P Require Import Prelude Ies Cam Macid Sta Tim.

Module Bss.
Import Ies Cam Sta Tim.

(** ** Data *)

Inductive feat := NoShortPreamble | NonErp | NoShortSlot | NoGf | NoHt | Ht20 | Int40.
#[export] Instance feat_eq_dec : EqDecision feat.
Proof. solve_decision. Defined.

Definition WLAN_STA_SHORT_PREAMBLE : Z := 0x80.
Definition WLAN_STA_HT : Z := 0x800.
Definition WLAN_STA_NONERP : Z := 0x80000000.
Definition WLAN_CAPABILITY_SHORT_SLOT : Z := 0x400.
Definition IEEE80211_HT_CAP_SUP_WIDTH : Z := 2.
Definition IEEE80211_HT_CAP_GRN_FLD : Z := 0x10.
Definition RTW_IEEE80211_HT_CAP_40MHZ_INTOLERANT : Z := 0x4000.
Definition WIRELESS_11B : Z := 1.
Definition _ERPINFO_IE_ : Z := 42.
Definition _HT_CAPABILITY_IE_ : Z := 45.
Definition _HT_ADD_INFO_IE_ : Z := 61.
Definition OP_MODE_PURE : Z := 0.
Definition OP_MODE_MAY_BE_LEGACY_STAS : Z := 1.
Definition OP_MODE_20MHZ_HT_STA_ASSOCED : Z := 2.
Definition OP_MODE_MIXED : Z := 3.
Definition NON_GF_DEVS_PRESENT : Z := 4.
Definition NON_HT_STA_PRESENT : Z := 16.

Definition has (v m : Z) : bool := negb (Z.land v m =? 0).

(** [flags], [capability] and the [cap_info] of the HT capabilities of a station. *)
Record caps := Caps { c_flags : Z; c_capability : Z; c_ht : Z }.

(** What stays while the network is up.  [ht_on]: [registrypriv.ht_enable] and a mode
    with HT; [olbc], [olbc_ht]: overlapping networks, as the last scan left them;
    [bcn_alloc]: [rtw_malloc] gives [update_BCNTIM] its buffer. *)
Record bss_cfg := BssCfg {
  bstart_bss : bool; cur_wireless_mode : Z; ht_on : bool; ht_option : bool; HT_info_enable : Z; ap_cap_info : Z;
  cur_channel : Z; cur_bwmode : Z; cur_ch_offset : Z; olbc : bool; olbc_ht : bool; bcn_alloc : bool }.

(** [ies] and [ielen] are the elements of the beacon, 12 fixed octets first. *)
Record bss := Bss {
  ies : list Z; ielen : Z; tim_bmp : list Z; cnt : feat -> Z; stas : list (feat -> bool);
  ht_op_mode : Z; sw_to_20mhz : bool; width_req : bool; ch_reported : bool; erp_enable : bool; erp_ie : Z; bcn_tx : nat }.

Definition set_bcn (b : list Z) (n : Z) (s : bss) : bss := Bss b n (tim_bmp s) (cnt s) (stas s) (ht_op_mode s) (sw_to_20mhz s) (width_req s) (ch_reported s) (erp_enable s) (erp_ie s) (bcn_tx s).
Definition set_tim (t : list Z) (s : bss) : bss := Bss (ies s) (ielen s) t (cnt s) (stas s) (ht_op_mode s) (sw_to_20mhz s) (width_req s) (ch_reported s) (erp_enable s) (erp_ie s) (bcn_tx s).
Definition set_cnt (c : feat -> Z) (l : list (feat -> bool)) (s : bss) : bss := Bss (ies s) (ielen s) (tim_bmp s) c l (ht_op_mode s) (sw_to_20mhz s) (width_req s) (ch_reported s) (erp_enable s) (erp_ie s) (bcn_tx s).
Definition set_mode (m : Z) (s : bss) : bss := Bss (ies s) (ielen s) (tim_bmp s) (cnt s) (stas s) m (sw_to_20mhz s) (width_req s) (ch_reported s) (erp_enable s) (erp_ie s) (bcn_tx s).
Definition set_sw (b : bool) (s : bss) : bss := Bss (ies s) (ielen s) (tim_bmp s) (cnt s) (stas s) (ht_op_mode s) b (width_req s) (ch_reported s) (erp_enable s) (erp_ie s) (bcn_tx s).
Definition set_coex (w r : bool) (s : bss) : bss := Bss (ies s) (ielen s) (tim_bmp s) (cnt s) (stas s) (ht_op_mode s) (sw_to_20mhz s) w r (erp_enable s) (erp_ie s) (bcn_tx s).
Definition set_erp (e : bool) (v : Z) (s : bss) : bss := Bss (ies s) (ielen s) (tim_bmp s) (cnt s) (stas s) (ht_op_mode s) (sw_to_20mhz s) (width_req s) (ch_reported s) e v (bcn_tx s).
Definition tx_beacon (s : bss) : bss := Bss (ies s) (ielen s) (tim_bmp s) (cnt s) (stas s) (ht_op_mode s) (sw_to_20mhz s) (width_req s) (ch_reported s) (erp_enable s) (erp_ie s) (S (bcn_tx s)).

(** ** The beacon *)

Definition ERP_IE_handler (b : list Z) (p : Z) (s : bss) : res bss :=
  l ← rd b (p + 1);
  if 1 <? l then Ret s else if l =? 1 then v ← rd b (p + 2); Ret (set_erp true v s) else Ret (set_erp true (erp_ie s) s).

Definition update_bcn_erpinfo_ie (s : bss) : res bss :=
  if negb (erp_enable s) then Ret s
  else
    '(p, len) ← rtw_get_ie (ies s) 12 _ERPINFO_IE_ 0 (ielen s - 12);
    match p with
    | Some p =>
        if 0 <? len then
          v ← rd (ies s) (p + 2);
          let v := if cnt s NonErp =? 1 then Z.lor v 3 else Z.ldiff v 3 in
          let v := if 0 <? cnt s NoShortPreamble then Z.lor v 4 else Z.ldiff v 4 in
          b ← wr (ies s) (p + 2) v;
          ERP_IE_handler b p (set_bcn b (ielen s) s)
        else Ret s
    | None => Ret s
    end.

(** [SET_HT_OP_ELE_2ND_CHL_OFFSET] and [SET_HT_OP_ELE_STA_CHL_WIDTH] of one octet. *)
Definition set_width (v offset width : Z) : Z := Z.lor (Z.ldiff (Z.lor (Z.ldiff v 3) offset) 4) (Z.shiftl width 2).

Definition intolerant (c : bss_cfg) (s : bss) : bool := (0 <? cnt s Int40) || width_req s || ch_reported s || olbc c.

(** The octet with the channel width, at [p + 3]: back to 20 MHz when a station does
    not tolerate more, and to 40 MHz when all do. *)
Definition update_width (c : bss_cfg) (p : Z) (s : bss) : res (list Z * bool) :=
  if negb (sw_to_20mhz s) && (cur_channel c <=? 14) then
    if intolerant c s then v ← rd (ies s) (p + 3); b ← wr (ies s) (p + 3) (set_width v 0 0); Ret (b, true)
    else Ret (ies s, sw_to_20mhz s)
  else if (cnt s Int40 =? 0) && negb (width_req s) && negb (ch_reported s) && negb (olbc c) && (1 <=? cur_bwmode c) then
    v ← rd (ies s) (p + 3); b ← wr (ies s) (p + 3) (set_width v (if cur_ch_offset c =? 1 then 1 else 3) 1); Ret (b, false)
  else Ret (ies s, sw_to_20mhz s).

Definition update_bcn_htinfo_ie (c : bss_cfg) (s : bss) : res bss :=
  if negb (ht_option c) then Ret s
  else if negb (HT_info_enable c =? 1) then Ret s
  else
    '(p, len) ← rtw_get_ie (ies s) 12 _HT_ADD_INFO_IE_ 0 (ielen s - 12);
    match p with
    | Some p =>
        if 0 <? len then
          '(b, sw) ← update_width c p s;
          b ← splice b (p + 4) (le16 (ht_op_mode s));
          Ret (set_sw sw (set_bcn b (ielen s) s))
        else Ret s
    | None => Ret s
    end.

(** [update_beacon] for the elements the handlers below update (0xFF is none of them,
    and the function for the HT capabilities does nothing); [tx]: send it.  The cases
    of the security, extended capability and vendor elements are for other callers and
    left out. *)
Definition update_beacon (c : bss_cfg) (ie_id : Z) (tx : bool) (s : bss) : res bss :=
  if negb (bstart_bss c) then Ret s
  else
    s ← (if ie_id =? _TIM_IE_ then '(b, n) ← update_BCNTIM (bcn_alloc c) (tim_bmp s) (ies s) (ielen s); Ret (set_bcn b n s)
         else if ie_id =? _ERPINFO_IE_ then update_bcn_erpinfo_ie s
         else if ie_id =? _HT_ADD_INFO_IE_ then update_bcn_htinfo_ie c s
         else Ret s);
    Ret (if tx then tx_beacon s else s).

(** ** Counting *)

(** [if (psta->x_set != v) { psta->x_set = v; num_sta_x++ (or --); }]: the state, and
    whether anything changed. *)
Definition change (f : feat) (i : nat) (v : bool) (s : bss) : res (bool * bss) :=
  fl ← rd (stas s) (Z.of_nat i);
  if eqb (fl f) v then Ret (false, s)
  else l ← wr (stas s) (Z.of_nat i) (<[f := v]> fl);
       Ret (true, set_cnt (<[f := cnt s f + (if v then 1 else -1)]> (cnt s)) l s).

(** A change whose counter reaches the value [n]. *)
Definition reaches (f : feat) (n : Z) (r : bool * bss) : bool := r.1 && (cnt r.2 f =? n).

Definition op_mode (c : bss_cfg) (s : bss) : Z :=
  if negb (cnt s NoHt =? 0) then OP_MODE_MIXED
  else if has (ap_cap_info c) IEEE80211_HT_CAP_SUP_WIDTH && negb (cnt s Ht20 =? 0) then OP_MODE_20MHZ_HT_STA_ASSOCED
  else if olbc_ht c then OP_MODE_MAY_BE_LEGACY_STAS
  else OP_MODE_PURE.

(** A bit of the mode is brought in line; the number of changes goes on from [n]. *)
Definition sync_bit (m : Z) (v : bool) (r : Z * Z) : Z * Z :=
  let '(mode, n) := r in
  if negb (has mode m) && v then (Z.lor mode m, n + 1) else if has mode m && negb v then (Z.ldiff mode m, n + 1) else (mode, n).

Definition rtw_ht_operation_update (c : bss_cfg) (s : bss) : Z * bss :=
  if negb (ht_option c) then (0, s)
  else
    let r := sync_bit NON_GF_DEVS_PRESENT (negb (cnt s NoGf =? 0)) (ht_op_mode s, 0) in
    let '(m, n) := sync_bit NON_HT_STA_PRESENT (negb (cnt s NoHt =? 0) || olbc_ht c) r in
    if Z.land m 3 =? op_mode c s then (n, set_mode m s) else (n + 1, set_mode (Z.lor (Z.ldiff m 3) (op_mode c s)) s).

(** The end of both handlers: the HT elements when the mode has changed. *)
Definition ht_update (c : bss_cfg) (s : bss) : res (bool * bss) :=
  let '(n, s) := rtw_ht_operation_update c s in
  if 0 <? n then
    s ← update_beacon c _HT_CAPABILITY_IE_ false s;
    s ← update_beacon c _HT_ADD_INFO_IE_ false s;
    Ret (true, s)
  else Ret (false, s).

(** ** A station joins *)

(** The HT part of [bss_cap_update_on_sta_join]. *)
Definition join_ht (c : bss_cfg) (i : nat) (q : caps) (s : bss) : res (bool * bss) :=
  s ← (if has (c_flags q) WLAN_STA_HT then
         '(_, s) ← change NoHt i false s;
         '(_, s) ← (if has (c_ht q) IEEE80211_HT_CAP_GRN_FLD then Ret (false, s) else change NoGf i true s);
         '(_, s) ← (if has (c_ht q) IEEE80211_HT_CAP_SUP_WIDTH then Ret (false, s) else change Ht20 i true s);
         '(_, s) ← (if has (c_ht q) RTW_IEEE80211_HT_CAP_40MHZ_INTOLERANT then change Int40 i true s else Ret (false, s));
         Ret s
       else '(_, s) ← change NoHt i true s; Ret s);
  ht_update c s.

Definition bss_cap_update_on_sta_join (c : bss_cfg) (i : nat) (q : caps) (s : bss) : res bss :=
  let above := WIRELESS_11B <? cur_wireless_mode c in
  let nopre := negb (has (c_flags q) WLAN_STA_SHORT_PREAMBLE) in
  r ← change NoShortPreamble i nopre s;
  let u1 := above && reaches NoShortPreamble (if nopre then 1 else 0) r in
  let nonerp := has (c_flags q) WLAN_STA_NONERP in
  r ← change NonErp i nonerp r.2;
  let u2 := reaches NonErp (if nonerp then 1 else 0) r in
  s ← (if u2 then update_beacon c _ERPINFO_IE_ false r.2 else Ret r.2);
  let noslot := negb (has (c_capability q) WLAN_CAPABILITY_SHORT_SLOT) in
  r ← change NoShortSlot i noslot s;
  let u3 := above && reaches NoShortSlot (if noslot then 1 else 0) r in
  '(u4, s) ← (if ht_on c then join_ht c i q r.2 else Ret (false, r.2));
  if u1 || u2 || u3 || u4 then update_beacon c 0xFF true s else Ret s.

(** ** A station leaves *)

(** At [num_sta_40mhz_intolerant] the counter is tested. *)
Definition leave_int40 (i : nat) (s : bss) : res bss :=
  fl ← rd (stas s) (Z.of_nat i);
  if (fl : feat -> bool) Int40 then
    l ← wr (stas s) (Z.of_nat i) (<[Int40 := false]> fl);
    Ret (set_cnt (if 0 <? cnt s Int40 then <[Int40 := cnt s Int40 - 1]> (cnt s) else cnt s) l s)
  else Ret s.

Definition bss_cap_update_on_sta_leave (c : bss_cfg) (i : nat) (aid : Z) (s : bss) : res (bool * bss) :=
  let above := WIRELESS_11B <? cur_wireless_mode c in
  t ← rtw_bmp_is_set (tim_bmp s) (zlen (tim_bmp s)) aid;
  s ← (if t : bool then m ← rtw_bmp_clear (tim_bmp s) (zlen (tim_bmp s)) aid; update_beacon c _TIM_IE_ false (set_tim m s) else Ret s);
  r ← change NoShortPreamble i false s;
  let u1 := above && reaches NoShortPreamble 0 r in
  r ← change NonErp i false r.2;
  let u2 := reaches NonErp 0 r in
  s ← (if u2 then update_beacon c _ERPINFO_IE_ false r.2 else Ret r.2);
  r ← change NoShortSlot i false s;
  let u3 := above && reaches NoShortSlot 0 r in
  '(_, s) ← change NoGf i false r.2;
  '(_, s) ← change NoHt i false s;
  '(_, s) ← change Ht20 i false s;
  s ← leave_int40 i s;
  '(_, s) ← ht_update c s;
  let updated := t || u1 || u2 || u3 in
  s ← (if updated then update_beacon c 0xFF true s else Ret s);
  Ret (updated, s).

(** ** The 20/40 coexistence frame *)

(** [body] is the frame behind its header; [i] is the station that sent it. *)
Definition rtw_process_public_act_bsscoex (c : bss_cfg) (i : nat) (body : list Z) (len : Z) (s : bss) : res bss :=
  _ ← rd body 0; _ ← rd body 1;
  '(u, s) ← (if 0 <? len then
               b2 ← rd body 2;
               b3 ← (if b2 =? 72 then rd body 3 else Ret 0);
               if (b2 =? 72) && (0 <? b3) then
                 d ← rd body 4;
                 if has d 2 then change Int40 i true s
                 else if has d 4 then Ret (negb (width_req s), set_coex true (ch_reported s) s)
                 else Ret (false, s)
               else Ret (false, s)
             else Ret (false, s));
  '(u, s) ← (if 8 <? len then
               b5 ← rd body 5;
               b6 ← (if b5 =? 73 then rd body 6 else Ret 0);
               if (b5 =? 73) && (0 <? b6) then Ret (u || negb (ch_reported s), set_coex (width_req s) true s) else Ret (u, s)
             else Ret (u, s));
  if u : bool then update_beacon c _HT_ADD_INFO_IE_ true s else Ret s.
End Bss.
