(* ===== verification/Protect.v ===== *)
(** * The beacon tells which stations need protection

    Theorems on the handlers of [Bss]: over any sequence of joining, leaving and
    coexistence frames the counters are the numbers of stations that lack a
    capability, and the ERP and HT operation elements of the beacon say so. *)
From stdpp Require Import functions sets.
From S2P Require Import Prelude Ies Cam Macid Sta Tim Bss.

Module Protect.
Import Ies Cam Sta Tim Bss.

(** ** The bodies of elements *)

Fixpoint body_of (id : Z) (es : list ie) : option (list Z) :=
  match es with [] => None | e :: es => if e.1 =? id then Some e.2 else body_of id es end.
Fixpoint set_body (id : Z) (b : list Z) (es : list ie) : list ie :=
  match es with [] => [] | e :: es => if e.1 =? id then (id, b) :: es else e :: set_body id b es end.

Lemma body_split id es b : body_of id es = Some b ->
  exists e1 e2, es = e1 ++ (id, b) :: e2 /\ Forall (fun x => x.1 <> id) e1 /\ forall b', set_body id b' es = e1 ++ (id, b') :: e2.
Proof.
  induction es as [|[i x] es IH]; [done|]. cbn. destruct (Z.eqb_spec i id) as [->|Hn].
  - intros [= ->]. exists [], es. split; [done|]. split; [constructor|]. done.
  - intros H. destruct (IH H) as (e1 & e2 & -> & Hf & Hs). exists ((i, x) :: e1), e2. split; [done|]. split; [by constructor|]. intros b'. by rewrite Hs.
Qed.

Lemma body_set id id' b es : body_of id' (set_body id b es) = if id' =? id then (fun _ => b) <$> body_of id es else body_of id' es.
Proof.
  induction es as [|[i x] es IH]; cbn; [by destruct (id' =? id)|]. destruct (Z.eqb_spec i id) as [->|Hn]; cbn.
  - rewrite (Z.eqb_sym id id'). by destruct (Z.eqb_spec id' id).
  - rewrite IH. destruct (Z.eqb_spec i id') as [->|]; [|done]. by rewrite (proj2 (Z.eqb_neq _ _)).
Qed.

Lemma body_of_mid id e1 b e2 : Forall (fun x => x.1 <> id) e1 -> body_of id (e1 ++ (id, b) :: e2) = Some b.
Proof. induction 1 as [|[i x] e1 Hn _ IH]; cbn in *; [by rewrite Z.eqb_refl|]. by rewrite (proj2 (Z.eqb_neq _ _)). Qed.

(** ** The beacon *)

(** The elements [es] are the ones of the beacon, a TIM element among them, with room
    for it to grow. *)
Record shape (s : bss) (es : list ie) : Prop := {
  sh_ies : exists fixed spare, zlen fixed = 12 /\ ies s = fixed ++ enc_ies es ++ spare;
  sh_len : ielen s = 12 + zlen (enc_ies es);
  sh_tim : exists t, body_of _TIM_IE_ es = Some t /\ t <> [] /\ zlen (enc_ies es) - zlen t + zlen (tim_bmp s) + 15 <= zlen (ies s);
  sh_cap : zlen (ies s) < 2 ^ 32;
  sh_bmp : bytes_ok (tim_bmp s) /\ 1 <= zlen (tim_bmp s) <= 250 }.

(** An element is found, and a part of its body can be rewritten. *)
Lemma shape_edit s es id body u old w : shape s es -> id <> _TIM_IE_ -> body_of id es = Some body -> body = u ++ old ++ w ->
  exists p pre post, rtw_get_ie (ies s) 12 id 0 (ielen s - 12) = Ret (Some p, zlen body) /\ ies s = pre ++ old ++ post /\ zlen pre = p + 2 + zlen u /\
    rd (ies s) (p + 1) = Ret (zlen body) /\
    forall new, zlen new = zlen old -> shape (set_bcn (pre ++ new ++ post) (ielen s) s) (set_body id (u ++ new ++ w) es) /\ rd (pre ++ new ++ post) (p + 1) = Ret (zlen body) /\
      rtw_get_ie (pre ++ new ++ post) 12 id 0 (ielen s - 12) = Ret (Some p, zlen body).
Proof.
  intros [(fixed & spare & Hf & Ei) Hl (t & Ht & Hne & Hr) Hc Hb] Hid Hbody Eb. destruct (body_split _ _ _ Hbody) as (e1 & e2 & Ees & Hno & Hset).
  set (pre0 := fixed ++ enc_ies e1 ++ [id]).
  exists (12 + zlen (enc_ies e1)), (pre0 ++ [zlen body] ++ u), (w ++ enc_ies e2 ++ spare).
  assert (forall x, zlen x = zlen old -> fixed ++ enc_ies (e1 ++ (id, u ++ x ++ w) :: e2) ++ spare = pre0 ++ zlen body :: (u ++ x ++ w ++ enc_ies e2 ++ spare)) as Eenc.
  { intros x Hx. rewrite enc_ies_app, enc_ies_cons. unfold enc_ie, pre0. cbn [fst snd]. rewrite Eb. replace (zlen (u ++ x ++ w)) with (zlen (u ++ old ++ w)) by zlen_lia.
    rewrite <- !app_assoc. cbn [app]. by rewrite <- !app_assoc. }
  assert (zlen pre0 = 12 + zlen (enc_ies e1) + 1) as Hp0 by (unfold pre0; zlen_lia).
  assert (ies s = pre0 ++ zlen body :: (u ++ old ++ w ++ enc_ies e2 ++ spare)) as Ei' by (rewrite Ei, Ees, Eb; rewrite Eenc by done; by rewrite Eb).
  split_and!.
  - replace (ielen s - 12) with (zlen (enc_ies es)) by lia. rewrite Ei, Ees. exact (get_ie_hit fixed e1 (id, body) e2 spare 0 Hf Hno).
  - rewrite Ei', <- !app_assoc. done.
  - autorewrite with zlen. lia.
  - rewrite Ei'. apply rd_mid. lia.
  - intros new Hn. assert ((pre0 ++ [zlen body] ++ u) ++ new ++ w ++ enc_ies e2 ++ spare = pre0 ++ zlen body :: (u ++ new ++ w ++ enc_ies e2 ++ spare)) as En by (by rewrite <- !app_assoc).
    assert (zlen (enc_ies (set_body id (u ++ new ++ w) es)) = zlen (enc_ies es)) as Hz.
    { rewrite Hset, Ees, !enc_ies_app, !enc_ies_cons, Eb. unfold enc_ie. cbn [fst snd]. zlen_lia. }
    assert (zlen ((pre0 ++ [zlen body] ++ u) ++ new ++ w ++ enc_ies e2 ++ spare) = zlen (ies s)) as Hzz by (rewrite Ei'; zlen_lia).
    split; [|split; [rewrite En; apply rd_mid; lia|]].
    2: { replace (ielen s - 12) with (zlen (enc_ies es)) by lia. rewrite <- Hz, Hset, En, <- Eenc by done.
         etransitivity; [exact (get_ie_hit fixed e1 (id, u ++ new ++ w) e2 spare 0 Hf Hno)|]. cbn [snd]. do 2 f_equal. rewrite Eb. zlen_lia. }
    split; cbn [ies ielen tim_bmp set_bcn]; rewrite ?Hz, ?Hzz; try done.
    + exists fixed, spare. split; [done|]. rewrite Hset, Eenc by done. exact En.
    + exists t. split; [|done]. rewrite body_set. by rewrite (proj2 (Z.eqb_neq _ _)) by congruence.
Qed.

Lemma zlen_mid e1 id b e2 : zlen (enc_ies (e1 ++ (id, b) :: e2)) = zlen (enc_ies e1) + (zlen b + 2) + zlen (enc_ies e2).
Proof. rewrite enc_ies_app, enc_ies_cons, !zlen_app, zlen_enc_ie. cbn [snd]. lia. Qed.

(** The TIM element follows the bitmap; the other elements stay. *)
Lemma shape_tim s es : shape s es -> exists b n es', update_BCNTIM true (tim_bmp s) (ies s) (ielen s) = Ret (b, n) /\ shape (set_bcn b n s) es' /\
  forall id, id <> _TIM_IE_ -> body_of id es' = body_of id es.
Proof.
  intros [(fixed & spare & Hf & Ei) Hl (t & Ht & Hne & Hr) Hc (Hb & Hbl)]. destruct (body_split _ _ _ Ht) as (e1 & e2 & Ees & Hno & Hset).
  assert (es = e1 ++ [(_TIM_IE_, t)] ++ e2) as Ees' by done. rewrite Ei, Ees' in Hc, Hr |- *. rewrite Ees' in Hl. rewrite Hl.
  destruct (update_BCNTIM_ok (tim_bmp s) fixed e1 [(_TIM_IE_, t)] e2 spare) as (body & spare' & [Hb4 _] & Lb & E & Hz); [done|done|done|by constructor| |done|].
  { assert (zlen (enc_ies [(_TIM_IE_, t)]) = zlen t + 2) as -> by (rewrite enc_ies_cons, zlen_app, zlen_enc_ie; cbn [snd]; change (enc_ies []) with (@nil Z); rewrite zlen_nil; lia). cbn [app] in Hr. rewrite zlen_mid in Hr.
    assert (zlen (fixed ++ enc_ies (e1 ++ (_TIM_IE_, t) :: e2) ++ spare) = 12 + (zlen (enc_ies e1) + (zlen t + 2) + zlen (enc_ies e2)) + zlen spare) as Hs by (rewrite !zlen_app, zlen_mid; lia).
    lia. }
  eexists _, _, (e1 ++ (_TIM_IE_, body) :: e2). split; [exact E|]. split.
  - split; cbn [ies ielen tim_bmp set_bcn]; rewrite ?Hz; try done; [by exists fixed, spare'|]. exists body. split; [by apply body_of_mid|]. split.
    + intros ->. by destruct Hb4.
    + cbn [app] in Hr |- *. rewrite zlen_mid in Hr. rewrite zlen_mid. eapply Z.le_trans; [|exact Hr]. lia.
  - intros id Hid. rewrite <- (Hset body), body_set. rewrite (proj2 (Z.eqb_neq id _TIM_IE_) Hid). by rewrite Ees'.
Qed.

(** ** Counting *)

Definition flag (s : bss) (i : nat) (f : feat) : bool := default false ((fun fl => fl f) <$> stas s !! i).
Definition number {A} (P : A -> bool) (l : list A) : Z := Z.of_nat (length (List.filter P l)).
Definition counted (s : bss) : Prop := forall f, cnt s f = number (fun fl => fl f) (stas s).

Lemma number_insert {A} (P : A -> bool) l i x y : l !! i = Some x -> number P (<[i := y]> l) = number P l - Z.b2z (P x) + Z.b2z (P y).
Proof.
  revert i. induction l as [|z l IH]; intros [|i]; [done|done| |]; unfold number in *.
  - intros [= ->]. change (<[0%nat:=y]> (x :: l)) with (y :: l). cbn [List.filter]. destruct (P x), (P y); cbn [length Z.b2z]; lia.
  - intros H. specialize (IH i H). change (<[S i:=y]> (z :: l)) with (z :: <[i:=y]> l). cbn [List.filter]. destruct (P z); cbn [length]; lia.
Qed.

Lemma number_nonneg {A} (P : A -> bool) l : 0 <= number P l.
Proof. unfold number. lia. Qed.

(** [s'] differs from [s] in the counters and the flags only. *)
Definition same_rest (s s' : bss) : Prop := s' = set_cnt (cnt s') (stas s') s.

Lemma change_ok f i v s : counted s -> (i < length (stas s))%nat ->
  exists s', change f i v s = Ret (negb (eqb (flag s i f) v), s') /\ same_rest s s' /\ counted s' /\ length (stas s') = length (stas s) /\
    (forall j g, flag s' j g = if bool_decide (j = i /\ g = f) then v else flag s j g) /\
    (forall g, g <> f -> cnt s' g = cnt s g) /\ cnt s' f = cnt s f + (if eqb (flag s i f) v then 0 else if v then 1 else -1).
Proof.
  intros Hc Hi. destruct (lookup_lt_is_Some_2 _ _ Hi) as [fl Hfl]. unfold change. rewrite (proj2 (rd_Ret _ _ fl)) by (split; [lia|by rewrite Nat2Z.id]). simp_res.
  assert (flag s i f = fl f) as Ef by (unfold flag; by rewrite Hfl). rewrite Ef. destruct (eqb (fl f) v) eqn:Ev.
  { apply eqb_prop in Ev. exists s. split; [done|]. split; [by destruct s|]. split_and!; try done; [|lia]. intros j g. case_bool_decide as Hj; [|done]. destruct Hj as [-> ->]. by rewrite Ef. }
  rewrite wr_Ret, Nat2Z.id by (unfold zlen; lia). simp_res. eexists. split; [done|]. split; [done|].
  assert (v = negb (fl f)) as -> by (by destruct (fl f), v).
  split_and!; cbn [cnt stas set_cnt].
  - intros g. cbn [cnt stas set_cnt]. rewrite (number_insert _ _ _ fl) by done. destruct (decide (g = f)) as [->|Hn].
    + rewrite !fn_lookup_insert, (Hc f). destruct (fl f); cbn; lia.
    + rewrite !fn_lookup_insert_ne by done. rewrite (Hc g). lia.
  - apply length_insert.
  - intros j g. unfold flag. cbn [stas set_cnt]. destruct (decide (j = i)) as [->|Hj].
    + rewrite list_lookup_insert_eq, Hfl by done. cbn. destruct (decide (g = f)) as [->|Hg]; [by rewrite fn_lookup_insert, bool_decide_true|]. by rewrite fn_lookup_insert_ne, bool_decide_false by naive_solver.
    + rewrite list_lookup_insert_ne by done. by rewrite bool_decide_false by naive_solver.
  - intros g Hg. by rewrite fn_lookup_insert_ne.
  - by rewrite fn_lookup_insert.
Qed.

(** ** Updating the elements *)

(** What an update of the beacon leaves alone. *)
Definition same_data (s s' : bss) : Prop :=
  cnt s' = cnt s /\ stas s' = stas s /\ ht_op_mode s' = ht_op_mode s /\ erp_enable s' = erp_enable s.

Lemma shape_data s s' es : shape s es -> ies s' = ies s -> ielen s' = ielen s -> tim_bmp s' = tim_bmp s -> shape s' es.
Proof. intros [] E1 E2 E3. split; by rewrite ?E1, ?E2, ?E3. Qed.

Lemma land3_lor v : Z.land (Z.lor v 3) 3 = 3.
Proof. rewrite Z.land_lor_distr_l. change (Z.land 3 3) with 3. apply Z.bits_inj'. intros n Hn. zbits_norm. by destruct (Z.testbit v n), (Z.testbit 3 n). Qed.
Lemma land3_ldiff v : Z.land (Z.ldiff v 3) 3 = 0.
Proof. apply Z.bits_inj'. intros n Hn. zbits_norm. by destruct (Z.testbit v n), (Z.testbit 3 n). Qed.
Lemma land3_keep v m : Z.land 3 m = 0 -> Z.land (Z.lor v m) 3 = Z.land v 3 /\ Z.land (Z.ldiff v m) 3 = Z.land v 3.
Proof.
  intros H. assert (forall n, Z.testbit 3 n && Z.testbit m n = false) as Hb by (intros n; by rewrite <- Z.land_spec, H, Z.bits_0).
  split; apply Z.bits_inj'; intros n Hn; zbits_norm; specialize (Hb n); by destruct (Z.testbit v n), (Z.testbit 3 n), (Z.testbit m n).
Qed.

Lemma erp_update s es v r : shape s es -> erp_enable s = true -> body_of _ERPINFO_IE_ es = Some (v :: r) ->
  exists s' es' v', update_bcn_erpinfo_ie s = Ret s' /\ shape s' es' /\ body_of _ERPINFO_IE_ es' = Some (v' :: r) /\ Z.land v' 3 = (if cnt s NonErp =? 1 then 3 else 0) /\
    (forall id, id <> _ERPINFO_IE_ -> body_of id es' = body_of id es) /\ same_data s s'.
Proof.
  intros Hs He Hb. destruct (shape_edit s es _ERPINFO_IE_ (v :: r) [] [v] r Hs ltac:(done) Hb eq_refl) as (p & pre & post & Eg & Ei & Hp & Er & Hn).
  rewrite zlen_nil in Hp. unfold update_bcn_erpinfo_ie. rewrite He. cbn [negb]. bind_step Eg. rewrite (proj2 (Z.ltb_lt 0 _)) by zlen_lia.
  rewrite Ei. rewrite (bind_Ret _ _ v) by (apply rd_mid; lia). cbn zeta.
  set (v1 := if cnt s NonErp =? 1 then _ else _). set (v' := if 0 <? cnt s NoShortPreamble then _ else _).
  assert (Z.land v' 3 = if cnt s NonErp =? 1 then 3 else 0) as Hv.
  { destruct (land3_keep v1 4 eq_refl) as [K1 K2]. unfold v'. destruct (_ <? _); rewrite ?K1, ?K2; unfold v1; destruct (_ =? 1); auto using land3_lor, land3_ldiff. }
  clearbody v'. rewrite (bind_Ret _ _ (pre ++ [v'] ++ post)) by (apply wr_mid; lia).
  destruct (Hn [v'] eq_refl) as (Hs' & Er' & _). unfold ERP_IE_handler. rewrite (bind_Ret _ _ _ Er').
  assert (forall e x, e = true -> shape (set_erp e x (set_bcn (pre ++ [v'] ++ post) (ielen s) s)) (set_body _ERPINFO_IE_ (v' :: r) es)) as Hsh by (intros; by eapply shape_data).
  assert (body_of _ERPINFO_IE_ (set_body _ERPINFO_IE_ (v' :: r) es) = Some (v' :: r)) as Hb' by (by rewrite body_set, Z.eqb_refl, Hb).
  assert (forall id, id <> _ERPINFO_IE_ -> body_of id (set_body _ERPINFO_IE_ (v' :: r) es) = body_of id es) as Ho by (intros id Hid; by rewrite body_set, (proj2 (Z.eqb_neq _ _) Hid)).
  destruct (1 <? zlen (v :: r)); [by eexists _, _, v'; split_and!|]. destruct (zlen (v :: r) =? 1).
  - rewrite (bind_Ret _ _ v') by (apply rd_mid; lia). eexists _, _, v'. split_and!; try done. by apply Hsh.
  - eexists _, _, v'. split_and!; try done. by apply Hsh.
Qed.

(** The octet with the channel width may be rewritten. *)
Lemma width_update c s p pre b1 post : ies s = pre ++ [b1] ++ post -> zlen pre = p + 3 -> exists v sw, update_width c p s = Ret (pre ++ [v] ++ post, sw).
Proof.
  intros Ei Hp. unfold update_width.
  assert (forall g sw, (v ← rd (ies s) (p + 3); b ← wr (ies s) (p + 3) (g v); Ret (b, sw)) = Ret (pre ++ [g b1] ++ post, sw : bool)) as Hg.
  { intros g sw. rewrite Ei. rewrite (bind_Ret _ _ b1) by (apply rd_mid; lia). by rewrite (bind_Ret _ _ (pre ++ [g b1] ++ post)) by (apply wr_mid; lia). }
  rewrite (Hg (fun v => set_width v 0 0)), (Hg (fun v => set_width v _ 1)), Ei. repeat match goal with |- context [if ?b then _ else _] => destruct b end; by eexists _, _.
Qed.

Lemma ht_info_update c s es b0 b1 x y r : shape s es -> ht_option c = true -> HT_info_enable c = 1 -> body_of _HT_ADD_INFO_IE_ es = Some (b0 :: b1 :: x :: y :: r) ->
  exists s' es' b1', update_bcn_htinfo_ie c s = Ret s' /\ shape s' es' /\ body_of _HT_ADD_INFO_IE_ es' = Some (b0 :: b1' :: le16 (ht_op_mode s) ++ r) /\
    (forall id, id <> _HT_ADD_INFO_IE_ -> body_of id es' = body_of id es) /\ same_data s s'.
Proof.
  intros Hs Ho Hi Hb. unfold update_bcn_htinfo_ie. rewrite Ho, Hi. cbn [negb Z.eqb Pos.eqb].
  destruct (shape_edit s es _HT_ADD_INFO_IE_ _ [b0] [b1] (x :: y :: r) Hs ltac:(done) Hb eq_refl) as (p & pre & post & Eg & Ei & Hp & _ & Hn).
  change (zlen [b0]) with 1 in Hp. bind_step Eg. rewrite (proj2 (Z.ltb_lt 0 _)) by zlen_lia.
  destruct (width_update c s p pre b1 post Ei) as (v & sw & E1); [lia|]. bind_step E1. destruct (Hn [v] eq_refl) as (Hs1 & _ & Eg1).
  assert (body_of _HT_ADD_INFO_IE_ (set_body _HT_ADD_INFO_IE_ ([b0] ++ [v] ++ x :: y :: r) es) = Some (b0 :: v :: x :: y :: r)) as Hb1 by (by rewrite body_set, Z.eqb_refl, Hb).
  destruct (shape_edit _ _ _HT_ADD_INFO_IE_ _ [b0; v] [x; y] r Hs1 ltac:(done) Hb1 eq_refl) as (p' & pre' & post' & Eg' & Ei' & Hp' & _ & Hn').
  cbn [ies ielen set_bcn] in *. rewrite Eg1 in Eg'. injection Eg' as <-. change (zlen [b0; v]) with 2 in Hp'.
  assert (splice (pre ++ [v] ++ post) (p + 4) (le16 (ht_op_mode s)) = Ret (pre' ++ le16 (ht_op_mode s) ++ post')) as E2 by (rewrite Ei'; apply splice_mid; [lia|done]).
  bind_step E2. destruct (Hn' (le16 (ht_op_mode s)) eq_refl) as (Hs2 & _). eexists _, _, v. split; [reflexivity|]. split; [eapply shape_data; [exact Hs2|reflexivity..]|]. split_and!; try done.
  - by rewrite body_set, Z.eqb_refl, Hb1.
  - intros id Hid. by rewrite !body_set, (proj2 (Z.eqb_neq _ _) Hid).
Qed.

(** ** The invariant *)

(** The network is up, and its beacon can be edited. *)
Record cfg_ok (c : bss_cfg) : Prop := { co_up : bstart_bss c = true; co_alloc : bcn_alloc c = true; co_ht : ht_option c = true -> HT_info_enable c = 1 }.

(** The ERP element asks for protection exactly when a station without ERP is counted. *)
Definition erp_says (s : bss) (es : list ie) : Prop :=
  exists v r, body_of _ERPINFO_IE_ es = Some (v :: r) /\ Z.land v 3 = if 0 <? cnt s NonErp then 3 else 0.
(** The HT operation element has the mode. *)
Definition ht_says (c : bss_cfg) (s : bss) (es : list ie) : Prop :=
  ht_option c = true -> exists b0 b1 r, body_of _HT_ADD_INFO_IE_ es = Some (b0 :: b1 :: le16 (ht_op_mode s) ++ r).
(** The mode is the one the counters ask for. *)
Definition mode_ok (c : bss_cfg) (s : bss) : Prop :=
  ht_option c = true ->
  Z.land (ht_op_mode s) 3 = op_mode c s /\ has (ht_op_mode s) NON_GF_DEVS_PRESENT = negb (cnt s NoGf =? 0) /\
  has (ht_op_mode s) NON_HT_STA_PRESENT = negb (cnt s NoHt =? 0) || olbc_ht c.

(** All but the mode. *)
Record pre_ok (c : bss_cfg) (s : bss) : Prop := {
  k_cnt : counted s; k_len : length (stas s) = 32%nat; k_erp : erp_enable s = true;
  k_es : exists es, shape s es /\ erp_says s es /\ ht_says c s es }.
Definition bss_ok (c : bss_cfg) (s : bss) : Prop := pre_ok c s /\ mode_ok c s.

(** The flags of [s'] are those of [s], with [f] of station [i] set to [v]. *)
Definition flags_set (i : nat) (f : feat) (v : bool) (s s' : bss) : Prop :=
  forall j g, flag s' j g = if bool_decide (j = i /\ g = f) then v else flag s j g.
Definition same_flags (s s' : bss) : Prop := forall j g, flag s' j g = flag s j g.

Lemma rest_shape s s' es : same_rest s s' -> shape s es -> shape s' es.
Proof. intros -> H. by eapply shape_data. Qed.

Lemma cnt_nonneg s f : counted s -> 0 <= cnt s f.
Proof. intros H. rewrite (H f). apply number_nonneg. Qed.

(** A change of a capability that the ERP element does not show. *)
Lemma change_keeps c f i v s : pre_ok c s -> (i < 32)%nat -> f <> NonErp ->
  exists u s', change f i v s = Ret (u, s') /\ pre_ok c s' /\ flags_set i f v s s' /\ (forall g, g <> f -> cnt s' g = cnt s g) /\ ht_op_mode s' = ht_op_mode s.
Proof.
  intros [K1 K2 K3 (es & Hs & (v0 & r & He & Hv) & Hh)] Hi Hf. destruct (change_ok f i v s K1) as (s' & E & Hr & Hc & Hl & Hfl & Ho & _); [by rewrite K2|].
  exists (negb (eqb (flag s i f) v)), s'. split_and!; try done; [|by rewrite Hr]. split; [done|by rewrite Hl|by rewrite Hr|]. exists es. split; [by eapply rest_shape|]. split.
  - exists v0, r. split; [done|]. by rewrite Ho.
  - unfold ht_says. rewrite Hr. exact Hh.
Qed.

Lemma mode_keeps c s s' : (forall g, g ∈ [NoGf; NoHt; Ht20] -> cnt s' g = cnt s g) -> ht_op_mode s' = ht_op_mode s -> mode_ok c s -> mode_ok c s'.
Proof.
  intros Hg Hm H Ho. specialize (H Ho). unfold op_mode in *. rewrite Hm, !Hg by (rewrite !elem_of_cons; naive_solver). done.
Qed.

(** The capability that the ERP element shows, with the update of the element. *)
Lemma erp_step c i v s : cfg_ok c -> pre_ok c s -> (i < 32)%nat ->
  exists r s', change NonErp i v s = Ret r /\ (if reaches NonErp (if v then 1 else 0) r then update_beacon c _ERPINFO_IE_ false r.2 else Ret r.2) = Ret s' /\
    pre_ok c s' /\ flags_set i NonErp v s s' /\ (forall g, g <> NonErp -> cnt s' g = cnt s g) /\ ht_op_mode s' = ht_op_mode s.
Proof.
  intros Hcfg [K1 K2 K3 (es & Hs & (v0 & r0 & He & Hv) & Hh)] Hi. destruct (change_ok NonErp i v s K1) as (s1 & E & Hr & Hc & Hl & Hfl & Ho & Hn); [by rewrite K2|].
  pose proof (cnt_nonneg s NonErp K1) as N0. pose proof (cnt_nonneg s1 NonErp Hc) as N1. apply (rest_shape s s1) in Hs as Hs1; [|done].
  exists (negb (eqb (flag s i NonErp) v), s1). destruct (reaches _ _ _) eqn:Er.
  - unfold reaches in Er. cbn [fst snd] in Er. apply andb_true_iff in Er as [_ Er]. apply Z.eqb_eq in Er.
    destruct (erp_update s1 es v0 r0 Hs1) as (s' & es' & v' & Eu & Hs' & Hb' & Hv' & Hoth & D1 & D2 & D3 & D4); [by rewrite Hr|done|].
    exists s'. split; [exact E|]. cbn [snd]. split; [unfold update_beacon; rewrite (co_up _ Hcfg); cbn [negb Z.eqb Pos.eqb _ERPINFO_IE_ _TIM_IE_]; by bind_step Eu|].
    split; [|split_and!].
    + split; [intros f; rewrite D1, D2; apply Hc|by rewrite D2, Hl|rewrite D4; by rewrite Hr|]. exists es'. split; [done|]. split.
      * exists v', r0. split; [done|]. rewrite D1, Hv', Er. by destruct v.
      * intros Hht. destruct (Hh Hht) as (b0 & b1 & r1 & Hb61). exists b0, b1, r1. rewrite Hoth by done. rewrite D3. by rewrite Hr.
    + intros j g. unfold flag. rewrite D2. apply Hfl.
    + intros g Hg. rewrite D1. by apply Ho.
    + rewrite D3. by rewrite Hr.
  - exists s1. split; [exact E|]. cbn [snd]. split; [done|]. split; [|by split_and!; [|by apply Ho|by rewrite Hr]]. split; [done|by rewrite Hl|by rewrite Hr|].
    exists es. split; [done|]. split; [|unfold ht_says; by rewrite Hr]. exists v0, r0. split; [done|]. rewrite Hv. f_equal.
    unfold reaches in Er. cbn [fst snd] in Er. revert Hn Er. destruct (eqb (flag s i NonErp) v); cbn [negb andb]; intros Hn Er; [by rewrite Hn, Z.add_0_r|]. apply Z.eqb_neq in Er.
    destruct v; destruct (Z.ltb_spec 0 (cnt s NonErp)), (Z.ltb_spec 0 (cnt s1 NonErp)); lia || done.
Qed.

(** ** The mode *)

Lemma sync_ok k v mode n : 0 <= k -> exists mode' n', sync_bit (BIT k) v (mode, n) = (mode', n') /\ n <= n' /\ (n' = n -> mode' = mode) /\
  forall j, 0 <= j -> Z.testbit mode' j = if j =? k then v else Z.testbit mode j.
Proof.
  intros Hk. unfold sync_bit, has. rewrite land_BIT by done.
  destruct (Z.testbit mode k) eqn:E, v; cbn [negb andb]; eexists _, _; (split; [done|]); (split; [lia|]); (split; [(done || lia)|]); intros j Hj; zbits_norm.
  1, 4: by destruct (Z.eqb_spec j k) as [->|].
  all: assert (Z.testbit (BIT k) j = (j =? k)) as -> by (unfold BIT; rewrite Z.shiftl_1_l, Z.pow2_bits_eqb by done; apply Z.eqb_sym); destruct (Z.eqb_spec j k) as [->|]; by rewrite ?andb_false_r, ?andb_true_r, ?orb_true_r, ?orb_false_r, ?E.
Qed.

Lemma op_mode_range c s : 0 <= op_mode c s <= 3.
Proof. unfold op_mode. repeat match goal with |- context [if ?b then _ else _] => destruct b end; cbv; split; congruence. Qed.

Lemma operation_update_ok c s : ht_option c = true -> exists n m, rtw_ht_operation_update c s = (n, set_mode m s) /\ 0 <= n /\ (n = 0 -> m = ht_op_mode s) /\ mode_ok c (set_mode m s).
Proof.
  intros Ho. unfold rtw_ht_operation_update. rewrite Ho. cbn [negb].
  destruct (sync_ok 2 (negb (cnt s NoGf =? 0)) (ht_op_mode s) 0) as (m1 & n1 & E1 & L1 & S1 & B1); [lia|]. change NON_GF_DEVS_PRESENT with (BIT 2). rewrite E1.
  destruct (sync_ok 4 (negb (cnt s NoHt =? 0) || olbc_ht c) m1 n1) as (m2 & n2 & E2 & L2 & S2 & B2); [lia|]. change NON_HT_STA_PRESENT with (BIT 4). rewrite E2.
  pose proof (op_mode_range c s) as Hr. set (o := op_mode c s) in *.
  assert (forall m, Z.land m 3 = o -> (forall j, 2 <= j -> Z.testbit m j = Z.testbit m2 j) -> mode_ok c (set_mode m s)) as Hm.
  { intros m Hm Hj _. unfold has. change NON_GF_DEVS_PRESENT with (BIT 2). change NON_HT_STA_PRESENT with (BIT 4). rewrite !land_BIT by lia. cbn [ht_op_mode set_mode]. rewrite !Hj by lia.
    rewrite !B2, !B1 by lia. split_and!; done. }
  destruct (Z.eqb_spec (Z.land m2 3) o) as [He|He].
  - exists n2, m2. split_and!; [done|lia| |by apply Hm]. intros ->. assert (n1 = 0) as -> by lia. by rewrite S2, S1.
  - eexists (n2 + 1), _. split_and!; [done|lia|lia|]. apply Hm.
    + rewrite Z.land_lor_distr_l, land3_ldiff, Z.lor_0_l. change 3 with (Z.ones 2). rewrite Z.land_ones by lia. apply Z.mod_small. lia.
    + intros j Hj. zbits_norm. assert (Z.testbit o j = false) as -> by (apply (fits_testbit 2); [lia|unfold fits; lia|lia]). change 3 with (Z.ones 2). rewrite Z.ones_spec_high by lia. by rewrite orb_false_r, andb_true_r.
Qed.

(** The flags of [i] with a feature of [fs] may differ. *)
Definition kept (fs : list feat) (i : nat) (s s' : bss) : Prop := forall j g, ~ (j = i /\ g ∈ fs) -> flag s' j g = flag s j g.

Lemma kept_trans fs gs i s s1 s2 : kept fs i s s1 -> kept gs i s1 s2 -> kept (fs ++ gs) i s s2.
Proof. intros H1 H2 j g H. rewrite H2, H1; [done|set_solver..]. Qed.
Lemma kept_refl fs i s : kept fs i s s.
Proof. by intros j g _. Qed.
Lemma set_kept i f v s s' : flags_set i f v s s' -> kept [f] i s s' /\ flag s' i f = v.
Proof. intros H. split; [|by rewrite H, bool_decide_true]. intros j g Hn. rewrite H, bool_decide_false; [done|]. set_solver. Qed.

Lemma pre_data c s s' : pre_ok c s -> same_data s s' -> (forall es, shape s es -> shape s' es) -> pre_ok c s'.
Proof.
  intros [K1 K2 K3 (es & Hs & He & Hh)] (D1 & D2 & D3 & D4) Hsh. split; [intros f; rewrite D1, D2; apply K1|by rewrite D2|by rewrite D4|].
  exists es. split; [by apply Hsh|]. split; [unfold erp_says; by rewrite D1|]. unfold ht_says. by rewrite D3.
Qed.

Lemma ok_tx c s : bss_ok c s -> bss_ok c (tx_beacon s).
Proof. intros [H M]. split; [|exact M]. apply (pre_data c s); [done|by split_and!|]. intros es Hs. by eapply shape_data. Qed.

Lemma ht_update_ok c s : cfg_ok c -> pre_ok c s -> exists u s', ht_update c s = Ret (u, s') /\ bss_ok c s' /\ same_flags s s'.
Proof.
  intros Hcfg Hk. pose proof Hk as [K1 K2 K3 (es & Hs & He & Hh)]. unfold ht_update. destruct (ht_option c) eqn:Ho.
  2: { unfold rtw_ht_operation_update. rewrite Ho. exists false, s. split; [done|]. split; [|done]. split; [done|]. unfold mode_ok. by rewrite Ho. }
  destruct (operation_update_ok c s Ho) as (n & m & E & Hn & H0 & Hm). rewrite E. destruct (Z.ltb_spec 0 n) as [Hlt|Hle].
  2: { assert (m = ht_op_mode s) as -> by (apply H0; lia). exists false, (set_mode (ht_op_mode s) s). split; [done|]. split; [|done]. split; [|done]. by destruct s. }
  destruct (Hh Ho) as (b0 & b1 & r & Hb). unfold update_beacon. rewrite (co_up _ Hcfg). cbn [negb Z.eqb Pos.eqb _HT_CAPABILITY_IE_ _HT_ADD_INFO_IE_ _ERPINFO_IE_ _TIM_IE_]. simp_res.
  destruct (ht_info_update c (set_mode m s) es b0 b1 (Z.land (ht_op_mode s) 255) (Z.shiftr (u16 (ht_op_mode s)) 8) r) as (s' & es' & b1' & Eu & Hs' & Hb' & Hoth & D1 & D2 & D3 & D4);
    [by eapply shape_data|done|by apply (co_ht _ Hcfg)|exact Hb|].
  bind_step Eu. exists true, s'. split; [done|]. split; [split|].
  - split; [intros f; rewrite D1, D2; apply K1|by rewrite D2|by rewrite D4|]. exists es'. split; [done|]. split.
    + destruct He as (v & r0 & Hv & Hl). exists v, r0. rewrite Hoth by done. split; [done|]. by rewrite D1.
    + intros _. exists b0, b1', r. by rewrite D3.
  - intros _. specialize (Hm Ho). unfold op_mode in *. by rewrite D1, D3.
  - intros j g. unfold flag. by rewrite D2.
Qed.

(** ** Joining *)

(** A change, or none. *)
Lemma change_if c (b v : bool) f i s : pre_ok c s -> (i < 32)%nat -> f <> NonErp ->
  exists u s', (if b then change f i v s else Ret (false, s)) = Ret (u, s') /\ pre_ok c s' /\ kept [f] i s s' /\ flag s' i f = if b then v else flag s i f.
Proof.
  intros H Hi Hf. destruct b; [|exists false, s; split; [done|]; split; [done|]; split; [apply kept_refl|done]].
  destruct (change_keeps c f i v s H Hi Hf) as (u & s' & E & H' & [Hk Hv]%set_kept & _). by exists u, s'.
Qed.

Lemma if_swap {A} (b : bool) (x y : A) : (if b then x else y) = if negb b then y else x.
Proof. by destruct b. Qed.

Lemma join_ht_ok c i q s : cfg_ok c -> pre_ok c s -> (i < 32)%nat ->
  exists u s', join_ht c i q s = Ret (u, s') /\ bss_ok c s' /\ kept [NoHt; NoGf; Ht20; Int40] i s s' /\ flag s' i NoHt = negb (has (c_flags q) WLAN_STA_HT) /\
    flag s' i Ht20 = flag s i Ht20 || (has (c_flags q) WLAN_STA_HT && negb (has (c_ht q) IEEE80211_HT_CAP_SUP_WIDTH)).
Proof.
  intros Hcfg H Hi. unfold join_ht. destruct (has (c_flags q) WLAN_STA_HT).
  - destruct (change_keeps c NoHt i false s H Hi) as (u1 & s1 & E1 & H1 & [K1 F1]%set_kept & _); [done|]. bind_step E1.
    rewrite (if_swap (has (c_ht q) IEEE80211_HT_CAP_GRN_FLD)).
    destruct (change_if c (negb (has (c_ht q) IEEE80211_HT_CAP_GRN_FLD)) true NoGf i s1 H1 Hi) as (u2 & s2 & E2 & H2 & K2 & _); [done|]. bind_step E2.
    rewrite (if_swap (has (c_ht q) IEEE80211_HT_CAP_SUP_WIDTH)).
    destruct (change_if c (negb (has (c_ht q) IEEE80211_HT_CAP_SUP_WIDTH)) true Ht20 i s2 H2 Hi) as (u3 & s3 & E3 & H3 & K3 & F3); [done|]. bind_step E3.
    destruct (change_if c (has (c_ht q) RTW_IEEE80211_HT_CAP_40MHZ_INTOLERANT) true Int40 i s3 H3 Hi) as (u4 & s4 & E4 & H4 & K4 & _); [done|]. bind_step E4. simp_res.
    destruct (ht_update_ok c s4 Hcfg H4) as (u & s' & E & Hok & Hf). exists u, s'. split; [done|]. split; [done|].
    pose proof (kept_trans _ _ _ _ _ _ K2 (kept_trans _ _ _ _ _ _ K3 K4)) as K. split_and!.
    + intros j g Hn. rewrite Hf. by apply (kept_trans _ _ _ _ _ _ K1 K).
    + rewrite Hf, K; [done|]. set_solver.
    + rewrite Hf, K4, F3 by set_solver. rewrite K2, K1 by set_solver. cbn [andb]. by destruct (has (c_ht q) IEEE80211_HT_CAP_SUP_WIDTH), (flag s i Ht20).
  - destruct (change_keeps c NoHt i true s H Hi) as (u1 & s1 & E1 & H1 & [K1 F1]%set_kept & _); [done|]. bind_step E1. simp_res.
    destruct (ht_update_ok c s1 Hcfg H1) as (u & s' & E & Hok & Hf). exists u, s'. split; [done|]. split; [done|]. split_and!; [|by rewrite Hf|].
    + intros j g Hn. rewrite Hf. apply K1. set_solver.
    + rewrite Hf, K1 by set_solver. by rewrite orb_false_r.
Qed.

(** Which of the tracked capabilities a station lacks. *)
Definition lacks (c : bss_cfg) (q : caps) (f : feat) : bool :=
  match f with
  | NoShortPreamble => negb (has (c_flags q) WLAN_STA_SHORT_PREAMBLE)
  | NonErp => has (c_flags q) WLAN_STA_NONERP
  | NoShortSlot => negb (has (c_capability q) WLAN_CAPABILITY_SHORT_SLOT)
  | NoHt => ht_on c && negb (has (c_flags q) WLAN_STA_HT)
  | Ht20 => ht_on c && (has (c_flags q) WLAN_STA_HT && negb (has (c_ht q) IEEE80211_HT_CAP_SUP_WIDTH))
  | _ => false
  end.
Definition tracked : list feat := [NoShortPreamble; NonErp; NoShortSlot; NoHt; Ht20].

(** A flag after joining: what the station lacks, and the 20 MHz flag is not taken
    back. *)
Definition flag_joined (c : bss_cfg) (q : caps) (f : feat) (old : bool) : bool :=
  match f with Ht20 => old || lacks c q Ht20 | _ => lacks c q f end.

Lemma tx_if_ok c (b : bool) s : cfg_ok c -> bss_ok c s -> exists s', (if b then update_beacon c 0xFF true s else Ret s) = Ret s' /\ bss_ok c s' /\ same_flags s s'.
Proof.
  intros Hcfg H. destruct b; [|by exists s]. unfold update_beacon. rewrite (co_up _ Hcfg). exists (tx_beacon s). split; [done|]. split; [by apply ok_tx|done].
Qed.

Lemma ok_change c f i v s : bss_ok c s -> (i < 32)%nat -> f ∈ [NoShortPreamble; NoShortSlot; Int40] ->
  exists u s', change f i v s = Ret (u, s') /\ bss_ok c s' /\ kept [f] i s s' /\ flag s' i f = v.
Proof.
  intros [H M] Hi Hf. destruct (change_keeps c f i v s H Hi) as (u & s' & E & H' & [K F]%set_kept & Hc & Hm); [set_solver|].
  exists u, s'. split_and!; try done. split; [done|]. eapply mode_keeps; [|done|done]. intros g Hg. apply Hc. set_solver.
Qed.

Lemma join_ok c i q s : cfg_ok c -> bss_ok c s -> (i < 32)%nat -> (ht_on c = false -> flag s i NoHt = false) ->
  exists s', bss_cap_update_on_sta_join c i q s = Ret s' /\ bss_ok c s' /\ (forall j g, j <> i -> flag s' j g = flag s j g) /\ (forall f, f ∈ tracked -> flag s' i f = flag_joined c q f (flag s i f)).
Proof.
  intros Hcfg H Hi Hno. unfold bss_cap_update_on_sta_join.
  destruct (ok_change c NoShortPreamble i (negb (has (c_flags q) WLAN_STA_SHORT_PREAMBLE)) s H Hi) as (u1 & s1 & E1 & H1 & K1 & F1); [set_solver|]. bind_step E1.
  destruct (erp_step c i (has (c_flags q) WLAN_STA_NONERP) s1 Hcfg (proj1 H1) Hi) as (r & s2 & E2 & E2' & H2 & [K2 F2]%set_kept & Hc2 & Hm2). bind_step E2. bind_step E2'.
  assert (bss_ok c s2) as H2' by (split; [done|]; eapply mode_keeps; [|done|exact (proj2 H1)]; intros g Hg; apply Hc2; set_solver).
  destruct (ok_change c NoShortSlot i (negb (has (c_capability q) WLAN_CAPABILITY_SHORT_SLOT)) s2 H2' Hi) as (u3 & s3 & E3 & H3 & K3 & F3); [set_solver|]. bind_step E3.
  assert (exists u4 s4, (if ht_on c then join_ht c i q s3 else Ret (false, s3)) = Ret (u4, s4) /\ bss_ok c s4 /\ kept [NoHt; NoGf; Ht20; Int40] i s3 s4 /\ flag s4 i NoHt = lacks c q NoHt /\
      flag s4 i Ht20 = flag s i Ht20 || lacks c q Ht20) as (u4 & s4 & E4 & H4 & K4 & F4 & F4').
  { assert (flag s i Ht20 = flag s3 i Ht20) as -> by (by rewrite K3, K2, K1 by set_solver).
    cbn [lacks]. destruct (ht_on c); [by apply join_ht_ok; [|apply H3|]|]. exists false, s3. split; [done|]. split; [done|]. split; [apply kept_refl|].
    cbn [andb]. rewrite orb_false_r. split; [|done]. rewrite K3, K2, K1 by set_solver. by apply Hno. }
  bind_step E4. match goal with |- context [if ?b then update_beacon c 0xFF true s4 else _] => destruct (tx_if_ok c b s4 Hcfg H4) as (s5 & E5 & H5 & F5) end.
  exists s5. split; [done|]. split; [done|]. split.
  - intros j g Hj. rewrite F5, K4, K3, K2, K1; [done|set_solver..].
  - intros f Hf. unfold tracked in Hf. rewrite F5. rewrite !elem_of_cons, elem_of_nil in Hf. destruct Hf as [->|[->|[->|[->|[->|[]]]]]]; [| | |done|exact F4'].
    + rewrite K4, K3, K2 by set_solver. done.
    + rewrite K4, K3 by set_solver. done.
    + rewrite K4 by set_solver. done.
Qed.

(** ** Leaving *)

Lemma tim_step c aid s : cfg_ok c -> pre_ok c s -> 0 <= aid ->
  exists t s', rtw_bmp_is_set (tim_bmp s) (zlen (tim_bmp s)) aid = Ret t /\
    (if t then m ← rtw_bmp_clear (tim_bmp s) (zlen (tim_bmp s)) aid; update_beacon c _TIM_IE_ false (set_tim m s) else Ret s) = Ret s' /\ pre_ok c s' /\ same_flags s s'.
Proof.
  intros Hcfg H Ha. pose proof H as [K1 K2 K3 (es & Hs & (v & r & Hv & Hl) & Hh)]. rewrite aid_is_set_spec by done. exists (aid_in (tim_bmp s) aid). destruct (aid_in (tim_bmp s) aid) eqn:Et; [|by exists s].
  destruct (sh_bmp _ _ Hs) as [Hb Hbl].
  assert (aid < 8 * zlen (tim_bmp s)) as Hlt.
  { destruct (decide (aid < 8 * zlen (tim_bmp s))); [done|]. unfold aid_in in Et. rewrite octet_out, Z.bits_0 in Et; [done|]. apply Z.div_le_lower_bound; lia. }
  destruct (bmp_clear_spec (tim_bmp s) aid) as (m & Em & Hm & Hmb & _); [lia|].
  assert (shape (set_tim m s) es) as Hs1.
  { destruct Hs as [S1 S2 (t & S3 & S4 & S5) S6 S7]. split; cbn [ies ielen tim_bmp set_tim]; try done; [exists t; split_and!; [done|done|lia]|]. split; [by apply Hmb|lia]. }
  destruct (shape_tim _ _ Hs1) as (b & n & es' & Eu & Hs2 & Hoth). exists (set_bcn b n (set_tim m s)). split; [done|]. split.
  { bind_step Em. unfold update_beacon. rewrite (co_up _ Hcfg), (co_alloc _ Hcfg). cbn [negb Z.eqb Pos.eqb _TIM_IE_]. by bind_step Eu. }
  split; [|done]. split; [done|done|done|]. exists es'. split; [done|]. split.
  - exists v, r. by rewrite Hoth.
  - intros Ho. destruct (Hh Ho) as (b0 & b1 & r1 & Hb61). exists b0, b1, r1. by rewrite Hoth.
Qed.

Lemma leave_int40_ok c i s : pre_ok c s -> (i < 32)%nat -> exists s', leave_int40 i s = Ret s' /\ pre_ok c s' /\ kept [Int40] i s s'.
Proof.
  intros H Hi. pose proof H as [K1 K2 _ _]. destruct (lookup_lt_is_Some_2 (stas s) i) as [fl Hfl]; [by rewrite K2|].
  destruct (change_keeps c Int40 i false s H Hi) as (u & s' & E & H' & [K _]%set_kept & _); [done|]. exists s'. split; [|done].
  unfold leave_int40. unfold change in E. rewrite (proj2 (rd_Ret _ _ fl)) in * by (split; [lia|by rewrite Nat2Z.id]). simp_res in E. simp_res.
  destruct (fl Int40) eqn:Ef; cbn [eqb] in E; [|by injection E as _ <-]. apply bind_inv in E as (l & El & E). bind_step El. injection E as _ <-.
  assert (0 < cnt s Int40) as Hp.
  { rewrite (K1 Int40). pose proof (number_insert (fun f => f Int40) (stas s) i fl (fun _ => false) Hfl) as Hn. cbn in Hn. rewrite Ef in Hn. pose proof (number_nonneg (fun f : feat -> bool => f Int40) (<[i := fun _ => false]> (stas s))). cbn in *. lia. }
  rewrite (proj2 (Z.ltb_lt _ _) Hp). done.
Qed.

Lemma bss_leave_ok c i aid s : cfg_ok c -> bss_ok c s -> (i < 32)%nat -> 0 <= aid ->
  exists u s', bss_cap_update_on_sta_leave c i aid s = Ret (u, s') /\ bss_ok c s' /\ (forall j g, j <> i -> flag s' j g = flag s j g) /\ (forall f, f ∈ tracked -> flag s' i f = false).
Proof.
  intros Hcfg [H _] Hi Ha. unfold bss_cap_update_on_sta_leave. destruct (tim_step c aid s Hcfg H Ha) as (t & s0 & E0 & E0' & H0 & F0). bind_step E0. bind_step E0'.
  destruct (change_keeps c NoShortPreamble i false s0 H0 Hi) as (u1 & s1 & E1 & H1 & [K1 F1]%set_kept & _); [done|]. bind_step E1.
  destruct (erp_step c i false s1 Hcfg H1 Hi) as (r & s2 & E2 & E2' & H2 & [K2 F2]%set_kept & _). bind_step E2. bind_step E2'.
  destruct (change_keeps c NoShortSlot i false s2 H2 Hi) as (u3 & s3 & E3 & H3 & [K3 F3]%set_kept & _); [done|]. bind_step E3.
  destruct (change_keeps c NoGf i false s3 H3 Hi) as (u4 & s4 & E4 & H4 & [K4 F4]%set_kept & _); [done|]. bind_step E4.
  destruct (change_keeps c NoHt i false s4 H4 Hi) as (u5 & s5 & E5 & H5 & [K5 F5]%set_kept & _); [done|]. bind_step E5.
  destruct (change_keeps c Ht20 i false s5 H5 Hi) as (u6 & s6 & E6 & H6 & [K6 F6]%set_kept & _); [done|]. bind_step E6.
  destruct (leave_int40_ok c i s6 H6 Hi) as (s7 & E7 & H7 & K7). bind_step E7. destruct (ht_update_ok c s7 Hcfg H7) as (u8 & s8 & E8 & H8 & F8). bind_step E8.
  match goal with |- context [if ?b then update_beacon c 0xFF true s8 else _] => destruct (tx_if_ok c b s8 Hcfg H8) as (s9 & E9 & H9 & F9) end.
  bind_step E9. eexists _, s9. split; [done|]. split; [done|]. split.
  - intros j g Hj. rewrite F9, F8, K7, K6, K5, K4, K3, K2, K1, F0; [done|set_solver..].
  - intros f Hf. unfold tracked in Hf. rewrite F9, F8. rewrite !elem_of_cons, elem_of_nil in Hf.
    destruct Hf as [->|[->|[->|[->|[->|[]]]]]]; [by rewrite K7, K6, K5, K4, K3, K2 by set_solver|by rewrite K7, K6, K5, K4, K3 by set_solver|by rewrite K7, K6, K5, K4 by set_solver|by rewrite K7, K6 by set_solver|by rewrite K7 by set_solver].
Qed.

(** ** Coexistence frames *)

Lemma coex_ok c i body len s : cfg_ok c -> bss_ok c s -> (i < 32)%nat -> 7 <= zlen body ->
  exists s', rtw_process_public_act_bsscoex c i body len s = Ret s' /\ bss_ok c s' /\ kept [Int40] i s s'.
Proof.
  intros Hcfg H Hi Hl. unfold rtw_process_public_act_bsscoex.
  assert (forall k, 0 <= k < 7 -> exists x, rd body k = Ret x) as Hrd by (intros k Hk; destruct (rd_in body k) as (x & E & _); [lia|by exists x]).
  destruct (Hrd 0) as [x0 E0]; [lia|]. bind_step E0. destruct (Hrd 1) as [x1 E1]; [lia|]. bind_step E1.
  assert (forall w r s, bss_ok c s -> bss_ok c (set_coex w r s)) as Hco.
  { intros w r s1 [Hp Hm]. split; [|exact Hm]. apply (pre_data c s1); [done|by split_and!|]. intros es Hs. by eapply shape_data. }
  match goal with |- context [mbind _ ?m] => assert (exists u s1, m = Ret (u, s1) /\ bss_ok c s1 /\ kept [Int40] i s s1) as (u & s1 & E2 & H1 & K1) end.
  { destruct (0 <? len); [|by exists false, s]. destruct (Hrd 2) as [x2 E2]; [lia|]. bind_step E2. destruct (Hrd 3) as [x3 E3]; [lia|].
    destruct (x2 =? 72); [bind_step E3|simp_res; by exists false, s]. destruct (0 <? x3); cbn [andb]; [|by exists false, s].
    destruct (Hrd 4) as [x4 E4]; [lia|]. bind_step E4. destruct (has x4 2); [|destruct (has x4 4)].
    - destruct (ok_change c Int40 i true s H Hi) as (u & s1 & E & H1 & K & _); [set_solver|]. by exists u, s1.
    - eexists _, _. split; [done|]. split; [by apply Hco|by intros j g _].
    - by exists false, s. }
  bind_step E2.
  match goal with |- context [mbind _ ?m] => assert (exists u' s2, m = Ret (u', s2) /\ bss_ok c s2 /\ kept [Int40] i s s2) as (u' & s2 & E3 & H2 & K2) end.
  { destruct (8 <? len); [|by exists u, s1]. destruct (Hrd 5) as [x5 E5]; [lia|]. bind_step E5. destruct (Hrd 6) as [x6 E6]; [lia|].
    destruct (x5 =? 73); [bind_step E6|simp_res; by exists u, s1]. destruct (0 <? x6); cbn [andb]; [|by exists u, s1]. eexists _, _. split; [done|]. split; [by apply Hco|exact K1]. }
  bind_step E3. destruct u'; [|by exists s2]. destruct H2 as [Hp Hm]. pose proof Hp as [C1 C2 C3 (es & Hs & (v & r & Hv & Hvl) & Hh)].
  unfold update_beacon. rewrite (co_up _ Hcfg). cbn [negb Z.eqb Pos.eqb _HT_ADD_INFO_IE_ _ERPINFO_IE_ _TIM_IE_]. destruct (ht_option c) eqn:Ho.
  2: { unfold update_bcn_htinfo_ie. rewrite Ho. simp_res. exists (tx_beacon s2). split; [done|]. split; [by apply ok_tx|exact K2]. }
  destruct (Hh Ho) as (b0 & b1 & r1 & Hb). destruct (ht_info_update c s2 es b0 b1 _ _ r1 Hs Ho (co_ht _ Hcfg Ho) Hb) as (s3 & es3 & b1' & E & Hs3 & Hb3 & Hoth & D1 & D2 & D3 & D4).
  bind_step E. exists (tx_beacon s3). split; [done|]. split; [apply ok_tx; split|].
  - split; [intros f; rewrite D1, D2; apply C1|by rewrite D2|by rewrite D4|]. exists es3. split; [done|]. split; [exists v, r; rewrite Hoth by done; by rewrite D1|].
    intros _. exists b0, b1', r1. by rewrite D3.
  - intros Hx. specialize (Hm Hx). unfold op_mode in *. by rewrite D1, D3.
  - intros j g Hn. unfold flag. cbn [stas tx_beacon]. rewrite D2. by apply K2.
Qed.

(** ** Runs *)

Inductive bss_op := BJoin (i : nat) (q : caps) | BLeave (i : nat) (aid : Z) | BCoex (i : nat) (body : list Z) (len : Z).
Definition op_ok (o : bss_op) : Prop :=
  match o with BJoin i _ => (i < 32)%nat | BLeave i aid => (i < 32)%nat /\ 0 <= aid | BCoex i body _ => (i < 32)%nat /\ 7 <= zlen body end.

Definition bss_step (c : bss_cfg) (o : bss_op) (s : bss) : res bss :=
  match o with
  | BJoin i q => bss_cap_update_on_sta_join c i q s
  | BLeave i aid => '(_, s) ← bss_cap_update_on_sta_leave c i aid s; Ret s
  | BCoex i body len => rtw_process_public_act_bsscoex c i body len s
  end.
Fixpoint bss_run (c : bss_cfg) (l : list bss_op) (s : bss) : res bss :=
  match l with [] => Ret s | o :: l => s ← bss_step c o s; bss_run c l s end.

(** The specification: what each station said each time it associated since it last
    left, the last time first; nothing for a station that is not associated. *)
Definition history := list caps.
Definition sp_step (o : bss_op) (sp : list history) : list history :=
  match o with BJoin i q => alter (cons q) i sp | BLeave i _ => <[i := []]> sp | BCoex _ _ _ => sp end.
Definition sp_run (l : list bss_op) (sp : list history) : list history := fold_left (fun sp o => sp_step o sp) l sp.

(** What a station lacks is what it said last; but it counts as limited to 20 MHz if it
    ever said so. *)
Definition sp_lacks (c : bss_cfg) (f : feat) (h : history) : bool :=
  match f with
  | Ht20 => existsb (fun q => lacks c q Ht20) h
  | _ => match h with q :: _ => lacks c q f | [] => false end
  end.

Definition agrees (c : bss_cfg) (s : bss) (sp : list history) : Prop :=
  length sp = 32%nat /\ forall i o f, sp !! i = Some o -> f ∈ tracked -> flag s i f = sp_lacks c f o.

Lemma sp_lacks_joined c q f h old : f ∈ tracked -> old = sp_lacks c f h -> flag_joined c q f old = sp_lacks c f (q :: h).
Proof. intros _ ->. destruct f; try done. cbn [flag_joined sp_lacks existsb]. apply orb_comm. Qed.

Lemma agrees_step c o s sp : cfg_ok c -> bss_ok c s -> agrees c s sp -> op_ok o -> exists s', bss_step c o s = Ret s' /\ bss_ok c s' /\ agrees c s' (sp_step o sp).
Proof.
  intros Hcfg H [Hl Ha] Ho.
  assert (forall s' i o, (i < 32)%nat -> (forall j g, j <> i -> flag s' j g = flag s j g) -> (forall f, f ∈ tracked -> flag s' i f = sp_lacks c f o) -> agrees c s' (<[i := o]> sp)) as Hins.
  { intros s' i o' Hi Hoth Hf. split; [by rewrite length_insert|]. intros j p f Hj Ht. destruct (decide (j = i)) as [->|Hn].
    - rewrite list_lookup_insert_eq in Hj by lia. injection Hj as <-. by apply Hf.
    - rewrite list_lookup_insert_ne in Hj by done. rewrite Hoth by done. by apply Ha. }
  destruct o as [i q|i aid|i body len]; cbn [bss_step sp_step op_ok] in *.
  - destruct (join_ok c i q s Hcfg H Ho) as (s' & E & H' & Hoth & Hf).
    { intros Hno. destruct (lookup_lt_is_Some_2 sp i) as [p Hp]; [lia|]. rewrite (Ha i p NoHt Hp) by (unfold tracked; set_solver). destruct p; [done|]. cbn. by rewrite Hno. }
    exists s'. split_and!; try done. destruct (lookup_lt_is_Some_2 sp i) as [p Hp]; [lia|].
    assert (alter (cons q) i sp = <[i := q :: p]> sp) as -> by (rewrite list_insert_alter; apply list_alter_ext; [|done]; intros x Hx; rewrite Hp in Hx; by injection Hx as ->).
    apply Hins; [done|done|]. intros f Ht. rewrite Hf by done. apply sp_lacks_joined; [done|]. by apply Ha.
  - destruct Ho as [Hi Haid]. destruct (bss_leave_ok c i aid s Hcfg H Hi Haid) as (u & s' & E & H' & Hoth & Hf). bind_step E. exists s'. split_and!; try done. apply Hins; [done|done|]. intros f Ht. rewrite Hf by done. by destruct f.
  - destruct Ho as [Hi Hb]. destruct (coex_ok c i body len s Hcfg H Hi Hb) as (s' & E & H' & K). exists s'. split_and!; try done. split; [done|].
    intros j p f Hj Ht. rewrite K; [by apply Ha|]. unfold tracked in Ht. set_solver.
Qed.

Lemma run_agrees c l : cfg_ok c -> Forall op_ok l -> forall s sp, bss_ok c s -> agrees c s sp -> exists s', bss_run c l s = Ret s' /\ bss_ok c s' /\ agrees c s' (sp_run l sp).
Proof.
  intros Hcfg. induction 1 as [|o l Ho _ IH]; intros s sp H Ha; [by exists s|]. destruct (agrees_step c o s sp Hcfg H Ha Ho) as (s1 & E & H1 & Ha1).
  destruct (IH s1 _ H1 Ha1) as (s' & E' & H' & Ha'). exists s'. cbn. bind_step E. done.
Qed.

(** Two lists with the same answers have the same number of them. *)
Lemma number_ext {A B} (P : A -> bool) (Q : B -> bool) l l' : length l = length l' -> (forall i x y, l !! i = Some x -> l' !! i = Some y -> P x = Q y) -> number P l = number Q l'.
Proof.
  revert l'. induction l as [|x l IH]; intros [|y l'] Hl H; try done. unfold number in *. cbn [List.filter]. rewrite (H 0%nat x y) by done.
  assert (Z.of_nat (length (List.filter P l)) = Z.of_nat (length (List.filter Q l'))) as E by (apply IH; [by injection Hl|intros i; apply (H (S i))]). destruct (Q y); cbn [length]; lia.
Qed.

Lemma agrees_count c s sp f : bss_ok c s -> agrees c s sp -> f ∈ tracked -> cnt s f = number (sp_lacks c f) sp.
Proof.
  intros [[K1 K2 _ _] _] [Hl Ha] Hf. rewrite (K1 f). apply number_ext; [by rewrite K2|]. intros i fl o Hi Ho. rewrite <- (Ha i o f Ho Hf). unfold flag. by rewrite Hi.
Qed.

(** C18: The counters and the beacon of an access point follow its stations.  After any
    sequence of stations joining (again), leaving and sending coexistence frames of at
    least 7 octets behind the header, the numbers of stations without short preamble,
    ERP, short slot time and HT are those of the stations that are associated, as they
    said when they joined last, and the number of stations limited to 20 MHz is that of
    the stations that said so at least once since they last left.  The ERP element of
    the beacon says that stations without ERP are present and asks for protection exactly
    when one is associated.  The HT operation element holds a mode whose protection field
    is 3 when a station without HT is associated, else 2 in a 40 MHz network when an
    associated station has been limited to 20 MHz since it last left (also when it
    associated again with 40 MHz), else 1 when other networks have stations without HT,
    else 0. *)
Theorem beacon_follows_stations c l s sp : cfg_ok c -> Forall op_ok l -> bss_ok c s -> agrees c s sp ->
  exists s', bss_run c l s = Ret s' /\
    (forall f, f ∈ tracked -> cnt s' f = number (sp_lacks c f) (sp_run l sp)) /\
    exists es, shape s' es /\
      (exists v r, body_of _ERPINFO_IE_ es = Some (v :: r) /\ Z.land v 3 = if existsb (sp_lacks c NonErp) (sp_run l sp) then 3 else 0) /\
      (ht_option c = true -> exists m b0 b1 r, body_of _HT_ADD_INFO_IE_ es = Some (b0 :: b1 :: le16 m ++ r) /\
        Z.land m 3 = if existsb (sp_lacks c NoHt) (sp_run l sp) then 3
                     else if has (ap_cap_info c) IEEE80211_HT_CAP_SUP_WIDTH && existsb (sp_lacks c Ht20) (sp_run l sp) then 2 else if olbc_ht c then 1 else 0).
Proof.
  intros Hcfg Hl H Ha. destruct (run_agrees c l Hcfg Hl s sp H Ha) as (s' & E & H' & Ha'). exists s'. split; [done|].
  assert (forall f, f ∈ tracked -> cnt s' f = number (sp_lacks c f) (sp_run l sp)) as Hc by (intros f Hf; by apply agrees_count).
  split; [done|].
  assert (forall f (sp : list history), existsb (sp_lacks c f) sp = (0 <? number (sp_lacks c f) sp)) as Hex.
  { intros f sp'. unfold number. induction sp' as [|o sp' IH]; [done|]. cbn [existsb List.filter]. destruct (sp_lacks c f o); [cbn [orb length]; symmetry; apply Z.ltb_lt; lia|exact IH]. }
  destruct H' as [[K1 _ _ (es & Hs & (v & r & Hv & Hvl) & Hh)] Hm]. exists es. split; [done|]. split.
  - exists v, r. split; [done|]. by rewrite Hvl, Hex, (Hc NonErp) by (unfold tracked; set_solver).
  - intros Ho. destruct (Hh Ho) as (b0 & b1 & r1 & Hb). destruct (Hm Ho) as [Hm3 _]. exists (ht_op_mode s'), b0, b1, r1. split; [done|]. rewrite Hm3, (Hex NoHt), <- (Hc NoHt) by (unfold tracked; set_solver).
    rewrite Hex, <- (Hc Ht20) by (unfold tracked; set_solver). unfold op_mode. pose proof (cnt_nonneg s' NoHt K1). pose proof (cnt_nonneg s' Ht20 K1).
    assert (negb (cnt s' Ht20 =? 0) = (0 <? cnt s' Ht20)) as -> by (destruct (Z.eqb_spec (cnt s' Ht20) 0) as [->|]; [done|symmetry; apply Z.ltb_lt; lia]).
    destruct (Z.eqb_spec (cnt s' NoHt) 0) as [->|Hn]; cbn [negb]; [done|]. by rewrite (proj2 (Z.ltb_lt _ _)) by lia.
Qed.

(** ** A concrete network *)

Definition sample_bss_cfg : bss_cfg := BssCfg true 11 true true 1 2 6 1 1 false false true.
Definition sample_elems : list ie :=
  [(_SSID_IE_, [110; 101; 116]); (_SUPPORTEDRATES_IE_, [130; 132; 139; 150]); (_TIM_IE_, [0; 1; 0; 0]); (_ERPINFO_IE_, [0]); (_HT_ADD_INFO_IE_, 6 :: 5 :: 0 :: 0 :: replicate 18 0)].
Definition sample_bss : bss :=
  Bss (replicate 12 0 ++ enc_ies sample_elems ++ replicate 100 0) (12 + zlen (enc_ies sample_elems)) [0; 0; 0; 0; 0] (fun _ => 0) (replicate 32 (fun _ => false)) 0 false false false true 0 0.
Definition legacy : caps := Caps 0x80000000 0 0.
Definition ht40 : caps := Caps 0x880 0x400 0x12.
Definition ht20 : caps := Caps 0x880 0x400 0x10.

Lemma sample_bss_cfg_ok : cfg_ok sample_bss_cfg.
Proof. by split. Qed.

Lemma sample_bss_ok : bss_ok sample_bss_cfg sample_bss.
Proof.
  split; [split; try done|intros _; by split_and!].
  exists sample_elems. split; [split|split].
  - by exists (replicate 12 0), (replicate 100 0).
  - done.
  - exists [0; 1; 0; 0]. split_and!; [done|done|by_eval].
  - by_eval.
  - split; by_eval.
  - by exists 0, [].
  - intros _. by exists 6, 5, (replicate 18 0).
Qed.

Lemma sample_agrees : agrees sample_bss_cfg sample_bss (replicate 32 []).
Proof. split; [done|]. intros i o f [-> Hi]%lookup_replicate_1 _. unfold flag. cbn [stas sample_bss]. rewrite lookup_replicate_2 by done. by destruct f. Qed.

Lemma beacon_follows_stations_witness : let l := [BJoin 3 legacy; BJoin 4 ht20; BCoex 4 [4; 0; 72; 1; 2; 0; 0] 5; BJoin 4 ht40; BLeave 3 1] in
  exists s', bss_run sample_bss_cfg l sample_bss = Ret s' /\
    (forall f, f ∈ tracked -> cnt s' f = number (sp_lacks sample_bss_cfg f) (sp_run l (replicate 32 []))) /\
    exists es, shape s' es /\
      (exists v r, body_of _ERPINFO_IE_ es = Some (v :: r) /\ Z.land v 3 = if existsb (sp_lacks sample_bss_cfg NonErp) (sp_run l (replicate 32 [])) then 3 else 0) /\
      (ht_option sample_bss_cfg = true -> exists m b0 b1 r, body_of _HT_ADD_INFO_IE_ es = Some (b0 :: b1 :: le16 m ++ r) /\
        Z.land m 3 = if existsb (sp_lacks sample_bss_cfg NoHt) (sp_run l (replicate 32 [])) then 3
                     else if has (ap_cap_info sample_bss_cfg) IEEE80211_HT_CAP_SUP_WIDTH && existsb (sp_lacks sample_bss_cfg Ht20) (sp_run l (replicate 32 [])) then 2 else if olbc_ht sample_bss_cfg then 1 else 0).
Proof.
  cbn zeta. apply (beacon_follows_stations sample_bss_cfg _ sample_bss (replicate 32 []) sample_bss_cfg_ok); [|exact sample_bss_ok|exact sample_agrees].
  repeat (apply Forall_cons; split; [cbn; try split; (lia || by_eval)|]). apply Forall_nil_2.
Defined.

(** The ERP octet of the beacon, and the mode. *)
Definition view (r : res bss) : option (Z * Z * Z) :=
  match r with Ret s => match rd (ies s) 31 with Ret v => Some (v, cnt s NoShortPreamble, ht_op_mode s) | _ => None end | _ => None end.

(** A station without short preambles but with ERP rates is counted; the beacon does
    not tell the others, since only a change of the stations without ERP updates the
    element. *)
Theorem barker_stale : view (bss_run sample_bss_cfg [BJoin 0 (Caps 0x800 0x400 0x12)] sample_bss) = Some (0, 1, 0).
Proof. vm_compute. reflexivity. Qed.

(** A station that associates again with 40 MHz is still counted as one of 20 MHz: the
    network stays in mode 2. *)
Theorem ht20_sticky : view (bss_run sample_bss_cfg [BJoin 0 ht40] sample_bss) = Some (0, 0, 0) /\
  view (bss_run sample_bss_cfg [BJoin 0 ht20; BJoin 0 ht40] sample_bss) = Some (0, 0, 2).
Proof. split; vm_compute; reflexivity. Qed.

(** When the last station of 20 MHz leaves, the HT element of the beacon changes and no
    beacon is sent; when it joins, one is. *)
Theorem leave_not_sent : let sent r := match r with Ret s => Some (bcn_tx s, ht_op_mode s) | _ => None end in
  sent (bss_run sample_bss_cfg [BJoin 0 ht20] sample_bss) = Some (1%nat, 2) /\
  sent (bss_run sample_bss_cfg [BJoin 0 ht20; BLeave 0 1] sample_bss) = Some (1%nat, 0).
Proof. split; vm_compute; reflexivity. Qed.

(** A coexistence frame that ends behind its action code is read beyond its end. *)
Theorem coex_overread c i s : rtw_process_public_act_bsscoex c i [4; 0] 2 s = Oob.
Proof. reflexivity. Qed.
End Protect.
